(* ===== verification/_CoqProject ===== *)
-Q . S2P
Prelude.v
Bytes.v
Riscv.v
Cstring.v
Kstate.v
Spinlock.v
Sched.v
SleepWake.v
Kalloc.v
Vm.v
VmSpec.v
VmUser.v
Uvm.v
Copy.v
CopySpec.v
Uart.v
UartSpec.v
Printf.v
PrintSpec.v
Console.v
ConsoleSpec.v
Bio.v
BioSpec.v
Log.v
LogSpec.v
Fs.v
FsPure.v
Icache.v
FsTx.v
Bitmap.v
FsRead.v
FsWrite.v
FsTrunc.v
Iput.v
Pipe.v
PipeSpec.v
File.v
Proc.v
Sysargs.v
Exec.v
Sysfile.v
FdFrame.v
FileSpec.v
Syscall.v
SyscallSpec.v
Machine.v
DiskSpec.v
Trap.v
Unix.v
Ulib.v
Grep.v
Utils.v
Stress.v
Umalloc.v
Sh.v
ShSpec.v
ShParse.v
MarkSweep.v
Practicals.v
Mkfs.v
MkfsSpec.v
MkfsImage.v
