(* ===== verification/Prelude.v ===== *)
(** * csklub-os: the xv6 kernel, its user programs and tools, verified

    The repository's programs are the xv6-riscv operating system in
    src/operating_system_engineering/labs (kernel/, user/ and mkfs/; paths below are relative to
    it), small C programs for a course on hardware and software in
    src/hardware_software_interface/Practicals, and first exercises with system calls in Introduction/Files.  This library translates the C code into Rocq definitions
    and proves what makes it correct.

    ** The programs

    The kernel boots ([start], [main]), gives each process an address space, switches between
    processes, and serves system calls.  Files go through several layers: system calls, open files and
    pipes, inodes and directories, the log, the buffer cache, the disk driver.  User programs see the
    kernel through the system calls of user/user.h.  mkfs runs on the host and writes the image
    the kernel boots with.

    ** How the code is modelled

    Kernel code is a state monad [K] (this file) over one record of the kernel's globals ([Kstate]):
    a function returns, panics, hits undefined behaviour, or stops in a context switch that carries
    its continuation ([Switch]).  Pointers into static arrays are indices, pointers to memory are
    addresses in a byte-addressed memory; page tables, the free list, user memory and on-disk
    structures are bytes, at the offsets the compiler gives them.  Integers are [Z] with their
    wrap-around written where it can happen.  Spin locks are used through the contract
    [lock_acquire]/[lock_release], and the lock code with all interleavings of the harts is
    shown to implement it.  User programs run in a monad [U] over the system calls of the class [Unix];
    what reading and writing promise is the class [Streams], what [sbrk] promises the class [Brk], what
    [fork] and [wait] promise the class [Procs], each with an instance.  The virtio block device is a
    parameter too, a class [VirtioBlk] of devices that serve every chain of descriptors laid out as the
    specification asks (flags, lengths, directions), with an instance that refuses all others.  The practicals run in the same
    monad over a hosted memory, with signed overflow as undefined behaviour.

    ** Files

    - Prelude: machine integers, the kernel monad and its loops, tactics and hint databases.
    - Bytes: little-endian numbers, slices, memory.  Riscv: constants and macros of kernel/riscv.h,
      memlayout.h, param.h.  Cstring: kernel/string.c.
    - Kstate: structures and globals of the kernel's headers.  Spinlock: kernel/spinlock.c.
      Sched: sched, sleep, wakeup, kill of kernel/proc.c and kernel/sleeplock.c.  SleepWake: sleep, yield
      and wakeup of kernel/proc.c statement by statement, under all interleavings of the harts.
    - Kalloc: kernel/kalloc.c.  Vm, VmSpec, VmUser, Uvm: kernel/vm.c (code, page tables as maps,
      copies, address space sizes).  Copy: either_copyin and either_copyout.  CopySpec:
      kernel and user memory as one kind of address space, for the callers of Copy.
    - Uart, UartSpec: kernel/uart.c.  Printf, PrintSpec: kernel/printf.c.  Console, ConsoleSpec:
      kernel/console.c.
    - Bio, BioSpec: kernel/bio.c.  Log, LogSpec: kernel/log.c.  Fs, FsPure, Icache, FsTx, Bitmap,
      FsRead, FsWrite, FsTrunc, Iput: kernel/fs.c (code, pure parts, inode table, the interface to log and cache,
      bitmap, reading, writing with allocation, truncating, reference counts
      with iput and the deletion in it).
    - Pipe, PipeSpec: kernel/pipe.c.  File, FdFrame, FileSpec: kernel/file.c (code,
      what closing leaves alone, reference counts).  Proc: the process table,
      fork, exit and wait of kernel/proc.c.  Sysargs, Syscall, SyscallSpec: kernel/syscall.c and sysproc.c.  Exec: kernel/exec.c.
      Sysfile: kernel/sysfile.c.
    - Machine, DiskSpec: control registers, kernel/plic.c, kernel/virtio_disk.c with
      the promise of the device.  Trap:
      kernel/trap.c, start.c, main.c.
    - Unix: the system calls of user/user.h.  Ulib: user/ulib.c, printf.c.  Grep: user/grep.c.
      Utils: user/cat.c, wc.c, echo.c, kill.c, ln.c, mkdir.c, rm.c, ls.c, zombie.c, init.c.  Stress:
      user/grind.c, forktest.c, stressfs.c and exercises 1, 4, 5, 7, 8, 9 of Introduction/Files.  Umalloc:
      user/umalloc.c.  Sh, ShSpec, ShParse: user/sh.c.
    - MarkSweep: Practicals/memory_allocation/c/mark_sweep.c.  Practicals: card_encoding.c, code.c, stack_demo.c,
      the programs of x86_asm, pointers_demo and malloc.c of Practicals.  Mkfs, MkfsSpec, MkfsImage: mkfs/mkfs.c.

    ** What the theorems show

    - Storage: the log makes a transaction atomic under a crash at any disk write; the buffer cache is
      coherent; the disk driver, on any device that keeps the virtio promise, implements the synchronous
      transfer the cache is written against; block allocation is exact and undone by
      freeing; reading a file delivers its bytes to kernel or user memory, as far as the destination
      can be written; looking up a name returns the first entry;
      writing stores exactly the bytes given, from kernel or user memory, allocates blocks only for the file and is read back; truncating
      frees exactly the file's blocks;
      inode reference counts are exact, also when iput deletes the file, and so are those of open files, also
      at the last close; mkfs writes the file system the kernel's
      definitions read.
    - Memory: the page allocator is a list of free pages; mapping changes exactly the
      requested pages; copies to and from user space touch exactly the accessible bytes;
      growing an address space is all or nothing.  The user allocator hands out disjoint
      blocks and takes them back exactly; the collector frees exactly what the roots do not reach.
    - Concurrency: mutual exclusion of spin locks and refinement of the lock contract; no
      lost wakeup when the statements of sleepers, wakers and the scheduler interleave in any way; kill.
    - Devices and formatting: the serial port sends in order, also when writers wait for room, and drains; the console is a line
      editor; printed numbers read back or overrun the buffer exactly when they are too long.
    - Interfaces: each number reaches its system call and any other is reported, pipes as queues, on-disk inodes, path elements.
    - User programs: the shell's parser is total, safe and accepts its grammar; grep's matcher
      decides its patterns and grep prints the lines that match; wc counts; grind's random numbers are
      those of Park and Miller; forktest passes exactly where the process table fills up.
    - Practicals: exponentiation by squaring is exact, or overflows in the square it does not need; the answers
      of the card comparisons, the exchange and the case distinction (lemmas).

    ** Loops and fuel

    Structural loops are structural.  A loop whose bound is not structural is [loop] or [uloop] with fuel,
    and the theorems state that the result is reached: [copy_fuel], [io_fuel], [dir_fuel] and
    [freerange_fuel] are the number of pages, blocks, entries or pages in the range with
    the first and last partial one; [digits_fuel] is 64, the digits of a 64-bit number in base
    two; [parse_fuel] is four calls for each character of a line.  [sleep_fuel] is the number of times a
    thread is resumed and finds its condition false before the model stops; the theorems are
    about threads that find it true within it.  Programs that read a descriptor have fuel as
    a parameter, and their theorems ask for more than the bytes pending.  The collector's [bound] is
    at least the number of objects.

    The theorems on writing and truncating ask for room in the log's header: six entries for each block that is
    written (bitmap, table, bitmap and data block of an allocation, data, inode), as [filewrite] reckons,
    and, for truncating, a bitmap of one block, which mkfs's 2000 blocks have.
    Block numbers are below 2^31, since the driver's 32-bit sector number is twice the block number; the theorems on
    writing ask for a source that can be read in full.

    ** Not modelled

    - entry.S, swtch.S, trampoline.S, kernelvec.S, initcode.S: register save and restore; their effect
      is part of the model of proc.c and trap.c.
    - user/usertests.c: a program of test cases, each a sequence of system calls whose outcome depends on the whole
      running system; the calls it makes are modelled in the kernel files.
    - Exercises 2, 3, 6 and echo of Introduction/Files: syntax errors, or a string for a mode.
    - show_bytes.c, 01_basic_moves.c and 07_address_modes.c of the practicals: they print the bytes of
      floating-point values, single moves and constants.  Assembly of the practicals.
    - The theorems about kernel code other than spin locks (Spinlock) and sleep and wakeup (SleepWake) run one thread between context switches; what other
      threads do meanwhile is an assumption on the state at the switch.  The allocation of the
      shell's command nodes succeeds.  The host's writes to mkfs's image succeed. *)


From Stdlib Require Import ZArith Lia.
From stdpp Require Import base list gmap strings numbers option.

Open Scope Z_scope.

(** ** Machine integers *)

(** Conversion to an unsigned [w]-bit integer. *)
Definition wrapU (w x : Z) : Z := x mod 2 ^ w.

(** Conversion to a signed (two's complement) [w]-bit integer. *)
Definition wrapS (w x : Z) : Z :=
  (x + 2 ^ (w - 1)) mod 2 ^ w - 2 ^ (w - 1).

Definition u8 (x : Z) : Z := wrapU 8 x.
Definition u16 (x : Z) : Z := wrapU 16 x.
Definition u32 (x : Z) : Z := wrapU 32 x.
Definition u64 (x : Z) : Z := wrapU 64 x.
Definition s8 (x : Z) : Z := wrapS 8 x.
Definition s16 (x : Z) : Z := wrapS 16 x.
Definition s32 (x : Z) : Z := wrapS 32 x.
Definition s64 (x : Z) : Z := wrapS 64 x.

Lemma wrapU_small w x : 0 <= x < 2 ^ w -> wrapU w x = x.
Proof. intros. by apply Z.mod_small. Qed.

Lemma wrapU_range w x : 0 <= w -> 0 <= wrapU w x < 2 ^ w.
Proof. intros. apply Z.mod_pos_bound. lia. Qed.

Lemma wrapS_small w x : - 2 ^ (w - 1) <= x < 2 ^ (w - 1) -> 0 < w -> wrapS w x = x.
Proof.
  intros Hx Hw. unfold wrapS.
  assert (2 ^ w = 2 * 2 ^ (w - 1)) as E.
  { rewrite <- Z.pow_succ_r by lia. f_equal; lia. }
  rewrite Z.mod_small; lia.
Qed.

(** [u32 x] and friends disappear on values that are already in range. *)
Lemma u8_small x : 0 <= x < 256 -> u8 x = x.
Proof. intros. by apply wrapU_small. Qed.
Lemma u16_small x : 0 <= x < 65536 -> u16 x = x.
Proof. intros. by apply wrapU_small. Qed.
Lemma u32_small x : 0 <= x < 4294967296 -> u32 x = x.
Proof. intros. by apply wrapU_small. Qed.
Lemma u64_small x : 0 <= x < 18446744073709551616 -> u64 x = x.
Proof. intros. by apply wrapU_small. Qed.
Lemma s32_small x : -2147483648 <= x < 2147483648 -> s32 x = x.
Proof. intros. apply wrapS_small; [|lia]. exact H. Qed.
Lemma s16_small x : -32768 <= x < 32768 -> s16 x = x.
Proof. intros. apply wrapS_small; [|lia]. exact H. Qed.

Lemma u8_range x : 0 <= u8 x < 256.
Proof. by apply wrapU_range. Qed.
Lemma u16_range x : 0 <= u16 x < 65536.
Proof. by apply wrapU_range. Qed.
Lemma u32_range x : 0 <= u32 x < 4294967296.
Proof. by apply wrapU_range. Qed.
Lemma u64_range x : 0 <= u64 x < 18446744073709551616.
Proof. by apply wrapU_range. Qed.

(** ** Tactics *)

(** Linear arithmetic over [/] and [mod]. *)
Ltac zlia := Z.div_mod_to_equations; lia.

(** Case analysis on the comparison that drives the next conditional. *)
Ltac zcase :=
  match goal with
  | |- context [Z.ltb ?a ?b] => destruct (Z.ltb_spec a b)
  | |- context [Z.leb ?a ?b] => destruct (Z.leb_spec a b)
  | |- context [Z.gtb ?a ?b] => rewrite (Z.gtb_ltb a b); destruct (Z.ltb_spec b a)
  | |- context [Z.geb ?a ?b] => rewrite (Z.geb_leb a b); destruct (Z.leb_spec b a)
  | |- context [Z.eqb ?a ?b] => destruct (Z.eqb_spec a b)
  | |- context [Nat.eqb ?a ?b] => destruct (Nat.eqb_spec a b)
  | |- context [Nat.ltb ?a ?b] => destruct (Nat.ltb_spec a b)
  | |- context [Nat.leb ?a ?b] => destruct (Nat.leb_spec a b)
  end.

Ltac zcases := repeat (zcase; try lia; simpl).

(** ** The kernel monad

    A kernel thread is a function from the machine state to an [outcome]: it
    returns, it fails ([panic], a busy wait that can never end, an access
    outside an object, a loop that used up its fuel), or it gives up the CPU in
    [sched()]: then the state is the one handed to the scheduler and the
    continuation is what the thread does when it is switched to again. *)

Inductive failure : Type :=
| Panicked (msg : string)      (** [panic(msg)] *)
| Spinning                     (** busy waiting for a lock or a device *)
| Undefined (what : string)    (** access outside an object, null dereference *)
| NoFuel.                      (** a bounded loop ran out of fuel *)

Inductive outcome (S A : Type) : Type :=
| Ret (a : A) (s : S)
| Fail (f : failure)
| Switch (s : S) (k : S -> outcome S A).
Arguments Ret {S A} a s.
Arguments Fail {S A} f.
Arguments Switch {S A} s k.

Definition K (S A : Type) : Type := S -> outcome S A.

Fixpoint obind {S A B} (o : outcome S A) (f : A -> K S B) : outcome S B :=
  match o with
  | Ret a s => f a s
  | Fail e => Fail e
  | Switch s k => Switch s (fun s' => obind (k s') f)
  end.

Definition ret {S A} (a : A) : K S A := fun s => Ret a s.
Definition bind {S A B} (m : K S A) (f : A -> K S B) : K S B := fun s => obind (m s) f.
Definition fail {S A} (e : failure) : K S A := fun _ => Fail e.
Definition panic {S A} (msg : string) : K S A := fail (Panicked msg).
Definition gets {S A} (f : S -> A) : K S A := fun s => Ret (f s) s.
Definition modify {S} (f : S -> S) : K S unit := fun s => Ret tt (f s).

Declare Scope kernel_scope.
Delimit Scope kernel_scope with kernel.
Notation "x <- m ;; f" := (bind m (fun x => f))
  (at level 100, m at next level, right associativity) : kernel_scope.
Notation "m ;; f" := (bind m (fun _ => f))
  (at level 100, right associativity) : kernel_scope.
Open Scope kernel_scope.

Definition when {S} (b : bool) (m : K S unit) : K S unit :=
  if b then m else ret tt.

(** Unwrap an array access: out of range is undefined behaviour. *)
Definition the {S A} (what : string) (o : option A) : K S A :=
  match o with Some a => ret a | None => fail (Undefined what) end.

(** ** Loops *)

(** The general loop: the body maps the loop variables to new ones ([inl]) or
    leaves the loop with a value ([inr]). *)
Fixpoint loop {S X R} (fuel : nat) (body : X -> K S (X + R)) (x : X) : K S R :=
  match fuel with
  | O => fail NoFuel
  | Datatypes.S fuel' =>
      r <- body x ;;
      match r with
      | inl x' => loop fuel' body x'
      | inr v => ret v
      end
  end.

(** [for (i = i0; i < i0 + n; i++) body(i)] where the body may leave the loop
    with a value. *)
Fixpoint for_upto {S R} (n : nat) (i : nat) (body : nat -> K S (option R)) : K S (option R) :=
  match n with
  | O => ret None
  | Datatypes.S n' =>
      r <- body i ;;
      match r with
      | Some v => ret (Some v)
      | None => for_upto n' (Datatypes.S i) body
      end
  end.

(** [for (i = i0; i < i0 + n; i++) body(i)] without an exit. *)
Fixpoint for_each {S} (n : nat) (i : nat) (body : nat -> K S unit) : K S unit :=
  match n with
  | O => ret tt
  | Datatypes.S n' => body i ;; for_each n' (Datatypes.S i) body
  end.

(** ** Total correctness

    [wp m s Q]: run from [s], [m] returns (it does not fail and does not give
    up the CPU) and the result satisfies [Q]. *)
Definition wp {S A} (m : K S A) (s : S) (Q : A -> S -> Prop) : Prop :=
  exists a s', m s = Ret a s' /\ Q a s'.

(** Run the monad's primitives. *)
Ltac krun := unfold bind, ret, gets, modify, panic, fail, when, the; cbn [obind].
Ltac krun_in H := unfold bind, ret, gets, modify, panic, fail, when, the in H; cbn [obind] in H.

Section wp_rules.
Context {S : Type}.

Lemma wp_ret {A} (a : A) (s : S) Q : Q a s -> wp (ret a) s Q.
Proof. intros. by exists a, s. Qed.

Lemma wp_bind {A B} (m : K S A) (f : A -> K S B) s Q :
  wp m s (fun a s' => wp (f a) s' Q) -> wp (bind m f) s Q.
Proof.
  intros (a & s' & E & b & s'' & E' & HQ). exists b, s''.
  unfold bind. by rewrite E.
Qed.

Lemma wp_mono {A} (m : K S A) s (Q Q' : A -> S -> Prop) :
  wp m s Q -> (forall a s', Q a s' -> Q' a s') -> wp m s Q'.
Proof. intros (a & s' & E & HQ) HI. exists a, s'. auto. Qed.

Lemma wp_gets {A} (f : S -> A) s Q : Q (f s) s -> wp (gets f) s Q.
Proof. intros. by exists (f s), s. Qed.

Lemma wp_modify (f : S -> S) s Q : Q tt (f s) -> wp (modify f) s Q.
Proof. intros. by exists tt, (f s). Qed.

Lemma wp_the {A} what (o : option A) a (s : S) Q : o = Some a -> Q a s -> wp (the what o) s Q.
Proof. intros -> ?. by exists a, s. Qed.

(** A loop that runs body [n] times: the invariant [I i] holds before iteration [i]. *)
Lemma wp_for_each (I : nat -> S -> Prop) (body : nat -> K S unit) n i s Q :
  I i s ->
  (forall j s', (i <= j < i + n)%nat -> I j s' ->
     wp (body j) s' (fun _ s'' => I (Datatypes.S j) s'')) ->
  (forall s', I (i + n)%nat s' -> Q tt s') ->
  wp (for_each n i body) s Q.
Proof.
  revert i s. induction n as [|n IH]; intros i s HI Hb HQ; simpl.
  - apply wp_ret, HQ. by rewrite Nat.add_0_r.
  - apply wp_bind. eapply wp_mono; [apply Hb; [lia|done]|].
    intros [] s' HI'. apply IH; [done| |].
    + intros j s'' Hj. apply Hb. lia.
    + intros s'' ?. apply HQ. by replace (i + Datatypes.S n)%nat with (Datatypes.S i + n)%nat by lia.
Qed.

Lemma bind_ret_l {A B} (a : A) (f : A -> K S B) s : bind (ret a) f s = f a s.
Proof. done. Qed.

Lemma bind_run {A B} (m : K S A) (f : A -> K S B) s a s' :
  m s = Ret a s' -> bind m f s = f a s'.
Proof. intros E. unfold bind. by rewrite E. Qed.

Lemma bind_fail {A B} (m : K S A) (f : A -> K S B) s e :
  m s = Fail e -> bind m f s = Fail e.
Proof. intros E. unfold bind. by rewrite E. Qed.
End wp_rules.
