(* ===== verification/Bytes.v ===== *)
(** * Byte-level data

    Little-endian encodings of the kernel's integers (page-table entries, the
    free list's next pointers, on-disk inodes, directory entries and log
    headers are all read and written as bytes), array slices, and the
    byte-addressed memory the kernel's pointers range over. *)

From Stdlib Require Import ZArith Lia.
From stdpp Require Import base list gmap numbers option.
From S2P Require Import Prelude.

(** ** Little-endian integers *)

Fixpoint le_bytes (n : nat) (z : Z) : list Z :=
  match n with
  | O => []
  | S n' => z mod 256 :: le_bytes n' (z / 256)
  end.

Fixpoint le_val (l : list Z) : Z :=
  match l with
  | [] => 0
  | b :: l' => b + 256 * le_val l'
  end.

Definition byte (b : Z) : Prop := 0 <= b < 256.

Lemma length_le_bytes n z : length (le_bytes n z) = n.
Proof. revert z; induction n; intros; simpl; auto. Qed.

Lemma le_bytes_byte n z : Forall byte (le_bytes n z).
Proof.
  revert z; induction n; intros; simpl; constructor; auto.
  apply Z.mod_pos_bound; lia.
Qed.

Lemma le_val_le_bytes n z : le_val (le_bytes n z) = z mod 256 ^ Z.of_nat n.
Proof.
  revert z; induction n as [|n IH]; intros z.
  - by rewrite Z.mod_1_r.
  - simpl le_bytes. simpl le_val. rewrite IH.
    rewrite Nat2Z.inj_succ, Z.pow_succ_r by lia.
    rewrite (Z.rem_mul_r z 256 (256 ^ Z.of_nat n)) by lia. lia.
Qed.

Lemma le_val_small n z : 0 <= z < 256 ^ Z.of_nat n -> le_val (le_bytes n z) = z.
Proof. intros. rewrite le_val_le_bytes. by apply Z.mod_small. Qed.

Lemma le_bytes_le_val l : Forall byte l -> le_bytes (length l) (le_val l) = l.
Proof.
  induction 1 as [|b l Hb Hl IH]; simpl; [done|].
  unfold byte in Hb. f_equal; [zlia|].
  by replace ((b + 256 * le_val l) / 256) with (le_val l) by zlia.
Qed.

Lemma le_val_range l : Forall byte l -> 0 <= le_val l < 256 ^ Z.of_nat (length l).
Proof.
  induction 1 as [|b l Hb Hl IH]; simpl le_val; [simpl; lia|].
  unfold byte in Hb. simpl length. rewrite Nat2Z.inj_succ, Z.pow_succ_r by lia. lia.
Qed.

(** ** Slices: [l[off .. off+n)] read and written *)

Definition slice {A} (l : list A) (off n : nat) : list A := take n (drop off l).

Definition splice {A} (l : list A) (off : nat) (d : list A) : list A :=
  take off l ++ d ++ drop (off + length d) l.

Section slices.
Context {A : Type}.
Implicit Types l d : list A.

Lemma length_slice l off n : (off + n <= length l)%nat -> length (slice l off n) = n.
Proof. intros. unfold slice. rewrite length_take, length_drop. lia. Qed.

Lemma length_splice l off d :
  (off + length d <= length l)%nat -> length (splice l off d) = length l.
Proof. intros. unfold splice. rewrite !length_app, length_take, length_drop. lia. Qed.

Lemma slice_splice_same l off d :
  (off + length d <= length l)%nat -> slice (splice l off d) off (length d) = d.
Proof.
  intros. unfold slice, splice. rewrite drop_app_length' by (rewrite length_take; lia).
  by rewrite take_app_length.
Qed.

Lemma lookup_slice l off n i :
  slice l off n !! i = if decide (i < n)%nat then l !! (off + i)%nat else None.
Proof.
  unfold slice. case_decide.
  - by rewrite lookup_take_lt, lookup_drop by lia.
  - by rewrite lookup_take_ge by lia.
Qed.

Lemma lookup_splice l off d i :
  (off + length d <= length l)%nat ->
  splice l off d !! i =
    if decide (off <= i < off + length d)%nat then d !! (i - off)%nat else l !! i.
Proof.
  intros Hl. unfold splice. case_decide as Hi.
  - rewrite lookup_app_r; rewrite length_take; [|lia].
    rewrite lookup_app_l by lia. f_equal; lia.
  - destruct (decide (i < off)%nat).
    + rewrite lookup_app_l by (rewrite length_take; lia). rewrite lookup_take_lt by lia. done.
    + rewrite lookup_app_r; rewrite length_take; [|lia].
      rewrite lookup_app_r by lia. rewrite lookup_drop. f_equal; lia.
Qed.

Lemma slice_splice_disjoint l off d off' n :
  (off + length d <= length l)%nat ->
  (off' + n <= off)%nat \/ (off + length d <= off')%nat ->
  slice (splice l off d) off' n = slice l off' n.
Proof.
  intros Hl Hd. apply list_eq. intros i. rewrite !lookup_slice. case_decide; [|done].
  rewrite lookup_splice by done. rewrite decide_False by lia. done.
Qed.

Lemma splice_slice_id l off n :
  (off + n <= length l)%nat -> splice l off (slice l off n) = l.
Proof.
  intros Hl. apply list_eq. intros i.
  rewrite lookup_splice; rewrite length_slice by done; [|done].
  case_decide; [|done]. rewrite lookup_slice, decide_True by lia. f_equal; lia.
Qed.

Lemma Forall_slice (P : A -> Prop) l off n : Forall P l -> Forall P (slice l off n).
Proof. intros. unfold slice. by apply Forall_take, Forall_drop. Qed.

Lemma Forall_splice (P : A -> Prop) l off d :
  Forall P l -> Forall P d -> Forall P (splice l off d).
Proof.
  intros. unfold splice. rewrite !Forall_app. eauto using Forall_take, Forall_drop.
Qed.

Lemma splice_nil l off : splice l off [] = l.
Proof. unfold splice. simpl. rewrite Nat.add_0_r. apply take_drop. Qed.
End slices.

(** A fixed-width little-endian field of a byte array. *)
Definition get_le (n : nat) (l : list Z) (off : nat) : Z := le_val (slice l off n).
Definition put_le (n : nat) (l : list Z) (off : nat) (z : Z) : list Z := splice l off (le_bytes n z).

Lemma get_put_le_same n l off z :
  (off + n <= length l)%nat -> get_le n (put_le n l off z) off = z mod 256 ^ Z.of_nat n.
Proof.
  intros. unfold get_le, put_le.
  pose proof (slice_splice_same l off (le_bytes n z)) as E.
  rewrite length_le_bytes in E. rewrite E by done. apply le_val_le_bytes.
Qed.

Lemma get_put_le_other n m l off off' z :
  (off + n <= length l)%nat ->
  (off' + m <= off)%nat \/ (off + n <= off')%nat ->
  get_le m (put_le n l off z) off' = get_le m l off'.
Proof.
  intros. unfold get_le, put_le. rewrite slice_splice_disjoint; rewrite ?length_le_bytes; auto.
Qed.

Lemma length_put_le n l off z : (off + n <= length l)%nat -> length (put_le n l off z) = length l.
Proof. intros. unfold put_le. apply length_splice. by rewrite length_le_bytes. Qed.

Lemma put_le_byte n l off z : Forall byte l -> Forall byte (put_le n l off z).
Proof. intros. apply Forall_splice; auto using le_bytes_byte. Qed.

Create HintDb bytes.
Create Rewrite HintDb bytes.
#[export] Hint Rewrite @length_slice @length_splice length_put_le length_le_bytes
  using (rewrite ?length_le_bytes; simpl in *; lia) : bytes.
#[export] Hint Resolve le_bytes_byte put_le_byte Forall_slice Forall_splice : bytes.

(** ** Memory: bytes at addresses; an address never written reads as zero *)

Abbreviation mem := (gmap Z Z).

Definition load8 (m : mem) (a : Z) : Z := default 0 (m !! a).
Definition store8 (m : mem) (a b : Z) : mem := <[a := u8 b]> m.

(** [n] bytes starting at [a]. *)
Fixpoint loadn (m : mem) (a : Z) (n : nat) : list Z :=
  match n with
  | O => []
  | S n' => load8 m a :: loadn m (a + 1) n'
  end.

Fixpoint storen (m : mem) (a : Z) (l : list Z) : mem :=
  match l with
  | [] => m
  | b :: l' => storen (store8 m a b) (a + 1) l'
  end.

Definition load_le (n : nat) (m : mem) (a : Z) : Z := le_val (loadn m a n).
Definition store_le (n : nat) (m : mem) (a z : Z) : mem := storen m a (le_bytes n z).
Abbreviation load64 := (load_le 8).
Abbreviation store64 := (store_le 8).
Abbreviation load32 := (load_le 4).
Abbreviation store32 := (store_le 4).
Abbreviation load16 := (load_le 2).

(** Every stored byte is a byte. *)
Definition mem_ok (m : mem) : Prop := map_Forall (fun _ b => byte b) m.

Lemma load8_store8 m a b a' :
  load8 (store8 m a b) a' = if decide (a = a') then u8 b else load8 m a'.
Proof. unfold load8, store8. rewrite lookup_insert. by case_decide. Qed.

Lemma load8_byte m a : mem_ok m -> byte (load8 m a).
Proof.
  intros Hm. unfold load8. destruct (m !! a) eqn:E; simpl; [|unfold byte; lia].
  by apply (Hm a).
Qed.

Lemma mem_ok_load8 m : mem_ok m <-> forall a, byte (load8 m a).
Proof.
  split; [intros; by apply load8_byte|]. intros H a b Hb. specialize (H a).
  unfold load8 in H. by rewrite Hb in H.
Qed.

Lemma store8_ok m a b : mem_ok m -> mem_ok (store8 m a b).
Proof. intros. apply map_Forall_insert_2; [apply u8_range|done]. Qed.

Lemma storen_ok m a l : mem_ok m -> mem_ok (storen m a l).
Proof. revert m a; induction l; intros; simpl; auto using store8_ok. Qed.

Lemma length_loadn m a n : length (loadn m a n) = n.
Proof. revert a; induction n; intros; simpl; auto. Qed.

Lemma lookup_loadn m a n i :
  loadn m a n !! i = if decide (i < n)%nat then Some (load8 m (a + Z.of_nat i)) else None.
Proof.
  revert a i; induction n as [|n IH]; intros a i.
  - case_decide; [lia|done].
  - destruct i as [|i]; cbn [loadn lookup list_lookup].
    + rewrite decide_True by lia. do 2 f_equal. lia.
    + rewrite IH. repeat case_decide; try lia; [|done]. do 2 f_equal. lia.
Qed.

Lemma loadn_app m a n1 n2 : loadn m a (n1 + n2) = loadn m a n1 ++ loadn m (a + Z.of_nat n1) n2.
Proof.
  revert a; induction n1 as [|n1 IH]; intros a; simpl.
  - f_equal. lia.
  - rewrite IH. do 3 f_equal. lia.
Qed.

Lemma storen_app m a l1 l2 :
  storen m a (l1 ++ l2) = storen (storen m a l1) (a + Z.of_nat (length l1)) l2.
Proof.
  revert m a; induction l1 as [|b l1 IH]; intros m a; simpl.
  - f_equal. lia.
  - rewrite IH. f_equal. lia.
Qed.

Lemma load8_storen m a l a' :
  load8 (storen m a l) a' =
    if decide (a <= a' < a + Z.of_nat (length l))
    then u8 (default 0 (l !! Z.to_nat (a' - a))) else load8 m a'.
Proof.
  revert m a; induction l as [|b l IH]; intros m a; cbn [storen length].
  - rewrite decide_False by lia. done.
  - rewrite IH, load8_store8.
    destruct (decide (a = a')) as [->|].
    + rewrite decide_False by lia. rewrite decide_True by lia.
      by replace (a' - a') with 0 by lia.
    + destruct (decide (a + 1 <= a' < a + 1 + Z.of_nat (length l))).
      * rewrite decide_True by lia.
        replace (Z.to_nat (a' - a)) with (S (Z.to_nat (a' - (a + 1)))) by lia. done.
      * rewrite decide_False by lia. done.
Qed.

Lemma loadn_ext m m' a n :
  (forall x, a <= x < a + Z.of_nat n -> load8 m x = load8 m' x) -> loadn m a n = loadn m' a n.
Proof.
  revert a; induction n as [|n IH]; intros a H; simpl; [done|].
  rewrite H by lia. f_equal. apply IH. intros. apply H. lia.
Qed.

Lemma loadn_storen_same m a l : Forall byte l -> loadn (storen m a l) a (length l) = l.
Proof.
  intros Hl. apply list_eq. intros i. rewrite lookup_loadn. case_decide as Hi.
  - rewrite load8_storen, decide_True by lia.
    replace (Z.to_nat (a + Z.of_nat i - a)) with i by lia.
    destruct (lookup_lt_is_Some_2 l i Hi) as [b Hb]. rewrite Hb. simpl.
    rewrite u8_small; [done|]. by apply (Forall_lookup_1 _ _ _ _ Hl Hb).
  - symmetry. apply lookup_ge_None_2. lia.
Qed.

Lemma loadn_storen_other m a l a' n :
  a' + Z.of_nat n <= a \/ a + Z.of_nat (length l) <= a' ->
  loadn (storen m a l) a' n = loadn m a' n.
Proof.
  intros H. apply loadn_ext. intros x Hx. rewrite load8_storen, decide_False by lia. done.
Qed.

Lemma load_store_le_same n m a z : load_le n (store_le n m a z) a = z mod 256 ^ Z.of_nat n.
Proof.
  unfold load_le, store_le.
  pose proof (loadn_storen_same m a (le_bytes n z) (le_bytes_byte n z)) as E.
  rewrite length_le_bytes in E. rewrite E. apply le_val_le_bytes.
Qed.

Lemma load_store_le_other n n' m a a' z :
  a' + Z.of_nat n' <= a \/ a + Z.of_nat n <= a' ->
  load_le n' (store_le n m a z) a' = load_le n' m a'.
Proof.
  intros. unfold load_le, store_le. rewrite loadn_storen_other; [done|].
  by rewrite length_le_bytes.
Qed.

Lemma loadn_byte m a n : mem_ok m -> Forall byte (loadn m a n).
Proof. intros. revert a; induction n; intros; simpl; constructor; auto using load8_byte. Qed.

Lemma load_le_range n m a : mem_ok m -> 0 <= load_le n m a < 256 ^ Z.of_nat n.
Proof.
  intros Hm. pose proof (le_val_range _ (loadn_byte m a n Hm)) as E.
  by rewrite length_loadn in E.
Qed.

(** Two memories that agree on a range load the same values there. *)
Definition agree_on (m m' : mem) (lo hi : Z) : Prop :=
  forall x, lo <= x < hi -> load8 m x = load8 m' x.

Lemma load_le_agree n m m' a lo hi :
  agree_on m m' lo hi -> lo <= a -> a + Z.of_nat n <= hi -> load_le n m a = load_le n m' a.
Proof. intros Ha ? ?. unfold load_le. f_equal. apply loadn_ext. intros. apply Ha. lia. Qed.

(** Accesses are compared by their arguments before they are unfolded. *)
#[global] Strategy 1000 [loadn storen load_le store_le le_bytes le_val slice splice get_le put_le].
