(* ===== verification/Cstring.v ===== *)
(** * kernel/string.c

    Each routine as the loop the source runs, over byte-addressed memory; [n]
    counts down exactly as the C counter does.  The lemmas give the closed form
    of every routine; overlapping [memmove] is the interesting one. *)

From Stdlib Require Import ZArith Lia.
From stdpp Require Import base list gmap numbers option.
From S2P Require Import Prelude Bytes.

(** [for(i = 0; i < n; i++) cdst[i] = c;] *)
Fixpoint memset_loop (n : nat) (m : mem) (cdst i c : Z) : mem :=
  match n with
  | O => m
  | S n' => memset_loop n' (store8 m (cdst + i) c) cdst (i + 1) c
  end.

Definition memset (m : mem) (dst c n : Z) : mem := memset_loop (Z.to_nat n) m dst 0 c.

(** [while(n-- > 0){ if( *s1 != *s2) return *s1 - *s2; s1++, s2++; } return 0;] *)
Fixpoint memcmp_loop (n : nat) (m : mem) (s1 s2 : Z) : Z :=
  match n with
  | O => 0
  | S n' =>
      if load8 m s1 =? load8 m s2 then memcmp_loop n' m (s1 + 1) (s2 + 1)
      else load8 m s1 - load8 m s2
  end.

Definition memcmp (m : mem) (v1 v2 n : Z) : Z := memcmp_loop (Z.to_nat n) m v1 v2.

(** [while(n-- > 0) *--d = *--s;] *)
Fixpoint move_down (n : nat) (m : mem) (d s : Z) : mem :=
  match n with
  | O => m
  | S n' => move_down n' (store8 m (d - 1) (load8 m (s - 1))) (d - 1) (s - 1)
  end.

(** [while(n-- > 0) *d++ = *s++;] *)
Fixpoint move_up (n : nat) (m : mem) (d s : Z) : mem :=
  match n with
  | O => m
  | S n' => move_up n' (store8 m d (load8 m s)) (d + 1) (s + 1)
  end.

Definition memmove (m : mem) (dst src n : Z) : mem :=
  if n =? 0 then m
  else if (src <? dst) && (src + n >? dst)
  then move_down (Z.to_nat n) m (dst + n) (src + n)
  else move_up (Z.to_nat n) m dst src.

Definition memcpy (m : mem) (dst src n : Z) : mem := memmove m dst src n.

(** [while(n > 0 && *p && *p == *q) n--, p++, q++; if(n == 0) return 0;
    return (uchar)*p - (uchar)*q;] *)
Fixpoint strncmp_loop (n : nat) (m : mem) (p q : Z) : Z :=
  match n with
  | O => 0
  | S n' =>
      if negb (load8 m p =? 0) && (load8 m p =? load8 m q)
      then strncmp_loop n' m (p + 1) (q + 1)
      else load8 m p - load8 m q
  end.

Definition strncmp (m : mem) (p q n : Z) : Z := strncmp_loop (Z.to_nat n) m p q.

(** [while(n-- > 0) *s++ = 0;] *)
Fixpoint zero_fill (n : nat) (m : mem) (s : Z) : mem :=
  match n with
  | O => m
  | S n' => zero_fill n' (store8 m s 0) (s + 1)
  end.

(** [while(n-- > 0 && ( *s++ = *t++ ) != 0) ; while(n-- > 0) *s++ = 0;] *)
Fixpoint strncpy_loop (n : nat) (m : mem) (s t : Z) : mem :=
  match n with
  | O => m
  | S n' =>
      let m' := store8 m s (load8 m t) in
      if load8 m t =? 0 then zero_fill n' m' (s + 1)
      else strncpy_loop n' m' (s + 1) (t + 1)
  end.

Definition strncpy (m : mem) (s t n : Z) : mem := strncpy_loop (Z.to_nat n) m s t.

(** [while(--n > 0 && ( *s++ = *t++ ) != 0) ; *s = 0;]: [n] is already decremented. *)
Fixpoint safestrcpy_loop (n : nat) (m : mem) (s t : Z) : mem :=
  match n with
  | O => store8 m s 0
  | S n' =>
      let m' := store8 m s (load8 m t) in
      if load8 m t =? 0 then store8 m' (s + 1) 0
      else safestrcpy_loop n' m' (s + 1) (t + 1)
  end.

Definition safestrcpy (m : mem) (s t n : Z) : mem :=
  if n <=? 0 then m else safestrcpy_loop (Z.to_nat (n - 1)) m s t.

(** [for(n = 0; s[n]; n++) ; return n;] with fuel; [None] when no NUL was met. *)
Fixpoint strlen_loop (fuel : nat) (m : mem) (s n : Z) : option Z :=
  match fuel with
  | O => None
  | S f => if load8 m (s + n) =? 0 then Some n else strlen_loop f m s (n + 1)
  end.

Definition strlen (fuel : nat) (m : mem) (s : Z) : option Z := strlen_loop fuel m s 0.

(** ** memset *)

Lemma load8_memset_loop n m d i c a :
  load8 (memset_loop n m d i c) a =
    if decide (d + i <= a < d + i + Z.of_nat n) then u8 c else load8 m a.
Proof.
  revert m i; induction n as [|n IH]; intros m i; cbn [memset_loop].
  - rewrite decide_False by lia. done.
  - rewrite IH, load8_store8. repeat case_decide; try lia; done.
Qed.

Lemma load8_memset m d c n a :
  0 <= n -> load8 (memset m d c n) a = if decide (d <= a < d + n) then u8 c else load8 m a.
Proof.
  intros. unfold memset. rewrite load8_memset_loop. repeat case_decide; try lia; done.
Qed.

Lemma memset_ok m d c n : mem_ok m -> mem_ok (memset m d c n).
Proof.
  unfold memset. generalize (Z.to_nat n) as k. generalize 0 as i. intros i k. revert m i.
  induction k; intros; simpl; auto using store8_ok.
Qed.

(** ** memmove *)

Lemma load8_move_up n m d s a :
  mem_ok m -> ~ (s < d < s + Z.of_nat n) ->
  load8 (move_up n m d s) a =
    if decide (d <= a < d + Z.of_nat n) then load8 m (s + (a - d)) else load8 m a.
Proof.
  revert m d s; induction n as [|n IH]; intros m d s Hm Hov; cbn [move_up].
  - rewrite decide_False by lia. done.
  - rewrite IH by (auto using store8_ok; lia). rewrite !load8_store8.
    repeat case_decide; subst; try lia; try done.
    + f_equal; lia.
    + rewrite u8_small by (by apply load8_byte). f_equal; lia.
Qed.

Lemma load8_move_down n m d s a :
  mem_ok m -> ~ (d < s < d + Z.of_nat n) ->
  load8 (move_down n m d s) a =
    if decide (d - Z.of_nat n <= a < d) then load8 m (s + (a - d)) else load8 m a.
Proof.
  revert m d s; induction n as [|n IH]; intros m d s Hm Hov; cbn [move_down].
  - rewrite decide_False by lia. done.
  - rewrite IH by (auto using store8_ok; lia). rewrite !load8_store8.
    repeat case_decide; subst; try lia; try done.
    + f_equal; lia.
    + rewrite u8_small by (by apply load8_byte). f_equal; lia.
Qed.

Lemma load8_memmove m d s n a :
  mem_ok m -> 0 <= n ->
  load8 (memmove m d s n) a =
    if decide (d <= a < d + n) then load8 m (s + (a - d)) else load8 m a.
Proof.
  intros Hm Hn. unfold memmove. destruct (Z.eqb_spec n 0) as [->|].
  { rewrite decide_False by lia. done. }
  destruct (Z.ltb_spec s d); simpl;
    [rewrite Z.gtb_ltb; destruct (Z.ltb_spec d (s + n)); simpl|].
  - rewrite load8_move_down by (done || lia).
    repeat case_decide; try lia; try done. f_equal; lia.
  - rewrite load8_move_up by (done || lia). repeat case_decide; try lia; done.
  - rewrite load8_move_up by (done || lia). repeat case_decide; try lia; done.
Qed.

Lemma loadn_memmove_dst m d s n :
  mem_ok m -> 0 <= n ->
  loadn (memmove m d s n) d (Z.to_nat n) = loadn m s (Z.to_nat n).
Proof.
  intros. apply list_eq. intros i. rewrite !lookup_loadn. case_decide; [|done].
  rewrite load8_memmove, decide_True by lia || done. do 2 f_equal. lia.
Qed.

(** ** String comparison on memory and on byte lists *)

(** The bytes compared by [strncmp], read up to the first NUL of the first string. *)
Fixpoint strncmp_bytes (l1 l2 : list Z) : Z :=
  match l1, l2 with
  | a :: l1', b :: l2' =>
      if negb (a =? 0) && (a =? b) then strncmp_bytes l1' l2' else a - b
  | _, _ => 0
  end.

Lemma strncmp_bytes_eq m p q n :
  strncmp m p q n = strncmp_bytes (loadn m p (Z.to_nat n)) (loadn m q (Z.to_nat n)).
Proof.
  unfold strncmp. generalize (Z.to_nat n) as k. intros k. revert p q.
  induction k as [|k IH]; intros p q; simpl; [done|]. by rewrite IH.
Qed.

(** The part of a buffer before its first NUL. *)
Fixpoint cstr (l : list Z) : list Z :=
  match l with
  | [] => []
  | b :: l' => if b =? 0 then [] else b :: cstr l'
  end.

Lemma strncmp_bytes_zero l1 l2 :
  length l1 = length l2 -> strncmp_bytes l1 l2 = 0 <-> cstr l1 = cstr l2.
Proof.
  revert l2; induction l1 as [|a l1 IH]; intros [|b l2] Hlen; simpl in *; try lia; [done|].
  destruct (Z.eqb_spec a 0) as [->|Ha]; simpl.
  - destruct (Z.eqb_spec b 0) as [->|]; [done|]. split; [lia|done].
  - destruct (Z.eqb_spec a b) as [->|Hab].
    + destruct (Z.eqb_spec b 0); [lia|]. rewrite IH by lia.
      split; [by intros ->|by intros [=]].
    + split; [lia|]. destruct (Z.eqb_spec b 0); [done|]. intros [=]; done.
Qed.

Lemma strncmp_refl l : strncmp_bytes l l = 0.
Proof. by apply strncmp_bytes_zero. Qed.

(** ** strncpy: the C string, NUL-padded, cut at [n] *)

(** [n] bytes: the string then zeros. *)
Definition pad (n : nat) (l : list Z) : list Z := take n (cstr l ++ replicate n 0).

Lemma length_pad n l : length (pad n l) = n.
Proof. unfold pad. rewrite length_take, length_app, length_replicate. lia. Qed.

Lemma load8_zero_fill n m s a :
  load8 (zero_fill n m s) a = if decide (s <= a < s + Z.of_nat n) then 0 else load8 m a.
Proof.
  revert m s; induction n as [|n IH]; intros m s; cbn [zero_fill].
  - rewrite decide_False by lia. done.
  - rewrite IH, load8_store8. repeat case_decide; try lia; done.
Qed.

(** The destination of [strncpy] holds the source string padded to [n] bytes;
    nothing else changes (the buffers do not overlap). *)
Lemma strncpy_loop_spec n m s t :
  mem_ok m -> s + Z.of_nat n <= t \/ t + Z.of_nat n <= s ->
  loadn (strncpy_loop n m s t) s n = pad n (loadn m t n) /\
  (forall a, ~ (s <= a < s + Z.of_nat n) -> load8 (strncpy_loop n m s t) a = load8 m a).
Proof.
  revert m s t; induction n as [|n IH]; intros m s t Hm Hov; [done|].
  cbn [strncpy_loop]. pose proof (load8_byte m t Hm) as Hb.
  assert (loadn (store8 m s (load8 m t)) (t + 1) n = loadn m (t + 1) n) as Hsrc.
  { apply loadn_ext. intros x Hx. rewrite load8_store8, decide_False by lia. done. }
  destruct (Z.eqb_spec (load8 m t) 0) as [E|E].
  - rewrite E. split.
    + unfold pad. cbn [loadn cstr]. rewrite E. simpl.
      rewrite load8_zero_fill, decide_False by lia. rewrite load8_store8, decide_True by done.
      rewrite u8_small by lia. f_equal.
      rewrite take_ge by (rewrite length_replicate; lia).
      apply list_eq. intros i. rewrite lookup_loadn. case_decide.
      * rewrite load8_zero_fill, decide_True by lia. by rewrite lookup_replicate_2.
      * symmetry. apply lookup_ge_None_2. rewrite length_replicate. lia.
    + intros a Ha. rewrite load8_zero_fill, decide_False by lia.
      rewrite load8_store8, decide_False by lia. done.
  - destruct (IH (store8 m s (load8 m t)) (s + 1) (t + 1)) as [IH1 IH2];
      [auto using store8_ok|lia|].
    split.
    + unfold pad. cbn [loadn cstr]. destruct (Z.eqb_spec (load8 m t) 0); [done|]. simpl.
      rewrite IH2 by lia. rewrite load8_store8, decide_True, u8_small by done. f_equal.
      rewrite IH1, Hsrc. unfold pad. rewrite !take_app. f_equal.
      rewrite <- replicate_S. rewrite !take_replicate. f_equal. lia.
    + intros a Ha. rewrite IH2 by lia. rewrite load8_store8, decide_False by lia. done.
Qed.

(** ** safestrcpy always leaves a NUL-terminated string *)

Lemma safestrcpy_loop_spec n m s t :
  mem_ok m -> s + Z.of_nat (S n) <= t \/ t + Z.of_nat n <= s ->
  cstr (loadn (safestrcpy_loop n m s t) s (S n)) = take n (cstr (loadn m t n)) /\
  (exists i, (i <= S n)%nat /\ load8 (safestrcpy_loop n m s t) (s + Z.of_nat i) = 0).
Proof.
  revert m s t; induction n as [|n IH]; intros m s t Hm Hov.
  - cbn [safestrcpy_loop loadn cstr take]. rewrite load8_store8, decide_True by done.
    split; [done|]. exists 0%nat. split; [lia|].
    rewrite load8_store8, decide_True by lia. done.
  - cbn [safestrcpy_loop]. pose proof (load8_byte m t Hm) as Hb.
    assert (loadn (store8 m s (load8 m t)) (t + 1) n = loadn m (t + 1) n) as Hsrc.
    { apply loadn_ext. intros x Hx. rewrite load8_store8, decide_False by lia. done. }
    destruct (Z.eqb_spec (load8 m t) 0) as [E|E].
    + rewrite E. split.
      * cbn [loadn cstr]. rewrite E, load8_store8, decide_False by lia.
        rewrite load8_store8, decide_True by done. done.
      * exists 0%nat. split; [lia|]. rewrite load8_store8, decide_False by lia.
        rewrite load8_store8, decide_True by lia. done.
    + destruct (IH (store8 m s (load8 m t)) (s + 1) (t + 1)) as [IH1 [i [Hi IH2]]];
        [auto using store8_ok|lia|].
      assert (load8 (safestrcpy_loop n (store8 m s (load8 m t)) (s + 1) (t + 1)) s = load8 m t) as Hs.
      { assert (forall k m' s' t', (forall x, x = s -> s' > s) ->
          load8 (safestrcpy_loop k m' s' t') s = load8 m' s) as Hkeep.
        { induction k as [|k IHk]; intros m' s' t' Hs'; cbn [safestrcpy_loop];
            specialize (Hs' s eq_refl).
          - rewrite load8_store8, decide_False by lia. done.
          - destruct (Z.eqb_spec (load8 m' t') 0).
            + rewrite !load8_store8, !decide_False by lia. done.
            + rewrite IHk by lia. rewrite load8_store8, decide_False by lia. done. }
        rewrite Hkeep by lia. by rewrite load8_store8, decide_True, u8_small. }
      split.
      * cbn [loadn cstr]. rewrite Hs. destruct (Z.eqb_spec (load8 m t) 0); [done|].
        cbn [take]. f_equal. by rewrite <- Hsrc.
      * exists (S i). split; [lia|]. rewrite <- IH2. f_equal. lia.
Qed.

(** ** strlen: enough fuel finds the first NUL *)

Lemma strlen_spec fuel m s n :
  0 <= n ->
  (forall i, 0 <= i < n -> load8 m (s + i) <> 0) -> load8 m (s + n) = 0 ->
  n < Z.of_nat fuel -> strlen fuel m s = Some n.
Proof.
  intros Hn Hnz Hz Hf. unfold strlen.
  assert (forall k f, 0 <= k <= n -> n - k < Z.of_nat f -> strlen_loop f m s k = Some n) as Hl.
  2:{ apply Hl; lia. }
  intros k f. revert k. induction f as [|f IH]; intros k Hk Hf'; [lia|]. cbn [strlen_loop].
  destruct (Z.eqb_spec (load8 m (s + k)) 0) as [E|E].
  - f_equal. destruct (Z.eq_dec k n); [done|]. exfalso. apply (Hnz k); [lia|done].
  - apply IH; [|lia]. destruct (Z.eq_dec k n) as [->|]; [done|lia].
Qed.

(** The routines are compared by their arguments before they are unfolded. *)
#[global] Strategy 1000 [memset memset_loop memmove move_up move_down strncpy safestrcpy strlen Z.to_nat].
