(* ===== verification/Kstate.v ===== *)
(** * The kernel's data

    The structures of the kernel's header files as records, the globals of its
    source files as the fields of one state, and the primitive operations the
    other files are written with: access to the static arrays, spin locks as
    seen by a thread, and the current process.

    A pointer into a static array ([proc], [bcache.buf], [itable.inode],
    [ftable.file]) is the element's index, and the null pointer is [None]; a
    pointer to memory is an address.  C flags are booleans, other integers are
    [Z] with their wrap-around written out where it can happen. *)

From Stdlib Require Import ZArith Lia.
From stdpp Require Import base list gmap strings numbers option.
From S2P Require Import Prelude Bytes Riscv.


(** ** Names of locks and sleep channels *)

(** Every spin lock of the kernel.  [LBufSl]/[LInodeSl] are the spin locks
    inside the sleep locks of buffers and inodes. *)
Inductive lockid :=
| LKmem | LBcache | LItable | LFtable | LLog | LWait | LPid | LCons | LUart | LVdisk | LTicks | LPr
| LProc (i : nat) | LPipe (pi : Z) | LBufSl (i : nat) | LInodeSl (i : nat).

#[export] Instance lockid_eq_dec : EqDecision lockid.
Proof. solve_decision. Defined.

(** A sleep channel is the address passed to [sleep] and [wakeup]. *)
Inductive chan :=
| ChSleeplock (l : lockid)       (** [&b->lock], [&ip->lock] *)
| ChLog | ChProc (i : nat) | ChPipeR (pi : Z) | ChPipeW (pi : Z) | ChCons | ChUart | ChTicks
| ChDiskFree | ChBuf (i : nat).

#[export] Instance chan_eq_dec : EqDecision chan.
Proof. solve_decision. Defined.

Definition lockid_enc (l : lockid) : nat * Z :=
  match l with
  | LKmem => (0%nat, 0) | LBcache => (0%nat, 1) | LItable => (0%nat, 2) | LFtable => (0%nat, 3)
  | LLog => (0%nat, 4) | LWait => (0%nat, 5) | LPid => (0%nat, 6) | LCons => (0%nat, 7)
  | LUart => (0%nat, 8) | LVdisk => (0%nat, 9) | LTicks => (0%nat, 10) | LPr => (0%nat, 11)
  | LProc i => (1%nat, Z.of_nat i) | LPipe p => (2%nat, p)
  | LBufSl i => (3%nat, Z.of_nat i) | LInodeSl i => (4%nat, Z.of_nat i)
  end.

Definition lockid_dec (p : nat * Z) : option lockid :=
  match p with
  | (0%nat, 0) => Some LKmem | (0%nat, 1) => Some LBcache | (0%nat, 2) => Some LItable
  | (0%nat, 3) => Some LFtable | (0%nat, 4) => Some LLog | (0%nat, 5) => Some LWait
  | (0%nat, 6) => Some LPid | (0%nat, 7) => Some LCons | (0%nat, 8) => Some LUart
  | (0%nat, 9) => Some LVdisk | (0%nat, 10) => Some LTicks | (0%nat, 11) => Some LPr
  | (1%nat, z) => Some (LProc (Z.to_nat z)) | (2%nat, z) => Some (LPipe z)
  | (3%nat, z) => Some (LBufSl (Z.to_nat z)) | (4%nat, z) => Some (LInodeSl (Z.to_nat z))
  | _ => None
  end.

#[export] Instance lockid_countable : Countable lockid.
Proof.
  apply (inj_countable lockid_enc lockid_dec).
  intros []; simpl; rewrite ?Nat2Z.id; done.
Defined.

(** kernel/proc.h: [enum procstate]. *)
Inductive procstate := UNUSED | USED | SLEEPING | RUNNABLE | RUNNING | ZOMBIE.

#[export] Instance procstate_eq_dec : EqDecision procstate.
Proof. solve_decision. Defined.

(** kernel/file.h: the [type] of a [struct file]. *)
Inductive filetype := FD_NONE | FD_PIPE | FD_INODE | FD_DEVICE.

#[export] Instance filetype_eq_dec : EqDecision filetype.
Proof. solve_decision. Defined.

(** ** Structures *)

(** kernel/sleeplock.h: [struct sleeplock]; its spinlock is named by a [lockid]. *)
Record sleeplock := mk_sleeplock {
  sl_locked : bool;
  sl_pid : Z
}.

Definition set_sl_locked (v : bool) (r : sleeplock) : sleeplock :=
  {| sl_locked := v; sl_pid := sl_pid r |}.
Definition set_sl_pid (v : Z) (r : sleeplock) : sleeplock :=
  {| sl_locked := sl_locked r; sl_pid := v |}.

(** kernel/proc.h: [struct context], the callee-saved registers ([s0] to [s11] as a list). *)
Record context := mk_context {
  ra : Z;
  sp : Z;
  sregs : list Z
}.

Definition set_ra (v : Z) (r : context) : context :=
  {| ra := v; sp := sp r; sregs := sregs r |}.
Definition set_sp (v : Z) (r : context) : context :=
  {| ra := ra r; sp := v; sregs := sregs r |}.
Definition set_sregs (v : list Z) (r : context) : context :=
  {| ra := ra r; sp := sp r; sregs := v |}.

(** kernel/proc.h: [struct proc]; pointers into a static array are indices, [None] is the null pointer. *)
Record proc := mk_proc {
  p_state : procstate;
  p_chan : option chan;
  p_killed : bool;
  p_xstate : Z;
  p_pid : Z;
  p_parent : option nat;
  p_kstack : Z;
  p_sz : Z;
  p_pagetable : Z;
  p_trapframe : Z;
  p_context : context;
  p_ofile : list (option nat);
  p_cwd : option nat;
  p_name : list Z
}.

Definition set_p_state (v : procstate) (r : proc) : proc :=
  {| p_state := v; p_chan := p_chan r; p_killed := p_killed r; p_xstate := p_xstate r; p_pid :=
     p_pid r; p_parent := p_parent r; p_kstack := p_kstack r; p_sz := p_sz r; p_pagetable :=
     p_pagetable r; p_trapframe := p_trapframe r; p_context := p_context r; p_ofile := p_ofile
     r; p_cwd := p_cwd r; p_name := p_name r |}.
Definition set_p_chan (v : option chan) (r : proc) : proc :=
  {| p_state := p_state r; p_chan := v; p_killed := p_killed r; p_xstate := p_xstate r; p_pid
     := p_pid r; p_parent := p_parent r; p_kstack := p_kstack r; p_sz := p_sz r; p_pagetable :=
     p_pagetable r; p_trapframe := p_trapframe r; p_context := p_context r; p_ofile := p_ofile
     r; p_cwd := p_cwd r; p_name := p_name r |}.
Definition set_p_killed (v : bool) (r : proc) : proc :=
  {| p_state := p_state r; p_chan := p_chan r; p_killed := v; p_xstate := p_xstate r; p_pid :=
     p_pid r; p_parent := p_parent r; p_kstack := p_kstack r; p_sz := p_sz r; p_pagetable :=
     p_pagetable r; p_trapframe := p_trapframe r; p_context := p_context r; p_ofile := p_ofile
     r; p_cwd := p_cwd r; p_name := p_name r |}.
Definition set_p_xstate (v : Z) (r : proc) : proc :=
  {| p_state := p_state r; p_chan := p_chan r; p_killed := p_killed r; p_xstate := v; p_pid :=
     p_pid r; p_parent := p_parent r; p_kstack := p_kstack r; p_sz := p_sz r; p_pagetable :=
     p_pagetable r; p_trapframe := p_trapframe r; p_context := p_context r; p_ofile := p_ofile
     r; p_cwd := p_cwd r; p_name := p_name r |}.
Definition set_p_pid (v : Z) (r : proc) : proc :=
  {| p_state := p_state r; p_chan := p_chan r; p_killed := p_killed r; p_xstate := p_xstate r;
     p_pid := v; p_parent := p_parent r; p_kstack := p_kstack r; p_sz := p_sz r; p_pagetable :=
     p_pagetable r; p_trapframe := p_trapframe r; p_context := p_context r; p_ofile := p_ofile
     r; p_cwd := p_cwd r; p_name := p_name r |}.
Definition set_p_parent (v : option nat) (r : proc) : proc :=
  {| p_state := p_state r; p_chan := p_chan r; p_killed := p_killed r; p_xstate := p_xstate r;
     p_pid := p_pid r; p_parent := v; p_kstack := p_kstack r; p_sz := p_sz r; p_pagetable :=
     p_pagetable r; p_trapframe := p_trapframe r; p_context := p_context r; p_ofile := p_ofile
     r; p_cwd := p_cwd r; p_name := p_name r |}.
Definition set_p_kstack (v : Z) (r : proc) : proc :=
  {| p_state := p_state r; p_chan := p_chan r; p_killed := p_killed r; p_xstate := p_xstate r;
     p_pid := p_pid r; p_parent := p_parent r; p_kstack := v; p_sz := p_sz r; p_pagetable :=
     p_pagetable r; p_trapframe := p_trapframe r; p_context := p_context r; p_ofile := p_ofile
     r; p_cwd := p_cwd r; p_name := p_name r |}.
Definition set_p_sz (v : Z) (r : proc) : proc :=
  {| p_state := p_state r; p_chan := p_chan r; p_killed := p_killed r; p_xstate := p_xstate r;
     p_pid := p_pid r; p_parent := p_parent r; p_kstack := p_kstack r; p_sz := v; p_pagetable
     := p_pagetable r; p_trapframe := p_trapframe r; p_context := p_context r; p_ofile :=
     p_ofile r; p_cwd := p_cwd r; p_name := p_name r |}.
Definition set_p_pagetable (v : Z) (r : proc) : proc :=
  {| p_state := p_state r; p_chan := p_chan r; p_killed := p_killed r; p_xstate := p_xstate r;
     p_pid := p_pid r; p_parent := p_parent r; p_kstack := p_kstack r; p_sz := p_sz r;
     p_pagetable := v; p_trapframe := p_trapframe r; p_context := p_context r; p_ofile :=
     p_ofile r; p_cwd := p_cwd r; p_name := p_name r |}.
Definition set_p_trapframe (v : Z) (r : proc) : proc :=
  {| p_state := p_state r; p_chan := p_chan r; p_killed := p_killed r; p_xstate := p_xstate r;
     p_pid := p_pid r; p_parent := p_parent r; p_kstack := p_kstack r; p_sz := p_sz r;
     p_pagetable := p_pagetable r; p_trapframe := v; p_context := p_context r; p_ofile :=
     p_ofile r; p_cwd := p_cwd r; p_name := p_name r |}.
Definition set_p_context (v : context) (r : proc) : proc :=
  {| p_state := p_state r; p_chan := p_chan r; p_killed := p_killed r; p_xstate := p_xstate r;
     p_pid := p_pid r; p_parent := p_parent r; p_kstack := p_kstack r; p_sz := p_sz r;
     p_pagetable := p_pagetable r; p_trapframe := p_trapframe r; p_context := v; p_ofile :=
     p_ofile r; p_cwd := p_cwd r; p_name := p_name r |}.
Definition set_p_ofile (v : list (option nat)) (r : proc) : proc :=
  {| p_state := p_state r; p_chan := p_chan r; p_killed := p_killed r; p_xstate := p_xstate r;
     p_pid := p_pid r; p_parent := p_parent r; p_kstack := p_kstack r; p_sz := p_sz r;
     p_pagetable := p_pagetable r; p_trapframe := p_trapframe r; p_context := p_context r;
     p_ofile := v; p_cwd := p_cwd r; p_name := p_name r |}.
Definition set_p_cwd (v : option nat) (r : proc) : proc :=
  {| p_state := p_state r; p_chan := p_chan r; p_killed := p_killed r; p_xstate := p_xstate r;
     p_pid := p_pid r; p_parent := p_parent r; p_kstack := p_kstack r; p_sz := p_sz r;
     p_pagetable := p_pagetable r; p_trapframe := p_trapframe r; p_context := p_context r;
     p_ofile := p_ofile r; p_cwd := v; p_name := p_name r |}.
Definition set_p_name (v : list Z) (r : proc) : proc :=
  {| p_state := p_state r; p_chan := p_chan r; p_killed := p_killed r; p_xstate := p_xstate r;
     p_pid := p_pid r; p_parent := p_parent r; p_kstack := p_kstack r; p_sz := p_sz r;
     p_pagetable := p_pagetable r; p_trapframe := p_trapframe r; p_context := p_context r;
     p_ofile := p_ofile r; p_cwd := p_cwd r; p_name := v |}.

(** kernel/buf.h: [struct buf]; [b_prev]/[b_next] are indices into [bcache.buf], [NBUF] stands for [bcache.head]. *)
Record buf := mk_buf {
  b_valid : bool;
  b_disk : bool;
  b_dev : Z;
  b_blockno : Z;
  b_lock : sleeplock;
  b_refcnt : Z;
  b_prev : nat;
  b_next : nat;
  b_data : list Z
}.

Definition set_b_valid (v : bool) (r : buf) : buf :=
  {| b_valid := v; b_disk := b_disk r; b_dev := b_dev r; b_blockno := b_blockno r; b_lock :=
     b_lock r; b_refcnt := b_refcnt r; b_prev := b_prev r; b_next := b_next r; b_data := b_data
     r |}.
Definition set_b_disk (v : bool) (r : buf) : buf :=
  {| b_valid := b_valid r; b_disk := v; b_dev := b_dev r; b_blockno := b_blockno r; b_lock :=
     b_lock r; b_refcnt := b_refcnt r; b_prev := b_prev r; b_next := b_next r; b_data := b_data
     r |}.
Definition set_b_dev (v : Z) (r : buf) : buf :=
  {| b_valid := b_valid r; b_disk := b_disk r; b_dev := v; b_blockno := b_blockno r; b_lock :=
     b_lock r; b_refcnt := b_refcnt r; b_prev := b_prev r; b_next := b_next r; b_data := b_data
     r |}.
Definition set_b_blockno (v : Z) (r : buf) : buf :=
  {| b_valid := b_valid r; b_disk := b_disk r; b_dev := b_dev r; b_blockno := v; b_lock :=
     b_lock r; b_refcnt := b_refcnt r; b_prev := b_prev r; b_next := b_next r; b_data := b_data
     r |}.
Definition set_b_lock (v : sleeplock) (r : buf) : buf :=
  {| b_valid := b_valid r; b_disk := b_disk r; b_dev := b_dev r; b_blockno := b_blockno r;
     b_lock := v; b_refcnt := b_refcnt r; b_prev := b_prev r; b_next := b_next r; b_data :=
     b_data r |}.
Definition set_b_refcnt (v : Z) (r : buf) : buf :=
  {| b_valid := b_valid r; b_disk := b_disk r; b_dev := b_dev r; b_blockno := b_blockno r;
     b_lock := b_lock r; b_refcnt := v; b_prev := b_prev r; b_next := b_next r; b_data :=
     b_data r |}.
Definition set_b_prev (v : nat) (r : buf) : buf :=
  {| b_valid := b_valid r; b_disk := b_disk r; b_dev := b_dev r; b_blockno := b_blockno r;
     b_lock := b_lock r; b_refcnt := b_refcnt r; b_prev := v; b_next := b_next r; b_data :=
     b_data r |}.
Definition set_b_next (v : nat) (r : buf) : buf :=
  {| b_valid := b_valid r; b_disk := b_disk r; b_dev := b_dev r; b_blockno := b_blockno r;
     b_lock := b_lock r; b_refcnt := b_refcnt r; b_prev := b_prev r; b_next := v; b_data :=
     b_data r |}.
Definition set_b_data (v : list Z) (r : buf) : buf :=
  {| b_valid := b_valid r; b_disk := b_disk r; b_dev := b_dev r; b_blockno := b_blockno r;
     b_lock := b_lock r; b_refcnt := b_refcnt r; b_prev := b_prev r; b_next := b_next r; b_data
     := v |}.

(** kernel/file.h: [struct inode], the in-memory copy. *)
Record inode := mk_inode {
  i_dev : Z;
  i_inum : Z;
  i_ref : Z;
  i_lock : sleeplock;
  i_valid : bool;
  i_type : Z;
  i_major : Z;
  i_minor : Z;
  i_nlink : Z;
  i_size : Z;
  i_addrs : list Z
}.

Definition set_i_dev (v : Z) (r : inode) : inode :=
  {| i_dev := v; i_inum := i_inum r; i_ref := i_ref r; i_lock := i_lock r; i_valid := i_valid
     r; i_type := i_type r; i_major := i_major r; i_minor := i_minor r; i_nlink := i_nlink r;
     i_size := i_size r; i_addrs := i_addrs r |}.
Definition set_i_inum (v : Z) (r : inode) : inode :=
  {| i_dev := i_dev r; i_inum := v; i_ref := i_ref r; i_lock := i_lock r; i_valid := i_valid r;
     i_type := i_type r; i_major := i_major r; i_minor := i_minor r; i_nlink := i_nlink r;
     i_size := i_size r; i_addrs := i_addrs r |}.
Definition set_i_ref (v : Z) (r : inode) : inode :=
  {| i_dev := i_dev r; i_inum := i_inum r; i_ref := v; i_lock := i_lock r; i_valid := i_valid
     r; i_type := i_type r; i_major := i_major r; i_minor := i_minor r; i_nlink := i_nlink r;
     i_size := i_size r; i_addrs := i_addrs r |}.
Definition set_i_lock (v : sleeplock) (r : inode) : inode :=
  {| i_dev := i_dev r; i_inum := i_inum r; i_ref := i_ref r; i_lock := v; i_valid := i_valid r;
     i_type := i_type r; i_major := i_major r; i_minor := i_minor r; i_nlink := i_nlink r;
     i_size := i_size r; i_addrs := i_addrs r |}.
Definition set_i_valid (v : bool) (r : inode) : inode :=
  {| i_dev := i_dev r; i_inum := i_inum r; i_ref := i_ref r; i_lock := i_lock r; i_valid := v;
     i_type := i_type r; i_major := i_major r; i_minor := i_minor r; i_nlink := i_nlink r;
     i_size := i_size r; i_addrs := i_addrs r |}.
Definition set_i_type (v : Z) (r : inode) : inode :=
  {| i_dev := i_dev r; i_inum := i_inum r; i_ref := i_ref r; i_lock := i_lock r; i_valid :=
     i_valid r; i_type := v; i_major := i_major r; i_minor := i_minor r; i_nlink := i_nlink r;
     i_size := i_size r; i_addrs := i_addrs r |}.
Definition set_i_major (v : Z) (r : inode) : inode :=
  {| i_dev := i_dev r; i_inum := i_inum r; i_ref := i_ref r; i_lock := i_lock r; i_valid :=
     i_valid r; i_type := i_type r; i_major := v; i_minor := i_minor r; i_nlink := i_nlink r;
     i_size := i_size r; i_addrs := i_addrs r |}.
Definition set_i_minor (v : Z) (r : inode) : inode :=
  {| i_dev := i_dev r; i_inum := i_inum r; i_ref := i_ref r; i_lock := i_lock r; i_valid :=
     i_valid r; i_type := i_type r; i_major := i_major r; i_minor := v; i_nlink := i_nlink r;
     i_size := i_size r; i_addrs := i_addrs r |}.
Definition set_i_nlink (v : Z) (r : inode) : inode :=
  {| i_dev := i_dev r; i_inum := i_inum r; i_ref := i_ref r; i_lock := i_lock r; i_valid :=
     i_valid r; i_type := i_type r; i_major := i_major r; i_minor := i_minor r; i_nlink := v;
     i_size := i_size r; i_addrs := i_addrs r |}.
Definition set_i_size (v : Z) (r : inode) : inode :=
  {| i_dev := i_dev r; i_inum := i_inum r; i_ref := i_ref r; i_lock := i_lock r; i_valid :=
     i_valid r; i_type := i_type r; i_major := i_major r; i_minor := i_minor r; i_nlink :=
     i_nlink r; i_size := v; i_addrs := i_addrs r |}.
Definition set_i_addrs (v : list Z) (r : inode) : inode :=
  {| i_dev := i_dev r; i_inum := i_inum r; i_ref := i_ref r; i_lock := i_lock r; i_valid :=
     i_valid r; i_type := i_type r; i_major := i_major r; i_minor := i_minor r; i_nlink :=
     i_nlink r; i_size := i_size r; i_addrs := v |}.

(** kernel/file.h: [struct file]. *)
Record file := mk_file {
  f_type : filetype;
  f_ref : Z;
  f_readable : bool;
  f_writable : bool;
  f_pipe : Z;
  f_ip : option nat;
  f_off : Z;
  f_major : Z
}.

Definition set_f_type (v : filetype) (r : file) : file :=
  {| f_type := v; f_ref := f_ref r; f_readable := f_readable r; f_writable := f_writable r;
     f_pipe := f_pipe r; f_ip := f_ip r; f_off := f_off r; f_major := f_major r |}.
Definition set_f_ref (v : Z) (r : file) : file :=
  {| f_type := f_type r; f_ref := v; f_readable := f_readable r; f_writable := f_writable r;
     f_pipe := f_pipe r; f_ip := f_ip r; f_off := f_off r; f_major := f_major r |}.
Definition set_f_readable (v : bool) (r : file) : file :=
  {| f_type := f_type r; f_ref := f_ref r; f_readable := v; f_writable := f_writable r; f_pipe
     := f_pipe r; f_ip := f_ip r; f_off := f_off r; f_major := f_major r |}.
Definition set_f_writable (v : bool) (r : file) : file :=
  {| f_type := f_type r; f_ref := f_ref r; f_readable := f_readable r; f_writable := v; f_pipe
     := f_pipe r; f_ip := f_ip r; f_off := f_off r; f_major := f_major r |}.
Definition set_f_pipe (v : Z) (r : file) : file :=
  {| f_type := f_type r; f_ref := f_ref r; f_readable := f_readable r; f_writable := f_writable
     r; f_pipe := v; f_ip := f_ip r; f_off := f_off r; f_major := f_major r |}.
Definition set_f_ip (v : option nat) (r : file) : file :=
  {| f_type := f_type r; f_ref := f_ref r; f_readable := f_readable r; f_writable := f_writable
     r; f_pipe := f_pipe r; f_ip := v; f_off := f_off r; f_major := f_major r |}.
Definition set_f_off (v : Z) (r : file) : file :=
  {| f_type := f_type r; f_ref := f_ref r; f_readable := f_readable r; f_writable := f_writable
     r; f_pipe := f_pipe r; f_ip := f_ip r; f_off := v; f_major := f_major r |}.
Definition set_f_major (v : Z) (r : file) : file :=
  {| f_type := f_type r; f_ref := f_ref r; f_readable := f_readable r; f_writable := f_writable
     r; f_pipe := f_pipe r; f_ip := f_ip r; f_off := f_off r; f_major := v |}.

(** kernel/pipe.c: [struct pipe] without its lock, which is [LPipe]. *)
Record pipe := mk_pipe {
  pi_data : list Z;
  pi_nread : Z;
  pi_nwrite : Z;
  pi_readopen : bool;
  pi_writeopen : bool
}.

Definition set_pi_data (v : list Z) (r : pipe) : pipe :=
  {| pi_data := v; pi_nread := pi_nread r; pi_nwrite := pi_nwrite r; pi_readopen := pi_readopen
     r; pi_writeopen := pi_writeopen r |}.
Definition set_pi_nread (v : Z) (r : pipe) : pipe :=
  {| pi_data := pi_data r; pi_nread := v; pi_nwrite := pi_nwrite r; pi_readopen := pi_readopen
     r; pi_writeopen := pi_writeopen r |}.
Definition set_pi_nwrite (v : Z) (r : pipe) : pipe :=
  {| pi_data := pi_data r; pi_nread := pi_nread r; pi_nwrite := v; pi_readopen := pi_readopen
     r; pi_writeopen := pi_writeopen r |}.
Definition set_pi_readopen (v : bool) (r : pipe) : pipe :=
  {| pi_data := pi_data r; pi_nread := pi_nread r; pi_nwrite := pi_nwrite r; pi_readopen := v;
     pi_writeopen := pi_writeopen r |}.
Definition set_pi_writeopen (v : bool) (r : pipe) : pipe :=
  {| pi_data := pi_data r; pi_nread := pi_nread r; pi_nwrite := pi_nwrite r; pi_readopen :=
     pi_readopen r; pi_writeopen := v |}.

(** kernel/fs.h: [struct superblock]. *)
Record superblock := mk_superblock {
  sb_magic : Z;
  sb_size : Z;
  sb_nblocks : Z;
  sb_ninodes : Z;
  sb_nlog : Z;
  sb_logstart : Z;
  sb_inodestart : Z;
  sb_bmapstart : Z
}.

Definition set_sb_magic (v : Z) (r : superblock) : superblock :=
  {| sb_magic := v; sb_size := sb_size r; sb_nblocks := sb_nblocks r; sb_ninodes := sb_ninodes
     r; sb_nlog := sb_nlog r; sb_logstart := sb_logstart r; sb_inodestart := sb_inodestart r;
     sb_bmapstart := sb_bmapstart r |}.
Definition set_sb_size (v : Z) (r : superblock) : superblock :=
  {| sb_magic := sb_magic r; sb_size := v; sb_nblocks := sb_nblocks r; sb_ninodes := sb_ninodes
     r; sb_nlog := sb_nlog r; sb_logstart := sb_logstart r; sb_inodestart := sb_inodestart r;
     sb_bmapstart := sb_bmapstart r |}.
Definition set_sb_nblocks (v : Z) (r : superblock) : superblock :=
  {| sb_magic := sb_magic r; sb_size := sb_size r; sb_nblocks := v; sb_ninodes := sb_ninodes r;
     sb_nlog := sb_nlog r; sb_logstart := sb_logstart r; sb_inodestart := sb_inodestart r;
     sb_bmapstart := sb_bmapstart r |}.
Definition set_sb_ninodes (v : Z) (r : superblock) : superblock :=
  {| sb_magic := sb_magic r; sb_size := sb_size r; sb_nblocks := sb_nblocks r; sb_ninodes := v;
     sb_nlog := sb_nlog r; sb_logstart := sb_logstart r; sb_inodestart := sb_inodestart r;
     sb_bmapstart := sb_bmapstart r |}.
Definition set_sb_nlog (v : Z) (r : superblock) : superblock :=
  {| sb_magic := sb_magic r; sb_size := sb_size r; sb_nblocks := sb_nblocks r; sb_ninodes :=
     sb_ninodes r; sb_nlog := v; sb_logstart := sb_logstart r; sb_inodestart := sb_inodestart
     r; sb_bmapstart := sb_bmapstart r |}.
Definition set_sb_logstart (v : Z) (r : superblock) : superblock :=
  {| sb_magic := sb_magic r; sb_size := sb_size r; sb_nblocks := sb_nblocks r; sb_ninodes :=
     sb_ninodes r; sb_nlog := sb_nlog r; sb_logstart := v; sb_inodestart := sb_inodestart r;
     sb_bmapstart := sb_bmapstart r |}.
Definition set_sb_inodestart (v : Z) (r : superblock) : superblock :=
  {| sb_magic := sb_magic r; sb_size := sb_size r; sb_nblocks := sb_nblocks r; sb_ninodes :=
     sb_ninodes r; sb_nlog := sb_nlog r; sb_logstart := sb_logstart r; sb_inodestart := v;
     sb_bmapstart := sb_bmapstart r |}.
Definition set_sb_bmapstart (v : Z) (r : superblock) : superblock :=
  {| sb_magic := sb_magic r; sb_size := sb_size r; sb_nblocks := sb_nblocks r; sb_ninodes :=
     sb_ninodes r; sb_nlog := sb_nlog r; sb_logstart := sb_logstart r; sb_inodestart :=
     sb_inodestart r; sb_bmapstart := v |}.

(** kernel/log.c: [struct log] with its [struct logheader] ([lh_n], [lh_block]). *)
Record log := mk_log {
  lg_start : Z;
  lg_size : Z;
  lg_outstanding : Z;
  lg_committing : bool;
  lg_dev : Z;
  lh_n : Z;
  lh_block : list Z
}.

Definition set_lg_start (v : Z) (r : log) : log :=
  {| lg_start := v; lg_size := lg_size r; lg_outstanding := lg_outstanding r; lg_committing :=
     lg_committing r; lg_dev := lg_dev r; lh_n := lh_n r; lh_block := lh_block r |}.
Definition set_lg_size (v : Z) (r : log) : log :=
  {| lg_start := lg_start r; lg_size := v; lg_outstanding := lg_outstanding r; lg_committing :=
     lg_committing r; lg_dev := lg_dev r; lh_n := lh_n r; lh_block := lh_block r |}.
Definition set_lg_outstanding (v : Z) (r : log) : log :=
  {| lg_start := lg_start r; lg_size := lg_size r; lg_outstanding := v; lg_committing :=
     lg_committing r; lg_dev := lg_dev r; lh_n := lh_n r; lh_block := lh_block r |}.
Definition set_lg_committing (v : bool) (r : log) : log :=
  {| lg_start := lg_start r; lg_size := lg_size r; lg_outstanding := lg_outstanding r;
     lg_committing := v; lg_dev := lg_dev r; lh_n := lh_n r; lh_block := lh_block r |}.
Definition set_lg_dev (v : Z) (r : log) : log :=
  {| lg_start := lg_start r; lg_size := lg_size r; lg_outstanding := lg_outstanding r;
     lg_committing := lg_committing r; lg_dev := v; lh_n := lh_n r; lh_block := lh_block r |}.
Definition set_lh_n (v : Z) (r : log) : log :=
  {| lg_start := lg_start r; lg_size := lg_size r; lg_outstanding := lg_outstanding r;
     lg_committing := lg_committing r; lg_dev := lg_dev r; lh_n := v; lh_block := lh_block r |}.
Definition set_lh_block (v : list Z) (r : log) : log :=
  {| lg_start := lg_start r; lg_size := lg_size r; lg_outstanding := lg_outstanding r;
     lg_committing := lg_committing r; lg_dev := lg_dev r; lh_n := lh_n r; lh_block := v |}.

(** kernel/console.c: the console's input buffer. *)
Record cons := mk_cons {
  c_buf : list Z;
  c_r : Z;
  c_w : Z;
  c_e : Z
}.

Definition set_c_buf (v : list Z) (r : cons) : cons :=
  {| c_buf := v; c_r := c_r r; c_w := c_w r; c_e := c_e r |}.
Definition set_c_r (v : Z) (r : cons) : cons :=
  {| c_buf := c_buf r; c_r := v; c_w := c_w r; c_e := c_e r |}.
Definition set_c_w (v : Z) (r : cons) : cons :=
  {| c_buf := c_buf r; c_r := c_r r; c_w := v; c_e := c_e r |}.
Definition set_c_e (v : Z) (r : cons) : cons :=
  {| c_buf := c_buf r; c_r := c_r r; c_w := c_w r; c_e := v |}.

(** kernel/uart.c: the transmit buffer, and the device: whether the transmit
    holding register is empty, the input that is waiting, and the bytes written
    to the transmit holding register so far. *)
Record uart := mk_uart {
  tx_buf : list Z;
  tx_w : Z;
  tx_r : Z;
  thr_idle : bool;
  rhr : list Z;
  thr_out : list Z
}.

Definition set_tx_buf (v : list Z) (r : uart) : uart :=
  {| tx_buf := v; tx_w := tx_w r; tx_r := tx_r r; thr_idle := thr_idle r; rhr := rhr r; thr_out
     := thr_out r |}.
Definition set_tx_w (v : Z) (r : uart) : uart :=
  {| tx_buf := tx_buf r; tx_w := v; tx_r := tx_r r; thr_idle := thr_idle r; rhr := rhr r;
     thr_out := thr_out r |}.
Definition set_tx_r (v : Z) (r : uart) : uart :=
  {| tx_buf := tx_buf r; tx_w := tx_w r; tx_r := v; thr_idle := thr_idle r; rhr := rhr r;
     thr_out := thr_out r |}.
Definition set_thr_idle (v : bool) (r : uart) : uart :=
  {| tx_buf := tx_buf r; tx_w := tx_w r; tx_r := tx_r r; thr_idle := v; rhr := rhr r; thr_out
     := thr_out r |}.
Definition set_rhr (v : list Z) (r : uart) : uart :=
  {| tx_buf := tx_buf r; tx_w := tx_w r; tx_r := tx_r r; thr_idle := thr_idle r; rhr := v;
     thr_out := thr_out r |}.
Definition set_thr_out (v : list Z) (r : uart) : uart :=
  {| tx_buf := tx_buf r; tx_w := tx_w r; tx_r := tx_r r; thr_idle := thr_idle r; rhr := rhr r;
     thr_out := v |}.

(** The running hart: its id, the process it runs ([c->proc]) and every lock held in the machine with the hart that holds it. *)
Record cpu_st := mk_cpu_st {
  hart : Z;
  curproc : option nat;
  locks : gmap lockid Z
}.

Definition set_hart (v : Z) (r : cpu_st) : cpu_st :=
  {| hart := v; curproc := curproc r; locks := locks r |}.
Definition set_curproc (v : option nat) (r : cpu_st) : cpu_st :=
  {| hart := hart r; curproc := v; locks := locks r |}.
Definition set_locks (v : gmap lockid Z) (r : cpu_st) : cpu_st :=
  {| hart := hart r; curproc := curproc r; locks := v |}.

(** Physical memory, [kmem.freelist] and [kernel_pagetable]. *)
Record mm_st := mk_mm_st {
  pmem : mem;
  freelist : Z;
  kernel_pagetable : Z
}.

Definition set_pmem (v : mem) (r : mm_st) : mm_st :=
  {| pmem := v; freelist := freelist r; kernel_pagetable := kernel_pagetable r |}.
Definition set_freelist (v : Z) (r : mm_st) : mm_st :=
  {| pmem := pmem r; freelist := v; kernel_pagetable := kernel_pagetable r |}.
Definition set_kernel_pagetable (v : Z) (r : mm_st) : mm_st :=
  {| pmem := pmem r; freelist := freelist r; kernel_pagetable := v |}.

(** kernel/proc.c's globals and [ticks]. *)
Record proc_st := mk_proc_st {
  procs : list proc;
  nextpid : Z;
  initproc : option nat;
  ticks : Z
}.

Definition set_procs (v : list proc) (r : proc_st) : proc_st :=
  {| procs := v; nextpid := nextpid r; initproc := initproc r; ticks := ticks r |}.
Definition set_nextpid (v : Z) (r : proc_st) : proc_st :=
  {| procs := procs r; nextpid := v; initproc := initproc r; ticks := ticks r |}.
Definition set_initproc (v : option nat) (r : proc_st) : proc_st :=
  {| procs := procs r; nextpid := nextpid r; initproc := v; ticks := ticks r |}.
Definition set_ticks (v : Z) (r : proc_st) : proc_st :=
  {| procs := procs r; nextpid := nextpid r; initproc := initproc r; ticks := v |}.

(** kernel/bio.c's [bcache] and the disk behind it: block contents and the sequence of block writes it received. *)
Record bio_st := mk_bio_st {
  bufs : list buf;
  head_prev : nat;
  head_next : nat;
  disk : gmap Z (list Z);
  dwrites : list (Z * list Z)
}.

Definition set_bufs (v : list buf) (r : bio_st) : bio_st :=
  {| bufs := v; head_prev := head_prev r; head_next := head_next r; disk := disk r; dwrites :=
     dwrites r |}.
Definition set_head_prev (v : nat) (r : bio_st) : bio_st :=
  {| bufs := bufs r; head_prev := v; head_next := head_next r; disk := disk r; dwrites :=
     dwrites r |}.
Definition set_head_next (v : nat) (r : bio_st) : bio_st :=
  {| bufs := bufs r; head_prev := head_prev r; head_next := v; disk := disk r; dwrites :=
     dwrites r |}.
Definition set_disk (v : gmap Z (list Z)) (r : bio_st) : bio_st :=
  {| bufs := bufs r; head_prev := head_prev r; head_next := head_next r; disk := v; dwrites :=
     dwrites r |}.
Definition set_dwrites (v : list (Z * list Z)) (r : bio_st) : bio_st :=
  {| bufs := bufs r; head_prev := head_prev r; head_next := head_next r; disk := disk r;
     dwrites := v |}.

(** kernel/fs.c's globals: [sb] and [itable]. *)
Record fs_st := mk_fs_st {
  sb : superblock;
  itable : list inode
}.

Definition set_sb (v : superblock) (r : fs_st) : fs_st :=
  {| sb := v; itable := itable r |}.
Definition set_itable (v : list inode) (r : fs_st) : fs_st :=
  {| sb := sb r; itable := v |}.

(** kernel/file.c's [ftable] and the pipes allocated by kernel/pipe.c. *)
Record file_st := mk_file_st {
  ftable : list file;
  pipes : gmap Z pipe
}.

Definition set_ftable (v : list file) (r : file_st) : file_st :=
  {| ftable := v; pipes := pipes r |}.
Definition set_pipes (v : gmap Z pipe) (r : file_st) : file_st :=
  {| ftable := ftable r; pipes := v |}.

(** The whole kernel. *)
Record kstate := mk_kstate {
  kcpu : cpu_st;
  kmm : mm_st;
  kproc : proc_st;
  kbio : bio_st;
  klog : log;
  kfs : fs_st;
  kfile : file_st;
  kcons : cons;
  kuart : uart
}.

Definition set_kcpu (v : cpu_st) (r : kstate) : kstate :=
  {| kcpu := v; kmm := kmm r; kproc := kproc r; kbio := kbio r; klog := klog r; kfs := kfs r;
     kfile := kfile r; kcons := kcons r; kuart := kuart r |}.
Definition set_kmm (v : mm_st) (r : kstate) : kstate :=
  {| kcpu := kcpu r; kmm := v; kproc := kproc r; kbio := kbio r; klog := klog r; kfs := kfs r;
     kfile := kfile r; kcons := kcons r; kuart := kuart r |}.
Definition set_kproc (v : proc_st) (r : kstate) : kstate :=
  {| kcpu := kcpu r; kmm := kmm r; kproc := v; kbio := kbio r; klog := klog r; kfs := kfs r;
     kfile := kfile r; kcons := kcons r; kuart := kuart r |}.
Definition set_kbio (v : bio_st) (r : kstate) : kstate :=
  {| kcpu := kcpu r; kmm := kmm r; kproc := kproc r; kbio := v; klog := klog r; kfs := kfs r;
     kfile := kfile r; kcons := kcons r; kuart := kuart r |}.
Definition set_klog (v : log) (r : kstate) : kstate :=
  {| kcpu := kcpu r; kmm := kmm r; kproc := kproc r; kbio := kbio r; klog := v; kfs := kfs r;
     kfile := kfile r; kcons := kcons r; kuart := kuart r |}.
Definition set_kfs (v : fs_st) (r : kstate) : kstate :=
  {| kcpu := kcpu r; kmm := kmm r; kproc := kproc r; kbio := kbio r; klog := klog r; kfs := v;
     kfile := kfile r; kcons := kcons r; kuart := kuart r |}.
Definition set_kfile (v : file_st) (r : kstate) : kstate :=
  {| kcpu := kcpu r; kmm := kmm r; kproc := kproc r; kbio := kbio r; klog := klog r; kfs := kfs
     r; kfile := v; kcons := kcons r; kuart := kuart r |}.
Definition set_kcons (v : cons) (r : kstate) : kstate :=
  {| kcpu := kcpu r; kmm := kmm r; kproc := kproc r; kbio := kbio r; klog := klog r; kfs := kfs
     r; kfile := kfile r; kcons := v; kuart := kuart r |}.
Definition set_kuart (v : uart) (r : kstate) : kstate :=
  {| kcpu := kcpu r; kmm := kmm r; kproc := kproc r; kbio := kbio r; klog := klog r; kfs := kfs
     r; kfile := kfile r; kcons := kcons r; kuart := v |}.

(** ** The globals as the code names them *)

Definition g_hart (s : kstate) : Z := hart (kcpu s).
Definition put_hart (v : Z) (s : kstate) : kstate := set_kcpu (set_hart v (kcpu s)) s.
Definition g_curproc (s : kstate) : option nat := curproc (kcpu s).
Definition put_curproc (v : option nat) (s : kstate) : kstate := set_kcpu (set_curproc v (kcpu s)) s.
Definition g_locks (s : kstate) : gmap lockid Z := locks (kcpu s).
Definition put_locks (v : gmap lockid Z) (s : kstate) : kstate := set_kcpu (set_locks v (kcpu s)) s.
Definition g_pmem (s : kstate) : mem := pmem (kmm s).
Definition put_pmem (v : mem) (s : kstate) : kstate := set_kmm (set_pmem v (kmm s)) s.
Definition g_freelist (s : kstate) : Z := freelist (kmm s).
Definition put_freelist (v : Z) (s : kstate) : kstate := set_kmm (set_freelist v (kmm s)) s.
Definition g_kernel_pagetable (s : kstate) : Z := kernel_pagetable (kmm s).
Definition put_kernel_pagetable (v : Z) (s : kstate) : kstate := set_kmm (set_kernel_pagetable v (kmm s)) s.
Definition g_procs (s : kstate) : list proc := procs (kproc s).
Definition put_procs (v : list proc) (s : kstate) : kstate := set_kproc (set_procs v (kproc s)) s.
Definition g_nextpid (s : kstate) : Z := nextpid (kproc s).
Definition put_nextpid (v : Z) (s : kstate) : kstate := set_kproc (set_nextpid v (kproc s)) s.
Definition g_initproc (s : kstate) : option nat := initproc (kproc s).
Definition put_initproc (v : option nat) (s : kstate) : kstate := set_kproc (set_initproc v (kproc s)) s.
Definition g_ticks (s : kstate) : Z := ticks (kproc s).
Definition put_ticks (v : Z) (s : kstate) : kstate := set_kproc (set_ticks v (kproc s)) s.
Definition g_bufs (s : kstate) : list buf := bufs (kbio s).
Definition put_bufs (v : list buf) (s : kstate) : kstate := set_kbio (set_bufs v (kbio s)) s.
Definition g_head_prev (s : kstate) : nat := head_prev (kbio s).
Definition put_head_prev (v : nat) (s : kstate) : kstate := set_kbio (set_head_prev v (kbio s)) s.
Definition g_head_next (s : kstate) : nat := head_next (kbio s).
Definition put_head_next (v : nat) (s : kstate) : kstate := set_kbio (set_head_next v (kbio s)) s.
Definition g_disk (s : kstate) : gmap Z (list Z) := disk (kbio s).
Definition put_disk (v : gmap Z (list Z)) (s : kstate) : kstate := set_kbio (set_disk v (kbio s)) s.
Definition g_dwrites (s : kstate) : list (Z * list Z) := dwrites (kbio s).
Definition put_dwrites (v : list (Z * list Z)) (s : kstate) : kstate := set_kbio (set_dwrites v (kbio s)) s.
Definition g_sb (s : kstate) : superblock := sb (kfs s).
Definition put_sb (v : superblock) (s : kstate) : kstate := set_kfs (set_sb v (kfs s)) s.
Definition g_itable (s : kstate) : list inode := itable (kfs s).
Definition put_itable (v : list inode) (s : kstate) : kstate := set_kfs (set_itable v (kfs s)) s.
Definition g_ftable (s : kstate) : list file := ftable (kfile s).
Definition put_ftable (v : list file) (s : kstate) : kstate := set_kfile (set_ftable v (kfile s)) s.
Definition g_pipes (s : kstate) : gmap Z pipe := pipes (kfile s).
Definition put_pipes (v : gmap Z pipe) (s : kstate) : kstate := set_kfile (set_pipes v (kfile s)) s.

(** Kernel code. *)
Abbreviation M := (K kstate).

(** ** Access to the static arrays *)

Section arrays.
Context {A : Type} (what : string) (proj : kstate -> list A) (put : list A -> kstate -> kstate).

(** [array[i]]; outside the array is undefined behaviour. *)
Definition arr_get (i : nat) : M A :=
  fun s => match proj s !! i with Some x => Ret x s | None => Fail (Undefined what) end.

Definition arr_put (i : nat) (x : A) : M unit :=
  fun s => match proj s !! i with
           | Some _ => Ret tt (put (<[i := x]> (proj s)) s)
           | None => Fail (Undefined what)
           end.

(** [array[i].field = ...] *)
Definition arr_upd (i : nat) (f : A -> A) : M unit :=
  fun s => match proj s !! i with
           | Some x => Ret tt (put (<[i := f x]> (proj s)) s)
           | None => Fail (Undefined what)
           end.

Lemma arr_get_run i s x : proj s !! i = Some x -> arr_get i s = Ret x s.
Proof. intros E. unfold arr_get. by rewrite E. Qed.

Lemma arr_upd_run i f s x :
  proj s !! i = Some x -> arr_upd i f s = Ret tt (put (<[i := f x]> (proj s)) s).
Proof. intros E. unfold arr_upd. by rewrite E. Qed.
End arrays.

Definition get_proc : nat -> M proc := arr_get "proc" g_procs.
Definition upd_proc : nat -> (proc -> proc) -> M unit := arr_upd "proc" g_procs put_procs.
Definition get_buf : nat -> M buf := arr_get "buf" g_bufs.
Definition upd_buf : nat -> (buf -> buf) -> M unit := arr_upd "buf" g_bufs put_bufs.
Definition get_inode : nat -> M inode := arr_get "inode" g_itable.
Definition upd_inode : nat -> (inode -> inode) -> M unit := arr_upd "inode" g_itable put_itable.
Definition get_file : nat -> M file := arr_get "file" g_ftable.
Definition upd_file : nat -> (file -> file) -> M unit := arr_upd "file" g_ftable put_ftable.

Definition get_pipe (pi : Z) : M pipe :=
  fun s => match g_pipes s !! pi with Some x => Ret x s | None => Fail (Undefined "pipe") end.
Definition put_pipe (pi : Z) (x : pipe) : M unit :=
  modify (fun s => put_pipes (<[pi := x]> (g_pipes s)) s).
Definition upd_pipe (pi : Z) (f : pipe -> pipe) : M unit :=
  x <- get_pipe pi ;; put_pipe pi (f x).

(** ** Spin locks, as one kernel thread sees them

    The contract of kernel/spinlock.c (implemented in [Spinlock], where the
    implementation is shown to satisfy it): a lock is free or held by one hart;
    acquiring a lock this hart already holds panics, as does releasing one it
    does not hold; acquiring a lock another hart holds spins. *)

Definition lock_acquire (l : lockid) : M unit := fun s =>
  match g_locks s !! l with
  | None => Ret tt (put_locks (<[l := g_hart s]> (g_locks s)) s)
  | Some h => if h =? g_hart s then Fail (Panicked "acquire") else Fail Spinning
  end.

Definition lock_holding (l : lockid) (s : kstate) : bool :=
  match g_locks s !! l with Some h => h =? g_hart s | None => false end.

Definition lock_release (l : lockid) : M unit := fun s =>
  if lock_holding l s then Ret tt (put_locks (delete l (g_locks s)) s)
  else Fail (Panicked "release").

(** The nesting depth of [push_off]: one per lock this hart holds. *)
Definition lock_depth (s : kstate) : nat :=
  size (filter (fun p => p.2 = g_hart s) (g_locks s)).

Definition lock_free (l : lockid) (s : kstate) : Prop := g_locks s !! l = None.

Lemma lock_acquire_run l s :
  lock_free l s -> lock_acquire l s = Ret tt (put_locks (<[l := g_hart s]> (g_locks s)) s).
Proof. intros E. unfold lock_acquire. by rewrite E. Qed.

Lemma put_locks_id s : put_locks (g_locks s) s = s.
Proof. by destruct s as [[] ? ? ? ? ? ? ? ?]. Qed.

Lemma put_locks_put L L' s : put_locks L (put_locks L' s) = put_locks L s.
Proof. done. Qed.

Lemma lock_release_run l s L :
  lock_free l s -> g_locks s = L ->
  lock_release l (put_locks (<[l := g_hart s]> L) s) = Ret tt s.
Proof.
  intros E <-. unfold lock_release, lock_holding.
  change (g_locks (put_locks (<[l := g_hart s]> (g_locks s)) s)) with (<[l := g_hart s]> (g_locks s)).
  rewrite lookup_insert_eq. change (g_hart (put_locks _ s)) with (g_hart s).
  rewrite Z.eqb_refl, delete_insert_id, put_locks_put, put_locks_id by done. done.
Qed.

Lemma lock_release_held l s h :
  g_locks s !! l = Some h -> g_hart s = h ->
  lock_release l s = Ret tt (put_locks (delete l (g_locks s)) s).
Proof. intros E <-. unfold lock_release, lock_holding. by rewrite E, Z.eqb_refl. Qed.

(** The end of a critical section entered with the lock table [L]. *)
Lemma lock_release_section l h L s :
  g_locks s = <[l := h]> L -> L !! l = None -> g_hart s = h ->
  lock_release l s = Ret tt (put_locks L s).
Proof.
  intros E HL Hh. erewrite lock_release_held; [|by rewrite E, lookup_insert_eq|done].
  by rewrite E, delete_insert_id.
Qed.

(** Read a global back from a state built by updates of globals: [g] is the
    global and [w] its own update. *)
Ltac kget1 g w :=
  match goal with
  | |- context [g (w ?v ?s)] => change (g (w v s)) with v
  | |- context [g (?p ?v ?s)] => change (g (p v s)) with (g s)
  end.
Ltac kget1_in g w H :=
  match type of H with
  | context [g (w ?v ?s)] => change (g (w v s)) with v in H
  | context [g (?p ?v ?s)] => change (g (p v s)) with (g s) in H
  end.
Ltac kget := repeat first
  [ kget1 g_hart put_hart
  | kget1 g_curproc put_curproc
  | kget1 g_locks put_locks
  | kget1 g_pmem put_pmem
  | kget1 g_freelist put_freelist
  | kget1 g_kernel_pagetable put_kernel_pagetable
  | kget1 g_procs put_procs
  | kget1 g_nextpid put_nextpid
  | kget1 g_initproc put_initproc
  | kget1 g_ticks put_ticks
  | kget1 g_bufs put_bufs
  | kget1 g_head_prev put_head_prev
  | kget1 g_head_next put_head_next
  | kget1 g_disk put_disk
  | kget1 g_dwrites put_dwrites
  | kget1 g_sb put_sb
  | kget1 g_itable put_itable
  | kget1 g_ftable put_ftable
  | kget1 g_pipes put_pipes
  | kget1 klog set_klog
  | kget1 kcons set_kcons
  | kget1 kuart set_kuart
  | kget1 kcpu set_kcpu
  | kget1 kmm set_kmm
  | kget1 kproc set_kproc
  | kget1 kbio set_kbio
  | kget1 kfs set_kfs
  | kget1 kfile set_kfile ].
Ltac kget_in H := repeat first
  [ kget1_in g_hart put_hart H
  | kget1_in g_curproc put_curproc H
  | kget1_in g_locks put_locks H
  | kget1_in g_pmem put_pmem H
  | kget1_in g_freelist put_freelist H
  | kget1_in g_kernel_pagetable put_kernel_pagetable H
  | kget1_in g_procs put_procs H
  | kget1_in g_nextpid put_nextpid H
  | kget1_in g_initproc put_initproc H
  | kget1_in g_ticks put_ticks H
  | kget1_in g_bufs put_bufs H
  | kget1_in g_head_prev put_head_prev H
  | kget1_in g_head_next put_head_next H
  | kget1_in g_disk put_disk H
  | kget1_in g_dwrites put_dwrites H
  | kget1_in g_sb put_sb H
  | kget1_in g_itable put_itable H
  | kget1_in g_ftable put_ftable H
  | kget1_in g_pipes put_pipes H
  | kget1_in klog set_klog H
  | kget1_in kcons set_kcons H
  | kget1_in kuart set_kuart H
  | kget1_in kcpu set_kcpu H
  | kget1_in kmm set_kmm H
  | kget1_in kproc set_kproc H
  | kget1_in kbio set_kbio H
  | kget1_in kfs set_kfs H
  | kget1_in kfile set_kfile H ].

(** Enter and leave a critical section of a sequence being executed. *)
Ltac kacquire H := rewrite lock_acquire_run by exact H; cbn [obind].
Ltac krelease H := erewrite lock_release_section; [|reflexivity|exact H|reflexivity]; cbn [obind].

Lemma put_pmem_put m m' s : put_pmem m (put_pmem m' s) = put_pmem m s.
Proof. done. Qed.

Lemma put_pmem_freelist m m' q s :
  put_pmem m (put_freelist q (put_pmem m' s)) = put_pmem m (put_freelist q s).
Proof. done. Qed.

Lemma put_procs_id s : put_procs (g_procs s) s = s.
Proof. by destruct s as [? ? [] ? ? ? ? ? ?]. Qed.

(** Equality of two states built from the same one by field updates. *)
Ltac kstate_cbv := cbv [
    g_hart g_curproc g_locks g_pmem g_freelist g_kernel_pagetable g_procs g_nextpid g_initproc
    g_ticks g_bufs g_head_prev g_head_next g_disk g_dwrites g_sb g_itable g_ftable g_pipes
    put_hart put_curproc put_locks put_pmem put_freelist put_kernel_pagetable put_procs
    put_nextpid put_initproc put_ticks put_bufs put_head_prev put_head_next put_disk put_dwrites
    put_sb put_itable put_ftable put_pipes set_hart set_curproc set_locks set_pmem set_freelist
    set_kernel_pagetable set_procs set_nextpid set_initproc set_ticks set_bufs set_head_prev
    set_head_next set_disk set_dwrites set_sb set_itable set_ftable set_pipes set_kcpu set_kmm
    set_kproc set_kbio set_klog set_kfs set_kfile set_kcons set_kuart hart curproc locks pmem
    freelist kernel_pagetable procs nextpid initproc ticks bufs head_prev head_next disk dwrites
    sb itable ftable pipes kcpu kmm kproc kbio klog kfs kfile kcons kuart].
Ltac kstate_eq :=
  repeat match goal with s : kstate |- _ => destruct s as [[] [] [] [] ? [] [] ? ?] end;
  kstate_cbv; reflexivity.

(** Execute the next statement of a sequence with an equation for it. *)
Ltac kstep L := erewrite bind_run; [|apply L].

(** A critical section: acquire, a body that keeps the lock table, release. *)
Definition with_lock {A} (l : lockid) (body : M A) : M A :=
  lock_acquire l ;; r <- body ;; lock_release l ;; ret r.

Lemma with_lock_run {A} l (body : M A) s a s' :
  lock_free l s ->
  body (put_locks (<[l := g_hart s]> (g_locks s)) s) = Ret a s' ->
  g_locks s' = <[l := g_hart s]> (g_locks s) -> g_hart s' = g_hart s ->
  with_lock l body s = Ret a (put_locks (g_locks s) s').
Proof.
  intros Hf Hb HL Hh. unfold with_lock.
  rewrite (bind_run _ _ _ _ _ (lock_acquire_run l s Hf)).
  rewrite (bind_run _ _ _ _ _ Hb). unfold bind, lock_release, lock_holding.
  rewrite HL, lookup_insert_eq, Hh, Z.eqb_refl. simpl.
  rewrite delete_insert_id by done. done.
Qed.

(** ** The current process *)

(** [myproc()]: [push_off]/[pop_off] around the read of [c->proc] cancel out. *)
Definition myproc : M (option nat) := gets g_curproc.

(** [myproc()] where the code dereferences the result. *)
Definition curp : M nat :=
  p <- myproc ;; the "myproc() == 0" p.

(** ** The state at boot: zeroed globals and an empty memory *)

Definition zero_sleeplock : sleeplock := {| sl_locked := false; sl_pid := 0 |}.
Definition zero_context : context := {| ra := 0; sp := 0; sregs := replicate 12 0 |}.
Definition zero_proc : proc :=
  {| p_state := UNUSED; p_chan := None; p_killed := false; p_xstate := 0; p_pid := 0;
     p_parent := None; p_kstack := 0; p_sz := 0; p_pagetable := 0; p_trapframe := 0;
     p_context := zero_context; p_ofile := replicate NOFILE None; p_cwd := None;
     p_name := replicate 16 0 |}.
Definition zero_buf : buf :=
  {| b_valid := false; b_disk := false; b_dev := 0; b_blockno := 0; b_lock := zero_sleeplock;
     b_refcnt := 0; b_prev := 0; b_next := 0; b_data := replicate 1024 0 |}.
Definition zero_inode : inode :=
  {| i_dev := 0; i_inum := 0; i_ref := 0; i_lock := zero_sleeplock; i_valid := false;
     i_type := 0; i_major := 0; i_minor := 0; i_nlink := 0; i_size := 0;
     i_addrs := replicate 13 0 |}.
Definition zero_file : file :=
  {| f_type := FD_NONE; f_ref := 0; f_readable := false; f_writable := false; f_pipe := 0;
     f_ip := None; f_off := 0; f_major := 0 |}.
Definition zero_sb : superblock :=
  {| sb_magic := 0; sb_size := 0; sb_nblocks := 0; sb_ninodes := 0; sb_nlog := 0;
     sb_logstart := 0; sb_inodestart := 0; sb_bmapstart := 0 |}.
Definition zero_log : log :=
  {| lg_start := 0; lg_size := 0; lg_outstanding := 0; lg_committing := false; lg_dev := 0;
     lh_n := 0; lh_block := replicate 30 0 |}.
Definition zero_cons : cons := {| c_buf := replicate 128 0; c_r := 0; c_w := 0; c_e := 0 |}.

Definition zero_uart : uart :=
  {| tx_buf := replicate 32 0; tx_w := 0; tx_r := 0; thr_idle := true; rhr := []; thr_out := [] |}.

Definition boot : kstate :=
  {| kcpu := {| hart := 0; curproc := None; locks := ∅ |};
     kmm := {| pmem := ∅; freelist := 0; kernel_pagetable := 0 |};
     kproc := {| procs := replicate NPROC zero_proc; nextpid := 1; initproc := None; ticks := 0 |};
     kbio := {| bufs := replicate NBUF zero_buf; head_prev := 0; head_next := 0; disk := ∅; dwrites := [] |};
     klog := zero_log;
     kfs := {| sb := zero_sb; itable := replicate NINODE zero_inode |};
     kfile := {| ftable := replicate NFILE zero_file; pipes := ∅ |};
     kcons := zero_cons;
     kuart := zero_uart |}.

(** [boot] with process 0 running. *)
Definition running (p : proc) : kstate :=
  put_procs (<[0%nat := p]> (g_procs boot)) (put_curproc (Some 0%nat) boot).
