(* ===== verification/Spinlock.v ===== *)
(** * kernel/spinlock.c

    The lock implementation at the level of its shared-memory accesses.
    [push_off]/[pop_off] work on the per-CPU record; [acquire] and [release] are
    given twice: as sequential functions (what one hart executes when no other
    hart interferes), and as a step relation in which every access to the lock
    word or to [lk->cpu] is one step and the harts interleave freely.  The step
    relation is shown to implement the contract [Kstate.lock_acquire] /
    [Kstate.lock_release] that the rest of the kernel is verified against. *)

From Stdlib Require Import ZArith Lia.
From stdpp Require Import base list gmap strings numbers option relations functions.
From S2P Require Import Prelude Kstate.

Module Spin.


(** kernel/proc.h: the fields of [struct cpu] the locks use, and the hart's
    supervisor interrupt-enable bit (SSTATUS_SIE). *)
Record cpu := mk_cpu { noff : Z; intena : bool; sie : bool }.

(** kernel/spinlock.h: [struct spinlock]; [lk_cpu] is the holder's index in [cpus]. *)
Record spinlock := mk_spinlock { locked : Z; lk_name : string; lk_cpu : option Z }.

Definition set_noff v c := {| noff := v; intena := intena c; sie := sie c |}.
Definition set_intena v c := {| noff := noff c; intena := v; sie := sie c |}.
Definition set_sie v c := {| noff := noff c; intena := intena c; sie := v |}.
Definition set_locked v l := {| locked := v; lk_name := lk_name l; lk_cpu := lk_cpu l |}.
Definition set_lk_cpu v l := {| locked := locked l; lk_name := lk_name l; lk_cpu := v |}.

(** ** Interrupts and their nesting *)

Definition intr_on : K cpu unit := modify (set_sie true).
Definition intr_off : K cpu unit := modify (set_sie false).
Definition intr_get : K cpu bool := gets sie.

Definition push_off : K cpu unit :=
  old <- intr_get ;;
  intr_off ;;
  n <- gets noff ;;
  when (n =? 0) (modify (set_intena old)) ;;
  modify (fun c => set_noff (noff c + 1) c).

Definition pop_off : K cpu unit :=
  on <- intr_get ;;
  if (on : bool) then panic "pop_off - interruptible" else
  n <- gets noff ;;
  if n <? 1 then panic "pop_off" else
  modify (fun c => set_noff (noff c - 1) c) ;;
  c <- gets (fun c => c) ;;
  when ((noff c =? 0) && intena c) intr_on.

(** A sequence of calls, [true] for [push_off] and [false] for [pop_off]. *)
Fixpoint run_nest (ops : list bool) : K cpu unit :=
  match ops with
  | [] => ret tt
  | b :: ops' => (if (b : bool) then push_off else pop_off) ;; run_nest ops'
  end.

(** Properly nested sequences. *)
Inductive nested : list bool -> Prop :=
| nested_nil : nested []
| nested_pair w1 w2 : nested w1 -> nested w2 -> nested (true :: w1 ++ false :: w2).

(** The invariant of a CPU: while some [push_off] is pending, interrupts are off. *)
Definition cpu_ok (c : cpu) : Prop := 0 <= noff c /\ (0 < noff c -> sie c = false).

Lemma push_off_run c :
  push_off c = Ret tt (mk_cpu (noff c + 1) (if noff c =? 0 then sie c else intena c) false).
Proof. unfold push_off, bind, intr_get, intr_off, gets, modify, when. simpl. by destruct (noff c =? 0). Qed.

Lemma run_nest_app w1 w2 c :
  run_nest (w1 ++ w2) c = bind (run_nest w1) (fun _ => run_nest w2) c.
Proof.
  revert c; induction w1 as [|[] w1 IH]; intros c; [done| |]; cbn [run_nest app]; unfold bind.
  - rewrite push_off_run. simpl. apply IH.
  - destruct (pop_off c) eqn:E; simpl; [apply IH|done|].
    revert E. unfold pop_off, intr_get, intr_on. krun.
    destruct (sie c); [intros E; discriminate E|]. destruct (noff c <? 1); [intros E; discriminate E|]. simpl.
    destruct ((noff c - 1 =? 0) && intena c); intros E; discriminate E.
Qed.

Lemma pop_off_run c :
  sie c = false -> 1 <= noff c ->
  pop_off c = Ret tt (mk_cpu (noff c - 1) (intena c) ((noff c - 1 =? 0) && intena c)).
Proof.
  intros Hs Hn. unfold pop_off, bind, intr_get, gets, modify, when. simpl. rewrite Hs.
  destruct (Z.ltb_spec (noff c) 1); [lia|]. simpl.
  destruct ((noff c - 1 =? 0) && intena c) eqn:E; unfold set_noff, set_sie; simpl; [done|].
  by rewrite Hs.
Qed.

(** Every properly nested sequence of [push_off]/[pop_off] runs without panic
    and gives back the nesting depth and the interrupt state it started from. *)
Lemma nested_restores w c :
  nested w -> cpu_ok c ->
  exists c', run_nest w c = Ret tt c' /\ noff c' = noff c /\ sie c' = sie c /\
             (0 < noff c -> c' = c).
Proof.
  intros Hw. revert c. induction Hw as [|w1 w2 _ IH1 _ IH2]; intros c [H0 Hoff].
  { by exists c. }
  cbn [run_nest]. unfold bind at 1. rewrite push_off_run. cbn [obind].
  set (c1 := mk_cpu (noff c + 1) (if noff c =? 0 then sie c else intena c) false).
  destruct (IH1 c1) as (c2 & E1 & _ & _ & Heq); [by split; simpl; lia|].
  assert (c2 = c1) as -> by (apply Heq; simpl; lia).
  rewrite run_nest_app. unfold bind. rewrite E1. cbn [obind run_nest]. unfold bind.
  rewrite pop_off_run by (done || (simpl; lia)). cbn [obind]. simpl noff.
  replace (noff c + 1 - 1) with (noff c) by lia.
  set (c3 := mk_cpu _ _ _).
  assert (sie c3 = sie c) as Hsie.
  { simpl. destruct (Z.eqb_spec (noff c) 0); [done|]. simpl. symmetry. apply Hoff. lia. }
  assert (0 < noff c -> c3 = c) as Hc3.
  { intros. unfold c3. simpl. destruct (Z.eqb_spec (noff c) 0); [lia|]. simpl.
    rewrite <- (Hoff ltac:(lia)). by destruct c. }
  destruct (IH2 c3) as (c4 & E2 & Hn & Hs & Heq2).
  { split; [simpl; lia|]. intros Hp. simpl in Hp. rewrite Hc3 by lia. apply Hoff. lia. }
  exists c4. rewrite E2. repeat split; [done|by rewrite Hs|].
  intros. rewrite Heq2 by done. by apply Hc3.
Qed.

(** ** One hart alone *)

(** The lock and the CPU of the hart [me] that executes. *)
Record pair_st := mk_pair { pcpu : cpu; plk : spinlock }.
Definition on_cpu (m : K cpu unit) : K pair_st unit := fun s =>
  match m (pcpu s) with
  | Ret _ c => Ret tt {| pcpu := c; plk := plk s |}
  | Fail f => Fail f
  | Switch _ _ => Fail (Undefined "swtch")
  end.
Definition on_lk (f : spinlock -> spinlock) : K pair_st unit :=
  modify (fun s => {| pcpu := pcpu s; plk := f (plk s) |}).

Definition initlock (name : string) : K pair_st unit :=
  on_lk (fun lk => {| locked := locked lk; lk_name := name; lk_cpu := lk_cpu lk |}) ;;
  on_lk (set_locked 0) ;;
  on_lk (set_lk_cpu None).

(** [lk->locked && lk->cpu == mycpu()] *)
Definition holding (me : Z) : K pair_st bool :=
  gets (fun s => negb (locked (plk s) =? 0) && bool_decide (lk_cpu (plk s) = Some me)).

(** [__sync_lock_test_and_set(&lk->locked, 1)]: an atomic swap. *)
Definition test_and_set : K pair_st Z :=
  old <- gets (fun s => locked (plk s)) ;; on_lk (set_locked 1) ;; ret old.

(** The spin loop returns on the first iteration that reads 0; alone, a hart
    that reads 1 reads 1 forever. *)
Definition acquire (me : Z) : K pair_st unit :=
  on_cpu push_off ;;
  h <- holding me ;;
  if (h : bool) then panic "acquire" else
  old <- test_and_set ;;
  if negb (old =? 0) then fail Spinning else
  on_lk (set_lk_cpu (Some me)).

Definition release (me : Z) : K pair_st unit :=
  h <- holding me ;;
  if negb h then panic "release" else
  on_lk (set_lk_cpu None) ;;
  on_lk (set_locked 0) ;;
  on_cpu pop_off.

(** ** All harts together *)

(** Where a hart is inside [acquire]/[release]: [AcqChk]/[RelChk] are about to
    read [lk->locked] in [holding], [AcqChk2]/[RelChk2] about to read [lk->cpu],
    [AcqTas] is in the spin loop, [AcqSet] has the lock word but has not yet
    recorded itself in [lk->cpu], [RelStore] has cleared [lk->cpu]. *)
Inductive pc :=
| Idle
| AcqChk (l : lockid) | AcqChk2 (l : lockid) | AcqTas (l : lockid) | AcqSet (l : lockid)
| RelChk (l : lockid) | RelChk2 (l : lockid) | RelClear (l : lockid) | RelStore (l : lockid) | RelPop
| Dead (msg : string).

Record machine := mk_machine {
  m_cpu : Z -> cpu;
  m_lk : lockid -> spinlock;
  m_pc : Z -> pc
}.

Definition with_cpu (h : Z) (c : cpu) (p : pc) (s : machine) : machine :=
  {| m_cpu := <[h := c]> (m_cpu s); m_lk := m_lk s; m_pc := <[h := p]> (m_pc s) |}.
Definition with_lk (h : Z) (l : lockid) (k : spinlock) (p : pc) (s : machine) : machine :=
  {| m_cpu := m_cpu s; m_lk := <[l := k]> (m_lk s); m_pc := <[h := p]> (m_pc s) |}.
Definition goto (h : Z) (p : pc) (s : machine) : machine :=
  {| m_cpu := m_cpu s; m_lk := m_lk s; m_pc := <[h := p]> (m_pc s) |}.

(** One step of hart [h].  A hart in [Idle] may start [acquire] or [release] of
    any lock (the caller's discipline is not assumed: a wrong call panics). *)
Inductive step (h : Z) (s : machine) : machine -> Prop :=
| st_acquire l c :
    m_pc s h = Idle -> push_off (m_cpu s h) = Ret tt c ->
    step h s (with_cpu h c (AcqChk l) s)
| st_acq_free l :
    m_pc s h = AcqChk l -> locked (m_lk s l) = 0 -> step h s (goto h (AcqTas l) s)
| st_acq_taken l :
    m_pc s h = AcqChk l -> locked (m_lk s l) <> 0 -> step h s (goto h (AcqChk2 l) s)
| st_acq_other l :
    m_pc s h = AcqChk2 l -> lk_cpu (m_lk s l) <> Some h -> step h s (goto h (AcqTas l) s)
| st_acq_panic l :
    m_pc s h = AcqChk2 l -> lk_cpu (m_lk s l) = Some h -> step h s (goto h (Dead "acquire") s)
| st_tas_spin l :
    m_pc s h = AcqTas l -> locked (m_lk s l) <> 0 ->
    step h s (with_lk h l (set_locked 1 (m_lk s l)) (AcqTas l) s)
| st_tas_win l :
    m_pc s h = AcqTas l -> locked (m_lk s l) = 0 ->
    step h s (with_lk h l (set_locked 1 (m_lk s l)) (AcqSet l) s)
| st_set_cpu l :
    m_pc s h = AcqSet l ->
    step h s (with_lk h l (set_lk_cpu (Some h) (m_lk s l)) Idle s)
| st_release l :
    m_pc s h = Idle -> step h s (goto h (RelChk l) s)
| st_rel_free l :
    m_pc s h = RelChk l -> locked (m_lk s l) = 0 -> step h s (goto h (Dead "release") s)
| st_rel_taken l :
    m_pc s h = RelChk l -> locked (m_lk s l) <> 0 -> step h s (goto h (RelChk2 l) s)
| st_rel_other l :
    m_pc s h = RelChk2 l -> lk_cpu (m_lk s l) <> Some h -> step h s (goto h (Dead "release") s)
| st_rel_mine l :
    m_pc s h = RelChk2 l -> lk_cpu (m_lk s l) = Some h -> step h s (goto h (RelClear l) s)
| st_clear l :
    m_pc s h = RelClear l ->
    step h s (with_lk h l (set_lk_cpu None (m_lk s l)) (RelStore l) s)
| st_store l :
    m_pc s h = RelStore l ->
    step h s (with_lk h l (set_locked 0 (m_lk s l)) RelPop s)
| st_pop c :
    m_pc s h = RelPop -> pop_off (m_cpu s h) = Ret tt c ->
    step h s (with_cpu h c Idle s)
| st_pop_panic msg :
    m_pc s h = RelPop -> pop_off (m_cpu s h) = Fail (Panicked msg) ->
    step h s (goto h (Dead msg) s).

Definition any_step (s s' : machine) : Prop := exists h, step h s s'.

(** Boot: every lock initialised, every hart outside the lock code. *)
Definition initial (s : machine) : Prop :=
  (forall l, locked (m_lk s l) = 0 /\ lk_cpu (m_lk s l) = None) /\
  (forall h, m_pc s h = Idle /\ noff (m_cpu s h) = 0).

(** Hart [h] owns lock [l]: it holds the lock word. *)
Definition owns (s : machine) (h : Z) (l : lockid) : Prop :=
  m_pc s h = AcqSet l \/ m_pc s h = RelStore l \/ lk_cpu (m_lk s l) = Some h.

(** ** The invariant that ties the implementation to the contract *)

(** Calls to [push_off] not yet matched and not accounted for by an owned lock. *)
Definition pending (p : pc) : Z :=
  match p with AcqChk _ | AcqChk2 _ | AcqTas _ | RelPop => 1 | _ => 0 end.

Definition dead (p : pc) : bool := match p with Dead _ => true | _ => false end.

(** The number of locks of the table [L] held by hart [h]. *)
Definition held_by (h : Z) (L : gmap lockid Z) : Z := Z.of_nat (size (filter (fun p => p.2 = h) L)).

(** [refines s L]: the machine [s] implements the lock table [L] of the contract. *)
Record refines (s : machine) (L : gmap lockid Z) : Prop := {
  rf_owns : forall l h, L !! l = Some h <-> owns s h l;
  rf_word : forall l, locked (m_lk s l) = match L !! l with Some _ => 1 | None => 0 end;
  rf_cpu_none : forall h l, m_pc s h = AcqSet l \/ m_pc s h = RelStore l -> lk_cpu (m_lk s l) = None;
  rf_cpu_mine : forall h l, m_pc s h = RelClear l -> lk_cpu (m_lk s l) = Some h;
  rf_noff : forall h, dead (m_pc s h) = false -> noff (m_cpu s h) = held_by h L + pending (m_pc s h);
  rf_cpu : forall h, cpu_ok (m_cpu s h)
}.

Lemma fn_upd {A B} `{EqDecision A} (f : A -> B) a b c :
  (<[a := b]> f : A -> B) c = if decide (a = c) then b else f c.
Proof.
  destruct (decide (a = c)) as [->|]; [apply fn_lookup_insert|by apply fn_lookup_insert_ne].
Qed.

Lemma held_by_insert h h' l L :
  L !! l = None -> held_by h (<[l := h']> L) = held_by h L + (if decide (h' = h) then 1 else 0).
Proof.
  intros Hl. unfold held_by. case_decide as E.
  - rewrite map_filter_insert_True by done.
    rewrite map_size_insert_None by (by rewrite map_lookup_filter, Hl). lia.
  - rewrite map_filter_insert_False by done. rewrite delete_id by done. lia.
Qed.

Lemma held_by_delete h h' l L :
  L !! l = Some h' -> held_by h (delete l L) = held_by h L - (if decide (h' = h) then 1 else 0).
Proof.
  intros Hl. assert (L = <[l := h']> (delete l L)) as E by (by rewrite insert_delete_id).
  rewrite E at 2. rewrite held_by_insert by apply lookup_delete_eq. lia.
Qed.

(** The program points that do not decide ownership of a lock. *)
Definition neutral (p : pc) : Prop := forall l, p <> AcqSet l /\ p <> RelStore l.

Lemma owns_goto s h p h' l :
  neutral (m_pc s h) -> neutral p -> owns (goto h p s) h' l <-> owns s h' l.
Proof.
  intros Hn Hp. unfold owns, goto. simpl. rewrite !fn_upd.
  destruct (decide (h = h')) as [->|]; [|done].
  destruct (Hn l) as [H1 H2], (Hp l) as [H3 H4]. naive_solver.
Qed.

(** A step that only moves a hart between neutral points keeps the table. *)
Lemma refines_goto s L h p :
  refines s L -> neutral (m_pc s h) -> neutral p ->
  (forall l, p = RelClear l -> lk_cpu (m_lk s l) = Some h) ->
  (dead p = false -> dead (m_pc s h) = false /\ pending p = pending (m_pc s h)) ->
  refines (goto h p s) L.
Proof.
  intros [Ho Hw Hn Hm Hf Hc] Hnp Hpp Hcl Hpend. split.
  - intros. by rewrite owns_goto.
  - done.
  - intros h' l. simpl. rewrite fn_upd. case_decide; [|by apply Hn].
    destruct (Hpp l). naive_solver.
  - intros h' l. simpl. rewrite fn_upd. case_decide; [|by apply Hm]. subst. apply Hcl.
  - intros h'. simpl. rewrite fn_upd. case_decide; [|by apply Hf]. subst.
    intros Hd. destruct (Hpend Hd) as [Hd' ->]. by apply Hf.
  - done.
Qed.

Lemma neutral_by p : match p with AcqSet _ | RelStore _ => False | _ => True end -> neutral p.
Proof. by destruct p; intros []; split. Qed.

(** Two harts never own the same lock. *)
Lemma refines_unique s L h h' l : refines s L -> owns s h l -> owns s h' l -> h = h'.
Proof. intros [Ho _ _ _ _ _] H1%Ho H2%Ho. congruence. Qed.

(** What one step of the implementation does to the contract's lock table. *)
Inductive abs_step (h : Z) (L : gmap lockid Z) : gmap lockid Z -> Prop :=
| abs_none : abs_step h L L
| abs_acquire l : L !! l = None -> abs_step h L (<[l := h]> L)
| abs_release l : L !! l = Some h -> abs_step h L (delete l L).

Lemma refines_win s L h l :
  refines s L -> m_pc s h = AcqTas l -> locked (m_lk s l) = 0 ->
  refines (with_lk h l (set_locked 1 (m_lk s l)) (AcqSet l) s) (<[l := h]> L) /\ L !! l = None.
Proof.
  intros [Ho Hw Hn Hm Hf Hc] Hp Hz.
  assert (L !! l = None) as HL by (rewrite Hw in Hz; by destruct (L !! l)).
  assert (forall h', ~ owns s h' l) as Hno.
  { intros h' Hown. apply Ho in Hown. congruence. }
  split; [|done]. split.
  - intros l' h'. unfold owns. simpl. rewrite !fn_upd. rewrite lookup_insert.
    specialize (Ho l' h'). unfold owns in Ho. specialize (Hno h'). unfold owns in Hno.
    repeat case_decide; subst; simpl; naive_solver congruence.
  - intros l'. simpl. rewrite fn_upd, lookup_insert. case_decide; [done|apply Hw].
  - intros h' l'. simpl. rewrite !fn_upd. specialize (Hno h). unfold owns in Hno.
    specialize (Hn h' l'). specialize (Hno). pose proof (Ho l' h') as Ho'.
    destruct (decide (l = l')) as [<-|]; simpl.
    + intros _. destruct (lk_cpu (m_lk s l)) as [c|] eqn:E; [|done].
      exfalso. assert (owns s c l) as Hx by (unfold owns; auto). apply Ho in Hx. congruence.
    + case_decide; [|done]. subst. naive_solver.
  - intros h' l'. simpl. rewrite !fn_upd. repeat case_decide; subst; simpl; try naive_solver.
    all: intros Hx; by apply Hm.
  - intros h'. simpl. rewrite fn_upd. rewrite held_by_insert by done. intros Hd.
    specialize (Hf h'). case_decide; subst.
    + rewrite Hp in Hf. simpl in Hf. rewrite Hf by done. simpl. lia.
    + rewrite Hf by done. lia.
  - done.
Qed.

Ltac spin_fields Ho Hw Hn Hm Hf Hc :=
  split;
  [ intros l' h'; unfold owns; simpl; rewrite !fn_upd; specialize (Ho l' h'); unfold owns in Ho
  | intros l'; simpl; rewrite ?fn_upd; specialize (Hw l')
  | intros h' l'; simpl; rewrite !fn_upd; specialize (Hn h' l')
  | intros h' l'; simpl; rewrite !fn_upd; specialize (Hm h' l')
  | intros h'; simpl; rewrite ?fn_upd; specialize (Hf h')
  | intros h'; simpl; rewrite ?fn_upd; specialize (Hc h') ].

Lemma refines_spin s L h l :
  refines s L -> m_pc s h = AcqTas l -> locked (m_lk s l) <> 0 ->
  refines (with_lk h l (set_locked 1 (m_lk s l)) (AcqTas l) s) L.
Proof.
  intros [Ho Hw Hn Hm Hf Hc] Hp Hz. pose proof (Hw l) as Hwl.
  spin_fields Ho Hw Hn Hm Hf Hc.
  - repeat case_decide; subst; simpl; naive_solver congruence.
  - case_decide; [|done]. subst. simpl. by destruct (L !! l').
  - repeat case_decide; subst; simpl; naive_solver congruence.
  - repeat case_decide; subst; simpl; naive_solver congruence.
  - case_decide; [|done]. subst. rewrite Hp in Hf. done.
  - done.
Qed.

Lemma refines_set_cpu s L h l :
  refines s L -> m_pc s h = AcqSet l ->
  refines (with_lk h l (set_lk_cpu (Some h) (m_lk s l)) Idle s) L.
Proof.
  intros HR Hp. pose proof HR as [Ho Hw Hn Hm Hf Hc].
  assert (forall h', owns s h' l -> h' = h) as Hu.
  { intros h' Hh'. eapply refines_unique; [done..|]. unfold owns. auto. }
  assert (lk_cpu (m_lk s l) = None) as Hnone by (apply (Hn h); auto).
  assert (forall h', h' <> h -> m_pc s h' <> AcqSet l /\ m_pc s h' <> RelStore l /\ m_pc s h' <> RelClear l) as Hoth.
  { intros h' Hne. repeat split; intros Hx; apply Hne, Hu; unfold owns; auto. }
  spin_fields Ho Hw Hn Hm Hf Hc.
  - rewrite Ho. destruct (decide (l = l')) as [<-|]; simpl.
    + destruct (decide (h = h')) as [<-|Hne]; [naive_solver|].
      destruct (Hoth h' ltac:(congruence)). naive_solver congruence.
    + case_decide; subst; naive_solver congruence.
  - case_decide; [|done]. by subst.
  - destruct (decide (h = h')) as [<-|]; [naive_solver|].
    destruct (Hoth h' ltac:(congruence)) as (? & ? & ?). case_decide; subst; naive_solver.
  - destruct (decide (h = h')) as [<-|]; [naive_solver|].
    destruct (Hoth h' ltac:(congruence)) as (? & ? & ?). case_decide; subst; naive_solver.
  - case_decide; [|done]. subst. rewrite Hp in Hf. done.
  - done.
Qed.

Lemma refines_clear s L h l :
  refines s L -> m_pc s h = RelClear l ->
  refines (with_lk h l (set_lk_cpu None (m_lk s l)) (RelStore l) s) L.
Proof.
  intros HR Hp. pose proof HR as [Ho Hw Hn Hm Hf Hc].
  assert (lk_cpu (m_lk s l) = Some h) as Hcpu by (by apply Hm).
  assert (forall h', h' <> h -> m_pc s h' <> AcqSet l /\ m_pc s h' <> RelStore l /\ m_pc s h' <> RelClear l) as Hoth.
  { intros h' Hne. repeat split; intros Hx; apply Hne.
    1,2: eapply refines_unique; [done|unfold owns; eauto..].
    apply Hm in Hx. congruence. }
  spin_fields Ho Hw Hn Hm Hf Hc.
  - rewrite Ho. destruct (decide (l = l')) as [<-|]; simpl.
    + destruct (decide (h = h')) as [<-|Hne]; [naive_solver|].
      destruct (Hoth h' ltac:(congruence)). naive_solver congruence.
    + case_decide; subst; naive_solver congruence.
  - case_decide; [|done]. by subst.
  - destruct (decide (h = h')) as [<-|].
    + case_decide; subst; naive_solver.
    + destruct (Hoth h' ltac:(congruence)) as (? & ? & ?). case_decide; subst; naive_solver.
  - destruct (decide (h = h')) as [<-|]; [naive_solver|].
    destruct (Hoth h' ltac:(congruence)) as (? & ? & ?). case_decide; subst; naive_solver.
  - case_decide; [|done]. subst. rewrite Hp in Hf. done.
  - done.
Qed.

Lemma refines_store s L h l :
  refines s L -> m_pc s h = RelStore l ->
  refines (with_lk h l (set_locked 0 (m_lk s l)) RelPop s) (delete l L) /\ L !! l = Some h.
Proof.
  intros HR Hp. pose proof HR as [Ho Hw Hn Hm Hf Hc].
  assert (lk_cpu (m_lk s l) = None) as Hnone by (apply (Hn h); auto).
  assert (L !! l = Some h) as HL by (apply Ho; unfold owns; auto).
  assert (forall h', h' <> h -> m_pc s h' <> AcqSet l /\ m_pc s h' <> RelStore l /\ m_pc s h' <> RelClear l) as Hoth.
  { intros h' Hne. repeat split; intros Hx; apply Hne.
    1,2: eapply refines_unique; [done|unfold owns; eauto..].
    apply Hm in Hx. congruence. }
  split; [|done]. spin_fields Ho Hw Hn Hm Hf Hc.
  - rewrite lookup_delete. destruct (decide (l = l')) as [<-|]; simpl.
    + rewrite Hnone. destruct (decide (h = h')) as [<-|Hne]; [naive_solver|].
      destruct (Hoth h' ltac:(congruence)). naive_solver congruence.
    + rewrite Ho. case_decide; subst; naive_solver congruence.
  - rewrite lookup_delete. by case_decide.
  - destruct (decide (h = h')) as [<-|]; [naive_solver|].
    destruct (Hoth h' ltac:(congruence)) as (? & ? & ?). case_decide; subst; naive_solver.
  - destruct (decide (h = h')) as [<-|]; [naive_solver|].
    destruct (Hoth h' ltac:(congruence)) as (? & ? & ?). case_decide; subst; naive_solver.
  - rewrite (held_by_delete _ h) by done. intros Hd. case_decide; subst.
    + rewrite Hp in Hf. simpl in Hf. rewrite Hf by done. simpl. lia.
    + rewrite Hf by done. lia.
  - done.
Qed.

Lemma refines_cpu s L h c p :
  refines s L -> neutral (m_pc s h) -> neutral p -> (forall l, p <> RelClear l) ->
  noff c = held_by h L + pending p -> cpu_ok c -> refines (with_cpu h c p s) L.
Proof.
  intros [Ho Hw Hn Hm Hf Hc] Hnp Hpp Hcl Hnoff Hok. split; simpl.
  - intros l h'. rewrite Ho. unfold owns. simpl. rewrite fn_upd.
    destruct (decide (h = h')) as [->|]; [|done].
    destruct (Hnp l), (Hpp l). naive_solver.
  - done.
  - intros h' l. rewrite fn_upd. case_decide; [|by apply Hn]. destruct (Hpp l). naive_solver.
  - intros h' l. rewrite fn_upd. case_decide; [|by apply Hm]. naive_solver.
  - intros h'. rewrite !fn_upd. case_decide; [|by apply Hf]. by subst.
  - intros h'. rewrite fn_upd. by case_decide.
Qed.

Lemma held_by_nonneg h L : 0 <= held_by h L.
Proof. unfold held_by. lia. Qed.

(** ** The implementation refines the contract *)

Lemma step_refines s L h s' :
  refines s L -> step h s s' -> exists L', refines s' L' /\ abs_step h L L'.
Proof.
  intros HR Hs. pose proof (held_by_nonneg h L) as Hpos.
  pose proof (rf_noff _ _ HR h) as Hnoff. pose proof (rf_cpu _ _ HR h) as [Hok1 Hok2].
  destruct Hs as [l c Hp Hc|l Hp ?|l Hp ?|l Hp ?|l Hp ?|l Hp ?|l Hp ?|l Hp|l Hp|l Hp ?|l Hp ?
                 |l Hp ?|l Hp ?|l Hp|l Hp|c Hp Hc|msg Hp Hc].
  7:{ exists (<[l := h]> L). destruct (refines_win s L h l); eauto using abs_step. }
  14:{ exists (delete l L). destruct (refines_store s L h l); eauto using abs_step. }
  all: exists L; split; [|constructor].
  all: try (apply refines_goto; [done|rewrite Hp; by apply neutral_by|by apply neutral_by
              |by naive_solver|rewrite Hp; done]).
  - rewrite push_off_run in Hc. injection Hc as <-. rewrite Hp in Hnoff. simpl in Hnoff.
    apply refines_cpu; [done|rewrite Hp; by apply neutral_by|by apply neutral_by|done|simpl; rewrite Hnoff by done; lia|].
    split; simpl; [lia|done].
  - by apply refines_spin.
  - by apply refines_set_cpu.
  - by apply refines_clear.
  - rewrite Hp in Hnoff. simpl in Hnoff. rewrite pop_off_run in Hc by (apply Hok2 || idtac; lia).
    injection Hc as <-.
    apply refines_cpu; [done|rewrite Hp; by apply neutral_by|by apply neutral_by|done|simpl; rewrite Hnoff by done; lia|].
    split; simpl; [lia|]. destruct (Z.eqb_spec (noff (m_cpu s h) - 1) 0); [lia|]. done.
Qed.

Lemma initial_refines s : initial s -> (forall h, cpu_ok (m_cpu s h)) -> refines s ∅.
Proof.
  intros [Hl Hh] Hc. split; [|intros l; apply Hl| | | |done].
  - intros l h. rewrite lookup_empty. unfold owns.
    destruct (Hl l) as [_ ->], (Hh h) as [-> _]. split; [done|]. intros [?|[?|?]]; congruence.
  - intros h l _. apply Hl.
  - intros h l. destruct (Hh h) as [-> _]. done.
  - intros h _. destruct (Hh h) as [-> ->]. done.
Qed.

Lemma reachable_refines s s' :
  initial s -> (forall h, cpu_ok (m_cpu s h)) -> rtc any_step s s' -> exists L, refines s' L.
Proof.
  intros Hi Hc Hr.
  assert (exists L, refines s L) as Hinv by eauto using initial_refines.
  clear Hi Hc. induction Hr as [s|s1 s2 s3 [h Hs] _ IH]; [done|].
  destruct Hinv as [L HL]. apply IH. destruct (step_refines _ _ _ _ HL Hs) as (L' & ? & _). eauto.
Qed.

(** [C6] Mutual exclusion.  From boot, under any interleaving of the harts'
    instructions, two harts never own the same lock, and a hart that owns a lock
    has its interrupts off. *)
Theorem mutual_exclusion s s' h1 h2 l :
  initial s -> (forall h, cpu_ok (m_cpu s h)) -> rtc any_step s s' ->
  owns s' h1 l ->
  (owns s' h2 l -> h1 = h2) /\ (dead (m_pc s' h1) = false -> sie (m_cpu s' h1) = false).
Proof.
  intros Hi Hc Hr H1. destruct (reachable_refines s s' Hi Hc Hr) as [L HL]. split.
  - intros H2. by eapply refines_unique.
  - intros Hd. destruct (rf_cpu _ _ HL h1) as [_ Hoff]. apply Hoff.
    rewrite (rf_noff _ _ HL h1 Hd). apply (rf_owns _ _ HL) in H1.
    pose proof (held_by_delete h1 h1 l L H1) as E. rewrite decide_True in E by done.
    pose proof (held_by_nonneg h1 (delete l L)). destruct (m_pc s' h1); simpl; lia.
Qed.

(** [C7] Refinement.  Every step of the implementation is, on the contract's
    lock table, either invisible, or exactly [lock_acquire] or [lock_release] of
    some lock by the stepping hart; and the implementation panics only where the
    contract does. *)
Theorem spinlock_refines_contract s h s' k :
  step h s s' -> refines s (g_locks k) -> g_hart k = h ->
  exists k', refines s' (g_locks k') /\
    (k' = k \/ exists l, lock_acquire l k = Ret tt k' \/ lock_release l k = Ret tt k') /\
    (forall msg, m_pc s' h = Dead msg -> dead (m_pc s h) = false ->
       exists l, lock_acquire l k = Fail (Panicked msg) \/ lock_release l k = Fail (Panicked msg)).
Proof.
  intros Hs HR Hh.
  destruct (step_refines _ _ _ _ HR Hs) as (L' & HR' & Ha).
  exists (put_locks L' k). split; [done|]. split.
  - destruct Ha as [|l Hl|l Hl].
    + left. apply put_locks_id.
    + right. exists l. left. rewrite lock_acquire_run by done. by rewrite Hh.
    + right. exists l. right. unfold lock_release, lock_holding. rewrite Hl, Hh, Z.eqb_refl. done.
  - intros msg Hmsg Hd. pose proof (held_by_nonneg h (g_locks k)) as Hpos.
    pose proof (rf_noff _ _ HR h Hd) as Hnoff. pose proof (rf_cpu _ _ HR h) as [_ Hoff].
    destruct Hs as [l c Hp Hc|l Hp ?|l Hp ?|l Hp ?|l Hp Hcpu|l Hp ?|l Hp ?|l Hp|l Hp|l Hp Hz|l Hp ?
                   |l Hp Hcpu|l Hp ?|l Hp|l Hp|c Hp Hc|msg' Hp Hc];
      simpl in Hmsg; rewrite fn_upd, decide_True in Hmsg by done; try discriminate Hmsg.
    + injection Hmsg as <-. exists l. left. unfold lock_acquire.
      assert (g_locks k !! l = Some h) as -> by (apply (rf_owns _ _ HR); unfold owns; auto).
      by rewrite Hh, Z.eqb_refl.
    + injection Hmsg as <-. exists l. right. unfold lock_release, lock_holding.
      pose proof (rf_word _ _ HR l) as Hw. rewrite Hz in Hw. by destruct (g_locks k !! l).
    + injection Hmsg as <-. exists l. right. unfold lock_release, lock_holding.
      destruct (g_locks k !! l) as [h'|] eqn:E; [|done].
      destruct (Z.eqb_spec h' (g_hart k)) as [->|]; [|done].
      rewrite Hh in E. apply (rf_owns _ _ HR) in E. unfold owns in E.
      rewrite Hp in E. naive_solver.
    + rewrite Hp in Hnoff. simpl in Hnoff.
      rewrite pop_off_run in Hc by (apply Hoff || idtac; lia). done.
Qed.

(** Interrupt nesting.  Any properly nested sequence of [push_off] and
    [pop_off] runs without panicking and restores the nesting depth and the
    interrupt-enable bit. *)
Theorem push_pop_nesting w c :
  nested w -> cpu_ok c ->
  exists c', run_nest w c = Ret tt c' /\ noff c' = noff c /\ sie c' = sie c.
Proof.
  intros Hw Hc. destruct (nested_restores w c Hw Hc) as (c' & ? & ? & ? & _). eauto.
Qed.

(** A lock as [initlock] leaves it, and as its holder [h] sees it. *)
Definition free_lock (lk : spinlock) : Prop := locked lk = 0 /\ lk_cpu lk = None.
Definition held_lock (h : Z) (lk : spinlock) : Prop := locked lk = 1 /\ lk_cpu lk = Some h.

(** One hart alone.  [acquire] takes a free lock with interrupts off, and
    [release] then restores the lock, the nesting depth and the interrupt bit;
    acquiring a lock the hart holds panics, acquiring one another hart holds
    spins, releasing one it does not hold panics. *)
Theorem acquire_release me other c lk :
  cpu_ok c -> me <> other ->
  (free_lock lk -> exists s', acquire me {| pcpu := c; plk := lk |} = Ret tt s' /\
     held_lock me (plk s') /\ sie (pcpu s') = false /\ noff (pcpu s') = noff c + 1 /\
     exists s'', release me s' = Ret tt s'' /\ plk s'' = lk /\
       noff (pcpu s'') = noff c /\ sie (pcpu s'') = sie c) /\
  (held_lock me lk -> acquire me {| pcpu := c; plk := lk |} = Fail (Panicked "acquire")) /\
  (held_lock other lk -> acquire me {| pcpu := c; plk := lk |} = Fail Spinning) /\
  (free_lock lk \/ held_lock other lk -> release me {| pcpu := c; plk := lk |} = Fail (Panicked "release")).
Proof.
  intros [Hn Hoff] Hne. split_and!.
  - intros [Hl Hc]. unfold acquire, on_cpu, holding, test_and_set, on_lk, bind, gets, modify, ret.
    cbn [pcpu plk]. rewrite push_off_run. cbn [obind pcpu plk]. rewrite Hl. cbn [Z.eqb negb andb obind pcpu plk].
    rewrite Hl. cbn [Z.eqb negb]. eexists. split; [reflexivity|]. split_and!; [done|done|done|].
    unfold release, on_cpu, holding, on_lk, bind, gets, modify. cbn [obind pcpu plk].
    simpl. rewrite bool_decide_true by done. cbn [negb]. rewrite pop_off_run by (simpl; lia || done).
    eexists. split; [reflexivity|]. simpl. replace (noff c + 1 - 1) with (noff c) by lia. split_and!; [|done|].
    + destruct lk; simpl in *. by subst.
    + destruct (Z.eqb_spec (noff c) 0); [done|]. simpl. symmetry. apply Hoff. lia.
  - intros [Hl Hc]. unfold acquire, on_cpu, holding, bind, gets. cbn [pcpu plk]. rewrite push_off_run.
    cbn [obind pcpu plk]. rewrite Hl, Hc, bool_decide_true by done. done.
  - intros [Hl Hc]. unfold acquire, on_cpu, holding, test_and_set, on_lk, bind, gets, modify, ret.
    cbn [pcpu plk]. rewrite push_off_run. cbn [obind pcpu plk]. rewrite Hl, Hc, bool_decide_false by naive_solver.
    cbn [Z.eqb negb andb obind pcpu plk]. by rewrite Hl.
  - unfold release, holding, bind, gets. cbn [obind pcpu plk].
    intros [[-> ->]|[-> ->]]; [done|]. by rewrite bool_decide_false by naive_solver.
Qed.

(** ** Instances *)

(** Two harts outside the lock code, every lock free. *)
Definition cpu0 : cpu := {| noff := 0; intena := false; sie := true |}.
Definition lock0 : spinlock := {| locked := 0; lk_name := "kmem"; lk_cpu := None |}.
Definition machine0 : machine := {| m_cpu := fun _ => cpu0; m_lk := fun _ => lock0; m_pc := fun _ => Idle |}.

(** Hart 0 takes [kmem.lock]. *)
Definition machine1 : machine := with_cpu 0 (mk_cpu 1 true false) (AcqChk LKmem) machine0.
Definition machine2 : machine := goto 0 (AcqTas LKmem) machine1.
Definition machine3 : machine := with_lk 0 LKmem (set_locked 1 (m_lk machine2 LKmem)) (AcqSet LKmem) machine2.
Definition machine4 : machine := with_lk 0 LKmem (set_lk_cpu (Some 0) (m_lk machine3 LKmem)) Idle machine3.

Lemma machine0_initial : initial machine0 /\ forall h, cpu_ok (m_cpu machine0 h).
Proof. repeat split; done. Qed.

Lemma machine1_step : step 0 machine0 machine1.
Proof. by apply st_acquire. Qed.

Lemma mutual_exclusion_witness :
  rtc any_step machine0 machine4 /\ owns machine4 0 LKmem /\
  (owns machine4 1 LKmem -> 0 = 1) /\ sie (m_cpu machine4 0) = false.
Proof.
  destruct machine0_initial as [Hi Hc].
  assert (rtc any_step machine0 machine4) as Hr.
  { eapply rtc_l; [exists 0; apply machine1_step|].
    eapply rtc_l; [exists 0; by apply st_acq_free|].
    eapply rtc_l; [exists 0; by apply st_tas_win|].
    eapply rtc_l; [exists 0; by apply st_set_cpu|]. apply rtc_refl. }
  assert (owns machine4 0 LKmem) as Ho by (vm_compute; auto).
  destruct (mutual_exclusion machine0 machine4 0 1 LKmem Hi Hc Hr Ho) as [H1 H2].
  split; [exact Hr|]. split; [exact Ho|]. split; [exact H1|]. apply H2. reflexivity.
Defined.

Lemma spinlock_refines_contract_witness :
  exists k', refines machine1 (g_locks k').
Proof.
  destruct machine0_initial as [Hi Hc].
  destruct (reachable_refines machine0 machine0 Hi Hc ltac:(apply rtc_refl)) as [L HL].
  destruct (spinlock_refines_contract machine0 0 machine1 (put_locks L boot)
    machine1_step HL eq_refl) as (k' & HR & _).
  exists k'. exact HR.
Defined.

Lemma push_pop_nesting_witness :
  exists c', run_nest [true; true; false; false] cpu0 = Ret tt c' /\ noff c' = 0 /\ sie c' = true.
Proof.
  apply (push_pop_nesting [true; true; false; false] cpu0).
  - apply (nested_pair [true; false] []); [apply (nested_pair [] []); constructor|constructor].
  - by split.
Defined.

Lemma acquire_release_witness :
  acquire 0 {| pcpu := cpu0; plk := {| locked := 1; lk_name := "kmem"; lk_cpu := Some 1 |} |} = Fail Spinning.
Proof.
  apply (acquire_release 0 1 cpu0 {| locked := 1; lk_name := "kmem"; lk_cpu := Some 1 |}); [by split|lia|by split].
Defined.

End Spin.
