(* ===== verification/Sched.v ===== *)
(** * Giving up the CPU, sleeping and waking: kernel/proc.c (second half) and
    kernel/sleeplock.c

    A thread that calls [sched] stops in a [Switch]: the state is what the
    scheduler continues with, the continuation is what the thread does when the
    scheduler switches back to it.  [scheduler_enter] and [scheduler_leave] are
    the scheduler's code before and after its own [swtch]. *)

From Stdlib Require Import ZArith Lia.
From stdpp Require Import base list gmap strings numbers option.
From S2P Require Import Prelude Bytes Riscv Kstate.

(** ** kernel/proc.c *)

(** Interrupts can be on only when no lock is held ([Spin.mutual_exclusion]). *)
Definition intr_get (s : kstate) : bool := (lock_depth s =? 0)%nat.

(** [swtch(&p->context, &mycpu()->context)]. *)
Definition swtch_to_scheduler : M unit := fun s => Switch s (fun s' => Ret tt s').

(** [intena] is saved and restored around the switch by the source; it belongs
    to [Spin.cpu] and has no counterpart in this state. *)
Definition sched : M unit :=
  p <- curp ;;
  h <- gets (lock_holding (LProc p)) ;;
  if negb h then panic "sched p->lock" else
  n <- gets lock_depth ;;
  if negb (n =? 1)%nat then panic "sched locks" else
  pr <- get_proc p ;;
  if bool_decide (p_state pr = RUNNING) then panic "sched running" else
  i <- gets intr_get ;;
  if (i : bool) then panic "sched interruptible" else
  swtch_to_scheduler.

(** The body of [wakeup]'s loop over the process table. *)
Definition wakeup_one (c : chan) (p : nat) : M unit :=
  me <- myproc ;;
  if bool_decide (Some p = me) then ret tt else
  lock_acquire (LProc p) ;;
  pr <- get_proc p ;;
  when (bool_decide (p_state pr = SLEEPING) && bool_decide (p_chan pr = Some c))
       (upd_proc p (set_p_state RUNNABLE)) ;;
  lock_release (LProc p).

(** The statements of [yield], [sleep] and [wakeup], one by one: other harts run between
    them ([SleepWake]). *)
Inductive stmt :=
| SAcquire (l : lockid)                 (** [acquire(l)] *)
| SRelease (l : lockid)                 (** [release(l)] *)
| SChan (p : nat) (c : option chan)     (** [p->chan = c] *)
| SState (p : nat) (st : procstate)     (** [p->state = st] *)
| SSched                                (** [sched()] *)
| SWake (c : chan) (p : nat).           (** one turn of [wakeup(c)] *)

Definition exec_stmt (a : stmt) : M unit :=
  match a with
  | SAcquire l => lock_acquire l
  | SRelease l => lock_release l
  | SChan p c => upd_proc p (set_p_chan c)
  | SState p st => upd_proc p (set_p_state st)
  | SSched => sched
  | SWake c p => wakeup_one c p
  end.

(** The statements in order, as one thread executes them. *)
Fixpoint exec_all (l : list stmt) : M unit :=
  match l with
  | [] => ret tt
  | a :: l' => exec_stmt a ;; exec_all l'
  end.

Definition yield_code (p : nat) : list stmt :=
  [SAcquire (LProc p); SState p RUNNABLE; SSched; SRelease (LProc p)].

Definition yield : M unit := p <- curp ;; exec_all (yield_code p).

Definition sleep_code (p : nat) (c : chan) (lk : lockid) : list stmt :=
  [ SAcquire (LProc p);
    SRelease lk;
    SChan p (Some c);
    SState p SLEEPING;
    SSched;
    SChan p None;
    SRelease (LProc p);
    SAcquire lk ].

Definition sleep (c : chan) (lk : lockid) : M unit := p <- curp ;; exec_all (sleep_code p c lk).

(** [for(p = proc; p < &proc\[NPROC\]; p++)] *)
Definition wakeup_code (c : chan) : list stmt := SWake c <$> seq 0 NPROC.

Definition wakeup (c : chan) : M unit := exec_all (wakeup_code c).

Definition kill (pid : Z) : M Z :=
  r <- for_upto NPROC 0 (fun p =>
    lock_acquire (LProc p) ;;
    pr <- get_proc p ;;
    if p_pid pr =? pid then
      upd_proc p (set_p_killed true) ;;
      when (bool_decide (p_state pr = SLEEPING)) (upd_proc p (set_p_state RUNNABLE)) ;;
      lock_release (LProc p) ;;
      ret (Some 0)
    else
      lock_release (LProc p) ;;
      ret None) ;;
  match r with Some v => ret v | None => ret (-1) end.

Definition setkilled (p : nat) : M unit :=
  lock_acquire (LProc p) ;;
  upd_proc p (set_p_killed true) ;;
  lock_release (LProc p).

Definition killed (p : nat) : M bool :=
  lock_acquire (LProc p) ;;
  pr <- get_proc p ;;
  let k := p_killed pr in
  lock_release (LProc p) ;;
  ret k.

(** The scheduler's loop body for one process, up to its [swtch]: [true] when
    it switches to the process, with [p->lock] held. *)
Definition scheduler_enter (p : nat) : M bool :=
  lock_acquire (LProc p) ;;
  pr <- get_proc p ;;
  if bool_decide (p_state pr = RUNNABLE) then
    upd_proc p (set_p_state RUNNING) ;;
    modify (put_curproc (Some p)) ;;
    ret true
  else
    lock_release (LProc p) ;;
    ret false.

(** The rest of the loop body, once the process has switched back. *)
Definition scheduler_leave (p : nat) : M unit :=
  modify (put_curproc None) ;;
  lock_release (LProc p).

(** ** kernel/sleeplock.c

    A sleep lock is a field of a buffer or an inode: [get]/[upd] access it and
    [sl] names its spin lock. *)

Section sleeplock.
Context (sl : lockid) (get : M sleeplock) (upd : (sleeplock -> sleeplock) -> M unit).

(** [initlock] resets the spin lock, see [Spin.initlock]. *)
Definition initsleeplock : M unit :=
  modify (fun s => put_locks (delete sl (g_locks s)) s) ;;
  upd (set_sl_locked false) ;;
  upd (set_sl_pid 0).

(** [while (lk->locked) sleep(lk, &lk->lk);]: [fuel] bounds the wakeups. *)
Definition acquiresleep (fuel : nat) : M unit :=
  lock_acquire sl ;;
  loop fuel (fun _ : unit =>
    l <- get ;;
    if sl_locked l then sleep (ChSleeplock sl) sl ;; ret (inl tt) else ret (inr tt)) tt ;;
  upd (set_sl_locked true) ;;
  p <- curp ;;
  pr <- get_proc p ;;
  upd (set_sl_pid (p_pid pr)) ;;
  lock_release sl.

Definition releasesleep : M unit :=
  lock_acquire sl ;;
  upd (set_sl_locked false) ;;
  upd (set_sl_pid 0) ;;
  wakeup (ChSleeplock sl) ;;
  lock_release sl.

Definition holdingsleep : M bool :=
  lock_acquire sl ;;
  l <- get ;;
  p <- curp ;;
  pr <- get_proc p ;;
  let r := sl_locked l && (sl_pid l =? p_pid pr) in
  lock_release sl ;;
  ret r.
End sleeplock.

(** How often a thread may be woken before a sleep-lock loop is cut off. *)
Definition sleep_fuel : nat := 8.

Definition buf_lock_get (b : nat) : M sleeplock := x <- get_buf b ;; ret (b_lock x).
Definition buf_lock_upd (b : nat) (f : sleeplock -> sleeplock) : M unit :=
  upd_buf b (fun x => set_b_lock (f (b_lock x)) x).
Definition inode_lock_get (i : nat) : M sleeplock := x <- get_inode i ;; ret (i_lock x).
Definition inode_lock_upd (i : nat) (f : sleeplock -> sleeplock) : M unit :=
  upd_inode i (fun x => set_i_lock (f (i_lock x)) x).

(** ** Loops over the process table *)

(** A loop whose body rewrites element [i] of the table by [f i]. *)
Lemma for_each_procs (f : nat -> proc -> proc) (body : nat -> M unit) n s :
  length (g_procs s) = n ->
  (forall i ps p, length ps = n -> ps !! i = Some p ->
     body i (put_procs ps s) = Ret tt (put_procs (<[i := f i p]> ps) s)) ->
  for_each n 0 body s = Ret tt (put_procs (imap f (g_procs s)) s).
Proof.
  intros Hlen Hb. set (l := g_procs s) in *.
  assert (forall k i, (i + k = n)%nat ->
    for_each k i body (put_procs (imap f (take i l) ++ drop i l) s) =
    Ret tt (put_procs (imap f l) s)) as H.
  2:{ specialize (H n 0%nat eq_refl). rewrite take_0, drop_0 in H. simpl in H.
      unfold l in H at 1. by rewrite put_procs_id in H. }
  induction k as [|k IH]; intros i Hi; cbn [for_each].
  - rewrite take_ge, drop_ge, app_nil_r by lia. done.
  - destruct (lookup_lt_is_Some_2 l i) as [p Hp]; [lia|].
    assert (length (imap f (take i l)) = i) as Hl1 by (rewrite length_imap, length_take; lia).
    kstep Hb.
    + rewrite <- (IH (S i)) by lia. f_equal. f_equal.
      rewrite (drop_S l p i) by done.
      rewrite insert_app_r_alt by lia. rewrite Hl1, Nat.sub_diag. cbn.
      rewrite (take_S_r l i p) by done. rewrite imap_app. simpl. rewrite <- app_assoc. simpl.
      rewrite length_take, Nat.min_l by lia. by rewrite Nat.add_0_r.
    + rewrite length_app, length_drop. lia.
    + rewrite lookup_app_r by lia. rewrite Hl1, Nat.sub_diag, lookup_drop, Nat.add_0_r. done.
Qed.

(** No process lock is held by anybody. *)
Definition procs_unlocked (s : kstate) : Prop := forall i, lock_free (LProc i) s.

(** What [wakeup c], called by [me], does to process [i]. *)
Definition wake (c : chan) (me : option nat) (i : nat) (p : proc) : proc :=
  if bool_decide (Some i <> me) && bool_decide (p_state p = SLEEPING) && bool_decide (p_chan p = Some c)
  then set_p_state RUNNABLE p else p.

Lemma wakeup_one_run c i s p :
  lock_free (LProc i) s -> g_procs s !! i = Some p ->
  wakeup_one c i s = Ret tt (put_procs (<[i := wake c (g_curproc s) i p]> (g_procs s)) s).
Proof.
  intros Hf Hp. unfold wakeup_one, myproc, wake, bind, gets. cbn [obind].
  destruct (bool_decide (Some i = g_curproc s)) eqn:Eme.
  { apply bool_decide_eq_true in Eme. rewrite bool_decide_false by naive_solver. simpl.
    rewrite list_insert_id by done. by rewrite put_procs_id. }
  apply bool_decide_eq_false in Eme. rewrite (bool_decide_true (Some i <> _)) by done. simpl.
  kacquire Hf. unfold get_proc. erewrite arr_get_run by exact Hp.
  cbn [obind]. unfold when, upd_proc.
  destruct (bool_decide (p_state p = SLEEPING) && bool_decide (p_chan p = Some c)); unfold ret; cbn [obind].
  - erewrite arr_upd_run by exact Hp. cbn [obind]. krelease Hf. f_equal. kstate_eq.
  - krelease Hf. rewrite list_insert_id by done. rewrite put_procs_id. f_equal. kstate_eq.
Qed.

Lemma wakeup_for_each c n i : exec_all (SWake c <$> seq i n) = for_each n i (wakeup_one c).
Proof. revert i. induction n as [|n IH]; intros i; cbn; [done|]. by rewrite IH. Qed.

(** [wakeup] makes runnable exactly the other processes that sleep on [c]. *)
Lemma wakeup_run c s :
  length (g_procs s) = NPROC -> procs_unlocked s ->
  wakeup c s = Ret tt (put_procs (imap (wake c (g_curproc s)) (g_procs s)) s).
Proof.
  intros Hlen Hf. unfold wakeup, wakeup_code. rewrite wakeup_for_each.
  apply for_each_procs; [done|]. intros i ps p _ Hp.
  erewrite wakeup_one_run; [|apply Hf|exact Hp]. f_equal.
Qed.

Lemma killed_run i s p :
  lock_free (LProc i) s -> g_procs s !! i = Some p -> killed i s = Ret (p_killed p) s.
Proof.
  intros Hf Hp. unfold killed, bind. kacquire Hf. unfold get_proc.
  erewrite arr_get_run by exact Hp. cbn [obind]. krelease Hf. unfold ret. f_equal. kstate_eq.
Qed.

Lemma setkilled_run i s p :
  lock_free (LProc i) s -> g_procs s !! i = Some p ->
  setkilled i s = Ret tt (put_procs (<[i := set_p_killed true p]> (g_procs s)) s).
Proof.
  intros Hf Hp. unfold setkilled, bind. kacquire Hf. unfold upd_proc.
  erewrite arr_upd_run by exact Hp. cbn [obind]. krelease Hf. f_equal. kstate_eq.
Qed.

(** What [kill] does to its victim. *)
Definition kill_proc (p : proc) : proc :=
  let p := set_p_killed true p in
  if bool_decide (p_state p = SLEEPING) then set_p_state RUNNABLE p else p.

Lemma kill_one_run pid i s p :
  lock_free (LProc i) s -> g_procs s !! i = Some p ->
  (lock_acquire (LProc i) ;;
    pr <- get_proc i ;;
    if p_pid pr =? pid then
      upd_proc i (set_p_killed true) ;;
      when (bool_decide (p_state pr = SLEEPING)) (upd_proc i (set_p_state RUNNABLE)) ;;
      lock_release (LProc i) ;; ret (Some 0)
    else lock_release (LProc i) ;; ret None) s =
  (if p_pid p =? pid then Ret (Some 0) (put_procs (<[i := kill_proc p]> (g_procs s)) s)
   else Ret None s).
Proof.
  intros Hf Hp. unfold bind. kacquire Hf. unfold get_proc, upd_proc.
  erewrite arr_get_run by exact Hp. cbn [obind]. destruct (p_pid p =? pid).
  - erewrite arr_upd_run by exact Hp. cbn [obind]. unfold when, kill_proc. simpl p_state.
    destruct (bool_decide (p_state p = SLEEPING)).
    + erewrite arr_upd_run; [|apply list_lookup_insert_eq; by eapply lookup_lt_Some].
      cbn [obind]. krelease Hf. unfold ret. f_equal.
      change (g_procs (put_procs ?ps _)) with ps. rewrite list_insert_insert_eq. kstate_eq.
    + cbn [obind ret]. krelease Hf. unfold ret. f_equal. kstate_eq.
  - krelease Hf. unfold ret. f_equal. kstate_eq.
Qed.

(** The first process of the table with the given pid. *)
Definition find_pid (pid : Z) (ps : list proc) : option (nat * proc) :=
  list_find (fun p => p_pid p = pid) ps.

Lemma kill_run pid s :
  length (g_procs s) = NPROC -> procs_unlocked s ->
  kill pid s =
    match find_pid pid (g_procs s) with
    | Some (i, p) => Ret 0 (put_procs (<[i := kill_proc p]> (g_procs s)) s)
    | None => Ret (-1) s
    end.
Proof.
  intros Hlen Hf. unfold kill, find_pid.
  set (body := fun p : nat => _).
  assert (forall k i, (i + k = NPROC)%nat ->
    for_upto k i body s =
      match list_find (fun p => p_pid p = pid) (drop i (g_procs s)) with
      | Some (j, p) => Ret (Some 0) (put_procs (<[(i + j)%nat := kill_proc p]> (g_procs s)) s)
      | None => Ret None s
      end) as H.
  2:{ unfold bind. rewrite (H NPROC 0%nat) by done. rewrite drop_0.
      by destruct (list_find _ (g_procs s)) as [[j p]|]. }
  induction k as [|k IH]; intros i Hi.
  - rewrite drop_ge by lia. done.
  - destruct (lookup_lt_is_Some_2 (g_procs s) i) as [p Hp]; [lia|].
    rewrite (drop_S _ p) by done. cbn [for_upto list_find]. unfold bind.
    unfold body at 1. rewrite (kill_one_run pid i s p) by (done || apply Hf).
    destruct (Z.eqb_spec (p_pid p) pid).
    + rewrite decide_True by done. cbn [obind ret]. unfold ret. by rewrite Nat.add_0_r.
    + rewrite decide_False by done. cbn [obind]. rewrite IH by lia.
      destruct (list_find _ (drop (S i) (g_procs s))) as [[j q]|]; simpl; [|done].
      do 3 f_equal. lia.
Qed.

(** ** Sleeping *)

Lemma lock_depth_singleton l s : g_locks s = {[l := g_hart s]} -> lock_depth s = 1%nat.
Proof.
  intros E. unfold lock_depth. rewrite E.
  rewrite map_filter_singleton_True by done. apply map_size_singleton.
Qed.

Lemma sched_run p pr s :
  g_curproc s = Some p -> g_procs s !! p = Some pr -> p_state pr <> RUNNING ->
  g_locks s = {[LProc p := g_hart s]} ->
  sched s = Switch s (fun s' => Ret tt s').
Proof.
  intros Hc Hp Hst HL. unfold sched, curp, myproc, bind, gets. cbn [obind]. rewrite Hc.
  unfold the, ret. cbn [obind]. unfold lock_holding at 1. rewrite HL, lookup_singleton_eq, Z.eqb_refl.
  cbn [negb obind]. rewrite (lock_depth_singleton _ _ HL). cbn [Nat.eqb negb].
  unfold get_proc. erewrite arr_get_run by exact Hp. cbn [obind].
  rewrite bool_decide_false by done. unfold intr_get. rewrite (lock_depth_singleton _ _ HL). done.
Qed.

(** A process that sleeps on [c]. *)
Definition asleep (c : chan) (pr : proc) : proc := set_p_state SLEEPING (set_p_chan (Some c) pr).

(** [sleep(c, lk)] called with [lk] as the only lock: the process is marked
    SLEEPING on [c] while its own lock is held and [lk] is free; when it is
    switched to again it clears its channel and takes [lk] back. *)
Lemma sleep_run c lk p pr s :
  g_curproc s = Some p -> g_procs s !! p = Some pr -> lk <> LProc p ->
  g_locks s = {[lk := g_hart s]} ->
  exists k, sleep c lk s =
    Switch (put_procs (<[p := asleep c pr]> (g_procs s)) (put_locks {[LProc p := g_hart s]} s)) k /\
    (forall s' pr', g_procs s' !! p = Some pr' -> g_locks s' = {[LProc p := g_hart s']} ->
       k s' = Ret tt (put_procs (<[p := set_p_chan None pr']> (g_procs s'))
                        (put_locks {[lk := g_hart s']} s'))).
Proof.
  intros Hc Hp Hne HL. eexists. split.
  - unfold sleep, sleep_code, exec_all, exec_stmt, curp, myproc, bind, gets. cbn [obind]. rewrite Hc.
    unfold the, ret. cbn [obind].
    rewrite lock_acquire_run by (unfold lock_free; by rewrite HL, lookup_singleton_ne).
    cbn [obind]. erewrite lock_release_held; [|kget; rewrite lookup_insert_ne by done; rewrite HL; apply lookup_singleton_eq|done].
    cbn [obind]. unfold upd_proc. erewrite arr_upd_run by exact Hp. cbn [obind].
    erewrite arr_upd_run; [|apply list_lookup_insert_eq; by eapply lookup_lt_Some]. cbn [obind].
    change (g_procs (put_procs ?ps _)) with ps. rewrite list_insert_insert_eq.
    erewrite (sched_run p); [|exact Hc|apply list_lookup_insert_eq; by eapply lookup_lt_Some|done|].
    + cbn [obind]. f_equal.
      change (put_procs ?a (put_procs ?b ?x)) with (put_procs a x).
      change (g_locks (put_locks ?L _)) with L. change (put_locks ?a (put_locks ?b ?x)) with (put_locks a x).
      rewrite HL, delete_insert_ne, delete_singleton_eq by done. done.
    + change (delete lk (<[LProc p := g_hart s]> (g_locks s)) = {[LProc p := g_hart s]}).
      rewrite HL, delete_insert_ne, delete_singleton_eq by done. done.
  - intros s' pr' Hp' HL'. cbn [obind]. unfold upd_proc. erewrite arr_upd_run by exact Hp'. cbn [obind].
    rewrite (lock_release_held _ _ (g_hart s')); [|kget; rewrite HL'; apply lookup_singleton_eq|done].
    cbn [obind]. change (g_locks (put_procs _ s')) with (g_locks s'). rewrite HL', delete_singleton_eq.
    rewrite lock_acquire_run by apply lookup_empty. done.
Qed.

(** ** Sleep locks

    [SleepCell] is what [sleeplock.c] needs from the structure that contains the
    lock: [rd]/[wr] are the pure reading and writing of the field. *)
Class SleepCell (get : M sleeplock) (upd : (sleeplock -> sleeplock) -> M unit)
    (rd : kstate -> option sleeplock) (wr : sleeplock -> kstate -> kstate) : Prop := {
  sc_get : forall s l, rd s = Some l -> get s = Ret l s;
  sc_upd : forall s l f, rd s = Some l -> upd f s = Ret tt (wr (f l) s);
  sc_rd_wr : forall s l l', rd s = Some l' -> rd (wr l s) = Some l;
  sc_wr_wr : forall s l l', wr l (wr l' s) = wr l s;
  sc_wr_cpu : forall s l, kcpu (wr l s) = kcpu s;
  sc_wr_proc : forall s l, kproc (wr l s) = kproc s;
  sc_rd_locks : forall s L, rd (put_locks L s) = rd s;
  sc_wr_locks : forall s L l, wr l (put_locks L s) = put_locks L (wr l s);
  sc_rd_procs : forall s ps, rd (put_procs ps s) = rd s;
  sc_wr_procs : forall s ps l, wr l (put_procs ps s) = put_procs ps (wr l s)
}.

Definition buf_lock_rd (b : nat) (s : kstate) : option sleeplock := b_lock <$> g_bufs s !! b.
Definition buf_lock_wr (b : nat) (l : sleeplock) (s : kstate) : kstate :=
  put_bufs (alter (set_b_lock l) b (g_bufs s)) s.
Definition inode_lock_rd (i : nat) (s : kstate) : option sleeplock := i_lock <$> g_itable s !! i.
Definition inode_lock_wr (i : nat) (l : sleeplock) (s : kstate) : kstate :=
  put_itable (alter (set_i_lock l) i (g_itable s)) s.

#[export] Instance buf_sleepcell b :
  SleepCell (buf_lock_get b) (buf_lock_upd b) (buf_lock_rd b) (buf_lock_wr b).
Proof.
  split; try done; unfold buf_lock_rd, buf_lock_wr, buf_lock_get, buf_lock_upd.
  - intros s l. destruct (g_bufs s !! b) as [x|] eqn:E; [|done]. intros [= <-].
    unfold get_buf, bind. by erewrite arr_get_run by exact E.
  - intros s l f. destruct (g_bufs s !! b) as [x|] eqn:E; [|done]. intros [= <-].
    unfold upd_buf. erewrite arr_upd_run by exact E. f_equal. f_equal.
    rewrite list_insert_alter. apply list_alter_ext; [|done]. intros y. rewrite E. by intros [= ->].
  - intros s l l'. change (g_bufs (put_bufs ?x s)) with x. rewrite list_lookup_alter_eq.
    by destruct (g_bufs s !! b).
  - intros s l l'. change (g_bufs (put_bufs ?x s)) with x. unfold put_bufs, put_itable.
    rewrite list_alter_alter_eq. done.
Qed.

#[export] Instance inode_sleepcell i :
  SleepCell (inode_lock_get i) (inode_lock_upd i) (inode_lock_rd i) (inode_lock_wr i).
Proof.
  split; try done; unfold inode_lock_rd, inode_lock_wr, inode_lock_get, inode_lock_upd.
  - intros s l. destruct (g_itable s !! i) as [x|] eqn:E; [|done]. intros [= <-].
    unfold get_inode, bind. by erewrite arr_get_run by exact E.
  - intros s l f. destruct (g_itable s !! i) as [x|] eqn:E; [|done]. intros [= <-].
    unfold upd_inode. erewrite arr_upd_run by exact E. f_equal. f_equal.
    rewrite list_insert_alter. apply list_alter_ext; [|done]. intros y. rewrite E. by intros [= ->].
  - intros s l l'. change (g_itable (put_itable ?x s)) with x. rewrite list_lookup_alter_eq.
    by destruct (g_itable s !! i).
  - intros s l l'. change (g_itable (put_itable ?x s)) with x. unfold put_bufs, put_itable.
    rewrite list_alter_alter_eq. done.
Qed.

Section sleeplock_lemmas.
Context (sl : lockid) (get : M sleeplock) (upd : (sleeplock -> sleeplock) -> M unit)
        (rd : kstate -> option sleeplock) (wr : sleeplock -> kstate -> kstate)
        `{!SleepCell get upd rd wr}.

Lemma wr_locks_eq l s : g_locks (wr l s) = g_locks s.
Proof. unfold g_locks. by rewrite sc_wr_cpu. Qed.
Lemma wr_hart l s : g_hart (wr l s) = g_hart s.
Proof. unfold g_hart. by rewrite sc_wr_cpu. Qed.
Lemma wr_curproc l s : g_curproc (wr l s) = g_curproc s.
Proof. unfold g_curproc. by rewrite sc_wr_cpu. Qed.
Lemma wr_procs l s : g_procs (wr l s) = g_procs s.
Proof. unfold g_procs. by rewrite sc_wr_proc. Qed.

(** Taking a free sleep lock does not block; it records the owner. *)
Lemma acquiresleep_run fuel s l p pr :
  lock_free sl s -> rd s = Some l -> sl_locked l = false ->
  g_curproc s = Some p -> g_procs s !! p = Some pr ->
  acquiresleep sl get upd (S fuel) s =
    Ret tt (wr {| sl_locked := true; sl_pid := p_pid pr |} s).
Proof.
  intros Hf Hrd Hl Hc Hp. unfold acquiresleep, bind. kacquire Hf. cbn [loop]. unfold bind.
  erewrite sc_get by (rewrite sc_rd_locks; exact Hrd). cbn [obind]. rewrite Hl.
  unfold ret at 1. cbn [obind]. unfold ret at 1. cbn [obind].
  erewrite sc_upd by (rewrite sc_rd_locks; exact Hrd). cbn [obind].
  unfold curp, myproc, bind, gets. cbn [obind]. rewrite wr_curproc. kget. rewrite Hc.
  unfold the, ret. cbn [obind]. unfold get_proc.
  erewrite arr_get_run by (rewrite wr_procs; exact Hp). cbn [obind].
  erewrite sc_upd by (erewrite sc_rd_wr by (rewrite sc_rd_locks; exact Hrd); reflexivity).
  cbn [obind]. rewrite sc_wr_wr.
  erewrite lock_release_section;
    [|rewrite wr_locks_eq; reflexivity|exact Hf|rewrite wr_hart; reflexivity].
  f_equal. rewrite sc_wr_locks. unfold set_sl_pid, set_sl_locked. simpl.
  rewrite put_locks_put, <- sc_wr_locks, put_locks_id. done.
Qed.

(** Releasing resets the lock and wakes the processes that wait for it. *)
Lemma releasesleep_run s l :
  lock_free sl s -> (forall i, sl <> LProc i) -> rd s = Some l ->
  length (g_procs s) = NPROC -> procs_unlocked s ->
  releasesleep sl upd s =
    Ret tt (put_procs (imap (wake (ChSleeplock sl) (g_curproc s)) (g_procs s))
              (wr {| sl_locked := false; sl_pid := 0 |} s)).
Proof.
  intros Hf Hsl Hrd Hlen Hu. unfold releasesleep, bind. kacquire Hf.
  erewrite sc_upd by (rewrite sc_rd_locks; exact Hrd). cbn [obind].
  erewrite sc_upd by (erewrite sc_rd_wr by (rewrite sc_rd_locks; exact Hrd); reflexivity).
  cbn [obind]. rewrite sc_wr_wr. rewrite wakeup_run.
  - cbn [obind]. rewrite wr_procs, wr_curproc. kget.
    erewrite lock_release_section;
      [|kget; rewrite wr_locks_eq; reflexivity|exact Hf|kget; rewrite wr_hart; reflexivity].
    f_equal. rewrite sc_wr_locks. unfold set_sl_pid, set_sl_locked. simpl.
    change (put_locks ?a (put_procs ?b ?x)) with (put_procs b (put_locks a x)).
    rewrite put_locks_put, <- sc_wr_locks, put_locks_id. done.
  - by rewrite wr_procs.
  - intros i. unfold lock_free. rewrite wr_locks_eq. kget. rewrite lookup_insert_ne by done. apply Hu.
Qed.

Lemma holdingsleep_run s l p pr :
  lock_free sl s -> rd s = Some l -> g_curproc s = Some p -> g_procs s !! p = Some pr ->
  holdingsleep sl get s = Ret (sl_locked l && (sl_pid l =? p_pid pr)) s.
Proof.
  intros Hf Hrd Hc Hp. unfold holdingsleep, bind. kacquire Hf.
  erewrite sc_get by (rewrite sc_rd_locks; exact Hrd). cbn [obind].
  unfold curp, myproc, bind, gets. cbn [obind]. kget. rewrite Hc.
  unfold the, ret. cbn [obind]. unfold get_proc. erewrite arr_get_run by exact Hp. cbn [obind].
  krelease Hf. f_equal. rewrite put_locks_put. apply put_locks_id.
Qed.

(** A thread that finds the sleep lock taken goes to sleep on it with no
    other lock held, and tries again when it is woken. *)
Lemma acquiresleep_blocks fuel s l p pr :
  (forall i, sl <> LProc i) -> g_locks s = empty -> rd s = Some l -> sl_locked l = true ->
  g_curproc s = Some p -> g_procs s !! p = Some pr ->
  exists k, acquiresleep sl get upd (S fuel) s =
    Switch (put_procs (<[p := asleep (ChSleeplock sl) pr]> (g_procs s))
              (put_locks {[LProc p := g_hart s]} s)) k.
Proof.
  intros Hsl HL Hrd Hl Hc Hp. unfold acquiresleep, bind.
  rewrite lock_acquire_run by (unfold lock_free; rewrite HL; done). cbn [obind loop]. unfold bind.
  erewrite sc_get by (rewrite sc_rd_locks; exact Hrd). cbn [obind]. rewrite Hl.
  destruct (sleep_run (ChSleeplock sl) sl p pr (put_locks (<[sl := g_hart s]> (g_locks s)) s))
    as (k & E & _); try done.
  { kget. rewrite HL. by rewrite insert_empty. }
  unfold bind. rewrite E. cbn [obind]. eexists. reflexivity.
Qed.
End sleeplock_lemmas.

(** ** Theorems *)

(** [wakeup] never blocks and makes RUNNABLE exactly the other processes that
    are SLEEPING on the channel; nothing else changes. *)
Theorem wakeup_exact c s :
  length (g_procs s) = NPROC -> procs_unlocked s ->
  wakeup c s = Ret tt (put_procs (imap (fun i p =>
    if decide (Some i <> g_curproc s /\ p_state p = SLEEPING /\ p_chan p = Some c)
    then set_p_state RUNNABLE p else p) (g_procs s)) s).
Proof.
  intros Hl Hu. rewrite wakeup_run by done. do 2 f_equal. apply imap_ext. intros i p _. unfold wake.
  repeat case_bool_decide; simpl; (rewrite decide_True by naive_solver) || (rewrite decide_False by naive_solver); done.
Qed.

Lemma wakeup_exact_witness :
  wakeup ChTicks (put_procs (<[1%nat := asleep ChTicks zero_proc]> (g_procs boot)) boot) =
  Ret tt (put_procs (<[1%nat := set_p_state RUNNABLE (asleep ChTicks zero_proc)]> (g_procs boot)) boot).
Proof.
  set (s := put_procs _ boot). transitivity (Ret tt (put_procs (imap (fun i p =>
    if decide (Some i <> g_curproc s /\ p_state p = SLEEPING /\ p_chan p = Some ChTicks)
    then set_p_state RUNNABLE p else p) (g_procs s)) s)).
  - apply (wakeup_exact ChTicks s); [reflexivity|]. intros i. reflexivity.
  - reflexivity.
Defined.

(** What the scheduler does between two runs of a process. *)
Lemma scheduler_leave_run p s L :
  g_locks s = {[LProc p := g_hart s]} -> L = ∅ ->
  scheduler_leave p s = Ret tt (put_curproc None (put_locks L s)).
Proof.
  intros HL ->. unfold scheduler_leave, bind, modify. cbn [obind].
  erewrite lock_release_held; [|kget; rewrite HL; apply lookup_singleton_eq|done].
  kget. rewrite HL, delete_singleton_eq. done.
Qed.

Lemma scheduler_enter_run p pr s :
  g_procs s !! p = Some pr -> p_state pr = RUNNABLE -> g_locks s = ∅ ->
  scheduler_enter p s = Ret true (put_curproc (Some p)
    (put_procs (<[p := set_p_state RUNNING pr]> (g_procs s)) (put_locks {[LProc p := g_hart s]} s))).
Proof.
  intros Hp Hst HL. unfold scheduler_enter, bind.
  rewrite lock_acquire_run by (unfold lock_free; by rewrite HL). cbn [obind]. unfold get_proc.
  erewrite arr_get_run by exact Hp. cbn [obind]. rewrite bool_decide_true by done.
  unfold upd_proc. erewrite arr_upd_run by exact Hp. cbn [obind]. unfold modify, ret. cbn [obind].
  rewrite HL, insert_empty. done.
Qed.

Lemma scheduler_enter_true p s s1 :
  scheduler_enter p s = Ret true s1 -> g_locks s = ∅ ->
  exists pr, g_procs s !! p = Some pr /\ p_state pr = RUNNABLE /\
    s1 = put_curproc (Some p) (put_procs (<[p := set_p_state RUNNING pr]> (g_procs s)) (put_locks {[LProc p := g_hart s]} s)).
Proof.
  intros E HL. destruct (g_procs s !! p) as [pr|] eqn:Hp.
  - exists pr. split; [done|]. destruct (decide (p_state pr = RUNNABLE)) as [Hs|Hs].
    + split; [done|]. rewrite (scheduler_enter_run p pr s Hp Hs HL) in E. by injection E.
    + exfalso. unfold scheduler_enter in E. rewrite (bind_run _ _ _ _ _ (lock_acquire_run (LProc p) s ltac:(unfold lock_free; by rewrite HL))) in E.
      unfold get_proc in E. rewrite (bind_run _ _ _ _ _ (arr_get_run _ g_procs p (put_locks _ s) pr Hp)) in E.
      rewrite bool_decide_false in E by done. unfold bind, lock_release, lock_holding in E. kget_in E.
      by rewrite lookup_insert_eq, Z.eqb_refl in E.
  - exfalso. unfold scheduler_enter in E. rewrite (bind_run _ _ _ _ _ (lock_acquire_run (LProc p) s ltac:(unfold lock_free; by rewrite HL))) in E.
    unfold bind, get_proc, arr_get in E. kget_in E. by rewrite Hp in E.
Qed.

(** One schedule of sleep and wakeup, step by step.  A process [p] that calls [sleep(c, lk)] with [lk] as its
    only lock gives up the CPU; once the scheduler has released [p]'s lock, [lk]
    is free, so another process can change the condition, and its [wakeup(c)]
    makes [p] RUNNABLE; the scheduler can then run [p], and [sleep] returns with
    [lk] held again, the channel cleared and [p] RUNNING. *)
Theorem sleep_wakeup c lk p pr q s :
  g_curproc s = Some p -> g_procs s !! p = Some pr -> (forall i, lk <> LProc i) -> p <> q ->
  length (g_procs s) = NPROC -> g_locks s = {[lk := g_hart s]} ->
  exists s1 k s2 s3 s4 s5,
    sleep c lk s = Switch s1 k /\ scheduler_leave p s1 = Ret tt s2 /\ g_locks s2 = ∅ /\
    wakeup c (put_curproc (Some q) s2) = Ret tt s3 /\
    scheduler_enter p s3 = Ret true s4 /\ k s4 = Ret tt s5 /\
    g_locks s5 = {[lk := g_hart s]} /\ g_curproc s5 = Some p /\
    g_procs s5 !! p = Some (set_p_chan None (set_p_state RUNNING pr)).
Proof.
  intros Hc Hp Hlk Hpq Hlen HL.
  destruct (sleep_run c lk p pr s Hc Hp (Hlk p) HL) as (k & Esl & Hk).
  pose proof (lookup_lt_Some _ _ _ Hp) as Hlt.
  set (s1 := put_procs (<[p := asleep c pr]> (g_procs s)) (put_locks {[LProc p := g_hart s]} s)) in *.
  set (s2 := put_curproc None (put_locks ∅ s1)).
  set (s3 := put_procs (imap (wake c (Some q)) (g_procs s1)) (put_curproc (Some q) s2)).
  assert (g_procs s3 !! p = Some (set_p_state RUNNABLE (asleep c pr))) as Hp3.
  { unfold s3, s1. kget. rewrite list_lookup_imap, list_lookup_insert_eq by done. simpl. unfold wake.
    rewrite bool_decide_true by naive_solver. by rewrite !bool_decide_true by done. }
  exists s1, k, s2, s3. eexists. eexists. split; [exact Esl|].
  split; [by apply scheduler_leave_run|]. split; [done|]. split.
  { rewrite wakeup_run; [done|unfold s2, s1; kget; by rewrite length_insert|].
    intros i. unfold lock_free, s2. kget. apply lookup_empty. }
  split; [by apply scheduler_enter_run|]. split.
  { apply (Hk _ (set_p_state RUNNING (set_p_state RUNNABLE (asleep c pr)))); [|done].
    kget. apply list_lookup_insert_eq. by eapply lookup_lt_Some. }
  split; [done|]. split; [done|]. kget. apply list_lookup_insert_eq. rewrite length_insert. by eapply lookup_lt_Some.
Qed.

Lemma sleep_wakeup_witness : exists s5, exists s1 k s2 s3 s4,
  sleep ChTicks LTicks (put_locks {[LTicks := 0]} (running (set_p_state RUNNING zero_proc))) = Switch s1 k /\
  scheduler_leave 0 s1 = Ret tt s2 /\ wakeup ChTicks (put_curproc (Some 1%nat) s2) = Ret tt s3 /\
  scheduler_enter 0 s3 = Ret true s4 /\ k s4 = Ret tt s5 /\ g_locks s5 = {[LTicks := 0]}.
Proof.
  destruct (sleep_wakeup ChTicks LTicks 0 (set_p_state RUNNING zero_proc) 1
    (put_locks {[LTicks := 0]} (running (set_p_state RUNNING zero_proc))))
    as (s1 & k & s2 & s3 & s4 & s5 & H1 & H2 & _ & H4 & H5 & H6 & H7 & _).
  - reflexivity.
  - reflexivity.
  - discriminate.
  - discriminate.
  - reflexivity.
  - reflexivity.
  - exists s5, s1, k, s2, s3, s4. split; [exact H1|]. split; [exact H2|]. split; [exact H4|].
    split; [exact H5|]. split; [exact H6|exact H7].
Defined.

(** [C40] [kill] acts on the first process of the table with the given pid: it is
    marked killed, and made RUNNABLE if it sleeps; 0 is returned.  Without such a
    process nothing changes and -1 is returned.  No lock stays held. *)
Theorem kill_exact pid s :
  length (g_procs s) = NPROC -> procs_unlocked s ->
  kill pid s =
    match list_find (fun p => p_pid p = pid) (g_procs s) with
    | Some (i, p) => Ret 0 (put_procs (<[i :=
        set_p_killed true (if decide (p_state p = SLEEPING) then set_p_state RUNNABLE p else p)]> (g_procs s)) s)
    | None => Ret (-1) s
    end.
Proof.
  intros Hl Hu. rewrite kill_run by done. unfold find_pid.
  destruct (list_find _ (g_procs s)) as [[i p]|]; [|done]. do 3 f_equal. unfold kill_proc. simpl.
  case_bool_decide; [by rewrite decide_True|by rewrite decide_False].
Qed.

(** A pid that no process has; and pid 0, which every unused slot has: [kill(0)]
    succeeds and marks an UNUSED slot as killed. *)
Lemma kill_exact_witness :
  kill 7 boot = Ret (-1) boot /\
  kill 0 boot = Ret 0 (put_procs (<[0%nat := set_p_killed true zero_proc]> (g_procs boot)) boot).
Proof.
  split; (etransitivity; [apply kill_exact; [reflexivity|intros i; reflexivity]|reflexivity]).
Defined.

(** A sleep lock serialises its users: a thread that finds it free takes it
    at once and is recorded as the owner; a thread that finds it taken goes to
    sleep on the lock's channel holding no other lock; the owner's
    [releasesleep] frees it and makes every sleeper RUNNABLE. *)
Theorem buf_sleeplock_protocol b x p pr fuel s :
  g_locks s = ∅ -> g_bufs s !! b = Some x -> g_curproc s = Some p -> g_procs s !! p = Some pr ->
  length (g_procs s) = NPROC ->
  let acquire := acquiresleep (LBufSl b) (buf_lock_get b) (buf_lock_upd b) (S fuel) in
  let release := releasesleep (LBufSl b) (buf_lock_upd b) in
  if sl_locked (b_lock x) then
    (exists k, acquire s = Switch (put_procs (<[p := asleep (ChSleeplock (LBufSl b)) pr]> (g_procs s))
                                     (put_locks {[LProc p := g_hart s]} s)) k) /\
    release s = Ret tt (put_procs (imap (wake (ChSleeplock (LBufSl b)) (Some p)) (g_procs s))
      (put_bufs (alter (set_b_lock {| sl_locked := false; sl_pid := 0 |}) b (g_bufs s)) s))
  else
    acquire s = Ret tt (put_bufs (alter (set_b_lock {| sl_locked := true; sl_pid := p_pid pr |}) b (g_bufs s)) s).
Proof.
  intros HL Hx Hc Hp Hlen acquire release.
  assert (forall l, lock_free l s) as Hf by (intros l; unfold lock_free; rewrite HL; apply lookup_empty).
  assert (buf_lock_rd b s = Some (b_lock x)) as Hrd by (unfold buf_lock_rd; by rewrite Hx).
  destruct (sl_locked (b_lock x)) eqn:El.
  - split.
    + by eapply acquiresleep_blocks with (rd := buf_lock_rd b) (wr := buf_lock_wr b); try apply _; eauto.
    + unfold release. erewrite (releasesleep_run (LBufSl b) (buf_lock_get b)) with (rd := buf_lock_rd b) (wr := buf_lock_wr b);
        [by rewrite Hc|apply _|apply Hf|done|exact Hrd|done|intros i; apply Hf].
  - unfold acquire. erewrite acquiresleep_run with (rd := buf_lock_rd b) (wr := buf_lock_wr b);
      [done|apply _|apply Hf|exact Hrd|done|exact Hc|exact Hp].
Qed.

(** Buffer 0 is free: taken at once; buffer 1 is taken: the thread blocks. *)
Lemma buf_sleeplock_protocol_witness :
  let s := put_bufs (<[1%nat := set_b_lock {| sl_locked := true; sl_pid := 9 |} zero_buf]> (g_bufs boot))
             (running zero_proc) in
  acquiresleep (LBufSl 0) (buf_lock_get 0) (buf_lock_upd 0) 1 s =
    Ret tt (put_bufs (alter (set_b_lock {| sl_locked := true; sl_pid := 0 |}) 0%nat (g_bufs s)) s) /\
  exists s1 k, acquiresleep (LBufSl 1) (buf_lock_get 1) (buf_lock_upd 1) 1 s = Switch s1 k.
Proof.
  intros s. split.
  - exact (buf_sleeplock_protocol 0 zero_buf 0 zero_proc 0 s eq_refl eq_refl eq_refl eq_refl eq_refl).
  - destruct (buf_sleeplock_protocol 1 (set_b_lock {| sl_locked := true; sl_pid := 9 |} zero_buf) 0 zero_proc 0 s
      eq_refl eq_refl eq_refl eq_refl eq_refl) as [[k E] _].
    eexists _, k. exact E.
Defined.
