(* ===== verification/SleepWake.v ===== *)
(** * Sleep and wakeup under all interleavings

    Harts run kernel code statement by statement.  A condition [cond] is protected by the lock [lk]; waiters run
    [acquire(lk); while(!cond) sleep(c, lk); ...; release(lk)] and signallers run
    [acquire(lk); cond = 1; wakeup(c); release(lk)], any number of them, on any number of harts, in processes or in
    interrupt handlers, with the scheduler and timer preemption.  The statements of [sleep], [wakeup] and
    [yield] are those of [Sched]: the list [sleep_code] that the sequential [sleep] executes is
    executed here one element at a time.  The theorem is that no wakeup is lost. *)

From Stdlib Require Import ZArith Lia.
From stdpp Require Import base list gmap strings numbers option functions relations.
From S2P Require Import Prelude Bytes Riscv Kstate Sched.

Section machine.
Context (c : chan) (lk : lockid).

(** ** The harts *)

Inductive instr :=
| Do (a : stmt)
| While                (** [while(!cond) sleep(c, lk)] *)
| Raise                (** [cond = 1] *)
| Take (v : bool)      (** [cond = 0] if [v]: a waiter may use the condition up *)
| Leave (p : nat).     (** the scheduler after its [swtch] *)

Definition wait_loop (v : bool) : list instr := [While; Take v; Do (SRelease lk)].
Definition waiter (v : bool) : list instr := Do (SAcquire lk) :: wait_loop v.
Definition signaller : list instr :=
  Do (SAcquire lk) :: Raise :: (Do <$> wakeup_code c) ++ [Do (SRelease lk)].
Definition sleeping (p : nat) (r : list instr) : list instr := (Do <$> sleep_code p c lk) ++ r.

(** [m_cur] is [c->proc] of each hart, [m_code] what the hart executes next, [m_saved] what a
    process does when it is switched to. *)
Record machine := mk_machine {
  m_ks : kstate;
  m_cond : bool;
  m_cur : Z -> option nat;
  m_code : Z -> list instr;
  m_saved : nat -> list instr
}.

(** The state as the code on hart [h] sees it. *)
Definition on_hart (h : Z) (m : machine) : kstate := put_hart h (put_curproc (m_cur m h) (m_ks m)).

Definition goto (h : Z) (s : kstate) (b : bool) (r : list instr) (m : machine) : machine :=
  {| m_ks := s; m_cond := b; m_cur := m_cur m; m_code := <[h := r]> (m_code m); m_saved := m_saved m |}.

Inductive hart_step (h : Z) (m : machine) : machine -> Prop :=
| st_do a r s : m_code m h = Do a :: r -> exec_stmt a (on_hart h m) = Ret tt s ->
    hart_step h m (goto h s (m_cond m) r m)
| st_sched p r s k : m_cur m h = Some p -> m_code m h = Do SSched :: r ->
    exec_stmt SSched (on_hart h m) = Switch s k ->
    hart_step h m {| m_ks := s; m_cond := m_cond m; m_cur := m_cur m;
                m_code := <[h := [Leave p]]> (m_code m); m_saved := <[p := r]> (m_saved m) |}
| st_leave p r s : m_code m h = Leave p :: r -> scheduler_leave p (on_hart h m) = Ret tt s ->
    hart_step h m {| m_ks := s; m_cond := m_cond m; m_cur := <[h := g_curproc s]> (m_cur m);
                m_code := <[h := r]> (m_code m); m_saved := m_saved m |}
| st_enter p s : m_cur m h = None -> m_code m h = [] -> scheduler_enter p (on_hart h m) = Ret true s ->
    hart_step h m {| m_ks := s; m_cond := m_cond m; m_cur := <[h := g_curproc s]> (m_cur m);
                m_code := <[h := m_saved m p]> (m_code m); m_saved := m_saved m |}
| st_sleep p r : m_cur m h = Some p -> m_code m h = While :: r -> m_cond m = false ->
    hart_step h m (goto h (m_ks m) (m_cond m) (sleeping p (While :: r)) m)
| st_go r : m_code m h = While :: r -> m_cond m = true -> hart_step h m (goto h (m_ks m) (m_cond m) r m)
| st_raise r : m_code m h = Raise :: r -> hart_step h m (goto h (m_ks m) true r m)
| st_take v r : m_code m h = Take v :: r -> hart_step h m (goto h (m_ks m) (m_cond m && negb v) r m)
| st_wait p v : m_cur m h = Some p -> m_code m h = [] -> hart_step h m (goto h (m_ks m) (m_cond m) (waiter v) m)
| st_signal : m_code m h = [] -> hart_step h m (goto h (m_ks m) (m_cond m) signaller m)
| st_yield p : m_cur m h = Some p -> m_code m h = [] ->
    hart_step h m (goto h (m_ks m) (m_cond m) (Do <$> yield_code p) m).

Definition any_step (m m' : machine) : Prop := exists h, hart_step h m m'.

(** The harts are in the scheduler, no lock is held, processes run their first code when they are
    switched to ([forkret] releases the process's lock). *)
Record initial (m : machine) : Prop := {
  in_locks : g_locks (m_ks m) = ∅;
  in_procs : length (g_procs (m_ks m)) = NPROC;
  in_awake : forall p pr, g_procs (m_ks m) !! p = Some pr -> p_state pr <> SLEEPING /\ p_state pr <> RUNNING;
  in_harts : forall h, m_cur m h = None /\ m_code m h = [];
  in_saved : forall p, m_saved m p = [Do (SRelease (LProc p))]
}.

(** ** What the remaining code says about the present *)

(** The hart holds [l]: it releases it before it acquires it. *)
Fixpoint holds_lock (l : lockid) (r : list instr) : bool :=
  match r with
  | [] => false
  | Do (SAcquire l') :: r' => if decide (l' = l) then false else holds_lock l r'
  | Do (SRelease l') :: r' => if decide (l' = l) then true else holds_lock l r'
  | Leave p :: r' => if decide (LProc p = l) then true else holds_lock l r'
  | _ :: r' => holds_lock l r'
  end.

(** The process has set its state and is about to be left, or was. *)
Definition parked (r : list instr) : bool :=
  match r with Do SSched :: _ | Leave _ :: _ => true | _ => false end.

(** The process is in [sleep] and has not marked itself SLEEPING. *)
Definition drowsy (p : nat) (r : list instr) : Prop := Do (SState p SLEEPING) ∈ r.

(** The places a hart can be. *)
Inductive place : option nat -> list instr -> Prop :=
| pl_idle o : place o []
| pl_leave p : place (Some p) [Leave p]
| pl_forkret p : place (Some p) [Do (SRelease (LProc p))]
| pl_wait p v : place (Some p) (waiter v)
| pl_sleep p v k : (k <= 11)%nat -> place (Some p) (drop k (sleeping p (wait_loop v)))
| pl_signal o : place o signaller
| pl_raise o : place o (drop 1 signaller)
| pl_wake o i n : (i + n = NPROC)%nat -> place o ((Do <$> (SWake c <$> seq i n)) ++ [Do (SRelease lk)])
| pl_yield p k : (k <= 4)%nat -> place (Some p) (drop k (Do <$> yield_code p)).

Record inv (m : machine) : Prop := {
  iv_procs : length (g_procs (m_ks m)) = NPROC;
  iv_place : forall h, place (m_cur m h) (m_code m h);
  iv_saved : forall p, place (Some p) (m_saved m p) /\ parked (m_saved m p) = false /\
    ~ drowsy p (m_saved m p) /\ forall l, holds_lock l (m_saved m p) = true <-> l = LProc p;
  iv_locks : forall l h, g_locks (m_ks m) !! l = Some h <-> holds_lock l (m_code m h) = true;
  iv_cur : forall h p, m_cur m h = Some p -> exists pr, g_procs (m_ks m) !! p = Some pr /\
    if parked (m_code m h) then p_state pr <> RUNNING else p_state pr = RUNNING;
  iv_one : forall h h' p, m_cur m h = Some p -> m_cur m h' = Some p -> h = h';
  iv_chan : forall p pr, g_procs (m_ks m) !! p = Some pr -> p_state pr = SLEEPING -> p_chan pr = Some c;
  iv_next : forall h p pr r, m_cur m h = Some p -> g_procs (m_ks m) !! p = Some pr ->
    m_code m h = Do (SState p SLEEPING) :: r -> p_chan pr = Some c;
  iv_false : forall h p, m_cur m h = Some p -> drowsy p (m_code m h) -> holds_lock lk (m_code m h) = true ->
    m_cond m = false;
  iv_wake : forall p, m_cond m = true ->
    (exists pr, g_procs (m_ks m) !! p = Some pr /\ p_state pr = SLEEPING) \/
    (exists h, m_cur m h = Some p /\ drowsy p (m_code m h) /\ holds_lock lk (m_code m h) = false) ->
    exists h, Do (SWake c p) ∈ m_code m h /\ holds_lock lk (m_code m h) = true
}.

(** ** Facts about the code alone *)

Context (Hlk : forall i, lk <> LProc i).

Ltac code_solve :=
  repeat (case_decide || (progress simplify_eq)); try done; try (by exfalso; eapply Hlk; eauto); try set_solver.

Lemma drop_cons {A} (l : list A) k x r : drop k l = x :: r -> (k < length l)%nat /\ drop (S k) l = r.
Proof using Type.
  revert k. induction l as [|y l IH]; intros [|k] E; try done; simpl in *.
  - injection E as -> ->. split; [lia|apply drop_0].
  - destruct (IH k E). split; [lia|done].
Qed.

(** What a statement's place in the code says about its neighbours. *)
Definition fits (o : option nat) (a : stmt) (r : list instr) : Prop :=
  match a with
  | SAcquire l => holds_lock l r = true /\ parked r = false /\ (l = lk -> forall p, ~ drowsy p r)
  | SRelease l => holds_lock l r = false /\ parked r = false /\ (l = lk -> forall p, Do (SWake c p) ∉ r)
  | SChan p ch => o = Some p /\ parked r = false
  | SState p st => o = Some p /\ parked r = true /\ (st = RUNNABLE \/ st = SLEEPING /\ holds_lock lk r = false) /\
      forall q, ~ drowsy q r
  | SSched => exists p, o = Some p /\ parked r = false /\ ~ drowsy p r /\ (forall q, Do (SWake c q) ∉ r) /\
      forall l, holds_lock l r = true <-> l = LProc p
  | SWake c' i => c' = c /\ parked r = false /\ holds_lock lk r = true /\ (forall p, ~ drowsy p r) /\
      (i < NPROC)%nat /\ forall j, holds_lock (LProc j) r = false
  end.

Lemma wakes_static q i n : let r := (Do <$> (SWake c <$> seq i n)) ++ [Do (SRelease lk)] in
  holds_lock lk r = true /\ (forall l, l <> lk -> holds_lock l r = false) /\ parked r = false /\ ~ drowsy q r.
Proof using Hlk.
  revert i. induction n as [|n IH]; intros i; cbn.
  - rewrite decide_True by done. split_and!; try done; [|unfold drowsy; set_solver].
    intros l Hl. by rewrite decide_False by done.
  - destruct (IH (S i)) as (H1 & H2 & H3 & H4). split_and!; try done. unfold drowsy in *. set_solver.
Qed.

Lemma signaller_awake p : ~ drowsy p signaller.
Proof using Hlk.
  unfold drowsy, signaller. intros Hd. destruct (wakes_static p 0 NPROC) as (_ & _ & _ & H).
  apply elem_of_cons in Hd as [Hd|Hd]; [done|]. apply elem_of_cons in Hd as [Hd|Hd]; [done|]. exact (H Hd).
Qed.

Lemma place_do o a r : place o (Do a :: r) ->
  place o r /\ fits o a r /\ (forall p st r', r = Do (SState p st) :: r' -> st = SLEEPING -> a = SChan p (Some c)).
Proof using Hlk.
  intros H. remember (Do a :: r) as x eqn:E. destruct H as [o|p|p|p v|p v k Hk|o|o|o i n Hn|p k Hk]; try discriminate E.
  - injection E as <- <-. split; [apply pl_idle|]. split; [|by intros ??? [=]]. split_and!; try done. intros _ q; set_solver.
  - injection E as <- <-. split; [apply (pl_sleep p v 8); lia|]. split; [|by intros ??? [=]]. cbn.
    split_and!; code_solve. intros _ q. unfold drowsy. set_solver.
  - destruct (drop_cons _ _ _ _ E) as [Hl <-]. change (length _) with 11%nat in Hl.
    split; [apply (pl_sleep p v (S k)); lia|].
    destruct k as [|[|[|[|[|[|[|[|[|[|[|k]]]]]]]]]]]; [..|lia]; cbn in E; try discriminate E; inversion E; subst a; clear E; cbn.
    all: split; [|by intros ??? [=]; subst].
    all: try (split_and!; unfold drowsy; code_solve).
    exists p. split_and!; try done; [unfold drowsy; set_solver|set_solver|]. intros l. code_solve.
  - injection E as <- <-. split; [apply pl_raise|]. split; [|by intros ??? [=]].
    destruct (wakes_static 0 0 NPROC) as (H1 & _). cbn [fits]. split_and!; [exact H1|done|].
    intros _ q Hq. apply (signaller_awake q). by apply list_elem_of_further.
  - destruct n as [|n]; cbn in E.
    + injection E as <- <-. split; [apply pl_idle|]. split; [|by intros ??? [=]]. split_and!; try done. intros _ q; set_solver.
    + injection E as <- <-. split; [apply (pl_wake o (S i) n); lia|].
      destruct (wakes_static 0 (S i) n) as (H1 & _ & H3 & _).
      split; [split_and!; try done; [intros q; by apply wakes_static|lia|intros q; apply (wakes_static 0); by apply not_eq_sym]|].
      intros q st r'. destruct n; by intros [=].
  - destruct (drop_cons _ _ _ _ E) as [Hl <-]. change (length _) with 4%nat in Hl.
    split; [apply (pl_yield p (S k)); lia|].
    destruct k as [|[|[|[|k]]]]; [..|lia]; cbn in E; inversion E; subst a; clear E; cbn.
    all: split; [|by intros ??? [=]; subst].
    all: try (split_and!; unfold drowsy; code_solve).
    exists p. split_and!; try done; [unfold drowsy; set_solver|set_solver|]. intros l. code_solve.
Qed.
(** A process that has released [lk] in [sleep] holds its own lock, and so does one that is parked. *)
Lemma place_own p r : place (Some p) r ->
  (drowsy p r -> holds_lock lk r = false -> holds_lock (LProc p) r = true /\ forall q, Do (SWake c q) ∉ r) /\
  (parked r = true -> holds_lock (LProc p) r = true).
Proof using Hlk.
  remember (Some p) as o eqn:Eo. intros H.
  destruct H as [o|p'|p'|p' v|p' v k Hk|o|o|o i n Hn|p' k Hk]; try (injection Eo as ->); unfold drowsy; split.
  all: try (by intros Hd; exfalso; apply (signaller_awake p); first [done|by apply list_elem_of_further]).
  all: try (by intros Hd; exfalso; set_solver).
  all: try done.
  - intros _. cbn. by rewrite decide_True.
  - destruct k as [|[|[|[|[|[|[|[|[|[|[|[|k]]]]]]]]]]]]; [..|lia]; cbn.
    all: try (by intros Hd; exfalso; set_solver).
    all: intros _; code_solve.
  - destruct k as [|[|[|[|[|[|[|[|[|[|[|[|k]]]]]]]]]]]]; [..|lia]; cbn; code_solve.
  - by destruct n.
  - destruct k as [|[|[|[|[|k]]]]]; [..|lia]; cbn; intros Hd; exfalso; set_solver.
  - destruct k as [|[|[|[|[|k]]]]]; [..|lia]; cbn; code_solve.
Qed.

Lemma place_leave o p r : place o (Leave p :: r) -> o = Some p /\ r = [].
Proof using Hlk.
  intros H. remember (Leave p :: r) as x eqn:E. destruct H as [o|q|q|q v|q v k Hk|o|o|o i n Hn|q k Hk]; try discriminate E.
  - by simplify_eq.
  - exfalso. destruct k as [|[|[|[|[|[|[|[|[|[|[|[|k]]]]]]]]]]]]; [..|lia]; by cbn in E.
  - exfalso. by destruct n.
  - exfalso. destruct k as [|[|[|[|[|k]]]]]; [..|lia]; by cbn in E.
Qed.

Lemma place_while o r : place o (While :: r) ->
  exists p v, o = Some p /\ While :: r = wait_loop v.
Proof using Hlk.
  intros H. remember (While :: r) as x eqn:E. destruct H as [o|q|q|q v|q v k Hk|o|o|o i n Hn|q k Hk]; try discriminate E.
  - destruct k as [|[|[|[|[|[|[|[|[|[|[|[|k]]]]]]]]]]]]; [..|lia]; cbn in E; simplify_eq. by exists q, v.
  - exfalso. by destruct n.
  - exfalso. destruct k as [|[|[|[|[|k]]]]]; [..|lia]; by cbn in E.
Qed.

Lemma place_take o v r : place o (Take v :: r) -> (exists p, o = Some p) /\ r = [Do (SRelease lk)].
Proof using Hlk.
  intros H. remember (Take v :: r) as x eqn:E. destruct H as [o|q|q|q w|q w k Hk|o|o|o i n Hn|q k Hk]; try discriminate E.
  - destruct k as [|[|[|[|[|[|[|[|[|[|[|[|k]]]]]]]]]]]]; [..|lia]; cbn in E; simplify_eq. eauto.
  - exfalso. by destruct n.
  - exfalso. destruct k as [|[|[|[|[|k]]]]]; [..|lia]; by cbn in E.
Qed.

Lemma place_raise o r : place o (Raise :: r) -> r = (Do <$> wakeup_code c) ++ [Do (SRelease lk)].
Proof using Hlk.
  intros H. remember (Raise :: r) as x eqn:E. destruct H as [o|q|q|q w|q w k Hk|o|o|o i n Hn|q k Hk]; try discriminate E.
  - exfalso. destruct k as [|[|[|[|[|[|[|[|[|[|[|[|k]]]]]]]]]]]]; [..|lia]; by cbn in E.
  - by injection E.
  - exfalso. by destruct n.
  - exfalso. destruct k as [|[|[|[|[|k]]]]]; [..|lia]; by cbn in E.
Qed.

(** ** The invariant is kept *)

Lemma hart_upd {A} (f : Z -> A) h (r : A) h' : (<[h := r]> f : Z -> A) h' = if decide (h = h') then r else f h'.
Proof using Type. destruct (decide (h = h')) as [->|]; [apply fn_lookup_insert|by apply fn_lookup_insert_ne]. Qed.

(** Asleep, or past the release of [lk] on the way there. *)
Definition dozing (m : machine) (p : nat) : Prop :=
  (exists pr, g_procs (m_ks m) !! p = Some pr /\ p_state pr = SLEEPING) \/
  (exists h, m_cur m h = Some p /\ drowsy p (m_code m h) /\ holds_lock lk (m_code m h) = false).

(** What has to be checked when hart [h] goes on with [r] in the state [s]. *)
Lemma inv_goto m h s b r :
  inv m -> length (g_procs s) = NPROC -> place (m_cur m h) r ->
  (forall l h', g_locks s !! l = Some h' <-> holds_lock l (if decide (h = h') then r else m_code m h') = true) ->
  (forall h' p, h' <> h -> m_cur m h' = Some p -> g_procs s !! p = g_procs (m_ks m) !! p) ->
  (forall p, m_cur m h = Some p -> exists pr, g_procs s !! p = Some pr /\
     (if parked r then p_state pr <> RUNNING else p_state pr = RUNNING) /\
     forall r', r = Do (SState p SLEEPING) :: r' -> p_chan pr = Some c) ->
  (forall p pr, g_procs s !! p = Some pr -> p_state pr = SLEEPING -> p_chan pr = Some c) ->
  (b = m_cond m \/ holds_lock lk (m_code m h) = true) ->
  (forall p, m_cur m h = Some p -> drowsy p r -> holds_lock lk r = true -> b = false) ->
  (forall p, b = true -> dozing (goto h s b r m) p ->
     exists h', Do (SWake c p) ∈ (if decide (h = h') then r else m_code m h') /\
                holds_lock lk (if decide (h = h') then r else m_code m h') = true) ->
  inv (goto h s b r m).
Proof using Hlk.
  intros HI Hlen Hpl HL Ho Hh Hc Hb Hf Hw. split; cbn [m_ks m_cond m_cur m_code m_saved goto]; try apply HI; try done.
  - intros h'. rewrite hart_upd. case_decide; [by subst|apply HI].
  - intros h' p Hp. rewrite hart_upd. case_decide as E; [subst|].
    + destruct (Hh p Hp) as (pr & ? & ? & _). eauto.
    + rewrite (Ho h') by done. by apply HI.
  - intros h' p pr r'. rewrite hart_upd. case_decide as E; [subst|].
    + intros Hp Hpr ->. destruct (Hh p Hp) as (pr' & Hpr' & _ & H). simplify_eq. by eapply H.
    + intros Hp. rewrite (Ho h') by done. by eapply iv_next.
  - intros h' p. rewrite hart_upd. case_decide as E; [subst; apply Hf|]. intros Hp Hd Hl.
    destruct Hb as [->|Hl']; [by eapply iv_false|].
    apply (iv_locks _ HI) in Hl. apply (iv_locks _ HI) in Hl'. congruence.
Qed.

(** The witness of the invariant survives when the hart's next instruction is not its wakeup. *)
Lemma wake_keeps m h i r p :
  m_code m h = i :: r -> i <> Do (SWake c p) -> (holds_lock lk (i :: r) = true -> holds_lock lk r = true \/ Do (SWake c p) ∉ r) ->
  (exists h', Do (SWake c p) ∈ m_code m h' /\ holds_lock lk (m_code m h') = true) ->
  exists h', Do (SWake c p) ∈ (if decide (h = h') then r else m_code m h') /\
             holds_lock lk (if decide (h = h') then r else m_code m h') = true.
Proof using Hlk.
  intros E Hi Hk (h' & H1 & H2). exists h'. case_decide; [subst|done]. rewrite E in H1, H2.
  assert (Do (SWake c p) ∈ r) as Hr by set_solver. split; [done|]. by destruct (Hk H2).
Qed.

(** A hart that stays where the locks it holds and its process are the same. *)
Lemma locks_same m h r : inv m -> (forall l, holds_lock l r = holds_lock l (m_code m h)) ->
  forall l h', g_locks (m_ks m) !! l = Some h' <-> holds_lock l (if decide (h = h') then r else m_code m h') = true.
Proof using Hlk. intros HI H l h'. case_decide; [subst; rewrite H|]; apply HI. Qed.

Lemma cur_same m h r p : inv m -> m_cur m h = Some p -> parked r = parked (m_code m h) ->
  (forall q st r', r = Do (SState q st) :: r' -> st = SLEEPING -> False) ->
  exists pr, g_procs (m_ks m) !! p = Some pr /\
     (if parked r then p_state pr <> RUNNING else p_state pr = RUNNING) /\
     forall r', r = Do (SState p SLEEPING) :: r' -> p_chan pr = Some c.
Proof using Hlk.
  intros HI Hp Hk Hr. destruct (iv_cur _ HI _ _ Hp) as (pr & ? & ?). exists pr. rewrite Hk. split; [done|].
  split; [done|]. intros r' ->. by exfalso; eapply Hr.
Qed.

(** Hart [h] moves on without touching the kernel's state. *)
Lemma inv_move m h b r :
  inv m -> place (m_cur m h) r -> (forall l, holds_lock l r = holds_lock l (m_code m h)) ->
  parked r = parked (m_code m h) -> (forall q st r', r = Do (SState q st) :: r' -> st = SLEEPING -> False) ->
  (b = m_cond m \/ holds_lock lk (m_code m h) = true) ->
  (forall p, m_cur m h = Some p -> drowsy p r -> b = false) ->
  (b = false \/ (forall p, (p < NPROC)%nat -> Do (SWake c p) ∈ r /\ holds_lock lk r = true) \/
   b = m_cond m /\ (forall p, Do (SWake c p) ∉ m_code m h)) ->
  inv (goto h (m_ks m) b r m).
Proof using Hlk.
  intros HI Hpl Hl Hk Hn Hb Hd Hw. apply inv_goto; try done.
  - apply HI.
  - by apply locks_same.
  - intros p Hp. by apply (cur_same m h).
  - apply HI.
  - intros p Hp Hdr _. by eapply Hd.
  - intros p Hbt Hz. destruct Hw as [->|[Hw|[-> Hw]]]; [done| |].
    + exists h. rewrite decide_True by done. apply Hw. rewrite <- (iv_procs _ HI).
      destruct Hz as [(pr & Hpr & _)|(h' & Hp & _)]; [by eapply lookup_lt_Some|].
      destruct (iv_cur _ HI h' p Hp) as (pr & Hpr & _). by eapply lookup_lt_Some.
    + assert (dozing m p) as Hz'.
      { destruct Hz as [Hz|(h' & Hp & Hdr & Hh)]; [by left|]. cbn in Hp, Hdr, Hh. rewrite hart_upd in Hdr, Hh.
        case_decide; [subst; by rewrite (Hd p) in Hbt|]. right. by exists h'. }
      destruct (iv_wake _ HI p Hbt Hz') as (h' & H1 & H2). exists h'.
      case_decide; [subst; by apply Hw in H1|done].
Qed.

(** ** Statements *)

(** [dozing] after a step that keeps the processes. *)
Lemma dozing_back m h s b r p :
  (forall q pr, g_procs s !! q = Some pr -> p_state pr = SLEEPING ->
     (exists pr', g_procs (m_ks m) !! q = Some pr' /\ p_state pr' = SLEEPING) \/ dozing m q) ->
  (m_cur m h = Some p -> drowsy p r -> holds_lock lk r = false -> dozing m p) ->
  dozing (goto h s b r m) p -> dozing m p.
Proof using Hlk.
  intros Hs Hh [(pr & Hpr & Hst)|(h' & Hp & Hd & Hl)].
  - destruct (Hs _ _ Hpr Hst) as [H|H]; [by left|done].
  - cbn in Hp, Hd, Hl. rewrite hart_upd in Hd, Hl. case_decide; [subst; by apply Hh|]. right. by exists h'.
Qed.

Section statement.
Context (m : machine) (h : Z) (r : list instr).
Context (HI : inv m).

Lemma inv_acquire l s : m_code m h = Do (SAcquire l) :: r -> exec_stmt (SAcquire l) (on_hart h m) = Ret tt s ->
  inv (goto h s (m_cond m) r m).
Proof using Hlk HI.
  intros Hc E. pose proof (iv_place _ HI h) as Hpl. rewrite Hc in Hpl.
  destruct (place_do _ _ _ Hpl) as (Hr & (Hl & Hk & Hd) & Hn).
  unfold exec_stmt, lock_acquire in E. destruct (g_locks (on_hart h m) !! l) eqn:El; [by destruct (_ =? _)|].
  injection E as <-. change (g_locks (m_ks m) !! l = None) in El.
  assert (forall l', l' <> l -> holds_lock l' r = holds_lock l' (m_code m h)) as Hsame.
  { intros l' Hl'. rewrite Hc. cbn. by rewrite decide_False. }
  apply inv_goto; try done; try apply HI; try (by left).
  - intros l' h'. change (g_hart (on_hart h m)) with h. kget. change (g_locks (on_hart h m)) with (g_locks (m_ks m)).
    destruct (decide (l' = l)) as [->|Hne].
    + rewrite lookup_insert_eq. case_decide; [naive_solver|]. split; [naive_solver|].
      intros H1. apply (iv_locks _ HI) in H1. congruence.
    + rewrite lookup_insert_ne by done. case_decide; [subst; rewrite Hsame by done|]; apply HI.
  - intros p Hp. apply (cur_same m h); [done|done|by rewrite Hc|]. intros q st r' -> ->. by specialize (Hn _ _ _ eq_refl eq_refl).
  - intros p Hp Hdr Hh. destruct (decide (l = lk)) as [->|Hne]; [by apply Hd in Hdr|].
    apply (iv_false _ HI h p Hp); [rewrite Hc; by apply list_elem_of_further|]. by rewrite <- Hsame.
  - intros p Hbt Hz. apply (wake_keeps m h (Do (SAcquire l))); [done|done| |].
    { cbn. case_decide; [done|by left]. }
    apply (iv_wake _ HI p Hbt). eapply (dozing_back m h _ _ r); [|..|exact Hz].
    + intros q pr Hq Hs. left. by exists pr.
    + intros Hp Hdr Hh. right. exists h. assert (lk <> l) by congruence.
      rewrite <- Hsame by done. split_and!; [done|rewrite Hc; by apply list_elem_of_further|done].
Qed.

Lemma inv_release l s : m_code m h = Do (SRelease l) :: r -> exec_stmt (SRelease l) (on_hart h m) = Ret tt s ->
  inv (goto h s (m_cond m) r m).
Proof using Hlk HI.
  intros Hc E. pose proof (iv_place _ HI h) as Hpl. rewrite Hc in Hpl.
  destruct (place_do _ _ _ Hpl) as (Hr & (Hl & Hk & Hd) & Hn).
  unfold exec_stmt, lock_release, lock_holding in E. destruct (g_locks (on_hart h m) !! l) as [h0|] eqn:El; [|done].
  change (g_hart (on_hart h m)) with h in E. destruct (Z.eqb_spec h0 h) as [->|]; [|done]. injection E as <-.
  assert (forall l', l' <> l -> holds_lock l' r = holds_lock l' (m_code m h)) as Hsame.
  { intros l' Hl'. rewrite Hc. cbn. by rewrite decide_False. }
  apply inv_goto; try done; try apply HI; try (by left).
  - intros l' h'. kget. change (g_locks (on_hart h m)) with (g_locks (m_ks m)) in *.
    destruct (decide (l' = l)) as [->|Hne].
    + rewrite lookup_delete_eq. case_decide; [by rewrite Hl|]. split; [done|].
      intros H1. apply (iv_locks _ HI) in H1. congruence.
    + rewrite lookup_delete_ne by done. case_decide; [subst; rewrite Hsame by done|]; apply HI.
  - intros p Hp. apply (cur_same m h); [done|done|by rewrite Hc|]. intros q st r' -> ->. by specialize (Hn _ _ _ eq_refl eq_refl).
  - intros p Hp Hdr Hh. apply (iv_false _ HI h p Hp); [rewrite Hc; by apply list_elem_of_further|].
    rewrite <- Hsame; [done|congruence].
  - intros p Hbt Hz. apply (wake_keeps m h (Do (SRelease l))); [done|done| |].
    { cbn. case_decide; [by right; apply Hd|by left]. }
    apply (iv_wake _ HI p Hbt). eapply (dozing_back m h _ _ r); [|..|exact Hz].
    + intros q pr Hq Hs. left. by exists pr.
    + intros Hp Hdr Hh. assert (drowsy p (m_code m h)) by (rewrite Hc; by apply list_elem_of_further).
      destruct (decide (l = lk)) as [->|Hne].
      * exfalso. assert (m_cond m = false); [|congruence]. apply (iv_false _ HI h p Hp); [done|].
        rewrite Hc. cbn. by rewrite decide_True.
      * right. exists h. by rewrite <- Hsame.
Qed.

(** A statement that writes the hart's own process. *)
Lemma inv_own a p f s :
  m_code m h = Do a :: r -> m_cur m h = Some p -> (forall l, holds_lock l r = holds_lock l (Do a :: r)) ->
  (forall q, a <> SWake c q) -> upd_proc p f (on_hart h m) = Ret tt s ->
  (forall pr, g_procs (m_ks m) !! p = Some pr -> p_state pr = RUNNING ->
     (if parked r then p_state (f pr) <> RUNNING else p_state (f pr) = RUNNING) /\
     (p_state (f pr) = SLEEPING -> p_chan (f pr) = Some c /\ drowsy p (m_code m h) /\ holds_lock lk r = false) /\
     forall r', r = Do (SState p SLEEPING) :: r' -> p_chan (f pr) = Some c) ->
  parked (Do a :: r) = false -> inv (goto h s (m_cond m) r m).
Proof using Hlk HI.
  intros Hc Hp Hl Ha E Hf Hk. pose proof (iv_place _ HI h) as Hpl. rewrite Hc in Hpl.
  destruct (place_do _ _ _ Hpl) as (Hr & _).
  destruct (iv_cur _ HI h p Hp) as (pr & Hpr & Hst). rewrite Hc, Hk in Hst.
  unfold upd_proc in E. rewrite (arr_upd_run _ _ _ _ _ (on_hart h m) pr Hpr) in E. injection E as <-.
  change (g_procs (on_hart h m)) with (g_procs (m_ks m)).
  pose proof (lookup_lt_Some _ _ _ Hpr) as Hlt. destruct (Hf pr Hpr Hst) as (F1 & F2 & F3).
  apply inv_goto; try done; try (by left); kget.
  - rewrite length_insert. apply HI.
  - apply (locks_same m h); [done|]. intros l. by rewrite Hc.
  - intros h' q Hne Hq. apply list_lookup_insert_ne. intros <-. apply Hne. by eapply iv_one.
  - intros q Hq. assert (q = p) as -> by congruence. exists (f pr). by rewrite list_lookup_insert_eq.
  - intros q pr' Hq Hs. destruct (decide (q = p)) as [->|].
    + rewrite list_lookup_insert_eq in Hq by done. injection Hq as <-. by apply F2.
    + rewrite list_lookup_insert_ne in Hq by done. by eapply iv_chan.
  - intros q Hq Hd Hh. apply (iv_false _ HI h q Hq); [rewrite Hc; by apply list_elem_of_further|]. by rewrite Hc, <- Hl.
  - intros q Hbt Hz. apply (wake_keeps m h (Do a)); [done|by intros [= ->]; eapply Ha|rewrite Hl; by left|].
    apply (iv_wake _ HI q Hbt). eapply (dozing_back m h _ _ r); [|..|exact Hz].
    + intros q' pr'. kget. intros Hq' Hs. destruct (decide (q' = p)) as [->|].
      * rewrite list_lookup_insert_eq in Hq' by done. injection Hq' as <-. destruct (F2 Hs) as (_ & ? & ?).
        right. right. exists h. by rewrite Hc, <- Hl, <- Hc.
      * rewrite list_lookup_insert_ne in Hq' by done. left. by exists pr'.
    + intros Hq Hd Hh. right. exists h. rewrite Hc, <- Hl. split_and!; try done. by apply list_elem_of_further.
Qed.

Lemma inv_chan p ch s : m_code m h = Do (SChan p ch) :: r -> exec_stmt (SChan p ch) (on_hart h m) = Ret tt s ->
  inv (goto h s (m_cond m) r m).
Proof using Hlk HI.
  intros Hc E. pose proof (iv_place _ HI h) as Hpl. rewrite Hc in Hpl.
  destruct (place_do _ _ _ Hpl) as (Hr & (Hp & Hk) & Hn).
  eapply (inv_own (SChan p ch) p); try done. intros pr Hpr Hst. rewrite Hk. split; [done|]. split; [simpl; congruence|].
  intros r' Er. by injection (Hn _ _ _ Er eq_refl) as ->.
Qed.

Lemma inv_state p st s : m_code m h = Do (SState p st) :: r -> exec_stmt (SState p st) (on_hart h m) = Ret tt s ->
  inv (goto h s (m_cond m) r m).
Proof using Hlk HI.
  intros Hc E. pose proof (iv_place _ HI h) as Hpl. rewrite Hc in Hpl.
  destruct (place_do _ _ _ Hpl) as (Hr & (Hp & Hk & Hs & _) & Hn).
  eapply (inv_own (SState p st) p); try done. intros pr Hpr Hst. rewrite Hk. split; [simpl; naive_solver|].
  split; [|intros r' Er; by rewrite Er in Hk]. simpl. intros ->. destruct Hs as [|[_ Hs]]; [done|].
  split; [by eapply iv_next|]. split; [rewrite Hc; unfold drowsy; set_solver|done].
Qed.

Lemma wakeup_one_ret i k k' : wakeup_one c i k = Ret tt k' ->
  (Some i = g_curproc k /\ k' = k) \/
  (Some i <> g_curproc k /\ lock_free (LProc i) k /\ exists pr, g_procs k !! i = Some pr /\
     k' = put_procs (<[i := wake c (g_curproc k) i pr]> (g_procs k)) k).
Proof using Type.
  intros E. destruct (decide (Some i = g_curproc k)) as [Hi|Hi].
  - left. split; [done|]. unfold wakeup_one, myproc, bind, gets in E. cbn [obind] in E.
    rewrite bool_decide_true in E by done. by injection E.
  - right. split; [done|]. destruct (g_locks k !! LProc i) eqn:El.
    { exfalso. unfold wakeup_one, myproc, bind, gets, lock_acquire in E. cbn [obind] in E.
      rewrite bool_decide_false, El in E by done. by destruct (_ =? _). }
    split; [done|]. destruct (g_procs k !! i) as [pr|] eqn:Ep.
    + exists pr. split; [done|]. rewrite (wakeup_one_run c i k pr El Ep) in E. by injection E.
    + exfalso. unfold wakeup_one, myproc, bind, gets in E. cbn [obind] in E. rewrite bool_decide_false in E by done.
      rewrite lock_acquire_run in E by done. cbn [obind] in E. unfold get_proc, arr_get in E.
      change (g_procs (put_locks _ k)) with (g_procs k) in E. by rewrite Ep in E.
Qed.

(** After its turn of [wakeup], a process does not sleep. *)
Lemma wake_awake me i pr : Some i <> me -> (p_state pr = SLEEPING -> p_chan pr = Some c) ->
  p_state (wake c me i pr) <> SLEEPING /\ (p_state pr <> SLEEPING -> wake c me i pr = pr).
Proof using Type.
  intros Hi Hc. unfold wake. rewrite (bool_decide_true (Some i <> me)) by done. cbn [andb].
  destruct (decide (p_state pr = SLEEPING)) as [Hs|Hs].
  - rewrite !bool_decide_true by auto. by split.
  - rewrite (bool_decide_false (p_state pr = SLEEPING)) by done. by split.
Qed.

(** The places where hart [h] runs [wakeup]. *)
Lemma inv_wakeup c' i s : m_code m h = Do (SWake c' i) :: r -> exec_stmt (SWake c' i) (on_hart h m) = Ret tt s ->
  inv (goto h s (m_cond m) r m).
Proof using Hlk HI.
  intros Hc E. pose proof (iv_place _ HI h) as Hpl. rewrite Hc in Hpl.
  destruct (place_do _ _ _ Hpl) as (Hr & (-> & Hk & Hl & Hd & _) & Hn). cbn [exec_stmt] in E.
  assert (forall p, m_cur m h = Some p -> exists pr, g_procs (m_ks m) !! p = Some pr /\ p_state pr = RUNNING) as Hme.
  { intros p Hp. destruct (iv_cur _ HI h p Hp) as (pr & ? & Hst). rewrite Hc in Hst. eauto. }
  assert (g_locks s = g_locks (m_ks m) /\ length (g_procs s) = NPROC /\
    (forall h' p, m_cur m h' = Some p -> g_procs s !! p = g_procs (m_ks m) !! p) /\
    forall q pr, g_procs s !! q = Some pr -> p_state pr = SLEEPING -> g_procs (m_ks m) !! q = Some pr /\ q <> i)
    as (HL & Hlen & Hcur & Hsl).
  { destruct (wakeup_one_ret _ _ _ E) as [[Hi ->]|(Hi & Hf & pr & Hpr & ->)].
    - split; [done|]. split; [apply HI|]. split; [done|]. intros q pr Hq Hs. split; [done|]. intros ->.
      destruct (Hme i (eq_sym Hi)) as (pr' & Hpr' & Hst). change (g_procs (m_ks m) !! i = Some pr) in Hq. congruence.
    - change (g_curproc (on_hart h m)) with (m_cur m h) in *. change (g_procs (on_hart h m)) with (g_procs (m_ks m)) in *.
      destruct (wake_awake (m_cur m h) i pr Hi (iv_chan _ HI i pr Hpr)) as [Ha Hid].
      kget. split; [done|]. split; [rewrite length_insert; apply HI|]. split.
      + intros h' p Hp. destruct (decide (p = i)) as [->|]; [|by rewrite list_lookup_insert_ne].
        rewrite list_lookup_insert_eq by (by eapply lookup_lt_Some). rewrite Hpr. f_equal. apply Hid.
        destruct (iv_cur _ HI h' i Hp) as (pr' & Hpr' & Hst). assert (pr' = pr) as -> by congruence.
        destruct (parked (m_code m h')) eqn:Ek; [|congruence]. exfalso.
        pose proof (iv_place _ HI h') as Hpl'. rewrite Hp in Hpl'. destruct (place_own _ _ Hpl') as [_ Hown].
        apply Hown, (iv_locks _ HI) in Ek. unfold lock_free in Hf. change (g_locks (on_hart h m)) with (g_locks (m_ks m)) in Hf. congruence.
      + intros q pr'. destruct (decide (q = i)) as [->|]; [|by rewrite list_lookup_insert_ne].
        rewrite list_lookup_insert_eq by (by eapply lookup_lt_Some). by intros [= <-]. }
  assert (forall l, holds_lock l r = holds_lock l (m_code m h)) as Hsame by (intros l; by rewrite Hc).
  apply inv_goto; try done; try (by left).
  - rewrite HL. by apply locks_same.
  - intros h' p _ Hp. by eapply Hcur.
  - intros p Hp. rewrite (Hcur h p Hp). apply (cur_same m h); [done|done|by rewrite Hc|].
    intros q st r' Er ->. by specialize (Hn _ _ _ Er eq_refl).
  - intros q pr Hq Hs. destruct (Hsl _ _ Hq Hs) as [? _]. by eapply iv_chan.
  - intros p _ Hdr. by apply Hd in Hdr.
  - intros p Hbt Hz.
    assert (dozing m p) as Hz'.
    { eapply (dozing_back m h s); [|..|exact Hz]; [|intros _ Hdr; by apply Hd in Hdr].
      intros q pr Hq Hs. left. exists pr. split; [by apply Hsl|done]. }
    destruct (decide (p = i)) as [->|Hne]; [|by apply (wake_keeps m h _ r p Hc); [congruence|by left|apply (iv_wake _ HI)]].
    exfalso. destruct Hz as [(pr & Hq & Hs)|(h' & Hp & Hdr & Hh)]; [by destruct (Hsl _ _ Hq Hs)|].
    cbn in Hp, Hdr, Hh. rewrite hart_upd in Hdr, Hh. case_decide as Eh; [by apply Hd in Hdr|].
    pose proof (iv_place _ HI h') as Hpl'. rewrite Hp in Hpl'. destruct (place_own _ _ Hpl') as [Hown _].
    destruct (Hown Hdr Hh) as [Ho _]. apply (iv_locks _ HI) in Ho.
    destruct (wakeup_one_ret _ _ _ E) as [[Hi _]|(_ & Hf & _)].
    + apply Eh. eapply iv_one; [done| |done]. done.
    + unfold lock_free in Hf. change (g_locks (on_hart h m)) with (g_locks (m_ks m)) in Hf. congruence.
Qed.

(** ** Context switches *)

Lemma sched_switch k k' K : sched k = Switch k' K -> k' = k.
Proof using Type.
  unfold sched, curp, myproc, bind, gets, get_proc, arr_get, the. cbn [obind].
  destruct (g_curproc k) as [p|]; [|done]. unfold ret. cbn [obind].
  destruct (lock_holding (LProc p) k); cbn [negb obind]; [|done].
  destruct (lock_depth k =? 1)%nat; cbn [negb obind]; [|done].
  destruct (g_procs k !! p) as [pr|]; cbn [obind]; [|done].
  destruct (bool_decide _); cbn [obind]; [done|]. destruct (intr_get k); [done|].
  unfold swtch_to_scheduler. congruence.
Qed.

Lemma inv_sched p s K : m_cur m h = Some p -> m_code m h = Do SSched :: r ->
  exec_stmt SSched (on_hart h m) = Switch s K ->
  inv {| m_ks := s; m_cond := m_cond m; m_cur := m_cur m;
         m_code := <[h := [Leave p]]> (m_code m); m_saved := <[p := r]> (m_saved m) |}.
Proof using Hlk HI.
  intros Hp Hc E. pose proof (iv_place _ HI h) as Hpl. rewrite Hc in Hpl.
  destruct (place_do _ _ _ Hpl) as (Hr & (p' & Hp' & Hk & Hd & Hw & Hl) & Hn). assert (p' = p) as -> by congruence.
  apply sched_switch in E as ->. rewrite Hp in Hr.
  destruct (inv_move m h (m_cond m) [Leave p] HI) as [? ? ? ? ? ? ? ? ? ?]; cycle -1.
  { split; try done. intros q. cbn [m_saved]. destruct (decide (q = p)) as [->|].
    - rewrite fn_lookup_insert. by split_and!.
    - rewrite fn_lookup_insert_ne by done. apply HI. }
  - rewrite Hp. apply pl_leave.
  - intros l. rewrite Hc. cbn. specialize (Hl l). case_decide; [symmetry; apply Hl; done|].
    destruct (holds_lock l r); [|done]. naive_solver.
  - by rewrite Hc.
  - done.
  - by left.
  - intros q _ Hq. unfold drowsy in Hq. set_solver.
  - right. right. split; [done|]. intros q Hq. rewrite Hc in Hq. apply elem_of_cons in Hq as [|Hq]; [done|]. by apply Hw in Hq.
Qed.

(** The hart's process changes. *)
Lemma inv_switch s o r' :
  length (g_procs s) = NPROC -> place o r' ->
  (forall l h', g_locks s !! l = Some h' <-> holds_lock l (if decide (h = h') then r' else m_code m h') = true) ->
  (forall h' p, h' <> h -> m_cur m h' = Some p -> g_procs s !! p = g_procs (m_ks m) !! p) ->
  (forall p, o = Some p -> (forall h', h' <> h -> m_cur m h' <> Some p) /\
     exists pr, g_procs s !! p = Some pr /\ if parked r' then p_state pr <> RUNNING else p_state pr = RUNNING) ->
  (forall q pr, g_procs s !! q = Some pr -> p_state pr = SLEEPING -> g_procs (m_ks m) !! q = Some pr) ->
  (forall p, o = Some p -> ~ drowsy p r') -> (forall p, Do (SWake c p) ∉ m_code m h) ->
  inv {| m_ks := s; m_cond := m_cond m; m_cur := <[h := o]> (m_cur m);
         m_code := <[h := r']> (m_code m); m_saved := m_saved m |}.
Proof using Hlk HI.
  intros Hlen Hpl HL Ho Hh Hs Hd Hw. split; cbn [m_ks m_cond m_cur m_code m_saved]; try done; try apply HI.
  - intros h'. rewrite !hart_upd. case_decide; [done|apply HI].
  - intros h' p. rewrite !hart_upd. case_decide as E; [intros ->; by apply Hh|]. intros Hp. rewrite (Ho h') by done. by apply HI.
  - intros h1 h2 p. rewrite !hart_upd. case_decide; case_decide; subst; try done.
    + intros -> H2. destruct (Hh p eq_refl) as [Hx _]. by apply Hx in H2.
    + intros H1 ->. destruct (Hh p eq_refl) as [Hx _]. by apply Hx in H1.
    + apply HI.
  - intros p pr Hp Hst. by eapply iv_chan; [done|apply Hs|].
  - intros h' p pr r1. rewrite !hart_upd. case_decide as E.
    + intros Hp _ ->. exfalso. apply (Hd p Hp). unfold drowsy. set_solver.
    + intros Hp. rewrite (Ho h') by done. by eapply iv_next.
  - intros h' p. rewrite !hart_upd. case_decide as E; [intros Hp Hdr; by apply Hd in Hdr|]. by apply HI.
  - intros p Hbt Hz. assert (dozing m p) as Hz'.
    { destruct Hz as [(pr & Hq & Hst)|(h' & Hp & Hdr & Hh')]; [left; exists pr; split; [by apply Hs|done]|].
      rewrite !hart_upd in Hp. rewrite !hart_upd in Hdr, Hh'. case_decide; [by apply Hd in Hdr|]. right. by exists h'. }
    destruct (iv_wake _ HI p Hbt Hz') as (h' & H1 & H2). exists h'. rewrite hart_upd.
    case_decide; [subst; by apply Hw in H1|done].
Qed.

Lemma inv_leave p s : m_code m h = Leave p :: r -> scheduler_leave p (on_hart h m) = Ret tt s ->
  inv {| m_ks := s; m_cond := m_cond m; m_cur := <[h := g_curproc s]> (m_cur m);
         m_code := <[h := r]> (m_code m); m_saved := m_saved m |}.
Proof using Hlk HI.
  intros Hc E. pose proof (iv_place _ HI h) as Hpl. rewrite Hc in Hpl.
  destruct (place_leave _ _ _ Hpl) as [Hp Hr]. rewrite Hr in *.
  unfold scheduler_leave, bind, modify in E. cbn [obind] in E. unfold lock_release, lock_holding in E. kget_in E.
  change (g_locks (on_hart h m)) with (g_locks (m_ks m)) in E. change (g_hart (on_hart h m)) with h in E.
  destruct (g_locks (m_ks m) !! LProc p) as [h0|] eqn:El; [|done]. destruct (Z.eqb_spec h0 h) as [->|]; [|done].
  injection E as <-. apply inv_switch; try done; kget.
  - apply HI.
  - apply pl_idle.
  - intros l h'. destruct (decide (l = LProc p)) as [->|Hne].
    + rewrite lookup_delete_eq. case_decide; [done|]. split; [done|]. intros H1. apply (iv_locks _ HI) in H1. congruence.
    + rewrite lookup_delete_ne by done. rewrite (iv_locks _ HI). case_decide; [|done]. subst. rewrite Hc. cbn.
      by rewrite decide_False by done.
  - intros q. rewrite Hc. set_solver.
Qed.

Lemma inv_enter p s : m_cur m h = None -> m_code m h = [] -> scheduler_enter p (on_hart h m) = Ret true s ->
  inv {| m_ks := s; m_cond := m_cond m; m_cur := <[h := g_curproc s]> (m_cur m);
         m_code := <[h := m_saved m p]> (m_code m); m_saved := m_saved m |}.
Proof using Hlk HI.
  intros Hp Hc E. unfold scheduler_enter in E. unfold bind at 1, lock_acquire in E.
  change (g_locks (on_hart h m)) with (g_locks (m_ks m)) in E. change (g_hart (on_hart h m)) with h in E.
  destruct (g_locks (m_ks m) !! LProc p) as [h0|] eqn:El; [by destruct (h0 =? h)|]. cbn [obind] in E.
  unfold get_proc, arr_get, bind, upd_proc, arr_upd in E. kget_in E. change (g_procs (on_hart h m)) with (g_procs (m_ks m)) in E.
  destruct (g_procs (m_ks m) !! p) as [pr|] eqn:Epr; [|done]. cbn [obind] in E.
  case_bool_decide as Est; [|].
  2: { unfold lock_release, lock_holding in E. kget_in E. rewrite lookup_insert_eq in E.
       change (g_hart (on_hart h m)) with h in E. rewrite Z.eqb_refl in E. done. }
  kget_in E. change (g_procs (on_hart h m)) with (g_procs (m_ks m)) in E. rewrite Epr in E. unfold modify, ret in E. cbn [obind] in E. injection E as <-.
  destruct (iv_saved _ HI p) as (Sp & Sk & Sd & Sl). pose proof (lookup_lt_Some _ _ _ Epr) as Hlt.
  assert (forall h', m_cur m h' <> Some p) as Hoff.
  { intros h' Hh'. destruct (iv_cur _ HI h' p Hh') as (pr' & ? & Hst). assert (pr' = pr) as -> by congruence.
    destruct (parked (m_code m h')) eqn:Ek; [|congruence].
    pose proof (iv_place _ HI h') as Hpl'. rewrite Hh' in Hpl'. destruct (place_own _ _ Hpl') as [_ Hown].
    apply Hown, (iv_locks _ HI) in Ek. congruence. }
  apply inv_switch; try done; kget; change (g_procs (on_hart h m)) with (g_procs (m_ks m)).
  - rewrite length_insert. apply HI.
  - intros l h'. destruct (decide (l = LProc p)) as [->|Hne].
    + rewrite lookup_insert_eq. specialize (Sl (LProc p)). case_decide; [naive_solver|]. split; [naive_solver|].
      intros H1. apply (iv_locks _ HI) in H1. congruence.
    + rewrite lookup_insert_ne by done. rewrite (iv_locks _ HI). case_decide; [|done]. subst. rewrite Hc. cbn.
      specialize (Sl l). naive_solver.
  - intros h' q _ Hq. apply list_lookup_insert_ne. intros <-. by apply Hoff in Hq.
  - intros q [= <-]. split; [by intros h' _|]. exists (set_p_state RUNNING pr). rewrite list_lookup_insert_eq by done. by rewrite Sk.
  - intros q pr'. destruct (decide (q = p)) as [->|]; [|by rewrite list_lookup_insert_ne].
    rewrite list_lookup_insert_eq by done. by intros [= <-].
  - intros q [= <-]. done.
  - intros q. rewrite Hc. set_solver.
Qed.
End statement.

(** ** Every reachable state *)

Lemma place_sleeping p v : place (Some p) (sleeping p (wait_loop v)).
Proof using Type. apply (pl_sleep p v 0). lia. Qed.

Lemma inv_step h m m' : inv m -> hart_step h m m' -> inv m'.
Proof using Hlk.
  intros HI H. pose proof (iv_place _ HI h) as Hpl.
  destruct H as [a r s Hc E|p r s K Hp Hc E|p r s Hc E|p s Hp Hc E|p r Hp Hc Hb|r Hc Hb|r Hc|v r Hc|p v Hp Hc|Hc|p Hp Hc].
  - destruct a.
    + by eapply inv_acquire. + by eapply inv_release. + by eapply inv_chan. + by eapply inv_state.
    + exfalso. cbn [exec_stmt] in E. revert E. unfold sched, curp, myproc, bind, gets, get_proc, arr_get, the. cbn [obind].
      destruct (g_curproc _) as [p|]; [|done]. unfold ret. cbn [obind].
      destruct (lock_holding _ _); cbn [negb obind]; [|done]. destruct (lock_depth _ =? 1)%nat; cbn [negb obind]; [|done].
      destruct (g_procs _ !! p) as [pr|]; cbn [obind]; [|done].
      destruct (bool_decide _); cbn [obind]; [done|]. by destruct (intr_get _).
    + by eapply inv_wakeup.
  - by eapply inv_sched.
  - by eapply inv_leave.
  - by eapply inv_enter.
  - rewrite Hc in Hpl. destruct (place_while _ _ Hpl) as (p' & v & Hp' & Er). assert (p' = p) as -> by congruence.
    injection Er as ->. apply inv_move; try done; try (by left).
    + rewrite Hp. apply (place_sleeping p v).
    + intros l. rewrite Hc. cbn. code_solve.
    + by rewrite Hc.
  - rewrite Hc in Hpl. destruct (place_while _ _ Hpl) as (p' & v & Hp' & Er).
    injection Er as ->. apply inv_move; try done; try (by left).
    + rewrite Hp'. apply (pl_sleep p' v 9). lia.
    + intros l. by rewrite Hc.
    + by rewrite Hc.
    + intros q _ Hq. unfold drowsy in Hq. set_solver.
    + right. right. split; [done|]. intros q. rewrite Hc. set_solver.
  - rewrite Hc in Hpl. pose proof (place_raise _ _ Hpl) as ->.
    destruct (wakes_static 0 0 NPROC) as (W1 & W2 & W3 & _).
    apply inv_move; try done.
    + by apply (pl_wake _ 0 NPROC).
    + intros l. by rewrite Hc.
    + by rewrite Hc.
    + right. rewrite Hc. exact W1.
    + intros q _ Hq. exfalso. by apply (wakes_static q 0 NPROC) in Hq.
    + right. left. intros q Hq. split; [|exact W1]. apply elem_of_app. left.
      apply list_elem_of_fmap. exists (SWake c q). split; [done|]. apply list_elem_of_fmap. exists q.
      split; [done|]. apply elem_of_seq. lia.
  - rewrite Hc in Hpl. destruct (place_take _ _ _ Hpl) as ((p & Hp) & ->).
    apply inv_move; try done.
    + rewrite Hp. apply (pl_sleep p v 10). lia.
    + intros l. by rewrite Hc.
    + by rewrite Hc.
    + right. rewrite Hc. cbn. by rewrite decide_True.
    + intros q _ Hq. unfold drowsy in Hq. set_solver.
    + destruct v; [left; apply andb_false_r|]. right. right. split; [apply andb_true_r|]. intros q. rewrite Hc. set_solver.
  - apply inv_move; try done; try (by left); rewrite ?Hc, ?Hp; try done.
    + apply pl_wait.
    + intros l. cbn. code_solve.
    + intros q _ Hq. unfold drowsy in Hq. set_solver.
    + right. right. split; [done|]. intros q. set_solver.
  - apply inv_move; try done; try (by left); rewrite ?Hc; try done.
    + apply pl_signal.
    + intros l. cbn. case_decide; [done|]. by apply (wakes_static 0 0 NPROC).
    + intros q _ Hq. by apply signaller_awake in Hq.
    + right. right. split; [done|]. intros q. set_solver.
  - apply inv_move; try done; try (by left); rewrite ?Hc, ?Hp; try done.
    + apply (pl_yield p 0). lia.
    + intros l. cbn. code_solve.
    + intros q _ Hq. unfold drowsy in Hq. set_solver.
    + right. right. split; [done|]. intros q. set_solver.
Qed.

Lemma inv_initial m : initial m -> inv m.
Proof using Hlk.
  intros [HL Hlen Haw Hh Hs]. split; try done.
  - intros h. destruct (Hh h) as [-> ->]. apply pl_idle.
  - intros p. rewrite Hs. split; [apply pl_forkret|]. split; [done|]. split; [unfold drowsy; set_solver|].
    intros l. cbn. case_decide; naive_solver.
  - intros l h. rewrite HL, lookup_empty. by destruct (Hh h) as [_ ->].
  - intros h p Hp. destruct (Hh h). congruence.
  - intros h h' p Hp. destruct (Hh h). congruence.
  - intros p pr Hp Hst. by destruct (Haw p pr Hp).
  - intros h p pr r Hp. destruct (Hh h). congruence.
  - intros h p Hp. destruct (Hh h). congruence.
  - intros p _ [(pr & Hp & Hst)|(h & Hp & _)]; [by destruct (Haw p pr Hp)|]. destruct (Hh h). congruence.
Qed.

Lemma inv_reachable m0 m : initial m0 -> rtc any_step m0 m -> inv m.
Proof using Hlk.
  intros H0 Hr. apply inv_initial in H0. revert H0. induction Hr as [|x y z [h Hs] _ IH]; [done|].
  intros HI. apply IH. by eapply inv_step.
Qed.

(** ** No hart gets stuck *)

(** The next statement of hart [h] waits for a lock that another hart holds. *)
Definition waits (h : Z) (m : machine) : Prop :=
  exists a r l h', m_code m h = Do a :: r /\ exec_stmt a (on_hart h m) = Fail Spinning /\
    g_locks (m_ks m) !! l = Some h' /\ h' <> h.

Lemma acquire_or_wait h m l : inv m -> holds_lock l (m_code m h) = false ->
  lock_free l (m_ks m) \/ exists h', g_locks (m_ks m) !! l = Some h' /\ h' <> h.
Proof using Hlk.
  intros HI Hl. unfold lock_free. destruct (g_locks (m_ks m) !! l) as [h'|] eqn:E; [|by left].
  right. exists h'. split; [done|]. intros ->. apply (iv_locks _ HI) in E. congruence.
Qed.

Lemma sched_switches h m p r : inv m -> m_cur m h = Some p -> m_code m h = Do SSched :: r ->
  (forall l, holds_lock l r = true <-> l = LProc p) -> exists K, exec_stmt SSched (on_hart h m) = Switch (on_hart h m) K.
Proof using Hlk.
  intros HI Hp Hc Hl. destruct (iv_cur _ HI h p Hp) as (pr & Hpr & Hst). rewrite Hc in Hst. cbn [parked] in Hst.
  assert (forall l, g_locks (m_ks m) !! l = Some h <-> l = LProc p) as HL.
  { intros l. rewrite (iv_locks _ HI), Hc. apply Hl. }
  assert (lock_depth (on_hart h m) = 1%nat) as Hdep.
  { unfold lock_depth. change (g_locks (on_hart h m)) with (g_locks (m_ks m)). change (g_hart (on_hart h m)) with h.
    replace (filter (fun q : lockid * Z => q.2 = h) (g_locks (m_ks m))) with ({[LProc p := h]} : gmap lockid Z); [apply map_size_singleton|].
    apply map_eq. intros l. rewrite map_lookup_filter. specialize (HL l). destruct (decide (l = LProc p)) as [->|Hne].
    - rewrite lookup_singleton_eq. rewrite (proj2 HL eq_refl). simpl. by rewrite option_guard_True.
    - rewrite lookup_singleton_ne by done. destruct (g_locks (m_ks m) !! l) as [h'|]; [|done]. simpl.
      rewrite option_guard_False; [done|]. simpl. intros ->. by apply Hne, HL. }
  eexists. cbn [exec_stmt]. unfold sched, curp, myproc, bind, gets. cbn [obind].
  change (g_curproc (on_hart h m)) with (m_cur m h). rewrite Hp. unfold the, ret. cbn [obind].
  unfold lock_holding at 1. change (g_locks (on_hart h m)) with (g_locks (m_ks m)). rewrite (proj2 (HL (LProc p)) eq_refl).
  change (g_hart (on_hart h m)) with h. rewrite Z.eqb_refl. cbn [negb obind]. rewrite Hdep. cbn [Nat.eqb negb].
  unfold get_proc. rewrite (arr_get_run _ _ p (on_hart h m) pr Hpr). cbn [obind]. rewrite bool_decide_false by done.
  unfold intr_get. rewrite Hdep. reflexivity.
Qed.

Lemma inv_progress h m : inv m -> m_code m h <> [] -> (exists m', hart_step h m m') \/ waits h m.
Proof using Hlk.
  intros HI Hne. pose proof (iv_place _ HI h) as Hpl. destruct (m_code m h) as [|[a| | |v|p] r] eqn:Hc; [done|..].
  - destruct (place_do _ _ _ Hpl) as (_ & Hf & _). destruct a as [l|l|p ch|p st| |c' i]; cbn [fits] in Hf.
    + destruct (acquire_or_wait h m l HI) as [Hfr|(h' & Hh & Hne')]; [by rewrite Hc; cbn; rewrite decide_True|..].
      * left. eexists. eapply st_do; [done|]. by apply lock_acquire_run.
      * right. exists (SAcquire l), r, l, h'. split; [done|]. split; [|done]. cbn [exec_stmt]. unfold lock_acquire.
        change (g_locks (on_hart h m)) with (g_locks (m_ks m)). rewrite Hh. change (g_hart (on_hart h m)) with h.
        by destruct (Z.eqb_spec h' h).
    + left. eexists. eapply st_do; [done|]. apply (lock_release_held l (on_hart h m) h); [|done].
      change (g_locks (on_hart h m)) with (g_locks (m_ks m)). apply (iv_locks _ HI). rewrite Hc. cbn. by rewrite decide_True.
    + destruct Hf as [Hp _]. destruct (iv_cur _ HI h p Hp) as (pr & Hpr & _).
      left. eexists. eapply st_do; [done|]. exact (arr_upd_run _ _ _ p _ (on_hart h m) pr Hpr).
    + destruct Hf as [Hp _]. destruct (iv_cur _ HI h p Hp) as (pr & Hpr & _).
      left. eexists. eapply st_do; [done|]. exact (arr_upd_run _ _ _ p _ (on_hart h m) pr Hpr).
    + destruct Hf as (p & Hp & _ & _ & _ & Hl). destruct (sched_switches h m p r HI Hp Hc Hl) as [K E].
      left. eexists. by eapply st_sched.
    + destruct Hf as (-> & _ & _ & _ & Hi & Hl). destruct (lookup_lt_is_Some_2 (g_procs (m_ks m)) i) as [pr Hpr]; [by rewrite (iv_procs _ HI)|].
      destruct (acquire_or_wait h m (LProc i) HI) as [Hfr|(h' & Hh & Hne')]; [rewrite Hc; apply Hl|..].
      * left. eexists. eapply st_do; [done|]. exact (wakeup_one_run c i (on_hart h m) pr Hfr Hpr).
      * destruct (decide (Some i = m_cur m h)) as [Hme|Hme].
        { left. eexists. eapply st_do; [done|]. cbn [exec_stmt]. unfold wakeup_one, myproc, bind, gets. cbn [obind].
          change (g_curproc (on_hart h m)) with (m_cur m h). by rewrite bool_decide_true. }
        right. exists (SWake c i), r, (LProc i), h'. split; [done|]. split; [|done]. cbn [exec_stmt].
        unfold wakeup_one, myproc, bind, gets. cbn [obind]. change (g_curproc (on_hart h m)) with (m_cur m h).
        rewrite bool_decide_false by done. unfold lock_acquire.
        change (g_locks (on_hart h m)) with (g_locks (m_ks m)). rewrite Hh. change (g_hart (on_hart h m)) with h.
        by destruct (Z.eqb_spec h' h).
  - destruct (place_while _ _ Hpl) as (p & v & Hp & _). left.
    destruct (m_cond m) eqn:Hb; eexists; [by eapply st_go|by eapply st_sleep].
  - left. eexists. by eapply st_raise.
  - left. eexists. by eapply st_take.
  - destruct (place_leave _ _ _ Hpl) as [Hp ->]. left. eexists. eapply st_leave; [done|].
    unfold scheduler_leave, bind, modify. cbn [obind].
    apply (lock_release_held (LProc p) (put_curproc None (on_hart h m)) h); [|done].
    change (g_locks _) with (g_locks (m_ks m)). apply (iv_locks _ HI). rewrite Hc. cbn. by rewrite decide_True.
Qed.
End machine.

(** ** Theorems *)


(** Process 0 is ready to run, the harts are idle. *)
Definition idle0 : machine :=
  {| m_ks := put_procs (<[0%nat := set_p_state RUNNABLE zero_proc]> (g_procs boot)) boot; m_cond := false;
     m_cur := fun _ => None; m_code := fun _ => []; m_saved := fun p => [Do (SRelease (LProc p))] |}.

Lemma idle0_initial : initial idle0.
Proof.
  split; try done. intros p pr. change (g_procs (m_ks idle0)) with (set_p_state RUNNABLE zero_proc :: replicate 63 zero_proc).
  destruct p as [|p]; [by intros [= <-]|]. intros H. change (replicate 63 zero_proc !! p = Some pr) in H.
  apply lookup_replicate in H as [-> _]. done.
Qed.

(** The states of the run: hart, process, locks and the record of process 0. *)
Definition snap (h : Z) (o : option nat) (L : gmap lockid Z) (pr : proc) : kstate :=
  put_hart h (put_curproc o (put_locks L (put_procs (pr :: replicate 63 zero_proc) boot))).

Definition at_snap (h : Z) (o : option nat) (L : gmap lockid Z) (pr : proc) (b : bool) (cur : Z -> option nat)
    (code : Z -> list instr) : machine :=
  {| m_ks := snap h o L pr; m_cond := b; m_cur := cur; m_code := code; m_saved := m_saved idle0 |}.

Section run.
Context (c : chan) (lk : lockid) (h h0 : Z) (o o0 : option nat) (L : gmap lockid Z) (pr : proc) (b : bool)
  (cur : Z -> option nat) (code : Z -> list instr) (r : list instr).
Context (Hcur : cur h = o).

Lemma snap_do a L' pr' : code h = Do a :: r -> exec_stmt a (snap h o L pr) = Ret tt (snap h o L' pr') ->
  any_step c lk (at_snap h0 o0 L pr b cur code) (at_snap h o L' pr' b cur (<[h := r]> code)).
Proof using Hcur.
  intros Hc E. exists h. apply (st_do c lk h (at_snap h0 o0 L pr b cur code) a r (snap h o L' pr') Hc).
  rewrite <- E. f_equal. unfold on_hart, at_snap, m_cur, m_ks. rewrite Hcur. reflexivity.
Qed.

Lemma snap_acquire l : code h = Do (SAcquire l) :: r -> L !! l = None ->
  any_step c lk (at_snap h0 o0 L pr b cur code) (at_snap h o (<[l := h]> L) pr b cur (<[h := r]> code)).
Proof using Hcur. intros Hc HL. apply (snap_do _ _ _ Hc). exact (lock_acquire_run l (snap h o L pr) HL). Qed.

Lemma snap_release l : code h = Do (SRelease l) :: r -> L !! l = Some h ->
  any_step c lk (at_snap h0 o0 L pr b cur code) (at_snap h o (delete l L) pr b cur (<[h := r]> code)).
Proof using Hcur. intros Hc HL. apply (snap_do _ _ _ Hc). exact (lock_release_held l (snap h o L pr) h HL eq_refl). Qed.

Lemma snap_proc a f : code h = Do a :: r -> exec_stmt a = upd_proc 0 f ->
  any_step c lk (at_snap h0 o0 L pr b cur code) (at_snap h o L (f pr) b cur (<[h := r]> code)).
Proof using Hcur. intros Hc E. apply (snap_do _ _ _ Hc). rewrite E. reflexivity. Qed.

Lemma snap_wait p v : o = Some p -> code h = [] ->
  any_step c lk (at_snap h0 o0 L pr b cur code) (at_snap h0 o0 L pr b cur (<[h := waiter lk v]> code)).
Proof using Hcur. intros Ho Hc. exists h. apply (st_wait c lk h (at_snap h0 o0 L pr b cur code) p v); [by rewrite <- Ho|done]. Qed.

Lemma snap_sleep p : o = Some p -> code h = While :: r -> b = false ->
  any_step c lk (at_snap h0 o0 L pr b cur code) (at_snap h0 o0 L pr b cur (<[h := sleeping c lk p (While :: r)]> code)).
Proof using Hcur. intros Ho Hc Hb. exists h. apply (st_sleep c lk h (at_snap h0 o0 L pr b cur code) p r); [by rewrite <- Ho|done|done]. Qed.

Lemma snap_signal : code h = [] ->
  any_step c lk (at_snap h0 o0 L pr b cur code) (at_snap h0 o0 L pr b cur (<[h := signaller c lk]> code)).
Proof using Type. intros Hc. exists h. by apply (st_signal c lk h (at_snap h0 o0 L pr b cur code)). Qed.

Lemma snap_raise : code h = Raise :: r ->
  any_step c lk (at_snap h0 o0 L pr b cur code) (at_snap h0 o0 L pr true cur (<[h := r]> code)).
Proof using Type. intros Hc. exists h. by apply (st_raise c lk h (at_snap h0 o0 L pr b cur code)). Qed.
End run.

