(* ===== verification/Kalloc.v ===== *)
(** * The physical page allocator: kernel/kalloc.c

    The free list is threaded through the free pages themselves: the first
    eight bytes of a free page hold the address of the next one.  [free_list]
    is the abstraction: the list of free pages that this chain represents.  The
    lemmas show that [kalloc] and [kfree] are pop and push on that list, that
    [kinit] makes every page between [end] and [PHYSTOP] available, and what
    each of them does to the rest of memory. *)

From Stdlib Require Import ZArith Lia.
From stdpp Require Import base list gmap strings numbers option.
From S2P Require Import Prelude Bytes Riscv Cstring Kstate.

(** ** Memory accesses of kernel code *)

Definition kload64 (a : Z) : M Z := gets (fun s => load64 (g_pmem s) a).
Definition kstore64 (a v : Z) : M unit :=
  modify (fun s => put_pmem (store64 (g_pmem s) a v) s).
Definition kmemset (dst c n : Z) : M unit :=
  modify (fun s => put_pmem (memset (g_pmem s) dst c n) s).
Definition kmemmove (dst src n : Z) : M unit :=
  modify (fun s => put_pmem (memmove (g_pmem s) dst src n) s).

(** ** Symbols the linker places: [end] and [etext] (kernel/kernel.ld) and the
    page of kernel/trampoline.S with its entry points. *)
Class KernelImage := {
  kend : Z;
  etext : Z;
  trampoline : Z;
  kend_range : KERNBASE <= kend <= PHYSTOP
}.

Section kalloc.
Context `{!KernelImage}.

Definition kfree (pa : Z) : M unit :=
  if negb (u64 pa mod PGSIZE =? 0) || (pa <? kend) || (u64 pa >=? PHYSTOP) then panic "kfree" else
  kmemset pa 1 PGSIZE ;;
  lock_acquire LKmem ;;
  next <- gets g_freelist ;;
  kstore64 pa next ;;
  modify (put_freelist pa) ;;
  lock_release LKmem.

Definition kalloc : M Z :=
  lock_acquire LKmem ;;
  r <- gets g_freelist ;;
  when (negb (r =? 0)) (next <- kload64 r ;; modify (put_freelist next)) ;;
  lock_release LKmem ;;
  when (negb (r =? 0)) (kmemset r 5 PGSIZE) ;;
  ret r.

(** The number of iterations of [freerange]'s loop, plus the final test. *)
Definition freerange_fuel (pa_start pa_end : Z) : nat :=
  S (Z.to_nat ((pa_end - PGROUNDUP pa_start) / PGSIZE)).

Definition freerange (pa_start pa_end : Z) : M unit :=
  loop (freerange_fuel pa_start pa_end) (fun p =>
    if p + PGSIZE <=? pa_end then kfree p ;; ret (inl (p + PGSIZE)) else ret (inr tt))
    (PGROUNDUP pa_start).

Definition kinit : M unit :=
  modify (fun s => put_locks (delete LKmem (g_locks s)) s) ;;
  freerange kend PHYSTOP.

(** ** The abstraction *)

(** A page the allocator manages. *)
Definition page (a : Z) : Prop := a mod PGSIZE = 0 /\ kend <= a < PHYSTOP.

#[export] Instance page_dec a : Decision (page a).
Proof. unfold page. apply _. Defined.

(** The chain of free pages that starts at [r]. *)
Fixpoint chain (m : mem) (r : Z) (l : list Z) : Prop :=
  match l with
  | [] => r = 0
  | a :: l' => r = a /\ page a /\ chain m (load64 m a) l'
  end.

Definition free_list (s : kstate) (l : list Z) : Prop :=
  chain (g_pmem s) (g_freelist s) l /\ NoDup l.

(** Memory outside the page at [a] is unchanged. *)
Definition same_but_page (m m' : mem) (a : Z) : Prop :=
  forall x, ~ (a <= x < a + PGSIZE) -> load8 m' x = load8 m x.

Lemma page_bounds a : page a -> KERNBASE <= a /\ a + PGSIZE <= PHYSTOP /\ a <> 0.
Proof.
  intros [Hm Hr]. pose proof kend_range. unfold PGSIZE, PHYSTOP, KERNBASE in *.
  split_and!; try lia. zlia.
Qed.

(** Pages are disjoint or equal. *)
Lemma pages_disjoint a b : page a -> page b -> a <> b -> a + PGSIZE <= b \/ b + PGSIZE <= a.
Proof.
  intros [Ha _] [Hb _] Hne. unfold PGSIZE in *. zlia.
Qed.

Lemma page_load_same m m' a b :
  page a -> page b -> a <> b -> same_but_page m m' a -> load64 m' b = load64 m b.
Proof.
  intros Ha Hb Hne Hs. apply (load_le_agree 8 m' m b b (b + PGSIZE)); [|lia|unfold PGSIZE; lia].
  intros x Hx. apply Hs. destruct (pages_disjoint a b); auto; lia.
Qed.

Lemma chain_pages m r l : chain m r l -> Forall page l.
Proof. revert r. induction l; intros r; simpl; [done|]. intros (-> & ? & ?). eauto. Qed.

(** The chain survives writes to a page that is not on it. *)
Lemma chain_frame m m' a r l :
  page a -> a ∉ l -> same_but_page m m' a -> chain m r l -> chain m' r l.
Proof.
  intros Ha Hni Hs. revert r. induction l as [|b l IH]; intros r; simpl; [done|].
  intros (-> & Hb & Hc). apply not_elem_of_cons in Hni as [Hne Hni].
  split_and!; [done..|]. rewrite (page_load_same m m' a b) by done. by apply IH.
Qed.

Lemma same_but_page_trans m1 m2 m3 a :
  same_but_page m1 m2 a -> same_but_page m2 m3 a -> same_but_page m1 m3 a.
Proof. intros H1 H2 x Hx. rewrite H2, H1 by done. done. Qed.

Lemma memset_page m a c : same_but_page m (memset m a c PGSIZE) a.
Proof. intros x Hx. rewrite load8_memset by (unfold PGSIZE; lia). by rewrite decide_False. Qed.

Lemma store64_page m a v : same_but_page m (store64 m a v) a.
Proof.
  intros x Hx. unfold store_le. rewrite load8_storen, length_le_bytes, decide_False; [done|].
  unfold PGSIZE in Hx. lia.
Qed.

(** ** kfree and kalloc *)

Definition kfree_mem (m : mem) (pa next : Z) : mem := store64 (memset m pa 1 PGSIZE) pa next.

Lemma kfree_run pa s :
  page pa -> lock_free LKmem s ->
  kfree pa s = Ret tt (put_freelist pa (put_pmem (kfree_mem (g_pmem s) pa (g_freelist s)) s)).
Proof.
  intros Hp Hf. destruct Hp as [Hm Hr]. pose proof kend_range.
  unfold kfree. rewrite u64_small by (unfold PHYSTOP, KERNBASE in *; lia).
  rewrite Hm. destruct (Z.ltb_spec pa kend); [lia|]. rewrite Z.geb_leb.
  destruct (Z.leb_spec PHYSTOP pa); [lia|]. cbn [negb orb Z.eqb].
  unfold kmemset, kstore64, kfree_mem, bind, modify, gets. cbn [obind].
  kacquire Hf. krelease Hf. f_equal. kstate_eq.
Qed.

Lemma kfree_bad pa s : 0 <= pa < 2 ^ 64 -> ~ page pa -> kfree pa s = Fail (Panicked "kfree").
Proof.
  intros Hr Hp. unfold kfree. rewrite u64_small by lia.
  destruct (Z.eqb_spec (pa mod PGSIZE) 0); cbn [negb orb]; [|done].
  destruct (Z.ltb_spec pa kend); cbn [orb]; [done|]. rewrite Z.geb_leb.
  destruct (Z.leb_spec PHYSTOP pa); [done|]. destruct Hp. split; [done|lia].
Qed.

Lemma kfree_list pa s l :
  page pa -> pa ∉ l -> free_list s l ->
  free_list (put_freelist pa (put_pmem (kfree_mem (g_pmem s) pa (g_freelist s)) s)) (pa :: l).
Proof.
  intros Hp Hni [Hc Hnd]. split; [|by constructor].
  kget. simpl. split_and!; [done..|]. unfold kfree_mem. rewrite load_store_le_same.
  assert (g_freelist s mod 256 ^ Z.of_nat 8 = g_freelist s) as ->.
  { apply Z.mod_small. destruct l as [|b l]; simpl in Hc; [subst; lia|].
    destruct Hc as (-> & Hb & _). apply page_bounds in Hb.
    unfold PGSIZE, PHYSTOP, KERNBASE in Hb. lia. }
  eapply chain_frame; [exact Hp|exact Hni| |exact Hc].
  eapply same_but_page_trans; [apply memset_page|apply store64_page].
Qed.

Lemma kalloc_empty s : free_list s [] -> lock_free LKmem s -> kalloc s = Ret 0 s.
Proof.
  intros [Hc _] Hf. simpl in Hc. unfold kalloc, when, bind, gets. kacquire Hf. kget. rewrite Hc.
  cbn [Z.eqb negb]. unfold ret. cbn [obind]. krelease Hf. f_equal. kstate_eq.
Qed.

Lemma kalloc_run s a l :
  free_list s (a :: l) -> lock_free LKmem s ->
  kalloc s = Ret a (put_freelist (load64 (g_pmem s) a) (put_pmem (memset (g_pmem s) a 5 PGSIZE) s)).
Proof.
  intros [Hc _] Hf. destruct Hc as (Hr & Hp & _). apply page_bounds in Hp as (_ & _ & Hnz).
  unfold kalloc, when, bind, gets, kload64, kmemset, modify, bind, gets. kacquire Hf. kget. rewrite Hr.
  destruct (Z.eqb_spec a 0); [done|]. cbn [negb obind]. krelease Hf. unfold ret. f_equal. kstate_eq.
Qed.

Lemma kalloc_list s a l :
  free_list s (a :: l) ->
  free_list (put_freelist (load64 (g_pmem s) a) (put_pmem (memset (g_pmem s) a 5 PGSIZE) s)) l.
Proof.
  intros [(Hr & Hp & Hc) Hnd]. apply list.NoDup_cons in Hnd as [Hni Hnd]. split; [|done].
  kget. eapply chain_frame; [exact Hp|exact Hni|apply memset_page|exact Hc].
Qed.

(** ** freerange and kinit *)

(** The pages of [\[p, pe)], in the order the loop frees them. *)
Definition pages_from (p : Z) (n : nat) : list Z := (fun i => p + PGSIZE * Z.of_nat i) <$> seq 0 n.

Lemma pages_from_S p n : pages_from p (S n) = p :: pages_from (p + PGSIZE) n.
Proof.
  unfold pages_from. rewrite <- cons_seq, <- fmap_S_seq, fmap_cons, <- list_fmap_compose. f_equal; [lia|].
  apply list_fmap_ext. intros i j _. simpl. lia.
Qed.

Lemma pages_from_elem x p n : x ∈ pages_from p n -> p <= x.
Proof. unfold pages_from. rewrite list_elem_of_fmap. intros (i & -> & _). unfold PGSIZE. lia. Qed.

Definition freerange_body (pa_end p : Z) : M (Z + unit) :=
  if p + PGSIZE <=? pa_end then kfree p ;; ret (inl (p + PGSIZE)) else ret (inr tt).

(** [s'] differs from [s] in memory and the free list only. *)
Definition mm_only (s s' : kstate) : Prop := s' = set_kmm (kmm s') s.

Lemma freerange_loop n p pe s l :
  p mod PGSIZE = 0 -> kend <= p -> pe <= PHYSTOP ->
  Z.of_nat n = Z.max 0 ((pe - p) / PGSIZE) -> lock_free LKmem s ->
  free_list s l -> (forall x, x ∈ l -> x < p) ->
  exists s', loop (S n) (freerange_body pe) p s = Ret tt s' /\
    free_list s' (reverse (pages_from p n) ++ l) /\ mm_only s s'.
Proof.
  revert p s l. induction n as [|n IH]; intros p s l Hm Hlo Hhi Hn Hf Hl Hlt.
  - exists s. cbn [loop]. unfold bind, freerange_body.
    destruct (Z.leb_spec (p + PGSIZE) pe); [unfold PGSIZE in *; zlia|].
    split_and!; [done|done|]. unfold mm_only. by destruct s.
  - assert (page p) as Hp by (split; [done|]; unfold PGSIZE in *; zlia).
    assert (p ∉ l) as Hni by (intros Hin; specialize (Hlt p Hin); lia).
    destruct (IH (p + PGSIZE) (put_freelist p (put_pmem (kfree_mem (g_pmem s) p (g_freelist s)) s)) (p :: l))
      as (s' & E & Hl' & Hmm); try (unfold PGSIZE in *; zlia).
    + exact Hf.
    + by apply kfree_list.
    + intros x [->|Hx]%elem_of_cons; [unfold PGSIZE; lia|]. specialize (Hlt x Hx). unfold PGSIZE; lia.
    + exists s'. split_and!.
      * cbn [loop]. unfold bind at 1, freerange_body at 1.
        destruct (Z.leb_spec (p + PGSIZE) pe); [|unfold PGSIZE in *; zlia].
        unfold bind. rewrite kfree_run by done. unfold ret at 1. cbn [obind]. exact E.
      * rewrite pages_from_S, reverse_cons, <- app_assoc. exact Hl'.
      * unfold mm_only in *. rewrite Hmm. by destruct s.
Qed.

Lemma freerange_run ps pe s :
  kend <= ps -> pe <= PHYSTOP -> ps <= PHYSTOP -> lock_free LKmem s -> free_list s [] ->
  exists s', freerange ps pe s = Ret tt s' /\ mm_only s s' /\
    free_list s' (reverse (pages_from (PGROUNDUP ps) (Z.to_nat ((pe - PGROUNDUP ps) / PGSIZE)))).
Proof.
  intros Hlo Hhi Hps Hf Hl. pose proof kend_range.
  assert (PGROUNDUP ps mod PGSIZE = 0 /\ ps <= PGROUNDUP ps) as [Hm Hge].
  { rewrite PGROUNDUP_eq by (unfold PHYSTOP, KERNBASE in *; lia). unfold PGSIZE. zlia. }
  destruct (freerange_loop (Z.to_nat ((pe - PGROUNDUP ps) / PGSIZE)) (PGROUNDUP ps) pe s [])
    as (s' & E & Hl' & Hmm); try done; try lia.
  { intros x []%elem_of_nil. }
  exists s'. rewrite app_nil_r in Hl'. done.
Qed.

Lemma loadn_memset m a c : loadn (memset m a c PGSIZE) a 4096 = replicate 4096 (u8 c).
Proof.
  apply list_eq. intros i. rewrite lookup_loadn. case_decide as Hi.
  - rewrite load8_memset, decide_True by (unfold PGSIZE; lia). by rewrite lookup_replicate_2.
  - symmetry. apply lookup_ge_None_2. rewrite length_replicate. lia.
Qed.

Lemma loadn_kfree_mem m a n : loadn (kfree_mem m a n) (a + 8) 4088 = replicate 4088 1.
Proof.
  unfold kfree_mem, store_le. rewrite loadn_storen_other by (rewrite length_le_bytes; lia).
  pose proof (loadn_memset m a 1) as E. change 4096%nat with (8 + 4088)%nat in E.
  rewrite loadn_app in E. apply (f_equal (drop 8)) in E.
  rewrite drop_app_length' in E by (by rewrite length_loadn). exact E.
Qed.

Lemma kfree_mem_page m a n : same_but_page m (kfree_mem m a n) a.
Proof. eapply same_but_page_trans; [apply memset_page|apply store64_page]. Qed.

(** ** The allocator's contract *)

(** [kalloc] pops the abstract free list: on an empty list it returns 0
    and changes nothing, otherwise it returns the first page, which was free
    and is no longer on the list, filled with the byte 5; no other byte of
    memory and no other part of the kernel changes. *)
Theorem kalloc_pops s l :
  free_list s l -> lock_free LKmem s ->
  match l with
  | [] => kalloc s = Ret 0 s
  | a :: l' =>
      exists s', kalloc s = Ret a s' /\ free_list s' l' /\ page a /\ (a ∉ l') /\
        loadn (g_pmem s') a 4096 = replicate 4096 5 /\
        same_but_page (g_pmem s) (g_pmem s') a /\ mm_only s s'
  end.
Proof.
  intros Hl Hf. destruct l as [|a l]; [by apply kalloc_empty|].
  eexists. split; [by eapply kalloc_run|]. split; [by apply kalloc_list|].
  destruct Hl as [(_ & Hp & _) [Hni _]%list.NoDup_cons].
  split_and!; [done|done|kget; apply loadn_memset|kget; apply memset_page|].
  unfold mm_only. kstate_eq.
Qed.

(** [kfree] pushes on the abstract free list: a managed page that is not
    already free becomes the first free page, with bytes 8 to 4095 filled
    with 1; nothing outside the page changes.  Any other address panics. *)
Theorem kfree_pushes s l pa :
  free_list s l -> lock_free LKmem s -> 0 <= pa < 2 ^ 64 -> pa ∉ l ->
  if decide (page pa) then
    exists s', kfree pa s = Ret tt s' /\ free_list s' (pa :: l) /\
      loadn (g_pmem s') (pa + 8) 4088 = replicate 4088 1 /\
      same_but_page (g_pmem s) (g_pmem s') pa /\ mm_only s s'
  else kfree pa s = Fail (Panicked "kfree").
Proof.
  intros Hl Hf Hr Hni. case_decide as Hp; [|by apply kfree_bad].
  eexists. split; [by apply kfree_run|]. split; [by apply kfree_list|].
  split_and!; [kget; apply loadn_kfree_mem|kget; apply kfree_mem_page|].
  unfold mm_only. kstate_eq.
Qed.

(** [C38] [kinit] terminates and makes available exactly the page-aligned
    pages between [end] and [PHYSTOP], each once. *)
Theorem kinit_frees_all s :
  g_freelist s = 0 ->
  exists s' l, kinit s = Ret tt s' /\ free_list s' l /\ (forall a, (a ∈ l) <-> page a).
Proof.
  intros H0. unfold kinit, bind, modify. cbn [obind]. pose proof kend_range as Hk.
  destruct (freerange_run kend PHYSTOP (put_locks (delete LKmem (g_locks s)) s))
    as (s' & E & _ & Hl); try lia.
  { apply lookup_delete_eq. }
  { split; [exact H0|constructor]. }
  exists s'. eexists. split_and!; [exact E|exact Hl|]. intros a. rewrite elem_of_reverse.
  rewrite PGROUNDUP_eq by (unfold PHYSTOP, KERNBASE in *; lia).
  unfold pages_from, page. rewrite list_elem_of_fmap. unfold PGSIZE, PHYSTOP, KERNBASE in *. split.
  - intros (i & -> & Hi%elem_of_seq). zlia.
  - intros [Hm Hr]. exists (Z.to_nat ((a - (kend + 4095) / 4096 * 4096) / 4096)).
    rewrite elem_of_seq. zlia.
Qed.
End kalloc.

(** ** Instances *)

(** A kernel whose image ends two pages below the top of memory. *)
Definition small_image : KernelImage.
Proof. refine {| kend := PHYSTOP - 8192; etext := KERNBASE + 32768; trampoline := KERNBASE + 28672 |}. by compute. Defined.

Lemma kinit_frees_all_witness :
  exists s' l, @kinit small_image boot = Ret tt s' /\ @free_list small_image s' l /\
    (forall a, (a ∈ l) <-> @page small_image a).
Proof. apply (@kinit_frees_all small_image boot). reflexivity. Defined.

(** One page freed, then allocated again. *)
Definition one_page : kstate :=
  put_freelist (PHYSTOP - 4096) (put_pmem (kfree_mem ∅ (PHYSTOP - 4096) 0) boot).

Lemma one_page_free : @free_list small_image one_page [PHYSTOP - 4096].
Proof. split; [split_and!; by vm_compute|apply NoDup_singleton]. Qed.

Lemma kalloc_pops_witness :
  exists s', kalloc one_page = Ret (PHYSTOP - 4096) s' /\ @free_list small_image s' [].
Proof.
  destruct (@kalloc_pops small_image one_page [PHYSTOP - 4096] one_page_free eq_refl)
    as (s' & E & Hl & _). exists s'. split; [exact E|exact Hl].
Defined.

Lemma kfree_pushes_witness :
  exists s', @kfree small_image (PHYSTOP - 8192) one_page = Ret tt s' /\
    @free_list small_image s' [PHYSTOP - 8192; PHYSTOP - 4096].
Proof.
  pose proof (@kfree_pushes small_image one_page [PHYSTOP - 4096] (PHYSTOP - 8192) one_page_free eq_refl) as H.
  rewrite decide_True in H by (by vm_compute).
  destruct H as (s' & E & Hl & _); [by vm_compute|set_solver|].
  exists s'. split; [exact E|exact Hl].
Defined.
