(* ===== verification/Vm.v ===== *)
(** * Virtual memory: kernel/vm.c

    Page tables live in physical memory, as the hardware sees them: a page of
    512 little-endian 64-bit entries.  A [pte_t *] is the address of an entry
    and 0 is the null pointer.  [pt] below is the abstraction used by the
    theorems: which page holds the table of each index path. *)

From Stdlib Require Import ZArith Lia.
From stdpp Require Import base list gmap strings numbers option.
From S2P Require Import Prelude Bytes Riscv Cstring Kstate Kalloc.

(** [x & flag] as a condition. *)
Definition has (x flag : Z) : bool := negb (Z.land x flag =? 0).

Section vm.
Context `{!KernelImage}.

(** [&pagetable\[i\]] *)
Definition pte_addr (pagetable i : Z) : Z := pagetable + 8 * i.

(** The loop of [walk], from [level] down to 1; [inr tt] is the early [return 0]. *)
Fixpoint walk_loop (level : nat) (pagetable va : Z) (alloc : bool) : M (Z + unit) :=
  match level with
  | O => ret (inl pagetable)
  | S level' =>
      let pte := pte_addr pagetable (PX (Z.of_nat level) va) in
      e <- kload64 pte ;;
      if has e PTE_V then walk_loop level' (PTE2PA e) va alloc
      else if negb alloc then ret (inr tt)
      else
        new <- kalloc ;;
        if new =? 0 then ret (inr tt) else
        kmemset new 0 PGSIZE ;;
        kstore64 pte (Z.lor (PA2PTE new) PTE_V) ;;
        walk_loop level' new va alloc
  end.

Definition walk (pagetable va : Z) (alloc : bool) : M Z :=
  if va >=? MAXVA then panic "walk" else
  r <- walk_loop 2 pagetable va alloc ;;
  match r with
  | inl pagetable => ret (pte_addr pagetable (PX 0 va))
  | inr _ => ret 0
  end.

Definition walkaddr (pagetable va : Z) : M Z :=
  if va >=? MAXVA then ret 0 else
  pte <- walk pagetable va false ;;
  if pte =? 0 then ret 0 else
  e <- kload64 pte ;;
  if negb (has e PTE_V) then ret 0 else
  if negb (has e PTE_U) then ret 0 else
  ret (PTE2PA e).

(** One round of [mappages]' loop on [(a, pa)]; the fuel is the number of pages. *)
Definition mappages_body (pagetable last perm : Z) (x : Z * Z) : M (Z * Z + Z) :=
  let '(a, pa) := x in
  pte <- walk pagetable a true ;;
  if pte =? 0 then ret (inr (-1)) else
  e <- kload64 pte ;;
  if has e PTE_V then panic "mappages: remap" else
  kstore64 pte (Z.lor (Z.lor (PA2PTE pa) perm) PTE_V) ;;
  if a =? last then ret (inr 0) else
  ret (inl (u64 (a + PGSIZE), u64 (pa + PGSIZE))).

Definition mappages (pagetable va size pa perm : Z) : M Z :=
  if negb (va mod PGSIZE =? 0) then panic "mappages: va not aligned" else
  if negb (size mod PGSIZE =? 0) then panic "mappages: size not aligned" else
  if size =? 0 then panic "mappages: size" else
  let last := u64 (va + size - PGSIZE) in
  loop (Z.to_nat (size / PGSIZE)) (mappages_body pagetable last perm) (va, pa).

Definition kvmmap (kpgtbl va pa sz perm : Z) : M unit :=
  r <- mappages kpgtbl va sz pa perm ;;
  if negb (r =? 0) then panic "kvmmap" else ret tt.

Definition uvmunmap_body (pagetable stop : Z) (do_free : bool) (a : Z) : M (Z + unit) :=
  if negb (a <? stop) then ret (inr tt) else
  pte <- walk pagetable a false ;;
  if pte =? 0 then panic "uvmunmap: walk" else
  e <- kload64 pte ;;
  if negb (has e PTE_V) then panic "uvmunmap: not mapped" else
  if PTE_FLAGS e =? PTE_V then panic "uvmunmap: not a leaf" else
  when do_free (kfree (PTE2PA e)) ;;
  kstore64 pte 0 ;;
  ret (inl (u64 (a + PGSIZE))).

Definition uvmunmap (pagetable va npages : Z) (do_free : bool) : M unit :=
  if negb (va mod PGSIZE =? 0) then panic "uvmunmap: not aligned" else
  loop (S (Z.to_nat npages))
    (uvmunmap_body pagetable (u64 (va + npages * PGSIZE)) do_free) va.

Definition uvmcreate : M Z :=
  pagetable <- kalloc ;;
  if pagetable =? 0 then ret 0 else
  kmemset pagetable 0 PGSIZE ;;
  ret pagetable.

(** [src] is the initial program's bytes. *)
Definition uvmfirst (pagetable : Z) (src : list Z) : M unit :=
  let sz := Z.of_nat (length src) in
  if sz >=? PGSIZE then panic "uvmfirst: more than a page" else
  mem <- kalloc ;;
  kmemset mem 0 PGSIZE ;;
  mappages pagetable 0 PGSIZE mem (Z.lor (Z.lor (Z.lor PTE_W PTE_R) PTE_X) PTE_U) ;;
  modify (fun s => put_pmem (storen (g_pmem s) mem src) s).

Definition uvmdealloc (pagetable oldsz newsz : Z) : M Z :=
  if newsz >=? oldsz then ret oldsz else
  when (PGROUNDUP newsz <? PGROUNDUP oldsz)
    (let npages := s32 ((PGROUNDUP oldsz - PGROUNDUP newsz) / PGSIZE) in
     uvmunmap pagetable (PGROUNDUP newsz) (u64 npages) true) ;;
  ret newsz.

Definition uvmalloc_body (pagetable oldsz newsz xperm a : Z) : M (Z + Z) :=
  if negb (a <? newsz) then ret (inr newsz) else
  mem <- kalloc ;;
  if mem =? 0 then uvmdealloc pagetable a oldsz ;; ret (inr 0) else
  kmemset mem 0 PGSIZE ;;
  r <- mappages pagetable a PGSIZE mem (Z.lor (Z.lor PTE_R PTE_U) xperm) ;;
  if negb (r =? 0) then kfree mem ;; uvmdealloc pagetable a oldsz ;; ret (inr 0) else
  ret (inl (u64 (a + PGSIZE))).

Definition uvmalloc (pagetable oldsz newsz xperm : Z) : M Z :=
  if newsz <? oldsz then ret oldsz else
  let oldsz := PGROUNDUP oldsz in
  loop (S (Z.to_nat ((newsz - oldsz + PGSIZE - 1) / PGSIZE)))
    (uvmalloc_body pagetable oldsz newsz xperm) oldsz.

(** The recursion is as deep as the tree of tables: [depth] levels. *)
Fixpoint freewalk (depth : nat) (pagetable : Z) : M unit :=
  match depth with
  | O => fail NoFuel
  | S depth' =>
      for_each 512 0 (fun i =>
        pte <- kload64 (pte_addr pagetable (Z.of_nat i)) ;;
        if has pte PTE_V && negb (has pte (Z.lor (Z.lor PTE_R PTE_W) PTE_X)) then
          freewalk depth' (PTE2PA pte) ;;
          kstore64 (pte_addr pagetable (Z.of_nat i)) 0
        else if has pte PTE_V then panic "freewalk: leaf"
        else ret tt) ;;
      kfree pagetable
  end.

Definition uvmfree (pagetable sz : Z) : M unit :=
  when (sz >? 0) (uvmunmap pagetable 0 (PGROUNDUP sz / PGSIZE) true) ;;
  freewalk 3 pagetable.

(** The label [err] with [i] in scope. *)
Definition uvmcopy_err (new i : Z) : M Z :=
  uvmunmap new 0 (i / PGSIZE) true ;; ret (-1).

Definition uvmcopy_body (old new sz i : Z) : M (Z + Z) :=
  if negb (i <? sz) then ret (inr 0) else
  pte <- walk old i false ;;
  if pte =? 0 then panic "uvmcopy: pte should exist" else
  e <- kload64 pte ;;
  if negb (has e PTE_V) then panic "uvmcopy: page not present" else
  let pa := PTE2PA e in
  let flags := PTE_FLAGS e in
  mem <- kalloc ;;
  if mem =? 0 then r <- uvmcopy_err new i ;; ret (inr r) else
  kmemmove mem pa PGSIZE ;;
  r <- mappages new i PGSIZE mem flags ;;
  if negb (r =? 0) then kfree mem ;; r <- uvmcopy_err new i ;; ret (inr r) else
  ret (inl (u64 (i + PGSIZE))).

Definition uvmcopy (old new sz : Z) : M Z :=
  loop (S (Z.to_nat ((sz + PGSIZE - 1) / PGSIZE))) (uvmcopy_body old new sz) 0.

Definition uvmclear (pagetable va : Z) : M unit :=
  pte <- walk pagetable va false ;;
  if pte =? 0 then panic "uvmclear" else
  e <- kload64 pte ;;
  kstore64 pte (Z.land e (Z.lnot PTE_U)).

(** ** Copying between kernel and user memory

    A kernel buffer is a list of bytes: the source of [copyout] (its length
    is [len]), and for [copyin] and [copyinstr] the bytes stored into [dst],
    also when the copy fails part of the way. *)

Definition copyout_body (pagetable : Z) (x : Z * list Z) : M (Z * list Z + Z) :=
  let '(dstva, src) := x in
  let len := Z.of_nat (length src) in
  if negb (len >? 0) then ret (inr 0) else
  let va0 := PGROUNDDOWN dstva in
  if va0 >=? MAXVA then ret (inr (-1)) else
  pte <- walk pagetable va0 false ;;
  if pte =? 0 then ret (inr (-1)) else
  e <- kload64 pte ;;
  if negb (has e PTE_V) || negb (has e PTE_U) || negb (has e PTE_W) then ret (inr (-1)) else
  let pa0 := PTE2PA e in
  let n := Z.min (PGSIZE - (dstva - va0)) len in
  modify (fun s => put_pmem (storen (g_pmem s) (pa0 + (dstva - va0)) (take (Z.to_nat n) src)) s) ;;
  ret (inl (u64 (va0 + PGSIZE), drop (Z.to_nat n) src)).

(** Rounds of a copy loop: a page at a time, and a last test. *)
Definition copy_fuel (len : Z) : nat := (2 + Z.to_nat (len / PGSIZE) + 1)%nat.

Definition copyout (pagetable dstva : Z) (src : list Z) : M Z :=
  loop (copy_fuel (Z.of_nat (length src))) (copyout_body pagetable) (dstva, src).

Definition copyin_body (pagetable : Z) (x : list Z * Z * Z) : M (list Z * Z * Z + Z * list Z) :=
  let '(dst, srcva, len) := x in
  if negb (len >? 0) then ret (inr (0, dst)) else
  let va0 := PGROUNDDOWN srcva in
  pa0 <- walkaddr pagetable va0 ;;
  if pa0 =? 0 then ret (inr (-1, dst)) else
  let n := Z.min (PGSIZE - (srcva - va0)) len in
  bs <- gets (fun s => loadn (g_pmem s) (pa0 + (srcva - va0)) (Z.to_nat n)) ;;
  ret (inl (dst ++ bs, u64 (va0 + PGSIZE), len - n)).

Definition copyin (pagetable srcva len : Z) : M (Z * list Z) :=
  loop (copy_fuel len) (copyin_body pagetable) ([], srcva, len).

(** The inner loop of [copyinstr] over the [n] bytes of one page; it returns
    [got_null], the bytes stored and the number it did not consume. *)
Fixpoint copyinstr_page (n : nat) (m : mem) (p : Z) : bool * list Z :=
  match n with
  | O => (false, [])
  | S n' =>
      if load8 m p =? 0 then (true, [0])
      else let '(g, bs) := copyinstr_page n' m (p + 1) in (g, load8 m p :: bs)
  end.

Definition copyinstr_body (pagetable : Z) (x : list Z * Z * Z) : M (list Z * Z * Z + Z * list Z) :=
  let '(dst, srcva, max) := x in
  if negb (max >? 0) then ret (inr (-1, dst)) else
  let va0 := PGROUNDDOWN srcva in
  pa0 <- walkaddr pagetable va0 ;;
  if pa0 =? 0 then ret (inr (-1, dst)) else
  let n := Z.min (PGSIZE - (srcva - va0)) max in
  r <- gets (fun s => copyinstr_page (Z.to_nat n) (g_pmem s) (pa0 + (srcva - va0))) ;;
  let '(got_null, bs) := r in
  if (got_null : bool) then ret (inr (0, dst ++ bs)) else
  ret (inl (dst ++ bs, u64 (va0 + PGSIZE), max - n)).

Definition copyinstr (pagetable srcva max : Z) : M (Z * list Z) :=
  loop (copy_fuel max) (copyinstr_body pagetable) ([], srcva, max).

(** ** The kernel's own page table *)

(** kernel/proc.c *)
Definition proc_mapstacks (kpgtbl : Z) : M unit :=
  for_each NPROC 0 (fun p =>
    pa <- kalloc ;;
    if pa =? 0 then panic "kalloc" else
    kvmmap kpgtbl (KSTACK (Z.of_nat p)) pa PGSIZE (Z.lor PTE_R PTE_W)).

Definition kvmmake : M Z :=
  kpgtbl <- kalloc ;;
  kmemset kpgtbl 0 PGSIZE ;;
  kvmmap kpgtbl UART0 UART0 PGSIZE (Z.lor PTE_R PTE_W) ;;
  kvmmap kpgtbl VIRTIO0 VIRTIO0 PGSIZE (Z.lor PTE_R PTE_W) ;;
  kvmmap kpgtbl PLIC PLIC 0x4000000 (Z.lor PTE_R PTE_W) ;;
  kvmmap kpgtbl KERNBASE KERNBASE (etext - KERNBASE) (Z.lor PTE_R PTE_X) ;;
  kvmmap kpgtbl etext etext (PHYSTOP - etext) (Z.lor PTE_R PTE_W) ;;
  kvmmap kpgtbl TRAMPOLINE trampoline PGSIZE (Z.lor PTE_R PTE_X) ;;
  proc_mapstacks kpgtbl ;;
  ret kpgtbl.

Definition kvminit : M unit :=
  kpgtbl <- kvmmake ;; modify (put_kernel_pagetable kpgtbl).
End vm.
