(* ===== verification/VmSpec.v ===== *)
(** * Page tables as maps: lemmas about kernel/vm.c

    [pt_wf m root T] says that the page at [root] is the root of a tree of
    page-table pages: [T] maps the path of indices that leads to a table (the
    empty path for the root) to the page that holds it.  The leaf entries are
    then a map from virtual pages to entries, [pte_at].  The lemmas show that
    [walk] finds the entry of an address in that map, that allocating the
    missing tables leaves the map unchanged, and that storing an entry changes
    it at one virtual page only. *)

From Stdlib Require Import ZArith Lia.
From stdpp Require Import base list gmap strings numbers option.
From S2P Require Import Prelude Bytes Riscv Cstring Kstate Kalloc Vm.

Section pt.
Context `{!KernelImage}.

Abbreviation tree := (gmap (list Z) Z).

Definition idx (i : Z) : Prop := 0 <= i < 512.

(** No page-table page is on the free list. *)
Definition tables_not_free (T : tree) (l : list Z) : Prop :=
  forall p a, T !! p = Some a -> a ∉ l.

Record pt_wf (m : mem) (root : Z) (T : tree) : Prop := {
  pt_root : T !! [] = Some root;
  pt_page : forall p a, T !! p = Some a -> page a;
  pt_inj : forall p q a, T !! p = Some a -> T !! q = Some a -> p = q;
  pt_path : forall p a, T !! p = Some a -> (length p <= 2)%nat;
  pt_child : forall p i a b, (length p < 2)%nat -> idx i -> T !! p = Some a ->
    T !! (p ++ [i]) = Some b -> load64 m (pte_addr a i) = Z.lor (PA2PTE b) PTE_V;
  pt_hole : forall p i a, (length p < 2)%nat -> idx i -> T !! p = Some a ->
    T !! (p ++ [i]) = None -> has (load64 m (pte_addr a i)) PTE_V = false;
  pt_parent : forall p i b, T !! (p ++ [i]) = Some b -> is_Some (T !! p) /\ idx i
}.

(** The entry of the virtual page of [va]; 0 where there is no leaf table. *)
Definition pte_at (m : mem) (T : tree) (va : Z) : Z :=
  match T !! [PX 2 va; PX 1 va] with
  | Some a => load64 m (pte_addr a (PX 0 va))
  | None => 0
  end.

(** Memory outside the tables of [T] is the same. *)
Definition same_outside (T : tree) (m m' : mem) : Prop :=
  forall q x, page q -> (forall p, T !! p <> Some q) -> q <= x < q + PGSIZE ->
    load8 m' x = load8 m x.

(** ** Entries of tables *)

Lemma has_V_entry b : has (Z.lor b PTE_V) PTE_V = true.
Proof. unfold has. by rewrite land_lor_V. Qed.

Lemma has_0 f : has 0 f = false.
Proof. unfold has. by rewrite Z.land_0_l. Qed.

Lemma entry_bounds a i : page a -> idx i -> a <= pte_addr a i /\ pte_addr a i + 8 <= a + PGSIZE.
Proof. unfold idx, pte_addr, PGSIZE. lia. Qed.

Lemma page_lt a : page a -> 0 <= a < 2 ^ 56 /\ a mod 4096 = 0.
Proof.
  intros Hp. pose proof (page_bounds _ Hp). destruct Hp as [Hm _].
  unfold PGSIZE, PHYSTOP, KERNBASE in *. lia.
Qed.

Lemma PTE2PA_table b : page b -> PTE2PA (Z.lor (PA2PTE b) PTE_V) = b.
Proof. intros [? ?]%page_lt. by apply PTE2PA_pack. Qed.

Lemma entry_range x f : 0 <= f < 1024 -> 0 <= x < 2 ^ 56 -> x mod 4096 = 0 ->
  0 <= Z.lor (PA2PTE x) f < 2 ^ 54.
Proof. intros. rewrite pte_pack by done. zlia. Qed.

(** A store to an entry is seen at that entry only. *)
Lemma load_store_entry m a i v b j :
  page a -> page b -> idx i -> idx j -> 0 <= v < 2 ^ 64 ->
  load64 (store64 m (pte_addr a i) v) (pte_addr b j) =
    if decide (a = b /\ i = j) then v else load64 m (pte_addr b j).
Proof.
  intros Ha Hb Hi Hj Hv. case_decide as Hd.
  - destruct Hd as [-> ->]. rewrite load_store_le_same. apply Z.mod_small. exact Hv.
  - apply load_store_le_other. pose proof (entry_bounds _ _ Ha Hi). pose proof (entry_bounds _ _ Hb Hj).
    destruct (decide (a = b)) as [->|Hne]; [unfold pte_addr in *; assert (i <> j) by naive_solver; lia|].
    destruct (pages_disjoint a b) as [|]; auto; lia.
Qed.

(** A write to one page keeps the entries of the others. *)
Lemma load_entry_frame m m' q a i :
  page q -> page a -> idx i -> a <> q -> same_but_page m m' q ->
  load64 m' (pte_addr a i) = load64 m (pte_addr a i).
Proof.
  intros Hq Ha Hi Hne Hs. pose proof (entry_bounds _ _ Ha Hi).
  apply (load_le_agree 8 m' m _ a (a + PGSIZE)); [|lia|lia]. intros x Hx. apply Hs.
  destruct (pages_disjoint q a); auto; lia.
Qed.

Lemma load_entry_zero m a i : page a -> idx i -> load64 (memset m a 0 PGSIZE) (pte_addr a i) = 0.
Proof.
  intros Ha Hi. pose proof (entry_bounds _ _ Ha Hi). unfold load_le.
  assert (loadn (memset m a 0 PGSIZE) (pte_addr a i) 8 = replicate 8 0) as ->; [|done].
  apply list_eq. intros k. rewrite lookup_loadn. case_decide.
  - rewrite load8_memset, decide_True by (unfold PGSIZE in *; lia). by rewrite lookup_replicate_2.
  - symmetry. apply lookup_ge_None_2. rewrite length_replicate. lia.
Qed.

(** ** Virtual addresses and index paths *)

Lemma PX_idx lv va : 0 <= lv -> idx (PX lv va).
Proof. intros. by apply PX_range. Qed.

Lemma PX_idx_nat n va : idx (PX (Z.of_nat n) va).
Proof. apply PX_idx. lia. Qed.

(** Equal indices at the three levels: the same virtual page. *)
Lemma PX_inj va va' :
  0 <= va < MAXVA -> 0 <= va' < MAXVA ->
  PX 2 va = PX 2 va' -> PX 1 va = PX 1 va' -> PX 0 va = PX 0 va' -> va / 4096 = va' / 4096.
Proof.
  intros Hva Hva'. rewrite !PX_eq by lia.
  change (2 ^ (12 + 9 * 2)) with 1073741824. change (2 ^ (12 + 9 * 1)) with 2097152.
  change (2 ^ (12 + 9 * 0)) with 4096. change MAXVA with 274877906944 in *. intros H2 H1 H0.
  rewrite (Z.mod_small (va / 1073741824)) in H2 by zlia.
  rewrite (Z.mod_small (va' / 1073741824)) in H2 by zlia. zlia.
Qed.

(** The indices depend on the virtual page only. *)
Lemma PX_page va va' lv : 0 <= lv -> va / 4096 = va' / 4096 -> PX lv va = PX lv va'.
Proof.
  intros Hlv E. rewrite !PX_eq by done.
  rewrite Z.pow_add_r by lia. change (2 ^ 12) with 4096. rewrite <- !Z.div_div by lia. by rewrite E.
Qed.

Lemma pte_at_page m T va va' : va / 4096 = va' / 4096 -> pte_at m T va = pte_at m T va'.
Proof. 
  intros E. unfold pte_at.
  by rewrite (PX_page va va' 2), (PX_page va va' 1), (PX_page va va' 0) by (done || lia).
Qed.

(** ** Storing entries and adding tables *)

(** A leaf entry is stored: the tree is untouched and the map of entries
    changes at one virtual page. *)
Lemma pt_store_leaf m root T va a v :
  pt_wf m root T -> T !! [PX 2 va; PX 1 va] = Some a -> 0 <= v < 2 ^ 64 ->
  pt_wf (store64 m (pte_addr a (PX 0 va)) v) root T.
Proof.
  intros Hw Ha Hv. pose proof (pt_page _ _ _ Hw _ _ Ha) as Hpa.
  assert (forall p b i, (length p < 2)%nat -> idx i -> T !! p = Some b ->
    load64 (store64 m (pte_addr a (PX 0 va)) v) (pte_addr b i) = load64 m (pte_addr b i)) as Hld.
  { intros p b i Hl Hi Hb. rewrite load_store_entry; eauto using pt_page.
    - rewrite decide_False; [done|]. intros [-> _].
      pose proof (pt_inj _ _ _ Hw _ _ _ Ha Hb) as <-. simpl in Hl. lia.
    - by apply PX_idx. }
  destruct Hw as [H1 H2 H3 H4 H5 H6 H7]. split; try done.
  - intros p i b c Hl Hi Hb Hc. erewrite Hld by done. eauto.
  - intros p i b Hl Hi Hb Hc. erewrite Hld by done. eauto.
Qed.

Lemma pte_at_store m root T va a v va' :
  pt_wf m root T -> T !! [PX 2 va; PX 1 va] = Some a -> 0 <= v < 2 ^ 64 ->
  0 <= va < MAXVA -> 0 <= va' < MAXVA ->
  pte_at (store64 m (pte_addr a (PX 0 va)) v) T va' =
    if decide (va' / 4096 = va / 4096) then v else pte_at m T va'.
Proof.
  intros Hw Ha Hv Hva Hva'. pose proof (pt_page _ _ _ Hw _ _ Ha) as Hpa. case_decide as Hd.
  - rewrite (pte_at_page _ _ _ _ Hd). unfold pte_at. rewrite Ha.
    rewrite load_store_entry; auto using PX_idx with lia. by rewrite decide_True.
  - unfold pte_at. destruct (T !! [PX 2 va'; PX 1 va']) as [b|] eqn:Hb; [|done].
    rewrite load_store_entry; eauto using PX_idx, pt_page with lia.
    rewrite decide_False; [done|]. intros [-> E0].
    pose proof (pt_inj _ _ _ Hw _ _ _ Ha Hb) as [= E2 E1]. destruct Hd.
    symmetry. by apply PX_inj.
Qed.

Lemma store_leaf_outside m root T va a v :
  pt_wf m root T -> T !! [PX 2 va; PX 1 va] = Some a ->
  same_outside T m (store64 m (pte_addr a (PX 0 va)) v).
Proof.
  intros Hw Ha q x Hq Hni Hx. pose proof (pt_page _ _ _ Hw _ _ Ha) as Hpa.
  pose proof (entry_bounds a (PX 0 va) Hpa ltac:(by apply PX_idx)).
  unfold store_le. rewrite load8_storen, length_le_bytes, decide_False; [done|].
  assert (a <> q) by naive_solver. destruct (pages_disjoint a q); auto; lia.
Qed.

(** A new table page [b], zeroed, is linked under index [i] of the table [a]. *)
Definition link_mem (m : mem) (a i b : Z) : mem :=
  store64 (memset m b 0 PGSIZE) (pte_addr a i) (Z.lor (PA2PTE b) PTE_V).

Lemma link_load m root T p i a b q c j :
  pt_wf m root T -> T !! p = Some a -> idx i -> page b -> (forall p, T !! p <> Some b) ->
  T !! q = Some c -> idx j ->
  load64 (link_mem m a i b) (pte_addr c j) =
    if decide (q = p /\ j = i) then Z.lor (PA2PTE b) PTE_V else load64 m (pte_addr c j).
Proof.
  intros Hw Ha Hi Hb Hnew Hc Hj. unfold link_mem.
  pose proof (page_lt _ Hb) as [Hbr Hbm].
  pose proof (entry_range b PTE_V ltac:(by compute) Hbr Hbm).
  pose proof (pt_page _ _ _ Hw _ _ Ha). pose proof (pt_page _ _ _ Hw _ _ Hc).
  rewrite load_store_entry by (done || lia). case_decide as D1; case_decide as D2.
  - done.
  - destruct D1 as [-> ->]. destruct D2. by rewrite (pt_inj _ _ _ Hw _ _ _ Ha Hc).
  - destruct D2 as [-> ->]. destruct D1. rewrite Ha in Hc. by injection Hc.
  - eapply load_entry_frame; [exact Hb| | | |apply memset_page]; auto. naive_solver.
Qed.

Lemma link_new m root T p i a b j :
  pt_wf m root T -> T !! p = Some a -> idx i -> page b -> (forall p, T !! p <> Some b) -> idx j ->
  load64 (link_mem m a i b) (pte_addr b j) = 0.
Proof.
  intros Hw Ha Hi Hb Hnew Hj. unfold link_mem.
  pose proof (page_lt _ Hb) as [Hbr Hbm].
  pose proof (entry_range b PTE_V ltac:(by compute) Hbr Hbm).
  rewrite load_store_entry; eauto using pt_page with lia.
  rewrite decide_False by naive_solver. by apply load_entry_zero.
Qed.

Lemma pt_link m root T p i a b :
  pt_wf m root T -> T !! p = Some a -> (length p < 2)%nat -> idx i ->
  T !! (p ++ [i]) = None -> page b -> (forall p, T !! p <> Some b) ->
  pt_wf (link_mem m a i b) root (<[p ++ [i] := b]> T).
Proof.
  intros Hw Ha Hl Hi Hnone Hb Hnew.
  assert (forall j, T !! ((p ++ [i]) ++ [j]) = None) as Hnochild.
  { intros j. destruct (T !! ((p ++ [i]) ++ [j])) eqn:E; [|done].
    apply (pt_parent _ _ _ Hw) in E as [[x Hx] _]. congruence. }
  split.
  - rewrite lookup_insert_ne by (by destruct p). by apply Hw.
  - intros q c [[<- <-]|[_ Hc]]%lookup_insert_Some; [done|]. by eapply pt_page.
  - intros q q' c [[<- <-]|[Hq Hc]]%lookup_insert_Some [[<- E]|[Hq' Hc']]%lookup_insert_Some; try done.
    + naive_solver.
    + naive_solver.
    + by eapply pt_inj.
  - intros q c [[<- _]|[_ Hc]]%lookup_insert_Some; [rewrite length_app; simpl; lia|]. by eapply pt_path.
  - intros q j c d Hql Hj [[<- <-]|[Hq Hc]]%lookup_insert_Some Hd.
    { rewrite lookup_insert_ne in Hd; [by rewrite Hnochild in Hd|].
      intros E%(f_equal length). rewrite !length_app in E. simpl in E. lia. }
    rewrite (link_load m root T p i a b q c j) by done.
    apply lookup_insert_Some in Hd as [[E <-]|[Hne Hd]].
    + apply app_inj_tail in E as [-> ->]. by rewrite decide_True.
    + rewrite decide_False by naive_solver. by eapply pt_child.
  - intros q j c Hql Hj [[<- <-]|[Hq Hc]]%lookup_insert_Some Hd.
    { rewrite (link_new m root T p i a b j) by done. apply has_0. }
    apply lookup_insert_None in Hd as [Hd Hne].
    rewrite (link_load m root T p i a b q c j) by done.
    rewrite decide_False by naive_solver. by eapply pt_hole.
  - intros q j c [[E <-]|[Hne Hc]]%lookup_insert_Some.
    + apply app_inj_tail in E as [-> ->]. split; [|done].
      rewrite lookup_insert_ne; [by eexists|]. intros E%(f_equal length).
      rewrite length_app in E. simpl in E. lia.
    + apply (pt_parent _ _ _ Hw) in Hc as [Hs ?]. split; [|done].
      rewrite lookup_insert_is_Some'. by right.
Qed.

(** Adding a table does not change the map of entries. *)
Lemma pte_at_link m root T p i a b va :
  pt_wf m root T -> T !! p = Some a -> (length p < 2)%nat -> idx i ->
  T !! (p ++ [i]) = None -> page b -> (forall p, T !! p <> Some b) ->
  pte_at (link_mem m a i b) (<[p ++ [i] := b]> T) va = pte_at m T va.
Proof.
  intros Hw Ha Hl Hi Hnone Hb Hnew. unfold pte_at.
  destruct (decide (p ++ [i] = [PX 2 va; PX 1 va])) as [E|Hne].
  - rewrite E, lookup_insert_eq. rewrite E in Hnone. rewrite Hnone.
    eapply link_new; eauto. by apply PX_idx.
  - rewrite lookup_insert_ne by done. destruct (T !! [PX 2 va; PX 1 va]) as [c|] eqn:Hc; [|done].
    rewrite (link_load m root T p i a b _ c) by (done || by apply PX_idx).
    rewrite decide_False; [done|]. intros [<- _]. simpl in Hl. lia.
Qed.

Lemma link_outside m root T p i a b :
  pt_wf m root T -> T !! p = Some a -> idx i -> page b ->
  same_outside (<[p ++ [i] := b]> T) m (link_mem m a i b).
Proof.
  intros Hw Ha Hi Hb q x Hq Hni Hx. unfold link_mem, store_le.
  pose proof (pt_page _ _ _ Hw _ _ Ha) as Hpa. pose proof (entry_bounds a i Hpa Hi).
  assert (q <> b) by (intros ->; by destruct (Hni (p ++ [i])); apply lookup_insert_eq).
  assert (q <> a).
  { intros ->. destruct (Hni p). rewrite lookup_insert_ne; [done|].
    intros E%(f_equal length). rewrite length_app in E. simpl in E. lia. }
  rewrite load8_storen, length_le_bytes, decide_False.
  - rewrite load8_memset by (unfold PGSIZE; lia). rewrite decide_False; [done|].
    destruct (pages_disjoint q b); auto; lia.
  - destruct (pages_disjoint q a); auto; lia.
Qed.

(** ** walk *)

(** The page tables at [root] with the allocator's free list. *)
Record vm_ok (s : kstate) (root : Z) (T : tree) (l : list Z) : Prop := {
  vm_pt : pt_wf (g_pmem s) root T;
  vm_free : free_list s l;
  vm_disj : tables_not_free T l;
  vm_lock : lock_free LKmem s
}.

(** What a walk may change: tables are added from the free list; the map of
    entries, and memory that is not a table, stay the same. *)
Record vm_grow (s : kstate) (T : tree) (l : list Z) (s' : kstate) (T' : tree) (l' : list Z) : Prop := {
  grow_mm : mm_only s s';
  grow_T : T ⊆ T';
  grow_pte : forall va, pte_at (g_pmem s') T' va = pte_at (g_pmem s) T va;
  grow_mem : same_outside T' (g_pmem s) (g_pmem s');
  grow_new : forall p a, T' !! p = Some a -> T !! p = Some a \/ a ∈ l;
  grow_free : l' `suffix_of` l;
  grow_ok : mem_ok (g_pmem s) -> mem_ok (g_pmem s')
}.

Lemma mm_only_refl s : mm_only s s.
Proof. unfold mm_only. by destruct s. Qed.

Lemma mm_only_trans s1 s2 s3 : mm_only s1 s2 -> mm_only s2 s3 -> mm_only s1 s3.
Proof. unfold mm_only. intros E1 E2. rewrite E2, E1. by destruct s1. Qed.

Lemma mm_only_kmm s v : mm_only s (set_kmm v s).
Proof. unfold mm_only. by destruct s. Qed.

Lemma vm_grow_refl s T l : vm_grow s T l s T l.
Proof. split; auto using mm_only_refl. by intros q x. Qed.

Lemma vm_grow_trans s1 T1 l1 s2 T2 l2 s3 T3 l3 :
  vm_grow s1 T1 l1 s2 T2 l2 -> vm_grow s2 T2 l2 s3 T3 l3 -> vm_grow s1 T1 l1 s3 T3 l3.
Proof.
  intros [A1 A2 A3 A4 A5 A6 A7] [B1 B2 B3 B4 B5 B6 B7]. split.
  - by eapply mm_only_trans.
  - by etrans.
  - intros va. by rewrite B3, A3.
  - intros q x Hq Hni Hx. rewrite (B4 q x) by done. apply (A4 q); auto.
    intros p Hp. by eapply Hni, lookup_weaken.
  - intros p a [Hp|Hp]%B5.
    + by apply A5.
    + right. destruct A6 as [k ->]. rewrite elem_of_app. by right.
  - by etrans.
  - auto.
Qed.

(** One level of the walk. *)
Lemma walk_hit n va alloc s root T p a b :
  pt_wf (g_pmem s) root T -> T !! p = Some a -> (length p < 2)%nat ->
  T !! (p ++ [PX (Z.of_nat (S n)) va]) = Some b ->
  walk_loop (S n) a va alloc s = walk_loop n b va alloc s.
Proof.
  intros Hok Ha Hl Hb. cbn [walk_loop]. unfold bind at 1, kload64, gets. cbn [obind].
  rewrite (pt_child _ _ _ Hok _ _ _ _ Hl (PX_idx_nat (S n) va) Ha Hb).
  rewrite has_V_entry, PTE2PA_table; [done|]. by eapply pt_page.
Qed.

Lemma walk_miss n va s root T p a :
  pt_wf (g_pmem s) root T -> T !! p = Some a -> (length p < 2)%nat ->
  T !! (p ++ [PX (Z.of_nat (S n)) va]) = None ->
  walk_loop (S n) a va false s = Ret (inr tt) s.
Proof.
  intros Hok Ha Hl Hb. cbn [walk_loop]. unfold bind at 1, kload64, gets. cbn [obind].
  rewrite (pt_hole _ _ _ Hok _ _ _ Hl (PX_idx_nat (S n) va) Ha Hb). done.
Qed.

Lemma walk_oom n va s root T p a :
  vm_ok s root T [] -> T !! p = Some a -> (length p < 2)%nat ->
  T !! (p ++ [PX (Z.of_nat (S n)) va]) = None ->
  walk_loop (S n) a va true s = Ret (inr tt) s.
Proof.
  intros Hok Ha Hl Hb. cbn [walk_loop]. unfold bind at 1, kload64, gets. cbn [obind].
  rewrite (pt_hole _ _ _ (vm_pt _ _ _ _ Hok) _ _ _ Hl (PX_idx_nat (S n) va) Ha Hb).
  cbn [negb]. unfold bind. by rewrite (kalloc_empty s) by apply Hok.
Qed.

(** The state after the page [b] was taken from the free list and linked
    under index [i] of the table [a]. *)
Lemma vm_link s root T b l p a i m2 :
  vm_ok s root T (b :: l) -> T !! p = Some a -> (length p < 2)%nat -> idx i ->
  T !! (p ++ [i]) = None -> (forall x, load8 m2 x = load8 (link_mem (g_pmem s) a i b) x) ->
  vm_ok (put_pmem m2 (put_freelist (load64 (g_pmem s) b) s)) root (<[p ++ [i] := b]> T) l /\
  vm_grow s T (b :: l) (put_pmem m2 (put_freelist (load64 (g_pmem s) b) s)) (<[p ++ [i] := b]> T) l.
Proof.
  intros [Hw Hf Hd Hlk] Ha Hl Hi Hb Hm2.
  destruct Hf as [(_ & Hpb & Hc) [Hbl Hnd]%list.NoDup_cons].
  assert (forall p, T !! p <> Some b) as Hnew by (intros q Hq; apply (Hd q b Hq); left).
  assert (forall k x, load_le k m2 x = load_le k (link_mem (g_pmem s) a i b) x) as Hld.
  { intros k x. apply (load_le_agree k _ _ x x (x + Z.of_nat k)); [|lia|lia]. intros y _. apply Hm2. }
  pose proof (pt_page _ _ _ Hw _ _ Ha) as Hpa. split; split; kget.
  - pose proof (pt_link _ _ _ _ _ _ _ Hw Ha Hl Hi Hb Hpb Hnew) as [P1 P2 P3 P4 P5 P6 P7].
    split; [done..| | |done]; intros; rewrite Hld; [by eapply P5|by eapply P6].
  - split; [|done]. kget.
    apply (chain_frame (memset (g_pmem s) b 0 PGSIZE) m2 a); [done| | |].
    + intros Hin. apply (Hd p a Ha). by right.
    + intros x Hx. rewrite Hm2. unfold link_mem, store_le.
      rewrite load8_storen, length_le_bytes, decide_False; [done|].
      pose proof (entry_bounds a i Hpa Hi). lia.
    + apply (chain_frame (g_pmem s) _ b); [done|done|apply memset_page|done].
  - intros q c [[_ <-]|[_ Hq]]%lookup_insert_Some; [done|].
    intros Hin. apply (Hd q c Hq). by right.
  - exact Hlk.
  - eapply mm_only_trans; [|apply mm_only_kmm]. apply mm_only_kmm.
  - by apply insert_subseteq.
  - intros va. rewrite <- (pte_at_link (g_pmem s) root T p i a b va) by done. unfold pte_at.
    destruct (<[p ++ [i]:=b]> T !! [PX 2 va; PX 1 va]); [apply Hld|done].
  - intros q x Hq Hni Hx. rewrite Hm2. by apply (link_outside _ root T p i a b Hw Ha Hi Hpb q).
  - intros q c [[_ <-]|[_ Hq]]%lookup_insert_Some; [right; left|by left].
  - by exists [b].
  - intros Hmo. apply mem_ok_load8. intros x. rewrite Hm2. apply load8_byte. apply storen_ok, memset_ok, Hmo.
Qed.

Lemma walk_alloc n va s root T b l p a :
  vm_ok s root T (b :: l) -> T !! p = Some a -> (length p < 2)%nat ->
  T !! (p ++ [PX (Z.of_nat (S n)) va]) = None ->
  exists s', walk_loop (S n) a va true s = walk_loop n b va true s' /\
    vm_ok s' root (<[p ++ [PX (Z.of_nat (S n)) va] := b]> T) l /\
    vm_grow s T (b :: l) s' (<[p ++ [PX (Z.of_nat (S n)) va] := b]> T) l.
Proof.
  intros Hok Ha Hl Hb. eexists. split; [|eapply vm_link; [exact Hok|exact Ha|exact Hl|apply PX_idx_nat|exact Hb|]].
  - cbn [walk_loop]. unfold bind at 1, kload64, gets. cbn [obind].
    rewrite (pt_hole _ _ _ (vm_pt _ _ _ _ Hok) _ _ _ Hl (PX_idx_nat (S n) va) Ha Hb).
    cbn [negb]. unfold bind. rewrite (kalloc_run s b l) by apply Hok. cbn [obind].
    destruct (Z.eqb_spec b 0) as [->|].
    { destruct (vm_free _ _ _ _ Hok) as [(_ & Hpb & _) _]. by apply page_bounds in Hpb as (_ & _ & ?). }
    unfold kmemset, kstore64, modify. cbn [obind]. kget. rewrite put_pmem_put.
    change (put_pmem ?m (put_freelist ?f (put_pmem _ s))) with (put_pmem m (put_freelist f s)).
    reflexivity.
  - intros x. unfold link_mem, store_le. rewrite !load8_storen. case_decide; [done|].
    rewrite !load8_memset by (unfold PGSIZE; lia). by case_decide.
Qed.

(** The address of the entry of [va], 0 when a table is missing. *)
Definition pte_ptr (T : tree) (va : Z) : Z :=
  match T !! [PX 2 va; PX 1 va] with Some a => pte_addr a (PX 0 va) | None => 0 end.

Lemma pte_ptr_nonzero m root T va a :
  pt_wf m root T -> T !! [PX 2 va; PX 1 va] = Some a -> pte_addr a (PX 0 va) <> 0.
Proof.
  intros Hw Ha. pose proof (pt_page _ _ _ Hw _ _ Ha) as Hp. apply page_bounds in Hp.
  pose proof (PX_range 0 va). unfold pte_addr, KERNBASE in *. lia.
Qed.

Lemma walk_find s root T va :
  pt_wf (g_pmem s) root T -> va < MAXVA -> walk root va false s = Ret (pte_ptr T va) s.
Proof.
  intros Hw Hva. unfold walk, pte_ptr. rewrite Z.geb_leb. destruct (Z.leb_spec MAXVA va); [lia|].
  unfold bind. pose proof (pt_root _ _ _ Hw) as Hr.
  destruct (T !! [PX 2 va]) as [a|] eqn:Ha.
  - rewrite (walk_hit 1 va false s root T [] root a) by (done || simpl; lia).
    destruct (T !! [PX 2 va; PX 1 va]) as [b|] eqn:Hb.
    + by rewrite (walk_hit 0 va false s root T [PX 2 va] a b) by (done || simpl; lia).
    + by rewrite (walk_miss 0 va s root T [PX 2 va] a) by (done || simpl; lia).
  - rewrite (walk_miss 1 va s root T [] root) by (done || simpl; lia).
    destruct (T !! [PX 2 va; PX 1 va]) eqn:Hb; [|done].
    apply (pt_parent _ _ _ Hw [PX 2 va] (PX 1 va)) in Hb as [[x Hx] _]. congruence.
Qed.

(** One level of an allocating walk. *)
Lemma walk_level n va s root T l p a :
  vm_ok s root T l -> T !! p = Some a -> (length p < 2)%nat ->
  exists s' T' l', vm_ok s' root T' l' /\ vm_grow s T l s' T' l' /\
    ((walk_loop (S n) a va true s = Ret (inr tt) s' /\ l' = []) \/
     exists b, T' !! (p ++ [PX (Z.of_nat (S n)) va]) = Some b /\
       walk_loop (S n) a va true s = walk_loop n b va true s').
Proof.
  intros Hok Ha Hl. destruct (T !! (p ++ [PX (Z.of_nat (S n)) va])) as [b|] eqn:Hb.
  - exists s, T, l. split_and!; [done|apply vm_grow_refl|]. right. exists b. split; [done|].
    eapply walk_hit; eauto. apply Hok.
  - destruct l as [|b l].
    + exists s, T, []. split_and!; [done|apply vm_grow_refl|]. left. split; [|done].
      by eapply walk_oom.
    + destruct (walk_alloc n va s root T b l p a) as (s' & E & Hok' & Hg); try done.
      exists s', (<[p ++ [PX (Z.of_nat (S n)) va] := b]> T), l. split_and!; [done..|].
      right. exists b. split; [apply lookup_insert_eq|done].
Qed.

(** [walk] with [alloc]: the entry's address, or 0 when memory ran out. *)
Lemma walk_make s root T l va :
  vm_ok s root T l -> va < MAXVA ->
  exists r s' T' l', walk root va true s = Ret r s' /\ vm_ok s' root T' l' /\
    vm_grow s T l s' T' l' /\
    ((r = 0 /\ l' = []) \/ exists a, T' !! [PX 2 va; PX 1 va] = Some a /\ r = pte_addr a (PX 0 va)).
Proof.
  intros Hok Hva. unfold walk. rewrite Z.geb_leb. destruct (Z.leb_spec MAXVA va); [lia|]. unfold bind.
  destruct (walk_level 1 va s root T l [] root) as (s1 & T1 & l1 & Hok1 & Hg1 & [[E1 ->]|(a & Ha & E1)]);
    [done|apply Hok|simpl; lia| |]; rewrite E1.
  { exists 0, s1, T1, []. split_and!; [done..|by left]. }
  destruct (walk_level 0 va s1 root T1 l1 [PX 2 va] a) as (s2 & T2 & l2 & Hok2 & Hg2 & [[E2 ->]|(b & Hb & E2)]);
    [done|done|simpl; lia| |]; rewrite E2.
  { exists 0, s2, T2, []. split_and!; [done..|by eapply vm_grow_trans|by left]. }
  exists (pte_addr b (PX 0 va)), s2, T2, l2. split_and!; [done|done|by eapply vm_grow_trans|].
  right. by exists b.
Qed.

(** ** mappages *)

(** The pages [\[va, va + n)] of the map of entries of [s] are replaced by
    entries for the physical pages from [pa] on. *)
Definition mapped (s s' : kstate) (T T' : tree) (va pa perm n : Z) : Prop :=
  forall x, 0 <= x < MAXVA ->
    pte_at (g_pmem s') T' x =
      if decide (va <= x < va + n)
      then Z.lor (Z.lor (PA2PTE (pa + (x / 4096 * 4096 - va))) perm) PTE_V
      else pte_at (g_pmem s) T x.

Record vm_map (s : kstate) (T : tree) (l : list Z) (s' : kstate) (T' : tree) (l' : list Z)
    (va pa perm n : Z) : Prop := {
  map_mm : mm_only s s';
  map_T : T ⊆ T';
  map_pte : mapped s s' T T' va pa perm n;
  map_mem : same_outside T' (g_pmem s) (g_pmem s');
  map_new : forall p a, T' !! p = Some a -> T !! p = Some a \/ a ∈ l;
  map_free : l' `suffix_of` l;
  map_ok : mem_ok (g_pmem s) -> mem_ok (g_pmem s')
}.

Lemma perm_or perm : 0 <= perm < 1024 -> 0 <= Z.lor perm PTE_V < 1024.
Proof. intros. apply (lor_lt_pow2 _ _ 10); [lia| |lia]. by compute. Qed.

Lemma leaf_entry_range pa perm :
  0 <= pa < 2 ^ 56 -> pa mod 4096 = 0 -> 0 <= perm < 1024 ->
  0 <= Z.lor (Z.lor (PA2PTE pa) perm) PTE_V < 2 ^ 64.
Proof.
  intros ? ? Hp. rewrite <- Z.lor_assoc. pose proof (entry_range pa (Z.lor perm PTE_V) (perm_or perm Hp)). lia.
Qed.

Lemma vm_store_leaf s root T l va t v :
  vm_ok s root T l -> T !! [PX 2 va; PX 1 va] = Some t -> 0 <= v < 2 ^ 64 ->
  vm_ok (put_pmem (store64 (g_pmem s) (pte_addr t (PX 0 va)) v) s) root T l.
Proof.
  intros [Hw [Hc Hnd] Hd Hlk] Ht Hv. split; [|split| |]; kget; try done.
  - by apply pt_store_leaf.
  - pose proof (pt_page _ _ _ Hw _ _ Ht) as Hp.
    apply (chain_frame (g_pmem s) _ t); [done|by eapply Hd| |done].
    intros x Hx. unfold store_le. rewrite load8_storen, length_le_bytes, decide_False; [done|].
    pose proof (entry_bounds t (PX 0 va) Hp ltac:(by apply PX_idx)). lia.
Qed.

Lemma vm_map_store s T l s1 T1 l1 root a t pa perm :
  vm_grow s T l s1 T1 l1 -> pt_wf (g_pmem s1) root T1 -> T1 !! [PX 2 a; PX 1 a] = Some t ->
  0 <= a < MAXVA -> a mod 4096 = 0 -> 0 <= pa < 2 ^ 56 -> pa mod 4096 = 0 -> 0 <= perm < 1024 ->
  vm_map s T l
    (put_pmem (store64 (g_pmem s1) (pte_addr t (PX 0 a)) (Z.lor (Z.lor (PA2PTE pa) perm) PTE_V)) s1)
    T1 l1 a pa perm 4096.
Proof.
  intros Hg Hw Ht Ha Ham Hpa Hpm Hperm. pose proof (leaf_entry_range pa perm Hpa Hpm Hperm) as He.
  destruct Hg as [G1 G2 G3 G4 G5 G6 G7]. split; try done.
  - eapply mm_only_trans; [done|apply mm_only_kmm].
  - intros x Hx. kget. rewrite (pte_at_store _ root) by done. rewrite G3.
    case_decide as D1; case_decide as D2; try zlia. do 3 f_equal. zlia.
  - intros q x Hq Hni Hx. kget. rewrite <- (G4 q x) by done.
    by apply (store_leaf_outside _ root T1 a t _ Hw Ht q).
  - intros Hmo. kget. apply storen_ok, G7, Hmo.
Qed.

(** One round of the loop: the entry of [a] is stored, or memory ran out. *)
Lemma mappages_round s root T l last perm a pa :
  vm_ok s root T l -> 0 <= a < MAXVA -> a mod 4096 = 0 ->
  0 <= pa < 2 ^ 56 -> pa mod 4096 = 0 -> 0 <= perm < 1024 ->
  has (pte_at (g_pmem s) T a) PTE_V = false ->
  exists s' T' l', vm_ok s' root T' l' /\
    ((mappages_body root last perm (a, pa) s = Ret (inr (-1)) s' /\ l' = [] /\
      vm_map s T l s' T' l' a pa perm 0) \/
     (mappages_body root last perm (a, pa) s =
        Ret (if a =? last then inr 0 else inl (u64 (a + PGSIZE), u64 (pa + PGSIZE))) s' /\
      vm_map s T l s' T' l' a pa perm 4096)).
Proof.
  intros Hok Ha Ham Hpa Hpm Hperm Hnv.
  destruct (walk_make s root T l a Hok ltac:(lia)) as (r & s1 & T1 & l1 & E & Hok1 & Hg & Hr).
  unfold mappages_body, bind. rewrite E. cbn [obind]. destruct Hr as [[-> ->]|(t & Ht & ->)].
  - exists s1, T1, []. split; [done|]. left. split_and!; [done..|]. destruct Hg. split; try done.
    intros x Hx. rewrite decide_False by lia. auto.
  - destruct (Z.eqb_spec (pte_addr t (PX 0 a)) 0) as [E0|_].
    { by apply (pte_ptr_nonzero _ _ _ _ _ (vm_pt _ _ _ _ Hok1) Ht) in E0. }
    unfold kload64, kstore64, gets, modify. cbn [obind].
    pose proof (grow_pte _ _ _ _ _ _ Hg a) as Hpte. unfold pte_at at 1 in Hpte. rewrite Ht in Hpte.
    rewrite Hpte, Hnv.
    set (e := Z.lor (Z.lor (PA2PTE pa) perm) PTE_V).
    pose proof (leaf_entry_range pa perm Hpa Hpm Hperm : 0 <= e < 2 ^ 64) as He.
    exists (put_pmem (store64 (g_pmem s1) (pte_addr t (PX 0 a)) e) s1), T1, l1.
    split; [by apply vm_store_leaf|]. right. split; [by destruct (a =? last)|].
    eapply vm_map_store; eauto. apply Hok1.
Qed.

Lemma vm_map_trans s0 T0 l0 s1 T1 l1 s2 T2 l2 va pa perm n1 n2 :
  0 <= n1 -> n1 mod 4096 = 0 -> va mod 4096 = 0 -> 0 <= n2 ->
  vm_map s0 T0 l0 s1 T1 l1 va pa perm n1 ->
  vm_map s1 T1 l1 s2 T2 l2 (va + n1) (pa + n1) perm n2 ->
  vm_map s0 T0 l0 s2 T2 l2 va pa perm (n1 + n2).
Proof.
  intros Hn1 Hm1 Hva Hn2 [A1 A2 A3 A4 A5 A6 A7] [B1 B2 B3 B4 B5 B6 B7]. split.
  - by apply (mm_only_trans _ s1).
  - by etrans.
  - intros x Hx. rewrite B3, A3 by done. case_decide; case_decide; try case_decide; try zlia.
    do 3 f_equal. lia.
  - intros q x Hq Hni Hx. rewrite (B4 q x) by done. apply (A4 q); auto.
    intros p Hp. by eapply Hni, lookup_weaken.
  - intros p a [Hp|Hp]%B5; [by apply A5|]. right. destruct A6 as [k ->]. rewrite elem_of_app. by right.
  - by etrans.
  - auto.
Qed.

Lemma mappages_loop n s root T l last perm a pa :
  vm_ok s root T l -> 0 <= a -> a mod 4096 = 0 -> last + 4096 = a + 4096 * Z.of_nat n ->
  last + 4096 <= MAXVA -> 0 <= pa -> pa + 4096 * Z.of_nat n <= 2 ^ 56 -> pa mod 4096 = 0 ->
  0 <= perm < 1024 -> (0 < n)%nat ->
  (forall x, a <= x <= last + 4095 -> has (pte_at (g_pmem s) T x) PTE_V = false) ->
  exists r k s' T' l', loop n (mappages_body root last perm) (a, pa) s = Ret r s' /\
    vm_ok s' root T' l' /\ vm_map s T l s' T' l' a pa perm (4096 * Z.of_nat k) /\
    ((r = 0 /\ k = n) \/ (r = -1 /\ (k < n)%nat /\ l' = [])).
Proof.
  revert s T l a pa. induction n as [|n IH]; intros s T l a pa Hok Ha Ham Hlast Hmax Hpa Hpe Hpm Hperm Hn Hnv; [lia|].
  cbn [loop]. unfold bind.
  destruct (mappages_round s root T l last perm a pa)
    as (s1 & T1 & l1 & Hok1 & [(E & -> & Hm)|(E & Hm)]); [done|lia|done|lia|done|done|apply Hnv; lia|..]; rewrite E.
  { exists (-1), 0%nat, s1, T1, []. split_and!; [done..|]. right. split_and!; [done|lia|done]. }
  cbn [obind]. destruct (Z.eqb_spec a last) as [->|Hne].
  { exists 0, 1%nat, s1, T1, l1. split_and!; [done..|]. left. split; [done|lia]. }
  unfold PGSIZE. rewrite !u64_small by (change MAXVA with 274877906944 in *; lia).
  destruct (IH s1 T1 l1 (a + 4096) (pa + 4096)) as (r & k & s' & T' & l' & E' & Hok' & Hm' & Hr);
    try done; try lia; try zlia.
  { intros x Hx. rewrite (map_pte _ _ _ _ _ _ _ _ _ _ Hm) by lia. rewrite decide_False by lia. apply Hnv. lia. }
  exists r, (S k), s', T', l'. split_and!; [done|done| |intuition lia].
  replace (4096 * Z.of_nat (S k)) with (4096 + 4096 * Z.of_nat k) by lia.
  eapply vm_map_trans; [| | | |exact Hm|exact Hm']; lia || done.
Qed.

Lemma mappages_run s root T l va n pa perm :
  vm_ok s root T l -> 0 <= va -> va mod 4096 = 0 -> (0 < n)%nat -> va + 4096 * Z.of_nat n <= MAXVA ->
  0 <= pa -> pa mod 4096 = 0 -> pa + 4096 * Z.of_nat n <= 2 ^ 56 -> 0 <= perm < 1024 ->
  (forall x, va <= x < va + 4096 * Z.of_nat n -> has (pte_at (g_pmem s) T x) PTE_V = false) ->
  exists r k s' T' l', mappages root va (4096 * Z.of_nat n) pa perm s = Ret r s' /\
    vm_ok s' root T' l' /\ vm_map s T l s' T' l' va pa perm (4096 * Z.of_nat k) /\
    ((r = 0 /\ k = n) \/ (r = -1 /\ (k < n)%nat /\ l' = [])).
Proof.
  intros Hok Hva Hvm Hn Hmax Hpa Hpm Hpe Hperm Hnv. unfold mappages, PGSIZE.
  rewrite Hvm, (Z.mul_comm 4096), Z.mod_mul, Z.div_mul, Nat2Z.id by lia. cbn [Z.eqb negb].
  destruct (Z.eqb_spec (Z.of_nat n * 4096) 0); [lia|].
  rewrite u64_small by (change MAXVA with 274877906944 in *; lia).
  apply mappages_loop; try done; try lia. intros x Hx. apply Hnv. lia.
Qed.

(** [C12] [mappages] on an unmapped, page-aligned range of [n] pages below
    [MAXVA]: it returns 0 and the entries of exactly those pages become
    entries for the consecutive physical pages with the permissions asked
    for, or it returns -1, the allocator has no page left and only a proper
    prefix of the range was mapped.  Either way the page tables stay a tree
    of pages that were tables before or come from the free list, and memory
    that is not a page table is untouched. *)
Theorem mappages_maps s root T l va n pa perm :
  vm_ok s root T l -> 0 <= va -> va mod 4096 = 0 -> (0 < n)%nat -> va + 4096 * Z.of_nat n <= MAXVA ->
  0 <= pa -> pa mod 4096 = 0 -> pa + 4096 * Z.of_nat n <= 2 ^ 56 -> 0 <= perm < 1024 ->
  (forall x, va <= x < va + 4096 * Z.of_nat n -> has (pte_at (g_pmem s) T x) PTE_V = false) ->
  exists r k s' T' l', mappages root va (4096 * Z.of_nat n) pa perm s = Ret r s' /\
    vm_ok s' root T' l' /\ vm_map s T l s' T' l' va pa perm (4096 * Z.of_nat k) /\
    ((r = 0 /\ k = n) \/ (r = -1 /\ (k < n)%nat /\ l' = [])).
Proof. apply mappages_run. Qed.
End pt.
