(* ===== verification/VmUser.v ===== *)
(** * Copying between kernel and user memory: lemmas about [copyout], [copyin]
    and [copyinstr] of kernel/vm.c

    A user address is accessible when its entry is valid and has [PTE_U], and
    writable when it also has [PTE_W].  [ubyte] is the byte a user program sees
    at an accessible address.  The routines are shown to access exactly the
    bytes of the range, up to the first page that does not allow it. *)

From Stdlib Require Import ZArith Lia.
From stdpp Require Import base list gmap strings numbers option.
From S2P Require Import Prelude Bytes Riscv Cstring Kstate Kalloc Vm VmSpec.

Section user.
Context `{!KernelImage}.

Abbreviation tree := (gmap (list Z) Z).

Definition accessible (m : mem) (T : tree) (va : Z) : bool :=
  (0 <=? va) && (va <? MAXVA) && has (pte_at m T va) PTE_V && has (pte_at m T va) PTE_U.
Definition writable (m : mem) (T : tree) (va : Z) : bool :=
  accessible m T va && has (pte_at m T va) PTE_W.

(** The physical address of a user address, and the byte there. *)
Definition upa (m : mem) (T : tree) (va : Z) : Z := PTE2PA (pte_at m T va) + va mod 4096.
Definition ubyte (m : mem) (T : tree) (va : Z) : Z := load8 m (upa m T va).

(** The pages a process owns: everything mapped below the trap frame (also
    the stack guard page, which has no [PTE_U]). *)
Definition umapped (m : mem) (T : tree) (va : Z) : bool :=
  (0 <=? va) && (va <? TRAPFRAME) && has (pte_at m T va) PTE_V.

(** A user address space: a tree of tables, and user pages that are distinct
    pages of memory, none of them a table. *)
Record uspace (m : mem) (root : Z) (T : tree) : Prop := {
  us_pt : pt_wf m root T;
  us_ok : mem_ok m;
  us_low : forall va, accessible m T va -> va < TRAPFRAME;
  us_page : forall va, umapped m T va -> page (PTE2PA (pte_at m T va));
  us_leaf : forall va, umapped m T va -> PTE_FLAGS (pte_at m T va) <> PTE_V;
  us_table : forall va p, umapped m T va -> T !! p <> Some (PTE2PA (pte_at m T va));
  us_inj : forall va va', umapped m T va -> umapped m T va' ->
    PTE2PA (pte_at m T va) = PTE2PA (pte_at m T va') -> va / 4096 = va' / 4096
}.

Lemma accessible_umapped m root T va : uspace m root T -> accessible m T va -> umapped m T va.
Proof.
  intros Hu Ha. pose proof (us_low _ _ _ Hu va Ha) as Hlo. revert Ha. unfold accessible, umapped.
  rewrite !Is_true_true, !andb_true_iff. intros [[[? ?] ?] _]. split_and!; [done|lia|done].
Qed.

Lemma umapped_bounds m T va : umapped m T va -> 0 <= va < TRAPFRAME.
Proof. unfold umapped. rewrite Is_true_true, !andb_true_iff. lia. Qed.

Lemma accessible_bounds m T va : accessible m T va -> 0 <= va < MAXVA.
Proof. unfold accessible. rewrite !Is_true_true, !andb_true_iff. lia. Qed.

Lemma accessible_page m T va va' :
  va / 4096 = va' / 4096 -> accessible m T va = accessible m T va'.
Proof.
  intros E. unfold accessible. rewrite (pte_at_page m T va va' E). do 2 f_equal.
  change MAXVA with 274877906944.
  destruct (Z.leb_spec 0 va), (Z.leb_spec 0 va'), (Z.ltb_spec va 274877906944),
    (Z.ltb_spec va' 274877906944); try done; zlia.
Qed.

(** Writes to a page that is not a table keep the tables and the entries. *)
Lemma pt_frame m m' root T q :
  pt_wf m root T -> page q -> (forall p, T !! p <> Some q) -> same_but_page m m' q ->
  pt_wf m' root T /\ forall va, pte_at m' T va = pte_at m T va.
Proof.
  intros Hw Hq Hni Hs.
  assert (forall p a i, T !! p = Some a -> idx i -> load64 m' (pte_addr a i) = load64 m (pte_addr a i)) as Hld.
  { intros p a i Ha Hi. eapply load_entry_frame; eauto using pt_page. naive_solver. }
  split.
  - destruct Hw as [W1 W2 W3 W4 W5 W6 W7]. split; try done.
    + intros. erewrite Hld by done. by eapply W5.
    + intros. erewrite Hld by done. by eapply W6.
  - intros va. unfold pte_at. destruct (T !! [PX 2 va; PX 1 va]) eqn:E; [|done].
    apply (Hld _ _ _ E). by apply PX_idx.
Qed.

Lemma accessible_ext m m' T va :
  (forall x, pte_at m' T x = pte_at m T x) -> accessible m' T va = accessible m T va.
Proof. intros E. unfold accessible. by rewrite E. Qed.

Lemma umapped_ext m m' T va :
  (forall x, pte_at m' T x = pte_at m T x) -> umapped m' T va = umapped m T va.
Proof. intros E. unfold umapped. by rewrite E. Qed.

(** The address space depends on the tables only. *)
Lemma uspace_same m m' root T :
  uspace m root T -> pt_wf m' root T -> mem_ok m' ->
  (forall x, pte_at m' T x = pte_at m T x) -> uspace m' root T.
Proof.
  intros [U1 U2 U3 U4 U4' U5 U6] Hw Hok E. split; [done|done|..].
  - intros va. rewrite (accessible_ext m) by done. apply U3.
  - intros va. rewrite (umapped_ext m), E by done. apply U4.
  - intros va. rewrite (umapped_ext m), E by done. apply U4'.
  - intros va p. rewrite (umapped_ext m), E by done. apply U5.
  - intros va va'. rewrite (umapped_ext m m' T va), (umapped_ext m m' T va'), !E by done. apply U6.
Qed.

(** [bs] is what a user program sees at [va] after the change; nothing else changed. *)
Record uwritten (m m' : mem) (T : tree) (va : Z) (bs : list Z) : Prop := {
  uw_pte : forall x, pte_at m' T x = pte_at m T x;
  uw_byte : forall x, accessible m T x ->
    ubyte m' T x = if decide (va <= x < va + Z.of_nat (length bs))
                   then default 0 (bs !! Z.to_nat (x - va)) else ubyte m T x;
  uw_rest : forall a, (forall x, accessible m T x -> a <> upa m T x) -> load8 m' a = load8 m a
}.

Lemma uwritten_nil m T va : uwritten m m T va [].
Proof. split; try done. intros x Hx. by rewrite decide_False by (simpl; lia). Qed.

Lemma uwritten_app m1 m2 m3 T va bs1 bs2 :
  uwritten m1 m2 T va bs1 -> uwritten m2 m3 T (va + Z.of_nat (length bs1)) bs2 ->
  uwritten m1 m3 T va (bs1 ++ bs2).
Proof.
  intros [A1 A2 A3] [B1 B2 B3]. split.
  - intros x. by rewrite B1, A1.
  - intros x Hx. rewrite B2 by (by rewrite (accessible_ext m1)). rewrite A2 by done.
    rewrite length_app. repeat case_decide; try lia; try done.
    + rewrite lookup_app_r by lia. do 2 f_equal. lia.
    + rewrite lookup_app_l by lia. done.
  - intros a Ha. rewrite B3; [by apply A3|]. intros x Hx.
    rewrite (accessible_ext m1) in Hx by done. unfold upa. rewrite A1. by apply Ha.
Qed.

(** A store within one user page. *)
Lemma ustore m root T va bs :
  uspace m root T -> accessible m T va -> Forall byte bs ->
  va mod 4096 + Z.of_nat (length bs) <= 4096 ->
  uspace (storen m (upa m T va) bs) root T /\ uwritten m (storen m (upa m T va) bs) T va bs.
Proof.
  intros Hu Hva Hbs Hfit. set (m' := storen m (upa m T va) bs).
  set (q := PTE2PA (pte_at m T va)). pose proof (accessible_umapped _ _ _ _ Hu Hva) as Hva'.
  pose proof (us_page _ _ _ Hu va Hva' : page q) as Hq.
  assert (same_but_page m m' q) as Hs.
  { intros x Hx. unfold m', upa. fold q. rewrite load8_storen, decide_False; [done|].
    unfold PGSIZE in Hx. zlia. }
  destruct (pt_frame m m' root T q (us_pt _ _ _ Hu) Hq ltac:(intros p; by eapply us_table) Hs) as [Hw Hpte].
  split.
  - apply (uspace_same m); [done|done|by apply storen_ok, Hu|done].
  - split; [done| |].
    + intros x Hx. unfold ubyte, upa at 1. rewrite Hpte. unfold m'. rewrite load8_storen.
      pose proof (accessible_umapped _ _ _ _ Hu Hx) as Hx'.
      pose proof (us_inj _ _ _ Hu va x Hva' Hx') as Hinj. fold q in Hinj.
      destruct (decide (va / 4096 = x / 4096)) as [E|Hne].
      * rewrite (pte_at_page m T x va) by done. change (upa m T va) with (q + va mod 4096). fold q.
        case_decide; case_decide; try zlia.
        -- replace (q + x mod 4096 - (q + va mod 4096)) with (x - va) by zlia.
           destruct (bs !! Z.to_nat (x - va)) eqn:El; [|reflexivity]. simpl. apply u8_small.
           by apply (Forall_lookup_1 _ _ _ _ Hbs El).
        -- unfold upa. by rewrite (pte_at_page m T x va) by done.
      * rewrite decide_False; [rewrite decide_False by zlia; done|].
        assert (PTE2PA (pte_at m T x) <> q) by naive_solver.
        destruct (pages_disjoint (PTE2PA (pte_at m T x)) q) as [|]; try done;
          [by apply (us_page _ _ _ Hu)|..]; unfold upa, PGSIZE in *; fold q; zlia.
    + intros a Ha. unfold m'. rewrite load8_storen, decide_False; [done|]. intros Hr.
      apply (Ha (va + (a - upa m T va))).
      * rewrite (accessible_page _ _ _ va); [done|]. unfold upa in *. zlia.
      * unfold upa in *. rewrite (pte_at_page m T _ va); zlia.
Qed.

(** ** copyout *)

Lemma has_entry_some m root T va :
  pt_wf m root T -> has (pte_at m T va) PTE_V = true ->
  exists t, T !! [PX 2 va; PX 1 va] = Some t /\ pte_ptr T va = pte_addr t (PX 0 va) /\
    pte_ptr T va <> 0 /\ pte_at m T va = load64 m (pte_ptr T va).
Proof.
  intros Hw. unfold pte_at, pte_ptr. destruct (T !! [PX 2 va; PX 1 va]) as [t|] eqn:E; [|done].
  intros _. exists t. split_and!; try done. by eapply pte_ptr_nonzero.
Qed.

(** The entry that [copyout] and [walkaddr] read. *)
Lemma walk_entry m root T va :
  pt_wf m root T ->
  (pte_ptr T va = 0 /\ pte_at m T va = 0) \/ (pte_ptr T va <> 0 /\ load64 m (pte_ptr T va) = pte_at m T va).
Proof.
  intros Hw. unfold pte_ptr, pte_at. destruct (T !! [PX 2 va; PX 1 va]) as [t|] eqn:E; [|by left].
  right. split; [by eapply pte_ptr_nonzero|done].
Qed.

Lemma rounddown_page va : PGROUNDDOWN va / 4096 = va / 4096 /\ va - PGROUNDDOWN va = va mod 4096.
Proof. rewrite PGROUNDDOWN_eq. zlia. Qed.

(** A round of [copyout] on a page that does not allow writing. *)
Lemma copyout_stop root T va src s :
  uspace (g_pmem s) root T -> 0 <= va -> src <> [] -> writable (g_pmem s) T va = false ->
  copyout_body root (va, src) s = Ret (inr (-1)) s.
Proof.
  intros Hu Hva Hsrc Hw. unfold copyout_body. destruct src as [|b src]; [done|].
  rewrite Z.gtb_ltb. destruct (Z.ltb_spec 0 (Z.of_nat (length (b :: src)))) as [_|]; [|simpl in *; lia]. cbn [negb].
  destruct (rounddown_page va) as [Hp Hd]. rewrite Z.geb_leb.
  destruct (Z.leb_spec MAXVA (PGROUNDDOWN va)); [done|].
  unfold bind. rewrite (walk_find s root T) by (apply Hu || lia). cbn [obind].
  destruct (walk_entry (g_pmem s) root T (PGROUNDDOWN va)) as [[-> _]|[Hn E]]; [apply Hu|done|].
  destruct (Z.eqb_spec (pte_ptr T (PGROUNDDOWN va)) 0); [done|].
  unfold kload64, gets. cbn [obind]. rewrite E, (pte_at_page _ _ _ va Hp).
  unfold writable, accessible in Hw. destruct (Z.leb_spec 0 va); [|lia].
  destruct (Z.ltb_spec va MAXVA); [|change MAXVA with 274877906944 in *; zlia].
  destruct (has _ PTE_V), (has _ PTE_U), (has _ PTE_W); simpl in Hw |- *; done.
Qed.

(** A round of [copyout] on a writable page stores a piece of the source. *)
Lemma copyout_go root T va src s :
  uspace (g_pmem s) root T -> src <> [] -> writable (g_pmem s) T va = true ->
  let n := Z.to_nat (Z.min (4096 - va mod 4096) (Z.of_nat (length src))) in
  copyout_body root (va, src) s =
    Ret (inl (PGROUNDDOWN va + 4096, drop n src))
        (put_pmem (storen (g_pmem s) (upa (g_pmem s) T va) (take n src)) s).
Proof.
  intros Hu Hsrc Hw. unfold copyout_body. destruct src as [|b src]; [done|].
  rewrite Z.gtb_ltb. destruct (Z.ltb_spec 0 (Z.of_nat (length (b :: src)))) as [_|]; [|simpl in *; lia]. cbn [negb].
  destruct (rounddown_page va) as [Hp Hd]. apply andb_true_iff in Hw as [Ha Hw].
  pose proof (accessible_bounds (g_pmem s) T va ltac:(by rewrite Ha)) as Hb.
  rewrite Z.geb_leb. destruct (Z.leb_spec MAXVA (PGROUNDDOWN va)); [rewrite PGROUNDDOWN_eq in *; zlia|].
  unfold bind. rewrite (walk_find s root T) by (apply Hu || lia). cbn [obind].
  unfold accessible in Ha. rewrite !andb_true_iff in Ha. destruct Ha as [[_ Hv] HU].
  destruct (walk_entry (g_pmem s) root T (PGROUNDDOWN va)) as [[_ E]|[Hn E]]; [apply Hu| |].
  { rewrite (pte_at_page _ _ _ va Hp) in E. by rewrite E in Hv. }
  destruct (Z.eqb_spec (pte_ptr T (PGROUNDDOWN va)) 0); [done|].
  unfold kload64, gets, modify, ret. cbn [obind]. rewrite E, (pte_at_page _ _ _ va Hp), Hv, HU, Hw.
  cbn [negb orb]. rewrite Hd. unfold PGSIZE, upa. rewrite u64_small; [done|].
  change MAXVA with 274877906944 in *. rewrite PGROUNDDOWN_eq in *. zlia.
Qed.

Lemma writable_chunk m T va i :
  writable m T va = true -> va / 4096 = (va + i) / 4096 -> writable m T (va + i) = true.
Proof. intros Hw E. unfold writable. by rewrite <- (accessible_page m T va), <- (pte_at_page m T va) by done. Qed.

Lemma writable_ext m m' T va :
  (forall x, pte_at m' T x = pte_at m T x) -> writable m' T va = writable m T va.
Proof. intros E. unfold writable. by rewrite (accessible_ext m), E. Qed.

Lemma uwritten_empty m m' T va va' : uwritten m m' T va [] -> uwritten m m' T va' [].
Proof.
  intros [A1 A2 A3]. split; [done| |done]. intros x Hx. rewrite A2 by done.
  by rewrite !decide_False by (simpl; lia).
Qed.

Lemma copyout_loop fuel : forall root T va src s,
  uspace (g_pmem s) root T -> 0 <= va -> Forall byte src ->
  (va mod 4096 + Z.of_nat (length src) + 4095) / 4096 < Z.of_nat fuel ->
  exists r k m', loop fuel (copyout_body root) (va, src) s = Ret r (put_pmem m' s) /\
    uspace m' root T /\ uwritten (g_pmem s) m' T va (take k src) /\
    (forall i, 0 <= i < Z.of_nat k -> writable (g_pmem s) T (va + i) = true) /\
    ((r = 0 /\ k = length src) \/
     (r = -1 /\ (k < length src)%nat /\ writable (g_pmem s) T (va + Z.of_nat k) = false)).
Proof.
  induction fuel as [|fuel IH]; intros root T va src s Hu Hva Hsrc Hf; [zlia|].
  cbn [loop]. destruct (decide (src = [])) as [->|Hne].
  { exists 0, 0%nat, (g_pmem s). unfold bind. simpl. split_and!; auto using uwritten_nil.
    - unfold ret. f_equal. by destruct s as [? [] ? ? ? ? ? ? ?].
    - intros; lia. }
  unfold bind at 1. destruct (writable (g_pmem s) T va) eqn:Hw.
  2:{ exists (-1), 0%nat, (g_pmem s). rewrite copyout_stop with (T := T) by done.
      destruct src as [|b src]; [done|]. split_and!; auto using uwritten_nil.
      - unfold ret. simpl. f_equal. by destruct s as [? [] ? ? ? ? ? ? ?].
      - intros; lia.
      - right. split_and!; [done|simpl; lia|by rewrite Z.add_0_r]. }
  set (n := Z.to_nat (Z.min (4096 - va mod 4096) (Z.of_nat (length src)))).
  assert (0 < n <= length src)%nat as Hn by (destruct src; [done|]; simpl length in *; zlia).
  rewrite (copyout_go root T va src s) by done. cbn [obind]. fold n.
  assert (accessible (g_pmem s) T va) as Ha by (apply andb_true_iff in Hw as [-> _]; done).
  destruct (ustore (g_pmem s) root T va (take n src)) as [Hu1 Hw1];
    [done|done|by apply Forall_take|rewrite length_take; zlia|].
  set (m1 := storen _ _ _) in *.
  destruct (rounddown_page va) as [_ Hrd].
  destruct (IH root T (PGROUNDDOWN va + 4096) (drop n src) (put_pmem m1 s))
    as (r & k & m' & E & Hu' & Hw' & Hall & Hr); [done|zlia|by apply Forall_drop| |].
  { rewrite length_drop. rewrite PGROUNDDOWN_eq. zlia. }
  kget_in Hu'; kget_in Hw'; kget_in Hall; kget_in Hr. rewrite length_drop in Hr.
  assert (va + Z.of_nat n = PGROUNDDOWN va + 4096 \/ k = 0%nat) as Hva1 by zlia.
  exists r, (n + k)%nat, m'. split_and!.
  - exact E.
  - done.
  - rewrite <- take_take_drop. apply (uwritten_app _ m1); [done|].
    rewrite length_take_le by lia. destruct Hva1 as [->| ->]; [done|]. by eapply uwritten_empty.
  - intros i Hi. destruct (decide (i < Z.of_nat n)).
    + apply writable_chunk; [done|zlia].
    + destruct Hva1 as [Hva1| ->]; [|lia].
      rewrite <- (Hall (i - Z.of_nat n)) by lia. rewrite (writable_ext (g_pmem s) m1) by apply Hw1. f_equal. lia.
  - destruct Hr as [[-> ->]|(-> & Hk & Hk')]; [left; split; [done|lia]|]. right. split_and!; [done|lia|].
    destruct Hva1 as [Hva1| ->].
    + rewrite <- Hk'. rewrite (writable_ext (g_pmem s) m1) by apply Hw1. f_equal. lia.
    + rewrite <- Hk'. rewrite (writable_ext (g_pmem s) m1) by apply Hw1. f_equal. zlia.
Qed.

Lemma copyout_run root T va src s :
  uspace (g_pmem s) root T -> 0 <= va < 2 ^ 64 -> Forall byte src ->
  exists r k m', copyout root va src s = Ret r (put_pmem m' s) /\
    uspace m' root T /\ uwritten (g_pmem s) m' T va (take k src) /\
    (forall i, 0 <= i < Z.of_nat k -> writable (g_pmem s) T (va + i) = true) /\
    ((r = 0 /\ k = length src) \/
     (r = -1 /\ (k < length src)%nat /\ writable (g_pmem s) T (va + Z.of_nat k) = false)).
Proof.
  intros Hu Hva Hsrc. apply copyout_loop; try done; [lia|]. unfold copy_fuel, PGSIZE. zlia.
Qed.

(** [C11] [copyout] writes to user memory exactly the longest prefix of the
    source that fits in writable pages: it returns 0 when that is all of it
    and -1 otherwise.  A user program then sees the written bytes at the
    destination and its old bytes everywhere else, and no other byte of
    memory (page tables included) has changed. *)
Theorem copyout_writes root T va src s :
  uspace (g_pmem s) root T -> 0 <= va < 2 ^ 64 -> Forall byte src ->
  exists r k m', copyout root va src s = Ret r (put_pmem m' s) /\
    uspace m' root T /\ uwritten (g_pmem s) m' T va (take k src) /\
    (forall i, 0 <= i < Z.of_nat k -> writable (g_pmem s) T (va + i) = true) /\
    ((r = 0 /\ k = length src) \/
     (r = -1 /\ (k < length src)%nat /\ writable (g_pmem s) T (va + Z.of_nat k) = false)).
Proof. apply copyout_run. Qed.

(** ** copyin *)

Lemma walkaddr_run root T va s :
  uspace (g_pmem s) root T -> 0 <= va ->
  walkaddr root va s = Ret (if accessible (g_pmem s) T va then PTE2PA (pte_at (g_pmem s) T va) else 0) s.
Proof.
  intros Hu Hva. unfold walkaddr, accessible. destruct (Z.leb_spec 0 va); [|lia].
  rewrite Z.geb_leb. destruct (Z.leb_spec MAXVA va); destruct (Z.ltb_spec va MAXVA); try lia; [done|].
  unfold bind. rewrite (walk_find s root T) by (apply Hu || lia). cbn [obind].
  destruct (walk_entry (g_pmem s) root T va) as [[-> E]|[Hn E]]; [apply Hu|by rewrite E|].
  destruct (Z.eqb_spec (pte_ptr T va) 0); [done|].
  unfold kload64, gets. cbn [obind]. rewrite E. by destruct (has _ PTE_V), (has _ PTE_U).
Qed.

(** The [n] bytes a user program sees from [va] on. *)
Definition ubytes (m : mem) (T : tree) (va : Z) (n : nat) : list Z :=
  (fun i => ubyte m T (va + Z.of_nat i)) <$> seq 0 n.

Lemma ubytes_app m T va n k :
  ubytes m T va (n + k) = ubytes m T va n ++ ubytes m T (va + Z.of_nat n) k.
Proof.
  unfold ubytes. rewrite seq_app, fmap_app. f_equal.
  apply list_eq. intros i. rewrite !list_lookup_fmap. destruct (decide (i < k)%nat).
  - rewrite !lookup_seq_lt by lia. simpl. do 2 f_equal. lia.
  - rewrite !lookup_seq_ge by lia. done.
Qed.

Lemma length_ubytes m T va n : length (ubytes m T va n) = n.
Proof. unfold ubytes. by rewrite length_fmap, length_seq. Qed.

Lemma lookup_ubytes m T va n i :
  (i < n)%nat -> ubytes m T va n !! i = Some (ubyte m T (va + Z.of_nat i)).
Proof. intros Hi. unfold ubytes. rewrite list_lookup_fmap, lookup_seq_lt by done. done. Qed.

(** Within a page the bytes are consecutive in memory. *)
Lemma loadn_ubytes m T va n :
  va mod 4096 + Z.of_nat n <= 4096 -> loadn m (upa m T va) n = ubytes m T va n.
Proof.
  intros Hn. apply list_eq. intros i. rewrite lookup_loadn. case_decide as Hi.
  - rewrite lookup_ubytes by done. unfold ubyte. do 2 f_equal. unfold upa.
    rewrite (pte_at_page m T (va + Z.of_nat i) va) by zlia. zlia.
  - symmetry. apply lookup_ge_None_2. rewrite length_ubytes. lia.
Qed.

Lemma accessible_chunk m T va i :
  accessible m T va = true -> va / 4096 = (va + i) / 4096 -> accessible m T (va + i) = true.
Proof. intros Hw E. by rewrite <- (accessible_page m T va). Qed.

Lemma copyin_loop fuel : forall root T va len dst s,
  uspace (g_pmem s) root T -> 0 <= va -> 0 <= len ->
  (va mod 4096 + len + 4095) / 4096 < Z.of_nat fuel ->
  exists r k, loop fuel (copyin_body root) (dst, va, len) s = Ret (r, dst ++ ubytes (g_pmem s) T va k) s /\
    (forall i, 0 <= i < Z.of_nat k -> accessible (g_pmem s) T (va + i) = true) /\
    ((r = 0 /\ Z.of_nat k = len) \/
     (r = -1 /\ Z.of_nat k < len /\ accessible (g_pmem s) T (va + Z.of_nat k) = false)).
Proof.
  induction fuel as [|fuel IH]; intros root T va len dst s Hu Hva Hlen Hf; [zlia|].
  cbn [loop]. unfold bind at 1, copyin_body at 1. rewrite Z.gtb_ltb. destruct (Z.ltb_spec 0 len); cbn [negb].
  2:{ exists 0, 0%nat. simpl. rewrite app_nil_r. split_and!; [done|intros; lia|left; lia]. }
  destruct (rounddown_page va) as [Hp Hrd]. unfold bind at 1.
  rewrite (walkaddr_run root T) by (done || rewrite PGROUNDDOWN_eq; zlia). cbn [obind].
  rewrite (accessible_page _ _ _ va Hp), (pte_at_page _ _ _ va Hp).
  destruct (accessible (g_pmem s) T va) eqn:Ha.
  2:{ exists (-1), 0%nat. simpl. rewrite app_nil_r, Z.add_0_r. split_and!; [done|intros; lia|right; done]. }
  assert (page (PTE2PA (pte_at (g_pmem s) T va))) as Hpg.
  { apply (us_page _ _ _ Hu). eapply accessible_umapped; [done|]. by rewrite Ha. }
  apply page_bounds in Hpg as (_ & _ & Hnz).
  destruct (Z.eqb_spec (PTE2PA (pte_at (g_pmem s) T va)) 0) as [|_]; [done|].
  unfold bind, gets, ret at 1. cbn [obind]. rewrite Hrd. unfold PGSIZE.
  set (n := Z.min (4096 - va mod 4096) len).
  change (PTE2PA (pte_at (g_pmem s) T va) + va mod 4096) with (upa (g_pmem s) T va).
  rewrite loadn_ubytes by zlia.
  pose proof (accessible_bounds (g_pmem s) T va ltac:(by rewrite Ha)) as Hb.
  rewrite u64_small by (change MAXVA with 274877906944 in *; rewrite PGROUNDDOWN_eq; zlia).
  destruct (IH root T (PGROUNDDOWN va + 4096) (len - n) (dst ++ ubytes (g_pmem s) T va (Z.to_nat n)) s)
    as (r & k & E & Hall & Hr); [done|zlia|zlia|rewrite PGROUNDDOWN_eq; zlia|].
  assert (va + n = PGROUNDDOWN va + 4096 \/ k = 0%nat) as Hva1 by zlia.
  exists r, (Z.to_nat n + k)%nat. rewrite E, <- app_assoc, ubytes_app.
  replace (va + Z.of_nat (Z.to_nat n + k)) with (va + n + Z.of_nat k) by zlia.
  rewrite (Z2Nat.id n) by zlia. split_and!.
  - destruct Hva1 as [->| ->]; done.
  - intros i Hi. destruct (decide (i < n)); [apply accessible_chunk; [done|zlia]|].
    destruct Hva1 as [Hva1| ->]; [|zlia]. rewrite <- (Hall (i - n)) by zlia. f_equal. lia.
  - destruct Hr as [[-> Hk]|(-> & Hk & Hk')]; [left; zlia|]. right. split_and!; [done|zlia|].
    rewrite <- Hk'. f_equal. zlia.
Qed.

Lemma copyin_run root T va len s :
  uspace (g_pmem s) root T -> 0 <= va < 2 ^ 64 -> 0 <= len ->
  exists r k, copyin root va len s = Ret (r, ubytes (g_pmem s) T va k) s /\
    (forall i, 0 <= i < Z.of_nat k -> accessible (g_pmem s) T (va + i) = true) /\
    ((r = 0 /\ Z.of_nat k = len) \/
     (r = -1 /\ Z.of_nat k < len /\ accessible (g_pmem s) T (va + Z.of_nat k) = false)).
Proof.
  intros Hu Hva Hlen. apply (copyin_loop _ root T va len [] s); try done; [lia|].
  unfold copy_fuel, PGSIZE. zlia.
Qed.

(** [copyin] reads from user memory exactly the longest accessible prefix
    of the range: it returns 0 with all the bytes the user program sees there,
    or -1 after the bytes in front of the first inaccessible address.  It
    changes nothing. *)
Theorem copyin_reads root T va len s :
  uspace (g_pmem s) root T -> 0 <= va < 2 ^ 64 -> 0 <= len ->
  exists r k, copyin root va len s = Ret (r, ubytes (g_pmem s) T va k) s /\
    (forall i, 0 <= i < Z.of_nat k -> accessible (g_pmem s) T (va + i) = true) /\
    ((r = 0 /\ Z.of_nat k = len) \/
     (r = -1 /\ Z.of_nat k < len /\ accessible (g_pmem s) T (va + Z.of_nat k) = false)).
Proof. apply copyin_run. Qed.

(** ** copyinstr *)

Definition nonzero (b : Z) : Prop := b <> 0.

Lemma copyinstr_page_spec n : forall m p,
  exists j, (j <= n)%nat /\ Forall nonzero (loadn m p j) /\
    ((copyinstr_page n m p = (true, loadn m p j ++ [0]) /\ (j < n)%nat /\ load8 m (p + Z.of_nat j) = 0) \/
     (copyinstr_page n m p = (false, loadn m p n) /\ j = n)).
Proof.
  induction n as [|n IH]; intros m p; cbn [copyinstr_page].
  { exists 0%nat. split_and!; [lia|constructor|by right]. }
  destruct (Z.eqb_spec (load8 m p) 0) as [E|Hne].
  { exists 0%nat. split_and!; [lia|constructor|]. left. rewrite Z.add_0_r. split_and!; [done|lia|done]. }
  destruct (IH m (p + 1)) as (j & Hj & Hnz & Hr). exists (S j).
  split_and!; [lia|by constructor|]. destruct Hr as [(-> & Hlt & H0)|(-> & ->)]; [left|by right].
  split_and!; [done|lia|]. rewrite <- H0. f_equal. lia.
Qed.

Lemma copyinstr_loop fuel : forall root T va max dst s,
  uspace (g_pmem s) root T -> 0 <= va -> 0 <= max ->
  (va mod 4096 + max + 4095) / 4096 < Z.of_nat fuel ->
  exists res k, loop fuel (copyinstr_body root) (dst, va, max) s = Ret res s /\
    Forall nonzero (ubytes (g_pmem s) T va k) /\ Z.of_nat k <= max /\
    (forall i, 0 <= i < Z.of_nat k -> accessible (g_pmem s) T (va + i) = true) /\
    ((res = (0, dst ++ ubytes (g_pmem s) T va k ++ [0]) /\
      Z.of_nat k < max /\ accessible (g_pmem s) T (va + Z.of_nat k) = true /\
      ubyte (g_pmem s) T (va + Z.of_nat k) = 0) \/
     (res = (-1, dst ++ ubytes (g_pmem s) T va k) /\
      (Z.of_nat k < max -> accessible (g_pmem s) T (va + Z.of_nat k) = false))).
Proof.
  induction fuel as [|fuel IH]; intros root T va max dst s Hu Hva Hmax Hf; [zlia|].
  cbn [loop]. unfold bind at 1, copyinstr_body at 1. rewrite Z.gtb_ltb. destruct (Z.ltb_spec 0 max); cbn [negb].
  2:{ exists (-1, dst), 0%nat. simpl. rewrite app_nil_r. split_and!; [done|constructor|lia|intros; lia|]. right. split; [done|lia]. }
  destruct (rounddown_page va) as [Hp Hrd]. unfold bind at 1.
  rewrite (walkaddr_run root T) by (done || rewrite PGROUNDDOWN_eq; zlia). cbn [obind].
  rewrite (accessible_page _ _ _ va Hp), (pte_at_page _ _ _ va Hp).
  destruct (accessible (g_pmem s) T va) eqn:Ha.
  2:{ exists (-1, dst), 0%nat. simpl. rewrite app_nil_r, Z.add_0_r. split_and!; [done|constructor|lia|intros; lia|]. by right. }
  assert (page (PTE2PA (pte_at (g_pmem s) T va))) as Hpg.
  { apply (us_page _ _ _ Hu). eapply accessible_umapped; [done|]. by rewrite Ha. }
  apply page_bounds in Hpg as (_ & _ & Hnz).
  destruct (Z.eqb_spec (PTE2PA (pte_at (g_pmem s) T va)) 0) as [|_]; [done|].
  unfold bind, gets. cbn [obind]. rewrite Hrd. unfold PGSIZE.
  set (n := Z.min (4096 - va mod 4096) max).
  change (PTE2PA (pte_at (g_pmem s) T va) + va mod 4096) with (upa (g_pmem s) T va).
  pose proof (accessible_bounds (g_pmem s) T va ltac:(by rewrite Ha)) as Hb.
  rewrite u64_small by (change MAXVA with 274877906944 in *; rewrite PGROUNDDOWN_eq; zlia).
  destruct (copyinstr_page_spec (Z.to_nat n) (g_pmem s) (upa (g_pmem s) T va)) as (j & Hj & Hnzj & Hr).
  rewrite loadn_ubytes in Hnzj by zlia.
  destruct Hr as [(E & Hlt & HNUL)|(E & ->)]; rewrite E.
  - rewrite loadn_ubytes by zlia. eexists _, j. split_and!; [done|done|zlia| |].
    + intros i Hi. apply accessible_chunk; [done|zlia].
    + left. split_and!; [done|zlia|apply accessible_chunk; [done|zlia]|].
      rewrite <- HNUL. unfold ubyte, upa. f_equal. rewrite (pte_at_page _ _ (va + Z.of_nat j) va) by zlia. zlia.
  - rewrite loadn_ubytes by zlia. unfold ret at 1. cbn [obind].
    destruct (IH root T (PGROUNDDOWN va + 4096) (max - n) (dst ++ ubytes (g_pmem s) T va (Z.to_nat n)) s)
      as (res & k & E' & Hnzk & Hk & Hall & Hr); [done|zlia|zlia|rewrite PGROUNDDOWN_eq; zlia|].
    assert (va + n = PGROUNDDOWN va + 4096 \/ k = 0%nat) as Hva1 by zlia.
    exists res, (Z.to_nat n + k)%nat. rewrite ubytes_app.
    replace (va + Z.of_nat (Z.to_nat n + k)) with (va + n + Z.of_nat k) by zlia.
    rewrite (Z2Nat.id n) by zlia. split_and!.
    + exact E'.
    + rewrite Forall_app. split; [done|]. destruct Hva1 as [->| ->]; [done|constructor].
    + zlia.
    + intros i Hi. destruct (decide (i < n)); [apply accessible_chunk; [done|zlia]|].
      destruct Hva1 as [Hva1| ->]; [|zlia]. rewrite <- (Hall (i - n)) by zlia. f_equal. lia.
    + rewrite <- !app_assoc in Hr. destruct Hr as [(-> & Hk2 & Hk3 & Hk4)|(-> & Hk2)]; [left|right].
      * assert (va + n = PGROUNDDOWN va + 4096) as -> by zlia. rewrite <- app_assoc. split_and!; [done|zlia|done|done].
      * destruct Hva1 as [->| ->]; [split; [done|zlia || intros; apply Hk2; zlia]|].
        split; [done|]. intros. rewrite <- Hk2 by zlia. f_equal. zlia.
Qed.

(** [C39] [copyinstr] returns 0 exactly when a NUL byte is found among the
    first [max] user bytes and every byte up to it is accessible: the result
    is the string with its terminator.  Otherwise it returns -1 after the
    bytes in front of the end of the range or of the first inaccessible one. *)
Theorem copyinstr_reads root T va max s :
  uspace (g_pmem s) root T -> 0 <= va < 2 ^ 64 -> 0 <= max ->
  exists res k, copyinstr root va max s = Ret res s /\
    Forall nonzero (ubytes (g_pmem s) T va k) /\ Z.of_nat k <= max /\
    (forall i, 0 <= i < Z.of_nat k -> accessible (g_pmem s) T (va + i) = true) /\
    ((res = (0, ubytes (g_pmem s) T va k ++ [0]) /\
      Z.of_nat k < max /\ accessible (g_pmem s) T (va + Z.of_nat k) = true /\
      ubyte (g_pmem s) T (va + Z.of_nat k) = 0) \/
     (res = (-1, ubytes (g_pmem s) T va k) /\
      (Z.of_nat k < max -> accessible (g_pmem s) T (va + Z.of_nat k) = false))).
Proof.
  intros Hu Hva Hmax. apply (copyinstr_loop _ root T va max [] s); try done; [lia|].
  unfold copy_fuel, PGSIZE. zlia.
Qed.
End user.
