(* ===== verification/Uvm.v ===== *)
(** * Growing and shrinking a user address space: lemmas about [uvmcreate],
    [uvmunmap], [uvmdealloc] and [uvmalloc] of kernel/vm.c

    [uvm s root T l] is the invariant of an address space together with the
    allocator: the tables, the pages of the process and the free pages are
    pairwise disjoint.  [uvmalloc] is shown to be all or nothing. *)

From Stdlib Require Import ZArith Lia.
From stdpp Require Import base list gmap strings numbers option.
From S2P Require Import Prelude Bytes Riscv Cstring Kstate Kalloc Vm VmSpec VmUser.

Section uvm.
Context `{!KernelImage}.

Abbreviation tree := (gmap (list Z) Z).

Record uvm (s : kstate) (root : Z) (T : tree) (l : list Z) : Prop := {
  uvm_vm : vm_ok s root T l;
  uvm_us : uspace (g_pmem s) root T;
  uvm_owned : forall va, umapped (g_pmem s) T va -> PTE2PA (pte_at (g_pmem s) T va) ∉ l
}.

(** A page that is neither free, nor a table, nor mapped by the process. *)
Record fresh (s : kstate) (T : tree) (l : list Z) (q : Z) : Prop := {
  fr_page : page q;
  fr_free : q ∉ l;
  fr_table : forall p, T !! p <> Some q;
  fr_user : forall va, umapped (g_pmem s) T va -> PTE2PA (pte_at (g_pmem s) T va) <> q
}.

(** ** Taking and returning pages *)

Lemma kalloc_uvm s root T a l :
  uvm s root T (a :: l) ->
  exists s', kalloc s = Ret a s' /\ uvm s' root T l /\ fresh s' T l a /\ mm_only s s' /\
    same_but_page (g_pmem s) (g_pmem s') a /\
    (forall va, pte_at (g_pmem s') T va = pte_at (g_pmem s) T va).
Proof.
  intros [[Hw Hf Hd Hlk] Hu Ho]. eexists. split; [by eapply kalloc_run|].
  pose proof Hf as [(_ & Hpa & _) [Hal Hnd]%list.NoDup_cons].
  assert (forall p, T !! p <> Some a) as Hnt by (intros p Hp; apply (Hd p a Hp); left).
  destruct (pt_frame (g_pmem s) (memset (g_pmem s) a 5 PGSIZE) root T a) as [Hw' Hpte];
    [done..|apply memset_page|].
  split_and!.
  - split; kget.
    + split; [exact Hw'|by apply kalloc_list| |exact Hlk].
      intros p b Hb Hin. apply (Hd p b Hb). by right.
    + eapply uspace_same; [done|done|apply memset_ok, Hu|done].
    + intros va. rewrite (umapped_ext (g_pmem s)), Hpte by done. intros Hm Hin. apply (Ho va Hm). by right.
  - split; kget; try done. intros va. rewrite (umapped_ext (g_pmem s)), Hpte by done.
    intros Hm E. apply (Ho va Hm). rewrite E. left.
  - eapply mm_only_trans; [|apply mm_only_kmm]. apply mm_only_kmm.
  - kget. apply memset_page.
  - exact Hpte.
Qed.

(** Writing to a page nobody owns. *)
Lemma uvm_write s root T l q m' :
  uvm s root T l -> fresh s T l q -> same_but_page (g_pmem s) m' q -> mem_ok m' ->
  uvm (put_pmem m' s) root T l /\ fresh (put_pmem m' s) T l q /\
  (forall va, pte_at m' T va = pte_at (g_pmem s) T va).
Proof.
  intros [[Hw [Hc Hnd] Hd Hlk] Hu Ho] [F1 F2 F3 F4] Hs Hok.
  destruct (pt_frame (g_pmem s) m' root T q) as [Hw' Hpte]; [done..|].
  split_and!; [split; [split|..]|split|exact Hpte]; kget; try done.
  - split; [|done]. kget. by apply (chain_frame (g_pmem s) _ q).
  - by eapply uspace_same.
  - intros va. rewrite (umapped_ext (g_pmem s)), Hpte by done. apply Ho.
  - intros va. rewrite (umapped_ext (g_pmem s)), Hpte by done. apply F4.
Qed.

(** Changing the entry of one virtual page keeps a user address space when the
    new entry is invalid or points to a page of its own. *)
Lemma uspace_update m root T m' T' va e :
  uspace m root T -> pt_wf m' root T' -> mem_ok m' ->
  (forall p a, T' !! p = Some a ->
     T !! p = Some a \/ forall x, umapped m T x -> PTE2PA (pte_at m T x) <> a) ->
  (forall x, 0 <= x < MAXVA ->
     pte_at m' T' x = if decide (x / 4096 = va / 4096) then e else pte_at m T x) ->
  0 <= va < TRAPFRAME ->
  (has e PTE_V = true -> page (PTE2PA e) /\ PTE_FLAGS e <> PTE_V /\ (forall p, T' !! p <> Some (PTE2PA e)) /\
     (forall x, umapped m T x -> PTE2PA (pte_at m T x) <> PTE2PA e)) ->
  uspace m' root T'.
Proof.
  intros [U1 U2 U3 U4 U4' U5 U6] Hw Hok Hnew Hpte Hva He.
  assert (TRAPFRAME <= MAXVA /\ TRAPFRAME mod 4096 = 0) as [HTM HT0] by done.
  assert (forall x, umapped m' T' x ->
    (x / 4096 = va / 4096 /\ pte_at m' T' x = e /\ has e PTE_V = true) \/
    (x / 4096 <> va / 4096 /\ pte_at m' T' x = pte_at m T x /\ umapped m T x)) as Hcases.
  { intros x Hx. pose proof (umapped_bounds _ _ _ Hx) as Hb. unfold umapped in *.
    rewrite Hpte in * by lia. case_decide; [left|by right].
    rewrite Is_true_true, !andb_true_iff in Hx. naive_solver. }
  split; [done|done|..].
  - intros x Hx. pose proof (accessible_bounds _ _ _ Hx) as Hb. unfold accessible in Hx.
    rewrite Hpte in Hx by done. case_decide as D; [zlia|]. by apply U3.
  - intros x Hx. destruct (Hcases x Hx) as [(_ & -> & Hv)|(_ & -> & Hm)]; [by apply He|by apply U4].
  - intros x Hx. destruct (Hcases x Hx) as [(_ & -> & Hv)|(_ & -> & Hm)]; [by apply He|by apply U4'].
  - intros x p Hx. destruct (Hcases x Hx) as [(_ & -> & Hv)|(_ & -> & Hm)]; [by apply He|].
    intros [E|E]%Hnew; [by eapply U5|by eapply E].
  - intros x y Hx Hy. destruct (Hcases x Hx) as [(D1 & -> & Hv)|(D1 & -> & Hm)],
      (Hcases y Hy) as [(D2 & -> & Hv')|(D2 & -> & Hm')]; intros E.
    + congruence.
    + destruct (He Hv) as (_ & _ & _ & Hne). by destruct (Hne y Hm').
    + destruct (He Hv') as (_ & _ & _ & Hne). by destruct (Hne x Hm).
    + by apply U6.
Qed.

(** What the process sees outside the virtual pages in [P] is the same. *)
Definition usame (s : kstate) (T : tree) (s' : kstate) (T' : tree) (P : Z -> Prop) : Prop :=
  forall x, 0 <= x < MAXVA -> ~ P x ->
    pte_at (g_pmem s') T' x = pte_at (g_pmem s) T x /\
    (umapped (g_pmem s) T x -> ubyte (g_pmem s') T' x = ubyte (g_pmem s) T x).

Lemma usame_refl s T P : usame s T s T P.
Proof. done. Qed.

Lemma usame_trans s1 T1 s2 T2 s3 T3 P Q :
  usame s1 T1 s2 T2 P -> usame s2 T2 s3 T3 Q -> usame s1 T1 s3 T3 (fun x => P x \/ Q x).
Proof.
  intros H1 H2 x Hx HP. destruct (H1 x Hx) as [E1 B1]; [tauto|]. destruct (H2 x Hx) as [E2 B2]; [tauto|].
  split; [congruence|]. intros Hm. rewrite B2; [by apply B1|]. unfold umapped in *. by rewrite E1.
Qed.

Lemma usame_weaken s T s' T' (P Q : Z -> Prop) :
  usame s T s' T' P -> (forall x, 0 <= x < MAXVA -> P x -> Q x) -> usame s T s' T' Q.
Proof. intros Hs HPQ x Hx HQ. apply Hs; [done|]. intros HP. by apply HQ, HPQ. Qed.

(** The bytes of a user page are unchanged by writes outside it. *)
Lemma ubyte_same m m' T T' x :
  pte_at m' T' x = pte_at m T x ->
  (forall a, PTE2PA (pte_at m T x) <= a < PTE2PA (pte_at m T x) + 4096 -> load8 m' a = load8 m a) ->
  ubyte m' T' x = ubyte m T x.
Proof. intros E Hl. unfold ubyte, upa. rewrite E. apply Hl. zlia. Qed.

(** A page that stays out of the tables of [vm_map] keeps its contents. *)
Lemma vm_map_keeps s root T l s' T' l' va pa perm n q a :
  vm_map s T l s' T' l' va pa perm n -> vm_ok s root T l -> page q -> (forall p, T !! p <> Some q) -> q ∉ l ->
  q <= a < q + 4096 -> load8 (g_pmem s') a = load8 (g_pmem s) a.
Proof.
  intros Hm Hok Hq Hnt Hnf Ha. apply (map_mem _ _ _ _ _ _ _ _ _ _ Hm q); [done| |done].
  intros p [Hp|Hp]%(map_new _ _ _ _ _ _ _ _ _ _ Hm); [by eapply Hnt|done].
Qed.

Lemma leaf_entry q perm :
  page q -> 0 < perm < 1024 -> Z.land perm PTE_V = 0 ->
  PTE2PA (Z.lor (Z.lor (PA2PTE q) perm) PTE_V) = q /\
  PTE_FLAGS (Z.lor (Z.lor (PA2PTE q) perm) PTE_V) = perm + 1.
Proof.
  intros [Hr Hm]%page_lt Hp Hv. rewrite <- Z.lor_assoc.
  assert (Z.lor perm PTE_V = perm + 1) as E.
  { rewrite <- Z.lxor_lor by done. symmetry. by apply Z.add_nocarry_lxor. }
  pose proof (perm_or perm ltac:(lia)). rewrite E in *.
  rewrite PTE2PA_pack, PTE_FLAGS_pack by done. done.
Qed.

(** The effect of [vm_map] on one virtual page, [e] being its entry afterwards. *)
Lemma uvm_map s root T l s' T' l' va pa perm n e :
  uvm s root T l -> vm_ok s' root T' l' -> vm_map s T l s' T' l' va pa perm n ->
  0 <= va < TRAPFRAME ->
  (forall x, 0 <= x < MAXVA -> pte_at (g_pmem s') T' x =
     if decide (x / 4096 = va / 4096) then e else pte_at (g_pmem s) T x) ->
  (has e PTE_V = true -> fresh s T l (PTE2PA e) /\ PTE_FLAGS e <> PTE_V) ->
  uvm s' root T' l' /\ usame s T s' T' (fun x => x / 4096 = va / 4096).
Proof.
  intros [Hok Hus Ho] Hok' Hm Hva Hpte He. assert (TRAPFRAME <= MAXVA) as HTM by done.
  assert (forall p a, T' !! p = Some a -> T !! p = Some a \/ a ∈ l) as Hnew by apply Hm.
  split; [split; [done| |]|].
  - apply (uspace_update (g_pmem s) root T _ _ va e Hus); try done; [apply Hok'|apply Hm, Hus| |].
    + intros p a [?|Hin]%Hnew; [by left|]. right. intros x Hx E. apply (Ho x Hx). by rewrite E.
    + intros Hv. destruct (He Hv) as [[F1 F2 F3 F4] Hfl]. split_and!; try done.
      intros p [?|?]%Hnew; [by eapply F3|done].
  - intros x Hx Hin. assert (PTE2PA (pte_at (g_pmem s') T' x) ∈ l) as Hin'.
    { destruct (map_free _ _ _ _ _ _ _ _ _ _ Hm) as [k ->]. rewrite elem_of_app. by right. }
    pose proof (umapped_bounds _ _ _ Hx) as Hb. unfold umapped in Hx. rewrite Hpte in * by lia.
    case_decide.
    + rewrite Is_true_true, !andb_true_iff in Hx. by destruct (He (proj2 Hx)) as [[] _].
    + by apply (Ho x).
  - intros x Hx HP. split; [rewrite Hpte, decide_False by done; done|]. intros Hmx. apply ubyte_same.
    + rewrite Hpte, decide_False by done. done.
    + intros a Ha. eapply vm_map_keeps; [done|done|..|done]; [by apply Hus|intros p; by apply Hus|by apply Ho].
Qed.

(** Mapping a fresh page of its own. *)
Lemma mappages_fresh s root T l va q perm :
  uvm s root T l -> fresh s T l q -> 0 <= va < TRAPFRAME -> va mod 4096 = 0 ->
  has (pte_at (g_pmem s) T va) PTE_V = false -> 0 < perm < 1024 -> Z.land perm PTE_V = 0 ->
  exists r s' T' l', mappages root va 4096 q perm s = Ret r s' /\ uvm s' root T' l' /\
    mm_only s s' /\ l' `suffix_of` l /\
    (forall a, q <= a < q + 4096 -> load8 (g_pmem s') a = load8 (g_pmem s) a) /\
    usame s T s' T' (fun x => x / 4096 = va / 4096) /\
    ((r = 0 /\ pte_at (g_pmem s') T' va = Z.lor (Z.lor (PA2PTE q) perm) PTE_V) \/
     (r = -1 /\ fresh s' T' l' q /\ pte_at (g_pmem s') T' va = pte_at (g_pmem s) T va)).
Proof.
  intros Hu Hq Hva Hvm Hnv Hperm Hpv. pose proof (fr_page _ _ _ _ Hq) as Hpg.
  pose proof (page_lt _ Hpg) as [Hqr Hqm]. destruct (leaf_entry q perm Hpg Hperm Hpv) as [Epa Efl].
  assert (TRAPFRAME + 4096 <= MAXVA) as HTM by done.
  destruct (mappages_run s root T l va 1 q perm)
    as (r & k & s' & T' & l' & E & Hok' & Hm & Hr); try done; try lia; [apply Hu|zlia|..].
  { intros x Hx. rewrite (pte_at_page _ _ x va); [done|zlia]. }
  set (e := if decide (k = 1%nat) then Z.lor (Z.lor (PA2PTE q) perm) PTE_V else pte_at (g_pmem s) T va).
  destruct (uvm_map s root T l s' T' l' va q perm (4096 * Z.of_nat k) e) as [Hu' Hs]; try done.
  { intros x Hx. rewrite (map_pte _ _ _ _ _ _ _ _ _ _ Hm) by done. unfold e.
    case_decide as D1; case_decide as D2; try case_decide; try zlia; [do 3 f_equal; zlia|].
    by apply pte_at_page. }
  { unfold e. case_decide; [rewrite Epa, Efl; change PTE_V with 1|by rewrite Hnv]. split; [done|lia]. }
  assert (pte_at (g_pmem s') T' va = e) as Epte.
  { rewrite (map_pte _ _ _ _ _ _ _ _ _ _ Hm) by lia. unfold e.
    case_decide as D1; case_decide as D2; try zlia. do 3 f_equal. zlia. }
  exists r, s', T', l'. split_and!; [done|done|apply Hm|apply Hm| |done|].
  - intros a Ha. eapply vm_map_keeps; [done|apply Hu|..|done]; apply Hq.
  - destruct Hr as [[-> ->]|(-> & Hk & _)]; [left|right]; (split; [done|]); [done|].
    assert (k = 0%nat) as -> by lia. split; [|done].
    split; [done| | |].
    + destruct (map_free _ _ _ _ _ _ _ _ _ _ Hm) as [j ->]. intros Hin. apply (fr_free _ _ _ _ Hq).
      rewrite elem_of_app. by right.
    + intros p [?|?]%(map_new _ _ _ _ _ _ _ _ _ _ Hm); [by eapply fr_table|by eapply fr_free].
    + intros x Hx. pose proof (umapped_bounds _ _ _ Hx) as Hb. unfold umapped in Hx.
      assert (pte_at (g_pmem s') T' x = pte_at (g_pmem s) T x) as Ex.
      { rewrite (map_pte _ _ _ _ _ _ _ _ _ _ Hm) by lia. by rewrite decide_False by lia. }
      rewrite Ex in *. by apply (fr_user _ _ _ _ Hq).
Qed.

(** ** Unmapping *)

(** The page behind [va] is freed and its entry cleared. *)
Definition unmap_mem (s : kstate) (T : tree) (va : Z) : mem :=
  store64 (kfree_mem (g_pmem s) (PTE2PA (pte_at (g_pmem s) T va)) (g_freelist s)) (pte_ptr T va) 0.

Lemma umapped_entry s root T l va :
  uvm s root T l -> umapped (g_pmem s) T va ->
  exists t, T !! [PX 2 va; PX 1 va] = Some t /\ pte_ptr T va = pte_addr t (PX 0 va) /\
    pte_ptr T va <> 0 /\ pte_at (g_pmem s) T va = load64 (g_pmem s) (pte_ptr T va) /\
    has (pte_at (g_pmem s) T va) PTE_V = true.
Proof.
  intros Hu Hm. assert (has (pte_at (g_pmem s) T va) PTE_V = true) as Hv.
  { unfold umapped in Hm. rewrite Is_true_true, !andb_true_iff in Hm. apply Hm. }
  destruct (has_entry_some (g_pmem s) root T va) as (t & ? & ? & ? & ?); [apply Hu|done|]. by exists t.
Qed.

Lemma unmap_round s root T l va stop :
  uvm s root T l -> umapped (g_pmem s) T va -> va < stop ->
  uvmunmap_body root stop true va s =
    Ret (inl (va + 4096))
      (put_pmem (unmap_mem s T va) (put_freelist (PTE2PA (pte_at (g_pmem s) T va)) s)).
Proof.
  intros Hu Hm Hstop. destruct (umapped_entry s root T l va Hu Hm) as (t & Ht & Et & Hn & El & Hv).
  pose proof (umapped_bounds _ _ _ Hm) as Hb. assert (TRAPFRAME <= MAXVA) as HTM by done.
  unfold uvmunmap_body. destruct (Z.ltb_spec va stop); [|lia]. cbn [negb].
  unfold bind. rewrite (walk_find s root T) by (apply Hu || lia). cbn [obind].
  destruct (Z.eqb_spec (pte_ptr T va) 0); [done|]. unfold kload64, gets. cbn [obind].
  rewrite <- El, Hv. cbn [negb].
  destruct (Z.eqb_spec (PTE_FLAGS (pte_at (g_pmem s) T va)) PTE_V) as [E|_].
  { by destruct (us_leaf _ _ _ (uvm_us _ _ _ _ Hu) va Hm). }
  cbn [when]. rewrite kfree_run; [|by apply Hu|by apply Hu]. cbn [obind].
  unfold kstore64, modify, ret. cbn [obind]. f_equal.
  - f_equal. unfold PGSIZE. apply u64_small. change TRAPFRAME with 274877898752 in *. lia.
Qed.

Lemma unmap_vm s root T l va q s' :
  uvm s root T l -> umapped (g_pmem s) T va -> q = PTE2PA (pte_at (g_pmem s) T va) ->
  s' = put_pmem (unmap_mem s T va) (put_freelist q s) ->
  vm_ok s' root T (q :: l) /\
  (forall x, 0 <= x < MAXVA -> pte_at (g_pmem s') T x =
     if decide (x / 4096 = va / 4096) then 0 else pte_at (g_pmem s) T x) /\
  (forall a, ~ (q <= a < q + 4096) -> (forall p t, T !! p = Some t -> ~ (t <= a < t + 4096)) ->
     load8 (g_pmem s') a = load8 (g_pmem s) a).
Proof.
  intros Hu Hm Eq Es. destruct (umapped_entry s root T l va Hu Hm) as (t & Ht & Et & Hn & El & Hv).
  pose proof (umapped_bounds _ _ _ Hm) as Hb. assert (TRAPFRAME <= MAXVA) as HTM by done.
  destruct Hu as [[Hw Hf Hd Hlk] Hus Ho].
  assert (page q) as Hq by (subst q; by apply Hus). assert (q ∉ l) as Hql by (subst q; by apply Ho).
  assert (forall p, T !! p <> Some q) as Hqt by (subst q; intros p; by apply Hus).
  set (m1 := kfree_mem (g_pmem s) q (g_freelist s)).
  destruct (pt_frame (g_pmem s) m1 root T q) as [Hw1 Hpte1]; [done..|apply kfree_mem_page|].
  assert (vm_ok (put_freelist q (put_pmem m1 s)) root T (q :: l)) as Hok1.
  { split; [exact Hw1|by apply kfree_list| |exact Hlk].
    intros p a Ha [->|Hin]%elem_of_cons; [by eapply Hqt|by eapply Hd]. }
  assert (g_pmem s' = store64 m1 (pte_addr t (PX 0 va)) 0) as Em.
  { rewrite Es. kget. unfold unmap_mem. by rewrite Et, <- Eq. }
  split_and!.
  - apply (vm_store_leaf _ root T (q :: l) va t 0) in Hok1; [|done|lia].
    rewrite Es. unfold unmap_mem. rewrite Et, <- Eq. kget_in Hok1. rewrite put_pmem_freelist in Hok1. exact Hok1.
  - intros x Hx. rewrite Em. rewrite (pte_at_store m1 root T va t 0 x Hw1 Ht) by lia. by rewrite Hpte1.
  - intros a Haq Hat. rewrite Em. unfold store_le. rewrite load8_storen, length_le_bytes, decide_False.
    + by apply kfree_mem_page.
    + pose proof (entry_bounds t (PX 0 va) (pt_page _ _ _ Hw _ _ Ht) ltac:(by apply PX_idx)).
      specialize (Hat _ _ Ht). unfold PGSIZE in *. lia.
Qed.

Lemma unmap_uvm s root T l va q s' :
  uvm s root T l -> umapped (g_pmem s) T va -> q = PTE2PA (pte_at (g_pmem s) T va) ->
  s' = put_pmem (unmap_mem s T va) (put_freelist q s) ->
  uvm s' root T (q :: l) /\ usame s T s' T (fun x => x / 4096 = va / 4096).
Proof.
  intros Hu Hm Eq Es. destruct (unmap_vm s root T l va q s' Hu Hm Eq Es) as (Hok' & Hpte & Hmem).
  destruct Hu as [Hok Hus Ho].
  assert (mem_ok (g_pmem s')) as Hmo.
  { rewrite Es. kget. unfold unmap_mem, kfree_mem, store_le. apply storen_ok, storen_ok, memset_ok, Hus. }
  clear Es.
  pose proof (umapped_bounds _ _ _ Hm) as Hb. assert (TRAPFRAME <= MAXVA) as HTM by done.
  assert (forall x, umapped (g_pmem s') T x -> x / 4096 <> va / 4096 /\
    pte_at (g_pmem s') T x = pte_at (g_pmem s) T x /\ umapped (g_pmem s) T x) as Hm'.
  { intros x Hx. pose proof (umapped_bounds _ _ _ Hx). specialize (Hpte x ltac:(lia)).
    unfold umapped in *. rewrite Hpte in Hx. case_decide; [|done].
    rewrite has_0, andb_false_r in Hx. done. }
  split; [split; [done| |]|].
  - apply (uspace_update (g_pmem s) root T _ _ va 0 Hus); try done.
    + apply Hok'.
    + intros p a Ha. by left.
  - intros x Hx. destruct (Hm' x Hx) as (Hne & -> & Hmx). intros [E|Hin]%elem_of_cons; [|by apply (Ho x)].
    apply Hne. rewrite Eq in E. by eapply us_inj.
  - intros x Hx HP. rewrite Hpte, decide_False by done. split; [done|]. intros Hmx.
    pose proof (us_page _ _ _ Hus x Hmx) as Hpx.
    apply ubyte_same; [by rewrite Hpte, decide_False|]. intros a Ha. apply Hmem.
    + destruct (pages_disjoint (PTE2PA (pte_at (g_pmem s) T x)) q); [done|subst q; by apply Hus| | |].
      * rewrite Eq. intros E. apply HP. by eapply us_inj.
      * unfold PGSIZE in *. lia.
      * unfold PGSIZE in *. lia.
    + intros p t Ht. destruct (pages_disjoint (PTE2PA (pte_at (g_pmem s) T x)) t); [done| | | |].
      * by eapply (pt_page _ _ _ (us_pt _ _ _ Hus)).
      * intros E. apply (us_table _ _ _ Hus x p Hmx). by rewrite E.
      * unfold PGSIZE in *. lia.
      * unfold PGSIZE in *. lia.
Qed.

(** The physical pages behind the [n] virtual pages from [va] on. *)
Fixpoint upages (m : mem) (T : tree) (va : Z) (n : nat) : list Z :=
  match n with
  | O => []
  | S n' => PTE2PA (pte_at m T va) :: upages m T (va + 4096) n'
  end.

Lemma upages_ext m m' T va n :
  (forall x, va <= x < va + 4096 * Z.of_nat n -> pte_at m' T x = pte_at m T x) ->
  upages m' T va n = upages m T va n.
Proof.
  revert va. induction n as [|n IH]; intros va E; simpl; [done|].
  rewrite E by lia. f_equal. apply IH. intros. apply E. lia.
Qed.

Lemma unmap_loop n : forall s root T l va,
  uvm s root T l -> va mod 4096 = 0 ->
  (forall x, va <= x < va + 4096 * Z.of_nat n -> umapped (g_pmem s) T x) ->
  exists s', loop (S n) (uvmunmap_body root (va + 4096 * Z.of_nat n) true) va s = Ret tt s' /\
    uvm s' root T (reverse (upages (g_pmem s) T va n) ++ l) /\ mm_only s s' /\
    usame s T s' T (fun x => va <= x < va + 4096 * Z.of_nat n) /\
    (forall x, va <= x < va + 4096 * Z.of_nat n -> pte_at (g_pmem s') T x = 0).
Proof.
  induction n as [|n IH]; intros s root T l va Hu Hva Hm.
  { exists s. cbn [loop]. unfold bind, uvmunmap_body. destruct (Z.ltb_spec va (va + 4096 * Z.of_nat 0)); [lia|].
    split_and!; [done|done|apply mm_only_refl|done|intros; lia]. }
  assert (umapped (g_pmem s) T va) as Hmva by (apply Hm; lia).
  pose proof (umapped_bounds _ _ _ Hmva) as Hb. assert (TRAPFRAME <= MAXVA) as HTM by done.
  destruct (unmap_uvm s root T l va _ _ Hu Hmva eq_refl eq_refl) as [Hu1 Hs1].
  pose proof (unmap_round s root T l va (va + 4096 * Z.of_nat (S n)) Hu Hmva ltac:(lia)) as E1.
  set (s1 := put_pmem _ _) in *. assert (mm_only s s1) as Hmm1.
  { eapply mm_only_trans; [apply mm_only_kmm|apply mm_only_kmm]. }
  assert (forall x, va / 4096 = x / 4096 -> pte_at (g_pmem s1) T x = 0) as Hz.
  { intros x Hx. destruct (unmap_vm s root T l va _ s1 Hu Hmva eq_refl eq_refl) as (_ & Hpte & _).
    rewrite <- (pte_at_page _ _ _ _ Hx), Hpte by lia. by rewrite decide_True. }
  clearbody s1.
  destruct (IH s1 root T (PTE2PA (pte_at (g_pmem s) T va) :: l) (va + 4096)) as (s' & E & Hu' & Hmm & Hs & Hz').
  { done. } { zlia. }
  { intros x Hx. assert (umapped (g_pmem s) T x) as Hx' by (apply Hm; lia).
    pose proof (umapped_bounds _ _ _ Hx'). destruct (Hs1 x) as [Ex _]; [lia|zlia|].
    unfold umapped in *. by rewrite Ex. }
  exists s'. replace (va + 4096 + 4096 * Z.of_nat n) with (va + 4096 * Z.of_nat (S n)) in * by lia.
  split_and!.
  - remember (S n) as n1. cbn [loop]. unfold bind. rewrite E1. exact E.
  - cbn [upages]. rewrite reverse_cons, <- app_assoc. simpl.
    rewrite <- (upages_ext (g_pmem s) (g_pmem s1)); [done|]. intros x Hx.
    assert (umapped (g_pmem s) T x) as Hx' by (apply Hm; lia).
    pose proof (umapped_bounds _ _ _ Hx'). apply Hs1; [lia|zlia].
  - by eapply mm_only_trans.
  - eapply usame_weaken; [by eapply usame_trans|]. intros x Hx [?|?]; simpl in *; zlia.
  - intros x Hx. destruct (decide (va + 4096 <= x)); [apply Hz'; lia|].
    pose proof (umapped_bounds _ _ _ (Hm x Hx)).
    destruct (Hs x) as [-> _]; [lia|lia|]. apply Hz. zlia.
Qed.

Lemma uvmunmap_run n s root T l va :
  uvm s root T l -> 0 <= va -> va mod 4096 = 0 -> va + 4096 * Z.of_nat n <= TRAPFRAME ->
  (forall x, va <= x < va + 4096 * Z.of_nat n -> umapped (g_pmem s) T x) ->
  exists s', uvmunmap root va (Z.of_nat n) true s = Ret tt s' /\
    uvm s' root T (reverse (upages (g_pmem s) T va n) ++ l) /\ mm_only s s' /\
    usame s T s' T (fun x => va <= x < va + 4096 * Z.of_nat n) /\
    (forall x, va <= x < va + 4096 * Z.of_nat n -> pte_at (g_pmem s') T x = 0).
Proof.
  intros Hu H0 Hva Hle Hm. unfold uvmunmap, PGSIZE. rewrite Hva. cbn [Z.eqb negb].
  rewrite Nat2Z.id, (Z.mul_comm _ 4096), u64_small by (change TRAPFRAME with 274877898752 in *; lia).
  by apply unmap_loop.
Qed.

(** Shrinking from [oldsz] to [newsz] returns the pages in between. *)
Lemma uvmdealloc_run s root T l oldsz newsz :
  uvm s root T l -> 0 <= newsz < oldsz -> oldsz <= TRAPFRAME ->
  (forall x, PGROUNDUP newsz <= x < PGROUNDUP oldsz -> umapped (g_pmem s) T x) ->
  exists s', uvmdealloc root oldsz newsz s = Ret newsz s' /\
    uvm s' root T (reverse (upages (g_pmem s) T (PGROUNDUP newsz)
                              (Z.to_nat ((PGROUNDUP oldsz - PGROUNDUP newsz) / 4096))) ++ l) /\
    mm_only s s' /\ usame s T s' T (fun x => PGROUNDUP newsz <= x < PGROUNDUP oldsz) /\
    (forall x, PGROUNDUP newsz <= x < PGROUNDUP oldsz -> pte_at (g_pmem s') T x = 0).
Proof.
  intros Hu Hsz Hmax Hm. change TRAPFRAME with 274877898752 in *.
  assert (forall z, 0 <= z <= 274877898752 -> PGROUNDUP z = (z + 4095) / 4096 * 4096) as Hr.
  { intros z Hz. apply PGROUNDUP_eq; lia. }
  rewrite !Hr in * by lia. unfold uvmdealloc. rewrite Z.geb_leb. destruct (Z.leb_spec oldsz newsz); [lia|].
  rewrite !Hr by lia. set (nw := (newsz + 4095) / 4096) in *. set (od := (oldsz + 4095) / 4096) in *.
  assert (0 <= nw /\ nw <= od /\ od <= 67108862) as Hb by (unfold nw, od; zlia).
  unfold bind. destruct (Z.ltb_spec (nw * 4096) (od * 4096)) as [Hlt|Hge]; cbn [when].
  - unfold PGSIZE. replace ((od * 4096 - nw * 4096) / 4096) with (od - nw) in * by zlia.
    rewrite s32_small, u64_small by zlia.
    destruct (uvmunmap_run (Z.to_nat (od - nw)) s root T l (nw * 4096)) as (s' & E & Hu' & Hmm & Hs & Hz);
      try done; try zlia.
    { change TRAPFRAME with 274877898752. zlia. }
    { intros x Hx. apply Hm. zlia. }
    rewrite Z2Nat.id in * by lia. replace (nw * 4096 + 4096 * (od - nw)) with (od * 4096) in * by lia.
    exists s'. rewrite E. done.
  - exists s. replace (Z.to_nat ((od * 4096 - nw * 4096) / 4096)) with 0%nat by zlia.
    split_and!; [done|done|apply mm_only_refl|done|intros; lia].
Qed.

(** Writes to a page the process does not own. *)
Lemma usame_page s s' root T q :
  uspace (g_pmem s) root T -> page q ->
  (forall va, umapped (g_pmem s) T va -> PTE2PA (pte_at (g_pmem s) T va) <> q) ->
  same_but_page (g_pmem s) (g_pmem s') q ->
  (forall va, pte_at (g_pmem s') T va = pte_at (g_pmem s) T va) ->
  usame s T s' T (fun _ => False).
Proof.
  intros Hus Hpq Hne Hs Hpte x Hx _. split; [apply Hpte|]. intros Hm. apply ubyte_same; [apply Hpte|].
  intros a Ha. apply Hs. pose proof (us_page _ _ _ Hus x Hm) as Hpx.
  destruct (pages_disjoint (PTE2PA (pte_at (g_pmem s) T x)) q Hpx Hpq) as [|]; [by apply Hne| |];
    unfold PGSIZE in *; lia.
Qed.

Lemma kfree_uvm s root T l q :
  uvm s root T l -> fresh s T l q ->
  exists s', kfree q s = Ret tt s' /\ uvm s' root T (q :: l) /\ mm_only s s' /\
    usame s T s' T (fun _ => False).
Proof.
  intros Hu Hq. pose proof (uvm_us _ _ _ _ Hu) as Hus. pose proof (fr_page _ _ _ _ Hq) as Hpq.
  eexists. split; [apply kfree_run; [done|apply Hu]|].
  set (m1 := kfree_mem (g_pmem s) q (g_freelist s)).
  assert (mem_ok m1) as Hmo by (apply storen_ok, memset_ok, Hus).
  assert (same_but_page (g_pmem s) m1 q) as Hs by apply kfree_mem_page.
  destruct (uvm_write s root T l q m1 Hu Hq Hs Hmo) as ([[W1 W2 W3 W4] Us Ow] & [F1 F2 F3 F4] & Hpte).
  kget_in Ow; kget_in F4; kget_in Us; kget_in W1. split_and!.
  - split; kget; [|done|].
    + split; kget; [done| | |exact W4].
      * apply kfree_list; [done|done|apply Hu].
      * intros p b Hb [->|Hin]%elem_of_cons; [by eapply F3|by eapply W3].
    + intros va Hm [E|Hin]%elem_of_cons; [by eapply F4|by eapply Ow].
  - eapply mm_only_trans; [apply mm_only_kmm|apply mm_only_kmm].
  - eapply usame_page; [done|exact Hpq|apply Hq|exact Hs|exact Hpte].
Qed.

(** ** uvmalloc *)

Section grow.
Context (s0 : kstate) (T0 : tree) (root base xperm : Z).

(** The loop invariant: [\[base, a)] is mapped with the permissions asked
    for and zeroed; the rest of the address space is as at the start. *)
Record grown (a : Z) (s : kstate) (T : tree) (l : list Z) : Prop := {
  gr_uvm : uvm s root T l;
  gr_mm : mm_only s0 s;
  gr_same : usame s0 T0 s T (fun x => base <= x < a);
  gr_new : forall x, base <= x < a ->
    umapped (g_pmem s) T x /\ ubyte (g_pmem s) T x = 0 /\
    PTE_FLAGS (pte_at (g_pmem s) T x) = Z.lor (Z.lor PTE_R PTE_U) xperm + 1
}.

(** The address space is as at the start: [\[base, a)] is unmapped again. *)
Record ungrown (a : Z) (s : kstate) (T : tree) (l : list Z) : Prop := {
  ug_uvm : uvm s root T l;
  ug_mm : mm_only s0 s;
  ug_same : usame s0 T0 s T (fun x => base <= x < a);
  ug_gone : forall x, base <= x < a -> pte_at (g_pmem s) T x = 0
}.

(** The way back: the new pages are released. *)
Lemma grown_back a s T l :
  grown a s T l -> 0 <= base -> base mod 4096 = 0 -> a mod 4096 = 0 -> base <= a <= TRAPFRAME ->
  exists v s' l', uvmdealloc root a base s = Ret v s' /\ ungrown a s' T l'.
Proof.
  intros [Hu Hmm Hs Hn] Hb0 Hb Ha Hle.
  assert (PGROUNDUP base = base /\ PGROUNDUP a = a) as [Rb Ra].
  { change TRAPFRAME with 274877898752 in *. rewrite !PGROUNDUP_eq by lia. zlia. }
  destruct (decide (base = a)) as [E|Hne].
  - exists a, s, l. unfold uvmdealloc. rewrite Z.geb_leb, E, Z.leb_refl.
    split; [done|]. split; [done|done|done|]. intros; lia.
  - destruct (uvmdealloc_run s root T l a base) as (s' & E & Hu' & Hmm' & Hs' & Hz); try done; try lia.
    { rewrite Rb, Ra. intros x Hx. by apply Hn. }
    rewrite Rb, Ra in *. exists base, s'. eexists. split; [done|].
    split; [done|by eapply mm_only_trans| |done].
    eapply usame_weaken; [by eapply usame_trans|]. simpl. tauto.
Qed.

Lemma grown_keep a s T l s' T' l' :
  grown a s T l -> uvm s' root T' l' -> mm_only s s' -> usame s T s' T' (fun _ => False) ->
  a <= TRAPFRAME -> 0 <= base -> grown a s' T' l'.
Proof.
  intros [Hu Hmm Hs Hn] Hu' Hmm' Hs' Ha Hb. split; [done|by eapply mm_only_trans| |].
  - eapply usame_weaken; [by eapply usame_trans|]. simpl. tauto.
  - intros x Hx. destruct (Hn x Hx) as (Hm & Hz & Hf). assert (TRAPFRAME <= MAXVA) as HTM by done.
    destruct (Hs' x) as [Ep Eb]; [lia|tauto|]. rewrite Ep, Eb by done. unfold umapped in *. by rewrite Ep.
Qed.

Context (Hperm : 0 <= xperm < 1024) (Hxv : Z.land xperm PTE_V = 0).

Lemma grow_perm : 0 < Z.lor (Z.lor PTE_R PTE_U) xperm < 1024 /\
  Z.land (Z.lor (Z.lor PTE_R PTE_U) xperm) PTE_V = 0.
Proof.
  pose proof (lor_lt_pow2 (Z.lor PTE_R PTE_U) xperm 10 ltac:(by compute) ltac:(lia) ltac:(lia)) as H2.
  split; [|by rewrite Z.land_lor_distr_l, Hxv].
  split; [|lia]. destruct (decide (Z.lor (Z.lor PTE_R PTE_U) xperm = 0)) as [E|]; [|lia].
  by apply Z.lor_eq_0_iff in E as [E _].
Qed.

(** The page [q], zeroed, now backs the virtual page [a]. *)
Lemma grown_next a s T l s' T' l' q :
  grown a s T l -> uvm s' root T' l' -> mm_only s s' -> page q ->
  usame s T s' T' (fun x => x / 4096 = a / 4096) -> base <= a -> a mod 4096 = 0 -> 0 <= a < TRAPFRAME -> 0 <= base ->
  pte_at (g_pmem s') T' a = Z.lor (Z.lor (PA2PTE q) (Z.lor (Z.lor PTE_R PTE_U) xperm)) PTE_V ->
  (forall x, q <= x < q + 4096 -> load8 (g_pmem s') x = 0) ->
  grown (a + 4096) s' T' l'.
Proof.
  intros [Hu Hmm Hs Hn] Hu' Hmm' Hq Hs' Hba Ham Ha Hb Ep Hz. assert (TRAPFRAME <= MAXVA) as HTM by done.
  destruct grow_perm as [Hp1 Hp2]. destruct (leaf_entry q _ Hq Hp1 Hp2) as [Epa Efl].
  split; [done|by eapply mm_only_trans| |].
  - eapply usame_weaken; [by eapply usame_trans|]. simpl. intros x Hx [?|?]; zlia.
  - intros x Hx. destruct (decide (x / 4096 = a / 4096)) as [E|Hne].
    + rewrite (pte_at_page _ _ x a E), Ep, Efl. split_and!; [|unfold ubyte, upa|done].
      * unfold umapped. rewrite (pte_at_page _ _ x a E), Ep, has_V_entry, andb_true_r.
        change TRAPFRAME with 274877898752 in *. rewrite Is_true_true, andb_true_iff. zlia.
      * rewrite (pte_at_page _ _ x a E), Ep, Epa. apply Hz. zlia.
    + destruct (Hn x) as (Hm & Hzx & Hf); [zlia|]. pose proof (umapped_bounds _ _ _ Hm).
      destruct (Hs' x) as [Ex Eb]; [lia|done|]. rewrite Ex, Eb by done. unfold umapped in *. by rewrite Ex.
Qed.

(** The second half of the round's preparation: the new page is zeroed. *)
Lemma grow_zero a s T q l s1 :
  grown a s T (q :: l) -> 0 <= base -> a <= TRAPFRAME -> uvm s1 root T l -> fresh s1 T l q -> mm_only s s1 ->
  same_but_page (g_pmem s) (g_pmem s1) q ->
  (forall va, pte_at (g_pmem s1) T va = pte_at (g_pmem s) T va) ->
  exists s2, kmemset q 0 PGSIZE s1 = Ret tt s2 /\ grown a s2 T l /\ fresh s2 T l q /\
    (forall x, q <= x < q + 4096 -> load8 (g_pmem s2) x = 0) /\
    (forall va, pte_at (g_pmem s2) T va = pte_at (g_pmem s) T va).
Proof.
  intros Hg Hb0 Ha Hu1 Hq1 Hmm1 Hpg1 Hpte1. pose proof (gr_uvm _ _ _ _ Hg) as Hu.
  pose proof (fr_page _ _ _ _ Hq1) as Hpq.
  assert (mem_ok (memset (g_pmem s1) q 0 PGSIZE)) as Hmo by (apply memset_ok, Hu1).
  destruct (uvm_write s1 root T l q _ Hu1 Hq1 (memset_page _ _ 0) Hmo) as (Hu2 & Hq2 & Hpte2).
  assert (grown a s1 T l) as Hg1.
  { eapply grown_keep; [exact Hg|done|done| |done|done].
    eapply usame_page; [apply Hu|done| |done|done]. intros va Hm E.
    apply (uvm_owned _ _ _ _ Hu va Hm). rewrite E. left. }
  eexists. split_and!; [reflexivity| |exact Hq2| |intros va; by rewrite <- Hpte1, <- Hpte2].
  - eapply grown_keep; [exact Hg1|done|apply mm_only_kmm| |done|done].
    eapply usame_page; [apply Hu1|done|apply Hq1|apply memset_page|done].
  - intros x Hx. kget. rewrite load8_memset by (unfold PGSIZE; lia).
    by rewrite decide_True by (unfold PGSIZE; lia).
Qed.

(** A failed mapping of an unmapped page changes nothing the process sees. *)
Lemma usame_unmapped s T s' T' a :
  usame s T s' T' (fun x => x / 4096 = a / 4096) -> has (pte_at (g_pmem s) T a) PTE_V = false ->
  pte_at (g_pmem s') T' a = pte_at (g_pmem s) T a -> usame s T s' T' (fun _ => False).
Proof.
  intros Hs Hnv Ea x Hx _. destruct (decide (x / 4096 = a / 4096)) as [E|Hne]; [|by apply Hs].
  split; [by rewrite !(pte_at_page _ _ x a E)|]. unfold umapped.
  rewrite (pte_at_page _ _ x a E), Hnv, andb_false_r. done.
Qed.

Lemma grow_round a newsz s T l :
  grown a s T l -> 0 <= base -> base mod 4096 = 0 -> base <= a < newsz -> a mod 4096 = 0 -> newsz <= TRAPFRAME ->
  has (pte_at (g_pmem s) T a) PTE_V = false ->
  exists r s' T' l', uvmalloc_body root base newsz xperm a s = Ret r s' /\
    ((r = inl (a + 4096) /\ grown (a + 4096) s' T' l') \/ (r = inr 0 /\ ungrown a s' T' l')).
Proof.
  intros Hg Hb0 Hbm Ha Ham Hmax Hnv. pose proof (gr_uvm _ _ _ _ Hg) as Hu.
  unfold uvmalloc_body. destruct (Z.ltb_spec a newsz); [|lia]. cbn [negb]. unfold bind.
  destruct l as [|q l].
  { rewrite (kalloc_empty s) by apply Hu. cbn [obind Z.eqb].
    destruct (grown_back a s T [] Hg) as (v & s' & l' & E & Hug); try done; [lia|].
    rewrite E. exists (inr 0), s', T, l'. auto. }
  destruct (kalloc_uvm s root T q l Hu) as (s1 & E1 & Hu1 & Hq1 & Hmm1 & Hpg1 & Hpte1). rewrite E1. cbn [obind].
  pose proof (fr_page _ _ _ _ Hq1) as Hpq. destruct (Z.eqb_spec q 0) as [->|_].
  { by apply page_bounds in Hpq as (_ & _ & ?). }
  destruct (grow_zero a s T q l s1) as (s2 & E2 & Hg2 & Hq2 & Hz2 & Hpte2); try done; [lia|]. rewrite E2. cbn [obind].
  assert (has (pte_at (g_pmem s2) T a) PTE_V = false) as Hnv2 by (by rewrite Hpte2).
  change (mappages root a PGSIZE) with (mappages root a 4096). destruct grow_perm as [Hp1 Hp2].
  destruct (mappages_fresh s2 root T l a q _ (gr_uvm _ _ _ _ Hg2) Hq2 ltac:(lia) Ham Hnv2 Hp1 Hp2)
    as (r & s3 & T3 & l3 & E3 & Hu3 & Hmm3 & Hsuf & Hk3 & Hs3 & Hr). rewrite E3. cbn [obind].
  destruct Hr as [[-> Hpte3]|(-> & Hq3 & Hpte3)]; cbn [Z.eqb negb].
  - exists (inl (a + 4096)), s3, T3, l3. split.
    + unfold ret, PGSIZE. rewrite u64_small; [done|]. change TRAPFRAME with 274877898752 in *. lia.
    + left. split; [done|]. eapply grown_next; try done; try lia. intros x Hx. by rewrite Hk3, Hz2.
  - destruct (kfree_uvm s3 root T3 l3 q Hu3 Hq3) as (s4 & E4 & Hu4 & Hmm4 & Hs4). rewrite E4. cbn [obind].
    assert (grown a s4 T3 (q :: l3)) as Hg4.
    { eapply grown_keep; [eapply grown_keep; [exact Hg2|exact Hu3|done| |lia|done]|done|done|done|lia|done].
      by eapply usame_unmapped. }
    destruct (grown_back a s4 T3 _ Hg4) as (v & s' & l' & E & Hug); try done; [lia|].
    rewrite E. exists (inr 0), s', T3, l'. auto.
Qed.

Lemma grow_loop n : forall a newsz s T l,
  grown a s T l -> 0 <= base -> base mod 4096 = 0 -> base <= a -> a mod 4096 = 0 -> newsz <= TRAPFRAME ->
  (newsz - a + 4095) / 4096 <= Z.of_nat n ->
  (forall x, base <= x < (newsz + 4095) / 4096 * 4096 -> has (pte_at (g_pmem s0) T0 x) PTE_V = false) ->
  exists r s' T' l', loop (S n) (uvmalloc_body root base newsz xperm) a s = Ret r s' /\
    ((r = newsz /\ exists a', grown a' s' T' l' /\ newsz <= a' < Z.max a newsz + 4096 /\ a' mod 4096 = 0) \/
     (r = 0 /\ exists a', ungrown a' s' T' l' /\ a' <= (newsz + 4095) / 4096 * 4096)).
Proof.
  induction n as [|n IH]; intros a newsz s T l Hg Hb0 Hbm Hba Ham Hmax Hn Hnv.
  - exists newsz, s, T, l. cbn [loop]. unfold bind, uvmalloc_body. destruct (Z.ltb_spec a newsz); [zlia|].
    cbn [negb]. split; [done|]. left. split; [done|]. exists a. split; [done|]. lia.
  - remember (S n) as n1. cbn [loop]. unfold bind. destruct (Z.ltb_spec a newsz) as [Hlt|Hge].
    2:{ exists newsz, s, T, l. unfold uvmalloc_body. destruct (Z.ltb_spec a newsz); [lia|].
        cbn [negb]. split; [done|]. left. split; [done|]. exists a. split; [done|]. lia. }
    destruct (grow_round a newsz s T l) as (r & s' & T' & l' & E & Hr); try done.
    { assert (TRAPFRAME <= MAXVA) as HTM by done.
      destruct (gr_same _ _ _ _ Hg a) as [-> _]; [lia|lia|]. apply Hnv. zlia. }
    rewrite E. cbn [obind]. destruct Hr as [[-> Hg']|[-> Hug]].
    + destruct (IH (a + 4096) newsz s' T' l') as (r & s2 & T2 & l2 & E2 & Hr); try done; try zlia.
      exists r, s2, T2, l2. subst n1. split; [done|]. destruct Hr as [(-> & a' & ? & ? & ?)|?]; [left|by right].
      split; [done|]. exists a'. split_and!; [done|lia|zlia|done].
    + exists 0, s', T', l'. split; [done|]. right. split; [done|]. exists a. split; [done|]. zlia.
Qed.
End grow.

Lemma uvmalloc_run s root T l oldsz newsz xperm :
  uvm s root T l -> 0 <= oldsz <= newsz -> newsz <= TRAPFRAME ->
  0 <= xperm < 1024 -> Z.land xperm PTE_V = 0 ->
  (forall x, PGROUNDUP oldsz <= x < PGROUNDUP newsz -> has (pte_at (g_pmem s) T x) PTE_V = false) ->
  exists r s' T' l', uvmalloc root oldsz newsz xperm s = Ret r s' /\ uvm s' root T' l' /\ mm_only s s' /\
    usame s T s' T' (fun x => PGROUNDUP oldsz <= x < PGROUNDUP newsz) /\
    ((r = newsz /\ forall x, PGROUNDUP oldsz <= x < PGROUNDUP newsz ->
        umapped (g_pmem s') T' x /\ ubyte (g_pmem s') T' x = 0 /\
        PTE_FLAGS (pte_at (g_pmem s') T' x) = Z.lor (Z.lor PTE_R PTE_U) xperm + 1) \/
     (r = 0 /\ forall x, PGROUNDUP oldsz <= x < PGROUNDUP newsz ->
        has (pte_at (g_pmem s') T' x) PTE_V = false)).
Proof.
  intros Hu Hsz Hmax Hp Hv Hnv. unfold uvmalloc. destruct (Z.ltb_spec newsz oldsz); [lia|].
  assert (forall z, 0 <= z <= TRAPFRAME -> PGROUNDUP z = (z + 4095) / 4096 * 4096) as Hr.
  { change TRAPFRAME with 274877898752. intros z Hz. apply PGROUNDUP_eq; lia. }
  rewrite !Hr in * by lia. assert (TRAPFRAME + 4096 <= MAXVA) as HTM by done.
  destruct (grow_loop s T root ((oldsz + 4095) / 4096 * 4096) xperm Hp Hv
    (Z.to_nat ((newsz - (oldsz + 4095) / 4096 * 4096 + PGSIZE - 1) / PGSIZE))
    ((oldsz + 4095) / 4096 * 4096) newsz s T l) as (r & s' & T' & l' & E & Hres); try done; try zlia.
  { split; [done|apply mm_only_refl|done|intros; lia]. }
  { unfold PGSIZE. zlia. }
  exists r, s', T', l'. split; [exact E|].
  destruct Hres as [(-> & a & [G1 G2 G3 G4] & Ha & Ham)|(-> & a & [G1 G2 G3 G4] & Ha)]; split_and!; try done.
  - eapply usame_weaken; [exact G3|]. simpl. intros x Hx ?. zlia.
  - left. split; [done|]. intros x Hx. apply G4. zlia.
  - eapply usame_weaken; [exact G3|]. simpl. intros x Hx ?. lia.
  - right. split; [done|]. intros x Hx. destruct (decide (x < a)); [rewrite G4 by lia; apply has_0|].
    destruct (G3 x) as [-> _]; [zlia|lia|]. by apply Hnv.
Qed.

(** [C13] [uvmalloc] is all or nothing: it returns [newsz] with every page
    from [PGROUNDUP(oldsz)] to [PGROUNDUP(newsz)] mapped for the user with the
    permissions asked for and zeroed, or 0 with none of them mapped.  In both
    cases the rest of the address space (entries and contents) is unchanged,
    and the tables, the process's pages and the free pages stay disjoint. *)
Theorem uvmalloc_all_or_nothing s root T l oldsz newsz xperm :
  uvm s root T l -> 0 <= oldsz <= newsz -> newsz <= TRAPFRAME ->
  0 <= xperm < 1024 -> Z.land xperm PTE_V = 0 ->
  (forall x, PGROUNDUP oldsz <= x < PGROUNDUP newsz -> has (pte_at (g_pmem s) T x) PTE_V = false) ->
  exists r s' T' l', uvmalloc root oldsz newsz xperm s = Ret r s' /\ uvm s' root T' l' /\ mm_only s s' /\
    usame s T s' T' (fun x => PGROUNDUP oldsz <= x < PGROUNDUP newsz) /\
    ((r = newsz /\ forall x, PGROUNDUP oldsz <= x < PGROUNDUP newsz ->
        umapped (g_pmem s') T' x /\ ubyte (g_pmem s') T' x = 0 /\
        PTE_FLAGS (pte_at (g_pmem s') T' x) = Z.lor (Z.lor PTE_R PTE_U) xperm + 1) \/
     (r = 0 /\ forall x, PGROUNDUP oldsz <= x < PGROUNDUP newsz ->
        has (pte_at (g_pmem s') T' x) PTE_V = false)).
Proof. apply uvmalloc_run. Qed.

(** ** A new address space *)

(** A zeroed page is a tree with one table and no entry. *)
Lemma pt_single m q : page q -> pt_wf (memset m q 0 PGSIZE) q {[ [] := q ]}.
Proof.
  intros Hq. assert (forall p i (b : Z), ({[ [] := q ]} : tree) !! (p ++ [i]) = Some b -> False) as Hno.
  { intros p i b [E _]%lookup_singleton_Some. by destruct p. }
  split.
  - apply lookup_singleton_eq.
  - by intros p a [_ <-]%lookup_singleton_Some.
  - by intros p p' a [<- _]%lookup_singleton_Some [<- _]%lookup_singleton_Some.
  - intros p a [<- _]%lookup_singleton_Some. simpl. lia.
  - intros p i a b _ _ _ []%Hno.
  - intros p i a _ Hi [<- <-]%lookup_singleton_Some _. by rewrite load_entry_zero.
  - intros p i b []%Hno.
Qed.

Lemma pte_at_single m q x : pte_at m {[ [] := q ]} x = 0.
Proof. unfold pte_at. by rewrite lookup_singleton_ne. Qed.

Lemma uspace_single m q : page q -> mem_ok m -> uspace (memset m q 0 PGSIZE) q {[ [] := q ]}.
Proof.
  intros Hq Hmo.
  assert (forall m x, umapped m {[ [] := q ]} x = false) as Hnm.
  { intros m' x. unfold umapped. by rewrite pte_at_single, has_0, andb_false_r. }
  split.
  - by apply pt_single.
  - by apply memset_ok.
  - intros x. unfold accessible. rewrite pte_at_single, has_0, andb_false_r. done.
  - intros x. by rewrite Hnm.
  - intros x. by rewrite Hnm.
  - intros x p. by rewrite Hnm.
  - intros x y. by rewrite Hnm.
Qed.

Lemma uvmcreate_run s q l :
  free_list s (q :: l) -> lock_free LKmem s -> mem_ok (g_pmem s) ->
  exists s', uvmcreate s = Ret q s' /\ uvm s' q {[ [] := q ]} l /\ mm_only s s'.
Proof.
  intros Hf Hlk Hmo. pose proof Hf as [(_ & Hq & _) [Hql Hnd]%list.NoDup_cons].
  unfold uvmcreate, bind. rewrite (kalloc_run s q l) by done. cbn [obind].
  destruct (Z.eqb_spec q 0) as [->|_]; [by apply page_bounds in Hq as (_ & _ & ?)|].
  pose proof (kalloc_list s q l Hf) as [Hc _]. kget_in Hc.
  unfold kmemset, modify, ret. cbn [obind]. kget. eexists. split; [reflexivity|].
  split; [split; [split| |]|].
  - kget. by apply pt_single.
  - split; [|done]. kget. apply (chain_frame (memset (g_pmem s) q 5 PGSIZE) _ q); [done|done|apply memset_page|exact Hc].
  - by intros p a [_ <-]%lookup_singleton_Some.
  - exact Hlk.
  - kget. apply uspace_single; [done|by apply memset_ok].
  - intros x. kget. unfold umapped. by rewrite pte_at_single, has_0, andb_false_r.
  - do 2 (eapply mm_only_trans; [|apply mm_only_kmm]). apply mm_only_kmm.
Qed.
End uvm.

(** ** Instances: a process of one page *)

(** A kernel image that leaves five pages. *)
Definition image5 : KernelImage.
Proof. refine {| kend := PHYSTOP - 20480; etext := KERNBASE + 32768; trampoline := KERNBASE + 28672 |}. by compute. Defined.

Definition five : list Z := (fun i => PHYSTOP - 4096 * i) <$> [5; 4; 3; 2; 1].

Fixpoint link_pages (m : mem) (l : list Z) : mem :=
  match l with
  | [] => m
  | a :: l' => store64 (link_pages m l') a (hd 0 l')
  end.

Definition boot5 : kstate := put_freelist (hd 0 five) (put_pmem (link_pages ∅ five) boot).

Lemma boot5_ok : @free_list image5 boot5 five /\ lock_free LKmem boot5 /\ mem_ok (g_pmem boot5).
Proof.
  split_and!; [split|done|].
  - split_and!; by vm_compute.
  - by apply (bool_decide_unpack (NoDup five)); vm_compute.
  - repeat apply storen_ok. apply map_Forall_empty.
Qed.

(** The result of a run, without the state. *)
Definition result {S A} (o : outcome S A) : option A :=
  match o with Ret a _ => Some a | _ => None end.

(** A page table made by [uvmcreate], grown to one page by [uvmalloc]. *)
Definition one_page_user : kstate -> outcome kstate Z := fun s =>
  obind (uvmcreate s) (fun root => @uvmalloc image5 root 0 4096 PTE_W).

Lemma user5 : exists s root T l, @uvm image5 s root T l /\
  (forall x, 0 <= x < 4096 -> writable (g_pmem s) T x = true /\ ubyte (g_pmem s) T x = 0).
Proof.
  destruct boot5_ok as (Hf & Hlk & Hmo).
  destruct (@uvmcreate_run image5 boot5 (PHYSTOP - 20480) (tail five) Hf Hlk Hmo) as (s1 & E1 & Hu1 & _).
  destruct (@uvmalloc_run image5 s1 _ _ _ 0 4096 PTE_W Hu1) as (r & s & T & l & E & Hu & _ & _ & Hr);
    [lia|by compute|by compute|by compute|intros; by rewrite pte_at_single, has_0|].
  assert (result (one_page_user boot5) = Some 4096) as Hres by (by vm_compute).
  unfold one_page_user in Hres. rewrite E1 in Hres. cbn [obind] in Hres. rewrite E in Hres. injection Hres as ->.
  destruct Hr as [[_ Hr]|[? _]]; [|done]. exists s, (PHYSTOP - 20480), T, l. split; [done|].
  intros x Hx. destruct (Hr x Hx) as (Hm & Hz & Hfl). split; [|done].
  unfold writable, accessible. unfold umapped in Hm. rewrite Is_true_true, !andb_true_iff in Hm.
  destruct Hm as [[H0 H1] HV]. rewrite H0, HV.
  assert ((x <? MAXVA) = true) as -> by (apply Z.ltb_lt; change MAXVA with 274877906944; lia).
  unfold has. rewrite (land_flag_low _ PTE_U), (land_flag_low _ PTE_W), Hfl by (by compute). done.
Qed.

Lemma uvmalloc_all_or_nothing_witness :
  exists root s1 r s T l, uvmcreate boot5 = Ret root s1 /\
    @uvmalloc image5 root 0 4096 PTE_W s1 = Ret r s /\ @uvm image5 s root T l.
Proof.
  destruct boot5_ok as (Hf & Hlk & Hmo).
  destruct (@uvmcreate_run image5 boot5 (PHYSTOP - 20480) (tail five) Hf Hlk Hmo) as (s1 & E1 & Hu1 & _).
  destruct (@uvmalloc_all_or_nothing image5 s1 _ _ _ 0 4096 PTE_W Hu1) as (r & s & T & l & E & Hu & _);
    [lia|by compute|by compute|by compute|intros; by rewrite pte_at_single, has_0|].
  exists (PHYSTOP - 20480), s1, r, s, T, l. done.
Defined.

Lemma copyout_writes_witness :
  exists s root T k m', @copyout root 10 [104; 105; 0] s = Ret 0 (put_pmem m' s) /\ k = 3%nat /\
    uwritten (g_pmem s) m' T 10 (take k [104; 105; 0]).
Proof.
  destruct user5 as (s & root & T & l & Hu & Hw).
  destruct (@copyout_writes image5 root T 10 [104; 105; 0] s) as (r & k & m' & E & _ & Hwr & _ & Hr);
    [apply Hu|lia|repeat constructor; unfold byte; lia|].
  exists s, root, T, k, m'. destruct Hr as [[-> ->]|(_ & Hk & Hf)]; [done|].
  rewrite (proj1 (Hw (10 + Z.of_nat k) ltac:(simpl in Hk; lia))) in Hf. done.
Defined.

Lemma copyin_reads_witness :
  exists s root T, @copyin root 4000 5 s = Ret (0, ubytes (g_pmem s) T 4000 5) s.
Proof.
  destruct user5 as (s & root & T & l & Hu & Hw).
  destruct (@copyin_reads image5 root T 4000 5 s) as (r & k & E & _ & Hr); [apply Hu|lia|lia|].
  exists s, root, T. destruct Hr as [[-> Hk]|(_ & Hk & Hf)]; [by replace k with 5%nat in E by lia|].
  destruct (Hw (4000 + Z.of_nat k) ltac:(lia)) as [Hwr _]. unfold writable in Hwr.
  by rewrite Hf in Hwr.
Defined.

Lemma copyinstr_reads_witness :
  exists s root T, @copyinstr root 4000 5 s = Ret (0, [0]) s /\ accessible (g_pmem s) T 4000 = true.
Proof.
  destruct user5 as (s & root & T & l & Hu & Hw).
  destruct (@copyinstr_reads image5 root T 4000 5 s) as (res & k & E & Hnz & Hk & Hacc & Hr); [apply Hu|lia|lia|].
  assert (k = 0%nat) as ->.
  { destruct k; [done|]. apply Forall_cons_1 in Hnz as [Hnz _]. destruct Hnz.
    change (4000 + Z.of_nat 0) with 4000. apply Hw. lia. }
  destruct (Hw 4000 ltac:(lia)) as [Hwr _]. unfold writable in Hwr. apply andb_true_iff in Hwr as [Ha _].
  exists s, root, T. destruct Hr as [(-> & _)|(_ & Hf)]; [done|].
  change (4000 + Z.of_nat 0) with 4000 in Hf. rewrite Hf in Ha by (simpl; lia). done.
Defined.

Lemma mappages_maps_witness :
  exists s root T l r k s' T' l', @mappages root 4096 4096 0 PTE_R s = Ret r s' /\
    @vm_map image5 s T l s' T' l' 4096 0 PTE_R (4096 * Z.of_nat k).
Proof.
  destruct boot5_ok as (Hf & Hlk & Hmo).
  destruct (@uvmcreate_run image5 boot5 (PHYSTOP - 20480) (tail five) Hf Hlk Hmo) as (s1 & E1 & Hu1 & _).
  destruct (@mappages_maps image5 s1 _ _ _ 4096 1 0 PTE_R (@uvm_vm image5 _ _ _ _ Hu1))
    as (r & k & s' & T' & l' & E & _ & Hm & _);
    [lia|reflexivity|lia|by vm_compute|lia|reflexivity|lia|by vm_compute|intros; by rewrite pte_at_single, has_0|].
  by exists s1, (PHYSTOP - 20480), {[ [] := PHYSTOP - 20480 ]}, (tail five), r, k, s', T', l'.
Defined.
