(* ===== verification/Copy.v ===== *)
(** * Copies between a kernel buffer and a user or kernel address:
    [either_copyout] and [either_copyin] of kernel/proc.c *)

From Stdlib Require Import ZArith Lia.
From stdpp Require Import base list gmap strings numbers option.
From S2P Require Import Prelude Bytes Riscv Kstate Vm.

Definition either_copyout (user_dst : bool) (dst : Z) (src : list Z) : M Z :=
  p <- curp ;;
  pr <- get_proc p ;;
  if user_dst then copyout (p_pagetable pr) dst src
  else modify (fun s => put_pmem (storen (g_pmem s) dst src) s) ;; ret 0.

(** The bytes stored in the destination come with the result. *)
Definition either_copyin (user_src : bool) (src len : Z) : M (Z * list Z) :=
  p <- curp ;;
  pr <- get_proc p ;;
  if user_src then copyin (p_pagetable pr) src len
  else gets (fun s => (0, loadn (g_pmem s) src (Z.to_nat len))).
