(* ===== verification/CopySpec.v ===== *)
(** * Kernel and user addresses as one kind of address space: lemmas about
    [either_copyout] and [either_copyin] of kernel/proc.c

    [readi], [writei] and the console copy to and from an address that is either
    a kernel address or a user address of the running process.  A [space]
    says which; [rbytes] are the bytes seen at an address of it, [landed] says what a
    store there does, [can_read] and [can_write] which addresses are valid.
    A kernel address always is. *)

From Stdlib Require Import ZArith Lia.
From stdpp Require Import base list gmap strings numbers option.
From S2P Require Import Prelude Bytes Riscv Kstate Kalloc Vm VmSpec VmUser Copy.

(** The second argument of [readi] and [writei], with the page table's tree of a user space. *)
Inductive space :=
| Kernel
| User (T : gmap (list Z) Z).

Definition in_user (L : space) : bool := match L with Kernel => false | User _ => true end.

Definition can_read (L : space) (m : mem) (a : Z) : bool :=
  match L with Kernel => true | User T => accessible m T a end.
Definition can_write (L : space) (m : mem) (a : Z) : bool :=
  match L with Kernel => true | User T => writable m T a end.
Definition rbyte (L : space) (m : mem) (a : Z) : Z :=
  match L with Kernel => load8 m a | User T => ubyte m T a end.
Definition rbytes (L : space) (m : mem) (a : Z) (n : nat) : list Z :=
  (fun i => rbyte L m (a + Z.of_nat i)) <$> seq 0 n.

(** [m'] is [m] after the bytes [bs] were stored at [a]. *)
Definition landed (L : space) (m m' : mem) (a : Z) (bs : list Z) : Prop :=
  match L with Kernel => m' = storen m a bs | User T => uwritten m m' T a bs end.

Lemma length_rbytes L m a n : length (rbytes L m a n) = n.
Proof. unfold rbytes. by rewrite length_fmap, length_seq. Qed.

Lemma lookup_rbytes L m a n i : (i < n)%nat -> rbytes L m a n !! i = Some (rbyte L m (a + Z.of_nat i)).
Proof. intros H. unfold rbytes. by rewrite list_lookup_fmap, lookup_seq_lt. Qed.

Lemma rbytes_kernel m a n : rbytes Kernel m a n = loadn m a n.
Proof.
  apply list_eq. intros i. rewrite lookup_loadn. destruct (decide (i < n)%nat); [by apply lookup_rbytes|].
  apply lookup_ge_None. rewrite length_rbytes. lia.
Qed.

Lemma rbytes_byte L m a n : mem_ok m -> Forall byte (rbytes L m a n).
Proof.
  intros H. apply Forall_lookup_2. intros i x Hx.
  assert (i < n)%nat as Hi by (apply lookup_lt_Some in Hx; by rewrite length_rbytes in Hx).
  rewrite lookup_rbytes in Hx by done. injection Hx as <-. destruct L; by apply load8_byte.
Qed.

Lemma landed_nil L m a : landed L m m a [].
Proof. destruct L; [done|apply uwritten_nil]. Qed.

Lemma landed_app L m1 m2 m3 a bs1 bs2 :
  landed L m1 m2 a bs1 -> landed L m2 m3 (a + Z.of_nat (length bs1)) bs2 -> landed L m1 m3 a (bs1 ++ bs2).
Proof. destruct L; cbn [landed]; [intros -> ->; by rewrite storen_app|apply uwritten_app]. Qed.

Lemma can_write_landed L m m' a bs x : landed L m m' a bs -> can_write L m' x = can_write L m x.
Proof. destruct L; [done|]. intros H. apply writable_ext, H. Qed.

(** A user address that may be written is below [MAXVA], so no address computed in a copy wraps around. *)
Lemma can_write_end L m a n :
  0 < n -> (forall i, 0 <= i < n -> can_write L m (a + i) = true) -> (in_user L = false -> a + n < 2 ^ 64) -> a + n < 2 ^ 64.
Proof.
  destruct L as [|T]; [intros; auto|]. intros Hn H _. specialize (H (n - 1) ltac:(lia)). cbn [can_write] in H.
  unfold writable in H. apply andb_true_iff in H as [H _].
  pose proof (accessible_bounds m T (a + (n - 1)) ltac:(by rewrite H)) as Hb. change MAXVA with 274877906944 in Hb. lia.
Qed.

Lemma can_read_end L m a n :
  0 < n -> (forall i, 0 <= i < n -> can_read L m (a + i) = true) -> (in_user L = false -> a + n < 2 ^ 64) -> a + n < 2 ^ 64.
Proof.
  destruct L as [|T]; [intros; auto|]. intros Hn H _. specialize (H (n - 1) ltac:(lia)). cbn [can_read] in H.
  pose proof (accessible_bounds m T (a + (n - 1)) ltac:(by rewrite H)) as Hb. change MAXVA with 274877906944 in Hb. lia.
Qed.

(** What was stored is read back. *)
Lemma rbytes_landed L m m' a bs :
  Forall byte bs -> (forall i, 0 <= i < Z.of_nat (length bs) -> can_write L m (a + i) = true) ->
  landed L m m' a bs -> rbytes L m' a (length bs) = bs.
Proof.
  intros Hb Hw H. destruct L as [|T].
  - cbn [landed] in H. rewrite rbytes_kernel, H. by apply loadn_storen_same.
  - apply list_eq. intros i. destruct (decide (i < length bs)%nat) as [Hi|Hi].
    + rewrite lookup_rbytes by done. cbn [rbyte]. specialize (Hw (Z.of_nat i) ltac:(lia)). cbn [can_write] in Hw.
      unfold writable in Hw. apply andb_true_iff in Hw as [Hw _].
      rewrite (uw_byte _ _ _ _ _ H) by (by rewrite Hw). rewrite decide_True by lia.
      destruct (lookup_lt_is_Some_2 bs i Hi) as [x Hx].
      replace (Z.to_nat (a + Z.of_nat i - a)) with i by lia. by rewrite Hx.
    + rewrite !lookup_ge_None_2; [done|lia|rewrite length_rbytes; lia].
Qed.

Section copies.
Context `{!KernelImage}.

(** The space belongs to process [p]: a user space is the one its page table describes. *)
Definition space_of (p : nat) (L : space) (s : kstate) : Prop :=
  match L with
  | Kernel => True
  | User T => exists pr, g_procs s !! p = Some pr /\ uspace (g_pmem s) (p_pagetable pr) T
  end.

Lemma either_copyout_run L p s dst l :
  g_curproc s = Some p -> is_Some (g_procs s !! p) -> space_of p L s -> 0 <= dst < 2 ^ 64 ->
  (in_user L = true -> Forall byte l) ->
  exists r k m', either_copyout (in_user L) dst l s = Ret r (put_pmem m' s) /\ space_of p L (put_pmem m' s) /\
    landed L (g_pmem s) m' dst (take k l) /\ (forall i, 0 <= i < Z.of_nat k -> can_write L (g_pmem s) (dst + i) = true) /\
    ((r = 0 /\ k = length l) \/ (r = -1 /\ (k < length l)%nat /\ can_write L (g_pmem s) (dst + Z.of_nat k) = false)).
Proof.
  intros Hc [pr Hp] Hs Hdst Hl. unfold either_copyout, curp, myproc, bind, gets. cbn [obind]. rewrite Hc.
  unfold the, ret. cbn [obind]. unfold get_proc. rewrite (arr_get_run "proc" g_procs p s pr Hp). cbn [obind].
  destruct L as [|T]; cbn [in_user].
  - exists 0, (length l), (storen (g_pmem s) dst l). rewrite firstn_all. split_and!; try done. by left.
  - destruct Hs as (pr' & Hp' & Hu). assert (pr' = pr) as -> by congruence.
    destruct (copyout_run (p_pagetable pr) T dst l s Hu Hdst (Hl eq_refl)) as (r & k & m' & E & Hu' & Hw & Hall & Hr).
    exists r, k, m'. split_and!; try done. by exists pr.
Qed.

Lemma either_copyin_run L p s src len :
  g_curproc s = Some p -> is_Some (g_procs s !! p) -> space_of p L s -> 0 <= src < 2 ^ 64 -> 0 <= len ->
  exists r k, either_copyin (in_user L) src len s = Ret (r, rbytes L (g_pmem s) src k) s /\
    (forall i, 0 <= i < Z.of_nat k -> can_read L (g_pmem s) (src + i) = true) /\
    ((r = 0 /\ Z.of_nat k = len) \/ (r = -1 /\ Z.of_nat k < len /\ can_read L (g_pmem s) (src + Z.of_nat k) = false)).
Proof.
  intros Hc [pr Hp] Hs Hsrc Hlen. unfold either_copyin, curp, myproc, bind, gets. cbn [obind]. rewrite Hc.
  unfold the, ret. cbn [obind]. unfold get_proc. rewrite (arr_get_run "proc" g_procs p s pr Hp). cbn [obind].
  destruct L as [|T]; cbn [in_user].
  - exists 0, (Z.to_nat len). rewrite rbytes_kernel. split_and!; try done. left. lia.
  - destruct Hs as (pr' & Hp' & Hu). assert (pr' = pr) as -> by congruence.
    by apply (copyin_run (p_pagetable pr) T src len s).
Qed.

(** When every byte may be read the copy succeeds. *)
Lemma either_copyin_all L p s src len :
  g_curproc s = Some p -> is_Some (g_procs s !! p) -> space_of p L s -> 0 <= src < 2 ^ 64 -> 0 <= len ->
  (forall i, 0 <= i < len -> can_read L (g_pmem s) (src + i) = true) ->
  either_copyin (in_user L) src len s = Ret (0, rbytes L (g_pmem s) src (Z.to_nat len)) s.
Proof.
  intros Hc Hp Hs Hsrc Hlen Hall. destruct (either_copyin_run L p s src len) as (r & k & -> & _ & Hr); try done.
  destruct Hr as [[-> <-]|(_ & Hk & Hf)]; [by rewrite Nat2Z.id|]. rewrite Hall in Hf by lia. done.
Qed.
End copies.
