(* ===== verification/Uart.v ===== *)
(** * The serial port: kernel/uart.c

    The device is the last part of the state: [thr_idle] is the
    [LSR_TX_IDLE] bit, [rhr] the input characters waiting in the receive FIFO,
    and [thr_out] everything written to the transmit holding register.  Writing
    a character makes the device busy; [tx_done] is the device's own step back
    to idle (it then raises an interrupt). *)

From Stdlib Require Import ZArith Lia.
From stdpp Require Import base list gmap strings numbers option.
From S2P Require Import Prelude Bytes Riscv Kstate Sched.

Definition UART_TX_BUF_SIZE : Z := 32.

Definition upd_uart (f : uart -> uart) : M unit := modify (fun s => set_kuart (f (kuart s)) s).

(** [WriteReg(THR, c)] *)
Definition write_thr (c : Z) : M unit :=
  upd_uart (fun u => set_thr_idle false (set_thr_out (thr_out u ++ [u8 c]) u)).

(** The device has sent the character and is idle again. *)
Definition tx_done (u : uart) : uart := set_thr_idle true u.

(** A register write of [uartinit]. *)
Inductive uart_reg := R_IER | R_LCR | R_0 | R_1 | R_FCR.

(** The sequence of register writes of [uartinit]. *)
Definition uartinit_writes : list (uart_reg * Z) :=
  [ (R_IER, 0x00); (R_LCR, Z.shiftl 1 7); (R_0, 0x03); (R_1, 0x00);
    (R_LCR, Z.shiftl 3 0); (R_FCR, Z.lor (Z.shiftl 1 0) (Z.shiftl 3 1));
    (R_IER, Z.lor (Z.shiftl 1 1) (Z.shiftl 1 0)) ].

(** Resetting the FIFOs drops input that is waiting. *)
Definition uartinit : M unit :=
  upd_uart (set_rhr []) ;;
  modify (fun s => put_locks (delete LUart (g_locks s)) s).

(** One turn of the loop of [uartstart]: [inr] returns. *)
Definition uartstart_body (_ : unit) : M (unit + unit) :=
  u <- gets kuart ;;
  if tx_w u =? tx_r u then ret (inr tt) else
  if negb (thr_idle u) then ret (inr tt) else
  c <- the "uart_tx_buf" (tx_buf u !! Z.to_nat (tx_r u mod UART_TX_BUF_SIZE)) ;;
  upd_uart (set_tx_r (u64 (tx_r u + 1))) ;;
  wakeup ChUart ;;
  write_thr c ;;
  ret (inl tt).

Definition uartstart : M unit := loop (S (Z.to_nat UART_TX_BUF_SIZE)) uartstart_body tt.

(** One turn of the wait for space in [uartputc]. *)
Definition uart_wait (_ : unit) : M (unit + unit) :=
  u <- gets kuart ;;
  if tx_w u =? u64 (tx_r u + UART_TX_BUF_SIZE)
  then sleep ChUart LUart ;; ret (inl tt) else ret (inr tt).

Definition uartputc (c : Z) : M unit :=
  lock_acquire LUart ;;
  loop sleep_fuel uart_wait tt ;;
  u <- gets kuart ;;
  upd_uart (set_tx_buf (<[Z.to_nat (tx_w u mod UART_TX_BUF_SIZE) := u8 c]> (tx_buf u))) ;;
  upd_uart (set_tx_w (u64 (tx_w u + 1))) ;;
  uartstart ;;
  lock_release LUart.

(** [while((ReadReg(LSR) & LSR_TX_IDLE) == 0) ;] ends when the device is idle. *)
Definition uartputc_sync (c : Z) : M unit :=
  upd_uart tx_done ;;
  write_thr c.

Definition uartgetc : M Z :=
  u <- gets kuart ;;
  match rhr u with
  | c :: l => upd_uart (set_rhr l) ;; ret c
  | [] => ret (-1)
  end.
