(* ===== verification/UartSpec.v ===== *)
(** * The serial port sends every character once and in order

    [uq] is the queue the ring buffer of kernel/uart.c represents.  Whatever
    sequence of [uartputc] calls (which sleep while the buffer is full), transmissions and
    interrupts happens, the characters handed to the device followed by the queue are the
    characters put, in order. *)

From Stdlib Require Import ZArith Lia.
From stdpp Require Import base list gmap strings numbers option.
From S2P Require Import Prelude Bytes Riscv Kstate Sched Uart.

(** The character at (unreduced) index [i]. *)
Definition uart_at (u : uart) (i : Z) : Z := default 0 (tx_buf u !! Z.to_nat (i mod 32)).

(** The [n] characters from index [r] on. *)
Fixpoint uq_from (u : uart) (n : nat) (r : Z) : list Z :=
  match n with O => [] | S n' => uart_at u r :: uq_from u n' (r + 1) end.

Definition uq (u : uart) : list Z := uq_from u (Z.to_nat (tx_w u - tx_r u)) (tx_r u).

(** The ring is well formed; the 64-bit indices have not wrapped yet. *)
Record uart_ok (u : uart) : Prop := {
  uo_len : length (tx_buf u) = 32%nat;
  uo_r : 0 <= tx_r u;
  uo_w : tx_r u <= tx_w u <= tx_r u + 32;
  uo_max : tx_w u < 2 ^ 64 - 33;
  uo_bytes : Forall (fun c => u8 c = c) (tx_buf u)
}.

(** Everything handed to the device or still to be handed to it. *)
Definition sent (u : uart) : list Z := thr_out u ++ uq u.

Lemma length_uq_from u n r : length (uq_from u n r) = n.
Proof. revert r. induction n; intros r; simpl; auto. Qed.

Lemma uq_from_snoc u n r : uq_from u (S n) r = uq_from u n r ++ [uart_at u (r + Z.of_nat n)].
Proof.
  revert r. induction n as [|n IH]; intros r.
  - simpl. by rewrite Z.add_0_r.
  - change (uq_from u (S (S n)) r) with (uart_at u r :: uq_from u (S n) (r + 1)).
    rewrite IH. replace (r + Z.of_nat (S n)) with (r + 1 + Z.of_nat n) by lia. done.
Qed.

Lemma uq_from_ext u u' n r :
  (forall i, r <= i < r + Z.of_nat n -> uart_at u' i = uart_at u i) -> uq_from u' n r = uq_from u n r.
Proof.
  revert r. induction n as [|n IH]; intros r H; simpl; [done|]. f_equal.
  - apply H. lia.
  - apply IH. intros i Hi. apply H. lia.
Qed.

(** Taking the first character. *)
Lemma uq_pop u c :
  uart_ok u -> tx_w u <> tx_r u -> c = uart_at u (tx_r u) ->
  uq u = c :: uq (set_tx_r (tx_r u + 1) u) /\ uart_ok (set_tx_r (tx_r u + 1) u).
Proof.
  intros [Hl Hr Hw Hm Hb] Hne ->. split.
  - unfold uq. simpl. replace (Z.to_nat (tx_w u - tx_r u)) with (S (Z.to_nat (tx_w u - (tx_r u + 1)))) by lia.
    simpl. f_equal. apply uq_from_ext. done.
  - split; simpl; try done; lia.
Qed.

(** Adding a character at the end. *)
Lemma uq_push u c :
  uart_ok u -> u8 c = c -> tx_w u < tx_r u + 32 -> tx_w u + 1 < 2 ^ 64 - 33 ->
  let u' := set_tx_w (tx_w u + 1) (set_tx_buf (<[Z.to_nat (tx_w u mod 32) := c]> (tx_buf u)) u) in
  uq u' = uq u ++ [c] /\ uart_ok u'.
Proof.
  intros [Hl Hr Hw Hm Hb] Hc Hlt Hmax u'.
  assert (0 <= tx_w u mod 32 < 32) as Hmod by (apply Z.mod_pos_bound; lia).
  assert (forall i, tx_r u <= i < tx_w u -> uart_at u' i = uart_at u i) as Hold.
  { intros i Hi. unfold uart_at, u'. simpl. rewrite list_lookup_insert_ne; [done|].
    intros E. assert (tx_w u mod 32 = i mod 32) as E' by (pose proof (Z.mod_pos_bound i 32); lia).
    zlia. }
  split.
  - unfold uq. change (tx_w u') with (tx_w u + 1). change (tx_r u') with (tx_r u).
    replace (Z.to_nat (tx_w u + 1 - tx_r u)) with (S (Z.to_nat (tx_w u - tx_r u))) by lia.
    rewrite uq_from_snoc. f_equal.
    + apply uq_from_ext. intros i Hi. apply Hold. lia.
    + replace (tx_r u + Z.of_nat (Z.to_nat (tx_w u - tx_r u))) with (tx_w u) by lia.
      unfold uart_at, u'. simpl. rewrite list_lookup_insert_eq by lia. done.
  - split; simpl; try lia; [by rewrite length_insert|]. by apply Forall_insert.
Qed.

(** ** The code *)

(** The device takes the next character when it is idle. *)
Definition uart_advance (u : uart) : uart :=
  if (tx_w u =? tx_r u) || negb (thr_idle u) then u
  else set_thr_idle false (set_thr_out (thr_out u ++ [u8 (uart_at u (tx_r u))])
         (set_tx_r (tx_r u + 1) u)).

Lemma uart_advance_busy u : tx_w u <> tx_r u -> thr_idle (uart_advance u) = false.
Proof.
  intros H. unfold uart_advance. destruct (Z.eqb_spec (tx_w u) (tx_r u)); [done|].
  by destruct (thr_idle u) eqn:E.
Qed.

Lemma upd_uart_run f s : upd_uart f s = Ret tt (set_kuart (f (kuart s)) s).
Proof. done. Qed.

(** A turn of the loop of [uartstart] with nothing to send, or a busy device. *)
Lemma uart_body_stop s :
  tx_w (kuart s) = tx_r (kuart s) \/ thr_idle (kuart s) = false -> uartstart_body tt s = Ret (inr tt) s.
Proof.
  intros H. unfold uartstart_body, bind, gets. cbn [obind].
  destruct (Z.eqb_spec (tx_w (kuart s)) (tx_r (kuart s))); [done|].
  destruct (thr_idle (kuart s)); [naive_solver|done].
Qed.

(** A turn that hands a character to the device. *)
Lemma uart_body_go s :
  uart_ok (kuart s) -> length (g_procs s) = NPROC -> procs_unlocked s ->
  tx_w (kuart s) <> tx_r (kuart s) -> thr_idle (kuart s) = true ->
  uartstart_body tt s = Ret (inl tt) (set_kuart (uart_advance (kuart s))
    (put_procs (imap (wake ChUart (g_curproc s)) (g_procs s)) s)).
Proof.
  intros [Hl Hr Hw Hm _] Hlen Hu Hne Hi. unfold uartstart_body, uart_advance.
  assert (0 <= tx_r (kuart s) mod 32 < 32) as Hmod by (apply Z.mod_pos_bound; lia).
  destruct (lookup_lt_is_Some_2 (tx_buf (kuart s)) (Z.to_nat (tx_r (kuart s) mod 32))) as [c Hc]; [lia|].
  rewrite (bind_run (gets kuart) _ s _ s eq_refl). cbv beta.
  destruct (Z.eqb_spec (tx_w (kuart s)) (tx_r (kuart s))); [done|]. rewrite Hi. cbn [negb orb].
  change UART_TX_BUF_SIZE with 32. unfold the. rewrite Hc.
  rewrite bind_ret_l, (bind_run _ _ _ _ _ (upd_uart_run _ _)).
  rewrite (bind_run _ _ _ _ _ (wakeup_run ChUart (set_kuart _ s) Hlen Hu)).
  unfold write_thr. rewrite (bind_run _ _ _ _ _ (upd_uart_run _ _)). unfold ret, uart_at. rewrite Hc.
  rewrite u64_small by lia. done.
Qed.

(** [uartstart] hands at most one character to the device: writing it makes
    the device busy, so the second turn of the loop stops. *)
Lemma uartstart_run s :
  uart_ok (kuart s) -> length (g_procs s) = NPROC -> procs_unlocked s ->
  exists ps, uartstart s = Ret tt (set_kuart (uart_advance (kuart s)) (put_procs ps s)) /\
    length ps = NPROC /\
    (tx_w (kuart s) <> tx_r (kuart s) -> thr_idle (kuart s) = true -> ps = imap (wake ChUart (g_curproc s)) (g_procs s)).
Proof.
  intros Hok Hlen Hu. unfold uartstart. change (Z.to_nat UART_TX_BUF_SIZE) with 32%nat. cbn [loop].
  destruct (decide (tx_w (kuart s) = tx_r (kuart s) \/ thr_idle (kuart s) = false)) as [Hs|Hs].
  - exists (g_procs s). split; [|split; [done|intros ? ?; destruct Hs; congruence]]. rewrite (bind_run _ _ _ _ _ (uart_body_stop s Hs)).
    rewrite put_procs_id. unfold uart_advance, ret. replace (_ || _) with true; [by destruct s|].
    symmetry. destruct Hs as [Hs|Hs]; rewrite Hs; [by rewrite Z.eqb_refl|by rewrite orb_true_r].
  - assert (thr_idle (kuart s) = true) as Hi by (destruct (thr_idle (kuart s)); naive_solver).
    assert (tx_w (kuart s) <> tx_r (kuart s)) as Hne by naive_solver.
    exists (imap (wake ChUart (g_curproc s)) (g_procs s)). split; [|split; [by rewrite length_imap|done]].
    rewrite (bind_run _ _ _ _ _ (uart_body_go s Hok Hlen Hu Hne Hi)). cbv beta iota.
    rewrite (bind_run _ _ _ _ _ (uart_body_stop (set_kuart _ _) (or_intror (uart_advance_busy _ Hne)))).
    done.
Qed.

(** Handing a character over does not change what is sent. *)
Lemma uart_advance_sent u : uart_ok u -> sent (uart_advance u) = sent u /\ uart_ok (uart_advance u).
Proof.
  intros Hok. unfold uart_advance. destruct (Z.eqb_spec (tx_w u) (tx_r u)) as [|Hne]; [done|].
  destruct (thr_idle u); [|done]. cbn [orb negb].
  destruct (uq_pop u _ Hok Hne eq_refl) as [Eq [? ? ? ? ?]]. unfold sent. split; [|by split].
  rewrite Eq. simpl. rewrite <- app_assoc. simpl. do 2 f_equal; [|by apply uq_from_ext].
  unfold uart_at. destruct (tx_buf u !! _) as [c|] eqn:E; [|done].
  simpl. by apply (Forall_lookup_1 _ _ _ _ (uo_bytes _ Hok) E).
Qed.

Lemma tx_done_sent u : uart_ok u -> sent (tx_done u) = sent u /\ uart_ok (tx_done u).
Proof.
  intros [? ? ? ? ?]. split; [|by split]. unfold sent, uq. simpl. f_equal. by apply uq_from_ext.
Qed.

(** What the transmit side needs of the rest of the state. *)
Record uart_ready (s : kstate) : Prop := {
  ur_ok : uart_ok (kuart s);
  ur_locks : g_locks s = ∅;
  ur_procs : length (g_procs s) = NPROC
}.

(** The part of [uartintr] that sends buffered characters. *)
Definition uartintr_tx : M unit := lock_acquire LUart ;; uartstart ;; lock_release LUart.

Lemma uartintr_tx_run s :
  uart_ready s -> exists ps, length ps = NPROC /\
    uartintr_tx s = Ret tt (set_kuart (uart_advance (kuart s)) (put_procs ps s)) /\
    (tx_w (kuart s) <> tx_r (kuart s) -> thr_idle (kuart s) = true -> ps = imap (wake ChUart (g_curproc s)) (g_procs s)).
Proof.
  intros [Hok HL Hlen]. unfold uartintr_tx.
  assert (forall l, lock_free l s) as Hf by (intros l; unfold lock_free; by rewrite HL).
  rewrite (bind_run _ _ _ _ _ (lock_acquire_run _ _ (Hf LUart))).
  destruct (uartstart_run (put_locks (<[LUart := g_hart s]> (g_locks s)) s)) as (ps & E & Hps & Hw); try done.
  { intros i. unfold lock_free. kget. rewrite lookup_insert_ne by done. apply Hf. }
  rewrite (bind_run _ _ _ _ _ E). exists ps. split; [done|]. split; [|exact Hw]. krelease (Hf LUart). f_equal. kstate_eq.
Qed.

(** What [uartputc] does once there is room, with the lock held. *)
Definition put_tail (c : Z) : M unit :=
  u <- gets kuart ;;
  upd_uart (set_tx_buf (<[Z.to_nat (tx_w u mod UART_TX_BUF_SIZE) := u8 c]> (tx_buf u))) ;;
  upd_uart (set_tx_w (u64 (tx_w u + 1))) ;;
  uartstart ;;
  lock_release LUart.

(** The rest of [uartputc], [n] wake-ups before the model stops. *)
Definition put_from (n : nat) (c : Z) : M unit := loop n uart_wait tt ;; put_tail c.

Lemma uartputc_eq c s : g_locks s = ∅ -> uartputc c s = put_from sleep_fuel c (put_locks {[LUart := g_hart s]} s).
Proof.
  intros HL. unfold uartputc. rewrite (bind_run _ _ _ _ _ (lock_acquire_run LUart s ltac:(unfold lock_free; by rewrite HL))).
  rewrite HL, insert_empty. done.
Qed.

(** With room. *)
Lemma put_from_run n c s :
  uart_ok (kuart s) -> length (g_procs s) = NPROC -> g_locks s = {[LUart := g_hart s]} ->
  tx_w (kuart s) <> tx_r (kuart s) + 32 -> tx_w (kuart s) + 1 < 2 ^ 64 - 33 ->
  exists ps u, length ps = NPROC /\ put_from (S n) c s = Ret tt (set_kuart u (put_procs ps (put_locks ∅ s))) /\
    uart_ok u /\ sent u = sent (kuart s) ++ [u8 c] /\ tx_w u = tx_w (kuart s) + 1.
Proof.
  intros Hok Hlen HL Hroom Hmax. unfold put_from.
  assert (loop (S n) uart_wait tt s = Ret tt s) as Ew.
  { cbn [loop]. unfold uart_wait. unfold bind at 1. unfold bind at 1. unfold gets. cbn [obind].
    change UART_TX_BUF_SIZE with 32. destruct Hok as [? ? ? ? _].
    rewrite u64_small by lia. destruct (Z.eqb_spec (tx_w (kuart s)) (tx_r (kuart s) + 32)); [lia|done]. }
  rewrite (bind_run _ _ _ _ _ Ew). unfold put_tail. rewrite (bind_run (gets kuart) _ s _ s eq_refl).
  do 2 rewrite (bind_run _ _ _ _ _ (upd_uart_run _ _)).
  rewrite u64_small by (destruct Hok; lia). change UART_TX_BUF_SIZE with 32. kget.
  destruct (uq_push (kuart s) (u8 c)) as [Hq Hok1]; try done.
  { apply u8_small, u8_range. } { destruct Hok. lia. }
  match goal with |- context [set_kuart ?v (set_kuart _ s)] => set (u1 := v) in * end.
  destruct (uartstart_run (set_kuart u1 s)) as (ps & E & Hps & _); try done.
  { intros i. unfold lock_free. kget. rewrite HL. by apply lookup_singleton_ne. }
  change (set_kuart u1 (set_kuart _ s)) with (set_kuart u1 s).
  rewrite (bind_run _ _ _ _ _ E). exists ps, (uart_advance u1). split; [done|]. split.
  { rewrite (lock_release_section LUart (g_hart s) ∅); [done| |done|done]. kget. by rewrite HL, insert_empty. }
  destruct (uart_advance_sent u1 Hok1) as [-> ?]. split; [done|]. split.
  - unfold sent. rewrite Hq. by rewrite app_assoc.
  - unfold uart_advance. by destruct (_ || _).
Qed.

(** With a full buffer the caller sleeps, with the serial port's lock released; resumed, it looks again. *)
Lemma put_from_full n c p pr s :
  uart_ok (kuart s) -> g_curproc s = Some p -> g_procs s !! p = Some pr -> g_locks s = {[LUart := g_hart s]} ->
  tx_w (kuart s) = tx_r (kuart s) + 32 ->
  exists k, put_from (S n) c s = Switch (put_procs (<[p := asleep ChUart pr]> (g_procs s)) (put_locks {[LProc p := g_hart s]} s)) k /\
    forall s' pr', g_procs s' !! p = Some pr' -> g_locks s' = {[LProc p := g_hart s']} ->
      k s' = put_from n c (put_procs (<[p := set_p_chan None pr']> (g_procs s')) (put_locks {[LUart := g_hart s']} s')).
Proof.
  intros Hok Hc Hp HL Hfull. destruct (sleep_run ChUart LUart p pr s Hc Hp ltac:(done) HL) as (k & E & Hk).
  eexists. split.
  - unfold put_from. unfold bind at 1. cbn [loop]. unfold bind at 1. unfold uart_wait at 1. unfold bind at 1, gets. cbn [obind].
    change UART_TX_BUF_SIZE with 32. destruct Hok as [? ? ? ? _]. rewrite u64_small by lia.
    rewrite (proj2 (Z.eqb_eq _ _) Hfull). unfold bind at 1. rewrite E. cbn [obind]. reflexivity.
  - intros s' pr' Hp' HL'. cbv beta. rewrite (Hk s' pr' Hp' HL'). reflexivity.
Qed.

(** ** Sequences of events

    A call of [uartputc] in a process either returns or gives up the CPU because the buffer is full; then it
    is [blocked], with the character and what is left to execute, until the scheduler runs its
    process again.  Between these, the device finishes sending a character, and the
    transmit half of the interrupt handler runs, on any hart and with any process current.  All of them run under
    [uart_tx_lock], so they do not overlap.  The label is what an event adds to the output. *)
Record blocked := mk_blocked { bl_proc : nat; bl_char : Z; bl_rest : kstate -> outcome kstate unit }.

Definition as_proc (h : Z) (o : option nat) (s : kstate) : kstate := put_hart h (put_curproc o s).

Inductive uart_event : list Z -> kstate * list blocked -> kstate * list blocked -> Prop :=
| ue_put h p c s s' B : (p < NPROC)%nat -> uartputc c (as_proc h (Some p) s) = Ret tt s' ->
    uart_event [u8 c] (s, B) (s', B)
| ue_block h p c s s1 s2 k B : (p < NPROC)%nat -> uartputc c (as_proc h (Some p) s) = Switch s1 k -> scheduler_leave p s1 = Ret tt s2 ->
    uart_event [] (s, B) (s2, B ++ [mk_blocked p c k])
| ue_resume h b s s1 s2 B1 B2 : scheduler_enter (bl_proc b) (as_proc h None s) = Ret true s1 -> bl_rest b s1 = Ret tt s2 ->
    uart_event [u8 (bl_char b)] (s, B1 ++ b :: B2) (s2, B1 ++ B2)
| ue_again h b s s1 s2 s3 k B1 B2 : scheduler_enter (bl_proc b) (as_proc h None s) = Ret true s1 ->
    bl_rest b s1 = Switch s2 k -> scheduler_leave (bl_proc b) s2 = Ret tt s3 ->
    uart_event [] (s, B1 ++ b :: B2) (s3, B1 ++ mk_blocked (bl_proc b) (bl_char b) k :: B2)
| ue_done s B : uart_event [] (s, B) (set_kuart (tx_done (kuart s)) s, B)
| ue_intr h o s s' B : uartintr_tx (as_proc h o s) = Ret tt s' -> uart_event [] (s, B) (s', B).

Inductive uart_trace : list Z -> kstate * list blocked -> kstate * list blocked -> Prop :=
| ut_nil x : uart_trace [] x x
| ut_snoc l l' x y z : uart_trace l x y -> uart_event l' y z -> uart_trace (l ++ l') x z.

(** A blocked call is somewhere in its loop. *)
Definition in_loop (b : blocked) : Prop := exists n, forall s pr,
  g_procs s !! bl_proc b = Some pr -> g_locks s = {[LProc (bl_proc b) := g_hart s]} ->
  bl_rest b s = put_from n (bl_char b) (put_procs (<[bl_proc b := set_p_chan None pr]> (g_procs s)) (put_locks {[LUart := g_hart s]} s)).

Lemma uart_ready_step s u ps :
  uart_ready s -> length ps = NPROC -> uart_ok u -> uart_ready (set_kuart u (put_procs ps s)).
Proof. intros [? ? ?] ? ?. by split. Qed.

Lemma uart_advance_w u : tx_w (uart_advance u) = tx_w u.
Proof. unfold uart_advance. by destruct (_ || _). Qed.

(** A turn of a call that holds the lock: it stores the character exactly if there is room. *)
Lemma put_turn n c p pr s :
  uart_ok (kuart s) -> length (g_procs s) = NPROC -> g_locks s = {[LUart := g_hart s]} ->
  g_curproc s = Some p -> g_procs s !! p = Some pr -> tx_w (kuart s) + 1 < 2 ^ 64 - 33 ->
  match put_from n c s with
  | Ret _ s' => uart_ready s' /\ sent (kuart s') = sent (kuart s) ++ [u8 c] /\ tx_w (kuart s') = tx_w (kuart s) + 1
  | Switch s1 k => in_loop (mk_blocked p c k) /\ forall s2, scheduler_leave p s1 = Ret tt s2 ->
      uart_ready s2 /\ kuart s2 = kuart s
  | Fail _ => True
  end.
Proof.
  intros Hok Hlen HL Hc Hp Hm. destruct n as [|n]; [done|].
  destruct (decide (tx_w (kuart s) = tx_r (kuart s) + 32)) as [Hf|Hf].
  - destruct (put_from_full n c p pr s) as (k & -> & Hk); try done. split; [by exists n|].
    intros s2 E. rewrite (scheduler_leave_run p _ ∅) in E by done. injection E as <-.
    split; [|done]. split; [done|done|]. kget. by rewrite length_insert.
  - destruct (put_from_run n c s) as (ps & u & Hps & -> & Hu & Hs & Hw); try done.
Qed.

Lemma put_ready c h p s pr : uart_ready s -> g_procs s !! p = Some pr ->
  uartputc c (as_proc h (Some p) s) = put_from sleep_fuel c (put_locks {[LUart := h]} (as_proc h (Some p) s)).
Proof. intros [_ HL _] _. by apply uartputc_eq. Qed.

(** A blocked call that is run again is back in its loop. *)
Lemma resume_run b h s s1 : uart_ready s -> in_loop b -> scheduler_enter (bl_proc b) (as_proc h None s) = Ret true s1 ->
  exists n pr s1', bl_rest b s1 = put_from n (bl_char b) s1' /\ kuart s1' = kuart s /\ length (g_procs s1') = NPROC /\
    g_locks s1' = {[LUart := g_hart s1']} /\ g_curproc s1' = Some (bl_proc b) /\ g_procs s1' !! bl_proc b = Some pr.
Proof.
  intros [Hok HL Hlen] (n & Hn) E. destruct (scheduler_enter_true _ _ _ E HL) as (pr & Hpr & _ & ->).
  pose proof (lookup_lt_Some _ _ _ Hpr) as Hlt. change (g_procs (as_proc h None s)) with (g_procs s) in *.
  exists n. eexists. eexists. split; [apply (Hn _ (set_p_state RUNNING pr)); [|done]|].
  - kget. by apply list_lookup_insert_eq.
  - split; [done|]. kget. split; [by rewrite !length_insert|]. split; [done|]. split; [done|].
    apply list_lookup_insert_eq. by rewrite length_insert.
Qed.

Lemma uart_event_keeps l s B s' B' :
  uart_event l (s, B) (s', B') -> uart_ready s -> Forall in_loop B -> tx_w (kuart s) + Z.of_nat (length l) + 1 < 2 ^ 64 - 33 ->
  uart_ready s' /\ Forall in_loop B' /\ sent (kuart s') = sent (kuart s) ++ l /\
  tx_w (kuart s') = tx_w (kuart s) + Z.of_nat (length l).
Proof.
  intros He Hr HB Hmax. remember (s, B) as x eqn:Ex. remember (s', B') as y eqn:Ey.
  assert (forall h p c, (p < NPROC)%nat -> exists pr s1, uartputc c (as_proc h (Some p) s) = put_from sleep_fuel c s1 /\
    kuart s1 = kuart s /\ length (g_procs s1) = NPROC /\ g_locks s1 = {[LUart := g_hart s1]} /\
    g_curproc s1 = Some p /\ g_procs s1 !! p = Some pr) as Hput.
  { intros h p c Hp. destruct Hr as [_ HL Hlen]. destruct (lookup_lt_is_Some_2 (g_procs s) p) as [pr Hpr]; [lia|].
    eexists pr, _. split; [by apply uartputc_eq|done]. }
  destruct He as [h p c s0 s1 B0 Hp E|h p c s0 s1 s2 k B0 Hp E El|h b s0 s1 s2 B1 B2 Ee E|h b s0 s1 s2 s3 k B1 B2 Ee E El|s0 B0|h o s0 s1 B0 E];
    injection Ex as -> <-; injection Ey as <- <-; simpl in Hmax.
  - destruct (Hput h p c Hp) as (pr & t & Et & Ku & K1 & K2 & K3 & K4).
    pose proof (put_turn sleep_fuel c p pr t ltac:(rewrite Ku; apply Hr) K1 K2 K3 K4 ltac:(rewrite Ku; lia)) as H. rewrite <- Et, E, Ku in H. destruct H as (? & ? & ?).
    split_and!; try done.
  - destruct (Hput h p c Hp) as (pr & t & Et & Ku & K1 & K2 & K3 & K4).
    pose proof (put_turn sleep_fuel c p pr t ltac:(rewrite Ku; apply Hr) K1 K2 K3 K4 ltac:(rewrite Ku; lia)) as H. rewrite <- Et, E, Ku in H. destruct H as (Hin & H).
    destruct (H _ El) as (? & ->). rewrite app_nil_r, Z.add_0_r. split_and!; try done. apply Forall_app. by split; [|constructor].
  - apply Forall_app in HB as [HB1 HB2]. inversion HB2 as [|? ? Hb HB2']; subst. clear HB2. rename HB2' into HB2.
    destruct (resume_run b h s s1 Hr Hb Ee) as (n & pr & t & Et & Ku & K1 & K2 & K3 & K4).
    pose proof (put_turn n (bl_char b) (bl_proc b) pr t ltac:(rewrite Ku; apply Hr) K1 K2 K3 K4 ltac:(rewrite Ku; lia)) as H. rewrite <- Et, E, Ku in H.
    destruct H as (? & ? & ?). split_and!; try done. apply Forall_app. done.
  - apply Forall_app in HB as [HB1 HB2]. inversion HB2 as [|? ? Hb HB2']; subst. clear HB2. rename HB2' into HB2.
    destruct (resume_run b h s s1 Hr Hb Ee) as (n & pr & t & Et & Ku & K1 & K2 & K3 & K4).
    pose proof (put_turn n (bl_char b) (bl_proc b) pr t ltac:(rewrite Ku; apply Hr) K1 K2 K3 K4 ltac:(rewrite Ku; lia)) as H. rewrite <- Et, E, Ku in H.
    destruct H as (Hin & H).
    destruct (H _ El) as (? & ->). rewrite app_nil_r, Z.add_0_r. split_and!; try done. apply Forall_app. split; [done|]. by constructor.
  - destruct Hr as [Hok ? ?]. destruct (tx_done_sent _ Hok) as [E ?].
    split; [by split|]. kget. rewrite E, app_nil_r, Z.add_0_r. done.
  - assert (uart_ready (as_proc h o s)) as Hr' by (destruct Hr; by split).
    destruct (uartintr_tx_run _ Hr') as (ps & Hps & E' & _). rewrite E in E'. injection E' as ->.
    destruct (uart_advance_sent _ (ur_ok _ Hr)) as [Es Hok]. split; [by apply uart_ready_step|]. split; [done|].
    kget. change (kuart (as_proc h o s)) with (kuart s). rewrite Es, uart_advance_w, app_nil_r, Z.add_0_r. done.
Qed.

Lemma uart_trace_keeps l x y :
  uart_trace l x y -> uart_ready x.1 -> Forall in_loop x.2 -> tx_w (kuart x.1) + Z.of_nat (length l) + 1 < 2 ^ 64 - 33 ->
  uart_ready y.1 /\ Forall in_loop y.2 /\ sent (kuart y.1) = sent (kuart x.1) ++ l /\
  tx_w (kuart y.1) = tx_w (kuart x.1) + Z.of_nat (length l).
Proof.
  induction 1 as [x|l l' x [s1 B1] [s2 B2] H IH E]; intros Hr HB Hmax.
  - rewrite app_nil_r. simpl. rewrite Z.add_0_r. done.
  - rewrite length_app, Nat2Z.inj_add in Hmax |- *.
    destruct IH as (Hr1 & HB1 & Hs1 & Hw1); [done|done|lia|]. simpl in *.
    destruct (uart_event_keeps _ _ _ _ _ E Hr1 HB1) as (Hr2 & HB2 & Hs2 & Hw2); [lia|].
    split; [done|]. split; [done|]. split; [|lia]. by rewrite Hs2, Hs1, app_assoc.
Qed.

(** A call can always be completed: at once if there is room, otherwise after the device has sent a
    character and raised its interrupt. *)
Lemma put_completes (h : Z) p c s B :
  uart_ready s -> (p < NPROC)%nat -> tx_w (kuart s) + 1 < 2 ^ 64 - 33 -> exists s', uart_trace [u8 c] (s, B) (s', B).
Proof.
  intros Hr Hp Hmax. pose proof (ur_locks _ Hr) as HL. pose proof (ur_procs _ Hr) as Hlen.
  destruct (lookup_lt_is_Some_2 (g_procs s) p) as [pr Hpr]; [lia|].
  set (s1 := put_locks {[LUart := h]} (as_proc h (Some p) s)).
  pose proof (uartputc_eq c (as_proc h (Some p) s) HL) as E. fold s1 in E.
  destruct (decide (tx_w (kuart s) = tx_r (kuart s) + 32)) as [Hf|Hf].
  2: { destruct (put_from_run 7 c s1) as (ps & u & _ & E1 & _); [apply Hr|done|done|done|done|].
       eexists. apply (ut_snoc [] [u8 c] _ (s, B)); [apply ut_nil|]. eapply (ue_put h p); [done|]. exact (eq_trans E E1). }
  destruct (put_from_full 7 c p pr s1) as (k & E1 & Hk); [apply Hr|done|done|done|done|].
  set (s2 := put_procs _ (put_locks _ s1)) in E1. set (s3 := put_curproc None (put_locks ∅ s2)).
  assert (scheduler_leave p s2 = Ret tt s3) as E2 by (by apply scheduler_leave_run).
  set (s4 := set_kuart (tx_done (kuart s3)) s3).
  assert (uart_ready (as_proc h None s4)) as Hr4.
  { split; [by apply tx_done_sent, Hr|done|]. unfold s4, s3, s2. cbn. by rewrite length_insert. }
  destruct (uartintr_tx_run _ Hr4) as (ps & Hps & E3 & Hw). set (s5 := set_kuart _ _) in E3.
  assert (ps = imap (wake ChUart None) (<[p := asleep ChUart pr]> (g_procs s))) as Eps.
  { apply Hw; [|done]. change (tx_w (kuart s) <> tx_r (kuart s)). lia. }
  assert (ps !! p = Some (set_p_state RUNNABLE (asleep ChUart pr))) as Hp5.
  { rewrite Eps, list_lookup_imap, list_lookup_insert_eq by lia. done. }
  pose proof (scheduler_enter_run p _ (as_proc h None s5) Hp5 eq_refl eq_refl) as E4. set (s6 := put_curproc _ _) in E4.
  assert (g_procs s6 !! p = Some (set_p_state RUNNING (set_p_state RUNNABLE (asleep ChUart pr)))) as Hp6.
  { unfold s6. kget. apply list_lookup_insert_eq. by eapply lookup_lt_Some. }
  pose proof (Hk s6 _ Hp6 eq_refl) as E5. set (s7 := put_procs _ (put_locks _ s6)) in E5.
  assert (kuart s7 = uart_advance (tx_done (kuart s))) as Ku by done.
  assert (tx_r (kuart s7) = tx_r (kuart s) + 1 /\ tx_w (kuart s7) = tx_w (kuart s)) as [Kr Kw].
  { rewrite Ku. unfold uart_advance. simpl. by destruct (Z.eqb_spec (tx_w (kuart s)) (tx_r (kuart s))); [lia|]. }
  destruct (put_from_run 6 c s7) as (ps' & u & _ & E6 & _).
  - rewrite Ku. by apply uart_advance_sent, tx_done_sent, Hr.
  - unfold s7, s6. kget. rewrite !length_insert. exact Hps.
  - done.
  - lia.
  - lia.
  - exists (set_kuart u (put_procs ps' (put_locks ∅ s7))).
    apply (ut_snoc [] [u8 c] _ (s5, B ++ [mk_blocked p c k])); [|replace B with (B ++ []) at 2 by apply app_nil_r].
    + change (@nil Z) with (@nil Z ++ []). apply (ut_snoc _ _ _ (s4, B ++ [mk_blocked p c k])).
      * change (@nil Z) with (@nil Z ++ []). apply (ut_snoc _ _ _ (s3, B ++ [mk_blocked p c k])); [|apply ue_done].
        change (@nil Z) with (@nil Z ++ []). apply (ut_snoc _ _ _ (s, B)); [apply ut_nil|].
        eapply (ue_block h p); [done| |exact E2]. exact (eq_trans E E1).
      * by apply (ue_intr h None).
    + apply (ue_resume h (mk_blocked p c k) s5 s6 _ B []); [exact E4|]. exact (eq_trans E5 E6).
Qed.

(** Rounds of "the device finished, the interrupt handler runs". *)
Fixpoint uart_rounds (n : nat) (s : kstate) : outcome kstate unit :=
  match n with
  | O => Ret tt s
  | S n' => match uartintr_tx (set_kuart (tx_done (kuart s)) s) with
            | Ret _ s' => uart_rounds n' s'
            | o => o
            end
  end.

Lemma uart_round s c l :
  uart_ready s -> uq (kuart s) = c :: l ->
  exists s', uartintr_tx (set_kuart (tx_done (kuart s)) s) = Ret tt s' /\ uart_ready s' /\
    uq (kuart s') = l /\ sent (kuart s') = sent (kuart s).
Proof.
  intros Hr Hq. destruct (tx_done_sent _ (ur_ok _ Hr)) as [Ed Hd].
  assert (uart_ready (set_kuart (tx_done (kuart s)) s)) as Hr1 by (destruct Hr; by split).
  destruct (uartintr_tx_run _ Hr1) as (ps & Hps & E & _). eexists. split; [exact E|]. kget.
  destruct (uart_advance_sent _ Hd) as [Ea Ha]. split; [by apply uart_ready_step|].
  split; [|by rewrite Ea, Ed].
  assert (tx_w (kuart s) <> tx_r (kuart s)) as Hne.
  { intros E'. unfold uq in Hq. by rewrite E', Z.sub_diag in Hq. }
  destruct (uq_pop _ _ (ur_ok _ Hr) Hne eq_refl) as [E' _]. rewrite Hq in E'. injection E' as _ ->.
  unfold uart_advance. simpl. destruct (Z.eqb_spec (tx_w (kuart s)) (tx_r (kuart s))); [done|].
  by apply uq_from_ext.
Qed.

Lemma uart_rounds_drain n s :
  uart_ready s -> length (uq (kuart s)) = n ->
  exists s', uart_rounds n s = Ret tt s' /\ uq (kuart s') = [] /\ sent (kuart s') = sent (kuart s) /\
    uart_ready s'.
Proof.
  revert s. induction n as [|n IH]; intros s Hr Hn.
  - exists s. apply nil_length_inv in Hn. done.
  - destruct (uq (kuart s)) as [|c l] eqn:E; [done|]. injection Hn as Hn.
    destruct (uart_round s c l Hr E) as (s1 & E1 & Hr1 & Hq1 & Hs1). cbn [uart_rounds]. rewrite E1.
    destruct (IH s1 Hr1) as (s' & E' & Hq' & Hs'); [by rewrite Hq1|]. exists s'. rewrite <- Hs1. done.
Qed.

(** ** Theorems *)

(** [C37] Characters are sent once and in order, also when the buffer is full.  After any sequence of
    [uartputc] calls by any processes, each of which returned or sleeps for room, of transmissions
    completed by the device, transmit interrupts and resumed calls, what the device was given followed by what the
    ring buffer still holds is what it was before followed by exactly the characters of the calls that
    returned; and any further call can be completed from there, if need be after sleeping until
    the device has sent a character. *)
Theorem uart_in_order l s s' B' :
  uart_ready s -> tx_w (kuart s) + Z.of_nat (length l) + 1 < 2 ^ 64 - 33 -> uart_trace l (s, []) (s', B') ->
  sent (kuart s') = sent (kuart s) ++ l /\
  forall c, exists s'', uart_trace [u8 c] (s', B') (s'', B').
Proof.
  intros Hr Hmax Ht. destruct (uart_trace_keeps l _ _ Ht Hr (Forall_nil_2 _) Hmax) as (Hr' & _ & Hs & Hw).
  split; [exact Hs|]. intros c. apply (put_completes 0 0); [exact Hr'|unfold NPROC; lia|]. simpl in *. lia.
Qed.

(** Progress.  A buffer with [n] characters is empty after the device has
    completed [n] transmissions, each followed by the transmit interrupt, and the device
    was given all of them in order. *)
Theorem uart_drains s :
  uart_ready s ->
  exists s', uart_rounds (length (uq (kuart s))) s = Ret tt s' /\
    thr_out (kuart s') = thr_out (kuart s) ++ uq (kuart s) /\ tx_w (kuart s') = tx_r (kuart s').
Proof.
  intros Hr. destruct (uart_rounds_drain _ s Hr eq_refl) as (s' & E & Hq & Hs & Hr'). exists s'. split; [done|].
  unfold sent in Hs. rewrite Hq, app_nil_r in Hs. split; [done|].
  destruct (ur_ok _ Hr') as [_ _ Hw _ _]. apply (f_equal length) in Hq. unfold uq in Hq.
  rewrite length_uq_from in Hq. simpl in Hq. lia.
Qed.

Lemma boot_uart_ready u : uart_ok u -> uart_ready (set_kuart u boot).
Proof. intros Hu. by split. Qed.

(** The ring is full, the device is sending. *)
Definition uart_full : uart := set_tx_w 32 (set_tx_buf (replicate 32 104) (set_thr_idle false (kuart boot))).

Lemma uart_full_ok : uart_ok uart_full.
Proof.
  split; [reflexivity|simpl; lia..|]. change (tx_buf uart_full) with (replicate 32 104). by apply Forall_replicate.
Qed.

(** Process 0 puts a character into a full ring. *)
Lemma uart_in_order_witness :
  exists s', uart_trace [105] (set_kuart uart_full boot, []) (s', []) /\
    sent (kuart s') = replicate 32 104 ++ [105].
Proof.
  pose proof (boot_uart_ready uart_full uart_full_ok) as Hr.
  destruct (put_completes 0 0 105 (set_kuart uart_full boot) [] Hr) as (s' & Ht); [unfold NPROC; lia|simpl; lia|].
  exists s'. split; [exact Ht|]. apply (uart_in_order [105] (set_kuart uart_full boot) s' [] Hr); [simpl; lia|exact Ht].
Defined.

(** Two characters wait behind the one being sent. *)
Definition uart_busy : uart :=
  set_tx_w 2 (set_tx_buf (<[0%nat := 104]> (<[1%nat := 105]> (replicate 32 0))) (set_thr_idle false (kuart boot))).

Lemma uart_drains_witness :
  exists s', uart_rounds 2 (set_kuart uart_busy boot) = Ret tt s' /\
    thr_out (kuart s') = [104; 105] /\ tx_w (kuart s') = tx_r (kuart s').
Proof.
  destruct (uart_drains (set_kuart uart_busy boot)) as (s' & E & H & H').
  - apply boot_uart_ready. split; [reflexivity|simpl; lia..|].
    change (tx_buf uart_busy) with (104 :: 105 :: replicate 30 0).
    do 2 (constructor; [reflexivity|]). by apply Forall_replicate.
  - exists s'. split; [exact E|]. split; [exact H|exact H'].
Defined.
