(* ===== verification/Printf.v ===== *)
(** * The kernel's formatted output: kernel/printf.c and [consputc] of
    kernel/console.c

    A format is the list of its bytes without the NUL; an argument is what
    [va_arg] can fetch.  The local array [buf] of [printint] has 16 bytes and a
    store past its end is undefined. *)

From Stdlib Require Import ZArith Lia.
From stdpp Require Import base list gmap strings numbers option.
From S2P Require Import Prelude Bytes Riscv Kstate Sched Uart.

(** A C string literal as bytes. *)
Fixpoint bytes_of (s : string) : list Z :=
  match s with
  | EmptyString => []
  | String c s' => Z.of_N (Ascii.N_of_ascii c) :: bytes_of s'
  end.
Definition newline : list Z := [10].

Definition BACKSPACE : Z := 0x100.

Definition consputc (c : Z) : M unit :=
  if c =? BACKSPACE then
    uartputc_sync 8 ;; uartputc_sync 32 ;; uartputc_sync 8
  else uartputc_sync c.

(** [digits\[d\]] *)
Definition digit (d : Z) : Z := if d <? 10 then 48 + d else 87 + d.

(** [do { buf\[i++\] = digits\[x % base\]; } while((x /= base) != 0);]: the
    characters stored, first one first. *)
Fixpoint digits_rev (fuel : nat) (base x : Z) : list Z :=
  match fuel with
  | O => []
  | S fuel' =>
      digit (x mod base) :: (if x / base =? 0 then [] else digits_rev fuel' base (x / base))
  end.

(** A 64-bit number has at most 64 digits in any base from 2 on. *)
Definition digits_fuel : nat := 64.

Definition printint_buf (xx base : Z) (sign : bool) : list Z :=
  let neg := sign && (xx <? 0) in
  let x := u64 (if neg then - xx else xx) in
  digits_rev digits_fuel base x ++ (if neg then [45] else []).

(** [while(--i >= 0) consputc(buf\[i\]);] *)
Fixpoint consputs (l : list Z) : M unit :=
  match l with
  | [] => ret tt
  | c :: l' => consputc c ;; consputs l'
  end.

Definition printint (xx base : Z) (sign : bool) : M unit :=
  let buf := printint_buf xx base sign in
  if (16 <? length buf)%nat then fail (Undefined "printint: buf") else
  consputs (reverse buf).

(** [for (i = 0; i < (sizeof(uint64) * 2); i++, x <<= 4) consputc(digits\[x >> 60\]);] *)
Fixpoint printptr_loop (n : nat) (x : Z) : M unit :=
  match n with
  | O => ret tt
  | S n' => consputc (digit (Z.shiftr x 60)) ;; printptr_loop n' (u64 (Z.shiftl x 4))
  end.

Definition printptr (x : Z) : M unit :=
  consputc 48 ;; consputc 120 ;; printptr_loop 16 (u64 x).

(** What [va_arg] fetches: an integer, or a string pointer. *)
Inductive parg := AInt (z : Z) | AStr (s : option (list Z)).

Definition va_int (args : list parg) : M (Z * list parg) :=
  match args with
  | AInt z :: args' => ret (s32 z, args')
  | _ => fail (Undefined "va_arg")
  end.
Definition va_u64 (args : list parg) : M (Z * list parg) :=
  match args with
  | AInt z :: args' => ret (s64 (u64 z), args')
  | _ => fail (Undefined "va_arg")
  end.
Definition va_str (args : list parg) : M (list Z * list parg) :=
  match args with
  | AStr s :: args' => ret (default (bytes_of "(null)") s, args')
  | _ => fail (Undefined "va_arg")
  end.

Definition nth0 (l : list Z) (i : nat) : Z := default 0 (l !! i).

(** The loop over the format: [f] is the rest of [fmt] and [args] of [ap]. *)
Fixpoint printf_loop (fuel : nat) (f : list Z) (args : list parg) : M unit :=
  match fuel with
  | O => fail NoFuel
  | S fuel' =>
      match f with
      | [] => ret tt
      | cx :: f' =>
          if negb (cx =? 37) then consputc cx ;; printf_loop fuel' f' args else
          let c0 := nth0 f' 0 in
          let c1 := if c0 =? 0 then 0 else nth0 f' 1 in
          let c2 := if c1 =? 0 then 0 else nth0 f' 2 in
          let int base sign skip :=
            r <- va_int args ;; printint r.1 base sign ;; printf_loop fuel' (drop skip f') r.2 in
          let long base sign skip :=
            r <- va_u64 args ;; printint r.1 base sign ;; printf_loop fuel' (drop skip f') r.2 in
          if c0 =? 100 then int 10 true 1%nat
          else if (c0 =? 108) && (c1 =? 100) then long 10 true 2%nat
          else if (c0 =? 108) && (c1 =? 108) && (c2 =? 100) then long 10 true 3%nat
          else if c0 =? 117 then int 10 false 1%nat
          else if (c0 =? 108) && (c1 =? 117) then long 10 false 2%nat
          else if (c0 =? 108) && (c1 =? 108) && (c2 =? 117) then long 10 false 3%nat
          else if c0 =? 120 then int 16 false 1%nat
          else if (c0 =? 108) && (c1 =? 120) then long 16 false 2%nat
          else if (c0 =? 108) && (c1 =? 108) && (c2 =? 120) then long 16 false 3%nat
          else if c0 =? 112 then
            r <- va_u64 args ;; printptr r.1 ;; printf_loop fuel' (drop 1 f') r.2
          else if c0 =? 115 then
            r <- va_str args ;; consputs r.1 ;; printf_loop fuel' (drop 1 f') r.2
          else if c0 =? 37 then consputc 37 ;; printf_loop fuel' (drop 1 f') args
          else if c0 =? 0 then ret tt
          else consputc 37 ;; consputc c0 ;; printf_loop fuel' (drop 1 f') args
      end
  end.

Definition printf (fmt : list Z) (args : list parg) : M unit :=
  lock_acquire LPr ;;
  printf_loop (S (length fmt)) fmt args ;;
  lock_release LPr.

Definition printfinit : M unit :=
  modify (fun s => put_locks (delete LPr (g_locks s)) s).
