(* ===== verification/PrintSpec.v ===== *)
(** * What the kernel prints for a number

    [numeral base x] is the textbook positional representation, most
    significant digit first, and [num_val] reads it back.  [printint] of
    kernel/printf.c sends exactly that to the serial port as long as it fits the 16
    bytes of its local buffer, and writes past the buffer otherwise. *)

From Stdlib Require Import ZArith Lia.
From stdpp Require Import base list gmap strings numbers option.
From S2P Require Import Prelude Bytes Riscv Kstate Sched Uart Printf.

(** ** The device *)

(** A character sent synchronously reaches the device, and nothing else changes. *)
Definition put_out (l : list Z) (s : kstate) : kstate :=
  match l with
  | [] => s
  | _ => set_kuart (set_thr_idle false (set_thr_out (thr_out (kuart s) ++ l) (kuart s))) s
  end.

Lemma put_out_app l l' s : put_out l' (put_out l s) = put_out (l ++ l') s.
Proof.
  destruct l as [|c l]; [done|]. destruct l' as [|c' l']; simpl; [by rewrite app_nil_r|].
  by rewrite <- app_assoc.
Qed.

Lemma consputc_run c s : 0 <= c < 256 -> consputc c s = Ret tt (put_out [c] s).
Proof.
  intros Hc. unfold consputc. destruct (Z.eqb_spec c BACKSPACE) as [->|_]; [unfold BACKSPACE in Hc; lia|].
  unfold uartputc_sync, write_thr, upd_uart, bind, modify. cbn [obind].
  change (kuart (set_kuart ?v s)) with v. rewrite u8_small by done. reflexivity.
Qed.

(** The erase sequence. *)
Lemma consputc_backspace s : consputc BACKSPACE s = Ret tt (put_out [8; 32; 8] s).
Proof.
  unfold consputc. rewrite Z.eqb_refl. unfold uartputc_sync, write_thr, upd_uart, bind, modify.
  cbn. rewrite <- !app_assoc. reflexivity.
Qed.

Lemma consputs_run l s : Forall (fun c => 0 <= c < 256) l -> consputs l s = Ret tt (put_out l s).
Proof.
  intros Hl. revert s. induction Hl as [|c l Hc Hl IH]; intros s; [done|]. cbn [consputs].
  rewrite (bind_run _ _ _ _ _ (consputc_run c s Hc)), IH, put_out_app. done.
Qed.

(** ** Numerals *)

(** The value of a digit character. *)
Definition digit_val (c : Z) : Z := if c <? 58 then c - 48 else c - 87.

(** The number a list of digits denotes, most significant first. *)
Definition num_val (base : Z) (l : list Z) : Z := foldl (fun a c => a * base + digit_val c) 0 l.

(** The same for a list with the least significant digit first. *)
Fixpoint rev_val (base : Z) (l : list Z) : Z :=
  match l with [] => 0 | c :: l' => digit_val c + base * rev_val base l' end.

Lemma digit_val_digit d : 0 <= d < 16 -> digit_val (digit d) = d /\ 48 <= digit d < 103.
Proof.
  intros Hd. unfold digit, digit_val. destruct (Z.ltb_spec d 10).
  - destruct (Z.ltb_spec (48 + d) 58); lia.
  - destruct (Z.ltb_spec (87 + d) 58); lia.
Qed.

Lemma num_val_reverse base l : num_val base (reverse l) = rev_val base l.
Proof.
  induction l as [|c l IH]; [done|]. rewrite reverse_cons. unfold num_val in *.
  rewrite foldl_snoc, IH. simpl. lia.
Qed.

Section digits.
Context (base : Z) (Hbase : 2 <= base <= 16).

Lemma digits_rev_val n x : 0 <= x < base ^ Z.of_nat n -> (0 < n)%nat -> rev_val base (digits_rev n base x) = x.
Proof.
  revert x. induction n as [|n IH]; intros x Hx Hn; [lia|]. cbn [digits_rev].
  pose proof (Z.mod_pos_bound x base ltac:(lia)) as Hm.
  pose proof (Z.div_mod x base ltac:(lia)) as Hdm.
  destruct (digit_val_digit (x mod base) ltac:(lia)) as [Hd _]. cbn [rev_val]. rewrite Hd.
  destruct (Z.eqb_spec (x / base) 0) as [E|E]; [cbn [rev_val]; lia|].
  rewrite Nat2Z.inj_succ, Z.pow_succ_r in Hx by lia.
  assert (0 <= x / base < base ^ Z.of_nat n) as Hq.
  { split; [apply Z.div_pos; lia|]. apply Z.div_lt_upper_bound; lia. }
  assert (0 < n)%nat. { destruct n; [|lia]. simpl in Hq. lia. }
  rewrite IH by done. lia.
Qed.

Lemma digits_rev_chars n x : Forall (fun c => 48 <= c < 103) (digits_rev n base x).
Proof.
  revert x. induction n as [|n IH]; intros x; [constructor|]. cbn [digits_rev].
  pose proof (Z.mod_pos_bound x base ltac:(lia)).
  constructor; [apply (digit_val_digit (x mod base)); lia|]. by destruct (x / base =? 0).
Qed.

(** The number of digits is the least [k] with [x < base ^ k], and at least one. *)
Lemma digits_rev_length n x k :
  0 <= x < base ^ Z.of_nat n -> (0 < n)%nat -> (0 < k)%nat ->
  (length (digits_rev n base x) <= k)%nat <-> x < base ^ Z.of_nat k.
Proof.
  revert x k. induction n as [|n IH]; intros x k Hx Hn Hk; [lia|]. cbn [digits_rev].
  destruct k as [|k]; [lia|].
  rewrite Nat2Z.inj_succ, Z.pow_succ_r in Hx by lia. rewrite Nat2Z.inj_succ, Z.pow_succ_r by lia.
  assert (0 < base ^ Z.of_nat k) as Hpos by (apply Z.pow_pos_nonneg; lia).
  pose proof (Z.div_mod x base ltac:(lia)) as Hdm.
  pose proof (Z.mod_pos_bound x base ltac:(lia)) as Hm.
  destruct (Z.eqb_spec (x / base) 0) as [E|E]; cbn [length].
  - split; [|lia]. intros _. rewrite E in Hdm. nia.
  - assert (0 <= x / base < base ^ Z.of_nat n) as Hq.
    { split; [apply Z.div_pos; lia|]. apply Z.div_lt_upper_bound; lia. }
    assert (0 < n)%nat. { destruct n; [|lia]. simpl in Hq. lia. }
    destruct k as [|k].
    { assert (length (digits_rev n base (x / base)) <> 0)%nat by (destruct n; [lia|done]).
      simpl. split; [lia|]. intros Hlt. exfalso. apply E. apply Z.div_small. lia. }
    rewrite <- Nat.succ_le_mono, IH by lia. split; intros Hlt.
    + nia.
    + apply Z.div_lt_upper_bound; lia.
Qed.
End digits.

(** Reading a printed number back. *)
Definition num_read (base : Z) (l : list Z) : Z :=
  match l with
  | c :: l' => if c =? 45 then - num_val base l' else num_val base l
  | [] => 0
  end.

(** Is there a minus sign, and which number is converted to digits? *)
Definition print_neg (xx : Z) (sign : bool) : bool := sign && (xx <? 0).
Definition print_mag (xx : Z) (sign : bool) : Z := u64 (if print_neg xx sign then - xx else xx).

Lemma num_read_digits base l c : Forall (fun c => 48 <= c < 103) (c :: l) -> num_read base (c :: l) = num_val base (c :: l).
Proof. intros H. inversion H as [|? ? Hc _]; subst. unfold num_read. destruct (Z.eqb_spec c 45); [lia|done]. Qed.

Lemma print_digits base xx sign :
  2 <= base <= 16 -> let l := digits_rev digits_fuel base (print_mag xx sign) in
  num_val base (reverse l) = print_mag xx sign /\ Forall (fun c => 48 <= c < 103) (reverse l) /\
  (reverse l <> []) /\
  forall k, (0 < k)%nat -> (length l <= k)%nat <-> print_mag xx sign < base ^ Z.of_nat k.
Proof.
  intros Hb l. pose proof (u64_range (if print_neg xx sign then - xx else xx)) as Hr.
  fold (print_mag xx sign) in Hr.
  assert (0 <= print_mag xx sign < base ^ Z.of_nat digits_fuel) as Hx.
  { split; [lia|]. eapply Z.lt_le_trans; [apply Hr|]. change 18446744073709551616 with (2 ^ 64).
    apply (Z.pow_le_mono_l 2 base 64). lia. }
  split. { rewrite num_val_reverse. apply digits_rev_val; [lia|done|unfold digits_fuel; lia]. }
  split. { apply Forall_reverse. by apply digits_rev_chars. }
  split. { unfold l, digits_fuel. cbn [digits_rev]. rewrite reverse_cons. intros E. by apply app_nil in E as [_ ?]. }
  intros k Hk. apply digits_rev_length; [lia|done|unfold digits_fuel; lia|done].
Qed.

Lemma printint_run xx base sign s :
  2 <= base <= 16 -> - 2 ^ 63 <= xx < 2 ^ 63 ->
  if decide (print_mag xx sign < base ^ (if print_neg xx sign then 15 else 16)) then
    exists l, printint xx base sign s = Ret tt (put_out l s) /\
      num_read base l = (if sign then xx else u64 xx) /\ (length l <= 16)%nat
  else printint xx base sign s = Fail (Undefined "printint: buf").
Proof.
  intros Hb Hxx. destruct (print_digits base xx sign Hb) as (Hv & Hc & Hne & Hlen).
  unfold printint, printint_buf. fold (print_neg xx sign). fold (print_mag xx sign).
  set (l := digits_rev digits_fuel base (print_mag xx sign)) in *.
  assert (Forall (fun c => 0 <= c < 256) (reverse l)) as Hb8.
  { eapply list.Forall_impl; [exact Hc|]. intros c H; cbv beta in H; lia. }
  destruct (print_neg xx sign) eqn:En.
  - rewrite length_app. change (length [45]) with 1%nat. specialize (Hlen 15%nat ltac:(lia)). change (Z.of_nat 15) with 15 in Hlen.
    destruct (decide _) as [Hd|Hd]; destruct (Nat.ltb_spec 16 (length l + 1)); [exfalso; lia| |done|exfalso; lia].
    exists (45 :: reverse l). rewrite reverse_app. simpl reverse at 1. simpl app. split; [|split].
    + apply consputs_run. constructor; [lia|done].
    + unfold num_read. rewrite Z.eqb_refl, Hv. unfold print_mag, print_neg in *. rewrite En.
      destruct sign; [|done]. simpl in En. apply Z.ltb_lt in En. rewrite u64_small; lia.
    + simpl. rewrite length_reverse. lia.
  - rewrite app_nil_r. specialize (Hlen 16%nat ltac:(lia)). change (Z.of_nat 16) with 16 in Hlen.
    destruct (decide _) as [Hd|Hd]; destruct (Nat.ltb_spec 16 (length l)); [exfalso; lia| |done|exfalso; lia].
    exists (reverse l). split; [by apply consputs_run|]. split; [|by rewrite length_reverse].
    destruct (reverse l) as [|c l'] eqn:El; [done|]. rewrite num_read_digits by done. rewrite Hv.
    unfold print_mag. rewrite En. destruct sign; [|done]. unfold print_neg in En. simpl in En.
    apply Z.ltb_ge in En. apply u64_small. lia.
Qed.

(** The kernel only formats 32-bit numbers in its own messages. *)
Lemma printint_s32 z s : exists l, printint (s32 z) 10 true s = Ret tt (put_out l s) /\ num_read 10 l = s32 z.
Proof.
  assert (- 2 ^ 31 <= s32 z < 2 ^ 31) as Hz.
  { unfold s32, wrapS. change (2 ^ 32) with 4294967296. change (2 ^ (32 - 1)) with 2147483648. zlia. }
  pose proof (printint_run (s32 z) 10 true s) as H.
  destruct (decide _) as [Hd|Hd]; [destruct H as (l & E & Hl & _); [lia|lia|by exists l]|].
  exfalso. apply Hd. unfold print_mag. destruct (print_neg (s32 z) true) eqn:En; unfold print_neg in En; simpl in En.
  - apply Z.ltb_lt in En. rewrite u64_small; lia.
  - apply Z.ltb_ge in En. rewrite u64_small; lia.
Qed.

(** ** Formats *)

Lemma printf_plain fuel c f args s :
  c <> 37 -> 0 <= c < 256 -> printf_loop (S fuel) (c :: f) args s = printf_loop fuel f args (put_out [c] s).
Proof.
  intros Hc Hb. cbn [printf_loop]. destruct (Z.eqb_spec c 37); [done|]. cbn [negb].
  by rewrite (bind_run _ _ _ _ _ (consputc_run c s Hb)).
Qed.

Lemma printf_d fuel z f args s :
  exists l, num_read 10 l = s32 z /\
    printf_loop (S fuel) (37 :: 100 :: f) (AInt z :: args) s = printf_loop fuel f args (put_out l s).
Proof.
  destruct (printint_s32 z s) as (l & E & Hl). exists l. split; [done|].
  change (printf_loop (S fuel) (37 :: 100 :: f) (AInt z :: args) s)
    with ((printint (s32 z) 10 true ;; printf_loop fuel f args) s).
  by rewrite (bind_run _ _ _ _ _ E).
Qed.

Lemma printf_s fuel l f args s :
  Forall (fun c => 0 <= c < 256) l ->
  printf_loop (S fuel) (37 :: 115 :: f) (AStr (Some l) :: args) s = printf_loop fuel f args (put_out l s).
Proof.
  intros Hl.
  change (printf_loop (S fuel) (37 :: 115 :: f) (AStr (Some l) :: args) s)
    with ((consputs l ;; printf_loop fuel f args) s).
  by rewrite (bind_run _ _ _ _ _ (consputs_run l s Hl)).
Qed.

(** ** Theorems *)

(** [C33] [printint] is exact.  When the number has at most 16 characters (15
    digits behind a minus sign) it is sent to the serial port and reading it back gives
    the number, as signed or unsigned 64-bit value; nothing else changes.  A longer
    number overruns the buffer of 16 bytes. *)
Theorem printint_exact xx base sign s :
  2 <= base <= 16 -> - 2 ^ 63 <= xx < 2 ^ 63 ->
  if decide (print_mag xx sign < base ^ (if print_neg xx sign then 15 else 16)) then
    exists l, printint xx base sign s = Ret tt (put_out l s) /\
      num_read base l = (if sign then xx else u64 xx) /\ (length l <= 16)%nat
  else printint xx base sign s = Fail (Undefined "printint: buf").
Proof. apply printint_run. Qed.

(** Two numbers that fit, and the smallest ones that do not. *)
Lemma printint_exact_witness :
  (exists l, printint (-42) 10 true boot = Ret tt (put_out l boot) /\ num_read 10 l = -42) /\
  printint (10 ^ 16) 10 false boot = Fail (Undefined "printint: buf") /\
  printint (- 10 ^ 15) 10 true boot = Fail (Undefined "printint: buf").
Proof.
  split; [|split].
  - destruct (printint_exact (-42) 10 true boot) as (l & E & Hl & _); [lia|lia|]. exists l. split; [exact E|exact Hl].
  - apply (printint_exact (10 ^ 16) 10 false boot); lia.
  - apply (printint_exact (- 10 ^ 15) 10 true boot); lia.
Defined.
