(* ===== verification/Console.v ===== *)
(** * The console: kernel/console.c, [uartintr] of kernel/uart.c and
    [procdump] of kernel/proc.c *)

From Stdlib Require Import ZArith Lia.
From stdpp Require Import base list gmap strings numbers option.
From S2P Require Import Prelude Bytes Riscv Cstring Kstate Sched Vm Copy Uart Printf.

Definition INPUT_BUF_SIZE : Z := 128.

(** [C(x)]: Control-x. *)
Definition CtrlP : Z := 16.
Definition CtrlU : Z := 21.
Definition CtrlH : Z := 8.
Definition CtrlD : Z := 4.

Definition upd_cons (f : cons -> cons) : M unit := modify (fun s => set_kcons (f (kcons s)) s).

(** [cons.buf\[i % INPUT_BUF_SIZE\]] *)
Definition cbuf_get (c : cons) (i : Z) : Z := default 0 (c_buf c !! Z.to_nat (i mod INPUT_BUF_SIZE)).

(** The loop of [consolewrite] from index [i]. *)
Fixpoint consolewrite_loop (n : nat) (user_src : bool) (src i : Z) : M Z :=
  match n with
  | O => ret i
  | S n' =>
      r <- either_copyin user_src (u64 (src + i)) 1 ;;
      if r.1 =? -1 then ret i else
      uartputc (default 0 (head r.2)) ;;
      consolewrite_loop n' user_src src (i + 1)
  end.

Definition consolewrite (user_src : bool) (src n : Z) : M Z :=
  consolewrite_loop (Z.to_nat n) user_src src 0.

(** One turn of the wait for input; [inr true] when the process was killed. *)
Definition cons_wait (_ : unit) : M (unit + bool) :=
  c <- gets kcons ;;
  if c_r c =? c_w c then
    p <- curp ;;
    k <- killed p ;;
    if (k : bool) then lock_release LCons ;; ret (inr true) else
    sleep ChCons LCons ;; ret (inl tt)
  else ret (inr false).

(** One turn of the loop of [consoleread] on [(dst, n)]; the result is [n], or
    [None] for the early [return -1]. *)
Definition consoleread_body (user_dst : bool) (target : Z) (x : Z * Z) : M (Z * Z + option Z) :=
  let '(dst, n) := x in
  if negb (n >? 0) then ret (inr (Some n)) else
  k <- loop sleep_fuel cons_wait tt ;;
  if (k : bool) then ret (inr None) else
  s <- gets kcons ;;
  let c := cbuf_get s (c_r s) in
  upd_cons (set_c_r (u32 (c_r s + 1))) ;;
  if c =? CtrlD then
    when (u32 n <? target) (upd_cons (fun s => set_c_r (u32 (c_r s - 1)) s)) ;;
    ret (inr (Some n))
  else
  r <- either_copyout user_dst dst [c] ;;
  if r =? -1 then ret (inr (Some n)) else
  if c =? 10 then ret (inr (Some (n - 1))) else
  ret (inl (u64 (dst + 1), n - 1)).

Definition consoleread (user_dst : bool) (dst n : Z) : M Z :=
  let target := u32 n in
  lock_acquire LCons ;;
  r <- loop (S (Z.to_nat n)) (consoleread_body user_dst target) (dst, n) ;;
  match r with
  | None => ret (-1)
  | Some n => lock_release LCons ;; ret (s32 (target - n))
  end.

Definition state_name (st : procstate) : list Z :=
  bytes_of match st with
           | UNUSED => "unused" | USED => "used" | SLEEPING => "sleep " | RUNNABLE => "runble"
           | RUNNING => "run   " | ZOMBIE => "zombie"
           end.

(** The name is a C string in a 16-byte array. *)
Definition procdump : M unit :=
  printf newline [] ;;
  for_each NPROC 0 (fun p =>
    pr <- get_proc p ;;
    if bool_decide (p_state pr = UNUSED) then ret tt else
    printf (bytes_of "%d %s %s") [AInt (p_pid pr); AStr (Some (state_name (p_state pr))); AStr (Some (cstr (p_name pr)))] ;;
    printf newline []).

(** [while(cons.e != cons.w && cons.buf\[(cons.e-1) % INPUT_BUF_SIZE\] != '\n') ...]: the
    buffer holds at most [INPUT_BUF_SIZE] characters. *)
Definition kill_line (_ : unit) : M (unit + unit) :=
  c <- gets kcons ;;
  if negb (c_e c =? c_w c) && negb (cbuf_get c (u32 (c_e c - 1)) =? 10) then
    upd_cons (set_c_e (u32 (c_e c - 1))) ;;
    consputc BACKSPACE ;;
    ret (inl tt)
  else ret (inr tt).

(** The [switch] of [consoleintr]. *)
Definition consoleintr_switch (ch : Z) : M unit :=
  if ch =? CtrlP then procdump
  else if ch =? CtrlU then loop (S (Z.to_nat INPUT_BUF_SIZE)) kill_line tt
  else if (ch =? CtrlH) || (ch =? 0x7f) then
    c <- gets kcons ;;
    when (negb (c_e c =? c_w c))
      (upd_cons (set_c_e (u32 (c_e c - 1))) ;; consputc BACKSPACE)
  else
    c <- gets kcons ;;
    when (negb (ch =? 0) && (u32 (c_e c - c_r c) <? INPUT_BUF_SIZE))
      (let ch := if ch =? 13 then 10 else ch in
       consputc ch ;;
       upd_cons (fun c => set_c_buf (<[Z.to_nat (c_e c mod INPUT_BUF_SIZE) := u8 ch]> (c_buf c)) c) ;;
       upd_cons (fun c => set_c_e (u32 (c_e c + 1)) c) ;;
       c <- gets kcons ;;
       when ((ch =? 10) || (ch =? CtrlD) || (u32 (c_e c - c_r c) =? INPUT_BUF_SIZE))
         (upd_cons (fun c => set_c_w (c_e c) c) ;; wakeup ChCons)).

Definition consoleintr (ch : Z) : M unit :=
  lock_acquire LCons ;;
  consoleintr_switch ch ;;
  lock_release LCons.

(** The [devsw] entries are the pattern match on [CONSOLE] in [File]. *)
Definition consoleinit : M unit :=
  modify (fun s => put_locks (delete LCons (g_locks s)) s) ;;
  uartinit.

Definition uartintr_body (_ : unit) : M (unit + unit) :=
  c <- uartgetc ;;
  if c =? -1 then ret (inr tt) else consoleintr c ;; ret (inl tt).

Definition uartintr : M unit :=
  u <- gets kuart ;;
  loop (S (length (rhr u))) uartintr_body tt ;;
  lock_acquire LUart ;;
  uartstart ;;
  lock_release LUart.
