(* ===== verification/ConsoleSpec.v ===== *)
(** * The console's line editor

    [crepr c ready line]: the circular buffer of kernel/console.c holds the
    finished input [ready] followed by the line being edited.  [edit] is the editor as
    a function on the two lists; [consoleintr] implements it for every
    character, whatever the position of the 32-bit indices. *)

From Stdlib Require Import ZArith Lia.
From stdpp Require Import base list gmap strings numbers option.
From S2P Require Import Prelude Bytes Riscv Cstring Kstate Sched Vm Copy Uart Printf PrintSpec Console.

(** ** The editor *)

(** Finished input and the line being edited. *)
Definition editor : Type := list Z * list Z.

(** The terminal's carriage return counts as a newline. *)
Definition key (ch : Z) : Z := if ch =? 13 then 10 else ch.

Definition edit (ch : Z) (ed : editor) : editor :=
  let '(ready, line) := ed in
  if ch =? CtrlP then ed
  else if ch =? CtrlU then (ready, [])
  else if (ch =? CtrlH) || (ch =? 127) then (ready, take (length line - 1) line)
  else if (ch =? 0) || (128 <=? length (ready ++ line))%nat then ed
  else
    let line' := line ++ [key ch] in
    if (key ch =? 10) || (key ch =? CtrlD) || (length (ready ++ line') =? 128)%nat
    then (ready ++ line', []) else (ready, line').

(** ** The circular buffer *)

(** The buffer holds [l] from [c_r] to [c_e]; the first [n] characters are ready. *)
Record cring (c : cons) (l : list Z) (n : nat) : Prop := {
  cr_buf : length (c_buf c) = 128%nat;
  cr_r : 0 <= c_r c < 4294967296;
  cr_w : c_w c = u32 (c_r c + Z.of_nat n);
  cr_e : c_e c = u32 (c_r c + Z.of_nat (length l));
  cr_n : (n <= length l <= 128)%nat;
  cr_data : forall i x, l !! i = Some x -> c_buf c !! Z.to_nat ((c_r c + Z.of_nat i) mod 128) = Some x
}.

Definition crepr (c : cons) (ed : editor) : Prop :=
  cring c (ed.1 ++ ed.2) (length ed.1) /\ 10 ∉ ed.2.

(** The indices wrap at 32 bits, a multiple of the buffer's size. *)
Lemma u32_mod128 x : u32 x mod 128 = x mod 128.
Proof. unfold u32, wrapU. change (2 ^ 32) with 4294967296. zlia. Qed.

Lemma cring_used c l n : cring c l n -> u32 (c_e c - c_r c) = Z.of_nat (length l).
Proof.
  intros [_ Hr _ He Hn _]. rewrite He. unfold u32, wrapU. change (2 ^ 32) with 4294967296. zlia.
Qed.

Lemma cring_edited c l n : cring c l n -> (c_e c =? c_w c) = (length l =? n)%nat.
Proof.
  intros [_ Hr Hw He Hn _]. rewrite He, Hw. unfold u32, wrapU. change (2 ^ 32) with 4294967296.
  destruct (Nat.eqb_spec (length l) n); [subst; apply Z.eqb_refl|]. apply Z.eqb_neq. zlia.
Qed.

(** Storing a character at the end. *)
Lemma cring_push c l n x :
  cring c l n -> (length l < 128)%nat ->
  let c' := set_c_buf (<[Z.to_nat (c_e c mod INPUT_BUF_SIZE) := x]> (c_buf c)) c in
  cring (set_c_e (u32 (c_e c' + 1)) c') (l ++ [x]) n.
Proof.
  intros [Hb Hr Hw He Hn Hd] Hlt c'. unfold INPUT_BUF_SIZE in *.
  assert (c_e c mod 128 = (c_r c + Z.of_nat (length l)) mod 128) as Em by (rewrite He; apply u32_mod128).
  split; simpl; try done.
  - by rewrite length_insert.
  - rewrite length_app. simpl. rewrite He. unfold u32, wrapU. change (2 ^ 32) with 4294967296. zlia.
  - rewrite length_app. simpl. lia.
  - intros i y Hi. rewrite Em. apply lookup_app_Some in Hi as [Hi|[Hle Hi]].
    + rewrite list_lookup_insert_ne; [by apply Hd|]. apply lookup_lt_Some in Hi. intros E. zlia.
    + apply list_lookup_singleton_Some in Hi as [Hi ->].
      replace i with (length l) by lia. rewrite list_lookup_insert_eq; [done|]. zlia.
Qed.

(** Erasing the last character. *)
Lemma cring_pop c l n x :
  cring c (l ++ [x]) n -> (n <= length l)%nat -> cring (set_c_e (u32 (c_e c - 1)) c) l n.
Proof.
  intros [Hb Hr Hw He Hn Hd] Hle. rewrite length_app in He, Hn. simpl in He, Hn. split; simpl; try done.
  - rewrite He. unfold u32, wrapU. change (2 ^ 32) with 4294967296. zlia.
  - lia.
  - intros i y Hi. apply Hd. by apply lookup_app_l_Some.
Qed.

(** The last character is the one before [c_e]. *)
Lemma cring_last c l n x : cring c (l ++ [x]) n -> cbuf_get c (u32 (c_e c - 1)) = x.
Proof.
  intros [Hb Hr Hw He Hn Hd]. unfold cbuf_get. unfold INPUT_BUF_SIZE. rewrite u32_mod128.
  specialize (Hd (length l) x). rewrite lookup_app_r, Nat.sub_diag in Hd by lia.
  rewrite length_app in He. simpl in He.
  replace ((c_e c - 1) mod 128) with ((c_r c + Z.of_nat (length l)) mod 128); [by rewrite Hd|].
  rewrite He. unfold u32, wrapU. change (2 ^ 32) with 4294967296. zlia.
Qed.

(** Everything is finished. *)
Lemma cring_commit c l n : cring c l n -> cring (set_c_w (c_e c) c) l (length l).
Proof. intros [Hb Hr Hw He Hn Hd]. split; simpl; try done. lia. Qed.

(** ** The code *)

Lemma upd_cons_run f s : upd_cons f s = Ret tt (set_kcons (f (kcons s)) s).
Proof. done. Qed.

Lemma put_out_kcons l s : kcons (put_out l s) = kcons s.
Proof. by destruct l. Qed.

Lemma put_out_set_kcons l c s : put_out l (set_kcons c s) = set_kcons c (put_out l s).
Proof. by destruct l. Qed.

(** [^U]: erase to the beginning of the line. *)
Lemma kill_line_run line ready s fuel :
  cring (kcons s) (ready ++ line) (length ready) -> 10 ∉ line -> (length line < fuel)%nat ->
  exists c out, loop fuel kill_line tt s = Ret tt (set_kcons c (put_out out s)) /\
    cring c ready (length ready).
Proof.
  revert s fuel. induction line as [|x line IH] using rev_ind; intros s fuel Hc Hx Hf;
    (destruct fuel as [|fuel]; [lia|]); cbn [loop]; unfold kill_line at 1; unfold bind at 1;
    rewrite (bind_run (gets kcons) _ s _ s eq_refl); rewrite (cring_edited _ _ _ Hc).
  - rewrite app_nil_r in *. rewrite Nat.eqb_refl. cbn [negb andb ret obind].
    exists (kcons s), []. split; [by destruct s|done].
  - rewrite !length_app in *. change (length [x]) with 1%nat in *.
    destruct (Nat.eqb_spec (length ready + (length line + 1)) (length ready)) as [E|_]; [lia|].
    rewrite app_assoc in Hc. rewrite (cring_last _ _ _ _ Hc).
    apply not_elem_of_app in Hx as [Hx1 Hx2].
    destruct (Z.eqb_spec x 10) as [->|_]; [by destruct Hx2; apply list_elem_of_singleton|]. cbn [negb andb].
    rewrite (bind_run _ _ _ _ _ (upd_cons_run _ _)).
    rewrite (bind_run _ _ _ _ _ (consputc_backspace _)). cbn [ret obind].
    destruct (IH (put_out [8; 32; 8] (set_kcons (set_c_e (u32 (c_e (kcons s) - 1)) (kcons s)) s)) fuel)
      as (c & out & E & Hc'); [|done|lia|].
    + rewrite put_out_kcons. apply (cring_pop _ _ _ x); [done|]. rewrite length_app. lia.
    + exists c, ([8; 32; 8] ++ out). rewrite E. split; [|done]. f_equal.
      rewrite put_out_app. by rewrite put_out_set_kcons.
Qed.

(** ^H *)
Lemma erase_run line x ready s :
  cring (kcons s) (ready ++ line ++ [x]) (length ready) ->
  (upd_cons (set_c_e (u32 (c_e (kcons s) - 1))) ;; consputc BACKSPACE) s =
    Ret tt (set_kcons (set_c_e (u32 (c_e (kcons s) - 1)) (kcons s)) (put_out [8; 32; 8] s)) /\
  cring (set_c_e (u32 (c_e (kcons s) - 1)) (kcons s)) (ready ++ line) (length ready).
Proof.
  intros Hc. rewrite (bind_run _ _ _ _ _ (upd_cons_run _ _)), consputc_backspace, put_out_set_kcons.
  split; [done|]. apply (cring_pop _ _ _ x); [by rewrite <- app_assoc|]. rewrite length_app. lia.
Qed.

(** An ordinary character. *)
Lemma insert_run ch ready line s :
  cring (kcons s) (ready ++ line) (length ready) -> 10 ∉ line -> 0 <= ch < 256 ->
  (length (ready ++ line) < 128)%nat -> length (g_procs s) = NPROC -> procs_unlocked s ->
  exists c out ps, length ps = NPROC /\
    (let ch := if ch =? 13 then 10 else ch in
        consputc ch ;;
        upd_cons (fun c => set_c_buf (<[Z.to_nat (c_e c mod INPUT_BUF_SIZE) := u8 ch]> (c_buf c)) c) ;;
        upd_cons (fun c => set_c_e (u32 (c_e c + 1)) c) ;;
        c <- gets kcons ;;
        when ((ch =? 10) || (ch =? CtrlD) || (u32 (c_e c - c_r c) =? INPUT_BUF_SIZE))
          (upd_cons (fun c => set_c_w (c_e c) c) ;; wakeup ChCons)) s =
      Ret tt (set_kcons c (put_procs ps (put_out out s))) /\
    crepr c (if (key ch =? 10) || (key ch =? CtrlD) || (length (ready ++ line ++ [key ch]) =? 128)%nat
             then (ready ++ line ++ [key ch], []) else (ready, line ++ [key ch])).
Proof.
  intros Hc Hx Hch Hlt Hlen Hu. cbv zeta. fold (key ch).
  assert (0 <= key ch < 256) as Hk by (unfold key; destruct (ch =? 13); lia).
  rewrite (bind_run _ _ _ _ _ (consputc_run _ s Hk)).
  do 2 rewrite (bind_run _ _ _ _ _ (upd_cons_run _ _)).
  rewrite (bind_run (gets kcons) _ _ _ _ eq_refl). cbv beta.
  match goal with |- context [put_out ?l s] => set (o := l) end.
  repeat match goal with |- context [kcons (set_kcons ?v ?x)] => change (kcons (set_kcons v x)) with v end.
  rewrite put_out_kcons, u8_small by done.
  pose proof (cring_push _ _ _ (key ch) Hc Hlt) as Hp. cbv zeta in Hp.
  rewrite <- app_assoc in Hp.
  match goal with |- context [set_kcons ?v (set_kcons _ _)] => set (c1 := v) in * end.
  rewrite (cring_used _ _ _ Hp). change INPUT_BUF_SIZE with 128.
  replace (Z.of_nat (length (ready ++ line ++ [key ch])) =? 128)
    with (length (ready ++ line ++ [key ch]) =? 128)%nat
    by (apply eq_bool_prop_intro; rewrite !Is_true_true, Nat.eqb_eq, Z.eqb_eq; lia).
  destruct ((key ch =? 10) || (key ch =? CtrlD) || _) eqn:Ek; unfold when.
  - rewrite (bind_run _ _ _ _ _ (upd_cons_run _ _)).
    rewrite wakeup_run; [|exact Hlen|exact Hu].
    eexists _, o, _. split; [|split; [reflexivity|]].
    + rewrite length_imap. exact Hlen.
    + split; [|apply not_elem_of_nil]. cbn [fst snd]. rewrite app_nil_r. exact (cring_commit c1 _ _ Hp).
  - exists c1, o, (g_procs s). split; [done|]. split; [by destruct s as [? ? [] ? ? ? ? ? ?]|].
    split; [done|]. cbn [fst snd]. apply not_elem_of_app. split; [done|].
    intros E. apply list_elem_of_singleton in E. rewrite <- E in Ek. done.
Qed.


(** ** ^P *)

Definition byte_list (l : list Z) : Prop := Forall (fun c => 0 <= c < 256) l.

Lemma byte_list_cstr l : byte_list l -> byte_list (cstr l).
Proof. induction 1 as [|c l Hc Hl IH]; simpl; [constructor|]. destruct (c =? 0); by constructor. Qed.

(** [m] returns and only sends characters to the device. *)
Definition prints (m : M unit) (s : kstate) : Prop := exists out, m s = Ret tt (put_out out s).

Lemma put_out_locks L l s : put_out l (put_locks L s) = put_locks L (put_out l s).
Proof. by destruct l. Qed.
Lemma put_out_get_locks l s : g_locks (put_out l s) = g_locks s.
Proof. by destruct l. Qed.
Lemma put_out_hart l s : g_hart (put_out l s) = g_hart s.
Proof. by destruct l. Qed.
Lemma put_out_procs l s : g_procs (put_out l s) = g_procs s.
Proof. by destruct l. Qed.

Lemma prints_bind (m1 m2 : M unit) s :
  prints m1 s -> (forall out, prints m2 (put_out out s)) -> prints (m1 ;; m2) s.
Proof.
  intros [o1 E1] H2. destruct (H2 o1) as [o2 E2]. exists (o1 ++ o2).
  by rewrite (bind_run _ _ _ _ _ E1), E2, put_out_app.
Qed.

(** [printf] takes its lock around the loop. *)
Lemma printf_locked fmt args s out :
  lock_free LPr s ->
  (let s1 := put_locks (<[LPr := g_hart s]> (g_locks s)) s in
   printf_loop (S (length fmt)) fmt args s1 = Ret tt (put_out out s1)) -> printf fmt args s = Ret tt (put_out out s).
Proof.
  intros Hf E. cbv zeta in E.
  unfold printf. rewrite (bind_run _ _ _ _ _ (lock_acquire_run _ _ Hf)), (bind_run _ _ _ _ _ E).
  erewrite lock_release_section; [|rewrite put_out_get_locks; reflexivity|exact Hf|by rewrite put_out_hart].
  by rewrite put_out_locks, put_locks_put, <- put_out_locks, put_locks_id.
Qed.

Lemma prints_printf fmt args s :
  lock_free LPr s -> (forall s', prints (printf_loop (S (length fmt)) fmt args) s') -> prints (printf fmt args) s.
Proof.
  intros Hf H. destruct (H (put_locks (<[LPr := g_hart s]> (g_locks s)) s)) as [out E]. exists out. by apply printf_locked.
Qed.

Lemma prints_newline s : prints (printf_loop (S (length newline)) newline []) s.
Proof. exists [10]. unfold newline. rewrite printf_plain by lia. done. Qed.

(** A message without directives. *)
Lemma printf_message l fuel args s :
  Forall (fun c => 0 <= c < 256 /\ c <> 37) l -> (length l < fuel)%nat ->
  printf_loop fuel l args s = Ret tt (put_out l s).
Proof.
  intros Hl. revert fuel s. induction Hl as [|c l [Hc Hp] Hl IH]; intros fuel s Hf;
    (destruct fuel as [|fuel]; [simpl in Hf; lia|]); [done|].
  rewrite printf_plain by done. rewrite IH by (simpl in Hf; lia). by rewrite put_out_app.
Qed.

(** The check that a message is plain, by computation. *)
Definition plain (l : list Z) : bool := forallb (fun c => (0 <=? c) && (c <? 256) && negb (c =? 37)) l.

Lemma prints_message l s : lock_free LPr s -> plain l = true -> prints (printf l []) s.
Proof.
  intros Hf Hp. assert (Forall (fun c => 0 <= c < 256 /\ c <> 37) l) as Hl.
  { apply list.Forall_forall. intros c Hc. unfold plain in Hp. rewrite forallb_forall in Hp.
    specialize (Hp c ltac:(by apply list_elem_of_In)). lia. }
  apply prints_printf; [done|]. intros s'. exists l. apply printf_message; [done|lia].
Qed.

Lemma prints_proc z l1 l2 s :
  byte_list l1 -> byte_list l2 ->
  prints (printf_loop (S (length (bytes_of "%d %s %s"))) (bytes_of "%d %s %s")
    [AInt z; AStr (Some l1); AStr (Some l2)]) s.
Proof.
  intros H1 H2. change (length (bytes_of "%d %s %s")) with 8%nat.
  change (bytes_of "%d %s %s") with [37; 100; 32; 37; 115; 32; 37; 115].
  unfold prints. destruct (printf_d 8 z [32; 37; 115; 32; 37; 115] [AStr (Some l1); AStr (Some l2)] s) as (l & _ & E).
  rewrite E, printf_plain by lia. rewrite printf_s, printf_plain, printf_s by (done || lia).
  eexists. rewrite !put_out_app. reflexivity.
Qed.

Lemma prints_for_each n i (body : nat -> M unit) s :
  (forall j out, (i <= j < i + n)%nat -> prints (body j) (put_out out s)) -> prints (for_each n i body) s.
Proof.
  revert i s. induction n as [|n IH]; intros i s H; [by exists []|]. cbn [for_each]. apply prints_bind.
  - apply (H i []). lia.
  - intros out. apply IH. intros j o' Hj. rewrite put_out_app. apply H. lia.
Qed.

(** [procdump] prints and changes nothing. *)
Lemma procdump_prints s :
  length (g_procs s) = NPROC -> lock_free LPr s -> Forall (fun p => byte_list (p_name p)) (g_procs s) ->
  prints procdump s.
Proof.
  intros Hlen Hf Hn. apply prints_bind; [by apply prints_printf; [|apply prints_newline]|].
  intros o1. apply prints_for_each. intros j out Hj. rewrite put_out_app.
  destruct (lookup_lt_is_Some_2 (g_procs s) j) as [pr Hp]; [lia|].
  unfold prints. unfold get_proc. erewrite bind_run by (apply arr_get_run; rewrite put_out_procs; exact Hp).
  destruct (bool_decide _); [by exists []|].
  assert (forall out, lock_free LPr (put_out out s)) as Hf' by (intros o; unfold lock_free; by rewrite put_out_get_locks).
  apply prints_bind.
  - apply prints_printf; [done|]. intros s'. apply prints_proc; [by destruct (p_state pr); repeat constructor|].
    apply byte_list_cstr. by apply (Forall_lookup_1 _ _ _ _ Hn Hp).
  - intros o. rewrite put_out_app. by apply prints_printf; [|apply prints_newline].
Qed.

(** ** Theorems *)

(** What the interrupt handler needs of the rest of the state. *)
Record cons_ready (s : kstate) : Prop := {
  cs_lock : lock_free LCons s;
  cs_pr : lock_free LPr s;
  cs_procs : length (g_procs s) = NPROC;
  cs_unlocked : procs_unlocked s;
  cs_names : Forall (fun p => byte_list (p_name p)) (g_procs s)
}.

Lemma consoleintr_switch_run ch ed s :
  crepr (kcons s) ed -> 0 <= ch < 256 -> length (g_procs s) = NPROC -> procs_unlocked s ->
  lock_free LPr s -> Forall (fun p => byte_list (p_name p)) (g_procs s) ->
  exists c out ps, length ps = NPROC /\
    consoleintr_switch ch s = Ret tt (set_kcons c (put_procs ps (put_out out s))) /\ crepr c (edit ch ed).
Proof.
  destruct ed as [ready line]. intros [Hc Hx] Hch Hlen Hu Hpr Hn. cbn [fst snd] in *.
  assert (forall out, put_out out s = set_kcons (kcons s) (put_procs (g_procs s) (put_out out s))) as Hid.
  { intros out. destruct s as [? ? [] ? ? ? ? ? ?]. by destruct out. }
  unfold consoleintr_switch, edit.
  destruct (ch =? CtrlP); [|destruct (ch =? CtrlU); [|destruct ((ch =? CtrlH) || (ch =? 127))]].
  - destruct (procdump_prints s Hlen Hpr Hn) as [out E]. exists (kcons s), out, (g_procs s).
    split; [done|]. rewrite <- Hid. done.
  - destruct (kill_line_run line ready s (S (Z.to_nat INPUT_BUF_SIZE)) Hc Hx) as (c & out & E & Hc').
    { pose proof (cr_n _ _ _ Hc) as Hl. rewrite length_app in Hl. change (Z.to_nat INPUT_BUF_SIZE) with 128%nat. lia. }
    exists c, out, (g_procs s). split; [done|]. split.
    + rewrite E. f_equal. rewrite (Hid out). done.
    + split; [|apply not_elem_of_nil]. simpl. by rewrite app_nil_r.
  - destruct line as [|x line _] using rev_ind.
    + exists (kcons s), [], (g_procs s). split; [done|].
      rewrite (bind_run (gets kcons) _ s _ s eq_refl). rewrite (cring_edited _ _ _ Hc), app_nil_r, Nat.eqb_refl.
      cbn [negb when]. split; [by rewrite <- Hid|]. by split.
    + rewrite length_app, Nat.add_sub, take_app_length. apply not_elem_of_app in Hx as [Hx _].
      destruct (erase_run line x ready s Hc) as [E Hc'].
      eexists _, _, (g_procs s). split; [done|].
      rewrite (bind_run (gets kcons) _ s _ s eq_refl). rewrite (cring_edited _ _ _ Hc).
      replace (_ =? _)%nat with false by (symmetry; apply Nat.eqb_neq; rewrite !length_app; simpl; lia).
      cbn [negb when]. rewrite E. split; [|by split]. rewrite (Hid [8; 32; 8]). done.
  - rewrite (bind_run (gets kcons) _ s _ s eq_refl). rewrite (cring_used _ _ _ Hc).
    destruct (ch =? 0); cbn [negb andb orb when].
    { exists (kcons s), [], (g_procs s). split; [done|]. split; [by rewrite <- Hid|by split]. }
    change INPUT_BUF_SIZE with 128.
    destruct (Nat.leb_spec 128 (length (ready ++ line))) as [Hf|Hf].
    + destruct (Z.ltb_spec (Z.of_nat (length (ready ++ line))) 128); [lia|].
      exists (kcons s), [], (g_procs s). split; [done|]. split; [by rewrite <- Hid|by split].
    + destruct (Z.ltb_spec (Z.of_nat (length (ready ++ line))) 128); [|lia].
      destruct (insert_run ch ready line s Hc Hx Hch Hf Hlen Hu) as (c & out & ps & Hps & E & Hr).
      exists c, out, ps. split; [done|]. split; [exact E|]. done.
Qed.

(** [C32] The console input interrupt is a line editor.  Whatever character
    arrives, and wherever the 32-bit indices stand, the circular buffer then represents
    what the editor [edit] makes of the finished input and the current line: a
    character is appended unless 128 are waiting, newline, control-D or a full buffer
    finishes the line, backspace erases one character and control-U the
    line, never finished input.  The lock is free again and nothing else of the
    kernel changes but the output and the processes woken. *)
Theorem consoleintr_edits ch ed s :
  cons_ready s -> crepr (kcons s) ed -> 0 <= ch < 256 ->
  exists c out ps, length ps = NPROC /\
    consoleintr ch s = Ret tt (set_kcons c (put_procs ps (put_out out s))) /\ crepr c (edit ch ed).
Proof.
  intros [Hf Hpr Hlen Hu Hn] Hc Hch. unfold consoleintr.
  rewrite (bind_run _ _ _ _ _ (lock_acquire_run _ _ Hf)).
  destruct (consoleintr_switch_run ch ed (put_locks (<[LCons := g_hart s]> (g_locks s)) s))
    as (c & out & ps & Hps & E & Hr); try done.
  - intros i. unfold lock_free. kget. rewrite lookup_insert_ne by done. apply Hu.
  - unfold lock_free. kget. by rewrite lookup_insert_ne.
  - exists c, out, ps. split; [done|]. rewrite (bind_run _ _ _ _ _ E). split; [|done].
    erewrite lock_release_section; [|by destruct out|exact Hf|by destruct out].
    f_equal. destruct s as [[] ? [] ? ? ? ? ? ?]. by destruct out.
Qed.

(** The indices are about to wrap: "a", backspace, "b", return. *)
Definition cons_wrap : cons :=
  {| c_buf := replicate 128 0; c_r := 4294967295; c_w := 4294967295; c_e := 4294967295 |}.

Lemma consoleintr_edits_witness :
  exists c out ps, consoleintr 97 (set_kcons cons_wrap boot) = Ret tt (set_kcons c (put_procs ps (put_out out boot))) /\
    crepr c ([], [97]) /\ edit 13 (edit 98 (edit 8 ([], [97]))) = ([98; 10], []).
Proof.
  destruct (consoleintr_edits 97 ([], []) (set_kcons cons_wrap boot)) as (c & out & ps & _ & E & H).
  - split; [reflexivity|reflexivity|reflexivity|intros i; reflexivity|].
    apply (Forall_replicate _ NPROC zero_proc). apply (Forall_replicate _ 16 0). lia.
  - split; [|apply not_elem_of_nil]. split; simpl; [reflexivity|lia|reflexivity|reflexivity|lia|by intros i x].
  - lia.
  - exists c, out, ps. split; [|split; [exact H|reflexivity]]. rewrite E. by destruct out.
Defined.
