(* ===== verification/Bio.v ===== *)
(** * The buffer cache: kernel/bio.c

    A [struct buf *] is an index into [bcache.buf]; [NBUF] stands for
    [&bcache.head], whose [prev] and [next] are separate globals.  The disk
    driver is used through its synchronous effect: [virtio_disk_rw] moves one
    block between the buffer and the disk and records the writes in the order
    the disk receives them. *)

From Stdlib Require Import ZArith Lia.
From stdpp Require Import base list gmap strings numbers option.
From S2P Require Import Prelude Bytes Riscv Cstring Kstate Sched.

Definition BSIZE : Z := 1024.

(** ** The LRU ring: [prev] and [next] of a buffer or of the head *)

Definition node_next (i : nat) : M nat :=
  if (i =? NBUF)%nat then gets g_head_next else b <- get_buf i ;; ret (b_next b).
Definition node_prev (i : nat) : M nat :=
  if (i =? NBUF)%nat then gets g_head_prev else b <- get_buf i ;; ret (b_prev b).
Definition set_next (i v : nat) : M unit :=
  if (i =? NBUF)%nat then modify (put_head_next v) else upd_buf i (set_b_next v).
Definition set_prev (i v : nat) : M unit :=
  if (i =? NBUF)%nat then modify (put_head_prev v) else upd_buf i (set_b_prev v).

(** The disk: a block that was never written reads as zeros. *)
Definition disk_block (d : gmap Z (list Z)) (b : Z) : list Z := default (replicate 1024 0) (d !! b).

(** The disk block that the driver's [b->blockno * (BSIZE / 512)], a sector number of 32 bits,
    names. *)
Definition disk_blockno (bn : Z) : Z := u32 (bn * 2) / 2.

Lemma disk_blockno_small bn : 0 <= bn < 2 ^ 31 -> disk_blockno bn = bn.
Proof. intros H. unfold disk_blockno. rewrite u32_small by lia. by apply Z.div_mul. Qed.

(** The effect of [virtio_disk_rw] of kernel/virtio_disk.c on the buffer and the disk: the specification that
    the driver ([Machine.disk_rw]) is shown to implement. *)
Definition virtio_disk_rw (b : nat) (write : bool) : M unit :=
  x <- get_buf b ;;
  let bn := disk_blockno (b_blockno x) in
  if write then
    modify (fun s => put_dwrites (g_dwrites s ++ [(bn, b_data x)]) (put_disk (<[bn := b_data x]> (g_disk s)) s))
  else
    d <- gets g_disk ;;
    upd_buf b (set_b_data (disk_block d bn)).

Definition buf_acquiresleep (b : nat) : M unit :=
  acquiresleep (LBufSl b) (buf_lock_get b) (buf_lock_upd b) sleep_fuel.
Definition buf_releasesleep (b : nat) : M unit := releasesleep (LBufSl b) (buf_lock_upd b).
Definition buf_holdingsleep (b : nat) : M bool := holdingsleep (LBufSl b) (buf_lock_get b).

Definition binit : M unit :=
  modify (fun s => put_locks (delete LBcache (g_locks s)) s) ;;
  modify (put_head_prev NBUF) ;;
  modify (put_head_next NBUF) ;;
  for_each NBUF 0 (fun b =>
    n <- gets g_head_next ;;
    set_next b n ;;
    set_prev b NBUF ;;
    initsleeplock (LBufSl b) (buf_lock_upd b) ;;
    n <- gets g_head_next ;;
    set_prev n b ;;
    modify (put_head_next b)).

(** The forward search of [bget] from [b]. *)
Fixpoint bget_find (fuel : nat) (dev blockno : Z) (b : nat) : M (option nat) :=
  match fuel with
  | O => fail NoFuel
  | S fuel' =>
      if (b =? NBUF)%nat then ret None else
      x <- get_buf b ;;
      if (b_dev x =? dev) && (b_blockno x =? blockno) then ret (Some b)
      else bget_find fuel' dev blockno (b_next x)
  end.

(** The backward search for an unused buffer. *)
Fixpoint bget_lru (fuel : nat) (b : nat) : M (option nat) :=
  match fuel with
  | O => fail NoFuel
  | S fuel' =>
      if (b =? NBUF)%nat then ret None else
      x <- get_buf b ;;
      if b_refcnt x =? 0 then ret (Some b) else bget_lru fuel' (b_prev x)
  end.

Definition bget (dev blockno : Z) : M nat :=
  lock_acquire LBcache ;;
  first <- gets g_head_next ;;
  r <- bget_find (S NBUF) dev blockno first ;;
  match r with
  | Some b =>
      upd_buf b (fun x => set_b_refcnt (u32 (b_refcnt x + 1)) x) ;;
      lock_release LBcache ;;
      buf_acquiresleep b ;;
      ret b
  | None =>
      last <- gets g_head_prev ;;
      r <- bget_lru (S NBUF) last ;;
      match r with
      | Some b =>
          upd_buf b (set_b_dev dev) ;;
          upd_buf b (set_b_blockno blockno) ;;
          upd_buf b (set_b_valid false) ;;
          upd_buf b (set_b_refcnt 1) ;;
          lock_release LBcache ;;
          buf_acquiresleep b ;;
          ret b
      | None => panic "bget: no buffers"
      end
  end.

Definition bread (dev blockno : Z) : M nat :=
  b <- bget dev blockno ;;
  x <- get_buf b ;;
  when (negb (b_valid x)) (virtio_disk_rw b false ;; upd_buf b (set_b_valid true)) ;;
  ret b.

Definition bwrite (b : nat) : M unit :=
  h <- buf_holdingsleep b ;;
  if negb h then panic "bwrite" else
  virtio_disk_rw b true.

(** [b->next->prev = b->prev; b->prev->next = b->next; ...; bcache.head.next = b;] *)
Definition move_to_front (b : nat) : M unit :=
  n <- node_next b ;; p <- node_prev b ;; set_prev n p ;;
  p <- node_prev b ;; n <- node_next b ;; set_next p n ;;
  h <- gets g_head_next ;; set_next b h ;;
  set_prev b NBUF ;;
  h <- gets g_head_next ;; set_prev h b ;;
  modify (put_head_next b).

Definition brelse (b : nat) : M unit :=
  h <- buf_holdingsleep b ;;
  if negb h then panic "brelse" else
  buf_releasesleep b ;;
  lock_acquire LBcache ;;
  upd_buf b (fun x => set_b_refcnt (u32 (b_refcnt x - 1)) x) ;;
  x <- get_buf b ;;
  when (b_refcnt x =? 0) (move_to_front b) ;;
  lock_release LBcache.

Definition bpin (b : nat) : M unit :=
  lock_acquire LBcache ;;
  upd_buf b (fun x => set_b_refcnt (u32 (b_refcnt x + 1)) x) ;;
  lock_release LBcache.

Definition bunpin (b : nat) : M unit :=
  lock_acquire LBcache ;;
  upd_buf b (fun x => set_b_refcnt (u32 (b_refcnt x - 1)) x) ;;
  lock_release LBcache.

(** [b->data] as other files use it. *)
Definition buf_data (b : nat) : M (list Z) := x <- get_buf b ;; ret (b_data x).
Definition buf_blockno (b : nat) : M Z := x <- get_buf b ;; ret (b_blockno x).
Definition set_buf_data (b : nat) (d : list Z) : M unit := upd_buf b (set_b_data d).
