(* ===== verification/BioSpec.v ===== *)
(** * The buffer cache is a coherent cache

    The abstraction of kernel/bio.c: [bview] is the content of each block as
    readers see it, [brefs] its reference count and [blocked] whether its buffer
    is locked.  [cache_ok] is the invariant: the LRU list is a ring through all
    buffers, no block is cached twice, and an unreferenced buffer agrees with the
    disk.  [bread], [bwrite] and [brelse] are specified in these terms. *)

From Stdlib Require Import ZArith Lia.
From stdpp Require Import base list gmap strings numbers option.
From S2P Require Import Prelude Bytes Riscv Cstring Kstate Sched Bio.

(** ** Doubly linked lists *)

(** Function update. *)
Definition fupd (f : nat -> nat) (i v : nat) : nat -> nat := fun j => if (j =? i)%nat then v else f j.

Lemma fupd_eq f i v : fupd f i v i = v.
Proof. unfold fupd. by rewrite Nat.eqb_refl. Qed.
Lemma fupd_ne f i v j : j <> i -> fupd f i v j = f j.
Proof. unfold fupd. by destruct (Nat.eqb_spec j i). Qed.

(** [a], then the nodes of [l], then [z] are linked in both directions. *)
Fixpoint links (nx pv : nat -> nat) (a : nat) (l : list nat) (z : nat) : Prop :=
  match l with
  | [] => nx a = z /\ pv z = a
  | b :: l' => nx a = b /\ pv b = a /\ links nx pv b l' z
  end.

Lemma links_ext nx pv nx' pv' a l z :
  (forall x, x ∈ a :: l -> nx' x = nx x) -> (forall x, x ∈ z :: l -> pv' x = pv x) ->
  links nx pv a l z -> links nx' pv' a l z.
Proof.
  revert a. induction l as [|b l IH]; intros a Hn Hp; simpl.
  - intros [? ?]. split; [by rewrite Hn by set_solver|by rewrite Hp by set_solver].
  - intros (? & ? & ?). rewrite Hn, Hp by set_solver. split_and!; auto.
    apply IH; [| |done]; intros; [apply Hn|apply Hp]; set_solver.
Qed.

Lemma links_app nx pv a l1 b l2 z :
  links nx pv a (l1 ++ b :: l2) z <-> links nx pv a l1 b /\ links nx pv b l2 z.
Proof.
  revert a. induction l1 as [|c l1 IH]; intros a; simpl; [tauto|].
  rewrite IH. tauto.
Qed.

Lemma links_head nx pv a l z : links nx pv a l z -> nx a = hd z l.
Proof. destruct l; simpl; tauto. Qed.

Lemma links_last nx pv a l z : links nx pv a l z -> pv z ∈ a :: l.
Proof.
  revert a. induction l as [|b l IH]; intros a; simpl.
  - intros [_ ->]. set_solver.
  - intros (_ & _ & H). apply IH in H. set_solver.
Qed.

(** Taking [b] out: its neighbours are linked to each other. *)
Lemma links_unlink nx pv a l1 b l2 z :
  NoDup (a :: l1 ++ b :: l2) -> z ∉ l1 ++ b :: l2 ->
  links nx pv a l1 b -> links nx pv b l2 z ->
  links (fupd nx (pv b) (nx b)) (fupd pv (nx b) (pv b)) a (l1 ++ l2) z.
Proof.
  revert a. induction l1 as [|c l1 IH]; intros a Hnd Hz H1 H2.
  - destruct H1 as [_ Hb]. simpl in *. rewrite Hb.
    apply list.NoDup_cons in Hnd as [Ha Hnd]. apply list.NoDup_cons in Hnd as [Hb2 Hnd].
    destruct l2 as [|d l2]; simpl in *.
    + destruct H2 as [-> ?]. by rewrite !fupd_eq.
    + destruct H2 as (-> & Hd & H2). rewrite !fupd_eq. split_and!; auto.
      apply list.NoDup_cons in Hnd as [Hd2 _].
      eapply links_ext; [| |exact H2]; intros x Hx; rewrite fupd_ne; set_solver.
  - pose proof (links_head _ _ _ _ _ H2) as Hn.
    destruct H1 as (Ha & Hc & H1). apply list.NoDup_cons in Hnd as [Hna Hnd]. simpl.
    pose proof (links_last _ _ _ _ _ H1) as Hp.
    split_and!; [rewrite fupd_ne; [done|intros ->; set_solver]| |apply IH; auto; set_solver].
    rewrite fupd_ne; [done|]. rewrite Hn. apply list.NoDup_cons in Hnd as [Hc2 _].
    destruct l2; simpl; set_solver.
Qed.

(** Putting [b] in at the front. *)
Lemma links_push nx pv a b l z :
  b <> a -> b <> z -> b ∉ l -> a ∉ l -> z ∉ l -> NoDup l ->
  links nx pv a l z ->
  links (fupd (fupd nx b (nx a)) a b) (fupd (fupd pv b a) (nx a) b) a (b :: l) z.
Proof.
  intros Hba Hbz Hbl Hal Hzl Hnd H.
  pose proof (links_head _ _ _ _ _ H) as Hh. simpl. rewrite fupd_eq.
  assert (nx a <> b) by (rewrite Hh; destruct l; simpl; set_solver).
  split_and!; [done|by rewrite fupd_ne, fupd_eq by done|].
  destruct l as [|c l]; simpl in *.
  - destruct H as [-> _]. rewrite fupd_ne, !fupd_eq by done. done.
  - destruct H as (-> & Hc & H). rewrite fupd_ne, !fupd_eq by done. split_and!; [done..|].
    apply list.NoDup_cons in Hnd as [Hcl _].
    eapply links_ext; [| |exact H]; intros x Hx; rewrite !fupd_ne; set_solver.
Qed.

(** ** The ring in the state *)

Definition nextof (s : kstate) (i : nat) : nat :=
  if (i =? NBUF)%nat then g_head_next s else default 0%nat (b_next <$> g_bufs s !! i).
Definition prevof (s : kstate) (i : nat) : nat :=
  if (i =? NBUF)%nat then g_head_prev s else default 0%nat (b_prev <$> g_bufs s !! i).

(** The state with other links. *)
Definition set_links (nx pv : nat -> nat) (i : nat) (x : buf) : buf :=
  set_b_prev (pv i) (set_b_next (nx i) x).
Definition relink (nx pv : nat -> nat) (s : kstate) : kstate :=
  put_head_next (nx NBUF) (put_head_prev (pv NBUF) (put_bufs (imap (set_links nx pv) (g_bufs s)) s)).

Lemma relink_bufs nx pv s : g_bufs (relink nx pv s) = imap (set_links nx pv) (g_bufs s).
Proof. done. Qed.

Lemma relink_ext nx pv nx' pv' s :
  length (g_bufs s) = NBUF ->
  (forall i, (i <= NBUF)%nat -> nx i = nx' i) -> (forall i, (i <= NBUF)%nat -> pv i = pv' i) ->
  relink nx pv s = relink nx' pv' s.
Proof.
  intros Hl Hn Hp. unfold relink. rewrite Hn, Hp by done. do 3 f_equal.
  apply imap_ext. intros i x Hx. apply lookup_lt_Some in Hx.
  unfold set_links. rewrite Hn, Hp by lia. done.
Qed.

Lemma relink_id s : length (g_bufs s) = NBUF -> relink (nextof s) (prevof s) s = s.
Proof.
  intros Hl. unfold relink.
  assert (imap (set_links (nextof s) (prevof s)) (g_bufs s) = g_bufs s) as ->.
  { apply list_eq. intros i. rewrite list_lookup_imap.
    destruct (g_bufs s !! i) as [x|] eqn:E; [|done]. simpl. f_equal.
    unfold set_links, nextof, prevof. pose proof (lookup_lt_Some _ _ _ E).
    destruct (Nat.eqb_spec i NBUF); [lia|]. rewrite E. by destruct x. }
  unfold nextof, prevof. rewrite Nat.eqb_refl. by destruct s as [? ? ? [] ? ? ? ? ?].
Qed.

Lemma nextof_relink nx pv s i :
  length (g_bufs s) = NBUF -> (i <= NBUF)%nat -> nextof (relink nx pv s) i = nx i.
Proof.
  intros Hl Hi. unfold nextof. destruct (Nat.eqb_spec i NBUF) as [->|]; [done|].
  rewrite relink_bufs, list_lookup_imap.
  destruct (lookup_lt_is_Some_2 (g_bufs s) i) as [x ->]; [lia|]. done.
Qed.

Lemma prevof_relink nx pv s i :
  length (g_bufs s) = NBUF -> (i <= NBUF)%nat -> prevof (relink nx pv s) i = pv i.
Proof.
  intros Hl Hi. unfold prevof. destruct (Nat.eqb_spec i NBUF) as [->|]; [done|].
  rewrite relink_bufs, list_lookup_imap.
  destruct (lookup_lt_is_Some_2 (g_bufs s) i) as [x ->]; [lia|]. done.
Qed.

Lemma relink_relink nx pv nx' pv' s : relink nx pv (relink nx' pv' s) = relink nx pv s.
Proof.
  unfold relink at 1. rewrite relink_bufs.
  assert (imap (set_links nx pv) (imap (set_links nx' pv') (g_bufs s)) =
          imap (set_links nx pv) (g_bufs s)) as ->.
  { apply list_eq. intros i. rewrite !list_lookup_imap. by destruct (g_bufs s !! i). }
  done.
Qed.

Section ring_ops.
Context (s : kstate) (nx pv : nat -> nat).
Context (Hl : length (g_bufs s) = NBUF).

Lemma node_next_run i : (i <= NBUF)%nat -> node_next i (relink nx pv s) = Ret (nx i) (relink nx pv s).
Proof using Hl.
  intros Hi. unfold node_next. destruct (Nat.eqb_spec i NBUF) as [->|]; [done|].
  unfold bind, get_buf. destruct (lookup_lt_is_Some_2 (g_bufs s) i) as [x E]; [lia|].
  erewrite arr_get_run by (rewrite relink_bufs, list_lookup_imap, E; reflexivity). done.
Qed.

Lemma node_prev_run i : (i <= NBUF)%nat -> node_prev i (relink nx pv s) = Ret (pv i) (relink nx pv s).
Proof using Hl.
  intros Hi. unfold node_prev. destruct (Nat.eqb_spec i NBUF) as [->|]; [done|].
  unfold bind, get_buf. destruct (lookup_lt_is_Some_2 (g_bufs s) i) as [x E]; [lia|].
  erewrite arr_get_run by (rewrite relink_bufs, list_lookup_imap, E; reflexivity). done.
Qed.

Lemma set_next_run i v : (i <= NBUF)%nat ->
  set_next i v (relink nx pv s) = Ret tt (relink (fupd nx i v) pv s).
Proof using Hl.
  intros Hi. unfold set_next. destruct (Nat.eqb_spec i NBUF) as [->|Hne].
  - unfold modify. f_equal. unfold relink. rewrite fupd_eq.
    assert (imap (set_links (fupd nx NBUF v) pv) (g_bufs s) = imap (set_links nx pv) (g_bufs s)) as ->.
    { apply imap_ext. intros j x Hx. apply lookup_lt_Some in Hx. unfold set_links. rewrite fupd_ne by lia. done. }
    done.
  - unfold upd_buf. destruct (lookup_lt_is_Some_2 (g_bufs s) i) as [x E]; [lia|].
    erewrite arr_upd_run by (rewrite relink_bufs, list_lookup_imap, E; reflexivity). f_equal.
    unfold relink. rewrite fupd_ne by done. kget.
    assert (<[i := set_b_next v (set_links nx pv i x)]> (imap (set_links nx pv) (g_bufs s)) =
            imap (set_links (fupd nx i v) pv) (g_bufs s)) as ->; [|done].
    apply list_eq. intros j. destruct (decide (j = i)) as [->|Hj].
    + rewrite list_lookup_insert_eq by (rewrite length_imap; lia). rewrite list_lookup_imap, E. simpl.
      unfold set_links. by rewrite fupd_eq.
    + rewrite list_lookup_insert_ne by done. rewrite !list_lookup_imap.
      destruct (g_bufs s !! j); [|done]. simpl. unfold set_links. by rewrite fupd_ne.
Qed.

Lemma set_prev_run i v : (i <= NBUF)%nat ->
  set_prev i v (relink nx pv s) = Ret tt (relink nx (fupd pv i v) s).
Proof using Hl.
  intros Hi. unfold set_prev. destruct (Nat.eqb_spec i NBUF) as [->|Hne].
  - unfold modify. f_equal. unfold relink. rewrite fupd_eq.
    assert (imap (set_links nx (fupd pv NBUF v)) (g_bufs s) = imap (set_links nx pv) (g_bufs s)) as ->.
    { apply imap_ext. intros j x Hx. apply lookup_lt_Some in Hx. unfold set_links. rewrite fupd_ne by lia. done. }
    done.
  - unfold upd_buf. destruct (lookup_lt_is_Some_2 (g_bufs s) i) as [x E]; [lia|].
    erewrite arr_upd_run by (rewrite relink_bufs, list_lookup_imap, E; reflexivity). f_equal.
    unfold relink. rewrite fupd_ne by done. kget.
    assert (<[i := set_b_prev v (set_links nx pv i x)]> (imap (set_links nx pv) (g_bufs s)) =
            imap (set_links nx (fupd pv i v)) (g_bufs s)) as ->; [|done].
    apply list_eq. intros j. destruct (decide (j = i)) as [->|Hj].
    + rewrite list_lookup_insert_eq by (rewrite length_imap; lia). rewrite list_lookup_imap, E. simpl.
      unfold set_links. by rewrite fupd_eq.
    + rewrite list_lookup_insert_ne by done. rewrite !list_lookup_imap.
      destruct (g_bufs s !! j); [|done]. simpl. unfold set_links. by rewrite fupd_ne.
Qed.
End ring_ops.

Definition ring (s : kstate) (l : list nat) : Prop :=
  l ≡ₚ seq 0 NBUF /\ links (nextof s) (prevof s) NBUF l NBUF.

Lemma ring_nodup s l : ring s l -> NoDup l.
Proof. intros [H _]. rewrite H. apply NoDup_seq. Qed.
Lemma ring_elem s l i : ring s l -> i ∈ l <-> (i < NBUF)%nat.
Proof. intros [H _]. rewrite H. rewrite elem_of_seq. lia. Qed.

Lemma move_to_front_links s nx pv b :
  length (g_bufs s) = NBUF -> (b < NBUF)%nat -> (nx b <= NBUF)%nat -> (pv b <= NBUF)%nat ->
  nx b <> b -> (fupd nx (pv b) (nx b) NBUF <= NBUF)%nat ->
  let nx1 := fupd nx (pv b) (nx b) in
  move_to_front b (relink nx pv s) =
    Ret tt (relink (fupd (fupd nx1 b (nx1 NBUF)) NBUF b)
                   (fupd (fupd (fupd pv (nx b) (pv b)) b NBUF) (nx1 NBUF) b) s).
Proof.
  intros Hl Hb Hnb Hpb Hne Hh nx1. unfold move_to_front, bind.
  rewrite node_next_run by (done || lia). cbn [obind].
  rewrite node_prev_run by (done || lia). cbn [obind].
  rewrite set_prev_run by done. cbn [obind].
  rewrite node_prev_run by (done || lia). cbn [obind].
  rewrite node_next_run by (done || lia). cbn [obind]. rewrite fupd_ne by done.
  rewrite set_next_run by done. cbn [obind]. fold nx1.
  unfold gets. cbn [obind]. change (g_head_next (relink nx1 ?v s)) with (nx1 NBUF).
  rewrite set_next_run by (done || lia). cbn [obind].
  rewrite set_prev_run by (done || lia). cbn [obind].
  change (g_head_next (relink ?f ?v s)) with (f NBUF). rewrite (fupd_ne nx1) by lia.
  rewrite set_prev_run by done. cbn [obind]. 
  exact (set_next_run s _ _ Hl NBUF b (le_n _)).
Qed.

(** [brelse] moves a buffer to the front of the list. *)
Lemma move_to_front_run s l b :
  length (g_bufs s) = NBUF -> ring s l -> (b < NBUF)%nat ->
  exists l1 l2 nx pv, l = l1 ++ b :: l2 /\
    move_to_front b s = Ret tt (relink nx pv s) /\ ring (relink nx pv s) (b :: l1 ++ l2).
Proof.
  intros Hl Hr Hb. pose proof (ring_nodup _ _ Hr) as Hnd.
  assert (b ∈ l) as Hin by (by apply (ring_elem s)).
  assert (NBUF ∉ l) as HN by (rewrite (ring_elem s) by done; lia).
  apply list_elem_of_split in Hin as (l1 & l2 & ->).
  destruct Hr as [Hperm Hlk]. apply links_app in Hlk as [H1 H2].
  pose proof (links_last _ _ _ _ _ H1) as Hp. pose proof (links_head _ _ _ _ _ H2) as Hn.
  assert (forall x, x ∈ l1 ++ b :: l2 -> (x < NBUF)%nat) as Hlt.
  { intros x. rewrite Hperm, elem_of_seq. lia. }
  assert (nextof s b ∈ NBUF :: l2) as Hn' by (rewrite Hn; destruct l2; set_solver).
  assert (NoDup (NBUF :: l1 ++ b :: l2)) as Hnd' by (by apply list.NoDup_cons).
  pose proof (links_unlink _ _ _ _ _ _ _ Hnd' HN H1 H2) as H3.
  assert ((b ∉ l1 ++ l2) /\ NoDup (l1 ++ l2)) as [Hbn Hnd2].
  { rewrite list.NoDup_app in Hnd. rewrite list.NoDup_app. rewrite list.NoDup_cons in Hnd. set_solver. }
  assert (HN' : NBUF ∉ l1 ++ l2) by set_solver.
  assert (b <> NBUF) as HbN by lia.
  pose proof (links_push _ _ _ _ _ _ HbN HbN Hbn HN' HN' Hnd2 H3) as H4.
  assert (nextof s b <> b) as Hnb.
  { intros E. rewrite E in Hn'. rewrite list.NoDup_app, list.NoDup_cons in Hnd. set_solver. }
  pose proof (links_head _ _ _ _ _ H3) as H3h.
  exists l1, l2. eexists _, _. split; [done|]. split.
  - rewrite <- (relink_id s) at 1 by done. apply move_to_front_links; try done.
    + apply elem_of_cons in Hn' as [->|?]; [done|]. apply Nat.lt_le_incl, Hlt. set_solver.
    + apply elem_of_cons in Hp as [->|?]; [done|]. apply Nat.lt_le_incl, Hlt. set_solver.
    + rewrite H3h. destruct (l1 ++ l2) as [|c l'] eqn:E; simpl; [done|].
      apply Nat.lt_le_incl, Hlt. assert (c ∈ l1 ++ l2) by (rewrite E; set_solver). set_solver.
  - split; [rewrite <- Hperm; by rewrite Permutation_middle|].
    eapply links_ext; [| |exact H4].
    + intros x Hx. apply nextof_relink; [done|]. apply elem_of_cons in Hx as [->|Hx]; [done|].
      apply Nat.lt_le_incl, Hlt. set_solver.
    + intros x Hx. apply prevof_relink; [done|]. apply elem_of_cons in Hx as [->|Hx]; [done|].
      apply Nat.lt_le_incl, Hlt. set_solver.
Qed.

(** ** Searching the ring *)

Definition caches (dev bn : Z) (x : buf) : Prop := b_dev x = dev /\ b_blockno x = bn.

#[export] Instance caches_dec dev bn x : Decision (caches dev bn x).
Proof. unfold caches. apply _. Defined.

Lemma bget_find_run dev bn s l a fuel :
  links (nextof s) (prevof s) a l NBUF -> Forall (fun i => (i < length (g_bufs s))%nat) l ->
  length (g_bufs s) = NBUF -> (length l < fuel)%nat ->
  exists r, bget_find fuel dev bn (nextof s a) s = Ret r s /\
    match r with
    | Some b => exists x, g_bufs s !! b = Some x /\ caches dev bn x
    | None => forall b x, b ∈ l -> g_bufs s !! b = Some x -> ~ caches dev bn x
    end.
Proof.
  intros Hk Hlt Hl. revert a fuel Hk. induction Hlt as [|b l Hb Hlt IH]; intros a fuel Hk Hf;
    (destruct fuel as [|fuel]; [simpl in Hf; lia|]); cbn [bget_find].
  - destruct Hk as [-> _]. rewrite Nat.eqb_refl. exists None. split; [done|]. set_solver.
  - destruct Hk as (-> & _ & Hk). destruct (Nat.eqb_spec b NBUF); [lia|].
    destruct (lookup_lt_is_Some_2 _ _ Hb) as [x Hx]. unfold bind, get_buf.
    erewrite arr_get_run by exact Hx. cbn [obind].
    destruct (Z.eqb_spec (b_dev x) dev); [destruct (Z.eqb_spec (b_blockno x) bn)|].
    + exists (Some b). split; [done|]. exists x. done.
    + destruct (IH b fuel Hk) as (r & E & Hr); [simpl in Hf; lia|].
      unfold nextof in E. destruct (Nat.eqb_spec b NBUF); [lia|]. rewrite Hx in E. simpl in E.
      exists r. split; [exact E|]. destruct r; [done|]. intros c y Hc Hy.
      apply elem_of_cons in Hc as [->|Hc]; [|by eapply Hr].
      rewrite Hx in Hy. injection Hy as <-. by intros [? ?].
    + destruct (IH b fuel Hk) as (r & E & Hr); [simpl in Hf; lia|].
      unfold nextof in E. destruct (Nat.eqb_spec b NBUF); [lia|]. rewrite Hx in E. simpl in E.
      exists r. split; [exact E|]. destruct r; [done|]. intros c y Hc Hy.
      apply elem_of_cons in Hc as [->|Hc]; [|by eapply Hr].
      rewrite Hx in Hy. injection Hy as <-. by intros [? ?].
Qed.

Lemma bget_lru_run s l z fuel :
  links (nextof s) (prevof s) NBUF l z -> Forall (fun i => (i < length (g_bufs s))%nat) l ->
  length (g_bufs s) = NBUF -> (length l < fuel)%nat ->
  exists r, bget_lru fuel (prevof s z) s = Ret r s /\
    match r with
    | Some b => exists x, g_bufs s !! b = Some x /\ b_refcnt x = 0
    | None => forall b x, b ∈ l -> g_bufs s !! b = Some x -> b_refcnt x <> 0
    end.
Proof.
  intros Hk Hlt Hl. revert z fuel Hk.
  induction l as [|b l IH] using rev_ind; intros z fuel Hk Hf;
    (destruct fuel as [|fuel]; [lia|]); cbn [bget_lru].
  - destruct Hk as [_ ->]. rewrite Nat.eqb_refl. exists None. split; [done|]. set_solver.
  - apply links_app in Hk as [Hk [_ ->]]. apply Forall_app in Hlt as [Hlt Hb].
    rewrite Forall_singleton in Hb. destruct (Nat.eqb_spec b NBUF); [exfalso; lia|].
    destruct (lookup_lt_is_Some_2 _ _ Hb) as [x Hx]. unfold bind, get_buf.
    erewrite arr_get_run by exact Hx. cbn [obind].
    destruct (Z.eqb_spec (b_refcnt x) 0).
    + exists (Some b). split; [done|]. exists x. done.
    + rewrite length_app in Hf. simpl in Hf.
      destruct (IH Hlt b fuel Hk) as (r & E & Hr); [lia|].
      unfold prevof in E. destruct (Nat.eqb_spec b NBUF); [lia|]. rewrite Hx in E. simpl in E.
      exists r. split; [exact E|]. destruct r; [done|]. intros c y Hc Hy.
      apply elem_of_app in Hc as [Hc|Hc]; [by eapply Hr|].
      apply list_elem_of_singleton in Hc as ->. rewrite Hx in Hy. by injection Hy as <-.
Qed.

(** ** The abstract cache of one device *)

Section cache.
Context (dev : Z).

(** The buffer that caches block [bn]. *)
Definition cbuf (s : kstate) (bn : Z) : option (nat * buf) := list_find (caches dev bn) (g_bufs s).

(** The content of a block as seen through the cache, its reference count, and
    whether its buffer is locked. *)
Definition bview (s : kstate) (bn : Z) : list Z :=
  match cbuf s bn with Some (_, x) => b_data x | None => disk_block (g_disk s) bn end.
Definition brefs (s : kstate) (bn : Z) : Z :=
  match cbuf s bn with Some (_, x) => b_refcnt x | None => 0 end.
Definition blocked (s : kstate) (bn : Z) : bool :=
  match cbuf s bn with Some (_, x) => sl_locked (b_lock x) | None => false end.

(** The number of buffers that can be recycled. *)
Definition nfree (s : kstate) : nat := length (filter (fun x => b_refcnt x = 0) (g_bufs s)).

Record buf_ok (d : gmap Z (list Z)) (x : buf) : Prop := {
  bo_len : length (b_data x) = 1024%nat;
  bo_ref : 0 <= b_refcnt x < 2 ^ 32;
  bo_free : b_refcnt x = 0 -> sl_locked (b_lock x) = false;
  bo_valid : b_dev x = dev -> b_valid x = true;
  bo_clean : b_refcnt x = 0 -> b_dev x = dev -> b_data x = disk_block d (b_blockno x)
}.

Record cache_ok (s : kstate) : Prop := {
  co_len : length (g_bufs s) = NBUF;
  co_ring : exists l, ring s l;
  co_uniq : forall i j x y, g_bufs s !! i = Some x -> g_bufs s !! j = Some y ->
    b_dev x = dev -> b_dev y = dev -> b_blockno x = b_blockno y -> i = j;
  co_buf : forall i x, g_bufs s !! i = Some x -> buf_ok (g_disk s) x;
  co_disk : forall bn, length (disk_block (g_disk s) bn) = 1024%nat
}.

(** Buffer [b] holds block [bn] with content [d], locked by process [pid]. *)
Definition holds (s : kstate) (pid bn : Z) (b : nat) (d : list Z) : Prop :=
  exists x, g_bufs s !! b = Some x /\ caches dev bn x /\ b_data x = d /\
    b_lock x = {| sl_locked := true; sl_pid := pid |} /\ 0 < b_refcnt x.

(** Only block [bn] is affected between [s] and [s']. *)
Record changes (bn : Z) (s s' : kstate) : Prop := {
  ch_view : forall c, c <> bn -> bview s' c = bview s c;
  ch_refs : forall c, c <> bn -> brefs s' c = brefs s c;
  ch_lock : forall c, c <> bn -> blocked s' c = blocked s c;
  ch_hold : forall pid c b d, c <> bn -> holds s pid c b d -> holds s' pid c b d
}.

Lemma cbuf_spec s bn b x :
  cache_ok s -> cbuf s bn = Some (b, x) <-> g_bufs s !! b = Some x /\ caches dev bn x.
Proof.
  intros Hok. unfold cbuf. rewrite list_find_Some. split; [naive_solver|].
  intros [Hx [Hd Hb]]. split_and!; [done|done|].
  intros j y Hy Hj [Hd' Hb']. assert (j = b); [|lia].
  eapply (co_uniq _ Hok); eauto. congruence.
Qed.

Lemma cbuf_none s bn : cbuf s bn = None <-> forall b x, g_bufs s !! b = Some x -> ~ caches dev bn x.
Proof.
  unfold cbuf. rewrite list_find_None, Forall_lookup. naive_solver.
Qed.

Lemma holds_view s pid bn b d :
  cache_ok s -> holds s pid bn b d ->
  bview s bn = d /\ 0 < brefs s bn /\ blocked s bn = true.
Proof.
  intros Hok (x & Hx & Hc & Hd & Hl & Hr).
  assert (cbuf s bn = Some (b, x)) as E by (by apply cbuf_spec).
  unfold bview, brefs, blocked. rewrite E, Hl. done.
Qed.

Lemma brefs_range s bn : cache_ok s -> 0 <= brefs s bn < 2 ^ 32.
Proof.
  intros Hok. unfold brefs. destruct (cbuf s bn) as [[b x]|] eqn:E; [|lia].
  apply cbuf_spec in E as [Hx _]; [|done]. apply (bo_ref _ _ (co_buf _ Hok _ _ Hx)).
Qed.

(** A block nobody references has its disk content and is not locked. *)
Lemma unref s bn : cache_ok s -> brefs s bn = 0 ->
  bview s bn = disk_block (g_disk s) bn /\ blocked s bn = false.
Proof.
  intros Hok. unfold bview, brefs, blocked. destruct (cbuf s bn) as [[b x]|] eqn:E; [|done].
  apply cbuf_spec in E as [Hx [Hd Hb]]; [|done]. intros H0.
  destruct (co_buf _ Hok _ _ Hx). subst bn. auto.
Qed.

Lemma length_bview s bn : cache_ok s -> length (bview s bn) = 1024%nat.
Proof.
  intros Hok. unfold bview. destruct (cbuf s bn) as [[b x]|] eqn:E; [|apply (co_disk _ Hok)].
  apply cbuf_spec in E as [Hx _]; [|done]. apply (bo_len _ _ (co_buf _ Hok _ _ Hx)).
Qed.

Lemma changes_refl bn s : changes bn s s.
Proof. split; auto. Qed.

Lemma changes_trans bn s1 s2 s3 : changes bn s1 s2 -> changes bn s2 s3 -> changes bn s1 s3.
Proof.
  intros [v1 r1 l1 h1] [v2 r2 l2 h2]. split; intros.
  - by rewrite v2, v1.
  - by rewrite r2, r1.
  - by rewrite l2, l1.
  - auto.
Qed.

(** Everything here is a function of the buffer cache and the disk. *)
Lemma cache_ok_kbio s s' : kbio s' = kbio s -> cache_ok s -> cache_ok s'.
Proof.
  intros E [Hl Hr Hu Hb Hd].
  split; unfold ring, nextof, prevof, g_bufs, g_head_next, g_head_prev, g_disk in *; rewrite E; auto.
Qed.

Lemma changes_kbio bn s1 s2 s1' s2' :
  kbio s1' = kbio s1 -> kbio s2' = kbio s2 -> changes bn s1 s2 -> changes bn s1' s2'.
Proof.
  intros E1 E2 [v r l h].
  split; unfold bview, brefs, blocked, holds, cbuf, g_bufs, g_disk in *; rewrite E1, E2; auto.
Qed.

(** ** Updating one buffer *)

Lemma ring_insert s l b x x' :
  ring s l -> g_bufs s !! b = Some x -> b_next x' = b_next x -> b_prev x' = b_prev x ->
  ring (put_bufs (<[b := x']> (g_bufs s)) s) l.
Proof.
  intros [Hp Hk] Hx Hn Hv. split; [done|].
  eapply links_ext; [| |exact Hk]; intros i _; unfold nextof, prevof; kget;
    (destruct (Nat.eqb_spec i NBUF); [done|]);
    (destruct (decide (i = b)) as [->|]; [|by rewrite list_lookup_insert_ne]);
    rewrite list_lookup_insert_eq by (by eapply lookup_lt_Some); rewrite Hx; simpl; congruence.
Qed.

Lemma cache_insert s b x x' :
  cache_ok s -> g_bufs s !! b = Some x -> b_next x' = b_next x -> b_prev x' = b_prev x ->
  buf_ok (g_disk s) x' ->
  (b_dev x' = dev -> forall j y, j <> b -> g_bufs s !! j = Some y -> ~ caches dev (b_blockno x') y) ->
  cache_ok (put_bufs (<[b := x']> (g_bufs s)) s).
Proof.
  intros [Hl [l Hr] Hu Hb Hd] Hx Hn Hv Hok Huniq. pose proof (lookup_lt_Some _ _ _ Hx) as Hlt.
  split; kget.
  - by rewrite length_insert.
  - exists l. by eapply ring_insert.
  - intros i j y z Hy Hz Hdy Hdz E.
    destruct (decide (i = b)) as [->|Hi], (decide (j = b)) as [->|Hj]; [done| | |].
    + rewrite list_lookup_insert_eq in Hy by done. injection Hy as <-.
      rewrite list_lookup_insert_ne in Hz by done. destruct (Huniq Hdy j z Hj Hz). by split.
    + rewrite list_lookup_insert_eq in Hz by done. injection Hz as <-.
      rewrite list_lookup_insert_ne in Hy by done. destruct (Huniq Hdz i y Hi Hy). by split.
    + rewrite list_lookup_insert_ne in Hy, Hz by done. eapply Hu; eauto.
  - intros i y Hy. destruct (decide (i = b)) as [->|Hi].
    + rewrite list_lookup_insert_eq in Hy by done. by injection Hy as <-.
    + rewrite list_lookup_insert_ne in Hy by done. by eapply Hb.
  - done.
Qed.

(** The update touches only the block that the buffer caches afterwards: it
    cached the same block before or could be recycled. *)
Lemma changes_insert s b x x' bn :
  cache_ok s -> cache_ok (put_bufs (<[b := x']> (g_bufs s)) s) ->
  g_bufs s !! b = Some x -> caches dev bn x' -> caches dev bn x \/ b_refcnt x = 0 ->
  changes bn s (put_bufs (<[b := x']> (g_bufs s)) s).
Proof.
  intros Hok Hok' Hx Hc' Hx0. set (s' := put_bufs _ s) in *.
  pose proof (lookup_lt_Some _ _ _ Hx) as Hlt.
  assert (forall c, c <> bn ->
    (exists j y, j <> b /\ cbuf s c = Some (j, y) /\ cbuf s' c = Some (j, y)) \/
    (cbuf s' c = None /\ (cbuf s c = None \/ cbuf s c = Some (b, x) /\ b_refcnt x = 0))) as Hcase.
  { intros c Hc. destruct (cbuf s c) as [[j y]|] eqn:E.
    - apply cbuf_spec in E as [Hy Hcy]; [|done]. destruct (decide (j = b)) as [->|Hj].
      + rewrite Hx in Hy. injection Hy as <-. right.
        assert (b_refcnt x = 0) by (destruct Hx0 as [[_ ?]|]; [destruct Hcy; congruence|done]).
        split; [|auto]. apply cbuf_none. intros i z Hz Hcz. unfold s' in Hz. kget_in Hz.
        destruct (decide (i = b)) as [->|Hi].
        * rewrite list_lookup_insert_eq in Hz by done. injection Hz as <-.
          destruct Hcz, Hc'. congruence.
        * rewrite list_lookup_insert_ne in Hz by done. apply Hi.
          destruct Hcy, Hcz. eapply (co_uniq _ Hok); eauto. congruence.
      + left. exists j, y. split; [done|]. split; [done|]. apply cbuf_spec; [done|].
        split; [|done]. unfold s'. kget. by rewrite list_lookup_insert_ne.
    - right. split; [|auto]. apply cbuf_none. intros i z Hz Hcz. unfold s' in Hz. kget_in Hz.
      destruct (decide (i = b)) as [->|Hi].
      + rewrite list_lookup_insert_eq in Hz by done. injection Hz as <-.
        destruct Hcz, Hc'. congruence.
      + rewrite list_lookup_insert_ne in Hz by done. by eapply (proj1 (cbuf_none s c) E). }
  assert (forall c, cbuf s c = Some (b, x) -> b_refcnt x = 0 ->
    b_data x = disk_block (g_disk s) c /\ sl_locked (b_lock x) = false) as Hfree.
  { intros c E H0. apply cbuf_spec in E as [_ [Hd Hb]]; [|done].
    destruct (co_buf _ Hok _ _ Hx). subst c. auto. }
  split.
  - intros c Hc. unfold bview. destruct (Hcase c Hc) as [(j & y & _ & -> & ->)|[-> [->|[E H0]]]]; [done|done|].
    rewrite E. symmetry. apply (Hfree c E H0).
  - intros c Hc. unfold brefs. destruct (Hcase c Hc) as [(j & y & _ & -> & ->)|[-> [->|[E H0]]]]; [done|done|].
    by rewrite E.
  - intros c Hc. unfold blocked. destruct (Hcase c Hc) as [(j & y & _ & -> & ->)|[-> [->|[E H0]]]]; [done|done|].
    rewrite E. symmetry. apply (Hfree c E H0).
  - intros pid c j d Hc (y & Hy & Hcy & Hr). exists y. split; [|done].
    assert (cbuf s c = Some (j, y)) as E by (by apply cbuf_spec).
    destruct (Hcase c Hc) as [(j' & y' & Hj & E1 & E2)|[_ [E1|[E1 H0]]]].
    + rewrite E in E1. injection E1 as <- <-. by apply cbuf_spec in E2 as [? _].
    + congruence.
    + rewrite E in E1. injection E1 as -> ->. lia.
Qed.

Lemma nfree_insert s b x x' :
  g_bufs s !! b = Some x ->
  (nfree (put_bufs (<[b := x']> (g_bufs s)) s) + (if decide (b_refcnt x = 0%Z) then 1 else 0) =
   nfree s + (if decide (b_refcnt x' = 0%Z) then 1 else 0))%nat.
Proof.
  intros Hx. unfold nfree. kget. pose proof (lookup_lt_Some _ _ _ Hx) as Hlt.
  rewrite (insert_take_drop _ _ _ Hlt). rewrite <- (take_drop_middle _ _ _ Hx) at 3.
  rewrite !list.filter_app, !length_app, !filter_cons. simpl.
  destruct (decide (b_refcnt x = 0)), (decide (b_refcnt x' = 0)); simpl; lia.
Qed.

Lemma nfree_some s : (0 < nfree s)%nat -> exists b x, g_bufs s !! b = Some x /\ b_refcnt x = 0.
Proof.
  unfold nfree. intros H. destruct (filter _ (g_bufs s)) as [|x l] eqn:E; [simpl in H; lia|].
  assert (x ∈ filter (fun x => b_refcnt x = 0) (g_bufs s)) as Hin by (rewrite E; set_solver).
  apply list_elem_of_filter in Hin as [H0 Hin]. apply list_elem_of_lookup_1 in Hin as [b Hb]. eauto.
Qed.

(** ** The calling thread *)

(** Process [p] runs, no process lock and no lock of the cache is held. *)
Record ready (s : kstate) (p : nat) (pid : Z) : Prop := {
  rd_cur : g_curproc s = Some p;
  rd_proc : exists pr, g_procs s !! p = Some pr /\ p_pid pr = pid;
  rd_len : length (g_procs s) = NPROC;
  rd_pl : procs_unlocked s;
  rd_bc : lock_free LBcache s;
  rd_bl : forall b, lock_free (LBufSl b) s
}.

(** Processes may have been woken. *)
Definition woken (ps ps' : list proc) : Prop :=
  Forall2 (fun x y => y = x \/ y = set_p_state RUNNABLE x) ps ps'.

(** What code that uses the cache may change: buffers, disk, woken processes. *)
Definition bframe (s s' : kstate) : Prop :=
  s' = set_kbio (kbio s') (put_procs (g_procs s') s) /\ woken (g_procs s) (g_procs s').

Lemma woken_refl ps : woken ps ps.
Proof. apply Forall_Forall2_diag, Forall_true. auto. Qed.

Lemma woken_trans a b c : woken a b -> woken b c -> woken a c.
Proof.
  unfold woken. intros H. revert c. induction H as [|x y a b H1 H IH]; intros c H2.
  - inversion H2. constructor.
  - apply Forall2_cons_inv_l in H2 as (z & c' & H3 & H2 & ->). constructor; [|auto].
    destruct H1 as [->| ->], H3 as [->| ->]; auto.
Qed.

Lemma woken_wake c me ps : woken ps (imap (wake c me) ps).
Proof.
  apply Forall2_same_length_lookup_2; [by rewrite length_imap|].
  intros i x y Hx Hy. rewrite list_lookup_imap, Hx in Hy. injection Hy as <-.
  unfold wake. destruct (_ && _ && _); auto.
Qed.

Lemma bframe_refl s : bframe s s.
Proof. split; [by destruct s as [? ? [] ? ? ? ? ? ?]|apply woken_refl]. Qed.

Lemma bframe_trans s1 s2 s3 : bframe s1 s2 -> bframe s2 s3 -> bframe s1 s3.
Proof.
  intros [E1 W1] [E2 W2]. split; [|by eapply woken_trans].
  rewrite E2, E1. kstate_eq.
Qed.

Lemma bframe_bio s k : bframe s (set_kbio k s).
Proof.
  split; [|apply woken_refl].
  by destruct s as [? ? [] ? ? ? ? ? ?].
Qed.

Lemma bframe_insert s bs : bframe s (put_bufs bs s).
Proof. apply bframe_bio. Qed.

Lemma ready_frame s s' p pid : ready s p pid -> bframe s s' -> ready s' p pid.
Proof.
  intros [Hc (pr & Hp & Hpid) Hl Hu Hb Hbl] [E W].
  assert (kcpu s' = kcpu s) as Ecpu by (rewrite E; done).
  split; unfold lock_free, procs_unlocked, g_curproc, g_locks in *; rewrite ?Ecpu; try done.
  - destruct (Forall2_lookup_l _ _ _ _ _ W Hp) as (pr' & Hp' & Hpr).
    exists pr'. split; [done|]. by destruct Hpr as [->| ->].
  - by rewrite <- (Forall2_length W).
  - unfold procs_unlocked, lock_free, g_locks. intros i. rewrite Ecpu. apply Hu.
Qed.

(** ** bread *)

(** The buffer after [bget] and the read. *)
Definition bread_hit (pid : Z) (x : buf) : buf :=
  set_b_lock {| sl_locked := true; sl_pid := pid |} (set_b_refcnt (b_refcnt x + 1) x).
Definition bread_miss (pid bn : Z) (d : list Z) (x : buf) : buf :=
  set_b_valid true (set_b_data d
    (set_b_lock {| sl_locked := true; sl_pid := pid |}
      (set_b_refcnt 1 (set_b_valid false (set_b_blockno bn (set_b_dev dev x)))))).

Lemma upd_buf_run b f s x :
  g_bufs s !! b = Some x -> upd_buf b f s = Ret tt (put_bufs (<[b := f x]> (g_bufs s)) s).
Proof. apply arr_upd_run. Qed.

Lemma put_bufs_insert b x x' bs s :
  put_bufs (<[b := x']> (g_bufs (put_bufs (<[b := x]> bs) s))) (put_bufs (<[b := x]> bs) s) =
  put_bufs (<[b := x']> bs) s.
Proof. kget. rewrite list_insert_insert_eq. done. Qed.

Lemma lookup_put_bufs b x bs s :
  (b < length bs)%nat -> g_bufs (put_bufs (<[b := x]> bs) s) !! b = Some x.
Proof. intros H. kget. by apply list_lookup_insert_eq. Qed.

(** Taking the sleep lock of an unlocked buffer. *)
Lemma buf_acquiresleep_run s p pid b x :
  ready s p pid -> g_bufs s !! b = Some x -> sl_locked (b_lock x) = false ->
  buf_acquiresleep b s =
    Ret tt (put_bufs (<[b := set_b_lock {| sl_locked := true; sl_pid := pid |} x]> (g_bufs s)) s).
Proof.
  intros [Hc (pr & Hp & <-) Hl Hu Hb Hbl] Hx Hlk. unfold buf_acquiresleep.
  rewrite (acquiresleep_run (LBufSl b) _ _ (buf_lock_rd b) (buf_lock_wr b) 7 s (b_lock x) p pr); try done.
  - f_equal. unfold buf_lock_wr. f_equal. rewrite list_insert_alter. apply list_alter_ext; [|done].
    intros y. rewrite Hx. by intros [= ->].
  - unfold buf_lock_rd. by rewrite Hx.
Qed.

Lemma put_bufs_locks bs L s :
  put_locks (g_locks s) (put_bufs bs (put_locks L s)) = put_bufs bs s.
Proof. destruct s as [[] ? ? [] ? ? ? ? ?]. done. Qed.

Lemma ready_bufs s p pid bs : ready s p pid -> ready (put_bufs bs s) p pid.
Proof. intros H. apply (ready_frame s); [done|]. apply bframe_insert. Qed.

(** [bget] finds the block's buffer or recycles one; either way the buffer ends
    up locked, with one more reference. *)
Lemma bget_run s p pid bn :
  cache_ok s -> ready s p pid -> blocked s bn = false -> brefs s bn + 1 < 2 ^ 32 ->
  0 < brefs s bn \/ (0 < nfree s)%nat ->
  exists b x, g_bufs s !! b = Some x /\
    ((caches dev bn x /\ bget dev bn s = Ret b (put_bufs (<[b := bread_hit pid x]> (g_bufs s)) s)) \/
     (cbuf s bn = None /\ b_refcnt x = 0 /\
      bget dev bn s = Ret b (put_bufs
        (<[b := set_b_lock {| sl_locked := true; sl_pid := pid |}
                  (set_b_refcnt 1 (set_b_valid false (set_b_blockno bn (set_b_dev dev x))))]> (g_bufs s)) s))).
Proof.
  intros Hok Hrd Hnl Hrf Hfr. pose proof (rd_bc _ _ _ Hrd) as Hbc.
  destruct (co_ring _ Hok) as [l Hr]. pose proof (co_len _ Hok) as Hlen.
  set (s1 := put_locks (<[LBcache := g_hart s]> (g_locks s)) s).
  assert (Forall (fun i => (i < length (g_bufs s))%nat) l) as Hlt.
  { apply list.Forall_forall. intros i Hi. rewrite Hlen. by apply (ring_elem s l i Hr). }
  assert (length l < S NBUF)%nat as Hll.
  { destruct Hr as [Hp _]. rewrite Hp, length_seq. lia. }
  destruct (bget_find_run dev bn s1 l NBUF (S NBUF) (proj2 Hr) Hlt Hlen Hll) as (r & Er & Hfind).
  unfold bget. rewrite (bind_run _ _ _ _ _ (lock_acquire_run _ _ Hbc)). fold s1.
  rewrite (bind_run (gets g_head_next) _ s1 _ _ eq_refl).
  change (nextof s1 NBUF) with (g_head_next s1) in Er. rewrite (bind_run _ _ _ _ _ Er).
  destruct r as [b|].
  - destruct Hfind as (x & Hx & Hc). exists b, x. split; [exact Hx|]. left. split; [done|].
    assert (cbuf s bn = Some (b, x)) as Ec by (by apply cbuf_spec).
    assert (sl_locked (b_lock x) = false) as Hxl by (unfold blocked in Hnl; by rewrite Ec in Hnl).
    assert (brefs s bn = b_refcnt x) as Ebr by (unfold brefs; by rewrite Ec).
    pose proof (bo_ref _ _ (co_buf _ Hok _ _ Hx)) as Hrng.
    unfold bind at 1. rewrite (upd_buf_run b _ s1 x Hx). cbn [obind].
    unfold bind at 1.
    rewrite (lock_release_section LBcache (g_hart s) (g_locks s)) by done. cbn [obind].
    unfold s1. kget. rewrite put_bufs_locks. unfold bind.
    erewrite buf_acquiresleep_run;
      [|by apply ready_bufs|apply lookup_put_bufs; by eapply lookup_lt_Some|exact Hxl].
    cbn [obind]. rewrite put_bufs_insert. unfold ret, bread_hit. rewrite u32_small by lia. done.
  - assert (cbuf s bn = None) as Ec.
    { apply cbuf_none. intros b x Hx. eapply Hfind; [|exact Hx].
      apply (ring_elem s l b Hr). rewrite <- Hlen. by eapply lookup_lt_Some. }
    assert (0 < nfree s)%nat as Hnf.
    { destruct Hfr as [Hfr|]; [|done]. unfold brefs in Hfr. rewrite Ec in Hfr. lia. }
    destruct (bget_lru_run s1 l NBUF (S NBUF) (proj2 Hr) Hlt Hlen Hll) as (r & Er2 & Hlru).
    rewrite (bind_run (gets g_head_prev) _ s1 _ _ eq_refl).
    change (prevof s1 NBUF) with (g_head_prev s1) in Er2. rewrite (bind_run _ _ _ _ _ Er2).
    destruct r as [b|].
    + destruct Hlru as (x & Hx & H0). exists b, x. split; [exact Hx|]. right. split_and!; [done|done|].
      pose proof (lookup_lt_Some _ _ _ Hx) as Hb.
      unfold bind at 1. rewrite (upd_buf_run b _ s1 x Hx). cbn [obind].
      unfold bind at 1. erewrite upd_buf_run by (by apply lookup_put_bufs). cbn [obind]. rewrite put_bufs_insert.
      unfold bind at 1. erewrite upd_buf_run by (by apply lookup_put_bufs). cbn [obind]. rewrite put_bufs_insert.
      unfold bind at 1. erewrite upd_buf_run by (by apply lookup_put_bufs). cbn [obind]. rewrite put_bufs_insert.
      unfold bind at 1.
      rewrite (lock_release_section LBcache (g_hart s) (g_locks s)) by done. cbn [obind].
      unfold s1. kget. rewrite put_bufs_locks. unfold bind.
      erewrite buf_acquiresleep_run;
        [|by apply ready_bufs|by apply lookup_put_bufs|exact (bo_free _ _ (co_buf _ Hok _ _ Hx) H0)].
      cbn [obind]. rewrite put_bufs_insert. done.
    + exfalso. destruct (nfree_some _ Hnf) as (b & x & Hx & H0). eapply Hlru; [|exact Hx|exact H0].
      apply (ring_elem s l b Hr). rewrite <- Hlen. by eapply lookup_lt_Some.
Qed.

(** A buffer in use needs no agreement with the disk. *)
Lemma buf_ok_used d x :
  length (b_data x) = 1024%nat -> 0 < b_refcnt x < 2 ^ 32 -> b_valid x = true -> buf_ok d x.
Proof. intros. split; try done; lia. Qed.

Lemma brefs_insert s b x' bn :
  cache_ok (put_bufs (<[b := x']> (g_bufs s)) s) -> (b < length (g_bufs s))%nat -> caches dev bn x' ->
  cbuf (put_bufs (<[b := x']> (g_bufs s)) s) bn = Some (b, x').
Proof. intros Hok Hb Hc. apply cbuf_spec; [done|]. split; [by apply lookup_put_bufs|done]. Qed.

(** [bread] returns the block's buffer, locked, with the block's content. *)
Lemma bread_run s p pid bn :
  cache_ok s -> ready s p pid -> 0 <= bn < 2 ^ 31 -> blocked s bn = false -> brefs s bn + 1 < 2 ^ 32 ->
  0 < brefs s bn \/ (0 < nfree s)%nat ->
  exists b bs, let s' := put_bufs bs s in
    bread dev bn s = Ret b s' /\ cache_ok s' /\ changes bn s s' /\
    holds s' pid bn b (bview s bn) /\ brefs s' bn = brefs s bn + 1 /\
    (nfree s' + (if decide (brefs s bn = 0%Z) then 1 else 0) = nfree s)%nat.
Proof.
  intros Hok Hrd Hbn Hnl Hrf Hfr.
  destruct (bget_run s p pid bn Hok Hrd Hnl Hrf Hfr) as (b & x & Hx & Hcase).
  pose proof (lookup_lt_Some _ _ _ Hx) as Hb. pose proof (co_buf _ Hok _ _ Hx) as Hbo.
  destruct Hcase as [[Hc E]|(Ec & H0 & E)]; exists b.
  - exists (<[b:=bread_hit pid x]> (g_bufs s)). cbn zeta. assert (cbuf s bn = Some (b, x)) as Ec by (by apply cbuf_spec).
    assert (brefs s bn = b_refcnt x) as Ebr by (unfold brefs; by rewrite Ec).
    pose proof (bo_ref _ _ Hbo). pose proof (bo_valid _ _ Hbo (proj1 Hc)) as Hv.
    assert (cache_ok (put_bufs (<[b:=bread_hit pid x]> (g_bufs s)) s)) as Hok'.
    { eapply cache_insert; try done.
      - apply buf_ok_used; simpl; [apply Hbo|lia|done].
      - intros _ j y Hj Hy Hcy. apply Hj. destruct Hc, Hcy.
        eapply (co_uniq _ Hok); eauto. }
    assert (cbuf (put_bufs (<[b:=bread_hit pid x]> (g_bufs s)) s) bn = Some (b, bread_hit pid x)) as Ec'
      by (by apply brefs_insert).
    split_and!.
    + unfold bread. rewrite (bind_run _ _ _ _ _ E). unfold bind, get_buf.
      erewrite arr_get_run by (by apply lookup_put_bufs). cbn [obind]. simpl b_valid. rewrite Hv. done.
    + done.
    + eapply changes_insert; eauto.
    + exists (bread_hit pid x). split_and!; [by apply lookup_put_bufs|done| |done|simpl; lia].
      unfold bview. by rewrite Ec.
    + unfold brefs. rewrite Ec', Ec. done.
    + pose proof (nfree_insert s b x (bread_hit pid x) Hx) as Hn. rewrite Ebr.
      simpl b_refcnt in Hn. rewrite (decide_False (P := b_refcnt x + 1 = 0)) in Hn by lia. lia.
  - set (x' := bread_miss pid bn (disk_block (g_disk s) bn) x).
    exists (<[b:=x']> (g_bufs s)). cbn zeta.
    assert (cache_ok (put_bufs (<[b:=x']> (g_bufs s)) s)) as Hok'.
    { eapply cache_insert; try done.
      - apply buf_ok_used; simpl; [apply (co_disk _ Hok)|lia|done].
      - intros _ j y Hj Hy. apply (proj1 (cbuf_none s bn) Ec j y Hy). }
    assert (cbuf (put_bufs (<[b:=x']> (g_bufs s)) s) bn = Some (b, x')) as Ec'
      by (by apply brefs_insert).
    assert (brefs s bn = 0) as Ebr by (unfold brefs; by rewrite Ec).
    split_and!.
    + unfold bread. rewrite (bind_run _ _ _ _ _ E). unfold bind, get_buf at 1.
      erewrite arr_get_run by (by apply lookup_put_bufs). cbn [obind]. simpl b_valid.
      unfold when. cbn [negb]. unfold virtio_disk_rw, bind, get_buf.
      erewrite arr_get_run by (by apply lookup_put_bufs). cbn [obind gets]. unfold gets. cbn [obind].
      simpl b_blockno. rewrite disk_blockno_small by done.
      erewrite upd_buf_run by (by apply lookup_put_bufs). cbn [obind]. rewrite put_bufs_insert.
      erewrite upd_buf_run by (by apply lookup_put_bufs). cbn [obind]. rewrite put_bufs_insert.
      reflexivity.
    + done.
    + eapply changes_insert; eauto. done.
    + exists x'. split_and!; [by apply lookup_put_bufs|done| |done|simpl; lia].
      unfold bview. by rewrite Ec.
    + unfold brefs. rewrite Ec', Ec. done.
    + pose proof (nfree_insert s b x x' Hx) as Hn. rewrite Ebr.
      simpl b_refcnt in Hn. rewrite H0 in Hn. simpl in *. lia.
Qed.

(** ** Writing a buffer *)

(** Updating the held buffer of [bn] in place. *)
Lemma held_update s b x x' bn :
  cache_ok s -> g_bufs s !! b = Some x -> caches dev bn x -> caches dev bn x' ->
  b_next x' = b_next x -> b_prev x' = b_prev x -> buf_ok (g_disk s) x' ->
  let s' := put_bufs (<[b := x']> (g_bufs s)) s in
  cache_ok s' /\ changes bn s s' /\ cbuf s bn = Some (b, x) /\ cbuf s' bn = Some (b, x').
Proof.
  intros Hok Hx Hc Hc' Hn Hp Hbo s'. pose proof (lookup_lt_Some _ _ _ Hx) as Hb.
  assert (cache_ok s') as Hok'.
  { eapply cache_insert; try done. intros _ j y Hj Hy Hcy. apply Hj.
    destruct Hc, Hc', Hcy. eapply (co_uniq _ Hok); eauto. congruence. }
  split_and!; [done| |by apply cbuf_spec|by apply brefs_insert].
  eapply changes_insert; eauto.
Qed.

Lemma set_buf_data_run s pid bn b d d' :
  cache_ok s -> holds s pid bn b d -> length d' = 1024%nat ->
  exists bs, let s' := put_bufs bs s in
    set_buf_data b d' s = Ret tt s' /\ cache_ok s' /\ changes bn s s' /\
    holds s' pid bn b d' /\ brefs s' bn = brefs s bn /\ nfree s' = nfree s.
Proof.
  intros Hok (x & Hx & Hc & Hd & Hl & Hr) Hd'. pose proof (co_buf _ Hok _ _ Hx) as Hbo.
  pose proof (lookup_lt_Some _ _ _ Hx) as Hb. pose proof (bo_ref _ _ Hbo).
  destruct (held_update s b x (set_b_data d' x) bn) as (Hok' & Hch & E1 & E2); try done.
  { apply buf_ok_used; simpl; [done|lia|]. apply Hbo, Hc. }
  eexists. cbn zeta. split_and!; [by apply upd_buf_run|done|done| | |].
  - exists (set_b_data d' x). split_and!; try done. by apply lookup_put_bufs.
  - unfold brefs. by rewrite E1, E2.
  - pose proof (nfree_insert s b x (set_b_data d' x) Hx) as Hn. simpl b_refcnt in Hn. lia.
Qed.

Lemma disk_block_insert d bn x c :
  disk_block (<[bn := x]> d) c = if decide (c = bn) then x else disk_block d c.
Proof.
  unfold disk_block. destruct (decide (c = bn)) as [->|].
  - by rewrite lookup_insert_eq.
  - by rewrite lookup_insert_ne.
Qed.

(** The disk receives the content of block [bn]. *)
Definition disk_write (bn : Z) (d : list Z) (s : kstate) : kstate :=
  put_dwrites (g_dwrites s ++ [(bn, d)]) (put_disk (<[bn := d]> (g_disk s)) s).

Lemma bwrite_run s p pid bn b d :
  cache_ok s -> ready s p pid -> 0 <= bn < 2 ^ 31 -> holds s pid bn b d ->
  let s' := disk_write bn d s in
  bwrite b s = Ret tt s' /\ cache_ok s' /\ changes bn s s' /\ holds s' pid bn b d /\
  brefs s' bn = brefs s bn /\ nfree s' = nfree s.
Proof.
  intros Hok [Hcur (pr & Hp & Hpid) _ _ _ Hbl] Hsm (x & Hx & [Hdv Hbn] & Hd & Hl & Hr) s'.
  split_and!; try done.
  - unfold bwrite, buf_holdingsleep, bind.
    rewrite (holdingsleep_run (LBufSl b) _ _ (buf_lock_rd b) (buf_lock_wr b) s (b_lock x) p pr);
      [|done|unfold buf_lock_rd; by rewrite Hx|done|done].
    cbn [obind]. rewrite Hl. cbn [sl_locked sl_pid]. rewrite Hpid, Z.eqb_refl. cbn [negb andb].
    unfold virtio_disk_rw, bind, get_buf. erewrite arr_get_run by exact Hx. cbn [obind].
    unfold modify, s', disk_write. rewrite Hbn, Hd, disk_blockno_small by done. done.
  - destruct Hok as [Hlen Hrg Hu Hb Hdk]. split; try done.
    + intros i y Hy. specialize (Hb i y Hy) as Hbo. destruct Hbo as [l1 l2 l3 l4 l5]. split; try done.
      intros H0 Hdy. unfold s', disk_write. kget. rewrite disk_block_insert.
      destruct (decide (b_blockno y = bn)); [|auto].
      assert (i = b) as -> by (eapply Hu; eauto; congruence). change (g_bufs s !! b = Some y) in Hy.
      rewrite Hx in Hy. injection Hy as <-. lia.
    + intros c. unfold s', disk_write. kget. rewrite disk_block_insert.
      destruct (decide (c = bn)); [|apply Hdk]. rewrite <- Hd. apply (bo_len _ _ (Hb _ _ Hx)).
  - split; try done. intros c Hc. unfold bview. change (cbuf s' c) with (cbuf s c).
    destruct (cbuf s c) as [[? ?]|]; [done|]. unfold s', disk_write. kget.
    rewrite disk_block_insert. by rewrite decide_False.
  - exists x. done.
Qed.

(** Rearranging the ring changes nothing that readers see. *)
Lemma cache_relink s nx pv l :
  cache_ok s -> ring (relink nx pv s) l -> cache_ok (relink nx pv s).
Proof.
  intros [Hlen Hrg Hu Hb Hdk] Hr. split; try done.
  - rewrite relink_bufs, length_imap. done.
  - by exists l.
  - intros i j x y. rewrite relink_bufs, !list_lookup_imap.
    destruct (g_bufs s !! i) as [x'|] eqn:Ei; [|done]. destruct (g_bufs s !! j) as [y'|] eqn:Ej; [|done].
    simpl. intros [= <-] [= <-]. simpl. eapply Hu; eauto.
  - intros i x. rewrite relink_bufs, list_lookup_imap.
    destruct (g_bufs s !! i) as [x'|] eqn:Ei; [|done]. simpl. intros [= <-].
    destruct (Hb _ _ Ei). by split.
Qed.

Lemma cbuf_relink s nx pv c :
  cache_ok s -> cache_ok (relink nx pv s) ->
  cbuf (relink nx pv s) c = (fun ix => (ix.1, set_links nx pv ix.1 ix.2)) <$> cbuf s c.
Proof.
  intros Hok Hok'. destruct (cbuf s c) as [[b x]|] eqn:E; simpl.
  - apply cbuf_spec in E as [Hx Hc]; [|done]. apply cbuf_spec; [done|].
    rewrite relink_bufs, list_lookup_imap, Hx. done.
  - apply cbuf_none. intros b x. rewrite relink_bufs, list_lookup_imap.
    destruct (g_bufs s !! b) as [y|] eqn:Ey; [|done]. intros [= <-].
    exact (proj1 (cbuf_none s c) E b y Ey).
Qed.

Lemma nfree_relink s nx pv : nfree (relink nx pv s) = nfree s.
Proof.
  unfold nfree. rewrite relink_bufs. generalize (g_bufs s). intros bs.
  assert (forall f : nat -> buf -> buf, (forall i x, b_refcnt (f i x) = b_refcnt x) ->
    length (filter (fun x => b_refcnt x = 0) (imap f bs)) =
    length (filter (fun x => b_refcnt x = 0) bs)) as H; [|by apply H].
  induction bs as [|x bs IH]; intros f Hf; [done|].
  rewrite imap_cons, !filter_cons, Hf. specialize (IH (f ∘ S)). simpl in IH.
  destruct (decide _); simpl; rewrite IH; auto; intros; apply Hf.
Qed.

Lemma changes_relink s nx pv bn :
  cache_ok s -> cache_ok (relink nx pv s) ->
  changes bn s (relink nx pv s) /\ bview (relink nx pv s) bn = bview s bn /\
  brefs (relink nx pv s) bn = brefs s bn /\ blocked (relink nx pv s) bn = blocked s bn.
Proof.
  intros Hok Hok'.
  assert (forall c, bview (relink nx pv s) c = bview s c /\ brefs (relink nx pv s) c = brefs s c /\
    blocked (relink nx pv s) c = blocked s c) as H.
  { intros c. unfold bview, brefs, blocked. rewrite cbuf_relink by done.
    by destruct (cbuf s c) as [[b x]|]. }
  split; [|apply H]. split; intros.
  - apply H.
  - apply H.
  - apply H.
  - destruct H1 as (x & Hx & Hr). exists (set_links nx pv b x).
    rewrite relink_bufs, list_lookup_imap, Hx. done.
Qed.

(** ** Releasing a buffer *)

Definition brelse_buf (x : buf) : buf :=
  set_b_refcnt (b_refcnt x - 1) (set_b_lock {| sl_locked := false; sl_pid := 0 |} x).

(** The end of [brelse], with the cache locked: the reference is dropped and an
    unused buffer goes to the front of the ring. *)
Lemma brelse_tail s b x :
  cache_ok s -> lock_free LBcache s -> g_bufs s !! b = Some x -> 0 < b_refcnt x ->
  buf_ok (g_disk s) (set_b_refcnt (b_refcnt x - 1) x) -> b_dev x = dev ->
  let s1 := put_bufs (<[b := set_b_refcnt (b_refcnt x - 1) x]> (g_bufs s)) s in
  exists s2, (s2 = s1 \/ exists nx pv, s2 = relink nx pv s1) /\ cache_ok s1 /\ cache_ok s2 /\
  (lock_acquire LBcache ;;
   upd_buf b (fun x => set_b_refcnt (u32 (b_refcnt x - 1)) x) ;;
   x <- get_buf b ;;
   when (b_refcnt x =? 0) (move_to_front b) ;;
   lock_release LBcache) s = Ret tt s2.
Proof.
  intros Hok Hf Hx Hr Hbo Hdv s1. pose proof (lookup_lt_Some _ _ _ Hx) as Hb.
  pose proof (bo_ref _ _ (co_buf _ Hok _ _ Hx)) as Hrg.
  destruct (held_update s b x (set_b_refcnt (b_refcnt x - 1) x) (b_blockno x))
    as (Hok1 & _); try done. fold s1 in Hok1.
  rewrite (bind_run _ _ _ _ _ (lock_acquire_run _ _ Hf)).
  set (L := <[LBcache := g_hart s]> (g_locks s)).
  rewrite (bind_run _ _ _ _ _ (upd_buf_run b _ (put_locks L s) x Hx)).
  rewrite u32_small by lia.
  unfold bind at 1, get_buf. erewrite arr_get_run by (by apply lookup_put_bufs). cbn [obind b_refcnt set_b_refcnt].
  change (put_bufs (<[b:=set_b_refcnt (b_refcnt x - 1) x]> (g_bufs (put_locks L s))) (put_locks L s))
    with (put_locks L s1).
  destruct (Z.eqb_spec (b_refcnt x - 1) 0); unfold when.
  - destruct (co_ring _ Hok1) as [l Hl1].
    destruct (move_to_front_run (put_locks L s1) l b (co_len _ Hok1) Hl1) as (l1 & l2 & nx & pv & _ & E & Hrg2).
    { rewrite <- (co_len _ Hok). done. }
    rewrite (bind_run _ _ _ _ _ E). exists (relink nx pv s1).
    split_and!; [eauto|done| |].
    + eapply cache_relink; [done|]. exact Hrg2.
    + rewrite (lock_release_section LBcache (g_hart s) (g_locks s)) by done.
      f_equal. unfold relink, s1. kget. clear. kstate_eq.
  - rewrite bind_ret_l. exists s1. split_and!; [auto|done|done|].
    rewrite (lock_release_section LBcache (g_hart s) (g_locks s)) by done.
    f_equal. unfold s1. clear. kstate_eq.
Qed.

Lemma brelse_run s p pid bn b d :
  cache_ok s -> ready s p pid -> holds s pid bn b d ->
  (brefs s bn = 1 -> d = disk_block (g_disk s) bn) ->
  exists s', brelse b s = Ret tt s' /\ cache_ok s' /\ bframe s s' /\ changes bn s s' /\
    bview s' bn = d /\ brefs s' bn = brefs s bn - 1 /\ blocked s' bn = false /\
    g_disk s' = g_disk s /\ g_dwrites s' = g_dwrites s /\
    (nfree s' = nfree s + (if decide (brefs s bn = 1%Z) then 1 else 0))%nat.
Proof.
  intros Hok Hrd (x & Hx & Hc & Hd & Hl & Hr) Hclean.
  pose proof Hrd as [Hcur (pr & Hp & Hpid) Hlen Hpu Hbc Hbl].
  pose proof (co_buf _ Hok _ _ Hx) as Hbo. pose proof (bo_ref _ _ Hbo) as Hrg.
  pose proof (lookup_lt_Some _ _ _ Hx) as Hb.
  assert (cbuf s bn = Some (b, x)) as Ec by (by apply cbuf_spec).
  assert (brefs s bn = b_refcnt x) as Ebr by (unfold brefs; by rewrite Ec).
  set (x1 := set_b_lock {| sl_locked := false; sl_pid := 0 |} x).
  set (ps := imap (wake (ChSleeplock (LBufSl b)) (g_curproc s)) (g_procs s)).
  set (s1 := put_procs ps (put_bufs (<[b := x1]> (g_bufs s)) s)).
  destruct (held_update s b x x1 bn) as (Hok1 & Hch1 & _ & Ec1); try done.
  { apply buf_ok_used; simpl; [apply Hbo|lia|apply Hbo, Hc]. }
  assert (cache_ok s1) as Hok1' by (eapply cache_ok_kbio; [|exact Hok1]; done).
  assert (g_bufs s1 !! b = Some x1) as Hx1 by (unfold s1; kget; by apply list_lookup_insert_eq).
  destruct (brelse_tail s1 b x1) as (s2 & Hs2 & Hok2 & Hok2' & E); try done.
  { destruct Hbo as [l1 l2 l3 l4 l5]. split; simpl; try done; [lia|].
    intros H0 _. rewrite Hd, (Hclean ltac:(lia)). destruct Hc as [_ ->]. done. }
  { apply Hc. }
  set (s2' := put_bufs (<[b := set_b_refcnt (b_refcnt x1 - 1) x1]> (g_bufs s1)) s1) in *.
  destruct (held_update s1 b x1 (set_b_refcnt (b_refcnt x1 - 1) x1) bn) as (_ & Hch2 & _ & Ec2); try done.
  { apply (co_buf _ Hok2 b). apply lookup_put_bufs; by eapply lookup_lt_Some. }
  fold s2' in Hch2, Ec2.
  assert (changes bn s s2') as Hch.
  { eapply changes_trans; [|exact Hch2]. eapply changes_kbio; [| |exact Hch1]; done. }
  assert (nfree s2' = (nfree s + (if decide (b_refcnt x = 1%Z) then 1 else 0))%nat) as Hnf.
  { pose proof (nfree_insert s1 b x1 (set_b_refcnt (b_refcnt x1 - 1) x1) Hx1) as N2.
    pose proof (nfree_insert s b x x1 Hx) as N1. fold s2' in N2. simpl b_refcnt in N1, N2.
    change (nfree (put_bufs (<[b := x1]> (g_bufs s)) s)) with (nfree s1) in N1.
    repeat case_decide; simpl in *; lia. }
  assert (bframe s s2') as Hfr.
  { split; [unfold s2', s1; clear; kstate_eq|]. apply woken_wake. }
  assert (brelse b s = Ret tt s2) as Hrun.
  { rewrite <- E. unfold brelse, buf_holdingsleep, buf_releasesleep. unfold bind at 1.
    rewrite (holdingsleep_run (LBufSl b) _ _ (buf_lock_rd b) (buf_lock_wr b) s (b_lock x) p pr);
      [|done|unfold buf_lock_rd; by rewrite Hx|done|done].
    cbn [obind]. rewrite Hl. cbn [sl_locked sl_pid]. rewrite Hpid, Z.eqb_refl. cbn [negb andb].
    unfold bind at 1.
    rewrite (releasesleep_run (LBufSl b) (buf_lock_get b) (buf_lock_upd b) (buf_lock_rd b)
               (buf_lock_wr b) s (b_lock x)); try done; [|unfold buf_lock_rd; by rewrite Hx].
    cbn [obind].
    assert (buf_lock_wr b {| sl_locked := false; sl_pid := 0 |} s = put_bufs (<[b := x1]> (g_bufs s)) s) as ->.
    { unfold buf_lock_wr. f_equal. unfold x1. rewrite list_insert_alter. apply list_alter_ext; [|done].
      intros y. rewrite Hx. by intros [= ->]. }
    done. }
  assert (bview s2' bn = d /\ brefs s2' bn = b_refcnt x - 1 /\ blocked s2' bn = false) as (V & R & B).
  { unfold bview, brefs, blocked. rewrite Ec2. done. }
  exists s2. rewrite Ebr. destruct Hs2 as [->|(nx & pv & ->)]; [by split_and!|].
  destruct (changes_relink s2' nx pv bn Hok2 Hok2') as (C & V' & R' & B').
  split_and!; try done.
  - eapply bframe_trans; [exact Hfr|]. split; [clear; unfold relink; kstate_eq|apply woken_refl].
  - by eapply changes_trans.
  - by rewrite V'.
  - by rewrite R'.
  - by rewrite B'.
  - by rewrite nfree_relink.
Qed.

(** ** bpin and bunpin *)

Lemma ref_add_run s pid bn b d k :
  cache_ok s -> lock_free LBcache s -> holds s pid bn b d -> 0 < brefs s bn + k < 2 ^ 32 ->
  exists bs, let s' := put_bufs bs s in
    (lock_acquire LBcache ;;
     upd_buf b (fun x => set_b_refcnt (u32 (b_refcnt x + k)) x) ;;
     lock_release LBcache) s = Ret tt s' /\
    cache_ok s' /\ changes bn s s' /\ holds s' pid bn b d /\ brefs s' bn = brefs s bn + k /\
    nfree s' = nfree s.
Proof.
  intros Hok Hf (x & Hx & Hc & Hd & Hl & Hr) Hk.
  pose proof (co_buf _ Hok _ _ Hx) as Hbo. pose proof (lookup_lt_Some _ _ _ Hx) as Hb.
  assert (cbuf s bn = Some (b, x)) as Ec by (by apply cbuf_spec).
  assert (brefs s bn = b_refcnt x) as Ebr by (unfold brefs; by rewrite Ec). rewrite Ebr in *.
  set (x' := set_b_refcnt (b_refcnt x + k) x).
  destruct (held_update s b x x' bn) as (Hok' & Hch & _ & Ec'); try done.
  { apply buf_ok_used; simpl; [apply Hbo|lia|apply Hbo, Hc]. }
  exists (<[b := x']> (g_bufs s)). cbn zeta. split_and!; try done.
  - rewrite (bind_run _ _ _ _ _ (lock_acquire_run _ _ Hf)).
    set (L := <[LBcache := g_hart s]> (g_locks s)).
    rewrite (bind_run _ _ _ _ _ (upd_buf_run b _ (put_locks L s) x Hx)). rewrite u32_small by lia.
    rewrite (lock_release_section LBcache (g_hart s) (g_locks s)) by done.
    f_equal. kget. unfold x', L. clear. kstate_eq.
  - exists x'. split_and!; [by apply lookup_put_bufs|done|done|done|simpl; lia].
  - unfold brefs. by rewrite Ec'.
  - pose proof (nfree_insert s b x x' Hx) as Hn. simpl b_refcnt in Hn.
    rewrite !decide_False in Hn by lia. lia.
Qed.

(** ** binit *)

Lemma initsleep_buf_run s b x :
  g_bufs s !! b = Some x ->
  initsleeplock (LBufSl b) (buf_lock_upd b) s =
    Ret tt (put_bufs (<[b := set_b_lock {| sl_locked := false; sl_pid := 0 |} x]> (g_bufs s))
              (put_locks (delete (LBufSl b) (g_locks s)) s)).
Proof.
  intros Hx. unfold initsleeplock, bind, modify. cbn [obind]. unfold buf_lock_upd.
  erewrite upd_buf_run by exact Hx. cbn [obind].
  erewrite upd_buf_run by (apply lookup_put_bufs; by eapply lookup_lt_Some).
  rewrite put_bufs_insert. done.
Qed.

(** The buffers the loop of [binit] has not linked yet keep their content, the
    ring runs through the others. *)
Definition binit_inv (s0 : kstate) (k : nat) (s : kstate) : Prop :=
  length (g_bufs s) = NBUF /\
  links (nextof s) (prevof s) NBUF (rev (seq 0 k)) NBUF /\
  (forall i x, g_bufs s !! i = Some x -> exists y, g_bufs s0 !! i = Some y /\
     b_data x = b_data y /\ b_refcnt x = b_refcnt y /\ b_dev x = b_dev y /\ b_valid x = b_valid y /\
     b_blockno x = b_blockno y /\ ((i < k)%nat -> sl_locked (b_lock x) = false)) /\
  (exists bs L hn hp, s = put_head_next hn (put_head_prev hp (put_bufs bs (put_locks L s0))) /\
     L ⊆ g_locks s0).

Definition binit_body (b : nat) : M unit :=
  n <- gets g_head_next ;;
  set_next b n ;;
  set_prev b NBUF ;;
  initsleeplock (LBufSl b) (buf_lock_upd b) ;;
  n <- gets g_head_next ;;
  set_prev n b ;;
  modify (put_head_next b).

(** One round, in terms of the links. *)
Lemma binit_body_run s k x :
  length (g_bufs s) = NBUF -> g_bufs s !! k = Some x -> (nextof s NBUF <= NBUF)%nat ->
  let n := nextof s NBUF in
  binit_body k s =
    Ret tt (relink (fupd (fupd (nextof s) k n) NBUF k) (fupd (fupd (prevof s) k NBUF) n k)
             (put_bufs (<[k := set_b_lock {| sl_locked := false; sl_pid := 0 |} x]> (g_bufs s))
               (put_locks (delete (LBufSl k) (g_locks s)) s))).
Proof.
  intros Hlen Hx Hn n. pose proof (lookup_lt_Some _ _ _ Hx) as Hk. rewrite Hlen in Hk.
  unfold binit_body. rewrite (bind_run (gets g_head_next) _ s n s) by done.
  rewrite <- (relink_id s) at 1 by done.
  rewrite (bind_run _ _ _ _ _ (set_next_run s _ _ Hlen k n ltac:(lia))).
  rewrite (bind_run _ _ _ _ _ (set_prev_run s _ _ Hlen k NBUF ltac:(lia))).
  set (nx1 := fupd (nextof s) k n). set (pv1 := fupd (prevof s) k NBUF).
  erewrite bind_run; [|apply initsleep_buf_run; rewrite relink_bufs, list_lookup_imap, Hx; reflexivity].
  set (x1 := set_b_lock _ x).
  set (s2 := put_bufs (<[k := x1]> (g_bufs s)) (put_locks (delete (LBufSl k) (g_locks s)) s)).
  assert (length (g_bufs s2) = NBUF) as Hlen2 by (unfold s2; kget; by rewrite length_insert).
  match goal with |- _ ?st = _ => assert (st = relink nx1 pv1 s2) as -> end.
  { unfold s2, relink. kget. fold nx1 pv1.
    assert (<[k := set_b_lock {| sl_locked := false; sl_pid := 0 |} (set_links nx1 pv1 k x)]>
              (imap (set_links nx1 pv1) (g_bufs s)) =
            imap (set_links nx1 pv1) (<[k := x1]> (g_bufs s))) as <-; [|clear; kstate_eq].
    apply list_eq. intros i. rewrite list_lookup_imap. destruct (decide (i = k)) as [->|].
    - rewrite !list_lookup_insert_eq by (rewrite ?length_imap; lia). done.
    - rewrite !list_lookup_insert_ne by done. by rewrite list_lookup_imap. }
  rewrite (bind_run (gets g_head_next) _ _ (nx1 NBUF) (relink nx1 pv1 s2)) by done.
  unfold nx1 at 1. rewrite fupd_ne by lia. fold n.
  rewrite (bind_run _ _ _ _ _ (set_prev_run s2 _ _ Hlen2 n k Hn)).
  exact (set_next_run s2 _ _ Hlen2 NBUF k (le_n _)).
Qed.

Lemma binit_round s0 k s :
  binit_inv s0 k s -> (k < NBUF)%nat ->
  exists s', binit_body k s = Ret tt s' /\ binit_inv s0 (S k) s'.
Proof.
  intros (Hlen & Hlk & Hb & (bs & L & hn & hp & Es & HL)) Hk.
  destruct (lookup_lt_is_Some_2 (g_bufs s) k) as [x Hx]; [lia|].
  assert (forall i, i ∈ rev (seq 0 k) -> (i < k)%nat) as Hin.
  { intros i. rewrite list_elem_of_In, <- in_rev, <- list_elem_of_In, elem_of_seq. lia. }
  assert (nextof s NBUF <= NBUF)%nat as Hn.
  { rewrite (links_head _ _ _ _ _ Hlk). destruct (rev (seq 0 k)) as [|c l] eqn:E; simpl; [done|].
    assert (c < k)%nat by (apply Hin; set_solver). lia. }
  eexists. split; [by apply binit_body_run|].
  set (n := nextof s NBUF) in *.
  set (s2 := put_bufs _ (put_locks _ s)).
  assert (length (g_bufs s2) = NBUF) as Hlen2 by (unfold s2; kget; by rewrite length_insert).
  split_and!.
  - by rewrite relink_bufs, length_imap.
  - rewrite seq_S, rev_app_distr. cbn [rev app Nat.add].
    assert (forall i, i ∈ NBUF :: k :: rev (seq 0 k) -> (i <= NBUF)%nat) as Hle.
    { intros i Hi. apply elem_of_cons in Hi as [->|Hi]; [done|].
      apply elem_of_cons in Hi as [->|Hi]; [lia|]. apply Hin in Hi. lia. }
    eapply links_ext;
      [intros i Hi; apply nextof_relink; [done|apply Hle; set_solver]
      |intros i Hi; apply prevof_relink; [done|apply Hle; set_solver]|].
    apply links_push; try lia; try done.
    + intros Hi. apply Hin in Hi. lia.
    + intros Hi. apply Hin in Hi. lia.
    + intros Hi. apply Hin in Hi. lia.
    + apply NoDup_ListNoDup, NoDup_rev, NoDup_ListNoDup, NoDup_seq.
  - intros i y. rewrite relink_bufs, list_lookup_imap. unfold s2. kget.
    destruct (decide (i = k)) as [->|Hi].
    + rewrite list_lookup_insert_eq by lia. intros [= <-].
      destruct (Hb _ _ Hx) as (z & Hz & ?). exists z. naive_solver.
    + rewrite list_lookup_insert_ne by done. destruct (g_bufs s !! i) as [w|] eqn:Ew; [|done].
      intros [= <-]. destruct (Hb _ _ Ew) as (z & Hz & H1 & H2 & H3 & H4 & H5 & H6). exists z.
      split_and!; try done. intros. simpl. apply H6. lia.
  - assert (g_locks s = L) as EL by (rewrite Es; done).
    exists (imap (set_links (fupd (fupd (nextof s) k n) NBUF k) (fupd (fupd (prevof s) k NBUF) n k)) (g_bufs s2)),
      (delete (LBufSl k) L), k, (fupd (fupd (prevof s) k NBUF) n k NBUF).
    split; [unfold relink, s2 at 2; rewrite EL; generalize (g_bufs s2), (nextof s), (prevof s); rewrite Es; done|].
    etrans; [apply delete_subseteq|done].
Qed.

(** The buffers as the loader leaves them: unused, not of this device. *)
Definition fresh_bufs (s : kstate) : Prop :=
  length (g_bufs s) = NBUF /\ (forall bn, length (disk_block (g_disk s) bn) = 1024%nat) /\
  forall i x, g_bufs s !! i = Some x ->
    length (b_data x) = 1024%nat /\ b_refcnt x = 0 /\ b_dev x <> dev.

(** [binit] builds the ring and leaves an empty, coherent cache. *)
Lemma binit_run s :
  fresh_bufs s ->
  exists bs L hn hp, let s' := put_head_next hn (put_head_prev hp (put_bufs bs (put_locks L s))) in
    binit s = Ret tt s' /\ cache_ok s' /\ L ⊆ g_locks s /\ nfree s' = NBUF /\
    forall bn, cbuf s' bn = None.
Proof.
  intros (Hlen & Hdk & Hfr).
  set (s1 := put_head_next NBUF (put_head_prev NBUF (put_locks (delete LBcache (g_locks s)) s))).
  assert (wp (for_each NBUF 0 binit_body) s1 (fun _ s' => binit_inv s NBUF s')) as ([] & s' & E & HI).
  { apply (wp_for_each (binit_inv s)).
    - split_and!; [done|done| |].
      + intros i x Hx. exists x. split_and!; try done. lia.
      + exists (g_bufs s), (delete LBcache (g_locks s)), NBUF, NBUF.
        split; [unfold s1; clear; kstate_eq|apply delete_subseteq].
    - intros j s' Hj HI. destruct (binit_round s j s' HI) as (s'' & E & HI'); [lia|].
      by exists tt, s''.
    - done. }
  assert (binit s = Ret tt s') as Eb by exact E. clear E.
  destruct HI as (Hlen' & Hlk & Hb & (bs & L & hn & hp & Es & HL)).
  exists bs, L, hn, hp. cbn zeta. rewrite <- Es.
  assert (forall i x, g_bufs s' !! i = Some x -> buf_ok (g_disk s') x /\ b_refcnt x = 0 /\ b_dev x <> dev) as Hx.
  { intros i x Hx. destruct (Hb _ _ Hx) as (y & Hy & H1 & H2 & H3 & H4 & H5 & H6).
    destruct (Hfr _ _ Hy) as (F1 & F2 & F3). rewrite H2, H3. split; [|done].
    assert (i < NBUF)%nat as Hi by (rewrite <- Hlen'; by eapply lookup_lt_Some).
    split; [by rewrite H1|by rewrite H2, F2|by intros _; apply H6| |]; rewrite H3; by intros. }
  split_and!; try done.
  - split; try done.
    + exists (rev (seq 0 NBUF)). split; [|done]. symmetry. apply Permutation_rev.
    + intros i j x y H1 H2 H3. destruct (Hx _ _ H1) as (_ & _ & ?). done.
    + intros i x H1. apply (Hx _ _ H1).
    + rewrite Es. exact Hdk.
  - unfold nfree. assert (filter (fun x => b_refcnt x = 0) (g_bufs s') = g_bufs s') as ->; [|done].
    clear -Hx. revert Hx. generalize (g_bufs s'). intros l Hx.
    induction l as [|x l IH]; [done|]. rewrite filter_cons, decide_True by (apply (Hx 0%nat x eq_refl)).
    f_equal. apply IH. intros i y Hy. apply (Hx (S i) y Hy).
  - intros bn. apply cbuf_none. intros i x H1 [H2 _]. by destruct (Hx _ _ H1) as (_ & _ & ?).
Qed.
End cache.

(** ** Theorems *)

(** [C8] [bread] on a coherent cache, of a block whose sector number fits in the driver's 32 bits: it terminates with a buffer that caches the
    requested block, locked by the calling process, whose data is the block's
    current content (the cached one if there is one, else the disk's).  The cache
    stays coherent (ring intact, no block cached twice, unused buffers agree with
    the disk), no other block changes as readers see it, also when a buffer had
    to be recycled, and at most one reusable buffer is consumed. *)
Theorem bread_coherent dev s p pid bn :
  cache_ok dev s -> ready s p pid -> 0 <= bn < 2 ^ 31 -> blocked dev s bn = false -> brefs dev s bn + 1 < 2 ^ 32 ->
  0 < brefs dev s bn \/ (0 < nfree s)%nat ->
  exists b bs, let s' := put_bufs bs s in
    bread dev bn s = Ret b s' /\ cache_ok dev s' /\ changes dev bn s s' /\
    holds dev s' pid bn b (bview dev s bn) /\ brefs dev s' bn = brefs dev s bn + 1 /\
    (nfree s' + (if decide (brefs dev s bn = 0%Z) then 1 else 0) = nfree s)%nat.
Proof. apply bread_run. Qed.

(** [C9] [brelse] of a held buffer whose content is on disk if this is the last
    reference: the lock is released, the reference dropped, an unused buffer goes
    to the front of the LRU ring, the cache stays coherent, and no block's content
    changes; nothing is written to disk. *)
Theorem brelse_keeps_content dev s p pid bn b d :
  cache_ok dev s -> ready s p pid -> holds dev s pid bn b d ->
  (brefs dev s bn = 1 -> d = disk_block (g_disk s) bn) ->
  exists s', brelse b s = Ret tt s' /\ cache_ok dev s' /\ bframe s s' /\ changes dev bn s s' /\
    bview dev s' bn = d /\ brefs dev s' bn = brefs dev s bn - 1 /\ blocked dev s' bn = false /\
    g_disk s' = g_disk s /\ g_dwrites s' = g_dwrites s /\
    (nfree s' = nfree s + (if decide (brefs dev s bn = 1%Z) then 1 else 0))%nat.
Proof. apply brelse_run. Qed.

(** [binit] terminates from the loader's zeroed buffers and establishes the
    cache invariant: the LRU list is a ring through all the buffers, every buffer
    is reusable and no block is cached. *)
Theorem binit_empty_cache dev s :
  fresh_bufs dev s ->
  exists bs L hn hp, let s' := put_head_next hn (put_head_prev hp (put_bufs bs (put_locks L s))) in
    binit s = Ret tt s' /\ cache_ok dev s' /\ L ⊆ g_locks s /\ nfree s' = NBUF /\
    forall bn, cbuf dev s' bn = None.
Proof. apply binit_run. Qed.

Lemma binit_empty_cache_witness : exists bs L hn hp,
  binit boot = Ret tt (put_head_next hn (put_head_prev hp (put_bufs bs (put_locks L boot)))) /\
  cache_ok 1 (put_head_next hn (put_head_prev hp (put_bufs bs (put_locks L boot)))).
Proof.
  destruct (binit_empty_cache 1 boot) as (bs & L & hn & hp & E & Hok & _).
  - split; [apply length_replicate|]. split; [intros bn; apply length_replicate|].
    intros i x Hx. change (replicate NBUF zero_buf !! i = Some x) in Hx.
    apply lookup_replicate in Hx as [-> _]. split; [apply length_replicate|]. split; [reflexivity|discriminate].
  - exists bs, L, hn, hp. split; [exact E|exact Hok].
Defined.
