(* ===== verification/Log.v ===== *)
(** * The log: kernel/log.c

    The log header is the C structure [{ int n; int block\[LOGSIZE\]; }] laid
    over a block's bytes. *)

From Stdlib Require Import ZArith Lia.
From stdpp Require Import base list gmap strings numbers option.
From S2P Require Import Prelude Bytes Riscv Cstring Kstate Sched Bio.

(** [sizeof(struct logheader)] *)
Definition sizeof_logheader : Z := 4 + 4 * LOGSIZE.

Definition hdr_n (d : list Z) : Z := s32 (get_le 4 d 0).
Definition hdr_block (d : list Z) (i : nat) : Z := s32 (get_le 4 d (4 + 4 * i)).
Definition set_hdr_n (v : Z) (d : list Z) : list Z := put_le 4 d 0 v.
Definition set_hdr_block (i : nat) (v : Z) (d : list Z) : list Z := put_le 4 d (4 + 4 * i) v.

(** [log.lh.block\[i\]] *)
Definition lh_get (i : nat) : M Z := l <- gets klog ;; the "log.lh.block" (lh_block l !! i).
Definition lh_put (i : nat) (v : Z) : M unit :=
  l <- gets klog ;;
  the "log.lh.block" (lh_block l !! i) ;;
  modify (fun s => set_klog (set_lh_block (<[i := v]> (lh_block l)) l) s).
Definition upd_log (f : log -> log) : M unit := modify (fun s => set_klog (f (klog s)) s).

(** The loop body of [install_trans]. *)
Definition install_body (recovering : bool) (tail : nat) : M unit :=
  l <- gets klog ;;
  lbuf <- bread (lg_dev l) (u32 (lg_start l + Z.of_nat tail + 1)) ;;
  home <- lh_get tail ;;
  dbuf <- bread (lg_dev l) (u32 home) ;;
  d <- buf_data lbuf ;;
  set_buf_data dbuf d ;;
  bwrite dbuf ;;
  when (negb recovering) (bunpin dbuf) ;;
  brelse lbuf ;;
  brelse dbuf.

Definition install_trans (recovering : bool) : M unit :=
  l <- gets klog ;;
  for_each (Z.to_nat (lh_n l)) 0 (install_body recovering).

Definition read_head : M unit :=
  l <- gets klog ;;
  buf <- bread (lg_dev l) (u32 (lg_start l)) ;;
  d <- buf_data buf ;;
  upd_log (set_lh_n (hdr_n d)) ;;
  for_each (Z.to_nat (hdr_n d)) 0 (fun i => lh_put i (hdr_block d i)) ;;
  brelse buf.

(** [hb->block\[i\] = log.lh.block\[i\];] *)
Definition write_head_body (buf i : nat) : M unit :=
  b <- lh_get i ;;
  d <- buf_data buf ;;
  set_buf_data buf (set_hdr_block i b d).

Definition write_head : M unit :=
  l <- gets klog ;;
  buf <- bread (lg_dev l) (u32 (lg_start l)) ;;
  d <- buf_data buf ;;
  set_buf_data buf (set_hdr_n (lh_n l) d) ;;
  for_each (Z.to_nat (lh_n l)) 0 (write_head_body buf) ;;
  bwrite buf ;;
  brelse buf.

Definition recover_from_log : M unit :=
  read_head ;;
  install_trans true ;;
  upd_log (set_lh_n 0) ;;
  write_head.

Definition initlog (dev : Z) (sb : superblock) : M unit :=
  if sizeof_logheader >=? BSIZE then panic "initlog: too big logheader" else
  modify (fun s => put_locks (delete LLog (g_locks s)) s) ;;
  upd_log (set_lg_start (s32 (sb_logstart sb))) ;;
  upd_log (set_lg_size (s32 (sb_nlog sb))) ;;
  upd_log (set_lg_dev dev) ;;
  recover_from_log.

(** One turn of the loop of [begin_op]. *)
Definition begin_op_body (_ : unit) : M (unit + unit) :=
  l <- gets klog ;;
  if lg_committing l then sleep ChLog LLog ;; ret (inl tt) else
  if lh_n l + (lg_outstanding l + 1) * MAXOPBLOCKS >? LOGSIZE then sleep ChLog LLog ;; ret (inl tt) else
  upd_log (set_lg_outstanding (lg_outstanding l + 1)) ;;
  lock_release LLog ;;
  ret (inr tt).

Definition begin_op : M unit :=
  lock_acquire LLog ;; loop sleep_fuel begin_op_body tt.

(** The loop body of [write_log]. *)
Definition write_log_body (tail : nat) : M unit :=
  l <- gets klog ;;
  to <- bread (lg_dev l) (u32 (lg_start l + Z.of_nat tail + 1)) ;;
  home <- lh_get tail ;;
  from <- bread (lg_dev l) (u32 home) ;;
  d <- buf_data from ;;
  set_buf_data to d ;;
  bwrite to ;;
  brelse from ;;
  brelse to.

Definition write_log : M unit :=
  l <- gets klog ;;
  for_each (Z.to_nat (lh_n l)) 0 write_log_body.

Definition commit : M unit :=
  l <- gets klog ;;
  when (lh_n l >? 0)
    (write_log ;;
     write_head ;;
     install_trans false ;;
     upd_log (set_lh_n 0) ;;
     write_head).

Definition end_op : M unit :=
  lock_acquire LLog ;;
  upd_log (fun l => set_lg_outstanding (lg_outstanding l - 1) l) ;;
  l <- gets klog ;;
  if lg_committing l then panic "log.committing" else
  let do_commit := lg_outstanding l =? 0 in
  (if do_commit then upd_log (set_lg_committing true) else wakeup ChLog) ;;
  lock_release LLog ;;
  when do_commit
    (commit ;;
     lock_acquire LLog ;;
     upd_log (set_lg_committing false) ;;
     wakeup ChLog ;;
     lock_release LLog).

(** [for (i = 0; i < log.lh.n; i++) if (log.lh.block\[i\] == b->blockno) break;] *)
Fixpoint absorb (n i : nat) (blocks : list Z) (blockno : Z) : nat :=
  match n with
  | O => i
  | S n' =>
      if bool_decide (u32 <$> blocks !! i = Some blockno) then i else absorb n' (S i) blocks blockno
  end.

Definition log_write (b : nat) : M unit :=
  lock_acquire LLog ;;
  l <- gets klog ;;
  if (lh_n l >=? LOGSIZE) || (lh_n l >=? lg_size l - 1) then panic "too big a transaction" else
  if lg_outstanding l <? 1 then panic "log_write outside of trans" else
  blockno <- buf_blockno b ;;
  let i := absorb (Z.to_nat (lh_n l)) 0 (lh_block l) blockno in
  lh_put i (s32 blockno) ;;
  when (Z.of_nat i =? lh_n l)
    (bpin b ;; upd_log (fun l => set_lh_n (lh_n l + 1) l)) ;;
  lock_release LLog.
