(* ===== verification/LogSpec.v ===== *)
(** * The log makes a transaction atomic

    What kernel/log.c promises: the blocks of a committed transaction reach
    their places on disk all together or not at all, whenever the machine stops.
    [commit] is shown to send the disk a certain list of writes; every prefix of
    it is a disk the machine can be rebooted with, and [initlog] run on that disk
    ends with the old content of all blocks or with the new content of all.

    [wrote ws k s s'] summarises a piece of code: between [s] and [s'] the disk
    received the writes [ws] and [k c] references to each block [c] were dropped. *)

From Stdlib Require Import ZArith Lia.
From stdpp Require Import base list gmap strings numbers option.
From S2P Require Import Prelude Bytes Riscv Cstring Kstate Sched Bio BioSpec Log.

(** ** Lists of disk writes *)

(** The disk after a list of writes. *)
Definition replay (ws : list (Z * list Z)) (d : gmap Z (list Z)) : gmap Z (list Z) :=
  foldl (fun d w => <[w.1 := w.2]> d) d ws.

(** The same on the content of blocks. *)
Definition overlay (ws : list (Z * list Z)) (f : Z -> list Z) : Z -> list Z :=
  foldl (fun f w c => if decide (c = w.1) then w.2 else f c) f ws.

Lemma replay_app ws1 ws2 d : replay (ws1 ++ ws2) d = replay ws2 (replay ws1 d).
Proof. apply foldl_app. Qed.
Lemma overlay_app ws1 ws2 f : overlay (ws1 ++ ws2) f = overlay ws2 (overlay ws1 f).
Proof. apply foldl_app. Qed.

Lemma overlay_one a x f c : overlay [(a, x)] f c = if decide (c = a) then x else f c.
Proof. done. Qed.

Lemma overlay_ext ws f g c : (forall c, f c = g c) -> overlay ws f c = overlay ws g c.
Proof.
  revert f g. induction ws as [|w ws IH]; intros f g H; simpl; [apply H|].
  apply IH. intros c'. by destruct (decide _).
Qed.

Lemma disk_block_replay ws d c : disk_block (replay ws d) c = overlay ws (disk_block d) c.
Proof.
  revert d. induction ws as [|w ws IH]; intros d; simpl; [done|].
  rewrite IH. apply overlay_ext. intros c'. apply disk_block_insert.
Qed.

(** Blocks that are not written keep their content. *)
Lemma overlay_other ws f c : c ∉ ws.*1 -> overlay ws f c = f c.
Proof.
  revert f. induction ws as [|w ws IH]; intros f; simpl; [done|].
  intros H. rewrite IH by set_solver. rewrite decide_False by set_solver. done.
Qed.

(** A block that is written once has the content written. *)
Lemma overlay_lookup ws f i c d :
  NoDup ws.*1 -> ws !! i = Some (c, d) -> overlay ws f c = d.
Proof.
  revert f i. induction ws as [|w ws IH]; intros f i; simpl; [done|].
  intros [Hn Hnd]%list.NoDup_cons. destruct i as [|i]; simpl.
  - intros [= ->]. rewrite overlay_other by done. simpl. by rewrite decide_True.
  - intros Hi. by eapply IH.
Qed.

Section log.
Context (dev : Z).

(** ** Pieces of code that write *)

Record wrote (ws : list (Z * list Z)) (k : Z -> Z) (s s' : kstate) : Prop := {
  wr_ok : cache_ok dev s';
  wr_frame : bframe s s';
  wr_view : forall c, bview dev s' c = overlay ws (bview dev s) c;
  wr_refs : forall c, brefs dev s' c = brefs dev s c - k c;
  wr_lock : forall c, blocked dev s' c = blocked dev s c;
  wr_free : (nfree s <= nfree s')%nat;
  wr_disk : g_disk s' = replay ws (g_disk s);
  wr_trace : g_dwrites s' = g_dwrites s ++ ws
}.

Lemma wrote_nil s : cache_ok dev s -> wrote [] (fun _ => 0) s s.
Proof.
  intros. split; try done; try (intros; simpl; lia).
  - apply bframe_refl.
  - by rewrite app_nil_r.
Qed.

Lemma wrote_trans ws1 ws2 k1 k2 s1 s2 s3 :
  wrote ws1 k1 s1 s2 -> wrote ws2 k2 s2 s3 -> wrote (ws1 ++ ws2) (fun c => k1 c + k2 c) s1 s3.
Proof.
  intros [o1 f1 v1 r1 l1 n1 d1 t1] [o2 f2 v2 r2 l2 n2 d2 t2]. split.
  - done.
  - by eapply bframe_trans.
  - intros c. rewrite v2, overlay_app. by apply overlay_ext.
  - intros c. rewrite r2, r1. lia.
  - intros c. by rewrite l2, l1.
  - lia.
  - by rewrite d2, d1, replay_app.
  - by rewrite t2, t1, app_assoc.
Qed.

Lemma wrote_k ws k k' s s' : (forall c, k c = k' c) -> wrote ws k s s' -> wrote ws k' s s'.
Proof. intros E [o f v r l n d t]. split; try done. intros c. by rewrite r, E. Qed.

Lemma wrote_klog ws k s s' : wrote ws k s s' -> klog s' = klog s.
Proof. intros H. destruct (wr_frame _ _ _ _ H) as [E _]. by rewrite E. Qed.

Lemma wrote_ready ws k s s' p pid : wrote ws k s s' -> ready s p pid -> ready s' p pid.
Proof. intros H Hr. eapply ready_frame; [done|]. apply (wr_frame _ _ _ _ H). Qed.

(** ** Copying a block onto another *)

Lemma buf_data_run s pid bn b d : holds dev s pid bn b d -> buf_data b s = Ret d s.
Proof.
  intros (x & Hx & _ & Hd & _). unfold buf_data, bind, get_buf.
  erewrite arr_get_run by exact Hx. cbn [obind]. by rewrite Hd.
Qed.

(** Blocks [t] and [a] are read, [t] gets the content of [a] and is written: the
    state with both buffers still held, after [k] references to [t] were dropped. *)
Record copied (k t a pid : Z) (bt ba : nat) (s s' : kstate) : Prop := {
  cp_ok : cache_ok dev s';
  cp_frame : bframe s s';
  cp_t : holds dev s' pid t bt (bview dev s a);
  cp_a : holds dev s' pid a ba (bview dev s a);
  cp_rt : brefs dev s' t = brefs dev s t + 1 - k;
  cp_ra : brefs dev s' a = brefs dev s a + 1;
  cp_view : forall c, c <> t -> c <> a -> bview dev s' c = bview dev s c;
  cp_refs : forall c, c <> t -> c <> a -> brefs dev s' c = brefs dev s c;
  cp_lock : forall c, c <> t -> c <> a -> blocked dev s' c = blocked dev s c;
  cp_disk : g_disk s' = <[t := bview dev s a]> (g_disk s);
  cp_trace : g_dwrites s' = g_dwrites s ++ [(t, bview dev s a)];
  cp_free : (nfree s' + (if decide (brefs dev s t = 0%Z) then 1 else 0)
                      + (if decide (brefs dev s a = 0%Z) then 1 else 0) = nfree s)%nat
}.

(** Two blocks are read, one after the other. *)
Lemma bread2_run s p pid c1 c2 :
  cache_ok dev s -> ready s p pid -> 0 <= c1 < 2 ^ 31 -> 0 <= c2 < 2 ^ 31 -> c1 <> c2 -> blocked dev s c1 = false -> blocked dev s c2 = false ->
  brefs dev s c1 + 1 < 2 ^ 32 -> brefs dev s c2 + 1 < 2 ^ 32 ->
  ((if decide (brefs dev s c1 = 0%Z) then 1 else 0) + (if decide (brefs dev s c2 = 0%Z) then 1 else 0)
     <= nfree s)%nat ->
  exists b1 b2 bs1 bs, let s1 := put_bufs bs1 s in let s2 := put_bufs bs s in
    bread dev c1 s = Ret b1 s1 /\ bread dev c2 s1 = Ret b2 s2 /\ cache_ok dev s2 /\
    holds dev s2 pid c1 b1 (bview dev s c1) /\ holds dev s2 pid c2 b2 (bview dev s c2) /\
    brefs dev s2 c1 = brefs dev s c1 + 1 /\ brefs dev s2 c2 = brefs dev s c2 + 1 /\
    (forall c, c <> c1 -> c <> c2 -> bview dev s2 c = bview dev s c /\
       brefs dev s2 c = brefs dev s c /\ blocked dev s2 c = blocked dev s c) /\
    (nfree s2 + (if decide (brefs dev s c1 = 0%Z) then 1 else 0)
              + (if decide (brefs dev s c2 = 0%Z) then 1 else 0) = nfree s)%nat.
Proof.
  intros Hok Hrd Hs1 Hs2 Hne Hl1 Hl2 Hr1 Hr2 Hnf.
  pose proof (brefs_range dev s c1 Hok). pose proof (brefs_range dev s c2 Hok).
  destruct (bread_run dev s p pid c1 Hok Hrd Hs1 Hl1 Hr1) as (b1 & bs1 & E1 & Ok1 & Ch1 & H1 & R1 & N1).
  { destruct (decide (brefs dev s c1 = 0)); simpl in *; lia. }
  set (s1 := put_bufs bs1 s) in *.
  assert (brefs dev s1 c2 = brefs dev s c2) as Er by (by apply (ch_refs _ _ _ _ Ch1)).
  destruct (bread_run dev s1 p pid c2 Ok1) as (b2 & bs2 & E2 & Ok2 & Ch2 & H2 & R2 & N2).
  { by apply ready_bufs. }
  { done. }
  { by rewrite (ch_lock _ _ _ _ Ch1). }
  { by rewrite Er. }
  { rewrite Er. destruct (decide (brefs dev s c2 = 0)); simpl in *; lia. }
  rewrite Er in R2, N2.
  exists b1, b2, bs1, bs2. cbn zeta. change (put_bufs bs2 s1) with (put_bufs bs2 s) in *.
  split_and!; try done.
  - by apply (ch_hold _ _ _ _ Ch2).
  - by rewrite <- (ch_view _ _ _ _ Ch1 c2).
  - rewrite (ch_refs _ _ _ _ Ch2) by done. done.
  - intros c Hc1 Hc2. rewrite (ch_view _ _ _ _ Ch2), (ch_view _ _ _ _ Ch1) by done.
    rewrite (ch_refs _ _ _ _ Ch2), (ch_refs _ _ _ _ Ch1) by done.
    by rewrite (ch_lock _ _ _ _ Ch2), (ch_lock _ _ _ _ Ch1) by done.
  - lia.
Qed.

(** The copy and the write, with both blocks held. *)
Lemma copy_write_run s0 s p pid t a bt ba :
  cache_ok dev s -> ready s p pid -> 0 <= t < 2 ^ 31 -> t <> a -> bframe s0 s ->
  holds dev s pid t bt (bview dev s0 t) -> holds dev s pid a ba (bview dev s0 a) ->
  brefs dev s t = brefs dev s0 t + 1 -> brefs dev s a = brefs dev s0 a + 1 ->
  (forall c, c <> t -> c <> a -> bview dev s c = bview dev s0 c /\
     brefs dev s c = brefs dev s0 c /\ blocked dev s c = blocked dev s0 c) ->
  g_disk s = g_disk s0 -> g_dwrites s = g_dwrites s0 ->
  (nfree s + (if decide (brefs dev s0 t = 0%Z) then 1 else 0)
           + (if decide (brefs dev s0 a = 0%Z) then 1 else 0) = nfree s0)%nat ->
  exists s1 s2, buf_data ba s = Ret (bview dev s0 a) s /\
    set_buf_data bt (bview dev s0 a) s = Ret tt s1 /\ bwrite bt s1 = Ret tt s2 /\
    copied 0 t a pid bt ba s0 s2.
Proof.
  intros Hok Hrd Hst Hne Hfr Ht Ha Rt Ra Hoth Hd Htr Hnf.
  set (d := bview dev s0 a) in *.
  assert (length d = 1024%nat) as Hlen.
  { destruct Ha as (x & Hx & _ & <- & _). apply (bo_len _ _ _ (co_buf _ _ Hok _ _ Hx)). }
  destruct (set_buf_data_run dev s pid t bt _ d Hok Ht Hlen) as (bs & E1 & Ok1 & Ch1 & H1 & R1 & N1).
  set (s1 := put_bufs bs s) in *.
  destruct (bwrite_run dev s1 p pid t bt d Ok1) as (E2 & Ok2 & Ch2 & H2 & R2 & N2); [by apply ready_bufs|done|done|].
  exists s1, (disk_write t d s1). pose proof (changes_trans _ _ _ _ _ Ch1 Ch2) as Ch.
  split_and!; try done; [by eapply buf_data_run|].
  split; try done.
  - eapply bframe_trans; [exact Hfr|]. exact (bframe_bio s (kbio (disk_write t d s1))).
  - apply (ch_hold _ _ _ _ Ch); [done|exact Ha].
  - rewrite R2, R1, Rt. lia.
  - by rewrite (ch_refs _ _ _ _ Ch), Ra.
  - intros c Hct Hca. rewrite (ch_view _ _ _ _ Ch) by done. by apply Hoth.
  - intros c Hct Hca. rewrite (ch_refs _ _ _ _ Ch) by done. by apply Hoth.
  - intros c Hct Hca. rewrite (ch_lock _ _ _ _ Ch) by done. by apply Hoth.
  - unfold disk_write, s1. kget. by rewrite Hd.
  - unfold disk_write, s1. kget. by rewrite Htr.
  - rewrite N2, N1. done.
Qed.

(** Dropping the log's own reference. *)
Lemma copied_unpin s s' p pid t a bt ba :
  copied 0 t a pid bt ba s s' -> t <> a -> ready s' p pid -> 0 < brefs dev s t ->
  exists s2, bunpin bt s' = Ret tt s2 /\ copied 1 t a pid bt ba s s2.
Proof.
  intros [o f ht ha rt ra v r l d tr n] Hne Hrd Hr.
  pose proof (brefs_range dev s' t o).
  destruct (ref_add_run dev s' pid t bt _ (-1) o (rd_bc _ _ _ Hrd) ht) as (bs & E & Ok & Ch & H1 & R1 & N1); [lia|].
  eexists. split; [exact E|]. split; try done.
  - eapply bframe_trans; [exact f|]. apply bframe_insert.
  - by apply (ch_hold _ _ _ _ Ch).
  - rewrite R1, rt. lia.
  - by rewrite (ch_refs _ _ _ _ Ch).
  - intros c ??. rewrite (ch_view _ _ _ _ Ch) by done. auto.
  - intros c ??. rewrite (ch_refs _ _ _ _ Ch) by done. auto.
  - intros c ??. rewrite (ch_lock _ _ _ _ Ch) by done. auto.
  - by rewrite N1.
Qed.

Lemma copied_release k s s' p pid t a bt ba :
  copied k t a pid bt ba s s' -> cache_ok dev s -> ready s p pid -> t <> a ->
  blocked dev s t = false -> blocked dev s a = false -> k = 0 \/ k = 1 -> k <= brefs dev s t ->
  exists s1 s2, brelse ba s' = Ret tt s1 /\ brelse bt s1 = Ret tt s2 /\
    wrote [(t, bview dev s a)] (fun c => if decide (c = t) then k else 0) s s2.
Proof.
  intros [o f ht ha rt ra v r l d tr n] Hok Hrd Hne Lt La Hk Hkr.
  pose proof (brefs_range dev s t Hok). pose proof (brefs_range dev s a Hok).
  pose proof (ready_frame _ _ _ _ Hrd f) as Hrd'.
  destruct (brelse_run dev s' p pid a ba _ o Hrd' ha)
    as (s1 & E1 & Ok1 & F1 & Ch1 & V1 & R1 & B1 & D1 & T1 & N1).
  { rewrite ra. intros H1. rewrite d, disk_block_insert, decide_False by done.
    apply (unref dev s a Hok). lia. }
  destruct (brelse_run dev s1 p pid t bt (bview dev s a) Ok1)
    as (s2 & E2 & Ok2 & F2 & Ch2 & V2 & R2 & B2 & D2 & T2 & N2).
  { by eapply ready_frame. }
  { by apply (ch_hold _ _ _ _ Ch1). }
  { intros _. rewrite D1, d, disk_block_insert, decide_True; done. }
  rewrite (ch_refs _ _ _ _ Ch1) in R2, N2 by done. rewrite rt in R2, N2. rewrite ra in R1, N1.
  exists s1, s2. split_and!; [done|done|]. split; [done| | | | | | |].
  - eapply bframe_trans; [exact f|]. by eapply bframe_trans.
  - intros c. simpl. destruct (decide (c = t)) as [->|Hct]; [done|].
    rewrite (ch_view _ _ _ _ Ch2) by done. destruct (decide (c = a)) as [->|Hca]; [done|].
    rewrite (ch_view _ _ _ _ Ch1) by done. auto.
  - intros c. destruct (decide (c = t)) as [->|Hct]; [lia|].
    rewrite (ch_refs _ _ _ _ Ch2) by done. destruct (decide (c = a)) as [->|Hca]; [lia|].
    rewrite (ch_refs _ _ _ _ Ch1) by done. rewrite r by done. lia.
  - intros c. destruct (decide (c = t)) as [->|Hct]; [by rewrite B2|].
    rewrite (ch_lock _ _ _ _ Ch2) by done. destruct (decide (c = a)) as [->|Hca]; [by rewrite B1|].
    rewrite (ch_lock _ _ _ _ Ch1) by done. auto.
  - repeat case_decide; simpl in *; lia.
  - by rewrite D2, D1.
  - by rewrite T2, T1.
Qed.

(** ** The log's own blocks and the home blocks *)

(** The geometry: [st] is the header block, the copies follow it; [hs] are the
    home blocks of the transaction. *)
Record log_at (st : Z) (hs : list Z) (l : log) : Prop := {
  la_dev : lg_dev l = dev;
  la_start : lg_start l = st;
  la_n : lh_n l = Z.of_nat (length hs);
  la_block : take (length hs) (lh_block l) = hs;
  la_size : length (lh_block l) = 30%nat;
  la_max : (length hs <= 29)%nat;
  la_st : 0 <= st /\ st + 31 < 2 ^ 31;
  la_home : forall h, h ∈ hs -> 0 <= h < 2 ^ 31 /\ ~ (st <= h <= st + 29);
  la_nodup : NoDup hs
}.

Lemma log_at_empty st hs l : log_at st hs l -> log_at st [] (set_lh_n 0 l).
Proof.
  intros [H1 H2 H3 H4 H5 H6 H7 H8 H9].
  split; [done|done|done|by rewrite take_0|done|simpl; lia|done| |constructor].
  intros h Hh. by apply not_elem_of_nil in Hh.
Qed.

(** The [i]-th copy. *)
Definition copy (st : Z) (i : nat) : Z := st + Z.of_nat i + 1.

Lemma lh_get_run s st hs i h :
  log_at st hs (klog s) -> hs !! i = Some h -> lh_get i s = Ret h s.
Proof.
  intros Hl Hi. unfold lh_get, bind, gets. cbn [obind].
  assert (lh_block (klog s) !! i = Some h) as ->; [|done].
  rewrite <- (la_block _ _ _ Hl), lookup_take_Some in Hi. tauto.
Qed.

Lemma log_at_home st hs l i h :
  log_at st hs l -> hs !! i = Some h ->
  0 <= h < 2 ^ 31 /\ h <> copy st i /\ 0 <= copy st i < 2 ^ 31.
Proof.
  intros Hl Hi. pose proof (lookup_lt_Some _ _ _ Hi). pose proof (la_max _ _ _ Hl).
  destruct (la_home _ _ _ Hl h) as [H1 H2]; [by eapply list_elem_of_lookup_2|].
  pose proof (la_st _ _ _ Hl). unfold copy. lia.
Qed.

(** What the code needs of a block it reads. *)
Definition readable (s : kstate) (c : Z) : Prop :=
  blocked dev s c = false /\ brefs dev s c + 1 < 2 ^ 32.

Lemma write_log_body_run s p pid st hs i h :
  cache_ok dev s -> ready s p pid -> log_at st hs (klog s) -> hs !! i = Some h ->
  readable s h -> readable s (copy st i) ->
  ((if decide (brefs dev s (copy st i) = 0%Z) then 1 else 0) +
   (if decide (brefs dev s h = 0%Z) then 1 else 0) <= nfree s)%nat ->
  exists s', write_log_body i s = Ret tt s' /\ wrote [(copy st i, bview dev s h)] (fun _ => 0) s s'.
Proof.
  intros Hok Hrd Hl Hi [Lh Rh] [Lc Rc] Hnf.
  destruct (log_at_home _ _ _ _ _ Hl Hi) as (Hh & Hne & Hc).
  destruct (bread2_run s p pid (copy st i) h Hok Hrd) as (b1 & b2 & bs1 & bs & E1 & E2 & Ok2 & H1 & H2 & R1 & R2 & Ho & N);
    try done.
  destruct (copy_write_run s (put_bufs bs s) p pid (copy st i) h b1 b2) as (s3 & s4 & E3 & E4 & E5 & Hcp); try done.
  { by apply ready_bufs. }
  { apply bframe_insert. }
  destruct (copied_release 0 s s4 p pid (copy st i) h b1 b2 Hcp Hok Hrd) as (s5 & s6 & E6 & E7 & Hw); auto.
  { apply brefs_range, Hok. }
  exists s6. split.
  - unfold write_log_body. rewrite (bind_run (gets klog) _ s _ s eq_refl).
    rewrite (la_dev _ _ _ Hl), (la_start _ _ _ Hl). fold (copy st i). rewrite (u32_small (copy st i)) by lia.
    rewrite (bind_run _ _ _ _ _ E1).
    rewrite (bind_run _ _ _ _ _ (lh_get_run (put_bufs bs1 s) st hs i h Hl Hi)).
    rewrite (u32_small h) by lia. rewrite (bind_run _ _ _ _ _ E2), (bind_run _ _ _ _ _ E3).
    rewrite (bind_run _ _ _ _ _ E4), (bind_run _ _ _ _ _ E5), (bind_run _ _ _ _ _ E6). exact E7.
  - eapply wrote_k; [|exact Hw]. intros c. cbv beta. by destruct (decide (c = copy st i)).
Qed.

(** In recovery ([k = 0]) nobody else has a reference; otherwise the reference
    that [log_write] took is dropped. *)
Lemma install_body_run (rec : bool) s p pid st hs i h :
  let k := if rec then 0 else 1 in
  cache_ok dev s -> ready s p pid -> log_at st hs (klog s) -> hs !! i = Some h ->
  readable s h -> readable s (copy st i) -> k <= brefs dev s h ->
  ((if decide (brefs dev s (copy st i) = 0%Z) then 1 else 0) +
   (if decide (brefs dev s h = 0%Z) then 1 else 0) <= nfree s)%nat ->
  exists s', install_body rec i s = Ret tt s' /\
    wrote [(h, bview dev s (copy st i))] (fun c => if decide (c = h) then k else 0) s s'.
Proof.
  intros k Hok Hrd Hl Hi [Lh Rh] [Lc Rc] Hk Hnf.
  destruct (log_at_home _ _ _ _ _ Hl Hi) as (Hh & Hne & Hc).
  destruct (bread2_run s p pid (copy st i) h Hok Hrd) as (b1 & b2 & bs1 & bs & E1 & E2 & Ok2 & H1 & H2 & R1 & R2 & Ho & N);
    try done.
  destruct (copy_write_run s (put_bufs bs s) p pid h (copy st i) b2 b1) as (s3 & s4 & E3 & E4 & E5 & Hcp); try done.
  { by apply ready_bufs. }
  { apply bframe_insert. }
  { intros c ??. by apply Ho. }
  { lia. }
  assert (exists s4', when (negb rec) (bunpin b2) s4 = Ret tt s4' /\ copied k h (copy st i) pid b2 b1 s s4')
    as (s4' & E5' & Hcp').
  { destruct rec; [by exists s4|].
    eapply copied_unpin; [exact Hcp|done| |unfold k in Hk; lia].
    eapply ready_frame; [exact Hrd|apply Hcp]. }
  destruct (copied_release k s s4' p pid h (copy st i) b2 b1 Hcp' Hok Hrd) as (s5 & s6 & E6 & E7 & Hw); auto.
  { unfold k. destruct rec; auto. }
  exists s6. split; [|exact Hw].
  unfold install_body. rewrite (bind_run (gets klog) _ s _ s eq_refl).
  rewrite (la_dev _ _ _ Hl), (la_start _ _ _ Hl). fold (copy st i). rewrite (u32_small (copy st i)) by lia.
  rewrite (bind_run _ _ _ _ _ E1).
  rewrite (bind_run _ _ _ _ _ (lh_get_run (put_bufs bs1 s) st hs i h Hl Hi)).
  rewrite (u32_small h) by lia. rewrite (bind_run _ _ _ _ _ E2), (bind_run _ _ _ _ _ E3).
  rewrite (bind_run _ _ _ _ _ E4), (bind_run _ _ _ _ _ E5), (bind_run _ _ _ _ _ E5').
  rewrite (bind_run _ _ _ _ _ E6). exact E7.
Qed.

(** ** The loops *)

(** A thread about to write a transaction with home blocks [hs]: nothing else
    uses the log's blocks, and there is room in the cache. *)
Record txn (st : Z) (hs : list Z) (p : nat) (pid : Z) (s : kstate) : Prop := {
  tx_ok : cache_ok dev s;
  tx_ready : ready s p pid;
  tx_log : log_at st hs (klog s);
  tx_home : forall h, h ∈ hs -> readable s h;
  tx_area : forall c, st <= c <= st + 29 -> brefs dev s c = 0;
  tx_room : ((forall h, h ∈ hs -> 0 < brefs dev s h) /\ (1 <= nfree s)%nat) \/ (2 <= nfree s)%nat
}.

Lemma txn_area st hs p pid s i :
  txn st hs p pid s -> (i < 29)%nat -> brefs dev s (copy st i) = 0 /\ readable s (copy st i).
Proof.
  intros H Hi. unfold readable, copy in *.
  assert (brefs dev s (st + Z.of_nat i + 1) = 0) as E by (apply (tx_area _ _ _ _ _ H); lia).
  split; [done|]. rewrite E. split; [|lia]. apply (unref dev s _ (tx_ok _ _ _ _ _ H) E).
Qed.

(** The writes of [write_log] and of [install_trans]. *)
Definition log_writes (st : Z) (v : Z -> list Z) (hs : list Z) : list (Z * list Z) :=
  imap (fun i h => (copy st i, v h)) hs.
Definition home_writes (st : Z) (v : Z -> list Z) (hs : list Z) : list (Z * list Z) :=
  imap (fun i h => (h, v (copy st i))) hs.

Lemma log_writes_fst st v hs : (log_writes st v hs).*1 = imap (fun i _ => copy st i) hs.
Proof. unfold log_writes. by rewrite fmap_imap. Qed.
Lemma home_writes_fst st v hs : (home_writes st v hs).*1 = hs.
Proof.
  unfold home_writes. rewrite fmap_imap. apply list_eq. intros i. rewrite list_lookup_imap.
  by destruct (hs !! i).
Qed.

Lemma elem_log_writes st v hs c :
  c ∈ (log_writes st v hs).*1 -> exists i, (i < length hs)%nat /\ c = copy st i.
Proof.
  rewrite log_writes_fst. intros (i & Hi)%list_elem_of_lookup_1. rewrite list_lookup_imap in Hi.
  destruct (hs !! i) eqn:E; [|done]. injection Hi as <-. exists i. split; [by eapply lookup_lt_Some|done].
Qed.

Lemma log_writes_snoc st v hs i h :
  hs !! i = Some h ->
  log_writes st v (take (S i) hs) = log_writes st v (take i hs) ++ [(copy st i, v h)].
Proof.
  intros Hi. unfold log_writes. rewrite (take_S_r _ _ _ Hi), imap_app. simpl.
  rewrite length_take, Nat.min_l by (apply lookup_lt_Some in Hi; lia). by rewrite Nat.add_0_r.
Qed.
Lemma home_writes_snoc st v hs i h :
  hs !! i = Some h ->
  home_writes st v (take (S i) hs) = home_writes st v (take i hs) ++ [(h, v (copy st i))].
Proof.
  intros Hi. unfold home_writes. rewrite (take_S_r _ _ _ Hi), imap_app. simpl.
  rewrite length_take, Nat.min_l by (apply lookup_lt_Some in Hi; lia). by rewrite Nat.add_0_r.
Qed.

(** Home blocks are none of the log's blocks. *)
Lemma home_not_copy st hs l h : log_at st hs l -> h ∈ hs -> forall i, (i < 29)%nat -> h <> copy st i.
Proof. intros Hl Hh i Hi. destruct (la_home _ _ _ Hl h Hh). unfold copy. lia. Qed.

Lemma write_log_run st hs p pid s :
  txn st hs p pid s ->
  exists s', write_log s = Ret tt s' /\ wrote (log_writes st (bview dev s) hs) (fun _ => 0) s s'.
Proof.
  intros H. pose proof (tx_log _ _ _ _ _ H) as Hl. pose proof (la_max _ _ _ Hl) as Hmax.
  assert (wp (for_each (length hs) 0 write_log_body) s
            (fun _ s' => wrote (log_writes st (bview dev s) hs) (fun _ => 0) s s')) as ([] & s' & E & HQ).
  { apply (wp_for_each (fun i s' => wrote (log_writes st (bview dev s) (take i hs)) (fun _ => 0) s s')).
    - apply wrote_nil, H.
    - intros i s' Hi Hw. destruct (lookup_lt_is_Some_2 hs i) as [h Hh]; [lia|].
      assert (h ∈ hs) as Hin by (by eapply list_elem_of_lookup_2).
      destruct (txn_area _ _ _ _ _ i H) as [Hc0 [Lc Rc]]; [lia|].
      destruct (tx_home _ _ _ _ _ H h Hin) as [Lh Rh].
      assert (forall c, brefs dev s' c = brefs dev s c) as Hr by (intros c; rewrite (wr_refs _ _ _ _ Hw); lia).
      assert (bview dev s' h = bview dev s h) as Hv.
      { rewrite (wr_view _ _ _ _ Hw). apply overlay_other. intros (j & Hj & Ej)%elem_log_writes.
        rewrite length_take in Hj. by apply (home_not_copy _ _ _ _ Hl Hin j); [lia|]. }
      destruct (write_log_body_run s' p pid st hs i h (wr_ok _ _ _ _ Hw)) as (s2 & E2 & Hw2); try done.
      + by eapply wrote_ready, H.
      + by rewrite (wrote_klog _ _ _ _ Hw).
      + split; [by rewrite (wr_lock _ _ _ _ Hw)|by rewrite Hr].
      + split; [by rewrite (wr_lock _ _ _ _ Hw)|by rewrite Hr].
      + rewrite !Hr, Hc0. pose proof (wr_free _ _ _ _ Hw). destruct (tx_room _ _ _ _ _ H) as [[Hp Hn]|Hn].
        * specialize (Hp h Hin). rewrite (decide_False (P := brefs dev s h = 0)) by lia. simpl. lia.
        * repeat case_decide; lia.
      + exists tt, s2. split; [done|]. rewrite (log_writes_snoc _ _ _ _ _ Hh). rewrite Hv in Hw2.
        eapply wrote_k; [|by eapply wrote_trans]. done.
    - intros s'. rewrite Nat.add_0_l, take_ge by lia. done. }
  exists s'. split; [|done]. unfold write_log. rewrite (bind_run (gets klog) _ s _ s eq_refl).
  by rewrite (la_n _ _ _ Hl), Nat2Z.id.
Qed.

Lemma install_run (rec : bool) st hs p pid s :
  txn st hs p pid s -> (rec = true \/ forall h, h ∈ hs -> 0 < brefs dev s h) ->
  exists s', install_trans rec s = Ret tt s' /\
    wrote (home_writes st (bview dev s) hs)
          (fun c => if rec then 0 else if decide (c ∈ hs) then 1 else 0) s s'.
Proof.
  intros H Hrec. pose proof (tx_log _ _ _ _ _ H) as Hl. pose proof (la_max _ _ _ Hl) as Hmax.
  set (kk := fun i c => if rec then 0 else if decide (c ∈ take i hs) then 1 else 0).
  assert (wp (for_each (length hs) 0 (install_body rec)) s
            (fun _ s' => wrote (home_writes st (bview dev s) hs) (kk (length hs)) s s')) as ([] & s' & E & HQ).
  { apply (wp_for_each (fun i s' => wrote (home_writes st (bview dev s) (take i hs)) (kk i) s s')).
    - eapply wrote_k; [|apply wrote_nil, H]. intros c. unfold kk. destruct rec; [done|].
      rewrite decide_False; [done|set_solver].
    - intros i s' Hi Hw. destruct (lookup_lt_is_Some_2 hs i) as [h Hh]; [lia|].
      assert (h ∈ hs) as Hin by (by eapply list_elem_of_lookup_2).
      assert (h ∉ take i hs) as Hnin.
      { pose proof (la_nodup _ _ _ Hl) as Hnd. rewrite <- (take_drop_middle _ _ _ Hh) in Hnd.
        apply list.NoDup_app in Hnd as (_ & Hnd & _). intros Hi'. apply (Hnd h Hi'). set_solver. }
      destruct (txn_area _ _ _ _ _ i H) as [Hc0 [Lc Rc]]; [lia|].
      destruct (tx_home _ _ _ _ _ H h Hin) as [Lh Rh].
      assert (copy st i ∉ hs) as Hcn.
      { intros Hc. by apply (home_not_copy _ _ _ _ Hl Hc i); [lia|]. }
      assert (copy st i ∉ take i hs) as Hcn'.
      { intros Hc. apply Hcn. by apply (subseteq_take i hs). }
      assert (brefs dev s' h = brefs dev s h) as Hrh.
      { rewrite (wr_refs _ _ _ _ Hw). unfold kk. destruct rec; [lia|]. rewrite decide_False by done. lia. }
      assert (brefs dev s' (copy st i) = 0) as Hrc.
      { rewrite (wr_refs _ _ _ _ Hw), Hc0. unfold kk. destruct rec; [lia|]. rewrite decide_False by done. lia. }
      assert (bview dev s' (copy st i) = bview dev s (copy st i)) as Hv.
      { rewrite (wr_view _ _ _ _ Hw). apply overlay_other. by rewrite home_writes_fst. }
      destruct (install_body_run rec s' p pid st hs i h (wr_ok _ _ _ _ Hw)) as (s2 & E2 & Hw2); try done.
      + by eapply wrote_ready, H.
      + by rewrite (wrote_klog _ _ _ _ Hw).
      + split; [by rewrite (wr_lock _ _ _ _ Hw)|by rewrite Hrh].
      + split; [by rewrite (wr_lock _ _ _ _ Hw)|by rewrite Hrc].
      + rewrite Hrh. pose proof (brefs_range dev s h (tx_ok _ _ _ _ _ H)).
        destruct rec; [lia|]. destruct Hrec as [|Hp]; [done|]. specialize (Hp h Hin). lia.
      + rewrite Hrc, Hrh. pose proof (wr_free _ _ _ _ Hw). destruct (tx_room _ _ _ _ _ H) as [[Hp Hn]|Hn].
        * specialize (Hp h Hin). rewrite (decide_False (P := brefs dev s h = 0)) by lia. simpl. lia.
        * repeat case_decide; lia.
      + exists tt, s2. split; [done|]. rewrite (home_writes_snoc _ _ _ _ _ Hh). rewrite Hv in Hw2.
        eapply wrote_k; [|by eapply wrote_trans]. intros c. unfold kk. rewrite (take_S_r _ _ _ Hh).
        destruct rec; [by case_decide|].
        repeat case_decide; subst; (done || set_solver).
    - intros s'. rewrite Nat.add_0_l, take_ge by lia. done. }
  exists s'. split.
  - unfold install_trans. rewrite (bind_run (gets klog) _ s _ s eq_refl).
    by rewrite (la_n _ _ _ Hl), Nat2Z.id.
  - eapply wrote_k; [|exact HQ]. intros c. unfold kk. by rewrite take_ge by lia.
Qed.

(** ** The header block *)

(** The header as [write_head] builds it over the old content [d]. *)
Definition set_header (hs : list Z) (d : list Z) : list Z :=
  foldl (fun d ih => set_hdr_block ih.1 ih.2 d) (set_hdr_n (Z.of_nat (length hs)) d) (imap pair hs).

(** The home blocks a header names. *)
Definition header (d : list Z) : list Z := hdr_block d <$> seq 0 (Z.to_nat (hdr_n d)).

Lemma set_header_snoc hs i h d n :
  hs !! i = Some h ->
  foldl (fun d ih => set_hdr_block ih.1 ih.2 d) (set_hdr_n n d) (imap pair (take (S i) hs)) =
  set_hdr_block i h (foldl (fun d ih => set_hdr_block ih.1 ih.2 d) (set_hdr_n n d) (imap pair (take i hs))).
Proof.
  intros Hi. rewrite (take_S_r _ _ _ Hi), imap_app, foldl_app. simpl.
  by rewrite length_take, Nat.min_l, Nat.add_0_r by (apply lookup_lt_Some in Hi; lia).
Qed.

(** The partial header after [i] rounds. *)
Definition part_header (hs : list Z) (d : list Z) (i : nat) : list Z :=
  foldl (fun d ih => set_hdr_block ih.1 ih.2 d) (set_hdr_n (Z.of_nat (length hs)) d) (imap pair (take i hs)).

Lemma part_header_spec hs d i :
  length d = 1024%nat -> (length hs <= 29)%nat -> (i <= length hs)%nat ->
  Forall (fun h => 0 <= h < 2 ^ 31) hs ->
  length (part_header hs d i) = 1024%nat /\ hdr_n (part_header hs d i) = Z.of_nat (length hs) /\
  forall j h, (j < i)%nat -> hs !! j = Some h -> hdr_block (part_header hs d i) j = h.
Proof.
  intros Hd Hmax Hi Hall. induction i as [|i IH].
  - change (part_header hs d 0) with (put_le 4 d 0 (Z.of_nat (length hs))).
    unfold hdr_n. rewrite length_put_le by lia.
    split_and!; [done| |lia]. rewrite get_put_le_same by lia.
    rewrite Z.mod_small by (change (256 ^ Z.of_nat 4) with 4294967296; lia). apply s32_small. lia.
  - destruct IH as (Hl & Hn & Hb); [lia|]. destruct (lookup_lt_is_Some_2 hs i) as [h Hh]; [lia|].
    assert (part_header hs d (S i) = set_hdr_block i h (part_header hs d i)) as ->
      by (by apply set_header_snoc).
    unfold set_hdr_block. rewrite length_put_le by lia. split_and!; [done| |].
    + rewrite <- Hn. unfold hdr_n. by rewrite get_put_le_other by lia.
    + intros j h' Hj Hh'. unfold hdr_block. destruct (decide (j = i)) as [->|].
      * rewrite Hh in Hh'. injection Hh' as <-. rewrite get_put_le_same by lia.
        rewrite Forall_lookup in Hall. specialize (Hall i h Hh).
        rewrite Z.mod_small by (change (256 ^ Z.of_nat 4) with 4294967296; lia). apply s32_small. lia.
      * rewrite get_put_le_other by lia. apply Hb; [lia|done].
Qed.

Lemma set_header_part hs d : set_header hs d = part_header hs d (length hs).
Proof. unfold set_header, part_header. by rewrite take_ge. Qed.

(** Reading a header back gives what was written. *)
Lemma header_set_header hs d :
  length d = 1024%nat -> (length hs <= 29)%nat -> Forall (fun h => 0 <= h < 2 ^ 31) hs ->
  header (set_header hs d) = hs /\ length (set_header hs d) = 1024%nat.
Proof.
  intros Hd Hmax Hall. rewrite set_header_part.
  destruct (part_header_spec hs d (length hs)) as (Hl & Hn & Hb); try done.
  split; [|done]. unfold header. rewrite Hn, Nat2Z.id. apply list_eq. intros i.
  rewrite list_lookup_fmap. destruct (hs !! i) as [h|] eqn:Eh.
  - rewrite lookup_seq_lt by (by eapply lookup_lt_Some). simpl. f_equal. apply Hb; [by eapply lookup_lt_Some|done].
  - rewrite lookup_seq_ge by (by apply lookup_ge_None). done.
Qed.

(** [bwrite] and [brelse] of a block that nobody else uses. *)
Lemma write_release s0 s p pid c b d :
  cache_ok dev s -> ready s p pid -> 0 <= c < 2 ^ 31 -> bframe s0 s -> changes dev c s0 s -> holds dev s pid c b d ->
  brefs dev s0 c = 0 -> blocked dev s0 c = false -> brefs dev s c = 1 -> (S (nfree s) = nfree s0)%nat ->
  g_disk s = g_disk s0 -> g_dwrites s = g_dwrites s0 ->
  exists s1 s2, bwrite b s = Ret tt s1 /\ brelse b s1 = Ret tt s2 /\
    wrote [(c, d)] (fun _ => 0) s0 s2.
Proof.
  intros Hok Hrd Hc Hf Hch Hh H0 Hb H1 Hn Hd Ht.
  destruct (bwrite_run dev s p pid c b d Hok Hrd Hc Hh) as (E1 & Ok1 & Ch1 & Hh1 & R1 & N1).
  set (s1 := disk_write c d s) in *.
  assert (bframe s s1) as F1 by exact (bframe_bio s (kbio s1)).
  destruct (brelse_run dev s1 p pid c b d Ok1)
    as (s2 & E2 & Ok2 & F2 & Ch2 & V2 & R2 & B2 & D2 & T2 & N2); try done.
  { by eapply ready_frame. }
  { intros _. unfold s1, disk_write. kget. rewrite disk_block_insert. by rewrite decide_True. }
  exists s1, s2. split_and!; try done.
  pose proof (changes_trans _ _ _ _ _ Hch (changes_trans _ _ _ _ _ Ch1 Ch2)) as Ch.
  rewrite R1, H1 in R2, N2. rewrite decide_True in N2 by done.
  split; try done.
  - eapply bframe_trans; [exact Hf|]. by eapply bframe_trans.
  - intros c'. simpl. destruct (decide (c' = c)) as [->|]; [done|]. by apply (ch_view _ _ _ _ Ch).
  - intros c'. destruct (decide (c' = c)) as [->|]; [lia|]. rewrite (ch_refs _ _ _ _ Ch) by done. lia.
  - intros c'. destruct (decide (c' = c)) as [->|]; [by rewrite B2|]. by apply (ch_lock _ _ _ _ Ch).
  - lia.
  - rewrite D2. unfold s1, disk_write. kget. by rewrite Hd.
  - rewrite T2. unfold s1, disk_write. kget. by rewrite Ht.
Qed.

Lemma write_head_loop st hs b d pid s0 s1 :
  log_at st hs (klog s0) -> length d = 1024%nat -> (exists bs, s1 = put_bufs bs s0) ->
  cache_ok dev s1 -> holds dev s1 pid st b (part_header hs d 0) ->
  exists s2, for_each (length hs) 0 (write_head_body b) s1 = Ret tt s2 /\
    (exists bs, s2 = put_bufs bs s0) /\ cache_ok dev s2 /\ changes dev st s1 s2 /\
    holds dev s2 pid st b (set_header hs d) /\ brefs dev s2 st = brefs dev s1 st /\ nfree s2 = nfree s1.
Proof.
  intros Hl Hd Hs1 Hok Hh. pose proof (la_max _ _ _ Hl) as Hmax.
  assert (Forall (fun h => 0 <= h < 2 ^ 31) hs) as Hall.
  { apply list.Forall_forall. intros h Hin. apply (la_home _ _ _ Hl h Hin). }
  set (I := fun i s' => (exists bs, s' = put_bufs bs s0) /\ cache_ok dev s' /\ changes dev st s1 s' /\
    holds dev s' pid st b (part_header hs d i) /\ brefs dev s' st = brefs dev s1 st /\ nfree s' = nfree s1).
  assert (wp (for_each (length hs) 0 (write_head_body b)) s1 (fun _ s' => I (length hs) s')) as ([] & s2 & E & HQ).
  { apply (wp_for_each I).
    - split_and!; try done.
    - intros i s' Hi ((bs & ->) & Ok & Ch & Hh' & R & N).
      destruct (lookup_lt_is_Some_2 hs i) as [h Hhi]; [lia|].
      destruct (part_header_spec hs d (S i)) as (Hlen & _ & _); try done; [lia|].
      assert (part_header hs d (S i) = set_hdr_block i h (part_header hs d i)) as Ep
        by (by apply set_header_snoc).
      destruct (set_buf_data_run dev _ pid st b _ (part_header hs d (S i)) Ok Hh' Hlen)
        as (bs2 & E2 & Ok2 & Ch2 & H2 & R2 & N2).
      exists tt. eexists. split.
      + unfold write_head_body. rewrite (bind_run _ _ _ _ _ (lh_get_run (put_bufs bs s0) st hs i h Hl Hhi)).
        rewrite (bind_run _ _ _ _ _ (buf_data_run _ _ _ _ _ Hh')). rewrite <- Ep. exact E2.
      + split_and!; [by eexists|done|by eapply changes_trans|done|by rewrite R2|by rewrite N2].
    - intros s'. done. }
  destruct HQ as (H1 & H2 & H3 & H4 & H5 & H6). rewrite <- set_header_part in H4.
  exists s2. by split_and!.
Qed.

Lemma write_head_run st hs p pid s :
  cache_ok dev s -> ready s p pid -> log_at st hs (klog s) -> brefs dev s st = 0 -> (1 <= nfree s)%nat ->
  exists s', write_head s = Ret tt s' /\
    wrote [(st, set_header hs (bview dev s st))] (fun _ => 0) s s'.
Proof.
  intros Hok Hrd Hl H0 Hn. pose proof (la_st _ _ _ Hl) as Hst.
  destruct (unref dev s st Hok H0) as [_ Lst].
  destruct (bread_run dev s p pid st Hok Hrd ltac:(lia) Lst) as (b & bs1 & E1 & Ok1 & Ch1 & H1 & R1 & N1); [lia|lia|].
  rewrite H0, decide_True in N1 by done. set (s1 := put_bufs bs1 s) in *. set (d := bview dev s st) in *.
  assert (length d = 1024%nat) as Hd by (by apply length_bview).
  assert (length (part_header hs d 0) = 1024%nat) as Hp0.
  { destruct (part_header_spec hs d 0) as (? & _); try done; [apply Hl|lia|].
    apply list.Forall_forall. intros h Hin. apply (la_home _ _ _ Hl h Hin). }
  destruct (set_buf_data_run dev s1 pid st b _ (part_header hs d 0) Ok1 H1 Hp0)
    as (bs2 & E2 & Ok2 & Ch2 & H2 & R2 & N2).
  destruct (write_head_loop st hs b d pid s (put_bufs bs2 s1) Hl Hd) as (s3 & E3 & (bs3 & ->) & Ok3 & Ch3 & H3 & R3 & N3);
    try done; [by eexists|].
  destruct (write_release s (put_bufs bs3 s) p pid st b (set_header hs d)) as (s4 & s5 & E4 & E5 & Hw); try done.
  - by apply ready_bufs.
  - lia.
  - apply bframe_insert.
  - eapply changes_trans; [exact Ch1|]. by eapply changes_trans.
  - rewrite R3, R2, R1, H0. done.
  - lia.
  - exists s5. split; [|exact Hw].
    unfold write_head. rewrite (bind_run (gets klog) _ s _ s eq_refl).
    rewrite (la_dev _ _ _ Hl), (la_start _ _ _ Hl), (la_n _ _ _ Hl). rewrite (u32_small st) by lia.
    rewrite (bind_run _ _ _ _ _ E1), (bind_run _ _ _ _ _ (buf_data_run _ _ _ _ _ H1)).
    rewrite (bind_run _ _ _ _ _ E2). rewrite Nat2Z.id.
    rewrite (bind_run _ _ _ _ _ E3), (bind_run _ _ _ _ _ E4). exact E5.
Qed.

(** ** commit *)

(** The writes a commit sends to the disk: the copies, the header that commits,
    the home blocks, the empty header.  [v] gives the new contents and [d] the old
    content of the header block. *)
Definition commit_trace (st : Z) (hs : list Z) (v : Z -> list Z) (d : list Z) : list (Z * list Z) :=
  log_writes st v hs ++ [(st, set_header hs d)] ++
  ((fun h => (h, v h)) <$> hs) ++ [(st, set_header [] (set_header hs d))].

Lemma txn_wrote st hs p pid ws s s' :
  txn st hs p pid s -> wrote ws (fun _ => 0) s s' -> txn st hs p pid s'.
Proof.
  intros H Hw. assert (forall c, brefs dev s' c = brefs dev s c) as Hr
    by (intros c; rewrite (wr_refs _ _ _ _ Hw); lia).
  pose proof (wr_free _ _ _ _ Hw). split.
  - apply Hw.
  - eapply wrote_ready; [exact Hw|apply H].
  - rewrite (wrote_klog _ _ _ _ Hw). apply H.
  - intros h Hh. destruct (tx_home _ _ _ _ _ H h Hh). split; [by rewrite (wr_lock _ _ _ _ Hw)|by rewrite Hr].
  - intros c Hc. rewrite Hr. by apply (tx_area _ _ _ _ _ H).
  - destruct (tx_room _ _ _ _ _ H) as [[Hp Hn]|Hn]; [left|right; lia].
    split; [|lia]. intros h Hh. rewrite Hr. auto.
Qed.

(** What the copies hold after [write_log]. *)
Lemma overlay_log_writes st v hs f i h :
  (length hs <= 29)%nat -> hs !! i = Some h -> overlay (log_writes st v hs) f (copy st i) = v h.
Proof.
  intros Hmax Hi. apply (overlay_lookup _ _ i).
  - rewrite log_writes_fst. apply NoDup_alt. intros a b x. rewrite !list_lookup_imap.
    destruct (hs !! a); [|done]. destruct (hs !! b); [|done]. simpl. intros [= <-] [= E].
    unfold copy in E. lia.
  - unfold log_writes. by rewrite list_lookup_imap, Hi.
Qed.

Lemma home_writes_eq st v v' hs :
  (forall i h, hs !! i = Some h -> v (copy st i) = v' h) ->
  home_writes st v hs = (fun h => (h, v' h)) <$> hs.
Proof.
  intros H. apply list_eq. intros i. unfold home_writes. rewrite list_lookup_imap, list_lookup_fmap.
  destruct (hs !! i) as [h|] eqn:E; [|done]. simpl. by rewrite (H i h E).
Qed.

Lemma head_not_copy st i : st <> copy st i.
Proof. unfold copy. lia. Qed.

Lemma commit_run st hs p pid s :
  txn st hs p pid s -> (forall h, h ∈ hs -> 0 < brefs dev s h) -> hs <> [] ->
  exists s3 s', commit s = Ret tt s' /\
    wrote (log_writes st (bview dev s) hs ++ [(st, set_header hs (bview dev s st))] ++
           ((fun h => (h, bview dev s h)) <$> hs)) (fun c => if decide (c ∈ hs) then 1 else 0) s s3 /\
    wrote [(st, set_header [] (set_header hs (bview dev s st)))] (fun _ => 0)
      (set_klog (set_lh_n 0 (klog s)) s3) s'.
Proof.
  intros H Hpin Hne. pose proof (tx_log _ _ _ _ _ H) as Hl. pose proof (la_max _ _ _ Hl) as Hmax.
  pose proof (la_st _ _ _ Hl) as Hst.
  destruct (write_log_run st hs p pid s H) as (s1 & E1 & W1).
  pose proof (txn_wrote _ _ _ _ _ _ _ H W1) as H1.
  assert (bview dev s1 st = bview dev s st) as V1.
  { rewrite (wr_view _ _ _ _ W1). apply overlay_other. intros (i & _ & E)%elem_log_writes.
    by apply (head_not_copy st i). }
  destruct (write_head_run st hs p pid s1) as (s2 & E2 & W2);
    [apply H1|apply H1|apply H1|apply (tx_area _ _ _ _ _ H1); lia|destruct (tx_room _ _ _ _ _ H1); lia|].
  rewrite V1 in W2. pose proof (txn_wrote _ _ _ _ _ _ _ H1 W2) as H2.
  destruct (install_run false st hs p pid s2 H2) as (s3 & E3 & W3).
  { right. intros h Hh. rewrite (wr_refs _ _ _ _ W2), (wr_refs _ _ _ _ W1). specialize (Hpin h Hh). lia. }
  rewrite (home_writes_eq st _ (bview dev s)) in W3.
  2:{ intros i h Hi. pose proof (lookup_lt_Some _ _ _ Hi). rewrite (wr_view _ _ _ _ W2). simpl.
      rewrite decide_False by (pose proof (head_not_copy st i); done).
      rewrite (wr_view _ _ _ _ W1). by apply overlay_log_writes. }
  pose proof (wrote_trans _ _ _ _ _ _ _ W1 (wrote_trans _ _ _ _ _ _ _ W2 W3)) as W.
  set (s4 := set_klog (set_lh_n 0 (klog s)) s3).
  assert (klog s3 = klog s) as K3 by (by eapply wrote_klog).
  assert (st ∉ hs) as Hsn by (intros Hin; destruct (la_home _ _ _ Hl st Hin); lia).
  assert (log_at st [] (klog s4)) as Hl4 by (by eapply log_at_empty).
  destruct (write_head_run st [] p pid s4) as (s5 & E5 & W5); try done.
  - eapply cache_ok_kbio; [|apply (wr_ok _ _ _ _ W)]. done.
  - assert (ready s3 p pid) as [] by (eapply wrote_ready; [exact W|apply H]). by split.
  - change (brefs dev s4 st) with (brefs dev s3 st). rewrite (wr_refs _ _ _ _ W).
    rewrite (tx_area _ _ _ _ _ H) by lia. rewrite decide_False by done. lia.
  - change (nfree s4) with (nfree s3). pose proof (wr_free _ _ _ _ W).
    destruct (tx_room _ _ _ _ _ H) as [[_ ?]|?]; lia.
  - exists s3, s5. split; [|split].
    + unfold commit. rewrite (bind_run (gets klog) _ s _ s eq_refl). rewrite (la_n _ _ _ Hl).
      destruct (Z.gtb_spec (Z.of_nat (length hs)) 0); [|destruct hs; simpl in *; [done|lia]].
      unfold when. rewrite (bind_run _ _ _ _ _ E1), (bind_run _ _ _ _ _ E2), (bind_run _ _ _ _ _ E3).
      rewrite (bind_run (upd_log (set_lh_n 0)) _ s3 tt s4); [exact E5|].
      unfold upd_log, modify, s4. by rewrite K3.
    + eapply wrote_k; [|exact W]. intros c. simpl. lia.
    + change (bview dev s4 st) with (bview dev s3 st) in W5. rewrite (wr_view _ _ _ _ W) in W5.
      rewrite !overlay_app in W5. rewrite (overlay_other (_ <$> hs)) in W5.
      2:{ rewrite <- list_fmap_compose. intros Hin. apply Hsn. clear -Hin. induction hs; set_solver. }
      simpl in W5. by rewrite decide_True in W5 by done.
Qed.

(** ** Recovery *)

(** The log after the header was read. *)
Definition log_with (hs : list Z) (l : log) : log :=
  set_lh_block (hs ++ drop (length hs) (lh_block l)) (set_lh_n (Z.of_nat (length hs)) l).

(** Header block [st] names home blocks that recovery can install. *)
Record header_at (st : Z) (hs : list Z) (d : list Z) : Prop := {
  hd_n : hdr_n d = Z.of_nat (length hs);
  hd_block : forall i h, hs !! i = Some h -> hdr_block d i = h;
  hd_max : (length hs <= 29)%nat;
  hd_home : forall h, h ∈ hs -> 0 <= h < 2 ^ 31 /\ ~ (st <= h <= st + 29);
  hd_nodup : NoDup hs
}.

Lemma lh_put_run s i v :
  (i < length (lh_block (klog s)))%nat ->
  lh_put i v s = Ret tt (set_klog (set_lh_block (<[i := v]> (lh_block (klog s))) (klog s)) s).
Proof.
  intros Hi. destruct (lookup_lt_is_Some_2 _ _ Hi) as [x Hx].
  unfold lh_put, bind, gets. cbn [obind]. rewrite Hx. done.
Qed.

(** The loop of [read_head]. *)
Lemma read_head_loop hs d s :
  (forall i h, hs !! i = Some h -> hdr_block d i = h) -> (length hs <= length (lh_block (klog s)))%nat ->
  for_each (length hs) 0 (fun i => lh_put i (hdr_block d i)) s =
    Ret tt (set_klog (set_lh_block (hs ++ drop (length hs) (lh_block (klog s))) (klog s)) s).
Proof.
  intros Hb Hlen. set (B := lh_block (klog s)) in *.
  set (st i := set_klog (set_lh_block (take i hs ++ drop i B) (klog s)) s).
  assert (wp (for_each (length hs) 0 (fun i => lh_put i (hdr_block d i))) s
            (fun _ s' => s' = st (length hs))) as ([] & s' & E & ->).
  { apply (wp_for_each (fun i s' => s' = st i)).
    - unfold st. simpl. destruct s as [? ? ? ? [] ? ? ? ?]. done.
    - intros i s' Hi ->. destruct (lookup_lt_is_Some_2 hs i) as [h Hh]; [lia|].
      assert (length (take i hs) = i) as Hti by (rewrite length_take; lia).
      assert (<[i := hdr_block d i]> (take i hs ++ drop i B) = take (S i) hs ++ drop (S i) B) as EB.
      { rewrite insert_app_r_alt by lia. rewrite Hti, Nat.sub_diag, (Hb _ _ Hh).
        destruct (lookup_lt_is_Some_2 B i) as [x Hx]; [lia|].
        rewrite (drop_S _ _ _ Hx). simpl. rewrite (take_S_r _ _ _ Hh), <- app_assoc. done. }
      exists tt. eexists. split; [apply lh_put_run; simpl; rewrite length_app, length_drop, Hti; lia|].
      unfold st. cbn [klog set_klog lh_block set_lh_block]. rewrite EB. done.
    - done. }
  rewrite E. unfold st. by rewrite take_ge by lia.
Qed.

Lemma read_head_run st hs p pid s :
  cache_ok dev s -> ready s p pid -> lg_dev (klog s) = dev -> lg_start (klog s) = st ->
  length (lh_block (klog s)) = 30%nat -> 0 <= st /\ st + 31 < 2 ^ 31 ->
  header_at st hs (bview dev s st) -> brefs dev s st = 0 -> (1 <= nfree s)%nat ->
  let s0 := set_klog (log_with hs (klog s)) s in
  exists s', read_head s = Ret tt s' /\ log_at st hs (klog s0) /\ wrote [] (fun _ => 0) s0 s'.
Proof.
  intros Hok Hrd Hdev Hst Hlen Hrg Hhd H0 Hn s0.
  destruct (unref dev s st Hok H0) as [Vst Lst].
  destruct (bread_run dev s p pid st Hok Hrd ltac:(lia) Lst) as (b & bs1 & E1 & Ok1 & Ch1 & H1 & R1 & N1); [lia|lia|].
  rewrite H0 in N1, R1. rewrite decide_True in N1 by done.
  set (s1 := set_klog (log_with hs (klog s)) (put_bufs bs1 s)).
  assert (ready s1 p pid) as Hrd1 by (destruct (ready_bufs _ _ _ bs1 Hrd); by split).
  assert (cache_ok dev s1) as Ok1' by (eapply cache_ok_kbio; [|exact Ok1]; done).
  destruct (brelse_run dev s1 p pid st b (bview dev s st) Ok1' Hrd1)
    as (s2 & E2 & Ok2 & F2 & Ch2 & V2 & R2 & B2 & D2 & T2 & N2); [exact H1|by intros _|].
  change (brefs dev s1 st) with (brefs dev (put_bufs bs1 s) st) in *. rewrite R1 in R2, N2.
  change (nfree s1) with (nfree (put_bufs bs1 s)) in N2.
  assert (changes dev st s0 s2) as Ch.
  { eapply changes_trans; [|exact Ch2]. eapply changes_kbio; [| |exact Ch1]; done. }
  exists s2. split_and!.
  - unfold read_head. rewrite (bind_run (gets klog) _ s _ s eq_refl). rewrite Hdev, Hst, (u32_small st) by lia.
    rewrite (bind_run _ _ _ _ _ E1), (bind_run _ _ _ _ _ (buf_data_run _ _ _ _ _ H1)).
    rewrite (bind_run (upd_log _) _ _ _ _ eq_refl).
    rewrite (hd_n _ _ _ Hhd), Nat2Z.id.
    erewrite bind_run; [exact E2|]. rewrite read_head_loop;
      [done|exact (hd_block _ _ _ Hhd)|simpl; rewrite Hlen; pose proof (hd_max _ _ _ Hhd); lia].
  - destruct Hhd as [h1 h2 h3 h4 h5].
    split; try done; simpl; [by rewrite take_app_length|rewrite length_app, length_drop; lia].
  - split; try done.
    + intros c. simpl. destruct (decide (c = st)) as [->|]; [done|]. by apply (ch_view _ _ _ _ Ch).
    + intros c. destruct (decide (c = st)) as [->|]; [rewrite R2; change (brefs dev s0 st) with (brefs dev s st); lia|].
      rewrite (ch_refs _ _ _ _ Ch) by done. lia.
    + intros c. destruct (decide (c = st)) as [->|]; [by rewrite B2|]. by apply (ch_lock _ _ _ _ Ch).
    + rewrite decide_True in N2 by done. change (nfree s0) with (nfree s). lia.
    + by rewrite T2, app_nil_r.
Qed.

Lemma recover_run st hs p pid s :
  cache_ok dev s -> ready s p pid -> lg_dev (klog s) = dev -> lg_start (klog s) = st ->
  length (lh_block (klog s)) = 30%nat -> 0 <= st /\ st + 31 < 2 ^ 31 ->
  header_at st hs (bview dev s st) -> (forall c, brefs dev s c = 0) -> (2 <= nfree s)%nat ->
  exists s', recover_from_log s = Ret tt s' /\
    wrote (home_writes st (bview dev s) hs ++ [(st, set_header [] (bview dev s st))]) (fun _ => 0)
      (set_klog (set_lh_n 0 (log_with hs (klog s))) s) s'.
Proof.
  intros Hok Hrd Hdev Hst Hlen Hrg Hhd H0 Hn.
  destruct (read_head_run st hs p pid s) as (s1 & E1 & Hl & W1); try done; [lia|].
  set (s0 := set_klog (log_with hs (klog s)) s) in *.
  pose proof (wrote_klog _ _ _ _ W1) as K1.
  assert (forall c, brefs dev s1 c = 0) as R1.
  { intros c. rewrite (wr_refs _ _ _ _ W1). change (brefs dev s0 c) with (brefs dev s c). rewrite H0. lia. }
  pose proof (wr_free _ _ _ _ W1) as F1. change (nfree s0) with (nfree s) in F1.
  assert (txn st hs p pid s1) as H1.
  { split; [apply W1| |by rewrite K1| |by intros|right; lia].
    - eapply wrote_ready; [exact W1|]. destruct Hrd. by split.
    - intros h Hh. split; [apply (unref dev s1 h); [apply W1|done]|rewrite R1; lia]. }
  destruct (install_run true st hs p pid s1 H1) as (s2 & E2 & W2); [by left|].
  pose proof (wrote_klog _ _ _ _ W2) as K2.
  set (s3 := set_klog (set_lh_n 0 (klog s2)) s2).
  assert (st ∉ hs) as Hsn by (intros Hin; destruct (hd_home _ _ _ Hhd st Hin); lia).
  destruct (write_head_run st [] p pid s3) as (s4 & E4 & W4).
  - eapply cache_ok_kbio; [|apply (wr_ok _ _ _ _ W2)]. done.
  - assert (ready s2 p pid) as [] by (eapply wrote_ready; [exact W2|apply H1]). by split.
  - unfold s3. cbn [klog set_klog]. rewrite K2, K1. by eapply log_at_empty.
  - change (brefs dev s3 st) with (brefs dev s2 st). rewrite (wr_refs _ _ _ _ W2), R1. lia.
  - change (nfree s3) with (nfree s2). pose proof (wr_free _ _ _ _ W2). lia.
  - assert (forall c, bview dev s1 c = bview dev s c) as V1 by (intros c; apply (wr_view _ _ _ _ W1)).
    assert (bview dev s3 st = bview dev s st) as V3.
    { change (bview dev s3 st) with (bview dev s2 st). rewrite (wr_view _ _ _ _ W2), overlay_other; [apply V1|].
      by rewrite home_writes_fst. }
    rewrite V3 in W4.
    assert (home_writes st (bview dev s1) hs = home_writes st (bview dev s) hs) as EW.
    { unfold home_writes. apply imap_ext. intros. by rewrite V1. }
    rewrite EW in W2. pose proof (wrote_trans _ _ _ _ _ _ _ W1 W2) as [o f v r l n d t].
    exists s4. split.
    + unfold recover_from_log. rewrite (bind_run _ _ _ _ _ E1), (bind_run _ _ _ _ _ E2).
      rewrite (bind_run (upd_log (set_lh_n 0)) _ s2 tt s3 eq_refl). exact E4.
    + eapply (wrote_trans _ _ (fun _ => 0) (fun _ => 0)); [|exact W4].
      split; try done.
      * eapply cache_ok_kbio; [|exact o]. done.
      * destruct f as [f W]. split; [|exact W]. unfold s3. rewrite K2, K1. rewrite f at 1. done.
Qed.

(** ** Crashes *)

(** The state after a reboot with disk [d]: zeroed memory, the cache set up,
    the first process running. *)
Definition rebooted (d : gmap Z (list Z)) : kstate :=
  match binit (put_disk d (running (set_p_pid 1 zero_proc))) with
  | Ret _ s => s
  | _ => boot
  end.

Definition disk_lengths (d : gmap Z (list Z)) : Prop := forall c, length (disk_block d c) = 1024%nat.

(** The shape of the state after [binit]. *)
Lemma rebooted_shape d :
  dev <> 0 -> disk_lengths d ->
  exists bs hn hp, rebooted d =
    put_head_next hn (put_head_prev hp (put_bufs bs (put_disk d (running (set_p_pid 1 zero_proc))))) /\
    cache_ok dev (rebooted d) /\ nfree (rebooted d) = NBUF /\ forall c, cbuf dev (rebooted d) c = None.
Proof.
  intros Hdev Hd. set (s := put_disk d (running (set_p_pid 1 zero_proc))).
  destruct (binit_run dev s) as (bs & L & hn & hp & E & Hok & HL & Hn & Hc).
  { split_and!; [apply length_replicate|exact Hd|]. intros i x Hx.
    change (replicate NBUF zero_buf !! i = Some x) in Hx. apply lookup_replicate in Hx as [-> _].
    split_and!; [apply length_replicate|done|by apply not_eq_sym]. }
  assert (rebooted d = put_head_next hn (put_head_prev hp (put_bufs bs (put_locks L s)))) as ER.
  { unfold rebooted. fold s. by rewrite E. }
  assert (L = ∅) as ->.
  { apply map_empty. intros l. destruct (L !! l) as [h|] eqn:El; [|done].
    pose proof (lookup_weaken _ _ _ _ El HL) as El'. change (g_locks s) with (∅ : gmap lockid Z) in El'.
    by rewrite lookup_empty in El'. }
  exists bs, hn, hp. rewrite ER. split; [done|]. split; [exact Hok|]. split; [exact Hn|exact Hc].
Qed.

Lemma rebooted_ok d :
  dev <> 0 -> disk_lengths d ->
  cache_ok dev (rebooted d) /\ ready (rebooted d) 0 1 /\ (forall c, brefs dev (rebooted d) c = 0) /\
  (forall c, bview dev (rebooted d) c = disk_block d c) /\ nfree (rebooted d) = NBUF /\
  g_disk (rebooted d) = d /\ klog (rebooted d) = zero_log.
Proof.
  intros Hdev Hd. destruct (rebooted_shape d Hdev Hd) as (bs & hn & hp & E & Hok & Hn & Hc).
  split; [exact Hok|]. rewrite E in *. split.
  { split; [reflexivity| |apply length_insert|intros i; apply lookup_empty|apply lookup_empty|intros i; apply lookup_empty].
    exists (set_p_pid 1 zero_proc). split; reflexivity. }
  split; [intros c; unfold brefs; by rewrite Hc|].
  split; [intros c; unfold bview; by rewrite Hc|].
  split; [exact Hn|]. split; reflexivity.
Qed.

(** No lock is held, and the inode table is empty. *)
Lemma rebooted_rest d :
  dev <> 0 -> disk_lengths d ->
  g_locks (rebooted d) = ∅ /\ g_itable (rebooted d) = replicate NINODE zero_inode /\ g_pmem (rebooted d) = ∅.
Proof.
  intros Hdev Hd. destruct (rebooted_shape d Hdev Hd) as (bs & hn & hp & -> & _). done.
Qed.

(** The log as [initlog] sets it up before it recovers. *)
Definition initlog_state (sb : superblock) (s : kstate) : kstate :=
  set_klog (set_lg_dev dev (set_lg_size (s32 (sb_nlog sb)) (set_lg_start (s32 (sb_logstart sb)) (klog s))))
    (put_locks (delete LLog (g_locks s)) s).

Lemma initlog_eq sb s : initlog dev sb s = recover_from_log (initlog_state sb s).
Proof. reflexivity. Qed.

Lemma initlog_ready sb s p pid : ready s p pid -> ready (initlog_state sb s) p pid.
Proof.
  intros [h1 h2 h3 h4 h5 h6].
  assert (forall l, lock_free l s -> lock_free l (initlog_state sb s)) as Hf.
  { intros l Hl. unfold lock_free, initlog_state. kget. apply lookup_delete_None. by right. }
  split; [done|done|done|intros i; apply Hf, h4|by apply Hf|intros b; apply Hf, h6].
Qed.

(** [initlog] on a machine with an empty cache replays the transaction that the
    header on disk names. *)
Lemma initlog_fresh st hs sb d s0 :
  sb_logstart sb = st -> 0 <= st /\ st + 31 < 2 ^ 31 -> header_at st hs (disk_block d st) ->
  cache_ok dev s0 -> ready s0 0 1 -> (forall c, brefs dev s0 c = 0) ->
  (forall c, bview dev s0 c = disk_block d c) -> nfree s0 = NBUF -> g_disk s0 = d -> klog s0 = zero_log ->
  exists r, initlog dev sb s0 = Ret tt r /\ lh_n (klog r) = 0 /\
    g_disk r = replay (home_writes st (disk_block d) hs ++ [(st, set_header [] (disk_block d st))]) d.
Proof.
  intros Hsb Hst Hhd Hok Hrd Hr Hv Hn Hdk Hk. rewrite initlog_eq.
  pose proof (initlog_ready sb s0 0 1 Hrd) as Hrd1.
  assert (kbio (initlog_state sb s0) = kbio s0) as Ebio by reflexivity.
  assert (klog (initlog_state sb s0) =
    set_lg_dev dev (set_lg_size (s32 (sb_nlog sb)) (set_lg_start st zero_log))) as Elog.
  { unfold initlog_state. cbn [klog set_klog]. by rewrite Hsb, (s32_small st), Hk by lia. }
  revert Hrd1 Ebio Elog. generalize (initlog_state sb s0). intros s1 Hrd1 Ebio Elog.
  assert (forall c, bview dev s1 c = disk_block d c) as Hv1.
  { intros c. rewrite <- Hv. unfold bview, cbuf, g_bufs, g_disk. by rewrite Ebio. }
  assert (g_disk s1 = d) as Hdk1 by (unfold g_disk in *; by rewrite Ebio).
  assert (nfree s1 = NBUF) as Hn1 by (unfold nfree, g_bufs in *; by rewrite Ebio).
  destruct (recover_run st hs 0 1 s1) as (r & E & W); rewrite ?Elog; try done.
  { eapply cache_ok_kbio; [|exact Hok]. done. }
  { by rewrite Hv1. }
  { intros c. rewrite <- (Hr c). unfold brefs, cbuf, g_bufs. by rewrite Ebio. }
  { rewrite Hn1. unfold NBUF. lia. }
  exists r. split_and!; [done| |].
  - by rewrite (wrote_klog _ _ _ _ W).
  - rewrite (wr_disk _ _ _ _ W). kget. rewrite Hdk1, Hv1.
    do 2 f_equal. unfold home_writes. apply imap_ext. intros i h _. by rewrite Hv1.
Qed.

Lemma initlog_run st hs sb d :
  dev <> 0 -> disk_lengths d -> sb_logstart sb = st -> 0 <= st /\ st + 31 < 2 ^ 31 ->
  header_at st hs (disk_block d st) ->
  exists r, initlog dev sb (rebooted d) = Ret tt r /\ lh_n (klog r) = 0 /\
    g_disk r = replay (home_writes st (disk_block d) hs ++ [(st, set_header [] (disk_block d st))]) d.
Proof.
  intros Hdev Hd Hsb Hst Hhd.
  destruct (rebooted_ok d Hdev Hd) as (Hok & Hrd & Hr & Hv & Hn & Hdk & Hk).
  exact (initlog_fresh st hs sb d (rebooted d) Hsb Hst Hhd Hok Hrd Hr Hv Hn Hdk Hk).
Qed.

(** *** The disks a commit can leave behind *)

Lemma overlay_homes (v : Z -> list Z) hs f c :
  overlay ((fun h => (h, v h)) <$> hs) f c = if decide (c ∈ hs) then v c else f c.
Proof.
  revert f. induction hs as [|h hs IH]; intros f; simpl; [done|]. rewrite IH. simpl.
  destruct (decide (c ∈ hs)), (decide (c ∈ h :: hs)), (decide (c = h)); subst; (done || set_solver).
Qed.

Lemma overlay_prefix st v hs k f c :
  ~ (st < c <= st + 29) -> (length hs <= 29)%nat -> overlay (take k (log_writes st v hs)) f c = f c.
Proof.
  intros Hc Hmax. apply overlay_other. rewrite fmap_take. intros Hin.
  apply subseteq_take, elem_log_writes in Hin as (i & Hi & ->). unfold copy in Hc. lia.
Qed.

Section crash.
Context (st : Z) (hs : list Z) (v : Z -> list Z) (d0 : gmap Z (list Z)) (dh : list Z).
Context (Hmax : (length hs <= 29)%nat) (Hst : 0 <= st /\ st + 31 < 2 ^ 31).
Context (Hhome : forall h, h ∈ hs -> 0 <= h < 2 ^ 31 /\ ~ (st <= h <= st + 29)) (Hnd : NoDup hs).
Context (Hlen : length dh = 1024%nat) (Hempty : hdr_n dh = 0) (Hdh : disk_block d0 st = dh).

(** The new content of a block outside the log. *)
Definition new_block (c : Z) : list Z := if decide (c ∈ hs) then v c else disk_block d0 c.

Lemma crash_homes_ok : Forall (fun h => 0 <= h < 2 ^ 31) hs.
Proof. apply list.Forall_forall. intros h Hh. apply (Hhome h Hh). Qed.

Lemma st_not_home : st ∉ hs.
Proof. intros Hin. destruct (Hhome st Hin). lia. Qed.

Lemma header_at_nil d : hdr_n d = 0 -> header_at st [] d.
Proof.
  intros Hn. split; [done|done|simpl; lia| |constructor].
  intros h Hh. by apply not_elem_of_nil in Hh.
Qed.

Lemma header_at_set d : length d = 1024%nat -> header_at st hs (set_header hs d).
Proof.
  intros Hd. rewrite set_header_part.
  destruct (part_header_spec hs d (length hs)) as (_ & Hn & Hb); auto using crash_homes_ok.
  split; try done. intros i h Hi. apply Hb; [by eapply lookup_lt_Some|done].
Qed.

(** Where the prefix of length [k] of the trace ends. *)
Lemma crash_prefix k :
  let T := commit_trace st hs v dh in
  ((k <= length hs)%nat /\ take k T = take k (log_writes st v hs)) \/
  ((length hs < k <= 2 * length hs + 1)%nat /\
     take k T = log_writes st v hs ++ [(st, set_header hs dh)] ++
                ((fun h => (h, v h)) <$> take (k - length hs - 1) hs)) \/
  ((2 * length hs + 1 < k)%nat /\ take k T = T).
Proof.
  intros T. assert (length (log_writes st v hs) = length hs) as Hl by apply length_imap.
  destruct (decide (k <= length hs)%nat); [left|right; destruct (decide (k <= 2 * length hs + 1)%nat); [left|right]].
  - split; [done|]. unfold T, commit_trace. by rewrite take_app_le by lia.
  - split; [lia|]. unfold T, commit_trace. rewrite take_app_ge by lia. f_equal. rewrite Hl.
    replace (k - length hs)%nat with (S (k - length hs - 1)) by lia. simpl. f_equal.
    rewrite take_app_le by (rewrite length_fmap; lia). rewrite fmap_take. f_equal. lia.
  - split; [lia|]. apply take_ge. unfold T, commit_trace. rewrite !length_app, Hl, length_fmap. simpl. lia.
Qed.

(** After the header is on disk: the copies are complete, the first [j] home
    blocks installed. *)
Lemma crash_middle j c :
  let d := replay (log_writes st v hs ++ [(st, set_header hs dh)] ++ ((fun h => (h, v h)) <$> take j hs)) d0 in
  (c = st -> disk_block d c = set_header hs dh) /\
  (forall i h, hs !! i = Some h -> c = copy st i -> disk_block d c = v h) /\
  (~ (st <= c <= st + 29) -> disk_block d c = if decide (c ∈ take j hs) then v c else disk_block d0 c).
Proof.
  intros d. unfold d. rewrite disk_block_replay, !overlay_app, overlay_homes.
  assert (forall x, x ∈ take j hs -> x ∈ hs) as Hsub by (intros x; apply subseteq_take).
  split_and!.
  - intros ->. rewrite decide_False by (intros Hin; by apply st_not_home, Hsub). simpl.
    by rewrite decide_True.
  - intros i h Hi ->. pose proof (lookup_lt_Some _ _ _ Hi).
    rewrite decide_False by (intros Hin; apply Hsub, Hhome in Hin as [_ Hin]; unfold copy in Hin; lia).
    simpl. rewrite decide_False by (pose proof (head_not_copy st i); done).
    by apply overlay_log_writes.
  - intros Hc. destruct (decide (c ∈ take j hs)); [done|]. simpl.
    rewrite decide_False by lia.
    replace (log_writes st v hs) with (take (length hs) (log_writes st v hs))
      by (rewrite take_ge; [done|unfold log_writes; rewrite length_imap; lia]).
    apply overlay_prefix; [lia|done].
Qed.

(** Replaying after a crash: old contents up to the header, new ones after it. *)
Lemma crash_recover k :
  let d := replay (take k (commit_trace st hs v dh)) d0 in
  exists hk, header_at st hk (disk_block d st) /\
    forall c, ~ (st <= c <= st + 29) ->
      disk_block (replay (home_writes st (disk_block d) hk ++ [(st, set_header [] (disk_block d st))]) d) c =
      if decide (k <= length hs)%nat then disk_block d0 c else new_block c.
Proof.
  intros d. destruct (crash_prefix k) as [[Hk E]|[[Hk E]|[Hk E]]]; unfold d; rewrite E; clear d E.
  - exists []. rewrite (disk_block_replay _ d0 st), overlay_prefix, Hdh by (done || lia).
    split; [by apply header_at_nil|]. intros c Hc. rewrite decide_True by done.
    rewrite disk_block_replay. simpl. rewrite decide_False by lia.
    rewrite disk_block_replay. apply overlay_prefix; [lia|done].
  - set (d := replay _ d0). exists hs. assert (disk_block d st = set_header hs dh) as ->.
    { by apply (crash_middle (k - length hs - 1) st). }
    split; [by apply header_at_set|]. intros c Hc. rewrite (decide_False (P := (k <= _)%nat)) by lia.
    rewrite (home_writes_eq st _ v).
    2:{ intros i h Hi. by apply (crash_middle (k - length hs - 1) (copy st i)) with (i := i). }
    rewrite disk_block_replay, overlay_app, <- disk_block_replay || rewrite disk_block_replay, overlay_app.
    simpl. rewrite decide_False by lia. rewrite overlay_homes. unfold new_block.
    destruct (decide (c ∈ hs)) as [|Hn]; [done|].
    destruct (crash_middle (k - length hs - 1) c) as (_ & _ & Hm). unfold d. rewrite (Hm Hc).
    rewrite decide_False; [done|]. intros Hin. by apply Hn, (subseteq_take (k - length hs - 1)).
  - set (T := commit_trace st hs v dh).
    assert (T = (log_writes st v hs ++ [(st, set_header hs dh)] ++ ((fun h => (h, v h)) <$> take (length hs) hs))
                ++ [(st, set_header [] (set_header hs dh))]) as ET.
    { unfold T, commit_trace. rewrite (take_ge hs) by lia. by rewrite <- !app_assoc. }
    assert (disk_block (replay T d0) st = set_header [] (set_header hs dh)) as Est.
    { rewrite ET, disk_block_replay, overlay_app. simpl. by rewrite decide_True. }
    exists []. rewrite Est. split.
    + apply header_at_nil. rewrite set_header_part.
      destruct (header_set_header hs dh Hlen Hmax crash_homes_ok) as [_ Hl2].
      destruct (part_header_spec [] (set_header hs dh) 0) as (_ & Hn & _); auto; simpl; lia.
    + intros c Hc. rewrite (decide_False (P := (k <= _)%nat)) by lia.
      rewrite disk_block_replay. simpl. rewrite decide_False by lia.
      rewrite ET, disk_block_replay, overlay_app, overlay_one. rewrite decide_False by lia.
      rewrite <- disk_block_replay. destruct (crash_middle (length hs) c) as (_ & _ & Hm).
      rewrite (Hm Hc). unfold new_block. by rewrite (take_ge hs) by lia.
Qed.
End crash.

Lemma disk_lengths_replay ws d :
  disk_lengths d -> Forall (fun w => length w.2 = 1024%nat) ws -> disk_lengths (replay ws d).
Proof.
  intros Hd Hw. revert d Hd. induction Hw as [|w ws Hw _ IH]; intros d Hd; [done|]. simpl. apply IH.
  intros c. rewrite disk_block_insert. by destruct (decide _).
Qed.

Lemma commit_trace_lengths st hs v d :
  (forall c, length (v c) = 1024%nat) -> length d = 1024%nat -> (length hs <= 29)%nat ->
  Forall (fun h => 0 <= h < 2 ^ 31) hs ->
  Forall (fun w => length w.2 = 1024%nat) (commit_trace st hs v d).
Proof.
  intros Hv Hd Hmax Hall. destruct (header_set_header hs d Hd Hmax Hall) as [_ Hl].
  destruct (header_set_header [] (set_header hs d) Hl ltac:(simpl; lia) ltac:(constructor)) as [_ Hl'].
  unfold commit_trace. rewrite !Forall_app. split_and!.
  - apply Forall_lookup. intros i w. unfold log_writes. rewrite list_lookup_imap.
    destruct (hs !! i); [|done]. intros [= <-]. apply Hv.
  - by apply Forall_singleton.
  - apply Forall_fmap, Forall_true. intros h. apply Hv.
  - by apply Forall_singleton.
Qed.

Lemma commit_crash_run st hs p pid sb s :
  dev <> 0 -> txn st hs p pid s -> (forall h, h ∈ hs -> 0 < brefs dev s h) -> hs <> [] ->
  hdr_n (disk_block (g_disk s) st) = 0 -> sb_logstart sb = st ->
  exists s' W, commit s = Ret tt s' /\ g_dwrites s' = g_dwrites s ++ W /\ lh_n (klog s') = 0 /\
    (forall c, ~ (st <= c <= st + 29) -> bview dev s' c = bview dev s c /\
       disk_block (g_disk s') c = if decide (c ∈ hs) then bview dev s c else disk_block (g_disk s) c) /\
    forall k, exists r, initlog dev sb (rebooted (replay (take k W) (g_disk s))) = Ret tt r /\
      lh_n (klog r) = 0 /\
      forall c, ~ (st <= c <= st + 29) ->
        disk_block (g_disk r) c = disk_block (g_disk (if decide (k <= length hs)%nat then s else s')) c.
Proof.
  intros Hdev H Hpin Hne Hh0 Hsb. pose proof (tx_log _ _ _ _ _ H) as Hl. pose proof (tx_ok _ _ _ _ _ H) as Hok.
  pose proof (la_max _ _ _ Hl) as Hmax. pose proof (la_st _ _ _ Hl) as Hst.
  assert (Forall (fun h => 0 <= h < 2 ^ 31) hs) as Hall.
  { apply list.Forall_forall. intros h Hin. apply (la_home _ _ _ Hl h Hin). }
  destruct (unref dev s st Hok) as [Est _]; [apply (tx_area _ _ _ _ _ H); lia|].
  destruct (commit_run st hs p pid s H Hpin Hne) as (s3 & s' & E & W1 & W2).
  set (dh := bview dev s st) in *. set (T := commit_trace st hs (bview dev s) dh).
  assert (g_disk s' = replay T (g_disk s)) as Ed.
  { rewrite (wr_disk _ _ _ _ W2). change (g_disk (set_klog ?l s3)) with (g_disk s3).
    rewrite (wr_disk _ _ _ _ W1), <- replay_app. unfold T, commit_trace. by rewrite <- !app_assoc. }
  assert (forall k, exists hk, header_at st hk (disk_block (replay (take k T) (g_disk s)) st) /\
    forall c, ~ (st <= c <= st + 29) ->
      disk_block (replay (home_writes st (disk_block (replay (take k T) (g_disk s))) hk ++
        [(st, set_header [] (disk_block (replay (take k T) (g_disk s)) st))]) (replay (take k T) (g_disk s))) c =
      if decide (k <= length hs)%nat then disk_block (g_disk s) c
      else new_block hs (bview dev s) (g_disk s) c) as Hcr.
  { intros k. apply crash_recover; try done; try apply Hl; [by apply length_bview|by rewrite Est]. }
  assert (forall c, ~ (st <= c <= st + 29) ->
    disk_block (g_disk s') c = new_block hs (bview dev s) (g_disk s) c) as Hnew.
  { intros c Hc. rewrite Ed. unfold T, commit_trace. rewrite disk_block_replay, !overlay_app, overlay_one.
    rewrite decide_False by lia. rewrite overlay_homes. unfold new_block.
    destruct (decide (c ∈ hs)); [done|]. rewrite overlay_one, decide_False by lia.
    rewrite <- (take_ge (log_writes st (bview dev s) hs) (length hs)) by (unfold log_writes; by rewrite length_imap).
    apply overlay_prefix; [lia|done]. }
  exists s', T. split; [exact E|]. split; [|split; [|split]].
  - rewrite (wr_trace _ _ _ _ W2). change (g_dwrites (set_klog ?l s3)) with (g_dwrites s3).
    rewrite (wr_trace _ _ _ _ W1), <- app_assoc. unfold T, commit_trace. by rewrite <- !app_assoc.
  - by rewrite (wrote_klog _ _ _ _ W2).
  - intros c Hc. split; [|by apply Hnew].
    rewrite (wr_view _ _ _ _ W2), overlay_one, decide_False by lia.
    change (bview dev (set_klog ?l s3) c) with (bview dev s3 c). rewrite (wr_view _ _ _ _ W1).
    rewrite !overlay_app, overlay_homes. destruct (decide (c ∈ hs)); [done|].
    rewrite overlay_one, decide_False by lia.
    rewrite <- (take_ge (log_writes st (bview dev s) hs) (length hs)) by (unfold log_writes; by rewrite length_imap).
    apply overlay_prefix; [lia|done].
  - intros k. destruct (Hcr k) as (hk & Hhd & Hrec).
    assert (disk_lengths (replay (take k T) (g_disk s))) as Hdl.
    { apply disk_lengths_replay; [exact (co_disk _ _ Hok)|]. apply Forall_take, commit_trace_lengths; try done.
      - intros c. by apply length_bview.
      - by apply length_bview. }
    destruct (initlog_run st hk sb _ Hdev Hdl Hsb Hst Hhd) as (r & Er & Hn & Hd).
    exists r. split; [exact Er|]. split; [exact Hn|]. intros c Hc. rewrite Hd, (Hrec c Hc).
    destruct (decide (k <= length hs)%nat); [done|]. by rewrite Hnew.
Qed.

(** ** log_write *)

(** The home blocks after [bn] was logged. *)
Definition logged (bn : Z) (hs : list Z) : list Z := if decide (bn ∈ hs) then hs else hs ++ [bn].

(** The search of [log_write]: the position of [bn], or the end. *)
Lemma absorb_spec hs tl bn k i :
  (i + k = length hs)%nat -> 0 <= bn < 2 ^ 31 -> Forall (fun h => 0 <= h < 2 ^ 31) hs -> bn ∉ take i hs ->
  let j := absorb k i (hs ++ tl) bn in
  ((bn ∈ hs) /\ hs !! j = Some bn) \/ ((bn ∉ hs) /\ j = length hs).
Proof.
  revert i. induction k as [|k IH]; intros i Hik Hbn Hall Hni; simpl.
  - rewrite take_ge in Hni by lia. right. split; [done|lia].
  - destruct (lookup_lt_is_Some_2 hs i) as [h Hh]; [lia|].
    rewrite lookup_app_l by lia. rewrite Hh. simpl.
    rewrite Forall_lookup in Hall. specialize (Hall i h Hh) as Hr. rewrite u32_small by lia.
    destruct (decide (h = bn)) as [->|Hne].
    + rewrite bool_decide_true by done. left. split; [by eapply list_elem_of_lookup_2|done].
    + rewrite bool_decide_false by congruence. apply IH; try done; [lia|by apply Forall_lookup|].
      rewrite (take_S_r _ _ _ Hh). rewrite not_elem_of_app, list_elem_of_singleton. auto.
Qed.

Lemma log_at_logged st hs l bn :
  log_at st hs l -> bn ∉ hs -> (length hs < 29)%nat -> 0 <= bn < 2 ^ 31 -> ~ (st <= bn <= st + 29) ->
  log_at st (hs ++ [bn]) (set_lh_n (lh_n l + 1) (set_lh_block (<[length hs := bn]> (lh_block l)) l)).
Proof.
  intros [h1 h2 h3 h4 h5 h6 h7 h8 h9] Hn Hlt Hbn Hout.
  split; try done; simpl; rewrite ?length_app; simpl.
  - lia.
  - rewrite Nat.add_1_r. rewrite (take_S_r _ _ bn).
    + by rewrite take_insert_ge, h4 by lia.
    + apply list_lookup_insert_eq. rewrite h5. lia.
  - by rewrite length_insert.
  - lia.
  - intros h [Hh|Hh]%elem_of_app; [auto|]. by apply list_elem_of_singleton in Hh as ->.
  - apply list.NoDup_app. split_and!; [done| |apply NoDup_singleton].
    intros x Hx. rewrite list_elem_of_singleton. by intros ->.
Qed.

Lemma log_write_exec st hs s pid bn b d :
  cache_ok dev s -> lock_free LLog s -> lock_free LBcache s -> log_at st hs (klog s) ->
  holds dev s pid bn b d -> 0 <= bn < 2 ^ 31 -> ~ (st <= bn <= st + 29) ->
  1 <= lg_outstanding (klog s) -> Z.of_nat (length hs) < lg_size (klog s) - 1 -> lg_size (klog s) <= LOGSIZE ->
  brefs dev s bn + 1 < 2 ^ 32 ->
  exists bs l', let s' := set_klog l' (put_bufs bs s) in
    log_write b s = Ret tt s' /\ log_at st (logged bn hs) l' /\
    lg_outstanding l' = lg_outstanding (klog s) /\ lg_size l' = lg_size (klog s) /\
    cache_ok dev s' /\ changes dev bn s s' /\ holds dev s' pid bn b d /\
    brefs dev s' bn = brefs dev s bn + (if decide (bn ∈ hs) then 0 else 1) /\ nfree s' = nfree s.
Proof.
  intros Hok Hfl Hfb Hl Hh Hbn Hout Ho Hroom Hsz Hrf.
  pose proof (la_max _ _ _ Hl) as Hmax. change LOGSIZE with 30 in Hsz.
  assert (Forall (fun h => 0 <= h < 2 ^ 31) hs) as Hall.
  { apply list.Forall_forall. intros h Hin. apply (la_home _ _ _ Hl h Hin). }
  set (s1 := put_locks (<[LLog := g_hart s]> (g_locks s)) s).
  assert (buf_blockno b s1 = Ret bn s1) as Eb.
  { destruct Hh as (x & Hx & [_ Hxb] & _). unfold buf_blockno, bind, get_buf.
    erewrite arr_get_run by exact Hx. cbn [obind]. by rewrite Hxb. }
  pose proof (absorb_spec hs (drop (length hs) (lh_block (klog s))) bn (length hs) 0 eq_refl Hbn Hall) as Hj.
  specialize (Hj ltac:(set_solver)). cbn zeta in Hj.
  assert (hs ++ drop (length hs) (lh_block (klog s)) = lh_block (klog s)) as EB.
  { rewrite <- (la_block _ _ _ Hl) at 1. apply take_drop. }
  rewrite EB in Hj. set (j := absorb (length hs) 0 (lh_block (klog s)) bn) in *.
  assert (j < 30)%nat as Hj30.
  { destruct Hj as [[_ Hj]|[_ ->]]; [apply lookup_lt_Some in Hj|]; lia. }
  unfold log_write. rewrite (bind_run _ _ _ _ _ (lock_acquire_run _ _ Hfl)). fold s1.
  rewrite (bind_run (gets klog) _ s1 (klog s) s1) by done. rewrite (la_n _ _ _ Hl).
  change LOGSIZE with 30. rewrite !Z.geb_leb.
  rewrite (proj2 (Z.leb_gt 30 _)), (proj2 (Z.leb_gt (lg_size _ - 1) _)) by lia.
  rewrite (proj2 (Z.ltb_ge _ 1)) by lia. cbn [orb].
  rewrite (bind_run _ _ _ _ _ Eb), Nat2Z.id. fold j. rewrite (s32_small bn) by lia.
  erewrite bind_run; [|apply lh_put_run; change (klog s1) with (klog s); rewrite (la_size _ _ _ Hl); exact Hj30].
  set (l1 := set_lh_block (<[j := bn]> (lh_block (klog s1))) (klog s1)).
  unfold logged. destruct Hj as [[Hin Hj]|[Hnin Hj]].
  - assert (l1 = klog s) as El.
    { unfold l1. change (klog s1) with (klog s). rewrite list_insert_id; [by destruct (klog s)|].
      rewrite <- (la_block _ _ _ Hl), lookup_take_Some in Hj. tauto. }
    destruct (Z.eqb_spec (Z.of_nat j) (Z.of_nat (length hs))) as [Ejn|_].
    { apply lookup_lt_Some in Hj. lia. }
    unfold when. rewrite bind_ret_l. exists (g_bufs s), (klog s). cbn zeta. rewrite !(decide_True (P := bn ∈ hs)) by done.
    assert (set_klog (klog s) (put_bufs (g_bufs s) s) = s) as Eid by (destruct s as [? ? ? [] ? ? ? ? ?]; done).
    rewrite !Eid. split_and!; try done; [|lia].
    rewrite (lock_release_section LLog (g_hart s) (g_locks s)) by done. f_equal. rewrite El.
    unfold s1. destruct s as [[] ? ? ? ? ? ? ? ?]; done.
  - rewrite Hj. rewrite Z.eqb_refl. unfold when.
    set (s2 := set_klog l1 s1).
    destruct (ref_add_run dev s2 pid bn b d 1) as (bs & E & Ok & Ch & Hh' & R & N).
    { eapply cache_ok_kbio; [|exact Hok]. done. }
    { unfold lock_free, s2, s1. kget. by rewrite lookup_insert_ne. }
    { exact Hh. }
    { change (brefs dev s2 bn) with (brefs dev s bn). pose proof (brefs_range dev s bn Hok). lia. }
    set (l2 := set_lh_n (lh_n l1 + 1) l1).
    exists bs, l2. cbn zeta. rewrite !(decide_False (P := bn ∈ hs)) by done.
    assert (kbio (set_klog l2 (put_bufs bs s)) = kbio (put_bufs bs s2)) as Ek by done.
    split_and!; try done.
    + rewrite (bind_run (bind (bpin b) _) _ s2 tt (set_klog l2 (put_bufs bs s2))).
      * rewrite (lock_release_section LLog (g_hart s) (g_locks s)) by done. f_equal.
        unfold s2, s1. destruct s as [[] ? ? [] ? ? ? ? ?]; done.
      * rewrite (bind_run _ _ _ _ _ E). done.
    + unfold l2, l1. rewrite Hj. change (klog s1) with (klog s).
      apply (log_at_logged st hs (klog s) bn); try done. lia.
    + eapply cache_ok_kbio; [exact Ek|exact Ok].
    + eapply changes_kbio; [|exact Ek|exact Ch]. done.
Qed.
End log.

(** ** Theorems *)

(** [C1] Crash atomicity.  A transaction whose blocks [hs] were modified in the
    cache and pinned by [log_write] is committed by [commit].  Readers see no
    change; on disk every block of the transaction gets its new content and no
    other block outside the log changes.  If the machine stops after any number
    [k] of the commit's disk writes and is booted again, [initlog] terminates
    with an empty log and the disk holds, outside the log area, exactly the
    contents from before the commit ([k] at most the number of blocks: the
    header is not on disk yet) or exactly those from after it. *)
Theorem commit_crash_atomic dev st hs p pid sb s :
  dev <> 0 -> txn dev st hs p pid s -> (forall h, h ∈ hs -> 0 < brefs dev s h) -> hs <> [] ->
  hdr_n (disk_block (g_disk s) st) = 0 -> sb_logstart sb = st ->
  exists s' W, commit s = Ret tt s' /\ g_dwrites s' = g_dwrites s ++ W /\ lh_n (klog s') = 0 /\
    (forall c, ~ (st <= c <= st + 29) -> bview dev s' c = bview dev s c /\
       disk_block (g_disk s') c = if decide (c ∈ hs) then bview dev s c else disk_block (g_disk s) c) /\
    forall k, exists r, initlog dev sb (rebooted (replay (take k W) (g_disk s))) = Ret tt r /\
      lh_n (klog r) = 0 /\
      forall c, ~ (st <= c <= st + 29) ->
        disk_block (g_disk r) c = disk_block (g_disk (if decide (k <= length hs)%nat then s else s')) c.
Proof. apply commit_crash_run. Qed.

(** [log_write] records the block of a buffer once: a block that is already
    in the transaction is absorbed and nothing changes; otherwise it is appended
    to the header in memory and its buffer is pinned with one more reference.  The
    log's invariant (blocks distinct, in range, outside the log) is preserved,
    and no other block is affected. *)
Theorem log_write_absorbs dev st hs s pid bn b d :
  cache_ok dev s -> lock_free LLog s -> lock_free LBcache s -> log_at dev st hs (klog s) ->
  holds dev s pid bn b d -> 0 <= bn < 2 ^ 31 -> ~ (st <= bn <= st + 29) ->
  1 <= lg_outstanding (klog s) -> Z.of_nat (length hs) < lg_size (klog s) - 1 -> lg_size (klog s) <= LOGSIZE ->
  brefs dev s bn + 1 < 2 ^ 32 ->
  exists bs l', let s' := set_klog l' (put_bufs bs s) in
    log_write b s = Ret tt s' /\ log_at dev st (if decide (bn ∈ hs) then hs else hs ++ [bn]) l' /\
    lg_outstanding l' = lg_outstanding (klog s) /\ lg_size l' = lg_size (klog s) /\
    cache_ok dev s' /\ changes dev bn s s' /\ holds dev s' pid bn b d /\
    brefs dev s' bn = brefs dev s bn + (if decide (bn ∈ hs) then 0 else 1) /\ nfree s' = nfree s.
Proof. apply log_write_exec. Qed.

(** ** Witnesses: a transaction that writes block 50 *)

Definition log50 : log :=
  {| lg_start := 2; lg_size := 30; lg_outstanding := 1; lg_committing := false; lg_dev := 1;
     lh_n := 0; lh_block := replicate 30 0 |}.
Definition start50 : kstate := set_klog log50 (rebooted ∅).
Definition held50 : M nat := b <- bread 1 50 ;; set_buf_data b (replicate 1024 7) ;; ret b.
Definition write50 : M unit := b <- held50 ;; log_write b ;; brelse b.

Lemma start50_ok :
  cache_ok 1 start50 /\ ready start50 0 1 /\ (forall c, brefs 1 start50 c = 0) /\ nfree start50 = NBUF /\
  g_disk start50 = ∅ /\ klog start50 = log50.
Proof.
  destruct (rebooted_ok 1 ∅) as (Hok & Hrd & Hr & _ & Hn & Hd & _); [done|intros c; apply length_replicate|].
  unfold start50. revert Hok Hrd Hr Hn Hd. generalize (rebooted ∅). intros s Hok Hrd Hr Hn Hd.
  split; [eapply cache_ok_kbio; [|exact Hok]; done|]. split; [destruct Hrd; by split|].
  split_and!; try done.
Qed.

Lemma log50_at : log_at 1 2 [] log50.
Proof.
  split; try done; [simpl; lia| |constructor]. intros h Hh. by apply not_elem_of_nil in Hh.
Qed.

(** A machine in a state like [start50]. *)
Definition idle50 (s : kstate) : Prop :=
  cache_ok 1 s /\ ready s 0 1 /\ (forall c, brefs 1 s c = 0) /\ nfree s = NBUF /\
  lock_free LLog s /\ g_disk s = ∅ /\ klog s = log50.

Lemma start50_idle : idle50 start50.
Proof.
  destruct start50_ok as (H1 & H2 & H3 & H4 & H5 & H6). unfold idle50.
  split; [exact H1|]. split; [exact H2|]. split; [exact H3|]. split; [exact H4|].
  split; [vm_compute; reflexivity|]. split; [exact H5|exact H6].
Qed.

Lemma held50_run s0 : idle50 s0 -> exists b bs, let s := put_bufs bs s0 in
  held50 s0 = Ret b s /\ cache_ok 1 s /\ changes 1 50 s0 s /\
  holds 1 s 1 50 b (replicate 1024 7) /\ brefs 1 s 50 = 1 /\ nfree s = 29%nat.
Proof.
  intros (Hok & Hrd & Hr & Hn & _).
  destruct (bread_run 1 s0 0 1 50 Hok Hrd ltac:(lia)) as (b & bs & E & Ok1 & Ch1 & H1 & R1 & N1).
  { apply (unref 1 s0 50 Hok), Hr. }
  { rewrite Hr. lia. }
  { rewrite Hn. unfold NBUF. lia. }
  destruct (set_buf_data_run 1 _ 1 50 b _ (replicate 1024 7) Ok1 H1 (length_replicate _ _))
    as (bs2 & E2 & Ok2 & Ch2 & H2 & R2 & N2).
  exists b, bs2. cbn zeta. rewrite Hr in N1, R1. rewrite decide_True, Hn in N1 by done. split_and!.
  - unfold held50. rewrite (bind_run _ _ _ _ _ E), (bind_run _ _ _ _ _ E2). reflexivity.
  - exact Ok2.
  - eapply changes_trans; [exact Ch1|exact Ch2].
  - exact H2.
  - rewrite R1 in R2. exact R2.
  - unfold NBUF in N1. transitivity (nfree (put_bufs bs s0)); [exact N2|lia].
Qed.

Lemma log_write_absorbs_witness : exists b s,
  held50 start50 = Ret b s /\
  exists bs l', log_write b s = Ret tt (set_klog l' (put_bufs bs s)) /\ log_at 1 2 [50] l'.
Proof.
  pose proof start50_idle as H0. revert H0. generalize start50. intros s0 H0.
  destruct (held50_run s0 H0) as (b & bs & E & Ok & Ch & Hh & R & N). exists b, (put_bufs bs s0).
  split; [exact E|]. destruct H0 as (_ & Hrd & _ & _ & Hf & _ & Hk).
  destruct (log_write_absorbs 1 2 [] (put_bufs bs s0) 1 50 b (replicate 1024 7) Ok Hf (rd_bc _ _ _ Hrd))
    as (bs' & l' & E' & Hl & _); try (change (klog (put_bufs bs s0)) with (klog s0); rewrite Hk); try done.
  - exact log50_at.
  - lia.
  - rewrite R. lia.
  - exists bs', l'. split; [exact E'|exact Hl].
Defined.

(** After [write50] the transaction [\[50\]] is ready to be committed. *)
Lemma write50_run s0 : idle50 s0 -> exists s, write50 s0 = Ret tt s /\
  txn 1 2 [50] 0 1 s /\ 0 < brefs 1 s 50 /\ bview 1 s 50 = replicate 1024 7 /\ g_disk s = ∅.
Proof.
  intros H0. destruct (held50_run s0 H0) as (b & bs & E & Ok & Ch & Hh & R & N).
  destruct H0 as (_ & Hrd & Hr0 & _ & Hf & Hd & Hk).
  destruct (log_write_exec 1 2 [] (put_bufs bs s0) 1 50 b (replicate 1024 7) Ok Hf (rd_bc _ _ _ Hrd))
    as (bs' & l' & E' & Hl & _ & _ & Ok' & Ch' & Hh' & R' & N');
    try (change (klog (put_bufs bs s0)) with (klog s0); rewrite Hk); try done; [exact log50_at|lia|rewrite R; lia|].
  rewrite R, decide_False in R' by apply not_elem_of_nil. rewrite N in N'.
  set (s2 := set_klog l' (put_bufs bs' (put_bufs bs s0))) in *.
  assert (ready s2 0 1) as Hrd2 by (destruct Hrd; by split).
  destruct (brelse_run 1 s2 0 1 50 b _ Ok' Hrd2 Hh')
    as (s3 & E3 & Ok3 & F3 & Ch3 & V3 & R3 & B3 & D3 & T3 & N3); [rewrite R'; lia|].
  rewrite R' in R3, N3. rewrite decide_False in N3 by lia.
  pose proof (changes_trans _ _ _ _ _ Ch (changes_trans _ _ _ _ _ Ch' Ch3)) as Ch4.
  exists s3. split_and!.
  - unfold write50. rewrite (bind_run _ _ _ _ _ E), (bind_run _ _ _ _ _ E'). exact E3.
  - split.
    + exact Ok3.
    + by eapply ready_frame.
    + destruct F3 as [F3 _]. rewrite F3. exact Hl.
    + intros h Hin. apply list_elem_of_singleton in Hin as ->. split; [exact B3|rewrite R3; lia].
    + intros c Hc. rewrite (ch_refs _ _ _ _ Ch4) by lia. apply Hr0.
    + right. lia.
  - rewrite R3. lia.
  - exact V3.
  - rewrite D3. exact Hd.
Qed.

Definition sb50 : superblock := 
  {| sb_magic := 0x10203040; sb_size := 2000; sb_nblocks := 1954; sb_ninodes := 200; sb_nlog := 30;
     sb_logstart := 2; sb_inodestart := 32; sb_bmapstart := 45 |}.

(** Block 50 gets its new content when the machine stops after two writes of the
    commit, and keeps its old content when it stops after one. *)
Lemma commit_crash_atomic_witness : exists s s' W r1 r2,
  write50 start50 = Ret tt s /\ commit s = Ret tt s' /\ g_dwrites s' = g_dwrites s ++ W /\
  initlog 1 sb50 (rebooted (replay (take 1 W) (g_disk s))) = Ret tt r1 /\
  disk_block (g_disk r1) 50 = replicate 1024 0 /\
  initlog 1 sb50 (rebooted (replay (take 2 W) (g_disk s))) = Ret tt r2 /\
  disk_block (g_disk r2) 50 = replicate 1024 7.
Proof.
  pose proof start50_idle as H0. revert H0. generalize start50. intros s0 H0.
  destruct (write50_run s0 H0) as (s & E & Htx & Hr & Hv & Hd).
  destruct (commit_crash_atomic 1 2 [50] 0 1 sb50 s) as (s' & W & Ec & Ew & _ & Hnew & Hk).
  - discriminate.
  - exact Htx.
  - intros h Hin. apply list_elem_of_singleton in Hin as ->. exact Hr.
  - discriminate.
  - rewrite Hd. vm_compute. reflexivity.
  - reflexivity.
  - destruct (Hk 1%nat) as (r1 & E1 & _ & Hr1). destruct (Hk 2%nat) as (r2 & E2 & _ & Hr2).
    exists s, s', W, r1, r2. split; [exact E|]. split; [exact Ec|]. split; [exact Ew|].
    split; [exact E1|]. split; [rewrite (Hr1 50) by lia; simpl; rewrite Hd; reflexivity|].
    split; [exact E2|]. rewrite (Hr2 50) by lia. simpl.
    destruct (Hnew 50) as [_ ->]; [lia|]. rewrite decide_True by (apply list_elem_of_singleton; reflexivity). exact Hv.
Defined.

(** ** Witnesses of the cache theorems *)

Lemma bread_coherent_witness : exists b bs,
  bread 1 50 start50 = Ret b (put_bufs bs start50) /\
  holds 1 (put_bufs bs start50) 1 50 b (replicate 1024 0).
Proof.
  pose proof start50_idle as H0. revert H0. generalize start50. intros s0 (Hok & Hrd & Hr & Hn & _ & Hd & _).
  destruct (bread_coherent 1 s0 0 1 50 Hok Hrd ltac:(lia)) as (b & bs & E & _ & _ & H1 & _).
  - apply (unref 1 s0 50 Hok), Hr.
  - rewrite Hr. reflexivity.
  - right. rewrite Hn. unfold NBUF. lia.
  - exists b, bs. split; [exact E|]. destruct (unref 1 s0 50 Hok (Hr 50)) as [Ev _].
    rewrite Ev, Hd in H1. exact H1.
Defined.

Lemma brelse_keeps_content_witness : exists b bs s',
  bread 1 50 start50 = Ret b (put_bufs bs start50) /\
  brelse b (put_bufs bs start50) = Ret tt s' /\ bview 1 s' 50 = replicate 1024 0 /\ nfree s' = NBUF.
Proof.
  pose proof start50_idle as H0. revert H0. generalize start50. intros s0 (Hok & Hrd & Hr & Hn & _ & Hd & _).
  destruct (unref 1 s0 50 Hok (Hr 50)) as [Ev Eb].
  destruct (bread_run 1 s0 0 1 50 Hok Hrd ltac:(lia) Eb) as (b & bs & E & Ok & _ & H1 & R & N).
  - rewrite Hr. reflexivity.
  - right. rewrite Hn. unfold NBUF. lia.
  - rewrite Ev, Hd in H1. rewrite Hr in N, R.
    destruct (brelse_keeps_content 1 (put_bufs bs s0) 0 1 50 b (replicate 1024 0) Ok)
      as (s' & E' & _ & _ & _ & V & _ & _ & _ & _ & N').
    + apply ready_bufs. exact Hrd.
    + exact H1.
    + intros _. change (g_disk (put_bufs bs s0)) with (g_disk s0). rewrite Hd. reflexivity.
    + exists b, bs, s'. split; [exact E|]. split; [exact E'|]. split; [exact V|].
      rewrite R in N'. simpl in N', N. rewrite <- Hn. lia.
Defined.
