(* ===== verification/Fs.v ===== *)
(** * The file system: kernel/fs.c

    On-disk structures are read and written at the byte offsets the compiler
    gives them: [struct dinode] is 64 bytes (sixteen to a block), [struct dirent]
    is 16.  A [struct inode *] is an index into [itable.inode].  Path names are
    lists of bytes without their terminating NUL. *)

From Stdlib Require Import ZArith Lia.
From stdpp Require Import base list gmap strings numbers option.
From S2P Require Import Prelude Bytes Riscv Cstring Kstate Sched Kalloc Vm Uart Printf Copy Bio Log.

Definition FSMAGIC : Z := 0x10203040.
Definition NDIRECT : nat := 12.
Definition NINDIRECT : Z := BSIZE / 4.
Definition MAXFILE : Z := Z.of_nat NDIRECT + NINDIRECT.
Definition IPB : Z := BSIZE / 64.
Definition BPB : Z := BSIZE * 8.
Definition DIRSIZ : nat := 14.
Definition ROOTINO : Z := 1.
Definition T_DIR : Z := 1.
Definition T_FILE : Z := 2.
Definition T_DEVICE : Z := 3.

Definition IBLOCK (i : Z) (sb : superblock) : Z := u32 (i / IPB + sb_inodestart sb).
Definition BBLOCK (b : Z) (sb : superblock) : Z := u32 (b / BPB + sb_bmapstart sb).

(** ** Super block *)

Definition parse_sb (d : list Z) : superblock :=
  {| sb_magic := get_le 4 d 0; sb_size := get_le 4 d 4; sb_nblocks := get_le 4 d 8;
     sb_ninodes := get_le 4 d 12; sb_nlog := get_le 4 d 16; sb_logstart := get_le 4 d 20;
     sb_inodestart := get_le 4 d 24; sb_bmapstart := get_le 4 d 28 |}.

Definition readsb (dev : Z) : M unit :=
  bp <- bread dev 1 ;;
  d <- buf_data bp ;;
  modify (put_sb (parse_sb d)) ;;
  brelse bp.

Definition fsinit (dev : Z) : M unit :=
  readsb dev ;;
  sb <- gets g_sb ;;
  if negb (sb_magic sb =? FSMAGIC) then panic "invalid file system" else
  initlog dev sb.

(** ** Blocks *)

Definition bzero (dev bno : Z) : M unit :=
  bp <- bread dev (u32 bno) ;;
  set_buf_data bp (replicate 1024 0) ;;
  log_write bp ;;
  brelse bp.

Definition byte_at (d : list Z) (i : Z) : Z := default 0 (d !! Z.to_nat i).
Definition bit_mask (bi : Z) : Z := Z.shiftl 1 (bi mod 8).

(** [for(bi = 0; bi < BPB && b + bi < sb.size; bi++) ...]: the first clear bit. *)
Fixpoint scan_bits (fuel : nat) (d : list Z) (b size bi : Z) : option Z :=
  match fuel with
  | O => None
  | S fuel' =>
      if (bi <? BPB) && (b + bi <? size) then
        if Z.land (byte_at d (bi / 8)) (bit_mask bi) =? 0 then Some bi
        else scan_bits fuel' d b size (bi + 1)
      else None
  end.

Definition balloc_body (dev b : Z) : M (Z + Z) :=
  sb <- gets g_sb ;;
  if negb (b <? sb_size sb) then
    printf (bytes_of "balloc: out of blocks" ++ newline) [] ;; ret (inr 0)
  else
  bp <- bread dev (BBLOCK b sb) ;;
  d <- buf_data bp ;;
  match scan_bits (Z.to_nat BPB) d b (sb_size sb) 0 with
  | Some bi =>
      set_buf_data bp (<[Z.to_nat (bi / 8) := Z.lor (byte_at d (bi / 8)) (bit_mask bi)]> d) ;;
      log_write bp ;;
      brelse bp ;;
      bzero dev (b + bi) ;;
      ret (inr (b + bi))
  | None =>
      brelse bp ;;
      ret (inl (b + BPB))
  end.

Definition balloc (dev : Z) : M Z :=
  sb <- gets g_sb ;;
  loop (S (Z.to_nat ((sb_size sb + BPB - 1) / BPB))) (balloc_body dev) 0.

Definition bfree (dev b : Z) : M unit :=
  sb <- gets g_sb ;;
  bp <- bread dev (BBLOCK b sb) ;;
  let bi := b mod BPB in
  d <- buf_data bp ;;
  if Z.land (byte_at d (bi / 8)) (bit_mask bi) =? 0 then panic "freeing free block" else
  set_buf_data bp (<[Z.to_nat (bi / 8) := u8 (Z.land (byte_at d (bi / 8)) (Z.lnot (bit_mask bi)))]> d) ;;
  log_write bp ;;
  brelse bp.

(** ** Inodes *)

(** The fields of the [k]-th [struct dinode] of a block. *)
Definition din (k : Z) : nat := Z.to_nat (64 * k).
Definition din_type (d : list Z) (k : Z) : Z := s16 (get_le 2 d (din k)).
Definition din_addrs (d : list Z) (k : Z) : list Z :=
  (fun j => get_le 4 d (din k + 12 + 4 * j)) <$> seq 0 (S NDIRECT).

Fixpoint put_addrs (d : list Z) (off : nat) (l : list Z) : list Z :=
  match l with
  | [] => d
  | a :: l' => put_addrs (put_le 4 d off a) (off + 4) l'
  end.

(** [dip->type = ip->type; ...; memmove(dip->addrs, ip->addrs, sizeof(ip->addrs))] *)
Definition din_store (d : list Z) (k : Z) (ip : inode) : list Z :=
  let d := put_le 2 d (din k) (i_type ip) in
  let d := put_le 2 d (din k + 2) (i_major ip) in
  let d := put_le 2 d (din k + 4) (i_minor ip) in
  let d := put_le 2 d (din k + 6) (i_nlink ip) in
  let d := put_le 4 d (din k + 8) (i_size ip) in
  put_addrs d (din k + 12) (i_addrs ip).

(** [ip->type = dip->type; ...; memmove(ip->addrs, dip->addrs, sizeof(ip->addrs))] *)
Definition din_load (d : list Z) (k : Z) (ip : inode) : inode :=
  let ip := set_i_type (din_type d k) ip in
  let ip := set_i_major (s16 (get_le 2 d (din k + 2))) ip in
  let ip := set_i_minor (s16 (get_le 2 d (din k + 4))) ip in
  let ip := set_i_nlink (s16 (get_le 2 d (din k + 6))) ip in
  let ip := set_i_size (get_le 4 d (din k + 8)) ip in
  set_i_addrs (din_addrs d k) ip.

Definition inode_acquiresleep (i : nat) : M unit :=
  acquiresleep (LInodeSl i) (inode_lock_get i) (inode_lock_upd i) sleep_fuel.
Definition inode_releasesleep (i : nat) : M unit := releasesleep (LInodeSl i) (inode_lock_upd i).
Definition inode_holdingsleep (i : nat) : M bool := holdingsleep (LInodeSl i) (inode_lock_get i).

Definition iinit : M unit :=
  modify (fun s => put_locks (delete LItable (g_locks s)) s) ;;
  for_each NINODE 0 (fun i => initsleeplock (LInodeSl i) (inode_lock_upd i)).

(** The search of [iget] with [itable.lock] held: the entry found, or else the
    first empty slot. *)
Fixpoint iget_scan (dev inum : Z) (t : list inode) (i : nat) (empty : option nat) : nat + option nat :=
  match t with
  | [] => inr empty
  | ip :: t' =>
      if (i_ref ip >? 0) && (i_dev ip =? dev) && (i_inum ip =? inum) then inl i
      else iget_scan dev inum t' (S i)
             (match empty with None => if i_ref ip =? 0 then Some i else None | Some e => Some e end)
  end.

Definition iget (dev inum : Z) : M nat :=
  lock_acquire LItable ;;
  t <- gets g_itable ;;
  match iget_scan dev inum t 0 None with
  | inl ip =>
      upd_inode ip (fun x => set_i_ref (i_ref x + 1) x) ;;
      lock_release LItable ;;
      ret ip
  | inr None => panic "iget: no inodes"
  | inr (Some ip) =>
      upd_inode ip (set_i_dev dev) ;;
      upd_inode ip (set_i_inum inum) ;;
      upd_inode ip (set_i_ref 1) ;;
      upd_inode ip (set_i_valid false) ;;
      lock_release LItable ;;
      ret ip
  end.

Definition ialloc (dev type : Z) : M (option nat) :=
  sb <- gets g_sb ;;
  r <- for_upto (Z.to_nat (sb_ninodes sb - 1)) 1 (fun inum =>
    let inum := Z.of_nat inum in
    bp <- bread dev (IBLOCK inum sb) ;;
    d <- buf_data bp ;;
    let k := inum mod IPB in
    if din_type d k =? 0 then
      set_buf_data bp (put_le 2 (splice d (din k) (replicate 64 0)) (din k) type) ;;
      log_write bp ;;
      brelse bp ;;
      ip <- iget dev inum ;;
      ret (Some ip)
    else
      brelse bp ;;
      ret None) ;;
  match r with
  | Some ip => ret (Some ip)
  | None => printf (bytes_of "ialloc: no inodes" ++ newline) [] ;; ret None
  end.

Definition iupdate (i : nat) : M unit :=
  ip <- get_inode i ;;
  sb <- gets g_sb ;;
  bp <- bread (i_dev ip) (IBLOCK (i_inum ip) sb) ;;
  d <- buf_data bp ;;
  set_buf_data bp (din_store d (i_inum ip mod IPB) ip) ;;
  log_write bp ;;
  brelse bp.

Definition idup (i : nat) : M nat :=
  lock_acquire LItable ;;
  upd_inode i (fun x => set_i_ref (i_ref x + 1) x) ;;
  lock_release LItable ;;
  ret i.

Definition ilock (i : nat) : M unit :=
  ip <- get_inode i ;;
  if i_ref ip <? 1 then panic "ilock" else
  inode_acquiresleep i ;;
  ip <- get_inode i ;;
  when (negb (i_valid ip))
    (sb <- gets g_sb ;;
     bp <- bread (i_dev ip) (IBLOCK (i_inum ip) sb) ;;
     d <- buf_data bp ;;
     upd_inode i (din_load d (i_inum ip mod IPB)) ;;
     brelse bp ;;
     upd_inode i (set_i_valid true) ;;
     ip <- get_inode i ;;
     if i_type ip =? 0 then panic "ilock: no type" else ret tt).

Definition iunlock (i : nat) : M unit :=
  h <- inode_holdingsleep i ;;
  ip <- get_inode i ;;
  if negb h || (i_ref ip <? 1) then panic "iunlock" else
  inode_releasesleep i.

(** ** Inode content *)

Definition set_addr (j : nat) (a : Z) (ip : inode) : inode := set_i_addrs (<[j := a]> (i_addrs ip)) ip.
Definition addr_at (ip : inode) (j : nat) : M Z := the "addrs" (i_addrs ip !! j).

Definition bmap (i : nat) (bn : Z) : M Z :=
  ip <- get_inode i ;;
  if bn <? Z.of_nat NDIRECT then
    addr <- addr_at ip (Z.to_nat bn) ;;
    if addr =? 0 then
      addr <- balloc (i_dev ip) ;;
      if addr =? 0 then ret 0 else
      upd_inode i (set_addr (Z.to_nat bn) addr) ;;
      ret addr
    else ret addr
  else
  let bn := bn - Z.of_nat NDIRECT in
  if bn <? NINDIRECT then
    addr <- addr_at ip NDIRECT ;;
    addr <- (if addr =? 0 then
               addr <- balloc (i_dev ip) ;;
               if addr =? 0 then ret 0 else
               upd_inode i (set_addr NDIRECT addr) ;; ret addr
             else ret addr) ;;
    if addr =? 0 then ret 0 else
    bp <- bread (i_dev ip) addr ;;
    d <- buf_data bp ;;
    let addr := get_le 4 d (Z.to_nat (4 * bn)) in
    addr <- (if addr =? 0 then
               addr <- balloc (i_dev ip) ;;
               when (negb (addr =? 0))
                 (d <- buf_data bp ;;
                  set_buf_data bp (put_le 4 d (Z.to_nat (4 * bn)) addr) ;;
                  log_write bp) ;;
               ret addr
             else ret addr) ;;
    brelse bp ;;
    ret addr
  else panic "bmap: out of range".

Definition itrunc (i : nat) : M unit :=
  for_each NDIRECT 0 (fun j =>
    ip <- get_inode i ;;
    a <- addr_at ip j ;;
    when (negb (a =? 0)) (bfree (i_dev ip) a ;; upd_inode i (set_addr j 0))) ;;
  ip <- get_inode i ;;
  a <- addr_at ip NDIRECT ;;
  when (negb (a =? 0))
    (bp <- bread (i_dev ip) a ;;
     for_each (Z.to_nat NINDIRECT) 0 (fun j =>
       d <- buf_data bp ;;
       let b := get_le 4 d (4 * j) in
       when (negb (b =? 0)) (bfree (i_dev ip) b)) ;;
     brelse bp ;;
     bfree (i_dev ip) a ;;
     upd_inode i (set_addr NDIRECT 0)) ;;
  upd_inode i (set_i_size 0) ;;
  iupdate i.

Definition iput (i : nat) : M unit :=
  lock_acquire LItable ;;
  ip <- get_inode i ;;
  when ((i_ref ip =? 1) && i_valid ip && (i_nlink ip =? 0))
    (inode_acquiresleep i ;;
     lock_release LItable ;;
     itrunc i ;;
     upd_inode i (set_i_type 0) ;;
     iupdate i ;;
     upd_inode i (set_i_valid false) ;;
     inode_releasesleep i ;;
     lock_acquire LItable) ;;
  upd_inode i (fun x => set_i_ref (i_ref x - 1) x) ;;
  lock_release LItable.

Definition iunlockput (i : nat) : M unit := iunlock i ;; iput i.

(** kernel/stat.h: [struct stat] as bytes, with the padding the ABI inserts
    before the 64-bit [size]. *)
Definition stati (i : nat) : M (list Z) :=
  ip <- get_inode i ;;
  ret (le_bytes 4 (i_dev ip) ++ le_bytes 4 (i_inum ip) ++ le_bytes 2 (i_type ip) ++
       le_bytes 2 (i_nlink ip) ++ replicate 4 0 ++ le_bytes 8 (i_size ip)).

(** Loop variables: [tot], [off], [dst]. *)
Definition readi_body (i : nat) (user_dst : bool) (n : Z) (x : Z * Z * Z) : M (Z * Z * Z + Z) :=
  let '(tot, off, dst) := x in
  if negb (tot <? n) then ret (inr tot) else
  addr <- bmap i (off / BSIZE) ;;
  if addr =? 0 then ret (inr tot) else
  ip <- get_inode i ;;
  bp <- bread (i_dev ip) addr ;;
  let m := Z.min (n - tot) (BSIZE - off mod BSIZE) in
  d <- buf_data bp ;;
  r <- either_copyout user_dst dst (slice d (Z.to_nat (off mod BSIZE)) (Z.to_nat m)) ;;
  brelse bp ;;
  if r =? -1 then ret (inr (-1)) else
  ret (inl (tot + m, u32 (off + m), u64 (dst + m))).

Definition io_fuel (n : Z) : nat := (3 + Z.to_nat (n / BSIZE))%nat.

Definition readi (i : nat) (user_dst : bool) (dst off n : Z) : M Z :=
  ip <- get_inode i ;;
  if (off >? i_size ip) || (u32 (off + n) <? off) then ret 0 else
  let n := if u32 (off + n) >? i_size ip then u32 (i_size ip - off) else n in
  r <- loop (io_fuel n) (readi_body i user_dst n) (0, off, dst) ;;
  ret (s32 r).

(** [inr (tot, off)] leaves the loop. *)
Definition writei_body (i : nat) (user_src : bool) (n : Z) (x : Z * Z * Z) : M (Z * Z * Z + Z * Z) :=
  let '(tot, off, src) := x in
  if negb (tot <? n) then ret (inr (tot, off)) else
  addr <- bmap i (off / BSIZE) ;;
  if addr =? 0 then ret (inr (tot, off)) else
  ip <- get_inode i ;;
  bp <- bread (i_dev ip) addr ;;
  let m := Z.min (n - tot) (BSIZE - off mod BSIZE) in
  r <- either_copyin user_src src m ;;
  d <- buf_data bp ;;
  set_buf_data bp (splice d (Z.to_nat (off mod BSIZE)) r.2) ;;
  if r.1 =? -1 then brelse bp ;; ret (inr (tot, off)) else
  log_write bp ;;
  brelse bp ;;
  ret (inl (tot + m, u32 (off + m), u64 (src + m))).

Definition writei (i : nat) (user_src : bool) (src off n : Z) : M Z :=
  ip <- get_inode i ;;
  if (off >? i_size ip) || (u32 (off + n) <? off) then ret (-1) else
  if u32 (off + n) >? MAXFILE * BSIZE then ret (-1) else
  r <- loop (io_fuel n) (writei_body i user_src n) (0, off, src) ;;
  ip <- get_inode i ;;
  when (r.2 >? i_size ip) (upd_inode i (set_i_size r.2)) ;;
  iupdate i ;;
  ret (s32 r.1).

(** ** Directories *)

Definition sizeof_dirent : Z := 16.

(** The directory entry [de] is a local variable whose address is passed to
    [readi] and [writei]; it lives at a fixed address outside the memory that
    is handed out. *)
Definition de_slot : Z := 0x1000.
Definition de_inum : M Z := gets (fun s => load16 (g_pmem s) de_slot).
Definition de_name : M (list Z) := gets (fun s => loadn (g_pmem s) (de_slot + 2) DIRSIZ).

(** Both strings padded or cut to the [DIRSIZ] bytes that are compared. *)
Definition namecmp (s t : list Z) : Z := strncmp_bytes (pad DIRSIZ s) (pad DIRSIZ t).

(** The result is the inode and the offset of the entry ([*poff]). *)
Definition dirlookup_body (dp : nat) (name : list Z) (off : Z) : M (Z + option (nat * Z)) :=
  d <- get_inode dp ;;
  if negb (off <? i_size d) then ret (inr None) else
  r <- readi dp false de_slot off sizeof_dirent ;;
  if negb (r =? sizeof_dirent) then panic "dirlookup read" else
  inum <- de_inum ;;
  if inum =? 0 then ret (inl (off + sizeof_dirent)) else
  nm <- de_name ;;
  if namecmp name nm =? 0 then
    ip <- iget (i_dev d) inum ;;
    ret (inr (Some (ip, off)))
  else ret (inl (off + sizeof_dirent)).

Definition dir_fuel (size : Z) : nat := (2 + Z.to_nat (size / sizeof_dirent))%nat.

Definition dirlookup (dp : nat) (name : list Z) : M (option (nat * Z)) :=
  d <- get_inode dp ;;
  if negb (i_type d =? T_DIR) then panic "dirlookup not DIR" else
  loop (dir_fuel (i_size d)) (dirlookup_body dp name) 0.

Definition dirlink_body (dp : nat) (off : Z) : M (Z + Z) :=
  d <- get_inode dp ;;
  if negb (off <? i_size d) then ret (inr off) else
  r <- readi dp false de_slot off sizeof_dirent ;;
  if negb (r =? sizeof_dirent) then panic "dirlink read" else
  inum <- de_inum ;;
  if inum =? 0 then ret (inr off) else ret (inl (off + sizeof_dirent)).

Definition dirlink (dp : nat) (name : list Z) (inum : Z) : M Z :=
  r <- dirlookup dp name ;;
  match r with
  | Some (ip, _) => iput ip ;; ret (-1)
  | None =>
      d <- get_inode dp ;;
      off <- loop (dir_fuel (i_size d)) (dirlink_body dp) 0 ;;
      modify (fun s => put_pmem (storen (g_pmem s) (de_slot + 2) (pad DIRSIZ name)) s) ;;
      modify (fun s => put_pmem (store_le 2 (g_pmem s) de_slot inum) s) ;;
      r <- writei dp false de_slot off sizeof_dirent ;;
      if negb (r =? sizeof_dirent) then ret (-1) else ret 0
  end.

(** ** Paths *)

Definition slash : Z := 47.

Fixpoint skip_slashes (path : list Z) : list Z :=
  match path with
  | c :: path' => if c =? slash then skip_slashes path' else path
  | [] => []
  end.

(** The characters up to the next slash, and the rest. *)
Fixpoint span_elem (path : list Z) : list Z * list Z :=
  match path with
  | c :: path' =>
      if c =? slash then ([], path)
      else let '(e, r) := span_elem path' in (c :: e, r)
  | [] => ([], [])
  end.

(** The returned [path] and the new contents of the [DIRSIZ] bytes of [name]. *)
Definition skipelem (path name : list Z) : option (list Z * list Z) :=
  match skip_slashes path with
  | [] => None
  | path =>
      let '(s, rest) := span_elem path in
      let name :=
        if (DIRSIZ <=? length s)%nat then take DIRSIZ s
        else splice name 0 (s ++ [0]) in
      Some (skip_slashes rest, name)
  end.

(** The loop of [namex]: [inr] is the early [return]. *)
Fixpoint namex_loop (fuel : nat) (nameiparent : bool) (ip : nat) (path name : list Z)
    : M (nat * list Z + option nat * list Z) :=
  match fuel with
  | O => fail NoFuel
  | S fuel' =>
      match skipelem path name with
      | None => ret (inl (ip, name))
      | Some (path, name) =>
          ilock ip ;;
          x <- get_inode ip ;;
          if negb (i_type x =? T_DIR) then iunlockput ip ;; ret (inr (None, name)) else
          if nameiparent && bool_decide (path = []) then iunlock ip ;; ret (inr (Some ip, name)) else
          r <- dirlookup ip name ;;
          match r with
          | None => iunlockput ip ;; ret (inr (None, name))
          | Some (next, _) => iunlockput ip ;; namex_loop fuel' nameiparent next path name
          end
      end
  end.

(** The inode and the contents of [name]. *)
Definition namex (path : list Z) (nameiparent : bool) (name : list Z) : M (option nat * list Z) :=
  ip <- (if bool_decide (head path = Some slash) then iget ROOTDEV ROOTINO
         else p <- curp ;; pr <- get_proc p ;;
              cwd <- the "cwd" (p_cwd pr) ;; idup cwd) ;;
  r <- namex_loop (S (length path)) nameiparent ip path name ;;
  match r with
  | inr v => ret v
  | inl (ip, name) => if nameiparent then iput ip ;; ret (None, name) else ret (Some ip, name)
  end.

Definition namei (path : list Z) : M (option nat) :=
  r <- namex path false (replicate DIRSIZ 0) ;; ret r.1.

Definition nameiparent (path : list Z) : M (option nat * list Z) :=
  namex path true (replicate DIRSIZ 0).
