(* ===== verification/FsPure.v ===== *)
(** * Inodes on disk and path names

    The parts of kernel/fs.c that do not touch the buffer cache: storing an
    inode in its slot of a block and loading it back, and splitting a path with
    [skipelem]. *)

From Stdlib Require Import ZArith Lia.
From stdpp Require Import base list gmap strings numbers option.
From S2P Require Import Prelude Bytes Riscv Cstring Kstate Fs.

(** ** Inodes on disk *)

(** The fields of an inode fit their C types. *)
Record inode_typed (ip : inode) : Prop := {
  it_type : - 2 ^ 15 <= i_type ip < 2 ^ 15;
  it_major : - 2 ^ 15 <= i_major ip < 2 ^ 15;
  it_minor : - 2 ^ 15 <= i_minor ip < 2 ^ 15;
  it_nlink : - 2 ^ 15 <= i_nlink ip < 2 ^ 15;
  it_size : 0 <= i_size ip < 2 ^ 32;
  it_addrs : length (i_addrs ip) = S NDIRECT /\ Forall (fun a => 0 <= a < 2 ^ 32) (i_addrs ip)
}.

Lemma length_put_addrs d off l : (off + 4 * length l <= length d)%nat -> length (put_addrs d off l) = length d.
Proof.
  revert d off. induction l as [|a l IH]; intros d off H; [done|]. cbn [put_addrs length] in *.
  rewrite IH; rewrite length_put_le; lia.
Qed.

Lemma get_put_addrs_other d off l m off' :
  (off + 4 * length l <= length d)%nat -> (off' + m <= off)%nat \/ (off + 4 * length l <= off')%nat ->
  get_le m (put_addrs d off l) off' = get_le m d off'.
Proof.
  revert d off. induction l as [|a l IH]; intros d off H H'; [done|]. cbn [put_addrs length] in *.
  rewrite IH; [|rewrite length_put_le; lia|lia]. apply get_put_le_other; lia.
Qed.

Lemma get_put_addrs d off l j a :
  (off + 4 * length l <= length d)%nat -> l !! j = Some a ->
  get_le 4 (put_addrs d off l) (off + 4 * j) = a mod 2 ^ 32.
Proof.
  revert d off j. induction l as [|b l IH]; intros d off j H Hj; [done|]. cbn [put_addrs length] in *.
  destruct j as [|j].
  - injection Hj as ->. rewrite Nat.mul_0_r, Nat.add_0_r.
    rewrite get_put_addrs_other by (rewrite ?length_put_le; lia).
    by rewrite get_put_le_same by lia.
  - replace (off + 4 * S j)%nat with (off + 4 + 4 * j)%nat by lia. apply IH; [rewrite length_put_le; lia|done].
Qed.

(** Lengths and offsets of nested stores. *)
Ltac blen := first [ lia | rewrite length_put_le; [blen|blen] | rewrite length_put_addrs; [blen|blen] ].

Lemma length_din_store d k ip :
  length d = 1024%nat -> 0 <= k < IPB -> length (i_addrs ip) = S NDIRECT -> length (din_store d k ip) = 1024%nat.
Proof.
  intros Hd Hk Ha. change IPB with 16 in *. change (S NDIRECT) with 13%nat in *. unfold din_store, din.
  blen.
Qed.

(** Reading a field of slot [j] after the inode was stored in slot [k]. *)
Lemma din_store_other d k ip j o m :
  length d = 1024%nat -> 0 <= k < IPB -> 0 <= j < IPB -> j <> k -> length (i_addrs ip) = S NDIRECT ->
  (o + m <= 64)%nat -> get_le m (din_store d k ip) (din j + o) = get_le m d (din j + o).
Proof.
  intros Hd Hk Hj Hne Ha Ho. change IPB with 16 in *. change (S NDIRECT) with 13%nat in *. unfold din_store, din.
  rewrite get_put_addrs_other by blen. do 5 (rewrite get_put_le_other by blen). done.
Qed.

(** The stores do not overlap, so each field reads back. *)
Lemma din_store_same d k ip :
  length d = 1024%nat -> 0 <= k < IPB -> length (i_addrs ip) = S NDIRECT ->
  let d' := din_store d k ip in
  get_le 2 d' (din k) = i_type ip mod 2 ^ 16 /\ get_le 2 d' (din k + 2) = i_major ip mod 2 ^ 16 /\
  get_le 2 d' (din k + 4) = i_minor ip mod 2 ^ 16 /\ get_le 2 d' (din k + 6) = i_nlink ip mod 2 ^ 16 /\
  get_le 4 d' (din k + 8) = i_size ip mod 2 ^ 32 /\
  forall j a, i_addrs ip !! j = Some a -> get_le 4 d' (din k + 12 + 4 * j) = a mod 2 ^ 32.
Proof.
  intros Hd Hk Ha d'. change IPB with 16 in *. change (S NDIRECT) with 13%nat in *. unfold d', din_store, din.
  split_and!.
  - rewrite get_put_addrs_other by blen. do 4 (rewrite get_put_le_other by blen). by rewrite get_put_le_same by blen.
  - rewrite get_put_addrs_other by blen. do 3 (rewrite get_put_le_other by blen). by rewrite get_put_le_same by blen.
  - rewrite get_put_addrs_other by blen. do 2 (rewrite get_put_le_other by blen). by rewrite get_put_le_same by blen.
  - rewrite get_put_addrs_other by blen. rewrite get_put_le_other by blen. by rewrite get_put_le_same by blen.
  - rewrite get_put_addrs_other by blen. by rewrite get_put_le_same by blen.
  - intros j a Hj. apply get_put_addrs; [blen|done].
Qed.

Lemma s16_wrap x : - 2 ^ 15 <= x < 2 ^ 15 -> s16 (x mod 2 ^ 16) = x.
Proof. intros H. unfold s16, wrapS. change (2 ^ 16) with 65536. change (2 ^ (16 - 1)) with 32768. zlia. Qed.

Lemma din_addrs_store d k ip :
  length d = 1024%nat -> 0 <= k < IPB -> inode_typed ip -> din_addrs (din_store d k ip) k = i_addrs ip.
Proof.
  intros Hd Hk Ht. destruct (it_addrs _ Ht) as [Ha Hr].
  destruct (din_store_same d k ip Hd Hk Ha) as (_ & _ & _ & _ & _ & H).
  unfold din_addrs. apply list_eq. intros j. rewrite list_lookup_fmap.
  destruct (i_addrs ip !! j) as [a|] eqn:E.
  - rewrite lookup_seq_lt by (rewrite <- Ha; by eapply lookup_lt_Some). cbn [fmap option_fmap option_map].
    f_equal. rewrite Nat.add_0_l, (H j a E). apply Z.mod_small. apply (Forall_lookup_1 _ _ _ _ Hr E).
  - rewrite lookup_seq_ge; [done|]. rewrite <- Ha. by apply lookup_ge_None.
Qed.

Lemma din_load_store d k ip ip' :
  length d = 1024%nat -> 0 <= k < IPB -> inode_typed ip ->
  din_load (din_store d k ip) k ip' =
    {| i_dev := i_dev ip'; i_inum := i_inum ip'; i_ref := i_ref ip'; i_lock := i_lock ip'; i_valid := i_valid ip';
       i_type := i_type ip; i_major := i_major ip; i_minor := i_minor ip; i_nlink := i_nlink ip;
       i_size := i_size ip; i_addrs := i_addrs ip |}.
Proof.
  intros Hd Hk Ht. pose proof (din_addrs_store d k ip Hd Hk Ht) as Ea. destruct Ht as [? ? ? ? ? [Ha _]].
  destruct (din_store_same d k ip Hd Hk Ha) as (E1 & E2 & E3 & E4 & E5 & _).
  unfold din_load, din_type. rewrite E1, E2, E3, E4, E5, Ea, !s16_wrap by done.
  rewrite Z.mod_small by done. done.
Qed.

Lemma din_load_other d k ip j ip' :
  length d = 1024%nat -> 0 <= k < IPB -> 0 <= j < IPB -> j <> k -> length (i_addrs ip) = S NDIRECT ->
  din_load (din_store d k ip) j ip' = din_load d j ip'.
Proof.
  intros Hd Hk Hj Hne Ha.
  pose proof (fun o m => din_store_other d k ip j o m Hd Hk Hj Hne Ha) as H.
  unfold din_load, din_type. pose proof (H 0%nat 2%nat ltac:(lia)) as H0. rewrite Nat.add_0_r in H0.
  rewrite H0, !H by lia. f_equal. unfold din_addrs. apply list_fmap_ext. intros i x Hx.
  apply lookup_seq in Hx as [-> Hi]. change (S NDIRECT) with 13%nat in Hi. rewrite <- !Nat.add_assoc. apply H. lia.
Qed.

(** ** Paths *)

(** The pieces between slashes, empty ones included. *)
Fixpoint splits (l : list Z) : list (list Z) :=
  match l with
  | [] => [[]]
  | c :: l' =>
      if c =? slash then [] :: splits l'
      else match splits l' with e :: es => (c :: e) :: es | [] => [[c]] end
  end.

(** The elements of a path: its non-empty pieces. *)
Definition path_elems (l : list Z) : list (list Z) := filter (fun e => e <> []) (splits l).

(** [namex]'s loop over [skipelem]: the names it looks up, as C strings. *)
Fixpoint path_walk (fuel : nat) (path name : list Z) : option (list (list Z)) :=
  match fuel with
  | O => None
  | S fuel' =>
      match skipelem path name with
      | None => Some []
      | Some (path, name) => (fun l => cstr name :: l) <$> path_walk fuel' path name
      end
  end.

Lemma splits_span l :
  splits l = (span_elem l).1 :: match (span_elem l).2 with [] => [] | _ :: r => splits r end.
Proof.
  induction l as [|c l IH]; [done|]. simpl. destruct (c =? slash); [done|].
  rewrite IH. destruct (span_elem l) as [e r]. done.
Qed.

Lemma elems_slash l : path_elems (slash :: l) = path_elems l.
Proof. unfold path_elems. cbn [splits]. rewrite Z.eqb_refl. by rewrite filter_cons_False by naive_solver. Qed.

Lemma elems_skip l : path_elems (skip_slashes l) = path_elems l.
Proof.
  induction l as [|c l IH]; [done|]. simpl. destruct (Z.eqb_spec c slash) as [->|]; [|done].
  by rewrite elems_slash.
Qed.

(** What is left after the slashes is empty or starts with an element. *)
Lemma skip_slashes_head l c l' : skip_slashes l = c :: l' -> c <> slash.
Proof.
  induction l as [|d l IH]; [done|]. simpl. destruct (Z.eqb_spec d slash); [exact IH|]. by intros [= -> _].
Qed.

Lemma span_elem_rest l c r : (span_elem l).2 = c :: r -> c = slash.
Proof.
  induction l as [|d l IH]; [done|]. simpl. destruct (Z.eqb_spec d slash) as [->|]; [by intros [= -> _]|].
  destruct (span_elem l). exact IH.
Qed.

Lemma span_elem_app l : l = (span_elem l).1 ++ (span_elem l).2.
Proof.
  induction l as [|d l IH]; [done|]. simpl. destruct (d =? slash); [done|].
  destruct (span_elem l) as [e r]. simpl in *. by rewrite <- IH.
Qed.

Lemma length_skip_slashes l : (length (skip_slashes l) <= length l)%nat.
Proof. induction l as [|c l IH]; simpl; [lia|]. destruct (c =? slash); simpl; lia. Qed.

Lemma elems_first l c l' :
  skip_slashes l = c :: l' ->
  let e := (span_elem (c :: l')).1 in let r := (span_elem (c :: l')).2 in
  path_elems l = e :: path_elems (skip_slashes r) /\ e <> [] /\ (length (skip_slashes r) < length l)%nat.
Proof.
  intros E e r. pose proof (skip_slashes_head _ _ _ E) as Hc.
  assert (e <> []) as He.
  { unfold e. simpl. destruct (Z.eqb_spec c slash); [done|]. by destruct (span_elem l'). }
  split; [|split; [done|]].
  - rewrite <- elems_skip, E. unfold path_elems at 1. rewrite splits_span. fold e r.
    rewrite filter_cons_True by done. f_equal. rewrite elems_skip. unfold path_elems.
    destruct r as [|d r'] eqn:Er; [done|].
    rewrite (span_elem_rest _ _ _ Er). symmetry. apply elems_slash.
  - pose proof (length_skip_slashes l) as H1. rewrite E in H1.
    pose proof (length_skip_slashes r) as H2. pose proof (f_equal length (span_elem_app (c :: l'))) as H3.
    rewrite length_app in H3. fold e r in H3. destruct e; [done|]. simpl in *. lia.
Qed.

(** The name buffer after [skipelem] holds the element cut to [DIRSIZ] bytes. *)
Lemma cstr_nozero l r : 0 ∉ l -> cstr (l ++ 0 :: r) = l.
Proof.
  induction l as [|c l IH]; intros H; [done|]. apply not_elem_of_cons in H as [Hc H]. simpl.
  destruct (Z.eqb_spec c 0); [done|]. by rewrite IH.
Qed.

Lemma cstr_all l : 0 ∉ l -> cstr l = l.
Proof.
  induction l as [|c l IH]; intros H; [done|]. apply not_elem_of_cons in H as [Hc H]. simpl.
  destruct (Z.eqb_spec c 0); [done|]. by rewrite IH.
Qed.

Lemma name_elem (e name : list Z) :
  0 ∉ e -> length name = DIRSIZ ->
  let name' := if (DIRSIZ <=? length e)%nat then take DIRSIZ e else splice name 0 (e ++ [0]) in
  cstr name' = take DIRSIZ e /\ length name' = DIRSIZ.
Proof.
  intros Hz Hl name'. unfold name'. destruct (Nat.leb_spec DIRSIZ (length e)) as [H|H].
  - split; [|rewrite length_take; lia]. apply cstr_all. intros Hin. apply Hz.
    rewrite <- (take_drop DIRSIZ e). apply elem_of_app. by left.
  - split; [|rewrite length_splice; [done|rewrite length_app; simpl; lia]].
    rewrite take_ge by lia. unfold splice. simpl take. rewrite <- app_assoc. simpl. by apply cstr_nozero.
Qed.

Lemma span_nozero l : 0 ∉ l -> (0 ∉ (span_elem l).1) /\ (0 ∉ (span_elem l).2).
Proof. intros H. rewrite (span_elem_app l), not_elem_of_app in H. done. Qed.

Lemma skip_nozero l : 0 ∉ l -> 0 ∉ skip_slashes l.
Proof.
  induction l as [|c l IH]; intros H; [done|]. simpl. apply not_elem_of_cons in H as H'. destruct H' as [_ H'].
  destruct (c =? slash); auto.
Qed.

Lemma path_walk_run fuel path name :
  0 ∉ path -> length name = DIRSIZ -> (length path < fuel)%nat ->
  path_walk fuel path name = Some (take DIRSIZ <$> path_elems path).
Proof.
  revert path name. induction fuel as [|fuel IH]; intros path name Hz Hn Hf; [lia|].
  cbn [path_walk]. unfold skipelem. destruct (skip_slashes path) as [|c l] eqn:E.
  { by rewrite <- elems_skip, E. }
  destruct (elems_first path c l E) as (He & _ & Hlen). rewrite He.
  pose proof (skip_nozero path Hz) as Hz'. rewrite E in Hz'. destruct (span_nozero _ Hz') as [Hz1 Hz2].
  destruct (span_elem (c :: l)) as [e r]. cbn [fst snd] in *.
  destruct (name_elem e name Hz1 Hn) as [E1 E2].
  rewrite IH; [|by apply skip_nozero|done|lia]. cbn [fmap option_fmap option_map list_fmap]. by rewrite E1.
Qed.

(** ** Theorems *)

(** Storing an inode in its slot of a block and loading the slot gives the
    inode's type, device numbers, link count, size and block addresses back, and the
    other fifteen slots are unchanged. *)
Theorem dinode_roundtrip d k ip j ip' :
  length d = 1024%nat -> 0 <= k < IPB -> 0 <= j < IPB -> inode_typed ip ->
  length (din_store d k ip) = 1024%nat /\
  din_load (din_store d k ip) j ip' =
    if decide (j = k) then
      {| i_dev := i_dev ip'; i_inum := i_inum ip'; i_ref := i_ref ip'; i_lock := i_lock ip'; i_valid := i_valid ip';
         i_type := i_type ip; i_major := i_major ip; i_minor := i_minor ip; i_nlink := i_nlink ip;
         i_size := i_size ip; i_addrs := i_addrs ip |}
    else din_load d j ip'.
Proof.
  intros Hd Hk Hj Ht. pose proof (proj1 (it_addrs _ Ht)) as Ha. split; [by apply length_din_store|].
  destruct (decide (j = k)) as [->|Hne]; [by apply din_load_store|by apply din_load_other].
Qed.

(** A file with a maximal link count and a large block address in slot 3; slot 4 stays empty. *)
Definition inode3 : inode :=
  set_i_type 2 (set_i_nlink 32767 (set_i_size 4294967295 (set_i_addrs (replicate 13 4294967295) zero_inode))).

Lemma dinode_roundtrip_witness :
  din_load (din_store (replicate 1024 0) 3 inode3) 3 zero_inode = inode3 /\
  din_load (din_store (replicate 1024 0) 3 inode3) 4 zero_inode = zero_inode.
Proof.
  assert (inode_typed inode3) as Ht.
  { split; simpl; try lia. split; [reflexivity|]. apply (Forall_replicate _ 13 4294967295). lia. }
  pose proof (fun j (Hj : 0 <= j < IPB) => dinode_roundtrip (replicate 1024 0) 3 inode3 j zero_inode eq_refl ltac:(done) Hj Ht) as H.
  split.
  - destruct (H 3 ltac:(done)) as [_ E]. rewrite E. reflexivity.
  - destruct (H 4 ltac:(done)) as [_ E]. rewrite E. vm_compute. reflexivity.
Defined.

(** [C31] Repeated [skipelem] terminates and yields exactly the non-empty
    elements between slashes, in order, each cut to [DIRSIZ] bytes; the rest of the
    path it returns is empty exactly after the last element, which is how
    [nameiparent] recognises it. *)
Theorem skipelem_splits path name :
  0 ∉ path -> length name = DIRSIZ ->
  path_walk (S (length path)) path name = Some (take DIRSIZ <$> path_elems path) /\
  match skipelem path name with
  | None => path_elems path = []
  | Some (rest, _) => rest = [] <-> length (path_elems path) = 1%nat
  end.
Proof.
  intros Hz Hn. split; [apply path_walk_run; auto|]. unfold skipelem.
  destruct (skip_slashes path) as [|c l] eqn:E; [by rewrite <- elems_skip, E|].
  destruct (elems_first path c l E) as (He & _ & _). rewrite He.
  destruct (span_elem (c :: l)) as [e r]. cbn [fst snd] in *. simpl length. split; [by intros ->|].
  intros H. destruct (skip_slashes r) as [|d r'] eqn:Er; [done|]. exfalso.
  destruct (elems_first (d :: r') d r') as (He' & _ & _).
  { simpl. pose proof (skip_slashes_head _ _ _ Er). by destruct (Z.eqb_spec d slash). }
  rewrite He' in H. done.
Qed.

(** "//usr/a-very-long-name/x/". *)
Lemma skipelem_splits_witness :
  let path := [47; 47; 117; 47; 97; 98; 99; 100; 101; 102; 103; 104; 105; 106; 107; 108; 109; 110; 111; 47; 120; 47] in
  path_walk 23 path (replicate 14 0) =
    Some [[117]; [97; 98; 99; 100; 101; 102; 103; 104; 105; 106; 107; 108; 109; 110]; [120]].
Proof.
  set (path := [47; 47; 117; 47; 97; 98; 99; 100; 101; 102; 103; 104; 105; 106; 107; 108; 109; 110; 111; 47; 120; 47]).
  cbv zeta. change 23%nat with (S (length path)).
  destruct (skipelem_splits path (replicate 14 0)) as [E _]; [|reflexivity|].
  - apply (bool_decide_unpack (0 ∉ path)). vm_compute. exact I.
  - rewrite E. vm_compute. reflexivity.
Defined.
