(* ===== verification/Icache.v ===== *)
(** * The inode table: [iget], [idup] and [iput] of kernel/fs.c

    The table is a cache keyed by device and inode number.  The invariant is
    that at most one entry in use has a given key; [iref] is the number of
    references to an inode, which the operations change by exactly one. *)

From Stdlib Require Import ZArith Lia.
From stdpp Require Import base list gmap strings numbers option.
From S2P Require Import Prelude Bytes Riscv Kstate Sched Fs.

(** An entry in use for inode [inum] of [dev]. *)
Definition ientry (dev inum : Z) (x : inode) : Prop := 0 < i_ref x /\ i_dev x = dev /\ i_inum x = inum.

#[export] Instance ientry_dec dev inum x : Decision (ientry dev inum x).
Proof. unfold ientry. apply _. Defined.

(** References to an inode. *)
Definition iref (t : list inode) (dev inum : Z) : Z :=
  match list_find (ientry dev inum) t with Some (_, x) => i_ref x | None => 0 end.

Record itable_ok (t : list inode) : Prop := {
  io_ref : forall i x, t !! i = Some x -> 0 <= i_ref x;
  io_uniq : forall i j x y dev inum, t !! i = Some x -> t !! j = Some y ->
    ientry dev inum x -> ientry dev inum y -> i = j
}.

(** A key has one entry: [list_find] finds it wherever it is. *)
Lemma iref_entry t i x dev inum :
  itable_ok t -> t !! i = Some x -> ientry dev inum x -> iref t dev inum = i_ref x.
Proof.
  intros Hok Hx He. unfold iref. destruct (list_find (ientry dev inum) t) as [[j y]|] eqn:E.
  - apply list_find_Some in E as (Hy & Hey & _). rewrite (io_uniq _ Hok i j x y dev inum) in Hx by done.
    rewrite Hy in Hx. by injection Hx as <-.
  - rewrite list_find_None in E. exfalso. exact (Forall_lookup_1 _ _ _ _ E Hx He).
Qed.

Lemma iref_none t dev inum :
  (forall i x, t !! i = Some x -> ~ ientry dev inum x) -> iref t dev inum = 0.
Proof.
  intros H. unfold iref. destruct (list_find (ientry dev inum) t) as [[j y]|] eqn:E; [|done].
  apply list_find_Some in E as (Hy & Hey & _). by destruct (H j y Hy).
Qed.

(** ** Replacing an entry *)

(** [y] replaces [x] in slot [i] and does not collide with another entry. *)
Lemma itable_insert t i x y :
  itable_ok t -> t !! i = Some x -> 0 <= i_ref y ->
  (forall j z dev inum, j <> i -> t !! j = Some z -> ientry dev inum z -> ~ ientry dev inum y) ->
  itable_ok (<[i := y]> t).
Proof.
  intros Hok Hx Hr Hc. assert (i < length t)%nat by (by eapply lookup_lt_Some). split.
  - intros j z Hz. destruct (decide (j = i)) as [->|Hne].
    + rewrite list_lookup_insert_eq in Hz by done. by injection Hz as <-.
    + rewrite list_lookup_insert_ne in Hz by done. by eapply io_ref.
  - intros j k z w dev inum Hz Hw Hez Hew.
    destruct (decide (j = i)) as [->|Hj], (decide (k = i)) as [->|Hk]; [done|..].
    + rewrite list_lookup_insert_eq in Hz by done. injection Hz as <-. rewrite list_lookup_insert_ne in Hw by done.
      by destruct (Hc k w dev inum Hk Hw Hew).
    + rewrite list_lookup_insert_eq in Hw by done. injection Hw as <-. rewrite list_lookup_insert_ne in Hz by done.
      by destruct (Hc j z dev inum Hj Hz Hez).
    + rewrite list_lookup_insert_ne in Hz, Hw by done. by eapply io_uniq.
Qed.

(** An entry of another slot is found as before. *)
Lemma iref_other t i x y dev inum :
  itable_ok t -> itable_ok (<[i := y]> t) -> t !! i = Some x -> ~ ientry dev inum x -> ~ ientry dev inum y ->
  iref (<[i := y]> t) dev inum = iref t dev inum.
Proof.
  intros Hok Hok' Hx Hnx Hny. unfold iref at 2. destruct (list_find (ientry dev inum) t) as [[j z]|] eqn:E.
  - apply list_find_Some in E as (Hz & Hez & _). apply (iref_entry _ j); [done| |done].
    rewrite list_lookup_insert_ne; [done|]. intros ->. rewrite Hx in Hz. injection Hz as ->. done.
  - rewrite list_find_None in E. apply iref_none. intros j z Hz. destruct (decide (j = i)) as [->|Hne].
    + rewrite list_lookup_insert_eq in Hz by (by eapply lookup_lt_Some). by injection Hz as <-.
    + rewrite list_lookup_insert_ne in Hz by done. exact (Forall_lookup_1 _ _ _ _ E Hz).
Qed.

(** Changing the reference count of an entry in use. *)
Lemma iref_set_ref t i x r dev inum :
  itable_ok t -> t !! i = Some x -> 0 < i_ref x -> 0 <= r ->
  itable_ok (<[i := set_i_ref r x]> t) /\
  iref (<[i := set_i_ref r x]> t) dev inum = if decide (i_dev x = dev /\ i_inum x = inum) then r else iref t dev inum.
Proof.
  intros Hok Hx Hpos Hr. assert (i < length t)%nat by (by eapply lookup_lt_Some).
  assert (itable_ok (<[i := set_i_ref r x]> t)) as Hok'.
  { apply (itable_insert _ _ x); try done. intros j z d n Hj Hz (Hz1 & Hz2 & Hz3) (_ & Hy2 & Hy3). simpl in *.
    apply Hj. apply (io_uniq _ Hok j i z x d n); done. }
  split; [done|]. destruct (decide _) as [[Hd Hn]|Hne].
  - destruct (decide (r = 0)) as [->|Hr0].
    + apply iref_none. intros j z Hz Hez. destruct (decide (j = i)) as [->|Hj].
      * rewrite list_lookup_insert_eq in Hz by done. injection Hz as <-. destruct Hez as [Hez _]. simpl in Hez. lia.
      * rewrite list_lookup_insert_ne in Hz by done. apply Hj. by apply (io_uniq _ Hok j i z x dev inum).
    + rewrite (iref_entry _ i (set_i_ref r x)); [done|done|by rewrite list_lookup_insert_eq|].
      split; [simpl; lia|done].
  - apply (iref_other _ _ x); try done; intros (? & ? & ?); simpl in *; tauto.
Qed.

(** ** iget *)

Lemma iget_scan_spec dev inum t i e :
  iget_scan dev inum t i e =
  match list_find (ientry dev inum) t with
  | Some (k, _) => inl (i + k)%nat
  | None => inr (match e with
                 | Some e => Some e
                 | None => (fun kx => (i + kx.1)%nat) <$> list_find (fun x => i_ref x = 0) t
                 end)
  end.
Proof.
  revert i e. induction t as [|x t IH]; intros i e; [by destruct e|]. cbn [iget_scan list_find].
  destruct ((i_ref x >? 0) && (i_dev x =? dev) && (i_inum x =? inum)) eqn:Ex.
  - rewrite decide_True by (unfold ientry; lia). by rewrite Nat.add_0_r.
  - rewrite decide_False by (unfold ientry; lia). rewrite IH.
    destruct (list_find (ientry dev inum) t) as [[k y]|]; [simpl; by rewrite Nat.add_succ_r|].
    destruct e as [e|]; [done|]. destruct (Z.eqb_spec (i_ref x) 0) as [E0|E0].
    + rewrite decide_True by done. simpl. by rewrite Nat.add_0_r.
    + rewrite decide_False by done. simpl. destruct (list_find _ t) as [[k y]|]; simpl; [|done].
      by rewrite Nat.add_succ_r.
Qed.

(** The new entry of [iget]. *)
Definition fresh_inode (dev inum : Z) (x : inode) : inode :=
  set_i_valid false (set_i_ref 1 (set_i_inum inum (set_i_dev dev x))).

Definition iget_result (dev inum : Z) (t : list inode) : option (nat * list inode) :=
  match list_find (ientry dev inum) t with
  | Some (k, x) => Some (k, <[k := set_i_ref (i_ref x + 1) x]> t)
  | None => match list_find (fun x => i_ref x = 0) t with
            | Some (k, x) => Some (k, <[k := fresh_inode dev inum x]> t)
            | None => None
            end
  end.

Lemma upd_inode_run i f s x :
  g_itable s !! i = Some x -> upd_inode i f s = Ret tt (put_itable (<[i := f x]> (g_itable s)) s).
Proof. apply arr_upd_run. Qed.

(** A critical section of the table that ends with a new table. *)
Lemma release_itable s t : lock_free LItable s ->
  lock_release LItable (put_itable t (put_locks (<[LItable := g_hart s]> (g_locks s)) s)) = Ret tt (put_itable t s).
Proof. intros Hf. krelease Hf. f_equal. kstate_eq. Qed.

Lemma iget_run dev inum s :
  lock_free LItable s ->
  iget dev inum s = match iget_result dev inum (g_itable s) with
                    | Some (i, t) => Ret i (put_itable t s)
                    | None => Fail (Panicked "iget: no inodes")
                    end.
Proof.
  intros Hf. unfold iget, iget_result. rewrite (bind_run _ _ _ _ _ (lock_acquire_run _ _ Hf)).
  set (s1 := put_locks _ s). rewrite (bind_run (gets g_itable) _ s1 _ s1 eq_refl).
  change (g_itable s1) with (g_itable s). rewrite iget_scan_spec.
  destruct (list_find (ientry dev inum) (g_itable s)) as [[k x]|] eqn:E1.
  - apply list_find_Some in E1 as (Hx & _). cbn [Nat.add].
    rewrite (bind_run _ _ _ _ _ (upd_inode_run k _ s1 x Hx)).
    by rewrite (bind_run _ _ _ _ _ (release_itable s _ Hf)).
  - destruct (list_find (fun x => i_ref x = 0) (g_itable s)) as [[k x]|] eqn:E2; [|done].
    apply list_find_Some in E2 as (Hx & _). cbn [fmap option_fmap option_map fst Nat.add].
    assert (k < length (g_itable s))%nat as Hk by (by eapply lookup_lt_Some).
    assert (forall f (g : M nat) y, (upd_inode k f ;; g) (put_itable (<[k := y]> (g_itable s)) s1) =
                          g (put_itable (<[k := f y]> (g_itable s)) s1)) as Hstep.
    { intros f g y. erewrite bind_run by (apply upd_inode_run; apply list_lookup_insert_eq; done).
      change (g_itable (put_itable ?t _)) with t. by rewrite list_insert_insert_eq. }
    rewrite (bind_run _ _ _ _ _ (upd_inode_run k _ s1 x Hx)). rewrite !Hstep.
    by rewrite (bind_run _ _ _ _ _ (release_itable s _ Hf)).
Qed.

(** The table [iget] leaves, and the counts. *)
Lemma iget_result_spec dev inum t i t' :
  itable_ok t -> iget_result dev inum t = Some (i, t') ->
  itable_ok t' /\ (exists y, t' !! i = Some y /\ ientry dev inum y /\ i_ref y = iref t dev inum + 1) /\
  (forall j, j <> i -> t' !! j = t !! j) /\
  forall d n, iref t' d n = iref t d n + (if decide (d = dev /\ n = inum) then 1 else 0).
Proof.
  intros Hok. unfold iget_result. destruct (list_find (ientry dev inum) t) as [[k x]|] eqn:E1.
  - intros [= -> <-]. apply list_find_Some in E1 as (Hx & He & _).
    pose proof (iref_entry _ _ _ _ _ Hok Hx He) as Hrx. destruct He as (Hr & Hd & Hn).
    pose proof (fun d n => iref_set_ref t i x (i_ref x + 1) d n Hok Hx Hr ltac:(lia)) as Hs.
    assert (i < length t)%nat by (by eapply lookup_lt_Some).
    split; [apply (Hs dev inum)|]. split; [|split].
    + exists (set_i_ref (i_ref x + 1) x). rewrite list_lookup_insert_eq by done. split; [done|].
      split; [split; [simpl; lia|done]|]. simpl. lia.
    + intros j Hj. by rewrite list_lookup_insert_ne.
    + intros d n. destruct (Hs d n) as [_ ->]. destruct (decide (i_dev x = d /\ i_inum x = n)) as [[<- <-]|Hne].
      * rewrite decide_True by done. rewrite Hd, Hn. lia.
      * rewrite decide_False by naive_solver. lia.
  - destruct (list_find (fun x => i_ref x = 0) t) as [[k x]|] eqn:E2; [|done]. intros [= -> <-].
    apply list_find_Some in E2 as (Hx & H0 & _). rewrite list_find_None in E1.
    assert (i < length t)%nat by (by eapply lookup_lt_Some).
    assert (iref t dev inum = 0) as Hz.
    { apply iref_none. intros j z Hz. exact (Forall_lookup_1 _ _ _ _ E1 Hz). }
    assert (itable_ok (<[i := fresh_inode dev inum x]> t)) as Hok'.
    { apply (itable_insert _ _ x); [done|done|simpl; lia|]. intros j z d n Hj Hz' Hez (_ & Hd & Hn). simpl in Hd, Hn.
      subst. exact (Forall_lookup_1 _ _ _ _ E1 Hz' Hez). }
    assert (ientry dev inum (fresh_inode dev inum x)) as Hf by (by split).
    split; [done|]. split; [|split].
    + exists (fresh_inode dev inum x). rewrite list_lookup_insert_eq by done. split; [done|]. split; [done|]. by rewrite Hz.
    + intros j Hj. by rewrite list_lookup_insert_ne.
    + intros d n. destruct (decide (d = dev /\ n = inum)) as [[-> ->]|Hne].
      * rewrite Hz. apply (iref_entry _ i (fresh_inode dev inum x)); [done|by rewrite list_lookup_insert_eq|done].
      * rewrite Z.add_0_r. apply (iref_other _ _ x); try done.
        -- intros (? & _). lia.
        -- intros (_ & Hd & Hn). simpl in Hd, Hn. naive_solver.
Qed.

(** [iput] when the inode stays: other references, or a link, or not loaded. *)
Lemma iput_keep_run s i x :
  lock_free LItable s -> g_itable s !! i = Some x ->
  (i_ref x =? 1) && i_valid x && (i_nlink x =? 0) = false ->
  iput i s = Ret tt (put_itable (<[i := set_i_ref (i_ref x - 1) x]> (g_itable s)) s).
Proof.
  intros Hf Hx Hk. unfold iput. rewrite (bind_run _ _ _ _ _ (lock_acquire_run _ _ Hf)).
  set (s1 := put_locks _ s). unfold get_inode.
  rewrite (bind_run _ _ _ _ _ (arr_get_run "inode" g_itable i s1 x Hx)), Hk. cbn [when]. rewrite bind_ret_l.
  rewrite (bind_run _ _ _ _ _ (upd_inode_run i _ s1 x Hx)). by apply release_itable.
Qed.

Lemma idup_run s i x :
  lock_free LItable s -> g_itable s !! i = Some x ->
  idup i s = Ret i (put_itable (<[i := set_i_ref (i_ref x + 1) x]> (g_itable s)) s).
Proof.
  intros Hf Hx. unfold idup. rewrite (bind_run _ _ _ _ _ (lock_acquire_run _ _ Hf)).
  set (s1 := put_locks _ s). rewrite (bind_run _ _ _ _ _ (upd_inode_run i _ s1 x Hx)).
  by rewrite (bind_run _ _ _ _ _ (release_itable s _ Hf)).
Qed.

(** ** The counts *)

(** [t'] is a table with [k] more references to one inode and the same number to every other. *)
Definition recount (t t' : list inode) (dev inum k : Z) : Prop :=
  itable_ok t' /\ forall d n, iref t' d n = iref t d n + (if decide (d = dev /\ n = inum) then k else 0).

Lemma recount_ref t i x r :
  itable_ok t -> t !! i = Some x -> 0 < i_ref x -> 0 <= r ->
  recount t (<[i := set_i_ref r x]> t) (i_dev x) (i_inum x) (r - i_ref x).
Proof.
  intros Hok Hx Hpos Hr. split; [by apply (iref_set_ref t i x r 0 0)|]. intros d n.
  destruct (iref_set_ref t i x r d n Hok Hx Hpos Hr) as [_ ->].
  destruct (decide (i_dev x = d /\ i_inum x = n)) as [[<- <-]|Hne].
  - rewrite decide_True by done. rewrite (iref_entry t i x) by done. lia.
  - rewrite decide_False by naive_solver. lia.
Qed.

(** The entry of an inode may change in any way that keeps its key and its count. *)
Lemma recount_same t i x y :
  itable_ok t -> t !! i = Some x -> i_ref y = i_ref x -> i_dev y = i_dev x -> i_inum y = i_inum x ->
  itable_ok (<[i := y]> t) /\ forall d n, iref (<[i := y]> t) d n = iref t d n.
Proof.
  intros Hok Hx Er Ed En. assert (i < length t)%nat by (by eapply lookup_lt_Some).
  assert (forall d n, ientry d n y <-> ientry d n x) as He by (intros d n; unfold ientry; by rewrite Er, Ed, En).
  assert (itable_ok (<[i := y]> t)) as Hok'.
  { apply (itable_insert _ _ x); [done|done|rewrite Er; by eapply io_ref|].
    intros j z d n Hj Hz Hez Hey. apply Hj. apply (io_uniq _ Hok j i z x d n); try done. by apply He. }
  split; [done|]. intros d n. destruct (decide (ientry d n x)) as [Hex|Hnx].
  - rewrite (iref_entry t i x) by done. rewrite <- Er. apply (iref_entry _ i); [done|by rewrite list_lookup_insert_eq|by apply He].
  - apply (iref_other t i x); try done. by rewrite He.
Qed.

(** [iget] panics only when no entry has the inode and none is unused. *)
Lemma iget_counts dev inum s :
  itable_ok (g_itable s) -> lock_free LItable s ->
  match iget dev inum s with
  | Ret i s' =>
      exists t x, s' = put_itable t s /\ recount (g_itable s) t dev inum 1 /\ t !! i = Some x /\ ientry dev inum x /\
        (forall j, j <> i -> t !! j = g_itable s !! j)
  | Fail e => e = Panicked "iget: no inodes" /\ iref (g_itable s) dev inum = 0 /\
      forall i x, g_itable s !! i = Some x -> i_ref x <> 0
  | Switch _ _ => False
  end.
Proof.
  intros Hok Hf. rewrite iget_run by done. destruct (iget_result dev inum (g_itable s)) as [[i t]|] eqn:E.
  - destruct (iget_result_spec _ _ _ _ _ Hok E) as (Hok' & (x & Hx & He & _) & Ho & Hr). by exists t, x.
  - unfold iget_result in E. destruct (list_find (ientry dev inum) (g_itable s)) as [[k x]|] eqn:E1; [done|].
    destruct (list_find (fun x => i_ref x = 0) (g_itable s)) as [[k x]|] eqn:E2; [done|].
    rewrite list_find_None in E1, E2. split; [done|]. split.
    + apply iref_none. intros i x Hx. exact (Forall_lookup_1 _ _ _ _ E1 Hx).
    + intros i x Hx. exact (Forall_lookup_1 _ _ _ _ E2 Hx).
Qed.

Lemma boot_itable_ok : itable_ok (g_itable boot).
Proof.
  split.
  - intros i x Hx. apply (lookup_replicate NINODE zero_inode) in Hx as [-> _]. simpl. lia.
  - intros i j x y d n Hx _ [Hp _]. apply (lookup_replicate NINODE zero_inode) in Hx as [-> _]. simpl in Hp. lia.
Qed.
