(* ===== verification/FsTx.v ===== *)
(** * Using the cache inside a transaction

    [tx hs held s]: the file system code runs in a transaction whose log holds
    the blocks [hs], this thread holds the buffers of the blocks [held], and nobody
    else uses the cache.  The lemmas are the contract of [bread], [log_write] and
    [brelse] in this setting; the file system's code is verified against
    them. *)

From Stdlib Require Import ZArith Lia.
From stdpp Require Import base list gmap strings numbers option.
From S2P Require Import Prelude Bytes Riscv Kstate Sched Bio BioSpec Log LogSpec.

Section tx.
Context (dev st : Z) (p : nat) (pid : Z).

Definition ind (P : Prop) `{Decision P} : Z := if decide P then 1 else 0.

Record tx (hs held : list Z) (s : kstate) : Prop := {
  x_ok : cache_ok dev s;
  x_ready : ready s p pid;
  x_log : log_at dev st hs (klog s);
  x_llock : lock_free LLog s;
  x_out : 1 <= lg_outstanding (klog s);
  x_size : lg_size (klog s) = LOGSIZE;
  x_refs : forall c, brefs dev s c = ind (c ∈ hs) + ind (c ∈ held);
  x_lock : forall c, blocked dev s c = bool_decide (c ∈ held);
  x_free : (NBUF <= nfree s + length hs + length (filter (fun c => c ∉ hs) held))%nat;
  x_nodup : NoDup held
}.

(** Between [s] and [s'] the blocks [ws] were given new contents in the cache;
    this thread still holds the buffers of [L]. *)
Record xrel (L : list Z) (ws : list (Z * list Z)) (s s' : kstate) : Prop := {
  xr_view : forall c, bview dev s' c = overlay ws (bview dev s) c;
  xr_state : s' = set_klog (klog s') (set_kbio (kbio s') (put_procs (g_procs s') s));
  xr_woken : woken (g_procs s) (g_procs s');
  xr_disk : g_disk s' = g_disk s;
  xr_hold : forall c b d, c ∈ L -> holds dev s pid c b d -> holds dev s' pid c b d
}.

Lemma xrel_refl L s : xrel L [] s s.
Proof. split; try done; [by destruct s as [? ? [] ? ? ? ? ? ?]|apply woken_refl]. Qed.

Lemma xrel_trans L ws1 ws2 s1 s2 s3 :
  xrel L ws1 s1 s2 -> xrel L ws2 s2 s3 -> xrel L (ws1 ++ ws2) s1 s3.
Proof.
  intros [V1 E1 W1 D1 H1] [V2 E2 W2 D2 H2]. split.
  - intros c. rewrite V2, overlay_app. by apply overlay_ext.
  - rewrite E2, E1. kstate_eq.
  - by eapply woken_trans.
  - by rewrite D2.
  - auto.
Qed.

Lemma xrel_weaken L L' ws s s' : (forall c, c ∈ L' -> c ∈ L) -> xrel L ws s s' -> xrel L' ws s s'.
Proof. intros H [? ? ? ? H']. split; auto. Qed.

(** Parts of the state that the cache and the log do not touch. *)
Lemma xrel_keeps L ws s s' :
  xrel L ws s s' -> kfs s' = kfs s /\ kmm s' = kmm s /\ kcpu s' = kcpu s /\ kfile s' = kfile s /\
    kcons s' = kcons s /\ kuart s' = kuart s.
Proof. intros H. rewrite (xr_state _ _ _ _ H). done. Qed.

Lemma tx_hold hs held s c b d : tx hs held s -> holds dev s pid c b d -> c ∈ held.
Proof.
  intros Ht Hh. destruct (holds_view dev s pid c b d (x_ok _ _ _ Ht) Hh) as (_ & _ & Hb).
  rewrite (x_lock _ _ _ Ht) in Hb. by apply bool_decide_eq_true in Hb.
Qed.

(** [changes] for a block that is not held, as a step. *)
Lemma changes_xrel bn L s s' d :
  changes dev bn s s' -> bview dev s' bn = d -> bn ∉ L ->
  s' = set_klog (klog s') (set_kbio (kbio s') (put_procs (g_procs s') s)) ->
  woken (g_procs s) (g_procs s') -> g_disk s' = g_disk s ->
  xrel L [(bn, d)] s s'.
Proof.
  intros Hch Hv HL E W D. split; try done.
  - intros c. rewrite overlay_one. destruct (decide (c = bn)) as [->|Hne]; [done|].
    by apply (ch_view _ _ _ _ Hch).
  - intros c b x Hc Hh. apply (ch_hold _ _ _ _ Hch); [|done]. by intros ->.
Qed.

(** A step that rewrites a block with the content it has. *)
Lemma xrel_same L bn s s' : xrel L [(bn, bview dev s bn)] s s' -> xrel L [] s s'.
Proof.
  intros [V E W D H]. split; try done. intros c. rewrite V, overlay_one. by destruct (decide (c = bn)) as [->|].
Qed.

Lemma ind_cons_ne c bn (l : list Z) : c <> bn -> ind (c ∈ bn :: l) = ind (c ∈ l).
Proof. intros H. unfold ind. by do 2 destruct (decide _); set_solver. Qed.
Lemma ind_cons_eq bn (l : list Z) : bn ∉ l -> ind (bn ∈ bn :: l) = ind (bn ∈ l) + 1.
Proof. intros H. unfold ind. rewrite decide_True, decide_False by set_solver. done. Qed.
Lemma ind_range P `{Decision P} : 0 <= ind P <= 1.
Proof. unfold ind. destruct (decide P); lia. Qed.

(** ** bread *)
Lemma tx_bread hs held s bn :
  tx hs held s -> 0 <= bn < 2 ^ 31 -> bn ∉ held -> (length hs + length held < NBUF)%nat ->
  exists b s', bread dev bn s = Ret b s' /\ tx hs (bn :: held) s' /\ xrel held [] s s' /\
    holds dev s' pid bn b (bview dev s bn) /\
    (bn ∉ hs -> bview dev s bn = disk_block (g_disk s) bn).
Proof.
  intros Ht Hsm Hbn Hroom. destruct Ht as [Hok Hr Hlog Hll Hout Hsz Hrefs Hlk Hfree Hnd].
  pose proof (length_filter (fun c => c ∉ hs) held) as Hfl.
  pose proof (ind_range (bn ∈ hs)). assert (ind (bn ∈ held) = 0) as H0 by (unfold ind; by rewrite decide_False).
  destruct (bread_run dev s p pid bn) as (b & bs & E & Hok' & Hch & Hh & Href' & Hfr'); try done.
  - rewrite Hlk. by apply bool_decide_eq_false.
  - rewrite Hrefs, H0. lia.
  - right. lia.
  - exists b, (put_bufs bs s). split; [done|].
    assert (bview dev (put_bufs bs s) bn = bview dev s bn) as Hv
      by (by destruct (holds_view _ _ _ _ _ _ Hok' Hh)).
    split; [|split; [|split; [done|]]].
    + split; [done|by eapply ready_frame; [|apply bframe_insert]|done|done|done|done|..].
      * intros c. destruct (decide (c = bn)) as [->|Hne].
        -- rewrite Href', Hrefs, ind_cons_eq by done. lia.
        -- rewrite (ch_refs _ _ _ _ Hch) by done. by rewrite Hrefs, ind_cons_ne.
      * intros c. destruct (decide (c = bn)) as [->|Hne].
        -- destruct (holds_view _ _ _ _ _ _ Hok' Hh) as (_ & _ & ->). symmetry. apply bool_decide_eq_true. set_solver.
        -- rewrite (ch_lock _ _ _ _ Hch) by done. rewrite Hlk. apply bool_decide_ext. set_solver.
      * rewrite Hrefs, H0 in Hfr'. unfold ind in Hfr'. rewrite filter_cons.
        destruct (decide (bn ∈ hs)); [rewrite decide_False in Hfr' by lia; rewrite decide_False by tauto|
          rewrite decide_True in Hfr' by lia; rewrite decide_True by done; simpl]; lia.
      * by constructor.
    + apply (xrel_same _ bn). apply changes_xrel; try done; [|apply woken_refl].
      by destruct s as [? ? [] ? ? ? ? ? ?].
    + intros Hn. apply unref; [done|]. rewrite Hrefs, H0. unfold ind. by rewrite decide_False.
Qed.

(** ** A change of a held block, with [log_write] *)
Lemma ind_logged c bn hs : ind (c ∈ logged bn hs) = ind (c ∈ hs) + (if decide (c = bn) then if decide (bn ∈ hs) then 0 else 1 else 0).
Proof.
  unfold logged, ind. destruct (decide (bn ∈ hs)) as [Hb|Hb].
  - destruct (decide (c = bn)); lia.
  - destruct (decide (c = bn)) as [->|Hne].
    + rewrite decide_True, decide_False by set_solver. done.
    + destruct (decide (c ∈ hs)); [rewrite decide_True by set_solver|rewrite decide_False by set_solver]; done.
Qed.

(** Logging a held block does not change how many buffers are in use. *)
Lemma length_unlogged bn (hs held : list Z) :
  NoDup held ->
  (length hs + length (filter (fun c => c ∉ hs) held) <=
   length (logged bn hs) + length (filter (fun c => c ∉ logged bn hs) held))%nat.
Proof.
  intros Hnd. unfold logged. destruct (decide (bn ∈ hs)) as [|Hn]; [lia|]. rewrite length_app. simpl.
  induction Hnd as [|c held Hc Hnd IH]; [simpl; lia|]. rewrite !filter_cons.
  destruct (decide (c = bn)) as [->|Hne].
  - rewrite decide_True, decide_False by set_solver. simpl.
    assert (filter (fun c => c ∉ hs ++ [bn]) held = filter (fun c => c ∉ hs) held) as ->; [|lia].
    clear IH Hnd. induction held as [|c held IH]; [done|]. apply not_elem_of_cons in Hc as [Hcb Hc].
    rewrite !filter_cons, IH by done. by do 2 destruct (decide (c ∉ _)); set_solver.
  - destruct (decide (c ∉ hs)); [rewrite decide_True by set_solver|rewrite decide_False by set_solver]; simpl; lia.
Qed.

Lemma tx_log_write hs held s bn b d d' :
  tx hs held s -> holds dev s pid bn b d -> length d' = 1024%nat ->
  0 <= bn < 2 ^ 31 -> ~ (st <= bn <= st + 29) -> (length hs < 29)%nat ->
  exists s', (set_buf_data b d' ;; log_write b) s = Ret tt s' /\ tx (logged bn hs) held s' /\
    xrel (filter (fun c => c <> bn) held) [(bn, d')] s s' /\ holds dev s' pid bn b d'.
Proof.
  intros Ht Hh Hd Hbn Hst Hlen. pose proof (tx_hold _ _ _ _ _ _ Ht Hh) as Hin.
  destruct Ht as [Hok Hr Hlog Hll Hout Hsz Hrefs Hlk Hfree Hnd].
  destruct (set_buf_data_run dev s pid bn b d d' Hok Hh Hd) as (bs & E1 & Hok1 & Hch1 & Hh1 & Hrf1 & Hfr1).
  assert (ready (put_bufs bs s) p pid) as Hr1 by (eapply ready_frame; [done|apply bframe_insert]).
  pose proof (ind_range (bn ∈ hs)). pose proof (ind_range (bn ∈ held)).
  destruct (log_write_exec dev st hs (put_bufs bs s) pid bn b d') as
    (bs2 & l' & E2 & Hlog2 & Hout2 & Hsz2 & Hok2 & Hch2 & Hh2 & Hrf2 & Hfr2); try done.
  { apply Hr1. }
  { change (klog (put_bufs bs s)) with (klog s). rewrite Hsz. change LOGSIZE with 30. lia. }
  { change (klog (put_bufs bs s)) with (klog s). rewrite Hsz. done. }
  { rewrite Hrf1, Hrefs. lia. }
  exists (set_klog l' (put_bufs bs2 (put_bufs bs s))). split.
  { by rewrite (bind_run _ _ _ _ _ E1). }
  assert (changes dev bn s (set_klog l' (put_bufs bs2 (put_bufs bs s)))) as Hch by (by eapply changes_trans).
  destruct (holds_view _ _ _ _ _ _ Hok2 Hh2) as (Hv2 & _ & Hb2).
  split; [|split; [|done]].
  - split; try done.
    + destruct Hr1 as [? ? ? ? ? ?]. by split.
    + change (1 <= lg_outstanding l'). rewrite Hout2. done.
    + change (lg_size l' = LOGSIZE). rewrite Hsz2. done.
    + intros c. rewrite ind_logged. destruct (decide (c = bn)) as [->|Hne].
      * rewrite Hrf2, Hrf1, Hrefs. lia.
      * rewrite (ch_refs _ _ _ _ Hch) by done. rewrite Hrefs. lia.
    + intros c. destruct (decide (c = bn)) as [->|Hne].
      * rewrite Hb2. symmetry. by apply bool_decide_eq_true.
      * rewrite (ch_lock _ _ _ _ Hch) by done. apply Hlk.
    + rewrite Hfr2, Hfr1. etrans; [exact Hfree|]. pose proof (length_unlogged bn hs held Hnd). lia.
  - apply changes_xrel; try done; [|by destruct s as [? ? [] ? ? ? ? ? ?]|apply woken_refl].
    intros Hf. by apply list_elem_of_filter in Hf as [? _].
Qed.

(** ** brelse *)
Lemma tx_brelse hs held s bn b d :
  tx hs (bn :: held) s -> holds dev s pid bn b d -> (bn ∉ hs -> d = disk_block (g_disk s) bn) ->
  exists s', brelse b s = Ret tt s' /\ tx hs held s' /\ xrel held [] s s'.
Proof.
  intros [Hok Hr Hlog Hll Hout Hsz Hrefs Hlk Hfree Hnd] Hh Hclean.
  apply list.NoDup_cons in Hnd as [Hbn Hnd].
  assert (brefs dev s bn = ind (bn ∈ hs) + 1) as Hrb.
  { rewrite Hrefs, ind_cons_eq by done. unfold ind at 2. rewrite decide_False by done. lia. }
  destruct (brelse_run dev s p pid bn b d) as (s' & E & Hok' & Hfr & Hch & Hv & Hrf & Hbl & Hd & Hw & Hnf); try done.
  { intros H1. apply Hclean. intros Hin. rewrite Hrb in H1. unfold ind in H1. rewrite decide_True in H1 by done. lia. }
  exists s'. split; [done|]. destruct (holds_view _ _ _ _ _ _ Hok Hh) as (Hv0 & _ & _).
  assert (klog s' = klog s) as El by (destruct Hfr as [-> _]; done).
  assert (g_locks s' = g_locks s) as EL by (destruct Hfr as [-> _]; done).
  split.
  - split; try done.
    + by eapply ready_frame.
    + by rewrite El.
    + unfold lock_free. rewrite EL. apply Hll.
    + by rewrite El.
    + by rewrite El.
    + intros c. destruct (decide (c = bn)) as [->|Hne].
      * rewrite Hrf, Hrb. unfold ind at 3. rewrite decide_False by done. lia.
      * rewrite (ch_refs _ _ _ _ Hch) by done. by rewrite Hrefs, ind_cons_ne.
    + intros c. destruct (decide (c = bn)) as [->|Hne].
      * rewrite Hbl. symmetry. by apply bool_decide_eq_false.
      * rewrite (ch_lock _ _ _ _ Hch) by done. rewrite Hlk. apply bool_decide_ext. set_solver.
    + rewrite filter_cons in Hfree. rewrite Hnf. unfold ind in Hrb.
      destruct (decide (bn ∈ hs)); [rewrite decide_False in Hfree by tauto|
        rewrite decide_True in Hfree by done; rewrite decide_True by lia; simpl in Hfree]; lia.
  - apply (xrel_same _ bn). rewrite Hv0. apply changes_xrel; try done; [|apply Hfr].
    rewrite El. destruct Hfr as [-> _]. by destruct s as [? ? [] ? ? ? ? ? ?].
Qed.
End tx.
