(* ===== verification/Bitmap.v ===== *)
(** * The block bitmap: [balloc] and [bfree] of kernel/fs.c

    [used sb s b] reads block [b]'s bit through the cache.  [balloc] finds
    the first free block, marks it, zeroes it and changes no other block; [bfree]
    clears exactly one bit. *)

From Stdlib Require Import ZArith Lia.
From stdpp Require Import base list gmap strings numbers option.
From S2P Require Import Prelude Bytes Riscv Kstate Sched Uart Printf PrintSpec Console ConsoleSpec.
From S2P Require Import Bio BioSpec Log LogSpec Fs FsTx.

(** ** Bits *)

Lemma land_mask x k : 0 <= k -> (Z.land x (Z.shiftl 1 k) =? 0) = negb (Z.testbit x k).
Proof.
  intros Hk. assert (Z.land x (Z.shiftl 1 k) = if Z.testbit x k then 2 ^ k else 0) as ->.
  { apply Z.bits_inj'. intros n Hn. rewrite Z.land_spec, Z.shiftl_1_l, Z.pow2_bits_eqb by done.
    destruct (Z.testbit x k) eqn:E.
    - rewrite Z.pow2_bits_eqb by done. destruct (Z.eqb_spec k n) as [->|]; [by rewrite E|by rewrite andb_false_r].
    - rewrite Z.testbit_0_l. destruct (Z.eqb_spec k n) as [->|]; [by rewrite E|by rewrite andb_false_r]. }
  destruct (Z.testbit x k); [|done]. apply Z.eqb_neq. pose proof (Z.pow_pos_nonneg 2 k ltac:(lia) Hk). lia.
Qed.

(** Bit [i] of a block. *)
Definition bit (d : list Z) (i : Z) : bool := Z.testbit (byte_at d (i / 8)) (i mod 8).

Lemma bit_test d i : (Z.land (byte_at d (i / 8)) (bit_mask i) =? 0) = negb (bit d i).
Proof. unfold bit_mask, bit. apply land_mask. apply Z.mod_pos_bound. lia. Qed.

(** Replacing the byte that holds bit [i]. *)
Definition put_bit (d : list Z) (i : Z) (v : bool) : list Z :=
  <[Z.to_nat (i / 8) := if v then Z.lor (byte_at d (i / 8)) (bit_mask i)
                        else u8 (Z.land (byte_at d (i / 8)) (Z.lnot (bit_mask i)))]> d.

Lemma length_put_bit d i v : length (put_bit d i v) = length d.
Proof. apply length_insert. Qed.

Lemma testbit_u8 x k : 0 <= k < 8 -> Z.testbit (u8 x) k = Z.testbit x k.
Proof. intros Hk. unfold u8, wrapU. by rewrite Z.mod_pow2_bits_low by lia. Qed.

Lemma bit_put_bit d i v j :
  0 <= i < 8 * Z.of_nat (length d) -> 0 <= j < 8 * Z.of_nat (length d) ->
  bit (put_bit d i v) j = if decide (j = i) then v else bit d j.
Proof.
  intros Hi Hj. unfold bit, put_bit, byte_at.
  pose proof (Z.mod_pos_bound i 8 ltac:(lia)). pose proof (Z.mod_pos_bound j 8 ltac:(lia)).
  assert (forall x k, 0 <= k < 8 -> Z.testbit (if v then Z.lor x (bit_mask i)
            else u8 (Z.land x (Z.lnot (bit_mask i)))) k = if decide (k = i mod 8) then v else Z.testbit x k) as Hb.
  { intros x k Hk. unfold bit_mask. destruct v.
    - rewrite Z.lor_spec, Z.shiftl_1_l, Z.pow2_bits_eqb by lia.
      destruct (Z.eqb_spec (i mod 8) k), (decide (k = i mod 8)); try lia; by rewrite ?orb_true_r, ?orb_false_r.
    - rewrite testbit_u8, Z.land_spec, Z.lnot_spec, Z.shiftl_1_l, Z.pow2_bits_eqb by lia.
      destruct (Z.eqb_spec (i mod 8) k), (decide (k = i mod 8)); try lia; by rewrite ?andb_false_r, ?andb_true_r. }
  destruct (decide (j / 8 = i / 8)) as [E|E].
  - rewrite E, list_lookup_insert_eq by zlia. change (default 0 (Some ?x)) with x. rewrite Hb by lia.
    destruct (decide (j = i)) as [->|Hne]; [by rewrite decide_True|]. rewrite decide_False by zlia. done.
  - rewrite list_lookup_insert_ne by zlia. rewrite decide_False by congruence. done.
Qed.

(** The scan returns the first clear bit below the bound. *)
Lemma scan_bits_spec fuel d b size bi :
  0 <= bi <= BPB -> (Z.to_nat (BPB - bi) <= fuel)%nat ->
  match scan_bits fuel d b size bi with
  | Some r => bi <= r < BPB /\ b + r < size /\ bit d r = false /\ forall j, bi <= j < r -> bit d j = true
  | None => forall j, bi <= j < BPB -> b + j < size -> bit d j = true
  end.
Proof.
  revert bi. induction fuel as [|fuel IH]; intros bi Hbi Hf; cbn [scan_bits]; [intros j Hj; lia|].
  destruct (Z.ltb_spec bi BPB); cbn [andb]; [|intros j Hj; lia].
  destruct (Z.ltb_spec (b + bi) size); [|intros j Hj; lia].
  rewrite bit_test. destruct (bit d bi) eqn:Eb; cbn [negb].
  - specialize (IH (bi + 1) ltac:(lia) ltac:(lia)). destruct (scan_bits fuel d b size (bi + 1)) as [r|].
    + destruct IH as (Hr & Hs & Hc & Hall). split; [lia|]. split; [done|]. split; [done|].
      intros j Hj. destruct (decide (j = bi)) as [->|]; [done|]. apply Hall. lia.
    + intros j Hj Hs. destruct (decide (j = bi)) as [->|]; [done|]. apply IH; lia.
  - split; [lia|]. split; [lia|]. split; [done|]. intros j Hj. lia.
Qed.

(** ** Sequencing *)

Lemma seq_run {S A} (m1 m2 : K S unit) (k : K S A) s s' :
  (m1 ;; m2) s = Ret tt s' -> (m1 ;; (m2 ;; k)) s = k s'.
Proof.
  unfold bind. destruct (m1 s) as [[] s1|e|s1 c]; cbn [obind]; [|done..]. by intros ->.
Qed.

Section bitmap.
Context (dev st : Z) (p : nat) (pid : Z) (sb : superblock).

Local Abbreviation view := (bview dev).
Local Abbreviation tx := (tx dev st p pid).
Local Abbreviation xrel := (xrel dev pid).

(** Is block [b] marked as used? *)
Definition used (s : kstate) (b : Z) : bool := bit (view s (BBLOCK b sb)) (b mod BPB).

(** Where the file system keeps its bitmap and its log. *)
Record geometry : Prop := {
  ge_size : 0 < sb_size sb < 2 ^ 31 - BPB;
  ge_bmap : 0 <= sb_bmapstart sb /\ sb_bmapstart sb + sb_size sb / BPB < 2 ^ 31;
  ge_log : forall b, 0 <= b < sb_size sb -> ~ (st <= BBLOCK b sb <= st + 29)
}.

(** The blocks of the boot sector, the log, the bitmap and the held buffers are
    marked as used, and no bitmap block is held. *)
Record marked (held : list Z) (s : kstate) : Prop := {
  mk_boot : used s 0 = true;
  mk_log : forall c, st <= c <= st + 29 -> 0 <= c < sb_size sb -> used s c = true;
  mk_bmap : forall b, 0 <= b < sb_size sb -> BBLOCK b sb < sb_size sb -> used s (BBLOCK b sb) = true;
  mk_held : forall c, c ∈ held -> 0 <= c < sb_size sb -> used s c = true;
  mk_free : forall b, 0 <= b < sb_size sb -> BBLOCK b sb ∉ held
}.

Lemma BBLOCK_eq b : geometry -> 0 <= b < sb_size sb -> BBLOCK b sb = b / BPB + sb_bmapstart sb /\ 0 <= BBLOCK b sb < 2 ^ 31.
Proof.
  intros [Hs Hb _] Hr. unfold BBLOCK. change BPB with 8192 in *. rewrite u32_small; [|zlia]. zlia.
Qed.

Lemma length_view s c : cache_ok dev s -> length (view s c) = 1024%nat.
Proof. apply length_bview. Qed.

(** The effect on [used] of setting one bit. *)
Lemma used_put_bit s s' i v b :
  geometry -> cache_ok dev s -> 0 <= i < sb_size sb -> 0 <= b < sb_size sb ->
  view s' (BBLOCK i sb) = put_bit (view s (BBLOCK i sb)) (i mod BPB) v ->
  (forall b, 0 <= b < sb_size sb -> BBLOCK b sb <> BBLOCK i sb -> view s' (BBLOCK b sb) = view s (BBLOCK b sb)) ->
  used s' b = if decide (b = i) then v else used s b.
Proof.
  intros Hg Hok Hi Hb Hv Ho. unfold used. destruct (BBLOCK_eq i Hg Hi) as [Ei _]. destruct (BBLOCK_eq b Hg Hb) as [Eb _].
  destruct (decide (BBLOCK b sb = BBLOCK i sb)) as [E|E].
  - rewrite E, Hv, bit_put_bit; rewrite ?(length_view s (BBLOCK i sb)) by done;
      change BPB with 8192 in *; [|zlia..].
    destruct (decide (b = i)) as [->|Hne]; [by rewrite decide_True|]. rewrite decide_False by zlia. done.
  - rewrite (Ho b Hb E). rewrite decide_False; [done|]. by intros ->.
Qed.

(** ** Zeroing a block *)
Lemma bzero_run hs held s c :
  tx hs held s -> c ∉ held -> 0 <= c < 2 ^ 31 -> ~ (st <= c <= st + 29) ->
  (length hs < 29)%nat -> (length hs + length held < 30)%nat ->
  exists s', bzero dev c s = Ret tt s' /\ tx (logged c hs) held s' /\ xrel held [(c, replicate 1024 0)] s s'.
Proof.
  intros Ht Hc Hr Hst Hlen Hroom. unfold bzero. rewrite u32_small by lia.
  destruct (tx_bread dev st p pid hs held s c Ht Hr Hc Hroom) as (b & s1 & E1 & Ht1 & Hx1 & Hh1 & _).
  rewrite (bind_run _ _ _ _ _ E1).
  destruct (tx_log_write dev st p pid hs (c :: held) s1 c b _ (replicate 1024 0) Ht1 Hh1)
    as (s2 & E2 & Ht2 & Hx2 & Hh2); try done.
  rewrite (seq_run _ _ _ _ _ E2).
  destruct (tx_brelse dev st p pid (logged c hs) held s2 c b _ Ht2 Hh2) as (s3 & E3 & Ht3 & Hx3).
  { intros Hn. exfalso. apply Hn. unfold logged. destruct (decide (c ∈ hs)); set_solver. }
  exists s3. split; [done|]. split; [done|].
  apply (xrel_weaken dev pid _ held) in Hx2.
  2:{ intros x Hx. apply list_elem_of_filter. split; [by intros ->|by right]. }
  exact (xrel_trans _ _ _ _ _ _ _ _ (xrel_trans _ _ _ _ _ _ _ _ Hx1 Hx2) Hx3).
Qed.

(** What [balloc] returns, the blocks it changes, and the log afterwards. *)
Definition allocated (hs held : list Z) (s : kstate) (r : Z) (s' : kstate) : Prop :=
  0 <= r < sb_size sb /\ used s r = false /\ (forall b, 0 <= b < r -> used s b = true) /\
  tx (logged r (logged (BBLOCK r sb) hs)) held s' /\
  xrel held [(BBLOCK r sb, put_bit (view s (BBLOCK r sb)) (r mod BPB) true); (r, replicate 1024 0)] s s'.

Lemma BBLOCK_chunk b bi :
  b mod BPB = 0 -> 0 <= b -> 0 <= bi < BPB -> BBLOCK (b + bi) sb = BBLOCK b sb /\ (b + bi) mod BPB = bi.
Proof.
  intros Hb H0 Hbi. change BPB with 8192 in *. unfold BBLOCK. change BPB with 8192. split; [|zlia].
  do 2 f_equal. zlia.
Qed.

(** One turn of the loop over the bitmap blocks. *)
Lemma balloc_round hs held s b :
  geometry -> tx hs held s -> marked held s -> g_sb s = sb -> 0 <= b < sb_size sb -> b mod BPB = 0 ->
  (forall j, 0 <= j < b -> used s j = true) -> (length hs < 28)%nat -> (length hs + length held < 28)%nat ->
  (exists s', balloc_body dev b s = Ret (inl (b + BPB)) s' /\ tx hs held s' /\ xrel held [] s s' /\
     forall j, b <= j < b + BPB -> j < sb_size sb -> used s j = true) \/
  (exists r s', balloc_body dev b s = Ret (inr r) s' /\ allocated hs held s r s').
Proof.
  intros Hg Ht Hm Hsb Hb Hmod Hlow Hlen Hroom. unfold balloc_body.
  rewrite (bind_run (gets g_sb) _ s _ s eq_refl), Hsb.
  destruct (Z.ltb_spec b (sb_size sb)); [|lia]. cbn [negb].
  assert (NBUF = 30)%nat as HNB by done.
  destruct (tx_bread dev st p pid hs held s (BBLOCK b sb) Ht) as (bp & s1 & E1 & Ht1 & Hx1 & Hh1 & Hcl);
    [by apply BBLOCK_eq|by apply (mk_free _ _ Hm)|lia|].
  rewrite (bind_run _ _ _ _ _ E1), (bind_run _ _ _ _ _ (buf_data_run dev s1 pid _ _ _ Hh1)).
  set (d := view s (BBLOCK b sb)) in *.
  pose proof (scan_bits_spec (Z.to_nat BPB) d b (sb_size sb) 0 ltac:(done) ltac:(done)) as Hscan.
  destruct (scan_bits (Z.to_nat BPB) d b (sb_size sb) 0) as [bi|].
  2:{ left. destruct (tx_brelse dev st p pid hs held s1 (BBLOCK b sb) bp d Ht1 Hh1) as (s2 & E2 & Ht2 & Hx2).
      { intros Hn. rewrite (xr_disk _ _ _ _ _ _ Hx1). by apply Hcl. }
      exists s2. rewrite (bind_run _ _ _ _ _ E2). split; [done|]. split; [done|].
      split; [exact (xrel_trans _ _ _ _ _ _ _ _ Hx1 Hx2)|].
      intros j Hj Hj'. destruct (BBLOCK_chunk b (j - b) Hmod ltac:(lia) ltac:(lia)) as [Eb Em].
      replace (b + (j - b)) with j in * by lia. unfold used. rewrite Eb, Em. apply Hscan; lia. }
  right. destruct Hscan as (Hbi & Hsz & Hclear & Hfirst).
  destruct (BBLOCK_chunk b bi Hmod ltac:(lia) ltac:(lia)) as [EB EM].
  destruct (BBLOCK_eq b Hg Hb) as [_ HB]. assert (length d = 1024%nat) as Hd by apply (length_view _ _ (x_ok _ _ _ _ _ _ _ Ht)).
  assert (used s (b + bi) = false) as Hunused by (unfold used; rewrite EB, EM; done).
  destruct (tx_log_write dev st p pid hs (BBLOCK b sb :: held) s1 (BBLOCK b sb) bp d (put_bit d bi true) Ht1 Hh1)
    as (s2 & E2 & Ht2 & Hx2 & Hh2); [by rewrite length_put_bit|done|by apply (ge_log Hg)|lia|].
  rewrite (seq_run _ _ _ _ _ E2).
  destruct (tx_brelse dev st p pid (logged (BBLOCK b sb) hs) held s2 (BBLOCK b sb) bp _ Ht2 Hh2) as (s3 & E3 & Ht3 & Hx3).
  { intros Hn. exfalso. apply Hn. unfold logged. destruct (decide (BBLOCK b sb ∈ hs)); set_solver. }
  rewrite (bind_run _ _ _ _ _ E3).
  assert (length (logged (BBLOCK b sb) hs) <= length hs + 1)%nat as Hll.
  { unfold logged. destruct (decide _); rewrite ?length_app; simpl; lia. }
  destruct (bzero_run (logged (BBLOCK b sb) hs) held s3 (b + bi) Ht3) as (s4 & E4 & Ht4 & Hx4).
  - intros Hin. pose proof (mk_held _ _ Hm _ Hin ltac:(lia)). congruence.
  - destruct (ge_size Hg). lia.
  - intros Hin. pose proof (mk_log _ _ Hm _ Hin ltac:(lia)). congruence.
  - lia.
  - lia.
  - rewrite (bind_run _ _ _ _ _ E4). exists (b + bi), s4. split; [done|].
    split; [lia|]. split; [done|]. split.
    { intros j Hj. destruct (decide (j < b)); [apply Hlow; lia|].
      destruct (BBLOCK_chunk b (j - b) Hmod ltac:(lia) ltac:(lia)) as [Eb Em].
      replace (b + (j - b)) with j in * by lia. unfold used. rewrite Eb, Em. apply Hfirst. lia. }
    rewrite EB, EM. split; [done|]. apply (xrel_weaken dev pid _ held) in Hx2.
    2:{ intros x Hx. apply list_elem_of_filter. split; [|by right]. intros ->. by apply (mk_free _ _ Hm _ Hb). }
    exact (xrel_trans _ _ _ _ _ _ _ _ (xrel_trans _ _ _ _ _ _ _ _ (xrel_trans _ _ _ _ _ _ _ _ Hx1 Hx2) Hx3) Hx4).
Qed.

Lemma xrel_used held s s' b : xrel held [] s s' -> used s' b = used s b.
Proof. intros H. unfold used. by rewrite (xr_view _ _ _ _ _ _ H). Qed.

Lemma xrel_marked held s s' : xrel held [] s s' -> marked held s -> marked held s'.
Proof.
  intros Hx [? ? ? ? ?]. split; try done; setoid_rewrite (xrel_used held s s' _ Hx); done.
Qed.

(** Nothing free: every block is marked, and only a message was printed. *)
Definition exhausted (hs held : list Z) (s s' : kstate) : Prop :=
  (forall b, 0 <= b < sb_size sb -> used s b = true) /\
  exists out s1, s' = put_out out s1 /\ tx hs held s1 /\ xrel held [] s s1.

Lemma balloc_loop fuel hs held s b :
  geometry -> tx hs held s -> marked held s -> g_sb s = sb -> lock_free LPr s -> 0 <= b -> b mod BPB = 0 ->
  (forall j, 0 <= j < b -> j < sb_size sb -> used s j = true) -> (length hs + length held < 28)%nat ->
  (Z.to_nat ((sb_size sb + BPB - 1 - b) / BPB) < fuel)%nat ->
  exists r s', loop fuel (balloc_body dev) b s = Ret r s' /\
    ((r = 0 /\ exhausted hs held s s') \/ allocated hs held s r s').
Proof.
  revert s b. induction fuel as [|fuel IH]; intros s b Hg Ht Hm Hsb Hpr H0 Hmod Hlow Hroom Hfuel; [lia|].
  cbn [loop]. destruct (decide (b < sb_size sb)) as [Hlt|Hge].
  - destruct (balloc_round hs held s b Hg Ht Hm Hsb) as [(s1 & E & Ht1 & Hx1 & Hall)|(r & s1 & E & Ha)]; try lia; auto.
    { intros j Hj. apply Hlow; lia. }
    + rewrite (bind_run _ _ _ _ _ E).
      destruct (xrel_keeps _ _ _ _ _ _ Hx1) as (Ekfs & _ & Ecpu & _).
      destruct (IH s1 (b + BPB)) as (r & s2 & E2 & H2); try done.
      * by eapply xrel_marked.
      * unfold g_sb. by rewrite Ekfs.
      * unfold lock_free, g_locks. by rewrite Ecpu.
      * change BPB with 8192. lia.
      * change BPB with 8192 in *. zlia.
      * intros j Hj Hj'. rewrite (xrel_used held s s1 j Hx1). destruct (decide (j < b)); [apply Hlow; lia|].
        apply Hall; lia.
      * change BPB with 8192 in *. zlia.
      * exists r, s2. split; [done|]. destruct H2 as [[-> [Hu (out & s3 & E3 & Ht3 & Hx3)]]|(Hr & Hu & Hf & Ht3 & Hx3)].
        -- left. split; [done|]. split.
           ++ intros j Hj. rewrite <- (xrel_used held s s1 j Hx1). by apply Hu.
           ++ exists out, s3. split; [done|]. split; [done|]. exact (xrel_trans _ _ _ _ _ _ _ _ Hx1 Hx3).
        -- right. split; [done|]. rewrite (xrel_used held s s1 r Hx1) in Hu. split; [done|]. split.
           { intros j Hj. rewrite <- (xrel_used held s s1 j Hx1). by apply Hf. }
           split; [done|]. replace (view s (BBLOCK r sb)) with (view s1 (BBLOCK r sb)) by apply (xr_view _ _ _ _ _ _ Hx1).
           exact (xrel_trans _ _ _ _ _ _ _ _ Hx1 Hx3).
    + rewrite (bind_run _ _ _ _ _ E). exists r, s1. split; [done|]. by right.
  - unfold balloc_body at 1. unfold bind at 1. rewrite (bind_run (gets g_sb) _ s _ s eq_refl), Hsb.
    destruct (Z.ltb_spec b (sb_size sb)); [lia|]. cbn [negb].
    destruct (prints_message (bytes_of "balloc: out of blocks" ++ newline) s Hpr eq_refl) as [out Eo].
    rewrite (bind_run _ _ _ _ _ Eo). exists 0, (put_out out s). split; [done|]. left. split; [done|]. split.
    + intros j Hj. apply Hlow; lia.
    + exists out, s. split; [done|]. split; [done|]. apply xrel_refl.
Qed.

Lemma balloc_run hs held s :
  geometry -> tx hs held s -> marked held s -> g_sb s = sb -> lock_free LPr s ->
  (length hs + length held < 28)%nat ->
  exists r s', balloc dev s = Ret r s' /\ ((r = 0 /\ exhausted hs held s s') \/ allocated hs held s r s').
Proof.
  intros Hg Ht Hm Hsb Hpr Hroom. unfold balloc. rewrite (bind_run (gets g_sb) _ s _ s eq_refl), Hsb.
  apply balloc_loop; try done; [intros j Hj; lia|]. rewrite Z.sub_0_r. lia.
Qed.

(** The bitmap and the other blocks after an allocation. *)
Lemma allocated_effect hs held s r s' :
  geometry -> cache_ok dev s -> marked held s -> allocated hs held s r s' ->
  0 < r /\ view s' r = replicate 1024 0 /\
  (forall b, 0 <= b < sb_size sb -> used s' b = if decide (b = r) then true else used s b) /\
  (forall c, c <> r -> c <> BBLOCK r sb -> view s' c = view s c).
Proof.
  intros Hg Hok Hm (Hr & Hu & _ & _ & Hx). pose proof (xr_view _ _ _ _ _ _ Hx) as Hv.
  assert (forall b, 0 <= b < sb_size sb -> r <> BBLOCK b sb) as Hrb.
  { intros b Hb E. pose proof (mk_bmap _ _ Hm b Hb ltac:(lia)). congruence. }
  split. { assert (r <> 0); [|lia]. intros ->. pose proof (mk_boot _ _ Hm). congruence. }
  split. { rewrite Hv. unfold overlay. simpl. by rewrite decide_True. }
  split.
  - intros b Hb. apply used_put_bit; try done.
    + rewrite Hv. unfold overlay. simpl. rewrite decide_False by (intros E; by apply (Hrb r)).
      by rewrite decide_True.
    + intros b' Hb' Hne. rewrite Hv. unfold overlay. simpl.
      rewrite decide_False by (intros E; by apply (Hrb b')). by rewrite decide_False.
  - intros c Hc Hc'. rewrite Hv. unfold overlay. simpl. by rewrite !decide_False.
Qed.

(** ** bfree *)
Lemma bfree_run hs held s b :
  geometry -> tx hs held s -> g_sb s = sb -> 0 <= b < sb_size sb -> BBLOCK b sb ∉ held ->
  (length hs < 29)%nat -> (length hs + length held < 30)%nat ->
  if used s b then
    exists s', bfree dev b s = Ret tt s' /\ tx (logged (BBLOCK b sb) hs) held s' /\
      xrel held [(BBLOCK b sb, put_bit (view s (BBLOCK b sb)) (b mod BPB) false)] s s'
  else bfree dev b s = Fail (Panicked "freeing free block").
Proof.
  intros Hg Ht Hsb Hb Hh Hlen Hroom. unfold bfree. rewrite (bind_run (gets g_sb) _ s _ s eq_refl), Hsb.
  destruct (tx_bread dev st p pid hs held s (BBLOCK b sb) Ht (proj2 (BBLOCK_eq b Hg Hb)) Hh Hroom) as (bp & s1 & E1 & Ht1 & Hx1 & Hh1 & _).
  rewrite (bind_run _ _ _ _ _ E1). cbv zeta beta.
  rewrite (bind_run _ _ _ _ _ (buf_data_run dev s1 pid _ _ _ Hh1)), bit_test. fold (used s b).
  destruct (used s b); [|done]. cbn [negb]. destruct (BBLOCK_eq b Hg Hb) as [_ HB].
  destruct (tx_log_write dev st p pid hs (BBLOCK b sb :: held) s1 (BBLOCK b sb) bp _
    (put_bit (view s (BBLOCK b sb)) (b mod BPB) false) Ht1 Hh1) as (s2 & E2 & Ht2 & Hx2 & Hh2); try done.
  { rewrite length_put_bit. apply length_view, Ht. }
  { by apply (ge_log Hg). }
  rewrite (seq_run _ _ _ _ _ E2).
  destruct (tx_brelse dev st p pid (logged (BBLOCK b sb) hs) held s2 (BBLOCK b sb) bp _ Ht2 Hh2) as (s3 & E3 & Ht3 & Hx3).
  { intros Hn. exfalso. apply Hn. unfold logged. destruct (decide (BBLOCK b sb ∈ hs)); set_solver. }
  exists s3. split; [done|]. split; [done|]. apply (xrel_weaken dev pid _ held) in Hx2.
  2:{ intros x Hx. apply list_elem_of_filter. split; [by intros ->|by right]. }
  exact (xrel_trans _ _ _ _ _ _ _ _ (xrel_trans _ _ _ _ _ _ _ _ Hx1 Hx2) Hx3).
Qed.

(** The bitmap after [bfree]. *)
Lemma freed_effect held s s' b :
  geometry -> cache_ok dev s -> 0 <= b < sb_size sb ->
  xrel held [(BBLOCK b sb, put_bit (view s (BBLOCK b sb)) (b mod BPB) false)] s s' ->
  (forall j, 0 <= j < sb_size sb -> used s' j = if decide (j = b) then false else used s j) /\
  (forall c, c <> BBLOCK b sb -> view s' c = view s c).
Proof.
  intros Hg Hok Hb Hx. pose proof (xr_view _ _ _ _ _ _ Hx) as Hv. split.
  - intros j Hj. apply used_put_bit; try done.
    + rewrite Hv, overlay_one. by rewrite decide_True.
    + intros b' Hb' Hne. rewrite Hv, overlay_one. by rewrite decide_False.
  - intros c Hc. rewrite Hv, overlay_one. by rewrite decide_False.
Qed.
End bitmap.

(** ** Theorems *)

(** [C15] [balloc] in a transaction.  Either no block is free, 0 is returned and
    no block changes; or the result is the lowest-numbered free block: it is marked,
    its content is zeros, no other bit of the bitmap and no other block changes, and the
    two changed blocks are in the log.  The cache invariant is kept on both
    paths. *)
Theorem balloc_allocates dev st p pid sb hs held s :
  geometry st sb -> tx dev st p pid hs held s -> marked dev st sb held s -> g_sb s = sb -> lock_free LPr s ->
  (length hs + length held < 28)%nat ->
  exists r s', balloc dev s = Ret r s' /\
    if decide (r = 0) then
      (forall b, 0 <= b < sb_size sb -> used dev sb s b = true) /\
      exists out s1, s' = put_out out s1 /\ tx dev st p pid hs held s1 /\
        forall c, bview dev s1 c = bview dev s c
    else
      0 < r < sb_size sb /\ used dev sb s r = false /\ (forall b, 0 <= b < r -> used dev sb s b = true) /\
      bview dev s' r = replicate 1024 0 /\
      (forall b, 0 <= b < sb_size sb -> used dev sb s' b = if decide (b = r) then true else used dev sb s b) /\
      (forall c, c <> r -> c <> BBLOCK r sb -> bview dev s' c = bview dev s c) /\
      tx dev st p pid (logged r (logged (BBLOCK r sb) hs)) held s'.
Proof.
  intros Hg Ht Hm Hsb Hpr Hroom. destruct (balloc_run dev st p pid sb hs held s) as (r & s' & E & H); try done.
  exists r, s'. split; [done|]. destruct H as [[-> [Hu (out & s1 & -> & Ht1 & Hx)]]|Ha].
  - rewrite decide_True by done. split; [done|]. exists out, s1. split; [done|]. split; [done|]. apply (xr_view _ _ _ _ _ _ Hx).
  - destruct (allocated_effect dev st p pid sb hs held s r s' Hg (x_ok _ _ _ _ _ _ _ Ht) Hm Ha) as (H0 & Hz & Hu & Ho).
    rewrite decide_False by lia. destruct Ha as (Hr & Hf & Hl & Ht' & _). split_and!; try done; lia.
Qed.

(** [bfree] undoes [balloc]: the bitmap is what it was before and
    no block but the freed one and its bitmap block differs; freeing the block a
    second time panics. *)
Theorem balloc_bfree_roundtrip dev st p pid sb hs held s r s1 :
  geometry st sb -> tx dev st p pid hs held s -> marked dev st sb held s -> g_sb s = sb -> lock_free LPr s ->
  (length hs + length held < 26)%nat -> balloc dev s = Ret r s1 -> r <> 0 ->
  exists s2, bfree dev r s1 = Ret tt s2 /\
    (forall b, 0 <= b < sb_size sb -> used dev sb s2 b = used dev sb s b) /\
    (forall c, c <> r -> c <> BBLOCK r sb -> bview dev s2 c = bview dev s c) /\
    bfree dev r s2 = Fail (Panicked "freeing free block").
Proof.
  intros Hg Ht Hm Hsb Hpr Hroom E Hr0.
  destruct (balloc_run dev st p pid sb hs held s) as (r' & s' & E' & H); try done; [lia|].
  rewrite E in E'. injection E' as <- <-. destruct H as [[-> _]|Ha]; [done|].
  pose proof (x_ok _ _ _ _ _ _ _ Ht) as Hok.
  destruct (allocated_effect dev st p pid sb hs held s r s1 Hg Hok Hm Ha) as (_ & _ & Hu & Ho).
  destruct Ha as (Hr & Hfree & _ & Ht1 & Hx1).
  destruct (xrel_keeps _ _ _ _ _ _ Hx1) as (Ekfs & _).
  assert (forall a (l : list Z), (length (logged a l) <= length l + 1)%nat) as Hll.
  { intros a l. unfold logged. destruct (decide _); rewrite ?length_app; simpl; lia. }
  pose proof (Hll r (logged (BBLOCK r sb) hs)). pose proof (Hll (BBLOCK r sb) hs).
  assert (g_sb s1 = sb) as Hsb1 by (unfold g_sb; by rewrite Ekfs).
  pose proof (bfree_run dev st p pid sb _ held s1 r Hg Ht1 Hsb1 Hr (mk_free _ _ _ _ _ Hm r Hr) ltac:(lia) ltac:(lia)) as Hb.
  rewrite (Hu r Hr), decide_True in Hb by done. destruct Hb as (s2 & E2 & Ht2 & Hx2).
  destruct (freed_effect dev st pid sb held s1 s2 r Hg (x_ok _ _ _ _ _ _ _ Ht1) Hr Hx2) as [Hu2 Ho2].
  exists s2. split; [done|]. split; [|split].
  - intros b Hb. rewrite Hu2 by done. rewrite Hu by done. by destruct (decide (b = r)) as [->|].
  - intros c Hc Hc'. rewrite Ho2 by done. by apply Ho.
  - pose proof (Hll (BBLOCK r sb) (logged r (logged (BBLOCK r sb) hs))).
    destruct (xrel_keeps _ _ _ _ _ _ Hx2) as (Ekfs2 & _).
    assert (g_sb s2 = sb) as Hsb2 by (unfold g_sb; by rewrite Ekfs2).
    pose proof (bfree_run dev st p pid sb _ held s2 r Hg Ht2 Hsb2 Hr (mk_free _ _ _ _ _ Hm r Hr) ltac:(lia) ltac:(lia)) as Hb.
    by rewrite (Hu2 r Hr), decide_True in Hb by done.
Qed.

(** ** A file system with blocks 0 to 45 in use

    The layout of mkfs for 2000 blocks and 200 inodes: log from block 2, inodes
    from block 32, the bitmap in block 45. *)
Definition bitmap45 : list Z := replicate 5 255 ++ [63] ++ replicate 1018 0.
Definition disk45 : gmap Z (list Z) := {[45 := bitmap45]}.
Definition start45 : kstate := put_sb sb50 (set_klog log50 (rebooted disk45)).

Lemma disk45_lengths : disk_lengths disk45.
Proof.
  intros c. unfold disk_block, disk45. destruct (decide (c = 45)) as [->|Hc].
  - rewrite lookup_singleton_eq. reflexivity.
  - rewrite lookup_singleton_ne by done. reflexivity.
Qed.

(** Inside a transaction with an empty log. *)
Lemma start_tx d : disk_lengths d -> tx 1 2 0 1 [] [] (put_sb sb50 (set_klog log50 (rebooted d))).
Proof.
  intros Hd. destruct (rebooted_ok 1 d ltac:(done) Hd) as (Hok & Hrd & Hr & _ & Hn & _).
  destruct (rebooted_rest 1 d ltac:(done) Hd) as (HL & _).
  revert Hok Hrd Hr Hn HL. generalize (rebooted d). intros s Hok Hrd Hr Hn HL. split.
  - eapply cache_ok_kbio; [|exact Hok]. reflexivity.
  - destruct Hrd. by split.
  - exact log50_at.
  - unfold lock_free. change (g_locks s !! LLog = None). rewrite HL. apply lookup_empty.
  - simpl. lia.
  - reflexivity.
  - intros c. change (brefs 1 s c = ind (c ∈ []) + ind (c ∈ [])). rewrite Hr. unfold ind.
    by rewrite decide_False by apply not_elem_of_nil.
  - intros c. change (blocked 1 s c = bool_decide (c ∈ [])). destruct (unref 1 s c Hok (Hr c)) as [_ ->].
    symmetry. apply bool_decide_eq_false, not_elem_of_nil.
  - change (NBUF <= nfree s + 0 + 0)%nat. rewrite Hn. lia.
  - constructor.
Qed.

Lemma geometry50 : geometry 2 sb50.
Proof.
  split.
  - unfold BPB, BSIZE. simpl. lia.
  - split; [simpl; lia|]. vm_compute. done.
  - intros b Hb. unfold BBLOCK. simpl sb_size in Hb. simpl sb_bmapstart. change BPB with 8192.
    rewrite Z.div_small by lia. vm_compute. by intros [_ H].
Qed.

Lemma BBLOCK50 b : 0 <= b < 2000 -> BBLOCK b sb50 = 45 /\ b mod BPB = b.
Proof.
  intros Hb. unfold BBLOCK. simpl sb_bmapstart. change BPB with 8192.
  rewrite Z.div_small, Z.mod_small by lia. done.
Qed.

Lemma bview_start l b s c : bview 1 (put_sb b (set_klog l s)) c = bview 1 s c.
Proof. reflexivity. Qed.

(** What is on disk is what the cache shows after booting. *)
Lemma start_view d c :
  disk_lengths d -> bview 1 (put_sb sb50 (set_klog log50 (rebooted d))) c = disk_block d c.
Proof.
  intros Hd. destruct (rebooted_ok 1 d ltac:(done) Hd) as (_ & _ & _ & Hv & _).
  rewrite bview_start. apply Hv.
Qed.

Lemma bitmap45_bits b : 0 <= b < 2000 -> bit bitmap45 b = (b <? 46).
Proof.
  intros Hb.
  assert (forallb (fun i => Bool.eqb (bit bitmap45 (Z.of_nat i)) (Z.of_nat i <? 46)) (seq 0 2000) = true) as H
    by (vm_compute; reflexivity).
  rewrite forallb_forall in H. specialize (H (Z.to_nat b)). rewrite Z2Nat.id in H by lia.
  apply Bool.eqb_prop, H. apply in_seq. lia.
Qed.

Lemma start45_used b : 0 <= b < 2000 -> used 1 sb50 start45 b = (b <? 46).
Proof.
  intros Hb. unfold used, start45. rewrite start_view by exact disk45_lengths.
  destruct (BBLOCK50 b Hb) as [-> ->]. unfold disk_block, disk45. rewrite lookup_singleton_eq.
  exact (bitmap45_bits b Hb).
Qed.

Lemma start45_marked : marked 1 2 sb50 [] start45.
Proof.
  split.
  - apply start45_used. lia.
  - intros c Hc Hs. simpl in Hs. rewrite start45_used by lia. apply Z.ltb_lt. lia.
  - intros b Hb Hs. simpl in Hb, Hs. destruct (BBLOCK50 b Hb) as [-> _]. apply start45_used. lia.
  - intros c Hc. by apply not_elem_of_nil in Hc.
  - intros b Hb. apply not_elem_of_nil.
Qed.

Lemma start45_pr : lock_free LPr start45.
Proof.
  destruct (rebooted_rest 1 disk45 ltac:(done) disk45_lengths) as (HL & _).
  revert HL. unfold start45. generalize (rebooted disk45). intros s HL.
  unfold lock_free. change (g_locks s !! LPr = None). rewrite HL. apply lookup_empty.
Qed.

Lemma balloc_allocates_witness : exists s', balloc 1 start45 = Ret 46 s' /\ bview 1 s' 46 = replicate 1024 0 /\
  used 1 sb50 s' 46 = true /\ used 1 sb50 s' 47 = false.
Proof.
  destruct (balloc_allocates 1 2 0 1 sb50 [] [] start45 geometry50 (start_tx disk45 disk45_lengths)
    start45_marked eq_refl start45_pr) as (r & s' & E & H); [simpl; lia|].
  destruct (decide (r = 0)) as [->|Hr].
  - destruct H as [H _]. specialize (H 46 ltac:(simpl; lia)). rewrite start45_used in H by lia. discriminate H.
  - destruct H as (Hsz & Hu & Hlow & Hz & Hall & _). simpl in Hsz, Hall. rewrite start45_used in Hu by lia.
    assert (r = 46) as ->.
    { destruct (decide (r <= 46)); [apply Z.ltb_ge in Hu; lia|]. specialize (Hlow 46 ltac:(lia)).
      rewrite start45_used in Hlow by lia. discriminate Hlow. }
    exists s'. split; [exact E|]. split; [exact Hz|]. rewrite !Hall, !start45_used by lia. split; reflexivity.
Defined.

Lemma start45_balloc : exists r s1, balloc 1 start45 = Ret r s1 /\ r <> 0.
Proof.
  destruct (balloc_run 1 2 0 1 sb50 [] [] start45 geometry50 (start_tx disk45 disk45_lengths)
    start45_marked eq_refl start45_pr) as (r & s1 & E & H); [simpl; lia|].
  exists r, s1. split; [exact E|]. destruct H as [[_ [H _]]|(_ & Hu & _)].
  - specialize (H 46 ltac:(simpl; lia)). rewrite start45_used in H by lia. discriminate H.
  - intros ->. rewrite start45_used in Hu by lia. discriminate Hu.
Qed.

Lemma balloc_bfree_roundtrip_witness : exists r s1 s2, balloc 1 start45 = Ret r s1 /\ bfree 1 r s1 = Ret tt s2 /\
  used 1 sb50 s2 46 = false.
Proof.
  destruct start45_balloc as (r & s1 & E & Hr).
  assert (0 <= 46 < 2000) as H46 by lia. assert (length (@nil Z) + length (@nil Z) < 26)%nat as Hroom by (simpl; lia).
  destruct (balloc_bfree_roundtrip 1 2 0 1 sb50 [] [] start45 r s1 geometry50 (start_tx disk45 disk45_lengths)
    start45_marked eq_refl start45_pr Hroom E Hr) as (s2 & E2 & Hu & _).
  exists r, s1, s2. split; [exact E|]. split; [exact E2|]. rewrite (Hu 46 H46). exact (start45_used 46 H46).
Defined.
