(* ===== verification/FsRead.v ===== *)
(** * Reading files and directories: [bmap], [readi] and [dirlookup] of kernel/fs.c

    [fbytes s ip off n] is the content of a file as the inode's block addresses
    and the cache define it.  [readi] copies exactly those bytes; [dirlookup]
    finds the first directory entry with the given name. *)

From Stdlib Require Import ZArith Lia.
From stdpp Require Import base list gmap strings numbers option.
From S2P Require Import Prelude Bytes Riscv Cstring Kstate Sched Kalloc Vm VmSpec VmUser Uvm Copy CopySpec Bio BioSpec Log LogSpec Fs Icache FsTx Bitmap.

Section read.
Context (dev st : Z) (p : nat) (pid : Z).

Local Abbreviation view := (bview dev).
Local Abbreviation tx := (tx dev st p pid).
Local Abbreviation xrel := (xrel dev pid).

(** ** The content of a file *)

(** The indirect block and the disk block of file block [k]. *)
Definition findirect (ip : inode) : Z := default 0 (i_addrs ip !! NDIRECT).
Definition faddr (s : kstate) (ip : inode) (k : Z) : Z :=
  if k <? Z.of_nat NDIRECT then default 0 (i_addrs ip !! Z.to_nat k)
  else get_le 4 (view s (findirect ip)) (Z.to_nat (4 * (k - Z.of_nat NDIRECT))).

Definition fbyte (s : kstate) (ip : inode) (off : Z) : Z :=
  byte_at (view s (faddr s ip (off / BSIZE))) (off mod BSIZE).
Definition fbytes (s : kstate) (ip : inode) (off : Z) (n : nat) : list Z :=
  (fun j => fbyte s ip (off + Z.of_nat j)) <$> seq 0 n.

(** File block [k] is allocated, in blocks that the disk driver can address, and this thread
    does not hold their buffers. *)
Record mapped (held : list Z) (s : kstate) (ip : inode) (k : Z) : Prop := {
  mp_range : 0 <= k < MAXFILE;
  mp_addr : 0 < faddr s ip k < 2 ^ 31;
  mp_held : faddr s ip k ∉ held;
  mp_ind : Z.of_nat NDIRECT <= k -> 0 < findirect ip < 2 ^ 31 /\ findirect ip ∉ held
}.

Lemma faddr_ext s s' ip k : (forall c, view s' c = view s c) -> faddr s' ip k = faddr s ip k.
Proof. intros H. unfold faddr. by rewrite H. Qed.

Lemma fbytes_ext s s' ip off n : (forall c, view s' c = view s c) -> fbytes s' ip off n = fbytes s ip off n.
Proof.
  intros H. unfold fbytes. apply list_fmap_ext. intros i x _. unfold fbyte. by rewrite (faddr_ext s s'), H.
Qed.

Lemma mapped_ext held s s' ip k : (forall c, view s' c = view s c) -> mapped held s ip k -> mapped held s' ip k.
Proof. intros H [? ? ? ?]. split; rewrite ?(faddr_ext s s' ip k H); done. Qed.

Lemma length_fbytes s ip off n : length (fbytes s ip off n) = n.
Proof. unfold fbytes. by rewrite length_fmap, length_seq. Qed.

Lemma fbytes_app s ip off n m :
  fbytes s ip off (n + m) = fbytes s ip off n ++ fbytes s ip (off + Z.of_nat n) m.
Proof.
  unfold fbytes. rewrite seq_app, fmap_app. f_equal.
  apply list_eq. intros i. rewrite !list_lookup_fmap.
  destruct (decide (i < m)%nat) as [Hi|Hi].
  - rewrite !lookup_seq_lt by done. simpl. do 2 f_equal. lia.
  - rewrite !lookup_seq_ge by lia. done.
Qed.

(** A piece of one block is a piece of the file. *)
Lemma fbytes_block s ip off m :
  cache_ok dev s -> 0 <= off -> off mod BSIZE + Z.of_nat m <= BSIZE ->
  slice (view s (faddr s ip (off / BSIZE))) (Z.to_nat (off mod BSIZE)) m = fbytes s ip off m.
Proof.
  intros Hok Hoff Hm. change BSIZE with 1024 in *. pose proof (Z.mod_pos_bound off 1024 ltac:(lia)).
  assert (length (view s (faddr s ip (off / 1024))) = 1024%nat) as Hl by (by apply length_bview).
  apply list_eq. intros i. unfold fbytes. rewrite list_lookup_fmap.
  destruct (decide (i < m)%nat) as [Hi|Hi].
  - rewrite lookup_seq_lt by done. cbn [fmap option_fmap option_map]. unfold fbyte, byte_at. change BSIZE with 1024.
    replace ((off + Z.of_nat (0 + i)) / 1024) with (off / 1024) by zlia.
    rewrite lookup_slice, decide_True by done.
    replace (Z.to_nat ((off + Z.of_nat (0 + i)) mod 1024)) with (Z.to_nat (off mod 1024) + i)%nat by zlia.
    destruct (lookup_lt_is_Some_2 (view s (faddr s ip (off / 1024))) (Z.to_nat (off mod 1024) + i)) as [x Hx]; [lia|].
    rewrite Hx. done.
  - rewrite lookup_seq_ge by lia. apply lookup_ge_None. rewrite length_slice by lia. lia.
Qed.

(** ** bmap of an allocated block *)

Lemma tx_pmem hs held m s : tx hs held s -> tx hs held (put_pmem m s).
Proof.
  intros [Hok Hr ? ? ? ? ? ? ? ?]. split; try done.
  - eapply cache_ok_kbio; [|exact Hok]. done.
  - by destruct Hr.
Qed.

(** Reading a block and releasing it changes nothing. *)
Lemma read_block hs held s c :
  tx hs held s -> 0 <= c < 2 ^ 31 -> c ∉ held -> (length hs + length held < NBUF)%nat ->
  exists b s1, bread dev c s = Ret b s1 /\ tx hs (c :: held) s1 /\ xrel held [] s s1 /\
    holds dev s1 pid c b (view s c) /\ buf_data b s1 = Ret (view s c) s1 /\
    exists s2, brelse b s1 = Ret tt s2 /\ tx hs held s2 /\ xrel held [] s s2.
Proof.
  intros Ht Hr Hc Hroom.
  destruct (tx_bread dev st p pid hs held s c Ht Hr Hc Hroom) as (b & s1 & E1 & Ht1 & Hx1 & Hh1 & Hcl).
  exists b, s1. split; [done|]. split; [done|]. split; [done|]. split; [done|].
  split; [by eapply buf_data_run|].
  destruct (tx_brelse dev st p pid hs held s1 c b _ Ht1 Hh1) as (s2 & E2 & Ht2 & Hx2).
  { intros Hn. rewrite (xr_disk _ _ _ _ _ _ Hx1). by apply Hcl. }
  exists s2. split; [done|]. split; [done|]. exact (xrel_trans _ _ _ _ _ _ _ _ Hx1 Hx2).
Qed.

Lemma bmap_mapped hs held s i ip k :
  tx hs held s -> (length hs + length held < NBUF)%nat -> g_itable s !! i = Some ip -> i_dev ip = dev ->
  length (i_addrs ip) = S NDIRECT -> mapped held s ip k ->
  exists s', bmap i k s = Ret (faddr s ip k) s' /\ tx hs held s' /\ xrel held [] s s'.
Proof.
  intros Ht Hroom Hi Hdev Hlen [Hk Ha Hh Hind]. unfold bmap.
  rewrite (bind_run _ _ _ _ _ (arr_get_run "inode" g_itable i s ip Hi)).
  unfold faddr in *. change (Z.of_nat NDIRECT) with 12 in *. destruct (Z.ltb_spec k 12) as [Hd|Hd].
  - destruct (lookup_lt_is_Some_2 (i_addrs ip) (Z.to_nat k)) as [a Ea]; [rewrite Hlen; unfold NDIRECT; lia|].
    rewrite Ea in *. simpl in Ha. unfold addr_at. rewrite Ea. cbn [the]. rewrite bind_ret_l.
    destruct (Z.eqb_spec a 0); [lia|]. exists s. split; [done|]. split; [done|]. apply xrel_refl.
  - destruct Hind as [Hz Hin]; [done|]. change MAXFILE with 268 in Hk. change NINDIRECT with 256.
    destruct (Z.ltb_spec (k - 12) 256); [|lia].
    destruct (lookup_lt_is_Some_2 (i_addrs ip) NDIRECT) as [a Ea]; [rewrite Hlen; lia|].
    unfold findirect in *. rewrite Ea in *. cbn [default from_option id] in *.
    unfold addr_at. rewrite Ea. cbn [the]. rewrite bind_ret_l. destruct (Z.eqb_spec a 0); [lia|].
    rewrite bind_ret_l. destruct (Z.eqb_spec a 0); [lia|].
    destruct (read_block hs held s a Ht ltac:(lia) Hin Hroom) as (b & s1 & E1 & Ht1 & Hx1 & Hh1 & Ed & s2 & E2 & Ht2 & Hx2).
    rewrite Hdev, (bind_run _ _ _ _ _ E1), (bind_run _ _ _ _ _ Ed). cbv zeta.
    destruct (Z.eqb_spec (get_le 4 (view s a) (Z.to_nat (4 * (k - 12)))) 0); [lia|].
    rewrite bind_ret_l, (bind_run _ _ _ _ _ E2). exists s2. done.
Qed.

(** ** readi *)

Lemma xrel_put_pmem L ws m s s' : xrel L ws s s' -> xrel L ws (put_pmem m s) (put_pmem m s').
Proof.
  intros [V E W D H]. split; try done.
  change (put_pmem m s' = put_pmem m (set_klog (klog s') (set_kbio (kbio s') (put_procs (g_procs s') s)))).
  by rewrite <- E.
Qed.

Lemma xrel_pmem L ws s s' : xrel L ws s s' -> g_pmem s' = g_pmem s.
Proof. intros H. unfold g_pmem. by destruct (xrel_keeps _ _ _ _ _ _ H) as (_ & -> & _). Qed.

Lemma xrel_itable L ws s s' : xrel L ws s s' -> g_itable s' = g_itable s.
Proof. intros H. unfold g_itable. by destruct (xrel_keeps _ _ _ _ _ _ H) as (-> & _). Qed.

(** How many turns the loop still needs. *)
Definition turns (off rem : Z) : Z := if rem =? 0 then 1 else (off mod BSIZE + rem + 1023) / BSIZE + 1.

Lemma turns_pos off rem : 0 <= rem -> 1 <= turns off rem.
Proof. intros Hr. unfold turns. change BSIZE with 1024. destruct (rem =? 0); [done|]. zlia. Qed.

Lemma turns_next off rem :
  0 < rem -> 0 <= off -> let m := Z.min rem (BSIZE - off mod BSIZE) in
  turns (off + m) (rem - m) + 1 <= turns off rem.
Proof.
  intros Hr Hoff m. unfold turns, m. change BSIZE with 1024. pose proof (Z.mod_pos_bound off 1024 ltac:(lia)) as Hb.
  destruct (Z.eqb_spec rem 0); [lia|].
  destruct (Z.min_spec rem (1024 - off mod 1024)) as [[Hlt ->]|[Hge ->]].
  - rewrite Z.sub_diag. simpl. zlia.
  - destruct (Z.eqb_spec (rem - (1024 - off mod 1024)) 0); zlia.
Qed.

Section copied.
Context {KI : KernelImage} (L : space).

(** Only memory changes, by the bytes stored at [dst]. *)
Definition stored (held : list Z) (dst : Z) (l : list Z) (s s' : kstate) : Prop :=
  exists m, landed L (g_pmem s) m dst l /\ xrel held [] (put_pmem m s) s'.

Lemma stored_view held dst l s s' : stored held dst l s s' -> forall c, view s' c = view s c.
Proof. intros (m & _ & H) c. by rewrite (xr_view _ _ _ _ _ _ H). Qed.

Lemma stored_landed held dst l s s' : stored held dst l s s' -> landed L (g_pmem s) (g_pmem s') dst l.
Proof. intros (m & Hl & H). by rewrite (xrel_pmem _ _ _ _ H). Qed.

Lemma stored_itable held dst l s s' : stored held dst l s s' -> g_itable s' = g_itable s.
Proof. intros (m & _ & H). by rewrite (xrel_itable _ _ _ _ H). Qed.

Lemma stored_nil held dst s : stored held dst [] s s.
Proof.
  exists (g_pmem s). split; [apply landed_nil|].
  replace (put_pmem (g_pmem s) s) with s by (by destruct s as [? [] ? ? ? ? ? ? ?]). apply xrel_refl.
Qed.

Lemma stored_app held dst l1 l2 s1 s2 s3 :
  stored held dst l1 s1 s2 -> stored held (dst + Z.of_nat (length l1)) l2 s2 s3 ->
  stored held dst (l1 ++ l2) s1 s3.
Proof.
  intros (m1 & A1 & H1) (m2 & A2 & H2). rewrite (xrel_pmem _ _ _ _ H1) in A2.
  exists m2. split; [exact (landed_app _ _ _ _ _ _ _ A1 A2)|].
  exact (xrel_trans _ _ _ _ _ _ _ _ (xrel_put_pmem _ _ m2 _ _ H1) H2).
Qed.

(** The running process and its page table stay the same. *)
Lemma space_xrel held ws s s' : xrel held ws s s' -> space_of p L s -> space_of p L s'.
Proof.
  intros H. destruct L as [|T]; [done|]. intros (pr & Hp & Hu).
  destruct (Forall2_lookup_l _ _ _ _ _ (xr_woken _ _ _ _ _ _ H) Hp) as (pr' & Hp' & Hw).
  exists pr'. split; [done|]. rewrite (xrel_pmem _ _ _ _ H). by destruct Hw as [->| ->].
Qed.

Lemma tx_copyout hs held s dst l :
  tx hs held s -> space_of p L s -> 0 <= dst < 2 ^ 64 -> (in_user L = true -> Forall byte l) ->
  exists r k m', either_copyout (in_user L) dst l s = Ret r (put_pmem m' s) /\ space_of p L (put_pmem m' s) /\
    landed L (g_pmem s) m' dst (take k l) /\ (forall j, 0 <= j < Z.of_nat k -> can_write L (g_pmem s) (dst + j) = true) /\
    ((r = 0 /\ k = length l) \/ (r = -1 /\ (k < length l)%nat /\ can_write L (g_pmem s) (dst + Z.of_nat k) = false)).
Proof.
  intros Ht. destruct (x_ready _ _ _ _ _ _ _ Ht) as [Hc (pr & Hp & _) _ _ _ _].
  intros. eapply either_copyout_run; try done.
Qed.

Section inode.
Context (hs held : list Z) (i : nat) (ip : inode).
Context (Hroom : (length hs + length held < NBUF)%nat) (Hdev : i_dev ip = dev)
        (Hlen : length (i_addrs ip) = S NDIRECT).

(** One turn of the loop copies the bytes of one block, or stops at an address that cannot be written. *)
Lemma readi_round s n tot off dst :
  tx hs held s -> space_of p L s -> g_itable s !! i = Some ip -> 0 <= tot < n -> 0 <= off -> off + (n - tot) < 2 ^ 32 ->
  0 <= dst < 2 ^ 64 -> (in_user L = false -> dst + (n - tot) < 2 ^ 64) -> mapped held s ip (off / BSIZE) ->
  let m := Z.min (n - tot) (BSIZE - off mod BSIZE) in
  (in_user L = true -> Forall byte (fbytes s ip off (Z.to_nat m))) ->
  exists k s', 0 <= k <= m /\ tx hs held s' /\ space_of p L s' /\ stored held dst (fbytes s ip off (Z.to_nat k)) s s' /\
    (forall j, 0 <= j < k -> can_write L (g_pmem s) (dst + j) = true) /\
    ((k = m /\ readi_body i (in_user L) n (tot, off, dst) s = Ret (inl (tot + m, off + m, dst + m)) s') \/
     (k < m /\ can_write L (g_pmem s) (dst + k) = false /\ readi_body i (in_user L) n (tot, off, dst) s = Ret (inr (-1)) s')).
Proof.
  intros Ht Hsp Hi Htot Hoff Hoff' Hdst Hdst' Hmap m Hby. pose proof (Z.mod_pos_bound off BSIZE ltac:(done)) as Hmod.
  assert (0 < m /\ off mod BSIZE + m <= BSIZE /\ m <= n - tot) as Hm by (unfold m; lia).
  unfold readi_body. destruct (Z.ltb_spec tot n); [|lia]. cbn [negb].
  destruct (bmap_mapped hs held s i ip _ Ht Hroom Hi Hdev Hlen Hmap) as (s1 & E1 & Ht1 & Hx1).
  rewrite (bind_run _ _ _ _ _ E1). destruct Hmap as [_ Ha Hh _].
  destruct (Z.eqb_spec (faddr s ip (off / BSIZE)) 0); [lia|].
  assert (g_itable s1 !! i = Some ip) as Hi1 by (by rewrite (xrel_itable _ _ _ _ Hx1)).
  rewrite (bind_run _ _ _ _ _ (arr_get_run "inode" g_itable i s1 ip Hi1)), Hdev.
  destruct (tx_bread dev st p pid hs held s1 _ Ht1 (conj (Z.lt_le_incl _ _ (proj1 Ha)) (proj2 Ha)) Hh Hroom) as (b & s2 & E2 & Ht2 & Hx2 & Hh2 & Hcl).
  rewrite (bind_run _ _ _ _ _ E2). cbv zeta. fold m.
  rewrite (bind_run _ _ _ _ _ (buf_data_run dev s2 pid _ _ _ Hh2)).
  rewrite (xr_view _ _ _ _ _ _ Hx1). change (overlay [] ?f ?c) with (f c). rewrite fbytes_block by (rewrite ?Z2Nat.id; try lia; apply Ht).
  pose proof (xrel_trans _ _ _ _ _ _ _ _ Hx1 Hx2) as Hx12. cbn [app] in Hx12.
  pose proof (space_xrel _ _ _ _ Hx12 Hsp) as Hsp2.
  destruct (tx_copyout hs _ s2 dst (fbytes s ip off (Z.to_nat m)) Ht2 Hsp2 Hdst Hby) as (r & k & m' & E3 & Hsp3 & Hl & Hw & Hr).
  rewrite (bind_run _ _ _ _ _ E3). set (s3 := put_pmem m' s2) in *.
  destruct (tx_brelse dev st p pid hs held s3 (faddr s ip (off / BSIZE)) b (view s1 (faddr s ip (off / BSIZE))))
    as (s4 & E4 & Ht4 & Hx4); [by apply tx_pmem|exact Hh2| |].
  { intros Hn. change (g_disk s3) with (g_disk s2). rewrite (xr_disk _ _ _ _ _ _ Hx2). by apply Hcl. }
  rewrite (xrel_pmem _ _ _ _ Hx12) in Hl, Hw, Hr. rewrite length_fbytes in Hr.
  assert (0 <= Z.of_nat k <= m) as Hk by lia.
  exists (Z.of_nat k), s4. split; [done|]. split; [done|]. split; [by eapply space_xrel|].
  rewrite Nat2Z.id. split; [|split; [done|]].
  - exists m'. split; [|exact (xrel_trans _ _ _ _ _ _ _ _ (xrel_put_pmem _ _ m' _ _ Hx12) Hx4)].
    replace (Z.to_nat m) with (k + (Z.to_nat m - k))%nat in Hl by lia.
    by rewrite fbytes_app, take_app_length' in Hl by (symmetry; apply length_fbytes).
  - destruct Hr as [[-> Ek]|(-> & Hlt & Hf)]; cbn [Z.eqb]; rewrite (bind_run _ _ _ _ _ E4); [left|right; split_and!; [lia|done..]].
    assert (dst + m < 2 ^ 64).
    { apply (can_write_end L (g_pmem s) dst m); [lia| |intros Hu; specialize (Hdst' Hu); lia]. intros j Hj. apply Hw. lia. }
    split; [lia|]. by rewrite u32_small, u64_small by lia.
Qed.

Lemma readi_loop fuel s n tot off dst :
  tx hs held s -> space_of p L s -> g_itable s !! i = Some ip -> 0 <= tot <= n -> 0 <= off -> off + (n - tot) < 2 ^ 32 ->
  0 <= dst < 2 ^ 64 -> (in_user L = false -> dst + (n - tot) < 2 ^ 64) ->
  (forall k, off / BSIZE <= k -> k * BSIZE < off + (n - tot) -> mapped held s ip k) ->
  (in_user L = true -> Forall byte (fbytes s ip off (Z.to_nat (n - tot)))) ->
  turns off (n - tot) <= Z.of_nat fuel ->
  exists k s', loop fuel (readi_body i (in_user L) n) (tot, off, dst) s = Ret (if k =? n - tot then n else -1) s' /\
    0 <= k <= n - tot /\ tx hs held s' /\ space_of p L s' /\ stored held dst (fbytes s ip off (Z.to_nat k)) s s' /\
    (forall j, 0 <= j < k -> can_write L (g_pmem s) (dst + j) = true) /\
    (k < n - tot -> can_write L (g_pmem s) (dst + k) = false).
Proof.
  revert s tot off dst. induction fuel as [|fuel IH]; intros s tot off dst Ht Hsp Hi Htot Hoff Hoff' Hdst Hdst' Hmap Hby Hf.
  { unfold turns in Hf. destruct (_ =? 0); [lia|]. change BSIZE with 1024 in *. zlia. }
  cbn [loop]. destruct (decide (tot = n)) as [->|Hne].
  - unfold readi_body. rewrite Z.ltb_irrefl. cbn [negb]. rewrite bind_ret_l, Z.sub_diag. exists 0, s.
    split; [done|]. split_and!; try done; [apply stored_nil|intros; lia..].
  - assert (mapped held s ip (off / BSIZE)) as Hm0.
    { apply Hmap; [lia|]. change BSIZE with 1024. zlia. }
    set (m := Z.min (n - tot) (BSIZE - off mod BSIZE)).
    pose proof (Z.mod_pos_bound off BSIZE ltac:(done)) as Hmod.
    assert (0 < m <= n - tot) as Hm by (unfold m; lia).
    assert (fbytes s ip off (Z.to_nat (n - tot)) =
      fbytes s ip off (Z.to_nat m) ++ fbytes s ip (off + m) (Z.to_nat (n - (tot + m)))) as Esp.
    { replace (Z.to_nat (n - tot)) with (Z.to_nat m + Z.to_nat (n - (tot + m)))%nat by lia.
      by rewrite fbytes_app, Z2Nat.id by lia. }
    rewrite Esp, Forall_app in Hby.
    destruct (readi_round s n tot off dst) as (k & s1 & Hk & Ht1 & Hsp1 & Hs1 & Hw1 & H1); try done; [lia|intros Hu; by apply Hby|].
    fold m in Hk, H1. pose proof (stored_view _ _ _ _ _ Hs1) as Hv.
    destruct H1 as [[-> E1]|(Hlt & Hno & E1)]; rewrite (bind_run _ _ _ _ _ E1).
    2:{ exists k, s1. rewrite (proj2 (Z.eqb_neq _ _)) by lia. split_and!; try done; lia. }
    pose proof (turns_next off (n - tot) ltac:(lia) Hoff) as Htn. cbv zeta in Htn. fold m in Htn.
    replace (n - tot - m) with (n - (tot + m)) in Htn by lia.
    assert (dst + m < 2 ^ 64) by (apply (can_write_end L (g_pmem s) dst m); [lia|done|intros Hu; specialize (Hdst' Hu); lia]).
    pose proof (stored_landed _ _ _ _ _ Hs1) as Hl1.
    destruct (IH s1 (tot + m) (off + m) (dst + m)) as (k2 & s2 & E2 & Hk2 & Ht2 & Hsp2 & Hs2 & Hw2 & Hno2); try done; try lia.
    + by rewrite (stored_itable _ _ _ _ _ Hs1).
    + intros Hu. specialize (Hdst' Hu). lia.
    + intros k Hk' Hk''. apply (mapped_ext held s); [done|]. apply Hmap; [|lia].
      etrans; [|exact Hk']. apply Z.div_le_mono; [done|lia].
    + intros Hu. rewrite (fbytes_ext s s1) by done. by apply Hby.
    + exists (m + k2), s2. split.
      { rewrite E2. destruct (Z.eqb_spec k2 (n - (tot + m))), (Z.eqb_spec (m + k2) (n - tot)); done || lia. }
      split; [lia|]. split; [done|]. split; [done|]. split; [|split].
      * replace (Z.to_nat (m + k2)) with (Z.to_nat m + Z.to_nat k2)%nat by lia.
        rewrite fbytes_app. rewrite (fbytes_ext s s1) in Hs2 by done.
        eapply stored_app; [exact Hs1|]. rewrite length_fbytes, Z2Nat.id by lia. exact Hs2.
      * intros j Hj. destruct (decide (j < m)); [apply Hw1; lia|]. specialize (Hw2 (j - m) ltac:(lia)).
        rewrite (can_write_landed _ _ _ _ _ _ Hl1) in Hw2. by replace (dst + m + (j - m)) with (dst + j) in Hw2 by lia.
      * intros Hlt. specialize (Hno2 ltac:(lia)). rewrite (can_write_landed _ _ _ _ _ _ Hl1) in Hno2.
        by rewrite Z.add_assoc.
Qed.

(** Files are shorter than 2^31 bytes. *)
Lemma readi_run s dst off n :
  tx hs held s -> space_of p L s -> g_itable s !! i = Some ip -> 0 <= i_size ip < 2 ^ 31 -> 0 <= off <= i_size ip -> 0 <= n ->
  off + n < 2 ^ 32 -> 0 <= dst < 2 ^ 64 -> (in_user L = false -> dst + n < 2 ^ 64) ->
  (forall k, off / BSIZE <= k -> k * BSIZE < Z.min (off + n) (i_size ip) -> mapped held s ip k) ->
  let r := Z.min n (i_size ip - off) in
  (in_user L = true -> Forall byte (fbytes s ip off (Z.to_nat r))) ->
  exists k s', readi i (in_user L) dst off n s = Ret (if k =? r then r else -1) s' /\ 0 <= k <= r /\
    tx hs held s' /\ space_of p L s' /\ stored held dst (fbytes s ip off (Z.to_nat k)) s s' /\
    (forall j, 0 <= j < k -> can_write L (g_pmem s) (dst + j) = true) /\
    (k < r -> can_write L (g_pmem s) (dst + k) = false).
Proof.
  intros Ht Hsp Hi Hsz Hoff Hn Hon Hdst Hdst' Hmap r Hby. unfold readi.
  rewrite (bind_run _ _ _ _ _ (arr_get_run "inode" g_itable i s ip Hi)).
  rewrite (u32_small (off + n)) by lia.
  destruct (Z.gtb_spec off (i_size ip)); [lia|]. destruct (Z.ltb_spec (off + n) off); [lia|]. cbn [orb].
  assert ((if off + n >? i_size ip then u32 (i_size ip - off) else n) = r) as ->.
  { unfold r. destruct (Z.gtb_spec (off + n) (i_size ip)); [rewrite u32_small by lia|]; lia. }
  destruct (readi_loop (io_fuel r) s r 0 off dst) as (k & s' & E & Hk & Ht' & Hsp' & Hs & Hw & Hno); try done; rewrite ?Z.sub_0_r; try done; try (unfold r; lia).
  - intros Hu. specialize (Hdst' Hu). unfold r. lia.
  - intros k Hk Hk'. apply Hmap; [done|]. unfold r in Hk'. lia.
  - unfold turns, io_fuel. change BSIZE with 1024. assert (0 <= r) by (unfold r; lia).
    destruct (Z.eqb_spec r 0); zlia.
  - rewrite Z.sub_0_r in E, Hk, Hno. rewrite (bind_run _ _ _ _ _ E). exists k, s'. unfold ret.
    rewrite s32_small by (destruct (k =? r); unfold r; lia). done.
Qed.
End inode.
End copied.

(** An offset past the end of the file, or a request that wraps around, reads nothing. *)
Lemma readi_refuses i ip u s dst off n :
  g_itable s !! i = Some ip -> 0 <= off < 2 ^ 32 -> 0 <= n < 2 ^ 32 ->
  (i_size ip <? off) || (2 ^ 32 <=? off + n) = true -> readi i u dst off n s = Ret 0 s.
Proof.
  intros Hi Hoff Hn H. unfold readi. rewrite (bind_run _ _ _ _ _ (arr_get_run "inode" g_itable i s ip Hi)).
  rewrite Z.gtb_ltb. destruct (i_size ip <? off); [done|]. cbn [orb] in *. apply Z.leb_le in H.
  rewrite (proj2 (Z.ltb_lt _ _)); [done|]. unfold u32, wrapU.
  rewrite <- (Z.mod_unique_pos (off + n) (2 ^ 32) 1 (off + n - 2 ^ 32)) by lia. lia.
Qed.

(** Into kernel memory the copy always succeeds. *)
Lemma readi_kernel hs held i ip s dst off n :
  (length hs + length held < NBUF)%nat -> i_dev ip = dev -> length (i_addrs ip) = S NDIRECT ->
  tx hs held s -> g_itable s !! i = Some ip -> 0 <= i_size ip < 2 ^ 31 -> 0 <= off <= i_size ip -> 0 <= n ->
  off + n < 2 ^ 32 -> 0 <= dst -> dst + n < 2 ^ 64 ->
  (forall k, off / BSIZE <= k -> k * BSIZE < Z.min (off + n) (i_size ip) -> mapped held s ip k) ->
  let r := Z.min n (i_size ip - off) in
  exists s', readi i false dst off n s = Ret r s' /\ tx hs held s' /\
    xrel held [] (put_pmem (storen (g_pmem s) dst (fbytes s ip off (Z.to_nat r))) s) s'.
Proof.
  intros Hroom Hdev Hlen Ht Hi Hsz Hoff Hn Hon Hdst Hdst' Hmap r.
  destruct (readi_run (KI := small_image) Kernel hs held i ip Hroom Hdev Hlen s dst off n)
    as (k & s' & E & Hk & Ht' & _ & (m & -> & Hx) & _ & Hno); try done; [lia|].
  fold r in E, Hk, Hno. assert (k = r) as ->.
  { destruct (decide (k < r)) as [Hlt|]; [by specialize (Hno Hlt)|lia]. }
  rewrite Z.eqb_refl in E. by exists s'.
Qed.

(** ** Directories *)

(** The first [n] entries of a directory: inode number and name. *)
Definition dents (s : kstate) (ip : inode) (n : nat) : list (Z * list Z) :=
  (fun j => (le_val (fbytes s ip (16 * Z.of_nat j) 2), cstr (fbytes s ip (16 * Z.of_nat j + 2) DIRSIZ))) <$> seq 0 n.

(** An entry in use with the given name, of which [DIRSIZ] bytes count. *)
Definition matches (name : list Z) (e : Z * list Z) : Prop := e.1 <> 0 /\ e.2 = take DIRSIZ (cstr name).

#[export] Instance matches_dec name e : Decision (matches name e).
Proof. unfold matches. apply _. Defined.

Lemma cstr_zeros n : cstr (replicate n 0) = [].
Proof. by destruct n. Qed.

Lemma cstr_pad n l : cstr (pad n l) = take n (cstr l).
Proof.
  unfold pad. revert n. induction l as [|b l IH]; intros n; cbn [cstr].
  - rewrite app_nil_l, take_nil, take_replicate, Nat.min_id. apply cstr_zeros.
  - destruct (Z.eqb_spec b 0); [rewrite app_nil_l, take_nil, take_replicate, Nat.min_id; apply cstr_zeros|].
    destruct n as [|n]; [done|]. cbn [app take cstr]. destruct (Z.eqb_spec b 0); [done|]. f_equal.
    rewrite <- IH. f_equal.
    destruct (decide (n <= length (cstr l))%nat).
    + rewrite !take_app_le by lia. done.
    + rewrite !take_app_ge by lia. f_equal. rewrite !take_replicate. f_equal. lia.
Qed.

Lemma take_cstr n l : (length l <= n)%nat -> take n (cstr l) = cstr l.
Proof.
  intros H. apply take_ge. etrans; [|exact H]. clear H. induction l as [|b l IH]; [done|]. simpl.
  destruct (b =? 0); simpl; lia.
Qed.

Lemma namecmp_zero name nm : length nm = DIRSIZ -> namecmp name nm = 0 <-> cstr nm = take DIRSIZ (cstr name).
Proof.
  intros H. unfold namecmp. rewrite strncmp_bytes_zero by (by rewrite !length_pad).
  rewrite !cstr_pad, (take_cstr _ nm) by lia. done.
Qed.

(** What [readi] left in the local directory entry. *)
Lemma de_read m l :
  Forall byte l -> length l = 16%nat ->
  load16 (storen m de_slot l) de_slot = le_val (take 2 l) /\ loadn (storen m de_slot l) (de_slot + 2) DIRSIZ = drop 2 l.
Proof.
  intros Hb Hl. pose proof (loadn_storen_same m de_slot l Hb) as E. rewrite Hl in E.
  change 16%nat with (2 + 14)%nat in E. rewrite loadn_app in E. unfold load_le.
  set (m' := storen m de_slot l) in *. split.
  - f_equal. transitivity (take 2 (loadn m' de_slot 2 ++ loadn m' (de_slot + Z.of_nat 2) 14)); [|by rewrite E].
    by rewrite take_app_length' by (by rewrite length_loadn).
  - transitivity (drop 2 (loadn m' de_slot 2 ++ loadn m' (de_slot + Z.of_nat 2) 14)); [|by rewrite E].
    by rewrite drop_app_length' by (by rewrite length_loadn).
Qed.

Lemma fbytes_byte s ip off n :
  (forall c, Forall byte (view s c)) -> Forall byte (fbytes s ip off n).
Proof.
  intros H. apply list.Forall_forall. intros x Hx. apply list_elem_of_fmap in Hx as (j & -> & _).
  unfold fbyte, byte_at. destruct (_ !! _) as [y|] eqn:E; [|by split].
  exact (Forall_lookup_1 _ _ _ _ (H _) E).
Qed.

Section dir.
Context (hs held : list Z) (i : nat) (ip : inode) (name : list Z).
Context (Hroom : (length hs + length held < NBUF)%nat) (Hdev : i_dev ip = dev)
        (Hlen : length (i_addrs ip) = S NDIRECT) (Hsz : 0 <= i_size ip < 2 ^ 31).

(** The state while the directory is searched: only memory has changed. *)
Definition searching (s s' : kstate) : Prop :=
  tx hs held s' /\ exists m, xrel held [] (put_pmem m s) s'.

Lemma searching_view s s' : searching s s' -> forall c, view s' c = view s c.
Proof. intros [_ [m H]] c. by rewrite (xr_view _ _ _ _ _ _ H). Qed.

Lemma searching_itable s s' : searching s s' -> g_itable s' = g_itable s.
Proof. intros [_ [m H]]. by rewrite (xrel_itable _ _ _ _ H). Qed.

Lemma searching_free l s s' : searching s s' -> lock_free l s -> lock_free l s'.
Proof.
  intros [_ [m H]] Hf. unfold lock_free, g_locks. by destruct (xrel_keeps _ _ _ _ _ _ H) as (_ & _ & -> & _).
Qed.

(** The end of [dirlookup]: the entry found is looked up in the inode table. *)
Definition found (r : option (nat * (Z * list Z))) (base : nat) (s : kstate) : outcome kstate (option (nat * Z)) :=
  match r with
  | Some (k, e) =>
      match iget_result dev e.1 (g_itable s) with
      | Some (x, t) => Ret (Some (x, 16 * Z.of_nat (base + k))) (put_itable t s)
      | None => Fail (Panicked "iget: no inodes")
      end
  | None => Ret None s
  end.

Lemma searching_stored s s' s'' m :
  searching s s' -> tx hs held s'' -> xrel held [] (put_pmem m s') s'' -> searching s s''.
Proof.
  intros [_ [m0 H]] Ht Hs. split; [done|]. exists m.
  exact (xrel_trans _ _ _ _ _ _ _ _ (xrel_put_pmem _ _ m _ _ H) Hs).
Qed.

Lemma dirlookup_round s s1 j n :
  searching s s1 -> g_itable s !! i = Some ip -> i_size ip = 16 * Z.of_nat n -> (j < n)%nat ->
  (forall k, 0 <= k -> k * BSIZE < i_size ip -> mapped held s ip k) -> (forall c, Forall byte (view s c)) ->
  exists e s2, dents s ip n !! j = Some e /\ searching s s2 /\
    dirlookup_body i name (16 * Z.of_nat j) s1 =
      if decide (matches name e)
      then (x <- iget dev e.1 ;; ret (inr (Some (x, 16 * Z.of_nat j)))) s2
      else Ret (inl (16 * Z.of_nat (S j))) s2.
Proof.
  intros Hse Hi Hn Hj Hmap Hby. pose proof (searching_view _ _ Hse) as Hv. set (off := 16 * Z.of_nat j) in *.
  assert (g_itable s1 !! i = Some ip) as Hi1 by (by rewrite (searching_itable _ _ Hse)).
  destruct (readi_kernel hs held i ip s1 de_slot off 16) as (s2 & E & Ht2 & Hs); try done;
    try (unfold off, de_slot; lia).
  { apply Hse. }
  { intros k Hk Hk'. apply (mapped_ext held s s1); [done|]. apply Hmap; [|lia].
    transitivity (off / BSIZE); [|done]. apply Z.div_pos; [unfold off; lia|done]. }
  replace (Z.min 16 (i_size ip - off)) with 16 in * by (unfold off; lia).
  rewrite (fbytes_ext s s1) in Hs by done. change (Z.to_nat 16) with 16%nat in Hs.
  destruct (de_read (g_pmem s1) (fbytes s ip off 16)) as [En Em]; [by apply fbytes_byte|apply length_fbytes|].
  change 16%nat with (2 + 14)%nat in En at 2, Em at 2. rewrite fbytes_app in En, Em.
  rewrite take_app_length' in En by (by rewrite length_fbytes). rewrite drop_app_length' in Em by (by rewrite length_fbytes).
  exists (le_val (fbytes s ip off 2), cstr (fbytes s ip (off + 2) DIRSIZ)), s2. split.
  { unfold dents. rewrite list_lookup_fmap, lookup_seq_lt by done. done. }
  split; [by eapply searching_stored|].
  unfold dirlookup_body. rewrite (bind_run _ _ _ _ _ (arr_get_run "inode" g_itable i s1 ip Hi1)).
  destruct (Z.ltb_spec off (i_size ip)); [|unfold off in *; lia]. cbn [negb].
  change sizeof_dirent with 16. rewrite (bind_run _ _ _ _ _ E), Z.eqb_refl. cbn [negb].
  unfold de_inum. rewrite (bind_run (gets _) _ s2 _ s2 eq_refl).
  rewrite (xrel_pmem _ _ _ _ Hs). change (g_pmem (put_pmem ?m s1)) with m. rewrite En.
  unfold matches. cbn [fst snd].
  assert (off + 16 = 16 * Z.of_nat (S j)) as Eo by (unfold off; lia). rewrite <- Eo.
  destruct (Z.eqb_spec (le_val (fbytes s ip off 2)) 0) as [Ez|Ez].
  { rewrite decide_False by tauto. done. }
  unfold de_name. rewrite (bind_run (gets _) _ s2 _ s2 eq_refl).
  rewrite (xrel_pmem _ _ _ _ Hs). change (g_pmem (put_pmem ?m s1)) with m. rewrite Em.
  change (Z.of_nat 2) with 2. change 14%nat with DIRSIZ.
  pose proof (namecmp_zero name (fbytes s ip (off + 2) DIRSIZ) (length_fbytes _ _ _ _)) as Hz.
  destruct (Z.eqb_spec (namecmp name (fbytes s ip (off + 2) DIRSIZ)) 0) as [Ec|Ec].
  - rewrite decide_True by tauto. by rewrite Hdev.
  - rewrite decide_False by tauto. done.
Qed.

(** The search from entry [j] on. *)
Lemma dirlookup_loop fuel s s1 j n :
  searching s s1 -> g_itable s !! i = Some ip -> i_size ip = 16 * Z.of_nat n -> (j <= n)%nat ->
  (forall k, 0 <= k -> k * BSIZE < i_size ip -> mapped held s ip k) -> (forall c, Forall byte (view s c)) ->
  lock_free LItable s -> (n - j < fuel)%nat ->
  exists s2, searching s s2 /\ loop fuel (dirlookup_body i name) (16 * Z.of_nat j) s1 =
    found (list_find (matches name) (drop j (dents s ip n))) j s2.
Proof.
  revert s1 j. induction fuel as [|fuel IH]; intros s1 j Hse Hi Hn Hj Hmap Hby Hlk Hf; [lia|]. cbn [loop].
  assert (length (dents s ip n) = n) as Hl by (unfold dents; by rewrite length_fmap, length_seq).
  destruct (decide (j = n)) as [->|Hne].
  - exists s1. split; [done|]. rewrite drop_ge by lia. cbn [list_find].
    assert (g_itable s1 !! i = Some ip) as Hi1 by (by rewrite (searching_itable _ _ Hse)).
    unfold dirlookup_body at 1. unfold bind at 1.
    rewrite (bind_run _ _ _ _ _ (arr_get_run "inode" g_itable i s1 ip Hi1)).
    destruct (Z.ltb_spec (16 * Z.of_nat n) (i_size ip)); [lia|]. done.
  - destruct (dirlookup_round s s1 j n) as (e & s2 & He & Hse2 & E); try done; [lia|].
    rewrite (drop_S _ e) by done. cbn [list_find]. unfold bind at 1. rewrite E.
    destruct (decide (matches name e)) as [Hm|Hm].
    + exists s2. split; [done|]. unfold bind.
      rewrite (iget_run dev e.1 s2) by (by apply (searching_free _ s)). cbn [found].
      by destruct (iget_result dev e.1 (g_itable s2)) as [[x t]|]; rewrite ?Nat.add_0_r.
    + cbn [obind]. destruct (IH s2 (S j)) as (s3 & Hse3 & E3); try done; [lia|lia|].
      exists s3. split; [done|]. rewrite E3.
      destruct (list_find (matches name) (drop (S j) (dents s ip n))) as [[k e']|]; [|done].
      cbn [found fmap option_fmap option_map prod_map fst snd]. by rewrite Nat.add_succ_r.
Qed.

Lemma dirlookup_run s n :
  tx hs held s -> g_itable s !! i = Some ip -> i_type ip = T_DIR -> i_size ip = 16 * Z.of_nat n ->
  (forall k, 0 <= k -> k * BSIZE < i_size ip -> mapped held s ip k) -> (forall c, Forall byte (view s c)) ->
  lock_free LItable s ->
  exists s2, searching s s2 /\ dirlookup i name s = found (list_find (matches name) (dents s ip n)) 0 s2.
Proof.
  intros Ht Hi Hty Hn Hmap Hby Hlk. unfold dirlookup.
  rewrite (bind_run _ _ _ _ _ (arr_get_run "inode" g_itable i s ip Hi)), Hty. cbn [Z.eqb negb].
  destruct (dirlookup_loop (dir_fuel (i_size ip)) s s 0 n) as (s2 & Hse & E); try done; try lia.
  - split; [done|]. exists (g_pmem s). replace (put_pmem (g_pmem s) s) with s by (by destruct s as [? [] ? ? ? ? ? ? ?]).
    apply xrel_refl.
  - unfold dir_fuel. change sizeof_dirent with 16. rewrite Hn. zlia.
  - exists s2. split; [done|]. exact E.
Qed.
End dir.
End read.

(** ** Theorems *)


(** [C17] [dirlookup] finds the first entry in use whose name agrees with the
    given one up to [DIRSIZ] bytes, returns its offset and a new reference to its inode,
    and returns null exactly when there is none.  It terminates, and neither
    the directory nor any block changes. *)
Theorem dirlookup_finds dev st p pid hs held i ip name s n :
  tx dev st p pid hs held s -> (length hs + length held < NBUF)%nat ->
  g_itable s !! i = Some ip -> i_dev ip = dev -> length (i_addrs ip) = S NDIRECT ->
  i_type ip = T_DIR -> i_size ip = 16 * Z.of_nat n -> i_size ip < 2 ^ 31 ->
  (forall k, 0 <= k -> k * BSIZE < i_size ip -> mapped dev held s ip k) ->
  (forall c, Forall byte (bview dev s c)) -> lock_free LItable s ->
  exists s2, tx dev st p pid hs held s2 /\ g_itable s2 = g_itable s /\ (forall c, bview dev s2 c = bview dev s c) /\
    dirlookup i name s =
      match list_find (fun e => e.1 <> 0 /\ e.2 = take DIRSIZ (cstr name)) (dents dev s ip n) with
      | None => Ret None s2
      | Some (k, e) =>
          match iget_result dev e.1 (g_itable s) with
          | Some (x, t) => Ret (Some (x, 16 * Z.of_nat k)) (put_itable t s2)
          | None => Fail (Panicked "iget: no inodes")
          end
      end.
Proof.
  intros Ht Hroom Hi Hdev Hlen Hty Hn Hsz Hmap Hby Hlk.
  destruct (dirlookup_run dev st p pid hs held i ip name Hroom Hdev Hlen ltac:(lia) s n) as (s2 & Hse & E); try done.
  exists s2. pose proof (searching_itable _ _ _ _ _ _ _ _ Hse) as Et. split; [apply Hse|]. split; [done|].
  split; [exact (searching_view _ _ _ _ _ _ _ _ Hse)|]. rewrite E. unfold found. rewrite Et.
  change (list_find (matches name)) with (list_find (fun e : Z * list Z => e.1 <> 0 /\ e.2 = take DIRSIZ (cstr name))).
  done.
Qed.

(** ** A directory with two entries *)

Definition dir46 : list Z :=
  [1; 0; 46] ++ replicate 13 0 ++ [5; 0; 97; 98] ++ replicate 12 0 ++ replicate 992 0.
Definition disk46 : gmap Z (list Z) := <[46 := dir46]> disk45.
Definition root46 : inode :=
  {| i_dev := 1; i_inum := 1; i_ref := 1; i_lock := zero_sleeplock; i_valid := true; i_type := T_DIR;
     i_major := 0; i_minor := 0; i_nlink := 1; i_size := 32; i_addrs := 46 :: replicate 12 0 |}.
Definition table46 : list inode := root46 :: replicate 49 zero_inode.
Definition start46 : kstate := put_itable table46 (put_sb sb50 (set_klog log50 (rebooted disk46))).

Lemma bytes_check l : forallb (fun b => (0 <=? b) && (b <? 256)) l = true -> Forall byte l.
Proof.
  rewrite forallb_forall. intros H. apply list.Forall_forall. intros b Hb.
  specialize (H b ltac:(by apply list_elem_of_In)). unfold byte. lia.
Qed.

Lemma disk46_blocks c : length (disk_block disk46 c) = 1024%nat /\ Forall byte (disk_block disk46 c).
Proof.
  unfold disk_block, disk46, disk45. destruct (decide (c = 46)) as [->|H46]; [|destruct (decide (c = 45)) as [->|H45]].
  - rewrite lookup_insert_eq. split; [reflexivity|]. apply bytes_check. vm_compute. reflexivity.
  - rewrite lookup_insert_ne, lookup_singleton_eq by done. split; [reflexivity|]. apply bytes_check. vm_compute. reflexivity.
  - rewrite lookup_insert_ne, lookup_singleton_ne by done. split; [reflexivity|]. apply bytes_check. vm_compute. reflexivity.
Qed.

Lemma tx_itable dev st p pid hs held t s : tx dev st p pid hs held s -> tx dev st p pid hs held (put_itable t s).
Proof.
  intros [Hok Hr ? ? ? ? ? ? ? ?]. split; try done.
  - eapply cache_ok_kbio; [|exact Hok]. done.
  - by destruct Hr.
Qed.

Lemma start46_tx : tx 1 2 0 1 [] [] start46.
Proof. apply tx_itable, start_tx. intros c. apply disk46_blocks. Qed.

Lemma bview_itable t s c : bview 1 (put_itable t s) c = bview 1 s c.
Proof. reflexivity. Qed.

Lemma start46_view c : bview 1 start46 c = disk_block disk46 c.
Proof. unfold start46. rewrite bview_itable. apply start_view. intros x. apply disk46_blocks. Qed.

Lemma start46_mapped k : 0 <= k -> k * BSIZE < 32 -> mapped 1 [] start46 root46 k.
Proof.
  intros H0 H1. assert (k = 0) as -> by (change BSIZE with 1024 in H1; lia).
  split; [by split|by split|apply not_elem_of_nil|]. intros H. change (Z.of_nat NDIRECT) with 12 in H. lia.
Qed.

(** The bytes of the directory, computed from the disk. *)
Lemma start46_bytes off n : 0 <= off < 1024 -> off + Z.of_nat n <= 1024 ->
  fbytes 1 start46 root46 off n = slice dir46 (Z.to_nat off) n.
Proof.
  intros H0 H1. rewrite <- (Z.mod_small off BSIZE) at 2 by (change BSIZE with 1024; lia).
  rewrite <- (fbytes_block 1 start46 root46 off n); [|apply start46_tx|lia|].
  - rewrite start46_view. f_equal. unfold faddr. rewrite Z.div_small by (change BSIZE with 1024; lia). reflexivity.
  - rewrite Z.mod_small by (change BSIZE with 1024; lia). change BSIZE with 1024. lia.
Qed.

(** The first process with the given memory and page table. *)
Definition in_process (m : mem) (root : Z) (s : kstate) : kstate :=
  put_pmem m (put_procs (alter (set_p_pagetable root) 0%nat (g_procs s)) s).

Lemma tx_in_process dev st pid hs held m root s : tx dev st 0 pid hs held s -> tx dev st 0 pid hs held (in_process m root s).
Proof.
  intros Ht. apply tx_pmem. destruct Ht as [Hok [Hc (pr & Hp & Hid) Hl Hpl Hbc Hbl] ? ? ? ? ? ? ? ?]. split; try done.
  - eapply cache_ok_kbio; [|exact Hok]. done.
  - split; try done.
    + exists (set_p_pagetable root pr). split; [|done].
      change (alter (set_p_pagetable root) 0%nat (g_procs s) !! 0%nat = Some (set_p_pagetable root pr)).
      by rewrite list_lookup_alter_eq, Hp.
    + change (length (alter (set_p_pagetable root) 0%nat (g_procs s)) = NPROC). by rewrite length_alter.
Qed.

Lemma in_process_space {KI : KernelImage} dev st pid hs held m root T s :
  tx dev st 0 pid hs held s -> uspace m root T -> space_of 0 (User T) (in_process m root s).
Proof.
  intros Ht Hu. destruct (x_ready _ _ _ _ _ _ _ Ht) as [_ (pr & Hp & _) _ _ _ _]. exists (set_p_pagetable root pr). split; [|done].
  change (alter (set_p_pagetable root) 0%nat (g_procs s) !! 0%nat = Some (set_p_pagetable root pr)).
  by rewrite list_lookup_alter_eq, Hp.
Qed.

Lemma in_process_view m root s c : bview 1 (in_process m root s) c = bview 1 s c.
Proof. reflexivity. Qed.

Lemma in_process_fbytes m root s ip off n : fbytes 1 (in_process m root s) ip off n = fbytes 1 s ip off n.
Proof. by apply fbytes_ext. Qed.


(** The name "ab" is the second entry; "zz" is not there. *)
Lemma start46_dents : dents 1 start46 root46 2 = [(1, [46]); (5, [97; 98])].
Proof.
  unfold dents. cbn [seq fmap list_fmap]. rewrite !start46_bytes by (unfold DIRSIZ; lia). vm_compute. reflexivity.
Qed.

Lemma free_start l t b lg s : g_locks s = ∅ -> lock_free l (put_itable t (put_sb b (set_klog lg s))).
Proof. intros H. unfold lock_free. change (g_locks s !! l = None). rewrite H. apply lookup_empty. Qed.

Lemma start46_free : lock_free LItable start46.
Proof.
  apply free_start. apply (rebooted_rest 1 disk46); [lia|]. intros c. apply disk46_blocks.
Qed.

Lemma table46_iget : iget_result 1 5 table46 = Some (1%nat, <[1%nat := fresh_inode 1 5 zero_inode]> table46).
Proof. vm_compute. reflexivity. Qed.

Lemma start46_itable : g_itable start46 = table46.
Proof. unfold start46. generalize (put_sb sb50 (set_klog log50 (rebooted disk46))). intros s. reflexivity. Qed.

Lemma dirlookup_finds_witness : exists s2 t,
  dirlookup 0 [97; 98] start46 = Ret (Some (1%nat, 16)) (put_itable t s2) /\ iref t 1 5 = 1.
Proof.
  destruct (dirlookup_finds 1 2 0 1 [] [] 0 root46 [97; 98] start46 2 start46_tx) as (s2 & _ & _ & _ & E).
  - simpl. unfold NBUF. lia.
  - rewrite start46_itable. reflexivity.
  - reflexivity.
  - reflexivity.
  - reflexivity.
  - reflexivity.
  - simpl. lia.
  - exact start46_mapped.
  - intros c. rewrite start46_view. apply disk46_blocks.
  - exact start46_free.
  - rewrite start46_dents, start46_itable in E. revert E. generalize start46. intros s E.
    exists s2, (<[1%nat := fresh_inode 1 5 zero_inode]> table46).
    split; [|vm_compute; reflexivity]. rewrite E. cbn [list_find]. rewrite decide_False by (intros [_ H]; discriminate H).
    rewrite decide_True by (split; [discriminate|reflexivity]).
    cbn. rewrite table46_iget. reflexivity.
Defined.
