(* ===== verification/FsWrite.v ===== *)
(** * Writing files: [bmap], [iupdate] and [writei] of kernel/fs.c

    A file is what its inode's addresses and the cache define: [fblk] is the disk block of a
    file block, 0 where nothing is allocated, and [fcell] is a byte, 0 in a hole.
    [fwf] says that the file's blocks are its own.  Allocating a block changes no byte of the
    file and no block of anybody else; [writei] stores the given bytes, extends the size and
    writes the inode back, and stops early only when the disk is full.  The source is
    kernel memory or memory of the process that it may read. *)

From Stdlib Require Import ZArith Lia.
From stdpp Require Import base list gmap strings numbers option.
From S2P Require Import Prelude Bytes Riscv Cstring Kstate Sched Kalloc Vm VmSpec VmUser Uvm Copy CopySpec PrintSpec Bio BioSpec Log LogSpec Fs FsPure Icache FsTx Bitmap FsRead.

Section file.
Context (dev st : Z) (sb : superblock) (held : list Z) (ib : Z).

(** ** Blocks and bytes of a file *)

(** [v] is the content of the blocks as the cache shows it. *)
Definition fblk (v : Z -> list Z) (ip : inode) (k : Z) : Z :=
  if k <? Z.of_nat NDIRECT then default 0 (i_addrs ip !! Z.to_nat k)
  else if findirect ip =? 0 then 0
  else get_le 4 (v (findirect ip)) (Z.to_nat (4 * (k - Z.of_nat NDIRECT))).

Definition fcell (v : Z -> list Z) (ip : inode) (off : Z) : Z :=
  let b := fblk v ip (off / BSIZE) in
  if b =? 0 then 0 else byte_at (v b) (off mod BSIZE).

(** A block that holds data or addresses of the file. *)
Definition owns (v : Z -> list Z) (ip : inode) (c : Z) : Prop :=
  c <> 0 /\ (c = findirect ip \/ exists k, 0 <= k < MAXFILE /\ fblk v ip k = c).

Definition bitmap_block (c : Z) : Prop := exists b, 0 <= b < sb_size sb /\ c = BBLOCK b sb.

(** A block of the data area that is in use; [ib] is the block of the inode itself. *)
Record data_block (u : Z -> bool) (c : Z) : Prop := {
  db_range : 0 < c < sb_size sb;
  db_used : u c = true;
  db_bmap : ~ bitmap_block c;
  db_log : ~ (st <= c <= st + 29);
  db_held : c ∉ held;
  db_inode : c <> ib
}.

(** The file's blocks are data blocks, and no block is used twice. *)
Record fwf (v : Z -> list Z) (u : Z -> bool) (ip : inode) : Prop := {
  fw_len : length (i_addrs ip) = S NDIRECT;
  fw_own : forall c, owns v ip c -> data_block u c;
  fw_inj : forall k k', 0 <= k < MAXFILE -> 0 <= k' < MAXFILE -> fblk v ip k <> 0 -> fblk v ip k = fblk v ip k' -> k = k';
  fw_ind : forall k, 0 <= k < MAXFILE -> fblk v ip k <> 0 -> fblk v ip k <> findirect ip
}.

(** From one file to another with the same owner: blocks that are in use and belong neither to the
    bitmap nor to the file keep their content, and what is newly in use is the file's. *)
Record grows (v : Z -> list Z) (u : Z -> bool) (ip : inode) (v' : Z -> list Z) (u' : Z -> bool) (ip' : inode) : Prop := {
  gr_inode : ip' = set_i_addrs (i_addrs ip') ip;
  gr_wf : fwf v' u' ip';
  gr_other : forall c, 0 <= c < sb_size sb -> u c = true -> ~ bitmap_block c -> ~ owns v ip c ->
    v' c = v c /\ ~ owns v' ip' c;
  gr_used : forall c, 0 <= c < sb_size sb -> u c = true -> u' c = true;
  gr_new : forall c, 0 <= c < sb_size sb -> u' c = true -> u c = true \/ owns v' ip' c;
  gr_same : forall k, 0 <= k < MAXFILE -> fblk v ip k <> 0 -> fblk v' ip' k = fblk v ip k;
  gr_ind : findirect ip <> 0 -> findirect ip' = findirect ip
}.

Lemma grows_refl v u ip : fwf v u ip -> grows v u ip v u ip.
Proof. intros H. split; auto. by destruct ip. Qed.

Lemma grows_owns v u ip v' u' ip' c : grows v u ip v' u' ip' -> owns v ip c -> owns v' ip' c.
Proof.
  intros G [Hc [->|(k & Hk & E)]]; split; try done; [left|right].
  - symmetry. by apply (gr_ind _ _ _ _ _ _ G).
  - exists k. split; [done|]. rewrite (gr_same _ _ _ _ _ _ G k Hk) by congruence. done.
Qed.

Lemma grows_trans v1 u1 ip1 v2 u2 ip2 v3 u3 ip3 :
  grows v1 u1 ip1 v2 u2 ip2 -> grows v2 u2 ip2 v3 u3 ip3 -> grows v1 u1 ip1 v3 u3 ip3.
Proof.
  intros [I1 W1 O1 U1 N1 S1 D1] G2. pose proof (fun c => grows_owns _ _ _ _ _ _ c G2) as M.
  destruct G2 as [I2 W2 O2 U2 N2 S2 D2]. split; [|done| | | | |].
  - rewrite I2, I1. done.
  - intros c Hc Hu Hb Ho. destruct (O1 c Hc Hu Hb Ho) as [E1 Ho1]. destruct (O2 c Hc (U1 c Hc Hu) Hb Ho1) as [E2 Ho2].
    by rewrite E2.
  - auto.
  - intros c Hc Hu. destruct (N2 c Hc Hu) as [Hu2|]; [|by right]. destruct (N1 c Hc Hu2); [by left|right; auto].
  - intros k Hk Hn. rewrite <- (S1 k Hk Hn). apply S2; [done|]. by rewrite S1.
  - intros Hn. rewrite <- (D1 Hn). apply D2. by rewrite D1.
Qed.

(** The bytes of two views of a file agree. *)
Definition same_cells (v : Z -> list Z) (ip : inode) (v' : Z -> list Z) (ip' : inode) : Prop :=
  forall off, 0 <= off < MAXFILE * BSIZE -> fcell v' ip' off = fcell v ip off.

(** The addresses and the blocks determine the bytes. *)
Lemma same_cells_blocks v ip v' ip' :
  (forall k, 0 <= k < MAXFILE -> fblk v ip k <> 0 -> fblk v' ip' k = fblk v ip k /\ v' (fblk v ip k) = v (fblk v ip k)) ->
  (forall k, 0 <= k < MAXFILE -> fblk v ip k = 0 -> fblk v' ip' k = 0 \/ v' (fblk v' ip' k) = replicate 1024 0) ->
  same_cells v ip v' ip'.
Proof.
  intros H1 H2 off Hoff. change MAXFILE with 268 in *. change BSIZE with 1024 in Hoff.
  assert (0 <= off / BSIZE < 268) as Hk by (change BSIZE with 1024; zlia). unfold fcell. cbv zeta.
  destruct (Z.eqb_spec (fblk v ip (off / BSIZE)) 0) as [E|E].
  - destruct (H2 _ Hk E) as [->| ->]; [done|]. destruct (Z.eqb_spec (fblk v' ip' (off / BSIZE)) 0); [done|].
    unfold byte_at. pose proof (Z.mod_pos_bound off BSIZE ltac:(done)) as Hm. change BSIZE with 1024 in *.
    rewrite lookup_replicate_2 by lia. done.
  - destruct (H1 _ Hk E) as [E1 E2]. rewrite E1, E2. by destruct (Z.eqb_spec (fblk v ip (off / BSIZE)) 0).
Qed.

(** ** Allocation *)

(** A block that was free is marked and zeroed. *)
Record fresh_block (u : Z -> bool) (v' : Z -> list Z) (u' : Z -> bool) (r : Z) : Prop := {
  fb_range : 0 < r < sb_size sb;
  fb_free : u r = false;
  fb_bmap : ~ bitmap_block r;
  fb_log : ~ (st <= r <= st + 29);
  fb_held : r ∉ held;
  fb_inode : r <> ib;
  fb_used : forall b, 0 <= b < sb_size sb -> u' b = if decide (b = r) then true else u b;
  fb_zero : v' r = replicate 1024 0
}.

Lemma fresh_data u v' u' r : fresh_block u v' u' r -> data_block u' r.
Proof. intros [? ? ? ? ? ? Hu ?]. split; try done. rewrite Hu by lia. by rewrite decide_True. Qed.

Lemma data_mono u v' u' r c : fresh_block u v' u' r -> data_block u c -> data_block u' c /\ c <> r.
Proof.
  intros [? ? ? ? ? ? Hu ?] [? ? ? ? ? ?]. assert (c <> r) by congruence. split; [|done]. split; try done.
  rewrite Hu by lia. by rewrite decide_False.
Qed.

Lemma fresh_used u v' u' r c : fresh_block u v' u' r -> 0 <= c < sb_size sb -> u c = true -> u' c = true /\ c <> r.
Proof.
  intros F Hc Hu. assert (c <> r) by (intros ->; rewrite (fb_free _ _ _ _ F) in Hu; discriminate).
  rewrite (fb_used _ _ _ _ F) by done. by rewrite decide_False.
Qed.

(** The new block becomes file block [k]. *)
Lemma grows_block v u ip v' u' ip' r k :
  fwf v u ip -> fresh_block u v' u' r -> 0 <= k < MAXFILE -> fblk v ip k = 0 ->
  ip' = set_i_addrs (i_addrs ip') ip -> length (i_addrs ip') = S NDIRECT -> findirect ip' = findirect ip ->
  (forall k', 0 <= k' < MAXFILE -> fblk v' ip' k' = if decide (k' = k) then r else fblk v ip k') ->
  (forall c, c <> r -> ~ bitmap_block c -> ~ (c <> 0 /\ c = findirect ip) -> v' c = v c) ->
  grows v u ip v' u' ip' /\ same_cells v ip v' ip'.
Proof.
  intros W F Hk H0 Hip Hlen Hind Hblk Hv. destruct W as [_ Wown Winj Wind].
  assert (forall k', 0 <= k' < MAXFILE -> fblk v ip k' <> 0 -> data_block u (fblk v ip k')) as Wb.
  { intros k' Hk' Hn. apply Wown. split; [done|]. right. by exists k'. }
  assert (forall c, owns v' ip' c -> c = r \/ owns v ip c) as Own.
  { intros c [Hc [->|(k' & Hk' & E)]]; [right; split; [done|left; congruence]|].
    rewrite (Hblk k' Hk') in E. destruct (decide (k' = k)); [by left|right]. split; [done|]. right. by exists k'. }
  split; [split; [done| | | | | |done]|].
  - split; [done| | |].
    + intros c Hc. destruct (Own c Hc) as [->|Ho]; [by eapply fresh_data|]. by eapply data_mono; [exact F|apply Wown].
    + intros k1 k2 H1 H2. rewrite !Hblk by done. destruct (decide (k1 = k)) as [->|N1], (decide (k2 = k)) as [->|N2]; try done.
      * intros _ E. destruct (decide (fblk v ip k2 = 0)) as [E0|E0]; [pose proof (fb_range _ _ _ _ F); lia|].
        destruct (data_mono _ _ _ _ _ F (Wb k2 H2 E0)). congruence.
      * intros Hn E. destruct (data_mono _ _ _ _ _ F (Wb k1 H1 Hn)). congruence.
      * by apply Winj.
    + intros k1 H1. rewrite Hblk, Hind by done. destruct (decide (k1 = k)) as [->|N1]; [|by apply Wind].
      intros Hn E. destruct (data_mono _ _ _ _ r F) as [_ ?]; [|done]. apply Wown. split; [done|by left].
  - intros c Hc Hu Hb Ho. destruct (fresh_used _ _ _ _ _ F Hc Hu) as [_ Hr]. split.
    + apply Hv; [done|done|]. intros [Hn E]. apply Ho. split; [done|by left].
    + intros Ho'. by destruct (Own c Ho') as [->|].
  - intros c Hc Hu. by eapply fresh_used.
  - intros c Hc. rewrite (fb_used _ _ _ _ F) by done. destruct (decide (c = r)) as [->|]; [|by left].
    intros _. right. pose proof (fb_range _ _ _ _ F). split; [lia|]. right. exists k. split; [done|].
    rewrite Hblk by done. by rewrite decide_True.
  - intros k' Hk' Hn. rewrite Hblk by done. rewrite decide_False; [done|congruence].
  - apply same_cells_blocks.
    + intros k' Hk' Hn. rewrite Hblk by done. rewrite decide_False by congruence. split; [done|].
      destruct (data_mono _ _ _ _ _ F (Wb k' Hk' Hn)) as [D ?]. apply Hv; [done|apply D|].
      intros [_ E]. by apply (Wind k' Hk' Hn).
    + intros k' Hk' Hn. rewrite !Hblk by done. destruct (decide (k' = k)); [right; apply F|by left].
Qed.

(** The new block becomes the table of the indirect blocks: it maps nothing yet. *)
Lemma grows_ind v u ip v' u' ip' r :
  fwf v u ip -> fresh_block u v' u' r -> findirect ip = 0 ->
  ip' = set_i_addrs (i_addrs ip') ip -> length (i_addrs ip') = S NDIRECT -> findirect ip' = r ->
  (forall k', 0 <= k' < MAXFILE -> fblk v' ip' k' = fblk v ip k') ->
  (forall c, c <> r -> ~ bitmap_block c -> v' c = v c) ->
  grows v u ip v' u' ip' /\ same_cells v ip v' ip'.
Proof.
  intros W F H0 Hip Hlen Hind Hblk Hv. destruct W as [_ Wown Winj Wind].
  assert (forall k', 0 <= k' < MAXFILE -> fblk v ip k' <> 0 -> data_block u (fblk v ip k')) as Wb.
  { intros k' Hk' Hn. apply Wown. split; [done|]. right. by exists k'. }
  assert (forall c, owns v' ip' c -> c = r \/ owns v ip c) as Own.
  { intros c [Hc [->|(k' & Hk' & E)]]; [by left|right]. rewrite (Hblk k' Hk') in E.
    split; [done|]. right. by exists k'. }
  split; [split; [done| | | | | |done]|].
  - split; [done| | |].
    + intros c Hc. destruct (Own c Hc) as [->|Ho]; [by eapply fresh_data|]. by eapply data_mono; [exact F|apply Wown].
    + intros k1 k2 H1 H2. rewrite !Hblk by done. by apply Winj.
    + intros k1 H1. rewrite Hblk, Hind by done. intros Hn. by destruct (data_mono _ _ _ _ _ F (Wb k1 H1 Hn)).
  - intros c Hc Hu Hb Ho. destruct (fresh_used _ _ _ _ _ F Hc Hu) as [_ Hr]. split; [by apply Hv|].
    intros Ho'. by destruct (Own c Ho') as [->|].
  - intros c Hc Hu. by eapply fresh_used.
  - intros c Hc. rewrite (fb_used _ _ _ _ F) by done. destruct (decide (c = r)) as [->|]; [|by left].
    intros _. right. pose proof (fb_range _ _ _ _ F). split; [lia|]. by left.
  - intros k' Hk' Hn. by rewrite Hblk.
  - apply same_cells_blocks.
    + intros k' Hk' Hn. rewrite Hblk by done. split; [done|].
      destruct (data_mono _ _ _ _ _ F (Wb k' Hk' Hn)) as [D ?]. apply Hv; [done|apply D].
    + intros k' Hk' Hn. rewrite !Hblk by done. by left.
Qed.

(** ** Changing one block *)

(** The addresses of a file do not depend on a block that is not its table. *)
Lemma fblk_other v v' ip a d k :
  (forall c, v' c = if decide (c = a) then d else v c) -> (findirect ip <> 0 -> findirect ip <> a) ->
  fblk v' ip k = fblk v ip k.
Proof.
  intros Hv Hn. unfold fblk. destruct (k <? _); [done|]. destruct (Z.eqb_spec (findirect ip) 0); [done|].
  by rewrite Hv, decide_False by auto.
Qed.

(** Nothing changed. *)
Lemma grows_ext v u ip v' u' :
  fwf v u ip -> (forall c, v' c = v c) -> (forall b, 0 <= b < sb_size sb -> u' b = u b) ->
  grows v u ip v' u' ip /\ same_cells v ip v' ip.
Proof.
  intros [Wl Wown Winj Wind] Hv Hu.
  assert (forall k, fblk v' ip k = fblk v ip k) as Hb by (intros k; unfold fblk; by rewrite Hv).
  assert (forall c, owns v' ip c <-> owns v ip c) as Own by (intros c; unfold owns; by setoid_rewrite Hb).
  split; [split|]; try done.
  - by destruct ip.
  - split; [done| |intros k1 k2; rewrite !Hb; apply Winj|intros k1; rewrite Hb; apply Wind].
    intros c Hc. apply Own, Wown in Hc as [? ? ? ? ? ?]. split; try done. rewrite Hu by lia. done.
  - intros c Hc _ _ Ho. by rewrite Own.
  - intros c Hc. by rewrite Hu.
  - intros c Hc. rewrite Hu by done. by left.
  - intros off _. unfold fcell. cbv zeta. by rewrite Hb, Hv.
Qed.

(** New content for file block [k]. *)
Lemma grows_fill v u ip v' u' k d :
  fwf v u ip -> 0 <= k < MAXFILE -> fblk v ip k <> 0 ->
  (forall c, v' c = if decide (c = fblk v ip k) then d else v c) ->
  (forall b, 0 <= b < sb_size sb -> u' b = u b) ->
  grows v u ip v' u' ip /\
  forall off, 0 <= off < MAXFILE * BSIZE ->
    fcell v' ip off = if decide (off / BSIZE = k) then byte_at d (off mod BSIZE) else fcell v ip off.
Proof.
  intros W Hk Hn Hv Hu. destruct W as [Wl Wown Winj Wind].
  assert (forall k', fblk v' ip k' = fblk v ip k') as Hb.
  { intros k'. apply (fblk_other v v' ip _ d k' Hv). intros _ E. by apply (Wind k Hk Hn). }
  assert (forall c, owns v' ip c <-> owns v ip c) as Own by (intros c; unfold owns; by setoid_rewrite Hb).
  split; [split|].
  - by destruct ip.
  - split; [done| |intros k1 k2; rewrite !Hb; apply Winj|intros k1; rewrite Hb; apply Wind].
    intros c Hc. apply Own, Wown in Hc as [? ? ? ? ? ?]. split; try done. rewrite Hu by lia. done.
  - intros c Hc _ _ Ho. rewrite Own. split; [|done]. rewrite Hv. apply decide_False. intros ->.
    apply Ho. split; [done|]. right. by exists k.
  - intros c Hc. by rewrite Hu.
  - intros c Hc. rewrite Hu by done. by left.
  - done.
  - done.
  - intros off Hoff. change MAXFILE with 268 in *. change BSIZE with 1024 in Hoff.
    assert (0 <= off / BSIZE < 268) as Ho by (change BSIZE with 1024; zlia). unfold fcell. cbv zeta. rewrite Hb.
    destruct (decide (off / BSIZE = k)) as [->|Hne].
    + rewrite (proj2 (Z.eqb_neq _ _) Hn), Hv. by rewrite decide_True.
    + destruct (Z.eqb_spec (fblk v ip (off / BSIZE)) 0) as [|E]; [done|]. rewrite Hv, decide_False; [done|].
      intros E'. by apply Hne, (Winj _ k Ho Hk E).
Qed.

(** Writing the inode's own block. *)
Lemma fwf_inode_block v u ip v' u' ip' d :
  fwf v u ip -> i_addrs ip' = i_addrs ip -> (forall c, v' c = if decide (c = ib) then d else v c) ->
  (forall b, 0 <= b < sb_size sb -> u' b = u b) ->
  fwf v' u' ip' /\ (forall off, 0 <= off < MAXFILE * BSIZE -> fcell v' ip' off = fcell v ip off) /\
  (forall c, owns v' ip' c <-> owns v ip c) /\ (forall k, fblk v' ip' k = fblk v ip k).
Proof.
  intros W Ha Hv Hu. pose proof (fw_own _ _ _ W) as Wown.
  assert (findirect ip' = findirect ip) as Ei by (unfold findirect; by rewrite Ha).
  assert (forall k, fblk v' ip' k = fblk v ip k) as Hb.
  { intros k. rewrite <- (fblk_other v v' ip ib d k Hv); [unfold fblk; by rewrite Ha, Ei|].
    intros Hn. apply (Wown (findirect ip)). split; [done|by left]. }
  assert (forall c, owns v' ip' c <-> owns v ip c) as Own by (intros c; unfold owns; rewrite Ei; by setoid_rewrite Hb).
  split_and!; [| |done|done].
  - destruct W as [Wl _ Winj Wind]. split; [by rewrite Ha| |intros k1 k2; rewrite !Hb; apply Winj|intros k1; rewrite Hb, Ei; apply Wind].
    intros c Hc. apply Own, Wown in Hc as [? ? ? ? ? ?]. split; try done. rewrite Hu by lia. done.
  - intros off Hoff. change MAXFILE with 268 in *. change BSIZE with 1024 in Hoff.
    assert (0 <= off / BSIZE < 268) as Ho by (change BSIZE with 1024; zlia). unfold fcell. cbv zeta. rewrite Hb.
    destruct (Z.eqb_spec (fblk v ip (off / BSIZE)) 0) as [|E]; [done|]. rewrite Hv, decide_False; [done|].
    apply (Wown (fblk v ip (off / BSIZE))). split; [done|]. right. by exists (off / BSIZE).
Qed.

(** ** A file without blocks *)

Lemma fblk_empty v ip k : i_addrs ip = replicate 13 0 -> 0 <= k < MAXFILE -> fblk v ip k = 0.
Proof.
  intros Ha Hk. unfold fblk, findirect. rewrite Ha. change (Z.of_nat NDIRECT) with 12. destruct (Z.ltb_spec k 12); [|done].
  by rewrite lookup_replicate_2 by lia.
Qed.

Lemma fwf_empty v u ip : i_addrs ip = replicate 13 0 -> fwf v u ip.
Proof.
  intros Ha. split; [by rewrite Ha| | |].
  - intros c [Hc [->|(k & Hk & E)]]; [by unfold findirect in Hc; rewrite Ha in Hc|]. by rewrite fblk_empty in E.
  - intros k k' Hk _ Hn. by rewrite fblk_empty in Hn.
  - intros k Hk Hn. by rewrite fblk_empty in Hn.
Qed.

(** ** Entries of the table *)

Lemma get_le_zeros o : (o + 4 <= 1024)%nat -> get_le 4 (replicate 1024 0) o = 0.
Proof.
  intros H. unfold get_le, slice. rewrite drop_replicate, take_replicate, Nat.min_l by lia. reflexivity.
Qed.

(** A new direct block. *)
Lemma fblk_set_direct v v' ip j r k :
  length (i_addrs ip) = S NDIRECT -> (j < NDIRECT)%nat -> 0 <= k < MAXFILE ->
  (findirect ip <> 0 -> v' (findirect ip) = v (findirect ip)) ->
  fblk v' (set_addr j r ip) k = if decide (k = Z.of_nat j) then r else fblk v ip k.
Proof.
  intros Hl Hj Hk Hv. unfold fblk, findirect, set_addr in *. cbn [i_addrs set_i_addrs].
  rewrite (list_lookup_insert_ne _ j NDIRECT) by lia. change (Z.of_nat NDIRECT) with 12. unfold NDIRECT in Hj.
  destruct (Z.ltb_spec k 12) as [Hlt|Hge].
  - destruct (decide (k = Z.of_nat j)) as [->|Hne].
    + rewrite Nat2Z.id, list_lookup_insert_eq; [done|]. rewrite Hl. unfold NDIRECT. lia.
    + by rewrite list_lookup_insert_ne by lia.
  - rewrite decide_False by lia. destruct (Z.eqb_spec (default 0 (i_addrs ip !! NDIRECT)) 0); [done|]. by rewrite Hv.
Qed.

(** A new table, empty. *)
Lemma fblk_set_table v v' ip r k :
  length (i_addrs ip) = S NDIRECT -> findirect ip = 0 -> 0 <= k < MAXFILE -> v' r = replicate 1024 0 ->
  fblk v' (set_addr NDIRECT r ip) k = fblk v ip k /\ findirect (set_addr NDIRECT r ip) = r.
Proof.
  intros Hl H0 Hk Hz. unfold fblk. assert (findirect (set_addr NDIRECT r ip) = r) as E.
  { unfold findirect, set_addr. cbn [i_addrs set_i_addrs]. by rewrite list_lookup_insert_eq by lia. }
  rewrite E, H0. split; [|done]. change (Z.of_nat NDIRECT) with 12. change MAXFILE with 268 in Hk.
  destruct (Z.ltb_spec k 12) as [Hlt|Hge].
  - unfold set_addr. cbn [i_addrs set_i_addrs]. rewrite list_lookup_insert_ne by (unfold NDIRECT; lia). done.
  - destruct (Z.eqb_spec r 0); [done|]. rewrite Hz. apply get_le_zeros. lia.
Qed.

(** A new entry of the table. *)
Lemma fblk_set_entry v v' ip e r k :
  findirect ip <> 0 -> 0 <= e < NINDIRECT -> 0 <= k < MAXFILE -> 0 <= r < 2 ^ 32 -> length (v (findirect ip)) = 1024%nat ->
  v' (findirect ip) = put_le 4 (v (findirect ip)) (Z.to_nat (4 * e)) r ->
  fblk v' ip k = if decide (k = Z.of_nat NDIRECT + e) then r else fblk v ip k.
Proof.
  intros Hn He Hk Hr Hl Hv. unfold fblk. change (Z.of_nat NDIRECT) with 12. change MAXFILE with 268 in Hk.
  change NINDIRECT with 256 in He. rewrite (proj2 (Z.eqb_neq _ _) Hn), Hv. destruct (Z.ltb_spec k 12).
  - by rewrite decide_False by lia.
  - destruct (decide (k = 12 + e)) as [->|Hne].
    + replace (12 + e - 12) with e by lia. rewrite get_put_le_same by lia. by apply Z.mod_small.
    + apply get_put_le_other; lia.
Qed.
End file.

Section write.
Context (dev st : Z) (p : nat) (pid : Z) (sb : superblock) (held : list Z) (i : nat) (ib : Z).
Context (Hg : geometry st sb) (Hib : 0 <= ib < sb_size sb) (Hibm : ~ bitmap_block sb ib)
        (Hibl : ~ (st <= ib <= st + 29)) (Hibh : ib ∉ held).

Local Abbreviation view := (bview dev).
Local Abbreviation tx := (tx dev st p pid).
Local Abbreviation xrel := (xrel dev pid).
Local Abbreviation used := (used dev sb).
Local Abbreviation fwf := (fwf st sb held ib).
Local Abbreviation grows := (grows st sb held ib).
Local Abbreviation fresh_block := (fresh_block st sb held ib).

(** The disk driver can address every data block. *)
Lemma data_small u c : data_block st sb held ib u c -> 0 < c < 2 ^ 31.
Proof. intros D. pose proof (db_range _ _ _ _ _ _ D). pose proof (ge_size _ _ Hg) as Hsz. change BPB with 8192 in Hsz. lia. Qed.

(** ** What stays the same *)

Definition keeps (s s' : kstate) : Prop :=
  g_pmem s' = g_pmem s /\ g_sb s' = g_sb s /\ g_locks s' = g_locks s /\ g_disk s' = g_disk s /\
  woken (g_procs s) (g_procs s').

Lemma keeps_refl s : keeps s s.
Proof. unfold keeps. split_and!; try done. apply woken_refl. Qed.

Lemma keeps_trans s1 s2 s3 : keeps s1 s2 -> keeps s2 s3 -> keeps s1 s3.
Proof. intros (? & ? & ? & ? & W1) (? & ? & ? & ? & W2). unfold keeps. split_and!; try congruence. by eapply woken_trans. Qed.

Lemma xrel_kept L ws s s' : xrel L ws s s' -> keeps s s' /\ g_itable s' = g_itable s.
Proof.
  intros H. destruct (xrel_keeps _ _ _ _ _ _ H) as (Ef & Em & Ec & _). pose proof (xr_disk _ _ _ _ _ _ H) as Ed.
  pose proof (xr_woken _ _ _ _ _ _ H). unfold keeps, g_pmem, g_sb, g_locks, g_itable. by rewrite Ef, Em, Ec.
Qed.

Lemma tx_put_out hs L out s : tx hs L s -> tx hs L (put_out out s).
Proof.
  intros [Hok Hr ? ? ? ? ? ? ? ?]. destruct out as [|x out]; [by split|]. split; try done.
  - eapply cache_ok_kbio; [|exact Hok]. done.
  - by destruct Hr.
Qed.

Lemma put_out_kept out s : keeps s (put_out out s) /\ g_itable (put_out out s) = g_itable s /\
  (forall c, view (put_out out s) c = view s c) /\
  (forall c b d, holds dev s pid c b d -> holds dev (put_out out s) pid c b d).
Proof. pose proof (woken_refl (g_procs s)). by destruct out. Qed.

Lemma used_ext s s' b : (forall c, bitmap_block sb c -> view s' c = view s c) -> 0 <= b < sb_size sb -> used s' b = used s b.
Proof. intros H Hb. unfold Bitmap.used. rewrite H; [done|]. by exists b. Qed.

Lemma marked_mono L s s' :
  (forall b, 0 <= b < sb_size sb -> used s b = true -> used s' b = true) -> marked dev st sb L s -> marked dev st sb L s'.
Proof.
  intros H [M1 M2 M3 M4 M5]. split; try done.
  - apply H; [|done]. destruct (ge_size _ _ Hg). lia.
  - intros c Hc Hs. apply H; auto.
  - intros b Hb Hs. destruct (BBLOCK_eq st sb b Hg Hb) as [_ ?]. apply H; [lia|auto].
  - intros c Hc Hs. apply H; auto.
Qed.

(** No block is free. *)
Definition full (s : kstate) : Prop := forall b, 0 <= b < sb_size sb -> used s b = true.

(** ** balloc *)
Lemma balloc_step hs L s :
  tx hs L s -> marked dev st sb L s -> (forall c, c ∈ held -> c ∈ L) -> used s ib = true -> g_sb s = sb -> lock_free LPr s ->
  (length hs + length L < 28)%nat ->
  exists r s', balloc dev s = Ret r s' /\ keeps s s' /\ g_itable s' = g_itable s /\
    (forall c b d, c ∈ L -> holds dev s pid c b d -> holds dev s' pid c b d) /\
    ((r = 0 /\ tx hs L s' /\ full s' /\ (forall c, view s' c = view s c)) \/
     (exists hs', tx hs' L s' /\ (length hs' <= length hs + 2)%nat /\ marked dev st sb L s' /\
        fresh_block (used s) (view s') (used s') r /\
        (forall c, c <> r -> ~ bitmap_block sb c -> view s' c = view s c))).
Proof.
  intros Ht Hm HL Hu Hsb Hpr Hroom.
  destruct (balloc_run dev st p pid sb hs L s) as (r & s' & E & H); try done.
  exists r, s'. split; [done|]. destruct H as [[-> (Hall & out & s1 & -> & Ht1 & Hx)]|Ha].
  - destruct (put_out_kept out s1) as (K & Ki & Kv & Kh). destruct (xrel_kept _ _ _ _ Hx) as (K0 & Ki0).
    split; [by eapply keeps_trans|]. split; [congruence|]. split; [intros; apply Kh, (xr_hold _ _ _ _ _ _ Hx); done|].
    left. assert (forall c, view (put_out out s1) c = view s c) as Hv by (intros c; rewrite Kv; apply (xr_view _ _ _ _ _ _ Hx)).
    split_and!; [done|by apply tx_put_out| |done]. intros b Hb. rewrite (used_ext s) by auto. auto.
  - destruct (allocated_effect dev st p pid sb hs L s r s' Hg (x_ok _ _ _ _ _ _ _ Ht) Hm Ha) as (H0 & Hz & Hus & Ho).
    destruct Ha as (Hr & Hf & _ & Ht' & Hx). destruct (xrel_kept _ _ _ _ Hx) as (K & Ki).
    split; [done|]. split; [done|]. split; [apply Hx|]. right.
    exists (logged r (logged (BBLOCK r sb) hs)). split; [done|]. split.
    { unfold logged. repeat destruct (decide _); rewrite ?length_app; simpl; lia. }
    split. { eapply marked_mono; [|done]. intros b Hb Hb'. rewrite Hus by done. by destruct (decide _). }
    split; [|intros c Hc Hb; apply Ho; [done|]; intros ->; apply Hb; by exists r].
    split; try done; [lia| | | |].
    + intros (b & Hb & E'). pose proof (mk_bmap _ _ _ _ _ Hm b Hb ltac:(lia)) as M. rewrite <- E' in M. congruence.
    + intros Hl. pose proof (mk_log _ _ _ _ _ Hm r Hl Hr). congruence.
    + intros Hh. pose proof (mk_held _ _ _ _ _ Hm r (HL _ Hh) Hr). congruence.
    + congruence.
Qed.

(** ** The state of the file system while inode [i] is written *)

Record filestate (hs : list Z) (s : kstate) (ip : inode) : Prop := {
  fs_tx : tx hs held s;
  fs_inode : g_itable s !! i = Some ip;
  fs_dev : i_dev ip = dev;
  fs_wf : fwf (view s) (used s) ip;
  fs_marked : marked dev st sb held s;
  fs_ib : used s ib = true;
  fs_sb : g_sb s = sb;
  fs_pr : lock_free LPr s
}.

(** From one such state to another, with at most [n] more blocks in the log. *)
Record fstep (n : nat) (hs : list Z) (s : kstate) (ip : inode) (hs' : list Z) (s' : kstate) (ip' : inode) : Prop := {
  sp_state : filestate hs' s' ip';
  sp_log : (length hs' <= length hs + n)%nat;
  sp_keeps : keeps s s';
  sp_table : g_itable s' = <[i := ip']> (g_itable s);
  sp_grows : grows (view s) (used s) ip (view s') (used s') ip'
}.

Lemma step_refl hs s ip : filestate hs s ip -> fstep 0 hs s ip hs s ip.
Proof.
  intros F. split; [done|lia|apply keeps_refl| |apply grows_refl, F]. symmetry. by apply list_insert_id, F.
Qed.

Lemma step_trans n m hs s ip hs1 s1 ip1 hs2 s2 ip2 :
  fstep n hs s ip hs1 s1 ip1 -> fstep m hs1 s1 ip1 hs2 s2 ip2 -> fstep (n + m) hs s ip hs2 s2 ip2.
Proof.
  intros [F1 L1 K1 T1 G1] [F2 L2 K2 T2 G2]. split; [done|lia|by eapply keeps_trans| |by eapply grows_trans].
  by rewrite T2, T1, list_insert_insert_eq.
Qed.

Lemma step_weaken n m hs s ip hs' s' ip' : (n <= m)%nat -> fstep n hs s ip hs' s' ip' -> fstep m hs s ip hs' s' ip'.
Proof. intros Hm [? ? ? ? ?]. split; try done. lia. Qed.

(** The conditions of [filestate] that follow from the changes. *)
Lemma make_step n hs s ip hs' s' ip' :
  filestate hs s ip -> tx hs' held s' -> (length hs' <= length hs + n)%nat -> keeps s s' ->
  g_itable s' = <[i := ip']> (g_itable s) -> grows (view s) (used s) ip (view s') (used s') ip' ->
  fstep n hs s ip hs' s' ip'.
Proof.
  intros [Ft Fi Fd Fw Fm Fb Fs Fp] Ht Hl K T G. split; try done. destruct K as (_ & Ks & Kl & _). split; try done.
  - rewrite T. apply list_lookup_insert_eq. by eapply lookup_lt_Some.
  - rewrite (gr_inode _ _ _ _ _ _ _ _ _ _ G). done.
  - apply G.
  - eapply marked_mono; [|done]. apply G.
  - by apply (gr_used _ _ _ _ _ _ _ _ _ _ G).
  - by rewrite Ks.
  - unfold lock_free. by rewrite Kl.
Qed.
(** ** bmap *)

Lemma fs_view_len hs s ip c : filestate hs s ip -> length (view s c) = 1024%nat.
Proof. intros F. apply length_bview, (fs_tx _ _ _ F). Qed.

(** A new block for slot [j] of the inode. *)
Lemma alloc_addr hs s ip j :
  filestate hs s ip -> (j <= NDIRECT)%nat -> i_addrs ip !! j = Some 0 -> (length hs + length held < 28)%nat ->
  exists r hs' s' ip', (addr <- balloc dev ;; if addr =? 0 then ret 0 else upd_inode i (set_addr j addr) ;; ret addr) s = Ret r s' /\
    fstep 2 hs s ip hs' s' ip' /\ same_cells (view s) ip (view s') ip' /\ default 0 (i_addrs ip' !! j) = r /\ (r = 0 -> full s').
Proof.
  intros F Hj Ha Hroom. destruct F as [Ft Fi Fd Fw Fm Fb Fs Fp] eqn:EF. clear EF.
  destruct (balloc_step hs held s) as (r & s1 & E & K & Ki & _ & H); try done.
  rewrite (bind_run _ _ _ _ _ E). destruct H as [(-> & Ht1 & Hf & Hv)|(hs' & Ht1 & Hl & _ & Hfr & Hv)].
  - destruct (grows_ext st sb held ib (view s) (used s) ip (view s1) (used s1) Fw Hv) as [G C].
    { intros b Hb. apply used_ext; auto. }
    exists 0, hs, s1, ip. split; [done|]. split; [|split; [done|split; [by rewrite Ha|done]]].
    apply make_step; try done; [lia|]. rewrite Ki. symmetry. by apply list_insert_id.
  - pose proof (fb_range _ _ _ _ _ _ _ _ Hfr) as Hr. destruct (Z.eqb_spec r 0); [lia|].
    assert (g_itable s1 !! i = Some ip) as Hi1 by (by rewrite Ki).
    rewrite (bind_run _ _ _ _ _ (arr_upd_run "inode" g_itable put_itable i (set_addr j r) s1 ip Hi1)), Ki.
    set (s2 := put_itable _ s1). pose proof (fw_len _ _ _ _ _ _ _ Fw) as Hlen.
    assert (grows (view s) (used s) ip (view s2) (used s2) (set_addr j r ip) /\
            same_cells (view s) ip (view s2) (set_addr j r ip)) as [G C].
    { assert (set_addr j r ip = set_i_addrs (i_addrs (set_addr j r ip)) ip) as Es by (by destruct ip).
      assert (length (i_addrs (set_addr j r ip)) = S NDIRECT) as Hl' by (unfold set_addr; cbn [i_addrs set_i_addrs]; by rewrite length_insert).
      destruct (decide (j = NDIRECT)) as [->|Hne].
      - assert (findirect ip = 0) as H0 by (unfold findirect; by rewrite Ha).
        apply (grows_ind _ _ _ _ _ _ _ _ _ _ r); try done.
        + by apply (fblk_set_table (view s) (view s2) ip r 0 Hlen H0 ltac:(done)), Hfr.
        + intros k Hk. by apply (fblk_set_table (view s) (view s2) ip r k Hlen H0 Hk), Hfr.
      - assert (j < NDIRECT)%nat as Hj' by lia.
        apply (grows_block _ _ _ _ _ _ _ _ _ _ r (Z.of_nat j)); try done.
        + unfold NDIRECT in Hj'. change MAXFILE with 268. lia.
        + unfold fblk. change (Z.of_nat NDIRECT) with 12. unfold NDIRECT in Hj'.
          rewrite (proj2 (Z.ltb_lt _ _)), Nat2Z.id, Ha by lia. done.
        + unfold findirect, set_addr. cbn [i_addrs set_i_addrs]. by rewrite list_lookup_insert_ne by lia.
        + intros k Hk. apply fblk_set_direct; try done. intros Hn.
          destruct (fw_own _ _ _ _ _ _ _ Fw (findirect ip)) as [_ Hu Hb _ _ _]; [split; [done|by left]|].
          apply (Hv (findirect ip)); [|done]. intros Er. rewrite Er, (fb_free _ _ _ _ _ _ _ _ Hfr) in Hu. done.
        + intros c Hc Hb _. by apply (Hv c). }
    exists r, hs', s2, (set_addr j r ip). split; [done|]. split; [|split; [done|split; [|done]]].
    + apply make_step; try done. by apply tx_itable.
    + unfold set_addr. cbn [i_addrs set_i_addrs]. rewrite list_lookup_insert_eq by lia. done.
Qed.
(** The entry of the table of the indirect blocks, allocated when it is empty. *)
Definition entry_code (a e : Z) : M Z :=
  bp <- bread dev a ;;
  d <- buf_data bp ;;
  let addr := get_le 4 d (Z.to_nat (4 * e)) in
  addr <- (if addr =? 0 then
             addr <- balloc dev ;;
             when (negb (addr =? 0))
               (d <- buf_data bp ;;
                set_buf_data bp (put_le 4 d (Z.to_nat (4 * e)) addr) ;;
                log_write bp) ;;
             ret addr
           else ret addr) ;;
  brelse bp ;;
  ret addr.

Lemma fblk_entry v ip e : findirect ip <> 0 -> 0 <= e ->
  fblk v ip (Z.of_nat NDIRECT + e) = get_le 4 (v (findirect ip)) (Z.to_nat (4 * e)).
Proof.
  intros Hn He. unfold fblk. rewrite (proj2 (Z.ltb_ge _ _)) by lia. rewrite (proj2 (Z.eqb_neq _ _) Hn).
  do 3 f_equal. lia.
Qed.

(** With the table's buffer held, the table itself is a held block. *)
Lemma marked_table hs s ip a :
  filestate hs s ip -> data_block st sb held ib (used s) a -> marked dev st sb (a :: held) s.
Proof.
  intros F D. destruct (fs_marked _ _ _ F) as [M1 M2 M3 M4 M5]. split; try done.
  - intros c [->|Hc]%elem_of_cons Hr; [apply D|by apply M4].
  - intros b Hb [E|Hc]%elem_of_cons; [|by apply (M5 b)]. apply (db_bmap _ _ _ _ _ _ D). by exists b.
Qed.

(** Reading and releasing a block is no step at all. *)
Lemma xrel_step hs s ip s' : filestate hs s ip -> tx hs held s' -> keeps s s' -> g_itable s' = g_itable s ->
  (forall c, view s' c = view s c) -> fstep 0 hs s ip hs s' ip /\ same_cells (view s) ip (view s') ip.
Proof.
  intros F Ht K Ki Hv. destruct (grows_ext st sb held ib (view s) (used s) ip (view s') (used s')) as [G C]; try done.
  { apply F. } { intros b Hb. apply used_ext; auto. }
  split; [|done]. apply make_step; try done; [lia|]. rewrite Ki. symmetry. apply list_insert_id, F.
Qed.

(** The buffer of the table is held and shows what the file had before. *)
Record opened (hs : list Z) (s : kstate) (a : Z) (bp : nat) (s1 : kstate) : Prop := {
  op_tx : tx hs (a :: held) s1;
  op_keeps : keeps s s1;
  op_table : g_itable s1 = g_itable s;
  op_view : forall c, view s1 c = view s c;
  op_holds : holds dev s1 pid a bp (view s a);
  op_clean : a ∉ hs -> view s a = disk_block (g_disk s) a
}.

Lemma open_run hs s ip a :
  filestate hs s ip -> 0 <= a < 2 ^ 31 -> a ∉ held -> (length hs + length held < 30)%nat ->
  exists bp s1, bread dev a s = Ret bp s1 /\ opened hs s a bp s1.
Proof.
  intros F Hr Ha Hroom.
  destruct (tx_bread dev st p pid hs held s a (fs_tx _ _ _ F) Hr Ha) as (bp & s1 & E1 & Ht1 & Hx1 & Hh1 & Hcl); [done|].
  destruct (xrel_kept _ _ _ _ Hx1) as (K1 & Ki1). exists bp, s1. split; [done|]. split; try done.
  exact (xr_view _ _ _ _ _ _ Hx1).
Qed.

Lemma close_run hs s ip a bp s1 :
  filestate hs s ip -> opened hs s a bp s1 ->
  exists s2, brelse bp s1 = Ret tt s2 /\ fstep 0 hs s ip hs s2 ip /\ forall c, view s2 c = view s c.
Proof.
  intros F [Ht1 K1 Ki1 Hv1 Hh1 Hcl].
  destruct (tx_brelse dev st p pid hs held s1 a bp _ Ht1 Hh1) as (s2 & E2 & Ht2 & Hx2).
  { intros Hh. destruct K1 as (_ & _ & _ & -> & _). by apply Hcl. }
  destruct (xrel_kept _ _ _ _ Hx2) as (K2 & Ki2).
  assert (forall c, view s2 c = view s c) as Hv2 by (intros c; rewrite <- Hv1; apply (xr_view _ _ _ _ _ _ Hx2)).
  exists s2. split; [done|]. split; [|done].
  by apply (xrel_step hs s ip s2 F Ht2 (keeps_trans _ _ _ K1 K2) ltac:(congruence) Hv2).
Qed.

(** The same statements, grouped as in [entry_code]. *)
Lemma regroup {D A} (m : M D) (f : D -> M unit) (g k : M unit) (r : A) s s' :
  (d <- m ;; f d ;; g ;; k) s = Ret tt s' ->
  obind (((d <- m ;; f d ;; g) ;; ret r) s) (fun x => (k ;; ret x)) = Ret r s'.
Proof.
  unfold bind. destruct (m s) as [d s1| |]; cbn [obind]; [|done..]. destruct (f d s1) as [[] s2| |]; cbn [obind]; [|done..].
  destruct (g s2) as [[] s3| |]; cbn [obind ret]; [|done..]. by intros ->.
Qed.

(** The new block's number goes into entry [e]. *)
Lemma entry_new hs s ip a e r bp s1 hs2 s2 :
  filestate hs s ip -> findirect ip = a -> a <> 0 -> 0 <= e < 256 -> fblk (view s) ip (Z.of_nat NDIRECT + e) = 0 ->
  opened hs s a bp s1 -> tx hs2 (a :: held) s2 -> (length hs2 < 29)%nat -> keeps s1 s2 -> g_itable s2 = g_itable s1 ->
  holds dev s2 pid a bp (view s a) -> fresh_block (used s) (view s2) (used s2) r ->
  (forall c, c <> r -> ~ bitmap_block sb c -> view s2 c = view s c) ->
  exists s4, (d <- buf_data bp ;; set_buf_data bp (put_le 4 d (Z.to_nat (4 * e)) r) ;; log_write bp ;; brelse bp) s2 = Ret tt s4 /\
    fstep (length hs2 + 1 - length hs) hs s ip (logged a hs2) s4 ip /\ same_cells (view s) ip (view s4) ip /\
    fblk (view s4) ip (Z.of_nat NDIRECT + e) = r.
Proof.
  intros F Ei Hn He E0 [_ K1 Ki1 _ _ _] Ht2 Hl K2 Ki2 Hh2 Hfr Hv2.
  pose proof (fb_range _ _ _ _ _ _ _ _ Hfr) as Hr. assert (length (view s a) = 1024%nat) as Hla by (by eapply fs_view_len).
  destruct (fw_own _ _ _ _ _ _ _ (fs_wf _ _ _ F) a) as [Dr Du Db Dl _ _]; [split; [done|by left]|].
  pose proof (ge_size _ _ Hg) as Hsz. change BPB with 8192 in Hsz.
  destruct (tx_log_write dev st p pid hs2 (a :: held) s2 a bp _ (put_le 4 (view s a) (Z.to_nat (4 * e)) r) Ht2 Hh2)
    as (s3 & E3 & Ht3 & Hx3 & Hh3); try done; [by rewrite length_put_le by lia|lia|].
  destruct (tx_brelse dev st p pid (logged a hs2) held s3 a bp _ Ht3 Hh3) as (s4 & E4 & Ht4 & Hx4).
  { intros Hh. exfalso. apply Hh. unfold logged. destruct (decide (a ∈ hs2)); set_solver. }
  destruct (xrel_kept _ _ _ _ Hx3) as (K3 & Ki3). destruct (xrel_kept _ _ _ _ Hx4) as (K4 & Ki4).
  assert (forall c, view s4 c = if decide (c = a) then put_le 4 (view s a) (Z.to_nat (4 * e)) r else view s2 c) as Hv4.
  { intros c. rewrite (xr_view _ _ _ _ _ _ Hx4 c). change (overlay [] (view s3) c) with (view s3 c).
    by rewrite (xr_view _ _ _ _ _ _ Hx3 c), overlay_one. }
  assert (forall b, 0 <= b < sb_size sb -> used s4 b = used s2 b) as Hu4.
  { intros b Hb. apply used_ext; [|done]. intros c Hc. rewrite Hv4, decide_False; [done|]. by intros ->. }
  assert (a <> r) as Har by (intros E; rewrite E, (fb_free _ _ _ _ _ _ _ _ Hfr) in Du; done).
  assert (forall k, 0 <= k < MAXFILE -> fblk (view s4) ip k = if decide (k = Z.of_nat NDIRECT + e) then r else fblk (view s) ip k) as Hb4.
  { intros k Hk. apply fblk_set_entry; rewrite ?Ei; try done; [lia|]. rewrite Hv4. by apply decide_True. }
  assert (0 <= Z.of_nat NDIRECT + e < MAXFILE) as Hk by (change (Z.of_nat NDIRECT) with 12; change MAXFILE with 268; lia).
  destruct (grows_block st sb held ib (view s) (used s) ip (view s4) (used s4) ip r (Z.of_nat NDIRECT + e)) as [G C]; try done.
  - apply F.
  - destruct Hfr as [? Hfree ? ? ? ? Hfu Hfz]. split; try done.
    + intros b Hb. by rewrite Hu4, Hfu by done.
    + rewrite Hv4, decide_False by done. done.
  - by destruct ip.
  - apply F.
  - intros c Hcr Hcb Hca. rewrite Ei in Hca. rewrite Hv4, decide_False, Hv2 by (done || intros ->; tauto). done.
  - exists s4. split; [|split; [|split; [done|rewrite Hb4 by done; by apply decide_True]]].
    + rewrite (bind_run _ _ _ _ _ (buf_data_run dev s2 pid _ _ _ Hh2)). by rewrite (seq_run _ _ _ _ _ E3).
    + apply make_step; try done.
      * unfold logged. destruct (decide _); rewrite ?length_app; simpl; lia.
      * exact (keeps_trans _ _ _ (keeps_trans _ _ _ (keeps_trans _ _ _ K1 K2) K3) K4).
      * rewrite Ki4, Ki3, Ki2, Ki1. symmetry. apply list_insert_id, F.
Qed.

(** The allocation on behalf of the table, with its buffer held. *)
Lemma balloc_opened hs s ip a bp s1 :
  filestate hs s ip -> data_block st sb held ib (used s) a -> opened hs s a bp s1 -> (length hs + length held < 26)%nat ->
  exists r s2, balloc dev s1 = Ret r s2 /\ keeps s1 s2 /\ g_itable s2 = g_itable s1 /\ holds dev s2 pid a bp (view s a) /\
    ((r = 0 /\ opened hs s a bp s2 /\ full s2) \/
     (exists hs2, tx hs2 (a :: held) s2 /\ (length hs2 <= length hs + 2)%nat /\ fresh_block (used s) (view s2) (used s2) r /\
        (forall c, c <> r -> ~ bitmap_block sb c -> view s2 c = view s c))).
Proof.
  intros F Da Op Hroom. pose proof Op as [Ht1 K1 Ki1 Hv1 Hh1 Hcl]. pose proof K1 as (_ & Ksb & Klk & Kd & _).
  assert (forall b, 0 <= b < sb_size sb -> used s1 b = used s b) as Hu1 by (intros b Hb; apply used_ext; auto).
  destruct (balloc_step hs (a :: held) s1) as (r & s2 & E2 & K2 & Ki2 & Hh2 & H); try done.
  { eapply marked_mono; [|by apply (marked_table hs s ip)]. intros b Hb. by rewrite Hu1. }
  { intros c Hc. by right. }
  { rewrite Hu1 by done. exact (fs_ib _ _ _ F). }
  { rewrite Ksb. exact (fs_sb _ _ _ F). }
  { unfold lock_free. rewrite Klk. exact (fs_pr _ _ _ F). }
  { simpl. lia. }
  specialize (Hh2 a bp _ ltac:(by left) Hh1). exists r, s2. split; [done|]. split; [done|]. split; [done|]. split; [done|].
  destruct H as [(-> & Ht2 & Hf & Hv2)|(hs2 & Ht2 & Hl & _ & Hfr & Hv2)]; [left|right].
  - split; [done|]. split; [|done]. split; [done|by eapply keeps_trans|congruence| |done|done].
    intros c. by rewrite Hv2, Hv1.
  - exists hs2. split; [done|]. split; [done|]. destruct Hfr as [Hr Hfree ? ? ? ? Hfu Hfz]. split.
    + split; try done; [rewrite <- Hu1 by lia; done|]. intros b Hb. by rewrite Hfu, Hu1 by done.
    + intros c Hc Hb. by rewrite Hv2, Hv1.
Qed.

Lemma entry_run hs s ip e :
  filestate hs s ip -> findirect ip <> 0 -> 0 <= e < NINDIRECT -> (length hs + length held < 26)%nat ->
  exists r hs' s', entry_code (findirect ip) e s = Ret r s' /\ fstep 3 hs s ip hs' s' ip /\
    same_cells (view s) ip (view s') ip /\ fblk (view s') ip (Z.of_nat NDIRECT + e) = r /\ (r = 0 -> full s').
Proof.
  intros F Hn He Hroom. set (a := findirect ip) in *. change NINDIRECT with 256 in He.
  assert (data_block st sb held ib (used s) a) as Da by (apply (fs_wf _ _ _ F); split; [done|by left]).
  destruct (open_run hs s ip a F ltac:(pose proof (data_small _ _ Da); lia) (db_held _ _ _ _ _ _ Da) ltac:(lia)) as (bp & s1 & E1 & Op).
  assert (forall s2, (forall c, view s2 c = view s c) -> same_cells (view s) ip (view s2) ip /\
    fblk (view s2) ip (Z.of_nat NDIRECT + e) = fblk (view s) ip (Z.of_nat NDIRECT + e)) as Same.
  { intros s2 Hv. split; [|unfold fblk; by rewrite Hv].
    intros off _. unfold fcell, fblk. cbv zeta. by rewrite !Hv. }
  unfold entry_code. rewrite (bind_run _ _ _ _ _ E1), (bind_run _ _ _ _ _ (buf_data_run dev s1 pid _ _ _ (op_holds _ _ _ _ _ Op))).
  cbv zeta. pose proof (fblk_entry (view s) ip e Hn ltac:(lia)) as Ee. fold a in Ee. rewrite <- Ee.
  destruct (Z.eqb_spec (fblk (view s) ip (Z.of_nat NDIRECT + e)) 0) as [E0|E0].
  2:{ rewrite bind_ret_l. destruct (close_run hs s ip a bp s1 F Op) as (s2 & E2 & S & Hv2). rewrite (bind_run _ _ _ _ _ E2).
      exists (fblk (view s) ip (Z.of_nat NDIRECT + e)), hs, s2. destruct (Same s2 Hv2). split; [done|].
      split; [by apply (step_weaken 0); [lia|]|]. done. }
  destruct (balloc_opened hs s ip a bp s1 F Da Op Hroom) as (r & s2 & E2 & K2 & Ki2 & Hh2 & H).
  unfold bind at 1. rewrite (bind_run _ _ _ _ _ E2). destruct H as [(-> & Op2 & Hf)|(hs2 & Ht2 & Hl & Hfr & Hv2)].
  - cbn [Z.eqb negb when]. rewrite bind_ret_l. cbn [ret obind].
    destruct (close_run hs s ip a bp s2 F Op2) as (s3 & E3 & S & Hv3). rewrite (bind_run _ _ _ _ _ E3).
    exists 0, hs, s3. destruct (Same s3 Hv3) as [C Ef]. split; [done|]. split; [by apply (step_weaken 0); [lia|]|].
    split; [done|]. split; [by rewrite Ef|]. intros _ b Hb. rewrite (used_ext s s3) by auto.
    rewrite <- (used_ext s s2) by (done || (intros c _; apply Op2)). by apply Hf.
  - pose proof (fb_range _ _ _ _ _ _ _ _ Hfr) as Hr. destruct (Z.eqb_spec r 0); [lia|]. cbn [negb when].
    destruct (entry_new hs s ip a e r bp s1 hs2 s2) as (s4 & E4 & S & C & Ef); try done; [lia|].
    exists r, (logged a hs2), s4. split; [|split; [by eapply step_weaken; [|exact S]; lia|done]].
    by apply (regroup (buf_data bp) _ _ _ r s2 s4).
Qed.

Lemma same_cells_trans v1 ip1 v2 ip2 v3 ip3 :
  same_cells v1 ip1 v2 ip2 -> same_cells v2 ip2 v3 ip3 -> same_cells v1 ip1 v3 ip3.
Proof. intros H1 H2 off Ho. by rewrite H2, H1. Qed.

(** [bmap] gives the block of file block [k], allocating it (and the table) if need be; it gives 0
    only when no block is left. *)
Lemma bmap_run hs s ip k :
  filestate hs s ip -> 0 <= k < MAXFILE -> (length hs + length held < 24)%nat ->
  exists a hs' s' ip', bmap i k s = Ret a s' /\ fstep 5 hs s ip hs' s' ip' /\
    same_cells (view s) ip (view s') ip' /\ fblk (view s') ip' k = a /\ (a = 0 -> full s').
Proof.
  intros F Hk Hroom. pose proof (fw_len _ _ _ _ _ _ _ (fs_wf _ _ _ F)) as Hlen. pose proof (fs_dev _ _ _ F) as Hdev.
  unfold bmap. rewrite (bind_run _ _ _ _ _ (arr_get_run "inode" g_itable i s ip (fs_inode _ _ _ F))), Hdev.
  change MAXFILE with 268 in Hk. change (Z.of_nat NDIRECT) with 12. change NINDIRECT with 256.
  destruct (Z.ltb_spec k 12) as [Hd|Hd].
  - destruct (lookup_lt_is_Some_2 (i_addrs ip) (Z.to_nat k)) as [a Ea]; [rewrite Hlen; unfold NDIRECT; lia|].
    unfold addr_at. rewrite Ea. cbn [the]. rewrite bind_ret_l.
    assert (forall v ip', fblk v ip' k = default 0 (i_addrs ip' !! Z.to_nat k)) as Hf.
    { intros v ip'. unfold fblk. change (Z.of_nat NDIRECT) with 12. by rewrite (proj2 (Z.ltb_lt k 12) Hd). }
    destruct (Z.eqb_spec a 0) as [->|Ha].
    + destruct (alloc_addr hs s ip (Z.to_nat k) F) as (r & hs' & s' & ip' & E & S & C & Er & Hfull); [unfold NDIRECT; lia|done|lia|].
      exists r, hs', s', ip'. split; [done|]. split; [by apply (step_weaken 2); [lia|]|]. by rewrite Hf.
    + exists a, hs, s, ip. split; [done|]. split; [apply (step_weaken 0); [lia|by apply step_refl]|].
      rewrite Hf, Ea. split; [by intros off|]. done.
  - destruct (Z.ltb_spec (k - 12) 256); [|lia].
    destruct (lookup_lt_is_Some_2 (i_addrs ip) NDIRECT) as [a Ea]; [rewrite Hlen; lia|].
    unfold addr_at. rewrite Ea. cbn [the]. rewrite bind_ret_l.
    assert (exists hs1 s1 ip1, (if a =? 0 then addr <- balloc dev ;; if addr =? 0 then ret 0 else upd_inode i (set_addr NDIRECT addr) ;; ret addr
        else ret a) s = Ret (findirect ip1) s1 /\ fstep 2 hs s ip hs1 s1 ip1 /\ same_cells (view s) ip (view s1) ip1 /\
        (findirect ip1 = 0 -> full s1)) as (hs1 & s1 & ip1 & E1 & S1 & C1 & Hf1).
    { destruct (Z.eqb_spec a 0) as [->|Ha].
      - destruct (alloc_addr hs s ip NDIRECT F) as (r & hs' & s' & ip' & E & S & C & Er & Hfull); [lia|done|lia|].
        exists hs', s', ip'. by rewrite <- Er in E, Hfull.
      - exists hs, s, ip. unfold findirect. rewrite Ea. split; [done|].
        split; [apply (step_weaken 0); [lia|by apply step_refl]|]. done. }
    rewrite (bind_run _ _ _ _ _ E1). destruct (Z.eqb_spec (findirect ip1) 0) as [E0|E0].
    + exists 0, hs1, s1, ip1. split; [done|]. split; [by apply (step_weaken 2); [lia|]|]. split; [done|]. split; [|auto].
      unfold fblk. rewrite E0. change (Z.of_nat NDIRECT) with 12. by rewrite (proj2 (Z.ltb_ge k 12) Hd).
    + destruct (entry_run hs1 s1 ip1 (k - 12)) as (r & hs2 & s2 & E2 & S2 & C2 & Er & Hf2); [exact (sp_state _ _ _ _ _ _ _ S1)|done|change NINDIRECT with 256; lia| |].
      { pose proof (sp_log _ _ _ _ _ _ _ S1). lia. }
      exists r, hs2, s2, ip1. split; [exact E2|]. split; [exact (step_trans 2 3 _ _ _ _ _ _ _ _ _ S1 S2)|].
      split; [by eapply same_cells_trans|]. change (Z.of_nat NDIRECT) with 12 in Er.
      by replace (12 + (k - 12)) with k in Er by lia.
Qed.
(** ** Storing bytes *)

Section copied.
Context {KI : KernelImage} (L : space).

Lemma space_keeps s s' : keeps s s' -> space_of p L s -> space_of p L s'.
Proof.
  intros (Em & _ & _ & _ & W). destruct L as [|T]; [done|]. intros (pr & Hp & Hu).
  destruct (Forall2_lookup_l _ _ _ _ _ W Hp) as (pr' & Hp' & Hw).
  exists pr'. split; [done|]. rewrite Em. by destruct Hw as [->| ->].
Qed.

Lemma tx_copyin hs Ls s src m :
  tx hs Ls s -> space_of p L s -> 0 <= src < 2 ^ 64 -> 0 <= m -> (forall j, 0 <= j < m -> can_read L (g_pmem s) (src + j) = true) ->
  either_copyin (in_user L) src m s = Ret (0, rbytes L (g_pmem s) src (Z.to_nat m)) s.
Proof.
  intros Ht. destruct (x_ready _ _ _ _ _ _ _ Ht) as [Hc (pr & Hp & _) _ _ _ _].
  intros. by eapply either_copyin_all.
Qed.

(** The bytes of the file after [m] bytes from [src] in memory were stored at [off]. *)
Definition stored_at (mem : mem) (src off m : Z) (v : Z -> list Z) (ip : inode) (v' : Z -> list Z) (ip' : inode) : Prop :=
  forall o, 0 <= o < MAXFILE * BSIZE ->
    fcell v' ip' o = if decide (off <= o < off + m) then rbyte L mem (src + (o - off)) else fcell v ip o.

Lemma stored_at_nil mem src off v ip v' ip' : same_cells v ip v' ip' -> stored_at mem src off 0 v ip v' ip'.
Proof. intros H o Ho. rewrite decide_False by lia. by apply H. Qed.

Lemma stored_at_app mem src off m n v ip v1 ip1 v2 ip2 :
  0 <= m -> 0 <= n -> stored_at mem src off m v ip v1 ip1 -> stored_at mem (src + m) (off + m) n v1 ip1 v2 ip2 ->
  stored_at mem src off (m + n) v ip v2 ip2.
Proof.
  intros Hm Hn H1 H2 o Ho. rewrite (H2 o Ho), (H1 o Ho).
  destruct (decide (off + m <= o < off + m + n)).
  - rewrite decide_True by lia. f_equal. lia.
  - destruct (decide (off <= o < off + m)); [by rewrite decide_True by lia|by rewrite decide_False by lia].
Qed.

(** One block with a piece replaced. *)
Lemma byte_at_splice d o l x :
  length d = 1024%nat -> 0 <= o -> o + Z.of_nat (length l) <= 1024 -> 0 <= x < 1024 ->
  byte_at (splice d (Z.to_nat o) l) x =
  if decide (o <= x < o + Z.of_nat (length l)) then default 0 (l !! Z.to_nat (x - o)) else byte_at d x.
Proof.
  intros Hd Ho Hl Hx. unfold byte_at. rewrite lookup_splice by lia.
  destruct (decide (o <= x < o + Z.of_nat (length l))).
  - rewrite decide_True by lia. do 2 f_equal. lia.
  - by rewrite decide_False by lia.
Qed.

(** Filling part of an allocated block. *)
Lemma fill_run {X} (bad : nat -> M X) (y : X) hs s ip off src m :
  filestate hs s ip -> 0 <= off -> 0 <= off / BSIZE < MAXFILE -> fblk (view s) ip (off / BSIZE) <> 0 ->
  0 <= m -> off mod BSIZE + m <= BSIZE -> (length hs + length held < 29)%nat ->
  space_of p L s -> 0 <= src < 2 ^ 64 -> (forall j, 0 <= j < m -> can_read L (g_pmem s) (src + j) = true) ->
  exists hs' s', (bp <- bread dev (fblk (view s) ip (off / BSIZE)) ;;
      r <- either_copyin (in_user L) src m ;;
      d <- buf_data bp ;;
      set_buf_data bp (splice d (Z.to_nat (off mod BSIZE)) r.2) ;;
      if r.1 =? -1 then bad bp else
      log_write bp ;;
      brelse bp ;;
      ret y) s = Ret y s' /\
    fstep 1 hs s ip hs' s' ip /\ stored_at (g_pmem s) src off m (view s) ip (view s') ip.
Proof.
  intros F Hoff Hk Hn Hm Hmod Hroom Hsp Hsrc Hrd. set (a := fblk (view s) ip (off / BSIZE)) in *. set (k := off / BSIZE) in *.
  pose proof (fs_wf _ _ _ F) as W. pose proof (fs_tx _ _ _ F) as Ft.
  destruct (fw_own _ _ _ _ _ _ _ W a) as [Dr Du Db Dl Dh Di]; [split; [done|right; by exists k]|].
  assert (length (view s a) = 1024%nat) as Hla by (by eapply fs_view_len).
  pose proof (Z.mod_pos_bound off BSIZE ltac:(done)) as Hb. change BSIZE with 1024 in Hb, Hmod.
  pose proof (ge_size _ _ Hg) as Hsz. change BPB with 8192 in Hsz.
  destruct (tx_bread dev st p pid hs held s a Ft ltac:(lia) Dh) as (bp & s1 & E1 & Ht1 & Hx1 & Hh1 & _); [unfold NBUF; lia|].
  destruct (xrel_kept _ _ _ _ Hx1) as (K1 & Ki1). pose proof (xr_view _ _ _ _ _ _ Hx1 : forall c, view s1 c = view s c) as Hv1.
  assert (g_pmem s1 = g_pmem s) as Ep by apply K1.
  pose proof (space_keeps _ _ K1 Hsp) as Hsp1. rewrite <- Ep in Hrd.
  rewrite (bind_run _ _ _ _ _ E1), (bind_run _ _ _ _ _ (tx_copyin _ _ _ _ _ Ht1 Hsp1 Hsrc Hm Hrd)).
  rewrite (bind_run _ _ _ _ _ (buf_data_run dev s1 pid _ _ _ Hh1)). cbn [fst snd Z.eqb]. rewrite Ep.
  set (l := rbytes L (g_pmem s) src (Z.to_nat m)). assert (length l = Z.to_nat m) as Hl by apply length_rbytes.
  set (d' := splice (view s a) (Z.to_nat (off mod BSIZE)) l).
  destruct (tx_log_write dev st p pid hs (a :: held) s1 a bp _ d' Ht1 Hh1) as (s2 & E2 & Ht2 & Hx2 & Hh2); try done.
  { unfold d'. rewrite length_splice; [done|]. change BSIZE with 1024. lia. } { lia. } { lia. }
  rewrite (seq_run _ _ _ _ _ E2).
  destruct (tx_brelse dev st p pid (logged a hs) held s2 a bp _ Ht2 Hh2) as (s3 & E3 & Ht3 & Hx3).
  { intros Hh. exfalso. apply Hh. unfold logged. destruct (decide (a ∈ hs)); set_solver. }
  destruct (xrel_kept _ _ _ _ Hx2) as (K2 & Ki2). destruct (xrel_kept _ _ _ _ Hx3) as (K3 & Ki3).
  assert (forall c, view s3 c = if decide (c = a) then d' else view s c) as Hv.
  { intros c. rewrite (xr_view _ _ _ _ _ _ Hx3 c). change (overlay [] (view s2) c) with (view s2 c).
    rewrite (xr_view _ _ _ _ _ _ Hx2 c), overlay_one. by destruct (decide (c = a)). }
  destruct (grows_fill st sb held ib (view s) (used s) ip (view s3) (used s3) k d') as [G C]; try done.
  { intros b Hb'. apply used_ext; [|done]. intros c Hc. rewrite Hv, decide_False; [done|]. by intros ->. }
  exists (logged a hs), s3. split; [by rewrite (bind_run _ _ _ _ _ E3)|]. split.
  - apply make_step; try done.
    + unfold logged. destruct (decide _); rewrite ?length_app; simpl; lia.
    + exact (keeps_trans _ _ _ (keeps_trans _ _ _ K1 K2) K3).
    + rewrite Ki3, Ki2, Ki1. symmetry. apply list_insert_id, F.
  - intros o Ho. rewrite C by done. unfold d'. change BSIZE with 1024 in *. change MAXFILE with 268 in *.
    destruct (decide (o / 1024 = k)) as [Eo|Eo].
    + rewrite byte_at_splice, Hl by (done || lia || zlia).
      destruct (decide (off mod 1024 <= o mod 1024 < off mod 1024 + Z.of_nat (Z.to_nat m))) as [Hin|Hout].
      * unfold l. rewrite lookup_rbytes, decide_True by (unfold k in *; zlia). simpl. f_equal. unfold k in *. zlia.
      * rewrite decide_False by (unfold k in *; zlia). unfold fcell. cbv zeta. change BSIZE with 1024.
        rewrite Eo. fold a. by rewrite (proj2 (Z.eqb_neq _ _) Hn).
    + by rewrite decide_False by (unfold k in *; zlia).
Qed.
(** One turn of the loop of [writei]. *)
Lemma writei_round hs s ip n tot off src :
  filestate hs s ip -> 0 <= tot < n -> 0 <= off -> off + (n - tot) <= MAXFILE * BSIZE -> (length hs + length held < 23)%nat ->
  space_of p L s -> 0 <= src < 2 ^ 64 -> (in_user L = false -> src + (n - tot) < 2 ^ 64) ->
  (forall j, 0 <= j < n - tot -> can_read L (g_pmem s) (src + j) = true) ->
  let m := Z.min (n - tot) (BSIZE - off mod BSIZE) in
  exists hs' s' ip', fstep 6 hs s ip hs' s' ip' /\
    ((writei_body i (in_user L) n (tot, off, src) s = Ret (inr (tot, off)) s' /\ full s' /\ same_cells (view s) ip (view s') ip') \/
     (writei_body i (in_user L) n (tot, off, src) s = Ret (inl (tot + m, off + m, src + m)) s' /\
      stored_at (g_pmem s) src off m (view s) ip (view s') ip' /\ fblk (view s') ip' (off / BSIZE) <> 0)).
Proof.
  intros F Htot Hoff Hmax Hroom Hsp Hsrc Hsrc' Hrd m. unfold writei_body. rewrite (proj2 (Z.ltb_lt tot n)) by lia. cbn [negb].
  pose proof (Z.mod_pos_bound off BSIZE ltac:(done)) as Hb.
  assert (0 <= off / BSIZE < MAXFILE) as Hk by (change MAXFILE with 268 in *; change BSIZE with 1024 in *; zlia).
  destruct (bmap_run hs s ip (off / BSIZE) F Hk ltac:(lia)) as (a & hs1 & s1 & ip1 & E1 & S1 & C1 & Ea & Hf1).
  rewrite (bind_run _ _ _ _ _ E1). pose proof (sp_state _ _ _ _ _ _ _ S1) as F1. pose proof (sp_log _ _ _ _ _ _ _ S1) as L1.
  destruct (Z.eqb_spec a 0) as [Ha|Ha].
  { exists hs1, s1, ip1. split; [by apply (step_weaken 5); [lia|]|]. left. auto. }
  rewrite (bind_run _ _ _ _ _ (arr_get_run "inode" g_itable i s1 ip1 (fs_inode _ _ _ F1))), (fs_dev _ _ _ F1). cbv zeta. fold m.
  subst a.
  destruct (fill_run (fun bp => brelse bp ;; ret (inr (tot, off))) (inl (tot + m, u32 (off + m), u64 (src + m)))
    hs1 s1 ip1 off src m F1 Hoff Hk Ha) as (hs2 & s2 & E2 & S2 & C2); [unfold m; lia|unfold m; lia|lia| |done| |].
  { exact (space_keeps _ _ (sp_keeps _ _ _ _ _ _ _ S1) Hsp). }
  { destruct (sp_keeps _ _ _ _ _ _ _ S1) as [-> _]. intros j Hj. apply Hrd. unfold m in Hj. lia. }
  assert (src + m < 2 ^ 64).
  { apply (can_read_end L (g_pmem s) src m); [unfold m; lia|intros j Hj; apply Hrd; unfold m in Hj; lia|].
    intros Hu. specialize (Hsrc' Hu). unfold m. lia. }
  exists hs2, s2, ip1. split; [exact (step_trans 5 1 _ _ _ _ _ _ _ _ _ S1 S2)|]. right. split; [|split].
  - rewrite E2. change MAXFILE with 268 in Hmax. change BSIZE with 1024 in *.
    rewrite u32_small, u64_small by (unfold m; lia). done.
  - replace (g_pmem s1) with (g_pmem s) in C2 by (symmetry; apply (sp_keeps _ _ _ _ _ _ _ S1)).
    intros o Ho. rewrite (C2 o Ho). by rewrite (C1 o Ho).
  - by rewrite (gr_same _ _ _ _ _ _ _ _ _ _ (sp_grows _ _ _ _ _ _ _ S2)).
Qed.

(** No holes in the [m] bytes at [off]. *)
Definition no_holes (off m : Z) (v : Z -> list Z) (ip : inode) : Prop :=
  forall o, off <= o < off + m -> fblk v ip (o / BSIZE) <> 0.

Lemma no_holes_next off m m2 v ip v' u u' ip' :
  0 <= off -> 0 < m -> off mod BSIZE + m <= BSIZE ->
  off + m <= MAXFILE * BSIZE -> fblk v ip (off / BSIZE) <> 0 -> grows v u ip v' u' ip' ->
  no_holes (off + m) m2 v' ip' -> no_holes off (m + m2) v' ip'.
Proof.
  intros Hoff Hm Hle Hmax Hn G H o Ho. destruct (decide (o < off + m)); [|apply H; lia].
  assert (o / BSIZE = off / BSIZE) as -> by (change BSIZE with 1024 in *; zlia).
  rewrite (gr_same _ _ _ _ _ _ _ _ _ _ G); [done| |done].
  change MAXFILE with 268 in *. change BSIZE with 1024 in *. zlia.
Qed.

Lemma writei_loop fuel : forall hs s ip n tot off src,
  filestate hs s ip -> 0 <= tot <= n -> 0 <= off -> off + (n - tot) <= MAXFILE * BSIZE ->
  space_of p L s -> 0 <= src < 2 ^ 64 -> (in_user L = false -> src + (n - tot) < 2 ^ 64) ->
  (forall j, 0 <= j < n - tot -> can_read L (g_pmem s) (src + j) = true) ->
  (length hs + length held + 6 * Z.to_nat (turns off (n - tot)) <= 34)%nat -> turns off (n - tot) <= Z.of_nat fuel ->
  exists m hs' s' ip', loop fuel (writei_body i (in_user L) n) (tot, off, src) s = Ret (tot + m, off + m) s' /\
    0 <= m <= n - tot /\ (tot + m = n \/ full s') /\
    fstep (6 * Z.to_nat (turns off (n - tot)) - 6) hs s ip hs' s' ip' /\
    stored_at (g_pmem s) src off m (view s) ip (view s') ip' /\ no_holes off m (view s') ip'.
Proof.
  induction fuel as [|fuel IH]; intros hs s ip n tot off src F Htot Hoff Hmax Hsp Hsrc Hsrc' Hrd Hroom Hf.
  { unfold turns in Hf. destruct (_ =? 0); [lia|]. change BSIZE with 1024 in *. zlia. }
  cbn [loop]. destruct (decide (tot = n)) as [->|Hne].
  - unfold writei_body. rewrite Z.ltb_irrefl. cbn [negb]. rewrite bind_ret_l.
    exists 0, hs, s, ip. rewrite !Z.add_0_r. split; [done|]. split; [lia|]. split; [by left|].
    split; [apply (step_weaken 0); [lia|by apply step_refl]|]. split; [by apply stored_at_nil|intros o Ho; lia].
  - pose proof (turns_next off (n - tot) ltac:(lia) Hoff) as Htn. cbv zeta in Htn.
    destruct (writei_round hs s ip n tot off src) as (hs1 & s1 & ip1 & S1 & H); try done; [lia| |].
    { set (m := Z.min _ _) in Htn. assert (0 <= n - tot - m) by (unfold m; lia).
      pose proof (turns_pos (off + m) (n - tot - m) ltac:(done)). lia. }
    set (m := Z.min (n - tot) (BSIZE - off mod BSIZE)) in *.
    pose proof (Z.mod_pos_bound off BSIZE ltac:(done)) as Hmod.
    assert (0 < m <= n - tot) as Hm by (unfold m; lia). pose proof (turns_pos (off + m) (n - tot - m) ltac:(lia)) as Hp1.
    destruct H as [(E & Hfull & C)|(E & C & Hn)]; rewrite (bind_run _ _ _ _ _ E).
    + exists 0, hs1, s1, ip1. rewrite !Z.add_0_r. split; [done|]. split; [lia|]. split; [by right|].
      split; [by apply (step_weaken 6); [lia|]|]. split; [by apply stored_at_nil|intros o Ho; lia].
    + pose proof (sp_log _ _ _ _ _ _ _ S1) as L1. replace (n - tot - m) with (n - (tot + m)) in * by lia.
      destruct (IH hs1 s1 ip1 n (tot + m) (off + m) (src + m)) as (m2 & hs2 & s2 & ip2 & E2 & Hm2 & Hend & S2 & C2 & N2);
        [exact (sp_state _ _ _ _ _ _ _ S1)|lia|lia|lia| | | | |lia|lia|].
      { exact (space_keeps _ _ (sp_keeps _ _ _ _ _ _ _ S1) Hsp). }
      { assert (src + m < 2 ^ 64); [|lia]. apply (can_read_end L (g_pmem s) src m); [lia|intros j Hj; apply Hrd; lia|].
        intros Hu. specialize (Hsrc' Hu). lia. }
      { intros Hu. specialize (Hsrc' Hu). lia. }
      { destruct (sp_keeps _ _ _ _ _ _ _ S1) as [-> _]. intros j Hj. rewrite <- Z.add_assoc. apply Hrd. lia. }
      exists (m + m2), hs2, s2, ip2. rewrite !Z.add_assoc. split; [done|]. split; [lia|]. split; [done|].
      split; [eapply step_weaken; [|exact (step_trans _ _ _ _ _ _ _ _ _ _ _ S1 S2)]; lia|].
      replace (g_pmem s1) with (g_pmem s) in C2 by (symmetry; apply (sp_keeps _ _ _ _ _ _ _ S1)).
      split; [eapply stored_at_app; [lia|lia|exact C|exact C2]|].
      eapply no_holes_next; [done|lia|unfold m; lia|lia|exact Hn|exact (sp_grows _ _ _ _ _ _ _ S2)|exact N2].
Qed.
(** ** The inode *)

Lemma iupdate_run hs s ip :
  tx hs held s -> g_itable s !! i = Some ip -> i_dev ip = dev -> g_sb s = sb -> length (i_addrs ip) = S NDIRECT ->
  IBLOCK (i_inum ip) sb = ib -> (length hs + length held < 29)%nat ->
  exists hs' s', iupdate i s = Ret tt s' /\ tx hs' held s' /\ (length hs' <= length hs + 1)%nat /\ keeps s s' /\ g_itable s' = g_itable s /\
    forall c, view s' c = if decide (c = ib) then din_store (view s ib) (i_inum ip mod IPB) ip else view s c.
Proof.
  intros Ht Hi Hdev Hsb Hlen Hin Hroom. unfold iupdate.
  rewrite (bind_run _ _ _ _ _ (arr_get_run "inode" g_itable i s ip Hi)), (bind_run (gets g_sb) _ s _ s eq_refl), Hsb, Hdev, Hin.
  pose proof (ge_size _ _ Hg) as Hsz. change BPB with 8192 in Hsz.
  destruct (tx_bread dev st p pid hs held s ib Ht ltac:(lia) Hibh) as (bp & s1 & E1 & Ht1 & Hx1 & Hh1 & _); [unfold NBUF; lia|].
  destruct (xrel_kept _ _ _ _ Hx1) as (K1 & Ki1). pose proof (xr_view _ _ _ _ _ _ Hx1 : forall c, view s1 c = view s c) as Hv1.
  rewrite (bind_run _ _ _ _ _ E1), (bind_run _ _ _ _ _ (buf_data_run dev s1 pid _ _ _ Hh1)).
  set (d := din_store _ _ _).
  destruct (tx_log_write dev st p pid hs (ib :: held) s1 ib bp _ d Ht1 Hh1) as (s2 & E2 & Ht2 & Hx2 & Hh2); try done.
  { apply length_din_store; [apply length_bview, Ht|change IPB with 16; apply Z.mod_pos_bound; lia|done]. } { lia. } { lia. }
  rewrite (seq_run _ _ _ _ _ E2).
  destruct (tx_brelse dev st p pid (logged ib hs) held s2 ib bp _ Ht2 Hh2) as (s3 & E3 & Ht3 & Hx3).
  { intros Hh. exfalso. apply Hh. unfold logged. destruct (decide (ib ∈ hs)); set_solver. }
  destruct (xrel_kept _ _ _ _ Hx2) as (K2 & Ki2). destruct (xrel_kept _ _ _ _ Hx3) as (K3 & Ki3).
  exists (logged ib hs), s3. split; [done|]. split; [done|]. split; [unfold logged; destruct (decide _); rewrite ?length_app; simpl; lia|].
  split; [exact (keeps_trans _ _ _ (keeps_trans _ _ _ K1 K2) K3)|]. split; [congruence|].
  intros c. rewrite (xr_view _ _ _ _ _ _ Hx3 c). change (overlay [] (view s2) c) with (view s2 c).
  rewrite (xr_view _ _ _ _ _ _ Hx2 c), overlay_one. by destruct (decide (c = ib)).
Qed.

(** The addresses of a well-formed file are disk addresses. *)
Lemma addrs_typed v u ip : fwf v u ip -> Forall (fun a => 0 <= a < 2 ^ 32) (i_addrs ip).
Proof.
  intros [Wl Wown _ _]. pose proof (ge_size _ _ Hg) as Hsz. change BPB with 8192 in Hsz.
  apply Forall_lookup_2. intros j a Hj. destruct (decide (a = 0)) as [->|Hn]; [done|].
  pose proof (lookup_lt_Some _ _ _ Hj) as Hlt. rewrite Wl in Hlt. unfold NDIRECT in *.
  destruct (Wown a) as [? _ _ _ _ _]; [|lia]. split; [done|]. destruct (decide (j = 12)%nat) as [->|].
  - left. unfold findirect, NDIRECT. by rewrite Hj.
  - right. exists (Z.of_nat j). change MAXFILE with 268. split; [lia|]. unfold fblk, NDIRECT.
    rewrite (proj2 (Z.ltb_lt _ _)), Nat2Z.id, Hj by lia. done.
Qed.

(** ** writei *)

(** The new size, in the inode and on disk. *)
Lemma set_size_run s1 ip1 e :
  g_itable s1 !! i = Some ip1 ->
  let ip2 := set_i_size (Z.max (i_size ip1) e) ip1 in
  when (e >? i_size ip1) (upd_inode i (set_i_size e)) s1 = Ret tt (put_itable (<[i := ip2]> (g_itable s1)) s1).
Proof.
  intros Hi ip2. destruct (Z.gtb_spec e (i_size ip1)); cbn [when].
  - unfold upd_inode. rewrite (arr_upd_run "inode" g_itable put_itable i _ s1 ip1 Hi). unfold ip2. by rewrite Z.max_r by lia.
  - assert (ip2 = ip1) as -> by (unfold ip2; rewrite Z.max_l by lia; by destruct ip1).
    rewrite list_insert_id by done. by destruct s1 as [? ? ? ? ? [] ? ? ?].
Qed.

(** The inode as the loop left it, with its new size. *)
Lemma size_typed v u ip ip1 e :
  inode_typed ip -> ip1 = set_i_addrs (i_addrs ip1) ip -> fwf v u ip1 -> e < 2 ^ 32 ->
  inode_typed (set_i_size (Z.max (i_size ip1) e) ip1).
Proof.
  intros [T1 T2 T3 T4 T5 _] E W He. pose proof (addrs_typed _ _ _ W) as Ha. pose proof (fw_len _ _ _ _ _ _ _ W) as Hl.
  rewrite E in Ha, Hl |- *. split; cbn [set_i_size set_i_addrs i_type i_major i_minor i_nlink i_size i_addrs] in *; try done. lia.
Qed.

(** The end of [writei]: the size, and the inode's block. *)
Lemma finish_run hs1 s1 ip1 e :
  filestate hs1 s1 ip1 -> IBLOCK (i_inum ip1) sb = ib -> (length hs1 + length held < 29)%nat ->
  let ip2 := set_i_size (Z.max (i_size ip1) e) ip1 in
  let d := din_store (view s1 ib) (i_inum ip1 mod IPB) ip2 in
  exists hs3 s3, (when (e >? i_size ip1) (upd_inode i (set_i_size e)) ;; iupdate i) s1 = Ret tt s3 /\
    (length hs3 <= length hs1 + 1)%nat /\ filestate hs3 s3 ip2 /\ keeps s1 s3 /\ g_itable s3 = <[i := ip2]> (g_itable s1) /\
    (forall c, view s3 c = if decide (c = ib) then d else view s1 c) /\
    (forall b, 0 <= b < sb_size sb -> used s3 b = used s1 b).
Proof.
  intros F1 Hin Hroom ip2 d. pose proof (fs_inode _ _ _ F1) as Hi1.
  rewrite (bind_run _ _ _ _ _ (set_size_run s1 ip1 e Hi1)). fold ip2. set (s2 := put_itable _ s1).
  assert (g_itable s2 !! i = Some ip2) as Hi2 by (apply list_lookup_insert_eq; by eapply lookup_lt_Some).
  destruct (iupdate_run hs1 s2 ip2) as (hs3 & s3 & E3 & Ht3 & L3 & K3 & T3 & Hv3); try done.
  { apply tx_itable, (fs_tx _ _ _ F1). } { exact (fs_dev _ _ _ F1). } { exact (fs_sb _ _ _ F1). }
  { exact (fw_len _ _ _ _ _ _ _ (fs_wf _ _ _ F1)). }
  assert (forall c, view s3 c = if decide (c = ib) then d else view s1 c) as Hv by exact Hv3.
  assert (forall b, 0 <= b < sb_size sb -> used s3 b = used s1 b) as Hu.
  { intros b Hb. apply used_ext; [|done]. intros c Hc. rewrite Hv, decide_False; [done|]. by intros ->. }
  exists hs3, s3. split; [done|]. split; [done|]. split; [|split_and!; done].
  pose proof K3 as (_ & Ks & Kl & _). split; try done.
  - by rewrite T3.
  - exact (fs_dev _ _ _ F1).
  - by apply (fwf_inode_block st sb held ib (view s1) (used s1) ip1 _ _ _ d); [apply F1| | |].
  - eapply marked_mono; [|exact (fs_marked _ _ _ F1)]. intros b Hb. by rewrite Hu.
  - rewrite Hu by done. exact (fs_ib _ _ _ F1).
  - rewrite Ks. exact (fs_sb _ _ _ F1).
  - unfold lock_free. rewrite Kl. exact (fs_pr _ _ _ F1).
Qed.

(** What [writei] does to the file system: [tot] bytes are stored and the inode is on disk. *)
Record written (s : kstate) (ip : inode) (src off tot : Z) (s' : kstate) (ip' : inode) : Prop := {
  wn_table : g_itable s' = <[i := ip']> (g_itable s);
  wn_inode : ip' = set_i_size (Z.max (i_size ip) (off + tot)) (set_i_addrs (i_addrs ip') ip);
  wn_bytes : stored_at (g_pmem s) src off tot (view s) ip (view s') ip';
  wn_mapped : no_holes off tot (view s') ip';
  wn_disk : din_load (view s' ib) (i_inum ip mod IPB) ip' = ip';
  wn_dinodes : forall j x, 0 <= j < IPB -> j <> i_inum ip mod IPB -> din_load (view s' ib) j x = din_load (view s ib) j x;
  wn_other : forall c, 0 <= c < sb_size sb -> used s c = true -> ~ bitmap_block sb c -> ~ owns (view s) ip c -> c <> ib ->
    view s' c = view s c /\ ~ owns (view s') ip' c;
  wn_new : forall c, 0 <= c < sb_size sb -> used s' c = true -> used s c = true \/ owns (view s') ip' c;
  wn_mem : keeps s s'
}.

Lemma writei_run hs s ip src off n :
  filestate hs s ip -> inode_typed ip -> IBLOCK (i_inum ip) sb = ib ->
  0 <= off <= i_size ip -> 0 <= n -> off + n <= MAXFILE * BSIZE ->
  space_of p L s -> 0 <= src < 2 ^ 64 -> (in_user L = false -> src + n < 2 ^ 64) ->
  (forall j, 0 <= j < n -> can_read L (g_pmem s) (src + j) = true) ->
  (length hs + length held + 6 * Z.to_nat (turns off n) <= 34)%nat ->
  exists tot hs' s' ip', writei i (in_user L) src off n s = Ret tot s' /\ 0 <= tot <= n /\ (tot = n \/ full s') /\
    (length hs' + length held < NBUF)%nat /\ filestate hs' s' ip' /\ written s ip src off tot s' ip'.
Proof.
  intros F Hty Hin Hoff Hn Hmax Hsp Hsrc Hsrc' Hrd Hroom. unfold writei.
  rewrite (bind_run _ _ _ _ _ (arr_get_run "inode" g_itable i s ip (fs_inode _ _ _ F))).
  assert (MAXFILE * BSIZE = 274432) as Em by reflexivity. rewrite u32_small by lia.
  rewrite Z.gtb_ltb, (proj2 (Z.ltb_ge _ _)), (proj2 (Z.ltb_ge (off + n) off)) by lia. cbn [orb].
  rewrite Z.gtb_ltb, (proj2 (Z.ltb_ge (MAXFILE * BSIZE) _)) by lia.
  pose proof (turns_pos off n Hn) as Hp.
  destruct (writei_loop (io_fuel n) hs s ip n 0 off src) as (m & hs1 & s1 & ip1 & E1 & Hm & Hend & S1 & C1 & N1);
    try done; rewrite ?Z.sub_0_r; try done; try lia.
  { unfold io_fuel, turns. change BSIZE with 1024. destruct (n =? 0); zlia. }
  rewrite (bind_run _ _ _ _ _ E1). cbn [fst snd]. destruct S1 as [F1 L1 K1 T1 G1]. rewrite Z.add_0_l, Z.sub_0_r in *.
  pose proof (gr_inode _ _ _ _ _ _ _ _ _ _ G1) as Ei. pose proof (fs_wf _ _ _ F1) as W1.
  assert (i_size ip1 = i_size ip /\ i_inum ip1 = i_inum ip) as [Esz Enum] by (by rewrite Ei).
  rewrite (bind_run _ _ _ _ _ (arr_get_run "inode" g_itable i s1 ip1 (fs_inode _ _ _ F1))).
  destruct (finish_run hs1 s1 ip1 (off + m) F1) as (hs3 & s3 & E3 & L3 & F3 & K3 & T3 & Hv & Hu); [by rewrite Enum|lia|].
  rewrite Enum in Hv. set (ip2 := set_i_size _ ip1) in *. set (d := din_store _ _ ip2) in *.
  rewrite (seq_run _ _ _ _ _ E3), s32_small by lia.
  assert (inode_typed ip2) as Hty2 by (apply (size_typed (view s1) (used s1) ip); try done; lia).
  destruct (fwf_inode_block st sb held ib (view s1) (used s1) ip1 (view s3) (used s3) ip2 d W1 eq_refl Hv Hu) as (_ & C3 & O3 & B3).
  assert (0 <= i_inum ip mod IPB < IPB) as Hk by (apply Z.mod_pos_bound; done).
  assert (length (view s1 ib) = 1024%nat) as Hl1 by (by eapply fs_view_len).
  exists m, hs3, s3, ip2. split; [done|]. split; [lia|]. split; [|split; [unfold NBUF; lia|split; [done|]]].
  { destruct Hend as [|Hf]; [by left|right]. intros b Hb. rewrite Hu by done. by apply Hf. }
  assert (view s3 ib = d) as Hd by (rewrite Hv; by apply decide_True). split.
  - by rewrite T3, T1, list_insert_insert_eq.
  - unfold ip2. rewrite Esz, Ei. by destruct ip.
  - intros o Ho. rewrite C3 by done. by apply C1.
  - intros o Ho. rewrite B3. by apply N1.
  - rewrite Hd. unfold d. rewrite din_load_store by done. by destruct ip2.
  - intros j x Hj Hne. rewrite Hd. unfold d. rewrite din_load_other by (done || apply W1). f_equal.
    apply (gr_other _ _ _ _ _ _ _ _ _ _ G1 ib); try done; [exact (fs_ib _ _ _ F)|].
    intros Ho. by destruct (fw_own _ _ _ _ _ _ _ (fs_wf _ _ _ F) ib Ho).
  - intros c Hc Hcu Hb Ho Hci. destruct (gr_other _ _ _ _ _ _ _ _ _ _ G1 c Hc Hcu Hb Ho) as [Ev Ho1].
    rewrite Hv, decide_False by done. split; [done|]. by rewrite O3.
  - intros c Hc. rewrite Hu, O3 by done. by apply (gr_new _ _ _ _ _ _ _ _ _ _ G1).
  - exact (keeps_trans _ _ _ K1 K3).
Qed.

(** An offset past the end, a request that wraps around or one past the largest file is refused, and nothing changes. *)
Lemma writei_rejects u s ip src off n :
  g_itable s !! i = Some ip -> 0 <= off < 2 ^ 32 -> 0 <= n < 2 ^ 32 ->
  i_size ip < off \/ 2 ^ 32 <= off + n \/ MAXFILE * BSIZE < off + n -> writei i u src off n s = Ret (-1) s.
Proof.
  intros Hi Hoff Hn H. unfold writei. rewrite (bind_run _ _ _ _ _ (arr_get_run "inode" g_itable i s ip Hi)).
  destruct (Z.gtb_spec off (i_size ip)); [done|]. cbn [orb]. destruct (Z.ltb_spec (u32 (off + n)) off) as [|Hw]; [done|].
  assert (off + n < 2 ^ 32) as Hlt.
  { destruct (decide (off + n < 2 ^ 32)); [done|]. exfalso. revert Hw. unfold u32, wrapU.
    rewrite <- (Z.mod_unique_pos (off + n) (2 ^ 32) 1 (off + n - 2 ^ 32)) by lia. lia. }
  rewrite u32_small by lia. destruct (Z.gtb_spec (off + n) (MAXFILE * BSIZE)); [done|lia].
Qed.

(** ** Reading what was written *)

(** An allocated block, as [readi] sees it. *)
Lemma mapped_fblk hs s ip k :
  filestate hs s ip -> 0 <= k < MAXFILE -> fblk (view s) ip k <> 0 ->
  mapped dev held s ip k /\ faddr dev s ip k = fblk (view s) ip k.
Proof.
  intros F Hk Hn. pose proof (fw_own _ _ _ _ _ _ _ (fs_wf _ _ _ F)) as Wown.
  assert (faddr dev s ip k = fblk (view s) ip k) as E.
  { unfold faddr. unfold fblk in *. destruct (k <? _); [done|]. by destruct (findirect ip =? 0). }
  split; [|done]. split; [done|rewrite E; eapply data_small, Wown; split; [done|right; by exists k]| |].
  - rewrite E. apply (db_held _ _ _ _ _ _ (Wown _ ltac:(split; [done|right; by exists k]))).
  - intros Hd. assert (findirect ip <> 0) as Hi.
    { intros E0. apply Hn. unfold fblk. by rewrite (proj2 (Z.ltb_ge _ _) Hd), E0. }
    split; [eapply data_small, Wown; split; [done|by left]|]. apply (db_held _ _ _ _ _ _ (Wown _ ltac:(split; [done|by left]))).
Qed.

(** Reading nothing. *)
Lemma readi_nothing u s ip dst off : g_itable s !! i = Some ip -> 0 <= off <= i_size ip -> i_size ip < 2 ^ 31 ->
  readi i u dst off 0 s = Ret 0 s.
Proof.
  intros Hi Hoff Hsz. unfold readi. rewrite (bind_run _ _ _ _ _ (arr_get_run "inode" g_itable i s ip Hi)).
  rewrite Z.add_0_r, u32_small by lia. rewrite Z.gtb_ltb, (proj2 (Z.ltb_ge _ _)), Z.ltb_irrefl by lia. cbn [orb].
  cbv zeta. destruct (Z.ltb_spec (i_size ip) off); [lia|]. reflexivity.
Qed.

Lemma fbytes_stored hs s s' ip ip' src off tot :
  filestate hs s' ip' -> written s ip src off tot s' ip' -> 0 <= off -> 0 <= tot -> off + tot <= MAXFILE * BSIZE ->
  fbytes dev s' ip' off (Z.to_nat tot) = rbytes L (g_pmem s) src (Z.to_nat tot).
Proof.
  intros F W Hoff Htot Hmax. apply list_eq. intros j. unfold fbytes. rewrite list_lookup_fmap.
  destruct (decide (j < Z.to_nat tot)%nat) as [Hj|Hj]; [|rewrite lookup_seq_ge by lia; symmetry; apply lookup_ge_None_2; rewrite length_rbytes; lia].
  rewrite lookup_seq_lt, lookup_rbytes by done. cbn [fmap option_fmap option_map]. f_equal. rewrite Nat.add_0_l.
  pose proof (wn_bytes _ _ _ _ _ _ _ W (off + Z.of_nat j) ltac:(lia)) as Hb. rewrite decide_True in Hb by lia.
  replace (src + (off + Z.of_nat j - off)) with (src + Z.of_nat j) in Hb by lia. rewrite <- Hb.
  pose proof (wn_mapped _ _ _ _ _ _ _ W (off + Z.of_nat j) ltac:(lia)) as Hn.
  destruct (mapped_fblk hs s' ip' ((off + Z.of_nat j) / BSIZE) F) as [_ E]; [|done|].
  { change MAXFILE with 268 in *. change BSIZE with 1024 in *. zlia. }
  unfold fbyte, fcell. cbv zeta. rewrite E. by rewrite (proj2 (Z.eqb_neq _ _) Hn).
Qed.
End copied.
End write.

(** ** Theorems *)

(** The block of the inode is in use and is neither of the log nor of the bitmap nor held. *)
Record inode_block (st : Z) (sb : superblock) (held : list Z) (ib : Z) : Prop := {
  ik_range : 0 <= ib < sb_size sb;
  ik_bmap : ~ bitmap_block sb ib;
  ik_log : ~ (st <= ib <= st + 29);
  ik_held : ib ∉ held
}.

(** [C3] Writing to a file, in a transaction with room in the log, from kernel memory or from user memory all of
    which the process may read.  For an inode whose blocks
    are its own, writei terminates and returns the number of bytes it stored, all of them
    unless no block of the disk is free.  Afterwards the file reads as before with
    exactly those bytes replaced (holes read as zeros, and the bytes stored are in
    allocated blocks); the size is the larger of the old one and the end of the write; the inode
    on disk is the one in memory and the other inodes of its block are unchanged; blocks in use that
    are not the file's, the bitmap's or the inode's keep their content, and blocks newly in use belong to the
    file, which still uses no block twice; memory and the other inodes are as they were. *)
Theorem writei_writes {KI : KernelImage} L dev st p pid sb hs held i ip s src off n :
  geometry st sb -> inode_block st sb held (IBLOCK (i_inum ip) sb) ->
  filestate dev st p pid sb held i (IBLOCK (i_inum ip) sb) hs s ip -> inode_typed ip ->
  0 <= off <= i_size ip -> 0 <= n -> off + n <= MAXFILE * BSIZE ->
  space_of p L s -> 0 <= src < 2 ^ 64 -> (in_user L = false -> src + n < 2 ^ 64) ->
  (forall j, 0 <= j < n -> can_read L (g_pmem s) (src + j) = true) ->
  (length hs + length held + 6 * Z.to_nat (turns off n) <= 34)%nat ->
  exists tot hs' s' ip', writei i (in_user L) src off n s = Ret tot s' /\ 0 <= tot <= n /\ (tot = n \/ full dev sb s') /\
    filestate dev st p pid sb held i (IBLOCK (i_inum ip) sb) hs' s' ip' /\
    written dev sb i (IBLOCK (i_inum ip) sb) L s ip src off tot s' ip'.
Proof.
  intros Hg [I1 I2 I3 I4] F Hty Hoff Hn Hmax Hsp Hsrc Hsrc' Hrd Hroom.
  destruct (writei_run dev st p pid sb held i (IBLOCK (i_inum ip) sb) Hg I1 I2 I3 I4 L hs s ip src off n)
    as (tot & hs' & s' & ip' & E & Ht & Hend & _ & F' & W); try done.
  by exists tot, hs', s', ip'.
Qed.

(** [C4] What writei stored, readi gives back.  From a source in kernel memory, or in user memory the
    process may read, and for a destination in kernel memory or in user memory it may write: reading the
    bytes that a write of [n] bytes at [off] reported as stored returns as many, and
    the destination then holds the bytes that were at the source. *)
Theorem writei_readi_roundtrip {KI : KernelImage} L1 L2 dev st p pid sb hs held i ip s src off n dst :
  geometry st sb -> inode_block st sb held (IBLOCK (i_inum ip) sb) ->
  filestate dev st p pid sb held i (IBLOCK (i_inum ip) sb) hs s ip -> inode_typed ip -> i_size ip < 2 ^ 31 ->
  0 <= off <= i_size ip -> 0 <= n -> off + n <= MAXFILE * BSIZE -> mem_ok (g_pmem s) ->
  space_of p L1 s -> 0 <= src < 2 ^ 64 -> (in_user L1 = false -> src + n < 2 ^ 64) ->
  (forall j, 0 <= j < n -> can_read L1 (g_pmem s) (src + j) = true) ->
  space_of p L2 s -> 0 <= dst < 2 ^ 64 -> (in_user L2 = false -> dst + n < 2 ^ 64) ->
  (forall j, 0 <= j < n -> can_write L2 (g_pmem s) (dst + j) = true) ->
  (length hs + length held + 6 * Z.to_nat (turns off n) <= 34)%nat ->
  exists tot s1 s2, writei i (in_user L1) src off n s = Ret tot s1 /\ 0 <= tot <= n /\ (tot = n \/ full dev sb s1) /\
    readi i (in_user L2) dst off tot s1 = Ret tot s2 /\
    rbytes L2 (g_pmem s2) dst (Z.to_nat tot) = rbytes L1 (g_pmem s) src (Z.to_nat tot).
Proof.
  intros Hg [I1 I2 I3 I4] F Hty Hsz Hoff Hn Hmax Hmem Hs1 Hsrc Hsrc' Hrd Hs2 Hdst Hdst' Hwr Hroom. set (ib := IBLOCK (i_inum ip) sb) in *.
  destruct (writei_run dev st p pid sb held i ib Hg I1 I2 I3 I4 L1 hs s ip src off n)
    as (tot & hs' & s1 & ip' & E & Ht & Hend & Hl & F' & W); try done.
  assert (MAXFILE * BSIZE = 274432) as Em by reflexivity.
  assert (i_size ip' = Z.max (i_size ip) (off + tot)) as Es by (by rewrite (wn_inode _ _ _ _ _ _ _ _ _ _ _ _ W)).
  destruct (decide (tot = 0)) as [->|Hne].
  { exists 0, s1, s1. split; [done|]. split; [lia|]. split; [done|]. split; [|done].
    apply (readi_nothing i _ s1 ip'); [exact (fs_inode _ _ _ _ _ _ _ _ _ _ _ F')|lia..]. }
  pose proof (wn_mem _ _ _ _ _ _ _ _ _ _ _ _ W) as K. pose proof K as (Ep & _).
  pose proof (fbytes_stored dev st p pid sb held i ib Hg I1 L1 hs' s s1 ip ip' src off tot F' W ltac:(lia) ltac:(lia) ltac:(lia)) as Eb.
  assert (Forall byte (fbytes dev s1 ip' off (Z.to_nat tot))) as Hby by (rewrite Eb; by apply rbytes_byte).
  destruct (readi_run dev st p pid L2 hs' held i ip' Hl (fs_dev _ _ _ _ _ _ _ _ _ _ _ F') (fw_len _ _ _ _ _ _ _ (fs_wf _ _ _ _ _ _ _ _ _ _ _ F'))
    s1 dst off tot) as (k & s2 & E2 & Hk & _ & _ & Hs & _ & Hno); try lia.
  { exact (fs_tx _ _ _ _ _ _ _ _ _ _ _ F'). } { by eapply space_keeps. } { exact (fs_inode _ _ _ _ _ _ _ _ _ _ _ F'). }
  { intros Hu. specialize (Hdst' Hu). lia. }
  { intros k Hk Hk'. rewrite Es in Hk'.
    assert (exists o, off <= o < off + tot /\ o / BSIZE = k) as (o & Ho & <-).
    { exists (Z.max off (k * BSIZE)). change BSIZE with 1024 in *. zlia. }
    apply (mapped_fblk dev st p pid sb held i ib Hg hs' s1 ip'); [done| |by apply W].
    change MAXFILE with 268 in *. change BSIZE with 1024 in *. zlia. }
  { intros _. by replace (Z.min tot (i_size ip' - off)) with tot by lia. }
  replace (Z.min tot (i_size ip' - off)) with tot in * by lia. rewrite Ep in Hno.
  assert (k = tot) as ->. { destruct (decide (k < tot)) as [Hlt|]; [|lia]. rewrite Hwr in Hno by lia. by specialize (Hno Hlt). }
  rewrite Z.eqb_refl in E2. exists tot, s1, s2. split; [done|]. split; [done|]. split; [done|]. split; [done|].
  apply stored_landed in Hs. rewrite Eb, Ep in Hs. rewrite <- (length_rbytes L1 (g_pmem s) src (Z.to_nat tot)) at 1.
  apply (rbytes_landed L2 (g_pmem s)); [by apply rbytes_byte| |done]. rewrite length_rbytes. intros j Hj. apply Hwr. lia.
Qed.

(** ** An empty file on the file system with blocks 0 to 45 in use *)

Definition file2 : inode :=
  {| i_dev := 1; i_inum := 2; i_ref := 1; i_lock := zero_sleeplock; i_valid := true; i_type := T_FILE;
     i_major := 0; i_minor := 0; i_nlink := 1; i_size := 0; i_addrs := replicate 13 0 |}.
Definition memhi : mem := storen ∅ 4096 [104; 105; 10].
Definition start2 : kstate := put_pmem memhi (put_itable (file2 :: replicate 49 zero_inode) start45).

Lemma file2_wf v u : fwf 2 sb50 [] 32 v u file2.
Proof. by apply fwf_empty. Qed.

Lemma bview_pmem m s c : bview 1 (put_pmem m s) c = bview 1 s c.
Proof. reflexivity. Qed.

Lemma start2_used b : used 1 sb50 start2 b = used 1 sb50 start45 b.
Proof. unfold used, start2. rewrite bview_pmem, bview_itable. reflexivity. Qed.

Lemma start2_tx : tx 1 2 0 1 [] [] start2.
Proof. unfold start2. apply tx_pmem, tx_itable. exact (start_tx disk45 disk45_lengths). Qed.

Lemma start2_itable : g_itable start2 !! 0%nat = Some file2.
Proof. unfold start2. generalize start45. intros s. reflexivity. Qed.

Lemma start2_marked : marked 1 2 sb50 [] start2.
Proof.
  apply (marked_mono 1 2 sb50 geometry50 [] start45 start2); [|exact start45_marked].
  intros b _ H. rewrite start2_used. exact H.
Qed.

Lemma free_start2 l t m s : lock_free l s -> lock_free l (put_pmem m (put_itable t s)).
Proof. intros H. exact H. Qed.

Lemma sb_start2 t m s : g_sb (put_pmem m (put_itable t s)) = g_sb s.
Proof. reflexivity. Qed.

Lemma start45_sb : g_sb start45 = sb50.
Proof. unfold start45. generalize (rebooted disk45). intros s. reflexivity. Qed.

Lemma start2_state : filestate 1 2 0 1 sb50 [] 0 32 [] start2 file2.
Proof.
  split.
  - exact start2_tx.
  - exact start2_itable.
  - reflexivity.
  - apply file2_wf.
  - exact start2_marked.
  - rewrite start2_used. apply start45_used. lia.
  - unfold start2. rewrite sb_start2. exact start45_sb.
  - unfold start2. apply free_start2, start45_pr.
Qed.

Lemma file2_typed : inode_typed file2.
Proof.
  split; try (unfold file2, T_FILE; simpl; lia). split; [reflexivity|]. apply Forall_lookup_2. intros j a Hj.
  apply lookup_replicate in Hj as [-> _]. lia.
Qed.

Lemma file2_block : inode_block 2 sb50 [] 32.
Proof.
  split; [simpl; lia| |lia|apply not_elem_of_nil]. intros (b & Hb & E). simpl in Hb.
  destruct (BBLOCK50 b Hb) as [E' _]. rewrite E' in E. discriminate.
Qed.

(** The first bytes of the file, from kernel memory. *)
Lemma writei_writes_witness : exists tot hs' s' ip', writei 0 false 4096 0 3 start2 = Ret tot s' /\ 0 <= tot <= 3 /\
  (tot = 3 \/ full 1 sb50 s') /\ filestate 1 2 0 1 sb50 [] 0 32 hs' s' ip' /\ written 1 sb50 0 32 Kernel start2 file2 4096 0 tot s' ip'.
Proof.
  destruct (@writei_writes small_image Kernel 1 2 0 1 sb50 [] [] 0 file2 start2 4096 0 3 geometry50 file2_block start2_state file2_typed)
    as (tot & hs' & s' & ip' & E & Ht & Hf & F & W);
    [simpl; lia|lia|vm_compute; discriminate|exact I|lia|intros _; lia|reflexivity|vm_compute; lia|].
  exists tot, hs', s', ip'. split; [exact E|]. split; [exact Ht|]. split; [exact Hf|]. split; [exact F|exact W].
Defined.

(** The same file system in a process with one page of memory. *)
Lemma in_process_state m root s ip :
  filestate 1 2 0 1 sb50 [] 0 32 [] s ip -> filestate 1 2 0 1 sb50 [] 0 32 [] (in_process m root s) ip.
Proof. intros [F1 F2 F3 F4 F5 F6 F7 F8]. split; try done; [by apply tx_in_process|by destruct F5]. Qed.

(** Three bytes of the program's memory, written to the file and read back to another place in it. *)
Lemma writei_readi_roundtrip_witness : exists m root T tot s1 s2,
  writei 0 true 10 0 3 (in_process m root start2) = Ret tot s1 /\ readi 0 true 20 0 tot s1 = Ret tot s2 /\
  rbytes (User T) (g_pmem s2) 20 (Z.to_nat tot) = rbytes (User T) m 10 (Z.to_nat tot).
Proof.
  destruct user5 as (s & root & T & l & Hu & Hw). exists (g_pmem s), root, T.
  pose proof (@in_process_space image5 1 2 1 [] [] (g_pmem s) root T start2 start2_tx (@uvm_us image5 _ _ _ _ Hu)) as Hsp.
  destruct (@writei_readi_roundtrip image5 (User T) (User T) 1 2 0 1 sb50 [] [] 0 file2 (in_process (g_pmem s) root start2) 10 0 3 20
    geometry50 file2_block (in_process_state (g_pmem s) root start2 file2 start2_state) file2_typed)
    as (tot & s1 & s2 & E1 & Ht & _ & E2 & E3).
  - simpl. lia.
  - simpl. lia.
  - lia.
  - vm_compute. discriminate.
  - exact (@us_ok image5 _ _ _ (@uvm_us image5 _ _ _ _ Hu)).
  - exact Hsp.
  - lia.
  - discriminate.
  - intros j Hj. destruct (Hw (10 + j) ltac:(lia)) as [Ha _]. unfold writable in Ha. apply andb_true_iff in Ha as [Ha _]. exact Ha.
  - exact Hsp.
  - lia.
  - discriminate.
  - intros j Hj. destruct (Hw (20 + j) ltac:(lia)) as [Ha _]. exact Ha.
  - vm_compute. lia.
  - exists tot, s1, s2. split; [exact E1|]. split; [exact E2|exact E3].
Defined.
