(* ===== verification/FsTrunc.v ===== *)
(** * Truncating files: [itrunc] of kernel/fs.c

    On a file system whose bitmap is one block, as the 2000 blocks of mkfs make it, [itrunc] frees exactly the
    blocks of the file: the direct ones, those in the table, and the table itself. *)

From Stdlib Require Import ZArith Lia.
From stdpp Require Import base list gmap strings numbers option.
From S2P Require Import Prelude Bytes Riscv Cstring Kstate Sched Copy PrintSpec Bio BioSpec Log LogSpec Fs FsPure Icache FsTx Bitmap FsRead FsWrite.

Section trunc.
Context (dev st : Z) (p : nat) (pid : Z) (sb : superblock) (held : list Z) (i : nat) (ib bm : Z).
Context (Hg : geometry st sb) (Hone : forall b, 0 <= b < sb_size sb -> BBLOCK b sb = bm).

Local Abbreviation view := (bview dev).
Local Abbreviation tx := (tx dev st p pid).
Local Abbreviation used := (used dev sb).

(** The blocks [fr] of the state [s] were freed, the log has at most the bitmap block more. *)
Record freed (hs L : list Z) (s : kstate) (fr : list Z) (s' : kstate) : Prop := {
  fd_tx : exists h, tx h L s' /\ (h = hs \/ h = logged bm hs);
  fd_keeps : keeps s s';
  fd_used : forall b, 0 <= b < sb_size sb -> used s' b = used s b && bool_decide (b ∉ fr);
  fd_view : forall c, c <> bm -> view s' c = view s c
}.

Lemma logged_twice hs : logged bm (logged bm hs) = logged bm hs.
Proof. unfold logged. destruct (decide (bm ∈ hs)); [by rewrite decide_True|]. by rewrite decide_True by set_solver. Qed.

Lemma elem_of_logged c x hs : c ∈ logged x hs <-> c ∈ hs \/ c = x.
Proof. unfold logged. destruct (decide (x ∈ hs)); set_solver. Qed.

Lemma length_logged c hs : (length (logged c hs) <= length hs + 1)%nat.
Proof. unfold logged. destruct (decide _); rewrite ?length_app; simpl; lia. Qed.

(** One more block. *)
Lemma free_in_turn hs L s fr s1 b :
  freed hs L s fr s1 -> g_sb s = sb -> 0 <= b < sb_size sb -> used s b = true -> b ∉ fr -> bm ∉ L ->
  (length hs + length L < 28)%nat ->
  exists s2, bfree dev b s1 = Ret tt s2 /\ freed hs L s (b :: fr) s2 /\ g_itable s2 = g_itable s1 /\
    forall c x d, c ∈ L -> holds dev s1 pid c x d -> holds dev s2 pid c x d.
Proof.
  intros [(h & Ht & Hh) K U V] Hsb Hb Hu Hf HL Hroom. pose proof (length_logged bm hs).
  pose proof K as (_ & Ks & _). pose proof (Hone b Hb) as EB.
  pose proof (bfree_run dev st p pid sb h L s1 b Hg Ht ltac:(congruence) Hb) as R. rewrite EB in R.
  specialize (R HL ltac:(destruct Hh; subst h; lia) ltac:(destruct Hh; subst h; lia)).
  rewrite (U b Hb), Hu, bool_decide_true in R by done. cbn [andb] in R. destruct R as (s2 & E & Ht2 & Hx).
  destruct (freed_effect dev st pid sb L s1 s2 b Hg (x_ok _ _ _ _ _ _ _ Ht) Hb) as [U2 V2]; [by rewrite EB|].
  destruct (xrel_kept _ _ _ _ _ _ Hx) as (K2 & Ki). exists s2. split; [done|]. split; [|split; [done|apply Hx]]. split.
  - exists (logged bm h). split; [done|]. right. destruct Hh as [->| ->]; [done|apply logged_twice].
  - by eapply keeps_trans.
  - intros j Hj. rewrite U2, U by done. destruct (decide (j = b)) as [->|Hne].
    + rewrite bool_decide_false by set_solver. by rewrite andb_false_r.
    + f_equal. apply bool_decide_ext. set_solver.
  - intros c Hc. rewrite V2 by (by rewrite EB). by apply V.
Qed.

(** The inode in memory may change under it. *)
Lemma freed_itable hs L s fr s1 t : freed hs L s fr s1 -> freed hs L s fr (put_itable t s1).
Proof. intros [(h & Ht & Hh) K U V]. split; try done. exists h. split; [by apply tx_itable|done]. Qed.

(** ** The direct blocks *)

(** The first [j] addresses cleared. *)
Definition zeroed (j : nat) (l : list Z) : list Z := replicate j 0 ++ drop j l.

Lemma zeroed_lookup j l : zeroed j l !! j = l !! j.
Proof. unfold zeroed. rewrite lookup_app_r, length_replicate, Nat.sub_diag, lookup_drop, Nat.add_0_r; [done|]. by rewrite length_replicate. Qed.

Lemma zeroed_S j l a : l !! j = Some a -> <[j := 0]> (zeroed j l) = zeroed (S j) l.
Proof.
  intros Hj. unfold zeroed. rewrite insert_app_r_alt, length_replicate, Nat.sub_diag by (by rewrite length_replicate).
  rewrite (drop_S _ _ _ Hj). change (replicate (S j) 0) with (0 :: replicate j 0). rewrite replicate_cons_app, <- (assoc_L (++)). done.
Qed.

Lemma zeroed_all l : zeroed (length l) l = replicate (length l) 0.
Proof. unfold zeroed. by rewrite drop_all, app_nil_r. Qed.

Definition nonzero (l : list Z) : list Z := filter (fun a => a <> 0) l.

Section inode.
Context (hs : list Z) (s : kstate) (ip : inode).
Context (F : filestate dev st p pid sb held i ib hs s ip) (Hroom : (length hs + length held < 26)%nat) (Hbm : bm ∉ held).

Lemma fs_addr j a : i_addrs ip !! j = Some a -> a <> 0 -> owns (view s) ip a /\ 0 <= a < sb_size sb /\ used s a = true /\ a <> bm.
Proof.
  intros Hj Ha. pose proof (fs_wf _ _ _ _ _ _ _ _ _ _ _ F) as W. pose proof (lookup_lt_Some _ _ _ Hj) as Hl.
  rewrite (fw_len _ _ _ _ _ _ _ W) in Hl. unfold NDIRECT in Hl. pose proof (ge_size _ _ Hg) as [Hs _].
  assert (owns (view s) ip a) as Ho.
  { split; [done|]. destruct (decide (j = 12)%nat) as [->|]; [left; unfold findirect, NDIRECT; by rewrite Hj|right].
    exists (Z.of_nat j). change MAXFILE with 268. split; [lia|]. unfold fblk, NDIRECT.
    rewrite (proj2 (Z.ltb_lt _ _)), Nat2Z.id, Hj by lia. done. }
  split; [done|]. destruct (fw_own _ _ _ _ _ _ _ W a Ho) as [Hr Hu Hb _ _ _]. split_and!; [lia|lia|done|].
  intros ->. apply Hb. exists 0. split; [lia|]. by rewrite Hone by lia.
Qed.

Lemma direct_fresh j a : i_addrs ip !! j = Some a -> a <> 0 -> (j <= NDIRECT)%nat -> a ∉ nonzero (take j (i_addrs ip)).
Proof.
  intros Hj Ha Hle [_ Hin]%list_elem_of_filter. apply list_elem_of_lookup_1 in Hin as (k & Hk).
  apply lookup_take_Some in Hk as [Hk Hlt]. destruct (fs_wf _ _ _ _ _ _ _ _ _ _ _ F) as [Wl _ Winj Wind].
  unfold NDIRECT in Hle. assert (fblk (view s) ip (Z.of_nat k) = a) as Ek.
  { unfold fblk, NDIRECT. rewrite (proj2 (Z.ltb_lt _ _)), Nat2Z.id, Hk by lia. done. }
  assert (0 <= Z.of_nat k < MAXFILE) as Hkr by (change MAXFILE with 268; lia).
  destruct (decide (j = 12)%nat) as [->|].
  - apply (Wind (Z.of_nat k)); [done|congruence|]. rewrite Ek. unfold findirect, NDIRECT. by rewrite Hj.
  - assert (Z.of_nat k = Z.of_nat j); [|lia]. apply Winj; [done|change MAXFILE with 268; lia|congruence|].
    rewrite Ek. unfold fblk, NDIRECT. rewrite (proj2 (Z.ltb_lt _ _)), Nat2Z.id, Hj by lia. done.
Qed.

Definition direct_done (j : nat) (s1 : kstate) : Prop :=
  freed hs held s (reverse (nonzero (take j (i_addrs ip)))) s1 /\
  g_itable s1 = <[i := set_i_addrs (zeroed j (i_addrs ip)) ip]> (g_itable s).

Lemma free_direct :
  wp (for_each NDIRECT 0 (fun j =>
    ip <- get_inode i ;;
    a <- addr_at ip j ;;
    when (negb (a =? 0)) (bfree (i_dev ip) a ;; upd_inode i (set_addr j 0)))) s
    (fun _ s1 => direct_done NDIRECT s1).
Proof.
  pose proof (fs_inode _ _ _ _ _ _ _ _ _ _ _ F) as Hi. pose proof (fw_len _ _ _ _ _ _ _ (fs_wf _ _ _ _ _ _ _ _ _ _ _ F)) as Hl.
  assert (forall (x : inode) (t : list inode), t !! i = Some ip -> <[i := x]> t !! i = Some x) as Hget.
  { intros x t Ht. apply list_lookup_insert_eq. by eapply lookup_lt_Some. }
  apply (wp_for_each direct_done); [|intros j s1 Hj (Fr & T)|done].
  { split; [|by destruct ip; rewrite list_insert_id].
    split; [|apply keeps_refl|intros b Hb; by rewrite bool_decide_true, andb_true_r by apply not_elem_of_nil|done].
    exists hs. split; [exact (fs_tx _ _ _ _ _ _ _ _ _ _ _ F)|by left]. }
  destruct (lookup_lt_is_Some_2 (i_addrs ip) j) as [a Ha]; [rewrite Hl; lia|].
  unfold wp. set (ipj := set_i_addrs (zeroed j (i_addrs ip)) ip) in *.
  assert (g_itable s1 !! i = Some ipj) as Hij by (rewrite T; auto).
  rewrite (bind_run _ _ _ _ _ (arr_get_run "inode" g_itable i s1 ipj Hij)).
  unfold addr_at. change (i_addrs ipj) with (zeroed j (i_addrs ip)). rewrite zeroed_lookup, Ha. cbn [the]. rewrite bind_ret_l.
  assert (set_addr j 0 ipj = set_i_addrs (zeroed (S j) (i_addrs ip)) ip) as Es.
  { unfold set_addr. change (i_addrs ipj) with (zeroed j (i_addrs ip)). by rewrite (zeroed_S _ _ _ Ha). }
  unfold direct_done. rewrite (take_S_r _ _ _ Ha). unfold nonzero. rewrite list.filter_app, reverse_app.
  destruct (Z.eqb_spec a 0) as [->|Hn]; cbn [negb when].
  - exists tt, s1. split; [done|]. rewrite filter_cons_False by tauto. split; [done|]. rewrite T. f_equal.
    rewrite <- Es. unfold set_addr. change (i_addrs ipj) with (zeroed j (i_addrs ip)).
    rewrite list_insert_id by (by rewrite zeroed_lookup). done.
  - destruct (fs_addr j a Ha Hn) as (_ & Hr & Hu & _).
    destruct (free_in_turn hs held s _ s1 a Fr (fs_sb _ _ _ _ _ _ _ _ _ _ _ F) Hr Hu) as (s2 & E2 & Fr2 & T2 & _); [|done|lia|].
    { rewrite elem_of_reverse. apply (direct_fresh j); [done|done|lia]. }
    change (i_dev ipj) with (i_dev ip). rewrite (fs_dev _ _ _ _ _ _ _ _ _ _ _ F), (bind_run _ _ _ _ _ E2).
    rewrite <- T2 in Hij. unfold upd_inode. rewrite (arr_upd_run "inode" g_itable put_itable i _ s2 ipj Hij).
    eexists tt, _. split; [done|]. rewrite filter_cons_True by done. cbn [filter reverse app].
    split; [by apply freed_itable|]. rewrite Es, T2, T. apply list_insert_insert_eq.
Qed.

(** ** The table and its blocks *)

Definition entry (a : Z) (e : nat) : Z := get_le 4 (view s a) (4 * e).
Definition entries (a : Z) (j : nat) : list Z := entry a <$> seq 0 j.

Lemma entry_fblk a e : findirect ip = a -> a <> 0 -> (e < 256)%nat -> entry a e = fblk (view s) ip (12 + Z.of_nat e).
Proof.
  intros Ha Hn He. unfold entry. pose proof (fblk_entry (view s) ip (Z.of_nat e) ltac:(congruence) ltac:(lia)) as E.
  change (Z.of_nat NDIRECT) with 12 in E. rewrite E, Ha. f_equal. lia.
Qed.

Lemma table_addr a : findirect ip = a -> a <> 0 ->
  i_addrs ip !! NDIRECT = Some a /\ 0 <= a < sb_size sb /\ used s a = true /\ a <> bm.
Proof.
  intros Ha Hn. unfold findirect in Ha. destruct (i_addrs ip !! NDIRECT) as [x|] eqn:Ex; simpl in Ha; subst a; [|done].
  split; [done|]. by apply (fs_addr NDIRECT).
Qed.

(** A block in the table is no direct block and no other entry. *)
Lemma entry_fresh a e : findirect ip = a -> a <> 0 -> (e < 256)%nat -> entry a e <> 0 ->
  0 <= entry a e < sb_size sb /\ used s (entry a e) = true /\
  (entry a e ∉ (reverse (nonzero (entries a e)) ++ reverse (nonzero (take NDIRECT (i_addrs ip))))) /\ entry a e <> a.
Proof.
  intros Ha Hn He. rewrite (entry_fblk a e Ha Hn He). intros Hz.
  destruct (fs_wf _ _ _ _ _ _ _ _ _ _ _ F) as [Wl Wown Winj Wind].
  assert (0 <= 12 + Z.of_nat e < MAXFILE) as Hk by (change MAXFILE with 268; lia).
  destruct (Wown (fblk (view s) ip (12 + Z.of_nat e))) as [Hr Hu _ _ _ _]; [split; [done|right; by eexists]|].
  split; [lia|]. split; [done|]. split; [|rewrite <- Ha; by apply Wind].
  rewrite elem_of_app, !elem_of_reverse. unfold nonzero. rewrite !list_elem_of_filter.
  intros [[_ Hin]|[_ Hin]]; apply list_elem_of_lookup_1 in Hin as (k & Ek).
  - unfold entries in Ek. rewrite list_lookup_fmap in Ek. destruct (decide (k < e)%nat) as [Hlt|]; [|by rewrite lookup_seq_ge in Ek by lia].
    rewrite lookup_seq_lt in Ek by done. injection Ek as Ek. rewrite (entry_fblk a k Ha Hn) in Ek by lia.
    assert (12 + Z.of_nat e = 12 + Z.of_nat k); [|lia]. apply Winj; [done|change MAXFILE with 268; lia|done|done].
  - apply lookup_take_Some in Ek as [Ek Hlt]. unfold NDIRECT in Hlt.
    assert (12 + Z.of_nat e = Z.of_nat k); [|lia]. apply Winj; [done|change MAXFILE with 268; lia|done|].
    unfold fblk at 2, NDIRECT. rewrite (proj2 (Z.ltb_lt _ _)), Nat2Z.id, Ek by lia. done.
Qed.

(** With the buffer of the table held. *)
Definition entries_done (a : Z) (bp : nat) (t : list inode) (j : nat) (s1 : kstate) : Prop :=
  freed hs (a :: held) s (reverse (nonzero (entries a j)) ++ reverse (nonzero (take NDIRECT (i_addrs ip)))) s1 /\
  g_itable s1 = t /\ holds dev s1 pid a bp (view s a).

Lemma free_entries a bp t s1 :
  findirect ip = a -> a <> 0 -> entries_done a bp t 0 s1 ->
  wp (for_each (Z.to_nat NINDIRECT) 0 (fun j =>
       d <- buf_data bp ;;
       let b := get_le 4 d (4 * j) in
       when (negb (b =? 0)) (bfree dev b))) s1 (fun _ s2 => entries_done a bp t 256 s2).
Proof.
  intros Ha Hn H0. change (Z.to_nat NINDIRECT) with 256%nat.
  apply (wp_for_each (entries_done a bp t)); [done| |done]. intros j s2 Hj (Fr & T & Hh). unfold wp.
  rewrite (bind_run _ _ _ _ _ (buf_data_run dev s2 pid _ _ _ Hh)). cbv zeta. fold (entry a j).
  unfold entries_done, entries. rewrite seq_S, fmap_app. cbn [fmap list_fmap]. rewrite Nat.add_0_l. fold (entries a j).
  unfold nonzero at 1. rewrite list.filter_app, reverse_app. fold (nonzero (entries a j)).
  destruct (Z.eqb_spec (entry a j) 0) as [E|E]; cbn [negb when].
  - exists tt, s2. split; [done|]. rewrite filter_cons_False by tauto. done.
  - destruct (entry_fresh a j Ha Hn ltac:(lia) E) as (Hr & Hu & Hf & _).
    assert (bm ∉ a :: held) as Hb.
    { apply not_elem_of_cons. split; [|done]. apply not_eq_sym, table_addr; done. }
    destruct (free_in_turn hs (a :: held) s _ s2 (entry a j) Fr (fs_sb _ _ _ _ _ _ _ _ _ _ _ F) Hr Hu Hf Hb)
      as (s3 & E3 & Fr3 & T3 & Hh3); [simpl; lia|].
    exists tt, s3. split; [done|]. rewrite filter_cons_True by done. cbn [filter reverse app].
    split; [exact Fr3|]. split; [congruence|]. apply Hh3; [by left|done].
Qed.

Lemma table_fresh a : findirect ip = a -> a <> 0 ->
  (a ∉ (reverse (nonzero (entries a 256)) ++ reverse (nonzero (take NDIRECT (i_addrs ip))))).
Proof.
  intros Ha Hn. destruct (table_addr a Ha Hn) as (Hi & _). rewrite elem_of_app, !elem_of_reverse.
  intros [Hin|Hin]; [|by apply (direct_fresh NDIRECT a) in Hin].
  unfold nonzero in Hin. apply list_elem_of_filter in Hin as [_ Hin]. apply list_elem_of_lookup_1 in Hin as (k & Ek).
  unfold entries in Ek. rewrite list_lookup_fmap in Ek. destruct (decide (k < 256)%nat) as [Hlt|]; [|by rewrite lookup_seq_ge in Ek by lia].
  rewrite lookup_seq_lt in Ek by done. injection Ek as Ek. by destruct (entry_fresh a k Ha Hn Hlt) as (_ & _ & _ & ?); [congruence|].
Qed.

(** What was freed are the blocks of the file. *)
Definition file_blocks : list Z :=
  if findirect ip =? 0 then reverse (nonzero (take NDIRECT (i_addrs ip)))
  else findirect ip :: reverse (nonzero (entries (findirect ip) 256)) ++ reverse (nonzero (take NDIRECT (i_addrs ip))).

Lemma file_blocks_owns c : c ∈ file_blocks <-> owns (view s) ip c.
Proof.
  assert (c ∈ reverse (nonzero (take NDIRECT (i_addrs ip))) <-> c <> 0 /\ exists k, 0 <= k < 12 /\ fblk (view s) ip k = c) as Hd.
  { rewrite elem_of_reverse. unfold nonzero. rewrite list_elem_of_filter, list_elem_of_lookup. unfold fblk, NDIRECT. split.
    - intros (Hc & k & Hk). apply lookup_take_Some in Hk as [Hk Hlt]. split; [done|]. exists (Z.of_nat k). split; [lia|].
      rewrite (proj2 (Z.ltb_lt _ _)), Nat2Z.id, Hk by lia. done.
    - intros (Hc & k & Hk & E). rewrite (proj2 (Z.ltb_lt _ _)) in E by lia. split; [done|]. exists (Z.to_nat k).
      rewrite lookup_take_lt by lia. destruct (i_addrs ip !! Z.to_nat k); simpl in E; congruence. }
  assert (findirect ip <> 0 -> c ∈ reverse (nonzero (entries (findirect ip) 256)) <->
    c <> 0 /\ exists k, 12 <= k < 268 /\ fblk (view s) ip k = c) as He.
  { intros Hn. rewrite elem_of_reverse. unfold nonzero, entries. rewrite list_elem_of_filter, list_elem_of_fmap. split.
    - intros (Hc & e & -> & Hin). apply elem_of_seq in Hin. split; [done|]. exists (12 + Z.of_nat e). split; [lia|].
      symmetry. apply entry_fblk; [done|done|lia].
    - intros (Hc & k & Hk & E). split; [done|]. exists (Z.to_nat (k - 12)). rewrite elem_of_seq. split; [|lia].
      rewrite entry_fblk by (done || lia). rewrite <- E. f_equal. lia. }
  unfold file_blocks, owns. change MAXFILE with 268. destruct (Z.eqb_spec (findirect ip) 0) as [E0|E0].
  - rewrite Hd. split; [intros (Hc & k & Hk & E); split; [done|right; exists k; split; [lia|done]]|].
    intros (Hc & [->|(k & Hk & E)]); [done|]. split; [done|]. exists k. split; [|done].
    destruct (decide (k < 12)); [lia|]. exfalso. apply Hc. rewrite <- E. unfold fblk. change (Z.of_nat NDIRECT) with 12.
    by rewrite (proj2 (Z.ltb_ge _ _)), E0 by lia.
  - rewrite elem_of_cons, elem_of_app, Hd, (He E0). split.
    + intros [->|[(Hc & k & Hk & E)|(Hc & k & Hk & E)]]; [split; [done|by left]|..];
        (split; [done|right; exists k; split; [lia|done]]).
    + intros (Hc & [->|(k & Hk & E)]); [by left|right]. destruct (decide (k < 12)); [right|left]; (split; [done|]; exists k; split; [lia|done]).
Qed.

Lemma free_table s1 :
  direct_done NDIRECT s1 ->
  exists s5, (ip1 <- get_inode i ;;
    a <- addr_at ip1 NDIRECT ;;
    when (negb (a =? 0))
      (bp <- bread (i_dev ip1) a ;;
       for_each (Z.to_nat NINDIRECT) 0 (fun j =>
         d <- buf_data bp ;;
         let b := get_le 4 d (4 * j) in
         when (negb (b =? 0)) (bfree (i_dev ip1) b)) ;;
       brelse bp ;;
       bfree (i_dev ip1) a ;;
       upd_inode i (set_addr NDIRECT 0))) s1 = Ret tt s5 /\
    freed hs held s file_blocks s5 /\ g_itable s5 = <[i := set_i_addrs (replicate 13 0) ip]> (g_itable s).
Proof.
  intros (Fr & T). pose proof (fs_wf _ _ _ _ _ _ _ _ _ _ _ F) as W. pose proof (fw_len _ _ _ _ _ _ _ W) as Hl.
  set (ip1 := set_i_addrs (zeroed NDIRECT (i_addrs ip)) ip) in *.
  assert (g_itable s1 !! i = Some ip1) as Hi1.
  { rewrite T. apply list_lookup_insert_eq. eapply lookup_lt_Some. exact (fs_inode _ _ _ _ _ _ _ _ _ _ _ F). }
  rewrite (bind_run _ _ _ _ _ (arr_get_run "inode" g_itable i s1 ip1 Hi1)).
  destruct (lookup_lt_is_Some_2 (i_addrs ip) NDIRECT) as [a Ha]; [rewrite Hl; lia|].
  assert (findirect ip = a) as Ef by (unfold findirect; by rewrite Ha).
  unfold addr_at. change (i_addrs ip1) with (zeroed NDIRECT (i_addrs ip)). rewrite zeroed_lookup, Ha. cbn [the]. rewrite bind_ret_l.
  assert (zeroed (S NDIRECT) (i_addrs ip) = replicate 13 0) as Ez by (rewrite <- Hl, zeroed_all, Hl; done).
  pose proof (zeroed_S _ _ _ Ha) as EzS. rewrite Ez in EzS. unfold file_blocks. rewrite Ef.
  destruct (Z.eqb_spec a 0) as [->|Hn]; cbn [negb when].
  { exists s1. split; [done|]. split; [done|]. rewrite T. f_equal. unfold ip1. rewrite <- EzS.
    rewrite list_insert_id by (by rewrite zeroed_lookup). done. }
  change (i_dev ip1) with (i_dev ip). rewrite (fs_dev _ _ _ _ _ _ _ _ _ _ _ F).
  destruct (table_addr a Ef Hn) as (_ & Hr & Hu & Hab). pose proof Fr as [(h & Ht & Hh) K U V]. pose proof (length_logged bm hs).
  assert (a ∉ held) as Hah by (apply (fw_own _ _ _ _ _ _ _ W); split; [done|by left]).
  destruct (tx_bread dev st p pid h held s1 a Ht ltac:(pose proof (ge_size _ _ Hg) as Hsz; change BPB with 8192 in Hsz; lia) Hah) as (bp & s2 & E2 & Ht2 & Hx2 & Hh2 & Hcl); [unfold NBUF; destruct Hh; subst h; lia|].
  rewrite (V a Hab) in Hh2, Hcl. destruct (xrel_kept _ _ _ _ _ _ Hx2) as (K2 & Ki2).
  assert (forall c, view s2 c = view s1 c) as Hv2 by exact (xr_view _ _ _ _ _ _ Hx2).
  rewrite (bind_run _ _ _ _ _ E2).
  destruct (free_entries a bp (g_itable s1) s2 Ef Hn) as ([] & s3 & E3 & Fr3 & T3 & Hh3).
  { unfold entries_done. change (reverse (nonzero (entries a 0))) with (@nil Z). rewrite app_nil_l.
    split; [|by split]. split; [by exists h|by eapply keeps_trans| |].
    - intros b Hb. rewrite <- (U b Hb). by apply used_ext; [intros c _; apply Hv2|].
    - intros c Hc. by rewrite Hv2, V. }
  rewrite (bind_run _ _ _ _ _ E3). pose proof Fr3 as [(h3 & Ht3 & Hh3') K3 U3 V3].
  destruct (tx_brelse dev st p pid h3 held s3 a bp _ Ht3 Hh3) as (s4 & E4 & Ht4 & Hx4).
  { intros Hn3. destruct K3 as (_ & _ & _ & -> & _). destruct K as (_ & _ & _ & Kd & _). rewrite <- Kd. apply Hcl. intros Hin. apply Hn3.
    assert (a ∈ hs) as Hin' by (destruct Hh as [->| ->]; [done|]; by apply elem_of_logged in Hin as [|]).
    destruct Hh3' as [->| ->]; [done|]. apply elem_of_logged. by left. }
  rewrite (bind_run _ _ _ _ _ E4). destruct (xrel_kept _ _ _ _ _ _ Hx4) as (K4 & Ki4).
  assert (forall c, view s4 c = view s3 c) as Hv4 by exact (xr_view _ _ _ _ _ _ Hx4).
  assert (freed hs held s (reverse (nonzero (entries a 256)) ++ reverse (nonzero (take NDIRECT (i_addrs ip)))) s4) as Fr4.
  { split; [by exists h3|by eapply keeps_trans| |].
    - intros b Hb. rewrite <- (U3 b Hb). by apply used_ext; [intros c _; apply Hv4|].
    - intros c Hc. by rewrite Hv4, V3. }
  destruct (free_in_turn hs held s _ s4 a Fr4 (fs_sb _ _ _ _ _ _ _ _ _ _ _ F) Hr Hu (table_fresh a Ef Hn) Hbm) as (s5 & E5 & Fr5 & T5 & _); [lia|].
  rewrite (bind_run _ _ _ _ _ E5). assert (g_itable s5 = g_itable s1) as T51 by congruence. rewrite <- T51 in Hi1.
  unfold upd_inode. rewrite (arr_upd_run "inode" g_itable put_itable i _ s5 ip1 Hi1).
  eexists. split; [done|]. split; [by apply freed_itable|].
  change (g_itable (put_itable ?t s5)) with t. rewrite T51, T, list_insert_insert_eq. f_equal.
  unfold set_addr. change (i_addrs ip1) with (zeroed NDIRECT (i_addrs ip)). by rewrite EzS.
Qed.

(** ** itrunc *)

(** A file without its blocks, in the inode table and on disk. *)
Definition truncated : inode := set_i_size 0 (set_i_addrs (replicate 13 0) ip).

Record emptied (s' : kstate) : Prop := {
  em_table : g_itable s' = <[i := truncated]> (g_itable s);
  em_used : forall b, 0 <= b < sb_size sb -> used s' b = true <-> used s b = true /\ ~ owns (view s) ip b;
  em_view : forall c, c <> bm -> c <> ib -> view s' c = view s c;
  em_disk : din_load (view s' ib) (i_inum ip mod IPB) truncated = truncated;
  em_dinodes : forall j x, 0 <= j < IPB -> j <> i_inum ip mod IPB -> din_load (view s' ib) j x = din_load (view s ib) j x;
  em_mem : keeps s s'
}.

Lemma tail_run {A B C} (m1 : M A) (m2 : A -> M B) (m3 : A -> B -> M unit) (k : M C) s0 s' :
  (x <- m1 ;; y <- m2 x ;; m3 x y) s0 = Ret tt s' -> (x <- m1 ;; y <- m2 x ;; (m3 x y ;; k)) s0 = k s'.
Proof.
  unfold bind. destruct (m1 s0) as [x s1| |]; cbn [obind]; [|done..]. destruct (m2 x s1) as [y s2| |]; cbn [obind]; [|done..].
  destruct (m3 x y s2) as [[] s3| |]; cbn [obind]; [|done..]. by intros [= ->].
Qed.

Lemma truncated_typed : inode_typed ip -> inode_typed truncated.
Proof.
  intros [? ? ? ? ? _]. split; try done. split; [done|]. apply Forall_replicate. lia.
Qed.

(** Blocks the file system itself uses are not the file's. *)
Lemma marked_freed s' :
  (forall b, 0 <= b < sb_size sb -> used s' b = true <-> used s b = true /\ ~ owns (view s) ip b) -> marked dev st sb held s'.
Proof.
  intros U. destruct (fs_marked _ _ _ _ _ _ _ _ _ _ _ F) as [M1 M2 M3 M4 M5].
  pose proof (fw_own _ _ _ _ _ _ _ (fs_wf _ _ _ _ _ _ _ _ _ _ _ F)) as Own. destruct (ge_size _ _ Hg) as [Hsz _]. split; [| | | |done].
  - apply U; [lia|]. split; [done|]. by intros [? _].
  - intros c Hc Hr. apply U; [done|]. split; [auto|]. intros Ho. by apply (db_log _ _ _ _ _ _ (Own c Ho)).
  - intros b Hb Hr. destruct (BBLOCK_eq st sb b Hg Hb) as [_ ?]. apply U; [lia|]. split; [auto|]. intros Ho.
    apply (db_bmap _ _ _ _ _ _ (Own _ Ho)). by exists b.
  - intros c Hc Hr. apply U; [done|]. split; [auto|]. intros Ho. by apply (db_held _ _ _ _ _ _ (Own c Ho)).
Qed.

Lemma itrunc_run :
  inode_block st sb held ib -> IBLOCK (i_inum ip) sb = ib -> inode_typed ip ->
  exists hs' s', itrunc i s = Ret tt s' /\ (length hs' <= length hs + 2)%nat /\
    filestate dev st p pid sb held i ib hs' s' truncated /\ emptied s'.
Proof.
  intros [I1 I2 I3 I4] Hin Hty. unfold itrunc. destruct free_direct as ([] & s1 & E1 & D1). rewrite (bind_run _ _ _ _ _ E1).
  destruct (free_table s1 D1) as (s5 & E5 & Fr & T5). rewrite (tail_run _ _ _ _ _ _ E5). clear E1 D1 E5.
  destruct Fr as [(h & Ht & Hh) K U V]. pose proof (length_logged bm hs).
  assert (g_itable s5 !! i = Some (set_i_addrs (replicate 13 0) ip)) as Hi5.
  { rewrite T5. apply list_lookup_insert_eq. eapply lookup_lt_Some. exact (fs_inode _ _ _ _ _ _ _ _ _ _ _ F). }
  unfold upd_inode. rewrite (bind_run _ _ _ _ _ (arr_upd_run "inode" g_itable put_itable i (set_i_size 0) s5 _ Hi5)).
  fold truncated. rewrite T5, list_insert_insert_eq. set (s6 := put_itable _ s5).
  destruct (iupdate_run dev st p pid sb held i ib Hg I1 I2 I3 I4 h s6 truncated) as (hs' & s' & E' & Ht' & L' & K' & T' & Hv'); try done.
  { by apply tx_itable. } { apply list_lookup_insert_eq. eapply lookup_lt_Some. exact (fs_inode _ _ _ _ _ _ _ _ _ _ _ F). }
  { exact (fs_dev _ _ _ _ _ _ _ _ _ _ _ F). } { destruct K as (_ & Ks & _). change (g_sb s6) with (g_sb s5). rewrite Ks. exact (fs_sb _ _ _ _ _ _ _ _ _ _ _ F). }
  { destruct Hh; subst h; lia. }
  assert (ib <> bm) as Hib.
  { intros E. apply I2. exists 0. destruct (ge_size _ _ Hg) as [Hsz _]. split; [lia|]. rewrite Hone by lia. done. }
  assert (keeps s s') as Ks' by exact (keeps_trans _ _ _ K K').
  assert (forall b, 0 <= b < sb_size sb -> used s' b = true <-> used s b = true /\ ~ owns (view s) ip b) as U'.
  { intros b Hb. rewrite (used_ext dev sb s5 s') by (done || (intros c Hc; rewrite Hv', decide_False; [done|]; by intros ->)).
    rewrite U, andb_true_iff, bool_decide_eq_true, file_blocks_owns by done. done. }
  assert (view s' ib = din_store (view s ib) (i_inum ip mod IPB) truncated) as Hd.
  { rewrite Hv', decide_True by done. change (view s6 ib) with (view s5 ib). by rewrite V by done. }
  assert (length (view s ib) = 1024%nat) as Hl by (apply length_bview, (fs_tx _ _ _ _ _ _ _ _ _ _ _ F)).
  assert (0 <= i_inum ip mod IPB < IPB) as Hk by (apply Z.mod_pos_bound; done).
  exists hs', s'. split; [done|]. split; [destruct Hh; subst h; lia|]. split; split; try done.
  - rewrite T'. apply list_lookup_insert_eq. eapply lookup_lt_Some. exact (fs_inode _ _ _ _ _ _ _ _ _ _ _ F).
  - exact (fs_dev _ _ _ _ _ _ _ _ _ _ _ F).
  - by apply fwf_empty.
  - by apply marked_freed.
  - apply U'; [done|]. split; [exact (fs_ib _ _ _ _ _ _ _ _ _ _ _ F)|]. intros Ho.
    by destruct (fw_own _ _ _ _ _ _ _ (fs_wf _ _ _ _ _ _ _ _ _ _ _ F) ib Ho).
  - destruct Ks' as (_ & -> & _). exact (fs_sb _ _ _ _ _ _ _ _ _ _ _ F).
  - destruct Ks' as (_ & _ & Kl & _). unfold lock_free. rewrite Kl. exact (fs_pr _ _ _ _ _ _ _ _ _ _ _ F).
  - intros c Hc Hc'. rewrite Hv', decide_False by done. by apply V.
  - rewrite Hd, din_load_store by (done || by apply truncated_typed). by destruct ip.
  - intros j x Hj Hne. rewrite Hd. by apply din_load_other.
Qed.
End inode.
End trunc.

(** ** Theorems *)

(** [C5] Truncating a file, on a file system with one bitmap block.  itrunc terminates without a panic; a block is
    in use afterwards exactly if it was in use and did not belong to the file, whether
    through a direct address, the table of the indirect blocks, or as the table itself.  The inode
    has size 0 and no addresses, in memory and on disk; the other inodes of its block and every
    block but that one and the bitmap are unchanged. *)
Theorem itrunc_frees dev st p pid sb hs held i ip s :
  geometry st sb -> sb_size sb <= BPB -> inode_block st sb held (IBLOCK (i_inum ip) sb) ->
  filestate dev st p pid sb held i (IBLOCK (i_inum ip) sb) hs s ip -> inode_typed ip ->
  (length hs + length held < 26)%nat ->
  exists hs' s', itrunc i s = Ret tt s' /\
    filestate dev st p pid sb held i (IBLOCK (i_inum ip) sb) hs' s' (truncated ip) /\
    emptied dev sb i (IBLOCK (i_inum ip) sb) (BBLOCK 0 sb) s ip s'.
Proof.
  intros Hg Hone Hib F Hty Hroom. assert (forall b, 0 <= b < sb_size sb -> BBLOCK b sb = BBLOCK 0 sb) as H1.
  { intros b Hb. unfold BBLOCK. rewrite !Z.div_small by lia. done. }
  destruct (itrunc_run dev st p pid sb held i (IBLOCK (i_inum ip) sb) (BBLOCK 0 sb) Hg H1 hs s ip F Hroom) as (hs' & s' & E & _ & F' & Em);
    try done; [|by exists hs', s'].
  apply (fs_marked _ _ _ _ _ _ _ _ _ _ _ F). destruct (ge_size _ _ Hg). lia.
Qed.

(** A file with one block. *)
Definition file46 : inode := set_i_size 3 (set_i_addrs (46 :: replicate 12 0) file2).
Definition disk47 : gmap Z (list Z) := {[45 := replicate 5 255 ++ [127] ++ replicate 1018 0]}.
Definition start47 : kstate := put_itable (file46 :: replicate 49 zero_inode) (put_sb sb50 (set_klog log50 (rebooted disk47))).

Lemma disk47_lengths : disk_lengths disk47.
Proof.
  intros c. unfold disk_block, disk47. destruct (decide (c = 45)) as [->|Hc].
  - rewrite lookup_singleton_eq. reflexivity.
  - rewrite lookup_singleton_ne by done. reflexivity.
Qed.

Lemma start47_used b : 0 <= b < 2000 -> used 1 sb50 start47 b = (b <? 47).
Proof.
  intros Hb. unfold used, start47. rewrite bview_itable, start_view by exact disk47_lengths.
  destruct (BBLOCK50 b Hb) as [-> ->]. unfold disk_block, disk47. rewrite lookup_singleton_eq. cbn [default from_option id].
  assert (forallb (fun i => Bool.eqb (bit (replicate 5 255 ++ [127] ++ replicate 1018 0) (Z.of_nat i)) (Z.of_nat i <? 47)) (seq 0 2000) = true) as H
    by (vm_compute; reflexivity).
  rewrite forallb_forall in H. specialize (H (Z.to_nat b)). rewrite Z2Nat.id in H by lia.
  apply Bool.eqb_prop, H. apply in_seq. lia.
Qed.

Lemma file46_fblk v k : 0 <= k < MAXFILE -> fblk v file46 k = if k =? 0 then 46 else 0.
Proof.
  intros Hk. unfold fblk. change (Z.of_nat NDIRECT) with 12. destruct (Z.eqb_spec k 0) as [->|Hn]; [done|].
  destruct (Z.ltb_spec k 12); [|done]. change (i_addrs file46) with (46 :: replicate 12 0).
  rewrite lookup_cons_ne_0, lookup_replicate_2 by lia. done.
Qed.

Lemma start47_wf : fwf 2 sb50 [] 32 (bview 1 start47) (used 1 sb50 start47) file46.
Proof.
  split; [done| | |].
  - intros c [Hc [->|(k & Hk & E)]]; [done|]. rewrite file46_fblk in E by done. destruct (Z.eqb_spec k 0); [|by subst c].
    subst c. split; [simpl; lia|by rewrite start47_used| |lia|apply not_elem_of_nil|done].
    intros (b & Hb & E). destruct (BBLOCK50 b Hb) as [E' _]. by rewrite E' in E.
  - intros k k' Hk Hk'. rewrite !file46_fblk by done. destruct (Z.eqb_spec k 0), (Z.eqb_spec k' 0); lia.
  - intros k Hk. rewrite file46_fblk by done. by destruct (Z.eqb_spec k 0).
Qed.

Lemma start47_marked : marked 1 2 sb50 [] start47.
Proof.
  split.
  - apply start47_used. lia.
  - intros c Hc Hs. simpl in Hs. rewrite start47_used by lia. apply Z.ltb_lt. lia.
  - intros b Hb Hs. simpl in Hb, Hs. destruct (BBLOCK50 b Hb) as [-> _]. apply start47_used. lia.
  - intros c Hc. by apply not_elem_of_nil in Hc.
  - intros b Hb. apply not_elem_of_nil.
Qed.

Lemma start47_state : filestate 1 2 0 1 sb50 [] 0 32 [] start47 file46.
Proof.
  split.
  - unfold start47. apply tx_itable. exact (start_tx disk47 disk47_lengths).
  - unfold start47. generalize (put_sb sb50 (set_klog log50 (rebooted disk47))). intros s. reflexivity.
  - reflexivity.
  - exact start47_wf.
  - exact start47_marked.
  - apply start47_used. lia.
  - unfold start47. generalize (rebooted disk47). intros s. reflexivity.
  - apply free_start. apply (rebooted_rest 1 disk47); [lia|exact disk47_lengths].
Qed.

Lemma file46_typed : inode_typed file46.
Proof.
  split; try (unfold file46, file2, T_FILE; simpl; lia). split; [reflexivity|]. constructor; [lia|]. apply Forall_replicate. lia.
Qed.

(** Its block is free again, and the blocks of the file system are not. *)
Lemma itrunc_frees_witness : exists s', itrunc 0 start47 = Ret tt s' /\
  used 1 sb50 s' 46 <> true /\ used 1 sb50 s' 45 = true.
Proof.
  destruct (itrunc_frees 1 2 0 1 sb50 [] [] 0 file46 start47 geometry50) as (hs' & s' & E & _ & Em).
  - vm_compute. discriminate.
  - exact file2_block.
  - exact start47_state.
  - exact file46_typed.
  - simpl. lia.
  - exists s'. split; [exact E|]. destruct Em as [_ U _ _ _ _]. split.
    + rewrite U by (simpl; lia). intros [_ H]. apply H. split; [discriminate|]. right. exists 0. split; [change MAXFILE with 268; lia|].
      rewrite file46_fblk; [reflexivity|change MAXFILE with 268; lia].
    + apply U; [simpl; lia|]. split; [apply start47_used; lia|]. intros [_ [H|(k & Hk & H)]]; [discriminate H|].
      rewrite file46_fblk in H by exact Hk. destruct (k =? 0); discriminate H.
Defined.
