(* ===== verification/Iput.v ===== *)
(** * Giving up an inode: [iput] of kernel/fs.c on every path

    [iput] takes a reference back.  The last reference to an inode without
    links deletes the inode: its blocks are freed, its type becomes 0 on disk, and
    the table entry becomes free.  The theorem states the counts of the whole
    table for [iget], [idup] and [iput]. *)

From Stdlib Require Import ZArith Lia.
From stdpp Require Import base list gmap strings numbers option.
From S2P Require Import Prelude Bytes Riscv Cstring Kstate Sched Bio BioSpec Log LogSpec Fs FsPure Icache FsTx Bitmap FsRead FsWrite FsTrunc.

(** ** The inode's sleep lock *)

Lemma inode_acquiresleep_run s p pid i x :
  ready s p pid -> lock_free (LInodeSl i) s -> g_itable s !! i = Some x -> sl_locked (i_lock x) = false ->
  inode_acquiresleep i s = Ret tt (put_itable (<[i := set_i_lock {| sl_locked := true; sl_pid := pid |} x]> (g_itable s)) s).
Proof.
  intros [Hc (pr & Hp & <-) Hl Hu Hb Hbl] Hf Hx Hlk. unfold inode_acquiresleep.
  rewrite (acquiresleep_run (LInodeSl i) _ _ (inode_lock_rd i) (inode_lock_wr i) 7 s (i_lock x) p pr); try done.
  - f_equal. unfold inode_lock_wr. f_equal. rewrite list_insert_alter. apply list_alter_ext; [|done].
    intros y. rewrite Hx. by intros [= ->].
  - unfold inode_lock_rd. by rewrite Hx.
Qed.

Lemma inode_releasesleep_run s p pid i x :
  ready s p pid -> lock_free (LInodeSl i) s -> g_itable s !! i = Some x ->
  inode_releasesleep i s =
    Ret tt (put_procs (imap (wake (ChSleeplock (LInodeSl i)) (Some p)) (g_procs s))
              (put_itable (<[i := set_i_lock zero_sleeplock x]> (g_itable s)) s)).
Proof.
  intros [Hc (pr & Hp & <-) Hl Hu Hb Hbl] Hf Hx. unfold inode_releasesleep.
  rewrite (releasesleep_run (LInodeSl i) _ _ (inode_lock_rd i) (inode_lock_wr i) s (i_lock x)); try done.
  - rewrite Hc. do 2 f_equal. unfold inode_lock_wr. f_equal. rewrite list_insert_alter. apply list_alter_ext; [|done].
    intros y. rewrite Hx. by intros [= ->].
  - unfold inode_lock_rd. by rewrite Hx.
Qed.

Section free.
Context (dev st : Z) (p : nat) (pid : Z) (sb : superblock) (held : list Z) (i : nat) (ib : Z).

Local Abbreviation view := (bview dev).
Local Abbreviation used := (used dev sb).
Local Abbreviation filestate := (filestate dev st p pid sb held i ib).

(** The state of the file system does not depend on the fields of the inode other than its device and addresses. *)
Lemma filestate_inode hs s ip y :
  filestate hs s ip -> i_dev y = i_dev ip -> i_addrs y = i_addrs ip ->
  filestate hs (put_itable (<[i := y]> (g_itable s)) s) y.
Proof.
  intros [F1 F2 F3 F4 F5 F6 F7 F8] Ed Ea. split; try done.
  - by apply tx_itable.
  - apply list_lookup_insert_eq. by eapply lookup_lt_Some.
  - congruence.
  - assert (findirect y = findirect ip) as Ef by (unfold findirect; by rewrite Ea).
    assert (forall k, fblk (view s) y k = fblk (view s) ip k) as Eb by (intros k; unfold fblk; by rewrite Ea, Ef).
    destruct F4 as [W1 W2 W3 W4]. split; [by rewrite Ea| |intros k k'; rewrite !Eb; apply W3|intros k; rewrite Eb, Ef; apply W4].
    intros c [Hc Ho]. apply W2. split; [done|]. rewrite Ef in Ho. destruct Ho as [Ho|(k & Hk & Ho)]; [by left|].
    right. exists k. by rewrite <- Eb.
  - by destruct F5.
Qed.

(** Waking processes keeps it as well. *)
Lemma filestate_woken hs s ip ps :
  filestate hs s ip -> woken (g_procs s) ps -> filestate hs (put_procs ps s) ip.
Proof.
  intros [[Hok Hr ? ? ? ? ? ? ? ?] F2 F3 F4 F5 F6 F7 F8] W. split; try done; [|by destruct F5]. split; try done.
  - eapply cache_ok_kbio; [|exact Hok]. done.
  - eapply ready_frame; [exact Hr|]. split; [kstate_eq|done].
Qed.

(** The inode is gone: its blocks are free, its type on disk is 0, and nothing else changed. *)
Record deleted (ip : inode) (s s' : kstate) : Prop := {
  dl_used : forall b, 0 <= b < sb_size sb -> used s' b = true <-> used s b = true /\ ~ owns (view s) ip b;
  dl_view : forall c, c <> BBLOCK 0 sb -> c <> ib -> view s' c = view s c;
  dl_type : din_type (view s' ib) (i_inum ip mod IPB) = 0;
  dl_dinodes : forall j x, 0 <= j < IPB -> j <> i_inum ip mod IPB -> din_load (view s' ib) j x = din_load (view s ib) j x;
  dl_rest : keeps s s'
}.

Context (Hg : geometry st sb) (Hone : sb_size sb <= BPB) (Hib : inode_block st sb held ib).

(** [ip->type = 0; iupdate(ip); ip->valid = 0;] *)
Lemma clear_run hs s ip :
  filestate hs s ip -> IBLOCK (i_inum ip) sb = ib -> inode_typed ip -> (length hs + length held < 29)%nat ->
  exists hs' s', (upd_inode i (set_i_type 0) ;; iupdate i) s = Ret tt s' /\ filestate hs' s' (set_i_type 0 ip) /\ keeps s s' /\
    g_itable s' = <[i := set_i_type 0 ip]> (g_itable s) /\
    (forall c, view s' c = if decide (c = ib) then din_store (view s ib) (i_inum ip mod IPB) (set_i_type 0 ip) else view s c) /\
    (forall b, 0 <= b < sb_size sb -> used s' b = used s b).
Proof.
  intros F Hin Hty Hroom. set (y := set_i_type 0 ip). pose proof Hib as [I1 I2 I3 I4].
  unfold upd_inode. rewrite (bind_run _ _ _ _ _ (arr_upd_run "inode" g_itable put_itable i _ s ip (fs_inode _ _ _ _ _ _ _ _ _ _ _ F))). fold y.
  set (s1 := put_itable _ s).
  assert (filestate hs s1 y) as F1 by (by apply (filestate_inode hs s ip)).
  destruct (finish_run dev st p pid sb held i ib Hg I1 I2 I3 I4 hs s1 y (i_size y)) as (hs' & s' & E & _ & F' & K & T & V & U); try done.
  rewrite Z.gtb_ltb, Z.ltb_irrefl in E. rewrite Z.max_id in F', T, V. change (set_i_size (i_size y) y) with y in F', T, V.
  exists hs', s'. split; [exact E|]. split; [done|]. split; [exact K|]. split; [|done].
  rewrite T. unfold s1. kget. by rewrite list_insert_insert_eq.
Qed.

Lemma ready_itable s : ready s p pid -> ready (put_locks (<[LItable := g_hart s]> (g_locks s)) s) p pid.
Proof.
  intros [Hc Hp Hl Hu Hb Hbl]. assert (forall l, l <> LItable -> lock_free l s ->
    lock_free l (put_locks (<[LItable := g_hart s]> (g_locks s)) s)) as H.
  { intros l Hne Hf. unfold lock_free. kget. by rewrite lookup_insert_ne by done. }
  split; try done; [intros j|..|intros b]; apply H; done || apply Hu || apply Hbl.
Qed.

(** The branch of the last reference: [x] is the entry before, and the lock of the table is taken again at the end. *)
Definition gone (x : inode) : inode := set_i_lock zero_sleeplock (set_i_valid false (set_i_type 0 (truncated x))).

Lemma delete_run hs s x :
  filestate hs s x -> IBLOCK (i_inum x) sb = ib -> inode_typed x -> (length hs + length held < 26)%nat ->
  sl_locked (i_lock x) = false -> lock_free (LInodeSl i) s -> lock_free LItable s ->
  exists s', (inode_acquiresleep i ;; lock_release LItable ;; itrunc i ;; upd_inode i (set_i_type 0) ;; iupdate i ;;
      upd_inode i (set_i_valid false) ;; inode_releasesleep i ;; lock_acquire LItable)
      (put_locks (<[LItable := g_hart s]> (g_locks s)) s) = Ret tt (put_locks (<[LItable := g_hart s']> (g_locks s')) s') /\
    g_itable s' = <[i := gone x]> (g_itable s) /\ deleted x s s'.
Proof.
  intros F Hin Hty Hroom Hlk Hsl Hit. pose proof (x_ready _ _ _ _ _ _ _ (fs_tx _ _ _ _ _ _ _ _ _ _ _ F)) as Hr.
  set (s1 := put_locks _ s). pose proof (fs_inode _ _ _ _ _ _ _ _ _ _ _ F) as Hx.
  rewrite (bind_run _ _ _ _ _ (inode_acquiresleep_run s1 p pid i x (ready_itable s Hr)
    ltac:(unfold lock_free, s1; kget; by rewrite lookup_insert_ne) Hx Hlk)).
  set (x1 := set_i_lock _ x). change (g_itable s1) with (g_itable s).
  rewrite (bind_run _ _ _ _ _ (release_itable s (<[i := x1]> (g_itable s)) Hit)). set (s2 := put_itable _ s).
  assert (filestate hs s2 x1) as F2 by (by apply (filestate_inode hs s x)).
  assert (forall b, 0 <= b < sb_size sb -> BBLOCK b sb = BBLOCK 0 sb) as H1.
  { intros b Hb. unfold BBLOCK. rewrite !Z.div_small by lia. done. }
  destruct (itrunc_run dev st p pid sb held i ib (BBLOCK 0 sb) Hg H1 hs s2 x1 F2 Hroom) as (h3 & s3 & E3 & L3 & F3 & Em); try done.
  { apply (fs_marked _ _ _ _ _ _ _ _ _ _ _ F). destruct (ge_size _ _ Hg). lia. }
  { by destruct Hty. }
  rewrite (bind_run _ _ _ _ _ E3). destruct Em as [T3 U3 V3 D3 O3 K3]. change (keeps s s3) in K3.
  assert (inode_typed (truncated x1)) as Ht1 by (eapply truncated_typed; [exact Hroom|by destruct Hty]).
  destruct (clear_run h3 s3 (truncated x1) F3 Hin) as (h4 & s4 & E4 & F4 & K4 & T4 & V4 & U4); [done|lia|].
  rewrite (seq_run _ _ _ _ _ E4). unfold upd_inode.
  rewrite (bind_run _ _ _ _ _ (arr_upd_run "inode" g_itable put_itable i _ s4 _ (fs_inode _ _ _ _ _ _ _ _ _ _ _ F4))).
  set (x5 := set_i_valid false _). set (s5 := put_itable _ s4).
  assert (filestate h4 s5 x5) as F5 by (by apply (filestate_inode h4 s4 (set_i_type 0 (truncated x1)))).
  pose proof (keeps_trans _ _ _ K3 K4) as K. pose proof K as (_ & _ & Kl & _).
  rewrite (bind_run _ _ _ _ _ (inode_releasesleep_run s5 p pid i x5 (x_ready _ _ _ _ _ _ _ (fs_tx _ _ _ _ _ _ _ _ _ _ _ F5))
    ltac:(unfold lock_free, s5; kget; by rewrite Kl) (fs_inode _ _ _ _ _ _ _ _ _ _ _ F5))).
  set (s6 := put_procs _ _). exists s6. split.
  { apply lock_acquire_run. unfold lock_free, s6. kget. unfold s5. kget. by rewrite Kl. }
  assert (g_itable s6 = <[i := gone x]> (g_itable s)) as T6.
  { unfold s6. kget. unfold s5. kget. rewrite T4, T3. unfold s2. kget. by rewrite !list_insert_insert_eq. }
  split; [done|]. pose proof Hib as [I1 I2 I3 I4].
  assert (forall c, view s6 c = view s4 c) as V6 by done.
  assert (0 <= i_inum x mod IPB < IPB) as Hk by (apply Z.mod_pos_bound; done).
  assert (length (view s3 ib) = 1024%nat) as Hl3 by (apply length_bview, (fs_tx _ _ _ _ _ _ _ _ _ _ _ F3)).
  assert (view s6 ib = din_store (view s3 ib) (i_inum x mod IPB) (set_i_type 0 (truncated x1))) as Vib
    by (by rewrite V6, V4, decide_True).
  assert (inode_typed (set_i_type 0 (truncated x1))) as Hty'.
  { destruct Ht1. split; try done. }
  split.
  - intros b Hb. change (used s6 b) with (used s4 b). rewrite U4 by done. by rewrite U3.
  - intros c Hc Hc'. rewrite V6, V4, decide_False by done. by apply V3.
  - rewrite Vib. exact (f_equal i_type (din_load_store (view s3 ib) _ _ x Hl3 Hk Hty')).
  - intros j y Hj Hne. rewrite Vib, din_load_other by (done || apply Hty'). by apply O3.
  - eapply keeps_trans; [exact K|]. unfold keeps, s6. split_and!; try done. apply woken_wake.
Qed.

Lemma iput_free_run hs s x :
  filestate hs s x -> IBLOCK (i_inum x) sb = ib -> inode_typed x -> (length hs + length held < 26)%nat ->
  sl_locked (i_lock x) = false -> lock_free (LInodeSl i) s -> lock_free LItable s ->
  (i_ref x =? 1) && i_valid x && (i_nlink x =? 0) = true ->
  exists s', iput i s = Ret tt s' /\ g_itable s' = <[i := set_i_ref (i_ref x - 1) (gone x)]> (g_itable s) /\ deleted x s s'.
Proof.
  intros F Hin Hty Hroom Hlk Hsl Hit Hfree. destruct (delete_run hs s x) as (s1 & E1 & T1 & D); try done.
  assert (lock_free LItable s1) as Hit1.
  { destruct (dl_rest _ _ _ D) as (_ & _ & Kl & _). unfold lock_free. by rewrite Kl. }
  pose proof (fs_inode _ _ _ _ _ _ _ _ _ _ _ F) as Hx. set (t := <[i := set_i_ref (i_ref x - 1) (gone x)]> (g_itable s)).
  exists (put_itable t s1). split; [|split; [done|by destruct D]].
  unfold iput. rewrite (bind_run _ _ _ _ _ (lock_acquire_run _ _ Hit)). unfold get_inode.
  rewrite (bind_run _ _ _ _ _ (arr_get_run "inode" g_itable i (put_locks (<[LItable := g_hart s]> (g_locks s)) s) x Hx)), Hfree. cbn [when].
  rewrite (bind_run _ _ _ _ _ E1). set (s2 := put_locks _ s1).
  assert (g_itable s2 !! i = Some (gone x)) as Hx2.
  { change (g_itable s2) with (g_itable s1). rewrite T1. apply list_lookup_insert_eq. by eapply lookup_lt_Some. }
  unfold upd_inode. rewrite (bind_run _ _ _ _ _ (arr_upd_run "inode" g_itable put_itable i _ s2 _ Hx2)).
  change (g_itable s2) with (g_itable s1). rewrite T1, list_insert_insert_eq. by apply release_itable.
Qed.
End free.

(** ** Theorem *)

(** [C18] The inode table is a reference-counted cache with at most one entry in use per inode, and each operation changes
    the count of its inode by exactly one and no other count.  [iget] returns an entry for the inode with
    one reference more; it panics only when no entry has the inode and none is unused.
    [idup] of an entry in use adds one reference.  [iput] of an entry in use takes one back and does nothing else when
    other references or links remain; taking back the last reference to an inode without links also deletes the
    inode (on a file system with one bitmap block, in a transaction with room in the log): its
    blocks and only they become free, its type on disk is 0, the other inodes of its
    block and all other blocks are unchanged. *)
Theorem inode_refcounts dev inum s :
  itable_ok (g_itable s) -> lock_free LItable s ->
  match iget dev inum s with
  | Ret i s' =>
      exists t x, s' = put_itable t s /\ recount (g_itable s) t dev inum 1 /\ t !! i = Some x /\ ientry dev inum x /\
        (forall j, j <> i -> t !! j = g_itable s !! j)
  | Fail e => e = Panicked "iget: no inodes" /\ iref (g_itable s) dev inum = 0 /\
      forall i x, g_itable s !! i = Some x -> i_ref x <> 0
  | Switch _ _ => False
  end /\
  forall i x, g_itable s !! i = Some x -> 0 < i_ref x ->
    (exists t, idup i s = Ret i (put_itable t s) /\ recount (g_itable s) t (i_dev x) (i_inum x) 1) /\
    if (i_ref x =? 1) && i_valid x && (i_nlink x =? 0) then
      forall st p pid sb hs held,
        geometry st sb -> sb_size sb <= BPB -> inode_block st sb held (IBLOCK (i_inum x) sb) ->
        filestate (i_dev x) st p pid sb held i (IBLOCK (i_inum x) sb) hs s x -> inode_typed x ->
        (length hs + length held < 26)%nat -> sl_locked (i_lock x) = false -> lock_free (LInodeSl i) s ->
        exists s', iput i s = Ret tt s' /\ recount (g_itable s) (g_itable s') (i_dev x) (i_inum x) (-1) /\
          deleted (i_dev x) sb (IBLOCK (i_inum x) sb) x s s'
    else exists t, iput i s = Ret tt (put_itable t s) /\ recount (g_itable s) t (i_dev x) (i_inum x) (-1).
Proof.
  intros Hok Hf. split; [by apply iget_counts|]. intros i x Hx Hpos. split.
  { eexists. split; [by apply idup_run|]. pose proof (recount_ref _ i x (i_ref x + 1) Hok Hx Hpos ltac:(lia)) as H.
    by replace (i_ref x + 1 - i_ref x) with 1 in H by lia. }
  destruct (_ && _ && _) eqn:Hfree.
  - intros st p pid sb hs held Hg Hone Hib F Hty Hroom Hlk Hsl.
    destruct (iput_free_run (i_dev x) st p pid sb held i (IBLOCK (i_inum x) sb) Hg Hone Hib hs s x) as (s' & E & T & D); try done.
    exists s'. split; [done|]. split; [|done]. rewrite T.
    destruct (recount_same (g_itable s) i x (gone x) Hok Hx) as [Hok1 R1]; try done.
    assert (<[i := gone x]> (g_itable s) !! i = Some (gone x)) as Hx1 by (apply list_lookup_insert_eq; by eapply lookup_lt_Some).
    destruct (recount_ref _ i (gone x) (i_ref x - 1) Hok1 Hx1 Hpos ltac:(lia)) as [Hok2 R2].
    rewrite list_insert_insert_eq in Hok2, R2. split; [done|]. intros d n. rewrite R2, R1.
    change (i_ref (gone x)) with (i_ref x). by replace (i_ref x - 1 - i_ref x) with (-1) by lia.
  - eexists. split; [by apply iput_keep_run|]. pose proof (recount_ref _ i x (i_ref x - 1) Hok Hx Hpos ltac:(lia)) as H.
    by replace (i_ref x - 1 - i_ref x) with (-1) in H by lia.
Qed.

(** The file with one block, without links. *)
Definition file48 : inode := set_i_nlink 0 file46.
Definition start48 : kstate := put_itable (<[0%nat := file48]> (g_itable start47)) start47.

Lemma start48_table : g_itable start48 = file48 :: replicate 49 zero_inode.
Proof. unfold start48, start47. generalize (put_sb sb50 (set_klog log50 (rebooted disk47))). intros s. reflexivity. Qed.

Lemma start48_free l : lock_free l start48.
Proof.
  assert (forall t s, lock_free l s -> lock_free l (put_itable t s)) as H by (intros t s Hl; exact Hl).
  unfold start48. apply H. unfold start47. apply free_start. apply (rebooted_rest 1 disk47); [lia|exact disk47_lengths].
Qed.

Lemma start48_ok : itable_ok (g_itable start48).
Proof.
  rewrite start48_table. split.
  - intros [|i] x Hx; [by injection Hx as <-|]. apply lookup_replicate in Hx as [-> _]. simpl. lia.
  - assert (forall i x d n, (file48 :: replicate 49 zero_inode) !! i = Some x -> ientry d n x -> i = 0%nat) as H0.
    { intros [|i] x d n Hx [Hr _]; [done|]. apply lookup_replicate in Hx as [-> _]. simpl in Hr. lia. }
    intros i j x y d n Hx Hy Hex Hey. rewrite (H0 i x d n), (H0 j y d n) by done. done.
Qed.

(** Its last reference: the entry is unused, its block free, and the inode on disk has type 0. *)
Lemma inode_refcounts_witness : exists s', iput 0 start48 = Ret tt s' /\ iref (g_itable s') 1 2 = 0 /\
  used 1 sb50 s' 46 <> true /\ din_type (bview 1 s' 32) 2 = 0.
Proof.
  destruct (inode_refcounts 1 2 start48 start48_ok (start48_free LItable)) as [_ H].
  destruct (H 0%nat file48) as [_ Hp]; [rewrite start48_table; reflexivity|vm_compute; reflexivity|].
  destruct (Hp 2 0%nat 1 sb50 [] [] geometry50) as (s' & E & R & D).
  - vm_compute. discriminate.
  - exact file2_block.
  - exact (filestate_inode 1 2 0 1 sb50 [] 0 32 [] start47 file46 file48 start47_state eq_refl eq_refl).
  - destruct file46_typed as [T1 T2 T3 _ T5 T6]. split; [exact T1|exact T2|exact T3|simpl; lia|exact T5|exact T6].
  - simpl. lia.
  - reflexivity.
  - apply start48_free.
  - exists s'. split; [exact E|]. split; [|split].
    + destruct R as [_ R]. rewrite R, start48_table. reflexivity.
    + destruct D as [U _ _ _ _]. rewrite U by (simpl; lia). intros [_ Hn]. apply Hn. split; [discriminate|]. right. exists 0.
      split; [change MAXFILE with 268; lia|reflexivity].
    + exact (dl_type _ _ _ _ _ _ D).
Defined.
