(* ===== verification/Pipe.v ===== *)
(** * Pipes: kernel/pipe.c (all but [pipealloc], which is in [File])

    A pipe is a page of memory used as a [struct pipe]; the model keeps its
    fields in [g_pipes] under the page's address. *)

From Stdlib Require Import ZArith Lia.
From stdpp Require Import base list gmap strings numbers option.
From S2P Require Import Prelude Bytes Riscv Kstate Sched Kalloc Vm.

Definition PIPESIZE : Z := 512.

Section pipe.
Context `{!KernelImage}.

Definition pipeclose (pi : Z) (writable : bool) : M unit :=
  lock_acquire (LPipe pi) ;;
  (if writable then upd_pipe pi (set_pi_writeopen false) ;; wakeup (ChPipeR pi)
   else upd_pipe pi (set_pi_readopen false) ;; wakeup (ChPipeW pi)) ;;
  x <- get_pipe pi ;;
  if negb (pi_readopen x) && negb (pi_writeopen x) then
    lock_release (LPipe pi) ;;
    modify (fun s => put_pipes (delete pi (g_pipes s)) s) ;;
    kfree pi
  else lock_release (LPipe pi).

(** One turn of the loop of [pipewrite]: [inr (Some i)] leaves the loop,
    [inr None] is the early [return -1]. *)
Definition pipewrite_body (pi : Z) (pr : nat) (addr n i : Z) : M (Z + option Z) :=
  if negb (i <? n) then ret (inr (Some i)) else
  x <- get_pipe pi ;;
  k <- (if negb (pi_readopen x) then ret true else killed pr) ;;
  if (k : bool) then lock_release (LPipe pi) ;; ret (inr None) else
  if pi_nwrite x =? u32 (pi_nread x + PIPESIZE) then
    wakeup (ChPipeR pi) ;;
    sleep (ChPipeW pi) (LPipe pi) ;;
    ret (inl i)
  else
    p <- get_proc pr ;;
    r <- copyin (p_pagetable p) (u64 (addr + i)) 1 ;;
    if r.1 =? -1 then ret (inr (Some i)) else
    upd_pipe pi (fun x => set_pi_data
      (<[Z.to_nat (pi_nwrite x mod PIPESIZE) := default 0 (head r.2)]> (pi_data x)) x) ;;
    upd_pipe pi (fun x => set_pi_nwrite (u32 (pi_nwrite x + 1)) x) ;;
    ret (inl (i + 1)).

(** [fuel] bounds the turns: the bytes and the times the writer sleeps. *)
Definition pipewrite (fuel : nat) (pi addr n : Z) : M Z :=
  pr <- curp ;;
  lock_acquire (LPipe pi) ;;
  r <- loop fuel (pipewrite_body pi pr addr n) 0 ;;
  match r with
  | None => ret (-1)
  | Some i =>
      wakeup (ChPipeR pi) ;;
      lock_release (LPipe pi) ;;
      ret i
  end.

(** The wait of [piperead]: [inr true] when the process was killed. *)
Definition piperead_wait (pi : Z) (pr : nat) (_ : unit) : M (unit + bool) :=
  x <- get_pipe pi ;;
  if (pi_nread x =? pi_nwrite x) && pi_writeopen x then
    k <- killed pr ;;
    if (k : bool) then lock_release (LPipe pi) ;; ret (inr true) else
    sleep (ChPipeR pi) (LPipe pi) ;; ret (inl tt)
  else ret (inr false).

(** The copy loop from index [i]. *)
Fixpoint piperead_copy (n : nat) (pi : Z) (pr : nat) (addr i : Z) : M Z :=
  match n with
  | O => ret i
  | S n' =>
      x <- get_pipe pi ;;
      if pi_nread x =? pi_nwrite x then ret i else
      let ch := default 0 (pi_data x !! Z.to_nat (pi_nread x mod PIPESIZE)) in
      upd_pipe pi (fun x => set_pi_nread (u32 (pi_nread x + 1)) x) ;;
      p <- get_proc pr ;;
      r <- copyout (p_pagetable p) (u64 (addr + i)) [ch] ;;
      if r =? -1 then ret i else
      piperead_copy n' pi pr addr (i + 1)
  end.

Definition piperead (pi addr n : Z) : M Z :=
  pr <- curp ;;
  lock_acquire (LPipe pi) ;;
  k <- loop sleep_fuel (piperead_wait pi pr) tt ;;
  if (k : bool) then ret (-1) else
  i <- piperead_copy (Z.to_nat n) pi pr addr 0 ;;
  wakeup (ChPipeW pi) ;;
  lock_release (LPipe pi) ;;
  ret i.

(** The number of turns that always suffices when the writer never sleeps. *)
Definition pipewrite_fuel (n : Z) : nat := (S (Z.to_nat n) + sleep_fuel)%nat.
End pipe.
