(* ===== verification/PipeSpec.v ===== *)
(** * A pipe is a bounded queue of bytes

    [prepr x q]: the ring buffer of a [struct pipe] holds the bytes [q], whatever
    the position of the 32-bit counters.  [pipewrite] appends the writer's bytes
    and [piperead] takes bytes from the front. *)

From Stdlib Require Import ZArith Lia.
From stdpp Require Import base list gmap strings numbers option.
From S2P Require Import Prelude Bytes Riscv Kstate Sched Kalloc Vm VmSpec VmUser Uvm Pipe.

(** ** The ring buffer *)

Record prepr (x : pipe) (q : list Z) : Prop := {
  pp_data : length (pi_data x) = 512%nat;
  pp_read : 0 <= pi_nread x < 4294967296;
  pp_write : pi_nwrite x = u32 (pi_nread x + Z.of_nat (length q));
  pp_len : (length q <= 512)%nat;
  pp_bytes : forall i b, q !! i = Some b -> pi_data x !! Z.to_nat ((pi_nread x + Z.of_nat i) mod 512) = Some b
}.

Lemma prepr_full x q : prepr x q -> (pi_nwrite x =? u32 (pi_nread x + PIPESIZE)) = (length q =? 512)%nat.
Proof.
  intros [_ Hr Hw Hl _]. rewrite Hw. unfold u32, wrapU, PIPESIZE. change (2 ^ 32) with 4294967296.
  destruct (Nat.eqb_spec (length q) 512) as [->|Hne]; [apply Z.eqb_refl|]. apply Z.eqb_neq. zlia.
Qed.

Lemma prepr_empty x q : prepr x q -> (pi_nread x =? pi_nwrite x) = (length q =? 0)%nat.
Proof.
  intros [_ Hr Hw Hl _]. rewrite Hw. unfold u32, wrapU. change (2 ^ 32) with 4294967296.
  destruct (Nat.eqb_spec (length q) 0) as [->|Hne].
  - apply Z.eqb_eq. zlia.
  - apply Z.eqb_neq. zlia.
Qed.

(** [pi->data\[pi->nwrite++ % PIPESIZE\] = b] *)
Definition ppush (b : Z) (x : pipe) : pipe :=
  set_pi_nwrite (u32 (pi_nwrite x + 1)) (set_pi_data (<[Z.to_nat (pi_nwrite x mod PIPESIZE) := b]> (pi_data x)) x).

Lemma prepr_push x q b : prepr x q -> (length q < 512)%nat -> prepr (ppush b x) (q ++ [b]).
Proof.
  intros [Hd Hr Hw Hl Hb] Hlt.
  assert (pi_nwrite x mod 512 = (pi_nread x + Z.of_nat (length q)) mod 512) as Em.
  { rewrite Hw. unfold u32, wrapU. change (2 ^ 32) with 4294967296. zlia. }
  split; simpl; try done.
  - by rewrite length_insert.
  - rewrite Hw, length_app. unfold u32, wrapU. change (2 ^ 32) with 4294967296. simpl. zlia.
  - rewrite length_app. simpl. lia.
  - intros i c Hi. unfold PIPESIZE. rewrite Em. apply lookup_app_Some in Hi as [Hi|[Hle Hi]].
    + rewrite list_lookup_insert_ne; [by apply Hb|]. apply lookup_lt_Some in Hi. zlia.
    + apply list_lookup_singleton_Some in Hi as [Hi ->]. replace i with (length q) by lia.
      rewrite list_lookup_insert_eq; [done|]. zlia.
Qed.

(** [pi->nread++] *)
Definition ppop (x : pipe) : pipe := set_pi_nread (u32 (pi_nread x + 1)) x.

Lemma prepr_pop x b q :
  prepr x (b :: q) ->
  default 0 (pi_data x !! Z.to_nat (pi_nread x mod PIPESIZE)) = b /\ prepr (ppop x) q.
Proof.
  intros [Hd Hr Hw Hl Hb]. split.
  - specialize (Hb 0%nat b eq_refl). rewrite Z.add_0_r in Hb. unfold PIPESIZE. by rewrite Hb.
  - split; simpl; try done.
    + unfold u32, wrapU. change (2 ^ 32) with 4294967296. zlia.
    + rewrite Hw. simpl length. unfold u32, wrapU. change (2 ^ 32) with 4294967296. zlia.
    + simpl in Hl. lia.
    + intros i c Hi. specialize (Hb (S i) c Hi). rewrite <- Hb. do 2 f_equal.
      unfold u32, wrapU. change (2 ^ 32) with 4294967296. zlia.
Qed.

(** ** Threads that use the pipe *)

Section pipe.
Context `{!KernelImage} (pi : Z) (p : nat) (root : Z) (T : gmap (list Z) Z).

(** Process [p] runs, is not killed, has the address space [T], and no lock it needs is held. *)
Record pthread (s : kstate) : Prop := {
  pt_cur : g_curproc s = Some p;
  pt_proc : exists pr, g_procs s !! p = Some pr /\ p_killed pr = false /\ p_pagetable pr = root;
  pt_len : length (g_procs s) = NPROC;
  pt_unlocked : procs_unlocked s;
  pt_space : uspace (g_pmem s) root T
}.

Definition put_pi (x : pipe) (s : kstate) : kstate := put_pipes (<[pi := x]> (g_pipes s)) s.

Lemma put_pi_put x y s : put_pi x (put_pi y s) = put_pi x s.
Proof. unfold put_pi. change (g_pipes (put_pipes ?a s)) with a. rewrite insert_insert_eq. done. Qed.

Lemma pthread_put_pi x s : pthread s -> pthread (put_pi x s).
Proof. by intros [? ? ? ? ?]. Qed.

Lemma get_pipe_run x s : g_pipes s !! pi = Some x -> get_pipe pi s = Ret x s.
Proof. intros E. unfold get_pipe. by rewrite E. Qed.

Lemma upd_pipe_run f x s : g_pipes s !! pi = Some x -> upd_pipe pi f s = Ret tt (put_pi (f x) s).
Proof. intros E. unfold upd_pipe. by rewrite (bind_run _ _ _ _ _ (get_pipe_run x s E)). Qed.

Lemma put_pi_lookup x s : g_pipes (put_pi x s) !! pi = Some x.
Proof. apply lookup_insert_eq. Qed.

(** ** Writing *)

(** One byte is fetched from user memory: it is readable and appended, or the loop ends. *)
Lemma pipewrite_round addr n i x q s :
  pthread s -> g_pipes s !! pi = Some x -> prepr x q -> pi_readopen x = true -> (length q < 512)%nat ->
  0 <= i < n -> 0 <= addr -> addr + n < 2 ^ 64 ->
  if accessible (g_pmem s) T (addr + i)
  then pipewrite_body pi p addr n i s = Ret (inl (i + 1)) (put_pi (ppush (ubyte (g_pmem s) T (addr + i)) x) s)
  else pipewrite_body pi p addr n i s = Ret (inr (Some i)) s.
Proof.
  intros [Hc (pr & Hp & Hk & Hpt) Hlen Hu Hsp] Hx Hq Ho Hlt Hi Ha Han. unfold pipewrite_body.
  destruct (Z.ltb_spec i n); [|lia]. cbn [negb].
  rewrite (bind_run _ _ _ _ _ (get_pipe_run x s Hx)), Ho. cbn [negb].
  rewrite (bind_run _ _ _ _ _ (killed_run p s pr (Hu p) Hp)), Hk.
  rewrite (prepr_full x q Hq). destruct (Nat.eqb_spec (length q) 512); [lia|].
  rewrite (bind_run _ _ _ _ _ (arr_get_run "proc" g_procs p s pr Hp)), Hpt, u64_small by lia.
  destruct (copyin_run root T (addr + i) 1 s Hsp ltac:(lia) ltac:(lia)) as (r & k & E & Hacc & Hr).
  rewrite (bind_run _ _ _ _ _ E). cbn [fst snd]. destruct Hr as [[-> Hk1]|(-> & Hk1 & Hbad)].
  - assert (k = 1%nat) as -> by lia. specialize (Hacc 0 ltac:(lia)). rewrite Z.add_0_r in Hacc. rewrite Hacc.
    cbn [Z.eqb]. rewrite (bind_run _ _ _ _ _ (upd_pipe_run _ x s Hx)).
    rewrite (bind_run _ _ _ _ _ (upd_pipe_run _ _ _ (put_pi_lookup _ _))), put_pi_put. unfold ret, ppush, ubytes.
    simpl. by rewrite Z.add_0_r.
  - assert (k = 0%nat) as -> by lia. rewrite Z.add_0_r in Hbad. by rewrite Hbad.
Qed.

Lemma pipewrite_loop addr n fuel i x q s :
  pthread s -> g_pipes s !! pi = Some x -> prepr x q -> pi_readopen x = true ->
  0 <= i <= n -> 0 <= addr -> addr + n < 2 ^ 64 -> Z.of_nat (length q) + (n - i) <= 512 -> n - i < Z.of_nat fuel ->
  exists k x', loop fuel (pipewrite_body pi p addr n) i s = Ret (Some k) (put_pi x' s) /\ i <= k <= n /\
    prepr x' (q ++ ubytes (g_pmem s) T (addr + i) (Z.to_nat (k - i))) /\
    (forall j, i <= j < k -> accessible (g_pmem s) T (addr + j) = true) /\
    (k = n \/ accessible (g_pmem s) T (addr + k) = false).
Proof.
  revert i x q s. induction fuel as [|fuel IH]; intros i x q s Hs Hx Hq Ho Hi Ha Han Hroom Hf; [lia|]. cbn [loop].
  assert (put_pi x s = s) as Hid.
  { unfold put_pi. rewrite insert_id by done. by destruct s as [? ? ? ? ? ? [] ? ?]. }
  destruct (decide (i = n)) as [->|Hne].
  { exists n, x. unfold pipewrite_body. rewrite Z.ltb_irrefl. cbn [negb]. rewrite bind_ret_l, Hid, Z.sub_diag.
    simpl. rewrite app_nil_r. split; [done|]. split; [lia|]. split; [done|]. split; [intros; lia|by left]. }
  pose proof (pipewrite_round addr n i x q s Hs Hx Hq Ho ltac:(lia) ltac:(lia) Ha Han) as Hr.
  destruct (accessible (g_pmem s) T (addr + i)) eqn:Eacc; rewrite (bind_run _ _ _ _ _ Hr).
  - set (b := ubyte (g_pmem s) T (addr + i)) in *.
    destruct (IH (i + 1) (ppush b x) (q ++ [b]) (put_pi (ppush b x) s)) as (k & x' & E & Hk & Hq' & Hacc & Hend);
      try done; [by apply pthread_put_pi|apply put_pi_lookup|apply prepr_push; [done|lia]|lia| |lia|].
    { rewrite length_app. simpl. lia. }
    exists k, x'. rewrite E, put_pi_put. split; [done|]. split; [lia|].
    change (g_pmem (put_pi _ s)) with (g_pmem s) in *. split; [|split; [|done]].
    + rewrite <- app_assoc in Hq'. replace (Z.to_nat (k - i)) with (1 + Z.to_nat (k - (i + 1)))%nat by lia.
      rewrite ubytes_app. change (Z.of_nat 1) with 1. rewrite <- Z.add_assoc.
      unfold ubytes at 1. simpl. rewrite Z.add_0_r. exact Hq'.
    + intros j Hj. destruct (decide (j = i)) as [->|]; [done|]. apply Hacc. lia.
  - exists i, x. rewrite Hid, Z.sub_diag. simpl. rewrite app_nil_r. unfold ret. split; [done|]. split; [lia|].
    split; [done|]. split; [intros; lia|by right].
Qed.

(** The critical section of a pipe, as seen from outside. *)
Lemma pthread_locks L s :
  (forall i, L !! LProc i = None) -> pthread s -> pthread (put_locks L s).
Proof. intros HL [? ? ? Hu ?]. split; try done. Qed.

Lemma pipe_lock_procs s i :
  procs_unlocked s -> <[LPipe pi := g_hart s]> (g_locks s) !! LProc i = None.
Proof. intros Hu. rewrite lookup_insert_ne by done. apply Hu. Qed.

Lemma pipewrite_run addr n fuel x q s :
  pthread s -> lock_free (LPipe pi) s -> g_pipes s !! pi = Some x -> prepr x q -> pi_readopen x = true ->
  0 <= n -> 0 <= addr -> addr + n < 2 ^ 64 -> Z.of_nat (length q) + n <= 512 -> n < Z.of_nat fuel ->
  exists k x', pipewrite fuel pi addr n s =
      Ret k (put_procs (imap (wake (ChPipeR pi) (Some p)) (g_procs s)) (put_pi x' s)) /\ 0 <= k <= n /\
    prepr x' (q ++ ubytes (g_pmem s) T addr (Z.to_nat k)) /\
    (forall j, 0 <= j < k -> accessible (g_pmem s) T (addr + j) = true) /\
    (k = n \/ accessible (g_pmem s) T (addr + k) = false).
Proof.
  intros Hs Hf Hx Hq Ho Hn Ha Han Hroom Hfu. pose proof Hs as [Hc _ Hlen Hu _]. unfold pipewrite, curp, myproc.
  unfold bind at 1. unfold bind at 1. unfold gets. cbn [obind]. rewrite Hc. cbn [the]. unfold ret at 1. cbn [obind].
  rewrite (bind_run _ _ _ _ _ (lock_acquire_run _ _ Hf)). set (s1 := put_locks _ s).
  assert (pthread s1) as Hs1.
  { apply pthread_locks; [|done]. intros i. by apply pipe_lock_procs. }
  destruct (pipewrite_loop addr n fuel 0 x q s1) as (k & x' & E & Hk & Hq' & Hacc & Hend); try done; try lia.
  rewrite (bind_run _ _ _ _ _ E). exists k, x'. rewrite Z.add_0_r, Z.sub_0_r in Hq'.
  split; [|done].
  rewrite (bind_run _ _ _ _ _ (wakeup_run (ChPipeR pi) (put_pi x' s1) Hlen (pt_unlocked _ Hs1))).
  change (g_curproc (put_pi x' s1)) with (g_curproc s). rewrite Hc.
  unfold bind. krelease Hf. unfold ret. f_equal. unfold s1, put_pi. kstate_eq.
Qed.

(** ** Reading *)

Lemma pthread_pmem m s : uspace m root T -> pthread s -> pthread (put_pmem m s).
Proof. intros Hm [? ? ? ? _]. by split. Qed.

(** The copy loop delivers bytes from the front; when the destination is not
    writable, the byte it could not deliver is gone. *)
Lemma piperead_copy_run n addr i x q s :
  pthread s -> g_pipes s !! pi = Some x -> prepr x q -> Forall byte q ->
  0 <= addr -> 0 <= i -> addr + i + Z.of_nat n < 2 ^ 64 ->
  exists k lost m' x', piperead_copy n pi p addr i s = Ret (i + Z.of_nat k) (put_pmem m' (put_pi x' s)) /\
    uspace m' root T /\ uwritten (g_pmem s) m' T (addr + i) (take k q) /\ prepr x' (drop (k + lost) q) /\
    ((lost = 0%nat /\ k = Nat.min n (length q)) \/
     (lost = 1%nat /\ (k < Nat.min n (length q))%nat /\ writable (g_pmem s) T (addr + i + Z.of_nat k) = false)).
Proof.
  revert i x q s. induction n as [|n IH]; intros i x q s Hs Hx Hq Hb Ha Hi Hmax; cbn [piperead_copy];
    assert (put_pmem (g_pmem s) (put_pi x s) = s) as Hid
      by (unfold put_pi; rewrite insert_id by done; by destruct s as [? [] ? ? ? ? [] ? ?]).
  { exists 0%nat, 0%nat, (g_pmem s), x. rewrite Hid, Z.add_0_r. split; [done|]. split; [apply Hs|].
    split; [apply uwritten_nil|]. split; [done|]. by left. }
  rewrite (bind_run _ _ _ _ _ (get_pipe_run x s Hx)), (prepr_empty x q Hq).
  destruct q as [|b q]; cbn [length Nat.eqb].
  { exists 0%nat, 0%nat, (g_pmem s), x. rewrite Hid, Z.add_0_r. split; [done|]. split; [apply Hs|].
    split; [apply uwritten_nil|]. split; [done|]. by left. }
  destruct (prepr_pop x b q Hq) as [Eb Hq']. cbv zeta. rewrite Eb. apply list.Forall_cons in Hb as [Hb0 Hbq].
  rewrite (bind_run _ _ _ _ _ (upd_pipe_run _ x s Hx)). fold (ppop x).
  destruct Hs as [Hc (pr & Hp & Hk & Hpt) Hlen Hu Hsp].
  rewrite (bind_run _ _ _ _ _ (arr_get_run "proc" g_procs p (put_pi (ppop x) s) pr Hp)), Hpt, u64_small by lia.
  destruct (copyout_run root T (addr + i) [b] (put_pi (ppop x) s) Hsp ltac:(lia) ltac:(by constructor))
    as (r & k & m1 & E & Hsp1 & Hw1 & _ & Hr). change (g_pmem (put_pi (ppop x) s)) with (g_pmem s) in *.
  rewrite (bind_run _ _ _ _ _ E). destruct Hr as [[-> ->]|(-> & Hk0 & Hbad)].
  - cbn [Z.eqb]. set (s1 := put_pmem m1 (put_pi (ppop x) s)).
    destruct (IH (i + 1) (ppop x) q s1) as (k & lost & m2 & x' & E2 & Hsp2 & Hw2 & Hq2 & Hend); try done; try lia.
    { apply pthread_pmem; [done|]. apply pthread_put_pi. split; try done. by exists pr. }
    { apply put_pi_lookup. }
    exists (S k), lost, m2, x'. rewrite E2. split; [|split; [done|split; [|split; [done|]]]].
    + f_equal; [lia|]. unfold s1. transitivity (put_pmem m2 (put_pi x' (put_pi (ppop x) s))); [done|]. by rewrite put_pi_put.
    + change (take (S k) (b :: q)) with ([b] ++ take k q). eapply uwritten_app; [exact Hw1|].
      simpl length. change (Z.of_nat 1) with 1. rewrite <- Z.add_assoc. exact Hw2.
    + simpl length. destruct Hend as [[-> ->]|(-> & Hlt & Hbad)]; [left; lia|right]. split; [done|]. split; [lia|].
      rewrite <- Hbad, (writable_ext (g_pmem s) m1) by apply Hw1. f_equal. lia.
  - assert (k = 0%nat) as -> by (simpl in Hk0; lia). rewrite Z.eqb_refl. exists 0%nat, 1%nat, m1, (ppop x).
    rewrite !Z.add_0_r in *. split; [done|]. split; [done|]. split; [done|]. split; [done|]. right.
    simpl length. split; [done|]. split; [lia|]. done.
Qed.

Lemma piperead_run addr n x q s :
  pthread s -> lock_free (LPipe pi) s -> g_pipes s !! pi = Some x -> prepr x q -> Forall byte q ->
  q <> [] \/ pi_writeopen x = false -> 0 <= n -> 0 <= addr -> addr + n < 2 ^ 64 ->
  exists k lost m' x', piperead pi addr n s =
      Ret (Z.of_nat k) (put_procs (imap (wake (ChPipeW pi) (Some p)) (g_procs s)) (put_pmem m' (put_pi x' s))) /\
    uwritten (g_pmem s) m' T addr (take k q) /\ prepr x' (drop (k + lost) q) /\
    ((lost = 0%nat /\ k = Nat.min (Z.to_nat n) (length q)) \/
     (lost = 1%nat /\ (k < Nat.min (Z.to_nat n) (length q))%nat /\
      writable (g_pmem s) T (addr + Z.of_nat k) = false)).
Proof.
  intros Hs Hf Hx Hq Hb Hne Hn Ha Han. pose proof Hs as [Hc _ Hlen Hu _]. unfold piperead, curp, myproc.
  unfold bind at 1. unfold bind at 1. unfold gets. cbn [obind]. rewrite Hc. cbn [the]. unfold ret at 1. cbn [obind].
  rewrite (bind_run _ _ _ _ _ (lock_acquire_run _ _ Hf)). set (s1 := put_locks _ s).
  assert (pthread s1) as Hs1. { apply pthread_locks; [|done]. intros i. by apply pipe_lock_procs. }
  assert (loop sleep_fuel (piperead_wait pi p) tt s1 = Ret false s1) as Ew.
  { unfold sleep_fuel. cbn [loop]. unfold piperead_wait at 1. unfold bind at 1.
    rewrite (bind_run _ _ _ _ _ (get_pipe_run x s1 Hx)), (prepr_empty x q Hq).
    destruct Hne as [Hne| ->]; [|by rewrite andb_false_r]. by destruct q. }
  rewrite (bind_run _ _ _ _ _ Ew).
  destruct (piperead_copy_run (Z.to_nat n) addr 0 x q s1) as (k & lost & m' & x' & E & Hsp & Hw & Hq' & Hend);
    try done; try lia.
  rewrite (bind_run _ _ _ _ _ E). rewrite Z.add_0_r in *. exists k, lost, m', x'.
  split; [|done].
  rewrite (bind_run _ _ _ _ _ (wakeup_run (ChPipeW pi) (put_pmem m' (put_pi x' s1)) Hlen (pt_unlocked _ Hs1))).
  change (g_curproc (put_pmem m' (put_pi x' s1))) with (g_curproc s). rewrite Hc.
  unfold bind. krelease Hf. unfold ret. f_equal. unfold s1, put_pi. kstate_eq.
Qed.
End pipe.

(** ** Theorems *)

(** [C19] Writing to a pipe with an open read end and room for the request
    appends the caller's bytes in order and wakes the readers: all of them, or up to
    the first user address that is not readable; the result is their number.
    Nothing else changes and the pipe's lock is free again. *)
Theorem pipewrite_appends `{!KernelImage} pi p root T addr n fuel x q s :
  pthread p root T s -> lock_free (LPipe pi) s -> g_pipes s !! pi = Some x -> prepr x q -> pi_readopen x = true ->
  0 <= n -> 0 <= addr -> addr + n < 2 ^ 64 -> Z.of_nat (length q) + n <= PIPESIZE -> n < Z.of_nat fuel ->
  exists k x', pipewrite fuel pi addr n s =
      Ret k (put_procs (imap (wake (ChPipeR pi) (Some p)) (g_procs s)) (put_pi pi x' s)) /\ 0 <= k <= n /\
    prepr x' (q ++ ubytes (g_pmem s) T addr (Z.to_nat k)) /\
    (forall j, 0 <= j < k -> accessible (g_pmem s) T (addr + j) = true) /\
    (k = n \/ accessible (g_pmem s) T (addr + k) = false).
Proof. apply pipewrite_run. Qed.

(** [C20] Reading from a pipe that holds bytes, or whose write end is closed,
    delivers the first bytes of the queue in order to the caller's memory, at most as
    many as asked, removes them and wakes the writers; an empty closed pipe gives 0.
    When the destination is not writable the read stops short, and the
    one byte that could not be delivered is lost. *)
Theorem piperead_takes `{!KernelImage} pi p root T addr n x q s :
  pthread p root T s -> lock_free (LPipe pi) s -> g_pipes s !! pi = Some x -> prepr x q -> Forall byte q ->
  q <> [] \/ pi_writeopen x = false -> 0 <= n -> 0 <= addr -> addr + n < 2 ^ 64 ->
  exists k lost m' x', piperead pi addr n s =
      Ret (Z.of_nat k) (put_procs (imap (wake (ChPipeW pi) (Some p)) (g_procs s)) (put_pmem m' (put_pi pi x' s))) /\
    uwritten (g_pmem s) m' T addr (take k q) /\ prepr x' (drop (k + lost) q) /\
    ((lost = 0%nat /\ k = Nat.min (Z.to_nat n) (length q)) \/
     (lost = 1%nat /\ (k < Nat.min (Z.to_nat n) (length q))%nat /\
      writable (g_pmem s) T (addr + Z.of_nat k) = false)).
Proof. apply piperead_run. Qed.

(** ** A pipe that holds three bytes across the wrap of its counters *)

Definition pipe3 : pipe :=
  {| pi_data := <[511%nat := 97]> (<[0%nat := 98]> (<[1%nat := 99]> (replicate 512 5)));
     pi_nread := 4294967295; pi_nwrite := 2; pi_readopen := true; pi_writeopen := true |}.

Lemma pipe3_repr : prepr pipe3 [97; 98; 99].
Proof.
  split; [reflexivity|simpl; lia|reflexivity|simpl; lia|].
  intros [|[|[|i]]] b Hb; [injection Hb as <-; reflexivity..|done].
Qed.

Definition pstate (m : mem) (root : Z) : kstate :=
  put_pipes {[4096 := pipe3]} (put_pmem m (running (set_p_pagetable root (set_p_state RUNNING zero_proc)))).

Lemma pstate_thread s root T l : @uvm image5 s root T l -> @pthread image5 0 root T (pstate (g_pmem s) root).
Proof.
  intros Hu. split; [reflexivity| |reflexivity|intros i; apply lookup_empty|apply Hu].
  eexists. split; [reflexivity|]. split; reflexivity.
Qed.

Lemma pipewrite_appends_witness : exists m root T x',
  @pipewrite 6 4096 10 2 (pstate m root) =
    Ret 2 (put_procs (imap (wake (ChPipeR 4096) (Some 0%nat)) (g_procs (pstate m root))) (put_pi 4096 x' (pstate m root))) /\
  prepr x' ([97; 98; 99] ++ ubytes m T 10 2).
Proof.
  destruct user5 as (s & root & T & l & Hu & Hw). exists (g_pmem s), root, T.
  destruct (@pipewrite_appends image5 4096 0 root T 10 2 6 pipe3 [97; 98; 99] (pstate (g_pmem s) root))
    as (k & x' & E & Hk & Hq & _ & Hend).
  - exact (pstate_thread s root T l Hu).
  - apply lookup_empty.
  - reflexivity.
  - exact pipe3_repr.
  - reflexivity.
  - lia.
  - lia.
  - lia.
  - simpl. unfold PIPESIZE. lia.
  - lia.
  - exists x'. destruct Hend as [->|Hbad]; [split; [exact E|exact Hq]|]. exfalso.
    change (g_pmem (pstate (g_pmem s) root)) with (g_pmem s) in Hbad.
    destruct (Hw (10 + k) ltac:(lia)) as [Ha _]. unfold writable in Ha. rewrite Hbad in Ha. discriminate Ha.
Defined.

Lemma piperead_takes_witness : exists m root T m' x',
  @piperead 4096 10 2 (pstate m root) =
    Ret 2 (put_procs (imap (wake (ChPipeW 4096) (Some 0%nat)) (g_procs (pstate m root)))
             (put_pmem m' (put_pi 4096 x' (pstate m root)))) /\
  uwritten m m' T 10 [97; 98] /\ prepr x' [99].
Proof.
  destruct user5 as (s & root & T & l & Hu & Hw). exists (g_pmem s), root, T.
  destruct (@piperead_takes image5 4096 0 root T 10 2 pipe3 [97; 98; 99] (pstate (g_pmem s) root))
    as (k & lost & m' & x' & E & Hwr & Hq & Hend).
  - exact (pstate_thread s root T l Hu).
  - apply lookup_empty.
  - reflexivity.
  - exact pipe3_repr.
  - repeat constructor; unfold byte; lia.
  - left. discriminate.
  - lia.
  - lia.
  - lia.
  - exists m', x'. destruct Hend as [[-> ->]|(_ & Hk & Hbad)].
    + split; [exact E|]. split; [exact Hwr|exact Hq].
    + exfalso. change (g_pmem (pstate (g_pmem s) root)) with (g_pmem s) in Hbad. simpl in Hk.
      destruct (Hw (10 + Z.of_nat k) ltac:(lia)) as [Ha _]. rewrite Ha in Hbad. discriminate Hbad.
Defined.
