(* ===== verification/File.v ===== *)
(** * Open files: kernel/file.c and [pipealloc] of kernel/pipe.c

    A [struct file *] is an index into [ftable.file].  The device switch has one
    entry, the console. *)

From Stdlib Require Import ZArith Lia.
From stdpp Require Import base list gmap strings numbers option.
From S2P Require Import Prelude Bytes Riscv Kstate Sched Kalloc Vm Copy Console Bio Log Fs Pipe.

Definition CONSOLE : Z := 1.

(** [devsw\[major\].read] and [devsw\[major\].write]; [None] is a null pointer. *)
Definition devsw_read (major : Z) : option (bool -> Z -> Z -> M Z) :=
  if major =? CONSOLE then Some consoleread else None.
Definition devsw_write (major : Z) : option (bool -> Z -> Z -> M Z) :=
  if major =? CONSOLE then Some consolewrite else None.

Definition fileinit : M unit := modify (fun s => put_locks (delete LFtable (g_locks s)) s).

Definition filealloc : M (option nat) :=
  lock_acquire LFtable ;;
  r <- for_upto NFILE 0 (fun f =>
    x <- get_file f ;;
    if f_ref x =? 0 then
      upd_file f (set_f_ref 1) ;;
      lock_release LFtable ;;
      ret (Some f)
    else ret None) ;;
  match r with
  | Some f => ret (Some f)
  | None => lock_release LFtable ;; ret None
  end.

Definition filedup (f : nat) : M nat :=
  lock_acquire LFtable ;;
  x <- get_file f ;;
  if f_ref x <? 1 then panic "filedup" else
  upd_file f (set_f_ref (f_ref x + 1)) ;;
  lock_release LFtable ;;
  ret f.

Section file.
Context `{!KernelImage}.

Definition fileclose (f : nat) : M unit :=
  lock_acquire LFtable ;;
  x <- get_file f ;;
  if f_ref x <? 1 then panic "fileclose" else
  upd_file f (set_f_ref (f_ref x - 1)) ;;
  if f_ref x - 1 >? 0 then lock_release LFtable else
  ff <- get_file f ;;
  upd_file f (set_f_ref 0) ;;
  upd_file f (set_f_type FD_NONE) ;;
  lock_release LFtable ;;
  match f_type ff with
  | FD_PIPE => pipeclose (f_pipe ff) (f_writable ff)
  | FD_INODE | FD_DEVICE =>
      begin_op ;;
      ip <- the "ff.ip" (f_ip ff) ;;
      iput ip ;;
      end_op
  | FD_NONE => ret tt
  end.

(** The label [bad] of [pipealloc]. *)
Definition pipealloc_bad (pi : Z) (f0 f1 : option nat) : M (option (nat * nat)) :=
  when (negb (pi =? 0)) (kfree pi) ;;
  match f0 with Some f => fileclose f | None => ret tt end ;;
  match f1 with Some f => fileclose f | None => ret tt end ;;
  ret None.

(** [Some (f0, f1)] for a return value of 0. *)
Definition pipealloc : M (option (nat * nat)) :=
  r0 <- filealloc ;;
  match r0 with
  | None => pipealloc_bad 0 None None
  | Some f0 =>
      r1 <- filealloc ;;
      match r1 with
      | None => pipealloc_bad 0 (Some f0) None
      | Some f1 =>
          pi <- kalloc ;;
          if pi =? 0 then pipealloc_bad 0 (Some f0) (Some f1) else
          put_pipe pi {| pi_data := replicate 512 5; pi_nread := 0; pi_nwrite := 0;
                         pi_readopen := true; pi_writeopen := true |} ;;
          modify (fun s => put_locks (delete (LPipe pi) (g_locks s)) s) ;;
          upd_file f0 (fun x => set_f_pipe pi (set_f_writable false (set_f_readable true (set_f_type FD_PIPE x)))) ;;
          upd_file f1 (fun x => set_f_pipe pi (set_f_writable true (set_f_readable false (set_f_type FD_PIPE x)))) ;;
          ret (Some (f0, f1))
      end
  end.

Definition filestat (f : nat) (addr : Z) : M Z :=
  p <- curp ;;
  x <- get_file f ;;
  match f_type x with
  | FD_INODE | FD_DEVICE =>
      ip <- the "f->ip" (f_ip x) ;;
      ilock ip ;;
      st <- stati ip ;;
      iunlock ip ;;
      pr <- get_proc p ;;
      r <- copyout (p_pagetable pr) addr st ;;
      if r <? 0 then ret (-1) else ret 0
  | _ => ret (-1)
  end.

Definition fileread (f : nat) (addr n : Z) : M Z :=
  x <- get_file f ;;
  if negb (f_readable x) then ret (-1) else
  match f_type x with
  | FD_PIPE => piperead (f_pipe x) addr n
  | FD_DEVICE =>
      if (f_major x <? 0) || (f_major x >=? NDEV) then ret (-1) else
      match devsw_read (f_major x) with
      | None => ret (-1)
      | Some read => read true addr n
      end
  | FD_INODE =>
      ip <- the "f->ip" (f_ip x) ;;
      ilock ip ;;
      x <- get_file f ;;
      r <- readi ip true addr (f_off x) (u32 n) ;;
      when (r >? 0) (upd_file f (fun x => set_f_off (u32 (f_off x + r)) x)) ;;
      iunlock ip ;;
      ret r
  | FD_NONE => panic "fileread"
  end.

(** [((MAXOPBLOCKS-1-1-2) / 2) * BSIZE] *)
Definition filewrite_max : Z := (MAXOPBLOCKS - 1 - 1 - 2) / 2 * BSIZE.

Definition filewrite_body (f ip : nat) (addr n i : Z) : M (Z + Z) :=
  if negb (i <? n) then ret (inr i) else
  let n1 := Z.min (n - i) filewrite_max in
  begin_op ;;
  ilock ip ;;
  x <- get_file f ;;
  r <- writei ip true (u64 (addr + i)) (f_off x) n1 ;;
  when (r >? 0) (upd_file f (fun x => set_f_off (u32 (f_off x + r)) x)) ;;
  iunlock ip ;;
  end_op ;;
  if negb (r =? n1) then ret (inr i) else ret (inl (i + r)).

Definition filewrite (f : nat) (addr n : Z) : M Z :=
  x <- get_file f ;;
  if negb (f_writable x) then ret (-1) else
  match f_type x with
  | FD_PIPE => pipewrite (pipewrite_fuel n) (f_pipe x) addr n
  | FD_DEVICE =>
      if (f_major x <? 0) || (f_major x >=? NDEV) then ret (-1) else
      match devsw_write (f_major x) with
      | None => ret (-1)
      | Some write => write true addr n
      end
  | FD_INODE =>
      ip <- the "f->ip" (f_ip x) ;;
      i <- loop (2 + Z.to_nat (n / filewrite_max)) (filewrite_body f ip addr n) 0 ;;
      ret (if i =? n then n else -1)
  | FD_NONE => panic "filewrite"
  end.
End file.
