(* ===== verification/Proc.v ===== *)
(** * Processes: kernel/proc.c (first half)

    The process table, the user page table of a process, and [fork], [exit]
    and [wait].  [sched], [sleep], [wakeup] and [kill] are in [Sched],
    [either_copyin]/[either_copyout] in [Copy], [proc_mapstacks] in [Vm],
    [procdump] in [Console], [forkret] in [Trap]. *)

From Stdlib Require Import ZArith Lia.
From stdpp Require Import base list gmap strings numbers option.
From S2P Require Import Prelude Bytes Riscv Cstring Kstate Sched Kalloc Vm Printf Log Fs File.

(** Addresses of kernel code that are stored in data structures. *)
Class KernelCode := {
  forkret_addr : Z;
  usertrap_addr : Z;
  kernelvec_addr : Z;
  uservec_off : Z;      (** [uservec - trampoline] *)
  userret_off : Z       (** [userret - trampoline] *)
}.

(** ** The trapframe: a page of memory *)

Definition TF_kernel_satp : Z := 0.
Definition TF_kernel_sp : Z := 8.
Definition TF_kernel_trap : Z := 16.
Definition TF_epc : Z := 24.
Definition TF_kernel_hartid : Z := 32.
Definition TF_sp : Z := 48.
Definition TF_a0 : Z := 112.
Definition TF_a1 : Z := 120.
Definition TF_a7 : Z := 168.
Definition sizeof_trapframe : Z := 288.

(** [p->trapframe]; following a null pointer is undefined. *)
Definition tf_addr (p : nat) : M Z :=
  pr <- get_proc p ;;
  if p_trapframe pr =? 0 then fail (Undefined "trapframe") else ret (p_trapframe pr).
Definition tf_load (p : nat) (off : Z) : M Z := tf <- tf_addr p ;; kload64 (tf + off).
Definition tf_store (p : nat) (off v : Z) : M unit := tf <- tf_addr p ;; kstore64 (tf + off) v.

(** [safestrcpy(p->name, t, sizeof(p->name))]: the characters stored, for the
    [n] that is left after the first decrement. *)
Fixpoint safestrcpy_bytes (n : nat) (t : list Z) : list Z :=
  match n with
  | O => [0]
  | S n' =>
      match t with
      | [] => [0; 0]
      | c :: t' => if c =? 0 then [0; 0] else c :: safestrcpy_bytes n' t'
      end
  end.
Definition set_name (t : list Z) (pr : proc) : proc :=
  set_p_name (splice (p_name pr) 0 (safestrcpy_bytes 15 t)) pr.

Definition procinit : M unit :=
  modify (fun s => put_locks (delete LPid (g_locks s)) s) ;;
  modify (fun s => put_locks (delete LWait (g_locks s)) s) ;;
  for_each NPROC 0 (fun p =>
    modify (fun s => put_locks (delete (LProc p) (g_locks s)) s) ;;
    upd_proc p (set_p_state UNUSED) ;;
    upd_proc p (set_p_kstack (KSTACK (Z.of_nat p)))).

(** [cpuid()]: the hart id that [start] put in [tp]. *)
Definition cpuid : M Z := gets g_hart.

Definition allocpid : M Z :=
  lock_acquire LPid ;;
  pid <- gets g_nextpid ;;
  modify (put_nextpid (s32 (pid + 1))) ;;
  lock_release LPid ;;
  ret pid.

Section proc.
Context `{!KernelImage}.

(** Returns 0 when memory runs out. *)
Definition proc_pagetable (p : nat) : M Z :=
  pagetable <- uvmcreate ;;
  if pagetable =? 0 then ret 0 else
  r <- mappages pagetable TRAMPOLINE PGSIZE trampoline (Z.lor PTE_R PTE_X) ;;
  if r <? 0 then uvmfree pagetable 0 ;; ret 0 else
  pr <- get_proc p ;;
  r <- mappages pagetable TRAPFRAME PGSIZE (p_trapframe pr) (Z.lor PTE_R PTE_W) ;;
  if r <? 0 then
    uvmunmap pagetable TRAMPOLINE 1 false ;;
    uvmfree pagetable 0 ;;
    ret 0
  else ret pagetable.

Definition proc_freepagetable (pagetable sz : Z) : M unit :=
  uvmunmap pagetable TRAMPOLINE 1 false ;;
  uvmunmap pagetable TRAPFRAME 1 false ;;
  uvmfree pagetable sz.

Definition freeproc (p : nat) : M unit :=
  pr <- get_proc p ;;
  when (negb (p_trapframe pr =? 0)) (kfree (p_trapframe pr)) ;;
  upd_proc p (set_p_trapframe 0) ;;
  when (negb (p_pagetable pr =? 0)) (proc_freepagetable (p_pagetable pr) (p_sz pr)) ;;
  upd_proc p (set_p_pagetable 0) ;;
  upd_proc p (set_p_sz 0) ;;
  upd_proc p (set_p_pid 0) ;;
  upd_proc p (set_p_parent None) ;;
  upd_proc p (fun pr => set_p_name (<[0%nat := 0]> (p_name pr)) pr) ;;
  upd_proc p (set_p_chan None) ;;
  upd_proc p (set_p_killed false) ;;
  upd_proc p (set_p_xstate 0) ;;
  upd_proc p (set_p_state UNUSED).

(** The search of [allocproc]: the slot found, with its lock held. *)
Definition find_unused : M (option nat) :=
  for_upto NPROC 0 (fun p =>
    lock_acquire (LProc p) ;;
    pr <- get_proc p ;;
    if bool_decide (p_state pr = UNUSED) then ret (Some p)
    else lock_release (LProc p) ;; ret None).

Context `{!KernelCode}.

(** Returns with [p->lock] held. *)
Definition allocproc : M (option nat) :=
  r <- find_unused ;;
  match r with
  | None => ret None
  | Some p =>
      pid <- allocpid ;;
      upd_proc p (set_p_pid pid) ;;
      upd_proc p (set_p_state USED) ;;
      tf <- kalloc ;;
      upd_proc p (set_p_trapframe tf) ;;
      if tf =? 0 then freeproc p ;; lock_release (LProc p) ;; ret None else
      pagetable <- proc_pagetable p ;;
      upd_proc p (set_p_pagetable pagetable) ;;
      if pagetable =? 0 then freeproc p ;; lock_release (LProc p) ;; ret None else
      upd_proc p (set_p_context zero_context) ;;
      upd_proc p (fun pr => set_p_context (set_ra forkret_addr (p_context pr)) pr) ;;
      upd_proc p (fun pr => set_p_context (set_sp (p_kstack pr + PGSIZE) (p_context pr)) pr) ;;
      ret (Some p)
  end.

Definition initcode : list Z :=
  [ 0x17; 0x05; 0x00; 0x00; 0x13; 0x05; 0x45; 0x02;
    0x97; 0x05; 0x00; 0x00; 0x93; 0x85; 0x35; 0x02;
    0x93; 0x08; 0x70; 0x00; 0x73; 0x00; 0x00; 0x00;
    0x93; 0x08; 0x20; 0x00; 0x73; 0x00; 0x00; 0x00;
    0xef; 0xf0; 0x9f; 0xff; 0x2f; 0x69; 0x6e; 0x69;
    0x74; 0x00; 0x00; 0x24; 0x00; 0x00; 0x00; 0x00;
    0x00; 0x00; 0x00; 0x00 ].

Definition userinit : M unit :=
  r <- allocproc ;;
  modify (put_initproc r) ;;
  p <- the "userinit" r ;;
  pr <- get_proc p ;;
  uvmfirst (p_pagetable pr) initcode ;;
  upd_proc p (set_p_sz PGSIZE) ;;
  tf_store p TF_epc 0 ;;
  tf_store p TF_sp PGSIZE ;;
  upd_proc p (set_name (bytes_of "initcode")) ;;
  cwd <- namei (bytes_of "/") ;;
  upd_proc p (set_p_cwd cwd) ;;
  upd_proc p (set_p_state RUNNABLE) ;;
  lock_release (LProc p).

Definition growproc (n : Z) : M Z :=
  p <- curp ;;
  pr <- get_proc p ;;
  let sz := p_sz pr in
  if n >? 0 then
    sz <- uvmalloc (p_pagetable pr) sz (u64 (sz + n)) PTE_W ;;
    if sz =? 0 then ret (-1) else
    upd_proc p (set_p_sz sz) ;; ret 0
  else if n <? 0 then
    sz <- uvmdealloc (p_pagetable pr) sz (u64 (sz + n)) ;;
    upd_proc p (set_p_sz sz) ;; ret 0
  else
    upd_proc p (set_p_sz sz) ;; ret 0.

(** [for(i = 0; i < NOFILE; i++) if(p->ofile\[i\]) np->ofile\[i\] = filedup(p->ofile\[i\]);] *)
Definition fork_files (p np : nat) : M unit :=
  for_each NOFILE 0 (fun i =>
    pr <- get_proc p ;;
    match mjoin (p_ofile pr !! i) with
    | Some f =>
        f <- filedup f ;;
        upd_proc np (fun x => set_p_ofile (<[i := Some f]> (p_ofile x)) x)
    | None => ret tt
    end).

Definition fork : M Z :=
  p <- curp ;;
  r <- allocproc ;;
  match r with
  | None => ret (-1)
  | Some np =>
      pr <- get_proc p ;;
      npr <- get_proc np ;;
      r <- uvmcopy (p_pagetable pr) (p_pagetable npr) (p_sz pr) ;;
      if r <? 0 then freeproc np ;; lock_release (LProc np) ;; ret (-1) else
      upd_proc np (set_p_sz (p_sz pr)) ;;
      tf <- tf_addr p ;;
      ntf <- tf_addr np ;;
      kmemmove ntf tf sizeof_trapframe ;;
      tf_store np TF_a0 0 ;;
      fork_files p np ;;
      cwd <- the "cwd" (p_cwd pr) ;;
      cwd <- idup cwd ;;
      upd_proc np (set_p_cwd (Some cwd)) ;;
      upd_proc np (set_name (p_name pr)) ;;
      npr <- get_proc np ;;
      let pid := p_pid npr in
      lock_release (LProc np) ;;
      lock_acquire LWait ;;
      upd_proc np (set_p_parent (Some p)) ;;
      lock_release LWait ;;
      lock_acquire (LProc np) ;;
      upd_proc np (set_p_state RUNNABLE) ;;
      lock_release (LProc np) ;;
      ret pid
  end.

(** [wakeup] of a process pointer; nobody sleeps on the null pointer. *)
Definition wakeup_proc (p : option nat) : M unit :=
  match p with Some i => wakeup (ChProc i) | None => ret tt end.

Definition reparent (p : nat) : M unit :=
  for_each NPROC 0 (fun pp =>
    pr <- get_proc pp ;;
    when (bool_decide (p_parent pr = Some p))
      (init <- gets g_initproc ;;
       upd_proc pp (set_p_parent init) ;;
       wakeup_proc init)).

(** The first loop of [exit]. *)
Definition exit_files (p : nat) : M unit :=
  for_each NOFILE 0 (fun fd =>
    pr <- get_proc p ;;
    match mjoin (p_ofile pr !! fd) with
    | Some f =>
        fileclose f ;;
        upd_proc p (fun x => set_p_ofile (<[fd := None]> (p_ofile x)) x)
    | None => ret tt
    end).

Definition exit (status : Z) : M unit :=
  p <- curp ;;
  init <- gets g_initproc ;;
  if bool_decide (Some p = init) then panic "init exiting" else
  exit_files p ;;
  begin_op ;;
  pr <- get_proc p ;;
  cwd <- the "cwd" (p_cwd pr) ;;
  iput cwd ;;
  end_op ;;
  upd_proc p (set_p_cwd None) ;;
  lock_acquire LWait ;;
  reparent p ;;
  pr <- get_proc p ;;
  wakeup_proc (p_parent pr) ;;
  lock_acquire (LProc p) ;;
  upd_proc p (set_p_xstate status) ;;
  upd_proc p (set_p_state ZOMBIE) ;;
  lock_release LWait ;;
  sched ;;
  panic "zombie exit".

(** The scan of [wait] over the table: [inl havekids] at its end, [inr v] for a
    [return v]. *)
Fixpoint wait_scan (n pp : nat) (p : nat) (addr : Z) (havekids : bool) : M (bool + Z) :=
  match n with
  | O => ret (inl havekids)
  | S n' =>
      ppr <- get_proc pp ;;
      if bool_decide (p_parent ppr = Some p) then
        lock_acquire (LProc pp) ;;
        ppr <- get_proc pp ;;
        if bool_decide (p_state ppr = ZOMBIE) then
          let pid := p_pid ppr in
          pr <- get_proc p ;;
          r <- (if negb (addr =? 0) then copyout (p_pagetable pr) addr (le_bytes 4 (p_xstate ppr))
                else ret 0) ;;
          if r <? 0 then
            lock_release (LProc pp) ;; lock_release LWait ;; ret (inr (-1))
          else
            freeproc pp ;;
            lock_release (LProc pp) ;; lock_release LWait ;; ret (inr pid)
        else
          lock_release (LProc pp) ;;
          wait_scan n' (S pp) p addr true
      else wait_scan n' (S pp) p addr havekids
  end.

(** One round of [wait]'s outer loop. *)
Definition wait_body (p : nat) (addr : Z) (_ : unit) : M (unit + Z) :=
  r <- wait_scan NPROC 0 p addr false ;;
  match r with
  | inr v => ret (inr v)
  | inl havekids =>
      k <- (if negb havekids then ret true else killed p) ;;
      if (k : bool) then lock_release LWait ;; ret (inr (-1)) else
      sleep (ChProc p) LWait ;;
      ret (inl tt)
  end.

Definition wait (addr : Z) : M Z :=
  p <- curp ;;
  lock_acquire LWait ;;
  loop sleep_fuel (wait_body p addr) tt.
End proc.
