(* ===== verification/Sysargs.v ===== *)
(** * System call arguments: the first half of kernel/syscall.c

    A kernel buffer that the source passes down to be filled is returned as the
    bytes stored in it. *)

From Stdlib Require Import ZArith Lia.
From stdpp Require Import base list gmap strings numbers option.
From S2P Require Import Prelude Bytes Riscv Cstring Kstate Sched Kalloc Vm Printf Log Fs File Proc.

Section sysargs.
Context `{!KernelImage}.

(** The result and the value stored through [ip] ([None]: nothing was stored). *)
Definition fetchaddr (addr : Z) : M (Z * option Z) :=
  p <- curp ;;
  pr <- get_proc p ;;
  if (addr >=? p_sz pr) || (u64 (addr + 8) >? p_sz pr) then ret (-1, None) else
  r <- copyin (p_pagetable pr) addr 8 ;;
  if negb (r.1 =? 0) then ret (-1, None) else ret (0, Some (le_val r.2)).

(** The result and the bytes stored in [buf]. *)
Definition fetchstr (addr max : Z) : M (Z * list Z) :=
  p <- curp ;;
  pr <- get_proc p ;;
  r <- copyinstr (p_pagetable pr) addr max ;;
  if r.1 <? 0 then ret (-1, r.2) else ret (Z.of_nat (length (cstr r.2)), r.2).

Definition argraw (n : Z) : M Z :=
  p <- curp ;;
  if (0 <=? n) && (n <=? 5) then tf_load p (TF_a0 + 8 * n) else panic "argraw".

(** [*ip = argraw(n)] truncates to an [int]. *)
Definition argint (n : Z) : M Z := r <- argraw n ;; ret (s32 r).
Definition argaddr (n : Z) : M Z := argraw n.
Definition argstr (n max : Z) : M (Z * list Z) := addr <- argaddr n ;; fetchstr addr max.
End sysargs.
