(* ===== verification/Exec.v ===== *)
(** * Program loading: kernel/exec.c

    [elf] and [ph] are local variables whose addresses are passed to [readi];
    like [Fs.de_slot] they live at fixed addresses outside the memory that is
    handed out, and their fields are read at the offsets of kernel/elf.h. *)

From Stdlib Require Import ZArith Lia.
From stdpp Require Import base list gmap strings numbers option.
From S2P Require Import Prelude Bytes Riscv Cstring Kstate Sched Kalloc Vm Printf Log Fs File Proc.

Definition ELF_MAGIC : Z := 0x464C457F.
Definition ELF_PROG_LOAD : Z := 1.
Definition sizeof_elfhdr : Z := 64.
Definition sizeof_proghdr : Z := 56.
Definition elf_slot : Z := 0x2000.
Definition ph_slot : Z := 0x3000.

Definition elf_magic : M Z := gets (fun s => load_le 4 (g_pmem s) elf_slot).
Definition elf_entry : M Z := gets (fun s => load_le 8 (g_pmem s) (elf_slot + 24)).
Definition elf_phoff : M Z := gets (fun s => load_le 8 (g_pmem s) (elf_slot + 32)).
Definition elf_phnum : M Z := gets (fun s => load_le 2 (g_pmem s) (elf_slot + 56)).
Definition ph_type : M Z := gets (fun s => load_le 4 (g_pmem s) ph_slot).
Definition ph_flags : M Z := gets (fun s => load_le 4 (g_pmem s) (ph_slot + 4)).
Definition ph_off : M Z := gets (fun s => load_le 8 (g_pmem s) (ph_slot + 8)).
Definition ph_vaddr : M Z := gets (fun s => load_le 8 (g_pmem s) (ph_slot + 16)).
Definition ph_filesz : M Z := gets (fun s => load_le 8 (g_pmem s) (ph_slot + 32)).
Definition ph_memsz : M Z := gets (fun s => load_le 8 (g_pmem s) (ph_slot + 40)).

Definition flags2perm (flags : Z) : Z :=
  let perm := if has flags 0x1 then PTE_X else 0 in
  if has flags 0x2 then Z.lor perm PTE_W else perm.

(** The loop over [path] with the pointers [last] and [s]. *)
Fixpoint last_elem (last s : list Z) : list Z :=
  match s with
  | [] => last
  | c :: s' => last_elem (if c =? slash then s' else last) s'
  end.

Section exec.
Context `{!KernelImage}.

Definition loadseg_body (pagetable va : Z) (ip : nat) (offset sz i : Z) : M (Z + Z) :=
  if negb (i <? sz) then ret (inr 0) else
  pa <- walkaddr pagetable (u64 (va + i)) ;;
  if pa =? 0 then panic "loadseg: address should exist" else
  let n := if sz - i <? PGSIZE then sz - i else PGSIZE in
  r <- readi ip false pa (u32 (offset + i)) n ;;
  if negb (u32 r =? n) then ret (inr (-1)) else ret (inl (u32 (i + PGSIZE))).

Definition loadseg (pagetable va : Z) (ip : nat) (offset sz : Z) : M Z :=
  loop (2 + Z.to_nat (sz / PGSIZE)) (loadseg_body pagetable va ip offset sz) 0.

(** The label [bad]: [pagetable], [sz] and [ip] as they are at the jump. *)
Definition exec_bad (pagetable sz : Z) (ip : option nat) : M Z :=
  when (negb (pagetable =? 0)) (proc_freepagetable pagetable sz) ;;
  match ip with Some ip => iunlockput ip ;; end_op | None => ret tt end ;;
  ret (-1).

(** One turn of the loop over the program headers on [(i, off, sz)]:
    [inr (sz, ok)] leaves it, [ok] is false at a jump to [bad]. *)
Definition exec_load_body (ip : nat) (pagetable : Z) (x : Z * Z * Z) : M (Z * Z * Z + Z * bool) :=
  let '(i, off, sz) := x in
  phnum <- elf_phnum ;;
  if negb (i <? phnum) then ret (inr (sz, true)) else
  r <- readi ip false ph_slot (u32 off) sizeof_proghdr ;;
  if negb (r =? sizeof_proghdr) then ret (inr (sz, false)) else
  let next sz := inl (i + 1, s32 (off + sizeof_proghdr), sz) in
  type <- ph_type ;;
  if negb (type =? ELF_PROG_LOAD) then ret (next sz) else
  memsz <- ph_memsz ;; filesz <- ph_filesz ;; vaddr <- ph_vaddr ;;
  if memsz <? filesz then ret (inr (sz, false)) else
  if u64 (vaddr + memsz) <? vaddr then ret (inr (sz, false)) else
  if negb (vaddr mod PGSIZE =? 0) then ret (inr (sz, false)) else
  flags <- ph_flags ;;
  sz1 <- uvmalloc pagetable sz (u64 (vaddr + memsz)) (flags2perm flags) ;;
  if sz1 =? 0 then ret (inr (sz, false)) else
  let sz := sz1 in
  poff <- ph_off ;;
  r <- loadseg pagetable vaddr ip (u32 poff) (u32 filesz) ;;
  if r <? 0 then ret (inr (sz, false)) else ret (next sz).

Definition exec_load (ip : nat) (pagetable : Z) : M (Z * bool) :=
  phoff <- elf_phoff ;;
  phnum <- elf_phnum ;;
  loop (S (Z.to_nat phnum)) (exec_load_body ip pagetable) (0, s32 phoff, 0).

(** [sp -= n; sp -= sp % 16;] *)
Definition push_down (sp n : Z) : Z := let sp := u64 (sp - n) in sp - sp mod 16.

(** A kernel string fits in its page. *)
Definition kstrlen (a : Z) : M Z :=
  m <- gets g_pmem ;; the "strlen" (strlen (Z.to_nat PGSIZE) m a).

(** The loop that pushes the argument strings, on [(argc, sp, ustack)]: [None]
    is a jump to [bad]. *)
Definition exec_args_body (pagetable stackbase : Z) (argv : list Z) (x : nat * Z * list Z)
    : M (nat * Z * list Z + option (nat * Z * list Z)) :=
  let '(argc, sp, ustack) := x in
  arg <- the "argv" (argv !! argc) ;;
  if arg =? 0 then ret (inr (Some (argc, sp, ustack))) else
  if (MAXARG <=? argc)%nat then ret (inr None) else
  n <- kstrlen arg ;;
  let sp := push_down sp (n + 1) in
  if sp <? stackbase then ret (inr None) else
  m <- gets g_pmem ;;
  r <- copyout pagetable sp (loadn m arg (Z.to_nat (n + 1))) ;;
  if r <? 0 then ret (inr None) else
  ret (inl (S argc, sp, ustack ++ [sp])).

(** From the stack pages on: the old inode is released, [ip] is 0. *)
Definition exec_stack (p : nat) (path : list Z) (argv : list Z) (pagetable sz : Z) : M Z :=
  pr <- get_proc p ;;
  let oldsz := p_sz pr in
  let sz := PGROUNDUP sz in
  sz1 <- uvmalloc pagetable sz (u64 (sz + (USERSTACK + 1) * PGSIZE)) PTE_W ;;
  if sz1 =? 0 then exec_bad pagetable sz None else
  let sz := sz1 in
  uvmclear pagetable (u64 (sz - (USERSTACK + 1) * PGSIZE)) ;;
  let stackbase := u64 (sz - USERSTACK * PGSIZE) in
  r <- loop (S MAXARG) (exec_args_body pagetable stackbase argv) (0%nat, sz, []) ;;
  match r with
  | None => exec_bad pagetable sz None
  | Some (argc, sp, ustack) =>
      (* [ustack\[argc\] = 0;] in an array of [MAXARG] entries *)
      if (MAXARG <=? argc)%nat then fail (Undefined "ustack") else
      let ustack := ustack ++ [0] in
      let sp := push_down sp (8 * (Z.of_nat argc + 1)) in
      if sp <? stackbase then exec_bad pagetable sz None else
      r <- copyout pagetable sp (mjoin (le_bytes 8 <$> ustack)) ;;
      if r <? 0 then exec_bad pagetable sz None else
      tf_store p TF_a1 sp ;;
      upd_proc p (set_name (last_elem path path)) ;;
      pr <- get_proc p ;;
      let oldpagetable := p_pagetable pr in
      upd_proc p (set_p_pagetable pagetable) ;;
      upd_proc p (set_p_sz sz) ;;
      entry <- elf_entry ;;
      tf_store p TF_epc entry ;;
      tf_store p TF_sp sp ;;
      proc_freepagetable oldpagetable oldsz ;;
      ret (Z.of_nat argc)
  end.

Definition exec (path : list Z) (argv : list Z) : M Z :=
  p <- curp ;;
  begin_op ;;
  r <- namei path ;;
  match r with
  | None => end_op ;; ret (-1)
  | Some ip =>
      ilock ip ;;
      r <- readi ip false elf_slot 0 sizeof_elfhdr ;;
      if negb (r =? sizeof_elfhdr) then exec_bad 0 0 (Some ip) else
      magic <- elf_magic ;;
      if negb (magic =? ELF_MAGIC) then exec_bad 0 0 (Some ip) else
      pagetable <- proc_pagetable p ;;
      if pagetable =? 0 then exec_bad 0 0 (Some ip) else
      r <- exec_load ip pagetable ;;
      if negb r.2 then exec_bad pagetable r.1 (Some ip) else
      iunlockput ip ;;
      end_op ;;
      exec_stack p path argv pagetable r.1
  end.
End exec.
