(* ===== verification/Sysfile.v ===== *)
(** * File system calls: kernel/sysfile.c

    A local character array is the list of bytes stored in it; a path is used up
    to its NUL. *)

From Stdlib Require Import ZArith Lia.
From stdpp Require Import base list gmap strings numbers option.
From S2P Require Import Prelude Bytes Riscv Cstring Kstate Sched Kalloc Vm Printf.
From S2P Require Import Bio Log Fs Pipe File Proc Sysargs Exec.

Definition O_RDONLY : Z := 0x000.
Definition O_WRONLY : Z := 0x001.
Definition O_RDWR : Z := 0x002.
Definition O_CREATE : Z := 0x200.
Definition O_TRUNC : Z := 0x400.

(** [p->ofile\[fd\] = f] *)
Definition set_ofile (p fd : nat) (f : option nat) : M unit :=
  upd_proc p (fun x => set_p_ofile (<[fd := f]> (p_ofile x)) x).

(** The first free index of an [ofile] table. *)
Definition fd_free (l : list (option nat)) : option nat :=
  fst <$> list_find (fun f => f = None) l.

(** Allocates the lowest free descriptor, -1 when there is none. *)
Definition fdalloc (f : nat) : M Z :=
  p <- curp ;;
  pr <- get_proc p ;;
  r <- for_upto NOFILE 0 (fun fd =>
    match mjoin (p_ofile pr !! fd) with
    | None => set_ofile p fd (Some f) ;; ret (Some (Z.of_nat fd))
    | Some _ => ret None
    end) ;;
  match r with Some fd => ret fd | None => ret (-1) end.

Section sysfile.
Context `{!KernelImage}.

(** [Some (fd, f)] for a return value of 0. *)
Definition argfd (n : Z) : M (option (Z * nat)) :=
  fd <- argint n ;;
  p <- curp ;;
  pr <- get_proc p ;;
  if (fd <? 0) || (fd >=? Z.of_nat NOFILE) then ret None else
  match mjoin (p_ofile pr !! Z.to_nat fd) with
  | None => ret None
  | Some f => ret (Some (fd, f))
  end.

Definition sys_dup : M Z :=
  a <- argfd 0 ;;
  match a with
  | None => ret (-1)
  | Some (_, f) =>
      fd <- fdalloc f ;;
      if fd <? 0 then ret (-1) else
      filedup f ;;
      ret fd
  end.

Definition sys_read : M Z :=
  p <- argaddr 1 ;;
  n <- argint 2 ;;
  a <- argfd 0 ;;
  match a with None => ret (-1) | Some (_, f) => fileread f p n end.

Definition sys_write : M Z :=
  p <- argaddr 1 ;;
  n <- argint 2 ;;
  a <- argfd 0 ;;
  match a with None => ret (-1) | Some (_, f) => filewrite f p n end.

Definition sys_close : M Z :=
  a <- argfd 0 ;;
  match a with
  | None => ret (-1)
  | Some (fd, f) =>
      p <- curp ;;
      set_ofile p (Z.to_nat fd) None ;;
      fileclose f ;;
      ret 0
  end.

Definition sys_fstat : M Z :=
  st <- argaddr 1 ;;
  a <- argfd 0 ;;
  match a with None => ret (-1) | Some (_, f) => filestat f st end.

(** [ip->nlink++] and [ip->nlink--]: [nlink] is a [short]. *)
Definition add_nlink (ip : nat) (d : Z) : M unit :=
  upd_inode ip (fun x => set_i_nlink (s16 (i_nlink x + d)) x).

(** The label [bad] of [sys_link]. *)
Definition sys_link_bad (ip : nat) : M Z :=
  ilock ip ;;
  add_nlink ip (-1) ;;
  iupdate ip ;;
  iunlockput ip ;;
  end_op ;;
  ret (-1).

Definition sys_link : M Z :=
  old <- argstr 0 MAXPATH ;;
  if old.1 <? 0 then ret (-1) else
  new <- argstr 1 MAXPATH ;;
  if new.1 <? 0 then ret (-1) else
  begin_op ;;
  r <- namei (cstr old.2) ;;
  match r with
  | None => end_op ;; ret (-1)
  | Some ip =>
      ilock ip ;;
      x <- get_inode ip ;;
      if i_type x =? T_DIR then iunlockput ip ;; end_op ;; ret (-1) else
      add_nlink ip 1 ;;
      iupdate ip ;;
      iunlock ip ;;
      r <- nameiparent (cstr new.2) ;;
      match r.1 with
      | None => sys_link_bad ip
      | Some dp =>
          ilock dp ;;
          d <- get_inode dp ;;
          x <- get_inode ip ;;
          e <- (if negb (i_dev d =? i_dev x) then ret (-1) else dirlink dp r.2 (i_inum x)) ;;
          if e <? 0 then iunlockput dp ;; sys_link_bad ip else
          iunlockput dp ;;
          iput ip ;;
          end_op ;;
          ret 0
      end
  end.

Definition isdirempty_body (dp : nat) (off : Z) : M (Z + bool) :=
  d <- get_inode dp ;;
  if negb (off <? i_size d) then ret (inr true) else
  r <- readi dp false de_slot off sizeof_dirent ;;
  if negb (r =? sizeof_dirent) then panic "isdirempty: readi" else
  inum <- de_inum ;;
  if negb (inum =? 0) then ret (inr false) else ret (inl (off + sizeof_dirent)).

Definition isdirempty (dp : nat) : M bool :=
  d <- get_inode dp ;;
  loop (dir_fuel (i_size d)) (isdirempty_body dp) (2 * sizeof_dirent).

(** The label [bad] of [sys_unlink]. *)
Definition sys_unlink_bad (dp : nat) : M Z := iunlockput dp ;; end_op ;; ret (-1).

Definition sys_unlink : M Z :=
  path <- argstr 0 MAXPATH ;;
  if path.1 <? 0 then ret (-1) else
  begin_op ;;
  r <- nameiparent (cstr path.2) ;;
  match r.1 with
  | None => end_op ;; ret (-1)
  | Some dp =>
      let name := r.2 in
      ilock dp ;;
      if (namecmp name (bytes_of ".") =? 0) || (namecmp name (bytes_of "..") =? 0)
      then sys_unlink_bad dp else
      e <- dirlookup dp name ;;
      match e with
      | None => sys_unlink_bad dp
      | Some (ip, off) =>
          ilock ip ;;
          x <- get_inode ip ;;
          if i_nlink x <? 1 then panic "unlink: nlink < 1" else
          full <- (if i_type x =? T_DIR then e <- isdirempty ip ;; ret (negb e) else ret false) ;;
          if (full : bool) then iunlockput ip ;; sys_unlink_bad dp else
          kmemset de_slot 0 sizeof_dirent ;;
          w <- writei dp false de_slot off sizeof_dirent ;;
          if negb (w =? sizeof_dirent) then panic "unlink: writei" else
          when (i_type x =? T_DIR) (add_nlink dp (-1) ;; iupdate dp) ;;
          iunlockput dp ;;
          add_nlink ip (-1) ;;
          iupdate ip ;;
          iunlockput ip ;;
          end_op ;;
          ret 0
      end
  end.

(** The label [fail] of [create]. *)
Definition create_fail (ip dp : nat) : M (option nat) :=
  upd_inode ip (set_i_nlink 0) ;;
  iupdate ip ;;
  iunlockput ip ;;
  iunlockput dp ;;
  ret None.

(** The entries "." and ".." of a new directory. *)
Definition link_dots (ip dp : nat) : M Z :=
  x <- get_inode ip ;;
  r <- dirlink ip (bytes_of ".") (i_inum x) ;;
  if r <? 0 then ret (-1) else
  d <- get_inode dp ;;
  dirlink ip (bytes_of "..") (i_inum d).

Definition create (path : list Z) (type major minor : Z) : M (option nat) :=
  r <- nameiparent path ;;
  match r.1 with
  | None => ret None
  | Some dp =>
      let name := r.2 in
      ilock dp ;;
      e <- dirlookup dp name ;;
      match e with
      | Some (ip, _) =>
          iunlockput dp ;;
          ilock ip ;;
          x <- get_inode ip ;;
          if (type =? T_FILE) && ((i_type x =? T_FILE) || (i_type x =? T_DEVICE)) then ret (Some ip) else
          iunlockput ip ;;
          ret None
      | None =>
          d <- get_inode dp ;;
          a <- ialloc (i_dev d) type ;;
          match a with
          | None => iunlockput dp ;; ret None
          | Some ip =>
              ilock ip ;;
              upd_inode ip (set_i_major major) ;;
              upd_inode ip (set_i_minor minor) ;;
              upd_inode ip (set_i_nlink 1) ;;
              iupdate ip ;;
              l <- (if type =? T_DIR then link_dots ip dp else ret 0) ;;
              if l <? 0 then create_fail ip dp else
              x <- get_inode ip ;;
              l <- dirlink dp name (i_inum x) ;;
              if l <? 0 then create_fail ip dp else
              when (type =? T_DIR) (add_nlink dp 1 ;; iupdate dp) ;;
              iunlockput dp ;;
              ret (Some ip)
          end
      end
  end.

(** The part of [sys_open] from the check of the device number on; [ip] is locked. *)
Definition open_file (ip : nat) (omode : Z) : M Z :=
  x <- get_inode ip ;;
  if (i_type x =? T_DEVICE) && ((i_major x <? 0) || (i_major x >=? NDEV))
  then iunlockput ip ;; end_op ;; ret (-1) else
  f <- filealloc ;;
  match f with
  | None => iunlockput ip ;; end_op ;; ret (-1)
  | Some f =>
      fd <- fdalloc f ;;
      if fd <? 0 then fileclose f ;; iunlockput ip ;; end_op ;; ret (-1) else
      (if i_type x =? T_DEVICE then
         upd_file f (set_f_type FD_DEVICE) ;; upd_file f (set_f_major (i_major x))
       else
         upd_file f (set_f_type FD_INODE) ;; upd_file f (set_f_off 0)) ;;
      upd_file f (set_f_ip (Some ip)) ;;
      upd_file f (set_f_readable (negb (has omode O_WRONLY))) ;;
      upd_file f (set_f_writable (has omode O_WRONLY || has omode O_RDWR)) ;;
      when (has omode O_TRUNC && (i_type x =? T_FILE)) (itrunc ip) ;;
      iunlock ip ;;
      end_op ;;
      ret fd
  end.

Definition sys_open : M Z :=
  omode <- argint 1 ;;
  path <- argstr 0 MAXPATH ;;
  if path.1 <? 0 then ret (-1) else
  begin_op ;;
  if has omode O_CREATE then
    r <- create (cstr path.2) T_FILE 0 0 ;;
    match r with
    | None => end_op ;; ret (-1)
    | Some ip => open_file ip omode
    end
  else
    r <- namei (cstr path.2) ;;
    match r with
    | None => end_op ;; ret (-1)
    | Some ip =>
        ilock ip ;;
        x <- get_inode ip ;;
        if (i_type x =? T_DIR) && negb (omode =? O_RDONLY)
        then iunlockput ip ;; end_op ;; ret (-1)
        else open_file ip omode
    end.

(** The common end of [sys_mkdir] and [sys_mknod]. *)
Definition created (r : option nat) : M Z :=
  match r with
  | None => end_op ;; ret (-1)
  | Some ip => iunlockput ip ;; end_op ;; ret 0
  end.

Definition sys_mkdir : M Z :=
  begin_op ;;
  path <- argstr 0 MAXPATH ;;
  r <- (if path.1 <? 0 then ret None else create (cstr path.2) T_DIR 0 0) ;;
  created r.

Definition sys_mknod : M Z :=
  begin_op ;;
  major <- argint 1 ;;
  minor <- argint 2 ;;
  path <- argstr 0 MAXPATH ;;
  r <- (if path.1 <? 0 then ret None else create (cstr path.2) T_DEVICE (s16 major) (s16 minor)) ;;
  created r.

Definition sys_chdir : M Z :=
  p <- curp ;;
  begin_op ;;
  path <- argstr 0 MAXPATH ;;
  r <- (if path.1 <? 0 then ret None else namei (cstr path.2)) ;;
  match r with
  | None => end_op ;; ret (-1)
  | Some ip =>
      ilock ip ;;
      x <- get_inode ip ;;
      if negb (i_type x =? T_DIR) then iunlockput ip ;; end_op ;; ret (-1) else
      iunlock ip ;;
      pr <- get_proc p ;;
      cwd <- the "cwd" (p_cwd pr) ;;
      iput cwd ;;
      end_op ;;
      upd_proc p (set_p_cwd (Some ip)) ;;
      ret 0
  end.

(** [for(i = 0; i < NELEM(argv) && argv\[i\] != 0; i++) kfree(argv\[i\]);] *)
Fixpoint free_argv (argv : list Z) : M unit :=
  match argv with
  | [] => ret tt
  | a :: argv' => if a =? 0 then ret tt else kfree a ;; free_argv argv'
  end.

(** The loop of [sys_exec] from index [i]; [true] when it ends at the null
    pointer, [false] at a jump to [bad]. *)
Fixpoint exec_argv (n i : nat) (uargv : Z) (argv : list Z) : M (bool * list Z) :=
  match n with
  | O => ret (false, argv)
  | S n' =>
      r <- fetchaddr (u64 (uargv + 8 * Z.of_nat i)) ;;
      match r with
      | (_, None) => ret (false, argv)
      | (_, Some uarg) =>
          if uarg =? 0 then ret (true, <[i := 0]> argv) else
          a <- kalloc ;;
          let argv := <[i := a]> argv in
          if a =? 0 then ret (false, argv) else
          r <- fetchstr uarg PGSIZE ;;
          modify (fun s => put_pmem (storen (g_pmem s) a r.2) s) ;;
          if r.1 <? 0 then ret (false, argv) else
          exec_argv n' (S i) uargv argv
      end
  end.

Definition sys_exec : M Z :=
  uargv <- argaddr 1 ;;
  path <- argstr 0 MAXPATH ;;
  if path.1 <? 0 then ret (-1) else
  a <- exec_argv MAXARG 0 uargv (replicate MAXARG 0) ;;
  if (a.1 : bool) then
    r <- exec (cstr path.2) a.2 ;;
    free_argv a.2 ;;
    ret r
  else
    free_argv a.2 ;;
    ret (-1).

(** Undo of the two descriptors of [sys_pipe]. *)
Definition sys_pipe_bad (p : nat) (fds : list Z) (rf wf : nat) : M Z :=
  foldr (fun fd k => set_ofile p (Z.to_nat fd) None ;; k)
    (fileclose rf ;; fileclose wf ;; ret (-1)) fds.

Definition sys_pipe : M Z :=
  p <- curp ;;
  fdarray <- argaddr 0 ;;
  r <- pipealloc ;;
  match r with
  | None => ret (-1)
  | Some (rf, wf) =>
      fd0 <- fdalloc rf ;;
      if fd0 <? 0 then sys_pipe_bad p [] rf wf else
      fd1 <- fdalloc wf ;;
      if fd1 <? 0 then sys_pipe_bad p [fd0] rf wf else
      pr <- get_proc p ;;
      r <- copyout (p_pagetable pr) fdarray (le_bytes 4 fd0) ;;
      if r <? 0 then sys_pipe_bad p [fd0; fd1] rf wf else
      r <- copyout (p_pagetable pr) (u64 (fdarray + 4)) (le_bytes 4 fd1) ;;
      if r <? 0 then sys_pipe_bad p [fd0; fd1] rf wf else
      ret 0
  end.
End sysfile.
