(* ===== verification/FdFrame.v ===== *)
(** * What closing a file leaves alone

    The descriptors of the processes and the table of open files are changed by
    kernel/file.c and kernel/sysfile.c only: the code below them, [pipeclose] of kernel/pipe.c
    and [iput], [begin_op] and [end_op] with all they call, leaves them alone, also
    while it sleeps. *)

From Stdlib Require Import ZArith Lia.
From stdpp Require Import base list gmap strings numbers option.
From S2P Require Import Prelude Bytes Riscv Kstate Sched Kalloc Bio Log Fs Pipe.

(** ** Steps of one thread *)

(** An invariant [I] holds when the thread returns and whenever it gives up the CPU, if it holds
    whenever the thread is switched to. *)
Fixpoint always {A} (I : kstate -> Prop) (o : outcome kstate A) : Prop :=
  match o with
  | Ret _ s => I s
  | Fail _ => True
  | Switch s k => I s /\ forall s', I s' -> always I (k s')
  end.

(** The descriptors of each process and the table of open files. *)
Definition fds (s : kstate) : list file * list (list (option nat)) := (g_ftable s, p_ofile <$> g_procs s).

(** The thread changes neither. *)
Fixpoint leaves {A} (s0 : kstate) (o : outcome kstate A) : Prop :=
  match o with
  | Ret _ s => fds s = fds s0
  | Fail _ => True
  | Switch s k => fds s = fds s0 /\ forall s', leaves s' (k s')
  end.

Definition leaves_fds {A} (m : M A) : Prop := forall s, leaves s (m s).

Lemma leaves_from {A} s0 s1 (o : outcome kstate A) : fds s0 = fds s1 -> leaves s0 o -> leaves s1 o.
Proof. intros E. by destruct o; simpl; rewrite ?E. Qed.

Lemma leaves_always {A} (I : kstate -> Prop) s0 (o : outcome kstate A) :
  (forall s s', fds s' = fds s -> I s -> I s') -> I s0 -> leaves s0 o -> always I o.
Proof.
  intros HI. revert s0. induction o as [a s|e|s k IH]; intros s0 H0; simpl; [|done|].
  - intros E. by apply (HI s0).
  - intros [E Hk]. split; [by apply (HI s0)|]. intros s' Hs'. by apply (IH s' s').
Qed.

Lemma lv_bind {A B} (m : M A) (f : A -> M B) : leaves_fds m -> (forall a, leaves_fds (f a)) -> leaves_fds (bind m f).
Proof.
  intros Hm Hf s. unfold bind. specialize (Hm s). revert Hm. generalize (m s). intros o. revert s.
  induction o as [a s'|e|s' k IH]; intros s0; simpl; [|done|].
  - intros E. eapply leaves_from; [exact E|apply Hf].
  - intros [E Hk]. split; [done|]. intros s''. apply IH, Hk.
Qed.

Lemma lv_ret {A} (a : A) : leaves_fds (ret a).
Proof. done. Qed.
Lemma lv_fail {A} e : leaves_fds (A := A) (fail e).
Proof. done. Qed.
Lemma lv_gets {A} (f : kstate -> A) : leaves_fds (gets f).
Proof. done. Qed.
Lemma lv_modify f : (forall s, fds (f s) = fds s) -> leaves_fds (modify f).
Proof. intros H s. apply H. Qed.
Lemma lv_when b m : leaves_fds m -> leaves_fds (when b m).
Proof. by destruct b. Qed.
Lemma lv_the {A} what (o : option A) : leaves_fds (the what o).
Proof. by destruct o. Qed.

Lemma lv_loop {X R} fuel (body : X -> M (X + R)) x : (forall x, leaves_fds (body x)) -> leaves_fds (loop fuel body x).
Proof.
  intros H. revert x. induction fuel as [|fuel IH]; intros x; cbn [loop]; [apply lv_fail|].
  apply lv_bind; [apply H|]. intros [x'|v]; [apply IH|apply lv_ret].
Qed.

Lemma lv_for_each n i body : (forall j, leaves_fds (body j)) -> leaves_fds (for_each n i body).
Proof.
  intros H. revert i. induction n as [|n IH]; intros i; cbn [for_each]; [apply lv_ret|]. by apply lv_bind; [|intros []].
Qed.

(** ** Primitives *)

Lemma lv_arr_get {A} what (proj : kstate -> list A) i : leaves_fds (arr_get what proj i).
Proof. intros s. unfold arr_get. by destruct (_ !! _). Qed.

Lemma lv_arr_upd {A} what (proj : kstate -> list A) put i f :
  (forall v s, fds (put v s) = fds s) -> leaves_fds (arr_upd what proj put i f).
Proof. intros H s. unfold arr_upd. destruct (_ !! _); [apply H|done]. Qed.

Lemma lv_upd_proc p f : (forall pr, p_ofile (f pr) = p_ofile pr) -> leaves_fds (upd_proc p f).
Proof.
  intros H s. unfold upd_proc, arr_upd. destruct (g_procs s !! p) as [pr|] eqn:E; [|done]. simpl. unfold fds. f_equal.
  kget. rewrite list_fmap_insert, H. apply list_insert_id. by rewrite list_lookup_fmap, E.
Qed.

Lemma lv_lock_acquire l : leaves_fds (lock_acquire l).
Proof. intros s. unfold lock_acquire. destruct (_ !! _); [by destruct (_ =? _)|done]. Qed.
Lemma lv_lock_release l : leaves_fds (lock_release l).
Proof. intros s. unfold lock_release. by destruct (lock_holding l s). Qed.
Lemma lv_get_pipe pi : leaves_fds (get_pipe pi).
Proof. intros s. unfold get_pipe. by destruct (_ !! _). Qed.
Lemma lv_swtch : leaves_fds swtch_to_scheduler.
Proof. done. Qed.

Create HintDb fds.
#[export] Hint Resolve lv_ret lv_fail lv_gets lv_the lv_arr_get lv_lock_acquire lv_lock_release lv_get_pipe lv_swtch : fds.

(** Follow the structure of the code. *)
Ltac lv := repeat first
  [ match goal with |- forall _, _ => intro end
  | solve [auto with fds nocore]
  | apply lv_bind
  | apply lv_when
  | apply lv_loop
  | apply lv_for_each
  | apply lv_modify; intros; reflexivity
  | apply lv_upd_proc; intros; reflexivity
  | apply lv_arr_upd; intros; reflexivity
  | match goal with
    | |- leaves_fds (if ?b then _ else _) => destruct b
    | |- leaves_fds (match ?x with _ => _ end) => destruct x
    | |- leaves_fds (let _ := _ in _) => cbv zeta
    end ].

(** ** kernel/proc.c and kernel/sleeplock.c *)

Lemma lv_curp : leaves_fds curp.
Proof. unfold curp, myproc. lv. Qed.
#[export] Hint Resolve lv_curp : fds.

Lemma lv_sched : leaves_fds sched.
Proof. unfold sched, panic, get_proc. lv. Qed.
#[export] Hint Resolve lv_sched : fds.

Lemma lv_exec_stmt a : leaves_fds (exec_stmt a).
Proof. destruct a; unfold exec_stmt, wakeup_one, myproc, get_proc; lv. Qed.

Lemma lv_exec_all l : leaves_fds (exec_all l).
Proof. induction l as [|a l IH]; cbn [exec_all]; [lv|]. apply lv_bind; [apply lv_exec_stmt|done]. Qed.
#[export] Hint Resolve lv_exec_all : fds.

Lemma lv_sleep c lk : leaves_fds (sleep c lk).
Proof. unfold sleep. lv. Qed.
Lemma lv_wakeup c : leaves_fds (wakeup c).
Proof. unfold wakeup. lv. Qed.
#[export] Hint Resolve lv_sleep lv_wakeup : fds.

Section sleeplock.
Context (sl : lockid) (get : M sleeplock) (upd : (sleeplock -> sleeplock) -> M unit).
Context (Hget : leaves_fds get) (Hupd : forall f, leaves_fds (upd f)).

Lemma lv_acquiresleep fuel : leaves_fds (acquiresleep sl get upd fuel).
Proof using Hget Hupd. unfold acquiresleep, get_proc. lv; auto. Qed.
Lemma lv_releasesleep : leaves_fds (releasesleep sl upd).
Proof using Hupd. unfold releasesleep. lv; auto. Qed.
Lemma lv_holdingsleep : leaves_fds (holdingsleep sl get).
Proof using Hget. unfold holdingsleep, get_proc. lv; auto. Qed.
End sleeplock.

Lemma lv_buf_lock b : leaves_fds (buf_lock_get b) /\ forall f, leaves_fds (buf_lock_upd b f).
Proof. unfold buf_lock_get, buf_lock_upd, get_buf, upd_buf. split; lv. Qed.
Lemma lv_inode_lock i : leaves_fds (inode_lock_get i) /\ forall f, leaves_fds (inode_lock_upd i f).
Proof. unfold inode_lock_get, inode_lock_upd, get_inode, upd_inode. split; lv. Qed.

(** ** kernel/bio.c *)

Lemma lv_upd_buf b f : leaves_fds (upd_buf b f).
Proof. unfold upd_buf. lv. Qed.
Lemma lv_get_buf b : leaves_fds (get_buf b).
Proof. unfold get_buf. lv. Qed.
#[export] Hint Resolve lv_upd_buf lv_get_buf : fds.

Lemma lv_buf_acquiresleep b : leaves_fds (buf_acquiresleep b).
Proof. destruct (lv_buf_lock b). by apply lv_acquiresleep. Qed.
Lemma lv_buf_releasesleep b : leaves_fds (buf_releasesleep b).
Proof. destruct (lv_buf_lock b). by apply lv_releasesleep. Qed.
Lemma lv_buf_holdingsleep b : leaves_fds (buf_holdingsleep b).
Proof. destruct (lv_buf_lock b). by apply lv_holdingsleep. Qed.
Lemma lv_bget_find fuel dev bn b : leaves_fds (bget_find fuel dev bn b).
Proof. revert b. induction fuel as [|fuel IH]; intros b; cbn [bget_find]; lv. Qed.
Lemma lv_bget_lru fuel b : leaves_fds (bget_lru fuel b).
Proof. revert b. induction fuel as [|fuel IH]; intros b; cbn [bget_lru]; lv. Qed.
#[export] Hint Resolve lv_buf_acquiresleep lv_buf_releasesleep lv_buf_holdingsleep lv_bget_find lv_bget_lru : fds.

Lemma lv_virtio b w : leaves_fds (virtio_disk_rw b w).
Proof. unfold virtio_disk_rw. lv. Qed.
#[export] Hint Resolve lv_virtio : fds.

Lemma lv_bread dev bn : leaves_fds (bread dev bn).
Proof. unfold bread, bget, panic. lv. Qed.
Lemma lv_bwrite b : leaves_fds (bwrite b).
Proof. unfold bwrite, panic. lv. Qed.
Lemma lv_brelse b : leaves_fds (brelse b).
Proof. unfold brelse, move_to_front, node_next, node_prev, set_next, set_prev, panic. lv. Qed.
Lemma lv_bpin b : leaves_fds (bpin b).
Proof. unfold bpin. lv. Qed.
Lemma lv_bunpin b : leaves_fds (bunpin b).
Proof. unfold bunpin. lv. Qed.
Lemma lv_buf_data b : leaves_fds (buf_data b).
Proof. unfold buf_data. lv. Qed.
Lemma lv_set_buf_data b d : leaves_fds (set_buf_data b d).
Proof. unfold set_buf_data. lv. Qed.
#[export] Hint Resolve lv_bread lv_bwrite lv_brelse lv_bpin lv_bunpin lv_buf_data lv_set_buf_data : fds.

(** ** kernel/log.c *)

Lemma lv_upd_log f : leaves_fds (upd_log f).
Proof. unfold upd_log. lv. Qed.
Lemma lv_lh_get i : leaves_fds (lh_get i).
Proof. unfold lh_get. lv. Qed.
Lemma lv_lh_put i v : leaves_fds (lh_put i v).
Proof. unfold lh_put. lv. Qed.
#[export] Hint Resolve lv_upd_log lv_lh_get lv_lh_put : fds.

Lemma lv_write_head : leaves_fds write_head.
Proof. unfold write_head, write_head_body. lv. Qed.
Lemma lv_install r : leaves_fds (install_trans r).
Proof. unfold install_trans, install_body. lv. Qed.
Lemma lv_write_log : leaves_fds write_log.
Proof. unfold write_log, write_log_body. lv. Qed.
#[export] Hint Resolve lv_write_head lv_install lv_write_log : fds.

Lemma lv_begin_op : leaves_fds begin_op.
Proof. unfold begin_op, begin_op_body. lv. Qed.
Lemma lv_end_op : leaves_fds end_op.
Proof. unfold end_op, commit, panic. lv. Qed.
Lemma lv_log_write b : leaves_fds (log_write b).
Proof. unfold log_write, buf_blockno, panic. lv. Qed.
#[export] Hint Resolve lv_begin_op lv_end_op lv_log_write : fds.

(** ** kernel/fs.c and kernel/pipe.c *)

Lemma lv_upd_inode i f : leaves_fds (upd_inode i f).
Proof. unfold upd_inode. lv. Qed.
Lemma lv_bfree dev b : leaves_fds (bfree dev b).
Proof. unfold bfree, panic. lv. Qed.
Lemma lv_iupdate i : leaves_fds (iupdate i).
Proof. unfold iupdate, get_inode. lv. Qed.
#[export] Hint Resolve lv_upd_inode lv_bfree lv_iupdate : fds.

Lemma lv_itrunc i : leaves_fds (itrunc i).
Proof. unfold itrunc, get_inode, addr_at. lv. Qed.
#[export] Hint Resolve lv_itrunc : fds.

Lemma lv_inode_acquiresleep i : leaves_fds (inode_acquiresleep i).
Proof. destruct (lv_inode_lock i). by apply lv_acquiresleep. Qed.
Lemma lv_inode_releasesleep i : leaves_fds (inode_releasesleep i).
Proof. destruct (lv_inode_lock i). by apply lv_releasesleep. Qed.
#[export] Hint Resolve lv_inode_acquiresleep lv_inode_releasesleep : fds.

Lemma lv_iput i : leaves_fds (iput i).
Proof. unfold iput, get_inode. lv. Qed.

Lemma lv_pipeclose `{!KernelImage} pi w : leaves_fds (pipeclose pi w).
Proof. unfold pipeclose, upd_pipe, put_pipe, kfree, kmemset, kstore64, panic. lv. Qed.
#[export] Hint Resolve lv_iput lv_pipeclose : fds.
