(* ===== verification/FileSpec.v ===== *)
(** * Descriptors and reference counts: kernel/file.c and kernel/sysfile.c

    [fd_inv s]: every open file's reference count is the number of descriptors
    that refer to it, over all processes.  [sys_dup] and [sys_close] keep it, the
    last close of a file included; [fdalloc] takes the lowest free descriptor. *)

From Stdlib Require Import ZArith Lia.
From stdpp Require Import base list gmap strings numbers option.
From S2P Require Import Prelude Bytes Riscv Kstate Sched Kalloc Vm Uvm Bio BioSpec Log LogSpec Fs Icache Pipe FdFrame File Proc Sysargs Exec Sysfile.

(** ** Counting *)

Section count.
Context {A : Type} `{EqDecision A}.

Definition cnt (v : A) (l : list A) : Z := Z.of_nat (length (filter (fun x => x = v) l)).
Definition one (P : Prop) `{Decision P} : Z := if decide P then 1 else 0.

Lemma cnt_cons v x l : cnt v (x :: l) = one (x = v) + cnt v l.
Proof. unfold cnt, one. rewrite filter_cons. destruct (decide (x = v)); simpl; lia. Qed.

Lemma cnt_app v l1 l2 : cnt v (l1 ++ l2) = cnt v l1 + cnt v l2.
Proof. unfold cnt. rewrite list.filter_app, length_app. lia. Qed.

Lemma cnt_insert v l i x y :
  l !! i = Some x -> cnt v (<[i := y]> l) = cnt v l - one (x = v) + one (y = v).
Proof.
  revert i. induction l as [|z l IH]; intros [|i] H; try done; simpl in H.
  - injection H as ->. cbn [insert list_insert]. rewrite !cnt_cons. lia.
  - change (<[S i := y]> (z :: l)) with (z :: <[i := y]> l). rewrite !cnt_cons, (IH i H). lia.
Qed.

Lemma cnt_nonneg v l : 0 <= cnt v l.
Proof. unfold cnt. lia. Qed.
End count.

(** The descriptors of all processes that refer to file [f]. *)
Definition fd_refs (f : nat) (ps : list proc) : Z := foldr (fun pr n => cnt (Some f) (p_ofile pr) + n) 0 ps.

Lemma fd_refs_insert f ps i pr pr' :
  ps !! i = Some pr ->
  fd_refs f (<[i := pr']> ps) = fd_refs f ps - cnt (Some f) (p_ofile pr) + cnt (Some f) (p_ofile pr').
Proof.
  revert i. induction ps as [|q ps IH]; intros [|i] H; try done; simpl in H.
  - injection H as ->. simpl. lia.
  - change (<[S i := pr']> (q :: ps)) with (q :: <[i := pr']> ps). simpl. rewrite (IH i H). lia.
Qed.

Lemma fd_refs_pos f ps i pr fd :
  ps !! i = Some pr -> p_ofile pr !! fd = Some (Some f) -> 0 < fd_refs f ps.
Proof.
  intros Hp Hfd. assert (forall qs, 0 <= fd_refs f qs) as Hnn.
  { induction qs as [|q qs IH]; simpl; [lia|]. pose proof (cnt_nonneg (Some f) (p_ofile q)). lia. }
  revert i Hp. induction ps as [|q ps IH]; intros [|i] Hp; try done; simpl in *.
  - injection Hp as ->. pose proof (Hnn ps). assert (0 < cnt (Some f) (p_ofile pr)); [|lia].
    apply list_elem_of_split_length in Hfd as (l1 & l2 & E & _). rewrite E, cnt_app, cnt_cons.
    unfold one. rewrite decide_True by done. pose proof (cnt_nonneg (Some f) l1). pose proof (cnt_nonneg (Some f) l2). lia.
  - specialize (IH i Hp). pose proof (cnt_nonneg (Some f) (p_ofile q)). lia.
Qed.

(** The invariant. *)
Record fd_inv (s : kstate) : Prop := {
  fi_len : length (g_ftable s) = NFILE;
  fi_ofile : forall i pr, g_procs s !! i = Some pr -> length (p_ofile pr) = NOFILE;
  fi_valid : forall i pr fd f, g_procs s !! i = Some pr -> p_ofile pr !! fd = Some (Some f) -> (f < NFILE)%nat;
  fi_ref : forall f x, g_ftable s !! f = Some x -> f_ref x = fd_refs f (g_procs s)
}.

(** ** fdalloc *)

Definition put_proc (p : nat) (pr : proc) (s : kstate) : kstate := put_procs (<[p := pr]> (g_procs s)) s.
Definition with_fd (fd : nat) (v : option nat) (pr : proc) : proc := set_p_ofile (<[fd := v]> (p_ofile pr)) pr.

Lemma curp_run s p : g_curproc s = Some p -> curp s = Ret p s.
Proof. intros H. unfold curp, myproc, bind, gets. cbn [obind]. by rewrite H. Qed.

(** The lowest free descriptor, or -1. *)
Lemma fdalloc_run f s p pr :
  g_curproc s = Some p -> g_procs s !! p = Some pr -> length (p_ofile pr) = NOFILE ->
  fdalloc f s = match fd_free (p_ofile pr) with
                | Some fd => Ret (Z.of_nat fd) (put_proc p (with_fd fd (Some f) pr) s)
                | None => Ret (-1) s
                end.
Proof.
  intros Hc Hp Hl. unfold fdalloc, fd_free. rewrite (bind_run _ _ _ _ _ (curp_run s p Hc)).
  rewrite (bind_run _ _ _ _ _ (arr_get_run "proc" g_procs p s pr Hp)). set (body := fun fd : nat => _).
  assert (forall k i, (i + k = NOFILE)%nat ->
    for_upto k i body s = match list_find (fun f => f = None) (drop i (p_ofile pr)) with
      | Some (j, _) => Ret (Some (Z.of_nat (i + j))) (put_proc p (with_fd (i + j) (Some f) pr) s)
      | None => Ret None s end) as H.
  2:{ unfold bind. rewrite (H NOFILE 0%nat eq_refl), drop_0.
      by destruct (list_find _ (p_ofile pr)) as [[j x]|]. }
  induction k as [|k IH]; intros i Hi; cbn [for_upto]; [by rewrite drop_ge by lia|].
  destruct (lookup_lt_is_Some_2 (p_ofile pr) i) as [v Hv]; [lia|]. rewrite (drop_S _ v) by done. cbn [list_find].
  unfold bind at 1. unfold body at 1. rewrite Hv. cbn [mjoin option_join]. destruct v as [g|].
  - rewrite decide_False by done. cbn [ret obind]. rewrite IH by lia.
    destruct (list_find _ (drop (S i) (p_ofile pr))) as [[j x]|]; [|done]. cbn. by rewrite Nat.add_succ_r.
  - rewrite decide_True by done. unfold set_ofile, upd_proc.
    rewrite (bind_run _ _ _ _ _ (arr_upd_run "proc" g_procs put_procs p _ s pr Hp)). cbn [ret obind].
    by rewrite Nat.add_0_r.
Qed.

Lemma fd_free_spec l fd : fd_free l = Some fd -> l !! fd = Some None /\ forall j, (j < fd)%nat -> l !! j <> Some None.
Proof.
  unfold fd_free. destruct (list_find _ l) as [[i v]|] eqn:E; [|done]. intros [= <-].
  apply list_find_Some in E as (Hv & -> & Hlow). split; [done|]. intros j Hj Hn. by apply (Hlow j None Hn Hj).
Qed.

Lemma fd_free_none l : fd_free l = None -> forall j, l !! j <> Some None.
Proof.
  unfold fd_free. destruct (list_find _ l) as [[i v]|] eqn:E; [done|]. intros _ j Hj.
  rewrite list_find_None in E. exact (Forall_lookup_1 _ _ _ _ E Hj eq_refl).
Qed.

(** ** The file table *)

Lemma upd_file_run f g s x :
  g_ftable s !! f = Some x -> upd_file f g s = Ret tt (put_ftable (<[f := g x]> (g_ftable s)) s).
Proof. apply arr_upd_run. Qed.

Definition put_file (f : nat) (x : file) (s : kstate) : kstate := put_ftable (<[f := x]> (g_ftable s)) s.

Lemma filedup_run f s x :
  lock_free LFtable s -> g_ftable s !! f = Some x -> 1 <= f_ref x ->
  filedup f s = Ret f (put_file f (set_f_ref (f_ref x + 1) x) s).
Proof.
  intros Hf Hx Hr. unfold filedup. rewrite (bind_run _ _ _ _ _ (lock_acquire_run _ _ Hf)). set (s1 := put_locks _ s).
  unfold get_file. rewrite (bind_run _ _ _ _ _ (arr_get_run "file" g_ftable f s1 x Hx)).
  destruct (Z.ltb_spec (f_ref x) 1); [lia|]. rewrite (bind_run _ _ _ _ _ (upd_file_run f _ s1 x Hx)).
  unfold bind. krelease Hf. unfold ret, put_file. f_equal. unfold s1. kstate_eq.
Qed.

Section close.
Context `{!KernelImage}.

(** Closing a file that has other references. *)
Lemma fileclose_shared f s x :
  lock_free LFtable s -> g_ftable s !! f = Some x -> 2 <= f_ref x ->
  fileclose f s = Ret tt (put_file f (set_f_ref (f_ref x - 1) x) s).
Proof.
  intros Hf Hx Hr. unfold fileclose. rewrite (bind_run _ _ _ _ _ (lock_acquire_run _ _ Hf)). set (s1 := put_locks _ s).
  unfold get_file. rewrite (bind_run _ _ _ _ _ (arr_get_run "file" g_ftable f s1 x Hx)).
  destruct (Z.ltb_spec (f_ref x) 1); [lia|]. rewrite (bind_run _ _ _ _ _ (upd_file_run f _ s1 x Hx)).
  destruct (Z.gtb_spec (f_ref x - 1) 0); [|lia]. krelease Hf. unfold put_file. f_equal. unfold s1. kstate_eq.
Qed.

(** ** The last close *)

(** The entry of a file that nobody has open any more. *)
Definition closed (x : file) : file := set_f_type FD_NONE (set_f_ref 0 x).

(** What [fileclose] does with the copy [ff] of the entry, once the table is released. *)
Definition dispose (ff : file) : M unit :=
  match f_type ff with
  | FD_PIPE => pipeclose (f_pipe ff) (f_writable ff)
  | FD_INODE | FD_DEVICE => begin_op ;; ip <- the "ff.ip" (f_ip ff) ;; iput ip ;; end_op
  | FD_NONE => ret tt
  end.

Lemma lv_dispose ff : leaves_fds (dispose ff).
Proof. unfold dispose. lv. Qed.

Lemma fileclose_last f s x :
  lock_free LFtable s -> g_ftable s !! f = Some x -> f_ref x = 1 ->
  fileclose f s = dispose (set_f_ref 0 x) (put_file f (closed x) s).
Proof.
  intros Hf Hx Hr. unfold fileclose. rewrite (bind_run _ _ _ _ _ (lock_acquire_run _ _ Hf)). set (s1 := put_locks _ s).
  unfold get_file. rewrite (bind_run _ _ _ _ _ (arr_get_run "file" g_ftable f s1 x Hx)), Hr. 
  change (1 <? 1) with false. change (1 - 1) with 0. change (0 >? 0) with false. cbv iota.
  assert (forall y (t : list file), t !! f = Some x -> <[f := y]> t !! f = Some y) as Hget.
  { intros y t Ht. apply list_lookup_insert_eq. by eapply lookup_lt_Some. }
  rewrite (bind_run _ _ _ _ _ (upd_file_run f _ s1 x Hx)). change (g_ftable s1) with (g_ftable s). set (s2 := put_ftable _ s1).
  rewrite (bind_run _ _ _ _ _ (arr_get_run "file" g_ftable f s2 _ (Hget _ _ Hx))).
  rewrite (bind_run _ _ _ _ _ (upd_file_run f _ s2 _ (Hget _ _ Hx))). set (s3 := put_ftable _ s2).
  rewrite (bind_run _ _ _ _ _ (upd_file_run f _ s3 (set_f_ref 0 x) ltac:(unfold s3, s2; kget; rewrite list_insert_insert_eq; by apply Hget))).
  assert (lock_release LFtable (put_ftable (<[f := set_f_type FD_NONE (set_f_ref 0 x)]> (g_ftable s3)) s3) =
    Ret tt (put_file f (closed x) s)) as E.
  { krelease Hf. f_equal. unfold put_file, closed, s3, s2, s1. kget. rewrite !list_insert_insert_eq. kstate_eq. }
  by rewrite (bind_run _ _ _ _ _ E).
Qed.

(** An end of a pipe: the other end's readers or writers are woken, and the second close frees the pipe's page. *)
Record pipe_ready (pi : Z) (q : pipe) (s : kstate) : Prop := {
  pr_pipe : g_pipes s !! pi = Some q;
  pr_lock : lock_free (LPipe pi) s;
  pr_kmem : lock_free LKmem s;
  pr_len : length (g_procs s) = NPROC;
  pr_procs : procs_unlocked s;
  pr_page : page pi
}.

Lemma pipeclose_run pi (w : bool) q s :
  pipe_ready pi q s ->
  let q' := if w then set_pi_writeopen false q else set_pi_readopen false q in
  exists s', pipeclose pi w s = Ret tt s' /\
    g_pipes s' = if negb (pi_readopen q') && negb (pi_writeopen q') then delete pi (g_pipes s) else <[pi := q']> (g_pipes s).
Proof.
  intros [Hq Hl Hk Hn Hu Hp] q'. unfold pipeclose. rewrite (bind_run _ _ _ _ _ (lock_acquire_run _ _ Hl)).
  set (s1 := put_locks _ s).
  assert (exists c, (if w then upd_pipe pi (set_pi_writeopen false) ;; wakeup (ChPipeR pi)
     else upd_pipe pi (set_pi_readopen false) ;; wakeup (ChPipeW pi)) s1 =
     Ret tt (put_procs (imap (wake c (g_curproc s)) (g_procs s)) (put_pipes (<[pi := q']> (g_pipes s)) s1))) as [c E].
  { exists (if w then ChPipeR pi else ChPipeW pi).
    assert (forall g, upd_pipe pi g s1 = Ret tt (put_pipes (<[pi := g q]> (g_pipes s)) s1)) as Eu.
    { intros g. unfold upd_pipe, put_pipe, get_pipe, bind, modify. change (g_pipes s1) with (g_pipes s). by rewrite Hq. }
    destruct w; rewrite (bind_run _ _ _ _ _ (Eu _)); (rewrite wakeup_run; [done|done|]);
      intros j; unfold lock_free, s1; kget; rewrite lookup_insert_ne by done; apply Hu. }
  rewrite (bind_run _ _ _ _ _ E). set (s2 := put_procs _ _).
  assert (get_pipe pi s2 = Ret q' s2) as Eg by (unfold get_pipe, s2; kget; by rewrite lookup_insert_eq).
  rewrite (bind_run _ _ _ _ _ Eg). unfold s2. destruct (negb (pi_readopen q') && negb (pi_writeopen q')).
  - erewrite bind_run by (krelease Hl; reflexivity). unfold modify at 1, bind at 1. cbn [obind].
    rewrite kfree_run by done. eexists. split; [done|]. kget. by rewrite delete_insert_eq.
  - krelease Hl. eexists. split; [done|]. done.
Qed.

(** A file of the file system, when no transaction is open and the inode stays. *)
Record inode_ready (i : nat) (ip : inode) (s : kstate) : Prop := {
  ir_inode : g_itable s !! i = Some ip;
  ir_stays : (i_ref ip =? 1) && i_valid ip && (i_nlink ip =? 0) = false;
  ir_itable : lock_free LItable s;
  ir_log : lock_free LLog s;
  ir_idle : lg_committing (klog s) = false /\ lg_outstanding (klog s) = 0 /\ lh_n (klog s) = 0;
  ir_len : length (g_procs s) = NPROC;
  ir_procs : procs_unlocked s
}.

Lemma begin_op_run s :
  lock_free LLog s -> lg_committing (klog s) = false /\ lg_outstanding (klog s) = 0 /\ lh_n (klog s) = 0 ->
  begin_op s = Ret tt (set_klog (set_lg_outstanding 1 (klog s)) s).
Proof.
  intros Hl (Hc & Ho & Hn). unfold begin_op. rewrite (bind_run _ _ _ _ _ (lock_acquire_run _ _ Hl)).
  unfold sleep_fuel. cbn [loop]. unfold bind at 1, begin_op_body, bind at 1, gets at 1. cbn [obind].
  change (klog (put_locks ?a s)) with (klog s). rewrite Hc, Ho, Hn.
  change (0 + (0 + 1) * MAXOPBLOCKS >? LOGSIZE) with false. cbv iota.
  unfold upd_log, modify, bind. cbn [obind]. krelease Hl. unfold ret. cbn [obind]. f_equal. kstate_eq.
Qed.

Lemma end_op_run s :
  lock_free LLog s -> lg_committing (klog s) = false /\ lg_outstanding (klog s) = 1 /\ lh_n (klog s) = 0 ->
  length (g_procs s) = NPROC -> procs_unlocked s -> exists s', end_op s = Ret tt s' /\ g_itable s' = g_itable s.
Proof.
  intros Hl (Hc & Ho & Hn) Hlen Hu. unfold end_op. rewrite (bind_run _ _ _ _ _ (lock_acquire_run _ _ Hl)).
  set (s1 := put_locks _ s). unfold upd_log.
  rewrite (bind_run (modify _) _ s1 tt (set_klog (set_lg_outstanding 0 (klog s)) s1)); [|unfold modify; do 2 f_equal; unfold s1; rewrite <- Ho; kget; by rewrite Ho].
  set (s2 := set_klog _ s1). rewrite (bind_run (gets klog) _ s2 _ s2 eq_refl).
  change (lg_committing (klog s2)) with (lg_committing (klog s)). change (lg_outstanding (klog s2)) with 0.
  rewrite Hc. cbv zeta. change (0 =? 0) with true. cbv iota.
  rewrite (bind_run (modify _) _ s2 _ _ eq_refl). set (s3 := set_klog _ s2).
  assert (lock_release LLog s3 = Ret tt (put_locks (g_locks s) s3)) as E3 by (krelease Hl; done).
  rewrite (bind_run _ _ _ _ _ E3). set (s4 := put_locks _ s3). cbn [when].
  assert (commit s4 = Ret tt s4) as E4.
  { unfold commit. rewrite (bind_run (gets klog) _ s4 _ s4 eq_refl). change (lh_n (klog s4)) with (lh_n (klog s)). by rewrite Hn. }
  rewrite (bind_run _ _ _ _ _ E4). assert (lock_free LLog s4) as Hl4 by exact Hl.
  rewrite (bind_run _ _ _ _ _ (lock_acquire_run _ _ Hl4)). set (s5 := put_locks _ s4).
  rewrite (bind_run (modify _) _ s5 _ _ eq_refl). set (s6 := set_klog _ s5).
  rewrite (bind_run _ _ _ _ _ (wakeup_run ChLog s6 Hlen ltac:(intros j; unfold lock_free, s6, s5; cbn [g_locks]; kget; rewrite lookup_insert_ne by done; apply Hu))).
  eexists. split; [by krelease Hl4|]. done.
Qed.

Lemma dispose_inode ff i ip s :
  f_type ff = FD_INODE \/ f_type ff = FD_DEVICE -> f_ip ff = Some i -> inode_ready i ip s ->
  exists s', dispose ff s = Ret tt s' /\ g_itable s' = <[i := set_i_ref (i_ref ip - 1) ip]> (g_itable s).
Proof.
  intros Hty Hi [Hip Hk Hit Hl (Hc & Ho & Hn) Hlen Hu].
  assert (dispose ff = (begin_op ;; ip <- the "ff.ip" (f_ip ff) ;; iput ip ;; end_op)) as -> by (unfold dispose; by destruct Hty as [->| ->]).
  rewrite (bind_run _ _ _ _ _ (begin_op_run s Hl ltac:(done))). set (s1 := set_klog _ s). rewrite Hi. cbn [the]. rewrite bind_ret_l.
  rewrite (bind_run _ _ _ _ _ (iput_keep_run s1 i ip Hit Hip Hk)). set (s2 := put_itable _ s1).
  destruct (end_op_run s2) as (s' & E & T); try done. by exists s'.
Qed.

(** ** System call arguments *)

Lemma argint_run n s p pr :
  g_curproc s = Some p -> g_procs s !! p = Some pr -> p_trapframe pr <> 0 -> 0 <= n <= 5 ->
  argint n s = Ret (s32 (load64 (g_pmem s) (p_trapframe pr + (TF_a0 + 8 * n)))) s.
Proof.
  intros Hc Hp Ht Hn. unfold argint, argraw. unfold bind at 1.
  rewrite (bind_run _ _ _ _ _ (curp_run s p Hc)).
  destruct (Z.leb_spec 0 n), (Z.leb_spec n 5); try lia. cbn [andb]. unfold tf_load, tf_addr. unfold bind at 1.
  rewrite (bind_run _ _ _ _ _ (arr_get_run "proc" g_procs p s pr Hp)).
  destruct (Z.eqb_spec (p_trapframe pr) 0); [done|]. done.
Qed.

(** The file a descriptor argument refers to. *)
Definition fd_arg (s : kstate) (pr : proc) (n : Z) : Z := s32 (load64 (g_pmem s) (p_trapframe pr + (TF_a0 + 8 * n))).
Definition fd_file (pr : proc) (fd : Z) : option nat :=
  if (0 <=? fd) && (fd <? Z.of_nat NOFILE) then mjoin (p_ofile pr !! Z.to_nat fd) else None.

Lemma argfd_run n s p pr :
  g_curproc s = Some p -> g_procs s !! p = Some pr -> p_trapframe pr <> 0 -> 0 <= n <= 5 ->
  argfd n s = Ret ((fun f => (fd_arg s pr n, f)) <$> fd_file pr (fd_arg s pr n)) s.
Proof.
  intros Hc Hp Ht Hn. unfold argfd. rewrite (bind_run _ _ _ _ _ (argint_run n s p pr Hc Hp Ht Hn)).
  fold (fd_arg s pr n). rewrite (bind_run _ _ _ _ _ (curp_run s p Hc)).
  rewrite (bind_run _ _ _ _ _ (arr_get_run "proc" g_procs p s pr Hp)). unfold fd_file.
  destruct (Z.ltb_spec (fd_arg s pr n) 0), (Z.leb_spec 0 (fd_arg s pr n)); try lia; cbn [orb andb]; [done|].
  destruct (Z.geb_spec (fd_arg s pr n) (Z.of_nat NOFILE)), (Z.ltb_spec (fd_arg s pr n) (Z.of_nat NOFILE)); try lia; [done|].
  by destruct (mjoin _).
Qed.
End close.

(** ** The invariant is kept *)

(** A descriptor of [p] and the count of one file change together. *)
Lemma fd_inv_update s p pr fd v v' f x y :
  fd_inv s -> g_procs s !! p = Some pr -> p_ofile pr !! fd = Some v -> g_ftable s !! f = Some x ->
  (v = Some f \/ v = None) -> (v' = Some f \/ v' = None) ->
  f_ref y = f_ref x - one (v = Some f) + one (v' = Some f) ->
  fd_inv (put_file f y (put_proc p (with_fd fd v' pr) s)).
Proof.
  intros [Hl Ho Hv Hr] Hp Hfd Hx Hold Hnew Er.
  assert (fd < length (p_ofile pr))%nat as Hfdl by (by eapply lookup_lt_Some).
  assert (p < length (g_procs s))%nat as Hpl by (by eapply lookup_lt_Some).
  assert (f < NFILE)%nat as Hf by (rewrite <- Hl; by eapply lookup_lt_Some).
  assert (forall i q, <[p := with_fd fd v' pr]> (g_procs s) !! i = Some q ->
            (i = p /\ q = with_fd fd v' pr) \/ g_procs s !! i = Some q) as Hlook.
  { intros i q Hq. destruct (decide (i = p)) as [->|Hne].
    - rewrite list_lookup_insert_eq in Hq by done. injection Hq as <-. by left.
    - rewrite list_lookup_insert_ne in Hq by done. by right. }
  split.
  - change (length (<[f := y]> (g_ftable s)) = NFILE). by rewrite length_insert.
  - intros i q Hq. apply Hlook in Hq as [[-> ->]|Hq]; [|by eapply Ho]. simpl. rewrite length_insert. by eapply Ho.
  - intros i q fd' g Hq Hg. apply Hlook in Hq as [[-> ->]|Hq]; [|by eapply Hv]. simpl in Hg.
    destruct (decide (fd' = fd)) as [->|Hne].
    + rewrite list_lookup_insert_eq in Hg by done. by destruct Hnew; simplify_eq.
    + rewrite list_lookup_insert_ne in Hg by done. by eapply Hv.
  - intros g z Hy. change (g_procs _) with (<[p := with_fd fd v' pr]> (g_procs s)).
    rewrite (fd_refs_insert g _ p pr) by done. simpl p_ofile. rewrite (cnt_insert _ _ fd v) by done.
    change (<[f := y]> (g_ftable s) !! g = Some z) in Hy. destruct (decide (g = f)) as [->|Hne].
    + rewrite list_lookup_insert_eq in Hy by lia. injection Hy as <-. rewrite Er, (Hr f x Hx). lia.
    + rewrite list_lookup_insert_ne in Hy by done. rewrite (Hr g z Hy). unfold one.
      rewrite (decide_False (P := v = Some g)), (decide_False (P := v' = Some g)) by naive_solver. lia.
Qed.

(** The invariant is about the descriptors and the table only. *)
Lemma fd_refs_ofile f ps : fd_refs f ps = foldr (fun l n => cnt (Some f) l + n) 0 (p_ofile <$> ps).
Proof. induction ps as [|pr ps IH]; [done|]. simpl. by rewrite IH. Qed.

Lemma fd_inv_fds s s' : fds s' = fds s -> fd_inv s -> fd_inv s'.
Proof.
  intros [= Ef Ep] [Hl Ho Hv Hr].
  assert (forall i q, g_procs s' !! i = Some q -> exists q', g_procs s !! i = Some q' /\ p_ofile q' = p_ofile q) as Hq.
  { intros i q Hq. pose proof (f_equal (fun l => l !! i) Ep) as Ei. rewrite !list_lookup_fmap, Hq in Ei. simpl in Ei.
    destruct (g_procs s !! i) as [q'|]; [|done]. injection Ei as Ei. by exists q'. }
  split.
  - by rewrite Ef.
  - intros i q Hi. destruct (Hq i q Hi) as (q' & Hi' & <-). by eapply Ho.
  - intros i q fd f Hi. destruct (Hq i q Hi) as (q' & Hi' & <-). by eapply Hv.
  - intros f x Hx. rewrite Ef in Hx. rewrite (Hr f x Hx), !fd_refs_ofile. by rewrite Ep.
Qed.

(** Clearing a descriptor and its entry keeps what the disposal needs. *)
Lemma closing_frame s p pr fd f y :
  g_procs s !! p = Some pr -> length (g_procs (put_file f y (put_proc p (with_fd fd None pr) s))) = length (g_procs s).
Proof. intros Hp. apply length_insert. Qed.

Lemma pipe_ready_closing `{!KernelImage} s p pr f x fd pi q :
  g_procs s !! p = Some pr -> pipe_ready pi q s -> pipe_ready pi q (put_file f (closed x) (put_proc p (with_fd fd None pr) s)).
Proof. intros Hp [? ? ? Hl ? ?]. split; try done. by rewrite closing_frame. Qed.

Lemma inode_ready_closing s p pr f x fd i ip :
  g_procs s !! p = Some pr -> inode_ready i ip s -> inode_ready i ip (put_file f (closed x) (put_proc p (with_fd fd None pr) s)).
Proof. intros Hp [? ? ? ? ? Hl ?]. split; try done. by rewrite closing_frame. Qed.

Section syscalls.
Context `{!KernelImage} (s : kstate) (p : nat) (pr : proc).
Context (Hinv : fd_inv s) (Hc : g_curproc s = Some p) (Hp : g_procs s !! p = Some pr)
        (Ht : p_trapframe pr <> 0) (Hlk : lock_free LFtable s).

Lemma fd_file_spec fd f :
  fd_file pr fd = Some f ->
  p_ofile pr !! Z.to_nat fd = Some (Some f) /\ exists x, g_ftable s !! f = Some x /\ 1 <= f_ref x.
Proof.
  intros Hf. unfold fd_file in Hf. destruct ((0 <=? fd) && (fd <? Z.of_nat NOFILE)); [|done].
  destruct (p_ofile pr !! Z.to_nat fd) as [v|] eqn:E; [|done]. simpl in Hf. subst v. split; [done|].
  assert (f < NFILE)%nat as Hlt by (by eapply fi_valid).
  destruct (lookup_lt_is_Some_2 (g_ftable s) f) as [x Hx]; [rewrite (fi_len _ Hinv); done|]. exists x. split; [done|].
  rewrite (fi_ref _ Hinv f x Hx). pose proof (fd_refs_pos f (g_procs s) p pr _ Hp E). lia.
Qed.

Lemma sys_dup_run :
  match fd_file pr (fd_arg s pr 0), fd_free (p_ofile pr) with
  | Some f, Some fd => exists x, g_ftable s !! f = Some x /\
      sys_dup s = Ret (Z.of_nat fd) (put_file f (set_f_ref (f_ref x + 1) x) (put_proc p (with_fd fd (Some f) pr) s)) /\
      fd_inv (put_file f (set_f_ref (f_ref x + 1) x) (put_proc p (with_fd fd (Some f) pr) s))
  | _, _ => sys_dup s = Ret (-1) s
  end.
Proof.
  unfold sys_dup. rewrite (bind_run _ _ _ _ _ (argfd_run 0 s p pr Hc Hp Ht ltac:(lia))).
  destruct (fd_file pr (fd_arg s pr 0)) as [f|] eqn:Ef; [|done]. cbn [fmap option_fmap option_map].
  destruct (fd_file_spec _ f Ef) as (_ & x & Hx & Hr).
  pose proof (fdalloc_run f s p pr Hc Hp (fi_ofile _ Hinv p pr Hp)) as Ea.
  destruct (fd_free (p_ofile pr)) as [fd|] eqn:Efd; [|by rewrite (bind_run _ _ _ _ _ Ea)].
  rewrite (bind_run _ _ _ _ _ Ea). destruct (Z.ltb_spec (Z.of_nat fd) 0); [lia|].
  exists x. split; [done|]. split.
  - by rewrite (bind_run _ _ _ _ _ (filedup_run f (put_proc p (with_fd fd (Some f) pr) s) x Hlk Hx Hr)).
  - destruct (fd_free_spec _ _ Efd) as [Hnone _]. apply (fd_inv_update s p pr fd None _ _ x); auto.
    unfold one. rewrite decide_False, decide_True by done. simpl. lia.
Qed.

Lemma closing_inv f x y :
  fd_file pr (fd_arg s pr 0) = Some f -> g_ftable s !! f = Some x -> f_ref y = f_ref x - 1 ->
  fd_inv (put_file f y (put_proc p (with_fd (Z.to_nat (fd_arg s pr 0)) None pr) s)).
Proof.
  intros Ef Hx Hy. destruct (fd_file_spec _ f Ef) as (Hfd & _). apply (fd_inv_update s p pr _ (Some f) _ _ x); auto.
  unfold one. rewrite decide_True, decide_False by done. lia.
Qed.

Lemma sys_close_run :
  match fd_file pr (fd_arg s pr 0) with
  | None => sys_close s = Ret (-1) s
  | Some f => exists x, g_ftable s !! f = Some x /\
      (2 <= f_ref x ->
       let s' := put_file f (set_f_ref (f_ref x - 1) x) (put_proc p (with_fd (Z.to_nat (fd_arg s pr 0)) None pr) s) in
       sys_close s = Ret 0 s' /\ fd_inv s')
  end.
Proof.
  unfold sys_close. rewrite (bind_run _ _ _ _ _ (argfd_run 0 s p pr Hc Hp Ht ltac:(lia))).
  destruct (fd_file pr (fd_arg s pr 0)) as [f|] eqn:Ef; [|done]. cbn [fmap option_fmap option_map].
  destruct (fd_file_spec _ f Ef) as (Hfd & x & Hx & Hr). exists x. split; [done|]. intros H2. cbv zeta. split.
  - rewrite (bind_run _ _ _ _ _ (curp_run s p Hc)). unfold set_ofile, upd_proc.
    rewrite (bind_run _ _ _ _ _ (arr_upd_run "proc" g_procs put_procs p _ s pr Hp)).
    by rewrite (bind_run _ _ _ _ _ (fileclose_shared f (put_proc p (with_fd (Z.to_nat (fd_arg s pr 0)) None pr) s) x Hlk Hx H2)).
  - by apply (closing_inv f x).
Qed.

(** The last close: the entry is unused, and what happens to the pipe or the inode leaves it so. *)
Lemma sys_close_last f x :
  fd_file pr (fd_arg s pr 0) = Some f -> g_ftable s !! f = Some x -> f_ref x = 1 ->
  let s1 := put_file f (closed x) (put_proc p (with_fd (Z.to_nat (fd_arg s pr 0)) None pr) s) in
  fd_inv s1 /\ sys_close s = (dispose (set_f_ref 0 x) ;; ret 0) s1.
Proof.
  intros Ef Hx Hr s1. split; [apply (closing_inv f x); [done|done|simpl; lia]|].
  unfold sys_close. rewrite (bind_run _ _ _ _ _ (argfd_run 0 s p pr Hc Hp Ht ltac:(lia))), Ef. cbn [fmap option_fmap option_map].
  rewrite (bind_run _ _ _ _ _ (curp_run s p Hc)). unfold set_ofile, upd_proc.
  rewrite (bind_run _ _ _ _ _ (arr_upd_run "proc" g_procs put_procs p _ s pr Hp)).
  unfold bind at 1. rewrite (fileclose_last f (put_proc p (with_fd (Z.to_nat (fd_arg s pr 0)) None pr) s) x Hlk Hx Hr). done.
Qed.

Lemma sys_close_always f x :
  fd_file pr (fd_arg s pr 0) = Some f -> g_ftable s !! f = Some x -> f_ref x = 1 -> always fd_inv (sys_close s).
Proof.
  intros Ef Hx Hr. destruct (sys_close_last f x Ef Hx Hr) as [Hi ->].
  eapply leaves_always; [exact fd_inv_fds|exact Hi|]. apply lv_bind; [apply lv_dispose|intros; apply lv_ret].
Qed.

(** The result when the disposal returns. *)
Lemma sys_close_done f x s2 :
  fd_file pr (fd_arg s pr 0) = Some f -> g_ftable s !! f = Some x -> f_ref x = 1 ->
  let s1 := put_file f (closed x) (put_proc p (with_fd (Z.to_nat (fd_arg s pr 0)) None pr) s) in
  dispose (set_f_ref 0 x) s1 = Ret tt s2 -> sys_close s = Ret 0 s2 /\ fds s2 = fds s1.
Proof.
  intros Ef Hx Hr s1 E. destruct (sys_close_last f x Ef Hx Hr) as [_ ->]. fold s1. rewrite (bind_run _ _ _ _ _ E).
  split; [done|]. pose proof (lv_dispose (set_f_ref 0 x) s1) as Hlv. by rewrite E in Hlv.
Qed.
End syscalls.

(** ** Theorems *)

(** [C21] Descriptors and reference counts agree.  From a state where every
    file's count is the number of descriptors that refer to it, [dup] of an open
    descriptor returns the lowest free descriptor of the process, which then refers to
    the same file, and keeps the invariant.  [close] of a descriptor whose file has others frees the
    descriptor and keeps the invariant.  The last close of a file also makes its entry unused (no references, no
    type): the invariant holds whenever the call returns or gives up the CPU, if it holds whenever
    the call is resumed; and the call does return 0, with exactly this change to descriptors
    and table, for an end of a pipe (whose page is freed with the second end) and for
    an inode that stays in use, outside of other transactions.  A descriptor
    argument that is negative, too large or not open, or a full table, gives -1 and changes nothing. *)
Theorem fd_counts_agree `{!KernelImage} s p pr :
  fd_inv s -> g_curproc s = Some p -> g_procs s !! p = Some pr -> p_trapframe pr <> 0 -> lock_free LFtable s ->
  match fd_file pr (fd_arg s pr 0) with
  | None => sys_dup s = Ret (-1) s /\ sys_close s = Ret (-1) s
  | Some f => exists x, g_ftable s !! f = Some x /\ 1 <= f_ref x /\
      match fd_free (p_ofile pr) with
      | None => sys_dup s = Ret (-1) s /\ forall fd, p_ofile pr !! fd <> Some None
      | Some fd => (forall j, (j < fd)%nat -> p_ofile pr !! j <> Some None) /\
          let s' := put_file f (set_f_ref (f_ref x + 1) x) (put_proc p (with_fd fd (Some f) pr) s) in
          sys_dup s = Ret (Z.of_nat fd) s' /\ fd_inv s'
      end /\
      (2 <= f_ref x ->
       let s' := put_file f (set_f_ref (f_ref x - 1) x) (put_proc p (with_fd (Z.to_nat (fd_arg s pr 0)) None pr) s) in
       sys_close s = Ret 0 s' /\ fd_inv s') /\
      (f_ref x = 1 ->
       let s1 := put_file f (closed x) (put_proc p (with_fd (Z.to_nat (fd_arg s pr 0)) None pr) s) in
       fd_inv s1 /\ always fd_inv (sys_close s) /\
       (f_type x = FD_NONE -> sys_close s = Ret 0 s1) /\
       (forall q, f_type x = FD_PIPE -> pipe_ready (f_pipe x) q s ->
          let q' := if f_writable x then set_pi_writeopen false q else set_pi_readopen false q in
          exists s', sys_close s = Ret 0 s' /\ fds s' = fds s1 /\
            g_pipes s' = if negb (pi_readopen q') && negb (pi_writeopen q') then delete (f_pipe x) (g_pipes s)
                         else <[f_pipe x := q']> (g_pipes s)) /\
       (forall i ip, f_type x = FD_INODE \/ f_type x = FD_DEVICE -> f_ip x = Some i -> inode_ready i ip s ->
          exists s', sys_close s = Ret 0 s' /\ fds s' = fds s1 /\
            g_itable s' = <[i := set_i_ref (i_ref ip - 1) ip]> (g_itable s)))
  end.
Proof.
  intros Hinv Hc Hp Ht Hlk. pose proof (sys_dup_run s p pr Hinv Hc Hp Ht Hlk) as Hd.
  pose proof (sys_close_run s p pr Hinv Hc Hp Ht Hlk) as Hcl.
  destruct (fd_file pr (fd_arg s pr 0)) as [f|] eqn:Ef; [|done]. destruct Hcl as (x & Hx & Hcl).
  exists x. split; [done|]. split.
  { destruct (fd_file_spec s p pr Hinv Hp _ f Ef) as (_ & y & Hy & Hr). congruence. }
  split; [|split; [done|]].
  - destruct (fd_free (p_ofile pr)) as [fd|] eqn:Efd.
    + destruct Hd as (y & Hy & E & Hi). rewrite Hx in Hy. injection Hy as <-. split; [by apply fd_free_spec|]. done.
    + split; [done|]. by apply fd_free_none.
  - intros Hr. pose proof (sys_close_done s p pr Hinv Hc Hp Ht Hlk f x) as Hdone. cbv zeta in Hdone |- *.
    set (s1 := put_file f (closed x) _) in *.
    split; [by apply (sys_close_last s p pr Hinv Hc Hp Ht Hlk f x)|]. split; [by eapply sys_close_always|].
    split; [|split].
    + intros Hty. apply Hdone; try done. unfold dispose. simpl. by rewrite Hty.
    + intros q Hty Hq. assert (pipe_ready (f_pipe x) q s1) as Hq1 by (by apply (pipe_ready_closing s p pr f x)).
      destruct (pipeclose_run (f_pipe x) (f_writable x) q s1 Hq1) as (s2 & E & Eq).
      exists s2. destruct (Hdone s2) as [E' Ef']; try done. { unfold dispose. simpl. by rewrite Hty. }
    + intros i ip Hty Hi Hir. destruct (dispose_inode (set_f_ref 0 x) i ip s1) as (s2 & E & Et); try done.
      { by apply (inode_ready_closing s p pr f x). }
      exists s2. destruct (Hdone s2) as [E' Ef']; done.
Qed.

(** A process with descriptors 0 and 2 open on file 3, asked to duplicate (or close) descriptor 2. *)
Definition proc_fd : proc :=
  set_p_trapframe 8192 (set_p_ofile (<[0%nat := Some 3%nat]> (<[2%nat := Some 3%nat]> (replicate NOFILE None))) zero_proc).
Definition state_fd : kstate :=
  put_pmem (store64 ∅ (8192 + 112) 2) (put_ftable (<[3%nat := set_f_ref 2 zero_file]> (g_ftable boot)) (running proc_fd)).

(** The invariant, as a test. *)
Definition fd_check (s : kstate) : bool :=
  (length (g_ftable s) =? NFILE)%nat &&
  forallb (fun pr => (length (p_ofile pr) =? NOFILE)%nat &&
    forallb (fun v => match v with Some f => (f <? NFILE)%nat | None => true end) (p_ofile pr)) (g_procs s) &&
  forallb (fun f => match g_ftable s !! f with Some x => f_ref x =? fd_refs f (g_procs s) | None => true end) (seq 0 NFILE).

Lemma fd_check_inv s : fd_check s = true -> fd_inv s.
Proof.
  unfold fd_check. rewrite !andb_true_iff, !forallb_forall, Nat.eqb_eq. intros [[Hl Hp] Hr].
  assert (forall i pr, g_procs s !! i = Some pr -> length (p_ofile pr) = NOFILE /\
    forall v, In v (p_ofile pr) -> match v with Some f => (f <? NFILE)%nat | None => true end = true) as H.
  { intros i pr Hi. specialize (Hp pr ltac:(apply list_elem_of_In; by eapply list_elem_of_lookup_2)).
    by rewrite andb_true_iff, Nat.eqb_eq, forallb_forall in Hp. }
  split; [done| | |].
  - intros i pr Hi. by apply (H i).
  - intros i pr fd f Hi Hf. destruct (H i pr Hi) as [_ Hv]. apply Nat.ltb_lt, (Hv (Some f)), list_elem_of_In.
    by eapply list_elem_of_lookup_2.
  - intros f x Hx. specialize (Hr f). rewrite Hx in Hr. apply Z.eqb_eq, Hr, in_seq. apply lookup_lt_Some in Hx. lia.
Qed.

Lemma state_fd_inv : fd_inv state_fd.
Proof. apply fd_check_inv. vm_compute. reflexivity. Qed.

(** The same process when descriptor 2 is the only one on file 3, the write end of a pipe. *)
Definition last_pipe : pipe :=
  {| pi_data := replicate 512 0; pi_nread := 0; pi_nwrite := 0; pi_readopen := true; pi_writeopen := true |}.
Definition last_file : file :=
  set_f_ref 1 (set_f_type FD_PIPE (set_f_writable true (set_f_pipe (PHYSTOP - 4096) zero_file))).
Definition proc_last : proc :=
  set_p_trapframe 8192 (set_p_ofile (<[2%nat := Some 3%nat]> (replicate NOFILE None)) zero_proc).
Definition state_last : kstate :=
  put_pipes {[PHYSTOP - 4096 := last_pipe]} (put_pmem (store64 ∅ (8192 + 112) 2)
    (put_ftable (<[3%nat := last_file]> (g_ftable boot)) (running proc_last))).

Lemma state_last_inv : fd_inv state_last.
Proof. apply fd_check_inv. vm_compute. reflexivity. Qed.

Lemma state_last_pipe : @pipe_ready image5 (PHYSTOP - 4096) last_pipe state_last.
Proof.
  split; [reflexivity|reflexivity|reflexivity|reflexivity|intros i; reflexivity|]. split; [reflexivity|]. split; [|reflexivity].
  vm_compute. discriminate.
Qed.

(** Duplicating and closing a shared descriptor, and closing the write end of the pipe. *)
Lemma fd_counts_agree_witness :
  sys_dup state_fd = Ret 1 (put_file 3 (set_f_ref 3 zero_file) (put_proc 0 (with_fd 1 (Some 3%nat) proc_fd) state_fd)) /\
  @sys_close image5 state_fd = Ret 0 (put_file 3 (set_f_ref 1 zero_file) (put_proc 0 (with_fd 2 None proc_fd) state_fd)) /\
  exists s', @sys_close image5 state_last = Ret 0 s' /\ f_ref <$> g_ftable s' !! 3%nat = Some 0 /\
    g_pipes s' !! (PHYSTOP - 4096) = Some (set_pi_writeopen false last_pipe).
Proof.
  pose proof (@fd_counts_agree image5 state_fd 0 proc_fd state_fd_inv eq_refl eq_refl ltac:(done) eq_refl) as H.
  change (fd_file proc_fd (fd_arg state_fd proc_fd 0)) with (Some 3%nat) in H.
  destruct H as (x & Hx & _ & (_ & Hd & _) & Hc & _). injection Hx as <-. split; [exact Hd|].
  split; [exact (proj1 (Hc ltac:(vm_compute; discriminate)))|].
  pose proof (@fd_counts_agree image5 state_last 0 proc_last state_last_inv eq_refl eq_refl ltac:(done) eq_refl) as H.
  change (fd_file proc_last (fd_arg state_last proc_last 0)) with (Some 3%nat) in H.
  destruct H as (x & Hx & _ & _ & _ & Hl). assert (x = last_file) as -> by (injection Hx as <-; reflexivity). clear Hx.
  destruct (Hl eq_refl) as (_ & _ & _ & Hp & _). clear Hl.
  destruct (Hp last_pipe eq_refl state_last_pipe) as (s' & E & Ef & Eq).
  exists s'. split; [exact E|]. split.
  - change (g_ftable s') with (fds s').1. rewrite Ef. reflexivity.
  - rewrite Eq. reflexivity.
Defined.
