(* ===== verification/Syscall.v ===== *)
(** * Process system calls and the system call table: kernel/sysproc.c and
    [syscall] of kernel/syscall.c *)

From Stdlib Require Import ZArith Lia.
From stdpp Require Import base list gmap strings numbers option.
From S2P Require Import Prelude Bytes Riscv Cstring Kstate Sched Kalloc Vm.
From S2P Require Import Printf Fs File Proc Sysargs Exec Sysfile.

Section syscall.
Context `{!KernelImage, !KernelCode}.

Definition sys_exit : M Z := n <- argint 0 ;; exit n ;; ret 0.

Definition sys_getpid : M Z := p <- curp ;; pr <- get_proc p ;; ret (p_pid pr).

Definition sys_fork : M Z := fork.

Definition sys_wait : M Z := p <- argaddr 0 ;; wait p.

Definition sys_sbrk : M Z :=
  n <- argint 0 ;;
  p <- curp ;;
  pr <- get_proc p ;;
  let addr := p_sz pr in
  r <- growproc n ;;
  if r <? 0 then ret (-1) else ret addr.

(** [while(ticks - ticks0 < n)]: the [uint] difference against the
    non-negative [n]; [inr v] returns [v] with the lock released. *)
Definition sys_sleep_body (n ticks0 : Z) (_ : unit) : M (unit + Z) :=
  t <- gets g_ticks ;;
  if u32 (t - ticks0) <? n then
    p <- curp ;;
    k <- killed p ;;
    if (k : bool) then lock_release LTicks ;; ret (inr (-1)) else
    sleep ChTicks LTicks ;;
    ret (inl tt)
  else lock_release LTicks ;; ret (inr 0).

(** Each turn but the last sees the tick counter advance. *)
Definition sys_sleep : M Z :=
  n <- argint 0 ;;
  let n := if n <? 0 then 0 else n in
  lock_acquire LTicks ;;
  ticks0 <- gets g_ticks ;;
  loop (S (Z.to_nat n) + sleep_fuel) (sys_sleep_body n ticks0) tt.

Definition sys_kill : M Z := pid <- argint 0 ;; kill pid.

Definition sys_uptime : M Z :=
  lock_acquire LTicks ;;
  xticks <- gets g_ticks ;;
  lock_release LTicks ;;
  ret xticks.

(** [syscalls\[num\]] for the numbers of kernel/syscall.h. *)
Definition syscalls (num : Z) : option (M Z) :=
  match num with
  | 1 => Some sys_fork | 2 => Some sys_exit | 3 => Some sys_wait | 4 => Some sys_pipe
  | 5 => Some sys_read | 6 => Some sys_kill | 7 => Some sys_exec | 8 => Some sys_fstat
  | 9 => Some sys_chdir | 10 => Some sys_dup | 11 => Some sys_getpid | 12 => Some sys_sbrk
  | 13 => Some sys_sleep | 14 => Some sys_uptime | 15 => Some sys_open | 16 => Some sys_write
  | 17 => Some sys_mknod | 18 => Some sys_unlink | 19 => Some sys_link | 20 => Some sys_mkdir
  | 21 => Some sys_close | _ => None
  end.

Definition syscall : M unit :=
  p <- curp ;;
  a7 <- tf_load p TF_a7 ;;
  match syscalls (s32 a7) with
  | Some f => r <- f ;; tf_store p TF_a0 r
  | None =>
      pr <- get_proc p ;;
      printf (bytes_of "%d %s: unknown sys call %d" ++ newline)
        [AInt (p_pid pr); AStr (Some (cstr (p_name pr))); AInt (s32 a7)] ;;
      tf_store p TF_a0 (-1)
  end.
End syscall.
