(* ===== verification/SyscallSpec.v ===== *)
(** * System call dispatch: [syscall] of kernel/syscall.c

    The stubs of user/usys.pl load a number into [a7] and trap; [syscall] must run the
    function that the stub is named after. *)

From Stdlib Require Import ZArith Lia.
From stdpp Require Import base list gmap strings numbers option.
From S2P Require Import Prelude Bytes Riscv Cstring Kstate Sched Kalloc Vm Uvm Uart Printf PrintSpec Console ConsoleSpec.
From S2P Require Import Fs File Proc Sysargs Exec Sysfile FileSpec Syscall.

(** The number that the stub of a system call loads into [a7] (user/usys.pl: [li a7, SYS_name]), from
    kernel/syscall.h. *)
Definition SYS (name : string) : option Z :=
  if String.eqb name "fork" then Some 1 else if String.eqb name "exit" then Some 2 else
  if String.eqb name "wait" then Some 3 else if String.eqb name "pipe" then Some 4 else
  if String.eqb name "read" then Some 5 else if String.eqb name "kill" then Some 6 else
  if String.eqb name "exec" then Some 7 else if String.eqb name "fstat" then Some 8 else
  if String.eqb name "chdir" then Some 9 else if String.eqb name "dup" then Some 10 else
  if String.eqb name "getpid" then Some 11 else if String.eqb name "sbrk" then Some 12 else
  if String.eqb name "sleep" then Some 13 else if String.eqb name "uptime" then Some 14 else
  if String.eqb name "open" then Some 15 else if String.eqb name "write" then Some 16 else
  if String.eqb name "mknod" then Some 17 else if String.eqb name "unlink" then Some 18 else
  if String.eqb name "link" then Some 19 else if String.eqb name "mkdir" then Some 20 else
  if String.eqb name "close" then Some 21 else None.

Section dispatch.
Context `{!KernelImage, !KernelCode}.

(** The table has the numbers 1 to 21 of kernel/syscall.h. *)
Lemma syscalls_none n : ~ (1 <= n <= 21) -> syscalls n = None.
Proof.
  intros Hn. destruct n as [|n|n]; [done| |done].
  do 5 (destruct n as [n|n|]; try (exfalso; lia); try done).
Qed.

Lemma syscalls_some n : 1 <= n <= 21 -> is_Some (syscalls n).
Proof.
  intros Hn. destruct (syscalls n) eqn:E; [by eexists|]. exfalso.
  assert (forall k : nat, (k < 21)%nat -> is_Some (syscalls (Z.of_nat k + 1))) as Hall.
  { intros k Hk. do 21 (destruct k as [|k]; [by eexists|]). lia. }
  destruct (Hall (Z.to_nat (n - 1)) ltac:(lia)) as [f Hf].
  replace (Z.of_nat (Z.to_nat (n - 1)) + 1) with n in Hf by lia. congruence.
Qed.

(** The calls of user/user.h, with the functions of kernel/sysproc.c and kernel/sysfile.c that implement them. *)
Definition calls : list (string * M Z) :=
  [ ("fork", sys_fork); ("exit", sys_exit); ("wait", sys_wait); ("pipe", sys_pipe); ("write", sys_write);
    ("read", sys_read); ("close", sys_close); ("kill", sys_kill); ("exec", sys_exec); ("open", sys_open);
    ("mknod", sys_mknod); ("unlink", sys_unlink); ("fstat", sys_fstat); ("link", sys_link); ("mkdir", sys_mkdir);
    ("chdir", sys_chdir); ("dup", sys_dup); ("getpid", sys_getpid); ("sbrk", sys_sbrk); ("sleep", sys_sleep);
    ("uptime", sys_uptime) ]%string.

Lemma calls_table name f num : In (name, f) calls -> SYS name = Some num -> syscalls num = Some f.
Proof. intros Hin. repeat (destruct Hin as [[= <- <-]|Hin]; [by intros [= <-]|]). done. Qed.

(** Every number of the table is the number of a call. *)
Lemma calls_all num : 1 <= num <= 21 -> exists name f, In (name, f) calls /\ SYS name = Some num.
Proof.
  intros Hn. assert (forall k : nat, (k < 21)%nat -> exists name f, In (name, f) calls /\ SYS name = Some (Z.of_nat k + 1)) as Hall.
  { intros k Hk. assert (exists j e, calls !! j = Some e /\ SYS e.1 = Some (Z.of_nat k + 1)) as (j & [name f] & He & Hs).
    { exists (nth k [0; 1; 2; 3; 5; 7; 8; 12; 15; 16; 17; 18; 19; 20; 9; 4; 10; 11; 13; 14; 6]%nat 0%nat).
      do 21 (destruct k as [|k]; [by eexists|]). lia. }
    exists name, f. split; [|done]. apply list_elem_of_In. by eapply list_elem_of_lookup_2. }
  destruct (Hall (Z.to_nat (num - 1)) ltac:(lia)) as (name & f & Hin & Hs). exists name, f. split; [done|].
  by replace (Z.of_nat (Z.to_nat (num - 1)) + 1) with num in Hs by lia.
Qed.

(** The message for an unknown number. *)
Definition unknown_fmt : list Z := bytes_of "%d %s: unknown sys call %d" ++ newline.

(** What it prints: the numerals [a] and [b] for the process id and the number, around the name. *)
Definition unknown_text (a name b : list Z) : list Z :=
  a ++ bytes_of " " ++ name ++ bytes_of ": unknown sys call " ++ b ++ newline.

Lemma printf_text fuel m f args s :
  (length m <= fuel)%nat -> plain m = true -> printf_loop fuel (m ++ f) args s = printf_loop (fuel - length m) f args (put_out m s).
Proof.
  revert fuel s. induction m as [|c m IH]; intros fuel s Hf Hpl.
  - by rewrite Nat.sub_0_r.
  - destruct fuel as [|fuel]; [simpl in Hf; lia|]. simpl in Hpl. apply andb_true_iff in Hpl as [Hc Hpl].
    cbn [app]. rewrite printf_plain by lia. rewrite IH by (done || (simpl in Hf; lia)). by rewrite put_out_app.
Qed.

Lemma unknown_prints z1 l z2 s :
  byte_list l -> exists a b, num_read 10 a = s32 z1 /\ num_read 10 b = s32 z2 /\
    printf_loop (S (length unknown_fmt)) unknown_fmt [AInt z1; AStr (Some l); AInt z2] s = Ret tt (put_out (unknown_text a l b) s).
Proof.
  intros Hl. change (length unknown_fmt) with 27%nat.
  change unknown_fmt with (37 :: 100 :: 32 :: 37 :: 115 :: (bytes_of ": unknown sys call " ++ 37 :: 100 :: [10])).
  destruct (printf_d 27 z1 (32 :: 37 :: 115 :: (bytes_of ": unknown sys call " ++ 37 :: 100 :: [10]))
    [AStr (Some l); AInt z2] s) as (a & Ha & E1). rewrite E1, printf_plain by lia. rewrite printf_s by done.
  rewrite printf_text by (reflexivity || (vm_compute; lia)).
  change (25 - length (bytes_of ": unknown sys call "))%nat with 6%nat.
  match goal with |- context [printf_loop 6 _ _ ?s'] => destruct (printf_d 5 z2 [10] [] s') as (b & Hb & E2) end.
  exists a, b. split; [done|]. split; [done|]. rewrite E2, printf_plain by lia.
  rewrite !put_out_app. unfold unknown_text. rewrite <- ?app_assoc. done.
Qed.

Lemma s32_idem z : s32 (s32 z) = s32 z.
Proof. apply s32_small. unfold s32, wrapS. change (2 ^ 32) with 4294967296. change (2 ^ (32 - 1)) with 2147483648. zlia. Qed.

Lemma tf_store_run s p pr off v :
  g_procs s !! p = Some pr -> p_trapframe pr <> 0 ->
  tf_store p off v s = Ret tt (put_pmem (store64 (g_pmem s) (p_trapframe pr + off) v) s).
Proof.
  intros Hp Ht. unfold tf_store, tf_addr. unfold bind at 1. unfold get_proc.
  rewrite (bind_run _ _ _ _ _ (arr_get_run "proc" g_procs p s pr Hp)). by destruct (Z.eqb_spec (p_trapframe pr) 0).
Qed.

Context (s : kstate) (p : nat) (pr : proc).
Context (Hc : g_curproc s = Some p) (Hp : g_procs s !! p = Some pr) (Ht : p_trapframe pr <> 0).

Definition syscall_num : Z := s32 (load64 (g_pmem s) (p_trapframe pr + TF_a7)).

Lemma syscall_eq :
  syscall s = match syscalls syscall_num with
    | Some f => (r <- f ;; tf_store p TF_a0 r) s
    | None => (printf unknown_fmt [AInt (p_pid pr); AStr (Some (cstr (p_name pr))); AInt syscall_num] ;;
               tf_store p TF_a0 (-1)) s
    end.
Proof.
  unfold syscall. rewrite (bind_run _ _ _ _ _ (curp_run s p Hc)). unfold tf_load at 1, tf_addr.
  assert ((tf <- tf_addr p ;; kload64 (tf + TF_a7)) s = Ret (load64 (g_pmem s) (p_trapframe pr + TF_a7)) s) as E.
  { unfold tf_addr. unfold bind at 1. unfold get_proc. rewrite (bind_run _ _ _ _ _ (arr_get_run "proc" g_procs p s pr Hp)).
    destruct (Z.eqb_spec (p_trapframe pr) 0); [done|]. done. }
  unfold tf_load. rewrite (bind_run _ _ _ _ _ E). fold syscall_num.
  destruct (syscalls syscall_num); [done|].
  by rewrite (bind_run _ _ _ _ _ (arr_get_run "proc" g_procs p s pr Hp)).
Qed.
End dispatch.

(** [C30] [syscall] dispatches on the number in [a7].  For each of the 21 calls of user/user.h, with the number its
    stub loads, it runs the function of that name and stores its result in the trap frame's [a0]; the numbers
    1 to 21 are exactly those of the calls.  A [getpid] so returns the process id and changes nothing
    else.  For any other number, negative ones included, it prints the process id, the process
    name and the number in the words of the source, stores -1, and nothing else of the kernel changes. *)
Theorem syscall_dispatches `{!KernelImage, !KernelCode} s p pr :
  g_curproc s = Some p -> g_procs s !! p = Some pr -> p_trapframe pr <> 0 ->
  lock_free LPr s -> byte_list (p_name pr) ->
  let num := s32 (load64 (g_pmem s) (p_trapframe pr + TF_a7)) in
  (forall name f, In (name, f) calls -> SYS name = Some num -> syscall s = (r <- f ;; tf_store p TF_a0 r) s) /\
  (1 <= num <= 21 <-> exists name f, In (name, f) calls /\ SYS name = Some num) /\
  (SYS "getpid" = Some num ->
     syscall s = Ret tt (put_pmem (store64 (g_pmem s) (p_trapframe pr + TF_a0) (p_pid pr)) s)) /\
  (~ (1 <= num <= 21) -> exists a b, num_read 10 a = s32 (p_pid pr) /\ num_read 10 b = num /\
     syscall s = Ret tt (put_pmem (store64 (g_pmem s) (p_trapframe pr + TF_a0) (-1))
                           (put_out (unknown_text a (cstr (p_name pr)) b) s))).
Proof.
  intros Hc Hp Ht Hlk Hn num. pose proof (syscall_eq s p pr Hc Hp Ht) as E. unfold syscall_num in E. fold num in E.
  assert (forall name f, In (name, f) calls -> SYS name = Some num -> syscall s = (r <- f ;; tf_store p TF_a0 r) s) as Hcall.
  { intros name f Hin Hs. by rewrite E, (calls_table name f num). }
  split; [done|]. split; [|split].
  - split; [apply calls_all|]. intros (name & f & Hin & Hs). pose proof (calls_table _ _ _ Hin Hs) as Hf.
    destruct (decide (1 <= num <= 21)) as [|Hr]; [done|]. by rewrite (syscalls_none num Hr) in Hf.
  - intros Hs. rewrite (Hcall "getpid"%string sys_getpid) by (done || (unfold calls; simpl; tauto)).
    assert (sys_getpid s = Ret (p_pid pr) s) as Eg.
    { unfold sys_getpid. rewrite (bind_run _ _ _ _ _ (curp_run s p Hc)). unfold get_proc.
      by rewrite (bind_run _ _ _ _ _ (arr_get_run "proc" g_procs p s pr Hp)). }
    rewrite (bind_run _ _ _ _ _ Eg). by apply tf_store_run.
  - intros Hr. rewrite (syscalls_none num Hr) in E.
    destruct (unknown_prints (p_pid pr) (cstr (p_name pr)) num (put_locks (<[LPr := g_hart s]> (g_locks s)) s))
      as (a & b & Ha & Hb & Eo); [by apply byte_list_cstr|].
    assert (s32 num = num) as Es by (unfold num; apply s32_idem).
    exists a, b. split; [done|]. split; [by rewrite Hb|].
    rewrite E, (bind_run _ _ _ _ _ (printf_locked _ _ s _ Hlk Eo)). set (out := unknown_text a _ b).
    rewrite (tf_store_run (put_out out s) p pr); [|by rewrite put_out_procs|done]. by destruct out.
Qed.

(** Code addresses of a kernel image. *)
Definition code5 : KernelCode :=
  {| forkret_addr := KERNBASE + 4096; usertrap_addr := KERNBASE + 4104; kernelvec_addr := KERNBASE + 4112;
     uservec_off := 0; userret_off := 156 |}.

(** A process that calls number [n]. *)
Definition state_call (n : Z) : kstate :=
  put_pmem (store64 ∅ (8192 + TF_a7) n) (running (set_p_trapframe 8192 zero_proc)).

Lemma syscall_dispatches_witness :
  @syscall image5 code5 (state_call 5) = (r <- sys_read ;; tf_store 0 TF_a0 r) (state_call 5) /\
  @syscall image5 code5 (state_call 11) = Ret tt (put_pmem (store64 (g_pmem (state_call 11)) (8192 + TF_a0) 0) (state_call 11)) /\
  (exists a b, num_read 10 a = 0 /\ num_read 10 b = 22 /\ @syscall image5 code5 (state_call 22) =
     Ret tt (put_pmem (store64 (g_pmem (state_call 22)) (8192 + TF_a0) (-1))
               (put_out (a ++ bytes_of " " ++ [] ++ bytes_of ": unknown sys call " ++ b ++ [10]) (state_call 22)))).
Proof.
  assert (forall n, g_curproc (state_call n) = Some 0%nat /\
    g_procs (state_call n) !! 0%nat = Some (set_p_trapframe 8192 zero_proc) /\ lock_free LPr (state_call n)) as H
    by (intros n; split_and!; reflexivity).
  assert (byte_list (p_name (set_p_trapframe 8192 zero_proc))) as Hb
    by (apply (Forall_replicate _ 16 0); lia).
  split; [|split].
  - destruct (H 5) as (H1 & H2 & H3).
    destruct (@syscall_dispatches image5 code5 (state_call 5) 0 _ H1 H2 ltac:(done) H3 Hb) as (E & _).
    apply (E "read"%string); [right; right; right; right; right; left; reflexivity|reflexivity].
  - destruct (H 11) as (H1 & H2 & H3).
    destruct (@syscall_dispatches image5 code5 (state_call 11) 0 _ H1 H2 ltac:(done) H3 Hb) as (_ & _ & E & _).
    apply E. reflexivity.
  - destruct (H 22) as (H1 & H2 & H3).
    destruct (@syscall_dispatches image5 code5 (state_call 22) 0 _ H1 H2 ltac:(done) H3 Hb) as (_ & _ & _ & E).
    apply E. intros [_ Hle]. apply Hle. reflexivity.
Defined.
