(* ===== verification/Machine.v ===== *)
(** * The machine around the kernel: control registers, PLIC and the virtio disk

    kernel/riscv.h (register access), kernel/plic.c and kernel/virtio_disk.c.
    The state adds the hart's control and status registers, the interrupt
    controller and the disk driver to [kstate]; [lift] runs kernel code in it.

    The rings and descriptors the driver shares with the device are kept as
    records; a DMA address is the object it points to.  The device itself is a parameter, the
    class [VirtioBlk]: it promises to serve a request that has the form the virtio 1.1
    specification prescribes, and nothing about any other chain of descriptors. *)

From Stdlib Require Import ZArith Lia.
From stdpp Require Import base list gmap strings numbers option.
From S2P Require Import Prelude Bytes Riscv Cstring Kstate Sched Kalloc Vm Bio.

(** ** Control and status registers *)

Inductive csr :=
| MSTATUS | MEPC | MEDELEG | MIDELEG | MIE | MENVCFG | MCOUNTEREN | MHARTID | PMPADDR0 | PMPCFG0
| SSTATUS | SEPC | SCAUSE | STVAL | STVEC | SATP | SIE | STIMECMP | TIME | TP.

#[export] Instance csr_eq_dec : EqDecision csr.
Proof. solve_decision. Defined.

(** ** The disk driver's state *)

Definition NUM : nat := 8.

Inductive dma :=
| DNull
| DOps (i : nat)       (** [&disk.ops\[i\]] *)
| DData (b : nat)      (** [b->data] *)
| DStatus (i : nat).   (** [&disk.info\[i\].status] *)

Record virtq_desc := mk_desc { d_addr : dma; d_len : Z; d_flags : Z; d_next : nat }.
Record vinfo := mk_info { in_b : option nat; in_status : Z }.
Record virtio_blk_req := mk_req { r_type : Z; r_reserved : Z; r_sector : Z }.

Record vdisk := mk_vdisk {
  vd_desc : list virtq_desc;
  vd_avail_idx : Z;
  vd_avail_ring : list nat;
  vd_used_ring : list nat;           (** [used->ring\[i\].id] *)
  vd_used_idx : Z;                   (** [used->idx], written by the device *)
  vd_free : list bool;
  vd_seen : Z;                       (** [disk.used_idx] *)
  vd_info : list vinfo;
  vd_ops : list virtio_blk_req;
  vd_regs : gmap Z Z;                (** MMIO registers by offset *)
  vd_dev : Z                         (** how much of the avail ring the device has taken *)
}.

Definition set_desc v d := {| vd_desc := v; vd_avail_idx := vd_avail_idx d; vd_avail_ring := vd_avail_ring d; vd_used_ring := vd_used_ring d; vd_used_idx := vd_used_idx d; vd_free := vd_free d; vd_seen := vd_seen d; vd_info := vd_info d; vd_ops := vd_ops d; vd_regs := vd_regs d; vd_dev := vd_dev d |}.
Definition set_avail v r d := {| vd_desc := vd_desc d; vd_avail_idx := v; vd_avail_ring := r; vd_used_ring := vd_used_ring d; vd_used_idx := vd_used_idx d; vd_free := vd_free d; vd_seen := vd_seen d; vd_info := vd_info d; vd_ops := vd_ops d; vd_regs := vd_regs d; vd_dev := vd_dev d |}.
Definition set_used v r d := {| vd_desc := vd_desc d; vd_avail_idx := vd_avail_idx d; vd_avail_ring := vd_avail_ring d; vd_used_ring := r; vd_used_idx := v; vd_free := vd_free d; vd_seen := vd_seen d; vd_info := vd_info d; vd_ops := vd_ops d; vd_regs := vd_regs d; vd_dev := vd_dev d |}.
Definition set_free v d := {| vd_desc := vd_desc d; vd_avail_idx := vd_avail_idx d; vd_avail_ring := vd_avail_ring d; vd_used_ring := vd_used_ring d; vd_used_idx := vd_used_idx d; vd_free := v; vd_seen := vd_seen d; vd_info := vd_info d; vd_ops := vd_ops d; vd_regs := vd_regs d; vd_dev := vd_dev d |}.
Definition set_seen v d := {| vd_desc := vd_desc d; vd_avail_idx := vd_avail_idx d; vd_avail_ring := vd_avail_ring d; vd_used_ring := vd_used_ring d; vd_used_idx := vd_used_idx d; vd_free := vd_free d; vd_seen := v; vd_info := vd_info d; vd_ops := vd_ops d; vd_regs := vd_regs d; vd_dev := vd_dev d |}.
Definition set_info v d := {| vd_desc := vd_desc d; vd_avail_idx := vd_avail_idx d; vd_avail_ring := vd_avail_ring d; vd_used_ring := vd_used_ring d; vd_used_idx := vd_used_idx d; vd_free := vd_free d; vd_seen := vd_seen d; vd_info := v; vd_ops := vd_ops d; vd_regs := vd_regs d; vd_dev := vd_dev d |}.
Definition set_ops v d := {| vd_desc := vd_desc d; vd_avail_idx := vd_avail_idx d; vd_avail_ring := vd_avail_ring d; vd_used_ring := vd_used_ring d; vd_used_idx := vd_used_idx d; vd_free := vd_free d; vd_seen := vd_seen d; vd_info := vd_info d; vd_ops := v; vd_regs := vd_regs d; vd_dev := vd_dev d |}.
Definition set_regs v d := {| vd_desc := vd_desc d; vd_avail_idx := vd_avail_idx d; vd_avail_ring := vd_avail_ring d; vd_used_ring := vd_used_ring d; vd_used_idx := vd_used_idx d; vd_free := vd_free d; vd_seen := vd_seen d; vd_info := vd_info d; vd_ops := vd_ops d; vd_regs := v; vd_dev := vd_dev d |}.
Definition set_dev v d := {| vd_desc := vd_desc d; vd_avail_idx := vd_avail_idx d; vd_avail_ring := vd_avail_ring d; vd_used_ring := vd_used_ring d; vd_used_idx := vd_used_idx d; vd_free := vd_free d; vd_seen := vd_seen d; vd_info := vd_info d; vd_ops := vd_ops d; vd_regs := vd_regs d; vd_dev := v |}.

(** ** The machine state *)

Record mstate := mk_mstate {
  m_k : kstate;
  m_csr : csr -> Z;
  m_plic : gmap Z Z;                 (** PLIC registers by address *)
  m_irq : list Z;                    (** interrupts pending at the PLIC *)
  m_disk : vdisk;
  m_started : bool;                  (** [started] of kernel/main.c *)
  m_first : bool                     (** [first] of [forkret] *)
}.

Definition put_k v m := {| m_k := v; m_csr := m_csr m; m_plic := m_plic m; m_irq := m_irq m; m_disk := m_disk m; m_started := m_started m; m_first := m_first m |}.
Definition put_csr v m := {| m_k := m_k m; m_csr := v; m_plic := m_plic m; m_irq := m_irq m; m_disk := m_disk m; m_started := m_started m; m_first := m_first m |}.
Definition put_plic v m := {| m_k := m_k m; m_csr := m_csr m; m_plic := v; m_irq := m_irq m; m_disk := m_disk m; m_started := m_started m; m_first := m_first m |}.
Definition put_irq v m := {| m_k := m_k m; m_csr := m_csr m; m_plic := m_plic m; m_irq := v; m_disk := m_disk m; m_started := m_started m; m_first := m_first m |}.
Definition put_vdisk v m := {| m_k := m_k m; m_csr := m_csr m; m_plic := m_plic m; m_irq := m_irq m; m_disk := v; m_started := m_started m; m_first := m_first m |}.
Definition put_started v m := {| m_k := m_k m; m_csr := m_csr m; m_plic := m_plic m; m_irq := m_irq m; m_disk := m_disk m; m_started := v; m_first := m_first m |}.
Definition put_first v m := {| m_k := m_k m; m_csr := m_csr m; m_plic := m_plic m; m_irq := m_irq m; m_disk := m_disk m; m_started := m_started m; m_first := v |}.

Abbreviation MM := (K mstate).

(** Kernel code run on the machine. *)
Fixpoint olift {A} (o : outcome kstate A) (m : mstate) : outcome mstate A :=
  match o with
  | Ret a s => Ret a (put_k s m)
  | Fail e => Fail e
  | Switch s k => Switch (put_k s m) (fun m' => olift (k (m_k m')) m')
  end.
Definition lift {A} (c : M A) : MM A := fun m => olift (c (m_k m)) m.

Definition r_csr (r : csr) : MM Z := gets (fun m => m_csr m r).
Definition w_csr (r : csr) (v : Z) : MM unit :=
  modify (fun m => put_csr (fun r' => if bool_decide (r' = r) then u64 v else m_csr m r') m).

Definition SSTATUS_SPP : Z := Z.shiftl 1 8.
Definition SSTATUS_SPIE : Z := Z.shiftl 1 5.
Definition SSTATUS_SIE : Z := Z.shiftl 1 1.

Definition intr_on : MM unit := x <- r_csr SSTATUS ;; w_csr SSTATUS (Z.lor x SSTATUS_SIE).
Definition intr_off : MM unit := x <- r_csr SSTATUS ;; w_csr SSTATUS (Z.land x (Z.lnot SSTATUS_SIE)).
Definition intr_get : MM bool := x <- r_csr SSTATUS ;; ret (has x SSTATUS_SIE).

(** kernel/vm.c: [kvminithart]; the fences have no effect on this state. *)
Definition kvminithart : MM unit :=
  pt <- lift (gets g_kernel_pagetable) ;; w_csr SATP (MAKE_SATP pt).

(** ** kernel/plic.c *)

Definition w_plic (a v : Z) : MM unit := modify (fun m => put_plic (<[a := u32 v]> (m_plic m)) m).

Definition plicinit : MM unit :=
  w_plic (PLIC + UART0_IRQ * 4) 1 ;;
  w_plic (PLIC + VIRTIO0_IRQ * 4) 1.

Definition plicinithart : MM unit :=
  hart <- lift (gets g_hart) ;;
  w_plic (PLIC_SENABLE hart) (Z.lor (Z.shiftl 1 UART0_IRQ) (Z.shiftl 1 VIRTIO0_IRQ)) ;;
  w_plic (PLIC_SPRIORITY hart) 0.

(** Reading the claim register takes the next pending interrupt, 0 if none. *)
Definition plic_claim : MM Z := fun m =>
  match m_irq m with
  | [] => Ret 0 m
  | irq :: l => Ret irq (put_irq l m)
  end.

Definition plic_complete (irq : Z) : MM unit :=
  hart <- lift (gets g_hart) ;; w_plic (PLIC_SCLAIM hart) irq.

(** ** kernel/virtio_disk.c *)

Definition upd_vdisk (f : vdisk -> vdisk) : MM unit := modify (fun m => put_vdisk (f (m_disk m)) m).
Definition r_reg (r : Z) : MM Z := gets (fun m => default 0 (vd_regs (m_disk m) !! r)).
Definition w_reg (r v : Z) : MM unit := upd_vdisk (fun d => set_regs (<[r := u32 v]> (vd_regs d)) d).

Definition zero_desc : virtq_desc := {| d_addr := DNull; d_len := 0; d_flags := 0; d_next := 0 |}.
Definition upd_desc (i : nat) (f : virtq_desc -> virtq_desc) : MM unit := fun m =>
  match vd_desc (m_disk m) !! i with
  | Some x => Ret tt (put_vdisk (set_desc (<[i := f x]> (vd_desc (m_disk m))) (m_disk m)) m)
  | None => Fail (Undefined "desc")
  end.
Definition upd_info (i : nat) (f : vinfo -> vinfo) : MM unit := fun m =>
  match vd_info (m_disk m) !! i with
  | Some x => Ret tt (put_vdisk (set_info (<[i := f x]> (vd_info (m_disk m))) (m_disk m)) m)
  | None => Fail (Undefined "info")
  end.

(** Bits of the feature word the driver turns off. *)
Definition virtio_refused : list Z := [5; 7; 11; 12; 27; 29; 28].
Definition clear_bit (x b : Z) : Z := Z.land x (Z.lnot (Z.shiftl 1 b)).

Section virtio_init.
Context `{!KernelImage}.

Definition virtio_disk_init : MM unit :=
  lift (modify (fun s => put_locks (delete LVdisk (g_locks s)) s)) ;;
  magic <- r_reg 0x000 ;; version <- r_reg 0x004 ;; id <- r_reg 0x008 ;; vendor <- r_reg 0x00c ;;
  if negb (magic =? 0x74726976) || negb (version =? 2) || negb (id =? 2) || negb (vendor =? 0x554d4551)
  then panic "could not find virtio disk" else
  w_reg 0x070 0 ;;
  w_reg 0x070 1 ;;
  w_reg 0x070 3 ;;
  features <- r_reg 0x010 ;;
  w_reg 0x020 (foldl clear_bit features virtio_refused) ;;
  w_reg 0x070 11 ;;
  status <- r_reg 0x070 ;;
  if negb (has status 8) then panic "virtio disk FEATURES_OK unset" else
  w_reg 0x030 0 ;;
  ready <- r_reg 0x044 ;;
  if negb (ready =? 0) then panic "virtio disk should not be ready" else
  max <- r_reg 0x034 ;;
  if max =? 0 then panic "virtio disk has no queue 0" else
  if max <? Z.of_nat NUM then panic "virtio disk max queue too short" else
  desc <- lift kalloc ;;
  avail <- lift kalloc ;;
  used <- lift kalloc ;;
  if (desc =? 0) || (avail =? 0) || (used =? 0) then panic "virtio disk kalloc" else
  lift (kmemset desc 0 PGSIZE) ;;
  lift (kmemset avail 0 PGSIZE) ;;
  lift (kmemset used 0 PGSIZE) ;;
  upd_vdisk (fun d => set_desc (replicate NUM zero_desc)
    (set_avail 0 (replicate NUM 0%nat) (set_used 0 (replicate NUM 0%nat) d))) ;;
  w_reg 0x038 (Z.of_nat NUM) ;;
  w_reg 0x080 desc ;; w_reg 0x084 (Z.shiftr desc 32) ;;
  w_reg 0x090 avail ;; w_reg 0x094 (Z.shiftr avail 32) ;;
  w_reg 0x0a0 used ;; w_reg 0x0a4 (Z.shiftr used 32) ;;
  w_reg 0x044 1 ;;
  upd_vdisk (set_free (replicate NUM true)) ;;
  w_reg 0x070 (Z.lor status 4).
End virtio_init.

(** The index of a free descriptor, marked in use; [None] for -1. *)
Definition alloc_desc : MM (option nat) := fun m =>
  match list_find (fun b => b = true) (vd_free (m_disk m)) with
  | Some (i, _) => Ret (Some i) (put_vdisk (set_free (<[i := false]> (vd_free (m_disk m))) (m_disk m)) m)
  | None => Ret None m
  end.

Definition free_desc (i : nat) : MM unit :=
  if (NUM <=? i)%nat then panic "free_desc 1" else
  fr <- gets (fun m => vd_free (m_disk m) !! i) ;;
  b <- the "free" fr ;;
  if (b : bool) then panic "free_desc 2" else
  upd_desc i (fun _ => zero_desc) ;;
  upd_vdisk (fun d => set_free (<[i := true]> (vd_free d)) d) ;;
  lift (wakeup ChDiskFree).

Definition VRING_DESC_F_NEXT : Z := 1.
Definition VRING_DESC_F_WRITE : Z := 2.

Definition free_chain (i : nat) : MM unit :=
  loop (S NUM) (fun i =>
    d <- gets (fun m => vd_desc (m_disk m) !! i) ;;
    d <- the "desc" d ;;
    let flag := d_flags d in
    let nxt := d_next d in
    free_desc i ;;
    if has flag VRING_DESC_F_NEXT then ret (inl nxt) else ret (inr tt)) i.

(** [Some \[i0; i1; i2\]] for a return value of 0. *)
Definition alloc3_desc : MM (option (nat * nat * nat)) :=
  r0 <- alloc_desc ;;
  match r0 with
  | None => ret None
  | Some i0 =>
      r1 <- alloc_desc ;;
      match r1 with
      | None => free_desc i0 ;; ret None
      | Some i1 =>
          r2 <- alloc_desc ;;
          match r2 with
          | None => free_desc i0 ;; free_desc i1 ;; ret None
          | Some i2 => ret (Some (i0, i1, i2))
          end
      end
  end.

(** The wait for three descriptors. *)
Definition alloc3_wait (_ : unit) : MM (unit + (nat * nat * nat)) :=
  r <- alloc3_desc ;;
  match r with
  | Some idx => ret (inr idx)
  | None => lift (sleep ChDiskFree LVdisk) ;; ret (inl tt)
  end.

(** Formatting the descriptors and handing the chain to the device. *)
Definition disk_submit (b : nat) (write : bool) (sector : Z) (i0 i1 i2 : nat) : MM unit :=
  upd_vdisk (fun d => set_ops (<[i0 := {| r_type := if write then 1 else 0; r_reserved := 0;
                                          r_sector := sector |}]> (vd_ops d)) d) ;;
  upd_desc i0 (fun _ => {| d_addr := DOps i0; d_len := 16; d_flags := VRING_DESC_F_NEXT; d_next := i1 |}) ;;
  upd_desc i1 (fun _ => {| d_addr := DData b; d_len := BSIZE;
                           d_flags := Z.lor (if write then 0 else VRING_DESC_F_WRITE) VRING_DESC_F_NEXT;
                           d_next := i2 |}) ;;
  upd_info i0 (fun x => {| in_b := in_b x; in_status := 0xff |}) ;;
  upd_desc i2 (fun _ => {| d_addr := DStatus i0; d_len := 1; d_flags := VRING_DESC_F_WRITE; d_next := 0 |}) ;;
  lift (upd_buf b (set_b_disk true)) ;;
  upd_info i0 (fun x => {| in_b := Some b; in_status := in_status x |}) ;;
  upd_vdisk (fun d => set_avail (vd_avail_idx d)
    (<[Z.to_nat (vd_avail_idx d mod Z.of_nat NUM) := i0]> (vd_avail_ring d)) d) ;;
  upd_vdisk (fun d => set_avail (u16 (vd_avail_idx d + 1)) (vd_avail_ring d) d) ;;
  w_reg 0x050 0.

(** [while(b->disk == 1) sleep(b, &disk.vdisk_lock);] *)
Definition disk_wait (b : nat) (_ : unit) : MM (unit + unit) :=
  x <- lift (get_buf b) ;;
  if b_disk x then lift (sleep (ChBuf b) LVdisk) ;; ret (inl tt) else ret (inr tt).

Definition disk_rw (b : nat) (write : bool) : MM unit :=
  x <- lift (get_buf b) ;;
  let sector := u32 (b_blockno x * 2) in
  lift (lock_acquire LVdisk) ;;
  idx <- loop sleep_fuel alloc3_wait tt ;;
  let '(i0, i1, i2) := idx in
  disk_submit b write sector i0 i1 i2 ;;
  loop sleep_fuel (disk_wait b) tt ;;
  upd_info i0 (fun x => {| in_b := None; in_status := in_status x |}) ;;
  free_chain i0 ;;
  lift (lock_release LVdisk).

Definition disk_intr_body (_ : unit) : MM (unit + unit) :=
  d <- gets m_disk ;;
  if vd_seen d =? vd_used_idx d then ret (inr tt) else
  id <- the "used" (vd_used_ring d !! Z.to_nat (vd_seen d mod Z.of_nat NUM)) ;;
  x <- the "info" (vd_info d !! id) ;;
  if negb (in_status x =? 0) then panic "virtio_disk_intr status" else
  b <- the "b" (in_b x) ;;
  lift (upd_buf b (set_b_disk false)) ;;
  lift (wakeup (ChBuf b)) ;;
  upd_vdisk (set_seen (u16 (vd_seen d + 1))) ;;
  ret (inl tt).

(** The used ring has [NUM] entries. *)
Definition virtio_disk_intr : MM unit :=
  lift (lock_acquire LVdisk) ;;
  st <- r_reg 0x060 ;;
  w_reg 0x064 (Z.land st 3) ;;
  loop (S NUM) disk_intr_body tt ;;
  lift (lock_release LVdisk).

(** ** The device

    The device is not part of the program.  What the driver relies on is section 5.2.6 of the virtio 1.1
    specification: a request is a chain of three descriptors, the 16-byte header (read by the
    device), the data (written by the device exactly if the request is [VIRTIO_BLK_T_IN]) and one byte
    of status (written by the device). *)

Definition sizeof_virtio_blk_req : Z := 16.

(** The next request of the avail ring, if it has the prescribed form and transfers one block: the head of the chain,
    the buffer, the status byte and the header. *)
Definition blk_chain (d : vdisk) : option (nat * nat * nat * virtio_blk_req) :=
  if vd_dev d =? vd_avail_idx d then None else
  if negb (bool_decide (vd_regs d !! 0x050 = Some 0)) then None else
  i0 ← vd_avail_ring d !! Z.to_nat (vd_dev d mod Z.of_nat NUM);
  d0 ← vd_desc d !! i0;
  d1 ← vd_desc d !! d_next d0;
  d2 ← vd_desc d !! d_next d1;
  match d_addr d0, d_addr d1, d_addr d2 with
  | DOps o, DData b, DStatus st =>
      op ← vd_ops d !! o;
      if (d_len d0 =? sizeof_virtio_blk_req) && has (d_flags d0) VRING_DESC_F_NEXT && negb (has (d_flags d0) VRING_DESC_F_WRITE)
         && (d_len d1 =? BSIZE) && has (d_flags d1) VRING_DESC_F_NEXT
         && ((r_type op =? 0) && has (d_flags d1) VRING_DESC_F_WRITE || (r_type op =? 1) && negb (has (d_flags d1) VRING_DESC_F_WRITE))
         && (d_len d2 =? 1) && negb (has (d_flags d2) VRING_DESC_F_NEXT) && has (d_flags d2) VRING_DESC_F_WRITE
         && (r_sector op mod 2 =? 0)
      then Some (i0, b, st, op) else None
  | _, _, _ => None
  end.

(** The transfer of the two 512-byte sectors of a block. *)
Definition blk_transfer (k : kstate) (b : nat) (op : virtio_blk_req) : option kstate :=
  let bn := r_sector op / 2 in
  x ← g_bufs k !! b;
  if r_type op =? 1 then
    Some (put_dwrites (g_dwrites k ++ [(bn, b_data x)]) (put_disk (<[bn := b_data x]> (g_disk k)) k))
  else Some (put_bufs (<[b := set_b_data (disk_block (g_disk k) bn) x]> (g_bufs k)) k).

(** The request is done: status 0, and the head of the chain in the used ring. *)
Definition blk_done (i0 st : nat) (d : vdisk) : vdisk :=
  set_dev (u16 (vd_dev d + 1))
    (set_info (alter (fun x => {| in_b := in_b x; in_status := 0 |}) st (vd_info d))
      (set_used (u16 (vd_used_idx d + 1)) (<[Z.to_nat (vd_used_idx d mod Z.of_nat NUM) := i0]> (vd_used_ring d)) d)).

Class VirtioBlk := {
  (** What the device does next; [None] when it does nothing. *)
  device : mstate -> option mstate;
  device_serves : forall m i0 b st op k',
    blk_chain (m_disk m) = Some (i0, b, st, op) -> blk_transfer (m_k m) b op = Some k' ->
    device m = Some (put_k k' (put_vdisk (blk_done i0 st (m_disk m)) m))
}.

(** A device that serves such requests and refuses all others. *)
Definition strict_device : VirtioBlk.
Proof.
  refine {| device := fun m =>
    '(i0, b, st, op) ← blk_chain (m_disk m);
    k' ← blk_transfer (m_k m) b op;
    Some (put_k k' (put_vdisk (blk_done i0 st (m_disk m)) m)) |}.
  intros m i0 b st op k' E1 E2. rewrite E1. cbn. by rewrite E2.
Defined.
