(* ===== verification/DiskSpec.v ===== *)
(** * The disk driver implements synchronous block transfers

    The buffer cache is written against [virtio_disk_rw], which moves a block
    between a buffer and the disk in one step.  Here the driver's real code, [disk_rw]
    and [virtio_disk_intr] of kernel/virtio_disk.c, is run together with the
    device (any that keeps the promise of [VirtioBlk]) and the scheduler: the caller submits a chain of descriptors
    and sleeps, the device does the transfer, the interrupt wakes the caller, and when
    it returns the kernel state is what [virtio_disk_rw] computes. *)

From Stdlib Require Import ZArith Lia.
From stdpp Require Import base list gmap strings numbers option.
From S2P Require Import Prelude Bytes Riscv Cstring Kstate Sched Kalloc Vm Bio Machine.

(** No request is in progress; [a] requests were made so far (modulo 2^16). *)
Record quiet (a : Z) (d : vdisk) : Prop := {
  qt_free : vd_free d = replicate NUM true;
  qt_desc : length (vd_desc d) = NUM;
  qt_avail : length (vd_avail_ring d) = NUM;
  qt_used : length (vd_used_ring d) = NUM;
  qt_info : length (vd_info d) = NUM;
  qt_ops : length (vd_ops d) = NUM;
  qt_a : 0 <= a < 65536;
  qt_avail_idx : vd_avail_idx d = a;
  qt_used_idx : vd_used_idx d = a;
  qt_seen : vd_seen d = a;
  qt_dev : vd_dev d = a
}.

(** The driver's memory after the request for buffer [b] was submitted. *)
Definition submitted (b : nat) (write : bool) (sector : Z) (d : vdisk) : vdisk :=
  set_regs (<[0x050 := u32 0]> (vd_regs d))
  (set_avail (u16 (vd_avail_idx d + 1)) (<[Z.to_nat (vd_avail_idx d mod 8) := 0%nat]> (vd_avail_ring d))
  (set_info (<[0%nat := {| in_b := Some b; in_status := 0xff |}]> (vd_info d))
  (set_desc
    (<[0%nat := {| d_addr := DOps 0; d_len := 16; d_flags := 1; d_next := 1 |}]>
    (<[1%nat := {| d_addr := DData b; d_len := 1024; d_flags := Z.lor (if write then 0 else 2) 1; d_next := 2 |}]>
    (<[2%nat := {| d_addr := DStatus 0; d_len := 1; d_flags := 2; d_next := 0 |}]> (vd_desc d))))
  (set_ops (<[0%nat := {| r_type := if write then 1 else 0; r_reserved := 0; r_sector := sector |}]> (vd_ops d))
  (set_free [false; false; false; true; true; true; true; true] d))))).

(** Lists of eight elements, written out. *)
Lemma eight {A} (l : list A) : length l = NUM ->
  exists a b c d e f g h, l = [a; b; c; d; e; f; g; h].
Proof. do 8 (destruct l as [|? l]; [done|]). destruct l; [|done]. intros _. by repeat eexists. Qed.

Lemma alloc3_run m :
  vd_free (m_disk m) = replicate NUM true ->
  alloc3_desc m = Ret (Some (0%nat, 1%nat, 2%nat))
    (put_vdisk (set_free [false; false; false; true; true; true; true; true] (m_disk m)) m).
Proof.
  intros H. destruct m as [k c pl irq d sta fst]. destruct d. simpl in H. subst. reflexivity.
Qed.

(** Submitting changes the driver's memory and marks the buffer. *)
Lemma disk_submit_run b write sector a d m x :
  quiet a d -> m_disk m = set_free [false; false; false; true; true; true; true; true] d ->
  g_bufs (m_k m) !! b = Some x ->
  disk_submit b write sector 0 1 2 m =
    Ret tt (put_vdisk (submitted b write sector d)
      (put_k (put_bufs (<[b := set_b_disk true x]> (g_bufs (m_k m))) (m_k m)) m)).
Proof.
  intros [Hf Hd Ha Hu Hi Ho _ _ _ _ _] Em Hx. destruct m as [k c pl irq d0 sta fst]. simpl in Em, Hx. subst d0.
  destruct d as [desc aidx aring uring uidx free seen info ops regs dev]. simpl in *.
  destruct (eight desc Hd) as (? & ? & ? & ? & ? & ? & ? & ? & ->).
  destruct (eight info Hi) as (? & ? & ? & ? & ? & ? & ? & ? & ->).
  unfold disk_submit, bind, upd_vdisk, upd_desc, upd_info, modify. cbn.
  unfold lift, upd_buf. cbn. rewrite (arr_upd_run "buf" g_bufs put_bufs b _ k x Hx). cbn. reflexivity.
Qed.

Lemma u16_next a : 0 <= a < 65536 -> (a =? u16 (a + 1)) = false.
Proof. intros H. apply Z.eqb_neq. unfold u16, wrapU. change (2 ^ 16) with 65536. zlia. Qed.

(** The device has served the request. *)
Definition served (d : vdisk) : vdisk := blk_done 0 0 d.

(** What [virtio_disk_rw] does to the kernel state. *)
Definition transferred (b : nat) (write : bool) (x : buf) (k : kstate) : kstate :=
  if write then put_dwrites (g_dwrites k ++ [(disk_blockno (b_blockno x), b_data x)]) (put_disk (<[disk_blockno (b_blockno x) := b_data x]> (g_disk k)) k)
  else put_bufs (<[b := set_b_data (disk_block (g_disk k) (disk_blockno (b_blockno x))) x]> (g_bufs k)) k.

Lemma virtio_disk_rw_run b write x k :
  g_bufs k !! b = Some x -> virtio_disk_rw b write k = Ret tt (transferred b write x k).
Proof.
  intros Hx. unfold virtio_disk_rw, get_buf. rewrite (bind_run _ _ _ _ _ (arr_get_run "buf" g_bufs b k x Hx)).
  destruct write; [done|]. rewrite (bind_run (gets g_disk) _ k _ k eq_refl).
  unfold upd_buf. by rewrite (arr_upd_run "buf" g_bufs put_bufs b _ k x Hx).
Qed.

(** The chain that the driver hands over is a request of the prescribed form. *)
Lemma submitted_chain b write a d sector :
  quiet a d -> sector mod 2 = 0 ->
  blk_chain (submitted b write sector d) =
    Some (0%nat, b, 0%nat, {| r_type := if write then 1 else 0; r_reserved := 0; r_sector := sector |}).
Proof.
  intros [Hf Hd Ha Hu Hi Ho Hr Ea Eu Es Ed] Hs.
  destruct d as [desc aidx aring uring uidx free seen info ops regs dev]. simpl in *. subst.
  destruct (eight desc Hd) as (? & ? & ? & ? & ? & ? & ? & ? & ->).
  destruct (eight ops Ho) as (? & ? & ? & ? & ? & ? & ? & ? & ->).
  unfold blk_chain. simpl vd_dev. simpl vd_avail_idx. rewrite u16_next by done. simpl vd_regs.
  rewrite lookup_insert_eq, bool_decide_true by done. cbn [negb]. simpl vd_avail_ring. change (Z.of_nat NUM) with 8.
  pose proof (Z.mod_pos_bound a 8 ltac:(lia)).
  rewrite list_lookup_insert_eq by (rewrite Ha; unfold NUM; lia). cbn. rewrite Hs. by destruct write.
Qed.

Lemma device_run `{!VirtioBlk} b write a d m x :
  quiet a d -> g_bufs (m_k m) !! b = Some x ->
  m_disk m = submitted b write (u32 (b_blockno x * 2)) d ->
  device m = Some (put_k (transferred b write x (m_k m)) (put_vdisk (served (m_disk m)) m)).
Proof.
  intros Hq Hx Em. apply (device_serves m 0 b 0 {| r_type := if write then 1 else 0; r_reserved := 0; r_sector := u32 (b_blockno x * 2) |}).
  - rewrite Em. apply (submitted_chain b write a); [done|]. unfold u32, wrapU. change (2 ^ 32) with 4294967296. zlia.
  - unfold blk_transfer. rewrite Hx. by destruct write.
Qed.

(** ** The interrupt *)

Lemma lift_run {A} (c : M A) m a k' : c (m_k m) = Ret a k' -> lift c m = Ret a (put_k k' m).
Proof. intros E. unfold lift. by rewrite E. Qed.

(** The driver's memory after the interrupt. *)
Definition acked (d : vdisk) : vdisk :=
  set_seen (u16 (vd_seen d + 1)) (set_regs (<[0x064 := u32 (Z.land (default 0 (vd_regs d !! 0x060)) 3)]> (vd_regs d)) d).

(** One turn of the interrupt's loop. *)
Lemma intr_entry_run b x id y m :
  (vd_seen (m_disk m) =? vd_used_idx (m_disk m)) = false ->
  vd_used_ring (m_disk m) !! Z.to_nat (vd_seen (m_disk m) mod 8) = Some id ->
  vd_info (m_disk m) !! id = Some y -> in_status y = 0 -> in_b y = Some b ->
  g_bufs (m_k m) !! b = Some x -> length (g_procs (m_k m)) = NPROC -> procs_unlocked (m_k m) ->
  disk_intr_body tt m = Ret (inl tt) (put_vdisk (set_seen (u16 (vd_seen (m_disk m) + 1)) (m_disk m))
    (put_k (put_procs (imap (wake (ChBuf b) (g_curproc (m_k m))) (g_procs (m_k m)))
      (put_bufs (<[b := set_b_disk false x]> (g_bufs (m_k m))) (m_k m))) m)).
Proof.
  intros Hne Hu Hi Hs Hb Hx Hlen Hun. unfold disk_intr_body.
  rewrite (bind_run (gets m_disk) _ m _ m eq_refl), Hne. change (Z.of_nat NUM) with 8. rewrite Hu. cbn [the].
  rewrite (bind_run (ret id) _ m _ m eq_refl), Hi. cbn [the]. rewrite (bind_run (ret y) _ m _ m eq_refl), Hs, Hb. cbn [Z.eqb negb the].
  rewrite (bind_run (ret b) _ m _ m eq_refl).
  rewrite (bind_run _ _ _ _ _ (lift_run _ m _ _ (arr_upd_run "buf" g_bufs put_bufs b _ (m_k m) x Hx))).
  set (k1 := put_bufs _ _).
  rewrite (bind_run _ _ _ _ _ (lift_run (wakeup (ChBuf b)) (put_k k1 m) _ _ (wakeup_run _ k1 Hlen Hun))).
  reflexivity.
Qed.

(** One finished request, of buffer [b], waits in the used ring. *)
Record finished (b : nat) (a : Z) (d : vdisk) : Prop := {
  fin_a : 0 <= a < 65536;
  fin_seen : vd_seen d = a;
  fin_used : vd_used_idx d = u16 (a + 1);
  fin_ring : vd_used_ring d !! Z.to_nat (a mod 8) = Some 0%nat;
  fin_info : vd_info d !! 0%nat = Some {| in_b := Some b; in_status := 0 |}
}.

Lemma served_finished a d b write sector :
  quiet a d -> finished b a (served (submitted b write sector d)).
Proof.
  intros [Hf Hd Ha Hu Hi Ho Hr Ea Eu Es Ed]. pose proof (Z.mod_pos_bound a 8 ltac:(lia)).
  unfold NUM in *. split; [done|done|simpl; by rewrite Eu| |].
  - unfold served, blk_done. simpl vd_used_ring. simpl vd_used_idx. rewrite Eu. change (Z.of_nat NUM) with 8. apply list_lookup_insert_eq. lia.
  - simpl. rewrite list_lookup_alter, list_lookup_insert_eq by lia. done.
Qed.

Lemma intr_loop_run b a x m :
  finished b a (m_disk m) -> g_bufs (m_k m) !! b = Some x ->
  length (g_procs (m_k m)) = NPROC -> procs_unlocked (m_k m) ->
  loop (Datatypes.S NUM) disk_intr_body tt m =
    Ret tt (put_vdisk (set_seen (u16 (vd_seen (m_disk m) + 1)) (m_disk m))
    (put_k (put_procs (imap (wake (ChBuf b) (g_curproc (m_k m))) (g_procs (m_k m)))
      (put_bufs (<[b := set_b_disk false x]> (g_bufs (m_k m))) (m_k m))) m)).
Proof.
  intros [Hr Es Eu Hring Hinfo] Hx Hlen Hun.
  pose proof (fun y => intr_entry_run b x 0%nat y m) as E. rewrite Es, Eu in E.
  specialize (E _ (u16_next a Hr) Hring Hinfo eq_refl eq_refl Hx Hlen Hun). rewrite Es. set (m3 := put_vdisk _ _) in *.
  unfold NUM. cbn [loop]. rewrite (bind_run _ _ _ _ _ E).
  assert (disk_intr_body tt m3 = Ret (inr tt) m3) as E2.
  { unfold disk_intr_body. rewrite (bind_run (gets m_disk) _ m3 _ m3 eq_refl).
    replace (vd_seen (m_disk m3) =? vd_used_idx (m_disk m3)) with true; [done|].
    symmetry. apply Z.eqb_eq. unfold m3. simpl. by rewrite Eu. }
  by rewrite (bind_run _ _ _ _ _ E2).
Qed.

Lemma disk_intr_run b a x m :
  finished b a (m_disk m) -> g_bufs (m_k m) !! b = Some x -> lock_free LVdisk (m_k m) ->
  length (g_procs (m_k m)) = NPROC -> procs_unlocked (m_k m) ->
  virtio_disk_intr m = Ret tt (put_vdisk (acked (m_disk m)) (put_k
    (put_procs (imap (wake (ChBuf b) (g_curproc (m_k m))) (g_procs (m_k m)))
      (put_bufs (<[b := set_b_disk false x]> (g_bufs (m_k m))) (m_k m))) m)).
Proof.
  intros Hfin Hx Hlk Hlen Hun. destruct m as [k c pl irq d sta fst]. cbn [m_k m_disk] in *.
  unfold virtio_disk_intr. erewrite bind_run; [|apply lift_run, (lock_acquire_run LVdisk k Hlk)].
  set (k1 := put_locks _ k). set (m1 := put_k k1 _).
  rewrite (bind_run (r_reg 0x060) _ m1 _ m1 eq_refl).
  rewrite (bind_run (w_reg 0x064 _) _ m1 tt _ eq_refl).
  assert (procs_unlocked k1) as Hun1.
  { intros i. unfold lock_free, k1. kget. rewrite lookup_insert_ne by done. apply Hun. }
  erewrite bind_run; [|apply (intr_loop_run b a x); [destruct Hfin; by constructor|exact Hx|exact Hlen|exact Hun1]].
  erewrite lift_run; [|eapply (lock_release_section LVdisk (g_hart k) (g_locks k)); [reflexivity|exact Hlk|reflexivity]].
  unfold m1, k1. clear. f_equal. kstate_eq.
Qed.

(** ** After the wake-up *)

Definition freed (i : nat) (m : mstate) : mstate :=
  put_k (put_procs (imap (wake ChDiskFree (g_curproc (m_k m))) (g_procs (m_k m))) (m_k m))
    (put_vdisk (set_free (<[i := true]> (vd_free (m_disk m)))
      (set_desc (<[i := zero_desc]> (vd_desc (m_disk m))) (m_disk m))) m).

Lemma free_desc_run i x m :
  (i < NUM)%nat -> vd_free (m_disk m) !! i = Some false -> vd_desc (m_disk m) !! i = Some x ->
  length (g_procs (m_k m)) = NPROC -> procs_unlocked (m_k m) ->
  free_desc i m = Ret tt (freed i m).
Proof.
  intros Hi Hf Hd Hlen Hun. unfold free_desc. destruct (Nat.leb_spec NUM i); [lia|].
  rewrite (bind_run (gets _) _ m _ m eq_refl), Hf. cbn [the]. rewrite (bind_run (ret false) _ m _ m eq_refl).
  unfold upd_desc at 1. unfold bind at 1. rewrite Hd. cbn [obind]. unfold bind, upd_vdisk, modify. cbn [obind].
  erewrite lift_run; [|apply wakeup_run; [exact Hlen|exact Hun]]. reflexivity.
Qed.

(** One turn of the loop of [free_chain]. *)
Definition chain_body (i : nat) : MM (nat + unit) :=
  d <- gets (fun m => vd_desc (m_disk m) !! i) ;;
  d <- the "desc" d ;;
  free_desc i ;;
  if has (d_flags d) VRING_DESC_F_NEXT then ret (inl (d_next d)) else ret (inr tt).

Lemma chain_body_run i x m :
  (i < NUM)%nat -> vd_free (m_disk m) !! i = Some false -> vd_desc (m_disk m) !! i = Some x ->
  length (g_procs (m_k m)) = NPROC -> procs_unlocked (m_k m) ->
  chain_body i m = Ret (if has (d_flags x) 1 then inl (d_next x) else inr tt) (freed i m).
Proof.
  intros Hi Hf Hd Hlen Hun. unfold chain_body.
  rewrite (bind_run (gets _) _ m _ m eq_refl), Hd. cbn [the]. rewrite (bind_run (ret x) _ m _ m eq_refl).
  rewrite (bind_run _ _ _ _ _ (free_desc_run i x m Hi Hf Hd Hlen Hun)).
  change VRING_DESC_F_NEXT with 1. by destruct (has (d_flags x) 1).
Qed.

Lemma loop_turn {S X R} n (body : X -> K S (X + R)) x x' s s' :
  body x s = Ret (inl x') s' -> loop (Datatypes.S n) body x s = loop n body x' s'.
Proof. intros E. cbn [loop]. by rewrite (bind_run _ _ _ _ _ E). Qed.

Lemma loop_leave {S X R} n (body : X -> K S (X + R)) x r s s' :
  body x s = Ret (inr r) s' -> loop (Datatypes.S n) body x s = Ret r s'.
Proof. intros E. cbn [loop]. by rewrite (bind_run _ _ _ _ _ E). Qed.

Lemma freed_procs i m : length (g_procs (m_k m)) = NPROC -> length (g_procs (m_k (freed i m))) = NPROC.
Proof. intros H. unfold freed. simpl. kget. by rewrite length_imap. Qed.

Lemma free_chain_run x0 x1 x2 ds fs m :
  vd_desc (m_disk m) = x0 :: x1 :: x2 :: ds -> vd_free (m_disk m) = false :: false :: false :: fs ->
  has (d_flags x0) 1 = true -> d_next x0 = 1%nat -> has (d_flags x1) 1 = true -> d_next x1 = 2%nat ->
  has (d_flags x2) 1 = false ->
  length (g_procs (m_k m)) = NPROC -> procs_unlocked (m_k m) ->
  free_chain 0 m = Ret tt (freed 2 (freed 1 (freed 0 m))).
Proof.
  intros Ed Ef F0 N0 F1 N1 F2 Hlen Hun. change (free_chain 0 m) with (loop 9 chain_body 0%nat m).
  erewrite loop_turn; [|rewrite (chain_body_run 0 x0), F0, N0; unfold NUM; try (by rewrite Ef) || (by rewrite Ed) || done || lia].
  pose proof (freed_procs 0 m Hlen) as H1. pose proof (freed_procs 1 _ H1) as H2.
  erewrite loop_turn; [|rewrite (chain_body_run 1 x1), F1, N1; unfold NUM; try (simpl; by rewrite Ef) || (simpl; by rewrite Ed) || done || lia].
  erewrite loop_leave; [|rewrite (chain_body_run 2 x2), F2; unfold NUM; try (simpl; by rewrite Ef) || (simpl; by rewrite Ed) || done || lia].
  done.
Qed.

(** ** Submitting and going to sleep *)

Section request.
Context (b : nat) (write : bool) (a : Z) (p : nat) (pr : proc) (x : buf) (m : mstate).
Hypotheses (Hq : quiet a (m_disk m)) (Hx : g_bufs (m_k m) !! b = Some x)
  (Hc : g_curproc (m_k m) = Some p) (Hp : g_procs (m_k m) !! p = Some pr) (HL : g_locks (m_k m) = ∅).

(** The kernel state while the caller sleeps. *)
Definition waiting : kstate :=
  put_procs (<[p := asleep (ChBuf b) pr]> (g_procs (m_k m)))
    (put_locks {[LProc p := g_hart (m_k m)]}
      (put_bufs (<[b := set_b_disk true x]> (g_bufs (m_k m))) (m_k m))).

Definition disk_finish (i0 : nat) : MM unit :=
  upd_info i0 (fun x => {| in_b := None; in_status := in_status x |}) ;;
  free_chain i0 ;;
  lift (lock_release LVdisk).

Lemma disk_rw_sleeps : exists k,
  disk_rw b write m = Switch (put_k waiting (put_vdisk (submitted b write (u32 (b_blockno x * 2)) (m_disk m)) m)) k /\
  forall m' pr', g_procs (m_k m') !! p = Some pr' -> g_locks (m_k m') = {[LProc p := g_hart (m_k m')]} ->
    k m' = (loop 7 (disk_wait b) tt ;; disk_finish 0)
      (put_k (put_procs (<[p := set_p_chan None pr']> (g_procs (m_k m'))) (put_locks {[LVdisk := g_hart (m_k m')]} (m_k m'))) m').
Proof.
  unfold disk_rw. erewrite bind_run; [|apply lift_run, (arr_get_run "buf" g_bufs b (m_k m) x Hx)].
  erewrite bind_run; [|apply lift_run, lock_acquire_run]; [|unfold lock_free; simpl; by rewrite HL].
  set (k1 := put_locks _ _). set (m1 := put_k k1 (put_k (m_k m) m)).
  assert (loop sleep_fuel alloc3_wait tt m1 = Ret (0%nat, 1%nat, 2%nat)
    (put_vdisk (set_free [false; false; false; true; true; true; true; true] (m_disk m)) m1)) as EA.
  { apply loop_leave. unfold alloc3_wait. rewrite (bind_run _ _ _ _ _ (alloc3_run m1 (qt_free _ _ Hq))). reflexivity. }
  rewrite (bind_run _ _ _ _ _ EA). cbn beta iota.
  erewrite bind_run; [|apply (disk_submit_run _ _ _ a (m_disk m) _ x Hq); [reflexivity|exact Hx]].
  set (k2 := put_bufs _ _). set (m2 := put_vdisk _ (put_k k2 _)).
  destruct (sleep_run (ChBuf b) LVdisk p pr k2) as (k & E & Hk); try done.
  { change (<[LVdisk := g_hart (m_k m)]> (g_locks (m_k m)) = {[LVdisk := g_hart (m_k m)]}). rewrite HL. apply insert_empty. }
  unfold bind at 1. change (loop sleep_fuel (disk_wait b) tt m2) with
    (obind (disk_wait b tt m2) (fun r => match r with inl _ => loop 7 (disk_wait b) tt | inr v => ret v end)).
  assert (disk_wait b tt m2 = obind (olift (sleep (ChBuf b) LVdisk k2) m2) (fun _ => ret (inl tt))) as EW.
  { unfold disk_wait. erewrite bind_run; [|apply lift_run, (arr_get_run "buf" g_bufs b k2 (set_b_disk true x))].
    - done.
    - unfold k2. kget. apply list_lookup_insert_eq. by eapply lookup_lt_Some. }
  rewrite EW, E. cbn [olift obind]. eexists. split; [reflexivity|]. intros m' pr' Hp' HL'.
  cbn beta. rewrite (Hk _ _ Hp' HL'). reflexivity.
Qed.
End request.

(** ** The caller returns *)

Lemma disk_finish_run b a x y0 y1 y2 ds fs ys m :
  vd_desc (m_disk m) = y0 :: y1 :: y2 :: ds -> vd_free (m_disk m) = false :: false :: false :: fs ->
  has (d_flags y0) 1 = true -> d_next y0 = 1%nat -> has (d_flags y1) 1 = true -> d_next y1 = 2%nat ->
  has (d_flags y2) 1 = false -> vd_info (m_disk m) = a :: ys ->
  g_bufs (m_k m) !! b = Some x -> b_disk x = false ->
  length (g_procs (m_k m)) = NPROC -> g_locks (m_k m) = {[LVdisk := g_hart (m_k m)]} ->
  (loop 7 (disk_wait b) tt ;; disk_finish 0) m =
    Ret tt (put_k (put_procs (let f := imap (wake ChDiskFree (g_curproc (m_k m))) in f (f (f (g_procs (m_k m)))))
                     (put_locks ∅ (m_k m)))
      (put_vdisk (set_free (true :: true :: true :: fs) (set_desc (zero_desc :: zero_desc :: zero_desc :: ds)
        (set_info ({| in_b := None; in_status := in_status a |} :: ys) (m_disk m)))) m)).
Proof.
  intros Ed Ef F0 N0 F1 N1 F2 Ei Hx Hb Hlen HL.
  erewrite bind_run; [|apply loop_leave; unfold disk_wait;
    erewrite bind_run; [|apply lift_run, (arr_get_run "buf" g_bufs b (m_k m) x Hx)]; rewrite Hb; reflexivity].
  replace (put_k (m_k m) m) with m by by destruct m.
  unfold disk_finish, upd_info. unfold bind at 1. rewrite Ei. cbn [lookup list_lookup insert list_insert obind].
  erewrite bind_run; [|apply (free_chain_run y0 y1 y2 ds fs); try done].
  2: { intros i. unfold lock_free. simpl. rewrite HL. by apply lookup_singleton_ne. }
  erewrite lift_run; [|eapply (lock_release_section LVdisk (g_hart (m_k m)) ∅); [|apply lookup_empty|reflexivity]].
  2: { simpl. kget. rewrite HL. symmetry. apply insert_empty. }
  f_equal. destruct m as [k c pl irq d sta fst]. destruct d. simpl in *. subst. reflexivity.
Qed.

(** ** The whole request *)

(** Processes other than [p] may have been woken, and nothing else of them changed. *)
Definition others_woken (p : nat) (ps ps' : list proc) : Prop :=
  length ps' = length ps /\ forall j y, j <> p -> ps !! j = Some y ->
    exists y', ps' !! j = Some y' /\ (y' = y \/ (p_state y = SLEEPING /\ y' = set_p_state RUNNABLE y)).

Lemma others_woken_trans p a b c : others_woken p a b -> others_woken p b c -> others_woken p a c.
Proof.
  intros [L1 H1] [L2 H2]. split; [congruence|]. intros j y Hj Hy.
  destruct (H1 j y Hj Hy) as (y1 & Hy1 & E1). destruct (H2 j y1 Hj Hy1) as (y2 & Hy2 & E2).
  exists y2. split; [done|]. destruct E1 as [->|[Hs ->]]; [done|]. destruct E2 as [->|[Hs2 ->]]; [by right|done].
Qed.

Lemma others_woken_insert p pr ps : others_woken p ps (<[p := pr]> ps).
Proof.
  split; [apply length_insert|]. intros j y Hj Hy. exists y. split; [by rewrite list_lookup_insert_ne|by left].
Qed.

Lemma others_woken_wake p c me ps : others_woken p ps (imap (wake c me) ps).
Proof.
  split; [apply length_imap|]. intros j y _ Hy. exists (wake c me j y).
  split; [by rewrite list_lookup_imap, Hy|]. unfold wake.
  destruct (bool_decide (Some j <> me)); simpl; [|by left].
  destruct (bool_decide_reflect (p_state y = SLEEPING)); simpl; [|by left].
  destruct (bool_decide (p_chan y = Some c)); [by right|by left].
Qed.

(** Code that runs as [p] does not wake [p]. *)
Lemma wake_self c p ps : imap (wake c (Some p)) ps !! p = ps !! p.
Proof.
  rewrite list_lookup_imap. destruct (ps !! p) as [y|]; [|done]. simpl. unfold wake.
  by rewrite bool_decide_false by naive_solver.
Qed.

(** The transfer with the buffer marked busy, and the mark taken off again, is the
    plain transfer. *)
Definition moved (write : bool) (x : buf) (k : kstate) : buf :=
  if write then set_b_disk true x else set_b_data (disk_block (g_disk k) (disk_blockno (b_blockno x))) (set_b_disk true x).

Lemma transferred_busy b write x ps L o k :
  g_bufs k !! b = Some x -> b_disk x = false ->
  let k2 := put_curproc None (put_locks L (put_procs ps (put_bufs (<[b := set_b_disk true x]> (g_bufs k)) k))) in
  let k3 := put_curproc o (transferred b write (set_b_disk true x) k2) in
  g_bufs k3 !! b = Some (moved write x k) /\
  put_bufs (<[b := set_b_disk false (moved write x k)]> (g_bufs k3)) k3 =
    put_curproc o (put_locks L (put_procs ps (transferred b write x k))).
Proof.
  intros Hx Hb k2 k3. pose proof (lookup_lt_Some _ _ _ Hx) as Hlt. unfold k3, k2, transferred, moved.
  assert (set_b_disk false (set_b_disk true x) = x) as E by (destruct x; simpl in Hb; by subst).
  destruct write; split.
  - kget. by apply list_lookup_insert_eq.
  - kget. rewrite list_insert_insert_eq, E, list_insert_id by done. clear. kstate_eq.
  - kget. apply list_lookup_insert_eq. by rewrite length_insert.
  - kget. rewrite !list_insert_insert_eq. 
    replace (set_b_disk false (set_b_data (disk_block (g_disk k) (disk_blockno (b_blockno x))) (set_b_disk true x)))
      with (set_b_data (disk_block (g_disk k) (disk_blockno (b_blockno x))) x) by (destruct x; simpl in Hb; by subst).
    clear. kstate_eq.
Qed.

Lemma submitted_shape b write sector a d : quiet a d ->
  exists y0 y1 y2 ds ys, let e := acked (served (submitted b write sector d)) in
    vd_desc e = y0 :: y1 :: y2 :: ds /\ vd_free e = [false; false; false; true; true; true; true; true] /\
    has (d_flags y0) 1 = true /\ d_next y0 = 1%nat /\ has (d_flags y1) 1 = true /\ d_next y1 = 2%nat /\
    has (d_flags y2) 1 = false /\ vd_info e = {| in_b := Some b; in_status := 0 |} :: ys /\
    length ds = 5%nat /\ length ys = 7%nat.
Proof.
  intros [Hf Hd Ha Hu Hi Ho Hr Ea Eu Es Ed].
  destruct (eight _ Hd) as (d0 & d1 & d2 & ? & ? & ? & ? & ? & E).
  destruct (eight _ Hi) as (? & ? & ? & ? & ? & ? & ? & ? & E').
  simpl. rewrite E, E'. simpl. repeat eexists; by destruct write.
Qed.

Lemma quiet_again b write sector a d ds ys :
  quiet a d -> length ds = 5%nat -> length ys = 7%nat ->
  quiet (u16 (a + 1)) (set_free (replicate NUM true) (set_desc (zero_desc :: zero_desc :: zero_desc :: ds)
    (set_info ({| in_b := None; in_status := 0 |} :: ys) (acked (served (submitted b write sector d)))))).
Proof.
  intros [Hf Hd Ha Hu Hi Ho Hr Ea Eu Es Ed] Hds Hys.
  assert (0 <= u16 (a + 1) < 65536) by (unfold u16, wrapU; apply Z.mod_pos_bound; lia).
  split; simpl; rewrite ?length_insert; unfold NUM in *; congruence || lia || done.
Qed.

Lemma transferred_buf b write x k : g_bufs k !! b = Some x -> b_disk x = false ->
  exists y, g_bufs (transferred b write x k) !! b = Some y /\ b_disk y = false.
Proof.
  intros Hx Hb. unfold transferred. destruct write; [by exists x|].
  exists (set_b_data (disk_block (g_disk k) (disk_blockno (b_blockno x))) x). split; [|by destruct x].
  kget. apply list_lookup_insert_eq. by eapply lookup_lt_Some.
Qed.

Lemma transferred_rest b write x k : g_locks (transferred b write x k) = g_locks k /\
  g_curproc (transferred b write x k) = g_curproc k /\ g_hart (transferred b write x k) = g_hart k.
Proof. by destruct write. Qed.

(** From the call to the interrupt. *)
Lemma request_served `{!VirtioBlk} b write a p pr o x m :
  quiet a (m_disk m) -> g_bufs (m_k m) !! b = Some x -> b_disk x = false ->
  g_curproc (m_k m) = Some p -> g_procs (m_k m) !! p = Some pr -> length (g_procs (m_k m)) = NPROC ->
  g_locks (m_k m) = ∅ -> o <> Some p ->
  let d1 := submitted b write (u32 (b_blockno x * 2)) (m_disk m) in
  let ps := imap (wake (ChBuf b) o) (<[p := asleep (ChBuf b) pr]> (g_procs (m_k m))) in
  exists m1 K m2 m3,
    disk_rw b write m = Switch m1 K /\ lift (scheduler_leave p) m1 = Ret tt m2 /\ device m2 = Some m3 /\
    virtio_disk_intr (put_k (put_curproc o (m_k m3)) m3) = Ret tt
      (put_k (put_procs ps (put_curproc o (put_locks ∅ (transferred b write x (m_k m)))))
        (put_vdisk (acked (served d1)) m)) /\
    forall m' pr', g_procs (m_k m') !! p = Some pr' -> g_locks (m_k m') = {[LProc p := g_hart (m_k m')]} ->
      K m' = (loop 7 (disk_wait b) tt ;; disk_finish 0)
        (put_k (put_procs (<[p := set_p_chan None pr']> (g_procs (m_k m'))) (put_locks {[LVdisk := g_hart (m_k m')]} (m_k m'))) m').
Proof.
  intros Hq Hx Hb Hc Hp Hlen HL Ho d1 ps. pose proof (lookup_lt_Some _ _ _ Hp) as Hlt.
  destruct (disk_rw_sleeps b write a p pr x m Hq Hx Hc Hp HL) as (K & E1 & HK). fold d1 in E1.
  set (kw := waiting b p pr x m) in *. set (m1 := put_k kw (put_vdisk d1 m)) in *.
  set (k2 := put_curproc None (put_locks ∅ kw)). set (m2 := put_k k2 m1).
  destruct (transferred_busy b write x (<[p := asleep (ChBuf b) pr]> (g_procs (m_k m))) ∅ o (m_k m) Hx Hb) as [Hmv Ek].
  change (put_curproc None _) with k2 in Hmv, Ek. set (k3 := put_curproc o _) in Hmv, Ek.
  set (m3 := put_k (transferred b write (set_b_disk true x) k2) (put_vdisk (served d1) m2)).
  exists m1, K, m2, m3. split; [done|]. split; [apply lift_run; by apply scheduler_leave_run|]. split; [|split; [|exact HK]].
  { apply (device_run b write a (m_disk m)); try done. unfold k2, kw, waiting. simpl. kget.
    apply list_lookup_insert_eq. by eapply lookup_lt_Some. }
  change (put_k (put_curproc o (m_k m3)) m3) with (put_k k3 (put_vdisk (served d1) m)).
  assert (g_locks k3 = ∅) as HL3 by (unfold k3, transferred; by destruct write).
  assert (g_procs k3 = <[p := asleep (ChBuf b) pr]> (g_procs (m_k m))) as Hp3 by (unfold k3, transferred; by destruct write).
  erewrite (disk_intr_run b a (moved write x (m_k m))).
  - cbn [m_k m_disk put_k put_vdisk]. rewrite Ek, Hp3. reflexivity.
  - by apply served_finished.
  - exact Hmv.
  - unfold lock_free. cbn [m_k put_k]. by rewrite HL3.
  - cbn [m_k put_k]. rewrite Hp3. by rewrite length_insert.
  - intros i. unfold lock_free. cbn [m_k put_k]. by rewrite HL3.
Qed.

(** [C10] The driver implements the synchronous transfer, on any device that serves the requests whose descriptors have
    the form (lengths, directions, chaining, status byte) that the virtio specification prescribes: a thread that calls
    [virtio_disk_rw] submits its request and sleeps; the scheduler leaves it, the
    device serves the request, the interrupt (taken with any other process or none
    running) wakes the thread, the scheduler enters it and the call returns.  The kernel state is then
    that of the one-step transfer the buffer cache is verified against, up to processes
    made RUNNABLE, and the queue is idle again with the indices advanced by one (modulo
    2^16), so that the next request runs the same way. *)
Theorem disk_rw_refines `{!VirtioBlk} b write a p pr o x m :
  quiet a (m_disk m) -> g_bufs (m_k m) !! b = Some x -> b_disk x = false ->
  g_curproc (m_k m) = Some p -> g_procs (m_k m) !! p = Some pr -> length (g_procs (m_k m)) = NPROC ->
  g_locks (m_k m) = ∅ -> o <> Some p ->
  exists m1 K m2 m3 m4 m5 m6 k',
    disk_rw b write m = Switch m1 K /\ lift (scheduler_leave p) m1 = Ret tt m2 /\
    device m2 = Some m3 /\ virtio_disk_intr (put_k (put_curproc o (m_k m3)) m3) = Ret tt m4 /\
    lift (scheduler_enter p) m4 = Ret true m5 /\ K m5 = Ret tt m6 /\
    virtio_disk_rw b write (m_k m) = Ret tt k' /\ m_k m6 = put_procs (g_procs (m_k m6)) k' /\
    g_procs (m_k m6) !! p = Some (set_p_chan None (set_p_state RUNNING pr)) /\
    others_woken p (g_procs (m_k m)) (g_procs (m_k m6)) /\ quiet (u16 (a + 1)) (m_disk m6).
Proof.
  intros Hq Hx Hb Hc Hp Hlen HL Ho. pose proof (lookup_lt_Some _ _ _ Hp) as Hlt.
  destruct (request_served b write a p pr o x m) as (m1 & K & m2 & m3 & E1 & E2 & E3 & E4 & HK); [done..|].
  set (ps := imap _ _) in E4. set (k4 := put_procs ps _) in E4. set (m4 := put_k k4 _) in E4.
  assert (ps !! p = Some (set_p_state RUNNABLE (asleep (ChBuf b) pr))) as Hps.
  { unfold ps. rewrite list_lookup_imap, list_lookup_insert_eq by done. simpl. unfold wake.
    rewrite bool_decide_true by naive_solver. by rewrite !bool_decide_true by done. }
  pose proof (scheduler_enter_run p _ k4 Hps eq_refl eq_refl) as E5. set (k5 := put_curproc _ _) in E5.
  assert (g_procs k5 !! p = Some (set_p_state RUNNING (set_p_state RUNNABLE (asleep (ChBuf b) pr)))) as Hp5
    by (apply list_lookup_insert_eq; by eapply lookup_lt_Some).
  exists m1, K, m2, m3, m4, (put_k k5 m4). rewrite (HK (put_k k5 m4) _ Hp5 eq_refl).
  destruct (submitted_shape b write (u32 (b_blockno x * 2)) a (m_disk m) Hq)
    as (y0 & y1 & y2 & ds & ys & Hd & Hf & F0 & N0 & F1 & N1 & F2 & Hi & Lds & Lys).
  destruct (transferred_buf b write x (m_k m) Hx Hb) as (y & Hy & Hby).
  destruct (transferred_rest b write x (m_k m)) as (RL & RC & RH).
  erewrite (disk_finish_run b _ y y0 y1 y2 ds _ ys); cycle 1; [exact Hd|exact Hf|done..|exact Hi|exact Hy|exact Hby| |done|].
  { unfold k5, k4, ps. cbn [m_k put_k]. kget. by rewrite !length_insert, length_imap, length_insert. }
  eexists. exists (transferred b write x (m_k m)).
  split; [exact E1|]. split; [exact E2|]. split; [exact E3|]. split; [exact E4|]. split; [by apply lift_run|].
  split; [reflexivity|]. split; [by apply virtio_disk_rw_run|]. cbn [m_k put_k m_disk put_vdisk]. split; [|split; [|split]].
  - unfold k5, k4. kget. generalize (g_procs (m_k m)) as L. intros. rewrite <-Hc, <-RC, <-HL, <-RL.
    generalize (transferred b write x (m_k m)). clear. intros k. kstate_eq.
  - unfold k5, k4. kget. rewrite !wake_self. rewrite list_lookup_insert_eq; [done|].
    unfold ps. by rewrite length_insert, length_imap, length_insert.
  - unfold k5, k4. kget.
    do 3 (eapply others_woken_trans; [|apply others_woken_wake]). do 2 (eapply others_woken_trans; [|apply others_woken_insert]).
    unfold ps. eapply others_woken_trans; [|apply others_woken_wake]. apply others_woken_insert.
  - by apply quiet_again.
Qed.

(** The queue after [virtio_disk_init], with process 0 about to write buffer 0. *)
Definition idle_disk : vdisk :=
  {| vd_desc := replicate NUM zero_desc; vd_avail_idx := 0; vd_avail_ring := replicate NUM 0%nat;
     vd_used_ring := replicate NUM 0%nat; vd_used_idx := 0; vd_free := replicate NUM true; vd_seen := 0;
     vd_info := replicate NUM {| in_b := None; in_status := 0 |};
     vd_ops := replicate NUM {| r_type := 0; r_reserved := 0; r_sector := 0 |}; vd_regs := ∅; vd_dev := 0 |}.

Definition idle_machine : mstate :=
  {| m_k := put_curproc (Some 0%nat) boot; m_csr := fun _ => 0; m_plic := ∅; m_irq := []; m_disk := idle_disk;
     m_started := true; m_first := false |}.

(** On the device that refuses every other chain. *)
Lemma disk_rw_refines_witness : exists m1 K m2 m3 m4 m5 m6,
  disk_rw 0 true idle_machine = Switch m1 K /\ lift (scheduler_leave 0) m1 = Ret tt m2 /\ @device strict_device m2 = Some m3 /\
  virtio_disk_intr (put_k (put_curproc None (m_k m3)) m3) = Ret tt m4 /\
  lift (scheduler_enter 0) m4 = Ret true m5 /\ K m5 = Ret tt m6 /\ quiet 1 (m_disk m6).
Proof.
  destruct (@disk_rw_refines strict_device 0 true 0 0 zero_proc None zero_buf idle_machine)
    as (m1 & K & m2 & m3 & m4 & m5 & m6 & k' & E1 & E2 & E3 & E4 & E5 & E6 & _ & _ & _ & _ & Hq).
  - split; reflexivity || (split; [lia|reflexivity]).
  - reflexivity.
  - reflexivity.
  - reflexivity.
  - reflexivity.
  - reflexivity.
  - reflexivity.
  - discriminate.
  - exists m1, K, m2, m3, m4, m5, m6. by split_and!.
Defined.
