(* ===== verification/Trap.v ===== *)
(** * Traps and booting: kernel/trap.c, kernel/start.c, kernel/main.c and
    [forkret] of kernel/proc.c

    Returning to user space is the end of a kernel thread: [usertrapret]
    returns the [satp] value it passes to [userret] in the trampoline. *)

From Stdlib Require Import ZArith Lia.
From stdpp Require Import base list gmap strings numbers option.
From S2P Require Import Prelude Bytes Riscv Cstring Kstate Sched Kalloc Vm Uart Printf Console.
From S2P Require Import Bio Log Fs File Proc Sysargs Exec Sysfile Syscall Machine.

Section trap.
Context `{!KernelImage, !KernelCode}.

Definition trapinit : MM unit :=
  lift (modify (fun s => put_locks (delete LTicks (g_locks s)) s)).

Definition trapinithart : MM unit := w_csr STVEC kernelvec_addr.

Definition usertrapret : MM Z :=
  p <- lift curp ;;
  intr_off ;;
  w_csr STVEC (TRAMPOLINE + uservec_off) ;;
  satp <- r_csr SATP ;;
  lift (tf_store p TF_kernel_satp satp) ;;
  pr <- lift (get_proc p) ;;
  lift (tf_store p TF_kernel_sp (p_kstack pr + PGSIZE)) ;;
  lift (tf_store p TF_kernel_trap usertrap_addr) ;;
  tp <- lift (gets g_hart) ;;
  lift (tf_store p TF_kernel_hartid tp) ;;
  x <- r_csr SSTATUS ;;
  let x := Z.land x (Z.lnot SSTATUS_SPP) in
  let x := Z.lor x SSTATUS_SPIE in
  w_csr SSTATUS x ;;
  epc <- lift (tf_load p TF_epc) ;;
  w_csr SEPC epc ;;
  ret (MAKE_SATP (p_pagetable pr)).

Definition clockintr : MM unit :=
  id <- lift cpuid ;;
  when (id =? 0)
    (lift (lock_acquire LTicks) ;;
     lift (modify (fun s => put_ticks (u32 (g_ticks s + 1)) s)) ;;
     lift (wakeup ChTicks) ;;
     lift (lock_release LTicks)) ;;
  t <- r_csr TIME ;;
  w_csr STIMECMP (t + 1000000).

Definition devintr : MM Z :=
  scause <- r_csr SCAUSE ;;
  if scause =? 0x8000000000000009 then
    irq <- plic_claim ;;
    (if irq =? UART0_IRQ then lift uartintr
     else if irq =? VIRTIO0_IRQ then virtio_disk_intr
     else when (negb (irq =? 0))
            (lift (printf (bytes_of "unexpected interrupt irq=%d" ++ newline) [AInt irq]))) ;;
    when (negb (irq =? 0)) (plic_complete irq) ;;
    ret 1
  else if scause =? 0x8000000000000005 then clockintr ;; ret 2
  else ret 0.

Definition usertrap : MM Z :=
  st <- r_csr SSTATUS ;;
  if has st SSTATUS_SPP then panic "usertrap: not from user mode" else
  w_csr STVEC kernelvec_addr ;;
  p <- lift curp ;;
  sepc <- r_csr SEPC ;;
  lift (tf_store p TF_epc sepc) ;;
  scause <- r_csr SCAUSE ;;
  which_dev <-
    (if scause =? 8 then
       k <- lift (killed p) ;;
       when k (lift (exit (-1))) ;;
       epc <- lift (tf_load p TF_epc) ;;
       lift (tf_store p TF_epc (u64 (epc + 4))) ;;
       intr_on ;;
       lift syscall ;;
       ret 0
     else
       w <- devintr ;;
       if negb (w =? 0) then ret w else
       pr <- lift (get_proc p) ;;
       stval <- r_csr STVAL ;;
       lift (printf (bytes_of "usertrap(): unexpected scause 0x%lx pid=%d" ++ newline)
               [AInt scause; AInt (p_pid pr)]) ;;
       lift (printf (bytes_of "            sepc=0x%lx stval=0x%lx" ++ newline)
               [AInt sepc; AInt stval]) ;;
       lift (setkilled p) ;;
       ret 0) ;;
  k <- lift (killed p) ;;
  when k (lift (exit (-1))) ;;
  when (which_dev =? 2) (lift yield) ;;
  usertrapret.

Definition kerneltrap : MM unit :=
  sepc <- r_csr SEPC ;;
  sstatus <- r_csr SSTATUS ;;
  scause <- r_csr SCAUSE ;;
  if negb (has sstatus SSTATUS_SPP) then panic "kerneltrap: not from supervisor mode" else
  i <- intr_get ;;
  if (i : bool) then panic "kerneltrap: interrupts enabled" else
  which_dev <- devintr ;;
  if which_dev =? 0 then
    stval <- r_csr STVAL ;;
    lift (printf (bytes_of "scause=0x%lx sepc=0x%lx stval=0x%lx" ++ newline)
            [AInt scause; AInt sepc; AInt stval]) ;;
    panic "kerneltrap"
  else
  me <- lift myproc ;;
  when ((which_dev =? 2) && bool_decide (me <> None)) (lift yield) ;;
  w_csr SEPC sepc ;;
  w_csr SSTATUS sstatus.

(** kernel/proc.c: the first code a new process runs. *)
Definition forkret : MM Z :=
  p <- lift curp ;;
  lift (lock_release (LProc p)) ;;
  first <- gets m_first ;;
  when first (lift (fsinit ROOTDEV) ;; modify (put_first false)) ;;
  usertrapret.

(** ** kernel/start.c *)

Definition MSTATUS_MPP_MASK : Z := Z.shiftl 3 11.
Definition MSTATUS_MPP_S : Z := Z.shiftl 1 11.
Definition SIE_SEIE : Z := Z.shiftl 1 9.
Definition SIE_STIE : Z := Z.shiftl 1 5.
Definition SIE_SSIE : Z := Z.shiftl 1 1.
Definition MIE_STIE : Z := Z.shiftl 1 5.

Definition timerinit : MM unit :=
  x <- r_csr MIE ;; w_csr MIE (Z.lor x MIE_STIE) ;;
  x <- r_csr MENVCFG ;; w_csr MENVCFG (Z.lor x (Z.shiftl 1 63)) ;;
  x <- r_csr MCOUNTEREN ;; w_csr MCOUNTEREN (Z.lor x 2) ;;
  t <- r_csr TIME ;; w_csr STIMECMP (t + 1000000).

(** [main_addr] is the address of [main]; [mret] jumps to it. *)
Definition start (main_addr : Z) : MM unit :=
  x <- r_csr MSTATUS ;;
  w_csr MSTATUS (Z.lor (Z.land x (Z.lnot MSTATUS_MPP_MASK)) MSTATUS_MPP_S) ;;
  w_csr MEPC main_addr ;;
  w_csr SATP 0 ;;
  w_csr MEDELEG 0xffff ;;
  w_csr MIDELEG 0xffff ;;
  x <- r_csr SIE ;;
  w_csr SIE (Z.lor (Z.lor (Z.lor x SIE_SEIE) SIE_STIE) SIE_SSIE) ;;
  w_csr PMPADDR0 0x3fffffffffffff ;;
  w_csr PMPCFG0 0xf ;;
  timerinit ;;
  id <- r_csr MHARTID ;;
  w_csr TP id ;;
  lift (modify (put_hart (s32 id))).

(** ** kernel/main.c: up to the call of [scheduler] *)

Definition main : MM unit :=
  id <- lift cpuid ;;
  if id =? 0 then
    lift consoleinit ;;
    lift printfinit ;;
    lift (printf newline []) ;;
    lift (printf (bytes_of "xv6 kernel is booting" ++ newline) []) ;;
    lift (printf newline []) ;;
    lift kinit ;;
    lift kvminit ;;
    kvminithart ;;
    lift procinit ;;
    trapinit ;;
    trapinithart ;;
    plicinit ;;
    plicinithart ;;
    lift binit ;;
    lift iinit ;;
    lift fileinit ;;
    virtio_disk_init ;;
    lift userinit ;;
    modify (put_started true)
  else
    st <- gets m_started ;;
    if negb st then fail Spinning else
    lift (printf (bytes_of "hart %d starting" ++ newline) [AInt id]) ;;
    kvminithart ;;
    trapinithart ;;
    plicinithart.
End trap.
