(* ===== verification/Unix.v ===== *)
(** * What user programs see of the system: user/user.h

    User programs run in a small monad of their own: a program returns, exits
    with a status, or runs out of fuel.  The system calls they make are the operations of
    the class [Unix] over an abstract world [W]; a program's theorems are proved
    against the laws of the class [Streams], which state what reading and writing
    descriptors promise.  [term] is an instance: descriptors with their remaining input, and a
    reader that is given at most [chunk] bytes at a time. *)

From Stdlib Require Import ZArith Lia.
From stdpp Require Import base list gmap strings numbers option.
From S2P Require Import Prelude.

(** ** The monad *)

Inductive uresult (W A : Type) : Type :=
| Val (a : A) (w : W)          (** the function returned *)
| Exited (status : Z) (w : W)  (** [exit(status)] *)
| Execed (path : list Z) (argv : list (list Z)) (w : W)  (** [exec] replaced the program *)
| Stuck (what : string)        (** access outside an object *)
| Unfinished.                  (** a bounded loop ran out of fuel *)
Arguments Val {W A} a w.
Arguments Exited {W A} status w.
Arguments Execed {W A} path argv w.
Arguments Stuck {W A} what.
Arguments Unfinished {W A}.

Definition U (W A : Type) : Type := W -> uresult W A.

Definition uret {W A} (a : A) : U W A := fun w => Val a w.
Definition ubind {W A B} (m : U W A) (f : A -> U W B) : U W B := fun w =>
  match m w with
  | Val a w' => f a w'
  | Exited st w' => Exited st w'
  | Execed p a w' => Execed p a w'
  | Stuck s => Stuck s
  | Unfinished => Unfinished
  end.
Definition exit {W A} (status : Z) : U W A := fun w => Exited status w.

Declare Scope user_scope.
Delimit Scope user_scope with user.
Notation "x <~ m ;; f" := (ubind m (fun x => f))
  (at level 100, m at next level, right associativity) : user_scope.
Notation "m ;;~ f" := (ubind m (fun _ => f))
  (at level 100, right associativity) : user_scope.
Open Scope user_scope.

Definition uwhen {W} (b : bool) (m : U W unit) : U W unit := if b then m else uret tt.

(** A loop: the body gives new loop variables or the loop's result. *)
Fixpoint uloop {W X R} (fuel : nat) (body : X -> U W (X + R)) (x : X) : U W R :=
  match fuel with
  | O => fun _ => Unfinished
  | S fuel' =>
      r <~ body x ;;
      match r with inl x' => uloop fuel' body x' | inr v => uret v end
  end.

Lemma ubind_val {W A B} (m : U W A) (f : A -> U W B) w a w' :
  m w = Val a w' -> ubind m f w = f a w'.
Proof. intros E. unfold ubind. by rewrite E. Qed.

Lemma ubind_exit {W A B} (m : U W A) (f : A -> U W B) w st w' :
  m w = Exited st w' -> ubind m f w = Exited st w'.
Proof. intros E. unfold ubind. by rewrite E. Qed.

(** ** The system calls *)

Record ustat := { st_dev : Z; st_type : Z; st_ino : Z; st_nlink : Z; st_size : Z }.

(** Strings are the characters before the terminating nul; a call returns its
    result and the new world.  The world is that of one process: [sys_fork] returns 0
    to the child and the child's pid to the parent. *)
Class Unix (W : Type) := {
  sys_read : Z -> Z -> W -> (Z * list Z) * W;   (** the result and the bytes stored in the buffer *)
  sys_write : Z -> list Z -> W -> Z * W;
  sys_open : list Z -> Z -> W -> Z * W;
  sys_close : Z -> W -> Z * W;
  sys_fstat : Z -> W -> option ustat * W;
  sys_kill : Z -> W -> Z * W;
  sys_link : list Z -> list Z -> W -> Z * W;
  sys_unlink : list Z -> W -> Z * W;
  sys_mkdir : list Z -> W -> Z * W;
  sys_sbrk : Z -> W -> Z * W;
  sys_fork : W -> Z * W;
  sys_wait : W -> (Z * Z) * W;   (** the child's pid, or -1, and the exit status *)
  sys_getpid : W -> Z * W;
  sys_pipe : W -> option (Z * Z) * W;
  sys_dup : Z -> W -> Z * W;
  sys_chdir : list Z -> W -> Z * W;
  sys_mknod : list Z -> Z -> Z -> W -> Z * W;
  sys_exec : list Z -> list (list Z) -> W -> bool * W;  (** [true]: the program is replaced *)
  sys_sleep : Z -> W -> Z * W
}.

Section calls.
Context {W : Type} `{!Unix W}.

Definition ucall {A} (f : W -> A * W) : U W A := fun w => let '(a, w') := f w in Val a w'.
Definition uread (fd n : Z) : U W (Z * list Z) := ucall (sys_read fd n).
Definition uwrite (fd : Z) (bs : list Z) : U W Z := ucall (sys_write fd bs).
Definition uopen (path : list Z) (mode : Z) : U W Z := ucall (sys_open path mode).
Definition uclose (fd : Z) : U W Z := ucall (sys_close fd).
Definition ufstat (fd : Z) : U W (option ustat) := ucall (sys_fstat fd).
Definition ukill (pid : Z) : U W Z := ucall (sys_kill pid).
Definition ulink (old new : list Z) : U W Z := ucall (sys_link old new).
Definition uunlink (path : list Z) : U W Z := ucall (sys_unlink path).
Definition umkdir (path : list Z) : U W Z := ucall (sys_mkdir path).
Definition usbrk (n : Z) : U W Z := ucall (sys_sbrk n).
Definition ufork : U W Z := ucall sys_fork.
(** [wait(0)] *)
Definition uwait : U W Z := r <~ ucall sys_wait ;; uret r.1.
(** [wait(&st)]: without a child the variable keeps its value, if it has one. *)
Definition uwait_status (st : option Z) : U W (Z * option Z) :=
  r <~ ucall sys_wait ;; uret (r.1, if r.1 <? 0 then st else Some r.2).
Definition ugetpid : U W Z := ucall sys_getpid.
Definition upipe : U W (option (Z * Z)) := ucall sys_pipe.
Definition udup (fd : Z) : U W Z := ucall (sys_dup fd).
Definition uchdir (path : list Z) : U W Z := ucall (sys_chdir path).
Definition umknod (path : list Z) (major minor : Z) : U W Z := ucall (sys_mknod path major minor).
Definition usleep (n : Z) : U W Z := ucall (sys_sleep n).
(** [exec] returns only on failure. *)
Definition uexec (path : list Z) (argv : list (list Z)) : U W Z := fun w =>
  let '(ok, w') := sys_exec path argv w in if ok then Execed path argv w' else Val (-1) w'.
End calls.

(** ** Descriptors as streams *)

(** [pending fd w] are the bytes still to be read from [fd], [produced fd w]
    the bytes written to it so far.  A read of a positive number of bytes gives a
    non-empty prefix of what is pending, as much as the system likes, and nothing exactly
    at the end; a write takes everything. *)
Class Streams (W : Type) `{!Unix W} := {
  pending : Z -> W -> list Z;
  produced : Z -> W -> list Z;
  read_some fd n w : 0 < n -> pending fd w <> [] -> exists k w',
    sys_read fd n w = ((Z.of_nat k, take k (pending fd w)), w') /\
    (1 <= k <= length (pending fd w))%nat /\ Z.of_nat k <= n /\
    pending fd w' = drop k (pending fd w) /\ (forall fd', fd' <> fd -> pending fd' w' = pending fd' w) /\
    (forall fd', produced fd' w' = produced fd' w);
  read_end fd n w : 0 < n -> pending fd w = [] -> sys_read fd n w = ((0, []), w);
  read_none fd w : sys_read fd 0 w = ((0, []), w);
  write_all fd bs w : exists w', sys_write fd bs w = (Z.of_nat (length bs), w') /\
    produced fd w' = produced fd w ++ bs /\ (forall fd', fd' <> fd -> produced fd' w' = produced fd' w) /\
    (forall fd', pending fd' w' = pending fd' w)
}.

(** Only output to [fd] happened, and it was [out]. *)
Definition wrote_to {W} `{!Unix W, !Streams W} (fd : Z) (out : list Z) (w w' : W) : Prop :=
  produced fd w' = produced fd w ++ out /\ (forall fd', fd' <> fd -> produced fd' w' = produced fd' w) /\
  (forall fd', pending fd' w' = pending fd' w).

Section output.
Context {W : Type} `{!Unix W, !Streams W}.

Lemma wrote_to_nil fd w : wrote_to fd [] w w.
Proof. split; [by rewrite app_nil_r|done]. Qed.

Lemma wrote_app fd a b w1 w2 w3 : wrote_to fd a w1 w2 -> wrote_to fd b w2 w3 -> wrote_to fd (a ++ b) w1 w3.
Proof.
  intros (P1 & O1 & I1) (P2 & O2 & I2). split; [by rewrite P2, P1, (assoc_L (++))|].
  split; intros fd'; [intros Hne; by rewrite O2, O1|by rewrite I2, I1].
Qed.

Lemma uwrite_run fd bs w : exists w', uwrite fd bs w = Val (Z.of_nat (length bs)) w' /\ wrote_to fd bs w w'.
Proof. destruct (write_all fd bs w) as (w' & E & H). exists w'. unfold uwrite, ucall. by rewrite E. Qed.
End output.

(** ** An instance *)

Record term := mk_term {
  t_in : gmap Z (list Z);
  t_out : gmap Z (list Z);
  t_chunk : nat;
  t_brk : Z
}.

Definition t_pending (fd : Z) (w : term) : list Z := default [] (t_in w !! fd).
Definition t_produced (fd : Z) (w : term) : list Z := default [] (t_out w !! fd).

#[export] Instance term_unix : Unix term := {
  sys_read fd n w :=
    let k := Nat.min (Z.to_nat n) (Nat.min (S (t_chunk w)) (length (t_pending fd w))) in
    if (k =? 0)%nat then ((0, []), w) else
    ((Z.of_nat k, take k (t_pending fd w)),
     {| t_in := <[fd := drop k (t_pending fd w)]> (t_in w); t_out := t_out w; t_chunk := t_chunk w; t_brk := t_brk w |});
  sys_write fd bs w :=
    (Z.of_nat (length bs),
     {| t_in := t_in w; t_out := <[fd := t_produced fd w ++ bs]> (t_out w); t_chunk := t_chunk w; t_brk := t_brk w |});
  sys_open path mode w := (-1, w);
  sys_close fd w := (0, w);
  sys_fstat fd w := (None, w);
  sys_kill pid w := (-1, w);
  sys_link old new w := (-1, w);
  sys_unlink path w := (-1, w);
  sys_mkdir path w := (-1, w);
  sys_sbrk n w :=
    if t_brk w + n >? 2 ^ 36 then (-1, w) else
    (t_brk w, {| t_in := t_in w; t_out := t_out w; t_chunk := t_chunk w; t_brk := t_brk w + n |});
  sys_fork w := (-1, w);
  sys_wait w := ((-1, 0), w);
  sys_getpid w := (1, w);
  sys_pipe w := (None, w);
  sys_dup fd w := (-1, w);
  sys_chdir path w := (-1, w);
  sys_mknod path major minor w := (-1, w);
  sys_exec path argv w := (false, w);
  sys_sleep n w := (0, w)
}.

#[export] Program Instance term_streams : Streams term := {
  pending := t_pending;
  produced := t_produced
}.
Next Obligation.
  intros fd n w Hn Hp. cbn [sys_read term_unix]. set (k := Nat.min _ _).
  assert (1 <= k <= length (t_pending fd w))%nat as Hk.
  { unfold k. assert (length (t_pending fd w) <> 0%nat) by (by destruct (t_pending fd w)). zlia. }
  destruct (Nat.eqb_spec k 0); [lia|]. eexists k, _. split; [done|]. split; [done|]. split; [lia|].
  unfold t_pending, t_produced. simpl. split; [by rewrite lookup_insert_eq|]. split; [|done].
  intros fd' Hne. by rewrite lookup_insert_ne.
Qed.
Next Obligation. intros fd n w Hn Hp. simpl. rewrite Hp. simpl. by rewrite !Nat.min_0_r. Qed.
Next Obligation. done. Qed.
Next Obligation.
  intros fd bs w. simpl. eexists. split; [done|]. unfold t_pending, t_produced. simpl.
  split; [by rewrite lookup_insert_eq|]. split; [|done]. intros fd' Hne. by rewrite lookup_insert_ne.
Qed.
