(* ===== verification/Ulib.v ===== *)
(** * The user library: user/ulib.c and user/printf.c

    The string routines are loops over byte-addressed memory, as in Cstring; a
    loop that looks for a nul byte has fuel and gives [None] without it.  Formatted output
    goes to a descriptor one character at a time through [write]. *)

From Stdlib Require Import ZArith Lia.
From stdpp Require Import base list gmap strings numbers option.
From S2P Require Import Prelude Bytes Cstring Riscv Kstate Uart Printf PrintSpec Unix.

Module Ulib.

(** ** user/ulib.c *)

(** [while(( *s++ = *t++) != 0);] *)
Fixpoint strcpy (fuel : nat) (m : mem) (s t : Z) : option mem :=
  match fuel with
  | O => None
  | S fuel' =>
      let m' := store8 m s (load8 m t) in
      if load8 m t =? 0 then Some m' else strcpy fuel' m' (s + 1) (t + 1)
  end.

(** [while( *p && *p == *q) p++, q++; return (uchar)*p - (uchar)*q;] *)
Fixpoint strcmp (fuel : nat) (m : mem) (p q : Z) : option Z :=
  match fuel with
  | O => None
  | S fuel' =>
      if negb (load8 m p =? 0) && (load8 m p =? load8 m q) then strcmp fuel' m (p + 1) (q + 1)
      else Some (load8 m p - load8 m q)
  end.

Fixpoint strlen_loop (fuel : nat) (m : mem) (s n : Z) : option Z :=
  match fuel with
  | O => None
  | S fuel' => if load8 m (s + n) =? 0 then Some n else strlen_loop fuel' m s (n + 1)
  end.
Definition strlen (fuel : nat) (m : mem) (s : Z) : option Z := strlen_loop fuel m s 0.

Definition memset (m : mem) (dst c n : Z) : mem := memset_loop (Z.to_nat n) m dst 0 c.

(** The address, or 0. *)
Fixpoint strchr (fuel : nat) (m : mem) (s c : Z) : option Z :=
  match fuel with
  | O => None
  | S fuel' =>
      if load8 m s =? 0 then Some 0
      else if load8 m s =? c then Some s else strchr fuel' m (s + 1) c
  end.

(** The arithmetic is that of [int]. *)
Fixpoint atoi_loop (fuel : nat) (m : mem) (s n : Z) : option Z :=
  match fuel with
  | O => None
  | S fuel' =>
      let c := load8 m s in
      if (48 <=? c) && (c <=? 57) then atoi_loop fuel' m (s + 1) (s32 (n * 10 + c - 48)) else Some n
  end.
Definition atoi (fuel : nat) (m : mem) (s : Z) : option Z := atoi_loop fuel m s 0.

(** Forward when the source lies above the destination, backward otherwise. *)
Definition memmove (m : mem) (vdst vsrc n : Z) : mem :=
  if vsrc >? vdst then move_up (Z.to_nat n) m vdst vsrc
  else move_down (Z.to_nat n) m (vdst + n) (vsrc + n).

Definition memcmp (m : mem) (s1 s2 n : Z) : Z := memcmp_loop (Z.to_nat n) m s1 s2.
Definition memcpy (m : mem) (dst src n : Z) : mem := memmove m dst src n.

Section calls.
Context {W : Type} `{!Unix W}.

(** The characters [gets] stores before the nul: [i] of them so far. *)
Definition gets_body (max : Z) (buf : list Z) : U W (list Z + list Z) :=
  if negb (Z.of_nat (length buf) + 1 <? max) then uret (inr buf) else
  r <~ uread 0 1 ;;
  let '(cc, bs) := r in
  if cc <? 1 then uret (inr buf) else
  let c := default 0 (bs !! 0%nat) in
  if (c =? 10) || (c =? 13) then uret (inr (buf ++ [c])) else uret (inl (buf ++ [c])).
Definition gets (max : Z) : U W (list Z) := uloop (S (Z.to_nat max)) (gets_body max) [].

(** [None] for -1. *)
Definition stat (n : list Z) : U W (option ustat) :=
  fd <~ uopen n 0 ;;
  if fd <? 0 then uret None else
  r <~ ufstat fd ;;
  uclose fd ;;~
  uret r.

(** ** user/printf.c *)

Definition putc (fd c : Z) : U W unit := uwrite fd [c] ;;~ uret tt.

(** [digits\[d\]] *)
Definition udigit (d : Z) : Z := if d <? 10 then 48 + d else 55 + d.

Fixpoint udigits (fuel : nat) (base x : Z) : list Z :=
  match fuel with
  | O => []
  | S fuel' => udigit (x mod base) :: (if x / base =? 0 then [] else udigits fuel' base (x / base))
  end.

(** The contents of [buf] before it is printed backward. *)
Definition uprint_buf (xx base : Z) (sgn : bool) : list Z :=
  let neg := sgn && (xx <? 0) in
  let x := u32 (if neg then - xx else xx) in
  udigits 32 base x ++ (if neg then [45] else []).

Fixpoint putcs (fd : Z) (l : list Z) : U W unit :=
  match l with
  | [] => uret tt
  | c :: l' => putc fd c ;;~ putcs fd l'
  end.

Definition printint (fd xx base : Z) (sgn : bool) : U W unit :=
  let buf := uprint_buf (s32 xx) base sgn in
  if (16 <? length buf)%nat then fun _ => Stuck "printint: buf" else putcs fd (reverse buf).

Fixpoint printptr_loop (n : nat) (fd x : Z) : U W unit :=
  match n with
  | O => uret tt
  | S n' => putc fd (udigit (Z.shiftr x 60)) ;;~ printptr_loop n' fd (u64 (Z.shiftl x 4))
  end.
Definition printptr (fd x : Z) : U W unit :=
  putc fd 48 ;;~ putc fd 120 ;;~ printptr_loop 16 fd (u64 x).

Definition va_num (args : list parg) : option (Z * list parg) :=
  match args with AInt z :: args' => Some (z, args') | _ => None end.
Definition va_ptr (args : list parg) : option (list Z * list parg) :=
  match args with AStr s :: args' => Some (default (bytes_of "(null)") s, args') | _ => None end.

(** The loop over the format: [state] is 0 or ['%'], [f] the rest of the format. *)
Fixpoint vprintf_loop (fuel : nat) (fd : Z) (state : bool) (f : list Z) (args : list parg) : U W unit :=
  match fuel with
  | O => fun _ => Unfinished
  | S fuel' =>
      match f with
      | [] => uret tt
      | c0 :: f' =>
          if negb state then
            if c0 =? 37 then vprintf_loop fuel' fd true f' args
            else putc fd c0 ;;~ vprintf_loop fuel' fd false f' args
          else
          let c1 := nth0 f' 0 in
          let c2 := if c1 =? 0 then 0 else nth0 f' 1 in
          let num base sgn skip :=
            match va_num args with
            | Some (z, args') => printint fd z base sgn ;;~ vprintf_loop fuel' fd false (drop skip f') args'
            | None => fun _ => Stuck "va_arg"
            end in
          if c0 =? 100 then num 10 true 0%nat
          else if (c0 =? 108) && (c1 =? 100) then num 10 true 1%nat
          else if (c0 =? 108) && (c1 =? 108) && (c2 =? 100) then num 10 true 2%nat
          else if c0 =? 117 then num 10 false 0%nat
          else if (c0 =? 108) && (c1 =? 117) then num 10 false 1%nat
          else if (c0 =? 108) && (c1 =? 108) && (c2 =? 117) then num 10 false 2%nat
          else if c0 =? 120 then num 16 false 0%nat
          else if (c0 =? 108) && (c1 =? 120) then num 16 false 1%nat
          else if (c0 =? 108) && (c1 =? 108) && (c2 =? 120) then num 16 false 2%nat
          else if c0 =? 112 then
            match va_num args with
            | Some (z, args') => printptr fd z ;;~ vprintf_loop fuel' fd false f' args'
            | None => fun _ => Stuck "va_arg"
            end
          else if c0 =? 115 then
            match va_ptr args with
            | Some (s, args') => putcs fd s ;;~ vprintf_loop fuel' fd false f' args'
            | None => fun _ => Stuck "va_arg"
            end
          else if c0 =? 37 then putc fd 37 ;;~ vprintf_loop fuel' fd false f' args
          else putc fd 37 ;;~ putc fd c0 ;;~ vprintf_loop fuel' fd false f' args
      end
  end.

Definition vprintf (fd : Z) (fmt : list Z) (args : list parg) : U W unit :=
  vprintf_loop (S (length fmt)) fd false fmt args.
Definition fprintf (fd : Z) (fmt : list Z) (args : list parg) : U W unit := vprintf fd fmt args.
Definition printf (fmt : list Z) (args : list parg) : U W unit := vprintf 1 fmt args.
End calls.

(** ** Lemmas *)

Section output.
Context {W : Type} `{!Unix W, !Streams W}.

Lemma putc_run fd c w : exists w', putc fd c w = Val tt w' /\ wrote_to fd [c] w w'.
Proof. destruct (uwrite_run fd [c] w) as (w' & E & H). exists w'. unfold putc. by rewrite (ubind_val _ _ _ _ _ E). Qed.

Lemma putcs_run fd l w : exists w', putcs fd l w = Val tt w' /\ wrote_to fd l w w'.
Proof.
  revert w. induction l as [|c l IH]; intros w; [exists w; split; [done|apply wrote_to_nil]|]. cbn [putcs].
  destruct (putc_run fd c w) as (w1 & E1 & H1). destruct (IH w1) as (w2 & E2 & H2). exists w2.
  rewrite (ubind_val _ _ _ _ _ E1). split; [done|]. change (c :: l) with ([c] ++ l). by eapply wrote_app.
Qed.

Lemma udigits_decimal n x : udigits n 10 x = digits_rev n 10 x.
Proof.
  revert x. induction n as [|n IH]; intros x; [done|]. cbn [udigits digits_rev].
  rewrite IH. f_equal. unfold udigit, digit. pose proof (Z.mod_pos_bound x 10 ltac:(lia)).
  destruct (Z.ltb_spec (x mod 10) 10); lia.
Qed.
End output.

(** The value of a decimal numeral, continued from [n]. *)
Definition dec_from (n : Z) (l : list Z) : Z := foldl (fun a c => a * 10 + digit_val c) n l.

Lemma dec_from_ge l : forall n, 0 <= n -> Forall (fun c => 48 <= c <= 57) l -> n <= dec_from n l.
Proof.
  induction l as [|c l IH]; intros n Hn Hl; [done|]. apply list.Forall_cons in Hl as [Hc Hl].
  unfold dec_from. simpl. assert (0 <= digit_val c) by (unfold digit_val; destruct (Z.ltb_spec c 58); lia).
  etransitivity; [|apply IH; [lia|done]]. lia.
Qed.

Lemma atoi_loop_run m l : forall fuel s n,
  Forall (fun c => 48 <= c <= 57) l -> loadn m s (length l) = l ->
  ~ 48 <= load8 m (s + Z.of_nat (length l)) <= 57 ->
  0 <= n -> dec_from n l < 2 ^ 31 -> (length l < fuel)%nat ->
  atoi_loop fuel m s n = Some (dec_from n l).
Proof.
  induction l as [|c l IH]; intros fuel s n Hl Hm Hend Hn Hv Hf; (destruct fuel as [|fuel]; [simpl in Hf; lia|]); cbn [atoi_loop].
  - simpl in Hend. rewrite Z.add_0_r in Hend.
    destruct (Z.leb_spec 48 (load8 m s)), (Z.leb_spec (load8 m s) 57); simpl; done || (exfalso; lia).
  - cbn [length loadn] in Hm. injection Hm as Hc Hm. rewrite Hc.
    apply list.Forall_cons in Hl as [Hc' Hl].
    destruct (Z.leb_spec 48 c), (Z.leb_spec c 57); try lia. simpl andb. cbn iota.
    assert (digit_val c = c - 48) as Hd by (unfold digit_val; destruct (Z.ltb_spec c 58); lia).
    unfold dec_from in Hv |- *. simpl in Hv |- *. rewrite Hd in Hv |- *.
    pose proof (dec_from_ge l (n * 10 + (c - 48)) ltac:(lia) Hl) as Hge. unfold dec_from in Hge.
    rewrite s32_small by lia. replace (n * 10 + c - 48) with (n * 10 + (c - 48)) by lia. apply IH; try done; [|lia|simpl in Hf; lia].
    simpl in Hend. by replace (s + 1 + Z.of_nat (length l)) with (s + Z.pos (Pos.of_succ_nat (length l))) by lia.
Qed.

(** The decimal digits of a 32-bit number. *)
Lemma decimal_digits x : 0 <= x < 2 ^ 32 ->
  let l := reverse (udigits 32 10 x) in
  num_val 10 l = x /\ Forall (fun c => 48 <= c <= 57) l /\ (length l <= 10)%nat.
Proof.
  intros Hx l. unfold l. rewrite udigits_decimal, num_val_reverse, length_reverse. split; [|split].
  - apply digits_rev_val; [lia| |lia]. split; [lia|]. eapply Z.lt_le_trans; [apply Hx|]. by vm_compute.
  - apply Forall_reverse. generalize 32%nat. intros n. revert x Hx l. induction n as [|n IH]; intros x Hx l; [constructor|].
    cbn [digits_rev]. pose proof (Z.mod_pos_bound x 10 ltac:(lia)). constructor.
    + unfold digit. destruct (Z.ltb_spec (x mod 10) 10); lia.
    + destruct (x / 10 =? 0); [constructor|]. apply IH. zlia.
  - apply (digits_rev_length 10 ltac:(lia) 32 x 10); [|lia|lia|].
    + split; [lia|]. eapply Z.lt_le_trans; [apply Hx|]. by vm_compute.
    + eapply Z.lt_le_trans; [apply Hx|]. by vm_compute.
Qed.

(** ** Theorems *)

(** [C34] Printing and parsing decimal numbers: for every [int], ["%d"] writes at most
    11 characters to the descriptor, so that the 16-byte buffer is never overrun, and
    nothing else; and [atoi] of a memory that holds the characters printed for a number
    that is not negative, followed by anything but a digit, gives the number back. *)
Theorem printint_atoi {W} `{!Unix W, !Streams W} fd xx (w : W) :
  - 2 ^ 31 <= xx < 2 ^ 31 ->
  exists w' l, printint fd xx 10 true w = Val tt w' /\ wrote_to fd l w w' /\ (length l <= 11)%nat /\
    (0 <= xx -> forall fuel m s, loadn m s (length l) = l -> ~ 48 <= load8 m (s + Z.of_nat (length l)) <= 57 ->
       (length l < fuel)%nat -> atoi fuel m s = Some xx).
Proof.
  intros Hxx. unfold printint, uprint_buf. rewrite s32_small by lia.
  destruct (Z.ltb_spec xx 0) as [Hneg|Hpos]; cbn beta iota zeta delta [andb].
  - destruct (decimal_digits (u32 (- xx)) (u32_range _)) as (_ & _ & Hl). rewrite length_reverse in Hl.
    rewrite length_app. change (length [45]) with 1%nat. destruct (Nat.ltb_spec 16 (length (udigits 32 10 (u32 (- xx))) + 1)); [lia|].
    destruct (putcs_run fd (reverse (udigits 32 10 (u32 (- xx)) ++ [45])) w) as (w' & E & H'). exists w'. eexists.
    split; [exact E|]. split; [exact H'|]. split; [|lia]. rewrite length_reverse, length_app. change (length [45]) with 1%nat. lia.
  - rewrite u32_small by lia. destruct (decimal_digits xx ltac:(lia)) as (Hv & Hd & Hl). rewrite app_nil_r.
    rewrite length_reverse in Hl. destruct (Nat.ltb_spec 16 (length (udigits 32 10 xx))); [lia|].
    destruct (putcs_run fd (reverse (udigits 32 10 xx)) w) as (w' & E & H'). exists w'. eexists.
    split; [exact E|]. split; [exact H'|]. split; [rewrite length_reverse; lia|].
    intros _ fuel m s Hm Hend Hf. unfold atoi. rewrite (atoi_loop_run m (reverse (udigits 32 10 xx))); try done; [by f_equal|].
    change (num_val 10 (reverse (udigits 32 10 xx)) < 2 ^ 31). lia.
Qed.

Lemma printint_atoi_witness : exists w',
  printint 1 2024 10 true {| t_in := ∅; t_out := ∅; t_chunk := 0; t_brk := 0 |} = Val tt w' /\
  atoi 9 (storen ∅ 100 (t_produced 1 w')) 100 = Some 2024.
Proof.
  destruct (printint_atoi (W := term) 1 2024 {| t_in := ∅; t_out := ∅; t_chunk := 0; t_brk := 0 |}) as (w' & l & E & (P & _) & _ & H).
  - split; [discriminate|reflexivity].
  - exists w'. split; [exact E|]. assert (l = [50; 48; 50; 52]) as ->.
    { vm_compute in E. injection E as <-. symmetry. exact P. }
    apply H; [lia| | |].
    + change (t_produced 1 w') with (produced 1 w'). rewrite P. reflexivity.
    + change (t_produced 1 w') with (produced 1 w'). rewrite P. vm_compute. intros [A B]. by apply A.
    + simpl. lia.
Defined.

(** The user library's [memmove] and the kernel's, which choose the
    direction of the copy differently, do the same: the destination receives the bytes
    the source had before, also when the two overlap, and no other byte changes. *)
Theorem memmove_same m dst src n :
  mem_ok m -> 0 <= n -> forall a,
  load8 (memmove m dst src n) a = (if decide (dst <= a < dst + n) then load8 m (src + (a - dst)) else load8 m a) /\
  load8 (memmove m dst src n) a = load8 (Cstring.memmove m dst src n) a.
Proof.
  intros Hm Hn a. rewrite (load8_memmove m dst src n a) by done. unfold memmove.
  assert (load8 (if src >? dst then move_up (Z.to_nat n) m dst src else move_down (Z.to_nat n) m (dst + n) (src + n)) a =
    (if decide (dst <= a < dst + n) then load8 m (src + (a - dst)) else load8 m a)) as E; [|by rewrite E].
  destruct (Z.gtb_spec src dst).
  - rewrite load8_move_up by (done || lia). repeat case_decide; lia || done.
  - rewrite load8_move_down by (done || lia). repeat case_decide; lia || done || (f_equal; lia).
Qed.

Lemma memmove_same_witness : forall a,
  load8 (memmove (storen ∅ 10 [1; 2; 3; 4]) 12 10 4) a = load8 (Cstring.memmove (storen ∅ 10 [1; 2; 3; 4]) 12 10 4) a.
Proof.
  intros a. apply (memmove_same (storen ∅ 10 [1; 2; 3; 4]) 12 10 4); [|lia]. apply storen_ok. intros x y H. done.
Defined.
End Ulib.
