(* ===== verification/Grep.v ===== *)
(** * user/grep.c

    The Kernighan and Pike matcher, against a declarative meaning of its
    patterns, and the loop that reads a descriptor through a 1024-byte buffer and
    prints the lines that match. *)

From Stdlib Require Import ZArith Lia.
From stdpp Require Import base list gmap strings numbers option.
From S2P Require Import Prelude Unix.

(** Characters with a meaning in patterns, and the end of a line. *)
Definition CARET : Z := 94.
Definition DOLLAR : Z := 36.
Definition DOT : Z := 46.
Definition STAR : Z := 42.
Definition NL : Z := 10.

(** ** The matcher

    Patterns and texts are C strings: the characters before the nul.  [here] is
    [matchhere(re, -)] for the rest of the pattern. *)

(** [matchstar(c, re, text)] *)
Fixpoint matchstar (here : list Z -> bool) (c : Z) (text : list Z) : bool :=
  here text ||
  match text with
  | [] => false
  | x :: text' => ((x =? c) || (c =? DOT)) && matchstar here c text'
  end.

Fixpoint matchhere (re text : list Z) : bool :=
  match re with
  | [] => true
  | c :: re1 =>
      match re1 with
      | s :: re2 =>
          if s =? STAR then matchstar (matchhere re2) c text else
          match text with
          | [] => false
          | x :: text' => if (c =? DOT) || (c =? x) then matchhere re1 text' else false
          end
      | [] =>
          if c =? DOLLAR then match text with [] => true | _ => false end else
          match text with
          | [] => false
          | x :: text' => if (c =? DOT) || (c =? x) then matchhere re1 text' else false
          end
      end
  end.

(** The [do ... while] of [match] over the suffixes of the text. *)
Fixpoint match_from (re text : list Z) : bool :=
  matchhere re text ||
  match text with [] => false | _ :: text' => match_from re text' end.

Definition match_re (re text : list Z) : bool :=
  match re with
  | c :: re1 => if c =? CARET then matchhere re1 text else match_from re text
  | [] => match_from re text
  end.

(** ** The program *)

(** [strchr(s, c)] as an index into the characters from [s] on. *)
Fixpoint strchr_at (s : list Z) (c : Z) : option nat :=
  match s with
  | [] => None
  | x :: s' => if x =? 0 then None else if x =? c then Some 0%nat else S <$> strchr_at s' c
  end.

Section program.
Context {W : Type} `{!Unix W}.

(** The inner loop: [p] are the characters from [p] to the end of the buffer. *)
Definition grep_line (pattern p : list Z) : U W (list Z + list Z) :=
  match strchr_at p NL with
  | None => uret (inr p)
  | Some q =>
      uwhen (match_re pattern (take q p)) (uwrite 1 (take (S q) p) ;;~ uret tt) ;;~
      uret (inl (drop (S q) p))
  end.

(** One round of the outer loop: [b] are the [m] characters kept from the last one. *)
Definition grep_body (pattern : list Z) (fd : Z) (b : list Z) : U W (list Z + unit) :=
  r <~ uread fd (1024 - Z.of_nat (length b) - 1) ;;
  let '(n, bs) := r in
  if negb (n >? 0) then uret (inr tt) else
  let b' := b ++ bs in
  p <~ uloop (S (length b')) (grep_line pattern) b' ;;
  uret (inl p).

Definition grep (fuel : nat) (pattern : list Z) (fd : Z) : U W unit :=
  uloop fuel (grep_body pattern fd) [].
End program.

(** ** The meaning of patterns *)

(** One character, or any number of them. *)
Inductive item := One (c : Z) | Many (c : Z).

(** [.] stands for every character. *)
Definition accepts (c x : Z) : Prop := c = DOT \/ x = c.

(** The items of a pattern and whether it ends with the anchor [$]. *)
Inductive parses : list Z -> list item -> bool -> Prop :=
| parses_nil : parses [] [] false
| parses_end : parses [DOLLAR] [] true
| parses_many c re its e : parses re its e -> parses (c :: STAR :: re) (Many c :: its) e
| parses_one c re its e :
    parses re its e -> hd_error re <> Some STAR -> (c :: re) <> [DOLLAR] -> parses (c :: re) (One c :: its) e.

(** The words a sequence of items spells. *)
Inductive spells : list item -> list Z -> Prop :=
| spells_nil : spells [] []
| spells_one c its x w : accepts c x -> spells its w -> spells (One c :: its) (x :: w)
| spells_many c its u w : Forall (accepts c) u -> spells its w -> spells (Many c :: its) (u ++ w).

(** The pattern, read without a leading anchor, describes a prefix of the text. *)
Definition describes (re text : list Z) : Prop :=
  exists its e w rest, parses re its e /\ text = w ++ rest /\ spells its w /\ (e = true -> rest = []).

Lemma parses_total re : exists its e, parses re its e.
Proof.
  induction re as [re IH] using (induction_ltof1 _ length). unfold ltof in IH.
  destruct re as [|c [|s re]].
  - exists [], false. constructor.
  - destruct (decide (c = DOLLAR)) as [->|Hc]; [exists [], true; constructor|].
    exists [One c], false. constructor; [constructor|done|congruence].
  - destruct (decide (s = STAR)) as [->|Hs].
    + destruct (IH re) as (its & e & H); [simpl; lia|]. exists (Many c :: its), e. by constructor.
    + destruct (IH (s :: re)) as (its & e & H); [simpl; lia|]. exists (One c :: its), e.
      constructor; [done|simpl; congruence|congruence].
Qed.

Lemma accepts_bool c x : (x =? c) || (c =? DOT) = true <-> accepts c x.
Proof. unfold accepts. rewrite orb_true_iff, !Z.eqb_eq. tauto. Qed.

(** [matchstar] tries every number of repetitions. *)
Lemma matchstar_spec here c text :
  matchstar here c text = true <->
  exists u rest, text = u ++ rest /\ Forall (accepts c) u /\ here rest = true.
Proof.
  induction text as [|x text IH]; simpl.
  - rewrite orb_false_r. split; [intros H; by exists [], []|].
    intros (u & rest & E & _ & H). by destruct u, rest.
  - rewrite orb_true_iff, andb_true_iff, accepts_bool, IH. split.
    + intros [H|(Hx & u & rest & -> & Hu & H)]; [by exists [], (x :: text)|]. exists (x :: u), rest. auto.
    + intros (u & rest & E & Hu & H). destruct u as [|y u]; simpl in E; [subst; by left|right].
      injection E as -> ->. apply list.Forall_cons in Hu as [Hy Hu]. split; [done|]. by exists u, rest.
Qed.

Lemma matchhere_spec re its e text :
  parses re its e ->
  matchhere re text = true <-> exists w rest, text = w ++ rest /\ spells its w /\ (e = true -> rest = []).
Proof.
  intros Hp. revert text. induction Hp as [| |c re its e Hp IH|c re its e Hp IH Hs Hd]; intros text.
  - split; [intros _; exists [], text; split; [done|]; split; [constructor|done]|done].
  - simpl. split.
    + destruct text; [|done]. intros _. exists [], []. split; [done|]. split; [constructor|done].
    + intros (w & rest & -> & Hw & Hr). inversion Hw; subst. by rewrite (Hr eq_refl).
  - simpl. rewrite matchstar_spec. split.
    + intros (u & rest & -> & Hu & H). apply IH in H as (w & rest' & -> & Hw & Hr).
      exists (u ++ w), rest'. split; [by rewrite (assoc_L (++))|]. split; [by constructor|done].
    + intros (w & rest & -> & Hw & Hr). inversion Hw; subst. exists u, (w0 ++ rest).
      split; [by rewrite (assoc_L (++))|]. split; [done|]. apply IH. by exists w0, rest.
  - assert (matchhere (c :: re) text =
      match text with [] => false | x :: t => if (c =? DOT) || (c =? x) then matchhere re t else false end) as ->.
    { destruct re as [|s re]; simpl.
      - destruct (Z.eqb_spec c DOLLAR); [subst; by destruct Hd|done].
      - destruct (Z.eqb_spec s STAR); [subst; by destruct Hs|done]. }
    split.
    + destruct text as [|x t]; [done|]. rewrite orb_comm, (Z.eqb_sym c x).
      destruct ((x =? c) || (c =? DOT)) eqn:Ea; [|done]. apply accepts_bool in Ea. rewrite IH.
      intros (w & rest & -> & Hw & Hr). exists (x :: w), rest. split; [done|]. split; [by constructor|done].
    + intros (w & rest & -> & Hw & Hr). inversion Hw as [|? ? x w' Ha Hw'|]; subst. simpl.
      apply accepts_bool in Ha. rewrite orb_comm, (Z.eqb_sym c x), Ha. apply IH. by exists w', rest.
Qed.

Lemma matchhere_describes re text : matchhere re text = true <-> describes re text.
Proof.
  split.
  - destruct (parses_total re) as (its & e & Hp). rewrite (matchhere_spec _ _ _ _ Hp).
    intros (w & rest & H). exists its, e, w, rest. tauto.
  - intros (its & e & w & rest & Hp & H). rewrite (matchhere_spec _ _ _ _ Hp). by exists w, rest.
Qed.

Lemma match_from_spec re text :
  match_from re text = true <-> exists pre suf, text = pre ++ suf /\ describes re suf.
Proof.
  induction text as [|x text IH]; cbn [match_from].
  - rewrite orb_false_r, matchhere_describes. split; [intros H; by exists [], []|].
    intros (pre & suf & E & H). by destruct pre, suf.
  - rewrite orb_true_iff, matchhere_describes, IH. split.
    + intros [H|(pre & suf & -> & H)]; [by exists [], (x :: text)|by exists (x :: pre), suf].
    + intros (pre & suf & E & H). destruct pre as [|y pre]; simpl in E; [subst; by left|right].
      injection E as -> ->. by exists pre, suf.
Qed.

(** ** Lines *)

(** The text made of the lines [ls] and an unfinished last line [r]. *)
Definition text_of (ls : list (list Z)) (r : list Z) : list Z := concat (map (fun l => l ++ [NL]) ls) ++ r.

(** The characters of a line. *)
Definition in_line (x : Z) : Prop := x <> 0 /\ x <> NL.

Lemma text_cons l ls r : text_of (l :: ls) r = l ++ NL :: text_of ls r.
Proof. unfold text_of. simpl. by rewrite <-!(assoc_L (++)). Qed.

Lemma strchr_none p : Forall in_line p -> strchr_at p NL = None.
Proof.
  induction 1 as [|x p [Hz Hn] _ IH]; [done|]. simpl.
  destruct (Z.eqb_spec x 0); [done|]. destruct (Z.eqb_spec x NL); [done|]. by rewrite IH.
Qed.

Lemma strchr_line l p : Forall in_line l -> strchr_at (l ++ NL :: p) NL = Some (length l).
Proof.
  induction 1 as [|x l [Hz Hn] _ IH]; [done|]. simpl.
  destruct (Z.eqb_spec x 0); [done|]. destruct (Z.eqb_spec x NL); [done|]. by rewrite IH.
Qed.

Section grep_lemmas.
Context {W : Type} `{!Unix W, !Streams W}.

(** The lines that match. *)
Definition matching (pattern : list Z) (ls : list (list Z)) : list (list Z) :=
  List.filter (match_re pattern) ls.

(** A complete line at the front of the buffer. *)
Lemma grep_line_run pattern l p w : Forall in_line l ->
  exists w', grep_line pattern (l ++ NL :: p) w = Val (inl p) w' /\ wrote_to 1 (text_of (matching pattern [l]) []) w w'.
Proof.
  intros Hl. unfold grep_line. rewrite strchr_line by done. rewrite take_app_length. unfold matching. simpl.
  rewrite cons_middle, (assoc_L (++)). replace (S (length l)) with (length (l ++ [NL])) by (rewrite length_app; simpl; lia).
  rewrite take_app_length, drop_app_length. destruct (match_re pattern l); simpl.
  - destruct (write_all 1 (l ++ [NL]) w) as (w' & E & P & O & I). unfold ubind, uwhen, uwrite, ucall. rewrite E.
    exists w'. split; [done|]. unfold text_of. simpl. rewrite !app_nil_r. done.
  - exists w. split; [done|]. apply wrote_to_nil.
Qed.

(** The inner loop prints the complete lines of the buffer that match and keeps
    the beginning of the next one. *)
Lemma grep_lines_run pattern ls r p rest fuel w :
  Forall (Forall in_line) ls -> Forall in_line r -> text_of ls r = p ++ rest -> (length p < fuel)%nat ->
  exists ls1 ls2 p' w', ls = ls1 ++ ls2 /\ text_of ls2 r = p' ++ rest /\ Forall in_line p' /\
    uloop fuel (grep_line pattern) p w = Val p' w' /\ wrote_to 1 (text_of (matching pattern ls1) []) w w'.
Proof.
  revert p fuel w. induction ls as [|l ls IH]; intros p fuel w Hls Hr Ht Hf;
    (destruct fuel as [|fuel]; [lia|]); cbn [uloop].
  - assert (Forall in_line p) as Hp by (change (r = p ++ rest) in Ht; subst r; by apply Forall_app in Hr as [? _]).
    exists [], [], p, w. split; [done|]. split; [done|]. split; [done|]. split; [|apply wrote_to_nil].
    unfold ubind, grep_line. by rewrite (strchr_none p Hp).
  - apply list.Forall_cons in Hls as [Hl Hls]. rewrite text_cons in Ht. destruct (decide (length p <= length l)%nat) as [Hle|Hgt].
    + assert (Forall in_line p) as Hp.
      { assert (p = take (length p) l) as ->; [|by apply Forall_take].
        rewrite <-(take_app_le l (NL :: text_of ls r)) by done. rewrite Ht. by rewrite take_app_length. }
      exists [], (l :: ls), p, w. split; [done|]. split; [by rewrite text_cons|]. split; [done|]. split; [|apply wrote_to_nil].
      unfold ubind, grep_line. by rewrite (strchr_none p Hp).
    + assert (exists p2, p = l ++ NL :: p2 /\ text_of ls r = p2 ++ rest) as (p2 & -> & Ht2).
      { exists (drop (S (length l)) p). replace (S (length l)) with (length (l ++ [NL])) in * by (rewrite length_app; simpl; lia).
        rewrite cons_middle, (assoc_L (++)) in Ht |- *. split.
        - rewrite <-(take_drop (length (l ++ [NL])) p) at 1. f_equal.
          rewrite <-(take_app_le p rest), <-Ht by (rewrite length_app; simpl; lia). apply take_app_length.
        - rewrite <-drop_app_le by (rewrite length_app; simpl; lia). rewrite <-Ht. symmetry. apply drop_app_length. }
      destruct (grep_line_run pattern l p2 w Hl) as (w1 & E1 & P1).
      destruct (IH p2 fuel w1) as (ls1 & ls2 & p' & w2 & -> & Ht' & Hp' & E2 & P2); [done|done|done| |].
      { rewrite length_app in Hf. simpl in Hf. lia. }
      exists (l :: ls1), ls2, p', w2. split; [done|]. split; [done|]. split; [done|].
      split; [by rewrite (ubind_val _ _ _ _ _ E1)|].
      replace (text_of (matching pattern (l :: ls1)) []) with
        (text_of (matching pattern [l]) [] ++ text_of (matching pattern ls1) []); [by eapply wrote_app|].
      unfold text_of, matching. simpl. destruct (match_re pattern l); simpl; by rewrite ?app_nil_r.
Qed.

(** A text that is the beginning of a line has no complete line. *)
Lemma text_unfinished ls r b : Forall in_line b -> text_of ls r = b -> ls = [].
Proof.
  intros Hb Ht. destruct ls as [|l ls]; [done|]. rewrite text_cons in Ht. subst b.
  apply Forall_app in Hb as [_ Hb]. apply list.Forall_cons in Hb as [[_ Hb] _]. done.
Qed.

(** While a complete line is still to come the buffer has room. *)
Lemma buffer_room l ls r b rest : Forall in_line b -> text_of (l :: ls) r = b ++ rest -> (length b <= length l)%nat.
Proof.
  intros Hb Ht. rewrite text_cons in Ht. destruct (decide (length b <= length l)%nat) as [|Hgt]; [done|].
  exfalso. assert (b !! length l = Some NL) as Hn.
  { rewrite <-(lookup_app_l b rest) by lia. rewrite <-Ht. rewrite list_lookup_middle by done. done. }
  pose proof (list.Forall_lookup_1 _ _ _ _ Hb Hn) as [_ H]. done.
Qed.

(** The loop ends when a read gives nothing. *)
Lemma grep_stops pattern fd fuel b w :
  sys_read fd (1024 - Z.of_nat (length b) - 1) w = ((0, []), w) ->
  uloop (S fuel) (grep_body pattern fd) b w = Val tt w.
Proof. intros E. cbn [uloop]. unfold ubind, grep_body, ubind, uread, ucall. by rewrite E. Qed.

(** A round that reads something. *)
Lemma grep_round pattern fd ls r b w :
  Forall (Forall in_line) ls -> Forall in_line r -> text_of ls r = b ++ pending fd w -> pending fd w <> [] ->
  (length b < 1023)%nat ->
  exists ls1 ls2 b' w', grep_body pattern fd b w = Val (inl b') w' /\ ls = ls1 ++ ls2 /\
    text_of ls2 r = b' ++ pending fd w' /\ Forall in_line b' /\ (length b' <= 1023)%nat /\
    (length (pending fd w') < length (pending fd w))%nat /\
    produced 1 w' = produced 1 w ++ text_of (matching pattern ls1) [] /\
    (forall fd', fd' <> 1 -> produced fd' w' = produced fd' w).
Proof.
  intros Hls Hr Ht Hp Hb.
  destruct (read_some fd (1024 - Z.of_nat (length b) - 1) w) as (k & w1 & E & Hk & Hkn & Hp1 & _ & Ho1); [lia|done|].
  destruct (grep_lines_run pattern ls r (b ++ take k (pending fd w)) (drop k (pending fd w))
    (S (length (b ++ take k (pending fd w)))) w1) as (ls1 & ls2 & p' & w2 & -> & Ht2 & Hp' & E2 & P & O & I); [done|done| |lia|].
  { by rewrite <-(assoc_L (++)), take_drop. }
  exists ls1, ls2, p', w2. split.
  { unfold grep_body. erewrite ubind_val; [|unfold uread, ucall; rewrite E; reflexivity]. cbn beta iota.
    destruct (Z.gtb_spec (Z.of_nat k) 0); [|lia]. cbn beta iota delta [negb]. by rewrite (ubind_val _ _ _ _ _ E2). }
  split; [done|]. rewrite I, Hp1. split; [done|]. split; [done|]. split.
  - assert (length p' + length (drop k (pending fd w)) <= length (b ++ pending fd w))%nat as Hl.
    { rewrite <-Ht, <-length_app, <-Ht2. unfold text_of. rewrite map_app, concat_app, !length_app. lia. }
    rewrite length_app, length_drop in Hl. lia.
  - rewrite length_drop. split; [lia|]. rewrite P, Ho1. split; [done|]. intros fd' Hne. by rewrite O, Ho1.
Qed.

Lemma grep_loop pattern fd fuel : forall ls r b w,
  Forall (Forall in_line) ls -> Forall in_line r -> Forall (fun l => (length l <= 1022)%nat) ls ->
  text_of ls r = b ++ pending fd w -> Forall in_line b -> (length b <= 1023)%nat -> (length (pending fd w) < fuel)%nat ->
  exists w', uloop fuel (grep_body pattern fd) b w = Val tt w' /\
    produced 1 w' = produced 1 w ++ text_of (matching pattern ls) [] /\
    (forall fd', fd' <> 1 -> produced fd' w' = produced fd' w).
Proof.
  induction fuel as [|fuel IH]; intros ls r b w Hls Hr Hlen Ht Hb Hm Hf; [lia|].
  destruct (decide (pending fd w = [] \/ length b = 1023%nat)) as [He|He].
  - assert (ls = []) as ->.
    { destruct He as [He|He]; [rewrite He, app_nil_r in Ht; by eapply text_unfinished|].
      destruct ls as [|l ls]; [done|]. pose proof (buffer_room _ _ _ _ _ Hb Ht).
      apply list.Forall_cons in Hlen as [? _]. lia. }
    exists w. split; [apply grep_stops|by rewrite app_nil_r].
    destruct (decide (length b = 1023%nat)) as [->|Hne]; [apply read_none|]. apply read_end; [lia|]. by destruct He.
  - destruct (grep_round pattern fd ls r b w) as (ls1 & ls2 & b' & w1 & E & -> & Ht' & Hb' & Hm' & Hd & P & O);
      [done|done|done|tauto|lia|].
    apply Forall_app in Hls as [_ Hls2]. apply Forall_app in Hlen as [_ Hlen2].
    destruct (IH ls2 r b' w1) as (w2 & E2 & P2 & O2); [done..|lia|]. exists w2. cbn [uloop].
    split; [by rewrite (ubind_val _ _ _ _ _ E)|]. split; [|intros fd' Hne; by rewrite O2, O].
    rewrite P2, P, <-(assoc_L (++)). f_equal. unfold text_of, matching.
    by rewrite List.filter_app, map_app, concat_app, !app_nil_r.
Qed.
End grep_lemmas.

(** ** Theorems *)

(** [C25] The matcher decides the meaning of its patterns: with a leading [^] the rest of
    the pattern has to describe the beginning of the text, otherwise some suffix of
    the text; [.] stands for every character, [c*] for any number of them, and a final
    [$] for the end of the text.  It returns on all inputs. *)
Theorem match_re_correct re text :
  match_re re text = true <->
  match re with
  | c :: re1 => if decide (c = CARET) then describes re1 text else exists pre suf, text = pre ++ suf /\ describes re suf
  | [] => exists pre suf, text = pre ++ suf /\ describes [] suf
  end.
Proof.
  unfold match_re. destruct re as [|c re]; [apply match_from_spec|].
  destruct (Z.eqb_spec c CARET), (decide (c = CARET)); try done; [apply matchhere_describes|apply match_from_spec].
Qed.

(** [C27] [grep] prints exactly the complete lines that match, in order, whatever
    the sizes of the pieces in which the input arrives: for a text without nul bytes whose
    lines fit the buffer (at most 1022 characters), the output to descriptor 1 grows by
    the lines that match and nothing else is written.  An unfinished last line is never
    printed.  The loop ends: it needs at most one round per byte and a last one. *)
Theorem grep_filters {W} `{!Unix W, !Streams W} pattern fd ls r fuel w :
  pending fd w = text_of ls r -> Forall (Forall in_line) ls -> Forall in_line r ->
  Forall (fun l => (length l <= 1022)%nat) ls -> (length (pending fd w) < fuel)%nat ->
  exists w', grep fuel pattern fd w = Val tt w' /\
    produced 1 w' = produced 1 w ++ text_of (matching pattern ls) [] /\
    (forall fd', fd' <> 1 -> produced fd' w' = produced fd' w).
Proof. intros Ht Hls Hr Hlen Hf. apply (grep_loop pattern fd fuel ls r []); done || (simpl; lia). Qed.

(** Five bytes at a time: the pattern ["b*c$"] on the lines ["abbc"], ["cd"] and ["c"]. *)
Lemma grep_filters_witness : exists w',
  grep 12 [98; STAR; 99; DOLLAR] 0
    {| t_in := {[0 := text_of [[97; 98; 98; 99]; [99; 100]; [99]] []]}; t_out := ∅; t_chunk := 4; t_brk := 0 |} = Val tt w' /\
  t_produced 1 w' = text_of [[97; 98; 98; 99]; [99]] [].
Proof.
  destruct (grep_filters (W := term) [98; STAR; 99; DOLLAR] 0 [[97; 98; 98; 99]; [99; 100]; [99]] [] 12
    {| t_in := {[0 := text_of [[97; 98; 98; 99]; [99; 100]; [99]] []]}; t_out := ∅; t_chunk := 4; t_brk := 0 |})
    as (w' & E & P & _).
  - reflexivity.
  - repeat constructor; discriminate.
  - constructor.
  - repeat constructor; simpl; lia.
  - vm_compute. lia.
  - exists w'. split; [exact E|]. exact P.
Defined.
