(* ===== verification/Utils.v ===== *)
(** * The small user programs

    user/cat.c, wc.c, echo.c, kill.c, ln.c, mkdir.c, rm.c, ls.c, zombie.c, init.c and the
    [main] of grep.c.  [argv] is the list of the arguments, the program's name first;
    every [main] ends in [exit]. *)

From Stdlib Require Import ZArith Lia.
From stdpp Require Import base list gmap strings numbers option.
From S2P Require Import Prelude Bytes Kstate Printf Unix Ulib Grep.

Module Utils.
Section programs.
Context {W : Type} `{!Unix W}.

(** A C string that is stored somewhere in memory. *)
Definition str_mem (l : list Z) : mem := storen ∅ 0 (l ++ [0]).
Definition O_RDONLY : Z := 0.
Definition O_RDWR : Z := 2.

(** [for(i = 1; i < argc; i++) body(argv\[i\])], left early with [exit]. *)
Fixpoint for_args (body : list Z -> U W unit) (args : list (list Z)) : U W unit :=
  match args with
  | [] => uret tt
  | a :: args' => body a ;;~ for_args body args'
  end.

(** The shape [cat], [wc] and [grep] share: descriptor 0 without file arguments, every
    file in turn otherwise. *)
Definition for_files (cannot_open : list Z -> U W unit) (body : Z -> list Z -> U W unit) (files : list (list Z)) : U W unit :=
  for_args (fun a =>
    fd <~ uopen a O_RDONLY ;;
    if fd <? 0 then cannot_open a ;;~ exit 1 else
    body fd a ;;~
    uclose fd ;;~ uret tt) files.

(** ** cat *)

Definition cat_body (fd : Z) (_ : unit) : U W (unit + Z) :=
  r <~ uread fd 512 ;;
  let '(n, bs) := r in
  if negb (n >? 0) then uret (inr n) else
  k <~ uwrite 1 bs ;;
  if negb (k =? n) then Ulib.fprintf 2 (bytes_of "cat: write error" ++ newline) [] ;;~ exit 1 else
  uret (inl tt).
Definition cat (fuel : nat) (fd : Z) : U W unit :=
  n <~ uloop fuel (cat_body fd) tt ;;
  if n <? 0 then Ulib.fprintf 2 (bytes_of "cat: read error" ++ newline) [] ;;~ exit 1 else uret tt.

Definition cat_main (fuel : nat) (argv : list (list Z)) : U W unit :=
  if (length argv <=? 1)%nat then cat fuel 0 ;;~ exit 0 else
  for_files (fun a => Ulib.fprintf 2 (bytes_of "cat: cannot open %s" ++ newline) [AStr (Some a)])
    (fun fd _ => cat fuel fd) (tail argv) ;;~
  exit 0.

(** ** wc *)

(** [strchr(" \r\t\n\v", c)] *)
Definition wc_space (c : Z) : bool := bool_decide (c ∈ [32; 13; 9; 10; 11]).

(** Lines, words, characters and [inword]. *)
Record wc_st := mk_wc { wc_l : Z; wc_w : Z; wc_c : Z; wc_in : bool }.

Definition wc_char (st : wc_st) (x : Z) : wc_st :=
  let c := s32 (wc_c st + 1) in
  let l := if x =? 10 then s32 (wc_l st + 1) else wc_l st in
  if wc_space x then mk_wc l (wc_w st) c false
  else if negb (wc_in st) then mk_wc l (s32 (wc_w st + 1)) c true
  else mk_wc l (wc_w st) c (wc_in st).

Definition wc_body (fd : Z) (st : wc_st) : U W (wc_st + Z * wc_st) :=
  r <~ uread fd 512 ;;
  let '(n, bs) := r in
  if negb (n >? 0) then uret (inr (n, st)) else
  uret (inl (foldl wc_char st (take (Z.to_nat n) bs))).

Definition wc_fmt : list Z := bytes_of "%d %d %d %s" ++ newline.

Definition wc (fuel : nat) (fd : Z) (name : list Z) : U W unit :=
  r <~ uloop fuel (wc_body fd) (mk_wc 0 0 0 false) ;;
  let '(n, st) := r in
  if n <? 0 then Ulib.printf (bytes_of "wc: read error" ++ newline) [] ;;~ exit 1 else
  Ulib.printf wc_fmt [AInt (wc_l st); AInt (wc_w st); AInt (wc_c st); AStr (Some name)].

Definition wc_main (fuel : nat) (argv : list (list Z)) : U W unit :=
  if (length argv <=? 1)%nat then wc fuel 0 [] ;;~ exit 0 else
  for_files (fun a => Ulib.printf (bytes_of "wc: cannot open %s" ++ newline) [AStr (Some a)])
    (fun fd a => wc fuel fd a) (tail argv) ;;~
  exit 0.

(** ** grep *)

Definition grep_main (fuel : nat) (argv : list (list Z)) : U W unit :=
  match argv with
  | _ :: pattern :: files =>
      match files with
      | [] => grep fuel pattern 0 ;;~ exit 0
      | _ =>
          for_files (fun a => Ulib.printf (bytes_of "grep: cannot open %s" ++ newline) [AStr (Some a)])
            (fun fd _ => grep fuel pattern fd) files ;;~
          exit 0
      end
  | _ => Ulib.fprintf 2 (bytes_of "usage: grep pattern [file ...]" ++ newline) [] ;;~ exit 1
  end.

(** ** echo, kill, ln, mkdir, rm *)

Fixpoint echo_args (args : list (list Z)) : U W unit :=
  match args with
  | [] => uret tt
  | a :: args' =>
      uwrite 1 a ;;~
      (match args' with [] => uwrite 1 newline | _ => uwrite 1 [32] end) ;;~
      echo_args args'
  end.
Definition echo_main (argv : list (list Z)) : U W unit := echo_args (tail argv) ;;~ exit 0.

Definition kill_main (argv : list (list Z)) : U W unit :=
  if (length argv <? 2)%nat then Ulib.fprintf 2 (bytes_of "usage: kill pid..." ++ newline) [] ;;~ exit 1 else
  for_args (fun a =>
    match Ulib.atoi (S (length a)) (str_mem a) 0 with
    | Some n => ukill n ;;~ uret tt
    | None => fun _ => Unfinished
    end) (tail argv) ;;~
  exit 0.

Definition ln_main (argv : list (list Z)) : U W unit :=
  match argv with
  | [_; old; new] =>
      r <~ ulink old new ;;
      uwhen (r <? 0) (Ulib.fprintf 2 (bytes_of "link %s %s: failed" ++ newline) [AStr (Some old); AStr (Some new)]) ;;~
      exit 0
  | _ => Ulib.fprintf 2 (bytes_of "Usage: ln old new" ++ newline) [] ;;~ exit 1
  end.

(** The loop of [mkdir] and [rm] stops at the first failure. *)
Fixpoint until_fails (call : list Z -> U W Z) (msg : list Z) (args : list (list Z)) : U W unit :=
  match args with
  | [] => uret tt
  | a :: args' =>
      r <~ call a ;;
      if r <? 0 then Ulib.fprintf 2 msg [AStr (Some a)] else until_fails call msg args'
  end.

Definition mkdir_main (argv : list (list Z)) : U W unit :=
  if (length argv <? 2)%nat then Ulib.fprintf 2 (bytes_of "Usage: mkdir files..." ++ newline) [] ;;~ exit 1 else
  until_fails umkdir (bytes_of "mkdir: %s failed to create" ++ newline) (tail argv) ;;~ exit 0.

Definition rm_main (argv : list (list Z)) : U W unit :=
  if (length argv <? 2)%nat then Ulib.fprintf 2 (bytes_of "Usage: rm files..." ++ newline) [] ;;~ exit 1 else
  until_fails uunlink (bytes_of "rm: %s failed to delete" ++ newline) (tail argv) ;;~ exit 0.

(** ** ls *)

Definition DIRSIZ : nat := 14.

(** The characters after the last slash. *)
Fixpoint after_slash (path : list Z) : list Z :=
  match path with
  | [] => []
  | c :: path' => if bool_decide (47 ∈ path') then after_slash path' else if c =? 47 then path' else path
  end.

Definition fmtname (path : list Z) : list Z :=
  let p := after_slash path in
  if (DIRSIZ <=? length p)%nat then p else p ++ replicate (DIRSIZ - length p) 32.

Definition ls_fmt : list Z := bytes_of "%s %d %d %d" ++ newline.
Definition ls_entry (path : list Z) (st : ustat) : U W unit :=
  Ulib.printf ls_fmt [AStr (Some (fmtname path)); AInt (st_type st); AInt (st_ino st); AInt (s32 (st_size st))].

(** A name in a directory entry ends at the first nul or after [DIRSIZ] characters. *)
Fixpoint until_nul (l : list Z) : list Z :=
  match l with [] => [] | c :: l' => if c =? 0 then [] else c :: until_nul l' end.

Definition ls_dir_body (fd : Z) (path : list Z) (_ : unit) : U W (unit + unit) :=
  r <~ uread fd 16 ;;
  let '(n, de) := r in
  if negb (n =? 16) then uret (inr tt) else
  if get_le 2 de 0 =? 0 then uret (inl tt) else
  let full := path ++ 47 :: until_nul (take DIRSIZ (drop 2 de)) in
  st <~ Ulib.stat full ;;
  (match st with
   | None => Ulib.printf (bytes_of "ls: cannot stat %s" ++ newline) [AStr (Some full)]
   | Some st => ls_entry full st
   end) ;;~
  uret (inl tt).

Definition ls (fuel : nat) (path : list Z) : U W unit :=
  fd <~ uopen path O_RDONLY ;;
  if fd <? 0 then Ulib.fprintf 2 (bytes_of "ls: cannot open %s" ++ newline) [AStr (Some path)] else
  r <~ ufstat fd ;;
  match r with
  | None => Ulib.fprintf 2 (bytes_of "ls: cannot stat %s" ++ newline) [AStr (Some path)] ;;~ uclose fd ;;~ uret tt
  | Some st =>
      (if (st_type st =? 3) || (st_type st =? 2) then ls_entry path st
       else if st_type st =? 1 then
         if (512 <? length path + 1 + DIRSIZ + 1)%nat then Ulib.printf (bytes_of "ls: path too long" ++ newline) []
         else uloop fuel (ls_dir_body fd path) tt
       else uret tt) ;;~
      uclose fd ;;~ uret tt
  end.

Definition ls_main (fuel : nat) (argv : list (list Z)) : U W unit :=
  if (length argv <? 2)%nat then ls fuel [46] ;;~ exit 0 else
  for_args (ls fuel) (tail argv) ;;~ exit 0.

(** ** zombie, init *)

Definition zombie_main : U W unit :=
  pid <~ ufork ;;
  uwhen (pid >? 0) (usleep 5 ;;~ uret tt) ;;~
  exit 0.

Definition console_path : list Z := bytes_of "console".

Definition init_open : U W unit :=
  fd <~ uopen console_path O_RDWR ;;
  uwhen (fd <? 0) (umknod console_path 1 0 ;;~ uopen console_path O_RDWR ;;~ uret tt) ;;~
  udup 0 ;;~ udup 0 ;;~ uret tt.

(** Wait until the shell is gone. *)
Definition init_wait (pid : Z) (_ : unit) : U W (unit + unit) :=
  wpid <~ uwait ;;
  if wpid =? pid then uret (inr tt)
  else if wpid <? 0 then Ulib.printf (bytes_of "init: wait returned an error" ++ newline) [] ;;~ exit 1
  else uret (inl tt).

Definition init_round (fuel : nat) (_ : unit) : U W (unit + unit) :=
  Ulib.printf (bytes_of "init: starting sh" ++ newline) [] ;;~
  pid <~ ufork ;;
  if pid <? 0 then Ulib.printf (bytes_of "init: fork failed" ++ newline) [] ;;~ exit 1 else
  if pid =? 0 then
    uexec (bytes_of "sh") [bytes_of "sh"] ;;~
    Ulib.printf (bytes_of "init: exec sh failed" ++ newline) [] ;;~ exit 1
  else uloop fuel (init_wait pid) tt ;;~ uret (inl tt).

Definition init_main (fuel : nat) : U W unit := init_open ;;~ uloop fuel (init_round fuel) tt.
End programs.

(** ** What [wc] counts *)

(** The words of a text: maximal runs of characters that are not white space. *)
Inductive words_of : list Z -> list (list Z) -> Prop :=
| words_nil : words_of [] []
| words_space x l ws : wc_space x = true -> words_of l ws -> words_of (x :: l) ws
| words_word u l ws :
    u <> [] -> Forall (fun x => wc_space x = false) u ->
    (forall x, head l = Some x -> wc_space x = true) -> words_of l ws -> words_of (u ++ l) (u :: ws).

Definition newlines (l : list Z) : Z := Z.of_nat (length (List.filter (fun x => x =? 10) l)).

(** The counters have counted this much more. *)
Definition counted (st : wc_st) (l w c : Z) (i : bool) : wc_st := mk_wc (wc_l st + l) (wc_w st + w) (wc_c st + c) i.

(** The counters do not overflow during the next [n] characters. *)
Definition wc_fits (st : wc_st) (n : nat) : Prop :=
  0 <= wc_l st <= wc_c st /\ 0 <= wc_w st <= wc_c st /\ wc_c st + Z.of_nat n < 2 ^ 31.

Lemma newlines_cons x l : newlines (x :: l) = (if x =? 10 then 1 else 0) + newlines l.
Proof. unfold newlines. simpl. destruct (x =? 10); simpl; lia. Qed.

Lemma newlines_app a b : newlines (a ++ b) = newlines a + newlines b.
Proof. unfold newlines. rewrite List.filter_app, length_app. lia. Qed.

Lemma wc_char_run st x n : wc_fits st (S n) ->
  wc_char st x = counted st (if x =? 10 then 1 else 0) (if wc_space x || wc_in st then 0 else 1) 1 (negb (wc_space x)) /\
  wc_fits (wc_char st x) n.
Proof.
  intros (Hl & Hw & Hc). assert (wc_char st x =
    counted st (if x =? 10 then 1 else 0) (if wc_space x || wc_in st then 0 else 1) 1 (negb (wc_space x))) as ->.
  { unfold wc_char, counted. rewrite !s32_small by lia.
    destruct (x =? 10), (wc_space x), (wc_in st); simpl; f_equal; lia. }
  split; [done|]. unfold wc_fits, counted. simpl.
  destruct (x =? 10), (wc_space x || wc_in st); lia.
Qed.

(** Inside a word. *)
Lemma wc_run_word u : forall st n,
  Forall (fun x => wc_space x = false) u -> wc_in st = true -> wc_fits st (length u + n) ->
  foldl wc_char st u = counted st 0 0 (Z.of_nat (length u)) true /\ newlines u = 0 /\ wc_fits (foldl wc_char st u) n.
Proof.
  induction u as [|x u IH]; intros st n Hu Hin Hf.
  - destruct st; simpl in *. subst. unfold counted. simpl. rewrite !Z.add_0_r. done.
  - apply list.Forall_cons in Hu as [Hx Hu]. destruct (wc_char_run st x (length u + n)) as [E Hf']; [exact Hf|].
    assert ((x =? 10) = false) as Hnl by (destruct (Z.eqb_spec x 10); [subst; vm_compute in Hx; done|done]).
    simpl. rewrite Hx, Hnl, Hin in E. destruct (IH (wc_char st x) n Hu) as (E2 & E3 & E4); [by rewrite E|done|].
    split; [|split; [rewrite newlines_cons, Hnl; lia|done]]. rewrite E2, E. unfold counted. simpl. f_equal; lia.
Qed.

Lemma wc_run l ws : words_of l ws -> forall st n,
  (wc_in st = false \/ forall x, head l = Some x -> wc_space x = true) -> wc_fits st (length l + n) ->
  exists i, foldl wc_char st l = counted st (newlines l) (Z.of_nat (length ws)) (Z.of_nat (length l)) i.
Proof.
  induction 1 as [|x l ws Hx _ IH|u l ws Hne Hu Hh _ IH]; intros st n Hin Hf.
  - exists (wc_in st). destruct st. unfold counted, newlines. simpl. by rewrite !Z.add_0_r.
  - destruct (wc_char_run st x (length l + n)) as [E Hf']; [exact Hf|]. rewrite Hx in E. simpl in E.
    destruct (IH (wc_char st x) n) as [i Ei]; [left; by rewrite E|done|]. exists i. simpl. rewrite Ei, E, newlines_cons.
    unfold counted. simpl. f_equal; lia.
  - destruct u as [|x u]; [done|]. apply list.Forall_cons in Hu as [Hx Hu].
    assert (wc_in st = false) as Hst by (destruct Hin as [|Hin]; [done|]; rewrite (Hin x) in Hx; done).
    rewrite length_app in Hf. destruct (wc_char_run st x (length u + (length l + n))) as [E Hf'].
    { by replace (S (length u + (length l + n))) with (length (x :: u) + length l + n)%nat by (simpl; lia). }
    rewrite Hx, Hst in E. simpl in E.
    destruct (wc_run_word u (wc_char st x) (length l + n) Hu) as (E2 & E3 & Hf2); [by rewrite E|done|].
    destruct (IH (foldl wc_char (wc_char st x) u) n) as [i Ei]; [by right|done|]. exists i.
    rewrite foldl_app. simpl foldl. rewrite Ei, E2, E. simpl app. rewrite newlines_cons, newlines_app, E3. cbn [length]. rewrite length_app.
    unfold counted. simpl. f_equal; lia.
Qed.

(** ** Reading a descriptor to its end *)

Section streams.
Context {W : Type} `{!Unix W, !Streams W}.

(** A read of up to 512 bytes. *)
Lemma uread_run fd n w : 0 < n ->
  (pending fd w = [] /\ uread fd n w = Val (0, []) w) \/
  exists k w', uread fd n w = Val (Z.of_nat k, take k (pending fd w)) w' /\ (1 <= k <= length (pending fd w))%nat /\
    pending fd w' = drop k (pending fd w) /\ (forall fd', produced fd' w' = produced fd' w).
Proof.
  intros Hn. destruct (decide (pending fd w = [])) as [He|He].
  - left. split; [done|]. unfold uread, ucall. by rewrite read_end.
  - right. destruct (read_some fd n w Hn He) as (k & w' & E & Hk & _ & Hp & _ & Ho). exists k, w'.
    unfold uread, ucall. by rewrite E.
Qed.

Lemma cat_loop fd fuel : forall w, (length (pending fd w) < fuel)%nat ->
  exists w', uloop fuel (cat_body fd) tt w = Val 0 w' /\ produced 1 w' = produced 1 w ++ pending fd w /\
    pending fd w' = [] /\ forall fd', fd' <> 1 -> produced fd' w' = produced fd' w.
Proof.
  induction fuel as [|fuel IH]; intros w Hf; [lia|]. cbn [uloop].
  destruct (uread_run fd 512 w ltac:(lia)) as [[He E]|(k & w1 & E & Hk & Hp & Ho)].
  - exists w. unfold ubind, cat_body, ubind. rewrite E. simpl. by rewrite He, app_nil_r.
  - destruct (uwrite_run 1 (take k (pending fd w)) w1) as (w2 & E2 & P2 & O2 & I2).
    assert (cat_body fd tt w = Val (inl tt) w2) as Eb.
    { unfold cat_body. rewrite (ubind_val _ _ _ _ _ E). cbn beta iota. destruct (Z.gtb_spec (Z.of_nat k) 0); [|lia].
      cbn [negb]. rewrite (ubind_val _ _ _ _ _ E2), length_take, Nat.min_l, Z.eqb_refl by lia. done. }
    rewrite (ubind_val _ _ _ _ _ Eb). destruct (IH w2) as (w3 & E3 & P3 & He3 & O3).
    { rewrite I2, Hp, length_drop. lia. }
    exists w3. split; [done|]. split; [|split; [done|intros fd' Hne; by rewrite O3, O2, Ho]].
    rewrite P3, P2, I2, Hp, Ho, <-(assoc_L (++)), take_drop. done.
Qed.

Lemma wc_loop fd fuel : forall w st, (length (pending fd w) < fuel)%nat ->
  exists w', uloop fuel (wc_body fd) st w = Val (0, foldl wc_char st (pending fd w)) w' /\
    pending fd w' = [] /\ forall fd', produced fd' w' = produced fd' w.
Proof.
  induction fuel as [|fuel IH]; intros w st Hf; [lia|]. cbn [uloop].
  destruct (uread_run fd 512 w ltac:(lia)) as [[He E]|(k & w1 & E & Hk & Hp & Ho)].
  - exists w. unfold ubind, wc_body, ubind. rewrite E. simpl. by rewrite He.
  - assert (wc_body fd st w = Val (inl (foldl wc_char st (take k (pending fd w)))) w1) as Eb.
    { unfold wc_body. rewrite (ubind_val _ _ _ _ _ E). cbn beta iota. destruct (Z.gtb_spec (Z.of_nat k) 0); [|lia].
      cbn [negb]. unfold uret. by rewrite Nat2Z.id, take_take, Nat.min_id. }
    rewrite (ubind_val _ _ _ _ _ Eb). destruct (IH w1 (foldl wc_char st (take k (pending fd w)))) as (w2 & E2 & He2 & O2).
    { rewrite Hp, length_drop. lia. }
    exists w2. split; [|split; [done|intros fd'; by rewrite O2, Ho]]. rewrite E2, Hp, <-foldl_app, take_drop. done.
Qed.
End streams.

(** ** Theorems *)

(** [cat] copies: it reads its descriptor to the end, in whatever pieces the
    system delivers, writes exactly those bytes to descriptor 1, writes nothing else
    and returns. *)
Theorem cat_copies {W} `{!Unix W, !Streams W} fd fuel (w : W) :
  (length (pending fd w) < fuel)%nat ->
  exists w', cat fuel fd w = Val tt w' /\ produced 1 w' = produced 1 w ++ pending fd w /\ pending fd w' = [] /\
    forall fd', fd' <> 1 -> produced fd' w' = produced fd' w.
Proof.
  intros Hf. destruct (cat_loop fd fuel w Hf) as (w' & E & H). exists w'. unfold cat.
  by rewrite (ubind_val _ _ _ _ _ E).
Qed.

Lemma cat_copies_witness : exists w',
  cat 9 0 {| t_in := {[0 := [104; 105; 10]]}; t_out := ∅; t_chunk := 1; t_brk := 0 |} = Val tt w' /\
  t_produced 1 w' = [104; 105; 10].
Proof.
  destruct (cat_copies (W := term) 0 9 {| t_in := {[0 := [104; 105; 10]]}; t_out := ∅; t_chunk := 1; t_brk := 0 |})
    as (w' & E & P & _).
  - vm_compute. lia.
  - exists w'. split; [exact E|]. exact P.
Defined.

(** [C36] [wc] counts: for an input of less than 2^31 bytes it reads the descriptor to
    its end and prints the number of newlines, of words (maximal runs of characters other
    than blanks, also across the pieces in which the input arrives) and of
    characters. *)
Theorem wc_counts {W} `{!Unix W, !Streams W} fd name ws fuel (w : W) :
  words_of (pending fd w) ws -> Z.of_nat (length (pending fd w)) < 2 ^ 31 -> (length (pending fd w) < fuel)%nat ->
  exists w1, wc fuel fd name w = Ulib.printf wc_fmt
      [AInt (newlines (pending fd w)); AInt (Z.of_nat (length ws)); AInt (Z.of_nat (length (pending fd w))); AStr (Some name)] w1 /\
    pending fd w1 = [] /\ forall fd', produced fd' w1 = produced fd' w.
Proof.
  intros Hw Hl Hf. destruct (wc_loop fd fuel w (mk_wc 0 0 0 false) Hf) as (w1 & E & H). exists w1.
  destruct (wc_run _ _ Hw (mk_wc 0 0 0 false) 0) as [i Ei]; [by left|unfold wc_fits; simpl; lia|].
  rewrite Ei in E. unfold wc. by rewrite (ubind_val _ _ _ _ _ E).
Qed.

(** ["one two"] and a newline, three bytes at a time. *)
Lemma wc_counts_witness : exists w1,
  wc 20 0 [] {| t_in := {[0 := bytes_of "one two" ++ newline]}; t_out := ∅; t_chunk := 2; t_brk := 0 |} =
    Ulib.printf wc_fmt [AInt 1; AInt 2; AInt 8; AStr (Some [])] w1 /\ t_produced 1 w1 = [].
Proof.
  destruct (wc_counts (W := term) 0 [] [bytes_of "one"; bytes_of "two"] 20
    {| t_in := {[0 := bytes_of "one two" ++ newline]}; t_out := ∅; t_chunk := 2; t_brk := 0 |}) as (w1 & E & _ & P).
  - apply (words_word (bytes_of "one")); [done|by repeat constructor|by intros x [= <-]|]. apply words_space; [done|].
    apply (words_word (bytes_of "two")); [done|by repeat constructor|by intros x [= <-]|]. apply words_space; [done|constructor].
  - reflexivity.
  - vm_compute. lia.
  - exists w1. split; [exact E|]. exact (P 1).
Defined.
End Utils.
