(* ===== verification/Stress.v ===== *)
(** * Stress tests and first exercises: user/{grind,forktest,stressfs}.c, Introduction/Files/ex*.c

    Programs over the system calls of the class [Unix].  [Grind] picks random
    system calls for ever: its generator is the one of Park and Miller.  [Forktest] uses up the process table; it is verified against a class
    [Procs] that says what fork and wait promise. *)

From Stdlib Require Import ZArith Znumtheory Lia.
From stdpp Require Import base list gmap strings numbers option.
From S2P Require Import Prelude Bytes Cstring Printf Unix Ulib Utils.

Definition O_CREATE_RDWR : Z := Z.lor 0x200 0x002.
Definition say {W} `{!Unix W} (msg : string) : U W unit := Ulib.printf (bytes_of msg ++ newline) [].

(** ** user/grind.c *)

Module Grind.

(** The result and the new [*ctx]; [long] has 64 bits and [%] is unsigned. *)
Definition do_rand (ctx : Z) : Z * Z :=
  let x := u64 (ctx mod 0x7ffffffe + 1) in
  let hi := Z.quot x 127773 in
  let lo := Z.rem x 127773 in
  let x := s64 (16807 * lo - 2836 * hi) in
  let x := if x <? 0 then s64 (x + 0x7fffffff) else x in
  let x := s64 (x - 1) in
  (s32 x, u64 x).

(** Over the variable [rand_next]. *)
Definition rand (rand_next : Z) : Z * Z := do_rand rand_next.

Section programs.
Context {W : Type} `{!Unix W}.

Definition fork_failed {A} : U W A := say "grind: fork failed" ;;~ exit 1.
Definition open_close (path : string) : U W unit :=
  fd <~ uopen (bytes_of path) O_CREATE_RDWR ;; uclose fd ;;~ uret tt.
Definition unlink (path : string) : U W unit := uunlink (bytes_of path) ;;~ uret tt.
Definition mkdir (path : string) : U W unit := umkdir (bytes_of path) ;;~ uret tt.
Definition chdir (path : string) : U W unit := uchdir (bytes_of path) ;;~ uret tt.
Definition close_ (fd : Z) : U W unit := uclose fd ;;~ uret tt.
Definition fork_ : U W unit := ufork ;;~ uret tt.
Definition wait0 : U W unit := uwait ;;~ uret tt.

(** [int pid = fork(); if(pid == 0){ child } else if(pid < 0){ fail } rest] *)
Definition with_child {A} (child : U W A) (rest : Z -> U W A) : U W A :=
  pid <~ ufork ;;
  if pid =? 0 then child
  else if pid <? 0 then fork_failed
  else rest pid.

(** The variables of [go]: [fd], [buf], [iters] and the global [rand_next]. *)
Record go_st := mk_go { go_fd : Z; go_buf : list Z; go_iters : Z; go_rand : Z }.
Definition set_go_fd (fd : Z) (st : go_st) : go_st := mk_go fd (go_buf st) (go_iters st) (go_rand st).
Definition set_go_buf (bs : list Z) (st : go_st) : go_st :=
  mk_go (go_fd st) (bs ++ drop (length bs) (go_buf st)) (go_iters st) (go_rand st).

Definition go_fork2 : U W unit :=
  with_child (fork_ ;;~ fork_ ;;~ exit 0) (fun _ => wait0).

Definition go_kill_child : U W unit :=
  with_child (open_close "a" ;;~ exit 0) (fun pid =>
    r <~ uchdir (bytes_of "../grindir/..") ;;
    uwhen (negb (r =? 0)) (say "grind: chdir failed" ;;~ exit 1) ;;~
    ukill pid ;;~
    wait0).

Definition go_pipe : U W unit :=
  fds <~ upipe ;;
  match fds with
  | None => say "grind: pipe failed" ;;~ exit 1
  | Some (fd0, fd1) =>
      with_child
        (fork_ ;;~ fork_ ;;~
         n <~ uwrite fd1 (bytes_of "x") ;;
         uwhen (negb (n =? 1)) (say "grind: pipe write failed") ;;~
         r <~ uread fd0 1 ;;
         uwhen (negb (r.1 =? 1)) (say "grind: pipe read failed") ;;~
         exit 0)
        (fun _ => close_ fd0 ;;~ close_ fd1 ;;~ wait0)
  end.

Definition go_dir_child : U W unit :=
  with_child
    (unlink "a" ;;~ mkdir "a" ;;~ chdir "a" ;;~ unlink "../a" ;;~
     uopen (bytes_of "x") O_CREATE_RDWR ;;~ unlink "x" ;;~ exit 0)
    (fun _ => wait0).

Definition go_check_c : U W unit :=
  unlink "c" ;;~
  fd1 <~ uopen (bytes_of "c") O_CREATE_RDWR ;;
  uwhen (fd1 <? 0) (say "grind: create c failed" ;;~ exit 1) ;;~
  n <~ uwrite fd1 (bytes_of "x") ;;
  uwhen (negb (n =? 1)) (say "grind: write c failed" ;;~ exit 1) ;;~
  o <~ ufstat fd1 ;;
  match o with
  | None => say "grind: fstat failed" ;;~ exit 1
  | Some st =>
      uwhen (negb (st_size st =? 1))
        (Ulib.printf (bytes_of "grind: fstat reports wrong size %d" ++ newline) [AInt (s32 (st_size st))] ;;~ exit 1) ;;~
      uwhen (st_ino st >? 200)
        (Ulib.printf (bytes_of "grind: fstat reports crazy i-number %d" ++ newline) [AInt (st_ino st)] ;;~ exit 1) ;;~
      close_ fd1 ;;~
      unlink "c"
  end.

Definition efail {A} (msg : string) (status : Z) : U W A :=
  Ulib.fprintf 2 (bytes_of msg ++ newline) [] ;;~ exit status.

Definition go_echo (aa0 aa1 bb0 bb1 : Z) : U W unit :=
  close_ bb0 ;;~ close_ bb1 ;;~ close_ aa0 ;;~ close_ 1 ;;~
  d <~ udup aa1 ;;
  uwhen (negb (d =? 1)) (efail "grind: dup failed" 1) ;;~
  close_ aa1 ;;~
  uexec (bytes_of "grindir/../echo") [bytes_of "echo"; bytes_of "hi"] ;;~
  efail "grind: echo: not found" 2.

Definition go_cat (aa0 aa1 bb0 bb1 : Z) : U W unit :=
  close_ aa1 ;;~ close_ bb0 ;;~ close_ 0 ;;~
  d <~ udup aa0 ;;
  uwhen (negb (d =? 0)) (efail "grind: dup failed" 4) ;;~
  close_ aa0 ;;~ close_ 1 ;;~
  d <~ udup bb1 ;;
  uwhen (negb (d =? 1)) (efail "grind: dup failed" 5) ;;~
  close_ bb1 ;;~
  uexec (bytes_of "/cat") [bytes_of "cat"] ;;~
  efail "grind: cat: not found" 6.

(** One byte at [buf + i], if the read gives one. *)
Definition read_at (fd : Z) (buf : list Z) (i : nat) : U W (list Z) :=
  r <~ uread fd 1 ;;
  uret (match r.2 with b :: _ => <[i := b]> buf | [] => buf end).

(** [strcmp(buf, hi) != 0] for the four bytes of [buf] and the three characters and the nul of hi. *)
Definition not_hi (buf : list Z) : option bool :=
  d ← Ulib.strcmp 5 (storen (storen ∅ 0 buf) 8 (bytes_of "hi" ++ newline ++ [0])) 0 8; Some (negb (d =? 0)).

(** The parent's part: a status that no [wait] stored has no value. *)
Definition go_pipeline_wait (aa0 aa1 bb0 bb1 : Z) : U W unit :=
  close_ aa0 ;;~ close_ aa1 ;;~ close_ bb1 ;;~
  buf <~ read_at bb0 [0; 0; 0; 0] 0 ;;
  buf <~ read_at bb0 buf 1 ;;
  buf <~ read_at bb0 buf 2 ;;
  close_ bb0 ;;~
  r1 <~ uwait_status None ;;
  r2 <~ uwait_status None ;;
  match r1.2, r2.2, not_hi buf with
  | Some st1, Some st2, Some differs =>
      uwhen (negb (st1 =? 0) || negb (st2 =? 0) || differs)
        (Ulib.printf (bytes_of "grind: exec pipeline failed %d %d " ++ [34] ++ bytes_of "%s" ++ [34] ++ newline)
           [AInt st1; AInt st2; AStr (Some (Utils.until_nul buf))] ;;~ exit 1)
  | _, _, _ => fun _ => Stuck "uninitialised status"
  end.

Definition go_pipeline : U W unit :=
  aa <~ upipe ;;
  match aa with
  | None => efail "grind: pipe failed" 1
  | Some (aa0, aa1) =>
      bb <~ upipe ;;
      match bb with
      | None => efail "grind: pipe failed" 1
      | Some (bb0, bb1) =>
          pid1 <~ ufork ;;
          if pid1 =? 0 then go_echo aa0 aa1 bb0 bb1
          else if pid1 <? 0 then efail "grind: fork failed" 3 else
          pid2 <~ ufork ;;
          if pid2 =? 0 then go_cat aa0 aa1 bb0 bb1
          else if pid2 <? 0 then efail "grind: fork failed" 7 else
          go_pipeline_wait aa0 aa1 bb0 bb1
      end
  end.

(** The chain of [else if]s on [what]; [break0] is the break at the start. *)
Definition go_call (break0 what : Z) (st : go_st) : U W go_st :=
  if what =? 1 then open_close "grindir/../a" ;;~ uret st
  else if what =? 2 then open_close "grindir/../grindir/../b" ;;~ uret st
  else if what =? 3 then unlink "grindir/../a" ;;~ uret st
  else if what =? 4 then
    r <~ uchdir (bytes_of "grindir") ;;
    uwhen (negb (r =? 0)) (say "grind: chdir grindir failed" ;;~ exit 1) ;;~
    unlink "../b" ;;~ chdir "/" ;;~ uret st
  else if what =? 5 then
    uclose (go_fd st) ;;~
    fd <~ uopen (bytes_of "/grindir/../a") O_CREATE_RDWR ;; uret (set_go_fd fd st)
  else if what =? 6 then
    uclose (go_fd st) ;;~
    fd <~ uopen (bytes_of "/./grindir/./../b") O_CREATE_RDWR ;; uret (set_go_fd fd st)
  else if what =? 7 then uwrite (go_fd st) (go_buf st) ;;~ uret st
  else if what =? 8 then r <~ uread (go_fd st) 999 ;; uret (set_go_buf r.2 st)
  else if what =? 9 then mkdir "grindir/../a" ;;~ open_close "a/../a/./a" ;;~ unlink "a/a" ;;~ uret st
  else if what =? 10 then mkdir "/../b" ;;~ open_close "grindir/../b/b" ;;~ unlink "b/b" ;;~ uret st
  else if what =? 11 then unlink "b" ;;~ ulink (bytes_of "../grindir/./../a") (bytes_of "../b") ;;~ uret st
  else if what =? 12 then
    unlink "../grindir/../a" ;;~ ulink (bytes_of ".././b") (bytes_of "/grindir/../a") ;;~ uret st
  else if what =? 13 then with_child (exit 0) (fun _ => wait0) ;;~ uret st
  else if what =? 14 then go_fork2 ;;~ uret st
  else if what =? 15 then usbrk 6011 ;;~ uret st
  else if what =? 16 then
    b <~ usbrk 0 ;;
    uwhen (b >? break0) (b' <~ usbrk 0 ;; usbrk (s32 (- (b' - break0))) ;;~ uret tt) ;;~ uret st
  else if what =? 17 then go_kill_child ;;~ uret st
  else if what =? 18 then
    with_child (pid <~ ugetpid ;; ukill pid ;;~ exit 0) (fun _ => wait0) ;;~ uret st
  else if what =? 19 then go_pipe ;;~ uret st
  else if what =? 20 then go_dir_child ;;~ uret st
  else if what =? 21 then go_check_c ;;~ uret st
  else if what =? 22 then go_pipeline ;;~ uret st
  else uret st.

(** One round of [while(1)]. *)
Definition go_body (which_child break0 : Z) (st : go_st) : U W (go_st + unit) :=
  let iters := u64 (go_iters st + 1) in
  uwhen (iters mod 500 =? 0)
    (uwrite 1 (bytes_of (if negb (which_child =? 0) then "B" else "A")) ;;~ uret tt) ;;~
  let '(r, next) := rand (go_rand st) in
  let what := Z.rem r 23 in
  st' <~ go_call break0 what (mk_go (go_fd st) (go_buf st) iters next) ;;
  uret (inl st').

Definition go (fuel : nat) (rand_next which_child : Z) : U W unit :=
  break0 <~ usbrk 0 ;;
  mkdir "grindir" ;;~
  r <~ uchdir (bytes_of "grindir") ;;
  uwhen (negb (r =? 0)) (say "grind: chdir grindir failed" ;;~ exit 1) ;;~
  chdir "/" ;;~
  uloop fuel (go_body which_child break0) (mk_go (-1) (replicate 999 0) 0 rand_next).

Definition iter (fuel : nat) (rand_next : Z) : U W unit :=
  unlink "a" ;;~ unlink "b" ;;~
  pid1 <~ ufork ;;
  if pid1 <? 0 then fork_failed else
  if pid1 =? 0 then go fuel (Z.lxor rand_next 31) 0 ;;~ exit 0 else
  pid2 <~ ufork ;;
  if pid2 <? 0 then fork_failed else
  if pid2 =? 0 then go fuel (Z.lxor rand_next 7177) 1 ;;~ exit 0 else
  r1 <~ uwait_status (Some (-1)) ;;
  uwhen (negb (bool_decide (r1.2 = Some 0))) (ukill pid1 ;;~ ukill pid2 ;;~ uret tt) ;;~
  uwait_status (Some (-1)) ;;~
  exit 0.

Definition grind_main_body (fuel : nat) (rand_next : Z) : U W (Z + unit) :=
  pid <~ ufork ;;
  uwhen (pid =? 0) (iter fuel rand_next ;;~ exit 0) ;;~
  uwhen (pid >? 0) wait0 ;;~
  usleep 20 ;;~
  uret (inl (u64 (rand_next + 1))).

Definition grind_main (fuel : nat) : U W unit := uloop fuel (grind_main_body fuel) 1.
End programs.

(** ** The generator *)

Definition M31 : Z := 2147483647.

(** Schrage's decomposition: neither product leaves 31 bits. *)
Lemma schrage_range x : 1 <= x < M31 ->
  0 <= 16807 * (x mod 127773) < 2 ^ 31 /\ 0 <= 2836 * (x / 127773) < 2 ^ 31.
Proof. unfold M31. intros H. zlia. Qed.

Lemma schrage x : 1 <= x < M31 ->
  let y := 16807 * (x mod 127773) - 2836 * (x / 127773) in
  (16807 * x) mod M31 = if y <? 0 then y + M31 else y.
Proof.
  intros H y. destruct (schrage_range x H) as (H1 & H2).
  assert (16807 * x = M31 * (x / 127773) + y) as E by (unfold y, M31; pose proof (Z.div_mod x 127773); lia).
  destruct (Z.ltb_spec y 0) as [Hy|Hy].
  - symmetry. apply (Z.mod_unique_pos _ _ (x / 127773 - 1)); unfold M31 in *; lia.
  - symmetry. apply (Z.mod_unique_pos _ _ (x / 127773)); [|lia].
    split; [done|]. unfold y, M31. unfold M31 in H. zlia.
Qed.

(** 16807 is invertible modulo 2^31 - 1. *)
Lemma mult_inverse : (16807 * 1407677000) mod M31 = 1.
Proof. reflexivity. Qed.

Lemma mult_injective x y : 0 <= x < M31 -> 0 <= y < M31 -> (16807 * x) mod M31 = (16807 * y) mod M31 -> x = y.
Proof.
  intros Hx Hy E.
  assert (forall z, 0 <= z < M31 -> (1407677000 * ((16807 * z) mod M31)) mod M31 = z) as Inv.
  { intros z Hz. rewrite Zmult_mod_idemp_r, Z.mul_assoc, (Z.mul_comm 1407677000), Z.mul_mod by done.
    rewrite mult_inverse, Z.mul_1_l, Zmod_mod. by apply Z.mod_small. }
  rewrite <- (Inv x Hx), <- (Inv y Hy). by rewrite E.
Qed.

Lemma mult_nonzero x : 1 <= x < M31 -> 1 <= (16807 * x) mod M31 < M31.
Proof.
  intros H. pose proof (Z.mod_pos_bound (16807 * x) M31 ltac:(done)) as Hb.
  destruct (Z.eq_dec ((16807 * x) mod M31) 0) as [E|]; [|lia].
  assert (x = 0) by (apply mult_injective; [lia..|by rewrite E]). lia.
Qed.

(** The reference: one step of the multiplicative generator of Park and Miller, with the state
    shifted to start from 0. *)
Definition park_miller (s : Z) : Z := (16807 * (s + 1)) mod M31 - 1.

Lemma do_rand_eq ctx : 0 <= ctx -> do_rand ctx = (park_miller (ctx mod 0x7ffffffe), park_miller (ctx mod 0x7ffffffe)).
Proof.
  intros Hc. set (s := ctx mod 0x7ffffffe). assert (0 <= s < 0x7ffffffe) as Hs by (apply Z.mod_pos_bound; lia).
  unfold do_rand. fold s. rewrite u64_small by lia. set (x := s + 1). assert (1 <= x < M31) as Hx by (unfold x, M31; lia).
  rewrite Z.quot_div_nonneg, Z.rem_mod_nonneg by lia. pose proof (schrage x Hx) as E. cbv zeta in E.
  destruct (schrage_range x Hx) as (R1 & R2). pose proof (mult_nonzero x Hx) as Hn.
  assert (forall z, - 2 ^ 32 <= z < 2 ^ 32 -> s64 z = z) as S64 by (intros; apply wrapS_small; lia).
  rewrite (S64 (16807 * _ - _)) by lia. unfold park_miller. fold x. rewrite E in Hn |- *. unfold M31 in *.
  destruct (Z.ltb_spec (16807 * (x mod 127773) - 2836 * (x / 127773)) 0).
  - rewrite (S64 (_ + 2147483647)) by lia. rewrite S64, s32_small, u64_small by lia. done.
  - rewrite S64, s32_small, u64_small by lia. done.
Qed.

(** [C28] The random numbers: for every 64-bit seed, do_rand returns and stores one step of the
    Park-Miller generator x -> 16807 x mod (2^31 - 1), which it computes from Schrage's decomposition;
    the value is in \[0, 2^31 - 3\], and on that range the
    step is injective, so no state is ever merged with another. *)
Theorem do_rand_park_miller (ctx : Z) : 0 <= ctx < 2 ^ 64 ->
  (exists r, do_rand ctx = (r, r) /\ r = park_miller (ctx mod 0x7ffffffe) /\ 0 <= r <= 0x7ffffffd) /\
  (forall ctx', 0 <= ctx <= 0x7ffffffd -> 0 <= ctx' <= 0x7ffffffd -> do_rand ctx = do_rand ctx' -> ctx = ctx').
Proof.
  intros Hc. split.
  - eexists. split; [apply do_rand_eq; lia|]. split; [done|].
    pose proof (Z.mod_pos_bound ctx 0x7ffffffe ltac:(lia)).
    pose proof (mult_nonzero (ctx mod 0x7ffffffe + 1) ltac:(unfold M31; lia)). unfold park_miller, M31 in *. lia.
  - intros ctx' H1 H2. rewrite !do_rand_eq by lia. rewrite !Z.mod_small by lia. intros [= E _].
    unfold park_miller in E. assert (ctx + 1 = ctx' + 1); [|lia]. apply mult_injective; unfold M31 in *; lia.
Qed.

Lemma do_rand_park_miller_witness :
  exists r, do_rand 1 = (r, r) /\ r = park_miller (1 mod 0x7ffffffe) /\ r = 33613.
Proof. destruct (do_rand_park_miller 1 ltac:(lia)) as ((r & E & Hr & _) & _). exists r. by repeat split. Defined.

(** From the initial seed, the state after [k] calls of [rand] is a power of 16807. *)
Lemma rand_iter k s : 0 <= s <= 0x7ffffffd ->
  Nat.iter k (fun s => (rand s).2) s = (16807 ^ Z.of_nat k * (s + 1)) mod M31 - 1.
Proof.
  intros Hs. induction k as [|k IH].
  { simpl. rewrite Z.mul_1_l, Z.mod_small by (unfold M31; lia). lia. }
  rewrite Nat.iter_succ, IH. unfold rand.
  assert (0 <= (16807 ^ Z.of_nat k * (s + 1)) mod M31 - 1 <= 0x7ffffffd) as Hr.
  { clear IH. induction k as [|k IH]; [simpl; rewrite Z.mul_1_l, Z.mod_small by (unfold M31; lia); lia|].
    rewrite Nat2Z.inj_succ, Z.pow_succ_r, <- Z.mul_assoc, <- Zmult_mod_idemp_r by lia.
    pose proof (mult_nonzero ((16807 ^ Z.of_nat k * (s + 1)) mod M31) ltac:(unfold M31 in *; lia)). unfold M31 in *. lia. }
  rewrite do_rand_eq by lia. rewrite Z.mod_small by lia. cbn [snd]. unfold park_miller.
  rewrite Z.sub_add, Zmult_mod_idemp_r, Z.mul_assoc, <- Z.pow_succ_r, Nat2Z.inj_succ by lia. done.
Qed.
End Grind.

(** ** user/forktest.c *)

Module Forktest.

Definition N : nat := 1000.

Section program.
Context {W : Type} `{!Unix W}.

(** [write(1, s, strlen(s))] *)
Definition print (s : list Z) : U W unit := uwrite 1 s ;;~ uret tt.

(** The loop that forks; its result is [n]. *)
Definition forktest_fork_body (n : nat) : U W (nat + nat) :=
  if (n <? N)%nat then
    pid <~ ufork ;;
    if pid <? 0 then uret (inr n)
    else if pid =? 0 then exit 0
    else uret (inl (S n))
  else uret (inr n).

Definition forktest_wait_body (n : nat) : U W (nat + unit) :=
  match n with
  | O => uret (inr tt)
  | S n' =>
      r <~ uwait ;;
      if r <? 0 then print (bytes_of "wait stopped early" ++ newline) ;;~ exit 1
      else uret (inl n')
  end.

Definition forktest : U W unit :=
  print (bytes_of "fork test" ++ newline) ;;~
  n <~ uloop (S N) forktest_fork_body 0%nat ;;
  uwhen (n =? N)%nat (print (bytes_of "fork claimed to work N times!" ++ newline) ;;~ exit 1) ;;~
  uloop (S N) forktest_wait_body n ;;~
  r <~ uwait ;;
  uwhen (negb (r =? -1)) (print (bytes_of "wait got too many" ++ newline) ;;~ exit 1) ;;~
  print (bytes_of "fork test OK" ++ newline).

Definition forktest_main : U W unit := forktest ;;~ exit 0.
End program.

(** What fork and wait promise to a parent: there is [room] for that many more processes and there
    are [kids] that were not waited for; a child is counted until its parent has waited for it. *)
Class Procs (W : Type) `{!Unix W, !Streams W} := {
  kids : W -> nat;
  room : W -> nat;
  fork_works w r : room w = S r -> exists pid w', sys_fork w = (pid, w') /\ 0 < pid /\
    kids w' = S (kids w) /\ room w' = r /\ wrote_to 1 [] w w';
  fork_fails w : room w = 0%nat -> sys_fork w = (-1, w);
  wait_works w k : kids w = S k -> exists pid st w', sys_wait w = ((pid, st), w') /\ 0 < pid /\
    kids w' = k /\ wrote_to 1 [] w w';
  wait_fails w : kids w = 0%nat -> exists st, sys_wait w = ((-1, st), w);
  write_procs fd bs w : kids (sys_write fd bs w).2 = kids w /\ room (sys_write fd bs w).2 = room w
}.

Section verified.
Context {W : Type} `{!Unix W, !Streams W, !Procs W}.

Lemma print_run s w : exists w', print s w = Val tt w' /\ wrote_to 1 s w w' /\ kids w' = kids w /\ room w' = room w.
Proof.
  destruct (write_all 1 s w) as (w' & E & H). exists w'. pose proof (write_procs 1 s w) as P. rewrite E in P.
  unfold print, uwrite, ubind, ucall. by rewrite E.
Qed.

Lemma fork_loop r : forall n fuel w, room w = r -> (n + r < N)%nat -> (r < fuel)%nat -> exists w',
  uloop fuel forktest_fork_body n w = Val (n + r)%nat w' /\ kids w' = (kids w + r)%nat /\ wrote_to 1 [] w w'.
Proof.
  induction r as [|r IH]; intros n [|fuel] w Hr Hn Hf; try lia; cbn [uloop]; unfold ubind, forktest_fork_body at 1.
  all: destruct (Nat.ltb_spec n N); [|lia].
  - unfold ubind, ufork, ucall. rewrite (fork_fails w Hr). cbn. exists w. rewrite !Nat.add_0_r.
    split_and!; [done..|apply wrote_to_nil].
  - destruct (fork_works w r Hr) as (pid & w1 & E & Hp & Hk & Hr1 & Hw).
    unfold ubind, ufork, ucall. rewrite E. rewrite (proj2 (Z.ltb_ge pid 0)), (proj2 (Z.eqb_neq pid 0)) by lia.
    destruct (IH (S n) fuel w1 Hr1 ltac:(lia) ltac:(lia)) as (w' & El & Hk' & Hw').
    exists w'. unfold uret. rewrite El. split; [by rewrite Nat.add_succ_comm|]. split; [lia|].
    exact (wrote_app 1 [] [] _ _ _ Hw Hw').
Qed.

(** No room is made while the loop runs: when there is enough it claims to work [N] times. *)
Lemma fork_loop_full k : forall n fuel w, (k <= room w)%nat -> (n + k = N)%nat -> (k < fuel)%nat -> exists w',
  uloop fuel forktest_fork_body n w = Val N w' /\ wrote_to 1 [] w w'.
Proof.
  induction k as [|k IH]; intros n [|fuel] w Hr Hn Hf; try lia; cbn [uloop]; unfold ubind, forktest_fork_body at 1.
  - rewrite Nat.add_0_r in Hn. subst n. rewrite Nat.ltb_irrefl. exists w. split; [done|apply wrote_to_nil].
  - destruct (Nat.ltb_spec n N); [|lia]. destruct (room w) as [|r] eqn:Er; [lia|].
    destruct (fork_works w r Er) as (pid & w1 & E & Hp & Hk & Hr1 & Hw).
    unfold ubind, ufork, ucall. rewrite E. rewrite (proj2 (Z.ltb_ge pid 0)), (proj2 (Z.eqb_neq pid 0)) by lia.
    destruct (IH (S n) fuel w1 ltac:(lia) ltac:(lia) ltac:(lia)) as (w' & El & Hw').
    exists w'. unfold uret. rewrite El. split; [done|]. exact (wrote_app 1 [] [] _ _ _ Hw Hw').
Qed.

Lemma wait_loop n : forall fuel w, kids w = n -> (n < fuel)%nat -> exists w',
  uloop fuel forktest_wait_body n w = Val tt w' /\ kids w' = 0%nat /\ wrote_to 1 [] w w'.
Proof.
  induction n as [|n IH]; intros [|fuel] w Hk Hf; try lia; cbn [uloop]; unfold ubind, forktest_wait_body at 1.
  - exists w. split_and!; [done..|apply wrote_to_nil].
  - destruct (wait_works w n Hk) as (pid & st & w1 & E & Hp & Hk1 & Hw).
    unfold ubind, uwait, ubind, ucall. rewrite E. cbn [fst]. unfold uret. rewrite (proj2 (Z.ltb_ge pid 0)) by lia.
    destruct (IH fuel w1 Hk1 ltac:(lia)) as (w' & El & Hk' & Hw'). exists w'. rewrite El.
    split_and!; [done..|]. exact (wrote_app 1 [] [] _ _ _ Hw Hw').
Qed.
End verified.

(** [C29] forktest passes exactly on systems whose process table fills up: with room for fewer than 1000
    processes it forks until fork fails, waits for every child, finds no other, prints OK and
    exits with 0; with room for 1000 it says that fork claimed to work and exits with 1. *)
Theorem forktest_verdict {W} `{!Unix W, !Streams W, !Procs W} (w : W) : kids w = 0%nat ->
  exists w', forktest_main w = Exited (if (room w <? N)%nat then 0 else 1) w' /\
    wrote_to 1 (bytes_of "fork test" ++ newline ++
      (if (room w <? N)%nat then bytes_of "fork test OK" else bytes_of "fork claimed to work N times!") ++ newline) w w'.
Proof.
  intros Hk. unfold forktest_main, forktest.
  destruct (print_run (bytes_of "fork test" ++ newline) w) as (w1 & E1 & W1 & K1 & R1).
  unfold ubind at 1. rewrite (ubind_val _ _ _ _ _ E1). destruct (Nat.ltb_spec (room w) N) as [Hr|Hr].
  - destruct (fork_loop (room w) 0 (S N) w1 R1 ltac:(lia) ltac:(lia)) as (w2 & E2 & K2 & W2).
    rewrite (ubind_val _ _ _ _ _ E2). rewrite (proj2 (Nat.eqb_neq _ _)) by lia. unfold uwhen at 1.
    rewrite (ubind_val _ _ _ _ _ eq_refl : ubind (uret tt) _ w2 = _).
    destruct (wait_loop (0 + room w) (S N) w2 ltac:(lia) ltac:(lia)) as (w3 & E3 & K3 & W3).
    rewrite (ubind_val _ _ _ _ _ E3). destruct (wait_fails w3 K3) as (st & E4).
    unfold ubind at 1. unfold uwait at 1, ubind at 1, ucall. rewrite E4. cbn [fst Z.eqb Pos.eqb negb]. unfold uwhen, uret at 1.
    rewrite (ubind_val _ _ _ _ _ eq_refl : ubind (uret tt) _ w3 = _).
    destruct (print_run (bytes_of "fork test OK" ++ newline) w3) as (w5 & E5 & W5 & _). rewrite E5.
    exists w5. split; [done|]. rewrite (assoc_L (++) (bytes_of "fork test")).
    apply (wrote_app 1 _ _ _ w3); [|done].
    rewrite <- (app_nil_r (_ ++ newline)). apply (wrote_app 1 _ _ _ w1); [done|].
    exact (wrote_app 1 [] [] _ _ _ W2 W3).
  - destruct (fork_loop_full N 0 (S N) w1 ltac:(lia) ltac:(lia) ltac:(lia)) as (w2 & E2 & W2).
    rewrite (ubind_val _ _ _ _ _ E2), Nat.eqb_refl. unfold uwhen at 1.
    destruct (print_run (bytes_of "fork claimed to work N times!" ++ newline) w2) as (w3 & E3 & W3 & _).
    unfold ubind at 1. rewrite (ubind_val _ _ _ _ _ E3). exists w3. split; [done|].
    rewrite (assoc_L (++) (bytes_of "fork test")). apply (wrote_app 1 _ _ _ w2); [|done].
    rewrite <- (app_nil_r (_ ++ newline)). by apply (wrote_app 1 _ _ _ w1).
Qed.

(** An instance: the descriptors of [term] and a process table. *)
Record table := mk_table { tb_term : term; tb_kids : nat; tb_room : nat }.
Definition on_term {A} (f : term -> A * term) (w : table) : A * table :=
  let '(a, t) := f (tb_term w) in (a, mk_table t (tb_kids w) (tb_room w)).

#[export] Instance table_unix : Unix table := {
  sys_read fd n := on_term (sys_read fd n);
  sys_write fd bs := on_term (sys_write fd bs);
  sys_open path mode := on_term (sys_open path mode);
  sys_close fd := on_term (sys_close fd);
  sys_fstat fd := on_term (sys_fstat fd);
  sys_kill pid := on_term (sys_kill pid);
  sys_link old new := on_term (sys_link old new);
  sys_unlink path := on_term (sys_unlink path);
  sys_mkdir path := on_term (sys_mkdir path);
  sys_sbrk n := on_term (sys_sbrk n);
  sys_fork w :=
    match tb_room w with
    | O => (-1, w)
    | S r => (Z.of_nat (S (tb_kids w)), mk_table (tb_term w) (S (tb_kids w)) r)
    end;
  sys_wait w :=
    match tb_kids w with
    | O => ((-1, 0), w)
    | S k => ((Z.of_nat (S k), 0), mk_table (tb_term w) k (S (tb_room w)))
    end;
  sys_getpid := on_term sys_getpid;
  sys_pipe := on_term sys_pipe;
  sys_dup fd := on_term (sys_dup fd);
  sys_chdir path := on_term (sys_chdir path);
  sys_mknod path major minor := on_term (sys_mknod path major minor);
  sys_exec path argv := on_term (sys_exec path argv);
  sys_sleep n := on_term (sys_sleep n)
}.

#[export] Program Instance table_streams : Streams table := {
  pending fd w := pending fd (tb_term w);
  produced fd w := produced fd (tb_term w)
}.
Next Obligation.
  intros fd n w Hn Hp. destruct (read_some fd n (tb_term w) Hn Hp) as (k & t & E & H).
  exists k, (mk_table t (tb_kids w) (tb_room w)). unfold sys_read, table_unix, on_term. by rewrite E.
Qed.
Next Obligation.
  intros fd n w Hn Hp. unfold sys_read, table_unix, on_term. rewrite (read_end fd n (tb_term w) Hn Hp). by destruct w.
Qed.
Next Obligation. intros fd w. unfold sys_read, table_unix, on_term. rewrite read_none. by destruct w. Qed.
Next Obligation.
  intros fd bs w. destruct (write_all fd bs (tb_term w)) as (t & E & H).
  exists (mk_table t (tb_kids w) (tb_room w)). unfold sys_write, table_unix, on_term. by rewrite E.
Qed.

#[export] Program Instance table_procs : Procs table := { kids := tb_kids; room := tb_room }.
Next Obligation.
  intros w r Hr. eexists _, _. cbn [sys_fork table_unix]. rewrite Hr. split; [done|].
  split_and!; [lia|done|done|apply (wrote_to_nil (W := term))].
Qed.
Next Obligation. intros w Hr. cbn [sys_fork table_unix]. by rewrite Hr. Qed.
Next Obligation.
  intros w k Hk. eexists _, _, _. cbn [sys_wait table_unix]. rewrite Hk. split; [done|].
  split_and!; [lia|done|apply (wrote_to_nil (W := term))].
Qed.
Next Obligation. intros w Hk. exists 0. cbn [sys_wait table_unix]. by rewrite Hk. Qed.
Next Obligation. intros fd bs w. unfold sys_write, table_unix, on_term. by destruct (_ : Z * term). Qed.

Lemma forktest_verdict_witness :
  let w := mk_table (mk_term ∅ ∅ 0 0) 0 61 in
  exists w', forktest_main w = Exited 0 w' /\ produced 1 w' = bytes_of "fork test" ++ newline ++ bytes_of "fork test OK" ++ newline.
Proof.
  intros w. assert (kids w = 0%nat) as Hk by reflexivity. destruct (forktest_verdict w Hk) as (w' & E & H & _). exists w'. split; [exact E|exact H].
Defined.
End Forktest.

(** ** user/stressfs.c *)

Module Stressfs.
Section program.
Context {W : Type} `{!Unix W}.

(** [for(i = 0; i < 4; i++) if(fork() > 0) break;] *)
Fixpoint fork4 (k : nat) (i : Z) : U W Z :=
  match k with
  | O => uret i
  | S k' => pid <~ ufork ;; if pid >? 0 then uret i else fork4 k' (i + 1)
  end.

Fixpoint write_blocks (k : nat) (fd : Z) (data : list Z) : U W unit :=
  match k with O => uret tt | S k' => uwrite fd data ;;~ write_blocks k' fd data end.
Fixpoint read_blocks (k : nat) (fd : Z) (data : list Z) : U W (list Z) :=
  match k with
  | O => uret data
  | S k' => r <~ uread fd 512 ;; read_blocks k' fd (r.2 ++ drop (length r.2) data)
  end.

Definition stressfs_main : U W unit :=
  say "stressfs starting" ;;~
  let data := replicate 512 97 in
  i <~ fork4 4 0 ;;
  Ulib.printf (bytes_of "write %d" ++ newline) [AInt i] ;;~
  let path := bytes_of "stressfs" ++ [s8 (48 + i)] in
  fd <~ uopen path O_CREATE_RDWR ;;
  write_blocks 20 fd data ;;~
  uclose fd ;;~
  say "read" ;;~
  fd <~ uopen path Utils.O_RDONLY ;;
  read_blocks 20 fd data ;;~
  uclose fd ;;~
  uwait ;;~
  exit 0.
End program.
End Stressfs.

(** ** Introduction/Files *)

Module Exercises.
Section programs.
Context {W : Type} `{!Unix W}.

(** ex1: copy the input to the output through a buffer of 64 bytes. *)
Definition ex1_body (_ : unit) : U W (unit + unit) :=
  r <~ uread 0 64 ;;
  if r.1 <=? 0 then uret (inr tt) else
  uwrite 1 r.2 ;;~ uret (inl tt).
Definition ex1 (fuel : nat) : U W unit := uloop fuel ex1_body tt.

(** ex4: exec returns only when it failed. *)
Definition ex4 : U W unit :=
  uexec (bytes_of "echo") [bytes_of "echo"; bytes_of "this"; bytes_of "is"; bytes_of "echo"] ;;~
  say "exec failed!" ;;~
  exit 0.

(** ex5: [status] has no value before [wait] stores one. *)
Definition ex5 : U W unit :=
  pid <~ ufork ;;
  if pid =? 0 then
    uexec (bytes_of "echo") [bytes_of "echo"; bytes_of "THIS"; bytes_of "IS"; bytes_of "ECHO"] ;;~
    say "exec failed!" ;;~
    exit 1
  else
    say "parent waiting" ;;~
    r <~ uwait_status None ;;
    match r.2 with
    | Some status =>
        Ulib.printf (bytes_of "the child exited with status %d" ++ newline) [AInt status] ;;~
        exit 0
    | None => fun _ => Stuck "uninitialised status"
    end.

(** A write of the [n] bytes that a read stored; the count -1 of a failed read is not given a meaning. *)
Definition write_n (fd : Z) (bs : list Z) (n : Z) : U W Z :=
  if n <? 0 then fun _ => Stuck "buffer" else uwrite fd bs.

(** ex7, ex8: without a pipe the descriptors are uninitialised. *)
Definition ex7 : U W unit :=
  fds <~ upipe ;;
  match fds with
  | None => fun _ => Stuck "uninitialised descriptors"
  | Some (fd0, fd1) =>
      uwrite fd1 (bytes_of "xyz" ++ newline) ;;~
      r <~ uread fd0 100 ;;
      write_n 1 r.2 r.1 ;;~
      exit 0
  end.

Definition ex8 : U W unit :=
  fds <~ upipe ;;
  match fds with
  | None => fun _ => Stuck "uninitialised descriptors"
  | Some (fd0, fd1) =>
      pid <~ ufork ;;
      (if pid =? 0 then uwrite fd1 (bytes_of "this is ex8" ++ newline)
       else r <~ uread fd0 100 ;; write_n 1 r.2 r.1) ;;~
      exit 0
  end.

(** ex9: 16-byte entries, an inode number and a name; a name of 14 characters has no nul, and printing it
    runs into whatever follows the structure. *)
Definition ex9_body (fd : Z) (_ : unit) : U W (unit + unit) :=
  r <~ uread fd 16 ;;
  if negb (r.1 =? 16) then uret (inr tt) else
  let name := drop 2 r.2 in
  match name with
  | c :: _ =>
      uwhen (negb (c =? 0))
        (if bool_decide (0 ∈ name) then Ulib.printf (bytes_of "%s" ++ newline) [AStr (Some (Utils.until_nul name))]
         else fun _ => Stuck "name without a nul") ;;~
      uret (inl tt)
  | [] => fun _ => Stuck "entry"
  end.
Definition ex9 (fuel : nat) : U W unit :=
  fd <~ uopen (bytes_of ".") 0 ;;
  uloop fuel (ex9_body fd) tt ;;~
  exit 0.
End programs.

(** ex1 copies its whole input. *)
Lemma ex1_copies {W} `{!Unix W, !Streams W} fuel : forall w : W, (length (pending 0 w) < fuel)%nat ->
  exists w', ex1 fuel w = Val tt w' /\ produced 1 w' = produced 1 w ++ pending 0 w /\ pending 0 w' = [].
Proof.
  unfold ex1. induction fuel as [|fuel IH]; intros w Hf; [lia|]. cbn [uloop]. unfold ubind at 1, ex1_body at 1.
  destruct (decide (pending 0 w = [])) as [Hp|Hp].
  - rewrite (ubind_val _ _ w (0, []) w); [|unfold uread, ucall; by rewrite (read_end 0 64 w)].
    exists w. cbn. rewrite Hp, app_nil_r. done.
  - destruct (read_some 0 64 w ltac:(lia) Hp) as (k & w1 & E & Hk & _ & P1 & _ & O1).
    rewrite (ubind_val _ _ w (Z.of_nat k, take k (pending 0 w)) w1) by (unfold uread, ucall; by rewrite E). cbn [fst snd].
    rewrite (proj2 (Z.leb_gt _ _)) by lia.
    destruct (uwrite_run 1 (take k (pending 0 w)) w1) as (w2 & E2 & O2 & _ & I2).
    rewrite (ubind_val _ _ _ _ _ E2). unfold uret.
    destruct (IH w2) as (w' & E' & O' & I'). { rewrite I2, P1, length_drop. lia. }
    exists w'. rewrite E'. split; [done|]. split; [|done].
    by rewrite O', O2, O1, I2, P1, <- (assoc_L (++)), take_drop.
Qed.
End Exercises.
