(* ===== verification/Umalloc.v ===== *)
(** * The user allocator: user/umalloc.c

    The free blocks form a circular list in address order, through headers stored in
    front of them; [freep] points somewhere into it.  The headers are a map from
    addresses; sizes count 16-byte units, the header included.  The abstract view is the sorted list of
    free blocks, no two of which touch. *)

From Stdlib Require Import ZArith Lia Sorting.Sorted.
From stdpp Require Import base sorting list gmap strings numbers option.
From S2P Require Import Prelude Unix.

Module Umalloc.

Definition HSIZE : Z := 16.   (** [sizeof(Header)] *)

Record header := mk_header { h_ptr : Z; h_size : Z }.

(** The address of the static [base], the headers and [freep] (0 for null). *)
Record heap := mk_heap { hp_hdr : gmap Z header; hp_freep : Z }.

Definition set_hdr (a : Z) (h : header) (s : heap) : heap :=
  {| hp_hdr := <[a := h]> (hp_hdr s); hp_freep := hp_freep s |}.
Definition set_freep (a : Z) (s : heap) : heap := {| hp_hdr := hp_hdr s; hp_freep := a |}.

(** [sbrk] of a positive number of bytes fails, or returns the end of the process's memory
    and moves it up; user addresses fit 36 bits. *)
Class Brk (W : Type) `{!Unix W} := {
  brk : W -> Z;
  sbrk_grows n w : 0 < n -> sys_sbrk n w = (-1, w) \/
    exists w', sys_sbrk n w = (brk w, w') /\ brk w' = brk w + n /\ brk w' <= 2 ^ 36
}.

(** A block of the list: address and size. *)
Abbreviation block := (Z * Z)%type.

Section code.
Context (BASE : Z).

(** The search loop of [free]: the free block after which [bp] goes. *)
Fixpoint free_find (fuel : nat) (m : gmap Z header) (bp p : Z) : option Z :=
  match fuel with
  | O => None
  | S fuel' =>
      h ← m !! p;
      if (bp >? p) && (bp <? h_ptr h) then Some p
      else if (p >=? h_ptr h) && ((bp >? p) || (bp <? h_ptr h)) then Some p
      else free_find fuel' m bp (h_ptr h)
  end.

(** [if(bp + bp->s.size == p->s.ptr) ... else bp->s.ptr = p->s.ptr;] *)
Definition join_next (bp p : Z) (s : heap) : option heap :=
  hb ← hp_hdr s !! bp;
  hp ← hp_hdr s !! p;
  if bp + HSIZE * h_size hb =? h_ptr hp then
    hn ← hp_hdr s !! h_ptr hp;
    Some (set_hdr bp (mk_header (h_ptr hn) (u32 (h_size hb + h_size hn))) s)
  else Some (set_hdr bp (mk_header (h_ptr hp) (h_size hb)) s).

(** [if(p + p->s.size == bp) ... else p->s.ptr = bp;] *)
Definition join_prev (bp p : Z) (s : heap) : option heap :=
  hb ← hp_hdr s !! bp;
  hp ← hp_hdr s !! p;
  if p + HSIZE * h_size hp =? bp then
    Some (set_hdr p (mk_header (h_ptr hb) (u32 (h_size hp + h_size hb))) s)
  else Some (set_hdr p (mk_header bp (h_size hp)) s).

Definition free (fuel : nat) (ap : Z) (s : heap) : option heap :=
  let bp := ap - HSIZE in
  p ← free_find fuel (hp_hdr s) bp (hp_freep s);
  s ← join_next bp p s;
  s ← join_prev bp p s;
  Some (set_freep p s).

Section with_sbrk.
Context {W : Type} `{!Unix W}.

Definition crash {A} : U W A := fun _ => Stuck "header".

(** Null is [(0, s)]. *)
Definition morecore (fuel : nat) (nu : Z) (s : heap) : U W (Z * heap) :=
  let nu := if nu <? 4096 then 4096 else nu in
  p <~ usbrk (s32 (nu * HSIZE)) ;;
  if p =? -1 then uret (0, s) else
  let s := set_hdr p (mk_header (match hp_hdr s !! p with Some h => h_ptr h | None => 0 end) nu) s in
  match free fuel (p + HSIZE) s with
  | Some s => uret (hp_freep s, s)
  | None => crash
  end.

(** The loop of [malloc] on [(prevp, p)] and the heap. *)
Definition malloc_body (fuel : nat) (nunits : Z) (x : Z * Z * heap) : U W (Z * Z * heap + Z * heap) :=
  let '(prevp, p, s) := x in
  match hp_hdr s !! p with
  | None => crash
  | Some h =>
      if h_size h >=? nunits then
        if h_size h =? nunits then
          match hp_hdr s !! prevp with
          | None => crash
          | Some hprev => uret (inr (p + HSIZE, set_freep prevp (set_hdr prevp (mk_header (h_ptr h) (h_size hprev)) s)))
          end
        else
          let rest := u32 (h_size h - nunits) in
          let q := p + HSIZE * rest in
          let s := set_hdr p (mk_header (h_ptr h) rest) s in
          let s := set_hdr q (mk_header (match hp_hdr s !! q with Some x => h_ptr x | None => 0 end) nunits) s in
          uret (inr (q + HSIZE, set_freep prevp s))
      else
      r <~ (if p =? hp_freep s then morecore fuel nunits s else uret (p, s)) ;;
      let '(p, s) := r in
      if p =? 0 then uret (inr (0, s)) else
      match hp_hdr s !! p with
      | None => crash
      | Some h => uret (inl (p, h_ptr h, s))
      end
  end.

Definition malloc (fuel : nat) (nbytes : Z) (s : heap) : U W (Z * heap) :=
  let nunits := u32 ((nbytes + HSIZE - 1) / HSIZE + 1) in
  let s := if hp_freep s =? 0 then set_freep BASE (set_hdr BASE (mk_header BASE 0) s) else s in
  match hp_hdr s !! hp_freep s with
  | None => crash
  | Some h => uloop fuel (malloc_body fuel nunits) (hp_freep s, h_ptr h, s)
  end.
End with_sbrk.

(** ** The list of free blocks *)

(** The address of the first block, [e] without one. *)
Definition next_addr (L : list block) (e : Z) : Z := match L with [] => e | (a, _) :: _ => a end.

(** The headers of [L] are linked in order, the last one to [e]. *)
Fixpoint linked (m : gmap Z header) (L : list block) (e : Z) : Prop :=
  match L with
  | [] => True
  | (a, n) :: L' => m !! a = Some (mk_header (next_addr L' e) n) /\ linked m L' e
  end.

Definition below (x y : block) : Prop := x.1 + HSIZE * x.2 < y.1.

(** [base] comes first with size 0; the other blocks are in address order and do not
    touch; everything lies below [top]. *)
Record blocks_ok (top : Z) (bs : list block) : Prop := {
  bo_sorted : StronglySorted below ((BASE, 0) :: bs);
  bo_size : Forall (fun x => 1 <= x.2) bs;
  bo_top : Forall (fun x => x.1 + HSIZE * x.2 <= top) bs;
  bo_limit : 0 < BASE /\ top <= 2 ^ 36
}.

Record heap_ok (top : Z) (bs : list block) (s : heap) : Prop := {
  ho_blocks : blocks_ok top bs;
  ho_linked : linked (hp_hdr s) ((BASE, 0) :: bs) BASE;
  ho_freep : exists n, (hp_freep s, n) ∈ (BASE, 0) :: bs
}.

(** The bytes of free blocks. *)
Definition inblock (u : Z) (x : block) : Prop := x.1 <= u < x.1 + HSIZE * x.2.
Definition covers (bs : list block) (u : Z) : Prop := Exists (inblock u) bs.

(** ** Lemmas on linked blocks *)

Lemma linked_app m L1 L2 e : linked m (L1 ++ L2) e <-> linked m L1 (next_addr L2 e) /\ linked m L2 e.
Proof.
  induction L1 as [|[a n] L1 IH]; simpl; [tauto|]. rewrite IH. destruct L1 as [|[b k] L1]; simpl; tauto.
Qed.

Lemma linked_ext m m' L e : (forall a n, (a, n) ∈ L -> m' !! a = m !! a) -> linked m L e -> linked m' L e.
Proof.
  induction L as [|[a n] L IH]; [done|]. intros Hm [Ha HL]. split; [rewrite (Hm a n) by left; done|].
  apply IH; [|done]. intros b k Hb. apply (Hm b k). by right.
Qed.

Lemma below_lt x y : below x y -> 0 <= x.2 -> x.1 < y.1.
Proof. unfold below, HSIZE. lia. Qed.

(** ** The search of [free] *)

Section find.
Context (m : gmap Z header) (bp p n : Z) (A L2 : list block).
Hypotheses (Hlink : linked m (A ++ (p, n) :: L2) BASE) (Hsort : StronglySorted below (A ++ (p, n) :: L2))
  (Hsize : Forall (fun x => 0 <= x.2) (A ++ (p, n) :: L2)) (Hbase : BASE <= p) (Hfirst : next_addr (A ++ (p, n) :: L2) BASE = BASE)
  (Hp : p < bp) (Hnext : Forall (fun x => bp < x.1) L2).

Lemma find_forward A1 : forall A0 fuel, A = A0 ++ A1 -> (length A1 < fuel)%nat ->
  free_find fuel m bp (next_addr (A1 ++ (p, n) :: L2) BASE) = Some p.
Proof.
  induction A1 as [|[a k] A1 IH]; intros A0 fuel EA Hf; (destruct fuel as [|fuel]; [simpl in Hf; lia|]); cbn [free_find app next_addr].
  - subst A. apply linked_app in Hlink as [_ [-> _]]. simpl. destruct (Z.gtb_spec bp p); [|lia]. simpl.
    destruct L2 as [|[q qn] L2']; simpl.
    + destruct (Z.ltb_spec bp BASE); [lia|]. destruct (Z.geb_spec p BASE); [done|lia].
    + apply list.Forall_cons in Hnext as [Hq _]. simpl in Hq. destruct (Z.ltb_spec bp q); [done|lia].
  - assert (linked m (((a, k) :: A1) ++ (p, n) :: L2) BASE) as Hl.
    { subst A. rewrite <-(assoc_L (++)) in Hlink. by apply linked_app in Hlink as [_ ?]. }
    destruct Hl as [-> _]. simpl. set (b := next_addr (A1 ++ (p, n) :: L2) BASE).
    assert (a < b <= p) as Hb.
    { subst A. rewrite <-(assoc_L (++)) in Hsort, Hsize. apply StronglySorted_app in Hsort as (_ & _ & Hs).
      apply Forall_app in Hsize as [_ Hz]. apply list.Forall_cons in Hz as [Hk Hz]. simpl in Hk, Hs.
      apply StronglySorted_inv in Hs as [Hs Ha].
      assert (forall x, x ∈ A1 ++ (p, n) :: L2 -> a < x.1) as Hlt.
      { intros x Hx. rewrite list.Forall_forall in Ha. apply (below_lt (a, k)); [by apply Ha|done]. }
      unfold b. destruct A1 as [|[c j] A1]; simpl; [split; [apply (Hlt (p, n)); left|lia]|].
      split; [apply (Hlt (c, j)); left|]. simpl in Hs. apply StronglySorted_inv in Hs as [_ Hc]. rewrite list.Forall_forall in Hc.
      apply list.Forall_cons in Hz as [Hj _]. specialize (Hc (p, n)). apply Z.lt_le_incl, (below_lt (c, j) (p, n)); [|done].
      apply Hc. apply elem_of_app. right. left. }
    destruct (Z.ltb_spec bp b); [lia|]. rewrite andb_false_r. destruct (Z.geb_spec a b); [lia|]. simpl.
    apply (IH (A0 ++ [(a, k)])); [by rewrite <-(assoc_L (++))|simpl in Hf; lia].
Qed.

Lemma find_wrap B : forall B0 fuel, L2 = B0 ++ B -> B <> [] -> (length A + length B < fuel)%nat ->
  free_find fuel m bp (next_addr B BASE) = Some p.
Proof.
  induction B as [|[a k] B IH]; intros B0 fuel EB Hne Hf; [done|]. destruct fuel as [|fuel]; [simpl in Hf; lia|].
  cbn [free_find next_addr]. assert (m !! a = Some (mk_header (next_addr B BASE) k)) as ->.
  { subst L2. apply linked_app in Hlink as [_ [_ HL]]. apply linked_app in HL as [_ [HL _]]. done. }
  simpl. assert (bp < a) as Ha.
  { subst L2. apply Forall_app in Hnext as [_ Hn]. by apply list.Forall_cons in Hn as [Hn _]. }
  destruct (Z.gtb_spec bp a); [lia|]. cbn [andb orb]. destruct B as [|[b j] B].
  - cbn [next_addr]. destruct (Z.ltb_spec bp BASE); [lia|]. rewrite andb_false_r. rewrite <-Hfirst.
    apply (find_forward A []); [done|simpl in Hf; lia].
  - cbn [next_addr]. assert (a < b) as Hab.
    { subst L2. apply StronglySorted_app in Hsort as (_ & _ & Hs). apply StronglySorted_inv in Hs as [Hs _].
      apply StronglySorted_app in Hs as (_ & _ & Hs). apply StronglySorted_inv in Hs as [_ Hs].
      apply list.Forall_cons in Hs as [Hs _]. apply (below_lt (a, k) (b, j)); [done|].
      apply Forall_app in Hsize as [_ Hz]. apply list.Forall_cons in Hz as [_ Hz]. apply Forall_app in Hz as [_ Hz].
      by apply list.Forall_cons in Hz as [? _]. }
    destruct (Z.geb_spec a b); [lia|]. cbn [andb]. change b with (next_addr ((b, j) :: B) BASE).
    apply (IH (B0 ++ [(a, k)])); [by rewrite <-(assoc_L (++))|done|simpl in Hf |- *; lia].
Qed.

(** The search finds the block before [bp] from any block of the list. *)
Lemma free_find_run f j fuel : (f, j) ∈ A ++ (p, n) :: L2 -> (length (A ++ (p, n) :: L2) < fuel)%nat ->
  free_find fuel m bp f = Some p.
Proof.
  intros Hf Hl. rewrite length_app in Hl. cbn [length] in Hl. apply elem_of_app in Hf as [Hf|Hf].
  - apply list_elem_of_split in Hf as (A0 & A1 & EA).
    change f with (next_addr (((f, j) :: A1) ++ (p, n) :: L2) BASE). apply (find_forward _ A0); [done|].
    rewrite EA, length_app in Hl. simpl in Hl |- *. lia.
  - apply elem_of_cons in Hf as [Hf|Hf].
    + injection Hf as -> ->. change p with (next_addr ([] ++ (p, n) :: L2) BASE) at 1.
      apply (find_forward [] A); [by rewrite app_nil_r|simpl; lia].
    + apply list_elem_of_split in Hf as (B0 & B & EB). change f with (next_addr ((f, j) :: B) BASE).
      apply (find_wrap _ B0); [done|done|]. rewrite EB, length_app in Hl. simpl in Hl |- *. lia.
Qed.
End find.

(** ** Putting a block back *)

(** The block [(bp, k)] joined with the block after it, and what remains of the list. *)
Definition join_right (bp k : Z) (L2 : list block) : block * list block :=
  match L2 with
  | (q, qn) :: L2' => if bp + HSIZE * k =? q then ((bp, k + qn), L2') else ((bp, k), L2)
  | [] => ((bp, k), [])
  end.

(** The list from the block [(p, n)] before [bp] on. *)
Definition joined (p n bp k : Z) (L2 : list block) : list block :=
  let '((b, j), R) := join_right bp k L2 in
  if p + HSIZE * n =? bp then (p, n + j) :: R else (p, n) :: (b, j) :: R.

Lemma covers_cons x L u : covers (x :: L) u <-> inblock u x \/ covers L u.
Proof. apply List.Exists_cons. Qed.

Lemma covers_app L1 L2 u : covers (L1 ++ L2) u <-> covers L1 u \/ covers L2 u.
Proof. apply List.Exists_app. Qed.

(** A bound on all blocks from another one. *)
Ltac hmono H := eapply list.Forall_impl; [exact H|]; intros x Hx; cbv beta in Hx; unfold HSIZE in *; lia.

(** The freed block lies between [(p, n)] and the blocks of [L2]. *)
Definition fits_between (p n bp k : Z) (L2 : list block) (top : Z) : Prop :=
  p + HSIZE * n <= bp /\ 0 <= n /\ 1 <= k /\ bp + HSIZE * k <= top /\ Forall (fun x => bp + HSIZE * k <= x.1) L2.

Lemma joined_covers p n bp k L2 top u : fits_between p n bp k L2 top -> Forall (fun x => 1 <= x.2) L2 ->
  covers (joined p n bp k L2) u <-> covers ((p, n) :: L2) u \/ bp <= u < bp + HSIZE * k.
Proof.
  intros (Hp & Hn & Hk & Ht & Hn2) Hs. unfold joined, join_right. destruct L2 as [|[q qn] L2].
  - destruct (Z.eqb_spec (p + HSIZE * n) bp); rewrite !covers_cons; unfold inblock, HSIZE in *; simpl;
      assert (~ covers [] u) by (by inversion 1); intuition lia.
  - apply list.Forall_cons in Hn2 as [Hq _], Hs as [Hqn _]. simpl in Hq, Hqn.
    destruct (Z.eqb_spec (bp + HSIZE * k) q), (Z.eqb_spec (p + HSIZE * n) bp);
      rewrite !covers_cons; unfold inblock, HSIZE in *; simpl; intuition lia.
Qed.

Lemma joined_ok p n bp k L2 top : fits_between p n bp k L2 top -> Forall (fun x => 1 <= x.2) L2 ->
  Forall (fun x => x.1 + HSIZE * x.2 <= top) L2 ->
  StronglySorted below ((p, n) :: L2) -> p < bp ->
  StronglySorted below (joined p n bp k L2) /\ (exists n', joined p n bp k L2 = (p, n') :: tail (joined p n bp k L2) /\ n <= n') /\
  Forall (fun x => 1 <= x.2 /\ x.1 + HSIZE * x.2 <= top /\ p < x.1) (tail (joined p n bp k L2)).
Proof.
  intros (Hp & Hn & Hk & Ht & Hn2) Hs Htop Hsort Hlt. apply StronglySorted_inv in Hsort as [Hsort Hpb].
  assert (forall L b j, StronglySorted below L -> Forall (fun x => b + HSIZE * j < x.1) L -> StronglySorted below ((b, j) :: L)) as Hcons.
  { intros L b j HL Hb. constructor; [done|]. eapply list.Forall_impl; [exact Hb|]. done. }
  assert (Forall (fun x => 1 <= x.2 /\ x.1 + HSIZE * x.2 <= top /\ p < x.1) L2) as Hall.
  { rewrite list.Forall_forall in Hs, Htop, Hn2 |- *. intros x Hx. specialize (Hn2 x Hx). unfold HSIZE in *. split; [by apply Hs|]. split; [by apply Htop|]. lia. }
  unfold joined, join_right. destruct L2 as [|[q qn] L2].
  - destruct (Z.eqb_spec (p + HSIZE * n) bp); simpl.
    + split; [by apply Hcons|]. split; [eexists; split; [done|lia]|constructor].
    + split; [apply Hcons; [by apply Hcons|repeat constructor; simpl; lia]|]. split; [eexists; split; [done|lia]|]. by repeat constructor.
  - pose proof Hall as Hall'. apply list.Forall_cons in Hall' as [(Hqn & Hqt & Hpq) Hall2]. apply list.Forall_cons in Hn2 as [Hq Hn2]. simpl in *.
    pose proof Hsort as Hsort'. apply StronglySorted_inv in Hsort' as [Hs2 Hqb].
    assert (Forall (fun x => q + HSIZE * qn < x.1) L2) as Hqb' by exact Hqb.
    destruct (Z.eqb_spec (bp + HSIZE * k) q), (Z.eqb_spec (p + HSIZE * n) bp); simpl.
    + split; [|split; [eexists; split; [done|lia]|done]]. apply Hcons; [done|].
      eapply list.Forall_impl; [exact Hqb'|]. intros x Hx. cbv beta in Hx. unfold HSIZE in *. lia.
    + assert (Forall (fun x => bp + HSIZE * (k + qn) < x.1) L2) as Hbq.
      { eapply list.Forall_impl; [exact Hqb'|]. intros x Hx. cbv beta in Hx. unfold HSIZE in *. lia. }
      split; [|split; [eexists; split; [done|lia]|constructor; [simpl; unfold HSIZE in *; lia|done]]].
      apply Hcons; [by apply Hcons|]. constructor; [simpl; unfold HSIZE in *; lia|].
      hmono Hbq.
    + split; [|split; [eexists; split; [done|lia]|done]]. apply Hcons; [done|]. constructor; [simpl; unfold HSIZE in *; lia|].
      eapply list.Forall_impl; [exact Hqb'|]. intros x Hx. cbv beta in Hx. unfold HSIZE in *. lia.
    + assert (Forall (fun x => bp + HSIZE * k < x.1) L2) as Hbq.
      { eapply list.Forall_impl; [exact Hqb'|]. intros x Hx. cbv beta in Hx. unfold HSIZE in *. lia. }
      split; [|split; [eexists; split; [done|lia]|constructor; [done|done]]].
      * apply Hcons; [apply Hcons; [done|]; constructor; [simpl; lia|done]|].
        constructor; [simpl; lia|]. constructor; [simpl; unfold HSIZE in *; lia|].
        hmono Hbq.
Qed.

(** Addresses other than those of [L]. *)
Definition off (L : list block) (a : Z) : Prop := forall b n, (b, n) ∈ L -> b <> a.

Lemma linked_set m L e a h : off L a -> linked m L e -> linked (<[a := h]> m) L e.
Proof. intros Ha. apply linked_ext. intros b n Hb. apply lookup_insert_ne. intros ->. by apply (Ha b n). Qed.

Section put_back.
Context (s : heap) (A L2 : list block) (p n bp k top : Z) (hb : header).
Hypotheses (Hlink : linked (hp_hdr s) (A ++ (p, n) :: L2) BASE) (Hfit : fits_between p n bp k L2 top)
  (Hs : Forall (fun x => 1 <= x.2) L2) (Htop : Forall (fun x => x.1 + HSIZE * x.2 <= top) L2) (Hsort : StronglySorted below ((p, n) :: L2))
  (HA : Forall (fun x => x.1 < p) A) (Hbase : BASE <= p) (Hpos : 0 < BASE) (Hlim : top <= 2 ^ 36) (Hlt : p < bp)
  (Hb : hp_hdr s !! bp = Some hb) (Hk : h_size hb = k).

Lemma join_next_run : let '((b, j), R) := join_right bp k L2 in
  join_next bp p s = Some (set_hdr bp (mk_header (next_addr R BASE) j) s).
Proof.
  destruct Hfit as (Hpn & Hn & Hk1 & Ht & Hn2).
  pose proof Hlink as Hl. apply linked_app in Hl as [_ [Hp HL2]]. unfold join_right, join_next. rewrite Hb. simpl. rewrite Hp. simpl.
  destruct L2 as [|[q qn] L2']; simpl.
  - destruct (Z.eqb_spec (bp + HSIZE * h_size hb) BASE); [unfold HSIZE in *; lia|]. by rewrite Hk.
  - rewrite Hk. destruct HL2 as [Hq _]. destruct (Z.eqb_spec (bp + HSIZE * k) q); [|done]. rewrite Hq. simpl.
    rewrite u32_small; [done|]. apply list.Forall_cons in Hs as [Hq1 _], Htop as [Hq2 _]. simpl in *. unfold HSIZE in *. lia.
Qed.

Lemma put_back_run : exists s1 s2, join_next bp p s = Some s1 /\ join_prev bp p s1 = Some s2 /\
  linked (hp_hdr s2) (A ++ joined p n bp k L2) BASE.
Proof.
  pose proof join_next_run as E1. destruct (joined_ok p n bp k L2 top Hfit Hs Htop Hsort Hlt) as (_ & _ & Hall).
  unfold joined in *. destruct (join_right bp k L2) as [[b j] R] eqn:Ej. exists (set_hdr bp (mk_header (next_addr R BASE) j) s).
  destruct Hfit as (Hpn & Hn & Hk1 & Ht & Hn2).
  assert (b = bp /\ 0 <= j /\ p + HSIZE * (n + j) <= top /\ exists R0, L2 = R0 ++ R) as (-> & Hj & Htj & R0 & ER).
  { unfold join_right in Ej. destruct L2 as [|[q qn] L2']; [injection Ej as <- <- <-; split_and!; [done|lia|unfold HSIZE in *; lia|by exists []]|].
    apply list.Forall_cons in Hs as [Hq1 _], Htop as [Hq2 _]. simpl in *.
    destruct (bp + HSIZE * k =? q) eqn:Eq; injection Ej as <- <- <-.
    - apply Z.eqb_eq in Eq. split_and!; [done|lia|unfold HSIZE in *; lia|by exists [(q, qn)]].
    - split_and!; [done|lia|unfold HSIZE in *; lia|by exists []]. }
  pose proof Hlink as Hl. apply linked_app in Hl as [HlA [Hp HL2]]. cbn [next_addr] in HlA.
  assert (linked (hp_hdr s) R BASE) as HR by (rewrite ER in HL2; by apply linked_app in HL2 as [_ ?]).
  assert (off A p /\ off A bp) as [HAp HAb].
  { rewrite list.Forall_forall in HA. split; intros x y Hxy; specialize (HA _ Hxy); simpl in HA; lia. }
  assert (off R p /\ off R bp) as [HRp HRb].
  { rewrite list.Forall_forall in Hn2. split; intros x y Hxy; specialize (Hn2 (x, y)); simpl in Hn2; rewrite ER in Hn2;
      specialize (Hn2 ltac:(apply elem_of_app; by right)); unfold HSIZE in *; lia. }
  unfold join_prev, set_hdr. simpl. rewrite lookup_insert_eq. simpl. rewrite lookup_insert_ne, Hp by lia. simpl.
  destruct (Z.eqb_spec (p + HSIZE * n) bp) as [Epb|Epb].
  - rewrite u32_small by (unfold HSIZE in *; lia). eexists. split; [done|]. split; [done|]. simpl. apply linked_app. split.
    + by apply linked_set, linked_set.
    + split; [by rewrite lookup_insert_eq|]. by apply linked_set, linked_set.
  - eexists. split; [done|]. split; [done|]. simpl. apply linked_app. split; [by apply linked_set, linked_set|].
    split; [by rewrite lookup_insert_eq|]. split; [by rewrite lookup_insert_ne, lookup_insert_eq by lia|].
    by apply linked_set, linked_set.
Qed.

(** Only the two headers change. *)
Lemma put_back_frame s1 s2 a : join_next bp p s = Some s1 -> join_prev bp p s1 = Some s2 -> a <> bp -> a <> p ->
  hp_hdr s2 !! a = hp_hdr s !! a.
Proof.
  intros E1 E2 Hab Hap. pose proof join_next_run as E. destruct (join_right bp k L2) as [[b j] R]. rewrite E in E1. injection E1 as <-.
  unfold join_prev in E2. apply bind_Some in E2 as (h1 & _ & E2). apply bind_Some in E2 as (h2 & _ & E2).
  destruct (p + HSIZE * h_size h2 =? bp); injection E2 as <-; unfold set_hdr; simpl; by rewrite !lookup_insert_ne.
Qed.
End put_back.

(** Where a block goes. *)
Lemma find_place bp k : forall bs a n, 1 <= k -> a + HSIZE * n <= bp -> a < bp -> StronglySorted below ((a, n) :: bs) ->
  Forall (fun x => 1 <= x.2) bs -> Forall (fun x => x.1 + HSIZE * x.2 <= bp \/ bp + HSIZE * k <= x.1) bs ->
  exists A p j L2, (a, n) :: bs = A ++ (p, j) :: L2 /\ p + HSIZE * j <= bp /\ p < bp /\
    Forall (fun x => bp + HSIZE * k <= x.1) L2.
Proof.
  induction bs as [|[b m] bs IH]; intros a n Hk Ha Hlt Hs Hsz Hd; [by exists [], a, n, []|].
  apply StronglySorted_inv in Hs as [Hs Hab]. apply list.Forall_cons in Hd as [Hb Hd], Hsz as [Hm Hsz]. simpl in Hb, Hm.
  destruct (decide (b + HSIZE * m <= bp)) as [Hle|Hgt].
  - destruct (IH b m) as (A & p & j & L2 & E & H); [done|done|unfold HSIZE in *; lia|done..|].
    exists ((a, n) :: A), p, j, L2. split; [by rewrite E|done].
  - exists [], a, n, ((b, m) :: bs). split; [done|]. split; [done|]. split; [done|].
    destruct Hb as [Hb|Hb]; [lia|]. constructor; [done|]. apply StronglySorted_inv in Hs as [_ Hs].
    eapply list.Forall_impl; [exact Hs|]. intros x Hx. unfold below, HSIZE in *. simpl in Hx. lia.
Qed.

Lemma joined_big p n bp k L2 : 0 <= n -> Forall (fun x => 1 <= x.2) L2 -> exists a j, (a, j) ∈ joined p n bp k L2 /\ k <= j.
Proof.
  intros Hn Hs. unfold joined, join_right. destruct L2 as [|[q qn] L2].
  - destruct (_ =? bp); [exists p, (n + k)|exists bp, k]; (split; [set_solver|lia]).
  - apply list.Forall_cons in Hs as [Hq _]. simpl in Hq.
    destruct (bp + HSIZE * k =? q), (p + HSIZE * n =? bp); eexists _, _;
      (split; [by left|lia]) || (split; [by right; left|lia]).
Qed.

(** A block that can be given back: its header, and it overlaps no free block. *)
Record loose (top : Z) (bs : list block) (s : heap) (bp k : Z) : Prop := {
  lo_hdr : exists h, hp_hdr s !! bp = Some h /\ h_size h = k;
  lo_size : 1 <= k;
  lo_base : BASE < bp;
  lo_top : bp + HSIZE * k <= top;
  lo_apart : Forall (fun x => x.1 + HSIZE * x.2 <= bp \/ bp + HSIZE * k <= x.1) bs
}.

(** [base] or a proper block. *)
Definition proper (top : Z) (x : block) : Prop := x = (BASE, 0) \/ (1 <= x.2 /\ x.1 + HSIZE * x.2 <= top /\ BASE < x.1).

Lemma blocks_ok_list top bs :
  blocks_ok top bs <-> StronglySorted below ((BASE, 0) :: bs) /\ Forall (proper top) ((BASE, 0) :: bs) /\ 0 < BASE /\ top <= 2 ^ 36.
Proof.
  split.
  - intros [Hs Hz Ht Hl]. split; [done|]. split; [|done]. constructor; [by left|].
    apply StronglySorted_inv in Hs as [_ Hb]. rewrite list.Forall_forall in Hz, Ht, Hb |- *. intros x Hx. right.
    specialize (Hz x Hx). specialize (Ht x Hx). specialize (Hb x Hx). unfold below, HSIZE in *. simpl in Hb. lia.
  - intros (Hs & Hpr & Hl). pose proof Hs as Hs'. apply StronglySorted_inv in Hs' as [_ Hb]. apply list.Forall_cons in Hpr as [_ Hpr].
    rewrite list.Forall_forall in Hb, Hpr.
    assert (forall x, x ∈ bs -> 1 <= x.2 /\ x.1 + HSIZE * x.2 <= top) as H.
    { intros x Hx. destruct (Hpr x Hx) as [->|]; [|tauto]. specialize (Hb _ Hx). unfold below, HSIZE in Hb. simpl in Hb. lia. }
    split; [done|apply list.Forall_forall; intros; by apply H|apply list.Forall_forall; intros; by apply H|done].
Qed.

Lemma covers_base bs u : covers ((BASE, 0) :: bs) u <-> covers bs u.
Proof. rewrite covers_cons. unfold inblock, HSIZE. simpl. split; [intros [?|?]; [lia|done]|by right]. Qed.

Lemma joined_proper p n bp k L2 top : fits_between p n bp k L2 top -> Forall (proper top) ((p, n) :: L2) -> p < bp -> BASE < bp ->
  Forall (proper top) (joined p n bp k L2) /\ (length (joined p n bp k L2) <= S (S (length L2)))%nat /\
  (forall x, x ∈ joined p n bp k L2 -> p <= x.1) /\
  exists n' T, joined p n bp k L2 = (p, n') :: T /\ (p = BASE -> n' = 0).
Proof.
  intros (Hp1 & Hn & Hk & Hbt & HL2) Hpr Hlt Hbase. apply list.Forall_cons in Hpr as [Hp HL].
  assert (forall R : list block, Forall (fun x => bp + HSIZE * k <= x.1) R -> forall x, x ∈ R -> p <= x.1) as HR.
  { intros R Hr x Hx. rewrite list.Forall_forall in Hr. specialize (Hr x Hx). unfold HSIZE in Hr. lia. }
  assert (forall j, bp + HSIZE * j <= top -> 1 <= j -> p + HSIZE * n = bp -> proper top (p, n + j)) as Hpj.
  { intros j Hj1 Hj2 He. right. simpl. destruct Hp as [[= -> ->]|Hp]; simpl in *; unfold HSIZE in *; lia. }
  assert (forall j, bp + HSIZE * j <= top -> 1 <= j -> proper top (bp, j)) as Hbj by (intros; right; simpl; lia).
  assert (p + HSIZE * n = bp -> p <> BASE) as Hpb.
  { destruct Hp as [[= -> ->]|Hp]; simpl in *; unfold HSIZE in *; lia. }
  assert (p = BASE -> n = 0) as Hpn by (intros ->; destruct Hp as [[= ->]|Hp]; [done|simpl in Hp; lia]).
  assert (forall x L, proper top x -> Forall (proper top) L -> Forall (proper top) (x :: L)) as Hc by (intros; by constructor).
  assert (Forall (proper top) []) as Hnil by constructor.
  unfold joined, join_right. destruct L2 as [|[q qn] L2].
  - destruct (Z.eqb_spec (p + HSIZE * n) bp); (split; [auto 7|]); (split; [simpl; lia|]);
      (split; [intros x Hx; repeat (apply elem_of_cons in Hx as [->|Hx]; [simpl; lia|]); by apply elem_of_nil in Hx|]);
      eexists _, _; (split; [done|tauto]).
  - pose proof HL2 as HL2'. apply list.Forall_cons in HL2' as [Hq HL2']. simpl in Hq.
    pose proof HL as HL'. apply list.Forall_cons in HL' as [Hqp HL']. destruct Hqp as [[= -> ->]|(Hq1 & Hq2 & Hq3)]; [unfold HSIZE in *; lia|]. simpl in *.
    destruct (Z.eqb_spec (bp + HSIZE * k) q), (Z.eqb_spec (p + HSIZE * n) bp); simpl;
      (split; [repeat (apply Hc; [solve [auto] || (apply Hpj || apply Hbj); unfold HSIZE in *; lia|]); solve [auto]|]);
      (split; [simpl; lia|]);
      (split; [intros x Hx; repeat (apply elem_of_cons in Hx as [->|Hx]; [simpl; unfold HSIZE in *; lia|]); by apply (HR _ HL2')|]);
      eexists _, _; (split; [done|tauto]).
Qed.

(** Giving a block back, on lists. *)
Lemma place_ok top bs A p n bp k L2 :
  blocks_ok top bs -> (BASE, 0) :: bs = A ++ (p, n) :: L2 -> fits_between p n bp k L2 top -> p < bp -> BASE < bp ->
  exists bs', A ++ joined p n bp k L2 = (BASE, 0) :: bs' /\ blocks_ok top bs' /\
    (forall u, covers bs' u <-> covers bs u \/ bp <= u < bp + HSIZE * k) /\ (exists a j, (a, j) ∈ bs' /\ k <= j) /\
    (length bs' <= S (length bs))%nat /\ exists n', (p, n') ∈ (BASE, 0) :: bs'.
Proof.
  intros Hok EL Hfit Hlt Hbase. apply blocks_ok_list in Hok as (Hs & Hpr & Hl). pose proof Hfit as (Hp1 & Hn & Hk & Hbt & HL2).
  rewrite EL in Hs, Hpr. apply StronglySorted_app in Hs as (HAp & HA & Hs). apply Forall_app in Hpr as [HprA Hpr].
  assert (Forall (fun x => 1 <= x.2 /\ x.1 + HSIZE * x.2 <= top) L2) as HL.
  { apply list.Forall_cons in Hpr as [_ HprL]. rewrite list.Forall_forall in HprL, HL2 |- *. intros x Hx. destruct (HprL x Hx) as [->|]; [|tauto].
    specialize (HL2 _ Hx). unfold HSIZE in *. simpl in HL2. lia. }
  apply list.Forall_and in HL as [HL3 HL4].
  destruct (joined_ok p n bp k L2 top Hfit HL3 HL4 Hs Hlt) as (Hsj & _ & _).
  destruct (joined_proper p n bp k L2 top Hfit Hpr Hlt Hbase) as (Hprj & Hlenj & Hgej & n' & T & Ej & Hn').
  assert (exists bs', A ++ joined p n bp k L2 = (BASE, 0) :: bs') as [bs' E].
  { destruct A as [|a A]; simpl in *; [|injection EL as <- ->; by eexists].
    injection EL as <- <- ->. rewrite Ej, Hn' by done. by eexists. }
  exists bs'. split; [done|].
  assert (forall u, covers bs' u <-> covers bs u \/ bp <= u < bp + HSIZE * k) as Hcov.
  { intros u. rewrite <-(covers_base bs'), <-E, <-(covers_base bs), EL, !covers_app, (joined_covers p n bp k L2 top) by done. tauto. }
  split; [|split; [done|split; [|split]]].
  - apply blocks_ok_list. rewrite <-E. split; [|split; [by apply Forall_app|done]].
    apply StronglySorted_app_2; [|done|done]. intros x y Hx Hy.
    specialize (HAp x (p, n) Hx ltac:(left)). specialize (Hgej y Hy). unfold below in *. simpl in HAp. lia.
  - destruct (joined_big p n bp k L2 Hn HL3) as (c & j & Hj & Hkj). exists c, j. split; [|done].
    assert ((c, j) ∈ (BASE, 0) :: bs') as Hc by (rewrite <-E; apply elem_of_app; by right).
    apply elem_of_cons in Hc as [[= -> ->]|Hc]; [lia|done].
  - apply (f_equal length) in E, EL. rewrite length_app in E, EL. simpl in E, EL. lia.
  - exists n'. rewrite <-E, Ej. apply elem_of_app. right. left.
Qed.

Lemma free_run top bs s bp k fuel : heap_ok top bs s -> loose top bs s bp k -> (length bs + 1 < fuel)%nat ->
  exists s' bs', free fuel (bp + HSIZE) s = Some s' /\ heap_ok top bs' s' /\
    (forall u, covers bs' u <-> covers bs u \/ bp <= u < bp + HSIZE * k) /\
    (exists a j, (a, j) ∈ bs' /\ k <= j) /\
    (forall a, a <> BASE -> a <> bp -> ~ covers bs a -> hp_hdr s' !! a = hp_hdr s !! a) /\
    (length bs' <= S (length bs))%nat.
Proof.
  intros [Hok Hlink (fn & Hfp)] [(hb & Hb & Hhb) Hk Hbase Hbt Hap] Hf. pose proof Hok as [Hsort Hsz Htop [Hpos Hlim]].
  destruct (find_place bp k bs BASE 0 Hk ltac:(unfold HSIZE; lia) Hbase Hsort Hsz Hap) as (A & p & n & L2 & EL & Hp1 & Hp2 & HL2).
  pose proof Hok as Hok2. apply blocks_ok_list in Hok2 as (_ & Hpr & _). rewrite EL in Hpr, Hsort, Hlink, Hfp.
  pose proof Hpr as Hpr2. apply Forall_app in Hpr2 as [HprA HprL]. apply list.Forall_cons in HprL as [Hprp HprL].
  assert (0 <= n /\ BASE <= p) as [Hn Hbp] by (destruct Hprp as [[= -> ->]|Hprp]; simpl in *; lia).
  assert (fits_between p n bp k L2 top) as Hfit by (split_and!; done).
  destruct (place_ok top bs A p n bp k L2 Hok EL Hfit Hp2 Hbase) as (bs' & E' & Hok' & Hcov & Hbig & Hlen & Hfp').
  assert (Forall (fun x => 1 <= x.2 /\ x.1 + HSIZE * x.2 <= top) L2) as HL.
  { rewrite list.Forall_forall in HprL, HL2 |- *. intros x Hx. destruct (HprL x Hx) as [->|]; [|tauto].
    specialize (HL2 _ Hx). unfold HSIZE in *. simpl in HL2. lia. }
  apply list.Forall_and in HL as [HL3 HL4].
  pose proof Hsort as Hs2. apply StronglySorted_app in Hs2 as (HAp & _ & HsL).
  assert (Forall (fun x => 0 <= x.2) (A ++ (p, n) :: L2)) as Hz.
  { eapply list.Forall_impl; [exact Hpr|]. intros x [->|?]; simpl; lia. }
  assert (Forall (fun x => x.1 < p) A) as HA.
  { apply list.Forall_forall. intros x Hx. apply (below_lt x (p, n)); [apply HAp; [done|left]|].
    apply Forall_app in Hz as [Hz _]. rewrite list.Forall_forall in Hz. by apply Hz. }
  destruct (put_back_run s A L2 p n bp k top hb) as (s1 & s2 & E1 & E2 & Hl2); try done.
  exists (set_freep p s2), bs'. split.
  { unfold free. rewrite Z.add_simpl_r, (free_find_run (hp_hdr s) bp p n A L2) with (j := fn); try done.
    - simpl. rewrite E1. simpl. by rewrite E2.
    - by rewrite <-EL.
    - eapply list.Forall_impl; [exact HL2|]. intros x Hx. cbv beta in Hx. unfold HSIZE in *. lia.
    - rewrite <-EL. simpl. lia. }
  split; [split; [done|by rewrite <-E'|done]|]. split; [done|]. split; [done|]. split; [|done].
  intros a Ha1 Ha2 Hnc. assert (a <> p) as Hap2.
  { intros ->. destruct Hprp as [[= -> ->]|Hprp]; [done|]. apply Hnc. apply covers_base. rewrite EL.
    apply covers_app. right. apply covers_cons. left. unfold inblock, HSIZE in *. simpl in *. lia. }
  simpl. eapply (put_back_frame s A L2 p n bp k top hb); done.
Qed.

(** ** Taking a block *)

Lemma linked_mem m L e a n : linked m L e -> (a, n) ∈ L -> exists L1 L2, L = L1 ++ (a, n) :: L2 /\ m !! a = Some (mk_header (next_addr L2 e) n).
Proof.
  intros Hl Ha. apply list_elem_of_split in Ha as (L1 & L2 & ->). exists L1, L2. split; [done|].
  by apply linked_app in Hl as [_ [H _]].
Qed.

Lemma heap_addr top bs s a n : heap_ok top bs s -> (a, n) ∈ (BASE, 0) :: bs -> BASE <= a /\ 0 <= n /\ (1 <= n -> a <> BASE).
Proof.
  intros [Hok _ _] Ha. apply blocks_ok_list in Hok as (_ & Hpr & _). rewrite list.Forall_forall in Hpr.
  destruct (Hpr _ Ha) as [[= -> ->]|H]; simpl in *; lia.
Qed.

(** The code that takes [nunits] units from the block [p] after [prevp]. *)
Definition take_block (nunits prevp p : Z) (s : heap) : option (Z * heap) :=
  h ← hp_hdr s !! p;
  if h_size h =? nunits then
    hprev ← hp_hdr s !! prevp;
    Some (p + HSIZE, set_freep prevp (set_hdr prevp (mk_header (h_ptr h) (h_size hprev)) s))
  else
    let rest := u32 (h_size h - nunits) in
    let q := p + HSIZE * rest in
    let s := set_hdr p (mk_header (h_ptr h) rest) s in
    let s := set_hdr q (mk_header (match hp_hdr s !! q with Some x => h_ptr x | None => 0 end) nunits) s in
    Some (q + HSIZE, set_freep prevp s).

(** A block to return: loose, and what was free is now free or part of it. *)
Record taken (top : Z) (bs bs' : list block) (s s' : heap) (bp k : Z) : Prop := {
  tk_heap : heap_ok top bs' s';
  tk_loose : loose top bs' s' bp k;
  tk_cover : forall u, covers bs u <-> covers bs' u \/ bp <= u < bp + HSIZE * k;
  tk_frame : forall a, a <> BASE -> ~ covers bs a -> hp_hdr s' !! a = hp_hdr s !! a
}.

Section take.
Context (top : Z) (bs A B : list block) (s : heap) (prevp pn p n nunits : Z).
Hypotheses (Hok : blocks_ok top bs) (EL : (BASE, 0) :: bs = A ++ (prevp, pn) :: (p, n) :: B)
  (Hlink : linked (hp_hdr s) (A ++ (prevp, pn) :: (p, n) :: B) BASE) (Hn1 : 1 <= nunits) (Hn2 : nunits <= n).

Lemma take_facts : 0 < BASE < p /\ prevp + HSIZE * pn < p /\ 0 <= pn /\ p + HSIZE * n <= top /\ top <= 2 ^ 36 /\
  Forall (fun x => x.1 + HSIZE * x.2 < prevp /\ 0 <= x.2) A /\ Forall (fun x => p + HSIZE * n < x.1) B /\ Forall (proper top) B /\
  StronglySorted below (A ++ (prevp, pn) :: B) /\ StronglySorted below (A ++ (prevp, pn) :: (p, n) :: B) /\ Forall (proper top) (A ++ [(prevp, pn)]).
Proof.
  apply blocks_ok_list in Hok as (Hs & Hpr & Hpos & Hlim). rewrite EL in Hs, Hpr. pose proof Hs as Hs'.
  apply StronglySorted_app in Hs as (HA & HAs & Hs). apply StronglySorted_inv in Hs as [Hs Hpp].
  pose proof Hs as Hs2. apply StronglySorted_inv in Hs2 as [HB Hpb].
  apply Forall_app in Hpr as [HprA Hpr]. apply list.Forall_cons in Hpr as [Hpp' Hpr]. apply list.Forall_cons in Hpr as [Hp' HprB].
  apply list.Forall_cons in Hpp as [Hlt HppB]. destruct Hp' as [[= -> ->]|(H1 & H2 & H3)]; [lia|]. simpl in *.
  split; [lia|]. split; [exact Hlt|]. split; [destruct Hpp' as [[= -> ->]|Hx]; [lia|simpl in Hx; lia]|].
  split; [done|]. split; [done|]. split.
  { rewrite list.Forall_forall in HprA |- *. intros x Hx. split; [apply (HA x (prevp, pn) Hx); left|].
    destruct (HprA x Hx) as [->|?]; simpl; lia. }
  split; [exact Hpb|]. split; [done|]. split; [|split; [done|apply Forall_app; split; [done|by constructor]]].
  apply StronglySorted_app_2; [|done|].
  - intros x y Hx Hy. apply HA; [done|]. apply elem_of_cons in Hy as [->|Hy]; [left|by right; right].
  - constructor; [done|]. eapply list.Forall_impl; [exact Hpb|]. intros x Hx. unfold below, HSIZE in *. simpl in *. lia.
Qed.

(** What is left of the list when [X] replaces the block and its successors. *)
Lemma take_list X : StronglySorted below (A ++ (prevp, pn) :: X) -> Forall (proper top) X ->
  exists bs', A ++ (prevp, pn) :: X = (BASE, 0) :: bs' /\ blocks_ok top bs' /\
    (forall u, covers bs' u <-> covers A u \/ inblock u (prevp, pn) \/ covers X u).
Proof.
  intros Hs HX. destruct take_facts as ((Hpos & _) & _ & _ & _ & Hlim & _ & _ & _ & _ & _ & HprA).
  assert (exists bs', A ++ (prevp, pn) :: X = (BASE, 0) :: bs') as [bs' E].
  { destruct A as [|x A']; simpl in *; [injection EL as <- <- _|injection EL as <- _]; by eexists. }
  exists bs'. split; [done|]. split.
  - apply blocks_ok_list. rewrite <-E. split; [done|]. split; [|done]. rewrite cons_middle, (assoc_L (++)). by apply Forall_app.
  - intros u. by rewrite <-covers_base, <-E, covers_app, covers_cons.
Qed.

Lemma take_loose X bs' s' bp : A ++ (prevp, pn) :: X = (BASE, 0) :: bs' -> BASE < bp -> p <= bp -> bp + HSIZE * nunits <= top ->
  (exists h, hp_hdr s' !! bp = Some h /\ h_size h = nunits) ->
  Forall (fun x => x.1 + HSIZE * x.2 <= bp \/ bp + HSIZE * nunits <= x.1) X -> loose top bs' s' bp nunits.
Proof.
  intros E Hb Hpb Ht Hh HX. destruct take_facts as (_ & Hlt & Hpn & _ & _ & HA & _). split; try done.
  assert (Forall (fun x => x.1 + HSIZE * x.2 <= bp \/ bp + HSIZE * nunits <= x.1) (A ++ (prevp, pn) :: X)) as HF.
  { apply Forall_app. split; [|constructor; [simpl; lia|done]]. eapply list.Forall_impl; [exact HA|].
    intros x [Hx1 Hx2]. left. unfold HSIZE in *. lia. }
  rewrite E in HF. by apply list.Forall_cons in HF as [_ HF].
Qed.

(** Headers outside the free blocks are not those of the list. *)
Lemma take_outside a : a <> BASE -> ~ covers bs a -> a <> prevp /\ a <> p /\ ~ (p <= a < p + HSIZE * n).
Proof.
  intros Ha Hnc. destruct take_facts as (_ & _ & Hpn & _ & _ & _ & _ & _ & _ & _ & HprA).
  assert (forall b m, (b, m) ∈ A ++ (prevp, pn) :: (p, n) :: B -> 1 <= m -> ~ (b <= a < b + HSIZE * m)) as Hin.
  { intros b m Hb Hm Hr. apply Hnc, covers_base. rewrite EL. apply List.Exists_exists. exists (b, m). split; [by apply list_elem_of_In|done]. }
  assert (~ (p <= a < p + HSIZE * n)) as Hpa by (apply Hin; [apply elem_of_app; right; right; left|lia]).
  split; [|split; [intros ->; unfold HSIZE in *; lia|done]].
  intros ->. apply Forall_app in HprA as [_ Hx]. apply list.Forall_cons in Hx as [[[= -> ->]|Hx] _]; [done|]. simpl in Hx.
  apply (Hin prevp pn); [apply elem_of_app; right; left|lia|unfold HSIZE; lia].
Qed.

Lemma take_exact : n = nunits -> exists s' bs', take_block nunits prevp p s = Some (p + HSIZE, s') /\ taken top bs bs' s s' p nunits.
Proof.
  intros En. destruct take_facts as ((Hpos & Hbp) & Hlt & Hpn & Ht & Hlim & HA & HB & HprB & Hso & _ & _).
  pose proof Hlink as Hl. apply linked_app in Hl as [HlA [Hprev [Hp HlB]]]. cbn [next_addr] in HlA, Hprev.
  destruct (take_list B Hso HprB) as (bs' & E & Hok' & Hcov).
  assert (off A prevp /\ off B prevp) as [HAo HBo].
  { rewrite list.Forall_forall in HA, HB. unfold HSIZE in *. split; intros b m Hbm;
      [specialize (HA _ Hbm)|specialize (HB _ Hbm)]; simpl in *; lia. }
  eexists _, bs'. split.
  { unfold take_block. rewrite Hp. simpl. rewrite En, Z.eqb_refl, Hprev. simpl. reflexivity. }
  split.
  - split; [done| |exists pn; rewrite <-E; apply elem_of_app; right; left]. rewrite <-E. simpl. apply linked_app. split; [by apply linked_set|].
    split; [by rewrite lookup_insert_eq|by apply linked_set].
  - apply (take_loose B); [done|lia|lia|by subst|eexists; split; [simpl; rewrite lookup_insert_ne by (unfold HSIZE in *; lia); exact Hp|done]|].
    eapply list.Forall_impl; [exact HB|]. intros x Hx. cbv beta in Hx. right. subst. lia.
  - intros u. rewrite Hcov, <-covers_base, EL, covers_app, !covers_cons. subst n.
    change (inblock u (p, nunits)) with (p <= u < p + HSIZE * nunits). tauto.
  - intros a Ha Hnc. destruct (take_outside a Ha Hnc) as (H1 & _). simpl. by rewrite lookup_insert_ne.
Qed.

Lemma take_split : nunits < n -> let q := p + HSIZE * (n - nunits) in
  exists s' bs', take_block nunits prevp p s = Some (q + HSIZE, s') /\ taken top bs bs' s s' q nunits.
Proof.
  intros En q. destruct take_facts as ((Hpos & Hbp) & Hlt & Hpn & Ht & Hlim & HA & HB & HprB & Hso & Hso2 & _).
  pose proof Hlink as Hl. apply linked_app in Hl as [HlA [Hprev [Hp HlB]]]. cbn [next_addr] in HlA, Hprev.
  assert (Forall (proper top) ((p, n - nunits) :: B)) as HprX by (constructor; [right; simpl; unfold HSIZE in *; lia|done]).
  assert (StronglySorted below (A ++ (prevp, pn) :: (p, n - nunits) :: B)) as HsX.
  { apply StronglySorted_app in Hso2 as (H1 & H2 & H3). apply StronglySorted_inv in H3 as [H3 H4]. apply StronglySorted_inv in H3 as [H3 H5].
    apply StronglySorted_app_2; [|done|].
    - intros x y Hx Hy. apply elem_of_cons in Hy as [->|Hy]; [apply H1; [done|left]|].
      apply elem_of_cons in Hy as [->|Hy]; [apply (H1 x (p, n) Hx); right; left|apply H1; [done|by right; right]].
    - constructor; [|apply list.Forall_cons in H4 as [H4 H4']; by constructor]. constructor; [done|].
      eapply list.Forall_impl; [exact H5|]. intros x Hx. unfold below, HSIZE in *. simpl in *. lia. }
  destruct (take_list _ HsX HprX) as (bs' & E & Hok' & Hcov).
  assert (p < q /\ q + HSIZE * nunits = p + HSIZE * n) as [Hpq Eq] by (unfold q, HSIZE; lia).
  assert (forall x, x ∈ A ++ [(prevp, pn)] -> x.1 < p) as HAlt.
  { intros x Hx. apply elem_of_app in Hx as [Hx|Hx]; [rewrite list.Forall_forall in HA; specialize (HA x Hx); unfold HSIZE in *; lia|].
    apply list_elem_of_singleton in Hx as ->. simpl. unfold HSIZE in *. lia. }
  assert (off A p /\ off A q /\ off B p /\ off B q) as (HA1 & HA2 & HB1 & HB2).
  { rewrite list.Forall_forall in HB. split_and!; intros b m Hbm.
    1, 2: specialize (HAlt (b, m) ltac:(apply elem_of_app; by left)); simpl in HAlt; lia.
    all: specialize (HB _ Hbm); simpl in HB; unfold HSIZE in *; lia. }
  specialize (HAlt (prevp, pn) ltac:(apply elem_of_app; right; left)). simpl in HAlt.
  eexists _, bs'. split.
  { unfold take_block. rewrite Hp. simpl. destruct (Z.eqb_spec n nunits); [lia|].
    rewrite u32_small by (unfold HSIZE in *; lia). reflexivity. }
  split.
  - split; [done| |exists pn; rewrite <-E; apply elem_of_app; right; left]. rewrite <-E. simpl. apply linked_app. split; [by apply linked_set, linked_set|].
    split; [by rewrite !lookup_insert_ne by (fold q; lia)|]. split; [by rewrite lookup_insert_ne, lookup_insert_eq by (fold q; lia)|].
    by apply linked_set, linked_set.
  - apply (take_loose ((p, n - nunits) :: B)); [done|lia|lia|lia|eexists; split; [simpl; fold q; by rewrite lookup_insert_eq|done]|].
    constructor; [left; simpl; unfold q; lia|]. eapply list.Forall_impl; [exact HB|]. intros x Hx. cbv beta in Hx. right. lia.
  - intros u. rewrite Hcov, <-covers_base, EL, covers_app, !covers_cons. 
    change (inblock u (p, n)) with (p <= u < p + HSIZE * n). change (inblock u (p, n - nunits)) with (p <= u < q).
    assert (p <= u < p + HSIZE * n <-> p <= u < q \/ q <= u < q + HSIZE * nunits) as -> by (unfold HSIZE in *; lia). tauto.
  - intros a Ha Hnc. destruct (take_outside a Ha Hnc) as (_ & H2 & H3). simpl. fold q.
    rewrite !lookup_insert_ne; [done|lia|]. intros Hqa. apply H3. rewrite <-Hqa. unfold HSIZE in *. lia.
Qed.
End take.

(** ** The search of [malloc] *)

(** Following the list from [a] one meets the blocks [V] in this order. *)
Fixpoint walks (m : gmap Z header) (a : Z) (V : list block) : Prop :=
  match V with
  | [] => True
  | (b, n) :: V' => (exists h, m !! a = Some h /\ h_ptr h = b) /\ (exists h, m !! b = Some h /\ h_size h = n) /\ walks m b V'
  end.

Definition last_addr (a : Z) (V : list block) : Z := match list.last V with Some x => x.1 | None => a end.

Lemma walks_app m a V1 V2 : walks m a (V1 ++ V2) <-> walks m a V1 /\ walks m (last_addr a V1) V2.
Proof.
  revert a. induction V1 as [|[b n] V1 IH]; intros a; [unfold last_addr; simpl; tauto|]. simpl. rewrite IH.
  replace (last_addr a ((b, n) :: V1)) with (last_addr b V1); [tauto|]. unfold last_addr. rewrite list.last_cons. by destruct (list.last V1).
Qed.

(** The links of the list, walked from a block that points to its first one. *)
Lemma linked_walks m L e a : linked m L e -> (L <> [] -> exists h, m !! a = Some h /\ h_ptr h = next_addr L e) -> walks m a L.
Proof.
  revert a. induction L as [|[b n] L IH]; intros a; [done|]. intros [Hb HL] Ha. simpl.
  split; [by apply Ha|]. split; [by eexists|]. apply IH; [done|]. intros _. by eexists.
Qed.

Lemma linked_last m L e x : linked m (L ++ [x]) e -> exists h, m !! x.1 = Some h /\ h_ptr h = e /\ h_size h = x.2.
Proof. intros Hl. apply linked_app in Hl as [_ Hl]. destruct x as [a n]. destruct Hl as [Ha _]. by eexists. Qed.

(** From [freep] around the circle back to [freep]. *)
Lemma heap_circle top bs s : heap_ok top bs s -> exists V fn,
  walks (hp_hdr s) (hp_freep s) (V ++ [(hp_freep s, fn)]) /\ (forall x, x ∈ (BASE, 0) :: bs <-> x ∈ V ++ [(hp_freep s, fn)]) /\
  Forall (fun x => x.1 <> hp_freep s /\ x.1 <> 0) V /\ (length V = length bs)%nat.
Proof.
  intros [Hok Hlink (fn & Hf)]. apply list_elem_of_split in Hf as (A & B & E). rewrite E in Hlink.
  pose proof Hlink as Hl. apply linked_app in Hl as [HlA [Hfh HlB]]. exists (B ++ A), fn.
  assert (walks (hp_hdr s) (hp_freep s) B) as HwB by (eapply linked_walks; [done|]; intros _; by eexists).
  assert (exists h, hp_hdr s !! last_addr (hp_freep s) B = Some h /\ h_ptr h = BASE) as (h & Hh & Hb).
  { destruct B as [|b B' _] using rev_ind; [by eexists|]. unfold last_addr. rewrite list.last_snoc.
    apply linked_last in HlB as (h & H1 & H2 & _). by exists h. }
  assert (walks (hp_hdr s) (last_addr (hp_freep s) B) (A ++ [(hp_freep s, fn)])) as HwA.
  { apply (linked_walks _ _ (next_addr B BASE)).
    - apply linked_app. split; [done|]. by split.
    - intros _. exists h. split; [done|]. rewrite Hb. destruct A as [|x A']; [injection E as E _; done|injection E as <- _; done]. }
  split; [rewrite <-(assoc_L (++)); apply walks_app; by split|]. split; [rewrite E; set_solver|]. split.
  - apply blocks_ok_list in Hok as (Hs & Hpr & Hpos & _). rewrite E in Hs, Hpr. apply StronglySorted_app in Hs as (HA & _ & Hs).
    apply StronglySorted_inv in Hs as [_ HB]. rewrite list.Forall_forall in Hpr, HB. apply list.Forall_forall. intros x Hx.
    assert (0 < x.1) as Hx0.
    { destruct (Hpr x) as [->|Hx']; [set_solver|done|lia]. }
    split; [|lia]. assert (forall y, y ∈ A ++ (hp_freep s, fn) :: B -> 0 <= y.2) as Hsz.
    { intros y Hy. destruct (Hpr y Hy) as [->|?]; simpl; lia. }
    apply elem_of_app in Hx as [Hx|Hx].
    + pose proof (below_lt _ _ (HB x Hx) (Hsz (hp_freep s, fn) ltac:(set_solver))) as Hlt. simpl in Hlt. lia.
    + pose proof (below_lt _ _ (HA x (hp_freep s, fn) Hx ltac:(left)) (Hsz x ltac:(set_solver))) as Hlt. simpl in Hlt. lia.
  - apply (f_equal length) in E. rewrite length_app in E |- *. simpl in E. lia.
Qed.

Section malloc.
Context {W : Type} `{!Unix W}.

Lemma malloc_take fuel nunits prevp p s h ap s' (w : W) :
  hp_hdr s !! p = Some h -> nunits <= h_size h -> take_block nunits prevp p s = Some (ap, s') ->
  malloc_body fuel nunits (prevp, p, s) w = Val (inr (ap, s')) w.
Proof.
  intros Hp Hn E. unfold malloc_body, take_block in *. rewrite Hp in E |- *. simpl in E.
  destruct (Z.geb_spec (h_size h) nunits); [|lia]. destruct (h_size h =? nunits).
  - destruct (hp_hdr s !! prevp); [|done]. simpl in E. by injection E as <- <-.
  - injection E as <- <-. done.
Qed.

(** Blocks that are too small are passed over. *)
Lemma malloc_scan fuel nunits s V1 : forall prevp b n f (w : W),
  walks (hp_hdr s) prevp (V1 ++ [(b, n)]) -> Forall (fun x => x.2 < nunits) V1 ->
  Forall (fun x => x.1 <> hp_freep s /\ x.1 <> 0) V1 ->
  uloop (length V1 + f) (malloc_body fuel nunits) (prevp, next_addr (V1 ++ [(b, n)]) 0, s) w =
    uloop f (malloc_body fuel nunits) (last_addr prevp V1, b, s) w.
Proof.
  induction V1 as [|[a k] V1 IH]; intros prevp b n f w Hw Hs Hf; [done|].
  destruct Hw as (_ & (h & Ha & Hk) & Hw). apply list.Forall_cons in Hs as [Hsa Hs], Hf as [[Hf1 Hf2] Hf]. simpl in Hsa, Hf1, Hf2.
  assert (h_ptr h = next_addr (V1 ++ [(b, n)]) 0) as Hptr.
  { destruct V1 as [|[c j] V1]; simpl in Hw |- *; destruct Hw as ((h' & Ha' & Hp) & _); rewrite Ha in Ha'; by injection Ha' as <-. }
  cbn [length Nat.add uloop next_addr app].
  rewrite (ubind_val _ _ w (inl (a, h_ptr h, s)) w).
  - rewrite Hptr, (IH a b n f w Hw Hs Hf). replace (last_addr prevp ((a, k) :: V1)) with (last_addr a V1); [done|].
    unfold last_addr. rewrite list.last_cons. by destruct (list.last V1).
  - unfold malloc_body. rewrite Ha. destruct (Z.geb_spec (h_size h) nunits); [lia|].
    destruct (Z.eqb_spec a (hp_freep s)); [done|]. unfold ubind, uret. destruct (Z.eqb_spec a 0); [done|]. by rewrite Ha.
Qed.

Lemma first_fit nunits (L : list block) : Exists (fun x => nunits <= x.2) L ->
  exists L1 b n L2, L = L1 ++ (b, n) :: L2 /\ Forall (fun x => x.2 < nunits) L1 /\ nunits <= n.
Proof.
  induction L as [|[b n] L IH]; [by inversion 1|]. intros HE. destruct (decide (nunits <= n)) as [Hn|Hn].
  - by exists [], b, n, L.
  - apply List.Exists_cons in HE as [HE|HE]; [done|]. destruct (IH HE) as (L1 & c & k & L2 & -> & H1 & H2).
    exists ((b, n) :: L1), c, k, L2. split; [done|]. split; [constructor; [simpl; lia|done]|done].
Qed.

(** A block that is long enough is found. *)
Lemma malloc_found fuel nunits top bs s h f (w : W) :
  heap_ok top bs s -> (exists a j, (a, j) ∈ bs /\ nunits <= j) -> 1 <= nunits -> (length bs + 1 < f)%nat ->
  hp_hdr s !! hp_freep s = Some h ->
  exists ap s' bs', uloop f (malloc_body fuel nunits) (hp_freep s, h_ptr h, s) w = Val (ap, s') w /\
    taken top bs bs' s s' (ap - HSIZE) nunits.
Proof.
  intros Hok (a & j & Haj & Hj) Hn Hf Hh. destruct (heap_circle top bs s Hok) as (V & fn & Hw & Hmem & HV & HlV).
  destruct (first_fit nunits (V ++ [(hp_freep s, fn)])) as (V1 & b & n & V2 & EV & Hsm & Hbn).
  { apply List.Exists_exists. exists (a, j). split; [|done]. apply list_elem_of_In, Hmem. by right. }
  assert (V1 = take (length V1) V /\ (length V1 <= length V)%nat) as [EV1 HlV1].
  { pose proof (f_equal length EV) as El. rewrite !length_app in El. cbn [length] in El. assert (length V1 <= length V)%nat by lia. split; [|done].
    rewrite <-(take_app_le V [(hp_freep s, fn)]), EV by done. symmetry. apply take_app_length. }
  rewrite EV in Hw. rewrite cons_middle, (assoc_L (++)) in Hw. apply walks_app in Hw as [Hw _].
  assert (h_ptr h = next_addr (V1 ++ [(b, n)]) 0) as ->.
  { destruct V1 as [|[c i] V1']; simpl in Hw |- *; destruct Hw as ((h' & H' & Hp) & _); rewrite Hh in H'; by injection H' as <-. }
  replace f with (length V1 + S (f - length V1 - 1))%nat by lia.
  rewrite (malloc_scan fuel nunits s V1 (hp_freep s) b n) by (done || (rewrite EV1; by apply Forall_take)).
  pose proof Hok as [Hbs Hlink (fn' & Hfm)].
  apply walks_app in Hw as [_ [(hp & Hprev & Hpb) [(hb & Hb & Hbsz) _]]]. set (prevp := last_addr (hp_freep s) V1) in *.
  assert (exists pn, (prevp, pn) ∈ (BASE, 0) :: bs) as [pn Hpm].
  { unfold prevp, last_addr. destruct (list.last V1) as [[c i]|] eqn:El; [|by exists fn']. exists i. apply Hmem. rewrite EV.
    apply elem_of_app. left. by apply last_Some_elem_of. }
  assert ((b, n) ∈ (BASE, 0) :: bs) as Hbm by (apply Hmem; rewrite EV; apply elem_of_app; right; left).
  destruct (heap_addr top bs s b n Hok Hbm) as (_ & _ & HbB). specialize (HbB ltac:(lia)).
  destruct (linked_mem _ _ _ _ _ Hlink Hpm) as (A & X & EL & Hph). rewrite Hph in Hprev. injection Hprev as <-. simpl in Hpb.
  destruct X as [|[b' n'] B]; simpl in Hpb; [done|]. subst b'. rewrite EL in Hlink.
  assert (n' = n) as ->.
  { pose proof Hlink as Hl. apply linked_app in Hl as [_ [_ [Hb' _]]]. rewrite Hb in Hb'. injection Hb' as ->. done. }
  assert (exists ap s' bs', take_block nunits prevp b s = Some (ap, s') /\ taken top bs bs' s s' (ap - HSIZE) nunits) as (ap & s' & bs' & Et & Htk).
  { destruct (decide (n = nunits)) as [En|En].
    - destruct (take_exact top bs A B s prevp pn b n nunits Hbs EL Hlink Hn Hbn En) as (s' & bs' & E & H).
      exists (b + HSIZE), s', bs'. by rewrite Z.add_simpl_r.
    - destruct (take_split top bs A B s prevp pn b n nunits Hbs EL Hlink Hn Hbn ltac:(lia)) as (s' & bs' & E & H).
      eexists _, s', bs'. split; [exact E|]. by rewrite Z.add_simpl_r. }
  exists ap, s', bs'. split; [|done]. cbn [uloop].
  by rewrite (ubind_val _ _ _ _ _ (malloc_take fuel nunits prevp b s hb ap s' w Hb ltac:(lia) Et)).
Qed.
End malloc.

(** ** Growing the heap *)

Lemma heap_ok_top top top' bs s : heap_ok top bs s -> top <= top' <= 2 ^ 36 -> heap_ok top' bs s.
Proof.
  intros [[Hs Hz Ht [Hp Hl]] Hk Hf] Htop. split; [|done|done]. split; [done|done| |lia].
  eapply list.Forall_impl; [exact Ht|]. intros x Hx. cbv beta in Hx. lia.
Qed.

Lemma heap_ok_set top bs s a h : heap_ok top bs s -> off ((BASE, 0) :: bs) a -> heap_ok top bs (set_hdr a h s).
Proof. intros [Hb Hl Hf] Ha. split; [done| |done]. by apply linked_set. Qed.

Section grow.
Context {W : Type} `{!Unix W, !Brk W}.

(** A new block at the top of the heap. *)
Lemma morecore_run nu bs s fuel (w : W) :
  heap_ok (brk w) bs s -> BASE < brk w -> 1 <= nu -> nu * HSIZE < 2 ^ 31 -> (length bs + 1 < fuel)%nat ->
  morecore fuel nu s w = Val (0, s) w \/
  exists s' bs' w', morecore fuel nu s w = Val (hp_freep s', s') w' /\ heap_ok (brk w') bs' s' /\ brk w < brk w' /\
    (forall u, covers bs' u <-> covers bs u \/ brk w <= u < brk w') /\ (exists a j, (a, j) ∈ bs' /\ nu <= j) /\
    (forall a, a <> BASE -> a <> brk w -> ~ covers bs a -> hp_hdr s' !! a = hp_hdr s !! a) /\
    (length bs' <= S (length bs))%nat.
Proof.
  intros Hok Hb Hnu Hsz Hf. unfold morecore. set (nu' := if nu <? 4096 then 4096 else nu).
  assert (nu <= nu' /\ 4096 <= nu' /\ nu' * HSIZE < 2 ^ 31) as (Hn1 & Hn2 & Hn3).
  { unfold nu', HSIZE in *. destruct (Z.ltb_spec nu 4096); lia. }
  rewrite s32_small by (unfold HSIZE in *; lia).
  destruct (sbrk_grows (nu' * HSIZE) w) as [E|(w' & E & Hw' & Hlim)]; [unfold HSIZE; lia| |].
  - left. unfold ubind, usbrk, ucall. rewrite E. done.
  - right. pose proof Hok as [Hbs _ _]. pose proof Hbs as [_ _ Htop [Hpos _]].
    unfold ubind, usbrk, ucall. rewrite E. destruct (Z.eqb_spec (brk w) (-1)); [lia|].
    set (s1 := set_hdr (brk w) _ s).
    assert (off ((BASE, 0) :: bs) (brk w)) as Hoff.
    { intros a i Ha. apply elem_of_cons in Ha as [[= -> ->]|Ha]; [lia|]. pose proof (bo_size _ _ Hbs) as Hsize.
      rewrite list.Forall_forall in Htop, Hsize. specialize (Htop _ Ha). specialize (Hsize _ Ha). simpl in *. unfold HSIZE in *. lia. }
    destruct (free_run (brk w') bs s1 (brk w) nu' fuel) as (s' & bs' & Ef & Hok' & Hcov & (a & j & Haj & Hj) & Hfr & Hlen).
    + apply heap_ok_set; [|done]. apply (heap_ok_top (brk w)); [done|unfold HSIZE in *; lia].
    + split; [eexists; split; [apply lookup_insert_eq|done]|lia|done|unfold HSIZE in *; lia|].
      eapply list.Forall_impl; [exact Htop|]. intros x Hx. left. exact Hx.
    + done.
    + exists s', bs', w'. rewrite Ef. split; [done|]. split; [done|]. split; [unfold HSIZE in *; lia|]. split.
      { intros u. rewrite Hcov, Hw'. by rewrite (Z.mul_comm HSIZE). }
      split; [exists a, j; split; [done|lia]|]. split; [|done].
      intros c Hc1 Hc2 Hc3. rewrite Hfr by done. unfold s1, set_hdr. simpl. by rewrite lookup_insert_ne.
Qed.

(** The allocator's state before and after the first call. *)
Definition alloc_inv (w : W) (bs : list block) (s : heap) : Prop :=
  BASE < brk w /\
  ((hp_freep s = 0 /\ bs = [] /\ 0 < BASE /\ brk w <= 2 ^ 36) \/ heap_ok (brk w) bs s).

(** The list of the first call. *)
Definition started (s : heap) : heap :=
  if hp_freep s =? 0 then set_freep BASE (set_hdr BASE (mk_header BASE 0) s) else s.

Lemma alloc_started w bs s : alloc_inv w bs s -> heap_ok (brk w) bs (started s) /\
  (forall a, a <> BASE -> hp_hdr (started s) !! a = hp_hdr s !! a) /\
  exists h, hp_hdr (started s) !! hp_freep (started s) = Some h.
Proof.
  intros [Hb [(Hf & -> & Hpos & Hlim)|Hok]]; unfold started.
  - rewrite Hf. simpl. split; [|split; [intros a Ha; by rewrite lookup_insert_ne|eexists; apply lookup_insert_eq]].
    split; [|split; [apply lookup_insert_eq|done]|exists 0; left].
    split; [repeat constructor|constructor|constructor|done].
  - pose proof Hok as [Hbs Hl (n & Hm)]. destruct (heap_addr _ _ _ _ _ Hok Hm) as [Hge _]. pose proof (bo_limit _ _ Hbs) as [Hpos _].
    destruct (Z.eqb_spec (hp_freep s) 0); [lia|]. split; [done|]. split; [done|].
    destruct (linked_mem _ _ _ _ _ Hl Hm) as (? & ? & _ & E). by eexists.
Qed.

Definition nunits_of (nbytes : Z) : Z := (nbytes + 15) / 16 + 1.

(** No block is long enough: the search comes back to [freep] and the heap grows. *)
Lemma malloc_grows fuel nunits bs s h f (w : W) :
  heap_ok (brk w) bs s -> BASE < brk w -> Forall (fun x => x.2 < nunits) bs -> 1 <= nunits -> nunits * HSIZE < 2 ^ 31 ->
  (length bs + 1 < fuel)%nat -> (2 * length bs + 4 < f)%nat -> hp_hdr s !! hp_freep s = Some h ->
  uloop f (malloc_body fuel nunits) (hp_freep s, h_ptr h, s) w = Val (0, s) w \/
  exists ap s' bs1 bs' w' s1, uloop f (malloc_body fuel nunits) (hp_freep s, h_ptr h, s) w = Val (ap, s') w' /\
    taken (brk w') bs1 bs' s1 s' (ap - HSIZE) nunits /\ brk w < brk w' /\
    (forall u, covers bs1 u <-> covers bs u \/ brk w <= u < brk w') /\
    (forall a, a <> BASE -> a <> brk w -> ~ covers bs a -> hp_hdr s1 !! a = hp_hdr s !! a).
Proof.
  intros Hok Hb Hsm Hn Hsz Hfu Hf Hh. destruct (heap_circle _ bs s Hok) as (V & fn & Hw & Hmem & HV & HlV).
  assert (Forall (fun x => x.2 < nunits) (V ++ [(hp_freep s, fn)])) as HsV.
  { apply list.Forall_forall. intros x Hx. apply Hmem in Hx. apply elem_of_cons in Hx as [->|Hx]; [simpl; lia|].
    rewrite list.Forall_forall in Hsm. by apply Hsm. }
  apply Forall_app in HsV as [HsV Hsf]. apply list.Forall_cons in Hsf as [Hsf _]. simpl in Hsf.
  assert (h_ptr h = next_addr (V ++ [(hp_freep s, fn)]) 0 /\ h_size h = fn) as [Hptr Hsize].
  { split.
    - destruct V as [|[c i] V']; simpl in Hw |- *; destruct Hw as ((h' & H' & Hp) & _); rewrite Hh in H'; by injection H' as <-.
    - apply walks_app in Hw as [_ (_ & (h' & H' & Hp) & _)]. rewrite Hh in H'. by injection H' as <-. }
  rewrite Hptr. replace f with (length V + S (f - length V - 1))%nat by lia.
  rewrite (malloc_scan fuel nunits s V (hp_freep s) (hp_freep s) fn) by done. cbn [uloop].
  destruct (morecore_run nunits bs s fuel w Hok Hb Hn Hsz Hfu) as [E|(s1 & bs1 & w1 & E & Hok1 & Hb1 & Hcov & Hbig & Hfr & Hlen)].
  - left. rewrite (ubind_val _ _ w (inr (0, s)) w); [done|]. unfold malloc_body. rewrite Hh.
    destruct (Z.geb_spec (h_size h) nunits); [lia|]. rewrite Z.eqb_refl, (ubind_val _ _ _ _ _ E). done.
  - right. pose proof Hok1 as [Hbs1 Hl1 (n1 & Hm1)]. destruct (heap_addr _ _ _ _ _ Hok1 Hm1) as [Hge _]. pose proof (bo_limit _ _ Hbs1) as [Hpos _].
    destruct (linked_mem _ _ _ _ _ Hl1 Hm1) as (? & X & _ & Hh1). set (h1 := mk_header (next_addr X BASE) n1) in *.
    destruct (malloc_found fuel nunits (brk w1) bs1 s1 h1 (f - length V - 1) w1 Hok1 Hbig Hn ltac:(lia) Hh1) as (ap & s' & bs' & E' & Htk).
    exists ap, s', bs1, bs', w1, s1. split; [|by split_and!].
    rewrite (ubind_val _ _ w (inl (hp_freep s1, h_ptr h1, s1)) w1); [done|]. unfold malloc_body. rewrite Hh.
    destruct (Z.geb_spec (h_size h) nunits); [lia|]. rewrite Z.eqb_refl, (ubind_val _ _ _ _ _ E). cbn beta iota.
    destruct (Z.eqb_spec (hp_freep s1) 0); [lia|]. by rewrite Hh1.
Qed.
End grow.
End code.

(** What a successful [malloc] of [nbytes] achieves: the block behind the header at
    [ap - HSIZE] was free or came from [sbrk] and is disjoint from what stays free, and
    headers of other blocks in use are as before. *)
Record allocated {W} `{!Unix W, !Brk W} (BASE nbytes : Z) (bs bs' : list block) (s s' : heap) (w w' : W) (ap : Z) : Prop := {
  al_heap : heap_ok BASE (brk w') bs' s';
  al_loose : loose BASE (brk w') bs' s' (ap - HSIZE) (nunits_of nbytes);
  al_bytes : nbytes <= HSIZE * nunits_of nbytes - HSIZE;
  al_brk : brk w <= brk w';
  al_cover : forall u, covers bs' u \/ ap - HSIZE <= u < ap - HSIZE + HSIZE * nunits_of nbytes <-> covers bs u \/ brk w <= u < brk w';
  al_frame : forall a, a <> BASE -> ~ covers bs a -> ~ brk w <= a < brk w' -> hp_hdr s' !! a = hp_hdr s !! a
}.

Section alloc.
Context {W : Type} `{!Unix W, !Brk W} (BASE nbytes : Z) (bs : list block) (s : heap) (w : W).
Hypotheses (Hinv : alloc_inv BASE w bs s) (Hnb : 0 <= nbytes < 2 ^ 31 - 32).

Lemma nunits_bounds : 1 <= nunits_of nbytes /\ nunits_of nbytes * HSIZE < 2 ^ 31 /\ nbytes <= HSIZE * nunits_of nbytes - HSIZE.
Proof. unfold nunits_of, HSIZE. zlia. Qed.

Lemma malloc_loop fuel h : hp_hdr (started BASE s) !! hp_freep (started BASE s) = Some h ->
  malloc BASE fuel nbytes s w = uloop fuel (malloc_body fuel (nunits_of nbytes)) (hp_freep (started BASE s), h_ptr h, started BASE s) w.
Proof.
  intros Hh. unfold malloc. fold (started BASE s). rewrite Hh.
  replace (u32 ((nbytes + HSIZE - 1) / HSIZE + 1)) with (nunits_of nbytes); [done|].
  pose proof nunits_bounds as (H1 & H2 & _). unfold nunits_of, HSIZE in *. rewrite u32_small; [do 2 f_equal; lia|]. zlia.
Qed.

Lemma taken_allocated ap s' bs1 bs' s1 w' : taken BASE (brk w') bs1 bs' s1 s' (ap - HSIZE) (nunits_of nbytes) ->
  (forall u, covers bs1 u <-> covers bs u \/ brk w <= u < brk w') -> brk w <= brk w' ->
  (forall a, a <> BASE -> ~ brk w <= a < brk w' -> ~ covers bs a -> hp_hdr s1 !! a = hp_hdr (started BASE s) !! a) ->
  allocated BASE nbytes bs bs' s s' w w' ap.
Proof.
  intros [Hh' Hlo Hcov Hfr] Hc1 Hbrk Hfr1. pose proof nunits_bounds as (_ & _ & Hn).
  destruct (alloc_started BASE w bs s Hinv) as (_ & Hst & _). split; try done; [intros u; by rewrite <-Hcov|].
  intros a Ha Hac Har. rewrite Hfr by (done || (rewrite Hc1; tauto)). by rewrite Hfr1, Hst.
Qed.

Lemma malloc_run fuel : (2 * length bs + 8 < fuel)%nat ->
  (malloc BASE fuel nbytes s w = Val (0, started BASE s) w /\ Forall (fun x => x.2 < nunits_of nbytes) bs /\
   heap_ok BASE (brk w) bs (started BASE s)) \/
  exists ap s' bs' w', malloc BASE fuel nbytes s w = Val (ap, s') w' /\ allocated BASE nbytes bs bs' s s' w w' ap.
Proof.
  intros Hf. destruct (alloc_started BASE w bs s Hinv) as (Hok & Hst & h & Hh). pose proof nunits_bounds as (Hn1 & Hn2 & _).
  rewrite (malloc_loop fuel h Hh). destruct (decide (Exists (fun x => nunits_of nbytes <= x.2) bs)) as [Hfit|Hfit].
  - right. apply List.Exists_exists in Hfit as ([a j] & Ha & Hj). rewrite <-list_elem_of_In in Ha.
    destruct (malloc_found BASE fuel (nunits_of nbytes) (brk w) bs (started BASE s) h fuel w Hok ltac:(by exists a, j) Hn1 ltac:(lia) Hh)
      as (ap & s' & bs' & E & Htk).
    exists ap, s', bs', w. split; [done|]. apply (taken_allocated ap s' bs bs' (started BASE s) w Htk); [|lia|done].
    intros u. split; [tauto|intros [?|?]; [done|lia]].
  - assert (Forall (fun x => x.2 < nunits_of nbytes) bs) as Hsm.
    { apply list.Forall_forall. intros x Hx. destruct (decide (x.2 < nunits_of nbytes)); [done|]. exfalso. apply Hfit.
      apply List.Exists_exists. exists x. split; [by apply list_elem_of_In|lia]. }
    pose proof Hinv as [Hb _].
    destruct (malloc_grows BASE fuel (nunits_of nbytes) bs (started BASE s) h fuel w Hok Hb Hsm Hn1 Hn2 ltac:(lia) ltac:(lia) Hh)
      as [E|(ap & s' & bs1 & bs' & w' & s1 & E & Htk & Hlt & Hc1 & Hfr1)]; [by left|].
    right. exists ap, s', bs', w'. split; [done|]. apply (taken_allocated ap s' bs1 bs' s1 w' Htk Hc1 ltac:(lia)).
    intros a Ha Har. apply Hfr1; [done|]. intros ->. apply Har. lia.
Qed.
End alloc.

#[export] Program Instance term_brk : Brk term := { brk := t_brk }.
Next Obligation.
  intros n w Hn. cbn [sys_sbrk term_unix]. destruct (Z.gtb_spec (t_brk w + n) (2 ^ 36)); [by left|].
  right. eexists. split; [done|]. simpl. lia.
Qed.

(** ** Theorems *)

(** [C24] [malloc] and [free] manage the free memory exactly.  From the initial state
    or any state with a well-formed circular free list, [malloc] of fewer than 2^31 - 32 bytes
    returns in a number of steps bounded by the length of the list.  Either no
    free block is long enough, [sbrk] refuses, null is returned and the free blocks are as before; or
    it returns a block with a header of the right size and at least the requested
    bytes behind it, which was free or was obtained from [sbrk] and is disjoint from
    all blocks that stay free, and the list is well formed again: sorted, with no two blocks that
    touch; headers of other blocks in use are not touched.  [free] of that block then
    gives a list that covers exactly the memory that was free before, [sbrk]'s included. *)
Theorem malloc_free_exact {W} `{!Unix W, !Brk W} BASE nbytes bs s fuel (w : W) :
  alloc_inv BASE w bs s -> 0 <= nbytes < 2 ^ 31 - 32 -> (2 * length bs + 8 < fuel)%nat ->
  (malloc BASE fuel nbytes s w = Val (0, started BASE s) w /\ Forall (fun x => x.2 < nunits_of nbytes) bs /\
   heap_ok BASE (brk w) bs (started BASE s)) \/
  exists ap s' bs' w', malloc BASE fuel nbytes s w = Val (ap, s') w' /\ allocated BASE nbytes bs bs' s s' w w' ap /\
    forall fuel', (length bs' + 1 < fuel')%nat ->
      exists s'' bs'', free fuel' ap s' = Some s'' /\ heap_ok BASE (brk w') bs'' s'' /\
      forall u, covers bs'' u <-> covers bs u \/ brk w <= u < brk w'.
Proof.
  intros Hinv Hnb Hf. destruct (malloc_run BASE nbytes bs s w Hinv Hnb fuel Hf) as [H|(ap & s' & bs' & w' & E & Hal)]; [by left|right].
  exists ap, s', bs', w'. split; [done|]. split; [done|]. intros fuel' Hf'. destruct Hal as [Hh Hlo _ _ Hcov _].
  destruct (free_run BASE (brk w') bs' s' (ap - HSIZE) (nunits_of nbytes) fuel' Hh Hlo Hf') as (s'' & bs'' & Ef & Hok'' & Hcov'' & _).
  rewrite Z.sub_simpl_r in Ef. exists s'', bs''. split; [done|]. split; [done|]. intros u. by rewrite Hcov''.
Qed.

(** The first call, for 100 bytes, and [free] of the result. *)
Definition fresh_term : term := {| t_in := ∅; t_out := ∅; t_chunk := 0; t_brk := 16384 |}.

Lemma malloc_free_exact_witness : exists ap s' w' fuel' s'' bs'',
  malloc 4096 9 100 (mk_heap ∅ 0) fresh_term = Val (ap, s') w' /\ free fuel' ap s' = Some s'' /\
  heap_ok 4096 (t_brk w') bs'' s''.
Proof.
  destruct (malloc_free_exact (W := term) 4096 100 [] (mk_heap ∅ 0) 9 fresh_term)
    as [(E & _)|(ap & s' & bs' & w' & E & Hal & Hfree)].
  - split; [reflexivity|]. left. split; [reflexivity|]. split; [reflexivity|]. split; [reflexivity|discriminate].
  - split; [discriminate|reflexivity].
  - simpl. lia.
  - exfalso. vm_compute in E. discriminate E.
  - destruct (Hfree (length bs' + 2)%nat) as (s'' & bs'' & Ef & Hok & _); [lia|].
    exists ap, s', w', (length bs' + 2)%nat, s'', bs''. split; [exact E|]. split; [exact Ef|exact Hok].
Defined.
End Umalloc.
