(* ===== verification/Sh.v ===== *)
(** * The shell: user/sh.c

    A pointer into the command line is the list of the characters from it to the
    end [es] of the line (without the nul); a token [(q, eq)] is kept as the number of
    characters from [q] and from [eq] to the end.  Parsing either gives a command or ends in [panic]. *)

From Stdlib Require Import ZArith Lia.
From stdpp Require Import base list gmap strings numbers option.
From S2P Require Import Prelude Bytes Kstate Printf Unix Ulib.

Module Sh.

Definition MAXARGS : nat := 10.
Definition O_RDONLY : Z := 0.
Definition O_WRONLY : Z := 1.
Definition O_RDWR : Z := 2.
Definition O_CREATE : Z := 0x200.
Definition O_TRUNC : Z := 0x400.

(** [(q, eq)] *)
Abbreviation token := (nat * nat)%type.

Inductive cmd :=
| EXEC (argv : list token)
| REDIR (c : cmd) (file : token) (mode fd : Z)
| PIPE (left right : cmd)
| LIST (left right : cmd)
| BACK (c : cmd).

(** ** Tokens *)

(** [" \t\r\n\v"] and ["<|>&;()"] *)
Definition whitespace : list Z := [32; 9; 13; 10; 11].
Definition symbols : list Z := [60; 124; 62; 38; 59; 40; 41].

(** [strchr(l, c)] as a truth value. *)
Definition strchr (l : list Z) (c : Z) : bool := bool_decide (c ∈ l).

(** [while(s < es && strchr(whitespace, *s)) s++;] *)
Fixpoint skip_ws (s : list Z) : list Z :=
  match s with
  | c :: s' => if strchr whitespace c then skip_ws s' else s
  | [] => []
  end.

(** [while(s < es && !strchr(whitespace, *s) && !strchr(symbols, *s)) s++;] *)
Fixpoint skip_word (s : list Z) : list Z :=
  match s with
  | c :: s' => if negb (strchr whitespace c) && negb (strchr symbols c) then skip_word s' else s
  | [] => []
  end.

(** The kind of the token, its place and the rest of the line. *)
Definition gettoken (s : list Z) : Z * token * list Z :=
  let s := skip_ws s in
  let '(r, e) :=
    match s with
    | [] => (0, s)
    | c :: s' =>
        if bool_decide (c ∈ [124; 40; 41; 59; 38; 60]) then (c, s')
        else if c =? 62 then
          match s' with
          | d :: s'' => if d =? 62 then (43, s'') else (62, s')
          | [] => (62, s')
          end
        else (97, skip_word s)
    end in
  (r, (length s, length e), skip_ws e).

Definition peek (s toks : list Z) : bool * list Z :=
  let s := skip_ws s in
  (match s with [] => false | c :: _ => strchr toks c end, s).

(** ** The parser *)

Inductive presult (A : Type) :=
| POk (a : A) (s : list Z)
| PPanic (msg : string)
| PLeftovers (s : list Z)   (** [fprintf(2, "leftovers: %s\n", s); panic("syntax");] *)
| PFuel.
Arguments POk {A} a s.
Arguments PPanic {A} msg.
Arguments PLeftovers {A} s.
Arguments PFuel {A}.

Definition pbind {A B} (r : presult A) (f : A -> list Z -> presult B) : presult B :=
  match r with POk a s => f a s | PPanic m => PPanic m | PLeftovers s => PLeftovers s | PFuel => PFuel end.

(** A redirection around a command. *)
Record redir := mk_redir { rd_file : token; rd_mode : Z; rd_fd : Z }.
Definition apply_redir (c : cmd) (r : redir) : cmd := REDIR c (rd_file r) (rd_mode r) (rd_fd r).

(** The redirections that follow, innermost first. *)
Fixpoint parseredirs (fuel : nat) (s : list Z) : presult (list redir) :=
  match fuel with
  | O => PFuel
  | S fuel' =>
      let '(b, s) := peek s [60; 62] in
      if negb b then POk [] s else
      let '(tok, _, s) := gettoken s in
      let '(kind, file, s) := gettoken s in
      if negb (kind =? 97) then PPanic "missing file for redirection" else
      let r := if tok =? 60 then [mk_redir file O_RDONLY 0]
               else if tok =? 62 then [mk_redir file (Z.lor (Z.lor O_WRONLY O_CREATE) O_TRUNC) 1]
               else if tok =? 43 then [mk_redir file (Z.lor O_WRONLY O_CREATE) 1]
               else [] in
      pbind (parseredirs fuel' s) (fun rs s => POk (r ++ rs) s)
  end.

(** The loop of [parseexec] over arguments and redirections; [argv] is kept as the
    list of the arguments so far. *)
Fixpoint parseargs (fuel : nat) (argv : list token) (rs : list redir) (s : list Z) : presult (list token * list redir) :=
  match fuel with
  | O => PFuel
  | S fuel' =>
      let '(b, s) := peek s [124; 41; 38; 59] in
      if b then POk (argv, rs) s else
      let '(tok, t, s) := gettoken s in
      if tok =? 0 then POk (argv, rs) s else
      if negb (tok =? 97) then PPanic "syntax" else
      let argv := argv ++ [t] in
      if (MAXARGS <=? length argv)%nat then PPanic "too many args" else
      pbind (parseredirs (S (length s)) s) (fun rs' s => parseargs fuel' argv (rs ++ rs') s)
  end.

(** [while(peek(ps, es, "&")){ gettoken(ps, es, 0, 0); cmd = backcmd(cmd); }] *)
Fixpoint parsebacks (fuel : nat) (c : cmd) (s : list Z) : presult cmd :=
  match fuel with
  | O => PFuel
  | S fuel' =>
      let '(b, s) := peek s [38] in
      if negb b then POk c s else
      let '(_, _, s) := gettoken s in
      parsebacks fuel' (BACK c) s
  end.

(** The parsing functions call each other: each is given the functions it calls, and
    [parse_line] ties them together, with fuel for the depth of the calls. *)
Definition parseline (parsepipe parseline : list Z -> presult cmd) (s : list Z) : presult cmd :=
  pbind (parsepipe s) (fun c s =>
  pbind (parsebacks (S (length s)) c s) (fun c s =>
  let '(b, s) := peek s [59] in
  if negb b then POk c s else
  let '(_, _, s) := gettoken s in
  pbind (parseline s) (fun r s => POk (LIST c r) s))).

Definition parsepipe (parseexec parsepipe : list Z -> presult cmd) (s : list Z) : presult cmd :=
  pbind (parseexec s) (fun c s =>
  let '(b, s) := peek s [124] in
  if negb b then POk c s else
  let '(_, _, s) := gettoken s in
  pbind (parsepipe s) (fun r s => POk (PIPE c r) s)).

Definition parseexec (parseblock : list Z -> presult cmd) (s : list Z) : presult cmd :=
  let '(b, s) := peek s [40] in
  if b then parseblock s else
  pbind (parseredirs (S (length s)) s) (fun rs s =>
  pbind (parseargs (S (length s)) [] rs s) (fun x s =>
  POk (foldl apply_redir (EXEC x.1) x.2) s)).

Definition parseblock (parseline : list Z -> presult cmd) (s : list Z) : presult cmd :=
  let '(b, s) := peek s [40] in
  if negb b then PPanic "parseblock" else
  let '(_, _, s) := gettoken s in
  pbind (parseline s) (fun c s =>
  let '(b, s) := peek s [41] in
  if negb b then PPanic "syntax - missing )" else
  let '(_, _, s) := gettoken s in
  pbind (parseredirs (S (length s)) s) (fun rs s => POk (foldl apply_redir c rs) s)).

Fixpoint parse_line (fuel : nat) (s : list Z) : presult cmd :=
  match fuel with O => PFuel | S fuel' => parseline (parse_pipe fuel') (parse_line fuel') s end
with parse_pipe (fuel : nat) (s : list Z) : presult cmd :=
  match fuel with O => PFuel | S fuel' => parsepipe (parse_exec fuel') (parse_pipe fuel') s end
with parse_exec (fuel : nat) (s : list Z) : presult cmd :=
  match fuel with O => PFuel | S fuel' => parseexec (parse_block fuel') s end
with parse_block (fuel : nat) (s : list Z) : presult cmd :=
  match fuel with O => PFuel | S fuel' => parseblock (parse_line fuel') s end.

Lemma parse_line_S fuel s : parse_line (S fuel) s = parseline (parse_pipe fuel) (parse_line fuel) s.
Proof. reflexivity. Qed.
Lemma parse_pipe_S fuel s : parse_pipe (S fuel) s = parsepipe (parse_exec fuel) (parse_pipe fuel) s.
Proof. reflexivity. Qed.
Lemma parse_exec_S fuel s : parse_exec (S fuel) s = parseexec (parse_block fuel) s.
Proof. reflexivity. Qed.
Lemma parse_block_S fuel s : parse_block (S fuel) s = parseblock (parse_line fuel) s.
Proof. reflexivity. Qed.

(** Storing a nul at [eq]; at the end of the line there already is one. *)
Definition put_nul (eq : nat) (line : list Z) : list Z :=
  if (eq =? 0)%nat then line else <[(length line - eq)%nat := 0]> line.

Fixpoint nulterminate (c : cmd) (line : list Z) : list Z :=
  match c with
  | EXEC argv => foldl (fun l t => put_nul t.2 l) line argv
  | REDIR c file _ _ => put_nul file.2 (nulterminate c line)
  | PIPE l r => nulterminate r (nulterminate l line)
  | LIST l r => nulterminate r (nulterminate l line)
  | BACK c => nulterminate c line
  end.

(** Four nested calls for each character are enough. *)
Definition parse_fuel (line : list Z) : nat := 4 * length line + 8.

(** The command and the line with the nuls. *)
Definition parsecmd (line : list Z) : presult (cmd * list Z) :=
  pbind (parse_line (parse_fuel line) line) (fun c s =>
  let '(_, s) := peek s [] in
  match s with
  | [] => POk (c, nulterminate c line) []
  | _ => PLeftovers s
  end).

(** The C string at [q]. *)
Fixpoint until_nul (l : list Z) : list Z :=
  match l with [] => [] | c :: l' => if c =? 0 then [] else c :: until_nul l' end.
Definition str_at (line : list Z) (t : token) : list Z := until_nul (drop (length line - t.1) line).

(** ** Running commands *)

Section run.
Context {W : Type} `{!Unix W}.

Definition upanic {A} (msg : string) : U W A :=
  Ulib.fprintf 2 (bytes_of "%s" ++ newline) [AStr (Some (bytes_of msg))] ;;~ exit 1.

Definition fork1 : U W Z := pid <~ ufork ;; if pid =? -1 then upanic "fork" else uret pid.

(** [runcmd] never returns: every branch ends in [exit]. *)
Fixpoint runcmd (line : list Z) (c : cmd) : U W unit :=
  match c with
  | EXEC argv =>
      match argv with
      | [] => exit 1
      | a :: _ =>
          uexec (str_at line a) (map (str_at line) argv) ;;~
          Ulib.fprintf 2 (bytes_of "exec %s failed" ++ newline) [AStr (Some (str_at line a))] ;;~
          exit 0
      end
  | REDIR c file mode fd =>
      uclose fd ;;~
      r <~ uopen (str_at line file) mode ;;
      if r <? 0 then Ulib.fprintf 2 (bytes_of "open %s failed" ++ newline) [AStr (Some (str_at line file))] ;;~ exit 1
      else runcmd line c
  | LIST l r =>
      pid <~ fork1 ;;
      (if pid =? 0 then runcmd line l else uret tt) ;;~
      uwait ;;~
      runcmd line r
  | PIPE l r =>
      p <~ upipe ;;
      match p with
      | None => upanic "pipe"
      | Some (p0, p1) =>
          pid <~ fork1 ;;
          (if pid =? 0 then uclose 1 ;;~ udup p1 ;;~ uclose p0 ;;~ uclose p1 ;;~ runcmd line l else uret tt) ;;~
          pid <~ fork1 ;;
          (if pid =? 0 then uclose 0 ;;~ udup p0 ;;~ uclose p0 ;;~ uclose p1 ;;~ runcmd line r else uret tt) ;;~
          uclose p0 ;;~ uclose p1 ;;~ uwait ;;~ uwait ;;~ exit 0
      end
  | BACK c =>
      pid <~ fork1 ;;
      (if pid =? 0 then runcmd line c else uret tt) ;;~
      exit 0
  end.

(** The line read, [None] at the end of the input. *)
Definition getcmd (nbuf : Z) : U W (option (list Z)) :=
  uwrite 2 [36; 32] ;;~
  buf <~ Ulib.gets nbuf ;;
  match until_nul buf with [] => uret None | l => uret (Some l) end.

(** [while((fd = open("console", O_RDWR)) >= 0) if(fd >= 3){ close(fd); break; }] *)
Definition open_console (_ : unit) : U W (unit + unit) :=
  fd <~ uopen (bytes_of "console") O_RDWR ;;
  if fd <? 0 then uret (inr tt)
  else if fd >=? 3 then uclose fd ;;~ uret (inr tt)
  else uret (inl tt).

Definition sh_round (_ : unit) : U W (unit + unit) :=
  l <~ getcmd 100 ;;
  match l with
  | None => uret (inr tt)
  | Some line =>
      match line with
      | 99 :: 100 :: 32 :: _ =>
          let dir := drop 3 (take (length line - 1) line) in
          r <~ uchdir dir ;;
          uwhen (r <? 0) (Ulib.fprintf 2 (bytes_of "cannot cd %s" ++ newline) [AStr (Some dir)]) ;;~
          uret (inl tt)
      | _ =>
          pid <~ fork1 ;;
          (if pid =? 0 then
             match parsecmd line with
             | POk (c, line') _ => runcmd line' c
             | PPanic msg => upanic msg
             | PLeftovers s => Ulib.fprintf 2 (bytes_of "leftovers: %s" ++ newline) [AStr (Some s)] ;;~ upanic "syntax"
             | PFuel => fun _ => Unfinished
             end
           else uret tt) ;;~
          uwait ;;~
          uret (inl tt)
      end
  end.

Definition sh_main (fuel : nat) : U W unit :=
  uloop fuel open_console tt ;;~
  uloop fuel sh_round tt ;;~
  exit 0.
End run.
End Sh.
