(* ===== verification/ShSpec.v ===== *)
(** * The shell's parser is total and its tokens are right

    For every command line the parser returns: it panics, or gives a command whose arguments and
    file names are non-empty words of the line, at most nine for each program; after
    [nulterminate] the C strings at the tokens are exactly those words.  That the parser accepts
    the shell's grammar is in [ShParse]. *)

From Stdlib Require Import ZArith Lia.
From stdpp Require Import base list gmap strings numbers option.
From S2P Require Import Prelude Unix Sh.

Import Sh.
Module ShSpec.

(** ** Words *)

Definition word_char (c : Z) : Prop := c <> 0 /\ (c ∉ whitespace) /\ (c ∉ symbols).

#[export] Instance word_char_dec c : Decision (word_char c) := _.

(** The word of a token. *)
Definition word_of (line : list Z) (t : token) : list Z := take (t.1 - t.2) (drop (length line - t.1) line).

(** A token is a non-empty maximal word. *)
Definition tok_ok (line : list Z) (t : token) : Prop :=
  exists pre w post, line = pre ++ w ++ post /\ t = (length (w ++ post), length post) /\ w <> [] /\ Forall word_char w /\
    (forall c, head post = Some c -> ~ word_char c).

Fixpoint tokens (c : cmd) : list token :=
  match c with
  | EXEC argv => argv
  | REDIR c file _ _ => tokens c ++ [file]
  | PIPE l r => tokens l ++ tokens r
  | LIST l r => tokens l ++ tokens r
  | BACK c => tokens c
  end.

Fixpoint args_fit (c : cmd) : Prop :=
  match c with
  | EXEC argv => (length argv < MAXARGS)%nat
  | REDIR c _ _ _ => args_fit c
  | PIPE l r => args_fit l /\ args_fit r
  | LIST l r => args_fit l /\ args_fit r
  | BACK c => args_fit c
  end.

Definition cmd_ok (line : list Z) (c : cmd) : Prop := Forall (tok_ok line) (tokens c) /\ args_fit c.

Lemma tok_ok_suffix s line t : s `suffix_of` line -> tok_ok s t -> tok_ok line t.
Proof.
  intros [l ->] (pre & w & post & -> & H). exists (l ++ pre), w, post. split; [by rewrite <-(assoc_L (++))|done].
Qed.

(** ** The scanner *)

Lemma skip_ws_suffix s : skip_ws s `suffix_of` s.
Proof. induction s as [|c s IH]; [done|]. simpl. destruct (strchr whitespace c); [by apply suffix_cons_r|done]. Qed.

Lemma skip_ws_head s c s' : skip_ws s = c :: s' -> c ∉ whitespace.
Proof.
  induction s as [|d s IH]; [done|]. simpl. unfold strchr. destruct (bool_decide_reflect (d ∈ whitespace)); [done|].
  intros [= -> ->]. done.
Qed.

Lemma skip_word_split s : Forall (fun c => c <> 0) s ->
  exists w, s = w ++ skip_word s /\ Forall word_char w /\ (forall c, head (skip_word s) = Some c -> ~ word_char c).
Proof.
  induction 1 as [|c s Hc _ (w & E & Hw & Hh)]; [by exists []|]. simpl. unfold strchr.
  destruct (bool_decide_reflect (c ∈ whitespace)), (bool_decide_reflect (c ∈ symbols)); simpl.
  1, 2, 3: exists []; split; [done|]; split; [constructor|]; intros ? [= <-]; unfold word_char; tauto.
  exists (c :: w). split; [simpl; by rewrite <-E|]. split; [constructor; [done|done]|done].
Qed.

Lemma length_suffix (s' s : list Z) : s' `suffix_of` s -> (length s' <= length s)%nat.
Proof. apply suffix_length. Qed.

Lemma nonzero_suffix (s' s : list Z) : s' `suffix_of` s -> Forall (fun c => c <> 0) s -> Forall (fun c => c <> 0) s'.
Proof. intros [l ->]. rewrite Forall_app. tauto. Qed.

Lemma gettoken_spec s k t s' : Forall (fun c => c <> 0) s -> gettoken s = (k, t, s') ->
  s' `suffix_of` s /\ (k = 97 -> tok_ok s t) /\ (k <> 0 -> (length s' < length s)%nat) /\ (skip_ws s <> [] -> (length s' < length s)%nat).
Proof.
  intros Hz. unfold gettoken. pose proof (skip_ws_suffix s) as Hs. pose proof (length_suffix _ _ Hs) as Hl.
  pose proof (nonzero_suffix _ _ Hs Hz) as Hz2. destruct (skip_ws s) as [|c r] eqn:Er.
  { intros [= <- <- <-]. split; [done|]. split; [done|]. split; done. }
  pose proof (skip_ws_head _ _ _ Er) as Hc. cbn [length] in Hl.
  assert (forall e, e `suffix_of` r -> skip_ws e `suffix_of` s /\ (length (skip_ws e) < length s)%nat) as Hsuf.
  { intros e He. pose proof (skip_ws_suffix e) as H1. split; [|apply length_suffix in H1, He; lia].
    etransitivity; [exact H1|]. etransitivity; [exact He|]. by apply suffix_cons_l in Hs. }
  assert (forall k' e, e `suffix_of` r -> k' <> 97 -> (k', (length (c :: r), length e), skip_ws e) = (k, t, s') ->
    s' `suffix_of` s /\ (k = 97 -> tok_ok s t) /\ (k <> 0 -> (length s' < length s)%nat) /\ (c :: r <> [] -> (length s' < length s)%nat)) as Hsym.
  { intros k' e He Hk [= <- <- <-]. destruct (Hsuf e He) as [H1 H2]. split; [done|]. split; [done|]. split; done. }
  destruct (bool_decide_reflect (c ∈ [124; 40; 41; 59; 38; 60])) as [Hin|Hin].
  { apply Hsym; [done|]. intros ->. set_solver. }
  destruct (Z.eqb_spec c 62) as [->|H62].
  { destruct r as [|d r']; [by apply Hsym|]. destruct (Z.eqb_spec d 62); [apply (Hsym 43); [by apply suffix_cons_r|done]|by apply (Hsym 62)]. }
  assert (word_char c) as Hwc.
  { apply list.Forall_cons in Hz2 as [Hc0 _]. split; [done|]. split; [done|]. unfold symbols. set_solver. }
  apply list.Forall_cons in Hz2 as [Hc0 Hz2]. destruct (skip_word_split r Hz2) as (w & Ew & Hw & Hh).
  assert (skip_word (c :: r) = skip_word r) as Esk.
  { simpl. unfold strchr. destruct Hwc as (_ & H1 & H2). by rewrite !bool_decide_false. }
  rewrite Esk. intros [= <- <- <-]. destruct (Hsuf (skip_word r)) as [H1 H2]; [by exists w|]. split; [done|]. split; [|split; done].
  intros _. apply (tok_ok_suffix (c :: r)); [done|]. exists [], (c :: w), (skip_word r). simpl. rewrite <-Ew.
  split; [done|]. split; [done|]. split; [done|]. split; [by constructor|done].
Qed.

Lemma peek_spec s toks b s' : peek s toks = (b, s') ->
  s' `suffix_of` s /\ s' = skip_ws s /\ (b = true -> exists c r, s' = c :: r /\ c ∈ toks).
Proof.
  unfold peek. intros [= <- <-]. split; [apply skip_ws_suffix|]. split; [done|].
  destruct (skip_ws s) as [|c r]; [done|]. unfold strchr. intros Hb. apply bool_decide_eq_true in Hb. by exists c, r.
Qed.

Lemma skip_ws_idem s : skip_ws (skip_ws s) = skip_ws s.
Proof. induction s as [|c s IH]; [done|]. simpl. destruct (strchr whitespace c) eqn:E; [done|]. simpl. by rewrite E. Qed.

(** ** The parser is total *)

(** Not out of fuel; a result satisfies [P] and leaves a suffix. *)
Definition good {A} (s : list Z) (r : presult A) (P : A -> Prop) : Prop :=
  match r with
  | POk a s' => s' `suffix_of` s /\ P a
  | PFuel => False
  | _ => True
  end.

Lemma good_bind {A B} s (r : presult A) (f : A -> list Z -> presult B) P Q :
  good s r P -> (forall a s', P a -> s' `suffix_of` s -> good s' (f a s') Q) -> good s (pbind r f) Q.
Proof.
  destruct r as [a s'| | |]; simpl; try done. intros [Hs Ha] Hf. specialize (Hf a s' Ha Hs).
  unfold good in *. destruct (f a s'); try done. destruct Hf as [H1 H2]. split; [by etransitivity|done].
Qed.

Lemma good_weaken {A} s s' (r : presult A) P : s' `suffix_of` s -> good s' r P -> good s r P.
Proof. unfold good. destruct r; try done. intros H [H1 H2]. split; [by etransitivity|done]. Qed.

Section total.
Context (line : list Z) (Hline : Forall (fun c => c <> 0) line).

Definition redir_ok (r : redir) : Prop := tok_ok line (rd_file r).

Lemma suffix_nz s : s `suffix_of` line -> Forall (fun c => c <> 0) s.
Proof. intros. by apply (nonzero_suffix s line). Qed.

(** A token after a successful [peek] consumes characters. *)
Lemma peek_gettoken s toks s1 k t s2 : s `suffix_of` line -> peek s toks = (true, s1) -> gettoken s1 = (k, t, s2) ->
  s2 `suffix_of` s /\ (length s2 < length s)%nat.
Proof.
  intros Hs Hp Hg. destruct (peek_spec _ _ _ _ Hp) as (H1 & -> & Ht). destruct (Ht eq_refl) as (c & r & Ec & _).
  assert (skip_ws s `suffix_of` line) as Hl by (by etransitivity).
  destruct (gettoken_spec _ _ _ _ (suffix_nz _ Hl) Hg) as (H2 & _ & _ & H4). rewrite skip_ws_idem, Ec in H4.
  split; [by etransitivity|]. specialize (H4 ltac:(done)). apply length_suffix in H1. rewrite Ec in H1. lia.
Qed.

Lemma parseredirs_good fuel : forall s, s `suffix_of` line -> (length s < fuel)%nat ->
  good s (parseredirs fuel s) (Forall redir_ok).
Proof.
  induction fuel as [|fuel IH]; intros s Hs Hf; [lia|]. cbn [parseredirs].
  destruct (peek s [60; 62]) as [b s1] eqn:Ep. destruct (peek_spec _ _ _ _ Ep) as (H1 & _ & _).
  destruct b; [|split; [done|constructor]]. cbn [negb].
  destruct (gettoken s1) as [[tok t0] s2] eqn:Eg1. destruct (peek_gettoken _ _ _ _ _ _ Hs Ep Eg1) as [H2 Hl2].
  destruct (gettoken s2) as [[kind file] s3] eqn:Eg2. assert (s2 `suffix_of` line) as Hs2 by (by etransitivity).
  destruct (gettoken_spec _ _ _ _ (suffix_nz _ Hs2) Eg2) as (H3 & Htok & _).
  destruct (Z.eqb_spec kind 97) as [->|]; [|done]. cbn [negb]. specialize (Htok eq_refl).
  assert (redir_ok (mk_redir file O_RDONLY 0)) as Hr by (by apply (tok_ok_suffix s2)).
  assert (s3 `suffix_of` s) as H3' by (by etransitivity).
  apply (good_weaken _ s3); [done|]. apply length_suffix in H3.
  eapply good_bind; [apply IH; [by etransitivity|lia]|]. intros rs s' Hrs _. split; [done|]. apply Forall_app. split; [|done].
  destruct (tok =? 60), (tok =? 62), (tok =? 43); constructor; done || constructor.
Qed.

Lemma parseargs_good fuel : forall argv rs s, s `suffix_of` line -> (length s < fuel)%nat ->
  Forall (tok_ok line) argv -> (length argv < MAXARGS)%nat -> Forall redir_ok rs ->
  good s (parseargs fuel argv rs s) (fun x => Forall (tok_ok line) x.1 /\ (length x.1 < MAXARGS)%nat /\ Forall redir_ok x.2).
Proof.
  induction fuel as [|fuel IH]; intros argv rs s Hs Hf Ha Hl Hr; [lia|]. cbn [parseargs].
  destruct (peek s [124; 41; 38; 59]) as [b s1] eqn:Ep. destruct (peek_spec _ _ _ _ Ep) as (H1 & _ & _).
  destruct b; [by split|]. destruct (gettoken s1) as [[tok t] s2] eqn:Eg. assert (s1 `suffix_of` line) as Hs1 by (by etransitivity).
  destruct (gettoken_spec _ _ _ _ (suffix_nz _ Hs1) Eg) as (H2 & Htok & Hlt & _).
  assert (s2 `suffix_of` s) as H2' by (by etransitivity).
  destruct (Z.eqb_spec tok 0); [by split|]. destruct (Z.eqb_spec tok 97) as [->|]; [|done]. cbn [negb].
  destruct (Nat.leb_spec MAXARGS (length (argv ++ [t]))); [done|].
  specialize (Htok eq_refl). specialize (Hlt ltac:(done)). apply length_suffix in H1.
  assert (s2 `suffix_of` line) as Hs2 by (by etransitivity).
  apply (good_weaken _ s2); [done|]. eapply good_bind; [apply parseredirs_good; [done|lia]|]. intros rs' s' Hrs' Hs'.
  apply IH; [by etransitivity|apply length_suffix in Hs'; lia| |done|by apply Forall_app].
  apply Forall_app. split; [done|]. constructor; [|constructor]. by apply (tok_ok_suffix s1).
Qed.

Lemma parsebacks_good fuel : forall c s, s `suffix_of` line -> (length s < fuel)%nat -> cmd_ok line c ->
  good s (parsebacks fuel c s) (cmd_ok line).
Proof.
  induction fuel as [|fuel IH]; intros c s Hs Hf Hc; [lia|]. cbn [parsebacks].
  destruct (peek s [38]) as [b s1] eqn:Ep. destruct (peek_spec _ _ _ _ Ep) as (H1 & _ & _).
  destruct b; [|by split]. cbn [negb]. destruct (gettoken s1) as [[tok t] s2] eqn:Eg.
  destruct (peek_gettoken _ _ _ _ _ _ Hs Ep Eg) as [H2 Hl2]. apply (good_weaken _ s2); [done|].
  apply IH; [by etransitivity|lia|done].
Qed.

Lemma apply_redirs_ok rs : forall c, cmd_ok line c -> Forall redir_ok rs -> cmd_ok line (foldl apply_redir c rs).
Proof.
  induction rs as [|r rs IH]; intros c Hc Hr; [done|]. apply list.Forall_cons in Hr as [Hr Hrs]. simpl. apply IH; [|done].
  destruct Hc as [H1 H2]. split; [|done]. simpl. apply Forall_app. split; [done|]. by constructor.
Qed.

(** The four mutually recursive procedures. *)
Lemma parse_good fuel :
  (forall s, s `suffix_of` line -> (4 * length s + 4 <= fuel)%nat -> good s (parse_line fuel s) (cmd_ok line)) /\
  (forall s, s `suffix_of` line -> (4 * length s + 3 <= fuel)%nat -> good s (parse_pipe fuel s) (cmd_ok line)) /\
  (forall s, s `suffix_of` line -> (4 * length s + 2 <= fuel)%nat -> good s (parse_exec fuel s) (cmd_ok line)) /\
  (forall s, s `suffix_of` line -> (4 * length s + 1 <= fuel)%nat -> good s (parse_block fuel s) (cmd_ok line)).
Proof.
  induction fuel as [|fuel (IHl & IHp & IHe & IHb)]; [split_and!; intros; lia|]. split_and!; intros s Hs Hf.
  - rewrite ?parse_line_S; unfold parseline. eapply good_bind; [apply IHp; [done|lia]|]. intros c s1 Hc Hs1.
    assert (s1 `suffix_of` line) as Hl1 by (by etransitivity). eapply good_bind; [apply parsebacks_good; [done|lia|done]|].
    intros c' s2 Hc' Hs2. assert (s2 `suffix_of` line) as Hl2 by (by etransitivity).
    destruct (peek s2 [59]) as [b s3] eqn:Ep. destruct (peek_spec _ _ _ _ Ep) as (H3 & _ & _). destruct b; [|by split]. cbn [negb].
    destruct (gettoken s3) as [[tok t] s4] eqn:Eg. destruct (peek_gettoken _ _ _ _ _ _ Hl2 Ep Eg) as [H4 Hlt].
    apply (good_weaken _ s4); [done|]. apply length_suffix in Hs1, Hs2.
    eapply good_bind; [apply IHl; [by etransitivity|lia]|]. intros r s5 Hr _. split; [done|].
    destruct Hc', Hr. split; [by apply Forall_app|done].
  - rewrite ?parse_pipe_S; unfold parsepipe. eapply good_bind; [apply IHe; [done|lia]|]. intros c s2 Hc Hs2.
    assert (s2 `suffix_of` line) as Hl2 by (by etransitivity).
    destruct (peek s2 [124]) as [b s3] eqn:Ep. destruct (peek_spec _ _ _ _ Ep) as (H3 & _ & _). destruct b; [|by split]. cbn [negb].
    destruct (gettoken s3) as [[tok t] s4] eqn:Eg. destruct (peek_gettoken _ _ _ _ _ _ Hl2 Ep Eg) as [H4 Hlt].
    apply (good_weaken _ s4); [done|]. apply length_suffix in Hs2.
    eapply good_bind; [apply IHp; [by etransitivity|lia]|]. intros r s5 Hr _. split; [done|].
    destruct Hc, Hr. split; [by apply Forall_app|done].
  - rewrite ?parse_exec_S; unfold parseexec. destruct (peek s [40]) as [b s1] eqn:Ep. destruct (peek_spec _ _ _ _ Ep) as (H1 & _ & _).
    assert (s1 `suffix_of` line) as Hl1 by (by etransitivity). pose proof (length_suffix _ _ H1).
    apply (good_weaken _ s1); [done|]. destruct b; [apply IHb; [done|lia]|].
    eapply good_bind; [apply parseredirs_good; [done|lia]|]. intros rs s2 Hrs Hs2.
    assert (s2 `suffix_of` line) as Hl2 by (by etransitivity).
    eapply good_bind; [apply parseargs_good; [done|lia|constructor|unfold MAXARGS; simpl; lia|done]|].
    intros [argv rs'] s3 (Ha & Hl & Hr) _. split; [done|]. apply apply_redirs_ok; [by split|done].
  - rewrite ?parse_block_S; unfold parseblock. destruct (peek s [40]) as [b s1] eqn:Ep. destruct b; [|done]. cbn [negb].
    destruct (gettoken s1) as [[tok t] s2] eqn:Eg. destruct (peek_gettoken _ _ _ _ _ _ Hs Ep Eg) as [H2 Hlt].
    apply (good_weaken _ s2); [done|]. assert (s2 `suffix_of` line) as Hl2 by (by etransitivity).
    eapply good_bind; [apply IHl; [done|lia]|]. intros c s3 Hc Hs3. assert (s3 `suffix_of` line) as Hl3 by (by etransitivity).
    destruct (peek s3 [41]) as [b s4] eqn:Ep2. destruct b; [|done]. cbn [negb].
    destruct (gettoken s4) as [[tok' t'] s5] eqn:Eg2. destruct (peek_gettoken _ _ _ _ _ _ Hl3 Ep2 Eg2) as [H5 Hlt2].
    assert (s5 `suffix_of` line) as Hl5 by (by etransitivity). apply (good_weaken _ s5); [done|].
    eapply good_bind; [apply parseredirs_good; [done|lia]|]. intros rs s6 Hrs _. split; [done|]. by apply apply_redirs_ok.
Qed.
End total.

(** ** The nuls *)

(** [l] is the line with nuls on characters that belong to no word. *)
Definition nulled (line l : list Z) : Prop :=
  length l = length line /\
  forall i c, line !! i = Some c -> l !! i = Some c \/ (~ word_char c /\ l !! i = Some 0).

(** The nul of a token is in place. *)
Definition ended (line l : list Z) (t : token) : Prop := t.2 = 0%nat \/ l !! (length line - t.2)%nat = Some 0.

Lemma nulled_put line l t : nulled line l -> tok_ok line t ->
  nulled line (put_nul t.2 l) /\ ended line (put_nul t.2 l) t /\ forall u, ended line l u -> ended line (put_nul t.2 l) u.
Proof.
  intros [Hl Hn] (pre & w & post & E & -> & Hw & Hf & Hh). unfold put_nul, ended. simpl.
  destruct (Nat.eqb_spec (length post) 0) as [E0|E0]; [split; [done|]; split; [by left|done]|].
  destruct post as [|d post]; [done|]. specialize (Hh d eq_refl). set (i := (length l - length (d :: post))%nat).
  assert (i = length (pre ++ w) /\ (i < length l)%nat) as [Ei Hi].
  { unfold i. rewrite Hl, E, !length_app. cbn [length]. lia. }
  assert (line !! i = Some d) as Hd.
  { rewrite E, Ei, (assoc_L (++)). by rewrite list_lookup_middle. }
  split; [split; [by rewrite length_insert|]|split].
  - intros j c Hj. destruct (decide (j = i)) as [->|Hne].
    + right. rewrite Hd in Hj. injection Hj as <-. split; [done|]. by apply list_lookup_insert_eq.
    + rewrite list_lookup_insert_ne by done. by apply Hn.
  - right. rewrite <-Hl. by apply list_lookup_insert_eq.
  - intros u [Hu|Hu]; [by left|right]. destruct (decide ((length line - u.2)%nat = i)) as [->|Hne].
    + by apply list_lookup_insert_eq.
    + by rewrite list_lookup_insert_ne.
Qed.

Lemma nulled_argv line argv : forall l, nulled line l -> Forall (tok_ok line) argv ->
  nulled line (foldl (fun l t => put_nul t.2 l) l argv) /\
  Forall (ended line (foldl (fun l t => put_nul t.2 l) l argv)) argv /\
  forall u, ended line l u -> ended line (foldl (fun l t => put_nul t.2 l) l argv) u.
Proof.
  induction argv as [|t argv IH]; intros l Hl Ha; [by split_and!; [|constructor|]|]. apply list.Forall_cons in Ha as [Ht Ha].
  destruct (nulled_put line l t Hl Ht) as (H1 & H2 & H3). simpl. destruct (IH _ H1 Ha) as (H4 & H5 & H6).
  split; [done|]. split; [constructor; [by apply H6|done]|]. intros u Hu. by apply H6, H3.
Qed.

Lemma nulterminate_spec line c : forall l, nulled line l -> Forall (tok_ok line) (tokens c) ->
  nulled line (nulterminate c l) /\ Forall (ended line (nulterminate c l)) (tokens c) /\
  forall u, ended line l u -> ended line (nulterminate c l) u.
Proof.
  assert (forall (L : list token) l l', (forall u, ended line l u -> ended line l' u) -> Forall (ended line l) L -> Forall (ended line l') L) as Hmono.
  { intros L l l' H HL. eapply list.Forall_impl; [exact HL|exact H]. }
  induction c as [argv|c IH file mode fd|c1 IH1 c2 IH2|c1 IH1 c2 IH2|c IH]; intros l Hl Ht; cbn [tokens nulterminate] in *.
  - by apply nulled_argv.
  - apply Forall_app in Ht as [Hc Hf]. apply list.Forall_cons in Hf as [Hf _]. destruct (IH l Hl Hc) as (H1 & H2 & H3).
    destruct (nulled_put line (nulterminate c l) file H1 Hf) as (H4 & H5 & H6). split; [done|]. split; [|auto].
    apply Forall_app. split; [by apply (Hmono _ (nulterminate c l))|by constructor].
  - apply Forall_app in Ht as [Hc1 Hc2]. destruct (IH1 l Hl Hc1) as (H1 & H2 & H3). destruct (IH2 _ H1 Hc2) as (H4 & H5 & H6).
    split; [done|]. split; [|auto]. apply Forall_app. split; [by apply (Hmono _ (nulterminate c1 l))|done].
  - apply Forall_app in Ht as [Hc1 Hc2]. destruct (IH1 l Hl Hc1) as (H1 & H2 & H3). destruct (IH2 _ H1 Hc2) as (H4 & H5 & H6).
    split; [done|]. split; [|auto]. apply Forall_app. split; [by apply (Hmono _ (nulterminate c1 l))|done].
  - by apply IH.
Qed.

Lemma until_nul_word w r : Forall word_char w -> (r = [] \/ head r = Some 0) -> until_nul (w ++ r) = w.
Proof.
  intros Hw Hr. induction Hw as [|c w (Hc & _) _ IH]; simpl.
  - destruct Hr as [->|Hr]; [done|]. destruct r as [|d r]; [done|]. by injection Hr as ->.
  - destruct (Z.eqb_spec c 0); [done|]. by rewrite IH.
Qed.

(** The C string at an ended token is its word. *)
Lemma str_at_word line l t : nulled line l -> tok_ok line t -> ended line l t -> str_at l t = word_of line t.
Proof.
  intros [Hl Hn] (pre & w & post & E & -> & Hw & Hf & _) He. unfold str_at, word_of, ended in *. simpl in *.
  assert ((length line - length (w ++ post))%nat = length pre) as Ep by (rewrite E, !length_app; lia).
  rewrite Hl, Ep. rewrite E. rewrite drop_app_length, length_app.
  replace (length w + length post - length post)%nat with (length w) by lia. rewrite take_app_length.
  assert (take (length w) (drop (length pre) l) = w) as Etake.
  { apply list_eq. intros i. destruct (decide (i < length w)%nat) as [Hi|Hi].
    - rewrite lookup_take_lt, lookup_drop by done. destruct (lookup_lt_is_Some_2 w i Hi) as [c Hc]. rewrite Hc.
      assert (line !! (length pre + i)%nat = Some c) as Hlc.
      { rewrite E, lookup_app_r by lia. replace (length pre + i - length pre)%nat with i by lia. by rewrite lookup_app_l. }
      destruct (Hn _ _ Hlc) as [|[Hnw _]]; [done|]. exfalso. apply Hnw. by apply (list.Forall_lookup_1 _ _ _ _ Hf Hc).
    - rewrite lookup_take_ge by lia. symmetry. apply lookup_ge_None. lia. }
  rewrite <-(take_drop (length w) (drop (length pre) l)), Etake. apply until_nul_word; [done|].
  rewrite drop_drop. destruct He as [He|He].
  - left. apply nil_length_inv. rewrite length_drop, Hl, E, !length_app. lia.
  - right. rewrite head_lookup, lookup_drop, <-He. f_equal. rewrite E, !length_app. lia.
Qed.

(** ** Theorems *)

(** [C23] The parser is total and safe on every command line without nul bytes: within its fuel it
    panics or returns a command in which every program has at most nine arguments, and every argument
    and file name is a non-empty maximal word of the line; in the line [nulterminate]
    leaves, the C strings the command's pointers denote are exactly those words, although all of
    them share one buffer. *)
Theorem parsecmd_safe line : Forall (fun c => c <> 0) line ->
  match parsecmd line with
  | POk (c, line') _ => cmd_ok line c /\ length line' = length line /\
      Forall (fun t => str_at line' t = word_of line t) (tokens c)
  | PFuel => False
  | _ => True
  end.
Proof.
  intros Hz. unfold parsecmd. destruct (parse_good line Hz (parse_fuel line)) as (Hg & _).
  specialize (Hg line ltac:(done) ltac:(unfold parse_fuel; lia)).
  destruct (parse_line (parse_fuel line) line) as [c s| | |]; try done. destruct Hg as [_ Hc]. cbn [pbind].
  destruct (peek s []) as [b [|d r]]; [|done]. split; [done|]. destruct Hc as [Ht _].
  destruct (nulterminate_spec line c line) as (Hn & He & _); [split; [done|auto]|done|]. split; [by destruct Hn|].
  rewrite list.Forall_forall in Ht, He |- *. intros t Htk. by apply str_at_word; [|apply Ht|apply He].
Qed.

(** [ls <a | b] *)
Lemma parsecmd_safe_witness : exists c line' s, parsecmd [108; 115; 32; 60; 97; 32; 124; 32; 98] = POk (c, line') s /\
  c = PIPE (REDIR (EXEC [(9, 7)%nat]) (5, 4)%nat 0 0) (EXEC [(1, 0)%nat]) /\
  Forall (fun t => str_at line' t = word_of [108; 115; 32; 60; 97; 32; 124; 32; 98] t) (tokens c).
Proof.
  pose proof (parsecmd_safe [108; 115; 32; 60; 97; 32; 124; 32; 98]) as H.
  destruct (parsecmd [108; 115; 32; 60; 97; 32; 124; 32; 98]) as [[c line'] s| | |] eqn:E.
  - exists c, line', s. split; [reflexivity|]. split; [vm_compute in E; by injection E as <- _ _|].
    apply H. repeat constructor; discriminate.
  - vm_compute in E. discriminate E.
  - vm_compute in E. discriminate E.
  - vm_compute in E. discriminate E.
Defined.
End ShSpec.
