(* ===== verification/ShParse.v ===== *)
(** * The shell parses its grammar

    The syntax trees of the shell's grammar, their printed form and their
    meaning as commands over strings; the parser applied to the printed form gives
    the meaning. *)

From Stdlib Require Import ZArith Lia.
From stdpp Require Import base list gmap strings numbers option.
From S2P Require Import Prelude Unix Sh ShSpec.

Import Sh ShSpec.
Module ShParse.

(** ** The grammar *)

Inductive rkind := RIn | ROut | RApp.     (** [<], [>] and [>>] *)

Record gredir := mk_gredir { gr_kind : rkind; gr_file : list Z }.

(** A line is a pipe, possibly in the background, possibly followed by another line; a pipe
    is a sequence of simple commands or blocks; a simple command has redirections
    before and after each of its words. *)
Inductive gline :=
| LEnd (p : gpipe) (backs : nat)
| LSeq (p : gpipe) (backs : nat) (rest : gline)
with gpipe :=
| PEnd (e : gexec)
| PBar (e : gexec) (rest : gpipe)
with gexec :=
| GCmd (pre : list gredir) (words : list (list Z * list gredir))
| GBlock (l : gline) (rs : list gredir).

Scheme gline_ind2 := Induction for gline Sort Prop
with gpipe_ind2 := Induction for gpipe Sort Prop
with gexec_ind2 := Induction for gexec Sort Prop.
Combined Scheme grammar_ind from gline_ind2, gpipe_ind2, gexec_ind2.

(** ** Printing *)

Definition print_redir (r : gredir) : list Z :=
  (match gr_kind r with RIn => [32; 60] | ROut => [32; 62] | RApp => [32; 62; 62] end) ++ 32 :: gr_file r.
Definition print_redirs (rs : list gredir) : list Z := concat (map print_redir rs).
Definition print_word (x : list Z * list gredir) : list Z := 32 :: x.1 ++ print_redirs x.2.
Definition print_words (ws : list (list Z * list gredir)) : list Z := concat (map print_word ws).
Definition print_backs (n : nat) : list Z := concat (replicate n [32; 38]).

Fixpoint print_line (l : gline) : list Z :=
  match l with
  | LEnd p n => print_pipe p ++ print_backs n
  | LSeq p n r => print_pipe p ++ print_backs n ++ [32; 59] ++ print_line r
  end
with print_pipe (p : gpipe) : list Z :=
  match p with
  | PEnd e => print_exec e
  | PBar e r => print_exec e ++ [32; 124] ++ print_pipe r
  end
with print_exec (e : gexec) : list Z :=
  match e with
  | GCmd pre ws => print_redirs pre ++ print_words ws
  | GBlock l rs => [32; 40] ++ print_line l ++ [32; 41] ++ print_redirs rs
  end.

(** ** Meaning *)

Inductive scmd :=
| SExec (argv : list (list Z))
| SRedir (c : scmd) (file : list Z) (mode fd : Z)
| SPipe (left right : scmd)
| SList (left right : scmd)
| SBack (c : scmd).

(** A parsed command with its tokens read by [f]. *)
Fixpoint view (f : token -> list Z) (c : cmd) : scmd :=
  match c with
  | EXEC argv => SExec (map f argv)
  | REDIR c file mode fd => SRedir (view f c) (f file) mode fd
  | PIPE l r => SPipe (view f l) (view f r)
  | LIST l r => SList (view f l) (view f r)
  | BACK c => SBack (view f c)
  end.

Definition rmode (k : rkind) : Z :=
  match k with RIn => O_RDONLY | ROut => Z.lor (Z.lor O_WRONLY O_CREATE) O_TRUNC | RApp => Z.lor O_WRONLY O_CREATE end.
Definition rfd (k : rkind) : Z := match k with RIn => 0 | _ => 1 end.
Definition sredir (c : scmd) (r : gredir) : scmd := SRedir c (gr_file r) (rmode (gr_kind r)) (rfd (gr_kind r)).

Fixpoint line_cmd (l : gline) : scmd :=
  match l with
  | LEnd p n => Nat.iter n SBack (pipe_cmd p)
  | LSeq p n r => SList (Nat.iter n SBack (pipe_cmd p)) (line_cmd r)
  end
with pipe_cmd (p : gpipe) : scmd :=
  match p with
  | PEnd e => exec_cmd e
  | PBar e r => SPipe (exec_cmd e) (pipe_cmd r)
  end
with exec_cmd (e : gexec) : scmd :=
  match e with
  | GCmd pre ws => foldl sredir (SExec (map fst ws)) (pre ++ concat (map snd ws))
  | GBlock l rs => foldl sredir (line_cmd l) rs
  end.

(** Words are not empty, and a program has at most nine arguments. *)
Definition word_ok (w : list Z) : Prop := w <> [] /\ Forall word_char w.
Definition redir_fine (r : gredir) : Prop := word_ok (gr_file r).
Fixpoint line_ok (l : gline) : Prop :=
  match l with
  | LEnd p n => pipe_ok p
  | LSeq p n r => pipe_ok p /\ line_ok r
  end
with pipe_ok (p : gpipe) : Prop :=
  match p with
  | PEnd e => exec_ok e
  | PBar e r => exec_ok e /\ pipe_ok r
  end
with exec_ok (e : gexec) : Prop :=
  match e with
  | GCmd pre ws => Forall redir_fine pre /\ Forall (fun x => word_ok x.1 /\ Forall redir_fine x.2) ws /\ (length ws < MAXARGS)%nat
  | GBlock l rs => line_ok l /\ Forall redir_fine rs
  end.

(** ** Scanning printed text *)

(** The next character after blanks, if any, is one of [toks]. *)
Definition next_in (toks : list Z) (s : list Z) : Prop := skip_ws s = [] \/ exists c r, skip_ws s = c :: r /\ c ∈ toks.

(** A word ends here. *)
Definition breaks (s : list Z) : Prop := forall c, head s = Some c -> ~ word_char c.

Lemma skip_space s : skip_ws (32 :: s) = skip_ws s.
Proof. done. Qed.

Lemma skip_nonspace c s : c ∉ whitespace -> skip_ws (c :: s) = c :: s.
Proof. intros H. simpl. unfold strchr. by rewrite bool_decide_false. Qed.

Lemma skip_word_stop w s : Forall word_char w -> breaks s -> Forall (fun c => c <> 0) s -> skip_word (w ++ s) = s.
Proof.
  intros Hw Hs Hz. induction Hw as [|c w (_ & H1 & H2) _ IH]; simpl.
  - destruct s as [|c s]; [done|]. specialize (Hs c eq_refl). apply list.Forall_cons in Hz as [Hc _]. simpl. unfold strchr.
    destruct (bool_decide_reflect (c ∈ whitespace)), (bool_decide_reflect (c ∈ symbols)); try done. exfalso. by apply Hs.
  - unfold strchr. by rewrite !bool_decide_false.
Qed.

Lemma gettoken_skip s : gettoken (skip_ws s) = gettoken s.
Proof. unfold gettoken. by rewrite skip_ws_idem. Qed.

Lemma peek_skip s toks : peek (skip_ws s) toks = peek s toks.
Proof. unfold peek. by rewrite skip_ws_idem. Qed.

Lemma gettoken_word w s : word_ok w -> breaks s -> Forall (fun c => c <> 0) s ->
  gettoken (w ++ s) = (97, (length (w ++ s), length s), skip_ws s).
Proof.
  intros [Hne Hw] Hs Hz. destruct w as [|c w]; [done|]. pose proof Hw as Hw'. apply list.Forall_cons in Hw' as [(Hc0 & Hc1 & Hc2) _].
  unfold gettoken. change ((c :: w) ++ s) with (c :: w ++ s). rewrite (skip_nonspace c) by done.
  rewrite bool_decide_false by (unfold symbols in Hc2; set_solver).
  destruct (Z.eqb_spec c 62); [subst; unfold symbols in Hc2; set_solver|].
  change (c :: w ++ s) with ((c :: w) ++ s). by rewrite (skip_word_stop (c :: w) s).
Qed.

Lemma gettoken_sym c s : c ∈ [124; 40; 41; 59; 38; 60] -> exists t, gettoken (c :: s) = (c, t, skip_ws s).
Proof.
  intros Hc. unfold gettoken. rewrite skip_nonspace by (unfold whitespace; set_solver). rewrite bool_decide_true by done. by eexists.
Qed.

Lemma peek_in toks c s : c ∉ whitespace -> c ∈ toks -> peek (c :: s) toks = (true, c :: s).
Proof. intros H1 H2. unfold peek. rewrite skip_nonspace by done. unfold strchr. by rewrite bool_decide_true. Qed.

Lemma peek_not toks c s : c ∉ whitespace -> c ∉ toks -> peek (c :: s) toks = (false, c :: s).
Proof. intros H1 H2. unfold peek. rewrite skip_nonspace by done. unfold strchr. by rewrite bool_decide_false. Qed.

(** What may follow: nothing, or a blank and a character that satisfies [P]. *)
Definition follows (P : Z -> Prop) (s : list Z) : Prop := s = [] \/ exists c r, s = 32 :: c :: r /\ (c ∉ whitespace) /\ P c.

Lemma follows_mono (P Q : Z -> Prop) s : (forall c, P c -> Q c) -> follows P s -> follows Q s.
Proof. intros H [->|(c & r & -> & Hw & Hc)]; [by left|right; exists c, r; auto]. Qed.

Lemma follows_breaks P s : follows P s -> breaks s.
Proof.
  intros [->|(c & r & -> & _)]; [done|]. intros d [= <-] (_ & H & _). apply H. unfold whitespace. set_solver.
Qed.

Lemma follows_peek P toks s : follows P s -> (forall c, P c -> c ∉ toks) -> peek s toks = (false, skip_ws s).
Proof.
  intros [->|(c & r & -> & Hw & Hc)] Hd; [done|]. unfold peek. rewrite skip_space, skip_nonspace by done. unfold strchr.
  by rewrite bool_decide_false by auto.
Qed.

Lemma word_head w : word_ok w -> exists c w', w = c :: w' /\ word_char c.
Proof. intros [Hne Hw]. destruct w as [|c w']; [done|]. apply list.Forall_cons in Hw as [Hc _]. by exists c, w'. Qed.

Lemma peek_word w s toks : word_ok w -> (forall c, word_char c -> c ∉ toks) -> peek (w ++ s) toks = (false, w ++ s).
Proof. intros Hw Ht. destruct (word_head w Hw) as (c & w' & -> & Hc). apply peek_not; [by destruct Hc as (_ & ? & _)|auto]. Qed.

Lemma skip_word_blank w s : word_ok w -> skip_ws (32 :: w ++ s) = w ++ s.
Proof. intros Hw. destruct (word_head w Hw) as (c & w' & -> & (_ & H & _)). rewrite skip_space. by apply skip_nonspace. Qed.

Section parse.
Context (line : list Z) (Hline : Forall (fun c => c <> 0) line).

Lemma word_of_suffix w s : w ++ s `suffix_of` line -> word_of line (length (w ++ s), length s) = w.
Proof.
  intros [pre ->]. unfold word_of. simpl. rewrite !length_app.
  replace (length pre + (length w + length s) - (length w + length s))%nat with (length pre) by lia.
  rewrite drop_app_length. replace (length w + length s - length s)%nat with (length w) by lia. apply take_app_length.
Qed.

Definition redir_view (r : redir) (g : gredir) : Prop :=
  word_of line (rd_file r) = gr_file g /\ rd_mode r = rmode (gr_kind g) /\ rd_fd r = rfd (gr_kind g).

Lemma suffix_drop (a s : list Z) : a ++ s `suffix_of` line -> s `suffix_of` line.
Proof. intros [pre ->]. exists (pre ++ a). by rewrite (assoc_L (++)). Qed.

(** The operator of a redirection. *)
Lemma gettoken_redir k s : exists t, gettoken (skip_ws ((match k with RIn => [32; 60] | ROut => [32; 62] | RApp => [32; 62; 62] end) ++ 32 :: s)) =
  (match k with RIn => 60 | ROut => 62 | RApp => 43 end, t, skip_ws s).
Proof. destruct k; simpl; by eexists. Qed.

Lemma peek_redir k s : peek ((match k with RIn => [32; 60] | ROut => [32; 62] | RApp => [32; 62; 62] end) ++ s) [60; 62] =
  (true, skip_ws ((match k with RIn => [32; 60] | ROut => [32; 62] | RApp => [32; 62; 62] end) ++ s)).
Proof. by destruct k. Qed.

Lemma parseredirs_skip fuel s : parseredirs fuel (skip_ws s) = parseredirs fuel s.
Proof. destruct fuel as [|fuel]; [done|]. cbn [parseredirs]. by rewrite peek_skip. Qed.

Lemma parse_redirs rs : forall fuel rest, Forall redir_fine rs -> follows (fun c => c ∉ [60; 62]) rest ->
  print_redirs rs ++ rest `suffix_of` line -> (length rs < fuel)%nat ->
  exists rs', parseredirs fuel (print_redirs rs ++ rest) = POk rs' (skip_ws rest) /\ Forall2 redir_view rs' rs.
Proof.
  induction rs as [|r rs IH]; intros fuel rest Hr Hrest Hs Hf; (destruct fuel as [|fuel]; [simpl in Hf; lia|]).
  - exists []. cbn [print_redirs map concat app parseredirs]. rewrite (follows_peek _ [60; 62] rest Hrest) by done. split; [done|constructor].
  - apply list.Forall_cons in Hr as [Hr Hrs]. unfold print_redirs. cbn [map concat]. fold (print_redirs rs).
    unfold print_redir in *. rewrite <-!(assoc_L (++)). cbn [app]. rewrite <-?(assoc_L (++)).
    assert (Hsuf : gr_file r ++ print_redirs rs ++ rest `suffix_of` line).
    { unfold print_redirs in Hs. cbn [map concat] in Hs. unfold print_redir in Hs. rewrite <-!(assoc_L (++)) in Hs.
      apply suffix_drop in Hs. cbn [app] in Hs. rewrite <-?(assoc_L (++)) in Hs. by apply (suffix_drop [32]) in Hs. }
    cbn [parseredirs]. rewrite peek_redir. cbn [negb].
    destruct (gettoken_redir (gr_kind r) (gr_file r ++ print_redirs rs ++ rest)) as [t Et]. rewrite Et.
    assert (follows (fun _ => True) (print_redirs rs ++ rest)) as Hfol.
    { destruct rs as [|r' rs']; [by eapply follows_mono; [|exact Hrest]|]. right. unfold print_redirs. cbn [map concat].
      destruct r' as [[] f]; unfold print_redir; cbn [gr_kind app]; eexists _, _; (split; [done|]; split; [unfold whitespace; set_solver|done]). }
    rewrite gettoken_skip, gettoken_word; [|done|by eapply follows_breaks|apply suffix_drop in Hsuf; by apply (nonzero_suffix _ line)].
    cbn [Z.eqb negb]. destruct (IH fuel (rest) Hrs Hrest (suffix_drop _ _ Hsuf) ltac:(simpl in Hf; lia)) as (rs' & E & Hv).
    rewrite parseredirs_skip, E. cbn [pbind]. eexists. split; [reflexivity|].
    assert (forall x, redir_view x r -> Forall2 redir_view ([x] ++ rs') (r :: rs)) as Hone by (intros; by constructor).
    destruct (gr_kind r) eqn:Ek; apply Hone; unfold redir_view; rewrite Ek; (split; [by apply word_of_suffix|done]).
Qed.

(** ** Arguments *)

Lemma follows_length P s : follows P s -> (length s <= S (length (skip_ws s)))%nat.
Proof. intros [->|(c & r & -> & Hw & _)]; [simpl; lia|]. rewrite skip_space, skip_nonspace by done. done. Qed.

Lemma length_redirs rs : (2 * length rs <= length (print_redirs rs))%nat.
Proof.
  induction rs as [|r rs IH]; [done|]. unfold print_redirs in *. cbn [map concat]. rewrite length_app.
  assert (2 <= length (print_redir r))%nat by (unfold print_redir; rewrite length_app; destruct (gr_kind r); simpl; lia).
  cbn [length]. lia.
Qed.

Lemma redirs_follow (P : Z -> Prop) rs rest : P 60 -> P 62 -> follows P rest -> follows P (print_redirs rs ++ rest).
Proof.
  intros H1 H2 Hr. destruct rs as [|[k f] rs]; [done|]. right. unfold print_redirs. cbn [map concat].
  destruct k; unfold print_redir; cbn [gr_kind app]; eexists _, _; (split; [done|]; split; [unfold whitespace; set_solver|done]).
Qed.

Lemma words_follow (P : Z -> Prop) ws rest : (forall c, word_char c -> P c) -> Forall (fun x => word_ok x.1 /\ Forall redir_fine x.2) ws ->
  follows P rest -> follows P (print_words ws ++ rest).
Proof.
  intros HP Hw Hr. destruct ws as [|[w rs] ws]; [done|]. apply list.Forall_cons in Hw as [[Hw _] _].
  destruct (word_head w Hw) as (c & w' & -> & Hc). right. unfold print_words, print_word. cbn [map concat fst app].
  eexists _, _. split; [done|]. split; [by destruct Hc as (_ & ? & _)|by apply HP].
Qed.

Lemma length_words ws : Forall (fun x => word_ok x.1 /\ Forall redir_fine x.2) ws -> (2 * length ws <= length (print_words ws))%nat.
Proof.
  induction 1 as [|x ws [[Hne _] _] _ IH]; [done|]. unfold print_words in *. cbn [map concat]. rewrite length_app.
  assert (2 <= length (print_word x))%nat.
  { unfold print_word. destruct x as [[|c w] rs]; [done|]. simpl. lia. }
  cbn [length]. lia.
Qed.

(** Redirections with the fuel the callers give. *)
Lemma parse_redirs_all rs rest : Forall redir_fine rs -> follows (fun c => c ∉ [60; 62]) rest ->
  print_redirs rs ++ rest `suffix_of` line ->
  exists rs', parseredirs (S (length (skip_ws (print_redirs rs ++ rest)))) (skip_ws (print_redirs rs ++ rest)) = POk rs' (skip_ws rest) /\
    Forall2 redir_view rs' rs.
Proof.
  intros Hr Hrest Hs. rewrite parseredirs_skip. apply parse_redirs; try done.
  pose proof (length_redirs rs). assert (follows (fun _ => True) (print_redirs rs ++ rest)) as Hf.
  { apply redirs_follow; [done|done|]. by eapply follows_mono; [|exact Hrest]. }
  apply follows_length in Hf. rewrite length_app in Hf. destruct rs as [|r rs]; [simpl; lia|simpl in *; lia].
Qed.

Definition stops (c : Z) : Prop := c ∈ [124; 41; 38; 59].

Lemma word_no_stop c : word_char c -> (c ∉ [124; 41; 38; 59]) /\ (c ∉ [60; 62]) /\ (c ∉ [40]).
Proof. intros (_ & _ & H). unfold symbols in H. set_solver. Qed.

Lemma parse_args ws : forall fuel argv rs rest,
  Forall (fun x => word_ok x.1 /\ Forall redir_fine x.2) ws -> (length argv + length ws < MAXARGS)%nat ->
  follows stops rest -> print_words ws ++ rest `suffix_of` line -> (length ws < fuel)%nat ->
  exists argv' rs', parseargs fuel argv rs (skip_ws (print_words ws ++ rest)) = POk (argv ++ argv', rs ++ rs') (skip_ws rest) /\
    map (word_of line) argv' = map fst ws /\ Forall2 redir_view rs' (concat (map snd ws)).
Proof.
  induction ws as [|[w rw] ws IH]; intros fuel argv rs rest Hw Hlen Hrest Hs Hf; (destruct fuel as [|fuel]; [simpl in Hf; lia|]); cbn [parseargs].
  - exists [], []. rewrite !app_nil_r. cbn [print_words map concat app]. rewrite peek_skip. unfold peek.
    destruct Hrest as [->|(c & r & -> & Hcw & Hc)]; [done|]. rewrite skip_space, skip_nonspace by done. unfold strchr.
    by rewrite bool_decide_true by done.
  - apply list.Forall_cons in Hw as [[Hw1 Hw2] Hws]. cbn [fst snd] in Hw1, Hw2.
    assert (Hs1 : w ++ print_redirs rw ++ print_words ws ++ rest `suffix_of` line).
    { unfold print_words, print_word in Hs. cbn [map concat fst snd app] in Hs. rewrite <-!(assoc_L (++)) in Hs. by apply (suffix_drop [32]) in Hs. }
    replace (print_words ((w, rw) :: ws) ++ rest) with (32 :: w ++ print_redirs rw ++ print_words ws ++ rest)
      by (unfold print_words, print_word; cbn [map concat fst snd app]; by rewrite <-!(assoc_L (++))).
    rewrite skip_word_blank by done. rewrite peek_word; [|done|by intros; apply word_no_stop].
    assert (follows (fun c => c ∉ [60; 62]) (print_words ws ++ rest)) as Hfol.
    { apply words_follow; [intros d Hd; by apply word_no_stop|done|]. eapply follows_mono; [|exact Hrest]. unfold stops. set_solver. }
    assert (follows (fun _ => True) (print_redirs rw ++ print_words ws ++ rest)) as Hfol2.
    { apply redirs_follow; [done|done|]. by eapply follows_mono; [|exact Hfol]. }
    rewrite gettoken_word; [|done|by eapply follows_breaks|apply suffix_drop in Hs1; by apply (nonzero_suffix _ line)].
    cbn [Z.eqb negb]. destruct (Nat.leb_spec MAXARGS (length (argv ++ [(length (w ++ print_redirs rw ++ print_words ws ++ rest), length (print_redirs rw ++ print_words ws ++ rest))]))) as [Hle|Hle].
    { rewrite length_app in Hle. cbn [length] in Hle, Hlen. lia. }
    destruct (parse_redirs_all rw (print_words ws ++ rest) Hw2 Hfol (suffix_drop _ _ Hs1)) as (rs1 & E1 & V1). rewrite E1. cbn [pbind].
    destruct (IH fuel (argv ++ [(length (w ++ print_redirs rw ++ print_words ws ++ rest), length (print_redirs rw ++ print_words ws ++ rest))]) (rs ++ rs1) rest)
      as (argv' & rs' & E2 & V2 & V3); [done|rewrite length_app; cbn [length] in *; lia|done|by apply suffix_drop, suffix_drop in Hs1|simpl in Hf; lia|].
    rewrite E2. eexists (_ :: argv'), (rs1 ++ rs'). rewrite <-!(assoc_L (++)). split; [reflexivity|]. split.
    + cbn [map fst]. rewrite word_of_suffix by done. by rewrite V2.
    + cbn [map concat snd]. by apply Forall2_app.
Qed.

(** ** The recursive procedures *)

Lemma parseexec_skip fuel s : parse_exec fuel (skip_ws s) = parse_exec fuel s.
Proof. destruct fuel as [|fuel]; [done|]. rewrite ?parse_exec_S; unfold parseexec. by rewrite peek_skip. Qed.
Lemma parsepipe_skip fuel s : parse_pipe fuel (skip_ws s) = parse_pipe fuel s.
Proof. destruct fuel as [|fuel]; [done|]. rewrite ?parse_pipe_S; unfold parsepipe. by rewrite parseexec_skip. Qed.
Lemma parseline_skip fuel s : parse_line fuel (skip_ws s) = parse_line fuel s.
Proof. destruct fuel as [|fuel]; [done|]. rewrite ?parse_line_S; unfold parseline. by rewrite parsepipe_skip. Qed.
Lemma parsebacks_skip fuel c s : parsebacks fuel c (skip_ws s) = parsebacks fuel c s.
Proof. destruct fuel as [|fuel]; [done|]. cbn [parsebacks]. by rewrite peek_skip. Qed.

(** A symbol after a blank is seen and consumed. *)
Lemma symbol_run c s toks : c ∈ [124; 40; 41; 59; 38; 60] -> c ∈ toks ->
  peek (32 :: c :: s) toks = (true, c :: s) /\ exists t, gettoken (c :: s) = (c, t, skip_ws s).
Proof.
  intros Hc Ht. split; [|by apply gettoken_sym]. unfold peek. rewrite skip_space, skip_nonspace by (unfold whitespace; set_solver).
  unfold strchr. by rewrite bool_decide_true.
Qed.

Lemma parse_backs n : forall fuel c rest, follows (fun c => c ∉ [38]) rest -> (n < fuel)%nat ->
  parsebacks fuel c (print_backs n ++ rest) = POk (Nat.iter n BACK c) (skip_ws rest).
Proof.
  induction n as [|n IH]; intros fuel c rest Hr Hf; (destruct fuel as [|fuel]; [lia|]); cbn [parsebacks].
  - cbn [print_backs replicate concat app]. by rewrite (follows_peek _ [38] rest Hr) by done.
  - change (print_backs (S n) ++ rest) with (32 :: 38 :: print_backs n ++ rest).
    destruct (symbol_run 38 (print_backs n ++ rest) [38]) as (-> & t & Et); [set_solver|set_solver|]. cbn [negb]. rewrite Et.
    rewrite parsebacks_skip, IH by (done || lia). f_equal. symmetry. apply Nat.iter_succ_r.
Qed.

Lemma length_backs n : length (print_backs n) = (2 * n)%nat.
Proof. induction n as [|n IH]; [done|]. change (print_backs (S n)) with (32 :: 38 :: print_backs n). cbn [length]. lia. Qed.

Lemma backs_follow (P : Z -> Prop) n rest : P 38 -> follows P rest -> follows P (print_backs n ++ rest).
Proof.
  intros HP Hr. destruct n as [|n]; [done|]. right. change (print_backs (S n) ++ rest) with (32 :: 38 :: print_backs n ++ rest).
  eexists _, _. split; [done|]. split; [unfold whitespace; set_solver|done].
Qed.

Lemma view_backs f n c : view f (Nat.iter n BACK c) = Nat.iter n SBack (view f c).
Proof. induction n as [|n IH]; [done|]. simpl. by rewrite IH. Qed.

Lemma view_redirs rs' rs : Forall2 redir_view rs' rs -> forall c,
  view (word_of line) (foldl apply_redir c rs') = foldl sredir (view (word_of line) c) rs.
Proof.
  induction 1 as [|r' r rs' rs (H1 & H2 & H3) _ IH]; intros c; [done|]. simpl. rewrite IH. unfold sredir. simpl. by rewrite H1, H2, H3.
Qed.

Definition parses_line (l : gline) : Prop := forall fuel rest, line_ok l -> follows (fun c => c = 41) rest ->
  print_line l ++ rest `suffix_of` line -> (4 * length (print_line l ++ rest) + 4 <= fuel)%nat ->
  exists c, parse_line fuel (print_line l ++ rest) = POk c (skip_ws rest) /\ view (word_of line) c = line_cmd l.
Definition parses_pipe (p : gpipe) : Prop := forall fuel rest, pipe_ok p -> follows (fun c => c ∈ [41; 38; 59]) rest ->
  print_pipe p ++ rest `suffix_of` line -> (4 * length (print_pipe p ++ rest) + 3 <= fuel)%nat ->
  exists c, parse_pipe fuel (print_pipe p ++ rest) = POk c (skip_ws rest) /\ view (word_of line) c = pipe_cmd p.
Definition parses_exec (e : gexec) : Prop := forall fuel rest, exec_ok e -> follows stops rest ->
  print_exec e ++ rest `suffix_of` line -> (4 * length (print_exec e ++ rest) + 2 <= fuel)%nat ->
  exists c, parse_exec fuel (print_exec e ++ rest) = POk c (skip_ws rest) /\ view (word_of line) c = exec_cmd e.

Lemma parse_simple pre ws : parses_exec (GCmd pre ws).
Proof.
  intros fuel rest (Hpre & Hws & Hlen) Hrest Hs Hf. destruct fuel as [|fuel]; [lia|]. cbn [print_exec] in *. rewrite ?parse_exec_S; unfold parseexec.
  rewrite <-(assoc_L (++)) in Hs |- *.
  assert (follows (fun c => c ∉ [60; 62]) (print_words ws ++ rest)) as Hfol.
  { apply words_follow; [intros d Hd; by apply word_no_stop|done|]. eapply follows_mono; [|exact Hrest]. unfold stops. set_solver. }
  assert (follows (fun c => c ∉ [40]) (print_words ws ++ rest)) as Hfol2.
  { apply words_follow; [intros d Hd; by apply word_no_stop|done|]. eapply follows_mono; [|exact Hrest]. unfold stops. set_solver. }
  rewrite (follows_peek (fun c => c ∉ [40]) [40] _) by (done || (apply redirs_follow; [set_solver|set_solver|done])).
  destruct (parse_redirs_all pre (print_words ws ++ rest) Hpre Hfol Hs) as (rs1 & E1 & V1). rewrite E1. cbn [pbind].
  destruct (parse_args ws (S (length (skip_ws (print_words ws ++ rest)))) [] rs1 rest) as (argv & rs2 & E2 & V2 & V3);
    [done|done|done|by apply suffix_drop in Hs| |].
  { pose proof (length_words ws Hws). apply follows_length in Hfol. rewrite length_app in Hfol. destruct ws; simpl in *; lia. }
  rewrite E2. cbn [pbind fst snd app]. eexists. split; [reflexivity|]. cbn [exec_cmd].
  rewrite (view_redirs _ (pre ++ concat (map snd ws))) by (by apply Forall2_app). cbn [view]. by rewrite V2.
Qed.

Lemma parse_group l rs : parses_line l -> parses_exec (GBlock l rs).
Proof.
  intros IH fuel rest (Hl & Hrs) Hrest Hs Hf. destruct fuel as [|[|fuel]]; [lia|lia|].
  assert (print_exec (GBlock l rs) ++ rest = 32 :: 40 :: print_line l ++ (32 :: 41 :: print_redirs rs ++ rest)) as E.
  { cbn [print_exec app]. by rewrite <-!(assoc_L (++)). }
  rewrite E in Hs, Hf |- *. cbn [length] in Hf. rewrite ?parse_exec_S; unfold parseexec.
  destruct (symbol_run 40 (print_line l ++ 32 :: 41 :: print_redirs rs ++ rest) [40]) as (-> & t & Et); [set_solver|set_solver|].
  rewrite ?parse_block_S; unfold parseblock. rewrite peek_in by (unfold whitespace; set_solver). cbn [negb]. rewrite Et, parseline_skip.
  assert (print_line l ++ 32 :: 41 :: print_redirs rs ++ rest `suffix_of` line) as Hs1 by (by apply (suffix_drop [32; 40])).
  destruct (IH fuel (32 :: 41 :: print_redirs rs ++ rest)) as (c & Ec & Vc); [done| |done|lia|].
  { right. eexists _, _. split; [done|]. split; [unfold whitespace; set_solver|done]. }
  rewrite Ec. cbn [pbind]. rewrite peek_skip.
  destruct (symbol_run 41 (print_redirs rs ++ rest) [41]) as (-> & t2 & Et2); [set_solver|set_solver|]. cbn [negb]. rewrite Et2.
  destruct (parse_redirs_all rs rest Hrs) as (rs1 & E1 & V1).
  { eapply follows_mono; [|exact Hrest]. unfold stops. set_solver. }
  { apply suffix_drop in Hs1. by apply (suffix_drop [32; 41]) in Hs1. }
  rewrite E1. cbn [pbind]. eexists. split; [reflexivity|]. rewrite (view_redirs _ rs V1), Vc. done.
Qed.

(** A pipe with its [&]s, up to [R]. *)
Lemma parse_front p n fuel R (B : Type) : parses_pipe p -> pipe_ok p -> follows (fun c => c ∈ [41; 59]) R ->
  print_pipe p ++ print_backs n ++ R `suffix_of` line -> (4 * length (print_pipe p ++ print_backs n ++ R) + 3 <= fuel)%nat ->
  exists c, view (word_of line) c = Nat.iter n SBack (pipe_cmd p) /\ forall k : cmd -> list Z -> presult B,
    pbind (parse_pipe fuel (print_pipe p ++ print_backs n ++ R)) (fun c s => pbind (parsebacks (S (length s)) c s) k) = k c (skip_ws R).
Proof.
  intros IH Hok HR Hs Hf.
  assert (follows (fun c => c ∈ [41; 38; 59]) (print_backs n ++ R)) as Hfol.
  { apply backs_follow; [set_solver|]. eapply follows_mono; [|exact HR]. set_solver. }
  destruct (IH fuel (print_backs n ++ R) Hok Hfol Hs Hf) as (c & Ec & Vc).
  exists (Nat.iter n BACK c). split; [by rewrite view_backs, Vc|]. intros k. rewrite Ec. cbn [pbind].
  rewrite parsebacks_skip, parse_backs; [done| |].
  - eapply follows_mono; [|exact HR]. set_solver.
  - apply follows_length in Hfol. rewrite length_app, length_backs in Hfol. lia.
Qed.

Lemma parse_grammar : (forall l, parses_line l) /\ (forall p, parses_pipe p) /\ (forall e, parses_exec e).
Proof.
  apply grammar_ind.
  - intros p IH n fuel rest Hok Hrest Hs Hf. cbn [print_line line_ok] in *. rewrite <-(assoc_L (++)) in Hs, Hf |- *.
    destruct fuel as [|fuel]; [lia|]. rewrite ?parse_line_S; unfold parseline.
    destruct (parse_front p n fuel rest cmd IH Hok) as (c & Vc & Ek); [by eapply follows_mono; [|exact Hrest]; set_solver|done|lia|].
    rewrite Ek, peek_skip, (follows_peek _ [59] rest Hrest) by (intros ? ->; set_solver). by exists c.
  - intros p IH n r IHr fuel rest [Hok Hr] Hrest Hs Hf. cbn [print_line] in *.
    replace ((print_pipe p ++ print_backs n ++ [32; 59] ++ print_line r) ++ rest)
      with (print_pipe p ++ print_backs n ++ (32 :: 59 :: print_line r ++ rest)) in * by (by rewrite <-!(assoc_L (++))).
    destruct fuel as [|fuel]; [lia|]. rewrite ?parse_line_S; unfold parseline.
    destruct (parse_front p n fuel (32 :: 59 :: print_line r ++ rest) cmd IH Hok) as (c & Vc & Ek); [|done|lia|].
    { right. eexists _, _. split; [done|]. split; [unfold whitespace|]; set_solver. }
    rewrite Ek, peek_skip. destruct (symbol_run 59 (print_line r ++ rest) [59]) as (-> & t & Et); [set_solver|set_solver|].
    cbn [negb]. rewrite Et, parseline_skip. do 2 apply suffix_drop in Hs. apply (suffix_drop [32; 59]) in Hs.
    destruct (IHr fuel rest Hr Hrest Hs) as (c2 & E2 & V2).
    { rewrite !length_app in Hf. cbn [length] in Hf. rewrite length_app in *. lia. }
    rewrite E2. cbn [pbind]. eexists. split; [reflexivity|]. cbn [view line_cmd]. by rewrite Vc, V2.
  - intros e IH fuel rest Hok Hrest Hs Hf. cbn [print_pipe pipe_ok] in *. destruct fuel as [|fuel]; [lia|]. rewrite ?parse_pipe_S; unfold parsepipe.
    destruct (IH fuel rest Hok) as (c & Ec & Vc); [eapply follows_mono; [|exact Hrest]; unfold stops; set_solver|done|lia|].
    rewrite Ec. cbn [pbind]. rewrite peek_skip, (follows_peek _ [124] rest Hrest) by set_solver. by exists c.
  - intros e IH r IHr fuel rest [Hok Hr] Hrest Hs Hf. cbn [print_pipe] in *.
    replace ((print_exec e ++ [32; 124] ++ print_pipe r) ++ rest)
      with (print_exec e ++ (32 :: 124 :: print_pipe r ++ rest)) in * by (by rewrite <-!(assoc_L (++))).
    destruct fuel as [|fuel]; [lia|]. rewrite ?parse_pipe_S; unfold parsepipe.
    destruct (IH fuel (32 :: 124 :: print_pipe r ++ rest) Hok) as (c & Ec & Vc); [|done|lia|].
    { right. eexists _, _. split; [done|]. split; [unfold whitespace|unfold stops]; set_solver. }
    rewrite Ec. cbn [pbind]. rewrite peek_skip.
    destruct (symbol_run 124 (print_pipe r ++ rest) [124]) as (-> & t & Et); [set_solver|set_solver|].
    cbn [negb]. rewrite Et, parsepipe_skip. apply suffix_drop in Hs. apply (suffix_drop [32; 124]) in Hs.
    destruct (IHr fuel rest Hr Hrest Hs) as (c2 & E2 & V2).
    { rewrite length_app in Hf. cbn [length] in Hf. rewrite length_app in *. lia. }
    rewrite E2. cbn [pbind]. eexists. split; [reflexivity|]. cbn [view pipe_cmd]. by rewrite Vc, V2.
  - intros pre ws. apply parse_simple.
  - intros l IH rs. by apply parse_group.
Qed.
End parse.

Lemma view_ext f g c : Forall (fun t => f t = g t) (tokens c) -> view f c = view g c.
Proof.
  induction c as [argv|c IH file mode fd|c1 IH1 c2 IH2|c1 IH1 c2 IH2|c IH]; cbn [tokens view]; intros H.
  - f_equal. induction H as [|t argv Ht _ IH]; [done|]. simpl. by rewrite Ht, IH.
  - apply Forall_app in H as [Hc Hf]. apply list.Forall_cons in Hf as [Hf _]. by rewrite IH, Hf.
  - apply Forall_app in H as [H1 H2]. by rewrite IH1, IH2.
  - apply Forall_app in H as [H1 H2]. by rewrite IH1, IH2.
  - by rewrite IH.
Qed.

(** ** Theorems *)

(** [C22] The parser accepts the shell's grammar: the printed form of a syntax tree whose words
    are made of ordinary characters, with at most nine arguments for each program, is parsed
    without a panic, and the command over the C strings left in the buffer is the meaning of
    the tree: redirections nest in their textual order, [|] and [;] associate to the right, each
    [&] puts the pipe before it in the background, and parentheses group. *)
Theorem parse_print l : line_ok l -> Forall (fun c => c <> 0) (print_line l) ->
  exists c line', parsecmd (print_line l) = POk (c, line') [] /\ view (str_at line') c = line_cmd l.
Proof.
  intros Hok Hz. set (line := print_line l) in *. destruct (parse_grammar line Hz) as (Hg & _).
  destruct (Hg l (parse_fuel line) [] Hok ltac:(by left)) as (c & Ec & Vc).
  { by rewrite app_nil_r. }
  { rewrite app_nil_r. unfold parse_fuel. fold line. lia. }
  rewrite app_nil_r in Ec. fold line in Ec. change (skip_ws []) with (@nil Z) in Ec.
  exists c, (nulterminate c line). split; [unfold parsecmd; by rewrite Ec|]. rewrite <-Vc. apply view_ext.
  destruct (parse_good line Hz (parse_fuel line)) as (Hgood & _).
  specialize (Hgood line ltac:(done) ltac:(unfold parse_fuel; lia)). rewrite Ec in Hgood. destruct Hgood as [_ [Ht _]].
  destruct (nulterminate_spec line c line) as (Hn & He & _); [split; [done|auto]|done|].
  rewrite list.Forall_forall in Ht, He |- *. intros t Htk. by apply str_at_word; [|apply Ht|apply He].
Qed.

(** [ls > f | ( wc ; a & )] *)
Definition tree5 : gline :=
  LEnd (PBar (GCmd [] [([108; 115], [mk_gredir ROut [102]])])
         (PEnd (GBlock (LSeq (PEnd (GCmd [] [([119; 99], [])])) 0 (LEnd (PEnd (GCmd [] [([97], [])])) 1)) []))) 0.

Lemma parse_print_witness : exists c line', parsecmd (print_line tree5) = POk (c, line') [] /\
  view (str_at line') c =
    SPipe (SRedir (SExec [[108; 115]]) [102] 1537 1) (SList (SExec [[119; 99]]) (SBack (SExec [[97]]))).
Proof.
  destruct (parse_print tree5) as (c & line' & E & V).
  - simpl. split_and!; try (unfold MAXARGS; lia); repeat constructor; try discriminate.
    all: apply (bool_decide_unpack _); vm_compute; exact I.
  - vm_compute. repeat constructor; discriminate.
  - exists c, line'. split; [exact E|exact V].
Defined.
End ShParse.
