(* ===== verification/MarkSweep.v ===== *)
(** * A mark-and-sweep collector: Practicals/memory_allocation/c/mark_sweep.c

    Objects live in a memory of records addressed by pointers, as [calloc] hands them out
    and [free] takes them back; the collector's heap is the linked list from
    [heap] through the [next] fields.  [mark] follows the references of an object depth first;
    [collect] marks from the roots and unlinks and frees what is not marked, through a pointer to
    the pointer of the current object.  The main theorem is that it frees exactly the objects
    that the roots do not reach. *)

From Stdlib Require Import ZArith Lia.
From stdpp Require Import base list gmap strings numbers option.
From S2P Require Import Prelude Unix.

Module MarkSweep.

(** ** Data *)

Definition MAX_REFERENCES : nat := 2.
Definition NULL : Z := 0.

(** [struct Object] *)
Record object := mk_object {
  o_id : Z;
  o_marked : bool;
  o_reference_count : nat;
  o_references : list Z;
  o_next : Z
}.
Definition set_o_marked (b : bool) (o : object) : object :=
  mk_object (o_id o) b (o_reference_count o) (o_references o) (o_next o).
Definition set_o_next (p : Z) (o : object) : object :=
  mk_object (o_id o) (o_marked o) (o_reference_count o) (o_references o) p.

(** The messages the program prints. *)
Inductive msg := MAllocate (id : Z) | MMark (id : Z) | MFree (id : Z) | MMarkPhase | MSweepPhase
  | MNoSlot (id : Z) | MNoMemory | MExpected (n got : nat) | MDrop.

(** The static variable [heap], the objects in memory, and the output. *)
Record gc := mk_gc { gc_heap : Z; gc_objs : gmap Z object; gc_out : list msg }.

Definition get_obj (p : Z) : U gc object := fun s =>
  match gc_objs s !! p with Some o => Val o s | None => Stuck "object" end.
Definition put_obj (p : Z) (o : object) : U gc unit := fun s =>
  Val tt (mk_gc (gc_heap s) (<[p := o]> (gc_objs s)) (gc_out s)).
Definition upd_obj (p : Z) (f : object -> object) : U gc unit := o <~ get_obj p ;; put_obj p (f o).
Definition get_heap : U gc Z := fun s => Val (gc_heap s) s.
Definition put_heap (p : Z) : U gc unit := fun s => Val tt (mk_gc p (gc_objs s) (gc_out s)).
Definition say (m : msg) : U gc unit := fun s => Val tt (mk_gc (gc_heap s) (gc_objs s) (gc_out s ++ [m])).
Definition free (p : Z) : U gc unit := fun s =>
  match gc_objs s !! p with
  | Some _ => Val tt (mk_gc (gc_heap s) (delete p (gc_objs s)) (gc_out s))
  | None => Stuck "free"
  end.

(** ** Operations *)

Section alloc.
(** [calloc]: the address of a fresh object, if there is memory. *)
Context (calloc : gmap Z object -> option Z).

Definition allocate_object (id : Z) : U gc Z := fun s =>
  match calloc (gc_objs s) with
  | None => (say MNoMemory ;;~ exit 1) s
  | Some p =>
      (put_obj p (mk_object 0 false 0 (replicate MAX_REFERENCES NULL) NULL) ;;~
       h <~ get_heap ;;
       upd_obj p (fun o => mk_object id (o_marked o) (o_reference_count o) (o_references o) h) ;;~
       put_heap p ;;~
       say (MAllocate id) ;;~
       uret p) s
  end.
End alloc.

Definition add_reference (from to : Z) : U gc unit :=
  o <~ get_obj from ;;
  if (o_reference_count o =? MAX_REFERENCES)%nat then say (MNoSlot (o_id o)) ;;~ exit 1
  else if (o_reference_count o <? MAX_REFERENCES)%nat then
    put_obj from (mk_object (o_id o) (o_marked o) (S (o_reference_count o))
                    (<[o_reference_count o := to]> (o_references o)) (o_next o))
  else fun _ => Stuck "references".

Definition is_heap_object_body (candidate object : Z) : U gc (Z + bool) :=
  if object =? NULL then uret (inr false)
  else if object =? candidate then uret (inr true)
  else o <~ get_obj object ;; uret (inl (o_next o)).

(** The walks over the list and the recursion are bounded by [bound], at least the
    number of objects in memory. *)
Section bounded.
Context (bound : nat).

Definition is_heap_object (candidate : Z) : U gc bool :=
  h <~ get_heap ;; uloop (S bound) (is_heap_object_body candidate) h.

(** The loop over the references reads the object again in each round. *)
Definition mark_refs_body (rec : Z -> U gc unit) (candidate : Z) (i : nat) : U gc (nat + unit) :=
  o <~ get_obj candidate ;;
  if (i <? o_reference_count o)%nat then
    match o_references o !! i with
    | Some r => rec r ;;~ uret (inl (S i))
    | None => fun _ => Stuck "references"
    end
  else uret (inr tt).

Fixpoint mark (fuel : nat) (candidate : Z) : U gc unit :=
  match fuel with
  | O => fun _ => Unfinished
  | S fuel' =>
      b <~ is_heap_object candidate ;;
      if negb b then uret tt else
      o <~ get_obj candidate ;;
      if o_marked o then uret tt else
      upd_obj candidate (set_o_marked true) ;;~
      say (MMark (o_id o)) ;;~
      uloop (S MAX_REFERENCES) (mark_refs_body (mark fuel') candidate) 0%nat
  end.

Fixpoint mark_roots (roots : list Z) : U gc unit :=
  match roots with
  | [] => uret tt
  | r :: roots' => mark (S bound) r ;;~ mark_roots roots'
  end.

(** [Object **current]: the address of the variable [heap] or of an object's [next] field. *)
Inductive cell := Heap | Next (p : Z).
Definition read_cell (c : cell) : U gc Z :=
  match c with Heap => get_heap | Next p => o <~ get_obj p ;; uret (o_next o) end.
Definition write_cell (c : cell) (v : Z) : U gc unit :=
  match c with Heap => put_heap v | Next p => upd_obj p (set_o_next v) end.

Definition sweep_body (x : cell * nat) : U gc (cell * nat + nat) :=
  let '(current, reclaimed) := x in
  object <~ read_cell current ;;
  if object =? NULL then uret (inr reclaimed) else
  o <~ get_obj object ;;
  if o_marked o then
    upd_obj object (set_o_marked false) ;;~ uret (inl (Next object, reclaimed))
  else
    say (MFree (o_id o)) ;;~
    write_cell current (o_next o) ;;~
    free object ;;~
    uret (inl (current, S reclaimed)).

Definition collect (roots : list Z) : U gc nat :=
  say MMarkPhase ;;~
  mark_roots roots ;;~
  say MSweepPhase ;;~
  uloop (S bound) sweep_body (Heap, 0%nat).

Definition main (calloc : gmap Z object -> option Z) : U gc Z :=
  a <~ allocate_object calloc 1 ;;
  b <~ allocate_object calloc 2 ;;
  c <~ allocate_object calloc 3 ;;
  unreachable_a <~ allocate_object calloc 4 ;;
  unreachable_b <~ allocate_object calloc 5 ;;
  add_reference a b ;;~
  add_reference a c ;;~
  add_reference b a ;;~
  add_reference unreachable_a unreachable_b ;;~
  add_reference unreachable_b unreachable_a ;;~
  reclaimed <~ collect [a] ;;
  if negb (reclaimed =? 2)%nat then say (MExpected 2 reclaimed) ;;~ uret 1 else
  say MDrop ;;~
  reclaimed <~ collect [NULL] ;;
  if negb (reclaimed =? 3)%nat then say (MExpected 3 reclaimed) ;;~ uret 1 else
  uret 0.
End bounded.

(** ** Specification *)

(** The list of objects from [p]. *)
Fixpoint linked (m : gmap Z object) (p : Z) (L : list Z) : Prop :=
  match L with
  | [] => p = NULL
  | a :: L' => p = a /\ a <> NULL /\ exists o, m !! a = Some o /\ linked m (o_next o) L'
  end.

(** The references an object holds. *)
Definition held (o : object) : list Z := take (o_reference_count o) (o_references o).
Definition fits (o : object) : Prop :=
  length (o_references o) = MAX_REFERENCES /\ (o_reference_count o <= MAX_REFERENCES)%nat.

(** Between collections: the objects in memory are those of the list, none is marked. *)
Record heap_ok (L : list Z) (s : gc) : Prop := {
  hk_linked : linked (gc_objs s) (gc_heap s) L;
  hk_nodup : NoDup L;
  hk_dom : dom (gc_objs s) = list_to_set L;
  hk_fits : map_Forall (fun _ o => fits o) (gc_objs s);
  hk_clear : map_Forall (fun _ o => o_marked o = false) (gc_objs s)
}.

(** What the pointers of [roots] reach: a root or reference counts when it is the
    address of an object in memory. *)
Inductive reaches (m : gmap Z object) (roots : list Z) : Z -> Prop :=
| reaches_root a : a ∈ roots -> is_Some (m !! a) -> reaches m roots a
| reaches_ref a o b : reaches m roots a -> m !! a = Some o -> b ∈ held o -> is_Some (m !! b) -> reaches m roots b.

(** ** Marking *)

(** The objects of [m] with the marks of the set [M]. *)
Definition paint (M : gset Z) (m : gmap Z object) : gmap Z object :=
  map_imap (fun a o => Some (set_o_marked (bool_decide (a ∈ M)) o)) m.

Lemma lookup_paint M m a : paint M m !! a = set_o_marked (bool_decide (a ∈ M)) <$> m !! a.
Proof. unfold paint. rewrite map_lookup_imap. by destruct (m !! a). Qed.

Lemma paint_insert M m a o b : m !! a = Some o ->
  <[a := set_o_marked true (set_o_marked b o)]> (paint M m) = paint ({[a]} ∪ M) m.
Proof.
  intros Ha. apply map_eq. intros i. rewrite lookup_paint. destruct (decide (i = a)) as [->|].
  - rewrite lookup_insert_eq, Ha. simpl. f_equal. rewrite bool_decide_true by set_solver. done.
  - rewrite lookup_insert_ne, lookup_paint by done. destruct (m !! i); [|done]. simpl. do 2 f_equal.
    apply bool_decide_ext. set_solver.
Qed.

Lemma paint_none m : map_Forall (fun _ o => o_marked o = false) m -> paint ∅ m = m.
Proof.
  intros Hc. apply map_eq. intros i. rewrite lookup_paint. destruct (m !! i) as [o|] eqn:E; [|done]. simpl. f_equal.
  rewrite bool_decide_false by set_solver. specialize (Hc i o E). destruct o. simpl in *. by subst.
Qed.

Lemma links_same m m' p L : (forall a, a ∈ L -> o_next <$> m' !! a = o_next <$> m !! a) -> linked m p L -> linked m' p L.
Proof.
  revert p. induction L as [|a L IH]; [done|]. intros p He (-> & Hn & o & Ho & Hl).
  pose proof (He a ltac:(set_solver)) as Ha. rewrite Ho in Ha.
  destruct (m' !! a) as [o'|] eqn:E; [|done]. injection Ha as Ha.
  split; [done|]. split; [done|]. exists o'. split; [done|]. rewrite Ha. apply IH; [set_solver|done].
Qed.

Lemma linked_nonnull m p L a : linked m p L -> a ∈ L -> a <> NULL.
Proof. revert p. induction L as [|b L IH]; intros p; [set_solver|]. intros (_ & Hn & o & _ & Hl) [->|Ha]%elem_of_cons; eauto. Qed.

Lemma walk_ok c s L : forall p fuel, linked (gc_objs s) p L -> (length L < fuel)%nat ->
  uloop fuel (is_heap_object_body c) p s = Val (bool_decide (c ∈ L)) s.
Proof.
  induction L as [|a L IH]; intros p [|fuel] Hl Hf; simpl in Hl, Hf; try lia; cbn [uloop]; unfold is_heap_object_body at 1.
  - subst p. done.
  - destruct Hl as (-> & Hn & o & Ho & Hl). unfold ubind at 1. rewrite (proj2 (Z.eqb_neq _ _) Hn).
    destruct (Z.eqb_spec a c) as [->|Hc]; [simpl; unfold uret; f_equal; symmetry; apply bool_decide_true; set_solver|].
    unfold ubind, get_obj. rewrite Ho. unfold uret. rewrite (IH _ fuel Hl) by lia. f_equal. apply bool_decide_ext. set_solver.
Qed.

Definition closed_since (m : gmap Z object) (M M' : gset Z) : Prop :=
  forall x o b, x ∈ M' -> x ∉ M -> m !! x = Some o -> b ∈ held o -> b ∈ dom m -> b ∈ M'.

Lemma closed_since_trans m M M1 M2 : M1 ⊆ M2 -> closed_since m M M1 -> closed_since m M1 M2 -> closed_since m M M2.
Proof.
  intros Hs H1 H2 x o b Hx Hn Ho Hb Hd. destruct (decide (x ∈ M1)) as [H|H]; [apply Hs; by eapply H1|by eapply H2].
Qed.

Lemma reaches_mono m R1 R2 x : (forall a, a ∈ R1 -> is_Some (m !! a) -> reaches m R2 a) -> reaches m R1 x -> reaches m R2 x.
Proof. intros H. induction 1; [auto|]. eapply reaches_ref; eauto. Qed.

Section mark.
Context (bound : nat) (m : gmap Z object) (h : Z) (L : list Z).
Context (Hl : linked m h L) (Hnd : NoDup L) (Hd : dom m = list_to_set L) (Hfit : map_Forall (fun _ o => fits o) m).
Context (Hb : (length L <= bound)%nat).

Definition st (M : gset Z) (out : list msg) : gc := mk_gc h (paint M m) out.

Lemma linked_paint M p L' : linked m p L' -> linked (paint M m) p L'.
Proof. apply links_same. intros a _. rewrite lookup_paint. by destruct (m !! a). Qed.

Lemma is_heap_object_ok a M out : is_heap_object bound a (st M out) = Val (bool_decide (a ∈ dom m)) (st M out).
Proof.
  unfold is_heap_object, ubind at 1, get_heap, st. cbn [gc_heap]. rewrite (walk_ok a _ L) by (first [by apply linked_paint | lia]).
  f_equal. apply bool_decide_ext. rewrite Hd. set_solver.
Qed.

(** What marking from [roots] does to the set of marks. *)
Definition marks (roots : list Z) (c : U gc unit) (M : gset Z) (out : list msg) : Prop :=
  exists M' out', c (st M out) = Val tt (st M' out') /\ M ⊆ M' /\ M' ⊆ dom m /\
    (forall a, a ∈ roots -> a ∈ dom m -> a ∈ M') /\ closed_since m M M' /\
    (forall x, x ∈ M' -> x ∈ M \/ reaches m roots x).

Lemma marks_nil M out : M ⊆ dom m -> marks [] (uret tt) M out.
Proof. intros HM. exists M, out. unfold closed_since. split_and!; [done|done|done|set_solver|done|auto]. Qed.

Lemma marks_seq r rs c1 c2 M out : marks [r] c1 M out ->
  (forall M' out', M ⊆ M' -> M' ⊆ dom m -> marks rs c2 M' out') -> marks (r :: rs) (c1 ;;~ c2) M out.
Proof.
  intros (M1 & o1 & E1 & H1 & D1 & R1 & C1 & S1) H. destruct (H M1 o1 H1 D1) as (M2 & o2 & E2 & H2 & D2 & R2 & C2 & S2).
  exists M2, o2. rewrite (ubind_val _ _ _ _ _ E1). split_and!; [done|set_solver|done| | |].
  - intros a [->|Ha]%elem_of_cons Had; [|auto]. apply H2, R1; [set_solver|done].
  - by eapply closed_since_trans.
  - intros x [[Hx|Hx]%S1|Hx]%S2; [by left|right|right].
    + eapply reaches_mono; [|exact Hx]. intros a Ha Hs. apply reaches_root; [set_solver|done].
    + eapply reaches_mono; [|exact Hx]. intros a Ha Hs. apply reaches_root; [set_solver|done].
Qed.

Lemma marks_ext rs c c' M out : c' (st M out) = c (st M out) -> marks rs c M out -> marks rs c' M out.
Proof. intros E (M' & o' & H). exists M', o'. by rewrite E. Qed.

Lemma get_obj_st a o M out : m !! a = Some o ->
  get_obj a (st M out) = Val (set_o_marked (bool_decide (a ∈ M)) o) (st M out).
Proof. intros Ho. unfold get_obj, st. cbn [gc_objs]. by rewrite lookup_paint, Ho. Qed.

Definition unmarked (M : gset Z) : nat := size (dom m ∖ M).

Lemma unmarked_mono M M' : M ⊆ M' -> (unmarked M' <= unmarked M)%nat.
Proof. intros H. unfold unmarked. apply subseteq_size. set_solver. Qed.

Lemma refs_spec rec f a o : m !! a = Some o ->
  (forall r M out, M ⊆ dom m -> (unmarked M < f)%nat -> marks [r] (rec r) M out) ->
  forall k i fuel M out, (i + k = o_reference_count o)%nat -> (k < fuel)%nat -> M ⊆ dom m -> (unmarked M < f)%nat ->
  marks (drop i (held o)) (uloop fuel (mark_refs_body rec a) i) M out.
Proof.
  intros Ho Hrec. pose proof (Hfit a o Ho) as [Hlen Hcnt].
  assert (length (held o) = o_reference_count o) as Hh by (unfold held; rewrite length_take; lia).
  induction k as [|k IH]; intros i [|fuel] M out Hi Hk HM Hf; try lia.
  - rewrite drop_ge by lia. eapply marks_ext; [|by apply marks_nil].
    cbn [uloop]. unfold mark_refs_body at 1, ubind. rewrite (get_obj_st _ _ _ _ Ho). cbn [set_o_marked o_reference_count].
    by rewrite (proj2 (Nat.ltb_ge _ _)) by lia.
  - destruct (lookup_lt_is_Some_2 (held o) i) as [r Hr]; [lia|]. rewrite (drop_S _ _ _ Hr).
    eapply marks_ext; [|apply (marks_seq r (drop (S i) (held o)) (rec r) (uloop fuel (mark_refs_body rec a) (S i))); [by apply Hrec|]].
    + cbn [uloop]. unfold mark_refs_body at 1, ubind. rewrite (get_obj_st _ _ _ _ Ho). cbn [set_o_marked o_reference_count o_references].
      rewrite (proj2 (Nat.ltb_lt _ _)) by lia. unfold held in Hr. apply lookup_take_Some in Hr as [-> _].
      by destruct (rec r (st M out)).
    + intros M' out' H1 H2. apply IH; [lia|lia|done|]. pose proof (unmarked_mono _ _ H1). lia.
Qed.

Lemma mark_spec fuel : forall a M out, M ⊆ dom m -> (unmarked M < fuel)%nat -> marks [a] (mark bound fuel a) M out.
Proof.
  induction fuel as [|fuel IH]; intros a M out HM Hf; [lia|]. cbn [mark].
  assert (forall c, c (st M out) = Val tt (st M out) -> (a ∈ dom m -> a ∈ M) -> marks [a] c M out) as Hnop.
  { intros c E Ha. exists M, out. unfold closed_since. split_and!; [done|done|done|set_solver|done|auto]. }
  destruct (decide (a ∈ dom m)) as [Ha|Ha];
    [|apply Hnop; [unfold ubind at 1; rewrite is_heap_object_ok, bool_decide_false by done|]; done].
  apply elem_of_dom in Ha as [o Ho]. pose proof (elem_of_dom_2 _ _ _ Ho) as Ha.
  destruct (decide (a ∈ M)) as [HaM|HaM].
  { apply Hnop; [|done]. unfold ubind at 1. rewrite is_heap_object_ok, bool_decide_true by done. cbn [negb].
    rewrite (ubind_val _ _ _ _ _ (get_obj_st a o M out Ho)). cbn [set_o_marked o_marked]. by rewrite bool_decide_true. }
  assert (unmarked ({[a]} ∪ M) < unmarked M)%nat as Hlt.
  { unfold unmarked. apply subset_size. set_solver. }
  destruct (refs_spec (mark bound fuel) fuel a o Ho (fun r M out => IH r M out) (o_reference_count o) 0 (S MAX_REFERENCES)
              ({[a]} ∪ M) (out ++ [MMark (o_id o)])) as (M' & out' & E & H1 & D1 & R1 & C1 & S1); [lia|..].
  { pose proof (Hfit a o Ho) as [_ ?]. lia. }
  { set_solver. }
  { lia. }
  exists M', out'. split_and!; [|set_solver|done|set_solver| |].
  - unfold ubind at 1. rewrite is_heap_object_ok, bool_decide_true by done. cbn [negb].
    rewrite (ubind_val _ _ _ _ _ (get_obj_st a o M out Ho)). cbn [set_o_marked o_marked]. rewrite bool_decide_false by done.
    rewrite <-E. unfold upd_obj. unfold ubind at 1. rewrite (ubind_val _ _ _ _ _ (get_obj_st a o M out Ho)). unfold put_obj.
    cbn [st gc_heap gc_objs gc_out]. rewrite paint_insert by done. done.
  - intros x o' b Hx Hn Ho' Hbx Hbd. destruct (decide (x = a)) as [->|Hne]; [|eapply C1; [done|set_solver|done..]].
    rewrite Ho in Ho'. injection Ho' as <-. by apply R1.
  - rewrite drop_0 in S1. intros x [Hx|Hx]%S1.
    + apply elem_of_union in Hx as [->%elem_of_singleton|]; [right; apply reaches_root; [set_solver|by exists o]|by left].
    + right. eapply reaches_mono; [|exact Hx]. intros b Hbo Hbs. eapply reaches_ref; [|exact Ho|done|done].
      apply reaches_root; [set_solver|by exists o].
Qed.

Lemma mark_roots_spec roots : forall M out, M ⊆ dom m -> marks roots (mark_roots bound roots) M out.
Proof.
  induction roots as [|r roots IH]; intros M out HM; cbn [mark_roots]; [by apply marks_nil|].
  apply marks_seq; [|auto]. apply mark_spec; [done|]. unfold unmarked.
  assert (size (dom m ∖ M) <= size (dom m))%nat by (apply subseteq_size; set_solver).
  assert (size (dom m) = length L) by (rewrite Hd; by apply size_list_to_set). lia.
Qed.

Lemma mark_roots_exact roots out : exists M out', mark_roots bound roots (st ∅ out) = Val tt (st M out') /\
  M ⊆ dom m /\ forall x, x ∈ M <-> reaches m roots x.
Proof.
  destruct (mark_roots_spec roots ∅ out) as (M & out' & E & _ & HD & HR & HC & HS); [set_solver|].
  exists M, out'. split; [done|]. split; [done|]. intros x. split.
  - intros [Hx|Hx]%HS; [set_solver|done].
  - induction 1 as [a Ha Hs|a o b Hr IH Ho Hbo Hbs]; [by apply HR; [|apply elem_of_dom]|].
    eapply HC; [exact IH|set_solver|exact Ho|exact Hbo|by apply elem_of_dom].
Qed.
End mark.

(** ** Sweeping *)

(** Sweeping the rest [L] of the list, with [current] the cell that points to it. *)
Record swept (cur : cell) (L : list Z) (s s' : gc) : Prop := {
  sw_cell : exists p, read_cell cur s' = Val p s' /\
    linked (gc_objs s') p (filter (fun a => o_marked <$> gc_objs s !! a = Some true) L);
  sw_keep : forall a o, a ∈ L -> gc_objs s !! a = Some o -> o_marked o = true ->
    exists v, gc_objs s' !! a = Some (set_o_next v (set_o_marked false o));
  sw_gone : forall a o, a ∈ L -> gc_objs s !! a = Some o -> o_marked o = false -> gc_objs s' !! a = None;
  sw_frame : forall a, a ∉ L -> cur <> Next a -> gc_objs s' !! a = gc_objs s !! a;
  sw_next : forall a o, cur = Next a -> gc_objs s !! a = Some o -> exists v, gc_objs s' !! a = Some (set_o_next v o);
  sw_heap : cur <> Heap -> gc_heap s' = gc_heap s
}.

Definition survivors (s : gc) (L : list Z) : list Z := filter (fun a => o_marked <$> gc_objs s !! a = Some true) L.

Lemma survivors_ext s s' L : (forall a, a ∈ L -> gc_objs s' !! a = gc_objs s !! a) -> survivors s' L = survivors s L.
Proof.
  unfold survivors. induction L as [|a L IH]; [done|]. intros H. rewrite !filter_cons, (H a) by set_solver.
  rewrite IH by set_solver. done.
Qed.

Lemma swept_nil cur s p : read_cell cur s = Val p s -> p = NULL -> swept cur [] s s.
Proof.
  intros Hr ->. split; try set_solver.
  intros a o -> Ho. exists (o_next o). rewrite Ho. by destruct o.
Qed.

(** A marked object stays; the sweep goes on behind its [next] field. *)
Lemma swept_keep cur a o L s s1 s' : read_cell cur s = Val a s -> a <> NULL -> gc_objs s !! a = Some o ->
  o_marked o = true -> a ∉ L -> (forall q, cur = Next q -> q ∉ a :: L) ->
  s1 = mk_gc (gc_heap s) (<[a := set_o_marked false o]> (gc_objs s)) (gc_out s) ->
  swept (Next a) L s1 s' -> swept cur (a :: L) s s'.
Proof.
  intros Hr Hn Ho Hm Hal Hq -> [(p & Hp & Hl) Hk Hg Hf Hx Hh]. cbn [gc_objs gc_heap] in *.
  destruct (Hx a _ eq_refl (lookup_insert_eq _ _ _)) as [v Hv].
  assert (forall b, b ∈ L -> <[a := set_o_marked false o]> (gc_objs s) !! b = gc_objs s !! b) as Hother
    by (intros b Hb; apply lookup_insert_ne; set_solver).
  assert (forall b, b <> a -> b ∉ L -> gc_objs s' !! b = gc_objs s !! b) as Hframe.
  { intros b Hb Hbl. rewrite Hf by (first [done | congruence]). by apply lookup_insert_ne. }
  split.
  - exists a. split.
    + destruct cur as [|q]; cbn [read_cell] in *; [unfold get_heap in *; rewrite Hh by done; by injection Hr as ->|].
      specialize (Hq q eq_refl). unfold ubind, get_obj in *. rewrite Hframe by set_solver.
      destruct (gc_objs s !! q); [by injection Hr as ->|done].
    + rewrite filter_cons_True by (by rewrite Ho; simpl; rewrite Hm). split; [done|]. split; [done|]. eexists. split; [exact Hv|].
      unfold read_cell, ubind, get_obj in Hp. rewrite Hv in Hp. injection Hp as ->.
      fold (survivors s L). rewrite <-(survivors_ext s (mk_gc (gc_heap s) (<[a := set_o_marked false o]> (gc_objs s)) (gc_out s)) L Hother). exact Hl.
  - intros b ob [->|Hb]%elem_of_cons Hob Hmb; [rewrite Ho in Hob; injection Hob as <-; by exists v|].
    apply Hk; [done|by rewrite Hother|done].
  - intros b ob [->|Hb]%elem_of_cons Hob Hmb; [congruence|]. eapply Hg; [done|by rewrite Hother|done].
  - intros b Hb _. apply Hframe; set_solver.
  - intros q oq -> Hoq. specialize (Hq q eq_refl). exists (o_next oq). rewrite Hframe, Hoq by set_solver. by destruct oq.
  - intros _. by apply Hh.
Qed.

(** An unmarked object is unlinked: the cell then holds its successor. *)
Lemma swept_free cur a o L s s1 s' : gc_objs s !! a = Some o -> o_marked o = false -> a ∉ L ->
  (forall q, cur = Next q -> q ∉ a :: L) ->
  gc_objs s1 !! a = None -> (forall b, b <> a -> cur <> Next b -> gc_objs s1 !! b = gc_objs s !! b) ->
  (forall q oq, cur = Next q -> gc_objs s !! q = Some oq -> exists v, gc_objs s1 !! q = Some (set_o_next v oq)) ->
  (cur <> Heap -> gc_heap s1 = gc_heap s) -> swept cur L s1 s' -> swept cur (a :: L) s s'.
Proof.
  intros Ho Hm Hal Hq Ha1 Hf1 Hn1 Hh1 [(p & Hp & Hl) Hk Hg Hf Hx Hh].
  assert (forall b, b ∈ L -> gc_objs s1 !! b = gc_objs s !! b) as Hother.
  { intros b Hb. apply Hf1; [set_solver|]. intros Hc. specialize (Hq _ Hc). set_solver. }
  split.
  - exists p. split; [done|]. rewrite filter_cons_False by (by rewrite Ho; simpl; rewrite Hm). fold (survivors s L).
    rewrite <-(survivors_ext s s1 L Hother). exact Hl.
  - intros b ob [->|Hb]%elem_of_cons Hob Hmb; [congruence|]. apply Hk; [done|by rewrite Hother|done].
  - intros b ob [->|Hb]%elem_of_cons Hob Hmb; [|eapply Hg; [done|by rewrite Hother|done]].
    rewrite Hf; [done|done|]. intros Hc. specialize (Hq _ Hc). set_solver.
  - intros b Hb Hc. rewrite Hf, Hf1 by set_solver. done.
  - intros q oq Hc Hoq. destruct (Hn1 q oq Hc Hoq) as [v Hv]. destruct (Hx q _ Hc Hv) as [v' Hv']. exists v'. rewrite Hv'. by destruct oq.
  - intros Hc. by rewrite Hh, Hh1.
Qed.

Lemma free_step cur a o s n : read_cell cur s = Val a s -> gc_objs s !! a = Some o -> cur <> Next a ->
  exists s1, (say (MFree (o_id o)) ;;~ write_cell cur (o_next o) ;;~ free a ;;~ uret (inl (cur, S n))) s =
      @Val gc (cell * nat + nat) (inl (cur, S n)) s1 /\ read_cell cur s1 = Val (o_next o) s1 /\ gc_objs s1 !! a = None /\
    (forall b, b <> a -> cur <> Next b -> gc_objs s1 !! b = gc_objs s !! b) /\
    (forall q oq, cur = Next q -> gc_objs s !! q = Some oq -> exists v, gc_objs s1 !! q = Some (set_o_next v oq)) /\
    (cur <> Heap -> gc_heap s1 = gc_heap s).
Proof.
  intros Hr Ho Hc. destruct cur as [|q].
  - eexists. split; [unfold ubind, say, write_cell, put_heap, free; cbn [gc_objs gc_heap gc_out]; rewrite Ho; reflexivity|].
    cbn [gc_objs gc_heap gc_out read_cell]. split; [done|]. split; [by apply lookup_delete_eq|]. split; [|done].
    intros b Hb _. by apply lookup_delete_ne.
  - assert (a <> q) by congruence. cbn [read_cell] in Hr. unfold ubind, get_obj in Hr. destruct (gc_objs s !! q) as [oq|] eqn:Eq; [|done].
    eexists. split.
    { unfold ubind, say, write_cell, upd_obj, ubind, get_obj, put_obj, free. cbn [gc_objs gc_heap gc_out]. rewrite Eq. cbn [gc_objs gc_heap gc_out].
      rewrite lookup_insert_ne, Ho by done. reflexivity. }
    cbn [gc_objs gc_heap gc_out read_cell]. split; [|split; [by apply lookup_delete_eq|split; [|split; [|done]]]].
    + unfold ubind, get_obj. cbn [gc_objs]. by rewrite lookup_delete_ne, lookup_insert_eq.
    + intros b Hb Hbq. rewrite lookup_delete_ne, lookup_insert_ne by congruence. done.
    + intros q' oq' [= <-] Hq. rewrite Eq in Hq. injection Hq as <-. exists (o_next o).
      by rewrite lookup_delete_ne, lookup_insert_eq.
Qed.

Lemma sweep_ok L : forall fuel s cur n p, read_cell cur s = Val p s -> linked (gc_objs s) p L -> NoDup L ->
  (forall q, cur = Next q -> q ∉ L) -> (length L < fuel)%nat ->
  exists s' k, uloop fuel sweep_body (cur, n) s = Val (n + k)%nat s' /\ swept cur L s s' /\
    (k + length (survivors s L) = length L)%nat.
Proof.
  induction L as [|a L IH]; intros [|fuel] s cur n p Hr Hl Hnd Hcur Hf; simpl in Hf; try lia; cbn [uloop].
  - exists s, 0%nat. unfold ubind at 1. cbn [sweep_body]. rewrite (ubind_val _ _ _ _ _ Hr).
    cbn in Hl. subst p. cbn. rewrite Nat.add_0_r. split; [done|]. split; [by eapply swept_nil|done].
  - destruct Hl as (-> & Hn & o & Ho & Hl). apply list.NoDup_cons in Hnd as [Hal Hnd].
    assert (get_obj a s = Val o s) as Hg by (unfold get_obj; by rewrite Ho).
    unfold ubind at 1. cbn [sweep_body]. rewrite (ubind_val _ _ _ _ _ Hr), (proj2 (Z.eqb_neq _ _) Hn), (ubind_val _ _ _ _ _ Hg).
    unfold survivors. rewrite filter_cons. fold (survivors s L). destruct (o_marked o) eqn:Em.
    + set (s1 := mk_gc (gc_heap s) (<[a := set_o_marked false o]> (gc_objs s)) (gc_out s)).
      assert (forall b, b ∈ L -> gc_objs s1 !! b = gc_objs s !! b) as Hother by (intros b Hb; apply lookup_insert_ne; set_solver).
      rewrite decide_True by (by rewrite Ho; simpl; rewrite Em).
      rewrite (ubind_val _ _ s tt s1) by (unfold upd_obj; rewrite (ubind_val _ _ _ _ _ Hg); done). unfold uret at 1.
      destruct (IH fuel s1 (Next a) n (o_next o)) as (s' & k & E & Hsw & Hk); [| |done|set_solver|lia|].
      { unfold read_cell, ubind, get_obj, s1. cbn [gc_objs]. by rewrite lookup_insert_eq. }
      { eapply links_same; [|exact Hl]. intros b Hb. by rewrite Hother. }
      exists s', k. split; [done|]. split; [by eapply swept_keep|]. rewrite (survivors_ext s s1 L Hother) in Hk. simpl. lia.
    + rewrite decide_False by (by rewrite Ho; simpl; rewrite Em).
      destruct (free_step cur a o s n) as (s1 & E1 & Hr1 & Ha1 & Hf1 & Hn1 & Hh1); [done|done|intros Hc; specialize (Hcur _ Hc); set_solver|].
      assert (forall b, b ∈ L -> gc_objs s1 !! b = gc_objs s !! b) as Hother.
      { intros b Hb. apply Hf1; [set_solver|]. intros Hc. specialize (Hcur _ Hc). set_solver. }
      rewrite E1. destruct (IH fuel s1 cur (S n) (o_next o)) as (s' & k & E & Hsw & Hk); [done| |done|set_solver|lia|].
      { eapply links_same; [|exact Hl]. intros b Hb. by rewrite Hother. }
      exists s', (S k). split; [by rewrite E, Nat.add_succ_r|]. split; [by eapply swept_free|].
      rewrite (survivors_ext s s1 L Hother) in Hk. simpl. lia.
Qed.

(** The objects after sweeping a heap with the marks [M]. *)
Lemma swept_paint m M L h out s' : dom m = list_to_set L -> M ⊆ dom m -> map_Forall (fun _ o => o_marked o = false) m ->
  swept Heap L (mk_gc h (paint M m) out) s' ->
  (forall a o, a ∈ M -> m !! a = Some o -> exists v, gc_objs s' !! a = Some (set_o_next v o)) /\
  (forall a o', gc_objs s' !! a = Some o' -> a ∈ M /\ exists o v, m !! a = Some o /\ o' = set_o_next v o).
Proof.
  intros Hd HM Hclr [_ Hk Hg Hf _ _]. cbn [gc_objs] in *.
  assert (forall a o, m !! a = Some o -> a ∈ L) as HaL by (intros a o Ho; apply elem_of_dom_2 in Ho; rewrite Hd in Ho; set_solver).
  assert (forall a o, a ∈ M -> m !! a = Some o -> exists v, gc_objs s' !! a = Some (set_o_next v o)) as Hkeep.
  { intros a o Ha Ho. destruct (Hk a (set_o_marked true o) (HaL a o Ho)) as [v Hv]; [|done|].
    - by rewrite lookup_paint, Ho, bool_decide_true.
    - exists v. rewrite Hv. specialize (Hclr a o Ho). destruct o. simpl in *. by subst. }
  split; [done|]. intros a o' Ho'. destruct (m !! a) as [o|] eqn:Ho.
  - destruct (decide (a ∈ M)) as [Ha|Ha].
    + split; [done|]. destruct (Hkeep a o Ha Ho) as [v Hv]. exists o, v. split; [done|congruence].
    + rewrite (Hg a (set_o_marked false o) (HaL a o Ho)) in Ho'; [done| |done]. by rewrite lookup_paint, Ho, bool_decide_false.
  - rewrite Hf in Ho'; [|apply not_elem_of_dom in Ho; rewrite Hd in Ho; set_solver|done]. by rewrite lookup_paint, Ho in Ho'.
Qed.

Lemma survivors_paint m M L h out : M ⊆ dom m -> survivors (mk_gc h (paint M m) out) L = filter (fun a => a ∈ M) L.
Proof.
  intros HM. apply list_filter_iff. intros a. cbn [gc_objs]. rewrite lookup_paint. destruct (m !! a) as [o|] eqn:E; simpl.
  - destruct (bool_decide_reflect (a ∈ M)); split; congruence.
  - split; [done|]. intros Ha%HM%elem_of_dom. destruct Ha. congruence.
Qed.

(** ** Theorems *)

(** [C26] The collector is exact and terminates.  From a heap whose linked list holds
    all objects, unmarked, [collect] returns after marking and sweeping, for any roots and
    references, dangling and null ones and cycles included: exactly the objects
    reached from the roots stay, in their order in the list and with
    their contents, all others are freed once and counted, and the heap is
    ready for the next collection. *)
Theorem collect_exact bound roots L s : heap_ok L s -> (length L <= bound)%nat ->
  exists s' L', collect bound roots s = Val (length L - length L')%nat s' /\ heap_ok L' s' /\ L' `sublist_of` L /\
    (forall a, a ∈ L' <-> reaches (gc_objs s) roots a) /\
    (forall a o, a ∈ L' -> gc_objs s !! a = Some o -> exists v, gc_objs s' !! a = Some (set_o_next v o)).
Proof.
  intros [Hl Hnd Hd Hfit Hclr] Hb. destruct s as [h m out]. cbn [gc_objs gc_heap] in *.
  destruct (mark_roots_exact bound m h L Hl Hnd Hd Hfit Hb roots (out ++ [MMarkPhase])) as (M & out1 & E1 & HM & Hreach).
  set (s1 := mk_gc h (paint M m) (out1 ++ [MSweepPhase])).
  destruct (sweep_ok L (S bound) s1 Heap 0 h) as (s' & k & E2 & Hsw & Hcount); [done|by apply linked_paint|done|done|lia|].
  destruct (swept_paint m M L h _ s' Hd HM Hclr Hsw) as [Hkeep Hinv]. destruct Hsw as [(p & Hp & Hlk) _ _ _ _ _].
  fold (survivors s1 L) in Hlk. unfold s1 in Hlk, Hcount. rewrite survivors_paint in Hlk, Hcount by done.
  set (L' := filter (fun a => a ∈ M) L) in *.
  assert (forall a, a ∈ L' <-> a ∈ M) as HL'.
  { intros a. unfold L'. rewrite list_elem_of_filter. split; [by intros []|]. intros Ha. split; [done|]. apply HM in Ha. rewrite Hd in Ha. set_solver. }
  exists s', L'. split; [|split; [|split; [|split]]].
  - unfold collect. unfold say at 1. unfold ubind at 1. cbn [gc_heap gc_objs gc_out].
    unfold st in E1. rewrite paint_none in E1 by done. rewrite (ubind_val _ _ _ _ _ E1). unfold say, ubind at 1. cbn [gc_heap gc_objs gc_out].
    fold s1. rewrite E2. f_equal. lia.
  - split.
    + unfold read_cell, get_heap in Hp. by injection Hp as ->.
    + by apply list.NoDup_filter.
    + apply set_eq. intros a. rewrite elem_of_list_to_set, HL'. split.
      * intros [o' Ho']%elem_of_dom. by apply Hinv in Ho' as [? _].
      * intros Ha. pose proof (HM _ Ha) as [o Ho]%elem_of_dom. destruct (Hkeep a o Ha Ho) as [v Hv]. by eapply elem_of_dom_2.
    + intros a o' (_ & o & v & Ho & ->)%Hinv. exact (Hfit a o Ho).
    + intros a o' (_ & o & v & Ho & ->)%Hinv. exact (Hclr a o Ho).
  - apply sublist_filter.
  - intros a. by rewrite HL'.
  - intros a o Ha. by apply Hkeep, HL'.
Qed.

(** The heap of the program's [main] before the first collection: 1 holds 2 and 3, 2 holds 1, and 4 and
    5 hold each other. *)
Definition heap5 : gc :=
  mk_gc 80 {[16 := mk_object 1 false 2 [32; 48] NULL; 32 := mk_object 2 false 1 [16; NULL] 16;
             48 := mk_object 3 false 0 [NULL; NULL] 32; 64 := mk_object 4 false 1 [80; NULL] 48;
             80 := mk_object 5 false 1 [64; NULL] 64]} [].

Lemma collect_exact_witness : exists s' L', collect 5 [16] heap5 = Val (5 - length L')%nat s' /\ heap_ok L' s'.
Proof.
  destruct (collect_exact 5 [16] [80; 64; 48; 32; 16] heap5) as (s' & L' & E & Hok & _).
  - split.
    + repeat (split; [done|]; split; [discriminate|]; eexists; split; [reflexivity|]). done.
    + apply (bool_decide_unpack _). vm_compute. exact I.
    + vm_compute. reflexivity.
    + apply (bool_decide_unpack _). vm_compute. exact I.
    + apply (bool_decide_unpack _). vm_compute. exact I.
  - simpl. lia.
  - exists s', L'. split; [exact E|exact Hok].
Defined.

(** [main] with an allocator that hands out the next address: both collections reclaim what they
    should, and the heap is empty at the end. *)
Definition bump (m : gmap Z object) : option Z := Some (map_fold (fun a _ top => Z.max (a + 16) top) 16 m).
Example main_runs : exists out, main 5 bump (mk_gc NULL ∅ []) = Val 0 (mk_gc NULL ∅ out).
Proof. eexists. vm_compute. reflexivity. Qed.

(** ** The other operations keep the heap ready for a collection *)

Lemma allocate_object_ok calloc id L s p : heap_ok L s -> calloc (gc_objs s) = Some p -> p <> NULL -> gc_objs s !! p = None ->
  exists s', allocate_object calloc id s = Val p s' /\ heap_ok (p :: L) s'.
Proof.
  intros [Hl Hnd Hd Hfit Hclr] Hc Hp Hfresh. unfold allocate_object. rewrite Hc.
  unfold ubind, put_obj, get_heap, upd_obj, ubind, get_obj, put_obj. cbn [gc_objs gc_heap gc_out]. rewrite lookup_insert_eq.
  eexists. split; [reflexivity|].
  assert (p ∉ L) by (apply not_elem_of_dom in Hfresh; rewrite Hd in Hfresh; set_solver).
  split; cbn [gc_objs gc_heap gc_out o_marked o_reference_count o_references]; rewrite ?insert_insert_eq.
  - split; [done|]. split; [done|]. eexists. split; [by rewrite lookup_insert_eq|]. cbn [o_next].
    eapply links_same; [|exact Hl]. intros a Ha. rewrite lookup_insert_ne by set_solver. done.
  - by apply list.NoDup_cons.
  - rewrite dom_insert_L, Hd. set_solver.
  - apply map_Forall_insert_2; [split; simpl; unfold MAX_REFERENCES; lia|done].
  - by apply map_Forall_insert_2.
Qed.

Lemma add_reference_ok from to L s o : heap_ok L s -> gc_objs s !! from = Some o ->
  if decide (o_reference_count o = MAX_REFERENCES) then exists s', add_reference from to s = Exited 1 s'
  else exists s' o', add_reference from to s = Val tt s' /\ heap_ok L s' /\
    gc_objs s' = <[from := o']> (gc_objs s) /\ held o' = held o ++ [to].
Proof.
  intros [Hl Hnd Hd Hfit Hclr] Ho. destruct (Hfit _ _ Ho) as [Hlen Hcnt]. unfold add_reference, ubind, get_obj. rewrite Ho.
  destruct (decide _) as [->|Hne]; [by eexists|].
  rewrite (proj2 (Nat.eqb_neq _ _) Hne), (proj2 (Nat.ltb_lt _ _)) by lia.
  eexists _, _. split; [reflexivity|]. split; [|split; [reflexivity|]].
  - split; cbn [gc_objs gc_heap gc_out]; [|done| | |].
    + eapply links_same; [|exact Hl]. intros a _. destruct (decide (a = from)) as [->|]; [by rewrite lookup_insert_eq, Ho|by rewrite lookup_insert_ne].
    + rewrite dom_insert_L, <-Hd. apply elem_of_dom_2 in Ho. set_solver.
    + apply map_Forall_insert_2; [split; cbn; [by rewrite length_insert|lia]|done].
    + apply map_Forall_insert_2; [exact (Hclr _ _ Ho)|done].
  - unfold held. cbn [o_reference_count o_references].
    rewrite (take_S_r _ _ to) by (apply list_lookup_insert_eq; lia). by rewrite take_insert_ge.
Qed.
End MarkSweep.
