(* ===== verification/Practicals.v ===== *)
(** * The hardware/software practicals: Practicals/{encoding,arithmetic,stack-demos,x86_asm,...}

    The exercises are small hosted C programs.  They run in the monad of user programs over a
    [host]: the cells that pointers refer to, and the calls of [printf] so far, each
    with its format and its arguments.  Signed arithmetic is checked: [int_ e] is the
    value of an [int] expression and an overflow is undefined, so that the theorems
    say for which arguments a function is defined at all. *)

From Stdlib Require Import ZArith Lia.
From stdpp Require Import base list gmap strings numbers option.
From S2P Require Import Prelude Unix.

Module Practicals.

(** ** The host *)

Inductive arg := AZ (z : Z) | AS (s : string).
Coercion AZ : Z >-> arg.

Record host := mk_host { h_mem : gmap Z Z; h_out : list (string * list arg) }.

Definition printf (fmt : string) (args : list arg) : U host unit := fun h =>
  Val tt (mk_host (h_mem h) (h_out h ++ [(fmt, args)])).
(** [perror] names the call that failed on the error output. *)
Definition perror (what : string) : U host unit := printf "perror" [AS what].
Definition load (p : Z) : U host Z := fun h =>
  match h_mem h !! p with Some v => Val v h | None => Stuck "load" end.
Definition store (p v : Z) : U host unit := fun h =>
  match h_mem h !! p with
  | Some _ => Val tt (mk_host (<[p := v]> (h_mem h)) (h_out h))
  | None => Stuck "store"
  end.
(** A local variable whose address is taken: a fresh cell. *)
Definition local (v : Z) : U host Z := fun h =>
  let p := fresh (dom (h_mem h)) in Val p (mk_host (<[p := v]> (h_mem h)) (h_out h)).

Definition INT_MIN : Z := -2147483648.
Definition INT_MAX : Z := 2147483647.
Definition is_int (x : Z) : bool := (INT_MIN <=? x) && (x <=? INT_MAX).
(** The value of a signed expression of type [int], or of type [long]. *)
Definition int_ (x : Z) : U host Z := if is_int x then uret x else fun _ => Stuck "signed overflow".
Definition is_long (x : Z) : bool := (- 2 ^ 63 <=? x) && (x <? 2 ^ 63).
Definition long_ (x : Z) : U host Z := if is_long x then uret x else fun _ => Stuck "signed overflow".

(** ** encoding/card_encoding.c *)

Definition SUIT_MASK : Z := 0x30.
Definition VALUE_MASK : Z := 0x0F.

(** C's [!]. *)
Definition lnot (x : Z) : Z := if x =? 0 then 1 else 0.

Definition sameSuitP (card1 card2 : Z) : bool :=
  negb (Z.lxor (lnot (Z.land card1 SUIT_MASK)) (Z.land card2 SUIT_MASK) =? 0).
Definition greaterValue (card1 card2 : Z) : bool :=
  u32 (Z.land card1 VALUE_MASK) >? u32 (Z.land card2 VALUE_MASK).

(** ** arithmetic/code.c *)

Definition sum (x y : Z) : U host Z := int_ (x + y).

(** ** stack-demos/c/stack_demo.c and x86_asm/02_swap_example.c *)

(** [swap], [swap32] and [swap64] have the same body over cells of their type. *)
Definition swap (xp yp : Z) : U host unit :=
  t0 <~ load xp ;;
  t1 <~ load yp ;;
  store xp t1 ;;~
  store yp t0.

Definition swap32 (xp yp : Z) : U host unit :=
  t0 <~ load xp ;;
  t1 <~ load yp ;;
  store xp t1 ;;~
  store yp t0.

Definition swap64 (xp yp : Z) : U host unit :=
  t0 <~ load xp ;;
  t1 <~ load yp ;;
  store xp t1 ;;~
  store yp t0.

(** The four moves of the inline assembly. *)
Definition swap_asm (xp yp : Z) : U host unit :=
  eax <~ load xp ;;
  ebx <~ load yp ;;
  store xp ebx ;;~
  store yp eax.

(** The addresses of the globals [zip1] and [zip2]. *)
Definition zip1 : Z := 0x404028.
Definition zip2 : Z := 0x40402c.
Definition call_swap : U host unit := swap zip1 zip2.

Fixpoint s_helper (fuel : nat) (x accum : Z) : U host unit :=
  match fuel with
  | O => fun _ => Unfinished
  | S fuel' =>
      if x <=? 1 then uret tt else
      a <~ load accum ;;
      z <~ int_ (a * x) ;;
      store accum z ;;~
      x' <~ int_ (x - 1) ;;
      s_helper fuel' x' accum
  end.

(** [val]'s frame goes away when [sfact] returns. *)
Definition sfact (x : Z) : U host Z :=
  val <~ local 1 ;;
  s_helper (S (Z.to_nat x)) x val ;;~
  v <~ load val ;;
  (fun h => Val v (mk_host (delete val (h_mem h)) (h_out h))).

Definition side_effect_fn (x : Z) : U host Z := int_ (x + 98195).

Definition caller_save_demo : U host unit :=
  let edx_analogue := 12345 in
  printf "  Before call : edx_analogue = %d\n" [AZ edx_analogue] ;;~
  result <~ side_effect_fn edx_analogue ;;
  printf "  After  call : edx_analogue = %d  (unchanged — compiler saved it)\n" [AZ edx_analogue] ;;~
  printf "  Function returned: %d\n" [AZ result].

(** ** x86_asm/03_arithmetic.c *)

Definition arithmetic_ops (x y z : Z) : U host Z :=
  t1 <~ int_ (x + y) ;;
  t2 <~ int_ (z + t1) ;;
  t3 <~ int_ (x + 4) ;;
  t4 <~ int_ (y * 48) ;;
  t5 <~ int_ (t3 + t4) ;;
  result <~ int_ (t2 * t5) ;;
  printf "x=%d, y=%d, z=%d\n" [AZ x; AZ y; AZ z] ;;~
  printf "t1 (x+y) = %d\n" [AZ t1] ;;~
  printf "t2 (z+t1) = %d\n" [AZ t2] ;;~
  printf "t3 (x+4) = %d\n" [AZ t3] ;;~
  printf "t4 (y*48) = %d\n" [AZ t4] ;;~
  printf "t5 (t3+t4) = %d\n" [AZ t5] ;;~
  printf "Result = %d\n" [AZ result] ;;~
  uret result.

Definition bitwise_ops (x y : Z) : U host Z :=
  let and_op := Z.land x y in
  let or_op := Z.lor x y in
  let xor_op := Z.lxor x y in
  let not_op := Z.lnot x in
  left_shift <~ (if 0 <=? x then int_ (Z.shiftl x 2) else fun _ => Stuck "shift of a negative value") ;;
  let right_shift := Z.shiftr x 1 in
  printf "\n=== Bitwise Operations ===\n" [] ;;~
  printf "x=0x%08x (%d), y=0x%08x (%d)\n" [AZ x; AZ x; AZ y; AZ y] ;;~
  printf "x & y = 0x%08x (%d)\n" [AZ and_op; AZ and_op] ;;~
  printf "x | y = 0x%08x (%d)\n" [AZ or_op; AZ or_op] ;;~
  printf "x ^ y = 0x%08x (%d)\n" [AZ xor_op; AZ xor_op] ;;~
  printf "~x = 0x%08x (%d)\n" [AZ not_op; AZ not_op] ;;~
  printf "x << 2 = 0x%08x (%d)\n" [AZ left_shift; AZ left_shift] ;;~
  printf "x >> 1 = 0x%08x (%d)\n" [AZ right_shift; AZ right_shift] ;;~
  uret xor_op.

Definition lea_arithmetic (x y z : Z) : U host Z :=
  a <~ int_ (x + y) ;;
  b <~ int_ (x * 4) ;;
  y8 <~ int_ (y * 8) ;;
  c <~ int_ (y8 + 10) ;;
  y2 <~ int_ (y * 2) ;;
  d <~ int_ (x + y2) ;;
  printf "\n=== LEA Arithmetic ===\n" [] ;;~
  printf "x + y = %d\n" [AZ a] ;;~
  printf "x * 4 = %d\n" [AZ b] ;;~
  printf "y * 8 + 10 = %d\n" [AZ c] ;;~
  printf "x + y*2 = %d\n" [AZ d] ;;~
  ab <~ int_ (a + b) ;;
  abc <~ int_ (ab + c) ;;
  int_ (abc + d).

(** ** x86_asm/04_conditionals.c *)

Definition absdiff (x y : Z) : U host Z :=
  if x >? y then int_ (x - y) else int_ (y - x).

Definition absdiff_cmov (x y : Z) : U host Z :=
  result <~ int_ (x - y) ;;
  neg_result <~ int_ (y - x) ;;
  uret (if x <=? y then neg_result else result).

Definition max_of_three (a b c : Z) : Z :=
  let max := a in
  let max := if b >? max then b else max in
  let max := if c >? max then c else max in
  max.

Definition compare_and_set (x y : Z) : Z :=
  if x >? y then 1 else if x <? y then -1 else 0.

(** ** x86_asm/05_loops.c *)

Definition fact_while_body (v : Z * Z) : U host ((Z * Z) + Z) :=
  let '(n, result) := v in
  if n >? 1 then
    result' <~ int_ (result * n) ;;
    n' <~ int_ (n - 1) ;;
    uret (inl (n', result'))
  else uret (inr result).

Definition fact_while (n : Z) : U host Z := uloop (S (Z.to_nat n)) fact_while_body (n, 1).

Definition fact_do_while_body (v : Z * Z) : U host ((Z * Z) + Z) :=
  let '(n, result) := v in
  result' <~ int_ (result * n) ;;
  n' <~ int_ (n - 1) ;;
  if n' >? 1 then uret (inl (n', result')) else uret (inr result').

Definition fact_do_while (n : Z) : U host Z := uloop (S (Z.to_nat n)) fact_do_while_body (n, 1).

Definition ipwr_for_body (v : Z * Z * Z) : U host ((Z * Z * Z) + Z) :=
  let '(x, p, result) := v in
  if negb (p =? 0) then
    result' <~ (if negb (Z.land p 0x1 =? 0) then int_ (result * x) else uret result) ;;
    x' <~ int_ (x * x) ;;
    uret (inl (x', Z.shiftr p 1, result'))
  else uret (inr result).

(** An [unsigned int] has 32 bits: at most 32 rounds and the last test. *)
Definition ipwr_for (x p : Z) : U host Z := uloop 33 ipwr_for_body (x, p, 1).

Fixpoint sum_row (row : list Z) (sum : Z) : U host Z :=
  match row with
  | [] => uret sum
  | v :: row' => sum' <~ int_ (sum + v) ;; sum_row row' sum'
  end.
Fixpoint sum_rows (matrix : list (list Z)) (sum : Z) : U host Z :=
  match matrix with
  | [] => uret sum
  | row :: rows => sum' <~ sum_row row sum ;; sum_rows rows sum'
  end.
Definition matrix_sum (matrix : list (list Z)) : U host Z := sum_rows matrix 0.

(** ** x86_asm/06_switch.c *)

(** [y * x] and [y / x] mix [long] and [unsigned long]: both are unsigned. *)
Definition switch_example (x y z : Z) : U host Z :=
  let w := 1 in
  if x =? 1 then uret (s64 (u64 (u64 y * x)))
  else if x =? 2 then
    let w := s64 (u64 y / x) in long_ (w + z)
  else if x =? 3 then long_ (w + z)
  else if (x =? 5) || (x =? 6) then long_ (w - z)
  else uret 2.

Definition get_day_name (day : Z) : string :=
  if day =? 1 then "Monday"
  else if day =? 2 then "Tuesday"
  else if day =? 3 then "Wednesday"
  else if day =? 4 then "Thursday"
  else if day =? 5 then "Friday"
  else if day =? 6 then "Saturday"
  else if day =? 7 then "Sunday"
  else "Invalid".

(** ** pointer_practical/c/pointers_demo.c *)

(** [*num = num + 1] stores the pointer, advanced by one [int] and converted to [int]. *)
Definition increment (num : Z) : U host unit := store num (s32 (num + 4)).

Definition pointers_main : U host Z :=
  a <~ local 10 ;;
  let ptr := a in
  v <~ load a ;; printf "a = %d\n" [AZ v] ;;~
  printf "&a = %ptr (address of a)\n" [AZ a] ;;~
  printf "ptr = %p (value of pointer)\n" [AZ ptr] ;;~
  v <~ load ptr ;; printf "*ptr = %d (value at address ptr)\n" [AZ v] ;;~
  store ptr 20 ;;~
  printf "\nAfter *ptr = 20;\n" [] ;;~
  v <~ load a ;; printf "a = %d\n" [AZ v] ;;~
  v <~ load ptr ;; printf "*ptr = %d\n" [AZ v] ;;~
  increment ptr ;;~
  printf "\nAfter increment(ptr);\n" [] ;;~
  v <~ load a ;; printf "a = %d\n" [AZ v] ;;~
  uret 0.

(** ** memory_allocation/malloc.c *)

Section malloc.
(** Whether the allocator has room for that many bytes. *)
Context (malloc_ok realloc_ok : Z -> bool).

(** A block is a list of [int]s; a word that was never written has no value. *)
Definition words (bytes : Z) : nat := Z.to_nat (bytes / 4).
(** [realloc] keeps the words that fit in both blocks. *)
Definition resize_block (n : nat) (p : list (option Z)) : list (option Z) := take n p ++ replicate (n - length p) None.
Definition set_word (p : list (option Z)) (i v : Z) : U host (list (option Z)) :=
  if (0 <=? i) && (i <? Z.of_nat (length p)) then uret (<[Z.to_nat i := Some v]> p) else fun _ => Stuck "heap".
Definition get_word (p : list (option Z)) (i : Z) : U host Z :=
  match (if 0 <=? i then p !! Z.to_nat i else None) with
  | Some (Some v) => uret v
  | _ => fun _ => Stuck "heap"
  end.

Definition foo_fill (hi : Z) (f : Z -> Z) (v : Z * list (option Z)) : U host ((Z * list (option Z)) + list (option Z)) :=
  let '(i, p) := v in
  if i <? hi then p' <~ set_word p i (f i) ;; uret (inl (i + 1, p')) else uret (inr p).
Definition foo_print (hi : Z) (p : list (option Z)) (i : Z) : U host (Z + unit) :=
  if i <? hi then v <~ get_word p i ;; printf "%d\n" [AZ v] ;;~ uret (inl (i + 1)) else uret (inr tt).

Definition foo (n m : Z) : U host unit :=
  let bytes := u64 (n * 4) in
  if negb (malloc_ok bytes) then perror "malloc" ;;~ exit 0 else
  p <~ uloop (S (Z.to_nat n)) (foo_fill n (fun _ => 1)) (0, replicate (words bytes) None) ;;
  nm <~ int_ (n + m) ;;
  let bytes' := u64 (nm * 4) in
  if negb (realloc_ok bytes') then perror "realloc" ;;~ exit 0 else
  p <~ uloop (S (Z.to_nat m)) (foo_fill nm (fun i => i)) (n, resize_block (words bytes') p) ;;
  uloop (S (Z.to_nat nm)) (foo_print nm p) 0.
End malloc.

(** ** The programs *)

Definition card_pair (title : string) (c1 c2 : Z) (same differ greater notgreater : string) : U host unit :=
  printf title [] ;;~
  printf (if sameSuitP c1 c2 then same else differ) [] ;;~
  printf (if greaterValue c1 c2 then greater else notgreater) [].

Definition card_main : U host Z :=
  let card1 := 0x27 in
  let card2 := 0x22 in
  let card3 := 0x15 in
  let card4 := 0x37 in
  card_pair "Comparing 7️⃣ ❤️ and 2️⃣ ❤️:\n" card1 card2
    " Same suit. ✅\n" " Different suits. ❌\n" " Greater value. ✅\n" " Not greater value. ❌\n" ;;~
  card_pair "\nComparing 7️⃣ ❤️ and 5️⃣ ♦️:\n" card1 card3
    " Same suit. ✅\n" " Different suits. ❌\n" " Greater value. ✅\n" " Not greater value. ❌\n" ;;~
  card_pair "\nComparing 7️⃣ ❤️ and 7️⃣ ♠️ (Equal values):\n" card1 card4
    "  Same suit. ❌\n" "  Different suits. ✅\n" "  Greater value. ❌\n" "  Not greater value. ✅\n" ;;~
  card_pair "\nComparing 2️⃣ ❤️ and 5️⃣ ♦️:\n" card2 card3
    "  Same suit. ❌\n" "  Different suits. ✅\n" "  Greater value. ❌\n" "  Not greater value. ✅\n" ;;~
  uret 0.

Definition code_main : U host Z :=
  result <~ sum 2 3 ;;
  printf "Sum = %d\n" [AZ result] ;;~
  uret 0.

(** The registers as the inline assembly finds them: eax, ebx, ecx, edx, esi, edi, ebp, esp. *)
Record registers := mk_registers { eax : Z; ebx : Z; ecx : Z; edx : Z; esi : Z; edi : Z; ebp : Z; esp : Z }.

Section programs.
Context (regs : registers).

Definition print_registers : U host unit :=
  printf "\n=== Register Dump ===\n" [] ;;~
  printf "EAX: 0x%08x (%d)\n" [AZ (eax regs); AZ (eax regs)] ;;~
  printf "EBX: 0x%08x (%d)\n" [AZ (ebx regs); AZ (ebx regs)] ;;~
  printf "ECX: 0x%08x (%d)\n" [AZ (ecx regs); AZ (ecx regs)] ;;~
  printf "EDX: 0x%08x (%d)\n" [AZ (edx regs); AZ (edx regs)] ;;~
  printf "ESI: 0x%08x (%d)\n" [AZ (esi regs); AZ (esi regs)] ;;~
  printf "EDI: 0x%08x (%d)\n" [AZ (edi regs); AZ (edi regs)] ;;~
  printf "EBP: 0x%08x (%d)\n" [AZ (ebp regs); AZ (ebp regs)] ;;~
  printf "ESP: 0x%08x (%d)\n" [AZ (esp regs); AZ (esp regs)] ;;~
  printf "===================\n\n" [].

Definition swap_main : U host Z :=
  printf "=== Swap Examples ===\n\n" [] ;;~
  a <~ local 5 ;; b <~ local 10 ;;
  printf "32-bit swap:\n" [] ;;~
  x <~ load a ;; y <~ load b ;; printf "Before: a=%d, b=%d\n" [AZ x; AZ y] ;;~
  swap32 a b ;;~
  x <~ load a ;; y <~ load b ;; printf "After:  a=%d, b=%d\n" [AZ x; AZ y] ;;~
  store a 5 ;;~ store b 10 ;;~
  printf "\nInline assembly swap:\n" [] ;;~
  x <~ load a ;; y <~ load b ;; printf "Before: a=%d, b=%d\n" [AZ x; AZ y] ;;~
  swap_asm a b ;;~
  x <~ load a ;; y <~ load b ;; printf "After:  a=%d, b=%d\n" [AZ x; AZ y] ;;~
  c <~ local 10000000000 ;; d <~ local 20000000000 ;;
  printf "\n64-bit swap:\n" [] ;;~
  x <~ load c ;; y <~ load d ;; printf "Before: c=%lld, d=%lld\n" [AZ x; AZ y] ;;~
  swap64 c d ;;~
  x <~ load c ;; y <~ load d ;; printf "After:  c=%lld, d=%lld\n\n" [AZ x; AZ y] ;;~
  uret 0.

Definition arithmetic_main : U host Z :=
  printf "=== Arithmetic Operations ===\n\n" [] ;;~
  arithmetic_ops 10 5 3 ;;~
  bitwise_ops 0x0F0F0F0F 0x00FF00FF ;;~
  lea_arithmetic 7 3 2 ;;~
  print_registers ;;~
  uret 0.

Fixpoint print_pairs (pairs : list (Z * Z)) : U host unit :=
  match pairs with
  | [] => uret tt
  | (x, y) :: pairs' =>
      d <~ absdiff x y ;; printf "absdiff(%d, %d) = %d\n" [AZ x; AZ y; AZ d] ;;~
      d <~ absdiff_cmov x y ;; printf "absdiff_cmov(%d, %d) = %d\n\n" [AZ x; AZ y; AZ d] ;;~
      print_pairs pairs'
  end.

Definition conditionals_main : U host Z :=
  printf "=== Conditional Operations ===\n\n" [] ;;~
  print_pairs [(10, 5); (5, 10); (-5, -10); (0, 0)] ;;~
  printf "max_of_three(10, 20, 15) = %d\n" [AZ (max_of_three 10 20 15)] ;;~
  printf "compare_and_set(5, 3) = %d\n" [AZ (compare_and_set 5 3)] ;;~
  printf "compare_and_set(3, 5) = %d\n" [AZ (compare_and_set 3 5)] ;;~
  print_registers ;;~
  uret 0.

Definition loops_main : U host Z :=
  printf "=== Loop Examples ===\n\n" [] ;;~
  v <~ fact_while 5 ;; printf "fact_while(5) = %d\n" [AZ v] ;;~
  v <~ fact_do_while 5 ;; printf "fact_do_while(5) = %d\n" [AZ v] ;;~
  v <~ ipwr_for 2 5 ;; printf "2^5 = %d\n" [AZ v] ;;~
  v <~ matrix_sum [[1; 2; 3]; [4; 5; 6]; [7; 8; 9]] ;; printf "Matrix sum = %d\n\n" [AZ v] ;;~
  print_registers ;;~
  uret 0.

Fixpoint print_switch (xs : list Z) : U host unit :=
  match xs with
  | [] => uret tt
  | x :: xs' =>
      result <~ switch_example x 10 5 ;;
      printf "switch_example(%lu, 10, 5) = %ld\n" [AZ x; AZ result] ;;~ print_switch xs'
  end.
Fixpoint print_days (days : list Z) : U host unit :=
  match days with
  | [] => uret tt
  | day :: days' => printf "Day %d: %s\n" [AZ day; AS (get_day_name day)] ;;~ print_days days'
  end.

Definition switch_main : U host Z :=
  printf "=== Switch Examples ===\n\n" [] ;;~
  print_switch (seqZ 0 8) ;;~
  printf "\n" [] ;;~
  print_days (seqZ 0 9) ;;~
  print_registers ;;~
  uret 0.
End programs.

(** The addresses the compiler gives to [a], [b] and [c]. *)
Definition show_frame_layout (a b c : Z) : U host unit :=
  printf "  &a = %p\n" [AZ a] ;;~
  printf "  &b = %p  (offset from a: %td bytes)\n" [AZ b; AZ (b - a)] ;;~
  printf "  &c = %p  (offset from a: %td bytes)\n" [AZ c; AZ (c - a)].

Fixpoint print_sfacts (ns : list Z) : U host unit :=
  match ns with
  | [] => uret tt
  | n :: ns' => v <~ sfact n ;; printf "  sfact(%d) = %d\n" [AZ n; AZ v] ;;~ print_sfacts ns'
  end.

Definition stack_main (pa pb pc : Z) : U host Z :=
  printf "\n=== 1. Pointer Swap (global variables) ===\n" [] ;;~
  x <~ load zip1 ;; y <~ load zip2 ;; printf "  Before: zip1=%d  zip2=%d\n" [AZ x; AZ y] ;;~
  call_swap ;;~
  x <~ load zip1 ;; y <~ load zip2 ;; printf "  After : zip1=%d  zip2=%d\n" [AZ x; AZ y] ;;~
  printf "\n=== 2. Recursive sfact (pointer to local on stack) ===\n" [] ;;~
  print_sfacts (seqZ 1 7) ;;~
  printf "\n=== 3. Stack frame layout (address arithmetic) ===\n" [] ;;~
  show_frame_layout pa pb pc ;;~
  printf "\n=== 4. Caller-save register demo ===\n" [] ;;~
  caller_save_demo ;;~
  printf "\n" [] ;;~
  uret 0.

(** ** Lemmas *)

Definition overflow {A} : uresult host A := Stuck "signed overflow".

Lemma is_int_spec x : is_int x = true <-> INT_MIN <= x <= INT_MAX.
Proof. unfold is_int. rewrite andb_true_iff, !Z.leb_le. done. Qed.

Lemma int_run x h : INT_MIN <= x <= INT_MAX -> int_ x h = Val x h.
Proof. intros H. unfold int_. by rewrite (proj2 (is_int_spec x) H). Qed.

Lemma int_overflow x h : x < INT_MIN \/ INT_MAX < x -> int_ x h = overflow.
Proof.
  intros H. unfold int_. destruct (is_int x) eqn:E; [|done]. apply is_int_spec in E. lia.
Qed.

(** A checked operation either gives its value or stops the whole program. *)
Lemma int_bind {A} x (f : Z -> U host A) h :
  ubind (int_ x) f h = if is_int x then f x h else overflow.
Proof. unfold ubind, int_. by destruct (is_int x). Qed.

(** [n!]; 1 for [n <= 1]. *)
Fixpoint fac (n : nat) : Z := match n with O => 1 | S n' => Z.of_nat n * fac n' end.
Definition factorial (n : Z) : Z := fac (Z.to_nat n).

Lemma fac_pos n : 1 <= fac n.
Proof. induction n as [|n IH]; [done|]. cbn [fac]. nia. Qed.

Lemma fac_mono a b : (a <= b)%nat -> fac a <= fac b.
Proof.
  induction 1 as [|b Hab IH]; [done|]. cbn [fac]. pose proof (fac_pos b). nia.
Qed.

(** 12! is the last factorial that is an [int]. *)
Lemma factorial_int n : (factorial n <=? INT_MAX) = (n <=? 12).
Proof.
  unfold factorial. destruct (Z.leb_spec n 12) as [H|H].
  - apply Z.leb_le. etrans; [apply (fac_mono _ 12); lia|]. vm_compute. discriminate.
  - apply Z.leb_gt. eapply Z.lt_le_trans; [|apply (fac_mono 13); lia]. by vm_compute.
Qed.

(** One multiplication of a product that still has the factors up to [n] to come:
    if it overflows, so does the whole product. *)
Lemma product_step r n : 1 <= r -> INT_MAX < r * Z.of_nat (S n) -> INT_MAX < r * fac (S n).
Proof. intros Hr H. cbn [fac]. pose proof (fac_pos n). nia. Qed.

(** What the three factorials compute: [r * n!], or an overflow. *)
Definition product_or_overflow (r : Z) (n : nat) (h : host) : uresult host Z :=
  if r * fac n <=? INT_MAX then Val (r * fac n) h else overflow.

Lemma product_or_overflow_step r n h : 1 <= r -> 
  (if is_int (r * Z.of_nat (S n)) then product_or_overflow (r * Z.of_nat (S n)) n h else overflow) =
  product_or_overflow r (S n) h.
Proof.
  intros Hr. unfold product_or_overflow. destruct (is_int _) eqn:E.
  - cbn [fac]. by rewrite Z.mul_assoc.
  - assert (INT_MAX < r * Z.of_nat (S n)) as H.
    { assert (~ (INT_MIN <= r * Z.of_nat (S n) <= INT_MAX)) as Hn by (rewrite <- is_int_spec, E; done).
      unfold INT_MIN in Hn. nia. }
    pose proof (product_step r n Hr H). by destruct (Z.leb_spec (r * fac (S n)) INT_MAX); [lia|].
Qed.

Lemma fact_while_loop n : forall fuel r h, (n < fuel)%nat -> 1 <= r <= INT_MAX -> Z.of_nat n <= INT_MAX ->
  uloop fuel fact_while_body (Z.of_nat n, r) h = product_or_overflow r n h.
Proof.
  induction n as [|n IH]; intros [|fuel] r h Hf Hr Hn; try lia.
  { unfold product_or_overflow. simpl. rewrite Z.mul_1_r. by rewrite (proj2 (Z.leb_le r INT_MAX)) by lia. }
  cbn [uloop]. unfold fact_while_body at 1. destruct n as [|n].
  { unfold product_or_overflow. simpl. rewrite Z.mul_1_r. by rewrite (proj2 (Z.leb_le r INT_MAX)) by lia. }
  rewrite (proj2 (Z.gtb_gt _ _)) by lia. rewrite <- product_or_overflow_step by lia.
  unfold ubind at 1. rewrite int_bind. destruct (is_int (r * _)) eqn:E; [|done]. apply is_int_spec in E.
  rewrite int_bind, (proj2 (is_int_spec _)) by (unfold INT_MIN; lia). unfold uret.
  replace (Z.of_nat (S (S n)) - 1) with (Z.of_nat (S n)) by lia. apply IH; lia.
Qed.

Lemma fact_do_while_loop n : forall fuel r h, (S n < fuel)%nat -> 1 <= r <= INT_MAX -> Z.of_nat (S n) <= INT_MAX ->
  uloop fuel fact_do_while_body (Z.of_nat (S n), r) h = product_or_overflow r (S n) h.
Proof.
  induction n as [|n IH]; intros [|fuel] r h Hf Hr Hn; try lia.
  all: cbn [uloop]; unfold fact_do_while_body at 1; rewrite <- product_or_overflow_step by lia.
  all: unfold ubind at 1; rewrite int_bind; destruct (is_int (r * _)) eqn:E; [|done]; apply is_int_spec in E.
  all: rewrite int_bind, (proj2 (is_int_spec _)) by (unfold INT_MIN; lia).
  { simpl. unfold product_or_overflow. simpl. rewrite !Z.mul_1_r.
    by rewrite (proj2 (Z.leb_le r INT_MAX)) by lia. }
  replace (Z.of_nat (S (S n)) - 1) with (Z.of_nat (S n)) by lia.
  destruct (Z.gtb_spec (Z.of_nat (S n)) 1).
  - unfold uret. apply IH; lia.
  - assert (n = 0%nat) as -> by lia. unfold product_or_overflow. change (fac 1) with 1. rewrite Z.mul_1_r.
    by rewrite (proj2 (Z.leb_le (r * Z.of_nat 2) INT_MAX)) by lia.
Qed.

(** The accumulator behind the pointer. *)
Lemma s_helper_run n : forall fuel r p h, (n < fuel)%nat -> 1 <= r <= INT_MAX -> Z.of_nat n <= INT_MAX ->
  h_mem h !! p = Some r ->
  s_helper fuel (Z.of_nat n) p h =
  if r * fac n <=? INT_MAX then Val tt (mk_host (<[p := r * fac n]> (h_mem h)) (h_out h)) else overflow.
Proof.
  assert (forall r p h, 1 <= r <= INT_MAX -> h_mem h !! p = Some r -> Val (W := host) tt h =
    if r * 1 <=? INT_MAX then Val tt (mk_host (<[p := r * 1]> (h_mem h)) (h_out h)) else overflow) as H1.
  { intros r p h Hr Hp. rewrite Z.mul_1_r, (proj2 (Z.leb_le r INT_MAX)), insert_id by (done || lia). by destruct h. }
  induction n as [|n IH]; intros [|fuel] r p h Hf Hr Hn Hp; try lia; [by apply H1|].
  cbn [s_helper]. destruct (Z.leb_spec (Z.of_nat (S n)) 1).
  { assert (n = 0%nat) as -> by lia. by apply H1. }
  rewrite (ubind_val _ _ h r h) by (unfold load; by rewrite Hp). rewrite int_bind.
  pose proof (product_or_overflow_step r n h ltac:(lia)) as St. unfold product_or_overflow in St.
  destruct (is_int (r * _)) eqn:E.
  - apply is_int_spec in E.
    rewrite (ubind_val _ _ h tt (mk_host (<[p := r * Z.of_nat (S n)]> (h_mem h)) (h_out h)))
      by (unfold store; by rewrite Hp).
    rewrite int_bind, (proj2 (is_int_spec _)) by (unfold INT_MIN; lia).
    replace (Z.of_nat (S n) - 1) with (Z.of_nat n) by lia.
    rewrite (IH fuel (r * Z.of_nat (S n)) p) by (lia || nia || apply lookup_insert_eq). cbn [h_mem h_out].
    rewrite insert_insert_eq. cbn [fac]. by rewrite !Z.mul_assoc.
  - destruct (Z.leb_spec (r * fac (S n)) INT_MAX); done.
Qed.

Lemma sfact_run n h : Z.of_nat n <= INT_MAX ->
  sfact (Z.of_nat n) h = product_or_overflow 1 n h.
Proof.
  intros Hn. unfold sfact. set (p := fresh (dom (h_mem h))).
  assert (h_mem h !! p = None) as Hp by (apply not_elem_of_dom, is_fresh).
  rewrite (ubind_val _ _ h p (mk_host (<[p := 1]> (h_mem h)) (h_out h))) by done.
  unfold ubind at 1. rewrite (s_helper_run n _ 1 p) by (rewrite ?Nat2Z.id; lia || done || apply lookup_insert_eq).
  unfold product_or_overflow. destruct (1 * fac n <=? INT_MAX); [|done].
  cbn [h_mem h_out]. unfold ubind, load. cbn [h_mem h_out]. rewrite lookup_insert_eq. cbn [h_mem h_out].
  rewrite insert_insert_eq, delete_insert_id by done. by destruct h.
Qed.

(** Every factorial of the practicals ([fact_while], [fact_do_while], and the recursive
    [sfact] that accumulates through a pointer to its caller's local) returns n!
    for every [int] from 1 to 12, leaves the memory as it was, and overflows the signed [int] for every
    larger argument; at most 0 the first and the last return 1. *)
Theorem factorials_exact (n : Z) (h : host) : INT_MIN <= n <= INT_MAX ->
  let r : uresult host Z := if n <=? 12 then Val (factorial n) h else overflow in
  fact_while n h = r /\ sfact n h = r /\ (1 <= n -> fact_do_while n h = r).
Proof.
  intros Hn r. destruct (Z.leb_spec n 0) as [H0|H0].
  { unfold r. rewrite (proj2 (Z.leb_le n 12)) by lia. unfold fact_while, sfact, factorial.
    rewrite (Z2Nat.nonpos n) by lia. cbn [uloop s_helper]. unfold ubind at 1, fact_while_body.
    rewrite (proj2 (Z.leb_le n 1)) by lia. rewrite Z.gtb_ltb, (proj2 (Z.ltb_ge 1 n)) by lia. simpl.
    split; [done|]. split; [|lia]. unfold ubind, local, load. simpl.
    rewrite lookup_insert_eq. simpl.
    rewrite delete_insert_id by (apply not_elem_of_dom, is_fresh). by destruct h. }
  destruct (Z_of_nat_complete n ltac:(lia)) as (k & ->). destruct k as [|k]; [lia|].
  assert (r = product_or_overflow 1 (S k) h) as ->.
  { unfold r, product_or_overflow. rewrite <- factorial_int. unfold factorial.
    by rewrite Nat2Z.id, Z.mul_1_l. }
  unfold fact_while, fact_do_while. rewrite Nat2Z.id. split; [apply fact_while_loop; lia|].
  split; [apply sfact_run; lia|]. intros _. apply fact_do_while_loop; lia.
Qed.

Lemma factorials_exact_witness :
  let h := mk_host {[ 8 := 7 ]} [] in
  (fact_while 12 h = Val 479001600 h /\ sfact 12 h = Val 479001600 h /\ fact_do_while 12 h = Val 479001600 h) /\
  fact_while 13 h = overflow.
Proof.
  intros h. assert (INT_MIN <= 12 <= INT_MAX /\ INT_MIN <= 13 <= INT_MAX) as (H1 & H2) by (unfold INT_MIN, INT_MAX; lia).
  destruct (factorials_exact 12 h H1) as (A & B & C). destruct (factorials_exact 13 h H2) as (D & _).
  split; [split; [exact A|]; split; [exact B|apply C; lia]|exact D].
Defined.

(** The do-while loop multiplies before it tests: its factorial of 0 is 0. *)
Lemma fact_do_while_zero h : fact_do_while 0 h = Val 0 h /\ fact_while 0 h = Val 1 h.
Proof. done. Qed.

(** ** Exponentiation by squaring *)

(** The number of rounds: the number of binary digits of [p]. *)
Definition bits (p : Z) : Z := if p =? 0 then 0 else Z.log2 p + 1.

Lemma bits_step p : 0 < p -> bits p = 1 + bits (Z.shiftr p 1).
Proof.
  intros Hp. unfold bits. rewrite Z.shiftr_div_pow2 by lia. change (2 ^ 1) with 2.
  destruct (Z.eqb_spec p 0); [lia|]. destruct (Z.eqb_spec (p / 2) 0) as [E|E].
  - assert (p = 1) as -> by zlia. done.
  - assert (p = 2 * (p / 2) \/ p = 2 * (p / 2) + 1) as [H|H] by zlia; rewrite H at 1.
    + rewrite Z.log2_double by zlia. lia.
    + rewrite Z.log2_succ_double by zlia. lia.
Qed.

Lemma bits_nonneg p : 0 <= bits p.
Proof. unfold bits. destruct (p =? 0); [done|]. pose proof (Z.log2_nonneg p). lia. Qed.

Lemma odd_split p : 0 <= p ->
  p = 2 * Z.shiftr p 1 + Z.land p 1 /\ (Z.land p 1 = 0 \/ Z.land p 1 = 1).
Proof.
  intros Hp. rewrite Z.shiftr_div_pow2 by lia. change 1 with (Z.ones 1) at 2 3 4. rewrite Z.land_ones by lia.
  change (2 ^ 1) with 2. zlia.
Qed.

(** The factor of this round, and the powers that are left. *)
Lemma pow_split x p : 0 <= p -> x ^ p = x ^ Z.land p 1 * (x * x) ^ Z.shiftr p 1.
Proof.
  intros Hp. destruct (odd_split p Hp) as (E & Hb). rewrite E at 1.
  assert (0 <= Z.shiftr p 1) by (apply Z.shiftr_nonneg; lia).
  rewrite Z.pow_add_r, Z.pow_mul_r, Z.pow_2_r by lia. ring.
Qed.

Lemma abs_pow_mono x a b : 0 <= a <= b -> 0 < a \/ x <> 0 -> Z.abs (x ^ a) <= Z.abs (x ^ b).
Proof.
  intros Hab Hx. rewrite !Z.abs_pow. destruct (Z.eq_dec x 0) as [->|Hn].
  - destruct Hx; [|done]. rewrite !Z.pow_0_l by lia. done.
  - apply Z.pow_le_mono_r; lia.
Qed.

Lemma ipwr_round x p r h : 0 < p ->
  ipwr_for_body (x, p, r) h =
  if is_int (r * x ^ Z.land p 1) || (Z.land p 1 =? 0) then
    if is_int (x * x) then Val (inl (x * x, Z.shiftr p 1, r * x ^ Z.land p 1)) h else overflow
  else overflow.
Proof.
  intros Hp. unfold ipwr_for_body. rewrite (proj2 (Z.eqb_neq p 0)) by lia. cbn [negb].
  destruct (odd_split p ltac:(lia)) as (_ & [->| ->]); cbn [Z.eqb negb].
  - change (x ^ 0) with 1. rewrite Z.mul_1_r, orb_true_r. unfold ubind at 1, uret at 1. by rewrite int_bind.
  - rewrite Z.pow_1_r, orb_false_r, int_bind. destruct (is_int (r * x)); [|done]. by rewrite int_bind.
Qed.

Lemma ipwr_step fuel x p r h : 0 < p ->
  uloop (S fuel) ipwr_for_body (x, p, r) h =
  if is_int (r * x ^ Z.land p 1) || (Z.land p 1 =? 0) then
    if is_int (x * x) then uloop fuel ipwr_for_body (x * x, Z.shiftr p 1, r * x ^ Z.land p 1) h else overflow
  else overflow.
Proof.
  intros Hp. cbn [uloop]. unfold ubind. rewrite ipwr_round by done.
  destruct (is_int (r * _) || _); [|done]. by destruct (is_int (x * x)).
Qed.

(** The last value of [x]. *)
Definition last_square (x p : Z) : Z := x ^ 2 ^ bits p.

Lemma last_square_step x p : 0 < p -> last_square x p = last_square (x * x) (Z.shiftr p 1).
Proof.
  intros Hp. unfold last_square. rewrite (bits_step p Hp). pose proof (bits_nonneg (Z.shiftr p 1)).
  rewrite Z.pow_add_r, Z.pow_1_r by lia. rewrite Z.pow_mul_r by lia. by rewrite Z.pow_2_r.
Qed.

Lemma square_le_last x p : 0 < p -> x * x <= last_square x p.
Proof.
  intros Hp. rewrite last_square_step by done. unfold last_square.
  pose proof (bits_nonneg (Z.shiftr p 1)) as Hb. rewrite <- (Z.pow_1_r (x * x)) at 1.
  assert (0 < 2 ^ bits (Z.shiftr p 1)) by (apply Z.pow_pos_nonneg; lia).
  destruct (Z.eq_dec x 0) as [->|]; [by rewrite !Z.pow_0_l by lia|].
  assert (0 < x * x) by (assert (x < 0 \/ 0 < x) as [] by lia; nia). apply Z.pow_le_mono_r; lia.
Qed.

Lemma square_int x : is_int (x * x) = (x * x <=? INT_MAX).
Proof.
  unfold is_int. rewrite (proj2 (Z.leb_le INT_MIN (x * x))); [done|]. unfold INT_MIN. nia.
Qed.

Lemma abs_int x : Z.abs x <= INT_MAX -> is_int x = true.
Proof. intros H. apply is_int_spec. unfold INT_MIN, INT_MAX in *. lia. Qed.

Lemma ipwr_loop_overflow fuel : forall x p r h, 0 < p -> bits p < Z.of_nat fuel -> INT_MAX < last_square x p ->
  uloop fuel ipwr_for_body (x, p, r) h = overflow.
Proof.
  induction fuel as [|fuel IH]; intros x p r h Hp Hf Hl; [pose proof (bits_nonneg p); lia|].
  rewrite ipwr_step by done. destruct (is_int (r * _) || _); [|done]. rewrite square_int.
  destruct (Z.leb_spec (x * x) INT_MAX) as [Hx|]; [|done]. rewrite last_square_step in Hl by done.
  rewrite (bits_step p Hp) in Hf. assert (0 <= Z.shiftr p 1) by (apply Z.shiftr_nonneg; lia).
  apply IH; [|lia|done]. destruct (Z.eq_dec (Z.shiftr p 1) 0) as [E|]; [|lia].
  rewrite E in Hl. unfold last_square in Hl. change (2 ^ bits 0) with 1 in Hl. rewrite Z.pow_1_r in Hl. lia.
Qed.

Lemma ipwr_loop_value fuel : forall x p r h, 0 <= p -> bits p < Z.of_nat fuel ->
  (0 < p -> last_square x p <= INT_MAX) -> Z.abs (r * x ^ p) <= INT_MAX ->
  uloop fuel ipwr_for_body (x, p, r) h = Val (r * x ^ p) h.
Proof.
  induction fuel as [|fuel IH]; intros x p r h Hp Hf Hl Hr; [pose proof (bits_nonneg p); lia|].
  destruct (Z.eq_dec p 0) as [->|Hn]; [by rewrite Z.mul_1_r|].
  specialize (Hl ltac:(lia)). pose proof (square_le_last x p ltac:(lia)) as Hx.
  rewrite ipwr_step, square_int, (proj2 (Z.leb_le _ _)) by lia.
  assert (is_int (r * x ^ Z.land p 1) || (Z.land p 1 =? 0) = true) as ->.
  { destruct (odd_split p Hp) as (Ep & [->|E]); [by rewrite orb_true_r|]. rewrite E.
    rewrite abs_int; [done|]. etrans; [|exact Hr]. rewrite !Z.abs_mul.
    apply Z.mul_le_mono_nonneg_l; [lia|]. apply abs_pow_mono; lia. }
  rewrite (pow_split x p Hp), Z.mul_assoc in Hr |- *. apply IH; [apply Z.shiftr_nonneg; lia| |intros _|done].
  - rewrite (bits_step p) in Hf by lia. lia.
  - by rewrite <- last_square_step by lia.
Qed.

Lemma pow_le_last x p : 0 < p -> Z.abs (x ^ p) <= last_square x p.
Proof.
  intros Hp. unfold last_square. pose proof (bits_nonneg p) as Hb.
  assert (p < 2 ^ bits p) as Hlt.
  { unfold bits. rewrite (proj2 (Z.eqb_neq p 0)) by lia. pose proof (Z.log2_spec p Hp). rewrite Z.add_1_r. lia. }
  transitivity (Z.abs (x ^ 2 ^ bits p)); [apply abs_pow_mono; lia|]. rewrite Z.abs_eq; [done|].
  rewrite (bits_step p Hp). pose proof (bits_nonneg (Z.shiftr p 1)).
  rewrite Z.pow_add_r, Z.pow_1_r, Z.pow_mul_r by lia. apply Z.pow_nonneg. rewrite Z.pow_2_r. nia.
Qed.

(** [C35] Exponentiation by squaring returns x^p exactly when the square that the last round
    computes and never uses, x^(2^b) for the b binary digits of p, is an [int]; for
    every other base and exponent a signed multiplication overflows. *)
Theorem ipwr_for_exact (x p : Z) (h : host) : 0 <= p < 2 ^ 32 ->
  ipwr_for x p h = if (p =? 0) || (x ^ 2 ^ bits p <=? INT_MAX) then Val (x ^ p) h else overflow.
Proof.
  intros Hp. fold (last_square x p). unfold ipwr_for.
  assert (bits p < 33) as Hb.
  { unfold bits. destruct (Z.eqb_spec p 0); [done|]. assert (Z.log2 p < 32) by (apply Z.log2_lt_pow2; lia). lia. }
  destruct (Z.eqb_spec p 0) as [->|Hn]; [done|]. cbn [orb].
  destruct (Z.leb_spec (last_square x p) INT_MAX) as [Hl|Hl].
  - rewrite <- (Z.mul_1_l (x ^ p)). apply ipwr_loop_value; [lia|done|done|].
    rewrite Z.mul_1_l. etrans; [apply pow_le_last; lia|done].
  - apply ipwr_loop_overflow; [lia|done|done].
Qed.

Lemma ipwr_for_exact_witness :
  ipwr_for 2 5 (mk_host ∅ []) = Val 32 (mk_host ∅ []) /\ ipwr_for 2 16 (mk_host ∅ []) = overflow.
Proof. split; [rewrite (ipwr_for_exact 2 5) by lia|rewrite (ipwr_for_exact 2 16) by lia]; reflexivity. Defined.

(** ** Cards, differences, exchanges and cases *)

(** [!a ^ b] is not [!(a ^ b)]: the answer is no only for a first card that is not a club
    with a second card that is. *)
Lemma sameSuitP_exact c1 c2 :
  sameSuitP c1 c2 = negb (negb (Z.land c1 SUIT_MASK =? 0) && (Z.land c2 SUIT_MASK =? 0)).
Proof.
  unfold sameSuitP, lnot. destruct (Z.eqb_spec (Z.land c1 SUIT_MASK) 0) as [_|_]; cbn [negb andb].
  - assert (Z.lxor 1 (Z.land c2 SUIT_MASK) <> 0) as Hn; [|by destruct (Z.eqb_spec (Z.lxor 1 (Z.land c2 SUIT_MASK)) 0)].
    intros E. apply Z.lxor_eq in E. apply (f_equal (fun z => Z.testbit z 0)) in E.
    rewrite Z.land_spec, andb_false_r in E. discriminate.
  - rewrite Z.lxor_0_l. by destruct (Z.land c2 SUIT_MASK =? 0).
Qed.

(** The seven of hearts and the five of diamonds. *)
Lemma sameSuitP_wrong : sameSuitP 0x27 0x15 = true /\ Z.land 0x27 SUIT_MASK <> Z.land 0x15 SUIT_MASK.
Proof. done. Qed.

Lemma greaterValue_exact c1 c2 : greaterValue c1 c2 = (c1 mod 16 >? c2 mod 16).
Proof.
  unfold greaterValue, VALUE_MASK. change 15 with (Z.ones 4). rewrite !Z.land_ones by lia.
  change (2 ^ 4) with 16. rewrite !u32_small by zlia. done.
Qed.

(** The conditional move computes both differences, and overflows no more often. *)
Lemma absdiff_cmov_eq x y h : absdiff_cmov x y h = absdiff x y h.
Proof.
  unfold absdiff_cmov, absdiff. rewrite int_bind.
  destruct (Z.gtb_spec x y), (Z.leb_spec x y); try lia; unfold int_ at 2, ubind, int_, is_int, INT_MIN, INT_MAX;
    repeat match goal with |- context [?a <=? ?b] => destruct (Z.leb_spec a b); try lia end; done.
Qed.

Lemma max_of_three_max a b c : max_of_three a b c = Z.max a (Z.max b c).
Proof. unfold max_of_three. destruct (Z.gtb_spec b a); zcase; lia. Qed.

(** All the exchanges agree, and they exchange: also when the two pointers are one. *)
Lemma swap_exchanges xp yp a b h : h_mem h !! xp = Some a -> h_mem h !! yp = Some b ->
  swap xp yp h = Val tt (mk_host (<[yp := a]> (<[xp := b]> (h_mem h))) (h_out h)).
Proof.
  intros Hx Hy. unfold swap, ubind, load, store. rewrite Hx, Hy, Hx. cbn [h_mem h_out].
  destruct (decide (xp = yp)) as [->|Hne].
  - by rewrite lookup_insert_eq.
  - by rewrite lookup_insert_ne, Hy.
Qed.

Lemma swap_twice xp yp a b h : h_mem h !! xp = Some a -> h_mem h !! yp = Some b ->
  (swap xp yp ;;~ swap xp yp) h = Val tt h.
Proof.
  intros Hx Hy. rewrite (ubind_val _ _ _ _ _ (swap_exchanges xp yp a b h Hx Hy)).
  rewrite (swap_exchanges xp yp b a); cbn [h_mem h_out].
  - destruct h as [m o]. cbn [h_mem h_out] in *. do 2 f_equal. apply map_eq. intros q.
    rewrite !lookup_insert. repeat case_decide; congruence.
  - rewrite !lookup_insert. repeat case_decide; congruence.
  - by rewrite lookup_insert_eq.
Qed.

(** Division by an [unsigned long] is unsigned: a negative [y] is halved as 2^64 + [y]. *)
Lemma switch_divides y z h : - 2 ^ 63 <= y < 2 ^ 63 -> -(2 ^ 62) <= z < 0 ->
  switch_example 2 y z h = Val ((if y <? 0 then 2 ^ 63 + y / 2 else y / 2) + z) h.
Proof.
  intros Hy Hz. unfold switch_example. cbn [Z.eqb Pos.eqb].
  assert (s64 (u64 y / 2) = if y <? 0 then 2 ^ 63 + y / 2 else y / 2) as ->.
  { unfold u64, s64, wrapS, wrapU. change (64 - 1) with 63. destruct (Z.ltb_spec y 0).
    - assert (y mod 2 ^ 64 = y + 2 ^ 64) as -> by (symmetry; apply (Z.mod_unique_pos _ _ (-1)); lia).
      replace ((y + 2 ^ 64) / 2) with (2 ^ 63 + y / 2) by zlia. rewrite Z.mod_small; zlia.
    - rewrite (Z.mod_small y) by lia. rewrite Z.mod_small; zlia. }
  unfold long_, is_long. rewrite (proj2 (Z.leb_le _ _)), (proj2 (Z.ltb_lt _ _)); [done|..];
    destruct (Z.ltb_spec y 0); zlia.
Qed.

(** [increment] stores the address. *)
Lemma increment_stores_pointer p v h : h_mem h !! p = Some v ->
  increment p h = Val tt (mk_host (<[p := s32 (p + 4)]> (h_mem h)) (h_out h)).
Proof. intros H. unfold increment, store. by rewrite H. Qed.

(** ** The growing block *)

Lemma foo_fill_loop f k : forall i p fuel h, (k < fuel)%nat -> (i + k <= length p)%nat ->
  uloop fuel (foo_fill (Z.of_nat (i + k)) f) (Z.of_nat i, p) h =
  Val (take i p ++ ((fun j => Some (f (Z.of_nat j))) <$> seq i k) ++ drop (i + k) p) h.
Proof.
  induction k as [|k IH]; intros i p [|fuel] h Hf Hp; try lia; cbn [uloop]; unfold ubind, foo_fill at 1.
  { rewrite Nat.add_0_r, Z.ltb_irrefl. cbn [seq fmap list_fmap app]. by rewrite take_drop. }
  rewrite (proj2 (Z.ltb_lt _ _)) by lia. unfold ubind, set_word.
  rewrite (proj2 (Z.leb_le 0 _)), (proj2 (Z.ltb_lt _ _)), Nat2Z.id by lia. cbn [andb]. unfold uret.
  replace (Z.of_nat i + 1) with (Z.of_nat (S i)) by lia.
  replace (i + S k)%nat with (S i + k)%nat by lia. rewrite (IH (S i)); [|lia|rewrite length_insert; lia].
  cbn [seq fmap list_fmap]. rewrite (take_S_r _ i (Some (f (Z.of_nat i)))) by (apply list_lookup_insert_eq; lia).
  rewrite take_insert_ge, drop_insert_lt by lia. by rewrite <- (assoc_L (++)).
Qed.

Definition line (v : Z) : string * list arg := ("%d\n"%string, [AZ v]).

Lemma foo_print_loop vs k : forall i fuel h, (k < fuel)%nat -> (i + k = length vs)%nat ->
  uloop fuel (foo_print (Z.of_nat (i + k)) (Some <$> vs)) (Z.of_nat i) h =
  Val tt (mk_host (h_mem h) (h_out h ++ (line <$> drop i vs))).
Proof.
  induction k as [|k IH]; intros i [|fuel] h Hf Hl; try lia; cbn [uloop]; unfold ubind, foo_print at 1.
  { rewrite Nat.add_0_r, Z.ltb_irrefl, drop_ge, app_nil_r by lia. by destruct h. }
  rewrite (proj2 (Z.ltb_lt _ _)) by lia. unfold ubind, get_word.
  rewrite (proj2 (Z.leb_le 0 _)), Nat2Z.id by lia.
  destruct (lookup_lt_is_Some_2 vs i ltac:(lia)) as (v & Ev). rewrite list_lookup_fmap, Ev. cbn [fmap option_fmap option_map].
  unfold uret, printf. replace (Z.of_nat i + 1) with (Z.of_nat (S i)) by lia.
  replace (i + S k)%nat with (S i + k)%nat by lia. rewrite IH by lia. cbn [h_mem h_out].
  rewrite (drop_S vs v i Ev). cbn [fmap list_fmap]. by rewrite <- (assoc_L (++)).
Qed.

(** Ones in the first block, the indices in what [realloc] added. *)
Lemma foo_prints mok rok n m h : 0 <= n -> 0 <= m -> n + m <= INT_MAX ->
  mok (n * 4) = true -> rok ((n + m) * 4) = true ->
  foo mok rok n m h =
  Val tt (mk_host (h_mem h) (h_out h ++ (line <$> replicate (Z.to_nat n) 1 ++ seqZ n m))).
Proof.
  unfold INT_MAX. intros Hn Hm Hs E1 E2. unfold foo. rewrite (u64_small (n * 4)), E1 by lia. cbn [negb].
  assert (forall z, words (z * 4) = Z.to_nat z) as Hw by (intros; unfold words; by rewrite Z.div_mul).
  pose proof (foo_fill_loop (fun _ => 1) (Z.to_nat n) 0 (replicate (Z.to_nat n) None) (S (Z.to_nat n)) h
    ltac:(lia) ltac:(rewrite length_replicate; lia)) as L1.
  rewrite Nat.add_0_l, Z2Nat.id in L1 by lia. rewrite Hw. rewrite (ubind_val _ _ _ _ _ L1).
  rewrite int_bind, (proj2 (is_int_spec _)) by (unfold INT_MIN, INT_MAX; lia).
  rewrite u64_small, E2 by lia. cbn [negb]. rewrite Hw. set (p1 := take 0 _ ++ _ ++ _).
  assert (p1 = Some <$> replicate (Z.to_nat n) 1) as Ep.
  { unfold p1. rewrite drop_ge by (rewrite length_replicate; lia). rewrite app_nil_r, fmap_replicate.
    symmetry. apply replicate_as_elem_of. rewrite take_0, app_nil_l, length_fmap, length_seq. split; [done|].
    intros x Hx. apply list_elem_of_fmap in Hx as (j & -> & _). done. }
  assert (resize_block (Z.to_nat (n + m)) p1 = p1 ++ replicate (Z.to_nat m) None) as Er.
  { unfold resize_block. assert (length p1 = Z.to_nat n) as El by (by rewrite Ep, length_fmap, length_replicate).
    rewrite take_ge, El by lia. do 2 f_equal. lia. }
  pose proof (foo_fill_loop (fun i => i) (Z.to_nat m) (Z.to_nat n) (p1 ++ replicate (Z.to_nat m) None) (S (Z.to_nat m)) h
    ltac:(lia) ltac:(rewrite length_app, Ep, length_fmap, !length_replicate; lia)) as L2.
  rewrite Er. rewrite <- Z2Nat.inj_add, !Z2Nat.id in L2 by lia. rewrite (ubind_val _ _ _ _ _ L2).
  rewrite take_app_length', drop_ge, app_nil_r, Ep; [|rewrite length_app, Ep, length_fmap, !length_replicate; lia
    |by rewrite Ep, length_fmap, length_replicate].
  assert ((fun j => Some (Z.of_nat j)) <$> seq (Z.to_nat n) (Z.to_nat m) = Some <$> seqZ n m) as ->.
  { unfold seqZ. rewrite <- (Nat.add_0_r (Z.to_nat n)), <- fmap_add_seq, <- !list_fmap_compose. apply list_fmap_ext. intros ? j _. simpl. f_equal. lia. }
  rewrite <- fmap_app. pose proof (foo_print_loop (replicate (Z.to_nat n) 1 ++ seqZ n m) (Z.to_nat (n + m)) 0
    (S (Z.to_nat (n + m))) h ltac:(lia) ltac:(rewrite length_app, length_replicate, length_seqZ; lia)) as L3.
  rewrite Nat.add_0_l, Z2Nat.id in L3 by lia. exact L3.
Qed.

End Practicals.
