(* ===== verification/Mkfs.v ===== *)
(** * Building a file system image: mkfs/mkfs.c

    The image is written sector by sector into a host file; [image] holds its sectors.  [iappend]
    grows a file block by block, taking new blocks from the counter [freeblock];
    [ialloc] takes inode numbers from [freeinode]; [main] writes the super block, the
    root directory with the given files, and the bitmap of the blocks in use.  The host is little
    endian.  [die] and a usage error are an exit with status 1, a failed [assert] an abort.
    What the program prints is left out. *)

From Stdlib Require Import ZArith Lia.
From stdpp Require Import base list gmap strings numbers option.
From S2P Require Import Prelude Bytes Riscv Cstring Kstate Printf Bio Fs Unix.

Module Mkfs.

(** ** Layout *)

Definition NINODES : Z := 200.
Definition nbitmap : Z := FSSIZE / BPB + 1.
Definition ninodeblocks : Z := NINODES / IPB + 1.
Definition nlog : Z := LOGSIZE.
Definition nmeta : Z := 2 + nlog + ninodeblocks + nbitmap.
Definition nblocks : Z := FSSIZE - nmeta.

(** Values as the bytes [a[0]], [a[1]], ... of the result give them. *)
Definition xshort (x : Z) : Z := le_val [u8 x; u8 (Z.shiftr x 8)].
Definition xint (x : Z) : Z := le_val [u8 x; u8 (Z.shiftr x 8); u8 (Z.shiftr x 16); u8 (Z.shiftr x 24)].

(** The global [sb], as [main] sets it before its first use. *)
Definition sb : superblock :=
  {| sb_magic := FSMAGIC; sb_size := xint FSSIZE; sb_nblocks := xint nblocks; sb_ninodes := xint NINODES;
     sb_nlog := xint nlog; sb_logstart := xint 2; sb_inodestart := xint (2 + nlog);
     sb_bmapstart := xint (2 + nlog + ninodeblocks) |}.

(** [struct dinode] *)
Record dinode := mk_dinode { d_type : Z; d_major : Z; d_minor : Z; d_nlink : Z; d_size : Z; d_addrs : list Z }.

Definition set_d_size (n : Z) (d : dinode) : dinode :=
  mk_dinode (d_type d) (d_major d) (d_minor d) (d_nlink d) n (d_addrs d).
Definition set_d_addr (i : nat) (a : Z) (d : dinode) : dinode :=
  mk_dinode (d_type d) (d_major d) (d_minor d) (d_nlink d) (d_size d) (<[i := a]> (d_addrs d)).
Definition d_addr (d : dinode) (i : nat) : Z := default 0 (d_addrs d !! i).

(** The fields the kernel's in-memory inode has from the disk. *)
Definition as_inode (d : dinode) : inode :=
  {| i_dev := 0; i_inum := 0; i_ref := 0; i_lock := zero_sleeplock; i_valid := false; i_type := d_type d;
     i_major := d_major d; i_minor := d_minor d; i_nlink := d_nlink d; i_size := d_size d; i_addrs := d_addrs d |}.
Definition of_inode (ip : inode) : dinode :=
  mk_dinode (i_type ip) (i_major ip) (i_minor ip) (i_nlink ip) (i_size ip) (i_addrs ip).

Record mkfs := mk_mkfs { image : gmap Z (list Z); freeinode : Z; freeblock : Z }.

(** ** Operations *)

Definition die {A} : U mkfs A := exit 1.
Definition assert (b : bool) : U mkfs unit := if b then uret tt else fun _ => Stuck "assert".

(** The sector at file position [sec * BSIZE], computed in 32 bits. *)
Definition sector (sec : Z) : Z := u32 (sec * BSIZE) / BSIZE.

Definition wsect (sec : Z) (buf : list Z) : U mkfs unit := fun s =>
  Val tt (mk_mkfs (<[sector sec := buf]> (image s)) (freeinode s) (freeblock s)).
Definition rsect (sec : Z) : U mkfs (list Z) := fun s =>
  match image s !! sector sec with Some buf => Val buf s | None => die s end.

Definition winode (inum : Z) (ip : dinode) : U mkfs unit :=
  let bn := IBLOCK inum sb in
  buf <~ rsect bn ;;
  wsect bn (din_store buf (inum mod IPB) (as_inode ip)).

Definition rinode (inum : Z) : U mkfs dinode :=
  let bn := IBLOCK inum sb in
  buf <~ rsect bn ;;
  uret (of_inode (din_load buf (inum mod IPB) zero_inode)).

(** [freeinode++] and [freeblock++] *)
Definition next_inode : U mkfs Z := fun s => Val (freeinode s) (mk_mkfs (image s) (u32 (freeinode s + 1)) (freeblock s)).
Definition next_block : U mkfs Z := fun s => Val (freeblock s) (mk_mkfs (image s) (freeinode s) (u32 (freeblock s + 1))).

Definition ialloc (type : Z) : U mkfs Z :=
  inum <~ next_inode ;;
  winode inum (mk_dinode (xshort type) 0 0 (xshort 1) (xint 0) (replicate (S NDIRECT) 0)) ;;~
  uret inum.

(** [for(i = 0; i < used; i++) buf[i/8] = buf[i/8] | (0x1 << (i%8));] *)
Fixpoint set_bits (n : nat) (i : Z) (buf : list Z) : list Z :=
  match n with
  | O => buf
  | S n' => set_bits n' (i + 1) (<[Z.to_nat (i / 8) := u8 (Z.lor (byte_at buf (i / 8)) (Z.shiftl 1 (i mod 8)))]> buf)
  end.

Definition balloc (used : Z) : U mkfs unit :=
  assert (used <? BPB) ;;~
  wsect (sb_bmapstart sb) (set_bits (Z.to_nat used) 0 (replicate (Z.to_nat BSIZE) 0)).

(** The disk block of file block [fbn], allocated when there is none yet. *)
Definition iappend_block (fbn : Z) (din : dinode) : U mkfs (Z * dinode) :=
  if fbn <? Z.of_nat NDIRECT then
    din <~ (if xint (d_addr din (Z.to_nat fbn)) =? 0
            then b <~ next_block ;; uret (set_d_addr (Z.to_nat fbn) (xint b) din) else uret din) ;;
    uret (xint (d_addr din (Z.to_nat fbn)), din)
  else
    din <~ (if xint (d_addr din NDIRECT) =? 0
            then b <~ next_block ;; uret (set_d_addr NDIRECT (xint b) din) else uret din) ;;
    indirect <~ rsect (xint (d_addr din NDIRECT)) ;;
    let j := Z.to_nat (4 * (fbn - Z.of_nat NDIRECT)) in
    indirect <~ (if get_le 4 indirect j =? 0
                 then b <~ next_block ;;
                      let indirect := put_le 4 indirect j (xint b) in
                      wsect (xint (d_addr din NDIRECT)) indirect ;;~
                      uret indirect
                 else uret indirect) ;;
    uret (xint (get_le 4 indirect j), din).

(** [p]: the [n] bytes still to append. *)
Definition iappend_body (x : list Z * Z * dinode) : U mkfs (list Z * Z * dinode + Z * dinode) :=
  let '(p, off, din) := x in
  if (length p =? 0)%nat then uret (inr (off, din)) else
  let fbn := off / BSIZE in
  assert (fbn <? MAXFILE) ;;~
  r <~ iappend_block fbn din ;;
  let '(b, din) := r in
  let n1 := Z.min (Z.of_nat (length p)) ((fbn + 1) * BSIZE - off) in
  buf <~ rsect b ;;
  wsect b (splice buf (Z.to_nat (off - fbn * BSIZE)) (take (Z.to_nat n1) p)) ;;~
  uret (inl (drop (Z.to_nat n1) p, u32 (off + n1), din)).

Definition iappend (inum : Z) (p : list Z) : U mkfs unit :=
  din <~ rinode inum ;;
  r <~ uloop (S (length p)) iappend_body (p, xint (d_size din), din) ;;
  let '(off, din) := r in
  winode inum (set_d_size (xint off) din).

(** [struct dirent] *)
Definition dirent (inum : Z) (name : list Z) : list Z := le_bytes 2 (xshort inum) ++ pad DIRSIZ name.

Definition slash : Z := 47.
Definition underscore : Z := 95.

(** The name of the file in the image: without [user/] and a leading underscore. *)
Definition without_user (path : list Z) : list Z :=
  if decide (take 5 path = bytes_of "user/") then drop 5 path else path.
Definition without_underscore (name : list Z) : list Z :=
  match name with c :: name' => if c =? underscore then name' else name | [] => [] end.

(** The reads of a host file: [read] returns the pieces one after the other. *)
Fixpoint copy_pieces (inum : Z) (pieces : list (list Z)) : U mkfs unit :=
  match pieces with
  | [] => uret tt
  | buf :: pieces' => if (length buf =? 0)%nat then uret tt else iappend inum buf ;;~ copy_pieces inum pieces'
  end.

Fixpoint clear_sectors (n : nat) (i : Z) : U mkfs unit :=
  match n with
  | O => uret tt
  | S n' => wsect i (replicate (Z.to_nat BSIZE) 0) ;;~ clear_sectors n' (i + 1)
  end.

(** The host's files: what [open] and the [read]s of a path give. *)
Section main.
Context (host : list Z -> option (list (list Z))).

Definition add_file (rootino : Z) (path : list Z) : U mkfs unit :=
  let shortname := without_user path in
  assert (negb (bool_decide (slash ∈ shortname))) ;;~
  match host path with
  | None => die
  | Some pieces =>
      let shortname := without_underscore shortname in
      assert (length shortname <=? DIRSIZ)%nat ;;~
      inum <~ ialloc T_FILE ;;
      iappend rootino (dirent inum shortname) ;;~
      copy_pieces inum pieces
  end.

Fixpoint add_files (rootino : Z) (paths : list (list Z)) : U mkfs unit :=
  match paths with
  | [] => uret tt
  | path :: paths' => add_file rootino path ;;~ add_files rootino paths'
  end.

Definition put_sb (buf : list Z) : list Z :=
  splice buf 0 (concat (map (le_bytes 4) [sb_magic sb; sb_size sb; sb_nblocks sb; sb_ninodes sb; sb_nlog sb;
                                          sb_logstart sb; sb_inodestart sb; sb_bmapstart sb])).

Definition set_freeblock (n : Z) : U mkfs unit := fun s => Val tt (mk_mkfs (image s) (freeinode s) n).
Definition get_freeblock : U mkfs Z := fun s => Val (freeblock s) s.

(** [argv]: the program, the image and the files; [creates]: the image can be opened. *)
Definition main (creates : bool) (argv : list (list Z)) : U mkfs unit :=
  if (length argv <? 2)%nat then exit 1 else
  assert (BSIZE mod 64 =? 0) ;;~
  assert (BSIZE mod 16 =? 0) ;;~
  if negb creates then die else
  set_freeblock nmeta ;;~
  clear_sectors (Z.to_nat FSSIZE) 0 ;;~
  wsect 1 (put_sb (replicate (Z.to_nat BSIZE) 0)) ;;~
  rootino <~ ialloc T_DIR ;;
  assert (rootino =? ROOTINO) ;;~
  iappend rootino (dirent rootino (bytes_of ".")) ;;~
  iappend rootino (dirent rootino (bytes_of "..")) ;;~
  add_files rootino (drop 2 argv) ;;~
  din <~ rinode rootino ;;
  let off := (xint (d_size din) / BSIZE + 1) * BSIZE in
  winode rootino (set_d_size (xint off) din) ;;~
  used <~ get_freeblock ;;
  balloc used ;;~
  exit 0.

(** The static variables at the start. *)
Definition start : mkfs := mk_mkfs ∅ 1 0.
End main.
End Mkfs.
