(* ===== verification/MkfsSpec.v ===== *)
(** * Appending to a file of an image: lemmas about mkfs/mkfs.c

    A file of the image owns data blocks and, behind the twelfth, an indirect block; [fs_ok] says
    that the files' inodes and bytes are in the image, that no two files share a block and that
    the blocks in use are those below [freeblock].  [ialloc] and [iappend] keep it: they
    change the contents of the one file they are called for.  [MkfsImage] has the theorem about
    [main]. *)

From Stdlib Require Import ZArith Lia.
From stdpp Require Import base list gmap strings numbers option.
From S2P Require Import Prelude Bytes Riscv Cstring Kstate Printf Bio BioSpec LogSpec Fs FsPure Bitmap FsRead Unix Mkfs.
Import Mkfs.

Module MkfsSpec.

(** ** Numbers *)

Lemma xint_small x : 0 <= x < 2 ^ 32 -> xint x = x.
Proof. intros H. unfold xint, u8, wrapU. cbn [le_val]. rewrite !Z.shiftr_div_pow2 by lia. zlia. Qed.

Lemma xshort_small x : 0 <= x < 2 ^ 16 -> xshort x = x.
Proof. intros H. unfold xshort, u8, wrapU. cbn [le_val]. rewrite !Z.shiftr_div_pow2 by lia. zlia. Qed.

Lemma sector_small b : 0 <= b < 2000 -> sector b = b.
Proof. intros H. unfold sector, u32, wrapU. change BSIZE with 1024. rewrite Z.mod_small by lia. zlia. Qed.

(** ** Blocks of a file *)

Definition zeros : list Z := replicate 1024 0.

(** Block [k] of a file with the given bytes, filled up with zeros. *)
Definition blockpad (k : nat) (data : list Z) : list Z := take 1024 (drop (1024 * k) data ++ zeros).

Lemma length_blockpad k data : length (blockpad k data) = 1024%nat.
Proof. unfold blockpad, zeros. rewrite length_take, length_app, length_replicate. lia. Qed.

Lemma lookup_blockpad k data i : (i < 1024)%nat -> blockpad k data !! i = Some (default 0 (data !! (1024 * k + i)%nat)).
Proof.
  intros Hi. unfold blockpad, zeros. rewrite lookup_take_lt by done.
  destruct (data !! (1024 * k + i)%nat) as [x|] eqn:E.
  - rewrite lookup_app_l; [by rewrite lookup_drop, E|]. rewrite length_drop. apply lookup_lt_Some in E. lia.
  - apply lookup_ge_None in E. rewrite lookup_app_r by (rewrite length_drop; lia).
    rewrite lookup_replicate_2; [done|]. rewrite length_drop. lia.
Qed.

Lemma blockpad_end k data : (length data <= 1024 * k)%nat -> blockpad k data = zeros.
Proof. intros H. unfold blockpad. by rewrite drop_ge by done. Qed.

Lemma blockpad_app k data l : (1024 * S k <= length data)%nat -> blockpad k (data ++ l) = blockpad k data.
Proof.
  intros H. apply list_eq. intros i. destruct (decide (i < 1024)%nat) as [Hi|Hi].
  - rewrite !lookup_blockpad by done. by rewrite lookup_app_l by lia.
  - rewrite !lookup_ge_None_2; [done|..]; rewrite length_blockpad; lia.
Qed.

Lemma blockpad_splice k data l : (1024 * k <= length data)%nat -> (length data + length l <= 1024 * S k)%nat ->
  splice (blockpad k data) (length data - 1024 * k) l = blockpad k (data ++ l).
Proof.
  intros H1 H2. apply list_eq. intros i. destruct (decide (i < 1024)%nat) as [Hi|Hi].
  - rewrite lookup_splice by (rewrite length_blockpad; lia). rewrite !lookup_blockpad by done. case_decide as Hc.
    + rewrite lookup_app_r by lia. replace (1024 * k + i - length data)%nat with (i - (length data - 1024 * k))%nat by lia.
      destruct (lookup_lt_is_Some_2 l (i - (length data - 1024 * k))%nat) as [x ->]; [lia|done].
    + do 2 f_equal. destruct (decide (i < length data - 1024 * k)%nat).
      * by rewrite lookup_app_l by lia.
      * rewrite !lookup_ge_None_2; [done|rewrite length_app; lia|lia].
  - rewrite !lookup_ge_None_2; [done|rewrite length_blockpad; lia|].
    rewrite length_splice; rewrite length_blockpad; lia.
Qed.

(** ** A file in an image *)

(** The blocks a file owns: its data blocks and its indirect block. *)
Definition own (B : list Z) (ind : Z) : list Z := B ++ (if ind =? 0 then [] else [ind]).

Lemma own_ind B ind : ind <> 0 -> own B ind = B ++ [ind].
Proof. intros H. unfold own. by rewrite (proj2 (Z.eqb_neq _ _) H). Qed.

Lemma own_ind_in B ind : ind <> 0 -> ind ∈ own B ind.
Proof. intros H. rewrite own_ind by done. set_solver. Qed.

Lemma nodup_snoc (B : list Z) a : NoDup (B ++ [a]) <-> NoDup B /\ a ∉ B.
Proof. rewrite list.NoDup_app. split; [set_solver|]. intros [? ?]. split; [done|]. split; [set_solver|apply NoDup_singleton]. Qed.

Record file_ok (img : gmap Z (list Z)) (fb : Z) (d : dinode) (data B : list Z) (ind : Z) : Prop := {
  fo_addrs : d_addrs d = take 12 B ++ replicate (12 - length B) 0 ++ [ind];
  fo_blocks : forall k b, B !! k = Some b -> img !! b = Some (blockpad k data);
  fo_ind : (ind = 0 /\ (length B <= 12)%nat) \/
    ((12 <= length B <= 268)%nat /\ ind <> 0 /\ exists t, img !! ind = Some t /\ length t = 1024%nat /\
     forall j, (j < 256)%nat -> get_le 4 t (4 * j) = default 0 (B !! (12 + j)%nat));
  fo_range : Forall (fun b => 46 <= b < fb) (own B ind);
  fo_nodup : NoDup (own B ind);
  fo_end : (length data <= 1024 * length B)%nat
}.

(** The number of blocks an image's file of [n] bytes owns. *)
Definition blocks_of (n : nat) : nat := Z.to_nat ((Z.of_nat n + 1023) / 1024).
Definition needed (n : nat) : nat := blocks_of n + (if decide (12 < blocks_of n)%nat then 1 else 0).
Definition closed (data B : list Z) (ind : Z) : Prop :=
  length B = blocks_of (length data) /\ (ind = 0 <-> (length B <= 12)%nat).

Lemma length_own data B ind : closed data B ind -> length (own B ind) = needed (length data).
Proof.
  intros [Hl Hi]. unfold own, needed. rewrite length_app, Hl. f_equal. rewrite Hl in Hi.
  destruct (Z.eqb_spec ind 0), (decide (12 < blocks_of (length data))%nat); simpl; try lia.
Qed.

Lemma file_ok_frame img img' fb fb' d data B ind : file_ok img fb d data B ind -> fb <= fb' ->
  (forall b, b ∈ own B ind -> img' !! b = img !! b) -> file_ok img' fb' d data B ind.
Proof.
  intros [Ha Hb Hi Hr Hn He] Hfb Hf. split; try done.
  - intros k b Hk. rewrite Hf by (apply elem_of_app; left; by eapply list_elem_of_lookup_2). by apply Hb.
  - destruct Hi as [Hi|(Hl & Hne & t & Ht & Hlt & Hj)]; [by left|right]. split; [done|]. split; [done|]. exists t. split; [|done].
    rewrite Hf; [done|by apply own_ind_in].
  - eapply list.Forall_impl; [exact Hr|]. cbn. lia.
Qed.

(** ** Giving a file one more block *)

Lemma d_addr_direct img fb d data B ind k : file_ok img fb d data B ind -> (k < 12)%nat ->
  d_addr d k = default 0 (B !! k).
Proof.
  intros [Ha _ _ _ _ _] Hk. unfold d_addr. rewrite Ha. destruct (B !! k) as [b|] eqn:E.
  - rewrite lookup_app_l; [by rewrite lookup_take_lt, E|]. rewrite length_take. apply lookup_lt_Some in E. lia.
  - apply lookup_ge_None in E. rewrite lookup_app_r by (rewrite length_take; lia).
    rewrite lookup_app_l by (rewrite length_replicate, length_take; lia). by rewrite lookup_replicate_2 by (rewrite length_take; lia).
Qed.

Lemma d_addr_ind img fb d data B ind : file_ok img fb d data B ind -> d_addr d 12 = ind.
Proof.
  intros [Ha _ _ _ _ _]. unfold d_addr. rewrite Ha, lookup_app_r by (rewrite length_take; lia).
  rewrite lookup_app_r by (rewrite length_replicate, length_take; lia).
  rewrite length_replicate, length_take. by replace (12 - Nat.min 12 (length B) - (12 - length B))%nat with 0%nat by lia.
Qed.

Lemma length_d_addrs img fb d data B ind : file_ok img fb d data B ind -> length (d_addrs d) = 13%nat.
Proof. intros [Ha _ _ _ _ _]. rewrite Ha, !length_app, length_take, length_replicate. change (length [ind]) with 1%nat. lia. Qed.

Lemma own_fresh fb B ind : Forall (fun b => 46 <= b < fb) (own B ind) -> fb ∉ own B ind.
Proof. rewrite list.Forall_forall. intros H Hin. specialize (H _ Hin). lia. Qed.

Lemma own_grow fb B ind : 46 <= fb -> Forall (fun b => 46 <= b < fb) (own B ind) -> NoDup (own B ind) ->
  Forall (fun b => 46 <= b < fb + 1) (own (B ++ [fb]) ind) /\ NoDup (own (B ++ [fb]) ind).
Proof.
  intros H46 Hr Hn. pose proof (own_fresh _ _ _ Hr) as Hf.
  assert (own (B ++ [fb]) ind ≡ₚ fb :: own B ind) as Hp.
  { unfold own. rewrite <-(assoc_L (++)). simpl. by rewrite Permutation_middle. }
  rewrite Hp. split; [apply list.Forall_cons; split; [lia|]|by apply list.NoDup_cons].
  eapply list.Forall_impl; [exact Hr|]. cbn. lia.
Qed.

Lemma blocks_grow (img : gmap Z (list Z)) fb data B : img !! fb = Some zeros -> (length data <= 1024 * length B)%nat ->
  (forall k b, B !! k = Some b -> img !! b = Some (blockpad k data)) ->
  forall k b, (B ++ [fb]) !! k = Some b -> img !! b = Some (blockpad k data).
Proof.
  intros Hz He Hb k b [[_ Hk]|[-> <-]]%lookup_snoc_Some; [by apply Hb|]. by rewrite blockpad_end.
Qed.

Lemma add_direct img fb d data B : file_ok img fb d data B 0 -> (length B < 12)%nat -> img !! fb = Some zeros -> 46 <= fb ->
  file_ok img (fb + 1) (set_d_addr (length B) fb d) data (B ++ [fb]) 0.
Proof.
  intros [Ha Hb Hi Hr Hn He] Hl Hz H46. destruct (own_grow fb B 0 H46 Hr Hn) as [Hr' Hn'].
  split; [|by eapply blocks_grow| |done|done|rewrite length_app; simpl; lia].
  - cbn [set_d_addr d_addrs]. rewrite Ha, !take_ge by (rewrite ?length_app; simpl; lia).
    rewrite insert_app_r_alt by lia. rewrite Nat.sub_diag.
    replace (12 - length B)%nat with (S (11 - length B)) by lia. simpl. rewrite length_app, <-(assoc_L (++)).
    by replace (12 - (length B + length [fb]))%nat with (11 - length B)%nat by (simpl; lia).
  - left. rewrite length_app. simpl. lia.
Qed.

Lemma add_table img fb d data B : file_ok img fb d data B 0 -> length B = 12%nat -> img !! fb = Some zeros -> 46 <= fb ->
  file_ok img (fb + 1) (set_d_addr 12 fb d) data B fb.
Proof.
  intros [Ha Hb Hi Hr Hn He] Hl Hz H46. pose proof (own_fresh _ _ _ Hr) as Hf.
  assert (own B 0 = B) as E0 by (unfold own; simpl; by rewrite app_nil_r). rewrite E0 in *.
  assert (own B fb = B ++ [fb]) as E1 by (apply own_ind; lia).
  split; [|done| | | |done].
  - cbn [set_d_addr d_addrs]. rewrite Ha, !take_ge, Hl, Nat.sub_diag by lia. simpl. rewrite insert_app_r_alt by lia.
    by rewrite Hl.
  - right. split; [lia|]. split; [lia|]. exists zeros. split; [done|]. split; [done|]. intros j Hj.
    rewrite lookup_ge_None_2 by lia. unfold get_le, slice, zeros. rewrite drop_replicate, take_replicate.
    by replace (4 `min` (1024 - 4 * j))%nat with 4%nat by lia.
  - rewrite E1. apply Forall_app. split; [|by repeat constructor; lia]. eapply list.Forall_impl; [exact Hr|]. cbn. lia.
  - rewrite E1. by apply nodup_snoc.
Qed.

Lemma add_indirect img fb d data B ind t : file_ok img fb d data B ind -> (12 <= length B < 268)%nat -> ind <> 0 ->
  img !! ind = Some t -> img !! fb = Some zeros -> 46 <= fb < 2 ^ 32 ->
  file_ok (<[ind := put_le 4 t (4 * (length B - 12)) fb]> img) (fb + 1) d data (B ++ [fb]) ind.
Proof.
  intros [Ha Hb Hi Hr Hn He] Hl Hne Ht Hz H46. destruct (own_grow fb B ind ltac:(lia) Hr Hn) as [Hr' Hn'].
  destruct Hi as [[? _]|(_ & _ & t' & Ht' & Hlt & Hj)]; [done|]. rewrite Ht in Ht'. injection Ht' as <-.
  assert (ind ∉ B ++ [fb]) as Hind.
  { rewrite own_ind in Hn' by done. by apply nodup_snoc in Hn' as [_ ?]. }
  split; [| | |done|done|rewrite length_app; simpl; lia].
  - rewrite Ha, take_app_le by lia. rewrite length_app. by replace (12 - (length B + length [fb]))%nat with (12 - length B)%nat by (simpl; lia).
  - intros k b Hk. rewrite lookup_insert_ne by (intros <-; by apply Hind, (list_elem_of_lookup_2 _ k)). by eapply blocks_grow.
  - right. split; [rewrite length_app; simpl; lia|]. split; [done|]. eexists. split; [by rewrite lookup_insert_eq|].
    split; [rewrite length_put_le; lia|]. intros j Hj256. destruct (decide (j = length B - 12)%nat) as [->|Hjl].
    + rewrite get_put_le_same by lia. replace (12 + (length B - 12))%nat with (length B) by lia.
      rewrite lookup_app_r, Nat.sub_diag by lia. simpl. by rewrite Z.mod_small by (simpl; lia).
    + rewrite get_put_le_other by lia. rewrite Hj by done. destruct (decide (12 + j < length B)%nat).
      * by rewrite lookup_app_l by lia.
      * rewrite !lookup_ge_None_2; [done|rewrite length_app; simpl; lia|lia].
Qed.

(** Bytes are added to the last block. *)
Lemma write_last img fb d data B ind k b l : file_ok img fb d data B ind -> B !! k = Some b -> length B = S k ->
  (1024 * k <= length data)%nat -> (length data + length l <= 1024 * S k)%nat ->
  file_ok (<[b := blockpad k (data ++ l)]> img) fb d (data ++ l) B ind.
Proof.
  intros [Ha Hb Hi Hr Hn He] Hk Hl H1 H2. pose proof (list_elem_of_lookup_2 _ _ _ Hk) as HbB.
  assert (NoDup B) as HnB by (by apply list.NoDup_app in Hn as (? & _)).
  split; [done| | |done|done|rewrite length_app; lia].
  - intros j c Hj. destruct (decide (c = b)) as [->|Hc].
    + rewrite lookup_insert_eq. by rewrite (list.NoDup_lookup _ _ _ _ HnB Hj Hk).
    + rewrite lookup_insert_ne by done. rewrite (Hb j c Hj). f_equal. symmetry. apply blockpad_app.
      assert (j <> k) by congruence. apply lookup_lt_Some in Hj. lia.
  - destruct Hi as [Hi|(Hl' & Hne & t & Ht & Hrest)]; [by left|right]. split; [done|]. split; [done|]. exists t. split; [|done].
    rewrite lookup_insert_ne; [done|]. intros <-. rewrite own_ind in Hn by done. by apply nodup_snoc in Hn as [_ ?].
Qed.

(** ** [iappend_block] *)

Record disk_ok (s : mkfs) : Prop := {
  dk_len : forall b blk, image s !! b = Some blk -> length blk = 1024%nat;
  dk_all : forall b, 0 <= b < 2000 -> is_Some (image s !! b);
  dk_free : forall b, freeblock s <= b < 2000 -> image s !! b = Some zeros;
  dk_fb : 46 <= freeblock s <= 2000
}.

Definition with_block (s : mkfs) : mkfs := mk_mkfs (image s) (freeinode s) (freeblock s + 1).

Lemma next_block_ok s : disk_ok s -> next_block s = Val (freeblock s) (with_block s).
Proof. intros [_ _ _ Hfb]. unfold next_block. by rewrite u32_small by lia. Qed.

Lemma rsect_ok s b blk : 0 <= b < 2000 -> image s !! b = Some blk -> rsect b s = Val blk s.
Proof. intros Hb E. unfold rsect. by rewrite sector_small, E. Qed.

Definition put_block (b : Z) (blk : list Z) (s : mkfs) : mkfs := mk_mkfs (<[b := blk]> (image s)) (freeinode s) (freeblock s).

Lemma wsect_ok s b blk : 0 <= b < 2000 -> wsect b blk s = Val tt (put_block b blk s).
Proof. intros Hb. unfold wsect. by rewrite sector_small. Qed.

Lemma with_block_ok s : disk_ok s -> freeblock s < 2000 -> disk_ok (with_block s).
Proof. intros [H1 H2 H3 H4] Hlt. split; cbn; [done|done| |lia]. intros b Hb. apply H3. lia. Qed.

Lemma put_block_ok s b blk : disk_ok s -> b < freeblock s -> length blk = 1024%nat -> disk_ok (put_block b blk s).
Proof.
  intros [H1 H2 H3 H4] Hb Hl. split; cbn; [| | |done].
  - intros c blk' [[_ <-]|[_ ?]]%lookup_insert_Some; eauto.
  - intros c Hc. destruct (decide (c = b)) as [->|]; [by rewrite lookup_insert_eq|rewrite lookup_insert_ne; auto].
  - intros c Hc. rewrite lookup_insert_ne by lia. by apply H3.
Qed.

Section block.
Context (s : mkfs) (d : dinode) (data B : list Z) (ind : Z).
Context (Hs : disk_ok s) (Hf : file_ok (image s) (freeblock s) d data B ind).

Lemma own_range b : b ∈ own B ind -> 46 <= b < 2000.
Proof. intros Hb. destruct Hf as [_ _ _ Hr _ _], Hs as [_ _ _ Hfb]. rewrite list.Forall_forall in Hr. specialize (Hr b Hb). lia. Qed.

Lemma block_range k b : B !! k = Some b -> 46 <= b < 2000.
Proof. intros Hk. apply own_range. apply elem_of_app. left. by eapply list_elem_of_lookup_2. Qed.

Lemma direct_old k b : (k < 12)%nat -> B !! k = Some b -> iappend_block (Z.of_nat k) d s = Val (b, d) s.
Proof.
  intros Hk Hb. pose proof (block_range k b Hb) as Hr. unfold iappend_block. change (Z.of_nat NDIRECT) with 12.
  rewrite (proj2 (Z.ltb_lt _ _)), Nat2Z.id, (d_addr_direct _ _ _ _ _ _ k Hf Hk), Hb by lia. cbn [default from_option id].
  rewrite xint_small, (proj2 (Z.eqb_neq _ _)) by lia. unfold ubind, uret.
  by rewrite (d_addr_direct _ _ _ _ _ _ k Hf Hk), Hb; cbn [default from_option id]; rewrite xint_small by lia.
Qed.

Lemma direct_new : (length B < 12)%nat ->
  iappend_block (Z.of_nat (length B)) d s = Val (freeblock s, set_d_addr (length B) (freeblock s) d) (with_block s).
Proof.
  intros Hk. pose proof (dk_fb _ Hs) as Hr. unfold iappend_block. change (Z.of_nat NDIRECT) with 12.
  rewrite (proj2 (Z.ltb_lt _ _)), Nat2Z.id, (d_addr_direct _ _ _ _ _ _ _ Hf Hk), lookup_ge_None_2 by lia. cbn [default].
  rewrite xint_small, Z.eqb_refl by lia. unfold ubind. rewrite next_block_ok by done. unfold uret. rewrite (xint_small (freeblock s)) by lia.
  unfold d_addr at 1. cbn [set_d_addr d_addrs]. rewrite list_lookup_insert_eq by (rewrite (length_d_addrs _ _ _ _ _ _ Hf); lia).
  cbn [default from_option id]. by rewrite xint_small by lia.
Qed.

Lemma ind_old k b : (12 <= k < 268)%nat -> ind <> 0 -> B !! k = Some b -> iappend_block (Z.of_nat k) d s = Val (b, d) s.
Proof.
  intros Hk Hi Hb. pose proof (block_range k b Hb) as Hr. pose proof (own_range ind (own_ind_in B ind Hi)) as Hri.
  destruct (fo_ind _ _ _ _ _ _ Hf) as [[? _]|(_ & _ & t & Ht & Hlt & Hj)]; [done|]. specialize (Hj (k - 12)%nat ltac:(lia)).
  unfold iappend_block. change (Z.of_nat NDIRECT) with 12. change NDIRECT with 12%nat.
  rewrite (proj2 (Z.ltb_ge _ _)), (d_addr_ind _ _ _ _ _ _ Hf), (xint_small ind), (proj2 (Z.eqb_neq ind 0)) by lia. unfold ubind, uret.
  rewrite (d_addr_ind _ _ _ _ _ _ Hf), xint_small by lia. rewrite (rsect_ok s ind t ltac:(lia) Ht).
  replace (Z.to_nat (4 * (Z.of_nat k - 12))) with (4 * (k - 12))%nat by lia. rewrite Hj.
  replace (12 + (k - 12))%nat with k by lia. rewrite Hb. cbn [default from_option id].
  rewrite (proj2 (Z.eqb_neq _ _)) by lia. rewrite Hj. replace (12 + (k - 12))%nat with k by lia. rewrite Hb. cbn [default from_option id].
  by rewrite xint_small by lia.
Qed.

Lemma ind_new t : (12 <= length B < 268)%nat -> ind <> 0 -> image s !! ind = Some t ->
  iappend_block (Z.of_nat (length B)) d s =
    Val (freeblock s, d) (put_block ind (put_le 4 t (4 * (length B - 12)) (freeblock s)) (with_block s)).
Proof.
  intros Hk Hi Ht. pose proof (dk_fb _ Hs) as Hr. pose proof (own_range ind (own_ind_in B ind Hi)) as Hri.
  destruct (fo_ind _ _ _ _ _ _ Hf) as [[? _]|(_ & _ & t' & Ht' & Hlt & Hj)]; [done|]. specialize (Hj (length B - 12)%nat ltac:(lia)).
  rewrite Ht in Ht'. injection Ht' as <-. replace (12 + (length B - 12))%nat with (length B) in Hj by lia.
  rewrite lookup_ge_None_2 in Hj by lia. cbn [default] in Hj.
  unfold iappend_block. change (Z.of_nat NDIRECT) with 12. change NDIRECT with 12%nat.
  rewrite (proj2 (Z.ltb_ge _ _)), (d_addr_ind _ _ _ _ _ _ Hf), (xint_small ind), (proj2 (Z.eqb_neq ind 0)) by lia. unfold ubind, uret.
  rewrite (d_addr_ind _ _ _ _ _ _ Hf), xint_small by lia. rewrite (rsect_ok s ind t ltac:(lia) Ht).
  replace (Z.to_nat (4 * (Z.of_nat (length B) - 12))) with (4 * (length B - 12))%nat by lia. rewrite Hj, Z.eqb_refl.
  rewrite next_block_ok by done. rewrite xint_small by lia. rewrite wsect_ok by lia.
  rewrite get_put_le_same by lia. rewrite Z.mod_small by (simpl; lia). by rewrite xint_small by lia.
Qed.

Lemma table_new : length B = 12%nat -> ind = 0 ->
  iappend_block 12 d s = iappend_block 12 (set_d_addr 12 (freeblock s) d) (with_block s).
Proof.
  intros Hk ->. pose proof (dk_fb _ Hs) as Hr. unfold iappend_block. change (Z.of_nat NDIRECT) with 12. change NDIRECT with 12%nat.
  rewrite (d_addr_ind _ _ _ _ _ _ Hf), (xint_small 0), Z.eqb_refl by lia. cbn beta iota delta [Z.ltb Z.compare Pos.compare Pos.compare_cont].
  assert (d_addr (set_d_addr 12 (freeblock s) d) 12 = freeblock s) as Ea.
  { unfold d_addr. cbn [set_d_addr d_addrs]. by rewrite list_lookup_insert_eq by (rewrite (length_d_addrs _ _ _ _ _ _ Hf); lia). }
  rewrite Ea, (xint_small (freeblock s)), (proj2 (Z.eqb_neq _ _)) by lia. unfold ubind, uret. rewrite next_block_ok by done.
  by rewrite (xint_small (freeblock s)) by lia.
Qed.
End block.

(** What an append does outside the file: blocks come from the counter, others stay. *)
Record grown (s s' : mkfs) (B : list Z) (ind : Z) (B' : list Z) (ind' : Z) : Prop := {
  gr_ino : freeinode s' = freeinode s;
  gr_count : freeblock s' + Z.of_nat (length (own B ind)) = freeblock s + Z.of_nat (length (own B' ind'));
  gr_mono : freeblock s <= freeblock s';
  gr_new : forall b, b ∈ own B' ind' -> b ∈ own B ind \/ freeblock s <= b;
  gr_frame : forall b, b < freeblock s -> b ∉ own B ind -> image s' !! b = image s !! b
}.

Lemma grown_refl s B ind : grown s s B ind B ind.
Proof. split; auto; lia. Qed.

Lemma grown_trans s1 s2 s3 B1 i1 B2 i2 B3 i3 : grown s1 s2 B1 i1 B2 i2 -> grown s2 s3 B2 i2 B3 i3 -> grown s1 s3 B1 i1 B3 i3.
Proof.
  intros [I1 C1 M1 N1 F1] [I2 C2 M2 N2 F2]. split; [congruence|lia|lia| |].
  - intros b [Hb|Hb]%N2; [by apply N1|right; lia].
  - intros b Hlt Hb. rewrite F2; [by apply F1|lia|]. intros [?|?]%N1; [done|lia].
Qed.

(** The fields that do not depend on the content. *)
Definition same_kind (d d' : dinode) : Prop :=
  d_type d' = d_type d /\ d_major d' = d_major d /\ d_minor d' = d_minor d /\ d_nlink d' = d_nlink d.

Lemma grown_with_block s B ind B' ind' : own B' ind' ≡ₚ freeblock s :: own B ind -> grown s (with_block s) B ind B' ind'.
Proof.
  intros Hp. split; cbn; [done|rewrite Hp; simpl; lia|lia| |done].
  intros b. rewrite Hp. intros [->|?]%elem_of_cons; [right; lia|by left].
Qed.

Lemma own_snoc B ind b : own (B ++ [b]) ind ≡ₚ b :: own B ind.
Proof. unfold own. rewrite <-(assoc_L (++)). simpl. by rewrite Permutation_middle. Qed.

Lemma grown_put s B ind b blk : b ∈ own B ind -> grown s (put_block b blk s) B ind B ind.
Proof. intros Hb. split; cbn; [done|done|done|auto|]. intros c _ Hc. apply lookup_insert_ne. by intros ->. Qed.

(** After [iappend_block], block [k] is the last one of the file. *)
Record extended (s s' : mkfs) (d d' : dinode) (data B B' : list Z) (ind ind' b : Z) (k : nat) : Prop := {
  ex_disk : disk_ok s';
  ex_file : file_ok (image s') (freeblock s') d' data B' ind';
  ex_last : B' !! k = Some b /\ length B' = S k;
  ex_ind : ind' = 0 <-> (length B' <= 12)%nat;
  ex_grown : grown s s' B ind B' ind';
  ex_kind : same_kind d d'
}.

Lemma extend_indirect s d data B ind : disk_ok s -> file_ok (image s) (freeblock s) d data B ind -> ind <> 0 ->
  (12 <= length B < 268)%nat -> freeblock s < 2000 ->
  exists s', iappend_block (Z.of_nat (length B)) d s = Val (freeblock s, d) s' /\
    extended s s' d d data B (B ++ [freeblock s]) ind ind (freeblock s) (length B).
Proof.
  intros Hs Hf Hi Hl Hfb. pose proof (dk_fb _ Hs). pose proof (own_range s d data B ind Hs Hf ind (own_ind_in B ind Hi)) as Hri.
  assert (ind < freeblock s) as Hlt.
  { pose proof (fo_range _ _ _ _ _ _ Hf) as Hr. rewrite list.Forall_forall in Hr. apply Hr. by apply own_ind_in. }
  destruct (dk_all _ Hs ind ltac:(lia)) as [t Ht]. eexists. split; [by apply (ind_new s d data B ind Hs Hf t)|].
  pose proof (dk_len _ Hs _ _ Ht) as Hlen.
  pose proof (with_block_ok _ Hs Hfb) as Hs1. split; [|apply (add_indirect _ _ _ _ _ _ _ Hf)| | | |by split_and!].
  - apply put_block_ok; [done|cbn; lia|rewrite length_put_le; lia].
  - lia.
  - done.
  - done.
  - apply Hs. lia.
  - lia.
  - rewrite lookup_app_r, Nat.sub_diag, length_app by lia. simpl. split; [done|lia].
  - rewrite length_app. simpl. lia.
  - eapply grown_trans; [apply (grown_with_block s B ind (B ++ [freeblock s]) ind), own_snoc|apply grown_put].
    rewrite own_snoc. apply elem_of_cons. right. by apply own_ind_in.
Qed.

Lemma blocks_of_step n : let k := (n / 1024)%nat in
  (1024 * k <= n < 1024 * S k)%nat /\ blocks_of (S n) = S k /\
  (blocks_of n = S k \/ blocks_of n = k /\ n = (1024 * k)%nat).
Proof.
  intros k. pose proof (Nat.div_mod n 1024 ltac:(lia)) as E. pose proof (Nat.mod_upper_bound n 1024 ltac:(lia)) as Hm.
  fold k in E. unfold blocks_of. split; [lia|]. split; [zlia|]. destruct (decide (n mod 1024 = 0)%nat); [right|left]; zlia.
Qed.

Lemma iappend_block_ok s d data B ind : disk_ok s -> file_ok (image s) (freeblock s) d data B ind -> closed data B ind ->
  (length data < 268 * 1024)%nat -> freeblock s + Z.of_nat (needed (S (length data))) <= 2000 + Z.of_nat (needed (length data)) ->
  let k := (length data / 1024)%nat in
  exists b d' B' ind' s', iappend_block (Z.of_nat k) d s = Val (b, d') s' /\ extended s s' d d' data B B' ind ind' b k.
Proof.
  intros Hs Hf [Hlen Hind] Hmax Hroom k. destruct (blocks_of_step (length data)) as (Hk & HS & Hcase). fold k in Hk, HS, Hcase.
  pose proof (dk_fb _ Hs). unfold needed in Hroom. rewrite HS in Hroom. rewrite <-Hlen in Hroom, Hcase.
  destruct Hcase as [Hc|[Hc Hn]].
  - destruct (lookup_lt_is_Some_2 B k ltac:(lia)) as [b Hb]. exists b, d, B, ind, s. split.
    + destruct (decide (k < 12)%nat); [by eapply direct_old|]. eapply ind_old; [done|done|lia|lia|done].
    + split; [done|done|done|done|apply grown_refl|by split_and!].
  - destruct (decide (k < 12)%nat) as [Hlt|Hge]; [|destruct (decide (k = 12)%nat) as [Hk12|Hk12]].
    + assert (ind = 0) as -> by lia. assert (freeblock s < 2000).
      { destruct (decide (12 < S k)%nat), (decide (12 < length B)%nat); lia. }
      rewrite <-Hc. eexists _, _, _, _, _. split; [apply (direct_new s d data B 0 Hs Hf); lia|]. rewrite Hc.
      split; [by apply with_block_ok| | | |by apply grown_with_block, own_snoc|by split_and!].
      * rewrite <-Hc. apply add_direct; [done|lia|apply Hs; lia|lia].
      * rewrite <-Hc. rewrite lookup_app_r, Nat.sub_diag, length_app by lia. simpl. split; [done|lia].
      * rewrite length_app. simpl. lia.
    + assert (ind = 0) as -> by lia. assert (freeblock s + 2 <= 2000).
      { destruct (decide (12 < S k)%nat), (decide (12 < length B)%nat); lia. }
      assert (length B = 12%nat) as HB by lia.
      pose proof (with_block_ok s Hs ltac:(lia)) as Hs1.
      pose proof (add_table _ _ _ _ _ Hf HB ltac:(apply Hs; lia) ltac:(lia)) as Hf1.
      destruct (extend_indirect (with_block s) (set_d_addr 12 (freeblock s) d) data B (freeblock s) Hs1 Hf1 ltac:(lia) ltac:(lia))
        as (s' & E & [Ex1 Ex2 Ex3 Ex4 Ex5 Ex6]); [cbn; lia|].
      eexists _, _, _, _, s'. split; [|rewrite HB in Ex3; rewrite Hk12; split; [exact Ex1|exact Ex2|exact Ex3|exact Ex4| |exact Ex6]].
      * rewrite Hk12. change (Z.of_nat 12) with 12. rewrite (table_new s d data B 0 Hs Hf HB eq_refl). rewrite HB in E. exact E.
      * eapply grown_trans; [|exact Ex5]. apply grown_with_block. rewrite own_ind by lia. unfold own. simpl. rewrite app_nil_r.
        by rewrite Permutation_app_comm.
    + assert (ind <> 0) by lia.
      destruct (extend_indirect s d data B ind Hs Hf) as (s' & E & Hex); [done|lia| |].
      { destruct (decide (12 < S k)%nat), (decide (12 < length B)%nat); lia. }
      rewrite <-Hc. eexists _, _, _, _, s'. split; [exact E|]. exact Hex.
Qed.

(** ** [iappend] *)

Lemma blocks_of_mono n m : (n <= m)%nat -> (blocks_of n <= blocks_of m)%nat.
Proof. intros H. unfold blocks_of. apply Z2Nat.inj_le; [zlia|zlia|]. apply Z.div_le_mono; lia. Qed.

Lemma needed_mono n m : (n <= m)%nat -> (needed n <= needed m)%nat.
Proof.
  intros H. pose proof (blocks_of_mono n m H). unfold needed.
  destruct (decide (12 < blocks_of n)%nat), (decide (12 < blocks_of m)%nat); lia.
Qed.

Record appended (s s' : mkfs) (d d' : dinode) (data' B B' : list Z) (ind ind' : Z) : Prop := {
  ap_disk : disk_ok s';
  ap_file : file_ok (image s') (freeblock s') d' data' B' ind';
  ap_closed : closed data' B' ind';
  ap_grown : grown s s' B ind B' ind';
  ap_kind : same_kind d d'
}.

Lemma iappend_body_ok s d data B ind p : disk_ok s -> file_ok (image s) (freeblock s) d data B ind -> closed data B ind ->
  p <> [] -> (length data < 268 * 1024)%nat ->
  freeblock s + Z.of_nat (needed (length data + length p)) <= 2000 + Z.of_nat (needed (length data)) ->
  exists n1 d' B' ind' s', (1 <= n1 <= length p)%nat /\
    iappend_body (p, Z.of_nat (length data), d) s = Val (inl (drop n1 p, Z.of_nat (length data + n1), d')) s' /\
    appended s s' d d' (data ++ take n1 p) B B' ind ind'.
Proof.
  intros Hs Hf Hc Hp Hmax Hroom. destruct p as [|x p0]; [done|]. set (p := x :: p0) in *.
  assert (1 <= length p)%nat as Hlp by (unfold p; simpl; lia). clearbody p. set (k := (length data / 1024)%nat).
  destruct (blocks_of_step (length data)) as (Hk & HS & _). fold k in Hk, HS.
  destruct (iappend_block_ok s d data B ind Hs Hf Hc Hmax) as (b & d' & B' & ind' & s1 & E & [Hs1 Hf1 [Hb HB] Hi1 Hg Hkd]).
  { pose proof (needed_mono (S (length data)) (length data + length p) ltac:(lia)). lia. }
  fold k in E, Hb, HB. set (n1 := Nat.min (length p) (1024 * S k - length data)).
  pose proof (block_range s1 d' data B' ind' Hs1 Hf1 k b Hb) as Hrb.
  assert (b ∈ own B' ind') as Hbo by (apply elem_of_app; left; by eapply list_elem_of_lookup_2).
  exists n1, d', B', ind', (put_block b (blockpad k (data ++ take n1 p)) s1). split; [lia|]. split.
  - unfold iappend_body. rewrite (proj2 (Nat.eqb_neq _ _)) by lia. change BSIZE with 1024. change MAXFILE with 268.
    replace (Z.of_nat (length data) / 1024) with (Z.of_nat k) by zlia. rewrite (proj2 (Z.ltb_lt _ _)) by lia.
    unfold assert. unfold ubind at 1, uret at 1. rewrite (ubind_val _ _ _ _ _ E).
    replace (Z.to_nat (Z.of_nat (length data) - Z.of_nat k * 1024)) with (length data - 1024 * k)%nat by lia.
    replace (Z.min (Z.of_nat (length p)) ((Z.of_nat k + 1) * 1024 - Z.of_nat (length data))) with (Z.of_nat n1) by lia.
    rewrite Nat2Z.id, (ubind_val _ _ _ _ _ (rsect_ok s1 b (blockpad k data) ltac:(lia) (fo_blocks _ _ _ _ _ _ Hf1 k b Hb))).
    rewrite blockpad_splice by (rewrite ?length_take; lia).
    rewrite (ubind_val _ _ _ _ _ (wsect_ok s1 b _ ltac:(lia))). unfold uret. rewrite u32_small by lia. do 5 f_equal. lia.
  - pose proof (fo_range _ _ _ _ _ _ Hf1) as Hr1. rewrite list.Forall_forall in Hr1. specialize (Hr1 b Hbo). split; [| | | |done].
    + apply put_block_ok; [done|lia|apply length_blockpad].
    + apply write_last; [done|done|done|lia|rewrite length_take; lia].
    + split; [|done]. rewrite HB, length_app, length_take. symmetry. unfold blocks_of. zlia.
    + eapply grown_trans; [exact Hg|]. by apply grown_put.
Qed.

Lemma iappend_loop s d data B ind p fuel : disk_ok s -> file_ok (image s) (freeblock s) d data B ind -> closed data B ind ->
  (length data + length p <= 268 * 1024)%nat -> (length p < fuel)%nat ->
  freeblock s + Z.of_nat (needed (length data + length p)) <= 2000 + Z.of_nat (needed (length data)) ->
  exists d' B' ind' s', uloop fuel iappend_body (p, Z.of_nat (length data), d) s = Val (Z.of_nat (length data + length p), d') s' /\
    appended s s' d d' (data ++ p) B B' ind ind'.
Proof.
  revert s d data B ind p. induction fuel as [|fuel IH]; intros s d data B ind p Hs Hf Hc Hmax Hfu Hroom; [lia|]. cbn [uloop].
  destruct (decide (p = [])) as [->|Hp].
  - exists d, B, ind, s. rewrite app_nil_r, Nat.add_0_r. split; [done|]. split; [done|done|done|apply grown_refl|by split_and!].
  - assert (length p <> 0%nat) by (by destruct p).
    destruct (iappend_body_ok s d data B ind p Hs Hf Hc Hp ltac:(lia) Hroom) as (n1 & d1 & B1 & i1 & s1 & Hn1 & E & [As Af Ac Ag Ak]).
    rewrite (ubind_val _ _ _ _ _ E).
    assert (length (take n1 p) = n1) as Ht by (rewrite length_take; lia).
    pose proof (gr_count _ _ _ _ _ _ Ag) as Hcnt. rewrite (length_own _ _ _ Hc), (length_own _ _ _ Ac), length_app, Ht in Hcnt.
    destruct (IH s1 d1 (data ++ take n1 p) B1 i1 (drop n1 p) As Af Ac) as (d2 & B2 & i2 & s2 & E2 & [As2 Af2 Ac2 Ag2 Ak2]);
      rewrite ?length_app, ?Ht, ?length_drop; [lia|lia| |].
    { replace (length data + n1 + (length p - n1))%nat with (length data + length p)%nat by lia. lia. }
    rewrite length_app, Ht, length_drop in E2. replace (length data + n1 + (length p - n1))%nat with (length data + length p)%nat in E2 by lia.
    rewrite <-(assoc_L (++)), take_drop in *.
    exists d2, B2, i2, s2. split; [exact E2|]. split; [done|done|done|by eapply grown_trans|].
    destruct Ak as (?&?&?&?), Ak2 as (?&?&?&?). unfold same_kind. split_and!; congruence.
Qed.

(** ** The inode table *)

Definition inode_at (img : gmap Z (list Z)) (inum : Z) (d : dinode) : Prop :=
  exists blk, img !! (32 + inum / 16) = Some blk /\ length blk = 1024%nat /\
    of_inode (din_load blk (inum mod 16) zero_inode) = d.

Lemma iblock_eq inum : 0 <= inum < 208 -> IBLOCK inum sb = 32 + inum / 16.
Proof. intros H. unfold IBLOCK. change IPB with 16. change (sb_inodestart sb) with 32. rewrite u32_small by zlia. lia. Qed.

Lemma rinode_ok s inum d : 0 <= inum < 208 -> inode_at (image s) inum d -> rinode inum s = Val d s.
Proof.
  intros Hi (blk & Hb & Hl & E). unfold rinode. rewrite iblock_eq by done.
  rewrite (ubind_val _ _ _ _ _ (rsect_ok s (32 + inum / 16) blk ltac:(zlia) Hb)). change IPB with 16. by rewrite E.
Qed.

(** Between the log and the data: the blocks of inodes. *)
Record inode_written (s s' : mkfs) (inum : Z) (d : dinode) : Prop := {
  iw_disk : disk_ok s';
  iw_at : inode_at (image s') inum d;
  iw_other : forall j e, 0 <= j < 208 -> j <> inum -> inode_at (image s) j e -> inode_at (image s') j e;
  iw_frame : forall b, b < 32 \/ 45 <= b -> image s' !! b = image s !! b;
  iw_count : freeinode s' = freeinode s /\ freeblock s' = freeblock s
}.

Lemma winode_ok s inum d : disk_ok s -> 0 <= inum < 208 -> inode_typed (as_inode d) ->
  exists s', winode inum d s = Val tt s' /\ inode_written s s' inum d.
Proof.
  intros Hs Hi Ht. pose proof (dk_fb _ Hs). destruct (dk_all _ Hs (32 + inum / 16) ltac:(zlia)) as [blk Hb].
  pose proof (dk_len _ Hs _ _ Hb) as Hl. pose proof (Z.mod_pos_bound inum 16 ltac:(lia)) as Hm.
  pose proof (proj1 (it_addrs _ Ht)) as Ha.
  pose proof (length_din_store blk (inum mod 16) (as_inode d) Hl Hm Ha) as Hl'.
  eexists. split.
  { unfold winode. rewrite iblock_eq by done. change IPB with 16.
    rewrite (ubind_val _ _ _ _ _ (rsect_ok s (32 + inum / 16) blk ltac:(zlia) Hb)). apply wsect_ok. zlia. }
  split; [apply put_block_ok; [done|zlia|done]| | | |done].
  - eexists. split; [cbn [put_block image]; by rewrite lookup_insert_eq|]. split; [done|]. rewrite (din_load_store blk (inum mod 16) (as_inode d) zero_inode Hl Hm Ht).
    by destruct d.
  - intros j e Hj Hne (blk' & Hb' & Hlb & E). unfold inode_at. cbn [put_block image]. destruct (decide (j / 16 = inum / 16)) as [Hd|Hd].
    + rewrite Hd in Hb' |- *. rewrite Hb in Hb'. injection Hb' as <-. eexists. split; [by rewrite lookup_insert_eq|]. split; [done|].
      rewrite (din_load_other blk (inum mod 16) (as_inode d) (j mod 16) zero_inode Hl Hm); [done|change IPB with 16; zlia|zlia|done].
    + exists blk'. rewrite lookup_insert_ne by lia. done.
  - intros b Hbb. cbn [put_block image]. apply lookup_insert_ne. zlia.
Qed.

(** ** All files *)

Record afile := mk_afile { a_type : Z; a_data : list Z; a_dino : dinode; a_blocks : list Z; a_ind : Z }.
Definition a_own (f : afile) : list Z := own (a_blocks f) (a_ind f).
Definition sizes (F : list afile) : nat := sum_list_with (fun f => length (a_own f)) F.

Record afile_ok (img : gmap Z (list Z)) (fb : Z) (f : afile) : Prop := {
  af_file : file_ok img fb (a_dino f) (a_data f) (a_blocks f) (a_ind f);
  af_closed : closed (a_data f) (a_blocks f) (a_ind f);
  af_kind : same_kind (mk_dinode (a_type f) 0 0 1 0 []) (a_dino f);
  af_type : 0 <= a_type f < 2 ^ 15;
  af_size : d_size (a_dino f) = Z.of_nat (length (a_data f))
}.

(** File [i] of the list has inode [i + 1]; files share no block. *)
Record fs_ok (F : list afile) (s : mkfs) : Prop := {
  fs_disk : disk_ok s;
  fs_ino : freeinode s = 1 + Z.of_nat (length F) /\ (length F < 200)%nat;
  fs_inode : forall i f, F !! i = Some f -> inode_at (image s) (1 + Z.of_nat i) (a_dino f);
  fs_files : forall i f, F !! i = Some f -> afile_ok (image s) (freeblock s) f;
  fs_apart : forall i j f g b, F !! i = Some f -> F !! j = Some g -> b ∈ a_own f -> b ∈ a_own g -> i = j;
  fs_count : freeblock s = 46 + Z.of_nat (sizes F);
  fs_super : image s !! 1 = Some (put_sb zeros)
}.

Lemma sizes_insert F i f g : F !! i = Some f -> (sizes (<[i := g]> F) + length (a_own f) = sizes F + length (a_own g))%nat.
Proof.
  unfold sizes. revert i. induction F as [|h F IH]; intros [|i] Hi; simplify_eq/=; [lia|]. specialize (IH i Hi). lia.
Qed.

Lemma afile_typed img fb f : afile_ok img fb f -> fb <= 2000 -> Z.of_nat (length (a_data f)) < 2 ^ 32 -> inode_typed (as_inode (a_dino f)).
Proof.
  intros [Hf _ (K1 & K2 & K3 & K4) Ht Hz] Hfb Hlen. split; cbn.
  1-4: rewrite ?K1, ?K2, ?K3, ?K4; cbn; lia.
  - rewrite Hz. lia.
  - split; [exact (length_d_addrs _ _ _ _ _ _ Hf)|]. destruct Hf as [Ha _ Hi Hr _ _].
    assert (forall b, b ∈ own (a_blocks f) (a_ind f) -> 0 <= b < 2 ^ 32) as Hown.
    { intros b Hb. rewrite list.Forall_forall in Hr. specialize (Hr b Hb). lia. }
    rewrite Ha. apply Forall_app. split; [|apply Forall_app; split].
    + apply list.Forall_forall. intros b Hb. apply Hown, elem_of_app. left. by eapply elem_of_take in Hb as (? & ?%list_elem_of_lookup_2 & _).
    + apply Forall_replicate. lia.
    + constructor; [|constructor]. destruct Hi as [[-> _]|(_ & Hne & _)]; [lia|]. apply Hown. by apply own_ind_in.
Qed.

(** The inode of a file is written back: the other files are as they were. *)
Lemma fs_write_inode F i f s0 s s' : fs_ok F s0 -> F !! i = Some f -> disk_ok s ->
  forall f', afile_ok (image s) (freeblock s) f' -> grown s0 s (a_blocks f) (a_ind f) (a_blocks f') (a_ind f') ->
  inode_written s s' (1 + Z.of_nat i) (a_dino f') -> fs_ok (<[i := f']> F) s'.
Proof.
  intros [D0 [I0 M0] N0 Fl0 A0 C0 S0] Hi Hs f' Hf' Hg [D1 At Ot Fr [Ci Cb]]. pose proof (lookup_lt_Some _ _ _ Hi) as Hli.
  assert (forall b, b ∈ a_own f -> 46 <= b) as H46.
  { intros b Hb. pose proof (fo_range _ _ _ _ _ _ (af_file _ _ _ (Fl0 i f Hi))) as Hr. rewrite list.Forall_forall in Hr. specialize (Hr b Hb). lia. }
  assert (forall j g b, F !! j = Some g -> j <> i -> b ∈ a_own g -> 46 <= b < freeblock s0 /\ b ∉ a_own f) as Hother.
  { intros j g b Hj Hne Hb. pose proof (fo_range _ _ _ _ _ _ (af_file _ _ _ (Fl0 j g Hj))) as Hr. rewrite list.Forall_forall in Hr.
    split; [by apply Hr|]. intros Hbf. by apply Hne, (A0 j i g f b). }
  assert (forall j g, (<[i := f']> F) !! j = Some g -> (j = i /\ g = f') \/ (j <> i /\ F !! j = Some g)) as Hsplit.
  { intros j g Hj. destruct (decide (j = i)) as [->|Hne]; [left; rewrite list_lookup_insert_eq in Hj by done; by injection Hj as <-|].
    right. by rewrite list_lookup_insert_ne in Hj by done. }
  pose proof (gr_mono _ _ _ _ _ _ Hg) as Hmono. pose proof (gr_count _ _ _ _ _ _ Hg) as Hcnt. pose proof (dk_fb _ D0).
  split; [done| | | | | |].
  - rewrite length_insert, Ci, (gr_ino _ _ _ _ _ _ Hg). done.
  - intros j g [[-> ->]|[Hne Hj]]%Hsplit; [done|]. apply lookup_lt_Some in Hj as Hjl. apply Ot; [lia|lia|].
    destruct (N0 j g Hj) as (blk & Hblk & Hr). exists blk. split; [|done].
    rewrite (gr_frame _ _ _ _ _ _ Hg); [done|zlia|]. intros Hb%H46. zlia.
  - intros j g [[-> ->]|[Hne Hj]]%Hsplit.
    + destruct Hf' as [K1 K2 K3 K4 K5]. split; [|done..]. eapply file_ok_frame; [exact K1|lia|].
      intros b Hb. apply Fr. right. pose proof (fo_range _ _ _ _ _ _ K1) as Hr. rewrite list.Forall_forall in Hr. specialize (Hr b Hb). lia.
    + destruct (Fl0 j g Hj) as [K1 K2 K3 K4 K5]. split; [|done..]. eapply file_ok_frame; [exact K1|lia|].
      intros b Hb. destruct (Hother j g b Hj Hne Hb) as [Hr Hn]. rewrite Fr by lia. apply (gr_frame _ _ _ _ _ _ Hg); [lia|done].
  - assert (forall j g b, F !! j = Some g -> j <> i -> b ∈ a_own g -> b ∉ a_own f') as Hnew.
    { intros j g b Hj Hne Hb Hb'. destruct (Hother j g b Hj Hne Hb) as [Hr Hn]. apply (gr_new _ _ _ _ _ _ Hg) in Hb' as [?|?]; [done|lia]. }
    intros j k g h b [[-> ->]|[Hne Hj]]%Hsplit [[-> ->]|[Hne' Hk]]%Hsplit Hb Hb'; [done| | |by eapply A0].
    + by destruct (Hnew k h b Hk Hne' Hb').
    + by destruct (Hnew j g b Hj Hne Hb).
  - rewrite Cb. pose proof (sizes_insert F i f f' Hi). unfold a_own in *. lia.
  - rewrite Fr by lia. rewrite (gr_frame _ _ _ _ _ _ Hg); [done|lia|]. intros Hb%H46. lia.
Qed.

Lemma iappend_ok F s i f p : fs_ok F s -> F !! i = Some f -> (length (a_data f) + length p <= 268 * 1024)%nat ->
  freeblock s + Z.of_nat (needed (length (a_data f) + length p)) <= 2000 + Z.of_nat (needed (length (a_data f))) ->
  exists s' f', iappend (1 + Z.of_nat i) p s = Val tt s' /\ fs_ok (<[i := f']> F) s' /\
    a_data f' = a_data f ++ p /\ a_type f' = a_type f.
Proof.
  intros Hfs Hi Hmax Hroom. pose proof (fs_files _ _ Hfs i f Hi) as [Hf Hc Hk Hty Hz]. pose proof (lookup_lt_Some _ _ _ Hi) as Hli.
  pose proof (proj2 (fs_ino _ _ Hfs)) as Hmi.
  destruct (iappend_loop s (a_dino f) (a_data f) (a_blocks f) (a_ind f) p (S (length p)) (fs_disk _ _ Hfs) Hf Hc Hmax ltac:(lia) Hroom)
    as (d' & B' & ind' & s1 & E & [As Af Ac Ag Ak]).
  set (f' := mk_afile (a_type f) (a_data f ++ p) (set_d_size (Z.of_nat (length (a_data f ++ p))) d') B' ind').
  assert (afile_ok (image s1) (freeblock s1) f') as Hf'.
  { split; [|done| |done|done].
    - destruct Af as [? ? ? ? ? ?]. by split.
    - destruct Hk as (?&?&?&?), Ak as (?&?&?&?). unfold same_kind.
      cbn [f' a_dino a_type set_d_size d_type d_major d_minor d_nlink] in *. split_and!; congruence. }
  pose proof (dk_fb _ As).
  destruct (winode_ok s1 (1 + Z.of_nat i) (a_dino f') As ltac:(lia)) as (s' & Ew & Hw).
  { eapply afile_typed; [exact Hf'|lia|]. cbn [f' a_data]. rewrite length_app. lia. }
  exists s', f'. split; [|split; [by eapply fs_write_inode|done]].
  unfold iappend. rewrite (ubind_val _ _ _ _ _ (rinode_ok s (1 + Z.of_nat i) (a_dino f) ltac:(lia) (fs_inode _ _ Hfs i f Hi))).
  rewrite Hz, xint_small by lia. rewrite (ubind_val _ _ _ _ _ E). rewrite xint_small by lia.
  unfold f' in Ew. cbn [a_dino] in Ew. rewrite length_app in Ew. exact Ew.
Qed.

(** ** Images by their contents *)

(** Type and bytes of each file; [total] is the number of blocks in use. *)
Definition content (f : afile) : Z * list Z := (a_type f, a_data f).
Definition total (C : list (Z * list Z)) : Z := 46 + Z.of_nat (sum_list_with (fun c => needed (length c.2)) C).
Definition holds (C : list (Z * list Z)) (s : mkfs) : Prop := exists F, fs_ok F s /\ content <$> F = C.

Lemma fs_total F s : fs_ok F s -> freeblock s = total (content <$> F).
Proof.
  intros Hfs. rewrite (fs_count _ _ Hfs). unfold total, sizes. do 2 f_equal. pose proof (fs_files _ _ Hfs) as Hf. clear Hfs.
  induction F as [|f F IH]; [done|]. cbn [fmap list_fmap sum_list_with]. f_equal.
  - apply length_own. apply (Hf 0%nat f eq_refl).
  - apply IH. intros i g Hg. by apply (Hf (S i)).
Qed.

Lemma total_insert C i c c' : C !! i = Some c ->
  total (<[i := c']> C) + Z.of_nat (needed (length c.2)) = total C + Z.of_nat (needed (length c'.2)).
Proof.
  unfold total. revert i. induction C as [|x C IH]; intros [|i] Hi; simplify_eq/=; [lia|]. specialize (IH i Hi). lia.
Qed.

Lemma total_snoc C c : total (C ++ [c]) = total C + Z.of_nat (needed (length c.2)).
Proof. unfold total. rewrite sum_list_with_app. simpl. lia. Qed.

Lemma holds_lookup C s i c : holds C s -> C !! i = Some c -> exists F f, fs_ok F s /\ content <$> F = C /\ F !! i = Some f /\ c = content f.
Proof.
  intros (F & HF & <-) Hi. rewrite list_lookup_fmap in Hi. destruct (F !! i) as [f|] eqn:E; [|done]. injection Hi as <-. by exists F, f.
Qed.

Lemma iappend_holds C s i t data p : holds C s -> C !! i = Some (t, data) -> (length data + length p <= 268 * 1024)%nat ->
  total (<[i := (t, data ++ p)]> C) <= 2000 ->
  exists s', iappend (1 + Z.of_nat i) p s = Val tt s' /\ holds (<[i := (t, data ++ p)]> C) s'.
Proof.
  intros HC Hi Hmax Hroom. destruct (holds_lookup C s i (t, data) HC Hi) as (F & f & HF & HFC & Hf & Hcf). injection Hcf as -> ->.
  pose proof (total_insert C i _ (a_type f, a_data f ++ p) Hi) as Ht. cbn [snd] in Ht. rewrite length_app in Ht.
  pose proof (fs_total F s HF) as Hfb. rewrite HFC in Hfb.
  destruct (iappend_ok F s i f p HF Hf Hmax) as (s' & f' & E & HF' & Ed & Et); [lia|].
  exists s'. split; [done|]. exists (<[i := f']> F). split; [done|]. rewrite list_fmap_insert, HFC. unfold content. by rewrite Ed, Et.
Qed.

Lemma ialloc_holds C s t : holds C s -> (S (length C) < 200)%nat -> 0 <= t < 2 ^ 15 ->
  exists s', ialloc t s = Val (1 + Z.of_nat (length C)) s' /\ holds (C ++ [(t, [])]) s'.
Proof.
  intros (F & HF & <-) Hlen Ht. rewrite length_fmap in *. pose proof HF as [D0 [I0 _] N0 Fl0 A0 C0 S0]. pose proof (dk_fb _ D0).
  set (s1 := mk_mkfs (image s) (freeinode s + 1) (freeblock s)).
  set (f := mk_afile t [] (mk_dinode t 0 0 1 0 (replicate 13 0)) [] 0).
  assert (disk_ok s1) as D1 by (destruct D0; by split).
  assert (forall img, afile_ok img (freeblock s) f) as Hf.
  { intros img. split; [|split; [done|simpl; lia]|by split_and!|done|done]. split; [done|done|left; split; [done|simpl; lia]|constructor|constructor|simpl; lia]. }
  destruct (winode_ok s1 (1 + Z.of_nat (length F)) (a_dino f) D1 ltac:(lia)) as (s' & Ew & [D2 At Ot Fr [Ci Cb]]).
  { eapply (afile_typed (image s)); [apply Hf|lia|simpl; lia]. }
  exists s'. split.
  { unfold ialloc, next_inode. unfold ubind at 1. rewrite I0, u32_small by lia. rewrite <-I0. fold s1. rewrite I0.
    rewrite xshort_small by lia. change (xshort 1) with 1. change (xint 0) with 0. change (replicate (S NDIRECT) 0) with (replicate 13 0).
    unfold f in Ew. cbn [a_dino] in Ew. by rewrite (ubind_val _ _ _ _ _ Ew). }
  exists (F ++ [f]). split; [|by rewrite fmap_app]. split; [done| | | | | |].
  - rewrite Ci, length_app. cbn [s1 freeinode length]. lia.
  - intros i g [[Hi Hg]|[-> <-]]%lookup_snoc_Some; [apply Ot; [lia|lia|by apply N0]|done].
  - rewrite Cb. intros i g [[Hi Hg]|[-> <-]]%lookup_snoc_Some; [|done].
    destruct (Fl0 i g Hg) as [K1 K2 K3 K4 K5]. split; [|done..]. eapply file_ok_frame; [exact K1|done|].
    intros b Hb. apply Fr. right. pose proof (fo_range _ _ _ _ _ _ K1) as Hr. rewrite list.Forall_forall in Hr. specialize (Hr b Hb). lia.
  - intros i j g h b [[Hi Hg]|[-> <-]]%lookup_snoc_Some [[Hj Hh]|[-> <-]]%lookup_snoc_Some Hb Hb';
      [by eapply A0|by apply elem_of_nil in Hb'|by apply elem_of_nil in Hb|done].
  - rewrite Cb. unfold sizes in *. rewrite sum_list_with_app. cbn [s1 freeblock]. simpl. lia.
  - rewrite Fr by lia. done.
Qed.

Lemma copy_pieces_holds pieces : forall C s i t data, holds C s -> C !! i = Some (t, data) -> Forall (fun p => p <> []) pieces ->
  (length data + length (concat pieces) <= 268 * 1024)%nat -> total (<[i := (t, data ++ concat pieces)]> C) <= 2000 ->
  exists s', copy_pieces (1 + Z.of_nat i) pieces s = Val tt s' /\ holds (<[i := (t, data ++ concat pieces)]> C) s'.
Proof.
  induction pieces as [|p pieces IH]; intros C s i t data HC Hi Hne Hmax Hroom.
  - exists s. split; [done|]. cbn [concat]. rewrite app_nil_r, list_insert_id by done. done.
  - apply list.Forall_cons in Hne as [Hp Hne]. cbn [concat copy_pieces] in *. rewrite length_app in Hmax.
    pose proof (lookup_lt_Some _ _ _ Hi) as Hli.
    rewrite (proj2 (Nat.eqb_neq _ _)) by (by destruct p).
    pose proof (total_insert C i _ (t, data ++ p ++ concat pieces) Hi) as Ht. pose proof (total_insert C i _ (t, data ++ p) Hi) as Ht1.
    cbn [snd] in Ht, Ht1. rewrite length_app in Ht1. rewrite length_app, (length_app p) in Ht.
    pose proof (needed_mono (length data + length p) (length data + (length p + length (concat pieces))) ltac:(lia)).
    destruct (iappend_holds C s i t data p HC Hi ltac:(lia)) as (s1 & E1 & H1); [lia|].
    rewrite (ubind_val _ _ _ _ _ E1).
    destruct (IH (<[i := (t, data ++ p)]> C) s1 i t (data ++ p) H1) as (s2 & E2 & H2);
      [by apply list_lookup_insert_eq|done|rewrite length_app; lia|rewrite list_insert_insert_eq, <-(assoc_L (++)); done|].
    rewrite list_insert_insert_eq, <-(assoc_L (++)) in H2. by exists s2.
Qed.
End MkfsSpec.
