(* ===== verification/MkfsImage.v ===== *)
(** * What mkfs/mkfs.c writes: the image [main] builds, as the kernel reads it

    [main] runs to [exit 0] on every list of host files that fits; the super block, root directory,
    files and bitmap of its image are those the kernel's definitions expect. *)

From Stdlib Require Import ZArith Lia.
From stdpp Require Import base list gmap strings numbers option.
From S2P Require Import Prelude Bytes Riscv Cstring Kstate Printf Bio BioSpec LogSpec Fs FsPure Bitmap FsRead Unix Mkfs MkfsSpec.
Import Mkfs MkfsSpec.

Module MkfsImage.

(** ** Adding the files *)

(** Name and bytes of a file of the image. *)
Local Abbreviation entry := (list Z * list Z)%type.

Record good_file (host : list Z -> option (list (list Z))) (path : list Z) (e : entry) : Prop := {
  gf_slash : slash ∉ without_user path;
  gf_name : e.1 = without_underscore (without_user path) /\ (length e.1 <= 14)%nat /\ 0 ∉ e.1;
  gf_data : exists pieces, host path = Some pieces /\ Forall (fun p => p <> []) pieces /\ e.2 = concat pieces;
  gf_size : (length e.2 <= 268 * 1024)%nat
}.

Definition dir_data (files : list entry) : list Z :=
  dirent 1 (bytes_of ".") ++ dirent 1 (bytes_of "..") ++ concat (imap (fun i e => dirent (2 + Z.of_nat i) e.1) files).
Definition contents (files : list entry) : list (Z * list Z) :=
  (T_DIR, dir_data files) :: ((fun e => (T_FILE, e.2)) <$> files).

Lemma length_dirent inum name : length (dirent inum name) = 16%nat.
Proof. unfold dirent. by rewrite length_app, length_le_bytes, length_pad. Qed.

Lemma length_concat16 (L : list (list Z)) : Forall (fun l => length l = 16%nat) L -> length (concat L) = (16 * length L)%nat.
Proof. induction 1 as [|l L Hl _ IH]; [done|]. cbn [concat length]. rewrite length_app, Hl, IH. lia. Qed.

Lemma entries16 (files : list entry) : Forall (fun l => length l = 16%nat) (imap (fun i e => dirent (2 + Z.of_nat i) e.1) files).
Proof.
  apply Forall_lookup. intros i l Hl. rewrite list_lookup_imap in Hl. apply fmap_Some in Hl as (e & _ & ->). apply length_dirent.
Qed.

Lemma length_dir_data files : length (dir_data files) = (16 * (2 + length files))%nat.
Proof.
  unfold dir_data. rewrite !length_app, !length_dirent, length_concat16 by apply entries16. rewrite length_imap. lia.
Qed.

Lemma dir_data_snoc files e : dir_data (files ++ [e]) = dir_data files ++ dirent (2 + Z.of_nat (length files)) e.1.
Proof.
  unfold dir_data. rewrite imap_app, concat_app. cbn [imap]. rewrite Nat.add_0_r. cbn [concat]. rewrite app_nil_r, <-!(assoc_L (++)). done.
Qed.

Lemma total_contents_mono files e : total (contents files) <= total (contents (files ++ [e])).
Proof.
  unfold total, contents. cbn [sum_list_with snd]. rewrite fmap_app, sum_list_with_app, !length_dir_data, length_app.
  pose proof (needed_mono (16 * (2 + length files)) (16 * (2 + (length files + length [e]))) ltac:(lia)). lia.
Qed.

Lemma add_file_holds host path e files s : good_file host path e -> holds (contents files) s ->
  (length files < 198)%nat -> total (contents (files ++ [e])) <= 2000 ->
  exists s', add_file host 1 path s = Val tt s' /\ holds (contents (files ++ [e])) s'.
Proof.
  intros [Hsl (Hn & Hl & _) (pieces & Hh & Hne & Hd) Hsz] HC Hlen Hroom.
  assert (length (contents files) = S (length files)) as Hlc by (unfold contents; simpl; by rewrite length_fmap).
  destruct (ialloc_holds _ s T_FILE HC) as (s1 & E1 & H1); [lia|done|]. rewrite Hlc in E1.
  set (C1 := contents files ++ [(T_FILE, [])]) in *. set (ent := dirent (2 + Z.of_nat (length files)) e.1).
  set (C2 := <[0%nat := (T_DIR, dir_data files ++ ent)]> C1).
  assert (C2 = (T_DIR, dir_data (files ++ [e])) :: ((fun e => (T_FILE, e.2)) <$> files) ++ [(T_FILE, [])]) as EC2
    by (by rewrite dir_data_snoc).
  set (C3 := <[S (length files) := (T_FILE, [] ++ concat pieces)]> C2).
  assert (C3 = contents (files ++ [e])) as EC3.
  { unfold C3, contents. rewrite EC2, fmap_app. change (<[S (length files) := ?x]> (?a :: ?l)) with (a :: <[length files := x]> l). f_equal.
    rewrite insert_app_r_alt by (rewrite length_fmap; lia). rewrite length_fmap, Nat.sub_diag. cbn. by rewrite Hd. }
  assert (C2 !! S (length files) = Some (T_FILE, [])) as HC2l.
  { rewrite EC2. change ((?a :: ?l) !! S (length files)) with (l !! length files). rewrite lookup_app_r by (rewrite length_fmap; lia). by rewrite length_fmap, Nat.sub_diag. }
  assert (total C2 <= 2000) as Ht2.
  { pose proof (total_insert C2 _ _ (T_FILE, [] ++ concat pieces) HC2l) as Ht. fold C3 in Ht. rewrite EC3 in Ht. cbn [snd app] in Ht.
    pose proof (needed_mono (length (@nil Z)) (length (concat pieces)) ltac:(simpl; lia)). lia. }
  destruct (iappend_holds C1 s1 0 T_DIR (dir_data files) ent H1 eq_refl) as (s2 & E2 & H2).
  { rewrite length_dir_data. unfold ent. rewrite length_dirent. lia. }
  { exact Ht2. }
  destruct (copy_pieces_holds pieces C2 s2 (S (length files)) T_FILE [] H2 HC2l Hne) as (s3 & E3 & H3).
  { rewrite <-Hd. exact Hsz. }
  { fold C3. by rewrite EC3. }
  exists s3. split; [|fold C3 in H3; by rewrite EC3 in H3].
  unfold add_file, assert. rewrite bool_decide_false, Hh by done. cbn [negb]. unfold ubind at 1, uret at 1.
  rewrite <-Hn, (proj2 (Nat.leb_le _ _)) by done. unfold ubind at 1, uret at 1.
  replace (1 + Z.of_nat (S (length files))) with (2 + Z.of_nat (length files)) in E1, E3 by lia.
  rewrite (ubind_val _ _ _ _ _ E1). change (1 + Z.of_nat 0) with 1 in E2. unfold ent in E2. by rewrite (ubind_val _ _ _ _ _ E2).
Qed.

Lemma add_files_holds host paths files : Forall2 (good_file host) paths files -> forall prev s, holds (contents prev) s ->
  (length prev + length files <= 198)%nat -> total (contents (prev ++ files)) <= 2000 ->
  exists s', add_files host 1 paths s = Val tt s' /\ holds (contents (prev ++ files)) s'.
Proof.
  induction 1 as [|path e paths files Hg _ IH]; intros prev s Hd Hlen Hroom.
  - exists s. by rewrite app_nil_r.
  - cbn [add_files length] in *. replace (prev ++ e :: files) with ((prev ++ [e]) ++ files) in * by (by rewrite <-(assoc_L (++))).
    assert (total (contents (prev ++ [e])) <= 2000) as Hr1.
    { clear -Hroom. revert Hroom. generalize (prev ++ [e]). intros l. revert l. induction files as [|f files IHf]; intros l Hr; [by rewrite app_nil_r in Hr|].
      replace (l ++ f :: files) with ((l ++ [f]) ++ files) in Hr by (by rewrite <-(assoc_L (++))).
      pose proof (total_contents_mono l f). specialize (IHf _ Hr). lia. }
    destruct (add_file_holds host path e prev s Hg Hd ltac:(lia) Hr1) as (s1 & E1 & H1). rewrite (ubind_val _ _ _ _ _ E1).
    apply IH; [done|rewrite length_app; simpl; lia|done].
Qed.

(** ** The start: an empty file system *)

Lemma clear_sectors_ok n : forall i s, 0 <= i -> i + Z.of_nat n <= 2000 ->
  exists s', clear_sectors n i s = Val tt s' /\ freeinode s' = freeinode s /\ freeblock s' = freeblock s /\
    forall b, image s' !! b = if decide (i <= b < i + Z.of_nat n) then Some zeros else image s !! b.
Proof.
  induction n as [|n IH]; intros i s Hi Hn; cbn [clear_sectors].
  - exists s. split_and!; [done|done|done|]. intros b. by rewrite decide_False by lia.
  - rewrite (ubind_val _ _ _ _ _ (wsect_ok s i _ ltac:(lia))).
    destruct (IH (i + 1) (put_block i (replicate (Z.to_nat BSIZE) 0) s) ltac:(lia) ltac:(lia)) as (s' & E & Ei & Eb & Eim).
    exists s'. split_and!; [exact E|exact Ei|exact Eb|]. intros b. rewrite Eim. cbn [put_block image].
    destruct (decide (i = b)) as [->|Hne].
    + rewrite (decide_False (P := b + 1 <= b < _)), lookup_insert_eq, decide_True by lia. done.
    + rewrite lookup_insert_ne by done. destruct (decide (i + 1 <= b < i + 1 + Z.of_nat n)), (decide (i <= b < i + Z.of_nat (S n))); done || lia.
Qed.

Lemma start_holds : exists s, (set_freeblock nmeta ;;~ clear_sectors (Z.to_nat FSSIZE) 0 ;;~
    wsect 1 (put_sb (replicate (Z.to_nat BSIZE) 0))) start = Val tt s /\ holds [] s.
Proof.
  destruct (clear_sectors_ok (Z.to_nat FSSIZE) 0 (mk_mkfs ∅ 1 nmeta)) as (s & E & Ei & Eb & Eim); [lia|done|].
  exists (put_block 1 (put_sb zeros) s). split.
  { unfold set_freeblock. unfold ubind at 1. cbn [image freeinode start]. rewrite (ubind_val _ _ _ _ _ E). by apply wsect_ok. }
  change (0 + Z.of_nat (Z.to_nat FSSIZE)) with 2000 in Eim. change (freeblock (mk_mkfs ∅ 1 nmeta)) with 46 in Eb.
  assert (disk_ok s) as Hd.
  { split; rewrite ?Eb; [| | |lia].
    - intros b blk Hb. rewrite Eim in Hb. destruct (decide _); [by injection Hb as <-|done].
    - intros b Hb. by rewrite Eim, decide_True by lia.
    - intros b Hb. by rewrite Eim, decide_True by lia. }
  exists []. split; [|done]. split; cbn [put_block image freeinode freeblock]; try done.
  - apply put_block_ok; [done|lia|done].
  - rewrite Ei. split; [done|simpl; lia].
  - by rewrite lookup_insert_eq.
Qed.

(** ** The bitmap *)

Lemma bit_u8 d n x j : bit (<[n := u8 x]> d) j = bit (<[n := x]> d) j.
Proof.
  unfold bit, byte_at. pose proof (Z.mod_pos_bound j 8 ltac:(lia)) as Hj. destruct (decide (n = Z.to_nat (j / 8))) as [->|Hn].
  - destruct (decide (Z.to_nat (j / 8) < length d)%nat).
    + rewrite !list_lookup_insert_eq by done. cbn [default from_option id]. by apply testbit_u8.
    + by rewrite !list_insert_ge by lia.
  - by rewrite !list_lookup_insert_ne.
Qed.

Lemma bit_set_bits n : forall i d j, 0 <= i -> i + Z.of_nat n <= 8 * Z.of_nat (length d) -> 0 <= j < 8 * Z.of_nat (length d) ->
  bit (set_bits n i d) j = bool_decide (i <= j < i + Z.of_nat n) || bit d j.
Proof.
  induction n as [|n IH]; intros i d j Hi Hn Hj; cbn [set_bits].
  - by rewrite bool_decide_false by lia.
  - rewrite IH by (rewrite ?length_insert; lia). rewrite bit_u8.
    pose proof (bit_put_bit d i true j ltac:(lia) Hj) as Hb. unfold put_bit, bit_mask in Hb. rewrite Hb.
    destruct (decide (j = i)) as [->|Hne].
    + rewrite orb_true_r, bool_decide_true by lia. done.
    + f_equal. apply bool_decide_ext. lia.
Qed.

Lemma length_set_bits n : forall i d, length (set_bits n i d) = length d.
Proof. induction n as [|n IH]; intros i d; cbn [set_bits]; [done|]. by rewrite IH, length_insert. Qed.

Lemma bit_zeros j : bit zeros j = false.
Proof.
  unfold bit, byte_at, zeros. destruct (decide (Z.to_nat (j / 8) < 1024)%nat).
  - rewrite lookup_replicate_2 by done. apply Z.testbit_0_l.
  - rewrite lookup_ge_None_2 by (rewrite length_replicate; lia). apply Z.testbit_0_l.
Qed.

(** ** The kernel's view of a file *)

Section view.
Context (img : gmap Z (list Z)) (Hlen : forall b blk, img !! b = Some blk -> length blk = 1024%nat).

Lemma view_block b blk : img !! b = Some blk -> bview ROOTDEV (rebooted img) b = blk.
Proof.
  intros Hb. destruct (rebooted_ok ROOTDEV img) as (_ & _ & _ & Hv & _); [done| |].
  { intros c. unfold disk_block. destruct (img !! c) as [x|] eqn:E; [by apply Hlen in E|done]. }
  rewrite Hv. unfold disk_block. by rewrite Hb.
Qed.

(** The bytes of a file with the zeros that fill up its last block. *)
Definition padded (data : list Z) (n : nat) : list Z := data ++ replicate (1024 * n - length data) 0.

Lemma length_padded data n : (length data <= 1024 * n)%nat -> length (padded data n) = (1024 * n)%nat.
Proof. intros H. unfold padded. rewrite length_app, length_replicate. lia. Qed.

Lemma lookup_padded data n o : (o < 1024 * n)%nat -> padded data n !! o = Some (default 0 (data !! o)).
Proof.
  intros H. unfold padded. destruct (data !! o) as [x|] eqn:E.
  - by rewrite lookup_app_l, E by (by apply lookup_lt_Some in E).
  - apply lookup_ge_None in E. rewrite lookup_app_r, lookup_replicate_2 by lia. done.
Qed.

Context (fb : Z) (d : dinode) (data B : list Z) (ind : Z) (Hf : file_ok img fb d data B ind).

Lemma faddr_file k b : B !! k = Some b -> faddr ROOTDEV (rebooted img) (as_inode d) (Z.of_nat k) = b.
Proof.
  intros Hb. pose proof (lookup_lt_Some _ _ _ Hb) as Hk. unfold faddr. change (Z.of_nat NDIRECT) with 12. cbn [as_inode i_addrs].
  destruct (Z.ltb_spec (Z.of_nat k) 12).
  - pose proof (d_addr_direct _ _ _ _ _ _ k Hf ltac:(lia)) as Hd. unfold d_addr in Hd. by rewrite Nat2Z.id, Hd, Hb.
  - destruct (fo_ind _ _ _ _ _ _ Hf) as [[_ ?]|(Hl & _ & t & Ht & _ & Hj)]; [lia|].
    unfold findirect. change NDIRECT with 12%nat. cbn [as_inode i_addrs].
    pose proof (d_addr_ind _ _ _ _ _ _ Hf) as Hd. unfold d_addr in Hd. rewrite Hd, (view_block ind t Ht).
    replace (Z.to_nat (4 * (Z.of_nat k - 12))) with (4 * (k - 12))%nat by lia. rewrite Hj by lia.
    replace (12 + (k - 12))%nat with k by lia. by rewrite Hb.
Qed.

Lemma fbytes_file off m : (off + m <= 1024 * length B)%nat ->
  fbytes ROOTDEV (rebooted img) (as_inode d) (Z.of_nat off) m = slice (padded data (length B)) off m.
Proof.
  intros Ho. apply list_eq. intros i. unfold fbytes. rewrite list_lookup_fmap, lookup_slice. case_decide as Hi; [|by rewrite lookup_seq_ge by lia].
  rewrite lookup_seq_lt by done. cbn [fmap option_fmap option_map]. rewrite lookup_padded by lia. f_equal.
  set (o := (off + i)%nat). unfold fbyte. replace (Z.of_nat off + Z.of_nat (0 + i)) with (Z.of_nat o) by lia. change BSIZE with 1024.
  pose proof (Nat.div_mod o 1024 ltac:(lia)) as Eo. pose proof (Nat.mod_upper_bound o 1024 ltac:(lia)) as Hm.
  set (k := (o / 1024)%nat) in *. set (r := (o mod 1024)%nat) in *.
  replace (Z.of_nat o / 1024) with (Z.of_nat k) by zlia. replace (Z.of_nat o mod 1024) with (Z.of_nat r) by zlia.
  destruct (lookup_lt_is_Some_2 B k) as [b Hb]; [lia|]. rewrite (faddr_file k b Hb).
  rewrite (view_block b _ (fo_blocks _ _ _ _ _ _ Hf k b Hb)). unfold byte_at. rewrite Nat2Z.id, lookup_blockpad by done.
  cbn [default from_option id]. by rewrite Eo.
Qed.
End view.

(** ** Directory entries *)

Definition dir_list (files : list entry) : list (Z * list Z) :=
  (1, bytes_of ".") :: (1, bytes_of "..") :: imap (fun i e => (2 + Z.of_nat i, e.1)) files.

Lemma dir_data_list files : dir_data files = concat (uncurry dirent <$> dir_list files).
Proof.
  unfold dir_data, dir_list. cbn [fmap list_fmap concat uncurry]. do 3 f_equal. rewrite fmap_imap. done.
Qed.

(** Entry [j] of a list of 16-byte pieces. *)
Lemma slice_concat (L : list (list Z)) j l o m : Forall (fun l => length l = 16%nat) L -> L !! j = Some l -> (o + m <= 16)%nat ->
  slice (concat L) (16 * j + o) m = slice l o m.
Proof.
  intros HL. revert j. induction HL as [|x L Hx HL IH]; intros j Hj Ho; [done|]. cbn [concat]. destruct j as [|j].
  - injection Hj as ->. unfold slice. rewrite Nat.mul_0_r, Nat.add_0_l, drop_app_le, take_app_le by (rewrite ?length_drop; lia). done.
  - rewrite <-(IH j Hj Ho). unfold slice. by rewrite drop_app_ge, Hx by lia; do 2 f_equal; lia.
Qed.

Lemma dents_list s ip (E : list (Z * list Z)) :
  (forall off m, (off + m <= 16 * length E)%nat ->
     fbytes ROOTDEV s ip (Z.of_nat off) m = slice (concat (uncurry dirent <$> E)) off m) ->
  Forall (fun e => 0 <= e.1 < 2 ^ 16 /\ (length e.2 <= 14)%nat /\ 0 ∉ e.2) E -> dents ROOTDEV s ip (length E) = E.
Proof.
  intros Hby HE. apply list_eq. intros j. unfold dents. rewrite list_lookup_fmap. destruct (E !! j) as [[inum name]|] eqn:Ej.
  - pose proof (lookup_lt_Some _ _ _ Ej) as Hj. rewrite lookup_seq_lt by done. cbn [fmap option_fmap option_map]. f_equal.
    pose proof (Forall_lookup_1 _ _ _ _ HE Ej) as (Hi & Hl & Hn). cbn [fst snd] in Hi, Hl, Hn.
    assert (Forall (fun l => length l = 16%nat) (uncurry dirent <$> E)) as H16 by (apply Forall_fmap, list.Forall_forall; intros [] _; apply length_dirent).
    assert ((uncurry dirent <$> E) !! j = Some (dirent inum name)) as Hd by (by rewrite list_lookup_fmap, Ej).
    replace (16 * Z.of_nat (0 + j)) with (Z.of_nat (16 * j + 0)) by lia.
    replace (Z.of_nat (16 * j + 0) + 2) with (Z.of_nat (16 * j + 2)) by lia.
    rewrite !Hby by (change DIRSIZ with 14%nat; lia). rewrite !(slice_concat _ j (dirent inum name)) by (change DIRSIZ with 14%nat; done || lia).
    unfold dirent, slice. rewrite drop_0, take_app_length', drop_app_length' by (by rewrite length_le_bytes).
    rewrite take_ge by (by rewrite length_pad). rewrite xshort_small by done. rewrite le_val_small by (simpl; lia).
    rewrite cstr_pad, cstr_all by done. by rewrite take_ge by (change DIRSIZ with 14%nat; lia).
  - apply lookup_ge_None in Ej. by rewrite lookup_seq_ge by lia.
Qed.

Lemma dir_list_ok host paths files : Forall2 (good_file host) paths files -> (length files <= 198)%nat ->
  Forall (fun e => 0 <= e.1 < 2 ^ 16 /\ (length e.2 <= 14)%nat /\ 0 ∉ e.2) (dir_list files).
Proof.
  intros Hg Hlen. unfold dir_list. constructor; [apply (bool_decide_unpack _); vm_compute; exact I|].
  constructor; [apply (bool_decide_unpack _); vm_compute; exact I|].
  apply Forall_lookup. intros i [inum name] Hi. rewrite list_lookup_imap in Hi. apply fmap_Some in Hi as (e & He & [= -> ->]).
  pose proof (lookup_lt_Some _ _ _ He). destruct (Forall2_lookup_r _ _ _ _ _ Hg He) as (path & _ & [_ (_ & Hl & Hn) _ _]).
  cbn. split; [lia|done].
Qed.

(** ** The end of [main] *)

Definition rounded (n : Z) : Z := (n / 1024 + 1) * 1024.

Definition finish : U mkfs unit :=
  din <~ rinode ROOTINO ;;
  let off := (xint (d_size din) / BSIZE + 1) * BSIZE in
  winode ROOTINO (set_d_size (xint off) din) ;;~
  used <~ get_freeblock ;;
  balloc used ;;~
  exit 0.

(** A file of the finished image. *)
Record final (s : mkfs) (fb : Z) (inum : Z) (f : afile) (size : Z) (d : dinode) : Prop := {
  fl_at : inode_at (image s) inum d;
  fl_kind : d_type d = a_type f /\ d_nlink d = 1 /\ d_size d = size;
  fl_file : file_ok (image s) fb d (a_data f) (a_blocks f) (a_ind f);
  fl_closed : closed (a_data f) (a_blocks f) (a_ind f)
}.

Lemma finish_ok F root s : fs_ok (root :: F) s -> Z.of_nat (length (a_data root)) < 65536 ->
  exists s', finish s = Exited 0 s' /\ disk_ok s' /\ image s' !! 1 = Some (put_sb zeros) /\
    image s' !! 45 = Some (set_bits (Z.to_nat (freeblock s)) 0 zeros) /\
    forall i f, (root :: F) !! i = Some f -> exists d,
      final s' (freeblock s) (1 + Z.of_nat i) f
        (if decide (i = 0%nat) then rounded (Z.of_nat (length (a_data root))) else Z.of_nat (length (a_data f))) d.
Proof.
  intros Hfs Hlr. pose proof Hfs as [D0 [_ Hmi] N0 Fl0 _ _ S0]. pose proof (dk_fb _ D0) as Hfb.
  pose proof (Fl0 0%nat root eq_refl) as Hr0. pose proof (N0 0%nat root eq_refl) as At0. change (1 + Z.of_nat 0) with 1 in At0.
  set (sz := rounded (Z.of_nat (length (a_data root)))).
  assert (0 <= sz < 2 ^ 32) as Hsz by (unfold sz, rounded; zlia).
  destruct (winode_ok s 1 (set_d_size sz (a_dino root)) D0 ltac:(lia)) as (s1 & Ew & [D1 At Ot Fr [_ Cb]]).
  { destruct (afile_typed _ _ _ Hr0 ltac:(lia) ltac:(lia)) as [? ? ? ? ? ?]. split; done. }
  set (bm := set_bits (Z.to_nat (freeblock s)) 0 zeros).
  exists (put_block 45 bm s1). split; [|split; [|split; [|split]]].
  - unfold finish. change ROOTINO with 1. rewrite (ubind_val _ _ _ _ _ (rinode_ok s 1 (a_dino root) ltac:(lia) At0)).
    rewrite (af_size _ _ _ Hr0), (xint_small (Z.of_nat _)) by lia. change BSIZE with 1024. fold (rounded (Z.of_nat (length (a_data root)))). fold sz.
    rewrite xint_small by lia. rewrite (ubind_val _ _ _ _ _ Ew). unfold get_freeblock. unfold ubind at 1. rewrite Cb.
    unfold balloc, assert. change BPB with 8192. rewrite (proj2 (Z.ltb_lt _ _)) by lia.
    change (sb_bmapstart sb) with 45. change (replicate (Z.to_nat BSIZE) 0) with zeros. fold bm.
    unfold ubind at 2, uret. by rewrite (ubind_val _ _ _ _ _ (wsect_ok s1 45 bm ltac:(lia))).
  - apply put_block_ok; [done|lia|]. unfold bm. by rewrite length_set_bits.
  - cbn [put_block image]. rewrite lookup_insert_ne, Fr by lia. done.
  - cbn [put_block image]. by rewrite lookup_insert_eq.
  - assert (forall j e, 0 <= j < 208 -> inode_at (image s1) j e -> inode_at (image (put_block 45 bm s1)) j e) as Hput.
    { intros j e Hj (blk & Hb & Hrest). exists blk. split; [|done]. cbn [put_block image]. rewrite lookup_insert_ne by zlia. done. }
    intros i f Hi. pose proof (lookup_lt_Some _ _ _ Hi) as Hli. pose proof (Fl0 i f Hi) as [K1 K2 (K3 & _ & _ & K4) _ K5].
    assert (file_ok (image (put_block 45 bm s1)) (freeblock s) (a_dino f) (a_data f) (a_blocks f) (a_ind f)) as Kf.
    { eapply file_ok_frame; [exact K1|done|]. intros b Hb. pose proof (fo_range _ _ _ _ _ _ K1) as Hr. rewrite list.Forall_forall in Hr.
      specialize (Hr b Hb). cbn [put_block image]. rewrite lookup_insert_ne by lia. apply Fr. lia. }
    destruct (decide (i = 0%nat)) as [->|Hne].
    + injection Hi as <-. exists (set_d_size sz (a_dino root)). split; [apply Hput; [lia|done]|done| |done]. destruct Kf as [? ? ? ? ? ?]. by split.
    + exists (a_dino f). split; [apply Hput; [lia|]; apply Ot; [lia|lia|by apply N0]|done|done|done].
Qed.

(** ** The finished image *)

Lemma concat_blank q : concat (uncurry dirent <$> replicate q (0, [])) = replicate (16 * q) 0.
Proof.
  induction q as [|q IH]; [done|]. rewrite replicate_S. cbn [fmap list_fmap concat]. rewrite IH.
  replace (16 * S q)%nat with (16 + 16 * q)%nat by lia. by rewrite replicate_add.
Qed.

Lemma root_padded files : let n := blocks_of (16 * (2 + length files)) in
  padded (dir_data files) n = concat (uncurry dirent <$> dir_list files ++ replicate (64 * n - (2 + length files)) (0, [])).
Proof.
  intros n. rewrite fmap_app, concat_app, concat_blank, <-dir_data_list. unfold padded. rewrite length_dir_data. do 2 f_equal.
  unfold n, blocks_of. zlia.
Qed.

Lemma length_dir_list files : length (dir_list files) = (2 + length files)%nat.
Proof. unfold dir_list. cbn [length]. by rewrite length_imap. Qed.

Lemma root_dents s fb f files host paths size d : disk_ok s -> final s fb ROOTINO f size d -> a_data f = dir_data files ->
  Forall2 (good_file host) paths files -> (length files <= 198)%nat ->
  let n := (64 * blocks_of (16 * (2 + length files)))%nat in
  dents ROOTDEV (rebooted (image s)) (as_inode d) n = dir_list files ++ replicate (n - (2 + length files)) (0, []).
Proof.
  intros Hs [_ _ Hf [Hl _]] Hd Hg Hlen n. rewrite Hd, length_dir_data in Hl.
  set (E := dir_list files ++ replicate (n - (2 + length files)) (0, [])).
  assert (2 + length files <= n)%nat as Hn by (unfold n, blocks_of; zlia).
  assert (length E = n) as HE by (unfold E; rewrite length_app, length_replicate, length_dir_list; lia).
  rewrite <-HE at 1. apply dents_list.
  - rewrite HE. intros off m Hom. rewrite (fbytes_file _ (dk_len _ Hs) _ _ _ _ _ Hf) by (rewrite Hl; unfold n in Hom; lia).
    rewrite Hd, Hl. unfold E, n. by rewrite <-root_padded.
  - apply Forall_app. split; [by eapply dir_list_ok|]. apply Forall_replicate. cbn. split; [lia|]. split; [lia|set_solver].
Qed.

Lemma file_view s fb inum f size d : disk_ok s -> final s fb inum f size d ->
  fbytes ROOTDEV (rebooted (image s)) (as_inode d) 0 (length (a_data f)) = a_data f /\
  forall k, (1024 * k < length (a_data f))%nat -> 46 <= faddr ROOTDEV (rebooted (image s)) (as_inode d) (Z.of_nat k) < fb.
Proof.
  intros Hs [_ _ Hf [Hl _]]. pose proof (fo_end _ _ _ _ _ _ Hf) as He. split.
  - change 0 with (Z.of_nat 0). rewrite (fbytes_file _ (dk_len _ Hs) _ _ _ _ _ Hf) by lia.
    unfold slice, padded. by rewrite drop_0, take_app_length.
  - intros k Hk. destruct (lookup_lt_is_Some_2 (a_blocks f) k ltac:(lia)) as [b Hb].
    rewrite (faddr_file _ (dk_len _ Hs) _ _ _ _ _ Hf k b Hb). pose proof (fo_range _ _ _ _ _ _ Hf) as Hr.
    rewrite list.Forall_forall in Hr. apply Hr, elem_of_app. left. by eapply list_elem_of_lookup_2.
Qed.

Lemma bitmap_view s fb b : 46 <= fb <= 2000 -> image s !! 45 = Some (set_bits (Z.to_nat fb) 0 zeros) -> 0 <= b < FSSIZE ->
  bit (disk_block (image s) (BBLOCK b sb)) (b mod BPB) = bool_decide (b < fb).
Proof.
  intros Hfb Hb Hr. change FSSIZE with 2000 in Hr. unfold BBLOCK. change BPB with 8192. change (sb_bmapstart sb) with 45.
  rewrite Z.div_small, u32_small, Z.mod_small by lia. unfold disk_block. change (0 + 45) with 45. rewrite Hb. cbn [default from_option id].
  rewrite bit_set_bits by (unfold zeros; rewrite ?length_replicate; lia). rewrite bit_zeros, orb_false_r. apply bool_decide_ext. lia.
Qed.

Lemma ubind_assoc {W A B X} (m : U W A) (f : A -> U W B) (g : B -> U W X) w :
  ubind (ubind m f) g w = ubind m (fun x => ubind (f x) g) w.
Proof. unfold ubind. by destruct (m w). Qed.

Lemma main_start host prog img paths : exists s, holds (contents []) s /\
  main host true (prog :: img :: paths) start = (add_files host 1 paths ;;~ finish) s.
Proof.
  destruct start_holds as (s0 & E0 & H0).
  destruct (ialloc_holds [] s0 T_DIR H0) as (s1 & E1 & H1); [simpl; lia|done|]. change (1 + Z.of_nat (length [])) with 1 in E1.
  destruct (iappend_holds [(T_DIR, [])] s1 0 T_DIR [] (dirent 1 (bytes_of ".")) H1 eq_refl) as (s2 & E2 & H2);
    [rewrite length_dirent; change (length (@nil Z)) with 0%nat; lia|by vm_compute|].
  change (1 + Z.of_nat 0) with 1 in E2. change (<[0%nat := ?x]> [(T_DIR, [])]) with [x] in H2. rewrite app_nil_l in H2.
  destruct (iappend_holds _ s2 0 T_DIR (dirent 1 (bytes_of ".")) (dirent 1 (bytes_of "..")) H2 eq_refl) as (s3 & E3 & H3);
    [rewrite !length_dirent; lia|by vm_compute|].
  change (1 + Z.of_nat 0) with 1 in E3.
  exists s3. split.
  - unfold contents, dir_data. cbn [imap concat]. by rewrite app_nil_r.
  - unfold main. cbn [length Nat.ltb Nat.leb negb]. unfold assert at 1 2. change (BSIZE mod 64 =? 0) with true. change (BSIZE mod 16 =? 0) with true.
    do 2 (unfold ubind at 1, uret at 1). rewrite <-ubind_assoc. rewrite <-ubind_assoc.
    rewrite <-ubind_assoc in E0. rewrite (ubind_val _ _ _ _ _ E0), (ubind_val _ _ _ _ _ E1).
    change (1 =? ROOTINO) with true. unfold assert, uret. unfold ubind at 1.
    by rewrite (ubind_val _ _ _ _ _ E2), (ubind_val _ _ _ _ _ E3).
Qed.

(** ** Theorems *)

(** The image with the given files, as the kernel booted with it finds it. *)
Record built (files : list entry) (s : mkfs) : Prop := {
  bt_super : parse_sb (disk_block (image s) 1) = sb;
  bt_root : exists d, inode_at (image s) ROOTINO d /\ d_type d = T_DIR /\ d_nlink d = 1 /\
    d_size d = rounded (Z.of_nat (16 * (2 + length files))) /\
    let n := (64 * blocks_of (16 * (2 + length files)))%nat in
    dents ROOTDEV (rebooted (image s)) (as_inode d) n = dir_list files ++ replicate (n - (2 + length files)) (0, []);
  bt_files : forall i name data, files !! i = Some (name, data) -> exists d,
    inode_at (image s) (2 + Z.of_nat i) d /\ d_type d = T_FILE /\ d_nlink d = 1 /\ d_size d = Z.of_nat (length data) /\
    fbytes ROOTDEV (rebooted (image s)) (as_inode d) 0 (length data) = data /\
    forall k, (1024 * k < length data)%nat ->
      nmeta <= faddr ROOTDEV (rebooted (image s)) (as_inode d) (Z.of_nat k) < total (contents files);
  bt_bitmap : forall b, 0 <= b < FSSIZE ->
    bit (disk_block (image s) (BBLOCK b sb)) (b mod BPB) = bool_decide (b < total (contents files))
}.

(** [C2] mkfs builds the file system the kernel expects.  For at most 198 host files
    of at most [MAXFILE] blocks with names of at most 14 characters that together
    fit the image, read in pieces of any size, [main] exits with status 0, and in its image the kernel finds the
    super block of the layout; a root directory with [.], [..] and the files' names with
    their inode numbers, followed by empty entries to the end of its last block; each file
    with its type, link count, size and bytes, through direct and indirect blocks that
    are marked in use; and a bitmap in which exactly the blocks in use are marked.  The
    root's size is the next multiple of the block size above its entries. *)
Theorem mkfs_builds host prog img paths files :
  Forall2 (good_file host) paths files -> (length files <= 198)%nat -> total (contents files) <= FSSIZE ->
  exists s, main host true (prog :: img :: paths) start = Exited 0 s /\ built files s.
Proof.
  intros Hg Hlen Hroom. change FSSIZE with 2000 in Hroom. destruct (main_start host prog img paths) as (s0 & H0 & ->).
  destruct (add_files_holds host paths files Hg [] s0 H0 Hlen Hroom) as (s1 & E1 & F & HF & HC). rewrite (ubind_val _ _ _ _ _ E1).
  pose proof (fs_total F s1 HF) as Hfb. cbn [app] in HC. rewrite HC in Hfb. pose proof (dk_fb _ (fs_disk _ _ HF)) as Hr.
  unfold contents in HC. destruct F as [|root F]; [done|]. cbn [fmap list_fmap] in HC. injection HC as Ht Hd HC.
  destruct (finish_ok F root s1 HF) as (s' & E & D & Hsb & Hbm & Hfin); [rewrite Hd, length_dir_data; lia|].
  exists s'. split; [done|]. rewrite Hfb in *. split.
  - unfold disk_block. rewrite Hsb. vm_compute. reflexivity.
  - destruct (Hfin 0%nat root eq_refl) as [d Hf]. rewrite decide_True in Hf by done. exists d. change (1 + Z.of_nat 0) with ROOTINO in Hf.
    pose proof Hf as [Hat (K1 & K2 & K3) _ _]. rewrite Hd, length_dir_data in K3. split_and!; [done|congruence|done|done|].
    by eapply root_dents.
  - intros i name data Hi. assert (exists f, F !! i = Some f /\ content f = (T_FILE, data)) as (f & Hf & Hcf).
    { pose proof (f_equal (lookup i) HC) as Hl. rewrite !list_lookup_fmap, Hi in Hl. destruct (F !! i) as [f|]; [|done]. exists f. split; [done|]. injection Hl as E1' E2'. unfold content. by rewrite E1', E2'. }
    injection Hcf as Hty Hda. destruct (Hfin (S i) f Hf) as [d Hfd]. rewrite decide_False in Hfd by done.
    replace (1 + Z.of_nat (S i)) with (2 + Z.of_nat i) in Hfd by lia. exists d. pose proof Hfd as [Hat (K1 & K2 & K3) _ _].
    destruct (file_view _ _ _ _ _ _ D Hfd) as [V1 V2]. rewrite Hda in *. split_and!; [done|congruence|done|done|done|exact V2].
  - intros b Hb. apply bitmap_view; [lia|done|done].
Qed.

(** One file, [user/_a], read in two pieces. *)
Definition host1 (path : list Z) : option (list (list Z)) := Some [[104; 105]; [10]].

Lemma mkfs_builds_witness : exists s,
  main host1 true [bytes_of "mkfs"; bytes_of "fs.img"; bytes_of "user/_a"] start = Exited 0 s /\
  built [(bytes_of "a", [104; 105; 10])] s.
Proof.
  apply (mkfs_builds host1 (bytes_of "mkfs") (bytes_of "fs.img") [bytes_of "user/_a"] [(bytes_of "a", [104; 105; 10])]).
  - constructor; [|constructor]. split.
    + apply (bool_decide_unpack _). vm_compute. exact I.
    + split; [reflexivity|]. split; [vm_compute; lia|]. apply (bool_decide_unpack _). vm_compute. exact I.
    + exists [[104; 105]; [10]]. split; [reflexivity|]. split; [repeat constructor; discriminate|reflexivity].
    + change (length (bytes_of "a", [104; 105; 10]).2) with 3%nat. lia.
  - simpl. lia.
  - vm_compute. discriminate.
Defined.
End MkfsImage.
